(* ===== verification/_CoqProject ===== *)
-Q . S2P
Prelude.v
Spr.v
Host.v
Cpu.v
Arith.v
Decode.v
Exceptions.v
Mmu.v
Instr.v
Memory.v
Exec.v
Isa.v
Handlers.v
Refine.v
Recover.v
TlbHandlers.v
SimMain.v
Utils.v
Demo.v
Properties.v
StateM.v
Tap.v
Cable.v
Parallel.v
Blaster.v
BlasterFacts.v
BlasterProps.v
XpcUsb.v
Vpi.v
VpiProps.v
Chain.v
Ft2232.v
Ft2232Facts.v
Ft2232Props.v
Enumerate.v
AdvDbg.v
Crc.v
AdvFacts.v
Burst.v
BurstRead.v
BurstWrite.v
DbgApi.v
BridgeInv.v
BridgeProps.v
Scanf.v
RspData.v
RspCodec.v
DebugUnit.v
SelfTest.v
SelfTestBoard.v
HwMonitor.v
Rsp.v
RspFacts.v
RspPacket.v
RspCmds.v
RspServer.v
RspCmdFacts.v
MonitorFacts.v
MonitorConn.v
RspRequests.v
RspRun.v
RspErrors.v
RspBounds.v
RspProps.v
JspServer.v
JspRing.v
JspProps.v
CString.v
BsdlParse.v
BsdlLines.v
BsdlRefine.v
BsdlStatements.v
BsdlDevice.v
Bsdl.v
BsdlSearch.v
BsdlProps.v
AdvJtagBridge.v
ConfigureProps.v
HwpServer.v
HwpProps.v
