(* ===== verification/Prelude.v ===== *)
(** Verification of wirepatch: the recovery software, and the JTAG bridge of its
    debug unit.

    wirepatch adds assertions to an OR1200 processor.  When one of them is
    violated the hardware squashes the instruction and traps to a handler,
    iieHandler.S, which copies the registers into the global [cpu] and calls
    [runSim].  [runSim] simulates the instructions around the squashed one on a
    software model of the processor, so that they take effect without the bug
    of the hardware, and the handler returns to the state that [cpu] then holds.
    The software is C, under src/system/software: sim_module is the simulator and
    the handler, utils are converters of program images.  The processor is reached
    from a host over JTAG: adv_jtag_bridge, under
    src/system/hardware/cores/adv_debug_sys/Software, serves GDB on a socket and
    turns what it asks into scans of the debug unit.

    * The recovery software and its files

    - spr_defs.h: Spr.v.  Numbers of the special registers, bits of SR.
    - The hardware below the software: Host.v.  [l.mfspr], [l.mtspr], word
      accesses through a pointer, and byte accesses of the byte bus are the class
      [Host]; [HostLaws] is what a memory and a register file promise.  [RamHost]
      is an instance.  The class is the parameter of everything above it.
    - cpu.h, cpu.c: Cpu.v.  [struct CPU] is the record [CPU], its macros and
      functions definitions of the same name; [sim] is the processor and the host.
    - simulator.c, simulator.h, in the order of the file:
      Arith.v (bit fields, the bit-serial adder, multipliers, divider),
      Decode.v (opcodes, [struct control], [decode]),
      Exceptions.v (the exception handlers, [sys], [trap], [rfe]),
      Instr.v (one function for each register-to-register instruction),
      Memory.v (loads and stores),
      Exec.v (dispatch: [alu], [sf], [execute], [fetch], [cpu_exec_inst]).
    - mmu_support.h, mmu_support.c: Mmu.v.  TLB walk and guest memory.
    - runSim.c, counters.h: Recover.v.
    - loopMMU.c: TlbHandlers.v, the TLB miss handlers of that test program.
    - sim_main.c: SimMain.v, the simulator as a program: RAM and image loader.
    - utils: Utils.v, a Module for each converter.

    [cpu_exec_inst] calls [fetch] (Mmu.v), [decode] and [execute]; a handler of
    an instruction changes the processor, or through Mmu.v the host; an
    exception changes NPC, and [cpu_advance_pc] ends every instruction.  A
    function that changes [*cpu] returns the new record; one that also reaches
    memory maps [sim] to [sim].

    * The bridge and its files, from the wires up

    - Tap.v is the hardware: the state machine of a TAP controller, scans, and the
      device as the scans it gets and the bits it answers.  Specification.
    - cable_common.c, cable_parallel.c: Cable.v, [jtag_cable_t] with its drivers for
      the parallel port.  [CableLaws] is what a driver promises: the bits it is given
      are the edges the TAP sees.  Parallel.v proves it of both drivers.
    - cable_usbblaster.c, cable_ft245.c: Blaster.v, what the two share in one Section, over
      libusb and libftdi, which are classes.  BlasterFacts.v is the cable as the comments
      describe it, and its transfers; BlasterProps.v the promise for streams
      ([StreamLaws]).  cable_xpc_dlc9.c: XpcUsb.v, with its cable and its promises.
    - cable_ft2232.c: Ft2232.v, the buffers of its connection, its commands and the driver;
      Ft2232Facts.v, the chip as the driver relies on it, and the buffers as a pipe of
      commands and bytes; Ft2232Props.v.
    - cable_sim.c and sim_lib/src/jp-io-vpi.c: Vpi.v, the driver and the plugin of a Verilog
      simulator, which talk over a socket.  VpiProps.v has the simulator around the plugin
      and proves that all of it is a cable.
    - chain_commands.c: Chain.v; the global variables are [globals], the configuration
      [config], a program state [bridge].  Enumerate.v: the scan of the chain.
    - adv_dbg_commands.c: AdvDbg.v; Crc.v, AdvFacts.v, Burst.v, BurstRead.v and
      BurstWrite.v prove what it sends and returns.
    - adv_jtag_bridge.c: AdvJtagBridge.v, the configuration of all this for the devices
      that are found; its state [program] holds that of the bridge and of bsdl.c.
      ConfigureProps.v proves what is set and what the devices get.
    - dbg_api.c: DbgApi.v, with the mutex; BridgeInv.v.
    - DebugUnit.v is dbg_api.h as the servers see it: the class [DebugUnit], with
      DbgApi.v as an instance; [DebugLaws] is a target that answers, [board] one.
    - or32_selftest.c: SelfTest.v; SelfTestBoard.v, boards it is run on, one of them with the
      simulator of the recovery software as its processor.
    - hardware_monitor.c: HwMonitor.v.  The connections to the servers, their pipes,
      the mutex, and the pass of the thread; MonitorFacts.v, MonitorConn.v.
    - rsp-server.c: RspData.v (registers, hexadecimal text, escapes, the table of
      matchpoints), Scanf.v (the strings of C and [sscanf], as the server uses them),
      Rsp.v (characters and packets), RspCmds.v (a definition for each request),
      RspServer.v (connections, [handle_rsp]).  RspCodec.v, RspFacts.v, RspPacket.v,
      RspCmdFacts.v, RspRequests.v, RspRun.v, RspErrors.v
      and RspBounds.v prove what they do.
    - hwp_server.c: HwpServer.v; the two functions by which the GDB server takes and
      gives back watchpoints are in RspCmds.v.  HwpProps.v proves that its packets are
      those of the GDB server, one by one, so that what is proved of these holds of it.
    - jsp_server.c: JspServer.v; JspRing.v, its rings as queues.
    - bsdl_parse.c: BsdlParse.v, on the array that holds the file; CString.v is what it
      uses of string.h, strings in an array that are cut up in place.  BsdlLines.v has
      the same parser on lists of lines; with BsdlRefine.v and BsdlStatements.v it proves
      that the two agree and that they end; BsdlDevice.v what they
      read from the file of a device.
    - bsdl.c: Bsdl.v, the directories and what is kept of their files; BsdlSearch.v.

    A request of GDB is a packet ([get_packet]); its function calls the API, which
    locks, selects a module and does a burst; a burst is scans of the chain, and these
    are bits on the cable.  What starts and stops the processor goes over a pipe to
    the monitor thread, which tells every server.  The theorems of a layer are proved
    against the class of the layer below: [CableLaws] up to the API, [DebugLaws] for
    the servers.

    * Errors

    [outcome] (Prelude.v) is how a C function ends: [Ok], [AssertFail] (a failed
    [assert], or [exit]), [Hang] ([while(1)], a lock that is not free, input that does
    not come, or no fuel) and [Undef] (behaviour C does not define: shifts by 32 or
    more, signed overflow, a read of a variable that was not written, an access out of
    the bounds of a buffer).  Two shifts are given the meaning that compilers give them:
    that of a hexadecimal digit into the sign bit of an int, or of the -1 that stands for no
    digit, where registers are read from text ([hex2reg]), and the mask -1 << 13 of a page
    ([page_mask]).  Variables that may be unwritten are [option Z].  Machine
    integers are [Z] in range, wrapped where C wraps.  Stateful functions of the bridge
    are in the monad [M] (StateM.v), with [wp] for total correctness.  Where the code
    uses a value that was not written and goes on, the value is [unspecified].

    * The build and the system

    The parameter [STANDALONE] (class [Build], Cpu.v) is the preprocessor symbol,
    so that the theorems hold for the recovery build and the hosted one.
    MMU_SUPPORT is on, SIMULATOR_TEST and PRINT_INST are off.  The bridge is built
    with ADBG_OPT_HISPEED, OPTIMIZE_JSP_FOR_USB and DBG_HW_ADVANCED.  [Target] (Cable.v)
    is the compiler of the host: the size of a long and what a shift by too much does;
    [Alloc] is malloc, [Files] (Bsdl.v) the file system.  Sockets are scripts of the results of read, write, poll and
    accept (Rsp.v, JspServer.v); pipes are queues (HwMonitor.v).  The monitor thread takes its passes
    between the calls of the server, not inside of them.

    * Specifications

    - Isa.v: the instruction set as an abstract syntax [instr] with [encode],
      [isa_decode] and [effect], in mathematical integers.  Handlers.v and
      Refine.v show that the C functions implement it; the refinement is stated
      for one instruction (C1) and follows every branch of [execute], [alu],
      [sf], [sfi], [mac_msb], [ro_shift_i] and [sys_trap_sync].
      [instr_defined] excludes the operands for which the C code is undefined or
      differs from the manual, and accesses that do not reach the RAM; C1 lists them.
    - Memory.v: [load_value] and [stored] describe memory as bytes, big endian.
    - Mmu.v: [translate] is the TLB without sentinel values.
    - Exceptions.v: [entered] is what entering an exception does to the state.
    - Recover.v: [resume_pc], [jump_target], and [run] (Exec.v) for the
      instructions simulated.
    - Utils.v: [by_blocks], [unhex], [srec_record], [vmem_line] for the output.
    - BlasterFacts.v, XpcUsb.v: the cables on USB as their comments describe them, [blaster]
      and [dlc9_write].
    - Ft2232Facts.v: [Mpsse], a chip that carries out [mpsse_cmd]; [pipe], what has been
      asked of it and has not come back; [merged], a buffer that bits are read into.
    - VpiProps.v: [bench], the processes of dbg_comm_vpi.v, with any schedule that forgets
      none; [lawful_on], the promises of a cable from the states of an invariant.
    - SelfTestBoard.v: [soc], a processor behind a debug unit that steps and stops at traps.
    - Tap.v: the controller and its scans; Enumerate.v: the devices of a chain, their
      codes and the instructions they hold ([IdChain], [InstrChain]).
    - DebugUnit.v: [store_spr], what a special register holds after a write: what is written,
      but for the read-only bit of DCR and the indicators of DMR2.
    - RspPacket.v: [incoming], a grammar of what a client may send.
    - RspRequests.v: a session, and what a request leaves of the target.
    - RspProps.v: [mp_spec1], matchpoints as a finite map.
    - HwpProps.v: [owner_step], who has each watchpoint, of which the table of the code
      keeps one bit.
    - JspRing.v: [queued], the bytes of a ring, and [SerialLaws], a serial port
      that loses nothing.
    - BsdlLines.v: [line_ok], [print_lines] and [ref_parse]; BsdlDevice.v: [device_text]
      and [device_info]; BsdlSearch.v: [devices_in] and [reply_of].

    * Theorems

    Of the simulator and the handler, in Properties.v:
    - C1: the simulator executes the instruction that is encoded.
    - C2: well-formedness is an invariant of any run.
    - C3 to C5: loads and stores of every width, aligned or not, mapped or not, with what
      becomes of the first word and of addresses above the RAM.
    - C6, C7: exceptions, translation.
    - C8, C9: recovery: where it resumes, what it executes, when it ends.
    - C10: the bit-serial adder; C11: operands for which C is undefined.
    - Without a number: encoded words are executed as their instruction, well-formedness
      after recovery, special registers, the divider, the image bin2hex
      prints, the PC and delay slots, system calls, instruction misses, the miss handlers, the
      repair of EPCR and EEAR, the multipliers, privilege, the byte bus, the loader,
      the other converters.

    Of the cables, in BlasterProps.v, Ft2232Props.v and VpiProps.v:
    - C12: both drivers of the USB-Blaster shift streams as any cable does, up to the
      length of one transfer.
    - C13: the FT2232 gives the device exactly its pulses and reads exactly its bits, which
      are all that is changed of a buffer.
    - C14: driver, plugin and simulator together are a lawful cable, however they interleave.
    - Without a number: the driver of the Platform Cable is lawful (XpcUsb.v); what a
      buffer that is not cleared does to the CRC match bit, and a flush that never returns
      ([stale_bit], [write_error_hangs]); a long read of the Blaster does not end, a stream of whole words is read past
      its end; bytes that are misplaced, errors that are lost, a cable that is silent.

    Of the bridge, in BridgeProps.v:
    - C15: the devices of the chain are found.
    - C16, C17: the CRC, and the scans of commands.
    - C18 to C20: blocks that are read and written.
    - C21: the mutex is free between calls.
    - Without a number: the two parallel cables are lawful; reset, instruction register,
      identification codes, control registers, retries, the ranges of the global variables,
      and a loop that goes wrong where a long has eight bytes.

    Of the self test, in SelfTestBoard.v:
    - C22: it passes on a board whose processor is the simulator of the recovery software.
    - Without a number: what it leaves in the memory, and a board that it wrongly passes.

    Of the GDB server and the monitor, in RspProps.v:
    - C23 to C25: packets, their bounds and what get_packet may do when the text is bad, and
      the round trip of their text.
    - C26: a running target is left alone; C29 to C31: it is started, the report when it
      stops, and a break.
    - C27: memory reads back what was written.
    - C28, C33: breakpoints are transparent, the table of matchpoints is a map.
    - C32: the connections of the monitor are in order in every state it reaches.
    - Without a number: registers read back what was written; checksums that are wrong and
      taken ([wrong_checksum_taken]), what a watchpoint that is set twice, the request G and
      the request D do wrong.

    Of the serial port server, in JspProps.v:
    - C34: the bytes of the client and of the hardware arrive in order, once.
    - Without a number: what is lost when the client takes nothing.

    Of BSDL files, in BsdlProps.v:
    - C35: the parser agrees with its reference.
    - C36: the file of a device is read as that device; C37: a search that parses as few
      files as it can answers as if it had parsed all.
    - Without a number: the fuel of the parser is enough ([bsdl_parse_ends]); a tab that
      ends a line, a file that ends too early, and a use clause that takes the next
      statement with it.

    Of the setting up of the chain, in ConfigureProps.v:
    - C38: the target gets the instruction that selects its debug unit, the other devices
      are bypassed.

    Of the watchpoint server, in HwpProps.v:
    - C39: a register its client writes is written, and reads back.
    - C40: the table of watchpoints says who may take which.
    - Without a number: the report of a stop, and a watchpoint that is granted twice, or
      that is not there.

    Each theorem with hypotheses has an instance [<name>_witness] on a concrete
    machine, cable or board.

    * Loops and fuel

    Bounded C loops are [for_upto] and [for_return], or [mfor_upto] in the monad.
    [exec_loop] (the do-while of [runSim]) and the loops of bin2srec and bin2flimg take
    fuel: C9 gives fuel for which [runSim] returns and shows that more does not
    matter; bin2srec and bin2flimg need one unit for each record and two more, and a
    width that is not positive never ends.  A sequence of jumps in delay slots can keep
    [runSim] busy for ever, so that C9 asks for an instruction that is no jump.
    The retries of a burst end after eleven passes, the wait for its status after 101
    reads; the enumeration of the chain after MAX_DEVICES devices and one.  The loops
    that read characters have fuel for every result of read that is left, and one more:
    each pass uses up at least one.  The loop that claims the interface of a USB cable ends
    when the library lets it, so that its fuel is a parameter; that of a transfer ends after
    fifteen reads in vain for each of its bytes ([transfer_fuel]).  The driver of the FT2232
    waits until something comes: C13 has one more read than the chip lets be in vain.  The parser of BSDL files has fuel for every character
    of the file, the search for every file and directory: [bsdl_parse_ends] and C37 say that
    it is enough.

    * Not modelled

    The assembly that enters and leaves the handler, the Verilog, the generator
    of assertions in Java, the test programs that provoke violations (inline
    assembly that pokes special registers).  Of cpu.h the accessors nobody calls, of the
    simulator the printing of instructions, the annotations for VCC (two of
    them are theorems here: C10, [calc_divu_correct]), and the branch of fread on read
    errors.  Interrupts and the tick timer are not simulated by the code.
    Of the bridge: cable_usbblaster_ftdi.c, which is not built, the driver rtl_sim, which
    talks over files, the legacy debug unit, the help and the options of the cables, and how its
    threads interleave within a function.  The serial port server is compiled in
    (ENABLE_JSP), so that the option -j is there. *)

From Stdlib Require Export ZArith Lia Bool.
From stdpp Require Export base tactics option list numbers.

#[export] Set Default Goal Selector "1".

Declare Scope cword_scope.
Delimit Scope cword_scope with cword.
Open Scope Z_scope.

(** * Machine words

    A C unsigned integer of width [w] is its value in [0, 2^w); a signed one
    is its value in [-2^(w-1), 2^(w-1)).  [u32], [i32], [u64], [i64] are the
    conversions of C (the casts to [u32], [i32], [u64], [i64] in cpu.h),
    reduction modulo [2^w]; gcc defines the conversion to a signed type to be
    that reduction. *)

Definition wrap (w z : Z) : Z := z mod 2 ^ w.
Definition swrap (w z : Z) : Z :=
  if wrap w z <? 2 ^ (w - 1) then wrap w z else wrap w z - 2 ^ w.

Abbreviation u8 := (wrap 8).
Abbreviation u32 := (wrap 32).
Abbreviation u64 := (wrap 64).
Abbreviation i32 := (swrap 32).
Abbreviation i64 := (swrap 64).

Definition is_word (w z : Z) : Prop := 0 <= z < 2 ^ w.
Definition is_sword (w z : Z) : Prop := - 2 ^ (w - 1) <= z < 2 ^ (w - 1).

Abbreviation is_u8 := (is_word 8).
Abbreviation is_u32 := (is_word 32).
Abbreviation is_u64 := (is_word 64).
Abbreviation is_i32 := (is_sword 32).
Abbreviation is_i64 := (is_sword 64).

(** Unsigned 32-bit operators of C; [&], [|], [^] and [>>] need no wrapping. *)
Definition add32 (a b : Z) : Z := u32 (a + b).
Definition sub32 (a b : Z) : Z := u32 (a - b).
Definition not32 (a : Z) : Z := u32 (Z.lnot a).
Definition shl32 (a n : Z) : Z := u32 (Z.shiftl a n).

Infix "+!" := add32 (at level 50, left associativity) : cword_scope.
Infix "-!" := sub32 (at level 50, left associativity) : cword_scope.
Infix ".&" := Z.land (at level 45, left associativity) : cword_scope.
Infix ".|" := Z.lor (at level 50, left associativity) : cword_scope.
Infix ".^" := Z.lxor (at level 47, left associativity) : cword_scope.
Infix "<<" := shl32 (at level 42, left associativity) : cword_scope.
Infix ">>" := Z.shiftr (at level 42, left associativity) : cword_scope.

(** A C value used as a condition, and a condition used as a value. *)
Definition truth (z : Z) : bool := negb (z =? 0).
Abbreviation b2z := Z.b2z.

(** * Control structures *)

(** [switch (x) { case k: a; break; ... default: d; }] *)
Fixpoint switch {A} (x : Z) (cases : list (Z * A)) (d : A) : A :=
  match cases with
  | [] => d
  | (k, a) :: cs => if x =? k then a else switch x cs d
  end.

(** [for (i = lo; i < lo + n; i++) body] *)
Fixpoint for_from {S} (n : nat) (lo : Z) (body : Z -> S -> S) (s : S) : S :=
  match n with
  | O => s
  | S n' => for_from n' (lo + 1) body (body lo s)
  end.

Definition for_upto {S} (hi : Z) (body : Z -> S -> S) (s : S) : S :=
  for_from (Z.to_nat hi) 0 body s.

(** [for (i = 0; i < hi; i++) if (stop(i)) break;] and the value [i] has
    after the loop. *)
Fixpoint find_from (n : nat) (lo : Z) (stop : Z -> bool) : Z :=
  match n with
  | O => lo
  | S n' => if stop lo then lo else find_from n' (lo + 1) stop
  end.

Definition find_upto (hi : Z) (stop : Z -> bool) : Z :=
  find_from (Z.to_nat hi) 0 stop.

(** [for (i = lo; i < lo + n; i++) { ... return a; ... }]: the loop's body
    returns a value from the function ([Some]) or goes on. *)
Fixpoint for_return_from {A} (n : nat) (lo : Z) (body : Z -> option A) : option A :=
  match n with
  | O => None
  | S n' =>
      match body lo with
      | Some a => Some a
      | None => for_return_from n' (lo + 1) body
      end
  end.

Definition for_return {A} (hi : Z) (body : Z -> option A) : option A :=
  for_return_from (Z.to_nat hi) 0 body.

(** * Outcomes

    What a call of a C function may come to: it returns ([Ok]), it enters the
    endless loop the program uses for an unimplemented instruction ([Hang]),
    an [assert] fails ([AssertFail]), or it does what C leaves undefined
    ([Undef]: a shift by the width or more, a signed overflow, the use of a
    variable that was never written). *)
Inductive outcome (A : Type) : Type :=
| Ok (a : A)
| Hang
| AssertFail
| Undef.
Arguments Ok {A} a.
Arguments Hang {A}.
Arguments AssertFail {A}.
Arguments Undef {A}.

#[export] Instance outcome_eq_dec `{EqDecision A} : EqDecision (outcome A).
Proof. solve_decision. Defined.

#[export] Instance outcome_ret : MRet outcome := fun A a => Ok a.
#[export] Instance outcome_bind : MBind outcome := fun A B f m =>
  match m with
  | Ok a => f a
  | Hang => Hang
  | AssertFail => AssertFail
  | Undef => Undef
  end.
#[export] Instance outcome_fmap : FMap outcome := fun A B f m =>
  match m with
  | Ok a => Ok (f a)
  | Hang => Hang
  | AssertFail => AssertFail
  | Undef => Undef
  end.

(** What a variable holds that was never written and that is used all the same, where the
    program goes on: some number. *)
Class Unspecified := unspecified : Z.

(** Reading a local variable: [None] is one that was never written. *)
Definition read_var {A} (v : option A) : outcome A :=
  match v with Some a => Ok a | None => Undef end.

(** [a >> n] and [a << n] on 32-bit operands, undefined from [n >= 32] on. *)
Definition shr_c (a n : Z) : outcome Z :=
  if (0 <=? n) && (n <? 32) then Ok (Z.shiftr a n) else Undef.
Definition shl_c (a n : Z) : outcome Z :=
  if (0 <=? n) && (n <? 32) then Ok (shl32 a n) else Undef.

(** The result of a signed operation, undefined when it overflows. *)
Definition in_sword (w z : Z) : bool :=
  (- 2 ^ (w - 1) <=? z) && (z <? 2 ^ (w - 1)).
Definition signed_c (w z : Z) : outcome Z :=
  if in_sword w z then Ok z else Undef.

(** [a << n] on an [int], undefined for a negative [a] and when it overflows. *)
Definition shl_int (a n : Z) : outcome Z :=
  if (0 <=? a) && (0 <=? n) && (n <? 32) then signed_c 32 (Z.shiftl a n) else Undef.

(** Partial correctness: every value returned satisfies [P]. *)
Definition returns {A} (P : A -> Prop) (m : outcome A) : Prop :=
  match m with Ok a => P a | _ => True end.

(** The call returns. *)
Definition defined {A} (m : outcome A) : Prop := exists a, m = Ok a.

Definition computes {A} (P : A -> Prop) (m : outcome A) : Prop :=
  exists a, m = Ok a /\ P a.

(** * Words: ranges and conversions *)

Create HintDb word discriminated.
#[export] Hint Constants Opaque : word.

Lemma wrap_range w z : 0 <= w -> is_word w (wrap w z).
Proof. intros. unfold is_word, wrap. apply Z.mod_pos_bound. lia. Qed.

Lemma wrap_small w z : is_word w z -> wrap w z = z.
Proof. apply Z.mod_small. Qed.

Lemma wrap_wrap w z : wrap w (wrap w z) = wrap w z.
Proof. apply Z.mod_mod_divide, Z.divide_refl || (unfold wrap; apply Zmod_mod). Qed.

Lemma wrap_add_l w a b : wrap w (wrap w a + b) = wrap w (a + b).
Proof. unfold wrap. apply Zplus_mod_idemp_l. Qed.

Lemma wrap_add_r w a b : wrap w (a + wrap w b) = wrap w (a + b).
Proof. unfold wrap. apply Zplus_mod_idemp_r. Qed.

Lemma wrap_sub_l w a b : wrap w (wrap w a - b) = wrap w (a - b).
Proof. unfold wrap. apply Zminus_mod_idemp_l. Qed.

Lemma wrap_sub_r w a b : wrap w (a - wrap w b) = wrap w (a - b).
Proof. unfold wrap. apply Zminus_mod_idemp_r. Qed.

Lemma wrap_mul_l w a b : wrap w (wrap w a * b) = wrap w (a * b).
Proof. unfold wrap. apply Zmult_mod_idemp_l. Qed.

Lemma wrap_mul_r w a b : wrap w (a * wrap w b) = wrap w (a * b).
Proof. unfold wrap. apply Zmult_mod_idemp_r. Qed.

(** A word and the signed value it represents differ by a multiple of the
    modulus, and the signed value is in range. *)
Lemma swrap_range w z : 0 < w -> is_sword w (swrap w z).
Proof.
  intros. unfold is_sword, swrap.
  pose proof (wrap_range w z ltac:(lia)) as Hr. unfold is_word in Hr.
  assert (2 ^ w = 2 * 2 ^ (w - 1)) by (rewrite <- Z.pow_succ_r by lia; f_equal; lia).
  destruct (Z.ltb_spec (wrap w z) (2 ^ (w - 1))); lia.
Qed.

Lemma wrap_swrap w z : wrap w (swrap w z) = wrap w z.
Proof.
  unfold swrap. destruct (_ <? _); [apply wrap_wrap|].
  rewrite wrap_sub_l. unfold wrap. rewrite <- (Z_mod_plus_full (z - 2 ^ w) 1).
  f_equal. lia.
Qed.

Lemma swrap_wrap w z : swrap w (wrap w z) = swrap w z.
Proof. unfold swrap. by rewrite !wrap_wrap. Qed.

Lemma swrap_small w z : 0 < w -> is_sword w z -> swrap w z = z.
Proof.
  intros Hw [Hl Hh]. unfold swrap.
  assert (2 ^ w = 2 * 2 ^ (w - 1)) by (rewrite <- Z.pow_succ_r by lia; f_equal; lia).
  destruct (Z.lt_ge_cases z 0).
  - assert (wrap w z = z + 2 ^ w) as ->.
    { unfold wrap. rewrite <- (Z_mod_plus_full z 1), Z.mul_1_l.
      apply Z.mod_small. lia. }
    destruct (Z.ltb_spec (z + 2 ^ w) (2 ^ (w - 1))); lia.
  - rewrite wrap_small by (unfold is_word; lia).
    destruct (Z.ltb_spec z (2 ^ (w - 1))); lia.
Qed.

(** The bits of a word. *)
Lemma testbit_wrap w z i :
  0 <= w -> 0 <= i -> Z.testbit (wrap w z) i = (i <? w) && Z.testbit z i.
Proof.
  intros. unfold wrap. destruct (Z.ltb_spec i w); simpl.
  - by apply Z.mod_pow2_bits_low.
  - apply Z.mod_pow2_bits_high. lia.
Qed.

Lemma testbit_word w z i : is_word w z -> 0 <= w <= i -> Z.testbit z i = false.
Proof.
  intros Hz Hi. rewrite <- (wrap_small w z Hz), testbit_wrap by lia.
  by destruct (Z.ltb_spec i w); [lia|].
Qed.

Lemma is_word_bits w z :
  0 <= w -> 0 <= z -> (forall i, w <= i -> Z.testbit z i = false) -> is_word w z.
Proof.
  intros Hw Hz Hb. replace z with (wrap w z); [by apply wrap_range|].
  apply Z.bits_inj'. intros i Hi. rewrite testbit_wrap by lia.
  destruct (Z.ltb_spec i w); simpl; [done|]. symmetry. by apply Hb.
Qed.

Lemma is_word_land_l w a b : 0 <= w -> is_word w a -> is_word w (Z.land a b).
Proof.
  intros Hw Ha. apply is_word_bits; [done| |].
  - apply Z.land_nonneg. left. apply Ha.
  - intros i Hi. by rewrite Z.land_spec, (testbit_word w a) by done.
Qed.

Lemma is_word_land_r w a b : 0 <= w -> is_word w b -> is_word w (Z.land a b).
Proof. intros. rewrite Z.land_comm. by apply is_word_land_l. Qed.

Lemma is_word_lor w a b :
  0 <= w -> is_word w a -> is_word w b -> is_word w (Z.lor a b).
Proof.
  intros Hw Ha Hb. apply is_word_bits; [done| |].
  - apply Z.lor_nonneg. split; [apply Ha|apply Hb].
  - intros i Hi.
    by rewrite Z.lor_spec, (testbit_word w a), (testbit_word w b) by done.
Qed.

Lemma is_word_lxor w a b :
  0 <= w -> is_word w a -> is_word w b -> is_word w (Z.lxor a b).
Proof.
  intros Hw Ha Hb. apply is_word_bits; [done| |].
  - apply Z.lxor_nonneg. split; intros; [apply Hb|apply Ha].
  - intros i Hi.
    by rewrite Z.lxor_spec, (testbit_word w a), (testbit_word w b) by done.
Qed.

Lemma is_word_shiftr w a n :
  0 <= w -> 0 <= n -> is_word w a -> is_word w (Z.shiftr a n).
Proof.
  intros Hw Hn Ha. apply is_word_bits; [done| |].
  - apply Z.shiftr_nonneg, Ha.
  - intros i Hi. rewrite Z.shiftr_spec by lia. apply (testbit_word w); [done|lia].
Qed.

Lemma is_word_b2z w b : 0 < w -> is_word w (b2z b).
Proof.
  intros Hw. pose proof (Z.pow_gt_1 2 w ltac:(lia)) as H.
  unfold is_word. destruct b; simpl; lia.
Qed.

Lemma is_word_weaken v w z : v <= w -> is_word v z -> is_word w z.
Proof.
  intros Hle [Hl Hh]. split; [done|].
  apply Z.lt_le_trans with (2 ^ v); [done|]. apply Z.pow_le_mono_r; lia.
Qed.

Lemma testbit_b2z b i : 0 <= i -> Z.testbit (b2z b) i = (i =? 0) && b.
Proof.
  intros. destruct (Z.eqb_spec i 0) as [->|].
  - by destruct b.
  - destruct b; [|by rewrite Z.bits_0].
    change (b2z true) with (2 ^ 0). by rewrite Z.pow2_bits_false.
Qed.

(** [2 ^ n - 1], the mask of the [n] low bits. *)
Lemma testbit_mask n i : 0 <= n -> 0 <= i -> Z.testbit (2 ^ n - 1) i = (i <? n).
Proof.
  intros. rewrite Z.sub_1_r, <- Z.ones_equiv. apply Z.testbit_ones_nonneg; lia.
Qed.

Lemma land_mask z n : 0 <= n -> Z.land z (2 ^ n - 1) = wrap n z.
Proof.
  intros. rewrite Z.sub_1_r, <- Z.ones_equiv. by apply Z.land_ones.
Qed.

Lemma testbit_pow2 n i : 0 <= n -> 0 <= i -> Z.testbit (2 ^ n) i = (i =? n).
Proof. intros. rewrite Z.pow2_bits_eqb by done. apply Z.eqb_sym. Qed.

(** [zbits]: an equality of words, bit by bit. *)
Create Rewrite HintDb zbits.
#[export] Hint Rewrite Z.land_spec Z.lor_spec Z.lxor_spec Z.bits_0 : zbits.
#[export] Hint Rewrite Z.lnot_spec Z.shiftl_spec Z.shiftr_spec Z.ldiff_spec
  testbit_wrap testbit_b2z testbit_mask testbit_pow2 using lia : zbits.

Ltac zbits_cases :=
  repeat match goal with
    | |- context [?a <? ?b] => destruct (Z.ltb_spec a b); try lia
    | |- context [?a =? ?b] => destruct (Z.eqb_spec a b); try lia
    end.

Ltac zbits :=
  apply Z.bits_inj'; intros ?i ?Hi; autorewrite with zbits.

#[export] Hint Resolve wrap_range is_word_land_l is_word_lor is_word_lxor
  is_word_shiftr is_word_b2z : word.
#[export] Hint Extern 1 (0 <= _) => lia : word.
#[export] Hint Extern 1 (0 < _) => lia : word.
#[export] Hint Extern 2 (is_word ?w ?z) =>
  (assert_succeeds (is_ground z); unfold is_word; lia) : word.
#[export] Hint Extern 1 (is_word _ (add32 _ _)) => apply wrap_range; lia : word.
#[export] Hint Extern 1 (is_word _ (sub32 _ _)) => apply wrap_range; lia : word.
#[export] Hint Extern 1 (is_word _ (not32 _)) => apply wrap_range; lia : word.
#[export] Hint Extern 1 (is_word _ (shl32 _ _)) => apply wrap_range; lia : word.

(** * Signed values *)

Lemma swrap_word w z : 0 < w -> is_word w z ->
  swrap w z = if Z.testbit z (w - 1) then z - 2 ^ w else z.
Proof.
  intros Hw Hz. unfold swrap. rewrite wrap_small by done.
  assert (2 ^ w = 2 * 2 ^ (w - 1)) by (rewrite <- Z.pow_succ_r by lia; f_equal; lia).
  destruct Hz as [Hl Hh].
  destruct (Z.ltb_spec z (2 ^ (w - 1))).
  - rewrite (testbit_word (w - 1)); [done| |lia]. split; lia.
  - assert (Z.testbit z (w - 1) = true) as ->; [|done].
    apply Z.testbit_true; [lia|].
    by rewrite <- (Z.div_unique z (2 ^ (w - 1)) 1 (z - 2 ^ (w - 1))) by lia.
Qed.

(** * Control structures: proof rules *)

Lemma switch_ind {A} (P : A -> Prop) x cs d :
  Forall (fun c => P c.2) cs -> P d -> P (switch x cs d).
Proof.
  intros Hcs Hd. induction Hcs as [|[k a] cs Ha _ IH]; simpl in *; [done|].
  by destruct (x =? k).
Qed.

Lemma switch_default {A} x (cs : list (Z * A)) d : ~ In x (map fst cs) -> switch x cs d = d.
Proof.
  induction cs as [|[k a] cs IH]; simpl; [done|]. intros Hx.
  destruct (Z.eqb_spec x k) as [->|]; [tauto|]. tauto.
Qed.

(** Case analysis on a [switch], with the default case knowing that no key
    matches. *)
Lemma switch_cases_or {A} (P : A -> Prop) x cs d :
  Forall (fun c => x = c.1 -> P c.2) cs ->
  (~ In x (map fst cs) -> P d) -> P (switch x cs d).
Proof.
  intros Hcs. induction Hcs as [|[k a] cs Ha _ IH]; simpl; [tauto|].
  intros Hd. destruct (Z.eqb_spec x k) as [->|Hne]; [by apply Ha|].
  apply IH. intros Hx. apply Hd. intros [E|E]; [by symmetry in E|done].
Qed.

Lemma switch_case {A} (P : A -> Prop) x cs d :
  Forall (fun c => x = c.1 -> P c.2) cs -> P d -> P (switch x cs d).
Proof.
  intros Hcs Hd. induction Hcs as [|[k a] cs Ha _ IH]; simpl in *; [done|].
  destruct (Z.eqb_spec x k); [by apply Ha|done].
Qed.

(** The body of a loop keeps [P i s], where [i] is the number of the
    iteration about to be run. *)
Lemma for_from_inv {S} (P : Z -> S -> Prop) n lo body s :
  P lo s ->
  (forall i s, lo <= i < lo + Z.of_nat n -> P i s -> P (i + 1) (body i s)) ->
  P (lo + Z.of_nat n) (for_from n lo body s).
Proof.
  revert lo s. induction n as [|n IH]; intros lo s H0 Hstep; simpl.
  - by rewrite Z.add_0_r.
  - replace (lo + Z.of_nat (Datatypes.S n)) with (lo + 1 + Z.of_nat n) by lia.
    apply IH; [apply Hstep; [lia|done]|].
    intros i s' Hi. apply Hstep. lia.
Qed.

Lemma for_upto_ext {S} hi (f g : Z -> S -> S) s :
  (forall i s, f i s = g i s) -> for_upto hi f s = for_upto hi g s.
Proof.
  intros E. unfold for_upto. generalize (Z.to_nat hi) as n. generalize 0 as lo.
  intros lo n. revert lo s. induction n as [|n IH]; intros lo s; simpl; [done|].
  by rewrite E, IH.
Qed.

Lemma for_upto_inv {S} (P : Z -> S -> Prop) hi body s :
  0 <= hi -> P 0 s ->
  (forall i s, 0 <= i < hi -> P i s -> P (i + 1) (body i s)) ->
  P hi (for_upto hi body s).
Proof.
  intros Hhi H0 Hstep. unfold for_upto.
  replace hi with (0 + Z.of_nat (Z.to_nat hi)) at 1 by lia.
  apply for_from_inv; [done|]. intros i s' Hi. apply Hstep. lia.
Qed.

Lemma find_from_spec n lo stop :
  lo <= find_from n lo stop <= lo + Z.of_nat n /\
  (forall i, lo <= i < find_from n lo stop -> stop i = false) /\
  (find_from n lo stop < lo + Z.of_nat n -> stop (find_from n lo stop) = true).
Proof.
  revert lo. induction n as [|n IH]; intros lo; simpl; [repeat split; lia|].
  destruct (stop lo) eqn:E; [repeat split; [lia|lia|lia|done]|].
  destruct (IH (lo + 1)) as (Hr & Hn & Hs). repeat split; [lia|lia| |].
  - intros i Hi. destruct (Z.eq_dec i lo) as [->|]; [done|]. apply Hn. lia.
  - intros. apply Hs. lia.
Qed.

(** The loop stops at the first index that satisfies [stop], or runs to the
    end. *)
Lemma find_upto_spec hi stop :
  0 <= hi ->
  0 <= find_upto hi stop <= hi /\
  (forall i, 0 <= i < find_upto hi stop -> stop i = false) /\
  (find_upto hi stop < hi -> stop (find_upto hi stop) = true).
Proof.
  intros Hhi. unfold find_upto.
  destruct (find_from_spec (Z.to_nat hi) 0 stop) as (Hr & Hn & Hs).
  repeat split; [lia|lia|done|]. intros. apply Hs. lia.
Qed.

(** * Outcomes: proof rules *)

Create HintDb outcome discriminated.

Lemma bind_Undef {A B} (f : A -> outcome B) : (Undef ≫= f) = Undef.
Proof. done. Qed.

Lemma bind_Ok {A B} (a : A) (f : A -> outcome B) : (Ok a ≫= f) = f a.
Proof. done. Qed.

Lemma bind_assoc {A B C} (m : outcome A) (f : A -> outcome B) (g : B -> outcome C) :
  ((m ≫= f) ≫= g) = (m ≫= fun a => f a ≫= g).
Proof. by destruct m. Qed.

Lemma returns_bind {A B} (P : A -> Prop) (Q : B -> Prop) m f :
  returns P m -> (forall a, P a -> returns Q (f a)) -> returns Q (m ≫= f).
Proof. destruct m; simpl; auto. Qed.

Lemma returns_weaken {A} (P Q : A -> Prop) m :
  returns P m -> (forall a, P a -> Q a) -> returns Q m.
Proof. destruct m; simpl; auto. Qed.

Lemma returns_True {A} (m : outcome A) : returns (fun _ => True) m.
Proof. by destruct m. Qed.

Lemma returns_computes {A} (P : A -> Prop) m :
  computes P m <-> returns P m /\ defined m.
Proof.
  split.
  - intros (a & -> & H). split; [done|by exists a].
  - intros [H [a ->]]. by exists a.
Qed.

Lemma shr_c_ok a n : 0 <= n < 32 -> shr_c a n = Ok (Z.shiftr a n).
Proof.
  intros. unfold shr_c.
  by destruct (Z.leb_spec 0 n), (Z.ltb_spec n 32); try lia.
Qed.

Lemma shl_c_ok a n : 0 <= n < 32 -> shl_c a n = Ok (shl32 a n).
Proof.
  intros. unfold shl_c.
  by destruct (Z.leb_spec 0 n), (Z.ltb_spec n 32); try lia.
Qed.

Lemma shr_c_word a n : is_u32 a -> returns is_u32 (shr_c a n).
Proof.
  intros. unfold shr_c. destruct (Z.leb_spec 0 n), (Z.ltb_spec n 32); simpl; try done.
  by apply is_word_shiftr.
Qed.

Lemma shl_c_word a n : returns is_u32 (shl_c a n).
Proof. unfold shl_c. destruct (_ && _); simpl; [|done]. by apply wrap_range. Qed.

Lemma in_sword_spec w z : in_sword w z = true <-> is_sword w z.
Proof. unfold in_sword, is_sword. lia. Qed.

#[export] Instance is_sword_dec w z : Decision (is_sword w z).
Proof. unfold is_sword. apply _. Defined.

#[export] Instance is_word_dec w z : Decision (is_word w z).
Proof. unfold is_word. apply _. Defined.

(** [truth] of a masked value is a bit. *)
Lemma truth_0 : truth 0 = false.
Proof. done. Qed.

Lemma truth_b2z b : truth (b2z b) = b.
Proof. by destruct b. Qed.

Lemma truth_land_pow2 z n :
  0 <= n -> truth (Z.land z (2 ^ n)) = Z.testbit z n.
Proof.
  intros Hn. unfold truth. destruct (Z.eqb_spec (Z.land z (2 ^ n)) 0) as [E|E].
  - apply (f_equal (fun x => Z.testbit x n)) in E.
    rewrite Z.land_spec, Z.pow2_bits_true, andb_true_r, Z.bits_0 in E by done.
    by rewrite E.
  - destruct (Z.testbit z n) eqn:T; [done|]. exfalso. apply E.
    zbits. zbits_cases; subst; by rewrite ?T, ?andb_false_r.
Qed.

(** The first [i] for which the body of [for_return] returns. *)
Lemma for_return_first {A} hi i (body : Z -> option A) a :
  0 <= i < hi -> body i = Some a -> (forall j, 0 <= j < i -> body j = None) ->
  for_return hi body = Some a.
Proof.
  intros Hi Ha Hn. unfold for_return.
  enough (forall n lo, 0 <= lo <= i -> i < lo + Z.of_nat n -> for_return_from n lo body = Some a)
    as Hall by (apply Hall; lia).
  induction n as [|n IH]; intros lo Hlo Hlt; [lia|]. simpl.
  destruct (Z.eq_dec lo i) as [->|]; [by rewrite Ha|]. rewrite Hn by lia. apply IH; lia.
Qed.

Lemma for_return_none {A} hi (body : Z -> option A) :
  (forall j, 0 <= j < hi -> body j = None) -> for_return hi body = None.
Proof.
  intros Hn. unfold for_return.
  enough (forall n lo, 0 <= lo -> lo + Z.of_nat n <= Z.max 0 hi -> for_return_from n lo body = None)
    as Hall by (apply Hall; lia).
  induction n as [|n IH]; intros lo Hlo Hle; [done|]. simpl. rewrite Hn by lia. apply IH; lia.
Qed.

(** A decidable property of the numbers below [n], checked one by one. *)
Lemma Z_range_check n (P : Z -> Prop) `{!forall z, Decision (P z)} :
  forallb (fun k => bool_decide (P (Z.of_nat k))) (seq 0 (Z.to_nat n)) = true ->
  forall z, 0 <= z < n -> P z.
Proof.
  intros Hall z Hz. rewrite forallb_forall in Hall.
  specialize (Hall (Z.to_nat z) ltac:(apply in_seq; lia)).
  apply bool_decide_eq_true in Hall. by rewrite Z2Nat.id in Hall by lia.
Qed.
