(* ===== verification/Spr.v ===== *)
(** The special-purpose registers of the OR1200 and the bits of the
    supervision register, as src/system/software/sim_module/spr_defs.h
    numbers them.  Only the registers the recovery software uses are here. *)

From S2P Require Import Prelude.

Open Scope Z_scope.

Definition MAX_SPRS_PER_GRP_BITS : Z := 11.

Definition SPRGROUP_SYS : Z := Z.shiftl 0 MAX_SPRS_PER_GRP_BITS.
Definition SPRGROUP_DMMU : Z := Z.shiftl 1 MAX_SPRS_PER_GRP_BITS.
Definition SPRGROUP_IMMU : Z := Z.shiftl 2 MAX_SPRS_PER_GRP_BITS.
Definition SPRGROUP_DC : Z := Z.shiftl 3 MAX_SPRS_PER_GRP_BITS.
Definition SPRGROUP_IC : Z := Z.shiftl 4 MAX_SPRS_PER_GRP_BITS.
Definition SPRGROUP_MAC : Z := Z.shiftl 5 MAX_SPRS_PER_GRP_BITS.
Definition SPRGROUP_D : Z := Z.shiftl 6 MAX_SPRS_PER_GRP_BITS.
Definition SPRGROUP_PC : Z := Z.shiftl 7 MAX_SPRS_PER_GRP_BITS.
Definition SPRGROUP_TT : Z := Z.shiftl 10 MAX_SPRS_PER_GRP_BITS.

(** System control and status group *)
Definition SPR_DMMUCFGR : Z := SPRGROUP_SYS + 3.
Definition SPR_IMMUCFGR : Z := SPRGROUP_SYS + 4.
Definition SPR_NPC : Z := SPRGROUP_SYS + 16.
Definition SPR_SR : Z := SPRGROUP_SYS + 17.
Definition SPR_PPC : Z := SPRGROUP_SYS + 18.
Definition SPR_EPCR_BASE : Z := SPRGROUP_SYS + 32.
Definition SPR_EEAR_BASE : Z := SPRGROUP_SYS + 48.
Definition SPR_ESR_BASE : Z := SPRGROUP_SYS + 64.

(** Data and instruction MMU groups *)
Definition SPR_DTLBMR_BASE (way : Z) : Z := SPRGROUP_DMMU + 0x200 + way * 0x100.
Definition SPR_DTLBTR_BASE (way : Z) : Z := SPRGROUP_DMMU + 0x280 + way * 0x100.
Definition SPR_ITLBMR_BASE (way : Z) : Z := SPRGROUP_IMMU + 0x200 + way * 0x100.
Definition SPR_ITLBTR_BASE (way : Z) : Z := SPRGROUP_IMMU + 0x280 + way * 0x100.

(** Data and instruction cache groups *)
Definition SPR_DCBFR : Z := SPRGROUP_DC + 2.
Definition SPR_ICBIR : Z := SPRGROUP_IC + 2.

(** Multiply-accumulate, debug, performance counter, tick timer groups *)
Definition SPR_MACLO : Z := SPRGROUP_MAC + 1.
Definition SPR_MACHI : Z := SPRGROUP_MAC + 2.
Definition SPR_DSR : Z := SPRGROUP_D + 20.
Definition SPR_PCCR (n : Z) : Z := SPRGROUP_PC + n.
Definition ASSERTION_REG : Z := SPR_PCCR 5.
Definition EPPC_REG : Z := SPR_PCCR 7.
Definition SPR_TTMR : Z := SPRGROUP_TT + 0.
Definition SPR_TTCR : Z := SPRGROUP_TT + 1.

(** The supervision register *)
Definition SPR_SR_FO : Z := 0x00008000.
Definition SPR_SR_EPH : Z := 0x00004000.
Definition SPR_SR_DSX : Z := 0x00002000.
Definition SPR_SR_OVE : Z := 0x00001000.
Definition SPR_SR_OV : Z := 0x00000800.
Definition SPR_SR_CY : Z := 0x00000400.
Definition SPR_SR_F : Z := 0x00000200.
Definition SPR_SR_IME : Z := 0x00000040.
Definition SPR_SR_DME : Z := 0x00000020.
Definition SPR_SR_IEE : Z := 0x00000004.
Definition SPR_SR_TEE : Z := 0x00000002.
Definition SPR_SR_SM : Z := 0x00000001.
