(* ===== verification/Host.v ===== *)
(** The processor the recovery software runs on.

    The software reaches the hardware in three ways: the instructions
    [l.mfspr] and [l.mtspr] it issues through inline assembly, the word
    accesses it makes through a pointer ([guestLoad] and [guestStore] of
    src/system/software/sim_module/mmu_support.h), and the byte accesses
    [l.lbz], [l.lbs] and [l.sb] it issues for the peripherals on the byte bus.
    The hardware is not C code: it is an interface, [Host], and what the
    theorems need of it is [HostLaws], the documented behaviour of a memory
    and of a register file.  [RamHost] is an instance, on which the model can
    be run. *)

From S2P Require Import Prelude Spr.
From stdpp Require Import gmap.

Open Scope Z_scope.

Class Host (H : Type) : Type := {
  host_mfspr : Z -> H -> Z;
  host_mtspr : Z -> Z -> H -> H;
  host_load32 : Z -> H -> Z * H;
  host_store32 : Z -> Z -> H -> H;
  host_lbz : Z -> H -> Z * H;
  host_lbs : Z -> H -> Z * H;
  host_sb : Z -> Z -> H -> H;
}.

(** The word addresses of the RAM: everything below the byte bus.  [Ram a]
    holds of the aligned ones. *)
Definition Ram (a : Z) : Prop := 0 <= a < 0x08000000 /\ a mod 4 = 0.

#[export] Instance Ram_dec a : Decision (Ram a).
Proof. unfold Ram. apply _. Defined.

(** The special registers behind which there is only a register: the entries
    of the two TLBs and the status registers.  Writing the cache operation
    registers [DCBFR] and [ICBIR] or [SR] changes none of the others. *)
Class HostLaws (H : Type) `{Host H} : Prop := {
  mfspr_word s h : is_u32 (host_mfspr s h);
  load32_word a h : is_u32 (host_load32 a h).1;
  lbz_word a h : is_u32 (host_lbz a h).1;
  lbs_word a h : is_u32 (host_lbs a h).1;
  load32_pure a h : Ram a -> (host_load32 a h).2 = h;
  load32_store32 a v h :
    Ram a -> is_u32 v -> (host_load32 a (host_store32 a v h)).1 = v;
  load32_store32_ne a b v h :
    Ram a -> Ram b -> a <> b ->
    (host_load32 b (host_store32 a v h)).1 = (host_load32 b h).1;
  load32_mtspr a s v h :
    Ram a -> (host_load32 a (host_mtspr s v h)).1 = (host_load32 a h).1;
  mfspr_store32 s a v h :
    Ram a -> host_mfspr s (host_store32 a v h) = host_mfspr s h;
  mfspr_mtspr s v h :
    is_u32 v -> s <> SPR_DCBFR -> s <> SPR_ICBIR ->
    host_mfspr s (host_mtspr s v h) = v;
  mfspr_mtspr_ne s t v h :
    s <> t -> host_mfspr t (host_mtspr s v h) = host_mfspr t h;
}.

(** * A host that is a RAM and a register file *)

Module RamHost.

(** Words by word address; an address or register never written reads 0.
    The byte bus is a second memory, of bytes. *)
Record ram_host : Type := RamHost {
  ram : gmap Z Z;
  spr : gmap Z Z;
  bus : gmap Z Z;
}.

Definition peek (m : gmap Z Z) (a : Z) : Z := u32 (default 0 (m !! a)).

Definition peek8 (m : gmap Z Z) (a : Z) : Z := u8 (default 0 (m !! a)).

Definition sext8 (v : Z) : Z := u32 (swrap 8 v).

#[export] Instance ram_host_Host : Host ram_host := {
  host_mfspr s h := peek (spr h) s;
  host_mtspr s v h := RamHost (ram h) (<[s := v]> (spr h)) (bus h);
  host_load32 a h := (peek (ram h) a, h);
  host_store32 a v h := RamHost (<[a := v]> (ram h)) (spr h) (bus h);
  host_lbz a h := (peek8 (bus h) a, h);
  host_lbs a h := (sext8 (peek8 (bus h) a), h);
  host_sb a v h := RamHost (ram h) (spr h) (<[a := v]> (bus h));
}.

Lemma peek_insert m a v : is_u32 v -> peek (<[a := v]> m) a = v.
Proof. intros. unfold peek. rewrite lookup_insert_eq. by apply wrap_small. Qed.

Lemma peek_insert_ne m a b v : a <> b -> peek (<[a := v]> m) b = peek m b.
Proof. intros. unfold peek. by rewrite lookup_insert_ne. Qed.

#[export] Instance ram_host_laws : HostLaws ram_host.
Proof.
  split; intros; simpl;
    solve [done | apply wrap_range; lia | by apply peek_insert
          | by apply peek_insert_ne
          | apply (is_word_weaken 8); [lia|apply wrap_range; lia]].
Qed.

Definition empty : ram_host := RamHost ∅ ∅ ∅.

End RamHost.
