(* ===== verification/Cpu.v ===== *)
(** The state of the simulated processor:
    src/system/software/sim_module/cpu.h and cpu.c.

    [CPU] is [struct CPU]; the accessor macros of cpu.h are the definitions of
    the same names.  [sim] pairs it with the host, the processor the program
    itself runs on, which [cpu_get_spr] and [cpu_set_spr] reach for the
    registers the simulator does not keep. *)

From S2P Require Import Prelude Spr Host.

Open Scope Z_scope.
Open Scope cword_scope.

(** The program is compiled with [-DSTANDALONE] for the recovery handler of
    the processor; without it, [assert] checks its argument and the tick timer
    registers are simulated. *)
Class Build : Type := STANDALONE : bool.

Definition NUM_REGS : Z := 32.
Definition PT_SP : Z := 1.
Definition PT_LR : Z := 9.

Record CPU : Type := Cpu {
  gpr : list Z;
  pc : Z;
  npc : Z;
  sr : Z;
  machi : Z;
  maclo : Z;
  branch_pc : Z;
  esr : Z;
  epcr : Z;
  eear : Z;
  dsr : Z;
  ttmr : Z;
  ttcr : Z;
}.

(** ** The accessors of cpu.h *)

Definition cpu_get_gpr (cpu : CPU) (reg : Z) : Z :=
  default 0 (gpr cpu !! Z.to_nat reg).

(** The store [cpu->gpr[reg] = value]. *)
Definition gpr_store (cpu : CPU) (reg value : Z) : CPU :=
  Cpu (<[Z.to_nat reg := value]> (gpr cpu)) (pc cpu) (npc cpu) (sr cpu) (machi cpu) (maclo cpu)
    (branch_pc cpu) (esr cpu) (epcr cpu) (eear cpu) (dsr cpu) (ttmr cpu) (ttcr cpu).

Definition cpu_get_pc (cpu : CPU) : Z := pc cpu.
Definition cpu_set_pc (cpu : CPU) (pc2 : Z) : CPU :=
  Cpu (gpr cpu) pc2 (npc cpu) (sr cpu) (machi cpu) (maclo cpu)
    (branch_pc cpu) (esr cpu) (epcr cpu) (eear cpu) (dsr cpu) (ttmr cpu) (ttcr cpu).

Definition cpu_get_npc (cpu : CPU) : Z := npc cpu.
Definition cpu_set_npc (cpu : CPU) (npc2 : Z) : CPU :=
  Cpu (gpr cpu) (pc cpu) npc2 (sr cpu) (machi cpu) (maclo cpu)
    (branch_pc cpu) (esr cpu) (epcr cpu) (eear cpu) (dsr cpu) (ttmr cpu) (ttcr cpu).

Definition cpu_get_branch_pc (cpu : CPU) : Z := branch_pc cpu.
Definition cpu_set_branch_pc (cpu : CPU) (branch_pc2 : Z) : CPU :=
  Cpu (gpr cpu) (pc cpu) (npc cpu) (sr cpu) (machi cpu) (maclo cpu)
    branch_pc2 (esr cpu) (epcr cpu) (eear cpu) (dsr cpu) (ttmr cpu) (ttcr cpu).

Definition cpu_get_maclo (cpu : CPU) : Z := maclo cpu.
Definition cpu_set_maclo (cpu : CPU) (maclo2 : Z) : CPU :=
  Cpu (gpr cpu) (pc cpu) (npc cpu) (sr cpu) (machi cpu) maclo2
    (branch_pc cpu) (esr cpu) (epcr cpu) (eear cpu) (dsr cpu) (ttmr cpu) (ttcr cpu).

Definition cpu_get_machi (cpu : CPU) : Z := machi cpu.
Definition cpu_set_machi (cpu : CPU) (machi2 : Z) : CPU :=
  Cpu (gpr cpu) (pc cpu) (npc cpu) (sr cpu) machi2 (maclo cpu)
    (branch_pc cpu) (esr cpu) (epcr cpu) (eear cpu) (dsr cpu) (ttmr cpu) (ttcr cpu).

Definition cpu_get_sr (cpu : CPU) : Z := sr cpu.
Definition cpu_set_sr (cpu : CPU) (sr2 : Z) : CPU :=
  Cpu (gpr cpu) (pc cpu) (npc cpu) sr2 (machi cpu) (maclo cpu)
    (branch_pc cpu) (esr cpu) (epcr cpu) (eear cpu) (dsr cpu) (ttmr cpu) (ttcr cpu).

Definition cpu_get_esr (cpu : CPU) : Z := esr cpu.
Definition cpu_set_esr (cpu : CPU) (esr2 : Z) : CPU :=
  Cpu (gpr cpu) (pc cpu) (npc cpu) (sr cpu) (machi cpu) (maclo cpu)
    (branch_pc cpu) esr2 (epcr cpu) (eear cpu) (dsr cpu) (ttmr cpu) (ttcr cpu).

Definition cpu_get_epcr (cpu : CPU) : Z := epcr cpu.
Definition cpu_set_epcr (cpu : CPU) (epcr2 : Z) : CPU :=
  Cpu (gpr cpu) (pc cpu) (npc cpu) (sr cpu) (machi cpu) (maclo cpu)
    (branch_pc cpu) (esr cpu) epcr2 (eear cpu) (dsr cpu) (ttmr cpu) (ttcr cpu).

Definition cpu_get_eear (cpu : CPU) : Z := eear cpu.
Definition cpu_set_eear (cpu : CPU) (eear2 : Z) : CPU :=
  Cpu (gpr cpu) (pc cpu) (npc cpu) (sr cpu) (machi cpu) (maclo cpu)
    (branch_pc cpu) (esr cpu) (epcr cpu) eear2 (dsr cpu) (ttmr cpu) (ttcr cpu).

Definition cpu_get_dsr (cpu : CPU) : Z := dsr cpu.
Definition cpu_set_dsr (cpu : CPU) (dsr2 : Z) : CPU :=
  Cpu (gpr cpu) (pc cpu) (npc cpu) (sr cpu) (machi cpu) (maclo cpu)
    (branch_pc cpu) (esr cpu) (epcr cpu) (eear cpu) dsr2 (ttmr cpu) (ttcr cpu).

Definition cpu_get_ttmr (cpu : CPU) : Z := ttmr cpu.
Definition cpu_set_ttmr (cpu : CPU) (ttmr2 : Z) : CPU :=
  Cpu (gpr cpu) (pc cpu) (npc cpu) (sr cpu) (machi cpu) (maclo cpu)
    (branch_pc cpu) (esr cpu) (epcr cpu) (eear cpu) (dsr cpu) ttmr2 (ttcr cpu).

Definition cpu_get_ttcr (cpu : CPU) : Z := ttcr cpu.
Definition cpu_set_ttcr (cpu : CPU) (ttcr2 : Z) : CPU :=
  Cpu (gpr cpu) (pc cpu) (npc cpu) (sr cpu) (machi cpu) (maclo cpu)
    (branch_pc cpu) (esr cpu) (epcr cpu) (eear cpu) (dsr cpu) (ttmr cpu) ttcr2.

(** The instruction after the current one is not the next in memory: a branch
    is pending. *)
Definition is_in_delay_slot (cpu : CPU) : bool :=
  negb (cpu_get_npc cpu =? cpu_get_pc cpu +! 4).

(** The accumulator, a signed 64-bit value kept in two registers. *)
Definition cpu_get_mac (cpu : CPU) : Z :=
  cpu_get_maclo cpu .| i64 (Z.shiftl (cpu_get_machi cpu) 32).
Definition cpu_set_mac (cpu : CPU) (m : Z) : CPU :=
  let cpu := cpu_set_machi cpu (u32 (u64 m >> 32)) in
  cpu_set_maclo cpu (u32 (u64 m .& 0xffffffff)).

Definition cpu_set_sp (cpu : CPU) (sp2 : Z) : CPU := gpr_store cpu PT_SP sp2.
Definition cpu_set_lr (cpu : CPU) (lr2 : Z) : CPU := gpr_store cpu PT_LR lr2.

(** The bits of the supervision register. *)
Definition cpu_is_set_sr_flag (cpu : CPU) (flag : Z) : bool :=
  truth (cpu_get_sr cpu .& flag).
Definition cpu_set_sr_flag (cpu : CPU) (flag : Z) (set : Z) : CPU :=
  cpu_set_sr cpu
    ((cpu_get_sr cpu .& not32 flag) .| (flag .& u32 (0 - set))).

Definition cpu_get_sm (cpu : CPU) : bool := cpu_is_set_sr_flag cpu SPR_SR_SM.
Definition cpu_get_dme (cpu : CPU) : bool := cpu_is_set_sr_flag cpu SPR_SR_DME.
Definition cpu_get_ime (cpu : CPU) : bool := cpu_is_set_sr_flag cpu SPR_SR_IME.
Definition cpu_get_f (cpu : CPU) : bool := cpu_is_set_sr_flag cpu SPR_SR_F.
Definition cpu_get_cy (cpu : CPU) : bool := cpu_is_set_sr_flag cpu SPR_SR_CY.
Definition cpu_get_ov (cpu : CPU) : bool := cpu_is_set_sr_flag cpu SPR_SR_OV.
Definition cpu_get_ove (cpu : CPU) : bool := cpu_is_set_sr_flag cpu SPR_SR_OVE.
Definition cpu_get_eph (cpu : CPU) : bool := cpu_is_set_sr_flag cpu SPR_SR_EPH.
Definition cpu_get_dsx (cpu : CPU) : bool := cpu_is_set_sr_flag cpu SPR_SR_DSX.
Definition cpu_is_set_f (cpu : CPU) : bool := cpu_is_set_sr_flag cpu SPR_SR_F.

Definition cpu_set_sm (cpu : CPU) (set : Z) : CPU := cpu_set_sr_flag cpu SPR_SR_SM set.
Definition cpu_set_tee (cpu : CPU) (set : Z) : CPU := cpu_set_sr_flag cpu SPR_SR_TEE set.
Definition cpu_set_iee (cpu : CPU) (set : Z) : CPU := cpu_set_sr_flag cpu SPR_SR_IEE set.
Definition cpu_set_dme (cpu : CPU) (set : Z) : CPU := cpu_set_sr_flag cpu SPR_SR_DME set.
Definition cpu_set_ime (cpu : CPU) (set : Z) : CPU := cpu_set_sr_flag cpu SPR_SR_IME set.
Definition cpu_set_f (cpu : CPU) (set : Z) : CPU := cpu_set_sr_flag cpu SPR_SR_F set.
Definition cpu_set_cy (cpu : CPU) (set : Z) : CPU := cpu_set_sr_flag cpu SPR_SR_CY set.
Definition cpu_set_ov (cpu : CPU) (set : Z) : CPU := cpu_set_sr_flag cpu SPR_SR_OV set.
Definition cpu_set_dsx (cpu : CPU) (set : Z) : CPU := cpu_set_sr_flag cpu SPR_SR_DSX set.

(** ** cpu.c *)

(** Register 0 always reads 0. *)
Definition cpu_set_gpr (cpu : CPU) (reg value : Z) : CPU :=
  gpr_store cpu reg (if reg =? 0 then 0 else value).

Definition cpu_reset (cpu : CPU) : CPU :=
  let cpu := for_upto NUM_REGS (fun idx cpu => cpu_set_gpr cpu idx 0) cpu in
  let cpu := cpu_set_sr cpu 0x00008001 in
  let cpu := cpu_set_maclo cpu 0 in
  let cpu := cpu_set_machi cpu 0 in
  let cpu := cpu_set_pc cpu 0x100 in
  cpu_set_npc cpu (cpu_get_pc cpu +! 4).

Definition cpu_initvars (cpu : CPU) : CPU :=
  let cpu := cpu_set_npc cpu (cpu_get_pc cpu +! 4) in
  cpu_set_branch_pc cpu 0xffffffff.

(** [memset(cpu, 0, sizeof(struct CPU))] and [cpu_initvars]: whatever the
    structure held. *)
Definition cpu_init0 (cpu : CPU) : CPU :=
  cpu_initvars (Cpu (replicate 32 0) 0 0 0 0 0 0 0 0 0 0 0 0).

Definition cpu_advance_pc (cpu : CPU) : CPU :=
  let cpu := cpu_set_pc cpu (cpu_get_npc cpu) in
  if negb (cpu_get_branch_pc cpu =? 0xffffffff) then
    let cpu := cpu_set_npc cpu (cpu_get_branch_pc cpu) in
    cpu_set_branch_pc cpu 0xffffffff
  else
    cpu_set_npc cpu (cpu_get_npc cpu +! 4).

(** ** The simulator's whole state *)

Record sim (H : Type) : Type := Sim { s_cpu : CPU; s_host : H }.
Arguments Sim {H} s_cpu s_host.
Arguments s_cpu {H} s.
Arguments s_host {H} s.

Section Spr.
Context `{HB : Build} {H : Type} `{HH : Host H}.

(** [assert(b)]: nothing in a standalone build. *)
Definition c_assert (b : bool) : outcome unit :=
  if STANDALONE then Ok tt else if b then Ok tt else AssertFail.

Definition with_cpu (s : sim H) (cpu : CPU) : sim H := Sim cpu (s_host s).

Definition cpu_set_spr (s : sim H) (spr value : Z) : outcome (sim H) :=
  let cpu := s_cpu s in
  c_assert (truth (cpu_get_sr cpu .& SPR_SR_SM)) ≫= fun _ =>
  let store set := Ok (with_cpu s (set cpu value)) in
  switch spr
    ([ (SPR_NPC, store cpu_set_npc);
       (SPR_SR, store (fun cpu value =>
          cpu_set_sr cpu ((value .& 0xf001ffff) .| 0x00008000)));
       (SPR_PPC, store cpu_set_pc);
       (SPR_EPCR_BASE, store cpu_set_epcr);
       (SPR_EEAR_BASE, store cpu_set_eear);
       (SPR_ESR_BASE, store cpu_set_esr);
       (SPR_DSR, store cpu_set_dsr);
       (SPR_MACLO, store cpu_set_maclo);
       (SPR_MACHI, store cpu_set_machi) ] ++
     if STANDALONE then [] else
       [ (SPR_TTMR, store cpu_set_ttmr);
         (SPR_TTCR, store cpu_set_ttcr) ])
    (if STANDALONE then Ok (Sim cpu (host_mtspr spr value (s_host s)))
     else c_assert false ≫= fun _ => Ok s).

Definition cpu_get_spr (s : sim H) (spr : Z) : outcome Z :=
  let cpu := s_cpu s in
  c_assert (truth (cpu_get_sr cpu .& SPR_SR_SM)) ≫= fun _ =>
  switch spr
    ([ (SPR_NPC, Ok (cpu_get_npc cpu));
       (SPR_SR, Ok (cpu_get_sr cpu));
       (SPR_PPC, Ok (cpu_get_pc cpu));
       (SPR_EPCR_BASE, Ok (cpu_get_epcr cpu));
       (SPR_EEAR_BASE, Ok (cpu_get_eear cpu));
       (SPR_ESR_BASE, Ok (cpu_get_esr cpu));
       (SPR_DSR, Ok (cpu_get_dsr cpu));
       (SPR_MACLO, Ok (cpu_get_maclo cpu));
       (SPR_MACHI, Ok (cpu_get_machi cpu)) ] ++
     if STANDALONE then [] else
       [ (SPR_TTMR, Ok (cpu_get_ttmr cpu));
         (SPR_TTCR, Ok (cpu_get_ttcr cpu)) ])
    (if STANDALONE then Ok (host_mfspr spr (s_host s))
     else c_assert false ≫= fun _ => Ok 0).

End Spr.

(** ** Well-formed states: every field a 32-bit word, register 0 zero *)

Record cpu_wf (cpu : CPU) : Prop := {
  wf_gpr_length : length (gpr cpu) = 32%nat;
  wf_gpr : Forall is_u32 (gpr cpu);
  wf_gpr0 : gpr cpu !! 0%nat = Some 0;
  wf_pc : is_u32 (pc cpu);
  wf_npc : is_u32 (npc cpu);
  wf_sr : is_u32 (sr cpu);
  wf_machi : is_u32 (machi cpu);
  wf_maclo : is_u32 (maclo cpu);
  wf_branch_pc : is_u32 (branch_pc cpu);
  wf_esr : is_u32 (esr cpu);
  wf_epcr : is_u32 (epcr cpu);
  wf_eear : is_u32 (eear cpu);
  wf_dsr : is_u32 (dsr cpu);
  wf_ttmr : is_u32 (ttmr cpu);
  wf_ttcr : is_u32 (ttcr cpu);
}.

(** A register number the decoder can produce. *)
Definition is_reg (r : Z) : Prop := 0 <= r < 32.

(** The bit of [sr] a flag stands for. *)
Definition sr_bit (cpu : CPU) (k : Z) : bool := Z.testbit (sr cpu) k.

Create HintDb wf discriminated.
#[export] Hint Constants Opaque : wf.
#[export] Hint Transparent cpu_get_pc cpu_get_npc cpu_get_branch_pc
  cpu_get_maclo cpu_get_machi cpu_get_sr cpu_get_esr cpu_get_epcr
  cpu_get_eear cpu_get_dsr cpu_get_ttmr cpu_get_ttcr : wf.
#[export] Hint Resolve wf_pc wf_npc wf_sr wf_machi wf_maclo wf_branch_pc wf_esr
  wf_epcr wf_eear wf_dsr wf_ttmr wf_ttcr : wf.

(** [wf]: a value is a word, a state is well formed. *)
Ltac wf := solve [eauto 40 with wf word].

Section Setters.
Context (cpu : CPU) (Hwf : cpu_wf cpu).

Local Ltac setter := intros; destruct Hwf; split; simpl; solve [done | wf].

Lemma wf_set_pc v : is_u32 v -> cpu_wf (cpu_set_pc cpu v).
Proof. setter. Qed.
Lemma wf_set_npc v : is_u32 v -> cpu_wf (cpu_set_npc cpu v).
Proof. setter. Qed.
Lemma wf_set_branch_pc v : is_u32 v -> cpu_wf (cpu_set_branch_pc cpu v).
Proof. setter. Qed.
Lemma wf_set_maclo v : is_u32 v -> cpu_wf (cpu_set_maclo cpu v).
Proof. setter. Qed.
Lemma wf_set_machi v : is_u32 v -> cpu_wf (cpu_set_machi cpu v).
Proof. setter. Qed.
Lemma wf_set_sr v : is_u32 v -> cpu_wf (cpu_set_sr cpu v).
Proof. setter. Qed.
Lemma wf_set_esr v : is_u32 v -> cpu_wf (cpu_set_esr cpu v).
Proof. setter. Qed.
Lemma wf_set_epcr v : is_u32 v -> cpu_wf (cpu_set_epcr cpu v).
Proof. setter. Qed.
Lemma wf_set_eear v : is_u32 v -> cpu_wf (cpu_set_eear cpu v).
Proof. setter. Qed.
Lemma wf_set_dsr v : is_u32 v -> cpu_wf (cpu_set_dsr cpu v).
Proof. setter. Qed.
Lemma wf_set_ttmr v : is_u32 v -> cpu_wf (cpu_set_ttmr cpu v).
Proof. setter. Qed.
Lemma wf_set_ttcr v : is_u32 v -> cpu_wf (cpu_set_ttcr cpu v).
Proof. setter. Qed.

Lemma wf_gpr_store r v : 0 < r -> is_u32 v -> cpu_wf (gpr_store cpu r v).
Proof.
  intros Hr Hv. destruct Hwf. split; simpl; try done.
  - by rewrite length_insert.
  - by apply Forall_insert.
  - rewrite list_lookup_insert_ne by lia. done.
Qed.

Lemma wf_set_gpr r v : 0 <= r -> is_u32 v -> cpu_wf (cpu_set_gpr cpu r v).
Proof.
  intros Hr Hv. unfold cpu_set_gpr. destruct (Z.eqb_spec r 0) as [->|].
  - destruct Hwf. split; simpl; try done.
    + by rewrite length_insert.
    + apply Forall_insert; [done|]. split; lia.
    + by rewrite list_lookup_insert_eq by lia.
  - apply wf_gpr_store; [lia|done].
Qed.

Lemma wf_set_sr_flag flag set :
  is_u32 flag -> cpu_wf (cpu_set_sr_flag cpu flag set).
Proof.
  intros. apply wf_set_sr, is_word_lor; [lia| |]; wf.
Qed.

Lemma wf_set_mac m : cpu_wf (cpu_set_mac cpu m).
Proof.
  unfold cpu_set_mac. destruct Hwf.
  split; simpl; solve [done | apply wrap_range; lia].
Qed.

Lemma get_gpr_word r : is_u32 (cpu_get_gpr cpu r).
Proof.
  unfold cpu_get_gpr. destruct (gpr cpu !! _) eqn:E; simpl; [|by vm_compute].
  eapply Forall_lookup_1; [apply (wf_gpr cpu Hwf)|done].
Qed.

(** A register number is an index of the array. *)
Lemma gpr_in_bounds r : is_reg r -> gpr cpu !! Z.to_nat r = Some (cpu_get_gpr cpu r).
Proof.
  intros Hr. unfold cpu_get_gpr. pose proof (wf_gpr_length cpu Hwf) as Hl.
  destruct (lookup_lt_is_Some_2 (gpr cpu) (Z.to_nat r)) as [v Hv].
  { rewrite Hl. unfold is_reg in Hr. lia. }
  by rewrite Hv.
Qed.

Lemma get_gpr_0 : cpu_get_gpr cpu 0 = 0.
Proof.
  unfold cpu_get_gpr. change (Z.to_nat 0) with 0%nat. by rewrite (wf_gpr0 cpu Hwf).
Qed.

Lemma get_gpr_store_eq r v :
  is_reg r -> cpu_get_gpr (gpr_store cpu r v) r = v.
Proof.
  intros [??]. unfold cpu_get_gpr. simpl.
  rewrite list_lookup_insert_eq; [done|]. rewrite (wf_gpr_length cpu Hwf). lia.
Qed.

Lemma get_set_gpr_eq r v :
  is_reg r -> cpu_get_gpr (cpu_set_gpr cpu r v) r = if r =? 0 then 0 else v.
Proof. intros. by apply get_gpr_store_eq. Qed.

End Setters.

Lemma get_gpr_store_ne cpu r r' v :
  0 <= r -> 0 <= r' -> r <> r' ->
  cpu_get_gpr (gpr_store cpu r v) r' = cpu_get_gpr cpu r'.
Proof.
  intros. unfold cpu_get_gpr. simpl. by rewrite list_lookup_insert_ne by lia.
Qed.

Lemma get_set_gpr_ne cpu r r' v :
  0 <= r -> 0 <= r' -> r <> r' ->
  cpu_get_gpr (cpu_set_gpr cpu r v) r' = cpu_get_gpr cpu r'.
Proof. apply get_gpr_store_ne. Qed.

#[export] Hint Resolve wf_set_pc wf_set_npc wf_set_branch_pc wf_set_maclo
  wf_set_machi wf_set_sr wf_set_esr wf_set_epcr wf_set_eear wf_set_dsr
  wf_set_ttmr wf_set_ttcr wf_set_gpr wf_gpr_store wf_set_mac get_gpr_word : wf.

#[export] Hint Extern 2 (is_word _ (if _ then _ else _)) => case_match : wf.
#[export] Hint Extern 2 (cpu_wf (if _ then _ else _)) => case_match : wf.

(** The flag setters, one hint for all of them. *)
#[export] Hint Extern 1 (cpu_wf (cpu_set_sr_flag _ _ _)) =>
  apply wf_set_sr_flag; [|by vm_compute] : wf.
#[export] Hint Extern 1 (cpu_wf (cpu_set_sm _ _)) => apply wf_set_sr_flag; [|by vm_compute] : wf.
#[export] Hint Extern 1 (cpu_wf (cpu_set_tee _ _)) => apply wf_set_sr_flag; [|by vm_compute] : wf.
#[export] Hint Extern 1 (cpu_wf (cpu_set_iee _ _)) => apply wf_set_sr_flag; [|by vm_compute] : wf.
#[export] Hint Extern 1 (cpu_wf (cpu_set_dme _ _)) => apply wf_set_sr_flag; [|by vm_compute] : wf.
#[export] Hint Extern 1 (cpu_wf (cpu_set_ime _ _)) => apply wf_set_sr_flag; [|by vm_compute] : wf.
#[export] Hint Extern 1 (cpu_wf (cpu_set_f _ _)) => apply wf_set_sr_flag; [|by vm_compute] : wf.
#[export] Hint Extern 1 (cpu_wf (cpu_set_cy _ _)) => apply wf_set_sr_flag; [|by vm_compute] : wf.
#[export] Hint Extern 1 (cpu_wf (cpu_set_ov _ _)) => apply wf_set_sr_flag; [|by vm_compute] : wf.
#[export] Hint Extern 1 (cpu_wf (cpu_set_dsx _ _)) => apply wf_set_sr_flag; [|by vm_compute] : wf.

(** ** Flags as bits *)

Lemma is_set_sr_flag_bit cpu k :
  0 <= k -> cpu_is_set_sr_flag cpu (2 ^ k) = sr_bit cpu k.
Proof. apply truth_land_pow2. Qed.

Lemma set_sr_flag_sr cpu k b : cpu_wf cpu -> 0 <= k < 32 ->
  sr (cpu_set_sr_flag cpu (2 ^ k) (b2z b)) =
  if b then Z.setbit (sr cpu) k else Z.clearbit (sr cpu) k.
Proof.
  intros Hwf Hk. unfold cpu_set_sr_flag, cpu_get_sr, not32. simpl.
  pose proof (wf_sr cpu Hwf) as Hsr.
  zbits. destruct (Z.ltb_spec i 32).
  - destruct b; [rewrite Z.setbit_eqb by lia|rewrite Z.clearbit_eqb];
      change (b2z true) with 1; change (b2z false) with 0.
    + change (0 - 1) with (Z.lnot 0). rewrite Z.lnot_spec, Z.bits_0 by done.
      rewrite (Z.eqb_sym k). zbits_cases; simpl; by rewrite ?andb_true_r, ?orb_true_r, ?orb_false_r.
    + rewrite Z.sub_0_r, Z.bits_0, (Z.eqb_sym k).
      zbits_cases; simpl; by rewrite ?andb_false_r, ?orb_false_r, ?andb_true_r.
  - destruct (Z.eqb_spec i k); [lia|]. simpl.
    rewrite (testbit_word 32 (sr cpu)) by (done || lia).
    destruct b; [rewrite Z.setbit_eqb by lia|rewrite Z.clearbit_eqb];
      rewrite (testbit_word 32 (sr cpu)) by (done || lia);
      destruct (Z.eqb_spec k i); (lia || done).
Qed.

Lemma sr_bit_set_flag cpu k j b : cpu_wf cpu -> 0 <= k < 32 -> 0 <= j ->
  sr_bit (cpu_set_sr_flag cpu (2 ^ k) (b2z b)) j =
  if k =? j then b else sr_bit cpu j.
Proof.
  intros. unfold sr_bit. rewrite set_sr_flag_sr by done.
  destruct b; [rewrite Z.setbit_eqb by lia|rewrite Z.clearbit_eqb];
    destruct (k =? j); simpl; by rewrite ?andb_true_r, ?andb_false_r.
Qed.

(** Well-formedness can be decided on a concrete state. *)
Definition cpu_fields (cpu : CPU) : list Z :=
  [pc cpu; npc cpu; sr cpu; machi cpu; maclo cpu; branch_pc cpu; esr cpu;
   epcr cpu; eear cpu; dsr cpu; ttmr cpu; ttcr cpu].

Lemma cpu_wf_fields cpu :
  length (gpr cpu) = 32%nat /\ Forall is_u32 (gpr cpu) /\ gpr cpu !! 0%nat = Some 0 /\
  Forall is_u32 (cpu_fields cpu) <-> cpu_wf cpu.
Proof.
  unfold cpu_fields. rewrite !List.Forall_cons_iff. split.
  - intros (Hl & Hg & H0 & Hr). destruct_and?. by split.
  - intros []. repeat (split; [done|]). apply Forall_nil_2.
Qed.

#[export] Instance cpu_wf_dec cpu : Decision (cpu_wf cpu).
Proof.
  refine (cast_if (decide (length (gpr cpu) = 32%nat /\ Forall is_u32 (gpr cpu) /\
    gpr cpu !! 0%nat = Some 0 /\ Forall is_u32 (cpu_fields cpu))));
    by rewrite <- cpu_wf_fields.
Defined.
