(* ===== verification/Arith.v ===== *)
(** The arithmetic of the simulator: the shared helper functions of
    src/system/software/sim_module/simulator.c.  Addition goes bit by bit,
    multiplication by shift and add, division by shift and subtract; the
    theorems state that each computes what its name says. *)

From S2P Require Import Prelude.

Open Scope Z_scope.
Open Scope cword_scope.

(** [GET_BITS(inst, shift, bits)] *)
Definition GET_BITS (inst shift bits : Z) : Z :=
  (inst >> shift) .& u32 ((1 << bits) - 1).

Definition IS_BIT_SET (a bit : Z) : bool := truth (a .& (1 << bit)).
Definition IS_NEG (a : Z) : bool := truth (a .& (1 << 31)).
Definition IS_POS (a : Z) : bool := negb (IS_NEG a).

Definition zero_extend (value num_bits : Z) : Z :=
  value .& u32 ((1 << num_bits) - 1).

(** The result is an [i32]. *)
Definition sign_extend (value sign_bit : Z) : Z :=
  let value :=
    if IS_BIT_SET value sign_bit then value .| (0xffffffff << sign_bit)
    else value in
  i32 value.

Definition exts (imm : Z) : Z := sign_extend imm 15.

Definition is_overflow (a b r : Z) : bool :=
  (IS_NEG a && IS_NEG b && IS_POS r) || (IS_POS a && IS_POS b && IS_NEG r).

(** One step of the ripple-carry adder: the result so far and the carry. *)
Definition calc_add_step (a b idx : Z) (st : Z * bool) : Z * bool :=
  let '(r, c) := st in
  let cin := if c then 1 << idx else 0 in
  let mask := 1 << idx in
  let A := a .& mask in
  let B := b .& mask in
  let r := r .| (A .^ B .^ cin) in
  let cin := (A .& B) .| (cin .& (A .^ B)) in
  (r, truth cin).

(** [calc_add(carry_in, a, b, &res, &overflow, &carry)] *)
Definition calc_add (carry_in : bool) (a b : Z) : Z * bool * bool :=
  let '(r, c) := for_upto 32 (calc_add_step a b) (0, carry_in) in
  (r, is_overflow a b r, c).

(** One step of the shift-and-add multiplier: product, multiplicand,
    multiplier. *)
Definition calc_mulu_step (_ : Z) (st : Z * Z * Z) : Z * Z * Z :=
  let '(prod, mand, mier) := st in
  let prod := if truth (mier .& 0x1) then u64 (prod + mand) else prod in
  (prod, u64 (Z.shiftl mand 1), mier >> 1).

Definition calc_mulu (a b : Z) : Z :=
  let '(prod, _, _) := for_upto 32 calc_mulu_step (0, u64 a, b) in prod.

(** The same product by division and remainder; its value is dropped by the C
    function, which returns nothing. *)
Definition peasant_mulu_step (_ : Z) (st : Z * Z * Z) : Z * Z * Z :=
  let '(prod, mand, mier) := st in
  let prod := if truth (mier mod 2) then u64 (prod + mand) else prod in
  (prod, u64 (mand * 2), mier / 2).

Definition peasant_mulu (a b : Z) : Z :=
  let '(prod, _, _) := for_upto 32 peasant_mulu_step (0, u64 a, b) in prod.

(** Signed product of two [i32], an [i64]. *)
Definition calc_mul (a b : Z) : Z :=
  let sign_a := i32 (u32 a .& 0x80000000) in
  let sign_b := i32 (u32 b .& 0x80000000) in
  let a := if truth sign_a then i32 (u32 ((u32 a .^ 0xffffffff) + 1)) else a in
  let b := if truth sign_b then i32 (u32 ((u32 b .^ 0xffffffff) + 1)) else b in
  let prod := calc_mulu (u32 a) (u32 b) in
  let prod :=
    if truth (sign_a .^ sign_b) then u64 (prod - 1) .^ 0xffffffffffffffff
    else prod in
  i64 prod.

(** One step of the long division; [rq] holds the remainder in its high half
    and the quotient so far in its low one. *)
Definition calc_divu_step (divisor : Z) (_ rq : Z) : Z :=
  let rem := i64 ((rq >> 32) .& 0xffffffff) in
  let rem := rem - divisor in
  if rem <? 0 then u64 (Z.shiftl rq 1)
  else
    let rq := (rq .& 0xffffffff) .| u64 (Z.shiftl (u64 rem) 32) in
    let rq := u64 (Z.shiftl rq 1) in
    rq .| 0x1.

(** Quotient and remainder. *)
Definition calc_divu (divisor dividend : Z) : Z * Z :=
  let rq := u64 (Z.shiftl dividend 1) in
  let rq := for_upto 32 (calc_divu_step divisor) rq in
  (u32 (rq .& 0xffffffff), u32 (rq >> 33)).

(** ** Bit fields and sign extension *)

Lemma shl32_1 k : 0 <= k < 32 -> 1 << k = 2 ^ k.
Proof.
  intros. unfold shl32. rewrite Z.shiftl_1_l. apply wrap_small. split; [lia|].
  apply Z.pow_lt_mono_r; lia.
Qed.

Lemma low_mask k : 0 <= k < 32 -> u32 ((1 << k) - 1) = 2 ^ k - 1.
Proof.
  intros. rewrite shl32_1 by done. apply wrap_small.
  pose proof (Z.pow_lt_mono_r 2 k 32 ltac:(lia) ltac:(lia) ltac:(lia)).
  unfold is_word. lia.
Qed.

Lemma get_bits_wrap x s w : 0 <= w < 32 -> GET_BITS x s w = wrap w (x >> s).
Proof. intros. unfold GET_BITS. rewrite low_mask by done. apply land_mask. lia. Qed.

Lemma is_bit_set_testbit a k : 0 <= k < 32 -> IS_BIT_SET a k = Z.testbit a k.
Proof.
  intros. unfold IS_BIT_SET. rewrite shl32_1 by done. apply truth_land_pow2. lia.
Qed.

Lemma is_neg_testbit a : IS_NEG a = Z.testbit a 31.
Proof. apply (is_bit_set_testbit a 31). lia. Qed.

(** The sign bit decides the sign of the value. *)
Lemma is_neg_i32 a : is_u32 a -> IS_NEG a = (i32 a <? 0).
Proof.
  intros Ha. rewrite is_neg_testbit, (swrap_word 32) by (lia || done).
  change (32 - 1) with 31. destruct Ha.
  destruct (Z.testbit a 31); symmetry; [apply Z.ltb_lt|apply Z.ltb_ge]; lia.
Qed.

Lemma zero_extend_wrap v n : 0 <= n < 32 -> zero_extend v n = wrap n v.
Proof. intros. unfold zero_extend. rewrite low_mask by done. apply land_mask. lia. Qed.

(** Bits [k] to 31. *)
Lemma high_mask_bits k i : 0 <= k < 32 -> 0 <= i ->
  Z.testbit (0xffffffff << k) i = (i <? 32) && (k <=? i).
Proof.
  intros. unfold shl32. change 0xffffffff with (2 ^ 32 - 1).
  rewrite testbit_wrap by lia. destruct (Z.ltb_spec i 32); simpl; [|done].
  rewrite Z.shiftl_spec by done. destruct (Z.leb_spec k i).
  - rewrite testbit_mask by lia. apply Z.ltb_lt. lia.
  - apply Z.testbit_neg_r. lia.
Qed.

Lemma lor_disjoint_add a b : Z.land a b = 0 -> Z.lor a b = a + b.
Proof. intros H. rewrite <- Z.lxor_lor, <- Z.add_nocarry_lxor; done. Qed.

(** Filling the bits above the sign bit subtracts [2 ^ (k + 1)] modulo 2^32. *)
Lemma lor_high_mask v k :
  0 <= k < 31 -> is_word (k + 1) v -> Z.testbit v k = true ->
  v .| (0xffffffff << k) = v + (2 ^ 32 - 2 ^ (k + 1)).
Proof.
  intros Hk Hv Hb.
  assert (Hh : 2 ^ 32 - 2 ^ (k + 1) = Z.shiftl (2 ^ (31 - k) - 1) (k + 1)).
  { rewrite Z.shiftl_mul_pow2, Z.mul_sub_distr_r, <- Z.pow_add_r by lia.
    rewrite Z.mul_1_l. do 2 f_equal. lia. }
  assert (Hd : Z.land v (2 ^ 32 - 2 ^ (k + 1)) = 0).
  { rewrite Hh. zbits. destruct (Z.leb_spec (k + 1) i).
    - by rewrite (testbit_word (k + 1) v) by (done || lia).
    - rewrite (Z.testbit_neg_r _ (i - (k + 1))) by lia. apply andb_false_r. }
  rewrite <- lor_disjoint_add by done. rewrite Hh.
  apply Z.bits_inj'. intros i Hi.
  rewrite !Z.lor_spec, high_mask_bits, Z.shiftl_spec by lia.
  destruct (Z.leb_spec (k + 1) i).
  - rewrite (testbit_word (k + 1) v), testbit_mask by (done || lia). simpl.
    zbits_cases; destruct (Z.leb_spec k i); (lia || done).
  - rewrite (Z.testbit_neg_r (_ - 1)) by lia. rewrite orb_false_r.
    destruct (Z.eq_dec i k) as [->|].
    + by rewrite Hb.
    + destruct (Z.leb_spec k i); [lia|]. by rewrite andb_false_r, orb_false_r.
Qed.

Lemma sign_extend_swrap v k :
  0 <= k < 31 -> is_word (k + 1) v -> sign_extend v k = swrap (k + 1) v.
Proof.
  intros Hk Hv. unfold sign_extend. rewrite is_bit_set_testbit by lia.
  rewrite (swrap_word (k + 1)) by (done || lia).
  replace (k + 1 - 1) with k by lia. destruct Hv as [Hl Hh].
  pose proof (Z.pow_le_mono_r 2 (k + 1) 31 ltac:(lia) ltac:(lia)).
  destruct (Z.testbit v k) eqn:Hb.
  - rewrite lor_high_mask by done.
    rewrite <- (swrap_wrap 32). unfold wrap.
    rewrite <- (Z_mod_plus_full _ (-1)).
    replace (v + (2 ^ 32 - 2 ^ (k + 1)) + -1 * 2 ^ 32) with (v - 2 ^ (k + 1)) by lia.
    fold (u32 (v - 2 ^ (k + 1))). rewrite swrap_wrap.
    apply swrap_small; unfold is_sword; lia.
  - apply swrap_small; unfold is_sword; lia.
Qed.

Lemma exts_swrap v : is_word 16 v -> exts v = swrap 16 v.
Proof. intros. by apply (sign_extend_swrap v 15). Qed.

Lemma testbit_swrap_high k v j : 0 <= k -> is_word (k + 1) v -> k <= j ->
  Z.testbit (swrap (k + 1) v) j = Z.testbit v k.
Proof.
  intros Hk Hv Hj. pose proof (swrap_range (k + 1) v ltac:(lia)) as Hr.
  rewrite (swrap_word (k + 1)) in * by (done || lia).
  replace (k + 1 - 1) with k in * by lia. unfold is_sword in Hr.
  replace (k + 1 - 1) with k in Hr by lia.
  destruct (Z.testbit v k).
  - rewrite <- (Z.opp_involutive (v - 2 ^ (k + 1))). rewrite Z.bits_opp by lia.
    assert (Hw : is_word k (Z.pred (- (v - 2 ^ (k + 1))))).
    { destruct Hv. split; [lia|]. lia. }
    by rewrite (testbit_word k) by (done || lia).
  - apply (testbit_word k); [|lia]. destruct Hv. split; lia.
Qed.

(** ** Addition *)

Lemma land_pow2_b2z a i : 0 <= i -> a .& 2 ^ i = b2z (Z.testbit a i) * 2 ^ i.
Proof.
  intros. rewrite <- Z.shiftl_mul_pow2 by done. zbits.
  destruct (Z.eqb_spec i0 i) as [->|].
  - rewrite testbit_b2z, Z.sub_diag by lia. by rewrite andb_true_r.
  - rewrite andb_false_r. destruct (Z.le_gt_cases i i0).
    + rewrite testbit_b2z by lia. by destruct (Z.eqb_spec (i0 - i) 0); [lia|].
    + symmetry. apply Z.testbit_neg_r. lia.
Qed.

Lemma mod_pow2_succ a i : 0 <= i ->
  a mod 2 ^ (i + 1) = a mod 2 ^ i + b2z (Z.testbit a i) * 2 ^ i.
Proof.
  intros. rewrite Z.pow_add_r, Z.rem_mul_r, <- Z.testbit_spec' by lia.
  ring.
Qed.

Lemma lor_pow2_add r i x :
  0 <= i -> is_word i r -> 0 <= x <= 1 -> r .| x * 2 ^ i = r + x * 2 ^ i.
Proof.
  intros Hi Hr Hx. apply lor_disjoint_add.
  rewrite <- Z.shiftl_mul_pow2 by done. zbits. destruct (Z.le_gt_cases i i0).
  - by rewrite (testbit_word i r) by (done || lia).
  - rewrite (Z.testbit_neg_r _ (i0 - i)) by lia. apply andb_false_r.
Qed.

(** A full adder at bit [i]. *)
Lemma calc_add_step_spec a b i r c :
  0 <= i < 32 -> is_word i r ->
  let x := Z.testbit a i in
  let y := Z.testbit b i in
  calc_add_step a b i (r, c) =
  (r + b2z (xorb (xorb x y) c) * 2 ^ i, (x && y) || (c && xorb x y)).
Proof.
  intros Hi Hr x y. unfold calc_add_step. rewrite shl32_1 by done.
  rewrite !land_pow2_b2z by lia. fold x y.
  assert (Hp : 0 < 2 ^ i) by lia.
  replace (if c then 2 ^ i else 0) with (b2z c * 2 ^ i)
    by (destruct c; cbn [Z.b2z]; lia).
  rewrite <- !Z.shiftl_mul_pow2, <- !Z.shiftl_lxor, <- !Z.shiftl_land,
    <- Z.shiftl_lor, !Z.shiftl_mul_pow2 by lia.
  assert (Ht : forall n, truth (n * 2 ^ i) = truth n).
  { intros n. unfold truth. f_equal. destruct (Z.eqb_spec n 0), (Z.eqb_spec (n * 2 ^ i) 0); nia. }
  rewrite Ht. destruct x, y, c; apply pair_equal_spec;
    (split; [|done]); cbn [xorb Z.lxor Z.land Z.b2z];
    rewrite lor_pow2_add by (done || lia); done.
Qed.

Lemma calc_add_loop a b cin :
  let '(r, c) := for_upto 32 (calc_add_step a b) (0, cin) in
  is_u32 r /\ r + b2z c * 2 ^ 32 = u32 a + u32 b + b2z cin.
Proof.
  pose proof (for_upto_inv
    (fun i '(r, c) => is_word i r /\
       r + b2z c * 2 ^ i = a mod 2 ^ i + b mod 2 ^ i + b2z cin)
    32 (calc_add_step a b) (0, cin)) as H.
  apply H; [lia| |].
  - split; [by vm_compute|]. rewrite !Z.mod_1_r. simpl. lia.
  - clear H. intros i [r c] Hi [Hr Heq]. rewrite calc_add_step_spec by done.
    rewrite !mod_pow2_succ, !Z.pow_add_r by lia. unfold is_word in *.
    rewrite Z.pow_add_r by lia.
    assert (0 < 2 ^ i) by lia.
    destruct (Z.testbit a i), (Z.testbit b i), c;
      cbn [xorb andb orb Z.b2z] in Heq |- *; change (2 ^ 1) with 2; lia.
Qed.

Lemma calc_add_carry cin a b : is_u32 a -> is_u32 b ->
  let '(r, o, c) := calc_add cin a b in
  r = u32 (a + b + b2z cin) /\ c = (2 ^ 32 <=? a + b + b2z cin).
Proof.
  intros Ha Hb. unfold calc_add. pose proof (calc_add_loop a b cin) as H.
  destruct (for_upto 32 _ _) as [r c]. destruct H as [Hr H].
  rewrite !wrap_small in H by done. rewrite <- H. unfold is_word in *.
  split.
  - unfold wrap. rewrite Z_mod_plus_full. symmetry. by apply Z.mod_small.
  - destruct c; cbn [Z.b2z] in *; lia.
Qed.

(** The overflow test compares signs; it finds the sums out of range. *)
Lemma is_overflow_spec cin a b : is_u32 a -> is_u32 b ->
  is_overflow a b (u32 (a + b + b2z cin)) =
  negb (in_sword 32 (i32 a + i32 b + b2z cin)).
Proof.
  intros Ha Hb. unfold is_overflow, IS_POS.
  rewrite !is_neg_i32 by (done || (apply wrap_range; lia)).
  rewrite swrap_wrap. unfold in_sword, swrap.
  rewrite !(wrap_small 32 a), !(wrap_small 32 b) by done.
  unfold is_word, wrap in *. change (2 ^ 32) with 4294967296 in *.
  change (2 ^ (32 - 1)) with 2147483648.
  assert (0 <= b2z cin <= 1) by (destruct cin; cbn; lia).
  pose proof (Z.div_mod (a + b + b2z cin) 4294967296 ltac:(lia)).
  pose proof (Z.mod_pos_bound (a + b + b2z cin) 4294967296 ltac:(lia)).
  destruct (Z.ltb_spec a 2147483648), (Z.ltb_spec b 2147483648),
    (Z.ltb_spec ((a + b + b2z cin) mod 4294967296) 2147483648); lia.
Qed.

(** ** Multiplication *)

Lemma land_1_odd z : truth (z .& 0x1) = Z.odd z.
Proof.
  change 0x1 with (2 ^ 0). rewrite truth_land_pow2 by done. apply Z.bit0_odd.
Qed.

Lemma truth_mod2_odd z : truth (z mod 2) = Z.odd z.
Proof. rewrite Zmod_odd. by destruct (Z.odd z). Qed.

(** The two multiplication loops take the same steps. *)
Lemma peasant_mulu_step_eq i st :
  let '(prod, mand, mier) := st in
  peasant_mulu_step i (prod, mand, mier) = calc_mulu_step i (prod, mand, mier).
Proof.
  destruct st as [[prod mand] mier]. unfold peasant_mulu_step, calc_mulu_step.
  rewrite land_1_odd, truth_mod2_odd, Z.shiftl_mul_pow2, Z.shiftr_div_pow2 by done.
  done.
Qed.

(** Invariant of both: what is left to multiply and what was summed up make
    the product, and none of it reaches 2^64. *)
Definition mulu_inv (a b i : Z) (st : Z * Z * Z) : Prop :=
  let '(prod, mand, mier) := st in
  mand = u64 (a * 2 ^ i) /\ mier = b / 2 ^ i /\ prod = a * (b mod 2 ^ i).

Lemma mulu_step_inv a b i st : is_u32 a -> is_u32 b -> 0 <= i < 32 ->
  mulu_inv a b i st -> mulu_inv a b (i + 1) (calc_mulu_step i st).
Proof.
  destruct st as [[prod mand] mier]. intros Ha Hb Hi (-> & -> & ->).
  unfold calc_mulu_step, mulu_inv. rewrite land_1_odd.
  rewrite Z.shiftl_mul_pow2, Z.shiftr_div_pow2 by done. repeat split.
  - rewrite wrap_mul_l. f_equal. rewrite Z.pow_add_r by lia. ring.
  - rewrite Z.div_div, <- Z.pow_add_r by lia. done.
  - rewrite mod_pow2_succ by lia.
    rewrite Z.testbit_odd, Z.shiftr_div_pow2 by lia.
    destruct (Z.odd _); cbn [Z.b2z]; [|ring].
    rewrite wrap_add_r, Z.mul_1_l, <- Z.mul_add_distr_l. apply wrap_small.
    pose proof (Z.mod_pos_bound b (2 ^ i) ltac:(lia)).
    pose proof (Z.pow_le_mono_r 2 i 31 ltac:(lia) ltac:(lia)).
    unfold is_word in *. change (2 ^ 32) with 4294967296 in *.
    change (2 ^ 31) with 2147483648 in *.
    change (2 ^ 64) with (4294967296 * 4294967296). split; nia.
Qed.

Lemma mulu_loop_inv a b : is_u32 a -> is_u32 b ->
  mulu_inv a b 32 (for_upto 32 calc_mulu_step (0, u64 a, b)).
Proof.
  intros. apply for_upto_inv; [lia| |intros; by apply mulu_step_inv].
  unfold mulu_inv. by rewrite Z.mul_1_r, Z.div_1_r, Z.mod_1_r, Z.mul_0_r.
Qed.

Lemma calc_mulu_mul a b : is_u32 a -> is_u32 b -> calc_mulu a b = a * b.
Proof.
  intros Ha Hb. unfold calc_mulu. pose proof (mulu_loop_inv a b Ha Hb) as H.
  destruct (for_upto 32 _ _) as [[prod mand] mier]. destruct H as (_ & _ & ->).
  f_equal. by apply Z.mod_small.
Qed.

Lemma peasant_mulu_calc a b : peasant_mulu a b = calc_mulu a b.
Proof.
  unfold peasant_mulu, calc_mulu.
  rewrite (for_upto_ext 32 peasant_mulu_step calc_mulu_step); [done|].
  intros i [[prod mand] mier]. apply (peasant_mulu_step_eq i (prod, mand, mier)).
Qed.

(** [(x ^ -1) + 1] negates. *)
Lemma lxor_ones w z : 0 <= w -> is_word w z -> z .^ (2 ^ w - 1) = 2 ^ w - 1 - z.
Proof.
  intros Hw Hz.
  assert (Hl : z .^ (2 ^ w - 1) = wrap w (Z.lnot z)).
  { zbits. destruct (Z.ltb_spec i w); simpl; [apply xorb_true_r|].
    by rewrite (testbit_word w z). }
  rewrite Hl. unfold Z.lnot, wrap. rewrite <- (Z_mod_plus_full _ 1).
  rewrite Z.mod_small; destruct Hz; lia.
Qed.

Lemma neg32 z : is_u32 z -> u32 ((z .^ 0xffffffff) + 1) = u32 (- z).
Proof.
  intros. change 0xffffffff with (2 ^ 32 - 1). rewrite lxor_ones by (done || lia).
  unfold wrap. rewrite <- (Z_mod_plus_full (- z) 1). f_equal. lia.
Qed.

(** The sign masks of [calc_mul]: INT_MIN for a negative operand, else 0. *)
Lemma sign_mask a : is_i32 a ->
  i32 (u32 a .& 0x80000000) = if a <? 0 then - 2 ^ 31 else 0.
Proof.
  intros [Hl Hh]. change 0x80000000 with (2 ^ 31). rewrite land_pow2_b2z by lia.
  assert (Z.testbit (u32 a) 31 = (a <? 0)) as ->.
  { rewrite <- is_neg_testbit, is_neg_i32 by (apply wrap_range; lia).
    rewrite swrap_wrap. rewrite swrap_small; [done|lia|done]. }
  by destruct (a <? 0).
Qed.

(** The magnitude, as an unsigned word: 2^31 for INT_MIN. *)
Lemma magnitude a : is_i32 a ->
  u32 (if truth (i32 (u32 a .& 0x80000000))
       then i32 (u32 ((u32 a .^ 0xffffffff) + 1)) else a) = Z.abs a.
Proof.
  intros Ha. rewrite sign_mask by done. destruct Ha as [Hl Hh].
  destruct (Z.ltb_spec a 0);
    [change (truth _) with true|change (truth _) with false]; cbv iota.
  - rewrite wrap_swrap, neg32, wrap_wrap by (apply wrap_range; lia).
    rewrite <- Z.sub_0_l, wrap_sub_r, Z.sub_0_l, Z.abs_neq by lia.
    apply wrap_small. split; lia.
  - rewrite Z.abs_eq by lia. apply wrap_small. split; lia.
Qed.

Lemma calc_mul_mul a b : is_i32 a -> is_i32 b -> calc_mul a b = a * b.
Proof.
  intros Ha Hb. unfold calc_mul. rewrite !magnitude by done.
  rewrite calc_mulu_mul by (destruct Ha, Hb; split; lia).
  rewrite !sign_mask by done. destruct Ha as [Ha1 Ha2], Hb as [Hb1 Hb2].
  rewrite <- Z.abs_mul.
  assert (Z.abs (a * b) <= 2 ^ 62).
  { rewrite Z.abs_mul. change (2 ^ 62) with (2 ^ 31 * 2 ^ 31).
    apply Z.mul_le_mono_nonneg; lia. }
  assert (Hneg : i64 (u64 (Z.abs (a * b) - 1) .^ 0xffffffffffffffff) = - Z.abs (a * b)).
  { change 0xffffffffffffffff with (2 ^ 64 - 1).
    rewrite lxor_ones by (lia || apply wrap_range; lia).
    rewrite <- swrap_wrap, wrap_sub_r.
    replace (2 ^ 64 - 1 - (Z.abs (a * b) - 1)) with (- Z.abs (a * b) + 1 * 2 ^ 64) by lia.
    unfold wrap. rewrite Z_mod_plus_full. fold (u64 (- Z.abs (a * b))).
    rewrite swrap_wrap. apply swrap_small; [lia|]. split; lia. }
  destruct (Z.ltb_spec a 0), (Z.ltb_spec b 0);
    match goal with |- context [truth ?t] =>
      let v := eval vm_compute in (truth t) in change (truth t) with v end;
    cbv iota; rewrite ?Hneg; try (rewrite swrap_small; [|lia|split; lia]); nia.
Qed.

(** ** Division *)

(** A 64-bit word from its halves, and back. *)
Lemma join_split x l : is_u32 l ->
  (x * 2 ^ 32 + l) >> 32 = x /\ (x * 2 ^ 32 + l) .& 0xffffffff = l.
Proof.
  intros Hl. change 0xffffffff with (2 ^ 32 - 1). rewrite land_mask by lia.
  unfold wrap. rewrite Z.shiftr_div_pow2 by lia. destruct Hl. split.
  - symmetry. apply Z.div_unique with l; lia.
  - symmetry. apply Z.mod_unique with x; lia.
Qed.

Lemma lor_join h l : is_u32 l -> l .| h * 2 ^ 32 = h * 2 ^ 32 + l.
Proof.
  intros Hl. rewrite lor_disjoint_add; [lia|].
  rewrite <- Z.shiftl_mul_pow2 by lia. zbits. destruct (Z.lt_ge_cases i 32).
  - rewrite (Z.testbit_neg_r _ (i - 32)) by lia. apply andb_false_r.
  - by rewrite (testbit_word 32 l) by (done || lia).
Qed.

(** One step, seen from the halves [x] and [l] of [rq]. *)
Lemma calc_divu_step_halves d i x l :
  is_u32 d -> is_u32 x -> is_u32 l ->
  calc_divu_step d i (x * 2 ^ 32 + l) =
  u64 (if x <? d then 2 * (x * 2 ^ 32 + l) else 2 * ((x - d) * 2 ^ 32 + l) + 1).
Proof.
  intros Hd Hx Hl. unfold calc_divu_step.
  destruct (join_split x l Hl) as [-> ->].
  change 0xffffffff with (2 ^ 32 - 1). rewrite land_mask, wrap_small by (done || lia).
  unfold is_word in *. rewrite swrap_small by (unfold is_sword; lia).
  destruct (Z.ltb_spec x d), (Z.ltb_spec (x - d) 0);
    [|exfalso; lia|exfalso; lia|].
  - done.
  - rewrite (wrap_small 64 (x - d)) by (split; lia).
    rewrite !Z.shiftl_mul_pow2 by lia.
    rewrite (wrap_small 64 ((x - d) * _)) by (split; lia).
    rewrite lor_join by done.
    set (y := (x - d) * 2 ^ 32 + l).
    replace (y * 2 ^ 1) with (2 * y) by lia.
    assert (He : u64 (2 * y) = 2 * (y mod 2 ^ 63)).
    { unfold wrap. change (2 ^ 64) with (2 * 2 ^ 63). by rewrite Z.mul_mod_distr_l. }
    rewrite He, Z.lor_comm, lor_disjoint_add.
    2: { change 1 with (2 ^ 1 - 1). rewrite Z.land_comm, land_mask by lia.
         unfold wrap. change (2 ^ 1) with 2. by rewrite Z.mul_comm, Z_mod_mult. }
    rewrite <- He, <- wrap_add_l. symmetry. rewrite Z.add_comm. apply wrap_small.
    rewrite He. pose proof (Z.mod_pos_bound y (2 ^ 63) ltac:(lia)).
    unfold is_word. change (2 ^ 64) with (2 * 2 ^ 63). lia.
Qed.

(** Before step [i]: the top [i] bits of the dividend have been divided. *)
Definition divu_inv (d n i rq : Z) : Prop :=
  exists q r, n / 2 ^ (32 - i) = q * d + r /\ 0 <= q /\ 0 <= r < d /\
    rq = u64 (r * 2 ^ 33 + n mod 2 ^ (32 - i) * 2 ^ (i + 1) + q).

Lemma divu_step_inv d n i rq :
  is_u32 d -> 0 < d -> is_u32 n -> 0 <= i < 32 ->
  divu_inv d n i rq -> divu_inv d n (i + 1) (calc_divu_step d i rq).
Proof.
  intros Hd Hd0 Hn Hi (q & r & Hdiv & Hq & Hr & ->).
  unfold divu_inv. replace (32 - (i + 1)) with (31 - i) by lia.
  assert (HPQ : 2 ^ (31 - i) * 2 ^ (i + 1) = 2 ^ 32)
    by (rewrite <- Z.pow_add_r by lia; f_equal; lia).
  replace (32 - i) with (31 - i + 1) in * by lia.
  rewrite (Z.pow_add_r 2 (i + 1) 1) by lia.
  rewrite mod_pow2_succ by lia.
  assert (Hdiv' : n / 2 ^ (31 - i) = 2 * (q * d + r) + b2z (Z.testbit n (31 - i))).
  { rewrite <- Hdiv, Z.pow_add_r, <- Z.div_div by lia. change (2 ^ 1) with 2.
    rewrite Z.testbit_spec' by lia. apply Z.div_mod. lia. }
  assert (Hlt : n / 2 ^ (31 - i) < 2 ^ (i + 1)).
  { apply Z.div_lt_upper_bound; [lia|]. rewrite HPQ. apply Hn. }
  pose proof (Z.mod_pos_bound n (2 ^ (31 - i)) ltac:(lia)) as Hm.
  assert (Hp31 : 2 ^ (i + 1) <= 2 ^ 32) by (apply Z.pow_le_mono_r; lia).
  assert (Hb : 0 <= b2z (Z.testbit n (31 - i)) <= 1) by (destruct (Z.testbit _ _); cbn; lia).
  set (P := 2 ^ (31 - i)) in *. set (Q := 2 ^ (i + 1)) in *.
  set (t := n mod P) in *. set (bt := b2z (Z.testbit n (31 - i))) in *.
  assert (Hqd : q <= q * d) by nia.
  assert (HtQ : t * Q <= 2 ^ 32 - Q) by nia.
  rewrite Hdiv' in *.
  assert (Hx : is_u32 (2 * r + bt)) by (split; lia).
  assert (Hl : is_u32 (t * Q + q)) by (split; nia).
  replace (r * 2 ^ 33 + (t + bt * P) * Q + q)
    with ((2 * r + bt) * 2 ^ 32 + (t * Q + q)) by (rewrite <- HPQ; change (2 ^ 33) with (2 * 2 ^ 32); rewrite <- HPQ; ring).
  rewrite wrap_small by (destruct Hx, Hl; split; lia).
  rewrite calc_divu_step_halves by done.
  destruct (Z.ltb_spec (2 * r + bt) d).
  - exists (2 * q), (2 * r + bt). repeat split; [lia..|]. f_equal. lia.
  - exists (2 * q + 1), (2 * r + bt - d). repeat split; [lia..|]. f_equal. lia.
Qed.

(** The quotient is exact.  The remainder comes out of the top 31 bits of
    [rq]: its own top bit is lost. *)
Lemma calc_divu_div d n :
  is_u32 d -> 0 < d -> is_u32 n ->
  calc_divu d n = (n / d, (n mod d) mod 2 ^ 31).
Proof.
  intros Hd Hd0 Hn. unfold calc_divu.
  pose proof (for_upto_inv (divu_inv d n) 32 (calc_divu_step d)
    (u64 (Z.shiftl n 1)) ltac:(lia)) as H.
  destruct H as (q & r & Hdiv & Hq & Hr & ->).
  - exists 0, 0. destruct Hn. rewrite Z.div_small, Z.mod_small by lia.
    repeat split; [lia..|]. rewrite Z.shiftl_mul_pow2 by lia. f_equal. lia.
  - intros. by apply divu_step_inv.
  - rewrite Z.div_1_r in Hdiv. rewrite Z.mod_1_r, Z.mul_0_l, Z.add_0_r.
    assert (Hq32 : is_u32 q) by (destruct Hn; split; nia).
    rewrite <- (Z.div_unique_pos n d q r), <- (Z.mod_unique_pos n d q r) by lia.
    change 0xffffffff with (2 ^ 32 - 1). rewrite land_mask, Z.shiftr_div_pow2 by lia.
    unfold wrap. change (2 ^ 64) with (2 ^ 33 * 2 ^ 31).
    rewrite Z.rem_mul_r by lia. unfold is_word in *.
    rewrite !Z.div_add_l, (Z.div_small q (2 ^ 33)), Z.add_0_r by lia.
    replace (r * 2 ^ 33 + q) with (q + r * 2 ^ 33) by lia.
    rewrite Z_mod_plus_full, (Z.mod_small q (2 ^ 33)) by lia.
    f_equal.
    + rewrite Z.add_mod, Z.mul_comm, (Z.mod_small q) by lia.
      change (2 ^ 33) with (2 * 2 ^ 32). rewrite Z.mul_assoc, Z_mod_mult, Z.add_0_r.
      rewrite Z.mod_mod by lia. apply Z.mod_small. lia.
    + rewrite Z.add_comm, Z.mul_comm, Z.div_add_l, (Z.div_small q), Z.add_0_r by lia.
      pose proof (Z.mod_pos_bound r (2 ^ 31) ltac:(lia)). apply Z.mod_small. lia.
Qed.
