(* ===== verification/Decode.v ===== *)
(** Instruction words and their decoding: the opcodes of
    src/system/software/sim_module/simulator.h, the field macros and [decode]
    of simulator.c. *)

From S2P Require Import Prelude Arith.

Open Scope Z_scope.
Open Scope cword_scope.

(** ** Primary opcodes *)

Definition OP_J : Z := 0x0.
Definition OP_JAL : Z := 0x1.
Definition OP_JALR : Z := 0x12.
Definition OP_BNF : Z := 0x3.
Definition OP_BF : Z := 0x4.
Definition OP_NOP : Z := 0x5.
Definition OP_JR : Z := 0x11.
Definition OP_LWZ : Z := 0x21.
Definition OP_LWS : Z := 0x22.
Definition OP_LBZ : Z := 0x23.
Definition OP_LBS : Z := 0x24.
Definition OP_LHZ : Z := 0x25.
Definition OP_LHS : Z := 0x26.
Definition OP_ADDI : Z := 0x27.
Definition OP_ADDIC : Z := 0x28.
Definition OP_ORI : Z := 0x2a.
Definition OP_XORI : Z := 0x2b.
Definition OP_MULI : Z := 0x2c.
Definition OP_SFI : Z := 0x2f.
Definition OP_SW : Z := 0x35.
Definition OP_SB : Z := 0x36.
Definition OP_SH : Z := 0x37.
Definition OP_ALU : Z := 0x38.
Definition OP_MAC : Z := 0x31.
Definition OP_MACI : Z := 0x13.
Definition OP_MACRC_MOVHI : Z := 0x6.
Definition OP_MTSPR : Z := 0x30.
Definition OP_MFSPR : Z := 0x2d.
Definition OP_ANDI : Z := 0x29.
Definition OP_RO_SHIFT_I : Z := 0x2e.
Definition OP_SF : Z := 0x39.
Definition OP_SYS_TRAP_SYNC : Z := 0x08.
Definition OP_RFE : Z := 0x9.

(** ** Secondary opcodes *)

Definition ADD_ALU_OP : Z := 0x0.
Definition ADDC_ALU_OP : Z := 0x1.
Definition SUB_ALU_OP : Z := 0x2.
Definition AND_ALU_OP : Z := 0x3.
Definition OR_ALU_OP : Z := 0x4.
Definition XOR_ALU_OP : Z := 0x5.
Definition EXTHS_ALU_OP : Z := 0xc.
Definition EXTBS_ALU_OP : Z := Z.lor (Z.shiftl 0x1 6) 0xc.
Definition EXTBZ_ALU_OP : Z := Z.lor (Z.shiftl 0x3 6) 0xc.
Definition EXTHZ_ALU_OP : Z := Z.lor (Z.shiftl 0x2 6) 0xc.
Definition EXTWS_ALU_OP : Z := Z.lor (Z.shiftl 0x0 6) 0xd.
Definition EXTWZ_ALU_OP : Z := Z.lor (Z.shiftl 0x1 6) 0xd.
Definition SLL_ALU_OP : Z := Z.lor (Z.shiftl 0x0 6) 0x8.
Definition SRL_ALU_OP : Z := Z.lor (Z.shiftl 0x1 6) 0x8.
Definition SRA_ALU_OP : Z := Z.lor (Z.shiftl 0x2 6) 0x8.
Definition DIVU_ALU_OP : Z := Z.lor (Z.shiftl 0x3 8) 0xa.
Definition DIV_ALU_OP : Z := Z.lor (Z.shiftl 0x3 8) 0x9.
Definition FF1_ALU_OP : Z := Z.lor (Z.shiftl 0x0 8) 0xf.
Definition FL1_ALU_OP : Z := Z.lor (Z.shiftl 0x1 8) 0xf.
Definition MUL_ALU_OP : Z := Z.lor (Z.shiftl 0x3 8) 0x6.
Definition MULU_ALU_OP : Z := Z.lor (Z.shiftl 0x3 8) 0xb.
Definition ROR_ALU_OP : Z := Z.lor (Z.shiftl 0x3 6) 0x8.
Definition CMOV_ALU_OP : Z := Z.lor (Z.shiftl 0x0 6) 0xe.

Definition SFEQ_OP : Z := 0x0.
Definition SFNE_OP : Z := 0x1.
Definition SFGTU_OP : Z := 0x2.
Definition SFGEU_OP : Z := 0x3.
Definition SFLTU_OP : Z := 0x4.
Definition SFLEU_OP : Z := 0x5.
Definition SFGTS_OP : Z := 0xa.
Definition SFGES_OP : Z := 0xb.
Definition SFLTS_OP : Z := 0xc.
Definition SFLES_OP : Z := 0xd.

Definition RS_SLLI_OP : Z := 0x0.
Definition RS_SRLI_OP : Z := 0x1.
Definition RS_SRAI_OP : Z := 0x2.
Definition RS_RORI_OP : Z := 0x3.

(** ** Fields *)

Definition OPCODE (inst : Z) : Z := GET_BITS inst 26 6.
Definition SF_OP (inst : Z) : Z := GET_BITS inst 21 5.
Definition ALU_OP (inst : Z) : Z := GET_BITS inst 0 10.
Definition ALU_SHIFT (inst : Z) : bool :=
  (inst .& 0xf =? 0xc) || (inst .& 0xf =? 0x8).
Definition RO_SHIFT_I_OP (inst : Z) : Z := GET_BITS inst 6 2.

Definition I_HI (inst : Z) : Z := GET_BITS inst 21 5.
Definition I_LOW (inst : Z) : Z := GET_BITS inst 0 11.
Definition SPLIT_I (inst : Z) : Z := (I_HI inst << 11) .| I_LOW inst.
Definition SPLIT_K (inst : Z) : Z := SPLIT_I inst.
Definition I_FIELD (inst : Z) : Z := GET_BITS inst 0 16.
Definition K_FIELD (inst : Z) : Z := GET_BITS inst 0 16.
Definition L_FIELD (inst : Z) : Z := GET_BITS inst 0 5.
Definition N_FIELD (inst : Z) : Z := GET_BITS inst 0 26.

Definition RD (inst : Z) : Z := GET_BITS inst 21 5.
Definition RA (inst : Z) : Z := GET_BITS inst 16 5.
Definition RB (inst : Z) : Z := GET_BITS inst 11 5.

(** [struct control] *)
Record control : Type := Control {
  c_inst : Z;
  c_opcode : Z;
  c_sf_op : Z;
  c_alu_op : Z;
  c_ro_shift_i_op : Z;
  c_rD : Z;
  c_rA : Z;
  c_rB : Z;
  c_N : Z;
  c_K : Z;
  c_I : Z;
  c_L : Z;
}.

Definition decode (inst : Z) : control :=
  let opcode := OPCODE inst in
  {| c_inst := inst;
     c_opcode := opcode;
     c_sf_op := SF_OP inst;
     c_alu_op :=
       if ALU_SHIFT inst then ALU_OP inst .& not32 0x30
       else ALU_OP inst .& not32 0xf0;
     c_ro_shift_i_op := RO_SHIFT_I_OP inst;
     c_rD := RD inst;
     c_rA := RA inst;
     c_rB := RB inst;
     c_N := N_FIELD inst;
     c_K := if opcode =? OP_MTSPR then SPLIT_K inst else K_FIELD inst;
     c_I :=
       if (opcode =? OP_SW) || (opcode =? OP_SH) || (opcode =? OP_SB)
       then SPLIT_I inst else I_FIELD inst;
     c_L := L_FIELD inst |}.

(** ** Ranges of the decoded fields: the invariants simulator.h states *)

Record control_wf (cont : control) : Prop := {
  cwf_inst : is_u32 (c_inst cont);
  cwf_opcode : is_word 6 (c_opcode cont);
  cwf_sf_op : is_word 5 (c_sf_op cont);
  cwf_alu_op : is_word 10 (c_alu_op cont);
  cwf_ro_shift_i_op : is_word 2 (c_ro_shift_i_op cont);
  cwf_rD : is_word 5 (c_rD cont);
  cwf_rA : is_word 5 (c_rA cont);
  cwf_rB : is_word 5 (c_rB cont);
  cwf_N : is_word 26 (c_N cont);
  cwf_K : is_word 16 (c_K cont);
  cwf_I : is_word 16 (c_I cont);
  cwf_L : is_word 5 (c_L cont);
}.

Lemma get_bits_word x s w : 0 <= w < 32 -> is_word w (GET_BITS x s w).
Proof. intros. rewrite get_bits_wrap by done. apply wrap_range. lia. Qed.

#[export] Hint Extern 1 (is_word _ (GET_BITS _ _ _)) => apply get_bits_word; lia : word.

Lemma split_i_word inst : is_word 16 (SPLIT_I inst).
Proof.
  unfold SPLIT_I. apply is_word_lor; [lia| |].
  - unfold I_HI. destruct (get_bits_word inst 21 5 ltac:(lia)) as [Hl Hh].
    unfold shl32. rewrite Z.shiftl_mul_pow2, wrap_small by (lia || split; lia).
    split; lia.
  - apply (is_word_weaken 11); [lia|]. by apply get_bits_word.
Qed.

Lemma decode_in_range inst : is_u32 inst -> control_wf (decode inst).
Proof.
  intros Hi. split; cbn [decode c_inst c_opcode c_sf_op c_alu_op c_ro_shift_i_op
    c_rD c_rA c_rB c_N c_K c_I c_L]; try (apply get_bits_word; lia).
  - done.
  - destruct (ALU_SHIFT inst); apply is_word_land_l; (lia || apply get_bits_word; lia).
  - destruct (_ =? _); [apply split_i_word|by apply get_bits_word].
  - destruct (_ || _); [apply split_i_word|by apply get_bits_word].
Qed.
