(* ===== verification/Exceptions.v ===== *)
(** Exceptions of the simulated processor:
    src/system/software/sim_module/simulator.c.

    Entering an exception saves the interrupted state (EPCR, ESR, and EEAR for
    the ones that concern an address), sets NPC to the vector and changes to
    supervisor mode with the MMUs and interrupts off; [cpu_advance_pc] then
    makes the vector the PC.  [rfe] goes back. *)

From S2P Require Import Prelude Spr Host Cpu Arith Decode.

Open Scope Z_scope.
Open Scope cword_scope.

(** The statements the handlers share. *)
Definition save_pc_dsx (cpu : CPU) : CPU :=
  if is_in_delay_slot cpu then
    let cpu := cpu_set_epcr cpu (cpu_get_pc cpu -! 4) in
    cpu_set_dsx cpu 1
  else
    let cpu := cpu_set_epcr cpu (cpu_get_pc cpu) in
    cpu_set_dsx cpu 0.

Definition supervisor_mode (cpu : CPU) : CPU :=
  let cpu := cpu_set_dme cpu 0 in
  let cpu := cpu_set_ime cpu 0 in
  let cpu := cpu_set_sm cpu 1 in
  let cpu := cpu_set_iee cpu 0 in
  cpu_set_tee cpu 0.

Definition alignment_exception (cpu : CPU) (ea : Z) : CPU :=
  let cpu := save_pc_dsx cpu in
  let cpu := cpu_set_eear cpu ea in
  let cpu := cpu_set_esr cpu (cpu_get_sr cpu) in
  let cpu := cpu_set_npc cpu (if cpu_get_eph cpu then 0xF0000600 else 0x600) in
  supervisor_mode cpu.

Definition dataPageFault (cpu : CPU) (ea : Z) : CPU :=
  let cpu := save_pc_dsx cpu in
  let cpu := cpu_set_eear cpu ea in
  let cpu := cpu_set_esr cpu (cpu_get_sr cpu) in
  let cpu := cpu_set_npc cpu (if cpu_get_eph cpu then 0xF0000300 else 0x300) in
  supervisor_mode cpu.

Definition dataTLBMiss (cpu : CPU) (ea : Z) : CPU :=
  let cpu := save_pc_dsx cpu in
  let cpu := cpu_set_eear cpu ea in
  let cpu := cpu_set_esr cpu (cpu_get_sr cpu) in
  let cpu := cpu_set_npc cpu (if cpu_get_eph cpu then 0xF0000900 else 0x900) in
  supervisor_mode cpu.

Definition instructionPageFault (cpu : CPU) (ea : Z) : CPU :=
  let cpu := save_pc_dsx cpu in
  let cpu := cpu_set_eear cpu ea in
  let cpu := cpu_set_esr cpu (cpu_get_sr cpu) in
  let cpu := cpu_set_npc cpu (if cpu_get_eph cpu then 0xF0000400 else 0x400) in
  supervisor_mode cpu.

Definition instructionTLBMiss (cpu : CPU) (ea : Z) : CPU :=
  let cpu := save_pc_dsx cpu in
  let cpu := cpu_set_eear cpu ea in
  let cpu := cpu_set_esr cpu (cpu_get_sr cpu) in
  let cpu := cpu_set_npc cpu (if cpu_get_eph cpu then 0xF0000A00 else 0xA00) in
  supervisor_mode cpu.

Definition range_exception (cpu : CPU) : CPU :=
  let cpu := save_pc_dsx cpu in
  let cpu := cpu_set_esr cpu (cpu_get_sr cpu) in
  let cpu := cpu_set_npc cpu (if cpu_get_eph cpu then 0xF0000B00 else 0xB00) in
  supervisor_mode cpu.

(** [l.sys] and [l.trap] *)
Definition sys (cpu : CPU) : CPU :=
  let cpu :=
    if is_in_delay_slot cpu then cpu_set_epcr cpu (cpu_get_pc cpu -! 4)
    else cpu_set_epcr cpu (cpu_get_npc cpu) in
  let cpu := cpu_set_esr cpu (cpu_get_sr cpu) in
  let cpu := cpu_set_dsx cpu (b2z (is_in_delay_slot cpu)) in
  let cpu := cpu_set_npc cpu (if cpu_get_eph cpu then 0xF0000C00 else 0xC00) in
  supervisor_mode cpu.

Definition trap (cpu : CPU) : CPU :=
  let cpu := save_pc_dsx cpu in
  let cpu := cpu_set_esr cpu (cpu_get_sr cpu) in
  let cpu := cpu_set_npc cpu (if cpu_get_eph cpu then 0xF0000E00 else 0xE00) in
  supervisor_mode cpu.

Definition rfe (cpu : CPU) : CPU :=
  let cpu := cpu_set_sr cpu (cpu_get_esr cpu) in
  cpu_set_npc cpu (cpu_get_epcr cpu).

(** ** Well-formedness *)

Section Wf.
Context (cpu : CPU) (Hwf : cpu_wf cpu).

Lemma wf_save_pc_dsx : cpu_wf (save_pc_dsx cpu).
Proof. unfold save_pc_dsx. destruct (is_in_delay_slot cpu); wf. Qed.

Lemma wf_supervisor_mode : cpu_wf (supervisor_mode cpu).
Proof. unfold supervisor_mode. wf. Qed.

End Wf.

#[export] Hint Resolve wf_save_pc_dsx wf_supervisor_mode : wf.

Section WfHandlers.
Context (cpu : CPU) (Hwf : cpu_wf cpu).

Lemma wf_alignment_exception ea : is_u32 ea -> cpu_wf (alignment_exception cpu ea).
Proof. intros. unfold alignment_exception. wf. Qed.
Lemma wf_dataPageFault ea : is_u32 ea -> cpu_wf (dataPageFault cpu ea).
Proof. intros. unfold dataPageFault. wf. Qed.
Lemma wf_dataTLBMiss ea : is_u32 ea -> cpu_wf (dataTLBMiss cpu ea).
Proof. intros. unfold dataTLBMiss. wf. Qed.
Lemma wf_instructionPageFault ea : is_u32 ea -> cpu_wf (instructionPageFault cpu ea).
Proof. intros. unfold instructionPageFault. wf. Qed.
Lemma wf_instructionTLBMiss ea : is_u32 ea -> cpu_wf (instructionTLBMiss cpu ea).
Proof. intros. unfold instructionTLBMiss. wf. Qed.
Lemma wf_range_exception : cpu_wf (range_exception cpu).
Proof. unfold range_exception. wf. Qed.
Lemma wf_sys : cpu_wf (sys cpu).
Proof. unfold sys. wf. Qed.
Lemma wf_trap : cpu_wf (trap cpu).
Proof. unfold trap. wf. Qed.
Lemma wf_rfe : cpu_wf (rfe cpu).
Proof. unfold rfe. wf. Qed.

End WfHandlers.

#[export] Hint Resolve wf_alignment_exception wf_dataPageFault wf_dataTLBMiss
  wf_instructionPageFault wf_instructionTLBMiss wf_range_exception wf_sys wf_trap
  wf_rfe : wf.


(** ** What entering an exception does *)

(** Bits of the supervision register: supervisor mode, with interrupts, the
    timer and the MMUs off, and DSX telling whether the instruction was in a
    delay slot.  The other bits are kept. *)
Definition handler_bit (dsx : bool) (old : bool) (j : Z) : bool :=
  switch j
    [(0, true); (1, false); (2, false); (5, false); (6, false); (13, dsx)] old.

(** [cpu'] is [cpu] after entering the exception with vector [vector]: [epc] is
    the address to return to, [ea] the address the exception concerns, and
    [saved] the status it saves. *)
Record entered (vector epc ea saved : Z) (cpu cpu' : CPU) : Prop := {
  ent_npc : npc cpu' = (if cpu_get_eph cpu then 0xF0000000 + vector else vector);
  ent_epcr : epcr cpu' = epc;
  ent_eear : eear cpu' = ea;
  ent_esr : esr cpu' = saved;
  ent_sr : forall j, 0 <= j ->
    sr_bit cpu' j = handler_bit (is_in_delay_slot cpu) (sr_bit cpu j) j;
  ent_gpr : gpr cpu' = gpr cpu;
  ent_pc : pc cpu' = pc cpu;
  ent_branch : branch_pc cpu' = branch_pc cpu;
  ent_mac : machi cpu' = machi cpu /\ maclo cpu' = maclo cpu;
  ent_debug : dsr cpu' = dsr cpu /\ ttmr cpu' = ttmr cpu /\ ttcr cpu' = ttcr cpu;
}.

(** The status with DSX brought up to date. *)
Definition sr_dsx (cpu : CPU) : Z :=
  if is_in_delay_slot cpu then Z.setbit (sr cpu) 13 else Z.clearbit (sr cpu) 13.

(** The instruction to go back to: the branch when in its delay slot. *)
Definition restart_pc (cpu : CPU) : Z :=
  if is_in_delay_slot cpu then pc cpu -! 4 else pc cpu.

Lemma supervisor_mode_bit cpu j : cpu_wf cpu -> 0 <= j ->
  sr_bit (supervisor_mode cpu) j =
  switch j [(0, true); (1, false); (2, false); (5, false); (6, false)] (sr_bit cpu j).
Proof.
  intros Hwf Hj. unfold supervisor_mode.
  assert (H1 : cpu_wf (cpu_set_dme cpu 0)) by wf.
  assert (H2 : cpu_wf (cpu_set_ime (cpu_set_dme cpu 0) 0)) by wf.
  assert (H3 : cpu_wf (cpu_set_sm (cpu_set_ime (cpu_set_dme cpu 0) 0) 1)) by wf.
  assert (H4 : cpu_wf (cpu_set_iee (cpu_set_sm (cpu_set_ime (cpu_set_dme cpu 0) 0) 1) 0)) by wf.
  unfold cpu_set_tee. rewrite (sr_bit_set_flag _ 1 j false) by (done || lia).
  unfold cpu_set_iee. rewrite (sr_bit_set_flag _ 2 j false) by (done || lia).
  unfold cpu_set_sm. rewrite (sr_bit_set_flag _ 0 j true) by (done || lia).
  unfold cpu_set_ime. rewrite (sr_bit_set_flag _ 6 j false) by (done || lia).
  unfold cpu_set_dme. rewrite (sr_bit_set_flag _ 5 j false) by (done || lia).
  cbn [switch]. rewrite !(Z.eqb_sym j).
  repeat match goal with |- context [?k =? j] => destruct (Z.eqb_spec k j) end; (done || lia).
Qed.

Lemma save_pc_dsx_spec cpu : cpu_wf cpu ->
  sr (save_pc_dsx cpu) = sr_dsx cpu /\ epcr (save_pc_dsx cpu) = restart_pc cpu /\
  cpu_get_eph (save_pc_dsx cpu) = cpu_get_eph cpu /\
  forall j, 0 <= j -> sr_bit (save_pc_dsx cpu) j =
    if j =? 13 then is_in_delay_slot cpu else sr_bit cpu j.
Proof.
  intros Hwf. unfold save_pc_dsx, sr_dsx, restart_pc, cpu_get_pc.
  assert (Hw : cpu_wf (cpu_set_epcr cpu (pc cpu -! 4))) by wf.
  assert (Hw' : cpu_wf (cpu_set_epcr cpu (pc cpu))) by wf.
  assert (Hbit : forall c b, cpu_wf c -> forall j, 0 <= j ->
    sr_bit (cpu_set_dsx c (b2z b)) j = if j =? 13 then b else sr_bit c j).
  { intros c b Hc j Hj. rewrite (Z.eqb_sym j). by apply (sr_bit_set_flag c 13 j b). }
  assert (Heph : forall c b, cpu_wf c -> cpu_get_eph (cpu_set_dsx c (b2z b)) = cpu_get_eph c).
  { intros c b Hc. unfold cpu_get_eph. change SPR_SR_EPH with (2 ^ 14).
    rewrite !is_set_sr_flag_bit by lia. by apply (sr_bit_set_flag c 13 14 b). }
  destruct (is_in_delay_slot cpu).
  - split; [exact (set_sr_flag_sr _ 13 true Hw ltac:(lia))|]. split; [done|].
    split; [exact (Heph _ true Hw)|exact (Hbit _ true Hw)].
  - split; [exact (set_sr_flag_sr _ 13 false Hw' ltac:(lia))|]. split; [done|].
    split; [exact (Heph _ false Hw')|exact (Hbit _ false Hw')].
Qed.

(** The common shape of the handlers. *)
Definition enter (vector : Z) (ea : option Z) (cpu : CPU) : CPU :=
  let cpu := save_pc_dsx cpu in
  let cpu := match ea with Some ea => cpu_set_eear cpu ea | None => cpu end in
  let cpu := cpu_set_esr cpu (cpu_get_sr cpu) in
  let cpu := cpu_set_npc cpu (if cpu_get_eph cpu then 0xF0000000 + vector else vector) in
  supervisor_mode cpu.

Lemma enter_entered vector ea cpu : cpu_wf cpu -> is_word 16 vector ->
  (forall a, ea = Some a -> is_u32 a) ->
  entered vector (restart_pc cpu) (match ea with Some a => a | None => eear cpu end)
    (sr_dsx cpu) cpu (enter vector ea cpu).
Proof.
  intros Hwf Hv Hea. destruct (save_pc_dsx_spec cpu Hwf) as (Hsr & Hepc & Heph & Hbit).
  assert (Hwf1 : cpu_wf (save_pc_dsx cpu)) by wf.
  set (c1 := match ea with
    | Some a => cpu_set_eear (save_pc_dsx cpu) a | None => save_pc_dsx cpu end).
  assert (Hc1 : sr c1 = sr (save_pc_dsx cpu) /\ epcr c1 = epcr (save_pc_dsx cpu) /\
    gpr c1 = gpr (save_pc_dsx cpu) /\ pc c1 = pc (save_pc_dsx cpu) /\
    branch_pc c1 = branch_pc (save_pc_dsx cpu) /\ machi c1 = machi (save_pc_dsx cpu) /\
    maclo c1 = maclo (save_pc_dsx cpu) /\
    (dsr c1, ttmr c1, ttcr c1) =
      (dsr (save_pc_dsx cpu), ttmr (save_pc_dsx cpu), ttcr (save_pc_dsx cpu)) /\ cpu_wf c1 /\
    cpu_get_eph c1 = cpu_get_eph (save_pc_dsx cpu)).
  { unfold c1. destruct ea as [a|]; do 8 (split; [done|]); (split; [|done]); [|done].
    specialize (Hea a Logic.eq_refl). wf. }
  destruct Hc1 as (E1 & E2 & E3 & E4 & E5 & E6 & E7 & [= D1 D2 D3] & Hw1 & E8).
  assert (Hkept : gpr (save_pc_dsx cpu) = gpr cpu /\ pc (save_pc_dsx cpu) = pc cpu /\
    branch_pc (save_pc_dsx cpu) = branch_pc cpu /\ machi (save_pc_dsx cpu) = machi cpu /\
    maclo (save_pc_dsx cpu) = maclo cpu /\ eear (save_pc_dsx cpu) = eear cpu /\
    (dsr (save_pc_dsx cpu), ttmr (save_pc_dsx cpu), ttcr (save_pc_dsx cpu)) =
      (dsr cpu, ttmr cpu, ttcr cpu))
    by (unfold save_pc_dsx; by destruct (is_in_delay_slot cpu)).
  destruct Hkept as (K1 & K2 & K3 & K4 & K5 & K6 & [= L1 L2 L3]).
  unfold enter. fold c1.
  set (v := if cpu_get_eph (cpu_set_esr c1 (cpu_get_sr c1)) then 0xF0000000 + vector else vector).
  assert (Hvw : is_u32 v).
  { unfold v. clear - Hv. destruct (cpu_get_eph (cpu_set_esr _ _)); destruct Hv; split; lia. }
  split; try (cbn; congruence).
  - cbn. unfold v. change (cpu_get_eph (cpu_set_esr c1 (cpu_get_sr c1))) with (cpu_get_eph c1).
    by rewrite E8, Heph.
  - cbn. unfold c1. by destruct ea.
  - cbn. unfold cpu_get_sr. congruence.
  - intros j Hj. rewrite supervisor_mode_bit by (wf || done).
    assert (Hs : sr_bit (cpu_set_npc (cpu_set_esr c1 (cpu_get_sr c1)) v) j =
                 sr_bit (save_pc_dsx cpu) j) by (unfold sr_bit; cbn; by rewrite E1).
    rewrite Hs, Hbit by done. unfold handler_bit. cbn [switch].
    repeat match goal with |- context [j =? ?k] => destruct (Z.eqb_spec j k) end; (done || lia).
  - cbn. split; congruence.
  - cbn. split; [|split]; congruence.
Qed.

(** [sys] saves the status before it touches DSX, and returns to the next
    instruction. *)
Lemma sys_entered cpu : cpu_wf cpu ->
  entered 0xC00 (if is_in_delay_slot cpu then pc cpu -! 4 else npc cpu) (eear cpu) (sr cpu)
    cpu (sys cpu).
Proof.
  intros Hwf. unfold sys.
  set (c0 := if is_in_delay_slot cpu then cpu_set_epcr cpu _ else _).
  assert (H0 : sr c0 = sr cpu /\ npc c0 = npc cpu /\ pc c0 = pc cpu /\ gpr c0 = gpr cpu /\
    branch_pc c0 = branch_pc cpu /\ machi c0 = machi cpu /\ maclo c0 = maclo cpu /\
    (dsr c0, ttmr c0, ttcr c0) = (dsr cpu, ttmr cpu, ttcr cpu) /\
    eear c0 = eear cpu /\ epcr c0 = if is_in_delay_slot cpu then pc cpu -! 4 else npc cpu)
    by (unfold c0; by destruct (is_in_delay_slot cpu)).
  destruct H0 as (E1 & E2 & E3 & E4 & E5 & E6 & E7 & [= D1 D2 D3] & E8 & E9).
  assert (Hw0 : cpu_wf c0) by (unfold c0; destruct (is_in_delay_slot cpu); wf).
  clearbody c0. cbv zeta. set (c1 := cpu_set_esr c0 (cpu_get_sr c0)).
  assert (Hd : is_in_delay_slot c1 = is_in_delay_slot cpu)
    by (unfold is_in_delay_slot, cpu_get_npc, cpu_get_pc, c1; cbn; by rewrite E2, E3).
  rewrite Hd. set (b := is_in_delay_slot cpu) in *.
  assert (Hw1 : cpu_wf c1) by (unfold c1; wf).
  assert (Hbit : forall j, 0 <= j -> sr_bit (cpu_set_dsx c1 (b2z b)) j =
    if j =? 13 then b else sr_bit cpu j).
  { intros j Hj. rewrite (Z.eqb_sym j). unfold cpu_set_dsx. change SPR_SR_DSX with (2 ^ 13).
    rewrite (sr_bit_set_flag c1 13 j b) by (done || lia).
    destruct (13 =? j); [done|]. unfold sr_bit, c1. cbn. by rewrite E1. }
  assert (Heph : cpu_get_eph (cpu_set_dsx c1 (b2z b)) = cpu_get_eph cpu).
  { unfold cpu_get_eph. change SPR_SR_EPH with (2 ^ 14).
    rewrite !is_set_sr_flag_bit by lia. by rewrite Hbit. }
  rewrite Heph. set (v := if cpu_get_eph cpu then 0xF0000C00 else 0xC00).
  assert (Hv : is_u32 v) by (unfold v; destruct (cpu_get_eph cpu); split; lia).
  split; try (cbn; congruence).
  - done.
  - exact E1.
  - intros j Hj. rewrite supervisor_mode_bit by (wf || done).
    change (sr_bit (cpu_set_npc (cpu_set_dsx c1 (b2z b)) v) j) with (sr_bit (cpu_set_dsx c1 (b2z b)) j).
    rewrite Hbit by done. unfold handler_bit. cbn [switch].
    repeat match goal with |- context [j =? ?k] => destruct (Z.eqb_spec j k) end; (done || lia).
  - cbn. split; congruence.
  - cbn. split; [|split]; congruence.
Qed.

Lemma handlers_enter cpu ea :
  alignment_exception cpu ea = enter 0x600 (Some ea) cpu /\
  dataPageFault cpu ea = enter 0x300 (Some ea) cpu /\
  dataTLBMiss cpu ea = enter 0x900 (Some ea) cpu /\
  instructionPageFault cpu ea = enter 0x400 (Some ea) cpu /\
  instructionTLBMiss cpu ea = enter 0xA00 (Some ea) cpu /\
  range_exception cpu = enter 0xB00 None cpu /\
  trap cpu = enter 0xE00 None cpu.
Proof. done. Qed.
