(* ===== verification/Mmu.v ===== *)
(** Guest memory: src/system/software/sim_module/mmu_support.c and the macros
    of mmu_support.h, as the [MMU_SUPPORT] build has them.

    A guest address is translated through the TLBs of the host processor, which
    are the guest's, and the access is made at the physical address.  A
    function that returns through a pointer takes the old value of the variable
    and returns its new one; [None] is a variable never written. *)

From S2P Require Import Prelude Spr Host Cpu Arith.

Open Scope Z_scope.
Open Scope cword_scope.

Definition NUM_WAYS : Z := 1.
Definition NUM_SETS_WAY : Z := 64.

Definition tlbEntryValid (entry : Z) : bool := truth (entry .& 0x00000001).
Definition tlbPPN (entry : Z) : Z := entry .& 0xffffe000.
Definition tlbVPN (entry : Z) : Z := entry .& 0xffffe000.
Definition addressNoOffset (address : Z) : Z := address .& 0xffffe000.
Definition addressOffset (address : Z) : Z := address .& 0x00001fff.

Section Mmu.
Context {H : Type} `{HH : Host H}.

Definition getSPR (spr : Z) (h : H) : Z := host_mfspr spr h.
Definition setSPR (spr value : Z) (h : H) : H := host_mtspr spr value h.

Definition setDMMUTranslateReg (way set value : Z) (h : H) : H :=
  setSPR (SPR_DTLBTR_BASE way + set) value h.
Definition setDMMUMatchReg (way set value : Z) (h : H) : H :=
  setSPR (SPR_DTLBMR_BASE way + set) value h.
Definition setIMMUTranslateReg (way set value : Z) (h : H) : H :=
  setSPR (SPR_ITLBTR_BASE way + set) value h.
Definition setIMMUMatchReg (way set value : Z) (h : H) : H :=
  setSPR (SPR_ITLBMR_BASE way + set) value h.

Definition getDMMUWays (h : H) : Z := (getSPR SPR_DMMUCFGR h .& 0x3) + 1.
Definition getDMMUSetsPerWay (h : H) : Z :=
  1 << ((getSPR SPR_DMMUCFGR h >> 2) .& 0x7).
Definition getIMMUWays (h : H) : Z := (getSPR SPR_IMMUCFGR h .& 0x3) + 1.
Definition getIMMUSetsPerWay (h : H) : Z :=
  1 << ((getSPR SPR_IMMUCFGR h >> 2) .& 0x7).

(** Write back a data cache block, invalidate the instruction cache block.
    [flushPipeline] is five [l.nop] and has no counterpart here. *)
Definition flushCaches (phyAddr : Z) (h : H) : H :=
  let h := host_mtspr SPR_DCBFR phyAddr h in
  host_mtspr SPR_ICBIR phyAddr h.

(** [*(value) = *((u32 * )(guestAddr))] and the store. *)
Definition guestLoad (guestAddr : Z) (h : H) : Z * H := host_load32 guestAddr h.
Definition guestStore (guestAddr value : Z) (h : H) : H :=
  host_store32 guestAddr value h.

(** The physical address, or 1 for a TLB miss. *)
Definition virtualToPhysicalD (cpu : CPU) (guestAddr : Z) (h : H) : Z :=
  if negb (cpu_get_dme cpu) then guestAddr else
  let setIndex := (guestAddr >> 13) .& (NUM_SETS_WAY - 1) in
  default 1 (for_return NUM_WAYS (fun way =>
    let tlbMR := SPR_DTLBMR_BASE way + setIndex in
    let entry := host_mfspr tlbMR h in
    if negb (tlbEntryValid entry) then None else
    if tlbVPN entry =? addressNoOffset guestAddr then
      let tlbTR := SPR_DTLBTR_BASE way + setIndex in
      let phyAddr := host_mfspr tlbTR h in
      Some (tlbPPN phyAddr .| addressOffset guestAddr)
    else None)).

Definition virtualToPhysicalI (cpu : CPU) (guestAddr : Z) (h : H) : Z :=
  if negb (cpu_get_ime cpu) then guestAddr else
  let setIndex := (guestAddr >> 13) .& (NUM_SETS_WAY - 1) in
  default 1 (for_return NUM_WAYS (fun way =>
    let tlbMR := SPR_ITLBMR_BASE way + setIndex in
    let entry := host_mfspr tlbMR h in
    if negb (tlbEntryValid entry) then None else
    if tlbVPN entry =? addressNoOffset guestAddr then
      let tlbTR := SPR_ITLBTR_BASE way + setIndex in
      let phyAddr := host_mfspr tlbTR h in
      Some (tlbPPN phyAddr .| addressOffset guestAddr)
    else None)).

(** The return code, the variable, the host. *)
Definition guestLoadD (cpu : CPU) (guestAddr : Z) (value : option Z) (h : H)
    : Z * option Z * H :=
  let phyAddr := virtualToPhysicalD cpu guestAddr h in
  if 2 <? phyAddr then
    let '(v, h) := guestLoad phyAddr h in (0, Some v, h)
  else (phyAddr, value, h).

Definition guestStoreD (cpu : CPU) (guestAddr value : Z) (h : H) : Z * H :=
  let phyAddr := virtualToPhysicalD cpu guestAddr h in
  if 2 <? phyAddr then
    let h := flushCaches phyAddr h in
    let temp := getSPR SPR_SR h in
    let h := setSPR SPR_SR (temp .& 0xffffffe7) h in
    let h := guestStore phyAddr value h in
    let h := setSPR SPR_SR temp h in
    (0, h)
  else (phyAddr, h).

Definition guestLoadI (cpu : CPU) (guestAddr : Z) (value : option Z) (h : H)
    : Z * option Z * H :=
  let phyAddr := virtualToPhysicalI cpu guestAddr h in
  if 2 <? phyAddr then
    let '(v, h) := guestLoad phyAddr h in (0, Some v, h)
  else (phyAddr, value, h).

End Mmu.

(** ** Translation *)

(** What an address translates to, without sentinels: the frame of the TLB
    entry of its set, when that entry is valid and for its page.  [mr] and [tr]
    are the match and translate registers of the MMU. *)
Definition translate {H} `{Host H} (enabled : bool) (mr tr : Z -> Z)
    (va : Z) (h : H) : option Z :=
  let set := va / 2 ^ 13 mod 64 in
  if negb enabled then Some va else
  if Z.odd (host_mfspr (mr 0 + set) h) &&
     (host_mfspr (mr 0 + set) h / 2 ^ 13 =? va / 2 ^ 13)
  then Some (host_mfspr (tr 0 + set) h / 2 ^ 13 * 2 ^ 13 + va mod 2 ^ 13)
  else None.

Lemma frame_mask v : is_u32 v -> v .& 0xffffe000 = v / 2 ^ 13 * 2 ^ 13.
Proof.
  intros Hv. rewrite <- Z.shiftr_div_pow2, <- Z.shiftl_mul_pow2 by lia.
  change 0xffffe000 with (Z.shiftl (2 ^ 19 - 1) 13). zbits.
  destruct (Z.le_gt_cases 13 i).
  - rewrite testbit_mask, Z.shiftr_spec by lia.
    replace (i - 13 + 13) with i by lia. destruct (Z.ltb_spec (i - 13) 19).
    + apply andb_true_r.
    + by rewrite (testbit_word 32 v) by (done || lia).
  - rewrite !(Z.testbit_neg_r _ (i - 13)) by lia. apply andb_false_r.
Qed.

Lemma offset_mask v : v .& 0x00001fff = v mod 2 ^ 13.
Proof. change 0x00001fff with (2 ^ 13 - 1). by apply land_mask. Qed.

Lemma frame_offset_lor f o : 0 <= o < 2 ^ 13 -> f * 2 ^ 13 .| o = f * 2 ^ 13 + o.
Proof.
  intros Ho. apply lor_disjoint_add. rewrite <- Z.shiftl_mul_pow2 by lia.
  zbits. destruct (Z.le_gt_cases 13 i).
  - rewrite (testbit_word 13 o) by (done || lia). apply andb_false_r.
  - by rewrite (Z.testbit_neg_r _ (i - 13)) by lia.
Qed.

Lemma set_index va : (va >> 13) .& (NUM_SETS_WAY - 1) = va / 2 ^ 13 mod 64.
Proof.
  change (NUM_SETS_WAY - 1) with (2 ^ 6 - 1).
  by rewrite land_mask, Z.shiftr_div_pow2 by lia.
Qed.

Section Translation.
Context {H : Type} `{HL : HostLaws H}.

Lemma tlb_walk_translate mr tr va h : is_u32 va ->
  for_return NUM_WAYS (fun way =>
    let entry := host_mfspr (mr way + ((va >> 13) .& (NUM_SETS_WAY - 1))) h in
    if negb (tlbEntryValid entry) then None else
    if tlbVPN entry =? addressNoOffset va then
      Some (tlbPPN (host_mfspr (tr way + ((va >> 13) .& (NUM_SETS_WAY - 1))) h)
            .| addressOffset va)
    else None) = translate true mr tr va h.
Proof.
  intros Hva. rewrite set_index. unfold for_return, translate.
  cbn [for_return_from negb]. change (Z.to_nat NUM_WAYS) with 1%nat.
  cbn [for_return_from]. set (set := va / 2 ^ 13 mod 64).
  unfold tlbEntryValid, tlbVPN, tlbPPN, addressNoOffset, addressOffset.
  rewrite land_1_odd.
  rewrite !frame_mask by (done || apply mfspr_word).
  rewrite offset_mask, frame_offset_lor by (apply Z.mod_pos_bound; lia).
  destruct (Z.odd _); [|done]. cbn [negb andb].
  destruct (Z.eqb_spec (host_mfspr (mr 0 + set) h / 2 ^ 13 * 2 ^ 13) (va / 2 ^ 13 * 2 ^ 13)),
    (Z.eqb_spec (host_mfspr (mr 0 + set) h / 2 ^ 13) (va / 2 ^ 13)); (done || lia).
Qed.

Lemma virtualToPhysicalD_translate cpu va h : is_u32 va ->
  virtualToPhysicalD cpu va h =
  default 1 (translate (cpu_get_dme cpu) SPR_DTLBMR_BASE SPR_DTLBTR_BASE va h).
Proof.
  intros Hva. unfold virtualToPhysicalD. destruct (cpu_get_dme cpu); [|done].
  cbn [negb]. by rewrite (tlb_walk_translate SPR_DTLBMR_BASE SPR_DTLBTR_BASE).
Qed.

Lemma virtualToPhysicalI_translate cpu va h : is_u32 va ->
  virtualToPhysicalI cpu va h =
  default 1 (translate (cpu_get_ime cpu) SPR_ITLBMR_BASE SPR_ITLBTR_BASE va h).
Proof.
  intros Hva. unfold virtualToPhysicalI. destruct (cpu_get_ime cpu); [|done].
  cbn [negb]. by rewrite (tlb_walk_translate SPR_ITLBMR_BASE SPR_ITLBTR_BASE).
Qed.

(** A translated address keeps its offset in the page. *)
Lemma translate_offset en mr tr va pa h :
  translate en mr tr va h = Some pa -> pa mod 2 ^ 13 = va mod 2 ^ 13.
Proof.
  unfold translate. destruct en; cbn [negb]; [|congruence].
  destruct (_ && _); [|done]. intros [= <-].
  rewrite Z.add_comm, Z_mod_plus_full. apply Z.mod_mod. lia.
Qed.

Lemma translate_word en mr tr va pa h : is_u32 va ->
  translate en mr tr va h = Some pa -> is_u32 pa.
Proof.
  intros Hva. unfold translate. destruct en; cbn [negb]; [|congruence].
  destruct (_ && _); [|done]. intros [= <-].
  set (f := host_mfspr _ h). assert (Hf : is_u32 f) by apply mfspr_word.
  clearbody f. unfold is_word in *.
  pose proof (Z.mod_pos_bound va (2 ^ 13) ltac:(lia)).
  pose proof (Z.div_mod f (2 ^ 13) ltac:(lia)).
  pose proof (Z.mod_pos_bound f (2 ^ 13) ltac:(lia)).
  assert (f / 2 ^ 13 < 2 ^ 19) by (apply Z.div_lt_upper_bound; lia).
  assert (0 <= f / 2 ^ 13) by (apply Z.div_pos; lia). lia.
Qed.

Lemma virtualToPhysicalD_word cpu va h :
  is_u32 va -> is_u32 (virtualToPhysicalD cpu va h).
Proof.
  intros. rewrite virtualToPhysicalD_translate by done.
  destruct (translate _ _ _ _ _) eqn:E; simpl; [by eapply translate_word|].
  by vm_compute.
Qed.

Lemma guestLoadD_word cpu va v0 h ret v h' :
  guestLoadD cpu va v0 h = (ret, v, h') ->
  (forall x, v0 = Some x -> is_u32 x) -> forall x, v = Some x -> is_u32 x.
Proof.
  unfold guestLoadD, guestLoad. destruct (2 <? _).
  - destruct (host_load32 _ h) as [w h2] eqn:E. intros [= <- <- <-] _ x [= <-].
    pose proof (load32_word (virtualToPhysicalD cpu va h) h) as Hw.
    by rewrite E in Hw.
  - by intros [= <- <- <-].
Qed.

Lemma guestLoadI_word cpu va v0 h ret v h' :
  guestLoadI cpu va v0 h = (ret, v, h') ->
  (forall x, v0 = Some x -> is_u32 x) -> forall x, v = Some x -> is_u32 x.
Proof.
  unfold guestLoadI, guestLoad. destruct (2 <? _).
  - destruct (host_load32 _ h) as [w h2] eqn:E. intros [= <- <- <-] _ x [= <-].
    pose proof (load32_word (virtualToPhysicalI cpu va h) h) as Hw.
    by rewrite E in Hw.
  - by intros [= <- <- <-].
Qed.

End Translation.
