(* ===== verification/Instr.v ===== *)
(** The instructions that change only the processor:
    src/system/software/sim_module/simulator.c, the functions from [mul_shared]
    to [jr], and the comparison, move and accumulator groups.

    One definition per C function, in Module [Insn] where names such as [and]
    and [or] are free.  A function that may do something undefined in C returns
    an [outcome]. *)

From S2P Require Import Prelude Spr Host Cpu Arith Decode Exceptions.

Open Scope Z_scope.
Open Scope cword_scope.

Module Insn.

Definition INT_MIN : Z := - 2 ^ 31.
Definition INT_MAX : Z := 2 ^ 31 - 1.
Definition UINT_MAX : Z := 2 ^ 32 - 1.

(** The end of every arithmetic instruction:
    [if (cpu_get_ove(cpu) && cpu_get_ov(cpu)) range_exception(cpu, cont);] *)
Definition check_range (cpu : CPU) : CPU :=
  if cpu_get_ove cpu && cpu_get_ov cpu then range_exception cpu else cpu.

(** ** Multiplication and division *)

Definition mul_shared (cpu : CPU) (a b rD : Z) : CPU :=
  let prod_out := calc_mul a b in
  let cpu := cpu_set_gpr cpu rD (u32 prod_out) in
  let cpu :=
    if (prod_out <? INT_MIN) || (INT_MAX <? prod_out)
    then cpu_set_ov cpu 1 else cpu_set_ov cpu 0 in
  let uprod_out := calc_mulu (u32 a) (u32 b) in
  if UINT_MAX <? uprod_out then cpu_set_cy cpu 1 else cpu_set_cy cpu 0.

Definition add_base (cpu : CPU) (carry_in : bool) (rD a b : Z) : CPU :=
  let '(result, overflow, carry) := calc_add carry_in a b in
  let cpu := cpu_set_gpr cpu rD result in
  let cpu := cpu_set_ov cpu (b2z overflow) in
  cpu_set_cy cpu (b2z carry).

Definition muli (cpu : CPU) (cont : control) : CPU :=
  check_range
    (mul_shared cpu (i32 (cpu_get_gpr cpu (c_rA cont))) (exts (c_I cont)) (c_rD cont)).

Definition mul (cpu : CPU) (cont : control) : CPU :=
  check_range
    (mul_shared cpu (i32 (cpu_get_gpr cpu (c_rA cont)))
       (i32 (cpu_get_gpr cpu (c_rB cont))) (c_rD cont)).

Definition mulu (cpu : CPU) (cont : control) : CPU :=
  let prod := calc_mulu (cpu_get_gpr cpu (c_rA cont)) (cpu_get_gpr cpu (c_rB cont)) in
  let cpu := cpu_set_gpr cpu (c_rD cont) (u32 prod) in
  let cpu := cpu_set_ov cpu 0 in
  let cpu :=
    if UINT_MAX <? prod then cpu_set_cy cpu 1 else cpu_set_cy cpu 0 in
  check_range cpu.

Definition divu (cpu : CPU) (cont : control) : CPU :=
  let divisor := cpu_get_gpr cpu (c_rB cont) in
  let dividend := cpu_get_gpr cpu (c_rA cont) in
  let cpu :=
    if negb (divisor =? 0) then
      let '(q, r) := calc_divu divisor dividend in
      cpu_set_gpr cpu (c_rD cont) q
    else cpu in
  let cpu := cpu_set_ov cpu 0 in
  let cpu := cpu_set_cy cpu (b2z (divisor =? 0)) in
  check_range cpu.

(** [(~x) + 1] on an [i32]. *)
Definition negate_i32 (x : Z) : outcome Z := signed_c 32 (Z.lnot x + 1).

Definition or32_div (cpu : CPU) (cont : control) : outcome CPU :=
  let divisor := i32 (cpu_get_gpr cpu (c_rB cont)) in
  let dividend := i32 (cpu_get_gpr cpu (c_rA cont)) in
  let sign_dsor := u32 divisor .& 0x80000000 in
  let sign_dend := u32 dividend .& 0x80000000 in
  divisor ← (if truth sign_dsor then negate_i32 divisor else Ok divisor);
  dividend ← (if truth sign_dend then negate_i32 dividend else Ok dividend);
  let cpu :=
    if negb (divisor =? 0) then
      let '(q, r) := calc_divu (u32 divisor) (u32 dividend) in
      let q := if truth (sign_dsor .^ sign_dend) then not32 (q -! 1) else q in
      cpu_set_gpr cpu (c_rD cont) q
    else cpu in
  let cpu := cpu_set_ov cpu 0 in
  let cpu := cpu_set_cy cpu (b2z (divisor =? 0)) in
  Ok (check_range cpu).

(** ** Find first and last one *)

Definition fl1 (cpu : CPU) (cont : control) : CPU :=
  let a := cpu_get_gpr cpu (c_rA cont) in
  let idx := find_upto 32 (fun idx => truth (a .& (1 << (31 - idx)))) in
  cpu_set_gpr cpu (c_rD cont) (32 -! idx).

Definition ff1 (cpu : CPU) (cont : control) : CPU :=
  let a := cpu_get_gpr cpu (c_rA cont) in
  let idx := find_upto 32 (fun idx => truth (a .& (1 << idx))) in
  let idx := if idx =? 32 then u32 (-1) else idx in
  cpu_set_gpr cpu (c_rD cont) (idx +! 1).

(** ** Multiply-accumulate *)

Definition mac (cpu : CPU) (cont : control) : outcome CPU :=
  let m := cpu_get_mac cpu in
  let rA := i32 (cpu_get_gpr cpu (c_rA cont)) in
  let rB := i32 (cpu_get_gpr cpu (c_rB cont)) in
  let r := calc_mul rA rB in
  m ← signed_c 64 (m + r);
  Ok (cpu_set_mac cpu m).

Definition msb (cpu : CPU) (cont : control) : outcome CPU :=
  let m := cpu_get_mac cpu in
  let rA := i32 (cpu_get_gpr cpu (c_rA cont)) in
  let rB := i32 (cpu_get_gpr cpu (c_rB cont)) in
  let r := calc_mul rA rB in
  m ← signed_c 64 (m - r);
  Ok (cpu_set_mac cpu m).

Definition maci (cpu : CPU) (cont : control) : outcome CPU :=
  let m := cpu_get_mac cpu in
  let a := i32 (cpu_get_gpr cpu (c_rA cont)) in
  let imm := sign_extend (c_I cont) 15 in
  let r := calc_mul a imm in
  m ← signed_c 64 (m + r);
  Ok (cpu_set_mac cpu m).

(** ** Addition and subtraction *)

Definition addi (cpu : CPU) (cont : control) : CPU :=
  check_range
    (add_base cpu false (c_rD cont) (cpu_get_gpr cpu (c_rA cont)) (u32 (exts (c_I cont)))).

Definition addic (cpu : CPU) (cont : control) : CPU :=
  check_range
    (add_base cpu (cpu_get_cy cpu) (c_rD cont) (cpu_get_gpr cpu (c_rA cont))
       (u32 (exts (c_I cont)))).

Definition add (cpu : CPU) (cont : control) : CPU :=
  check_range
    (add_base cpu false (c_rD cont) (cpu_get_gpr cpu (c_rA cont))
       (cpu_get_gpr cpu (c_rB cont))).

Definition addc (cpu : CPU) (cont : control) : CPU :=
  check_range
    (add_base cpu (cpu_get_cy cpu) (c_rD cont) (cpu_get_gpr cpu (c_rA cont))
       (cpu_get_gpr cpu (c_rB cont))).

(** The overflow flag is computed from what register [rD] holds afterwards. *)
Definition sub (cpu : CPU) (cont : control) : outcome CPU :=
  let a := i32 (cpu_get_gpr cpu (c_rA cont)) in
  let b := i32 (cpu_get_gpr cpu (c_rB cont)) in
  neg_b ← signed_c 32 (- b);
  let cpu := add_base cpu false (c_rD cont) (u32 a) (u32 neg_b) in
  let r := i32 (cpu_get_gpr cpu (c_rD cont)) in
  let cpu := if u32 a <? u32 b then cpu_set_cy cpu 1 else cpu_set_cy cpu 0 in
  let cpu :=
    if ((a <? 0) && (0 <=? b) && (0 <=? r)) || ((0 <=? a) && (b <? 0) && (r <? 0))
    then cpu_set_ov cpu 1 else cpu_set_ov cpu 0 in
  Ok (check_range cpu).

(** ** Logic *)

Definition ori (cpu : CPU) (cont : control) : CPU :=
  cpu_set_gpr cpu (c_rD cont) (cpu_get_gpr cpu (c_rA cont) .| c_K cont).

Definition and (cpu : CPU) (cont : control) : CPU :=
  cpu_set_gpr cpu (c_rD cont)
    (cpu_get_gpr cpu (c_rA cont) .& cpu_get_gpr cpu (c_rB cont)).

Definition xor (cpu : CPU) (cont : control) : CPU :=
  cpu_set_gpr cpu (c_rD cont)
    (cpu_get_gpr cpu (c_rA cont) .^ cpu_get_gpr cpu (c_rB cont)).

Definition xori (cpu : CPU) (cont : control) : CPU :=
  cpu_set_gpr cpu (c_rD cont)
    (cpu_get_gpr cpu (c_rA cont) .^ u32 (exts (c_I cont))).

Definition or (cpu : CPU) (cont : control) : CPU :=
  cpu_set_gpr cpu (c_rD cont)
    (cpu_get_gpr cpu (c_rA cont) .| cpu_get_gpr cpu (c_rB cont)).

Definition andi (cpu : CPU) (cont : control) : CPU :=
  let res := cpu_get_gpr cpu (c_rA cont) .& c_K cont in
  cpu_set_gpr cpu (c_rD cont) res.

(** ** Extension *)

Definition extws (cpu : CPU) (cont : control) : CPU :=
  cpu_set_gpr cpu (c_rD cont) (cpu_get_gpr cpu (c_rA cont)).

Definition extwz (cpu : CPU) (cont : control) : CPU :=
  cpu_set_gpr cpu (c_rD cont) (cpu_get_gpr cpu (c_rA cont)).

Definition exths (cpu : CPU) (cont : control) : CPU :=
  let input := cpu_get_gpr cpu (c_rA cont) in
  let result := sign_extend (input .& 0xffff) 15 in
  cpu_set_gpr cpu (c_rD cont) (u32 result).

Definition extbs (cpu : CPU) (cont : control) : CPU :=
  let input := cpu_get_gpr cpu (c_rA cont) in
  let result := sign_extend (input .& 0xff) 7 in
  cpu_set_gpr cpu (c_rD cont) (u32 result).

Definition extbz (cpu : CPU) (cont : control) : CPU :=
  let result := zero_extend (cpu_get_gpr cpu (c_rA cont)) 8 in
  cpu_set_gpr cpu (c_rD cont) result.

Definition exthz (cpu : CPU) (cont : control) : CPU :=
  let result := zero_extend (cpu_get_gpr cpu (c_rA cont)) 16 in
  cpu_set_gpr cpu (c_rD cont) result.

(** ** Shifts.  The immediate is a 5-bit field, so only [srl], which does not
    mask its register operand, and the rotations, which shift left by 32 when
    the count is 0, can shift by the width or more. *)

Definition srli (cpu : CPU) (cont : control) : CPU :=
  let rA := cpu_get_gpr cpu (c_rA cont) in
  let rA := rA >> c_L cont in
  cpu_set_gpr cpu (c_rD cont) rA.

Definition srai (cpu : CPU) (cont : control) : CPU :=
  let rA := cpu_get_gpr cpu (c_rA cont) in
  let rA := rA >> c_L cont in
  let rA := if 0 <? c_L cont then u32 (sign_extend rA (31 - c_L cont)) else rA in
  cpu_set_gpr cpu (c_rD cont) rA.

Definition slli (cpu : CPU) (cont : control) : CPU :=
  let rA := cpu_get_gpr cpu (c_rA cont) in
  let rA := rA << c_L cont in
  cpu_set_gpr cpu (c_rD cont) rA.

Definition sll (cpu : CPU) (cont : control) : CPU :=
  let rA := cpu_get_gpr cpu (c_rA cont) in
  let rA := rA << (cpu_get_gpr cpu (c_rB cont) .& 0x1f) in
  cpu_set_gpr cpu (c_rD cont) rA.

Definition srl (cpu : CPU) (cont : control) : outcome CPU :=
  v ← shr_c (cpu_get_gpr cpu (c_rA cont)) (cpu_get_gpr cpu (c_rB cont));
  Ok (cpu_set_gpr cpu (c_rD cont) v).

Definition sra (cpu : CPU) (cont : control) : CPU :=
  let rA := cpu_get_gpr cpu (c_rA cont) in
  let shift := cpu_get_gpr cpu (c_rB cont) .& 0x1f in
  let rA := rA >> shift in
  let rA := if 0 <? shift then u32 (sign_extend rA (31 - shift)) else rA in
  cpu_set_gpr cpu (c_rD cont) rA.

Definition ror (cpu : CPU) (cont : control) : outcome CPU :=
  let rA := cpu_get_gpr cpu (c_rA cont) in
  let shift := cpu_get_gpr cpu (c_rB cont) .& 0x1f in
  hi ← shl_c rA (32 - shift);
  let rA := (rA >> shift) .| hi in
  Ok (cpu_set_gpr cpu (c_rD cont) rA).

Definition rori (cpu : CPU) (cont : control) : outcome CPU :=
  let rA := cpu_get_gpr cpu (c_rA cont) in
  let shift := c_L cont in
  hi ← shl_c rA (32 - shift);
  let rA := (rA >> shift) .| hi in
  Ok (cpu_set_gpr cpu (c_rD cont) rA).

Definition cmov (cpu : CPU) (cont : control) : CPU :=
  let flag := cpu_get_f cpu in
  cpu_set_gpr cpu (c_rD cont)
    (if flag then cpu_get_gpr cpu (c_rA cont) else cpu_get_gpr cpu (c_rB cont)).

(** ** Branches: the target goes to [branch_pc] *)

Definition branch_target (cpu : CPU) (cont : control) : Z :=
  cpu_get_pc cpu +! u32 (sign_extend (c_N cont << 2) 27).

Definition bf (cpu : CPU) (cont : control) : CPU :=
  if cpu_is_set_f cpu then cpu_set_branch_pc cpu (branch_target cpu cont) else cpu.

Definition bnf (cpu : CPU) (cont : control) : CPU :=
  if negb (cpu_is_set_f cpu) then cpu_set_branch_pc cpu (branch_target cpu cont)
  else cpu.

Definition j (cpu : CPU) (cont : control) : CPU :=
  cpu_set_branch_pc cpu (branch_target cpu cont).

Definition jal (cpu : CPU) (cont : control) : CPU :=
  let cpu := cpu_set_branch_pc cpu (branch_target cpu cont) in
  cpu_set_lr cpu (cpu_get_pc cpu +! 8).

Definition jalr (cpu : CPU) (cont : control) : CPU :=
  let address := cpu_get_gpr cpu (c_rB cont) in
  if truth (address .& 0x3) then alignment_exception cpu address
  else
    let cpu := cpu_set_branch_pc cpu address in
    cpu_set_lr cpu (cpu_get_pc cpu +! 8).

Definition jr (cpu : CPU) (cont : control) : CPU :=
  let address := cpu_get_gpr cpu (c_rB cont) in
  if truth (address .& 0x3) then alignment_exception cpu address
  else cpu_set_branch_pc cpu address.

(** ** Comparison with a register *)

Definition sfne (cpu : CPU) (cont : control) : CPU :=
  cpu_set_f cpu (b2z (negb (cpu_get_gpr cpu (c_rA cont) =? cpu_get_gpr cpu (c_rB cont)))).

Definition sfeq (cpu : CPU) (cont : control) : CPU :=
  cpu_set_f cpu (b2z (cpu_get_gpr cpu (c_rA cont) =? cpu_get_gpr cpu (c_rB cont))).

Definition sfltu (cpu : CPU) (cont : control) : CPU :=
  cpu_set_f cpu (b2z (cpu_get_gpr cpu (c_rA cont) <? cpu_get_gpr cpu (c_rB cont))).

Definition sflts (cpu : CPU) (cont : control) : CPU :=
  cpu_set_f cpu (b2z (i32 (cpu_get_gpr cpu (c_rA cont)) <? i32 (cpu_get_gpr cpu (c_rB cont)))).

Definition sfleu (cpu : CPU) (cont : control) : CPU :=
  cpu_set_f cpu (b2z (cpu_get_gpr cpu (c_rA cont) <=? cpu_get_gpr cpu (c_rB cont))).

Definition sfles (cpu : CPU) (cont : control) : CPU :=
  cpu_set_f cpu (b2z (i32 (cpu_get_gpr cpu (c_rA cont)) <=? i32 (cpu_get_gpr cpu (c_rB cont)))).

Definition sfgtu (cpu : CPU) (cont : control) : CPU :=
  cpu_set_f cpu (b2z (cpu_get_gpr cpu (c_rB cont) <? cpu_get_gpr cpu (c_rA cont))).

Definition sfgts (cpu : CPU) (cont : control) : CPU :=
  cpu_set_f cpu (b2z (i32 (cpu_get_gpr cpu (c_rB cont)) <? i32 (cpu_get_gpr cpu (c_rA cont)))).

Definition sfgeu (cpu : CPU) (cont : control) : CPU :=
  cpu_set_f cpu (b2z (cpu_get_gpr cpu (c_rB cont) <=? cpu_get_gpr cpu (c_rA cont))).

Definition sfges (cpu : CPU) (cont : control) : CPU :=
  cpu_set_f cpu (b2z (i32 (cpu_get_gpr cpu (c_rB cont)) <=? i32 (cpu_get_gpr cpu (c_rA cont)))).

(** ** Comparison with an immediate *)

Definition sfnei (cpu : CPU) (cont : control) : CPU :=
  cpu_set_f cpu (b2z (negb (i32 (cpu_get_gpr cpu (c_rA cont)) =? exts (c_I cont)))).

Definition sfeqi (cpu : CPU) (cont : control) : CPU :=
  cpu_set_f cpu (b2z (cpu_get_gpr cpu (c_rA cont) =? u32 (exts (c_I cont)))).

Definition sfltui (cpu : CPU) (cont : control) : CPU :=
  cpu_set_f cpu (b2z (cpu_get_gpr cpu (c_rA cont) <? u32 (exts (c_I cont)))).

Definition sfltsi (cpu : CPU) (cont : control) : CPU :=
  cpu_set_f cpu (b2z (i32 (cpu_get_gpr cpu (c_rA cont)) <? exts (c_I cont))).

Definition sfleui (cpu : CPU) (cont : control) : CPU :=
  cpu_set_f cpu (b2z (cpu_get_gpr cpu (c_rA cont) <=? u32 (exts (c_I cont)))).

Definition sflesi (cpu : CPU) (cont : control) : CPU :=
  cpu_set_f cpu (b2z (i32 (cpu_get_gpr cpu (c_rA cont)) <=? exts (c_I cont))).

Definition sfgtsi (cpu : CPU) (cont : control) : CPU :=
  cpu_set_f cpu (b2z (exts (c_I cont) <? i32 (cpu_get_gpr cpu (c_rA cont)))).

Definition sfgesi (cpu : CPU) (cont : control) : CPU :=
  cpu_set_f cpu (b2z (exts (c_I cont) <=? i32 (cpu_get_gpr cpu (c_rA cont)))).

Definition sfgtui (cpu : CPU) (cont : control) : CPU :=
  cpu_set_f cpu (b2z (u32 (exts (c_I cont)) <? cpu_get_gpr cpu (c_rA cont))).

Definition sfgeui (cpu : CPU) (cont : control) : CPU :=
  cpu_set_f cpu (b2z (u32 (exts (c_I cont)) <=? cpu_get_gpr cpu (c_rA cont))).

(** ** Moves and the accumulator *)

Definition movhi (cpu : CPU) (cont : control) : CPU :=
  cpu_set_gpr cpu (c_rD cont) (c_K cont << 16).

Definition macrc (cpu : CPU) (cont : control) : CPU :=
  let m := cpu_get_mac cpu in
  let r := u32 (m .& 0xffffffff) in
  let cpu := cpu_set_gpr cpu (c_rD cont) r in
  cpu_set_mac cpu 0.

Definition macrc_movhi (cpu : CPU) (cont : control) : CPU :=
  if c_inst cont .& 0x1ffff =? 0x10000 then macrc cpu cont else movhi cpu cont.

End Insn.

(** ** Well-formedness *)

#[export] Hint Resolve cwf_rD cwf_rA cwf_rB cwf_K cwf_L : wf.

#[export] Hint Extern 1 (returns _ (Ok _)) => unfold returns : wf.

#[export] Hint Resolve shr_c_word shl_c_word : wf.

Lemma reg_nonneg r : is_word 5 r -> 0 <= r.
Proof. by intros []. Qed.

#[export] Hint Resolve reg_nonneg : wf.
#[export] Hint Extern 1 (is_word 32 (c_K _)) =>
  apply (is_word_weaken 16); [lia|apply cwf_K] : wf.
#[export] Hint Extern 5 (0 <= c_rD _) => apply reg_nonneg, cwf_rD : wf.
#[export] Hint Extern 1 (0 <= c_L _) => apply reg_nonneg, cwf_L : wf.
#[export] Hint Extern 1 (0 <= Z.land _ 0x1f) => apply Z.land_nonneg; right; lia : wf.

Section InstrWf.
Context (cpu : CPU) (Hwf : cpu_wf cpu).

Lemma wf_check_range : cpu_wf (Insn.check_range cpu).
Proof. unfold Insn.check_range. wf. Qed.

Lemma wf_set_lr v : is_u32 v -> cpu_wf (cpu_set_lr cpu v).
Proof. intros. by apply wf_gpr_store. Qed.

Lemma calc_add_word cin a b : is_u32 (calc_add cin a b).1.1.
Proof.
  unfold calc_add. pose proof (calc_add_loop a b cin) as H.
  destruct (for_upto 32 _ _) as [r c]. apply H.
Qed.

Lemma wf_add_base cin rD a b : 0 <= rD -> cpu_wf (Insn.add_base cpu cin rD a b).
Proof.
  intros. unfold Insn.add_base. pose proof (calc_add_word cin a b).
  destruct (calc_add cin a b) as [[r o] c]. simpl in *. wf.
Qed.

Lemma wf_mul_shared a b rD : 0 <= rD -> cpu_wf (Insn.mul_shared cpu a b rD).
Proof. intros. unfold Insn.mul_shared. wf. Qed.

End InstrWf.

#[export] Hint Resolve wf_check_range wf_set_lr wf_add_base wf_mul_shared : wf.

Lemma calc_divu_word d n q r : calc_divu d n = (q, r) -> is_u32 q.
Proof.
  unfold calc_divu. set (rq := for_upto _ _ _). clearbody rq.
  intros [= <- _]. wf.
Qed.

#[export] Hint Extern 2 (is_word 32 ?q) =>
  match goal with H : calc_divu _ _ = (q, _) |- _ => exact (calc_divu_word _ _ _ _ H) end : wf.

#[export] Hint Extern 1 (is_word 32 (zero_extend _ _)) => apply is_word_land_l : wf.
#[export] Hint Extern 1 (is_word 32 (Insn.branch_target _ _)) =>
  apply wrap_range; lia : wf.
#[export] Hint Extern 5 (cpu_wf (Insn.macrc _ _)) => unfold Insn.macrc : wf.
#[export] Hint Extern 5 (cpu_wf (Insn.movhi _ _)) => unfold Insn.movhi : wf.

(** A handler is well behaved when what it returns is well formed. *)
Definition keeps_wf (f : CPU -> control -> CPU) : Prop :=
  forall cpu cont, cpu_wf cpu -> control_wf cont -> cpu_wf (f cpu cont).
Definition keeps_wf_if_returns (f : CPU -> control -> outcome CPU) : Prop :=
  forall cpu cont, cpu_wf cpu -> control_wf cont -> returns cpu_wf (f cpu cont).

(** Open the handler and let the hints go through its statements. *)
Ltac handler :=
  match goal with
  | |- keeps_wf ?f => intros ??; unfold f; intros; repeat case_match; wf
  | |- keeps_wf_if_returns ?f =>
      intros ??; unfold f; intros; cbv beta zeta;
      repeat first
        [ apply (returns_bind is_u32); [wf|intros ? ?]
        | apply (returns_bind (fun _ => True)); [apply returns_True|intros ? _] ];
      repeat case_match; wf
  end.

Ltac handlers := repeat (apply List.Forall_cons; [handler|]); apply Forall_nil_2.

Definition register_handlers : list (CPU -> control -> CPU) :=
  [Insn.muli; Insn.mul; Insn.mulu; Insn.divu; Insn.fl1; Insn.ff1;
   Insn.addi; Insn.addic; Insn.add; Insn.addc;
   Insn.ori; Insn.and; Insn.xor; Insn.xori; Insn.or; Insn.andi;
   Insn.extws; Insn.extwz; Insn.exths; Insn.extbs; Insn.extbz; Insn.exthz;
   Insn.srli; Insn.srai; Insn.slli; Insn.sll; Insn.sra; Insn.cmov;
   Insn.sfne; Insn.sfeq; Insn.sfltu; Insn.sflts; Insn.sfleu; Insn.sfles;
   Insn.sfgtu; Insn.sfgts; Insn.sfgeu; Insn.sfges;
   Insn.sfnei; Insn.sfeqi; Insn.sfltui; Insn.sfltsi; Insn.sfleui; Insn.sflesi;
   Insn.sfgtui; Insn.sfgtsi; Insn.sfgeui; Insn.sfgesi;
   Insn.movhi; Insn.macrc; Insn.macrc_movhi].

Definition branch_handlers : list (CPU -> control -> CPU) :=
  [Insn.bf; Insn.bnf; Insn.j; Insn.jal; Insn.jalr; Insn.jr].

Definition total_handlers : list (CPU -> control -> CPU) :=
  register_handlers ++ branch_handlers.

Definition partial_handlers : list (CPU -> control -> outcome CPU) :=
  [Insn.or32_div; Insn.mac; Insn.msb; Insn.maci; Insn.sub; Insn.srl;
   Insn.ror; Insn.rori].

Lemma total_handlers_wf : Forall keeps_wf total_handlers.
Proof. handlers. Qed.

Lemma partial_handlers_wf : Forall keeps_wf_if_returns partial_handlers.
Proof. handlers. Qed.

(** ** Only the branches write [branch_pc] *)

Definition keeps_branch_pc (f : CPU -> control -> CPU) : Prop :=
  forall cpu cont, branch_pc (f cpu cont) = branch_pc cpu.
Definition keeps_branch_pc_if_returns (f : CPU -> control -> outcome CPU) : Prop :=
  forall cpu cont, returns (fun cpu' => branch_pc cpu' = branch_pc cpu) (f cpu cont).

Lemma supervisor_mode_branch_pc cpu : branch_pc (supervisor_mode cpu) = branch_pc cpu.
Proof. done. Qed.

Lemma save_pc_dsx_branch_pc cpu : branch_pc (save_pc_dsx cpu) = branch_pc cpu.
Proof. unfold save_pc_dsx. by destruct (is_in_delay_slot cpu). Qed.

Lemma check_range_branch_pc cpu : branch_pc (Insn.check_range cpu) = branch_pc cpu.
Proof.
  unfold Insn.check_range. destruct (_ && _); [|done]. apply save_pc_dsx_branch_pc.
Qed.

Lemma add_base_branch_pc cpu cin d a b :
  branch_pc (Insn.add_base cpu cin d a b) = branch_pc cpu.
Proof. unfold Insn.add_base. by destruct (calc_add cin a b) as [[r o] c]. Qed.

Lemma mul_shared_branch_pc cpu d a b :
  branch_pc (Insn.mul_shared cpu a b d) = branch_pc cpu.
Proof. unfold Insn.mul_shared. cbv zeta. by repeat case_match. Qed.

Ltac branch_pc_kept :=
  intros cpu cont;
  match goal with
  | |- branch_pc (?f cpu cont) = _ => unfold f; cbv zeta
  | |- returns _ (?f cpu cont) =>
      unfold f; cbv zeta;
      repeat (apply (returns_bind (fun _ => True)); [apply returns_True|intros ? _])
  end;
  try unfold Insn.macrc; try unfold Insn.movhi; cbn [returns];
  rewrite ?check_range_branch_pc, ?add_base_branch_pc, ?mul_shared_branch_pc;
  repeat case_match; cbn [returns];
  rewrite ?check_range_branch_pc, ?add_base_branch_pc, ?mul_shared_branch_pc; reflexivity.

Lemma register_handlers_branch_pc : Forall keeps_branch_pc register_handlers.
Proof. repeat (apply List.Forall_cons; [branch_pc_kept|]); apply Forall_nil_2. Qed.

Lemma partial_handlers_branch_pc : Forall keeps_branch_pc_if_returns partial_handlers.
Proof. repeat (apply List.Forall_cons; [branch_pc_kept|]); apply Forall_nil_2. Qed.

Lemma exceptions_branch_pc cpu ea :
  branch_pc (alignment_exception cpu ea) = branch_pc cpu /\
  branch_pc (dataTLBMiss cpu ea) = branch_pc cpu /\
  branch_pc (instructionTLBMiss cpu ea) = branch_pc cpu /\
  branch_pc (instructionPageFault cpu ea) = branch_pc cpu /\
  branch_pc (sys cpu) = branch_pc cpu /\ branch_pc (trap cpu) = branch_pc cpu /\
  branch_pc (rfe cpu) = branch_pc cpu.
Proof.
  unfold alignment_exception, dataTLBMiss, instructionTLBMiss, instructionPageFault, trap, sys.
  repeat split; try apply (save_pc_dsx_branch_pc cpu). by destruct (is_in_delay_slot cpu).
Qed.
