(* ===== verification/Memory.v ===== *)
(** Loads and stores: src/system/software/sim_module/simulator.c, [calc_ea]
    and the functions from [simLoadData] to [sh].

    The memory is reached one word at a time; bytes and half words are cut out
    of the big endian word, and a store of less than a word reads it, replaces
    a part and writes it back.  Byte accesses at or above physical address
    0x08000000 go to the byte bus.

    The theorems give every access its meaning on bytes: [byte_at] is the byte
    of the RAM at a physical address. *)

From S2P Require Import Prelude Spr Host Cpu Arith Decode Exceptions Mmu Instr.

Open Scope Z_scope.
Open Scope cword_scope.

Definition calc_ea (cpu : CPU) (cont : control) : Z :=
  u32 (exts (c_I cont)) +! cpu_get_gpr cpu (c_rA cont).

Section Memory.
Context {H : Type} `{HH : Host H}.

(** The return code, the variable [value], the state. *)
Definition simLoadData (s : sim H) (address : Z) (value : option Z)
    : Z * option Z * sim H :=
  let '(ret, value, h) := guestLoadD (s_cpu s) address value (s_host s) in
  let s := Sim (s_cpu s) h in
  if ret =? 1 then (ret, value, with_cpu s (dataTLBMiss (s_cpu s) address))
  else (ret, value, s).

Definition simStoreData (s : sim H) (address value : Z) : Z * sim H :=
  let '(ret, h) := guestStoreD (s_cpu s) address value (s_host s) in
  let s := Sim (s_cpu s) h in
  if ret =? 1 then (ret, with_cpu s (dataTLBMiss (s_cpu s) address))
  else (ret, s).

Definition set_gpr (s : sim H) (reg value : Z) : sim H :=
  with_cpu s (cpu_set_gpr (s_cpu s) reg value).

Definition lwz (s : sim H) (cont : control) : outcome (sim H) :=
  let cpu := s_cpu s in
  let ea := calc_ea cpu cont in
  if truth (ea .& 0x3) then Ok (with_cpu s (alignment_exception cpu ea)) else
  let '(ret, value, s) := simLoadData s ea None in
  if ret =? 0 then
    value ← read_var value;
    Ok (set_gpr s (c_rD cont) value)
  else Ok s.

Definition lbz (s : sim H) (cont : control) : outcome (sim H) :=
  let cpu := s_cpu s in
  let ea := calc_ea cpu cont in
  let phyAddr := virtualToPhysicalD cpu ea (s_host s) in
  if phyAddr =? 1 then Ok (with_cpu s (dataTLBMiss cpu ea)) else
  if truth (phyAddr >> 27) then
    let '(value, h) := host_lbz phyAddr (s_host s) in
    Ok (set_gpr (Sim cpu h) (c_rD cont) value)
  else
  let '(ret, value, s) := simLoadData s (ea .& not32 0x3) None in
  if ret =? 0 then
    value ← read_var value;
    let value := (value >> ((0x3 - (ea .& 0x3)) * 8)) .& 0xff in
    Ok (set_gpr s (c_rD cont) value)
  else Ok s.

Definition lbs (s : sim H) (cont : control) : outcome (sim H) :=
  let cpu := s_cpu s in
  let ea := calc_ea cpu cont in
  let phyAddr := virtualToPhysicalD cpu ea (s_host s) in
  if phyAddr =? 1 then Ok (with_cpu s (dataTLBMiss cpu ea)) else
  if truth (phyAddr >> 27) then
    let '(value, h) := host_lbs phyAddr (s_host s) in
    Ok (set_gpr (Sim cpu h) (c_rD cont) value)
  else
  let '(ret, value, s) := simLoadData s (ea .& not32 0x3) None in
  if ret =? 0 then
    value ← read_var value;
    let shift := (0x3 - (ea .& 0x3)) * 8 in
    Ok (set_gpr s (c_rD cont) (u32 (sign_extend ((value >> shift) .& 0xff) 7)))
  else Ok s.

Definition lhz (s : sim H) (cont : control) : outcome (sim H) :=
  let cpu := s_cpu s in
  let ea := calc_ea cpu cont in
  if truth (ea .& 0x1) then Ok (with_cpu s (alignment_exception cpu ea)) else
  let '(ret, value, s) := simLoadData s (ea .& not32 0x3) None in
  if ret =? 0 then
    value ← read_var value;
    let value := if ea .& 0x2 =? 0 then value >> 16 else value .& 0xffff in
    Ok (set_gpr s (c_rD cont) value)
  else Ok s.

Definition lhs (s : sim H) (cont : control) : outcome (sim H) :=
  let cpu := s_cpu s in
  let ea := calc_ea cpu cont in
  if truth (ea .& 0x1) then Ok (with_cpu s (alignment_exception cpu ea)) else
  let '(ret, value, s) := simLoadData s (ea .& not32 0x3) None in
  if ret =? 0 then
    value ← read_var value;
    let value := if ea .& 0x2 =? 0 then value >> 16 else value in
    let value :=
      if value .& 0x00008000 =? 0 then value .& 0xffff else value .| 0xffff0000 in
    Ok (set_gpr s (c_rD cont) value)
  else Ok s.

Definition sw (s : sim H) (cont : control) : sim H :=
  let cpu := s_cpu s in
  let ea := calc_ea cpu cont in
  if truth (ea .& 0x3) then with_cpu s (alignment_exception cpu ea)
  else (simStoreData s ea (cpu_get_gpr cpu (c_rB cont))).2.

Definition sb (s : sim H) (cont : control) : outcome (sim H) :=
  let cpu := s_cpu s in
  let ea := calc_ea cpu cont in
  let phyAddr := virtualToPhysicalD cpu ea (s_host s) in
  if phyAddr =? 1 then Ok (with_cpu s (dataTLBMiss cpu ea)) else
  if truth (phyAddr >> 27) then
    let value := cpu_get_gpr cpu (c_rB cont) in
    Ok (Sim cpu (host_sb phyAddr value (s_host s)))
  else
  let '(ret, value, s) := simLoadData s (ea .& not32 0x3) None in
  if ret =? 0 then
    value ← read_var value;
    let shift := (0x3 - (ea .& 0x3)) * 8 in
    let value := value .& not32 (0xff << shift) in
    let value := value .| ((cpu_get_gpr (s_cpu s) (c_rB cont) .& 0xff) << shift) in
    Ok (simStoreData s (ea .& not32 0x3) value).2
  else Ok s.

Definition sh (s : sim H) (cont : control) : outcome (sim H) :=
  let cpu := s_cpu s in
  let ea := calc_ea cpu cont in
  if truth (ea .& 0x1) then Ok (with_cpu s (alignment_exception cpu ea)) else
  let '(ret, value, s) := simLoadData s (ea .& not32 0x3) None in
  if ret =? 0 then
    value ← read_var value;
    let value :=
      if ea .& 0x2 =? 0 then value .& 0xffff else value .& not32 0xffff in
    let value := value .|
      (if ea .& 0x2 =? 0 then cpu_get_gpr (s_cpu s) (c_rB cont) << 16
       else cpu_get_gpr (s_cpu s) (c_rB cont) .& 0xffff) in
    Ok (simStoreData s (ea .& not32 0x3) value).2
  else Ok s.

End Memory.

(** ** What the accesses mean *)

Inductive access : Type := Word | HalfZ | HalfS | ByteZ | ByteS.

Definition width (k : access) : Z :=
  match k with Word => 4 | HalfZ | HalfS => 2 | ByteZ | ByteS => 1 end.

(** The address a missed access reports: half words report their word's. *)
Definition miss_address (k : access) (ea : Z) : Z :=
  match k with HalfZ | HalfS => ea - ea mod 4 | _ => ea end.

Section Spec.
Context {H : Type} `{HH : Host H}.

Definition load (k : access) : sim H -> control -> outcome (sim H) :=
  match k with
  | Word => lwz | HalfZ => lhz | HalfS => lhs | ByteZ => lbz | ByteS => lbs
  end.

Definition store (k : access) (s : sim H) (cont : control) : outcome (sim H) :=
  match k with
  | Word => Ok (sw s cont)
  | HalfZ | HalfS => sh s cont
  | ByteZ | ByteS => sb s cont
  end.

(** Byte [k] of a big endian word, and the byte of the RAM at [pa]. *)
Definition word_byte (w k : Z) : Z := w / 2 ^ (8 * (3 - k)) mod 2 ^ 8.
Definition byte_at (h : H) (pa : Z) : Z :=
  word_byte (host_load32 (pa - pa mod 4) h).1 (pa mod 4).

(** The big endian number in [n] bytes. *)
Fixpoint be_value (n : nat) (h : H) (pa : Z) : Z :=
  match n with
  | O => 0
  | S n => byte_at h pa * 2 ^ (8 * Z.of_nat n) + be_value n h (pa + 1)
  end.

Definition load_value (k : access) (h : H) (pa : Z) : Z :=
  match k with
  | Word => be_value 4 h pa
  | HalfZ => be_value 2 h pa
  | HalfS => u32 (swrap 16 (be_value 2 h pa))
  | ByteZ => byte_at h pa
  | ByteS => u32 (swrap 8 (byte_at h pa))
  end.

(** [h'] is [h] with [n] bytes at [pa] replaced by those of [v]; the registers
    are the same, the cache operation registers apart. *)
Definition stored (n pa v : Z) (h h' : H) : Prop :=
  (forall q, 0 <= q < 0x08000000 ->
     byte_at h' q =
     if (pa <=? q) && (q <? pa + n)
     then v / 2 ^ (8 * (pa + n - 1 - q)) mod 2 ^ 8 else byte_at h q) /\
  (forall r, r <> SPR_DCBFR -> r <> SPR_ICBIR -> host_mfspr r h' = host_mfspr r h).

(** The data address as the TLB of the host translates it. *)
Definition data_translate (s : sim H) (va : Z) : option Z :=
  translate (cpu_get_dme (s_cpu s)) SPR_DTLBMR_BASE SPR_DTLBTR_BASE va (s_host s).

End Spec.

(** ** Addresses *)

Lemma calc_ea_word cpu cont : is_u32 (calc_ea cpu cont).
Proof. apply wrap_range. lia. Qed.

#[export] Hint Resolve calc_ea_word : wf word.

Lemma low_bits_mod va n : 0 <= n -> truth (va .& (2 ^ n - 1)) = negb (va mod 2 ^ n =? 0).
Proof. intros. by rewrite land_mask. Qed.

Lemma aligned_mask va : is_u32 va -> va .& not32 0x3 = va - va mod 4.
Proof.
  intros Hva. change (not32 0x3) with (Z.shiftl (2 ^ 30 - 1) 2).
  assert (Hd : va - va mod 4 = Z.shiftl (Z.shiftr va 2) 2).
  { rewrite Z.shiftl_mul_pow2, Z.shiftr_div_pow2 by lia. change (2 ^ 2) with 4.
    pose proof (Z.div_mod va 4 ltac:(lia)). lia. }
  rewrite Hd. zbits. destruct (Z.le_gt_cases 2 i).
  - rewrite testbit_mask, Z.shiftr_spec by lia. replace (i - 2 + 2) with i by lia.
    destruct (Z.ltb_spec (i - 2) 30); [apply andb_true_r|].
    by rewrite (testbit_word 32 va) by (done || lia).
  - rewrite !(Z.testbit_neg_r _ (i - 2)) by lia. apply andb_false_r.
Qed.

Lemma mod4_mask va : va .& 0x3 = va mod 4.
Proof. change 0x3 with (2 ^ 2 - 1). by rewrite land_mask. Qed.

Lemma bit1_mask va : (va .& 0x2 =? 0) = (va mod 4 <? 2).
Proof.
  change (va .& 0x2) with (va .& 2 ^ 1). rewrite land_pow2_b2z by lia.
  pose proof (Z.mod_pos_bound va 4 ltac:(lia)) as Hm.
  assert (Z.testbit va 1 = negb (va mod 4 <? 2)) as ->.
  { rewrite <- (Z.mod_pow2_bits_low va 2 1) by lia. change (2 ^ 2) with 4.
    assert (va mod 4 = 0 \/ va mod 4 = 1 \/ va mod 4 = 2 \/ va mod 4 = 3) as
      [-> | [-> | [-> | ->]]] by lia; done. }
  by destruct (va mod 4 <? 2).
Qed.

(** The word at a translated address is the translation of the word. *)
Lemma page_mod4 a : a mod 4 = (a mod 2 ^ 13) mod 4.
Proof. symmetry. apply Z.mod_mod_divide. by exists 2048. Qed.

Lemma mod_mod4 a b : a mod 2 ^ 13 = b mod 2 ^ 13 -> a mod 4 = b mod 4.
Proof. intros Hab. by rewrite (page_mod4 a), (page_mod4 b), Hab. Qed.

Section Laws.
Context {H : Type} `{HL : HostLaws H}.

Lemma translate_aligned en mr tr va pa h :
  translate en mr tr va h = Some pa ->
  translate en mr tr (va - va mod 4) h = Some (pa - pa mod 4).
Proof.
  intros Ht. pose proof (mod_mod4 _ _ (translate_offset _ _ _ _ _ _ Ht)) as H4.
  revert Ht. rewrite H4. unfold translate. destruct en; cbn [negb]; [|congruence].
  pose proof (Z.div_mod va (2 ^ 13) ltac:(lia)).
  pose proof (Z.mod_pos_bound va (2 ^ 13) ltac:(lia)) as Hb.
  pose proof (Z.mod_pos_bound va 4 ltac:(lia)).
  pose proof (page_mod4 va) as Hm4.
  assert (va mod 4 <= va mod 2 ^ 13) by (rewrite Hm4; apply Z.mod_le; lia).
  assert ((va - va mod 4) / 2 ^ 13 = va / 2 ^ 13) as ->.
  { symmetry. apply (Z.div_unique _ _ _ (va mod 2 ^ 13 - va mod 4)); lia. }
  assert ((va - va mod 4) mod 2 ^ 13 = va mod 2 ^ 13 - va mod 4) as ->.
  { symmetry. apply (Z.mod_unique _ _ (va / 2 ^ 13)); lia. }
  destruct (_ && _); [|done]. intros [= <-]. f_equal. lia.
Qed.

Lemma data_translate_aligned s va pa :
  data_translate s va = Some pa ->
  data_translate s (va - va mod 4) = Some (pa - pa mod 4).
Proof. apply translate_aligned. Qed.

Lemma translate_miss_aligned en mr tr va h :
  translate en mr tr va h = None -> translate en mr tr (va - va mod 4) h = None.
Proof.
  unfold translate. destruct en; cbn [negb]; [|congruence].
  assert ((va - va mod 4) / 2 ^ 13 = va / 2 ^ 13) as ->; [|by destruct (_ && _)].
  change (2 ^ 13) with (4 * 2 ^ 11). rewrite <- !Z.div_div by lia. f_equal.
  rewrite <- (Z.div_unique_exact _ 4 (va / 4)); [done|lia|].
  pose proof (Z.div_mod va 4 ltac:(lia)). lia.
Qed.

(** ** Access to a word *)

Lemma simLoadData_hit s va v pa :
  is_u32 va -> data_translate s va = Some pa -> Ram pa -> pa <> 0 ->
  simLoadData s va v = (0, Some (host_load32 pa (s_host s)).1, s).
Proof.
  intros Hva Ht Hr Hnz. unfold simLoadData, guestLoadD, guestLoad.
  rewrite virtualToPhysicalD_translate by done. unfold data_translate in Ht.
  rewrite Ht. cbn [default]. destruct Hr as [Hb Hm]. unfold from_option, id.
  destruct (Z.ltb_spec 2 pa) as [_|Hle].
  - pose proof (load32_pure pa (s_host s) (conj Hb Hm)) as Hp.
    destruct (host_load32 pa (s_host s)) as [x h]. cbn [fst snd] in *. subst h.
    by destruct s.
  - exfalso. assert (pa = 1 \/ pa = 2) as [-> | ->] by lia; done.
Qed.

Lemma simLoadData_miss s va v :
  is_u32 va -> data_translate s va = None ->
  simLoadData s va v = (1, v, with_cpu s (dataTLBMiss (s_cpu s) va)).
Proof.
  intros Hva Ht. unfold simLoadData, guestLoadD.
  rewrite virtualToPhysicalD_translate by done. unfold data_translate in Ht.
  by rewrite Ht.
Qed.

(** The host a store leaves behind. *)
Definition after_store (pa v : Z) (h : H) : H :=
  let h := flushCaches pa h in
  let temp := getSPR SPR_SR h in
  setSPR SPR_SR temp (guestStore pa v (setSPR SPR_SR (temp .& 0xffffffe7) h)).

Lemma simStoreData_hit s va v pa :
  is_u32 va -> data_translate s va = Some pa -> Ram pa -> pa <> 0 ->
  simStoreData s va v = (0, Sim (s_cpu s) (after_store pa v (s_host s))).
Proof.
  intros Hva Ht Hr Hnz. unfold simStoreData, guestStoreD.
  rewrite virtualToPhysicalD_translate by done. unfold data_translate in Ht.
  rewrite Ht. destruct Hr as [Hb Hm]. unfold default, from_option, id.
  destruct (Z.ltb_spec 2 pa) as [_|Hle]; [done|].
  exfalso. assert (pa = 1 \/ pa = 2) as [-> | ->] by lia; done.
Qed.

Lemma simStoreData_miss s va v :
  is_u32 va -> data_translate s va = None ->
  simStoreData s va v = (1, with_cpu s (dataTLBMiss (s_cpu s) va)).
Proof.
  intros Hva Ht. unfold simStoreData, guestStoreD.
  rewrite virtualToPhysicalD_translate by done. unfold data_translate in Ht.
  by rewrite Ht.
Qed.

Lemma after_store_load pa v h b : Ram pa -> Ram b -> is_u32 v ->
  (host_load32 b (after_store pa v h)).1 =
  if decide (b = pa) then v else (host_load32 b h).1.
Proof.
  intros Hp Hb Hv. unfold after_store, flushCaches, guestStore, setSPR.
  rewrite load32_mtspr by done. destruct (decide _) as [->|].
  - by apply load32_store32.
  - by rewrite load32_store32_ne, !load32_mtspr by (done || congruence).
Qed.

Lemma after_store_mfspr pa v h r :
  Ram pa -> r <> SPR_DCBFR -> r <> SPR_ICBIR ->
  host_mfspr r (after_store pa v h) = host_mfspr r h.
Proof.
  intros Hp Hd Hi. unfold after_store, flushCaches, guestStore, setSPR, getSPR.
  destruct (decide (r = SPR_SR)) as [->|].
  - rewrite mfspr_mtspr by (apply mfspr_word || done). by rewrite !mfspr_mtspr_ne by done.
  - rewrite mfspr_mtspr_ne, mfspr_store32, !mfspr_mtspr_ne by congruence. done.
Qed.

End Laws.

(** ** Bytes of words *)

Lemma byte_at_offset {H} `{Host H} (h : H) b k : b mod 4 = 0 -> 0 <= k < 4 ->
  byte_at h (b + k) = word_byte (host_load32 b h).1 k.
Proof.
  intros Hb Hk. unfold byte_at.
  assert ((b + k) mod 4 = k) as ->.
  { rewrite Z.add_mod, Hb, Z.add_0_l, Z.mod_mod by lia. apply Z.mod_small. lia. }
  by replace (b + k - k) with b by lia.
Qed.

(** Consecutive bytes of a word are a bit field of it. *)
Lemma be_value_field {H} `{Host H} (h : H) n b k :
  b mod 4 = 0 -> 0 <= k -> k + Z.of_nat n <= 4 ->
  be_value n h (b + k) =
  (host_load32 b h).1 / 2 ^ (8 * (4 - k - Z.of_nat n)) mod 2 ^ (8 * Z.of_nat n).
Proof.
  intros Hb. revert k. induction n as [|n IH]; intros k Hk Hn; [by rewrite Z.mod_1_r|].
  cbn [be_value]. rewrite byte_at_offset, <- Z.add_assoc, IH by lia. unfold word_byte.
  replace (8 * (4 - (k + 1) - Z.of_nat n)) with (8 * (4 - k - Z.of_nat (S n))) by lia.
  set (w := (host_load32 b h).1).
  replace (8 * (3 - k)) with (8 * (4 - k - Z.of_nat (S n)) + 8 * Z.of_nat n) by lia.
  rewrite (Z.pow_add_r 2 (8 * (4 - k - Z.of_nat (S n)))), <- Z.div_div by lia.
  set (x := w / 2 ^ _).
  replace (8 * Z.of_nat (S n)) with (8 * Z.of_nat n + 8) by lia.
  rewrite Z.pow_add_r, Z.rem_mul_r by lia. ring.
Qed.

Lemma split_address pa : exists b k, pa = b + k /\ b mod 4 = 0 /\ 0 <= k < 4 /\
  pa mod 4 = k /\ pa - pa mod 4 = b.
Proof.
  exists (pa - pa mod 4), (pa mod 4).
  pose proof (Z.mod_pos_bound pa 4 ltac:(lia)).
  repeat split; try lia. rewrite Zminus_mod_idemp_r, Z.sub_diag. done.
Qed.

(** The sign extension of [lhs]. *)
Lemma sign_half v : is_u32 v ->
  (if v .& 0x00008000 =? 0 then v .& 0xffff else v .| 0xffff0000) =
  u32 (swrap 16 (v mod 2 ^ 16)).
Proof.
  intros Hv. rewrite swrap_word by (done || apply Z.mod_pos_bound; lia).
  change (16 - 1) with 15. rewrite Z.mod_pow2_bits_low by lia.
  pose proof (truth_land_pow2 v 15 ltac:(lia)) as Ht. unfold truth in Ht.
  change (2 ^ 15) with 0x00008000 in Ht.
  rewrite <- Ht. destruct (_ =? _); cbn [negb].
  - change 0xffff with (2 ^ 16 - 1). rewrite land_mask by lia. symmetry.
    apply wrap_small, (is_word_weaken 16); [lia|]. by apply wrap_range.
  - replace (v mod 2 ^ 16 - 2 ^ 16) with (v mod 2 ^ 16 + 0xffff0000 + - 1 * 2 ^ 32) by lia.
    unfold wrap. rewrite Z_mod_plus_full.
    rewrite <- (lor_disjoint_add (v mod 2 ^ 16)).
    + fold (u32 (v mod 2 ^ 16 .| 0xffff0000)).
      change 0xffff0000 with (Z.shiftl (2 ^ 16 - 1) 16). fold (wrap 16 v). zbits.
      destruct (Z.le_gt_cases 16 i).
      * rewrite testbit_mask by lia. zbits_cases; simpl;
          rewrite ?orb_false_r, ?orb_true_r; try done.
        by rewrite (testbit_word 32 v) by (done || lia).
      * rewrite (Z.testbit_neg_r _ (i - 16)), !orb_false_r by lia.
        by zbits_cases.
    + change 0xffff0000 with (Z.shiftl (2 ^ 16 - 1) 16). fold (wrap 16 v). zbits.
      destruct (Z.ltb_spec i 16); [|done]. rewrite (Z.testbit_neg_r _ (i - 16)) by lia.
      by rewrite andb_false_r.
Qed.

(** ** Loads *)

Section Loads.
Context {H : Type} `{HL : HostLaws H}.

Lemma virtualToPhysicalD_hit s ea pa :
  is_u32 ea -> data_translate s ea = Some pa ->
  virtualToPhysicalD (s_cpu s) ea (s_host s) = pa.
Proof.
  intros Hea Ht. rewrite virtualToPhysicalD_translate by done.
  unfold data_translate in Ht. by rewrite Ht.
Qed.

Lemma virtualToPhysicalD_miss s ea :
  is_u32 ea -> data_translate s ea = None ->
  virtualToPhysicalD (s_cpu s) ea (s_host s) = 1.
Proof.
  intros Hea Ht. rewrite virtualToPhysicalD_translate by done.
  unfold data_translate in Ht. by rewrite Ht.
Qed.

Lemma ram_no_bus pa : 0 <= pa < 0x08000000 -> truth (pa >> 27) = false.
Proof. intros. by rewrite Z.shiftr_div_pow2, Z.div_small by lia. Qed.

(** The word a RAM access reads: at the word of the translated address. *)
Lemma simLoadData_word s ea pa v :
  is_u32 ea -> data_translate s ea = Some pa -> 4 <= pa < 0x08000000 ->
  simLoadData s (ea - ea mod 4) v =
  (0, Some (host_load32 (pa - pa mod 4) (s_host s)).1, s).
Proof.
  intros Hea Ht Hpa. destruct (split_address pa) as (b & k & Hbk & Hb & Hk & Hm & Hpb).
  pose proof (Z.mod_pos_bound ea 4 ltac:(lia)).
  pose proof (Z.mod_le ea 4 ltac:(apply Hea) ltac:(lia)).
  apply simLoadData_hit.
  - destruct Hea. split; lia.
  - by apply data_translate_aligned.
  - rewrite Hpb. split; lia.
  - rewrite Hpb. pose proof (Z.div_mod b 4 ltac:(lia)). lia.
Qed.

Lemma translate_mod4 s ea pa : data_translate s ea = Some pa -> ea mod 4 = pa mod 4.
Proof.
  intros Ht. symmetry. apply mod_mod4. unfold data_translate in Ht.
  by eapply translate_offset.
Qed.

Lemma mod2_mod4 a : a mod 2 = 0 -> a mod 4 = 0 \/ a mod 4 = 2.
Proof. intros. Z.to_euclidean_division_equations. lia. Qed.

Lemma unaligned_false n ea k : 0 <= n -> width k = 2 ^ n -> ea mod width k = 0 ->
  truth (ea .& (2 ^ n - 1)) = false.
Proof. intros ? Hw He. rewrite low_bits_mod, <- Hw, He by done. done. Qed.

Lemma byte_field w k : 0 <= k < 4 ->
  (w >> ((0x3 - k) * 8)) .& 0xff = word_byte w k.
Proof.
  intros. change 0xff with (2 ^ 8 - 1). rewrite land_mask, Z.shiftr_div_pow2 by lia.
  unfold word_byte, wrap. by rewrite Z.mul_comm.
Qed.

Lemma half_field w k : is_u32 w -> k = 0 \/ k = 2 ->
  (if k <? 2 then w >> 16 else w) mod 2 ^ 16 = w / 2 ^ (8 * (2 - k)) mod 2 ^ 16.
Proof.
  intros Hw [-> | ->]; cbn [Z.ltb]; simpl (_ <? _).
  - by rewrite Z.shiftr_div_pow2 by lia.
  - change (2 ^ (8 * (2 - 2))) with 1. by rewrite Z.div_1_r.
Qed.

Lemma half_zero_ext w k : is_u32 w ->
  (if k <? 2 then w >> 16 else w .& 0xffff) = (if k <? 2 then w >> 16 else w) mod 2 ^ 16.
Proof.
  intros [Hl Hh]. destruct (k <? 2).
  - rewrite Z.shiftr_div_pow2 by lia. symmetry. apply Z.mod_small.
    split; [apply Z.div_pos; lia|]. apply Z.div_lt_upper_bound; lia.
  - change 0xffff with (2 ^ 16 - 1). by rewrite land_mask.
Qed.

Lemma load_hit k s cont pa :
  let ea := calc_ea (s_cpu s) cont in
  ea mod width k = 0 -> data_translate s ea = Some pa -> 4 <= pa < 0x08000000 ->
  load k s cont = Ok (set_gpr s (c_rD cont) (load_value k (s_host s) pa)).
Proof.
  intros ea Hal Ht Hpa. assert (Hea : is_u32 ea) by apply calc_ea_word.
  pose proof (translate_mod4 _ _ _ Ht) as H4.
  pose proof (simLoadData_word s ea pa None Hea Ht Hpa) as Hl.
  destruct (split_address pa) as (b & o & Hbk & Hb & Ho & Hm & Hpb).
  rewrite Hpb in Hl. rewrite Hm in H4.
  pose proof (load32_word b (s_host s)) as Hw.
  set (w := (host_load32 b (s_host s)).1) in *.
  assert (Hbyte : byte_at (s_host s) pa = word_byte w o)
    by (rewrite Hbk; by apply byte_at_offset).
  destruct k; cbn [width] in Hal; unfold load, load_value, lwz, lhz, lhs, lbz, lbs;
    fold ea; cbn zeta.
  - change 0x3 with (2 ^ 2 - 1). rewrite (unaligned_false 2 ea Word) by (lia || done).
    rewrite Hal, Z.sub_0_r in Hl. rewrite Hl. cbn -[be_value]. fold w. f_equal. f_equal.
    rewrite Hbk, be_value_field by (lia || done). fold w.
    assert (o = 0) as -> by lia. change (w = w / 2 ^ 0 mod 2 ^ 32).
    rewrite Z.div_1_r. symmetry. by apply Z.mod_small.
  - change 0x1 with (2 ^ 1 - 1). rewrite (unaligned_false 1 ea HalfZ) by (lia || done).
    rewrite aligned_mask, Hl by done. cbn -[be_value]. fold w. rewrite bit1_mask, H4.
    rewrite half_zero_ext, half_field by (done || (rewrite <- H4; by apply mod2_mod4)).
    rewrite Hbk, be_value_field by (done || (destruct (mod2_mod4 ea Hal); lia)).
    by replace (4 - o - Z.of_nat 2) with (2 - o) by lia.
  - change 0x1 with (2 ^ 1 - 1). rewrite (unaligned_false 1 ea HalfS) by (lia || done).
    rewrite aligned_mask, Hl by done. cbn -[be_value]. fold w. rewrite bit1_mask, H4.
    rewrite sign_half by (destruct (_ <? 2); wf).
    rewrite half_field by (done || (rewrite <- H4; by apply mod2_mod4)).
    rewrite Hbk, be_value_field by (done || (destruct (mod2_mod4 ea Hal); lia)).
    by replace (4 - o - Z.of_nat 2) with (2 - o) by lia.
  - rewrite (virtualToPhysicalD_hit s ea pa), ram_no_bus by (done || lia).
    destruct (Z.eqb_spec pa 1); [lia|].
    rewrite aligned_mask, Hl by done. cbn -[be_value]. fold w.
    by rewrite mod4_mask, H4, byte_field, Hbyte.
  - rewrite (virtualToPhysicalD_hit s ea pa), ram_no_bus by (done || lia).
    destruct (Z.eqb_spec pa 1); [lia|].
    rewrite aligned_mask, Hl by done. cbn -[be_value]. fold w.
    rewrite mod4_mask, H4, byte_field, Hbyte by done.
    by rewrite sign_extend_swrap by (lia || by apply wrap_range).
Qed.

End Loads.

(** ** Stores *)

(** [w'] is [w] with the [n] bytes from byte [k] on replaced by those of [v]. *)
Definition patched (n k v w w' : Z) : Prop :=
  is_u32 w' /\
  forall i, 0 <= i < 32 ->
    Z.testbit w' i =
    if (8 * (4 - k - n) <=? i) && (i <? 8 * (4 - k))
    then Z.testbit v (i - 8 * (4 - k - n)) else Z.testbit w i.

Lemma patched_bytes n k v w w' j :
  patched n k v w w' -> 0 <= j < 4 -> 0 <= k -> 0 <= n -> k + n <= 4 ->
  word_byte w' j =
  if (k <=? j) && (j <? k + n) then v / 2 ^ (8 * (k + n - 1 - j)) mod 2 ^ 8
  else word_byte w j.
Proof.
  intros [_ Hp] Hj Hk Hn Hkn. unfold word_byte.
  assert (Hb : forall x m i, 0 <= m -> 0 <= i ->
    Z.testbit (x / 2 ^ m mod 2 ^ 8) i = (i <? 8) && Z.testbit x (i + m)).
  { intros. fold (wrap 8 (x / 2 ^ m)).
    rewrite testbit_wrap, <- Z.shiftr_div_pow2, Z.shiftr_spec by lia. done. }
  destruct (Z.leb_spec k j), (Z.ltb_spec j (k + n)); cbn [andb];
    apply Z.bits_inj'; intros i Hi; rewrite !Hb by lia;
    destruct (Z.ltb_spec i 8); cbn [andb]; try done;
    rewrite Hp by lia;
    destruct (Z.leb_spec (8 * (4 - k - n)) (i + 8 * (3 - j))),
      (Z.ltb_spec (i + 8 * (3 - j)) (8 * (4 - k))); cbn [andb]; try lia; try done.
  f_equal. lia.
Qed.

Lemma patch_word w v : is_u32 v -> patched 4 0 v w v.
Proof.
  intros Hv. split; [done|]. intros i Hi.
  destruct (Z.leb_spec (8 * (4 - 0 - 4)) i), (Z.ltb_spec i (8 * (4 - 0))); try lia.
  cbn [andb]. by rewrite Z.sub_0_r.
Qed.

Lemma patch_byte w v k : is_u32 w -> 0 <= k < 4 ->
  let shift := (0x3 - k) * 8 in
  patched 1 k v w ((w .& not32 (0xff << shift)) .| ((v .& 0xff) << shift)).
Proof.
  intros Hw Hk shift. split; [wf|]. intros i Hi. unfold not32, shl32.
  change 0xff with (2 ^ 8 - 1). autorewrite with zbits.
  destruct (Z.ltb_spec i 32); [|lia]. cbn [andb].
  replace (8 * (4 - k - 1)) with shift by (unfold shift; lia).
  replace (8 * (4 - k)) with (shift + 8) by (unfold shift; lia).
  destruct (Z.leb_spec shift i).
  - rewrite testbit_mask by lia.
    destruct (Z.ltb_spec (i - shift) 8), (Z.ltb_spec i (shift + 8)); try lia; cbn [negb andb].
    + by rewrite andb_false_r, andb_true_r.
    + by rewrite andb_true_r, andb_false_r, orb_false_r.
  - rewrite !(Z.testbit_neg_r _ (i - shift)) by lia. cbn [andb negb].
    by rewrite andb_true_r, orb_false_r.
Qed.

Lemma patch_half w v k : is_u32 w -> is_u32 v -> k = 0 \/ k = 2 ->
  patched 2 k v w
    ((if k <? 2 then w .& 0xffff else w .& not32 0xffff) .|
     (if k <? 2 then v << 16 else v .& 0xffff)).
Proof.
  intros Hw Hv [-> | ->];
    [change (0 <? 2) with true|change (2 <? 2) with false]; cbv iota;
    (split; [wf|]); intros i Hi.
  - unfold shl32. change 0xffff with (2 ^ 16 - 1). autorewrite with zbits.
    destruct (Z.ltb_spec i 32), (Z.leb_spec (8 * (4 - 0 - 2)) i),
      (Z.ltb_spec i (8 * (4 - 0))), (Z.ltb_spec i 16); try lia; cbn [andb].
    + by rewrite andb_false_r.
    + rewrite (Z.testbit_neg_r _ (i - 16)) by lia. by rewrite andb_true_r, orb_false_r.
  - unfold not32. change 0xffff with (2 ^ 16 - 1). autorewrite with zbits.
    destruct (Z.ltb_spec i 32), (Z.leb_spec (8 * (4 - 2 - 2)) i),
      (Z.ltb_spec i (8 * (4 - 2))), (Z.ltb_spec i 16); try lia; cbn [andb negb].
    + rewrite andb_false_r, andb_true_r. cbn [orb]. f_equal. lia.
    + by rewrite andb_true_r, andb_false_r, orb_false_r.
Qed.

Section Stores.
Context {H : Type} `{HL : HostLaws H}.

Lemma stored_patch n b k v w' h :
  Ram b -> 0 <= k -> 0 <= n -> k + n <= 4 ->
  patched n k v (host_load32 b h).1 w' ->
  stored n (b + k) v h (after_store b w' h).
Proof.
  intros Hr Hk Hn Hkn Hp. split; [|intros; by apply after_store_mfspr].
  intros q Hq. destruct (split_address q) as (c & o & -> & Hc & Ho & _ & _).
  assert (Hrc : Ram c) by (pose proof (Z.div_mod c 4 ltac:(lia)); split; lia).
  rewrite !byte_at_offset by done.
  rewrite after_store_load by (done || apply Hp). destruct Hr as [_ Hb].
  destruct (decide (c = b)) as [->|Hne].
  - rewrite (patched_bytes n k v (host_load32 b h).1 w') by done.
    destruct (Z.leb_spec k o), (Z.leb_spec (b + k) (b + o)), (Z.ltb_spec o (k + n)),
      (Z.ltb_spec (b + o) (b + k + n)); try lia; cbn [andb]; try done.
    by replace (b + k + n - 1 - (b + o)) with (k + n - 1 - o) by lia.
  - assert (c < b /\ c + 4 <= b \/ b < c /\ b + 4 <= c).
    { pose proof (Z.div_mod b 4 ltac:(lia)). pose proof (Z.div_mod c 4 ltac:(lia)). lia. }
    destruct (Z.leb_spec (b + k) (c + o)), (Z.ltb_spec (c + o) (b + k + n));
      try lia; done.
Qed.

Lemma simStoreData_word s ea pa v :
  is_u32 ea -> data_translate s ea = Some pa -> 4 <= pa < 0x08000000 ->
  simStoreData s (ea - ea mod 4) v =
  (0, Sim (s_cpu s) (after_store (pa - pa mod 4) v (s_host s))).
Proof.
  intros Hea Ht Hpa. destruct (split_address pa) as (b & k & Hbk & Hb & Hk & Hm & Hpb).
  pose proof (Z.mod_pos_bound ea 4 ltac:(lia)).
  pose proof (Z.mod_le ea 4 ltac:(apply Hea) ltac:(lia)).
  apply simStoreData_hit.
  - destruct Hea. split; lia.
  - by apply data_translate_aligned.
  - rewrite Hpb. split; lia.
  - rewrite Hpb. pose proof (Z.div_mod b 4 ltac:(lia)). lia.
Qed.

Lemma store_hit k s cont pa :
  let ea := calc_ea (s_cpu s) cont in
  cpu_wf (s_cpu s) ->
  ea mod width k = 0 -> data_translate s ea = Some pa -> 4 <= pa < 0x08000000 ->
  exists h', store k s cont = Ok (Sim (s_cpu s) h') /\
    stored (width k) pa (cpu_get_gpr (s_cpu s) (c_rB cont)) (s_host s) h'.
Proof.
  intros ea Hwf Hal Ht Hpa. assert (Hea : is_u32 ea) by apply calc_ea_word.
  pose proof (translate_mod4 _ _ _ Ht) as H4.
  pose proof (simLoadData_word s ea pa None Hea Ht Hpa) as Hl.
  pose proof (fun v => simStoreData_word s ea pa v Hea Ht Hpa) as Hs.
  destruct (split_address pa) as (b & o & Hbk & Hb & Ho & Hm & Hpb).
  rewrite Hpb in *. rewrite Hm in H4. rewrite H4 in Hl, Hs.
  assert (Hr : Ram b) by (pose proof (Z.div_mod b 4 ltac:(lia)); split; lia).
  pose proof (load32_word b (s_host s)) as Hw.
  set (w := (host_load32 b (s_host s)).1) in *.
  assert (Hv : is_u32 (cpu_get_gpr (s_cpu s) (c_rB cont))) by wf.
  set (v := cpu_get_gpr (s_cpu s) (c_rB cont)) in *.
  assert (Hfin : forall n w', 0 <= n -> o + n <= 4 -> patched n o v w w' ->
    exists h', Ok (simStoreData s (ea - o) w').2 = Ok (Sim (s_cpu s) h') /\
      stored n pa v (s_host s) h').
  { intros n w' Hn Hon Hp. rewrite Hs. eexists. split; [done|].
    rewrite Hbk. apply stored_patch; (done || lia). }
  destruct k; cbn [width] in Hal |- *; unfold store, sw, sh, sb; fold ea; cbn zeta;
    fold v.
  1: { change 0x3 with (2 ^ 2 - 1). rewrite (unaligned_false 2 ea Word) by (lia || done).
    assert (o = 0) as -> by lia. rewrite Z.sub_0_r in Hfin.
    apply Hfin; [lia|lia|by apply patch_word]. }
  1,2: change 0x1 with (2 ^ 1 - 1); rewrite (unaligned_false 1 ea HalfZ) by (lia || done);
    rewrite aligned_mask, H4, Hl by done; cbn; rewrite bit1_mask, H4; fold v;
    apply Hfin; [lia|destruct (mod2_mod4 ea Hal); lia|];
    apply patch_half; [done..|]; rewrite <- H4; by apply mod2_mod4.
  1,2: rewrite (virtualToPhysicalD_hit s ea pa), ram_no_bus by (done || lia);
    destruct (Z.eqb_spec pa 1); [lia|];
    rewrite aligned_mask, H4, Hl by done; cbn; rewrite mod4_mask, H4; fold v;
    apply Hfin; [lia|lia|by apply patch_byte].
Qed.

End Stores.

(** ** The accesses that fail *)

Section Errors.
Context {H : Type} `{HL : HostLaws H}.

Definition raises (f : CPU -> CPU) (s : sim H) (m : outcome (sim H)) : Prop :=
  m = Ok (with_cpu s (f (s_cpu s))).

Lemma unaligned_true n ea : 0 <= n -> ea mod 2 ^ n <> 0 -> truth (ea .& (2 ^ n - 1)) = true.
Proof.
  intros ? He. rewrite low_bits_mod by done. by destruct (Z.eqb_spec (ea mod 2 ^ n) 0).
Qed.

Lemma access_unaligned k s cont :
  let ea := calc_ea (s_cpu s) cont in
  ea mod width k <> 0 ->
  raises (fun cpu => alignment_exception cpu ea) s (load k s cont) /\
  raises (fun cpu => alignment_exception cpu ea) s (store k s cont).
Proof.
  intros ea Hal. unfold raises.
  destruct k; cbn [width] in Hal;
    try (by destruct Hal; rewrite Z.mod_1_r);
    unfold load, store, lwz, lhz, lhs, sw, sh; fold ea; cbn zeta.
  1: change 0x3 with (2 ^ 2 - 1); by rewrite (unaligned_true 2 ea) by (done || lia).
  all: change 0x1 with (2 ^ 1 - 1); by rewrite (unaligned_true 1 ea) by (done || lia).
Qed.

Lemma access_miss k s cont :
  let ea := calc_ea (s_cpu s) cont in
  ea mod width k = 0 -> data_translate s ea = None ->
  raises (fun cpu => dataTLBMiss cpu (miss_address k ea)) s (load k s cont) /\
  raises (fun cpu => dataTLBMiss cpu (miss_address k ea)) s (store k s cont).
Proof.
  intros ea Hal Ht. assert (Hea : is_u32 ea) by apply calc_ea_word.
  assert (Hw : is_u32 (ea - ea mod 4)).
  { pose proof (Z.mod_pos_bound ea 4 ltac:(lia)).
    pose proof (Z.mod_le ea 4 ltac:(apply Hea) ltac:(lia)). destruct Hea. split; lia. }
  assert (Hm : data_translate s (ea - ea mod 4) = None) by (by apply translate_miss_aligned).
  unfold raises.
  destruct k; cbn [width] in Hal; unfold load, store, lwz, lhz, lhs, lbz, lbs, sw, sh, sb;
    fold ea; cbn zeta.
  1: change 0x3 with (2 ^ 2 - 1); rewrite (unaligned_false 2 ea Word) by (lia || done);
    by rewrite simLoadData_miss, simStoreData_miss by done.
  1,2: change 0x1 with (2 ^ 1 - 1); rewrite (unaligned_false 1 ea HalfZ) by (lia || done);
    by rewrite aligned_mask, simLoadData_miss by done.
  1,2: by rewrite virtualToPhysicalD_miss by done.
Qed.

(** A byte at or above 0x08000000 goes to the byte bus. *)
Lemma byte_bus s cont pa :
  let ea := calc_ea (s_cpu s) cont in
  data_translate s ea = Some pa -> 0x08000000 <= pa ->
  load ByteZ s cont =
    Ok (set_gpr (Sim (s_cpu s) (host_lbz pa (s_host s)).2) (c_rD cont)
          (host_lbz pa (s_host s)).1) /\
  load ByteS s cont =
    Ok (set_gpr (Sim (s_cpu s) (host_lbs pa (s_host s)).2) (c_rD cont)
          (host_lbs pa (s_host s)).1) /\
  store ByteZ s cont =
    Ok (Sim (s_cpu s) (host_sb pa (cpu_get_gpr (s_cpu s) (c_rB cont)) (s_host s))).
Proof.
  intros ea Ht Hpa. assert (Hea : is_u32 ea) by apply calc_ea_word.
  unfold load, store, lbz, lbs, sb. fold ea. cbn zeta.
  rewrite (virtualToPhysicalD_hit s ea pa) by done.
  assert (truth (pa >> 27) = true) as ->.
  { rewrite Z.shiftr_div_pow2 by lia. unfold truth.
    destruct (Z.eqb_spec (pa / 2 ^ 27) 0) as [E|]; [|done].
    apply Z.div_small_iff in E; lia. }
  destruct (Z.eqb_spec pa 1); [lia|].
  destruct (host_lbz pa _), (host_lbs pa _). done.
Qed.

(** The first word of the physical memory cannot be read: a translated address
    below 3 is taken for an error code, 0 for success, and the variable the
    caller reads was never written. *)
Lemma load_word0_undef k s cont :
  let ea := calc_ea (s_cpu s) cont in
  ea mod width k = 0 -> data_translate s ea = Some 0 ->
  load k s cont = Undef.
Proof.
  intros ea Hal Ht. assert (Hea : is_u32 ea) by apply calc_ea_word.
  pose proof (translate_mod4 _ _ _ Ht) as H4. rewrite Z.mod_0_l in H4 by lia.
  assert (Hl : simLoadData s ea None = (0, None, s)).
  { unfold simLoadData, guestLoadD. rewrite (virtualToPhysicalD_hit s ea 0) by done.
    by destruct s. }
  destruct k; cbn [width] in Hal; unfold load, lwz, lhz, lhs, lbz, lbs;
    fold ea; cbn zeta.
  1: change 0x3 with (2 ^ 2 - 1); rewrite (unaligned_false 2 ea Word) by (lia || done);
    by rewrite Hl.
  1,2: change 0x1 with (2 ^ 1 - 1); rewrite (unaligned_false 1 ea HalfZ) by (lia || done);
    by rewrite aligned_mask, H4, Z.sub_0_r, Hl by done.
  1,2: rewrite (virtualToPhysicalD_hit s ea 0) by done; simpl;
    by rewrite aligned_mask, H4, Z.sub_0_r, Hl by done.
Qed.

(** A word stored there is lost. *)
Lemma store_word0_dropped s cont :
  let ea := calc_ea (s_cpu s) cont in
  ea mod 4 = 0 -> data_translate s ea = Some 0 ->
  store Word s cont = Ok s.
Proof.
  intros ea Hal Ht. assert (Hea : is_u32 ea) by apply calc_ea_word.
  unfold store, sw. fold ea. cbn zeta. change 0x3 with (2 ^ 2 - 1).
  rewrite (unaligned_false 2 ea Word) by (lia || done).
  unfold simStoreData, guestStoreD. rewrite (virtualToPhysicalD_hit s ea 0) by done.
  by destruct s.
Qed.

(** The other stores read the word first. *)
Lemma store_word0 k s cont :
  let ea := calc_ea (s_cpu s) cont in
  ea mod width k = 0 -> data_translate s ea = Some 0 ->
  store k s cont = match k with Word => Ok s | _ => Undef end.
Proof.
  intros ea Hal Ht. assert (Hea : is_u32 ea) by apply calc_ea_word.
  pose proof (translate_mod4 _ _ _ Ht) as H4. rewrite Z.mod_0_l in H4 by lia.
  assert (Hl : simLoadData s ea None = (0, None, s)).
  { unfold simLoadData, guestLoadD. rewrite (virtualToPhysicalD_hit s ea 0) by done.
    by destruct s. }
  destruct k; [by apply store_word0_dropped|..]; cbn [width] in Hal; unfold store, sh, sb;
    fold ea; cbn zeta.
  1,2: change 0x1 with (2 ^ 1 - 1); rewrite (unaligned_false 1 ea HalfZ) by (lia || done);
    by rewrite aligned_mask, H4, Z.sub_0_r, Hl by done.
  1,2: rewrite (virtualToPhysicalD_hit s ea 0) by done; simpl;
    by rewrite aligned_mask, H4, Z.sub_0_r, Hl by done.
Qed.

(** ** Well-formedness *)

Definition sim_wf (s : sim H) : Prop := cpu_wf (s_cpu s).

Lemma simLoadData_wf s va : sim_wf s -> is_u32 va ->
  let '(_, v, s') := simLoadData s va None in
  sim_wf s' /\ forall x, v = Some x -> is_u32 x.
Proof.
  intros Hs Hva. unfold simLoadData.
  destruct (guestLoadD _ _ _ _) as [[ret v] h] eqn:E.
  pose proof (guestLoadD_word _ _ _ _ _ _ _ E ltac:(done)) as Hw.
  destruct (_ =? _); split; try done. unfold sim_wf, with_cpu. simpl. wf.
Qed.

Lemma simStoreData_wf s va v : sim_wf s -> is_u32 va -> sim_wf (simStoreData s va v).2.
Proof.
  intros Hs Hva. unfold simStoreData. destruct (guestStoreD _ _ _ _) as [ret h].
  unfold sim_wf in *. destruct (_ =? _); simpl; wf.
Qed.

Lemma read_word v : (forall x, v = Some x -> is_u32 x) -> returns is_u32 (read_var v).
Proof. destruct v; simpl; auto. Qed.

Lemma set_gpr_wf s r v : sim_wf s -> 0 <= r -> is_u32 v -> sim_wf (set_gpr s r v).
Proof. unfold sim_wf. simpl. intros. wf. Qed.

Lemma raise_wf (s : sim H) cpu : cpu_wf cpu -> sim_wf (with_cpu s cpu).
Proof. done. Qed.

End Errors.

#[export] Hint Resolve set_gpr_wf raise_wf simStoreData_wf read_word : wf.
#[export] Hint Extern 1 (cpu_wf (s_cpu _)) => assumption : wf.
#[export] Hint Extern 2 (sim_wf (if _ then _ else _)) => case_match : wf.

Section AccessWf.
Context {H : Type} `{HL : HostLaws H}.

(** After the address is computed, a handler is a tree of tests around at most
    one load: the hints cover the leaves. *)
Local Ltac access_wf :=
  repeat match goal with
    | |- returns _ (if ?b then _ else _) => destruct b
    | |- returns _ (read_var _ ≫= _) =>
        apply (returns_bind is_u32); [wf|intros ??]
    | |- returns _ (Ok _) => unfold returns
    | |- returns _ _ => progress cbn zeta
    | |- context [simLoadData ?s ?a None] =>
        let Hl := fresh "Hl" in
        pose proof (simLoadData_wf s a ltac:(assumption) ltac:(wf)) as Hl;
        destruct (simLoadData s a None) as [[??]?]; destruct Hl
    | |- context [host_lbz ?a ?h] =>
        pose proof (lbz_word a h); destruct (host_lbz a h)
    | |- context [host_lbs ?a ?h] =>
        pose proof (lbs_word a h); destruct (host_lbs a h)
    end;
  try done; simpl in *; try wf.

Lemma access_wf k s cont : sim_wf s -> control_wf cont ->
  returns sim_wf (load k s cont) /\ returns sim_wf (store k s cont).
Proof.
  intros Hs Hc. pose proof (calc_ea_word (s_cpu s) cont) as Hea.
  assert (Hcpu : cpu_wf (s_cpu s)) by exact Hs.
  destruct k; unfold load, store, lwz, lhz, lhs, lbz, lbs, sw, sh, sb;
    set (ea := calc_ea _ _) in *; cbn zeta; split; access_wf.
  apply set_gpr_wf; [done|wf|]. by apply is_word_land_r.
Qed.

End AccessWf.

(** ** Reading back what was stored *)

Section ReadBack.
Context {H : Type} `{HH : Host H}.

Lemma stored_be_value n pa v h h' m :
  stored n pa v h h' -> 0 <= pa -> pa + n <= 0x08000000 -> Z.of_nat m <= n ->
  be_value m h' (pa + n - Z.of_nat m) = v mod 2 ^ (8 * Z.of_nat m).
Proof.
  intros [Hs _] Hpa Hhi. induction m as [|m IH]; intros Hm; [by rewrite Z.mod_1_r|].
  cbn [be_value]. replace (pa + n - Z.of_nat (S m) + 1) with (pa + n - Z.of_nat m) by lia.
  rewrite IH, Hs by lia.
  destruct (Z.leb_spec pa (pa + n - Z.of_nat (S m))),
    (Z.ltb_spec (pa + n - Z.of_nat (S m)) (pa + n)); cbn [andb]; try lia.
  replace (8 * (pa + n - 1 - (pa + n - Z.of_nat (S m)))) with (8 * Z.of_nat m) by lia.
  replace (8 * Z.of_nat (S m)) with (8 * Z.of_nat m + 8) by lia.
  rewrite Z.pow_add_r, Z.rem_mul_r by lia. ring.
Qed.

(** The value a load of the same width finds: the low bytes, extended. *)
Definition extended (k : access) (v : Z) : Z :=
  match k with
  | Word => v mod 2 ^ 32
  | HalfZ => v mod 2 ^ 16
  | HalfS => u32 (swrap 16 v)
  | ByteZ => v mod 2 ^ 8
  | ByteS => u32 (swrap 8 v)
  end.

Lemma stored_load_value k pa v h h' :
  stored (width k) pa v h h' -> 0 <= pa -> pa + width k <= 0x08000000 ->
  load_value k h' pa = extended k v.
Proof.
  intros Hs Hpa Hhi. pose proof (fun m => stored_be_value _ _ _ _ _ m Hs Hpa Hhi) as Hb.
  destruct k; cbn [width] in *; unfold load_value, extended.
  - specialize (Hb 4%nat ltac:(lia)). replace (pa + 4 - Z.of_nat 4) with pa in Hb by lia. exact Hb.
  - specialize (Hb 2%nat ltac:(lia)). replace (pa + 2 - Z.of_nat 2) with pa in Hb by lia. exact Hb.
  - specialize (Hb 2%nat ltac:(lia)). replace (pa + 2 - Z.of_nat 2) with pa in Hb by lia.
    rewrite Hb. f_equal. apply (swrap_wrap 16).
  - specialize (Hb 1%nat ltac:(lia)). replace (pa + 1 - Z.of_nat 1) with pa in Hb by lia.
    cbn [be_value] in Hb. rewrite Z.add_0_r, Z.mul_1_r in Hb. exact Hb.
  - specialize (Hb 1%nat ltac:(lia)). replace (pa + 1 - Z.of_nat 1) with pa in Hb by lia.
    cbn [be_value] in Hb. rewrite Z.add_0_r, Z.mul_1_r in Hb. rewrite Hb.
    f_equal. apply (swrap_wrap 8).
Qed.

(** A store does not change the translation. *)
Lemma stored_translate s pa n v h' va :
  stored n pa v (s_host s) h' ->
  data_translate (Sim (s_cpu s) h') va = data_translate s va.
Proof.
  intros [_ Hr]. unfold data_translate, translate. cbn [s_cpu s_host].
  destruct (cpu_get_dme (s_cpu s)); [|done]. cbn [negb].
  pose proof (Z.mod_pos_bound (va / 2 ^ 13) 64 ltac:(lia)).
  unfold SPR_DTLBMR_BASE, SPR_DTLBTR_BASE, SPR_DCBFR, SPR_ICBIR in *.
  change SPRGROUP_DMMU with 2048 in *. change SPRGROUP_DC with 6144 in *.
  change SPRGROUP_IC with 8192 in *. by rewrite !Hr by lia.
Qed.

End ReadBack.
