(* ===== verification/Exec.v ===== *)
(** Fetch, decode and execute:
    src/system/software/sim_module/simulator.c, from [sfi] to
    [cpu_exec_inst].

    [execute] dispatches on the opcode to the handlers of Instr.v, Exceptions.v
    and Memory.v and then advances the PC. *)

From S2P Require Import Prelude Spr Host Cpu Arith Decode Exceptions Mmu Instr Memory.

Open Scope Z_scope.
Open Scope cword_scope.

Section Exec.
Context `{HB : Build} {H : Type} `{HH : Host H}.

(** A handler that only changes the processor, as a handler of the whole
    state. *)
Definition total (f : CPU -> control -> CPU) (s : sim H) (cont : control)
    : outcome (sim H) := Ok (with_cpu s (f (s_cpu s) cont)).
Definition partial (f : CPU -> control -> outcome CPU) (s : sim H) (cont : control)
    : outcome (sim H) := cpu ← f (s_cpu s) cont; Ok (with_cpu s cpu).

(** [while(1)] in a standalone build; otherwise the instruction is loaded and
    printed and [assert(false)] stops the program. *)
Definition unimpl (s : sim H) (cont : control) : outcome (sim H) :=
  if STANDALONE then Hang else AssertFail.

Definition or32_nop (cpu : CPU) (cont : control) : CPU := cpu.

Definition sfi (s : sim H) (cont : control) : outcome (sim H) :=
  switch (c_sf_op cont)
    [ (SFNE_OP, total Insn.sfnei s cont);
      (SFGTU_OP, total Insn.sfgtui s cont);
      (SFEQ_OP, total Insn.sfeqi s cont);
      (SFGEU_OP, total Insn.sfgeui s cont);
      (SFGES_OP, total Insn.sfgesi s cont);
      (SFLTU_OP, total Insn.sfltui s cont);
      (SFLTS_OP, total Insn.sfltsi s cont);
      (SFLEU_OP, total Insn.sfleui s cont);
      (SFLES_OP, total Insn.sflesi s cont);
      (SFGTS_OP, total Insn.sfgtsi s cont) ]
    (unimpl s cont).

Definition sf (s : sim H) (cont : control) : outcome (sim H) :=
  switch (c_sf_op cont)
    [ (SFNE_OP, total Insn.sfne s cont);
      (SFEQ_OP, total Insn.sfeq s cont);
      (SFLTU_OP, total Insn.sfltu s cont);
      (SFLEU_OP, total Insn.sfleu s cont);
      (SFGTU_OP, total Insn.sfgtu s cont);
      (SFGTS_OP, total Insn.sfgts s cont);
      (SFGEU_OP, total Insn.sfgeu s cont);
      (SFGES_OP, total Insn.sfges s cont);
      (SFLTS_OP, total Insn.sflts s cont);
      (SFLES_OP, total Insn.sfles s cont) ]
    (unimpl s cont).

Definition mac_msb (s : sim H) (cont : control) : outcome (sim H) :=
  if c_inst cont .& 0xf =? 0x2 then partial Insn.msb s cont
  else if c_inst cont .& 0xf =? 0x1 then partial Insn.mac s cont
  else unimpl s cont.

Definition or32_mtspr (s : sim H) (cont : control) : outcome (sim H) :=
  let cpu := s_cpu s in
  cpu_set_spr s (cpu_get_gpr cpu (c_rA cont) .| c_K cont)
    (cpu_get_gpr cpu (c_rB cont)).

Definition or32_mfspr (s : sim H) (cont : control) : outcome (sim H) :=
  let cpu := s_cpu s in
  value ← cpu_get_spr s (cpu_get_gpr cpu (c_rA cont) .| c_K cont);
  Ok (set_gpr s (c_rD cont) value).

Definition sys_trap_sync (s : sim H) (cont : control) : outcome (sim H) :=
  switch (c_inst cont .& 0xffff0000)
    [ (0x20000000, Ok (with_cpu s (sys (s_cpu s))));
      (0x21000000, Ok (with_cpu s (trap (s_cpu s)))) ]
    (unimpl s cont).

Definition ro_shift_i (s : sim H) (cont : control) : outcome (sim H) :=
  switch (c_ro_shift_i_op cont)
    [ (RS_SLLI_OP, total Insn.slli s cont);
      (RS_SRLI_OP, total Insn.srli s cont);
      (RS_SRAI_OP, total Insn.srai s cont);
      (RS_RORI_OP, partial Insn.rori s cont) ]
    (unimpl s cont).

Definition alu (s : sim H) (cont : control) : outcome (sim H) :=
  switch (c_alu_op cont)
    [ (ADD_ALU_OP, total Insn.add s cont);
      (ADDC_ALU_OP, total Insn.addc s cont);
      (EXTWS_ALU_OP, total Insn.extws s cont);
      (EXTWZ_ALU_OP, total Insn.extwz s cont);
      (EXTHS_ALU_OP, total Insn.exths s cont);
      (EXTBS_ALU_OP, total Insn.extbs s cont);
      (EXTBZ_ALU_OP, total Insn.extbz s cont);
      (EXTHZ_ALU_OP, total Insn.exthz s cont);
      (DIVU_ALU_OP, total Insn.divu s cont);
      (DIV_ALU_OP, partial Insn.or32_div s cont);
      (FF1_ALU_OP, total Insn.ff1 s cont);
      (FL1_ALU_OP, total Insn.fl1 s cont);
      (MUL_ALU_OP, total Insn.mul s cont);
      (MULU_ALU_OP, total Insn.mulu s cont);
      (SUB_ALU_OP, partial Insn.sub s cont);
      (AND_ALU_OP, total Insn.and s cont);
      (XOR_ALU_OP, total Insn.xor s cont);
      (SLL_ALU_OP, total Insn.sll s cont);
      (SRL_ALU_OP, partial Insn.srl s cont);
      (SRA_ALU_OP, total Insn.sra s cont);
      (ROR_ALU_OP, partial Insn.ror s cont);
      (OR_ALU_OP, total Insn.or s cont);
      (CMOV_ALU_OP, total Insn.cmov s cont) ]
    (unimpl s cont).

(** The word a fetch that fails returns. *)
Definition no_inst : Z := 0xdeadbeef.

Definition fetch_next (s : sim H) : Z * sim H :=
  let cpu := s_cpu s in
  let '(_, inst, h) :=
    guestLoadI cpu (cpu_get_pc cpu +! 0x4) (Some no_inst) (s_host s) in
  (default no_inst inst, Sim cpu h).

Definition fetch (s : sim H) : Z * sim H :=
  let cpu := s_cpu s in
  let '(ret, inst, h) := guestLoadI cpu (cpu_get_pc cpu) (Some no_inst) (s_host s) in
  let cpu :=
    if ret =? 1 then instructionTLBMiss cpu (cpu_get_pc cpu)
    else if ret =? 2 then instructionPageFault cpu (cpu_get_pc cpu)
    else cpu in
  (default no_inst inst, Sim cpu h).

Definition can_execute (op : Z) : bool :=
  switch (OPCODE op)
    (map (fun op => (op, true))
       [ OP_NOP; OP_ADDI; OP_ADDIC; OP_ORI; OP_ALU; OP_MAC; OP_MACI;
         OP_MACRC_MOVHI; OP_MULI; OP_ANDI; OP_XORI; OP_SFI; OP_SF;
         OP_RO_SHIFT_I; OP_MTSPR; OP_MFSPR; OP_RFE;
         OP_J; OP_JAL; OP_JALR; OP_BF; OP_BNF; OP_JR;
         OP_LWZ; OP_LWS; OP_SW; OP_LHZ; OP_LHS; OP_SH; OP_LBZ; OP_LBS; OP_SB;
         OP_SYS_TRAP_SYNC ])
    false.

(** The macro is empty. *)
Definition BAIL (s : sim H) : sim H := s.

(** [if(!can_execute(fetch_next(cpu))) BAIL();] and the branch. *)
Definition branch (f : CPU -> control -> CPU) (s : sim H) (cont : control)
    : outcome (sim H) :=
  let '(inst, s) := fetch_next s in
  let s := if negb (can_execute inst) then BAIL s else s in
  total f s cont.

Definition execute (op : Z) (s : sim H) (cont : control) : outcome (sim H) :=
  s ← switch op
    [ (OP_J, branch Insn.j s cont);
      (OP_JAL, branch Insn.jal s cont);
      (OP_JALR, branch Insn.jalr s cont);
      (OP_BF, branch Insn.bf s cont);
      (OP_BNF, branch Insn.bnf s cont);
      (OP_JR, branch Insn.jr s cont);
      (OP_NOP, total or32_nop s cont);
      (OP_LBZ, lbz s cont);
      (OP_LHZ, lhz s cont);
      (OP_LBS, lbs s cont);
      (OP_LHS, lhs s cont);
      (OP_LWZ, lwz s cont);
      (OP_LWS, lwz s cont);
      (OP_ADDI, total Insn.addi s cont);
      (OP_ADDIC, total Insn.addic s cont);
      (OP_ORI, total Insn.ori s cont);
      (OP_SFI, sfi s cont);
      (OP_SW, Ok (sw s cont));
      (OP_SB, sb s cont);
      (OP_SH, sh s cont);
      (OP_ALU, alu s cont);
      (OP_MAC, mac_msb s cont);
      (OP_MACI, partial Insn.maci s cont);
      (OP_MACRC_MOVHI, total Insn.macrc_movhi s cont);
      (OP_MULI, total Insn.muli s cont);
      (OP_ANDI, total Insn.andi s cont);
      (OP_XORI, total Insn.xori s cont);
      (OP_SF, sf s cont);
      (OP_RO_SHIFT_I, ro_shift_i s cont);
      (OP_MTSPR, or32_mtspr s cont);
      (OP_MFSPR, or32_mfspr s cont);
      (OP_SYS_TRAP_SYNC, sys_trap_sync (BAIL s) cont);
      (OP_RFE, total (fun cpu _ => rfe cpu) s cont) ]
    (unimpl s cont);
  Ok (with_cpu s (cpu_advance_pc (s_cpu s))).

(** The C function returns true in every case. *)
Definition cpu_exec_inst (s : sim H) : outcome (sim H) :=
  let '(inst, s) := fetch s in
  if inst =? 0xdeadbeef then Ok (with_cpu s (cpu_advance_pc (s_cpu s))) else
  let op := OPCODE inst in
  let cont := decode inst in
  execute op s cont.

(** The loop around the simulator: [n] instructions. *)
Fixpoint run (n : nat) (s : sim H) : outcome (sim H) :=
  match n with
  | O => Ok s
  | S n => s ← cpu_exec_inst s; run n s
  end.

End Exec.

(** ** Well-formedness *)

Section ExecWf.
Context `{HB : Build} {H : Type} `{HL : HostLaws H}.

Lemma total_wf f (s : sim H) cont : In f total_handlers ->
  sim_wf s -> control_wf cont -> returns sim_wf (total f s cont).
Proof.
  intros Hf Hs Hc. pose proof total_handlers_wf as Ht.
  rewrite List.Forall_forall in Ht. by apply (Ht f Hf).
Qed.

Lemma partial_wf f (s : sim H) cont : In f partial_handlers ->
  sim_wf s -> control_wf cont -> returns sim_wf (partial f s cont).
Proof.
  intros Hf Hs Hc. pose proof partial_handlers_wf as Ht.
  rewrite List.Forall_forall in Ht. unfold partial.
  apply (returns_bind cpu_wf); [by apply (Ht f Hf)|]. by intros.
Qed.

Lemma unimpl_wf (s : sim H) cont : returns sim_wf (unimpl s cont).
Proof. unfold unimpl. by destruct STANDALONE. Qed.

Lemma fetch_next_wf (s : sim H) : sim_wf s -> sim_wf (fetch_next s).2.
Proof. intros. unfold fetch_next. by destruct (guestLoadI _ _ _ _) as [[??]?]. Qed.

Lemma branch_wf f (s : sim H) cont : In f total_handlers ->
  sim_wf s -> control_wf cont -> returns sim_wf (branch f s cont).
Proof.
  intros Hf Hs Hc. unfold branch. pose proof (fetch_next_wf s Hs).
  destruct (fetch_next s) as [inst s']. unfold BAIL.
  destruct (negb _); by apply total_wf.
Qed.

Lemma fetch_wf (s : sim H) : sim_wf s -> is_u32 (fetch s).1 /\ sim_wf (fetch s).2.
Proof.
  intros Hs. unfold fetch.
  destruct (guestLoadI _ _ _ _) as [[ret v] h] eqn:E.
  pose proof (guestLoadI_word _ _ _ _ _ _ _ E
    ltac:(intros x [= <-]; by vm_compute)) as Hv.
  unfold sim_wf in *. split; simpl.
  - destruct v; simpl; [by apply Hv|by vm_compute].
  - destruct (_ =? 1); [wf|]. destruct (_ =? 2); wf.
Qed.

Lemma cpu_advance_pc_wf cpu : cpu_wf cpu -> cpu_wf (cpu_advance_pc cpu).
Proof. intros. unfold cpu_advance_pc. wf. Qed.

Lemma cpu_set_spr_wf (s : sim H) spr v : sim_wf s -> is_u32 v -> returns sim_wf (cpu_set_spr s spr v).
Proof.
  intros Hs Hv. unfold cpu_set_spr. unfold sim_wf in *.
  apply (returns_bind (fun _ => True)); [apply returns_True|]. intros _ _.
  apply switch_ind.
  - destruct STANDALONE; repeat (apply List.Forall_cons; [simpl; wf|]); apply Forall_nil_2.
  - unfold c_assert. by destruct STANDALONE.
Qed.

Lemma cpu_get_spr_word (s : sim H) spr : sim_wf s -> returns is_u32 (cpu_get_spr s spr).
Proof.
  intros Hs. unfold cpu_get_spr. unfold sim_wf in *.
  apply (returns_bind (fun _ => True)); [apply returns_True|]. intros _ _.
  apply switch_ind.
  - destruct STANDALONE; repeat (apply List.Forall_cons; [simpl; wf|]); apply Forall_nil_2.
  - unfold c_assert. destruct STANDALONE; simpl; [apply mfspr_word|done].
Qed.

End ExecWf.

#[export] Hint Resolve unimpl_wf total_wf partial_wf branch_wf cpu_advance_pc_wf : wf.
#[export] Hint Extern 1 (In _ total_handlers) =>
  solve [repeat first [left; reflexivity | right]] : wf.
#[export] Hint Extern 1 (In _ partial_handlers) =>
  solve [repeat first [left; reflexivity | right]] : wf.

(** Every case of a dispatch. *)
Ltac switch_cases :=
  apply switch_ind; [repeat (apply List.Forall_cons; [cbn [snd]|]); try apply Forall_nil_2|].

Section DispatchWf.
Context `{HB : Build} {H : Type} `{HL : HostLaws H}.
Context (s : sim H) (cont : control) (Hs : sim_wf s) (Hc : control_wf cont).

Lemma sfi_wf : returns sim_wf (sfi s cont).
Proof. unfold sfi. switch_cases; wf. Qed.

Lemma sf_wf : returns sim_wf (sf s cont).
Proof. unfold sf. switch_cases; wf. Qed.

Lemma alu_wf : returns sim_wf (alu s cont).
Proof. unfold alu. switch_cases; wf. Qed.

Lemma ro_shift_i_wf : returns sim_wf (ro_shift_i s cont).
Proof. unfold ro_shift_i. switch_cases; wf. Qed.

Lemma mac_msb_wf : returns sim_wf (mac_msb s cont).
Proof. unfold mac_msb. destruct (_ =? _); [wf|]. destruct (_ =? _); wf. Qed.

Lemma sys_trap_sync_wf : returns sim_wf (sys_trap_sync s cont).
Proof.
  assert (cpu_wf (s_cpu s)) by exact Hs.
  unfold sys_trap_sync. switch_cases; [apply raise_wf; wf..|wf].
Qed.

Lemma or32_mtspr_wf : returns sim_wf (or32_mtspr s cont).
Proof.
  assert (cpu_wf (s_cpu s)) by exact Hs. apply cpu_set_spr_wf; [done|wf].
Qed.

Lemma or32_mfspr_wf : returns sim_wf (or32_mfspr s cont).
Proof.
  unfold or32_mfspr. apply (returns_bind is_u32); [by apply cpu_get_spr_word|].
  intros v Hv. simpl. wf.
Qed.

Lemma load_wf k : returns sim_wf (load k s cont).
Proof. by apply access_wf. Qed.

Lemma store_wf k : returns sim_wf (store k s cont).
Proof. by apply access_wf. Qed.

Lemma rfe_nop_wf : returns sim_wf (total (fun cpu _ => rfe cpu) s cont) /\
  returns sim_wf (total or32_nop s cont).
Proof.
  assert (cpu_wf (s_cpu s)) by exact Hs. split; simpl; apply raise_wf; [wf|done].
Qed.

End DispatchWf.

#[export] Hint Resolve sfi_wf sf_wf alu_wf ro_shift_i_wf mac_msb_wf sys_trap_sync_wf
  or32_mtspr_wf or32_mfspr_wf : wf.

Section CpuExecWf.
Context `{HB : Build} {H : Type} `{HL : HostLaws H}.

Lemma execute_wf op (s : sim H) cont : sim_wf s -> control_wf cont ->
  returns sim_wf (execute op s cont).
Proof.
  intros Hs Hc. unfold execute. apply (returns_bind sim_wf).
  - destruct (rfe_nop_wf s cont Hs) as [Hrfe Hnop].
    switch_cases; unfold BAIL; try solve [done | wf];
      first [ apply (load_wf s cont Hs Hc Word) | apply (load_wf s cont Hs Hc HalfZ)
            | apply (load_wf s cont Hs Hc HalfS) | apply (load_wf s cont Hs Hc ByteZ)
            | apply (load_wf s cont Hs Hc ByteS) | apply (store_wf s cont Hs Hc Word)
            | apply (store_wf s cont Hs Hc HalfZ) | apply (store_wf s cont Hs Hc ByteZ) ].
  - intros s' Hs'. simpl. apply raise_wf. by apply cpu_advance_pc_wf.
Qed.

Lemma cpu_exec_inst_wf (s : sim H) : sim_wf s -> returns sim_wf (cpu_exec_inst s).
Proof.
  intros Hs. unfold cpu_exec_inst. destruct (fetch_wf s Hs) as [Hi Hs'].
  destruct (fetch s) as [inst s']. simpl in *. destruct (_ =? _).
  - simpl. apply raise_wf. by apply cpu_advance_pc_wf.
  - apply execute_wf; [done|]. by apply decode_in_range.
Qed.

End CpuExecWf.

(** ** Delay slots *)

Definition is_jump (op : Z) : bool :=
  existsb (Z.eqb op) [OP_J; OP_JAL; OP_JALR; OP_BF; OP_BNF; OP_JR].

(** No branch is pending: the state between instructions. *)
Definition settled (cpu : CPU) : Prop := branch_pc cpu = 0xffffffff.

Lemma advance_settled cpu : settled (cpu_advance_pc cpu).
Proof.
  unfold cpu_advance_pc, settled. destruct (Z.eqb_spec (cpu_get_branch_pc
    (cpu_set_pc cpu (cpu_get_npc cpu))) 0xffffffff) as [E|]; cbn [negb]; done.
Qed.

(** After the PC advances, the next instruction is in a delay slot when a
    branch was pending, and its target is not the instruction after. *)
Lemma advance_delay_slot cpu :
  is_in_delay_slot (cpu_advance_pc cpu) =
  negb (branch_pc cpu =? 0xffffffff) && negb (branch_pc cpu =? npc cpu +! 4).
Proof.
  unfold cpu_advance_pc, is_in_delay_slot, cpu_get_branch_pc, cpu_get_npc, cpu_get_pc.
  simpl. destruct (branch_pc cpu =? 0xffffffff); cbn [negb andb]; [|done].
  simpl. by rewrite Z.eqb_refl.
Qed.

Lemma advance_pc_parts cpu :
  let next := cpu_advance_pc cpu in
  pc next = npc cpu /\
  npc next = (if branch_pc cpu =? 0xffffffff then npc cpu +! 4 else branch_pc cpu) /\
  gpr next = gpr cpu /\ sr next = sr cpu /\ epcr next = epcr cpu /\
  esr next = esr cpu /\ eear next = eear cpu.
Proof.
  unfold cpu_advance_pc, cpu_get_branch_pc. cbn.
  by destruct (branch_pc cpu =? 0xffffffff).
Qed.

Section Plain.
Context `{HB : Build} {H : Type} `{HH : Host H}.

Definition same_branch (s s' : sim H) : Prop :=
  branch_pc (s_cpu s') = branch_pc (s_cpu s).

Lemma total_same_branch f s cont : In f register_handlers ->
  returns (same_branch s) (total f s cont).
Proof.
  intros Hf. pose proof register_handlers_branch_pc as Ht.
  rewrite List.Forall_forall in Ht. apply (Ht f Hf).
Qed.

Lemma partial_same_branch f s cont : In f partial_handlers ->
  returns (same_branch s) (partial f s cont).
Proof.
  intros Hf. pose proof partial_handlers_branch_pc as Ht.
  rewrite List.Forall_forall in Ht. unfold partial.
  eapply returns_bind; [apply (Ht f Hf)|]. by intros.
Qed.

Lemma unimpl_same_branch s cont : returns (same_branch s) (unimpl s cont).
Proof. unfold unimpl. by destruct STANDALONE. Qed.

Lemma simLoadData_same_branch s va v : same_branch s (simLoadData s va v).2.
Proof.
  unfold simLoadData. destruct (guestLoadD _ _ _ _) as [[ret v'] h].
  destruct (_ =? _); [|done]. apply (exceptions_branch_pc (s_cpu s) va).
Qed.

Lemma simStoreData_same_branch s va v : same_branch s (simStoreData s va v).2.
Proof.
  unfold simStoreData. destruct (guestStoreD _ _ _ _) as [ret h].
  destruct (_ =? _); [|done]. apply (exceptions_branch_pc (s_cpu s) va).
Qed.

Lemma cpu_set_spr_same_branch s spr v : returns (same_branch s) (cpu_set_spr s spr v).
Proof.
  unfold cpu_set_spr.
  apply (returns_bind (fun _ => True)); [apply returns_True|]. intros _ _.
  apply switch_ind.
  - destruct STANDALONE; repeat (apply List.Forall_cons; [done|]); apply Forall_nil_2.
  - unfold c_assert. by destruct STANDALONE.
Qed.

End Plain.

Create HintDb branch discriminated.
#[export] Hint Resolve total_same_branch partial_same_branch unimpl_same_branch
  simStoreData_same_branch cpu_set_spr_same_branch : branch.
#[export] Hint Extern 1 (In _ register_handlers) =>
  solve [repeat first [left; reflexivity | right]] : branch.
#[export] Hint Extern 1 (In _ partial_handlers) =>
  solve [repeat first [left; reflexivity | right]] : branch.

Section PlainExecute.
Context `{HB : Build} {H : Type} `{HH : Host H}.

Lemma same_branch_trans (s s' s'' : sim H) :
  same_branch s s' -> same_branch s' s'' -> same_branch s s''.
Proof. unfold same_branch. congruence. Qed.

Local Ltac access_branch s ea :=
  repeat match goal with
    | |- returns _ (if ?b then _ else _) => destruct b
    | |- returns _ (read_var _ ≫= _) =>
        apply (returns_bind (fun _ => True)); [apply returns_True|intros ? _]
    | |- returns _ (Ok _) => unfold returns
    | |- returns _ _ => progress cbn zeta
    | |- context [simLoadData ?s ?a None] =>
        let Hl := fresh "Hl" in
        pose proof (simLoadData_same_branch s a None) as Hl;
        destruct (simLoadData s a None) as [[??]?]; cbn [snd] in Hl
    | |- context [host_lbz ?a ?h] => destruct (host_lbz a h)
    | |- context [host_lbs ?a ?h] => destruct (host_lbs a h)
    end;
  try first
    [ done
    | apply (exceptions_branch_pc (s_cpu s) ea)
    | eapply same_branch_trans; [eassumption|apply simStoreData_same_branch] ].

Lemma access_same_branch k (s : sim H) cont :
  returns (same_branch s) (load k s cont) /\ returns (same_branch s) (store k s cont).
Proof.
  destruct k; unfold load, store, lwz, lhz, lhs, lbz, lbs, sw, sh, sb;
    set (ea := calc_ea _ _); cbn zeta; split; access_branch s ea.
  destruct (truth _); [apply (exceptions_branch_pc (s_cpu s) ea)|apply simStoreData_same_branch].
Qed.

Lemma execute_same_branch op (s : sim H) cont : is_jump op = false ->
  returns (fun s' => exists s1, same_branch s s1 /\
    s' = with_cpu s1 (cpu_advance_pc (s_cpu s1))) (execute op s cont).
Proof.
  intros Hop. unfold execute. apply (returns_bind (same_branch s)).
  2: { intros s1 H1. simpl. by exists s1. }
  apply switch_case; [|apply unimpl_same_branch].
  repeat (apply List.Forall_cons; [cbn [fst snd]; intros Hk|]); try apply Forall_nil_2.
  1-6: by subst op.
  all: try solve [eauto with branch].
  - done.
  - apply (access_same_branch ByteZ).
  - apply (access_same_branch HalfZ).
  - apply (access_same_branch ByteS).
  - apply (access_same_branch HalfS).
  - apply (access_same_branch Word).
  - apply (access_same_branch Word).
  - unfold sfi. switch_cases; eauto with branch.
  - apply (access_same_branch Word).
  - apply (access_same_branch ByteZ).
  - apply (access_same_branch HalfZ).
  - unfold alu. switch_cases; eauto with branch.
  - unfold mac_msb. destruct (_ =? _); [eauto with branch|]. destruct (_ =? _); eauto with branch.
  - unfold sf. switch_cases; eauto with branch.
  - unfold ro_shift_i. switch_cases; eauto with branch.
  - unfold or32_mfspr. apply (returns_bind (fun _ => True)); [apply returns_True|]. done.
  - unfold sys_trap_sync. switch_cases; [..|apply unimpl_same_branch];
      apply (exceptions_branch_pc (s_cpu s) 0).
  - done.
Qed.

(** An instruction that is no jump leaves no delay slot behind. *)
Lemma cpu_exec_inst_plain (s : sim H) : settled (s_cpu s) ->
  is_jump (OPCODE (fetch s).1) = false ->
  returns (fun s' => is_in_delay_slot (s_cpu s') = false) (cpu_exec_inst s).
Proof.
  intros Hset Hj. unfold cpu_exec_inst.
  assert (Hf : settled (s_cpu (fetch s).2)).
  { unfold fetch, settled. destruct (guestLoadI _ _ _ _) as [[ret v] h]. cbn [snd s_cpu].
    destruct (exceptions_branch_pc (s_cpu s) (cpu_get_pc (s_cpu s))) as (_ & _ & Hi & Hp & _).
    destruct (ret =? 1); [by rewrite Hi|]. destruct (ret =? 2); [by rewrite Hp|done]. }
  destruct (fetch s) as [inst s1]. cbn [fst snd] in *.
  destruct (inst =? 0xdeadbeef).
  - cbn [returns with_cpu s_cpu]. by rewrite advance_delay_slot, Hf.
  - eapply returns_weaken; [by apply execute_same_branch|].
    intros s' (s2 & Hb & ->). cbn [with_cpu s_cpu].
    rewrite advance_delay_slot. unfold same_branch in Hb. by rewrite Hb, Hf.
Qed.

Lemma cpu_exec_inst_settled (s : sim H) :
  returns (fun s' => settled (s_cpu s')) (cpu_exec_inst s).
Proof.
  unfold cpu_exec_inst. destruct (fetch s) as [inst s1]. destruct (_ =? _).
  - apply advance_settled.
  - unfold execute. apply (returns_bind (fun _ => True)); [apply returns_True|].
    intros s2 _. apply advance_settled.
Qed.

End PlainExecute.
