(* ===== verification/Isa.v ===== *)
(** The OpenRISC 1000 instructions the simulator implements: an abstract
    specification, written without the simulator's code.

    [instr] is the abstract syntax, [encode] and [isa_decode] go between it and
    32-bit words, and [effect] says what an instruction does, with the
    arithmetic of [Z] in place of the simulator's loops and bit tricks.
    [instr_defined] excludes the operands for which the C code of the handler
    has no defined result.  Refine.v proves that the simulator implements
    it. *)

From S2P Require Import Prelude Spr Host Cpu Exceptions Mmu Memory.

Open Scope Z_scope.
Open Scope cword_scope.

Inductive alu_op : Type :=
| Add | Addc | Sub | And | Or | Xor
| Mul | Mulu | Div | Divu
| Sll | Srl | Sra | Ror | Cmov
| Exths | Extbs | Exthz | Extbz | Extws
| Ff1 | Fl1.

Inductive imm_op : Type := Addi | Addic | Andi | Ori | Xori | Muli.
Inductive shift_op : Type := Slli | Srli | Srai | Rori.
Inductive cond : Type := Eq | Ne | Gtu | Geu | Ltu | Leu | Gts | Ges | Lts | Les.
Inductive jump_op : Type := J | Jal | Bf | Bnf.

Inductive instr : Type :=
| Jump (op : jump_op) (n : Z)
| Jr (link : bool) (b : Z)
| Nop (k : Z)
| Movhi (d k : Z)
| Macrc (d : Z)
| Sys (k : Z)
| Trap (k : Z)
| Rfe
| Maci (a i : Z)
| Mac (sub : bool) (a b : Z)
| Load (k : access) (d a i : Z)
| Store (k : access) (a b i : Z)
| Imm (op : imm_op) (d a i : Z)
| Mfspr (d a k : Z)
| Mtspr (a b k : Z)
| Shift (op : shift_op) (d a l : Z)
| Sfi (c : cond) (a i : Z)
| Sf (c : cond) (a b : Z)
| Alu (op : alu_op) (d a b : Z).

(** ** Words *)

Definition field (w lo n : Z) : Z := w / 2 ^ lo mod 2 ^ n.

(** The word of four register-sized fields and the 11 bits below. *)
Definition word (op d a b low : Z) : Z :=
  op * 2 ^ 26 + d * 2 ^ 21 + a * 2 ^ 16 + b * 2 ^ 11 + low.

Definition alu_code (op : alu_op) : Z :=
  match op with
  | Add => 0x0 | Addc => 0x1 | Sub => 0x2 | And => 0x3 | Or => 0x4 | Xor => 0x5
  | Mul => 0x306 | Div => 0x309 | Divu => 0x30a | Mulu => 0x30b
  | Sll => 0x8 | Srl => 0x48 | Sra => 0x88 | Ror => 0xc8
  | Exths => 0xc | Extbs => 0x4c | Exthz => 0x8c | Extbz => 0xcc | Extws => 0xd
  | Cmov => 0xe | Ff1 => 0xf | Fl1 => 0x10f
  end.

Definition cond_code (c : cond) : Z :=
  match c with
  | Eq => 0x0 | Ne => 0x1 | Gtu => 0x2 | Geu => 0x3 | Ltu => 0x4 | Leu => 0x5
  | Gts => 0xa | Ges => 0xb | Lts => 0xc | Les => 0xd
  end.

Definition shift_code (op : shift_op) : Z :=
  match op with Slli => 0x0 | Srli => 0x1 | Srai => 0x2 | Rori => 0x3 end.

Definition imm_code (op : imm_op) : Z :=
  match op with
  | Addi => 0x27 | Addic => 0x28 | Andi => 0x29 | Ori => 0x2a | Xori => 0x2b
  | Muli => 0x2c
  end.

Definition jump_code (op : jump_op) : Z :=
  match op with J => 0x0 | Jal => 0x1 | Bnf => 0x3 | Bf => 0x4 end.

Definition load_code (k : access) : Z :=
  match k with
  | Word => 0x21 | ByteZ => 0x23 | ByteS => 0x24 | HalfZ => 0x25 | HalfS => 0x26
  end.

(** There is one store of each width. *)
Definition store_code (k : access) : Z :=
  match k with Word => 0x35 | ByteZ | ByteS => 0x36 | HalfZ | HalfS => 0x37 end.

Definition encode (i : instr) : Z :=
  match i with
  | Jump op n => jump_code op * 2 ^ 26 + n
  | Jr link b => word (if link then 0x12 else 0x11) 0 0 b 0
  | Nop k => 0x15000000 + k
  | Movhi d k => 0x6 * 2 ^ 26 + d * 2 ^ 21 + k
  | Macrc d => 0x6 * 2 ^ 26 + d * 2 ^ 21 + 0x10000
  | Sys k => 0x20000000 + k
  | Trap k => 0x21000000 + k
  | Rfe => 0x24000000
  | Maci a i => 0x13 * 2 ^ 26 + a * 2 ^ 16 + i
  | Mac sub a b => word 0x31 0 a b (if sub then 0x2 else 0x1)
  | Load k d a i => load_code k * 2 ^ 26 + d * 2 ^ 21 + a * 2 ^ 16 + i
  | Store k a b i => word (store_code k) (i / 2 ^ 11) a b (i mod 2 ^ 11)
  | Imm op d a i => imm_code op * 2 ^ 26 + d * 2 ^ 21 + a * 2 ^ 16 + i
  | Mfspr d a k => 0x2d * 2 ^ 26 + d * 2 ^ 21 + a * 2 ^ 16 + k
  | Mtspr a b k => word 0x30 (k / 2 ^ 11) a b (k mod 2 ^ 11)
  | Shift op d a l => word 0x2e d a 0 (shift_code op * 2 ^ 6 + l)
  | Sfi c a i => 0x2f * 2 ^ 26 + cond_code c * 2 ^ 21 + a * 2 ^ 16 + i
  | Sf c a b => word 0x39 (cond_code c) a b 0
  | Alu op d a b => word 0x38 d a b (alu_code op)
  end.

(** The fields of an instruction are in range; stores are named by their
    zero-extending access. *)
Definition instr_wf (i : instr) : Prop :=
  match i with
  | Jump _ n => is_word 26 n
  | Jr _ b => is_word 5 b
  | Nop k | Sys k | Trap k => is_word 16 k
  | Movhi d k => is_word 5 d /\ is_word 16 k
  | Macrc d => is_word 5 d
  | Rfe => True
  | Maci a i => is_word 5 a /\ is_word 16 i
  | Mac _ a b => is_word 5 a /\ is_word 5 b
  | Load _ d a i => is_word 5 d /\ is_word 5 a /\ is_word 16 i
  | Store k a b i =>
      k <> HalfS /\ k <> ByteS /\ is_word 5 a /\ is_word 5 b /\ is_word 16 i
  | Imm _ d a i => is_word 5 d /\ is_word 5 a /\ is_word 16 i
  | Mfspr d a k => is_word 5 d /\ is_word 5 a /\ is_word 16 k
  | Mtspr a b k => is_word 5 a /\ is_word 5 b /\ is_word 16 k
  | Shift _ d a l => is_word 5 d /\ is_word 5 a /\ is_word 5 l
  | Sfi _ a i => is_word 5 a /\ is_word 16 i
  | Sf _ a b => is_word 5 a /\ is_word 5 b
  | Alu _ d a b => is_word 5 d /\ is_word 5 a /\ is_word 5 b
  end.

(** Bits the manual reserves are ignored, as the hardware does. *)
Definition alu_key (w : Z) : Z :=
  let low := field w 0 4 in
  if (low =? 0xc) || (low =? 0x8) then field w 6 4 * 2 ^ 6 + low
  else field w 8 2 * 2 ^ 8 + low.

Definition decode_alu (key : Z) : option alu_op :=
  switch key
    [ (0x0, Some Add); (0x1, Some Addc); (0xd, Some Extws); (0x4d, Some Extws);
      (0xc, Some Exths); (0x4c, Some Extbs); (0xcc, Some Extbz); (0x8c, Some Exthz);
      (0x30a, Some Divu); (0x309, Some Div); (0xf, Some Ff1); (0x10f, Some Fl1);
      (0x306, Some Mul); (0x30b, Some Mulu); (0x2, Some Sub); (0x3, Some And);
      (0x5, Some Xor); (0x8, Some Sll); (0x48, Some Srl); (0x88, Some Sra);
      (0xc8, Some Ror); (0x4, Some Or); (0xe, Some Cmov) ] None.

Definition decode_cond (key : Z) : option cond :=
  switch key
    [ (0x1, Some Ne); (0x2, Some Gtu); (0x0, Some Eq); (0x3, Some Geu);
      (0xb, Some Ges); (0x4, Some Ltu); (0xc, Some Lts); (0x5, Some Leu);
      (0xd, Some Les); (0xa, Some Gts) ] None.

Definition decode_shift (key : Z) : option shift_op :=
  switch key
    [ (0x0, Some Slli); (0x1, Some Srli); (0x2, Some Srai); (0x3, Some Rori) ] None.

Definition isa_decode (w : Z) : option instr :=
  let d := field w 21 5 in
  let a := field w 16 5 in
  let b := field w 11 5 in
  let n := field w 0 26 in
  let i := field w 0 16 in
  let l := field w 0 5 in
  let split := field w 21 5 * 2 ^ 11 + field w 0 11 in
  switch (field w 26 6)
    [ (0x00, Some (Jump J n));
      (0x01, Some (Jump Jal n));
      (0x12, Some (Jr true b));
      (0x04, Some (Jump Bf n));
      (0x03, Some (Jump Bnf n));
      (0x11, Some (Jr false b));
      (0x05, Some (Nop i));
      (0x23, Some (Load ByteZ d a i));
      (0x25, Some (Load HalfZ d a i));
      (0x24, Some (Load ByteS d a i));
      (0x26, Some (Load HalfS d a i));
      (0x21, Some (Load Word d a i));
      (0x22, Some (Load Word d a i));
      (0x27, Some (Imm Addi d a i));
      (0x28, Some (Imm Addic d a i));
      (0x2a, Some (Imm Ori d a i));
      (0x2f, (fun c => Sfi c a i) <$> decode_cond d);
      (0x35, Some (Store Word a b split));
      (0x36, Some (Store ByteZ a b split));
      (0x37, Some (Store HalfZ a b split));
      (0x38, (fun op => Alu op d a b) <$> decode_alu (alu_key w));
      (0x31, switch (field w 0 4)
               [ (0x2, Some (Mac true a b)); (0x1, Some (Mac false a b)) ] None);
      (0x13, Some (Maci a i));
      (0x06, Some (if field w 0 17 =? 0x10000 then Macrc d else Movhi d i));
      (0x2c, Some (Imm Muli d a i));
      (0x29, Some (Imm Andi d a i));
      (0x2b, Some (Imm Xori d a i));
      (0x39, (fun c => Sf c a b) <$> decode_cond d);
      (0x2e, (fun op => Shift op d a l) <$> decode_shift (field w 6 2));
      (0x30, Some (Mtspr a b split));
      (0x2d, Some (Mfspr d a i));
      (0x08, switch (field w 16 16)
               [ (0x2000, Some (Sys i)); (0x2100, Some (Trap i)) ] None);
      (0x09, Some Rfe) ]
    None.

(** ** Arithmetic

    The result of an operation: the value for the destination register, and
    the carry and overflow flags of the operations that set them. *)
Record result : Type := Result {
  value : option Z;
  flags : option (bool * bool);
}.

Definition plain (v : Z) : result := Result (Some (u32 v)) None.

Definition sum (cin : bool) (x y : Z) : result :=
  Result (Some (u32 (x + y + b2z cin)))
    (Some (2 ^ 32 <=? x + y + b2z cin,
           negb (in_sword 32 (i32 x + i32 y + b2z cin)))).

Definition difference (x y : Z) : result :=
  Result (Some (u32 (x - y))) (Some (x <? y, negb (in_sword 32 (i32 x - i32 y)))).

Definition product (x y : Z) : result :=
  Result (Some (u32 (x * y)))
    (Some (2 ^ 32 <=? x * y, negb (in_sword 32 (i32 x * i32 y)))).

Definition uproduct (x y : Z) : result :=
  Result (Some (u32 (x * y))) (Some (2 ^ 32 <=? x * y, false)).

(** Division by zero leaves the register alone and sets the carry. *)
Definition quotient (x y : Z) : result :=
  if y =? 0 then Result None (Some (true, false))
  else Result (Some (u32 (Z.quot (i32 x) (i32 y)))) (Some (false, false)).

Definition uquotient (x y : Z) : result :=
  if y =? 0 then Result None (Some (true, false))
  else Result (Some (x / y)) (Some (false, false)).

Definition rotate_right (x n : Z) : Z := x / 2 ^ n + x mod 2 ^ n * 2 ^ (32 - n).

(** The number of the lowest and of the highest bit set, from 1; 0 for 0. *)
Fixpoint trailing_zeros (p : positive) : Z :=
  match p with xO p => trailing_zeros p + 1 | _ => 0 end.
Definition first_one (x : Z) : Z :=
  match x with Zpos p => trailing_zeros p + 1 | _ => 0 end.
Definition last_one (x : Z) : Z := if x =? 0 then 0 else Z.log2 x + 1.

Definition alu_sem (op : alu_op) (cy f : bool) (x y : Z) : result :=
  match op with
  | Add => sum false x y
  | Addc => sum cy x y
  | Sub => difference x y
  | And => plain (Z.land x y)
  | Or => plain (Z.lor x y)
  | Xor => plain (Z.lxor x y)
  | Mul => product x y
  | Mulu => uproduct x y
  | Div => quotient x y
  | Divu => uquotient x y
  | Sll => plain (x * 2 ^ (y mod 32))
  | Srl => plain (x / 2 ^ (y mod 32))
  | Sra => plain (i32 x / 2 ^ (y mod 32))
  | Ror => plain (rotate_right x (y mod 32))
  | Cmov => plain (if f then x else y)
  | Exths => plain (swrap 16 x)
  | Extbs => plain (swrap 8 x)
  | Exthz => plain (x mod 2 ^ 16)
  | Extbz => plain (x mod 2 ^ 8)
  | Extws => plain x
  | Ff1 => plain (first_one x)
  | Fl1 => plain (last_one x)
  end.

(** A sign-extended immediate, as a word. *)
Definition simm (i : Z) : Z := u32 (swrap 16 i).

Definition imm_sem (op : imm_op) (cy : bool) (x i : Z) : result :=
  match op with
  | Addi => sum false x (simm i)
  | Addic => sum cy x (simm i)
  | Andi => plain (Z.land x i)
  | Ori => plain (Z.lor x i)
  | Xori => plain (Z.lxor x (simm i))
  | Muli => product x (simm i)
  end.

Definition shift_sem (op : shift_op) (x l : Z) : result :=
  match op with
  | Slli => plain (x * 2 ^ l)
  | Srli => plain (x / 2 ^ l)
  | Srai => plain (i32 x / 2 ^ l)
  | Rori => plain (rotate_right x l)
  end.

Definition cond_sem (c : cond) (x y : Z) : bool :=
  match c with
  | Eq => x =? y
  | Ne => negb (x =? y)
  | Gtu => y <? x
  | Geu => y <=? x
  | Ltu => x <? y
  | Leu => x <=? y
  | Gts => i32 y <? i32 x
  | Ges => i32 y <=? i32 x
  | Lts => i32 x <? i32 y
  | Les => i32 x <=? i32 y
  end.

(** ** Effects *)

Definition write_flags (cpu : CPU) (fl : option (bool * bool)) : CPU :=
  match fl with
  | None => cpu
  | Some (cy, ov) =>
      let cpu := cpu_set_cy (cpu_set_ov cpu (b2z ov)) (b2z cy) in
      if cpu_get_ove cpu && ov then range_exception cpu else cpu
  end.

Definition write_result (cpu : CPU) (d : Z) (r : result) : CPU :=
  write_flags (match value r with Some v => cpu_set_gpr cpu d v | None => cpu end)
    (flags r).

(** The accumulator as a number. *)
Definition mac_value (cpu : CPU) : Z := i64 (machi cpu * 2 ^ 32 + maclo cpu).
Definition mac_write (cpu : CPU) (m : Z) : CPU :=
  cpu_set_maclo (cpu_set_machi cpu (u64 m / 2 ^ 32)) (m mod 2 ^ 32).

Definition target (cpu : CPU) (n : Z) : Z := u32 (pc cpu + 4 * swrap 26 n).

Definition jump_sem (op : jump_op) (n : Z) (cpu : CPU) : CPU :=
  let taken := cpu_set_branch_pc cpu (target cpu n) in
  match op with
  | J => taken
  | Jal => cpu_set_lr taken (u32 (pc cpu + 8))
  | Bf => if cpu_get_f cpu then taken else cpu
  | Bnf => if cpu_get_f cpu then cpu else taken
  end.

Definition jump_reg_sem (link : bool) (b : Z) (cpu : CPU) : CPU :=
  let x := cpu_get_gpr cpu b in
  if negb (x mod 4 =? 0) then alignment_exception cpu x
  else
    let taken := cpu_set_branch_pc cpu x in
    if link then cpu_set_lr taken (u32 (pc cpu + 8)) else taken.

Section Effect.
Context `{HB : Build} {H : Type} `{HH : Host H}.

Definition ea_of (cpu : CPU) (a i : Z) : Z := u32 (cpu_get_gpr cpu a + swrap 16 i).

(** The host after a branch has looked at its delay slot. *)
Definition probed (s : sim H) : sim H :=
  let cpu := s_cpu s in
  Sim cpu (guestLoadI cpu (u32 (pc cpu + 4)) (Some 0) (s_host s)).2.

Definition bus_byte (k : access) : bool :=
  match k with ByteZ | ByteS => true | _ => false end.

Definition load_effect (k : access) (d a i : Z) (s s' : sim H) : Prop :=
  let cpu := s_cpu s in
  let ea := ea_of cpu a i in
  if negb (ea mod width k =? 0) then s' = with_cpu s (alignment_exception cpu ea) else
  match data_translate s ea with
  | None => s' = with_cpu s (dataTLBMiss cpu (miss_address k ea))
  | Some pa =>
      if pa <? 0x08000000 then s' = set_gpr s d (load_value k (s_host s) pa)
      else
        let '(v, h) :=
          match k with ByteS => host_lbs pa (s_host s) | _ => host_lbz pa (s_host s) end in
        s' = set_gpr (Sim cpu h) d v
  end.

Definition store_effect (k : access) (a b i : Z) (s s' : sim H) : Prop :=
  let cpu := s_cpu s in
  let ea := ea_of cpu a i in
  if negb (ea mod width k =? 0) then s' = with_cpu s (alignment_exception cpu ea) else
  match data_translate s ea with
  | None => s' = with_cpu s (dataTLBMiss cpu (miss_address k ea))
  | Some pa =>
      if pa <? 0x08000000
      then s_cpu s' = cpu /\ stored (width k) pa (cpu_get_gpr cpu b) (s_host s) (s_host s')
      else s' = Sim cpu (host_sb pa (cpu_get_gpr cpu b) (s_host s))
  end.

Definition on_cpu (s s' : sim H) (f : CPU -> CPU) : Prop := s' = with_cpu s (f (s_cpu s)).

(** What an instruction does, before the PC advances. *)
Definition effect (i : instr) (s s' : sim H) : Prop :=
  let R r := cpu_get_gpr (s_cpu s) r in
  let cy := cpu_get_cy (s_cpu s) in
  match i with
  | Jump op n => on_cpu (probed s) s' (jump_sem op n)
  | Jr link b => on_cpu (probed s) s' (jump_reg_sem link b)
  | Nop _ => s' = s
  | Movhi d k => on_cpu s s' (fun cpu => cpu_set_gpr cpu d (k * 2 ^ 16))
  | Macrc d => on_cpu s s' (fun cpu =>
      mac_write (cpu_set_gpr cpu d (mac_value cpu mod 2 ^ 32)) 0)
  | Sys _ => on_cpu s s' sys
  | Trap _ => on_cpu s s' trap
  | Rfe => on_cpu s s' (fun cpu => cpu_set_npc (cpu_set_sr cpu (esr cpu)) (epcr cpu))
  | Maci a i => on_cpu s s' (fun cpu =>
      mac_write cpu (mac_value cpu + i32 (R a) * swrap 16 i))
  | Mac sub a b => on_cpu s s' (fun cpu =>
      mac_write cpu (if sub then mac_value cpu - i32 (R a) * i32 (R b)
                     else mac_value cpu + i32 (R a) * i32 (R b)))
  | Load k d a i => load_effect k d a i s s'
  | Store k a b i => store_effect k a b i s s'
  | Imm op d a i => on_cpu s s' (fun cpu => write_result cpu d (imm_sem op cy (R a) i))
  | Mfspr d a k => exists v, cpu_get_spr s (Z.lor (R a) k) = Ok v /\ s' = set_gpr s d v
  | Mtspr a b k => cpu_set_spr s (Z.lor (R a) k) (R b) = Ok s'
  | Shift op d a l => on_cpu s s' (fun cpu => write_result cpu d (shift_sem op (R a) l))
  | Sfi c a i => on_cpu s s' (fun cpu => cpu_set_f cpu (b2z (cond_sem c (R a) (simm i))))
  | Sf c a b => on_cpu s s' (fun cpu => cpu_set_f cpu (b2z (cond_sem c (R a) (R b))))
  | Alu op d a b => on_cpu s s' (fun cpu =>
      write_result cpu d (alu_sem op cy (cpu_get_f cpu) (R a) (R b)))
  end.

(** The operands for which the C code computes what the manual says. *)
Definition alu_defined (op : alu_op) (d x y : Z) : bool :=
  match op with
  | Sub => negb (i32 y =? - 2 ^ 31) && negb (d =? 0)
  | Div => negb (i32 x =? - 2 ^ 31) && negb (i32 y =? - 2 ^ 31)
  | Srl => y <? 32
  | Ror => negb (y mod 32 =? 0)
  | _ => true
  end.

Definition memory_defined (k : access) (a i : Z) (s : sim H) : bool :=
  let ea := ea_of (s_cpu s) a i in
  if negb (ea mod width k =? 0) then true else
  match data_translate s ea with
  | None => true
  | Some pa => (4 <=? pa) && ((pa <? 0x08000000) || bus_byte k)
  end.

Definition is_Ok {A} (m : outcome A) : bool := match m with Ok _ => true | _ => false end.

Definition instr_defined (i : instr) (s : sim H) : bool :=
  let R r := cpu_get_gpr (s_cpu s) r in
  match i with
  | Maci a i => in_sword 64 (mac_value (s_cpu s) + i32 (R a) * swrap 16 i)
  | Mac sub a b =>
      in_sword 64 (if sub then mac_value (s_cpu s) - i32 (R a) * i32 (R b)
                   else mac_value (s_cpu s) + i32 (R a) * i32 (R b))
  | Load k _ a i | Store k a _ i => memory_defined k a i s
  | Mfspr _ a k => is_Ok (cpu_get_spr s (Z.lor (R a) k))
  | Mtspr a b k => is_Ok (cpu_set_spr s (Z.lor (R a) k) (R b))
  | Shift Rori _ _ l => negb (l =? 0)
  | Alu op d a b => alu_defined op d (R a) (R b)
  | _ => true
  end.

End Effect.

(** ** Encoding and decoding *)

Lemma field_of hi v low lo n : 0 <= lo -> 0 <= n -> is_word n v -> is_word lo low ->
  field (hi * 2 ^ (lo + n) + v * 2 ^ lo + low) lo n = v.
Proof.
  intros Hlo Hn Hv Hl. unfold field.
  replace (hi * 2 ^ (lo + n) + v * 2 ^ lo + low)
    with (low + (hi * 2 ^ n + v) * 2 ^ lo) by (rewrite Z.pow_add_r by lia; ring).
  rewrite Z.div_add, Z.div_small, Z.add_0_l by (done || lia).
  rewrite Z.add_comm, Z_mod_plus_full. by apply Z.mod_small.
Qed.

(** A field of an encoded word: linear arithmetic. *)
Lemma field_unique w lo n v hi low : 0 <= lo -> 0 <= n -> is_word n v -> is_word lo low ->
  w = hi * 2 ^ (lo + n) + v * 2 ^ lo + low -> field w lo n = v.
Proof. intros ???? ->. by apply field_of. Qed.

Ltac fields := unfold is_word, field, word in *; intros; Z.to_euclidean_division_equations; lia.

Section Fields.
Context (op d a b low : Z).
Context (Hop : is_word 6 op) (Hd : is_word 5 d) (Ha : is_word 5 a) (Hb : is_word 5 b).
Context (Hlow : is_word 11 low).

Lemma field_op : field (word op d a b low) 26 6 = op.
Proof. fields. Qed.
Lemma field_d : field (word op d a b low) 21 5 = d.
Proof. fields. Qed.
Lemma field_a : field (word op d a b low) 16 5 = a.
Proof. fields. Qed.
Lemma field_b : field (word op d a b low) 11 5 = b.
Proof. fields. Qed.
Lemma field_i : field (word op d a b low) 0 16 = b * 2 ^ 11 + low.
Proof. fields. Qed.
Lemma field_n : field (word op d a b low) 0 26 = d * 2 ^ 21 + a * 2 ^ 16 + b * 2 ^ 11 + low.
Proof. fields. Qed.
Lemma field_17 : field (word op d a b low) 0 17 = a mod 2 * 2 ^ 16 + b * 2 ^ 11 + low.
Proof. fields. Qed.
Lemma field_hi : field (word op d a b low) 16 16 = op * 2 ^ 10 + d * 2 ^ 5 + a.
Proof. fields. Qed.

Lemma field_low lo n : 0 <= lo -> 0 <= n -> lo + n <= 11 ->
  field (word op d a b low) lo n = field low lo n.
Proof.
  intros Hlo Hn Hle. unfold field, word.
  assert (H11 : 2 ^ 11 = 2 ^ (11 - lo - n) * 2 ^ n * 2 ^ lo)
    by (rewrite <- !Z.pow_add_r by lia; f_equal; lia).
  replace (op * 2 ^ 26 + d * 2 ^ 21 + a * 2 ^ 16 + b * 2 ^ 11 + low)
    with (low + ((op * 2 ^ 15 + d * 2 ^ 10 + a * 2 ^ 5 + b) * 2 ^ (11 - lo - n) * 2 ^ n) * 2 ^ lo).
  - by rewrite Z.div_add, Z_mod_plus_full by lia.
  - rewrite <- !Z.mul_assoc, (Z.mul_assoc (2 ^ (11 - lo - n))), <- H11.
    change (2 ^ 26) with (2 ^ 15 * 2 ^ 11). change (2 ^ 21) with (2 ^ 10 * 2 ^ 11).
    change (2 ^ 16) with (2 ^ 5 * 2 ^ 11). ring.
Qed.

End Fields.

(** The formats with a 16-bit or 26-bit operand are words too. *)
Lemma imm_word op d a i :
  op * 2 ^ 26 + d * 2 ^ 21 + a * 2 ^ 16 + i = word op d a (i / 2 ^ 11) (i mod 2 ^ 11).
Proof. unfold word. pose proof (Z.div_mod i (2 ^ 11) ltac:(lia)). lia. Qed.

Lemma jump_word op n :
  op * 2 ^ 26 + n =
  word op (n / 2 ^ 21) (n / 2 ^ 16 mod 2 ^ 5) (n / 2 ^ 11 mod 2 ^ 5) (n mod 2 ^ 11).
Proof. unfold word. Z.to_euclidean_division_equations. lia. Qed.

Lemma hi5_word i : is_word 16 i -> is_word 5 (i / 2 ^ 11).
Proof. fields. Qed.

Lemma mod_word n i : 0 <= n -> is_word n (i mod 2 ^ n).
Proof. apply wrap_range. Qed.

Lemma hi5_word26 n : is_word 26 n -> is_word 5 (n / 2 ^ 21).
Proof. fields. Qed.

#[export] Hint Resolve hi5_word mod_word hi5_word26 : word.

(** Evaluates a table at a concrete key. *)
Ltac lookup := cbv [switch Z.eqb Pos.eqb].

Ltac word_fields :=
  unfold isa_decode; cbv zeta;
  rewrite ?field_op, ?field_d, ?field_a, ?field_b, ?field_i, ?field_n, ?field_17, ?field_hi
    by eauto with word.

Lemma alu_key_code op d a b : is_word 5 d -> is_word 5 a -> is_word 5 b ->
  decode_alu (alu_key (word 0x38 d a b (alu_code op))) = Some op.
Proof.
  intros. unfold alu_key.
  assert (is_word 11 (alu_code op)) by (by destruct op).
  rewrite !field_low by (done || lia). by destruct op.
Qed.

Lemma cond_code_decode c : decode_cond (cond_code c) = Some c.
Proof. by destruct c. Qed.

Lemma cond_code_word c : is_word 5 (cond_code c).
Proof. by destruct c. Qed.

#[export] Hint Resolve cond_code_word : word.

(** The 16-bit operand, put together again. *)
Lemma join_i i : i / 2 ^ 11 * 2 ^ 11 + i mod 2 ^ 11 = i.
Proof. pose proof (Z.div_mod i (2 ^ 11) ltac:(lia)). lia. Qed.

Lemma join_n n : n / 2 ^ 21 * 2 ^ 21 + n / 2 ^ 16 mod 2 ^ 5 * 2 ^ 16
  + n / 2 ^ 11 mod 2 ^ 5 * 2 ^ 11 + n mod 2 ^ 11 = n.
Proof. Z.to_euclidean_division_equations. lia. Qed.

Section RoundTrip.
Context (d a b : Z) (Hd : is_word 5 d) (Ha : is_word 5 a) (Hb : is_word 5 b).

Definition round_trips (i : instr) : Prop := isa_decode (encode i) = Some i.

(** [op], [d], [a] and 16 bits. *)
Local Ltac imm_format :=
  cbn [encode]; rewrite ?imm_word; word_fields; rewrite ?join_i; lookup.

Lemma round_trip_imm op i : is_word 16 i -> round_trips (Imm op d a i).
Proof. intros. unfold round_trips. destruct op; cbn [encode imm_code]; by imm_format. Qed.

Lemma round_trip_load k i : is_word 16 i -> round_trips (Load k d a i).
Proof. intros. unfold round_trips. destruct k; cbn [encode load_code]; by imm_format. Qed.

Lemma round_trip_mfspr k : is_word 16 k -> round_trips (Mfspr d a k).
Proof. intros. unfold round_trips. by imm_format. Qed.

Lemma round_trip_sfi c i : is_word 16 i -> round_trips (Sfi c a i).
Proof. intros. unfold round_trips. imm_format. by rewrite cond_code_decode. Qed.

Lemma round_trip_sf c : round_trips (Sf c a b).
Proof. intros. unfold round_trips. imm_format. by rewrite cond_code_decode. Qed.

Lemma round_trip_store k i : k <> HalfS -> k <> ByteS -> is_word 16 i ->
  round_trips (Store k a b i).
Proof.
  intros. unfold round_trips. cbn [encode].
  assert (is_word 6 (store_code k)) by (by destruct k).
  word_fields. rewrite field_low by (eauto with word || lia).
  unfold field. rewrite Z.div_1_r, Z.mod_mod, join_i by lia. by destruct k.
Qed.

Lemma round_trip_mtspr k : is_word 16 k -> round_trips (Mtspr a b k).
Proof.
  intros. unfold round_trips. cbn [encode].
  word_fields. rewrite field_low by (eauto with word || lia).
  unfold field. rewrite Z.div_1_r, Z.mod_mod, join_i by lia. done.
Qed.

Lemma round_trip_alu op : round_trips (Alu op d a b).
Proof.
  unfold round_trips. cbn [encode].
  assert (is_word 11 (alu_code op)) by (by destruct op).
  pose proof (alu_key_code op d a b Hd Ha Hb) as Hk. revert Hk.
  word_fields. lookup. intros Hk. revert Hk. unfold alu_key. by intros ->.
Qed.

Lemma round_trip_shift op l : is_word 5 l -> round_trips (Shift op d a l).
Proof.
  clear b Hb. intros Hl. unfold round_trips. cbn [encode].
  assert (is_word 11 (shift_code op * 2 ^ 6 + l)) by (destruct op; cbn [shift_code]; fields).
  word_fields. rewrite !field_low by (done || lia). lookup.
  assert (field (shift_code op * 2 ^ 6 + l) 0 5 = l) as -> by (destruct op; cbn [shift_code]; fields).
  assert (field (shift_code op * 2 ^ 6 + l) 6 2 = shift_code op) as -> by (destruct op; cbn [shift_code]; fields).
  by destruct op.
Qed.

Lemma round_trip_mac sub : round_trips (Mac sub a b).
Proof.
  unfold round_trips. cbn [encode].
  assert (is_word 11 (if sub then 2 else 1)) by (by destruct sub).
  word_fields. rewrite !field_low by (done || lia). by destruct sub.
Qed.

Lemma round_trip_jump op n : is_word 26 n -> round_trips (Jump op n).
Proof.
  intros. unfold round_trips. cbn [encode]. rewrite jump_word.
  assert (is_word 6 (jump_code op)) by (by destruct op).
  word_fields. rewrite join_n. by destruct op.
Qed.

Lemma round_trip_jr link : round_trips (Jr link b).
Proof.
  unfold round_trips. cbn [encode]. destruct link; by word_fields.
Qed.

End RoundTrip.

(** Words of the other formats, as bit fields. *)
Lemma round_trip_rest i : instr_wf i ->
  match i with
  | Nop _ | Movhi _ _ | Macrc _ | Sys _ | Trap _ | Rfe | Maci _ _ => round_trips i
  | _ => True
  end.
Proof.
  unfold round_trips. destruct i as [| | k | d k | d | k | k | | a i | | | | | | | | | |];
    cbn [instr_wf]; try done.
  - intros Hk. change (encode (Nop k)) with (word 0x05 8 0 0 0 + k).
    replace (word 0x05 8 0 0 0 + k) with (0x05 * 2 ^ 26 + 8 * 2 ^ 21 + 0 * 2 ^ 16 + k)
      by (unfold word; lia).
    rewrite imm_word. word_fields. by rewrite join_i.
  - intros [Hd Hk]. cbn [encode].
    replace (0x6 * 2 ^ 26 + d * 2 ^ 21 + k) with (0x6 * 2 ^ 26 + d * 2 ^ 21 + 0 * 2 ^ 16 + k) by lia.
    rewrite imm_word. word_fields. rewrite join_i.
    assert ((0 mod 2 * 2 ^ 16 + k / 2 ^ 11 * 2 ^ 11 + k mod 2 ^ 11 =? 0x10000) = false) as ->;
      [|done].
    rewrite Z.mod_0_l, <- Z.add_assoc, join_i by lia. destruct Hk.
    apply Z.eqb_neq. lia.
  - intros Hd. cbn [encode].
    replace (0x6 * 2 ^ 26 + d * 2 ^ 21 + 0x10000) with (word 0x6 d 1 0 0) by (unfold word; lia).
    by word_fields.
  - intros Hk.
    replace (encode (Sys k)) with (0x08 * 2 ^ 26 + 0 * 2 ^ 21 + 0 * 2 ^ 16 + k) by done.
    rewrite imm_word. word_fields. by rewrite join_i.
  - intros Hk.
    replace (encode (Trap k)) with (0x08 * 2 ^ 26 + 8 * 2 ^ 21 + 0 * 2 ^ 16 + k) by done.
    rewrite imm_word. word_fields. by rewrite join_i.
  - intros [Ha Hi]. cbn [encode].
    replace (0x13 * 2 ^ 26 + a * 2 ^ 16 + i) with (0x13 * 2 ^ 26 + 0 * 2 ^ 21 + a * 2 ^ 16 + i) by lia.
    rewrite imm_word. word_fields. by rewrite join_i.
Qed.

Lemma isa_decode_encode i : instr_wf i -> isa_decode (encode i) = Some i.
Proof.
  intros Hi. pose proof (round_trip_rest i Hi) as Hr.
  destruct i; try exact Hr; cbn [instr_wf] in Hi; destruct_and?.
  - by apply round_trip_jump.
  - by apply round_trip_jr.
  - by apply round_trip_mac.
  - by apply round_trip_load.
  - by apply round_trip_store.
  - by apply round_trip_imm.
  - by apply round_trip_mfspr.
  - by apply round_trip_mtspr.
  - by apply round_trip_shift.
  - by apply round_trip_sfi.
  - by apply round_trip_sf.
  - by apply round_trip_alu.
Qed.

Lemma word_u32 op d a b low : is_word 6 op -> is_word 5 d -> is_word 5 a -> is_word 5 b ->
  is_word 11 low -> is_u32 (word op d a b low).
Proof. unfold is_word, word. lia. Qed.

Lemma imm_u32 op d a i : is_word 6 op -> is_word 5 d -> is_word 5 a -> is_word 16 i ->
  is_u32 (op * 2 ^ 26 + d * 2 ^ 21 + a * 2 ^ 16 + i).
Proof. unfold is_word. lia. Qed.

Lemma codes_word : (forall op, is_word 6 (jump_code op)) /\ (forall k, is_word 6 (load_code k)) /\
  (forall k, is_word 6 (store_code k)) /\ (forall op, is_word 6 (imm_code op)) /\
  (forall op, is_word 11 (alu_code op)) /\ (forall op, is_word 5 (shift_code op)).
Proof. repeat split; by destruct op || destruct k. Qed.

Lemma encode_word i : instr_wf i -> is_u32 (encode i).
Proof.
  intros Hi. destruct codes_word as (Hj & Hl & Hs & Hm & Ha & Hsh).
  destruct i as [op n|link b|k|d k|d|k|k| |a i|sub a b|k d a i|k a b i|op d a i|d a k|a b k
    |op d a l|c a i|c a b|op d a b]; cbn [instr_wf] in Hi; destruct_and?; cbn [encode];
    try (apply imm_u32; (done || eauto with word));
    try (apply word_u32; (done || eauto with word)).
  - specialize (Hj op). unfold is_word in *. lia.
  - by destruct link.
  - unfold is_word in *. lia.
  - unfold is_word in *. lia.
  - unfold is_word in *. lia.
  - unfold is_word in *. lia.
  - unfold is_word in *. lia.
  - done.
  - unfold is_word in *. lia.
  - by destruct sub.
  - specialize (Hsh op). clear -Hsh H2. destruct op; cbn [shift_code] in *; unfold is_word in *; lia.
Qed.
