(* ===== verification/Handlers.v ===== *)
(** The handlers of the register instructions compute what Isa.v specifies.

    Each lemma rewrites one handler of src/system/software/sim_module/simulator.c
    to the abstract result of its operation; Refine.v puts them together. *)

From S2P Require Import Prelude Spr Host Cpu Arith Decode Exceptions Mmu Instr Memory.
From S2P Require Import Isa.

Open Scope Z_scope.
Open Scope cword_scope.

(** ** Flags *)

Lemma set_flag_flag cpu k b b' : cpu_wf cpu -> 0 <= k < 32 ->
  cpu_set_sr_flag (cpu_set_sr_flag cpu (2 ^ k) (b2z b)) (2 ^ k) (b2z b') =
  cpu_set_sr_flag cpu (2 ^ k) (b2z b').
Proof.
  intros Hwf Hk.
  assert (Hw : cpu_wf (cpu_set_sr_flag cpu (2 ^ k) (b2z b))).
  { apply wf_set_sr_flag; [done|]. split; [lia|]. apply Z.pow_lt_mono_r; lia. }
  pose proof (set_sr_flag_sr _ k b' Hw Hk) as H2. rewrite (set_sr_flag_sr cpu k b Hwf Hk) in H2.
  pose proof (set_sr_flag_sr cpu k b' Hwf Hk) as H1.
  assert (Heq : sr (cpu_set_sr_flag (cpu_set_sr_flag cpu (2 ^ k) (b2z b)) (2 ^ k) (b2z b')) =
                sr (cpu_set_sr_flag cpu (2 ^ k) (b2z b'))).
  { rewrite H1, H2. apply Z.bits_inj'. intros i Hi.
    destruct b, b'; rewrite ?Z.setbit_eqb, ?Z.clearbit_eqb, ?Z.setbit_eqb, ?Z.clearbit_eqb by lia;
      destruct (k =? i), (Z.testbit (sr cpu) i); done. }
  unfold cpu_set_sr_flag, cpu_set_sr, cpu_get_sr in *. simpl in *. by rewrite Heq.
Qed.

Lemma set_flag_comm cpu k j b c : cpu_wf cpu -> 0 <= k < 32 -> 0 <= j < 32 -> k <> j ->
  cpu_set_sr_flag (cpu_set_sr_flag cpu (2 ^ k) (b2z b)) (2 ^ j) (b2z c) =
  cpu_set_sr_flag (cpu_set_sr_flag cpu (2 ^ j) (b2z c)) (2 ^ k) (b2z b).
Proof.
  intros Hwf Hk Hj Hne.
  assert (Hw : forall l d, 0 <= l < 32 -> cpu_wf (cpu_set_sr_flag cpu (2 ^ l) (b2z d))).
  { intros l d Hl. apply wf_set_sr_flag; [done|]. split; [lia|]. apply Z.pow_lt_mono_r; lia. }
  pose proof (set_sr_flag_sr _ j c (Hw k b Hk) Hj) as H2. rewrite (set_sr_flag_sr cpu k b Hwf Hk) in H2.
  pose proof (set_sr_flag_sr _ k b (Hw j c Hj) Hk) as H1. rewrite (set_sr_flag_sr cpu j c Hwf Hj) in H1.
  assert (Heq : sr (cpu_set_sr_flag (cpu_set_sr_flag cpu (2 ^ k) (b2z b)) (2 ^ j) (b2z c)) =
                sr (cpu_set_sr_flag (cpu_set_sr_flag cpu (2 ^ j) (b2z c)) (2 ^ k) (b2z b))).
  { rewrite H1, H2. apply Z.bits_inj'. intros i Hi.
    destruct b, c; repeat first [rewrite Z.setbit_eqb by lia | rewrite Z.clearbit_eqb];
      destruct (Z.eqb_spec k i), (Z.eqb_spec j i), (Z.testbit (sr cpu) i); (done || lia). }
  unfold cpu_set_sr_flag, cpu_set_sr, cpu_get_sr in *. simpl in *. by rewrite Heq.
Qed.

Lemma ov_cy_comm cpu ov cy : cpu_wf cpu ->
  cpu_set_ov (cpu_set_cy cpu (b2z cy)) (b2z ov) =
  cpu_set_cy (cpu_set_ov cpu (b2z ov)) (b2z cy).
Proof. intros. by apply (set_flag_comm cpu 10 11). Qed.

Lemma cy_cy cpu b b' : cpu_wf cpu ->
  cpu_set_cy (cpu_set_cy cpu (b2z b)) (b2z b') = cpu_set_cy cpu (b2z b').
Proof. intros. by apply (set_flag_flag cpu 10). Qed.

Lemma ov_ov cpu b b' : cpu_wf cpu ->
  cpu_set_ov (cpu_set_ov cpu (b2z b)) (b2z b') = cpu_set_ov cpu (b2z b').
Proof. intros. by apply (set_flag_flag cpu 11). Qed.

Lemma if_b2z {A} (f : Z -> A) (b : bool) : (if b then f 1 else f 0) = f (b2z b).
Proof. by destruct b. Qed.

(** The end of an arithmetic handler. *)
Lemma check_range_flags cpu cy ov : cpu_wf cpu ->
  Insn.check_range (cpu_set_cy (cpu_set_ov cpu (b2z ov)) (b2z cy)) =
  write_flags cpu (Some (cy, ov)).
Proof.
  intros Hwf. unfold Insn.check_range, write_flags.
  assert (Hov : cpu_wf (cpu_set_ov cpu (b2z ov))) by wf.
  assert (cpu_get_ov (cpu_set_cy (cpu_set_ov cpu (b2z ov)) (b2z cy)) = ov) as ->.
  { unfold cpu_get_ov. change SPR_SR_OV with (2 ^ 11). rewrite is_set_sr_flag_bit by lia.
    unfold cpu_set_cy. change SPR_SR_CY with (2 ^ 10).
    rewrite sr_bit_set_flag by (done || lia). cbn. by apply (sr_bit_set_flag cpu 11 11). }
  done.
Qed.

Lemma write_flags_wf cpu fl : cpu_wf cpu -> cpu_wf (write_flags cpu fl).
Proof. intros. destruct fl as [[cy ov]|]; cbn [write_flags]; wf. Qed.

(** ** Addition *)

Lemma calc_add_sum cin x y : is_u32 x -> is_u32 y ->
  calc_add cin x y =
  (u32 (x + y + b2z cin), negb (in_sword 32 (i32 x + i32 y + b2z cin)),
   2 ^ 32 <=? x + y + b2z cin).
Proof.
  intros Hx Hy. pose proof (calc_add_carry cin x y Hx Hy) as H.
  destruct (calc_add cin x y) as [[r o] c] eqn:E. destruct H as [-> ->].
  unfold calc_add in E. destruct (for_upto 32 _ _) as [r' c'].
  injection E as -> <- ->. by rewrite is_overflow_spec.
Qed.

Lemma add_base_sum cpu cin d x y : cpu_wf cpu -> is_u32 x -> is_u32 y -> 0 <= d ->
  Insn.check_range (Insn.add_base cpu cin d x y) = write_result cpu d (sum cin x y).
Proof.
  intros. unfold Insn.add_base. rewrite calc_add_sum by done.
  rewrite check_range_flags; [done|]. wf.
Qed.

Lemma mul_shared_product cpu a b d : cpu_wf cpu -> is_i32 a -> is_i32 b -> 0 <= d ->
  Insn.check_range (Insn.mul_shared cpu a b d) = write_result cpu d (product (u32 a) (u32 b)).
Proof.
  intros Hwf Ha Hb Hd. unfold Insn.mul_shared.
  rewrite calc_mul_mul, calc_mulu_mul by (done || (apply wrap_range; lia)). cbv zeta.
  rewrite (if_b2z (cpu_set_ov _)), (if_b2z (cpu_set_cy _)).
  rewrite check_range_flags by wf.
  unfold write_result, product. cbn [value flags].
  rewrite !swrap_wrap, !swrap_small by (lia || done).
  rewrite (wrap_mul_l 32 a), (wrap_mul_r 32 a b).
  do 3 f_equal.
  - unfold Insn.UINT_MAX. destruct (Z.ltb_spec (2 ^ 32 - 1) (u32 a * u32 b)),
      (Z.leb_spec (2 ^ 32) (u32 a * u32 b)); lia.
  - unfold Insn.INT_MIN, Insn.INT_MAX, in_sword. change (2 ^ (32 - 1)) with (2 ^ 31).
    lia.
Qed.

(** ** Subtraction *)

Lemma sub_difference cpu cont : cpu_wf cpu -> control_wf cont ->
  let x := cpu_get_gpr cpu (c_rA cont) in
  let y := cpu_get_gpr cpu (c_rB cont) in
  i32 y <> - 2 ^ 31 -> c_rD cont <> 0 ->
  Insn.sub cpu cont = Ok (write_result cpu (c_rD cont) (difference x y)).
Proof.
  intros Hwf Hc x y Hy Hd. assert (Hx : is_u32 x) by wf. assert (Hy' : is_u32 y) by wf.
  pose proof (swrap_range 32 x ltac:(lia)) as Rx. pose proof (swrap_range 32 y ltac:(lia)) as Ry.
  pose proof (cwf_rD cont Hc) as Hr.
  unfold Insn.sub. fold x y. unfold signed_c.
  assert (in_sword 32 (- i32 y) = true) as ->.
  { apply in_sword_spec. unfold is_sword in *. lia. }
  rewrite bind_Ok. f_equal. cbv zeta. rewrite !wrap_swrap, !(wrap_small 32 x), !(wrap_small 32 y) by done.
  unfold Insn.add_base. rewrite calc_add_sum by (done || (apply wrap_range; lia)).
  rewrite (if_b2z (cpu_set_cy _)), (if_b2z (cpu_set_ov _)).
  rewrite cy_cy by wf. rewrite ov_cy_comm, ov_ov by wf. rewrite check_range_flags by wf.
  unfold write_result, difference. cbn [value flags].
  assert (Hv : u32 (x + u32 (- i32 y) + b2z false) = u32 (x - y)).
  { cbn [Z.b2z]. rewrite Z.add_0_r, wrap_add_r.
    replace (x + - i32 y) with (x - i32 y) by lia.
    by rewrite <- wrap_sub_r, wrap_swrap, wrap_sub_r. }
  rewrite Hv. do 4 f_equal.
  assert (Hget : forall u c, cpu_get_gpr (cpu_set_cy (cpu_set_ov (cpu_set_gpr cpu (c_rD cont) (u32 (x - y))) u) c)
    (c_rD cont) = u32 (x - y)).
  { intros u c.
    change (cpu_get_gpr (cpu_set_gpr cpu (c_rD cont) (u32 (x - y))) (c_rD cont) = u32 (x - y)).
    rewrite (get_set_gpr_eq cpu Hwf) by done. by destruct (Z.eqb_spec (c_rD cont) 0). }
  rewrite Hget, swrap_wrap.
  assert (Hs : swrap 32 (x - y) = swrap 32 (i32 x - i32 y)).
  { rewrite <- (swrap_wrap 32 (i32 x - i32 y)), <- wrap_sub_l, <- wrap_sub_r, !wrap_swrap,
      wrap_sub_l, wrap_sub_r, swrap_wrap. done. }
  rewrite Hs. set (a := i32 x) in *. set (b := i32 y) in *.
  unfold in_sword, swrap, wrap, is_sword in *. change (2 ^ (32 - 1)) with 2147483648 in *.
  change (2 ^ 32) with 4294967296 in *.
  pose proof (Z.div_mod (a - b) 4294967296 ltac:(lia)).
  pose proof (Z.mod_pos_bound (a - b) 4294967296 ltac:(lia)).
  destruct (Z.ltb_spec ((a - b) mod 4294967296) 2147483648); lia.
Qed.

(** ** Multiplication and division *)

Lemma mulu_uproduct cpu cont : cpu_wf cpu -> control_wf cont ->
  Insn.mulu cpu cont =
  write_result cpu (c_rD cont)
    (uproduct (cpu_get_gpr cpu (c_rA cont)) (cpu_get_gpr cpu (c_rB cont))).
Proof.
  intros Hwf Hc. unfold Insn.mulu. rewrite calc_mulu_mul by wf. cbv zeta.
  rewrite (if_b2z (cpu_set_cy _)). change (cpu_set_ov ?c 0) with (cpu_set_ov c (b2z false)).
  rewrite check_range_flags by wf.
  unfold write_result, uproduct. cbn [value flags]. do 3 f_equal.
  unfold Insn.UINT_MAX. lia.
Qed.

Lemma quot_word a b : is_u32 a -> 0 < b -> is_u32 (a / b).
Proof.
  intros [Hl Hh] Hb. pose proof (Z.div_pos a b Hl Hb).
  pose proof (Z.div_le_upper_bound a b a Hb ltac:(nia)). split; lia.
Qed.

Lemma divu_uquotient cpu cont : cpu_wf cpu -> control_wf cont ->
  Insn.divu cpu cont =
  write_result cpu (c_rD cont)
    (uquotient (cpu_get_gpr cpu (c_rA cont)) (cpu_get_gpr cpu (c_rB cont))).
Proof.
  intros Hwf Hc. unfold Insn.divu, uquotient, write_result. cbv zeta.
  set (x := cpu_get_gpr cpu (c_rA cont)). set (y := cpu_get_gpr cpu (c_rB cont)).
  assert (Hx : is_u32 x) by wf. assert (Hy : is_u32 y) by wf.
  change (cpu_set_ov ?c 0) with (cpu_set_ov c (b2z false)).
  destruct (Z.eqb_spec y 0); cbn [negb value flags].
  - by rewrite check_range_flags by wf.
  - rewrite calc_divu_div by (done || (destruct Hy; lia)).
    rewrite check_range_flags; [done|]. apply wf_set_gpr; [done|wf|].
    apply quot_word; [done|]. destruct Hy; lia.
Qed.

Lemma sign_bit z : is_i32 z -> u32 z .& 0x80000000 = if z <? 0 then 2 ^ 31 else 0.
Proof.
  intros Hz. pose proof (sign_mask z Hz) as H. revert H.
  change 0x80000000 with (2 ^ 31). rewrite land_pow2_b2z by lia.
  destruct (Z.testbit _ _), (z <? 0); done.
Qed.

(** The magnitude of an operand of [or32_div]. *)
Lemma negate_magnitude z : is_i32 z -> z <> - 2 ^ 31 ->
  (if truth (u32 z .& 0x80000000) then Insn.negate_i32 z else Ok z) = Ok (Z.abs z).
Proof.
  intros Hz Hm. rewrite sign_bit by done. unfold is_sword in Hz.
  destruct (Z.ltb_spec z 0); simpl.
  - unfold Insn.negate_i32, signed_c.
    assert (Hl : Z.lnot z + 1 = Z.abs z) by (unfold Z.lnot; lia). rewrite Hl.
    assert (in_sword 32 (Z.abs z) = true) as ->; [|done].
    apply in_sword_spec. unfold is_sword. lia.
  - by rewrite Z.abs_eq.
Qed.

(** The sign of the quotient is put back at the end. *)
Lemma quotient_sign a b : b <> 0 -> is_u32 (Z.abs a) ->
  let q := Z.abs a / Z.abs b in
  (if truth ((if b <? 0 then 2 ^ 31 else 0) .^ (if a <? 0 then 2 ^ 31 else 0))
   then not32 (q -! 1) else q) = u32 (Z.sgn a * Z.sgn b * q).
Proof.
  intros Hb Ha q. assert (Hq : is_u32 q) by (apply quot_word; [done|lia]).
  assert (Hneg : not32 (q -! 1) = u32 (- q)).
  { unfold not32, sub32. replace (Z.lnot (u32 (q - 1))) with (-1 - u32 (q - 1))
      by (unfold Z.lnot; lia).
    rewrite wrap_sub_r. f_equal. lia. }
  assert (Hsgn : Z.sgn a * q = if a <? 0 then - q else q).
  { destruct (Z.ltb_spec a 0); [rewrite Z.sgn_neg by done; lia|].
    destruct (Z.eq_dec a 0) as [->|]; [by unfold q; rewrite Z.div_0_l by lia|].
    rewrite Z.sgn_pos by lia. lia. }
  replace (Z.sgn a * Z.sgn b * q) with (Z.sgn b * (Z.sgn a * q)) by ring. rewrite Hsgn.
  destruct (Z.ltb_spec b 0); [rewrite (Z.sgn_neg b) by done|rewrite (Z.sgn_pos b) by lia];
    destruct (a <? 0);
    match goal with |- context [truth ?t] =>
      let v := eval vm_compute in (truth t) in change (truth t) with v end; cbv iota;
    rewrite ?Hneg, ?Z.mul_1_l.
  - replace (-1 * - q) with q by lia. symmetry. by apply wrap_small.
  - f_equal; lia.
  - done.
  - symmetry. by apply wrap_small.
Qed.

Lemma div_quotient cpu cont : cpu_wf cpu -> control_wf cont ->
  let x := cpu_get_gpr cpu (c_rA cont) in
  let y := cpu_get_gpr cpu (c_rB cont) in
  i32 x <> - 2 ^ 31 -> i32 y <> - 2 ^ 31 ->
  Insn.or32_div cpu cont = Ok (write_result cpu (c_rD cont) (quotient x y)).
Proof.
  intros Hwf Hc x y Hx Hy.
  assert (Hxw : is_u32 x) by wf. assert (Hyw : is_u32 y) by wf.
  pose proof (swrap_range 32 x ltac:(lia)) as Rx. pose proof (swrap_range 32 y ltac:(lia)) as Ry.
  unfold Insn.or32_div. fold x y. cbv zeta.
  rewrite !negate_magnitude, !bind_Ok, !sign_bit by done.
  change (cpu_set_ov ?c 0) with (cpu_set_ov c (b2z false)).
  assert (H0 : (Z.abs (i32 y) =? 0) = (y =? 0)).
  { unfold swrap. rewrite (wrap_small 32 y) by done. destruct Hyw.
    change (2 ^ (32 - 1)) with 2147483648. destruct (Z.ltb_spec y 2147483648); lia. }
  rewrite H0. unfold quotient, write_result. f_equal.
  destruct (Z.eqb_spec y 0); cbn [negb value flags].
  { by rewrite check_range_flags by wf. }
  apply Z.eqb_neq in H0. unfold is_sword in Rx, Ry.
  assert (Ax : is_u32 (Z.abs (i32 x))) by (split; lia).
  assert (Ay : is_u32 (Z.abs (i32 y))) by (split; lia).
  assert (Ay0 : 0 < Z.abs (i32 y)) by lia.
  rewrite !(wrap_small 32 (Z.abs _)), calc_divu_div by done.
  rewrite Z.quot_div by lia. rewrite <- (quotient_sign (i32 x) (i32 y)) by (lia || done).
  apply check_range_flags, wf_set_gpr; [done|wf|].
  destruct (truth _); [wf|]. by apply quot_word.
Qed.

(** ** Bits: find first and last one *)

Lemma find_upto_unique hi stop k : 0 <= k <= hi ->
  (forall i, 0 <= i < k -> stop i = false) -> (k < hi -> stop k = true) ->
  find_upto hi stop = k.
Proof.
  intros Hk Hn Hs. destruct (find_upto_spec hi stop ltac:(lia)) as (Hr & Hn' & Hs').
  destruct (Z.lt_trichotomy (find_upto hi stop) k) as [Hlt|[Heq|Hgt]]; [|done|].
  - rewrite Hn in Hs' by lia. by assert (false = true) by (apply Hs'; lia).
  - rewrite Hn' in Hs by lia. by assert (false = true) by (apply Hs; lia).
Qed.

Lemma trailing_zeros_spec p :
  0 <= trailing_zeros p /\ Z.testbit (Zpos p) (trailing_zeros p) = true /\
  forall i, 0 <= i < trailing_zeros p -> Z.testbit (Zpos p) i = false.
Proof.
  induction p as [p _|p (Hr & Ht & Hz)|]; cbn [trailing_zeros];
    [repeat split; lia| |repeat split; lia].
  change (Zpos p~0) with (2 * Zpos p). repeat split; [lia| |].
  - by rewrite Z.add_1_r, Z.testbit_even_succ.
  - intros i Hi. destruct (Z.eq_dec i 0) as [->|]; [by rewrite Z.testbit_even_0|].
    replace i with (Z.succ (i - 1)) by lia. rewrite Z.testbit_even_succ by lia.
    apply Hz. lia.
Qed.

Lemma bit_below_32 x k : is_u32 x -> 0 <= k -> Z.testbit x k = true -> k < 32.
Proof.
  intros Hx Hk Hb. destruct (Z.lt_ge_cases k 32); [done|].
  by rewrite (testbit_word 32 x) in Hb by (done || lia).
Qed.

Lemma first_one_loop x : is_u32 x ->
  let idx := find_upto 32 (fun idx => truth (x .& (1 << idx))) in
  (if idx =? 32 then u32 (-1) else idx) +! 1 = first_one x.
Proof.
  intros Hx. destruct x as [|p|p]; [by vm_compute| |by destruct Hx].
  destruct (trailing_zeros_spec p) as (Hr & Ht & Hz).
  pose proof (bit_below_32 _ _ Hx Hr Ht) as Hlt.
  cbv zeta. rewrite (find_upto_unique 32 _ (trailing_zeros p)).
  - destruct (Z.eqb_spec (trailing_zeros p) 32); [lia|]. cbn [first_one]. apply wrap_small. split; lia.
  - lia.
  - intros i Hi. rewrite shl32_1, truth_land_pow2 by lia. by apply Hz.
  - intros _. by rewrite shl32_1, truth_land_pow2 by lia.
Qed.

Lemma last_one_loop x : is_u32 x ->
  32 -! find_upto 32 (fun idx => truth (x .& (1 << (31 - idx)))) = last_one x.
Proof.
  intros Hx. unfold last_one. destruct (Z.eqb_spec x 0) as [->|Hne]; [by vm_compute|].
  assert (0 < x) by (destruct Hx; lia).
  pose proof (Z.log2_nonneg x) as Hr. pose proof (Z.bit_log2 x ltac:(done)) as Ht.
  pose proof (bit_below_32 _ _ Hx Hr Ht) as Hlt.
  rewrite (find_upto_unique 32 _ (31 - Z.log2 x)).
  - unfold sub32. replace (32 - (31 - Z.log2 x)) with (Z.log2 x + 1) by lia.
    apply wrap_small. split; lia.
  - lia.
  - intros i Hi. rewrite shl32_1, truth_land_pow2 by lia. apply Z.bits_above_log2; lia.
  - intros _. rewrite shl32_1, truth_land_pow2 by lia. by replace (31 - (31 - Z.log2 x)) with (Z.log2 x) by lia.
Qed.

(** ** Shifts *)

Lemma mask_1f y : y .& 0x1f = y mod 32.
Proof. change 0x1f with (2 ^ 5 - 1). by rewrite land_mask. Qed.

Lemma sra_value x n : is_u32 x -> 0 <= n < 32 ->
  (if 0 <? n then u32 (sign_extend (x >> n) (31 - n)) else x >> n) = u32 (i32 x / 2 ^ n).
Proof.
  intros Hx Hn. destruct (Z.ltb_spec 0 n).
  - rewrite Z.shiftr_div_pow2 by lia.
    assert (Hd : is_word (31 - n + 1) (x / 2 ^ n)).
    { destruct Hx. split; [apply Z.div_pos; lia|]. apply Z.div_lt_upper_bound; [lia|].
      rewrite <- Z.pow_add_r by lia. by replace (n + (31 - n + 1)) with 32 by lia. }
    rewrite sign_extend_swrap by (done || lia). f_equal.
    rewrite (swrap_word (31 - n + 1)), (swrap_word 32) by (done || lia).
    replace (31 - n + 1 - 1) with (31 - n) by lia. change (32 - 1) with 31.
    rewrite Z.div_pow2_bits by lia. replace (31 - n + n) with 31 by lia.
    destruct (Z.testbit x 31); [|done].
    replace (2 ^ 32) with (2 ^ (31 - n + 1) * 2 ^ n)
      by (rewrite <- Z.pow_add_r by lia; f_equal; lia).
    replace (x - 2 ^ (31 - n + 1) * 2 ^ n) with (x + - 2 ^ (31 - n + 1) * 2 ^ n) by ring.
    rewrite Z.div_add by lia. lia.
  - assert (n = 0) as -> by lia.
    rewrite Z.shiftr_0_r, Z.div_1_r, wrap_swrap. symmetry. by apply wrap_small.
Qed.

Lemma shl_value x n : 0 <= n -> x << n = u32 (x * 2 ^ n).
Proof. intros. unfold shl32. by rewrite Z.shiftl_mul_pow2. Qed.

Lemma shr_value x n : is_u32 x -> 0 <= n -> x >> n = u32 (x / 2 ^ n).
Proof.
  intros. rewrite Z.shiftr_div_pow2 by done. symmetry. apply wrap_small, quot_word; [done|lia].
Qed.

(** The rotation is defined when the left shift is, for a count other than 0. *)
Lemma ror_value x n : is_u32 x -> 0 < n < 32 ->
  (x >> n) .| (x << (32 - n)) = u32 (rotate_right x n).
Proof.
  intros Hx Hn. unfold rotate_right.
  assert (Hr : x mod 2 ^ n * 2 ^ (32 - n) = x << (32 - n)).
  { rewrite shl_value by lia. unfold wrap.
    replace (2 ^ 32) with (2 ^ n * 2 ^ (32 - n)) by (rewrite <- Z.pow_add_r by lia; f_equal; lia).
    by rewrite Z.mul_mod_distr_r by lia. }
  rewrite Hr, Z.shiftr_div_pow2 by lia.
  rewrite <- lor_disjoint_add.
  - symmetry. apply wrap_small. apply is_word_lor; [lia|apply quot_word; [done|lia]|wf].
  - rewrite <- Z.shiftr_div_pow2 by lia. unfold shl32. zbits.
    destruct (Z.ltb_spec i 32); cbn [andb]; [|apply andb_false_r].
    destruct (Z.lt_ge_cases (i + n) 32).
    + rewrite (Z.testbit_neg_r _ (i - _)) by lia. apply andb_false_r.
    + by rewrite (testbit_word 32 x) by (done || lia).
Qed.

(** ** Groups of handlers

    The handler that runs each abstract operation. *)

Definition alu_handler (op : alu_op) (cpu : CPU) (cont : control) : outcome CPU :=
  match op with
  | Add => Ok (Insn.add cpu cont)
  | Addc => Ok (Insn.addc cpu cont)
  | Sub => Insn.sub cpu cont
  | And => Ok (Insn.and cpu cont)
  | Or => Ok (Insn.or cpu cont)
  | Xor => Ok (Insn.xor cpu cont)
  | Mul => Ok (Insn.mul cpu cont)
  | Mulu => Ok (Insn.mulu cpu cont)
  | Div => Insn.or32_div cpu cont
  | Divu => Ok (Insn.divu cpu cont)
  | Sll => Ok (Insn.sll cpu cont)
  | Srl => Insn.srl cpu cont
  | Sra => Ok (Insn.sra cpu cont)
  | Ror => Insn.ror cpu cont
  | Cmov => Ok (Insn.cmov cpu cont)
  | Exths => Ok (Insn.exths cpu cont)
  | Extbs => Ok (Insn.extbs cpu cont)
  | Exthz => Ok (Insn.exthz cpu cont)
  | Extbz => Ok (Insn.extbz cpu cont)
  | Extws => Ok (Insn.extws cpu cont)
  | Ff1 => Ok (Insn.ff1 cpu cont)
  | Fl1 => Ok (Insn.fl1 cpu cont)
  end.

Definition imm_handler (op : imm_op) : CPU -> control -> CPU :=
  match op with
  | Addi => Insn.addi | Addic => Insn.addic | Andi => Insn.andi
  | Ori => Insn.ori | Xori => Insn.xori | Muli => Insn.muli
  end.

Definition shift_handler (op : shift_op) (cpu : CPU) (cont : control) : outcome CPU :=
  match op with
  | Slli => Ok (Insn.slli cpu cont)
  | Srli => Ok (Insn.srli cpu cont)
  | Srai => Ok (Insn.srai cpu cont)
  | Rori => Insn.rori cpu cont
  end.

Definition sf_handler (c : cond) : CPU -> control -> CPU :=
  match c with
  | Eq => Insn.sfeq | Ne => Insn.sfne | Gtu => Insn.sfgtu | Geu => Insn.sfgeu
  | Ltu => Insn.sfltu | Leu => Insn.sfleu | Gts => Insn.sfgts | Ges => Insn.sfges
  | Lts => Insn.sflts | Les => Insn.sfles
  end.

Definition sfi_handler (c : cond) : CPU -> control -> CPU :=
  match c with
  | Eq => Insn.sfeqi | Ne => Insn.sfnei | Gtu => Insn.sfgtui | Geu => Insn.sfgeui
  | Ltu => Insn.sfltui | Leu => Insn.sfleui | Gts => Insn.sfgtsi | Ges => Insn.sfgesi
  | Lts => Insn.sfltsi | Les => Insn.sflesi
  end.

Definition jump_handler (op : jump_op) : CPU -> control -> CPU :=
  match op with J => Insn.j | Jal => Insn.jal | Bf => Insn.bf | Bnf => Insn.bnf end.

Section Groups.
Context (cpu : CPU) (cont : control) (Hwf : cpu_wf cpu) (Hc : control_wf cont).

Let x := cpu_get_gpr cpu (c_rA cont).
Let y := cpu_get_gpr cpu (c_rB cont).

Lemma plain_small v : is_u32 v -> write_result cpu (c_rD cont) (plain v) = cpu_set_gpr cpu (c_rD cont) v.
Proof. intros. unfold write_result, plain. cbn [value flags write_flags]. by rewrite wrap_small. Qed.

Lemma simm_exts : u32 (exts (c_I cont)) = simm (c_I cont).
Proof. unfold simm. by rewrite exts_swrap by apply Hc. Qed.

Lemma rA_word : is_u32 x.
Proof. unfold x. wf. Qed.
Lemma rB_word : is_u32 y.
Proof. unfold y. wf. Qed.
Lemma simm_word i : is_u32 (simm i).
Proof. unfold simm. wf. Qed.

Lemma sign_ext_field k z : 0 <= k < 31 -> wrap (k + 1) z = z .& (2 ^ (k + 1) - 1) ->
  sign_extend (z .& (2 ^ (k + 1) - 1)) k = swrap (k + 1) z.
Proof.
  intros Hk <-. rewrite sign_extend_swrap; [apply swrap_wrap|done|]. apply wrap_range. lia.
Qed.

Lemma alu_handler_ok op : alu_defined op (c_rD cont) x y = true ->
  alu_handler op cpu cont =
  Ok (write_result cpu (c_rD cont) (alu_sem op (cpu_get_cy cpu) (cpu_get_f cpu) x y)).
Proof.
  pose proof rA_word as Hx. pose proof rB_word as Hy.
  pose proof (Z.mod_pos_bound y 32 ltac:(lia)) as Hm.
  destruct op; cbn [alu_defined alu_handler alu_sem]; intros Hdef.
  - by rewrite <- add_base_sum by wf.
  - by rewrite <- add_base_sum by wf.
  - apply sub_difference; [done|done|fold y..]; lia.
  - by rewrite plain_small by wf.
  - by rewrite plain_small by wf.
  - by rewrite plain_small by wf.
  - unfold Insn.mul. rewrite mul_shared_product by (done || (apply swrap_range; lia) || wf).
    by rewrite !wrap_swrap, !wrap_small.
  - by rewrite mulu_uproduct.
  - apply div_quotient; [done|done|fold x|fold y]; lia.
  - by rewrite divu_uquotient.
  - unfold Insn.sll. fold x y. by rewrite mask_1f, shl_value by lia.
  - unfold Insn.srl. fold x y. rewrite shr_c_ok by (destruct Hy; lia).
    rewrite bind_Ok, shr_value by (done || apply Hy).
    by rewrite Z.mod_small by (destruct Hy; lia).
  - unfold Insn.sra. fold x y. by rewrite mask_1f, sra_value.
  - unfold Insn.ror. fold x y. cbv zeta.
    by rewrite mask_1f, shl_c_ok, bind_Ok, ror_value by (done || lia).
  - rewrite plain_small by (destruct (cpu_get_f cpu); wf). done.
  - unfold Insn.exths. fold x. change 0xffff with (2 ^ (15 + 1) - 1).
    by rewrite sign_ext_field by (lia || by rewrite land_mask).
  - unfold Insn.extbs. fold x. change 0xff with (2 ^ (7 + 1) - 1).
    by rewrite sign_ext_field by (lia || by rewrite land_mask).
  - unfold Insn.exthz. rewrite zero_extend_wrap by lia. rewrite plain_small; [done|].
    apply (is_word_weaken 16); [lia|by apply wrap_range].
  - unfold Insn.extbz. rewrite zero_extend_wrap by lia. rewrite plain_small; [done|].
    apply (is_word_weaken 8); [lia|by apply wrap_range].
  - by rewrite plain_small.
  - unfold Insn.ff1. fold x. rewrite first_one_loop, plain_small; [done| |done].
    rewrite <- first_one_loop by done. wf.
  - unfold Insn.fl1. fold x. rewrite last_one_loop, plain_small; [done| |done].
    rewrite <- last_one_loop by done. wf.
Qed.


(** [K] is the immediate of [andi] and [ori], [I] that of the others; [decode]
    gives both the same 16 bits. *)
Lemma imm_handler_ok op : c_K cont = c_I cont ->
  imm_handler op cpu cont =
  write_result cpu (c_rD cont) (imm_sem op (cpu_get_cy cpu) x (c_I cont)).
Proof.
  intros HK. pose proof rA_word as Hx. pose proof (simm_word (c_I cont)) as Hs.
  assert (Hk : is_u32 (c_I cont)) by (apply (is_word_weaken 16); [lia|apply Hc]).
  destruct op; cbn [imm_handler imm_sem].
  - unfold Insn.addi. rewrite simm_exts. by rewrite add_base_sum by wf.
  - unfold Insn.addic. rewrite simm_exts. by rewrite add_base_sum by wf.
  - unfold Insn.andi. rewrite HK. by rewrite plain_small by wf.
  - unfold Insn.ori. rewrite HK. by rewrite plain_small by wf.
  - unfold Insn.xori. rewrite simm_exts. by rewrite plain_small by wf.
  - unfold Insn.muli. rewrite mul_shared_product.
    + by rewrite wrap_swrap, simm_exts, (wrap_small 32 (cpu_get_gpr _ _)).
    + done.
    + apply swrap_range. lia.
    + rewrite exts_swrap by apply Hc. pose proof (swrap_range 16 (c_I cont) ltac:(lia)) as Hr.
      unfold is_sword in *. change (2 ^ (16 - 1)) with 32768 in Hr.
      change (2 ^ (32 - 1)) with 2147483648. lia.
    + wf.
Qed.

Lemma shift_handler_ok op : (op = Rori -> c_L cont <> 0) ->
  shift_handler op cpu cont =
  Ok (write_result cpu (c_rD cont) (shift_sem op x (c_L cont))).
Proof.
  intros Hl. pose proof rA_word as Hx. destruct (cwf_L cont Hc) as [L1 L2].
  change (2 ^ 5) with 32 in L2.
  destruct op; cbn [shift_handler shift_sem].
  - unfold Insn.slli. fold x. by rewrite shl_value.
  - unfold Insn.srli. fold x. by rewrite shr_value.
  - unfold Insn.srai. fold x. cbv zeta. by rewrite sra_value.
  - unfold Insn.rori. fold x. cbv zeta. specialize (Hl Logic.eq_refl).
    by rewrite shl_c_ok, bind_Ok, ror_value by (done || lia).
Qed.

Lemma sf_handler_ok c : sf_handler c cpu cont = cpu_set_f cpu (b2z (cond_sem c x y)).
Proof. by destruct c. Qed.

Lemma sfi_handler_ok c :
  sfi_handler c cpu cont = cpu_set_f cpu (b2z (cond_sem c x (simm (c_I cont)))).
Proof.
  pose proof rA_word as Hx.
  assert (He : exts (c_I cont) = i32 (simm (c_I cont))).
  { rewrite <- simm_exts, swrap_wrap. symmetry. apply swrap_small; [lia|].
    rewrite exts_swrap by apply Hc. pose proof (swrap_range 16 (c_I cont) ltac:(lia)) as Hr.
    unfold is_sword in *. change (2 ^ (16 - 1)) with 32768 in Hr.
    change (2 ^ (32 - 1)) with 2147483648. lia. }
  destruct c; cbn [sfi_handler cond_sem];
    unfold Insn.sfeqi, Insn.sfnei, Insn.sfgtui, Insn.sfgeui, Insn.sfltui, Insn.sfleui,
      Insn.sfgtsi, Insn.sfgesi, Insn.sfltsi, Insn.sflesi; fold x;
    rewrite ?simm_exts, ?He; try done.
  do 3 f_equal. destruct (Z.eqb_spec x (simm (c_I cont))) as [->|Hne]; [apply Z.eqb_refl|].
  apply Z.eqb_neq. intros E. apply Hne.
  rewrite <- (wrap_small 32 x), <- (wrap_small 32 (simm _)) by (done || apply simm_word).
  by rewrite <- (wrap_swrap 32 x), E, wrap_swrap.
Qed.

(** ** Undefined operands *)

Lemma shr_c_undefined a n : 0 <= n -> shr_c a n = Undef <-> 32 <= n.
Proof.
  intros Hn. unfold shr_c. destruct (Z.leb_spec 0 n), (Z.ltb_spec n 32); cbn [andb];
    split; (done || lia).
Qed.

Lemma shl_c_undefined a n : 0 < n -> shl_c a n = Undef <-> 32 <= n.
Proof.
  intros Hn. unfold shl_c. destruct (Z.leb_spec 0 n), (Z.ltb_spec n 32); cbn [andb];
    split; (done || lia).
Qed.

Lemma bind_undefined {A B} (m : outcome A) (f : A -> outcome B) :
  (forall a, exists b, f a = Ok b) -> (v ← m; f v) = Undef <-> m = Undef.
Proof.
  intros Hf. destruct m as [a| | |]; try done. rewrite bind_Ok. destruct (Hf a) as [b ->].
  by split.
Qed.

Lemma signed_c_undefined w z : signed_c w z = Undef <-> in_sword w z = false.
Proof. unfold signed_c. by destruct (in_sword w z). Qed.

Lemma least_i32 v : is_u32 v -> in_sword 32 (- i32 v) = false <-> v = 2 ^ 31.
Proof.
  intros Hv. unfold in_sword. rewrite swrap_word by (done || lia).
  change (32 - 1) with 31. destruct (Z.leb_spec (2 ^ 31) v) as [Hb|Hb].
  - assert (Z.testbit v 31 = true) as ->.
    { rewrite Z.testbit_odd, Z.shiftr_div_pow2 by lia.
      by rewrite <- (Z.div_unique v (2 ^ 31) 1 (v - 2 ^ 31)) by (destruct Hv; lia). }
    destruct Hv. lia.
  - rewrite (testbit_word 31 v) by (lia || (destruct Hv; split; lia)). destruct Hv. lia.
Qed.

Lemma srl_undefined : Insn.srl cpu cont = Undef <-> 32 <= y.
Proof.
  unfold Insn.srl. rewrite bind_undefined by (intros a; by eexists).
  fold y. apply shr_c_undefined. apply rB_word.
Qed.

Lemma ror_undefined : Insn.ror cpu cont = Undef <-> y mod 32 = 0.
Proof.
  unfold Insn.ror. cbv zeta. rewrite bind_undefined by (intros a; by eexists).
  fold y. rewrite mask_1f. pose proof (Z.mod_pos_bound y 32 ltac:(lia)).
  rewrite shl_c_undefined by lia. lia.
Qed.

Lemma rori_undefined : Insn.rori cpu cont = Undef <-> c_L cont = 0.
Proof.
  unfold Insn.rori. cbv zeta. rewrite bind_undefined by (intros a; by eexists).
  destruct (cwf_L cont Hc) as [L1 L2]. change (2 ^ 5) with 32 in L2.
  rewrite shl_c_undefined by lia. lia.
Qed.

Lemma sub_undefined : Insn.sub cpu cont = Undef <-> y = 2 ^ 31.
Proof.
  unfold Insn.sub. cbv zeta. rewrite bind_undefined by (intros a; by eexists).
  fold y. rewrite signed_c_undefined. apply least_i32, rB_word.
Qed.

Lemma negate_undefined v : is_u32 v ->
  (if truth (u32 (i32 v) .& 0x80000000) then Insn.negate_i32 (i32 v) else Ok (i32 v)) = Undef <->
  v = 2 ^ 31.
Proof.
  intros Hv. rewrite wrap_swrap, wrap_small by done. change 0x80000000 with (2 ^ 31).
  rewrite truth_land_pow2 by lia. unfold Insn.negate_i32.
  replace (Z.lnot (i32 v) + 1) with (- i32 v) by (unfold Z.lnot; lia).
  destruct (Z.testbit v 31) eqn:E.
  - rewrite signed_c_undefined. by apply least_i32.
  - split; [done|]. intros ->. done.
Qed.

Lemma negate_returns b z :
  (exists v, (if truth b then Insn.negate_i32 z else Ok z) = Ok v) \/
  (if truth b then Insn.negate_i32 z else Ok z) = Undef.
Proof.
  destruct (truth b); [|left; by eexists].
  unfold Insn.negate_i32, signed_c. destruct (in_sword _ _); [left; by eexists|by right].
Qed.

Lemma div_undefined : Insn.or32_div cpu cont = Undef <-> x = 2 ^ 31 \/ y = 2 ^ 31.
Proof.
  unfold Insn.or32_div. cbv zeta. fold x y.
  rewrite <- (negate_undefined x rA_word), <- (negate_undefined y rB_word).
  destruct (negate_returns (u32 (i32 y) .& 0x80000000) (i32 y)) as [[d ->] | ->];
    [|rewrite bind_Undef; tauto]. rewrite bind_Ok.
  destruct (negate_returns (u32 (i32 x) .& 0x80000000) (i32 x)) as [[n ->] | ->];
    [|rewrite bind_Undef; tauto]. rewrite bind_Ok.
  split; [done|]. by intros [?|?].
Qed.


(** ** Branches *)

Lemma branch_target_ok : Insn.branch_target cpu cont = target cpu (c_N cont).
Proof.
  unfold Insn.branch_target, target, add32. pose proof (cwf_N cont Hc) as HN.
  assert (Hw : c_N cont << 2 = c_N cont * 2 ^ 2).
  { rewrite shl_value by lia. apply wrap_small. destruct HN. split; lia. }
  rewrite Hw, sign_extend_swrap by (lia || (destruct HN; split; lia)).
  rewrite wrap_add_r. f_equal. f_equal. destruct HN as [N1 N2].
  unfold swrap. change (27 + 1) with 28. rewrite !wrap_small by (split; lia).
  change (2 ^ (28 - 1)) with 134217728. change (2 ^ (26 - 1)) with 33554432.
  change (2 ^ 28) with 268435456. change (2 ^ 26) with 67108864. change (2 ^ 2) with 4.
  destruct (Z.ltb_spec (c_N cont * 4) 134217728), (Z.ltb_spec (c_N cont) 33554432); lia.
Qed.

Lemma jump_handler_ok op : jump_handler op cpu cont = jump_sem op (c_N cont) cpu.
Proof.
  destruct op; cbn [jump_handler jump_sem];
    unfold Insn.j, Insn.jal, Insn.bf, Insn.bnf; rewrite branch_target_ok; try done.
  change (cpu_is_set_f cpu) with (cpu_get_f cpu). by destruct (cpu_get_f cpu).
Qed.

Lemma jump_reg_ok link :
  (if link : bool then Insn.jalr else Insn.jr) cpu cont = jump_reg_sem link (c_rB cont) cpu.
Proof.
  unfold jump_reg_sem.
  destruct link; [unfold Insn.jalr|unfold Insn.jr]; cbv zeta;
    rewrite mod4_mask; unfold truth; by destruct (_ =? 0).
Qed.

End Groups.

(** ** The accumulator *)

Lemma cpu_get_mac_value cpu : cpu_wf cpu -> cpu_get_mac cpu = mac_value cpu.
Proof.
  intros Hwf. unfold cpu_get_mac, mac_value, cpu_get_maclo, cpu_get_machi.
  rewrite Z.shiftl_mul_pow2 by lia. set (h := machi cpu). pose proof (wf_maclo cpu Hwf) as Hl.
  assert (Hh : exists h', i64 (h * 2 ^ 32) = h' * 2 ^ 32).
  { exists (if h mod 2 ^ 32 <? 2 ^ 31 then h mod 2 ^ 32 else h mod 2 ^ 32 - 2 ^ 32).
    unfold swrap, wrap. change (2 ^ 64) with (2 ^ 32 * 2 ^ 32).
    rewrite Z.mul_mod_distr_r by lia.
    change (2 ^ (64 - 1)) with (2 ^ 31 * 2 ^ 32).
    destruct (Z.ltb_spec (h mod 2 ^ 32) (2 ^ 31)), (Z.ltb_spec (h mod 2 ^ 32 * 2 ^ 32) (2 ^ 31 * 2 ^ 32)); lia. }
  destruct Hh as [h' Hh']. rewrite Hh', lor_join by done. rewrite <- Hh'.
  assert (Hr : is_i64 (i64 (h * 2 ^ 32))) by (apply swrap_range; lia). rewrite Hh' in *.
  rewrite <- (swrap_small 64 (h' * 2 ^ 32 + maclo cpu)); [|lia|].
  - rewrite <- swrap_wrap, <- wrap_add_l, <- Hh', wrap_swrap, wrap_add_l. apply swrap_wrap.
  - unfold is_sword in *. change (2 ^ (64 - 1)) with (2 ^ 31 * 2 ^ 32) in *.
    destruct Hl as [l1 l2]. set (p := 2 ^ 32) in *. nia.
Qed.

Lemma signed_c_bind_undefined w z (f : Z -> CPU) :
  (m ← signed_c w z; Ok (f m)) = Undef <-> ~ is_sword w z.
Proof.
  rewrite bind_undefined by (intros a; by eexists).
  rewrite signed_c_undefined, <- in_sword_spec. by destruct (in_sword w z).
Qed.

(** The accumulator overflows. *)
Lemma mac_undefined cpu cont : cpu_wf cpu -> control_wf cont ->
  let x := cpu_get_gpr cpu (c_rA cont) in
  let y := cpu_get_gpr cpu (c_rB cont) in
  (Insn.mac cpu cont = Undef <-> ~ is_sword 64 (mac_value cpu + i32 x * i32 y)) /\
  (Insn.msb cpu cont = Undef <-> ~ is_sword 64 (mac_value cpu - i32 x * i32 y)) /\
  (Insn.maci cpu cont = Undef <-> ~ is_sword 64 (mac_value cpu + i32 x * swrap 16 (c_I cont))).
Proof.
  intros Hwf Hc x y. unfold Insn.mac, Insn.msb, Insn.maci. cbv zeta. fold x y.
  assert (Hi : sign_extend (c_I cont) 15 = swrap 16 (c_I cont))
    by (apply (sign_extend_swrap _ 15); [lia|apply Hc]).
  assert (Hr : is_i32 (swrap 16 (c_I cont))).
  { pose proof (swrap_range 16 (c_I cont) ltac:(lia)) as Hr. unfold is_sword in *.
    change (2 ^ (16 - 1)) with 32768 in Hr. change (2 ^ (32 - 1)) with 2147483648. lia. }
  rewrite Hi, !calc_mul_mul by (done || (apply swrap_range; lia)).
  rewrite cpu_get_mac_value by done. split; [|split]; apply signed_c_bind_undefined.
Qed.

Lemma cpu_set_mac_write cpu m : cpu_set_mac cpu m = mac_write cpu m.
Proof.
  unfold cpu_set_mac, mac_write. f_equal.
  - f_equal. rewrite Z.shiftr_div_pow2 by lia. apply wrap_small.
    pose proof (wrap_range 64 m ltac:(lia)) as [W1 W2].
    split; [apply Z.div_pos; lia|]. apply Z.div_lt_upper_bound; [lia|].
    by change (2 ^ 32 * 2 ^ 32) with (2 ^ 64).
  - change 0xffffffff with (2 ^ 32 - 1). rewrite land_mask, wrap_wrap by lia.
    unfold wrap. apply Z.mod_mod_divide. by exists (2 ^ 32).
Qed.

Lemma mac_value_write cpu m : is_i64 m -> mac_value (mac_write cpu m) = m.
Proof.
  intros Hm. unfold mac_value, mac_write. cbn [machi maclo cpu_set_maclo cpu_set_machi].
  transitivity (i64 (u64 m)); [|by rewrite swrap_wrap, swrap_small by (done || lia)].
  f_equal. rewrite (Z.div_mod (u64 m) (2 ^ 32)) by lia. rewrite (Z.mul_comm (2 ^ 32)).
  f_equal; [by rewrite Z.div_add_l, Z.mod_div, Z.add_0_r by lia|].
  unfold wrap. symmetry. apply Z.mod_mod_divide. by exists (2 ^ 32).
Qed.
