(* ===== verification/Refine.v ===== *)
(** The simulator implements the instruction set of Isa.v.

    [decode] of src/system/software/sim_module/simulator.c finds the fields
    [isa_decode] finds, and [execute] has the effect Isa.v gives the instruction,
    for the operands for which the C code is defined; on a word that is no
    instruction it does not return. *)

From S2P Require Import Prelude Spr Host Cpu Arith Decode Exceptions Mmu Instr Memory Exec.
From S2P Require Import Isa Handlers.

Open Scope Z_scope.
Open Scope cword_scope.

(** ** Fields *)

Lemma get_bits_field w lo n : 0 <= lo -> 0 <= n < 32 -> GET_BITS w lo n = field w lo n.
Proof. intros. rewrite get_bits_wrap, Z.shiftr_div_pow2 by lia. done. Qed.

Lemma land_field w n : 0 <= n -> w .& (2 ^ n - 1) = field w 0 n.
Proof. intros. rewrite land_mask by done. unfold field. by rewrite Z.div_1_r. Qed.

Lemma split_field w : SPLIT_I w = field w 21 5 * 2 ^ 11 + field w 0 11.
Proof.
  unfold SPLIT_I, I_HI, I_LOW. rewrite !get_bits_field by lia.
  pose proof (Z.mod_pos_bound (w / 2 ^ 21) (2 ^ 5) ltac:(lia)) as Hh.
  pose proof (Z.mod_pos_bound (w / 2 ^ 0) (2 ^ 11) ltac:(lia)) as Hl.
  unfold field in *. rewrite shl_value, wrap_small by (lia || split; lia).
  rewrite <- Z.shiftl_mul_pow2 by lia. apply lor_disjoint_add. zbits.
  destruct (Z.ltb_spec i 11).
  - by rewrite (Z.testbit_neg_r _ (i - 11)) by lia.
  - rewrite (testbit_word 11 (_ mod 2 ^ 11)) by (done || lia). apply andb_false_r.
Qed.

Ltac below_10 :=
  match goal with
  | H : 0 <= ?i < 10 |- _ =>
      assert (i = 0 \/ i = 1 \/ i = 2 \/ i = 3 \/ i = 4 \/
              i = 5 \/ i = 6 \/ i = 7 \/ i = 8 \/ i = 9) as Hcases by lia;
      clear H; repeat destruct Hcases as [Hcases|Hcases]; subst i
  end.

(** The masks of [decode] drop the bits of the key that are not read. *)
Lemma alu_op_key w : is_u32 w -> c_alu_op (decode w) = alu_key w.
Proof.
  intros Hw. unfold decode, alu_key. cbn [c_alu_op]. unfold ALU_SHIFT, ALU_OP.
  rewrite !get_bits_field by lia. change 0xf with (2 ^ 4 - 1). rewrite !land_field by lia.
  assert (Hkey : forall lo n mask, 0 <= n -> 0 <= lo -> lo + n = 10 ->
    (forall i, 0 <= i < 10 -> Z.testbit mask i = (i <? 4) || (lo <=? i)) -> 4 <= lo ->
    field w 0 10 .& mask = field w lo n * 2 ^ lo + field w 0 4).
  { intros lo n mask Hn Hlo Hs Hmask H4.
    rewrite <- Z.shiftl_mul_pow2 by lia. rewrite <- lor_disjoint_add.
    - unfold field. rewrite Z.div_1_r. fold (wrap 10 w). fold (wrap 4 w).
      fold (wrap n (w / 2 ^ lo)). zbits.
      destruct (Z.ltb_spec i 10), (Z.ltb_spec i 4); cbn [andb]; try lia.
      + rewrite Hmask by lia. destruct (Z.ltb_spec i 4); [|lia]. cbn [orb].
        rewrite (Z.testbit_neg_r _ (i - lo)) by lia. by rewrite andb_true_r.
      + rewrite Hmask by lia. destruct (Z.ltb_spec i 4); [lia|]. cbn [orb].
        rewrite orb_false_r. destruct (Z.leb_spec lo i).
        * rewrite testbit_wrap, <- Z.shiftr_div_pow2, Z.shiftr_spec by lia.
          replace (i - lo + lo) with i by lia. destruct (Z.ltb_spec (i - lo) n); [|lia].
          by rewrite andb_true_r.
        * rewrite (Z.testbit_neg_r _ (i - lo)) by lia. apply andb_false_r.
      + rewrite (testbit_word n (wrap n _)) by (lia || by apply wrap_range). done.
    - unfold field. rewrite Z.div_1_r. fold (wrap 4 w). zbits.
      destruct (Z.ltb_spec i 4); cbn [andb]; [|apply andb_false_r].
      by rewrite (Z.testbit_neg_r _ (i - lo)) by lia. }
  destruct (_ || _).
  - apply Hkey; [lia..| |lia]. intros. by below_10.
  - apply Hkey; [lia..| |lia]. intros. by below_10.
Qed.

Section Fields.
Context (w : Z).

Lemma field_rD : c_rD (decode w) = field w 21 5.
Proof. by apply get_bits_field. Qed.
Lemma field_rA : c_rA (decode w) = field w 16 5.
Proof. by apply get_bits_field. Qed.
Lemma field_rB : c_rB (decode w) = field w 11 5.
Proof. by apply get_bits_field. Qed.
Lemma field_sf_op : c_sf_op (decode w) = field w 21 5.
Proof. by apply get_bits_field. Qed.
Lemma field_N : c_N (decode w) = field w 0 26.
Proof. by apply get_bits_field. Qed.
Lemma field_L : c_L (decode w) = field w 0 5.
Proof. by apply get_bits_field. Qed.
Lemma field_ro_shift : c_ro_shift_i_op (decode w) = field w 6 2.
Proof. by apply get_bits_field. Qed.

Lemma opcode_field : OPCODE w = field w 26 6.
Proof. by apply get_bits_field. Qed.

Lemma decode_I : c_I (decode w) =
  if (field w 26 6 =? OP_SW) || (field w 26 6 =? OP_SH) || (field w 26 6 =? OP_SB)
  then field w 21 5 * 2 ^ 11 + field w 0 11 else field w 0 16.
Proof.
  cbn [decode c_I]. rewrite opcode_field, split_field. unfold I_FIELD.
  by rewrite get_bits_field by lia.
Qed.

Lemma decode_K : c_K (decode w) =
  if field w 26 6 =? OP_MTSPR then field w 21 5 * 2 ^ 11 + field w 0 11 else field w 0 16.
Proof.
  cbn [decode c_K]. rewrite opcode_field. unfold SPLIT_K. rewrite split_field. unfold K_FIELD.
  by rewrite get_bits_field by lia.
Qed.

End Fields.

(** ** Dispatch *)

(** Two tables with the same keys give related results. *)
Lemma switch_related {A B} (R : A -> B -> Prop) x l1 l2 d1 d2 :
  Forall2 (fun p q => p.1 = q.1 /\ (x = p.1 -> R p.2 q.2)) l1 l2 -> R d1 d2 ->
  R (switch x l1 d1) (switch x l2 d2).
Proof.
  intros Hl Hd. induction Hl as [|[k a] [k' b] l1 l2 [Hk Hr] _ IH]; simpl in *; [done|].
  subst k'. destruct (Z.eqb_spec x k); [by apply Hr|done].
Qed.

Section Implements.
Context `{HB : Build} {H : Type} `{HL : HostLaws H}.

(** The handler's outcome [m] is the effect of the instruction, and no
    instruction has no outcome. *)
Definition implements (s : sim H) (m : outcome (sim H)) (oi : option instr) : Prop :=
  match oi with
  | None => m = if STANDALONE then Hang else AssertFail
  | Some i => instr_defined i s = true -> exists s', m = Ok s' /\ effect i s s'
  end.

Lemma implements_partial (s : sim H) cont f i g :
  (instr_defined i s = true -> f (s_cpu s) cont = Ok (g (s_cpu s))) ->
  (forall s', on_cpu s s' g -> effect i s s') ->
  implements s (partial f s cont) (Some i).
Proof. intros Hf He Hd. unfold partial. rewrite (Hf Hd). eexists. split; [done|]. by apply He. Qed.

Lemma implements_total (s : sim H) cont f i g :
  f (s_cpu s) cont = g (s_cpu s) -> (forall s', on_cpu s s' g -> effect i s s') ->
  implements s (total f s cont) (Some i).
Proof. intros Hf He _. unfold total. rewrite Hf. eexists. split; [done|]. by apply He. Qed.

Lemma fetch_next_probed (s : sim H) : (fetch_next s).2 = probed s.
Proof.
  unfold fetch_next, probed, guestLoadI, cpu_get_pc, add32. destruct (2 <? _); [|done].
  by destruct (guestLoad _ _).
Qed.

Lemma implements_branch (s : sim H) cont f i g :
  f (s_cpu s) cont = g (s_cpu s) -> (forall s', on_cpu (probed s) s' g -> effect i s s') ->
  implements s (branch f s cont) (Some i).
Proof.
  intros Hf He _. unfold branch, BAIL. pose proof (fetch_next_probed s) as Hp.
  destruct (fetch_next s) as [inst s1]. simpl in Hp. subst s1.
  assert (Hf' : f (s_cpu (probed s)) cont = g (s_cpu (probed s))) by done.
  destruct (negb _); unfold total; rewrite Hf'; (eexists; split; [done|by apply He]).
Qed.

Lemma implements_unimpl (s : sim H) cont : implements s (unimpl s cont) None.
Proof. done. Qed.

End Implements.

Section Groups.
Context `{HB : Build} {H : Type} `{HL : HostLaws H}.
Context (w : Z) (s : sim H) (Hw : is_u32 w) (Hs : sim_wf s).
#[local] Set Default Proof Using "All".

Let cont := decode w.
Let d := field w 21 5.
Let a := field w 16 5.
Let b := field w 11 5.

Lemma cont_wf : control_wf cont.
Proof. by apply decode_in_range. Qed.

Lemma cpu_ok : cpu_wf (s_cpu s).
Proof. exact Hs. Qed.

(** Every row of two tables: the keys agree, the rule [tac] is for the
    handlers. *)
Local Tactic Notation "table" constr(R) "using" tactic3(tac) :=
  apply (switch_related R); [|apply implements_unimpl];
  repeat (apply List.Forall2_cons; [split; [reflexivity|intros Hkey; cbn [fst snd] in *; tac]|]);
  apply List.Forall2_nil.
Local Ltac regs :=
  unfold cont, d, a, b; rewrite ?field_rD, ?field_rA, ?field_rB, ?field_N, ?field_L.

Lemma implements_alu op :
  implements s (partial (alu_handler op) s cont) (Some (Alu op d a b)).
Proof.
  apply implements_partial with (g := fun cpu =>
    write_result cpu d (alu_sem op (cpu_get_cy (s_cpu s)) (cpu_get_f cpu)
      (cpu_get_gpr (s_cpu s) a) (cpu_get_gpr (s_cpu s) b))); [|done].
  intros Hd. rewrite (alu_handler_ok (s_cpu s) cont cpu_ok cont_wf);
    regs; [done|exact Hd].
Qed.

Lemma alu_table :
  implements s (alu s cont) ((fun op => Alu op d a b) <$> decode_alu (alu_key w)).
Proof.
  unfold alu, decode_alu. unfold cont. rewrite alu_op_key by done. fold cont.
  table (fun m oop => implements s m ((fun op => Alu op d a b) <$> oop))
    using (idtac; match goal with |- context [@Some alu_op ?op] => exact (implements_alu op) end).
Qed.

Lemma implements_shift op :
  implements s (partial (shift_handler op) s cont) (Some (Shift op d a (field w 0 5))).
Proof.
  apply implements_partial with (g := fun cpu =>
    write_result cpu d (shift_sem op (cpu_get_gpr (s_cpu s) a) (field w 0 5))); [|done].
  intros Hd. rewrite (shift_handler_ok (s_cpu s) cont cpu_ok cont_wf); regs; [done|].
  intros ->. cbn [instr_defined] in Hd. by destruct (Z.eqb_spec (field w 0 5) 0).
Qed.

Lemma shift_table :
  implements s (ro_shift_i s cont)
    ((fun op => Shift op d a (field w 0 5)) <$> decode_shift (field w 6 2)).
Proof.
  unfold ro_shift_i, decode_shift. unfold cont. rewrite field_ro_shift. fold cont.
  table (fun m oop => implements s m ((fun op => Shift op d a (field w 0 5)) <$> oop))
    using (idtac; match goal with |- context [@Some shift_op ?op] => exact (implements_shift op) end).
Qed.

Lemma implements_sf c : implements s (total (sf_handler c) s cont) (Some (Sf c a b)).
Proof.
  apply implements_total with (g := fun cpu =>
    cpu_set_f cpu (b2z (cond_sem c (cpu_get_gpr (s_cpu s) a) (cpu_get_gpr (s_cpu s) b)))); [|done].
  rewrite sf_handler_ok. by regs.
Qed.

Lemma sf_table :
  implements s (sf s cont) ((fun c => Sf c a b) <$> decode_cond d).
Proof.
  unfold sf, decode_cond. unfold cont. rewrite field_sf_op. fold cont. fold d.
  generalize d as key. intros key. cbn [switch].
  (* the two tables list the conditions in different orders *)
  repeat match goal with
    | |- implements _ (if key =? ?k then _ else _) _ =>
        destruct (Z.eqb_spec key k) as [->|];
        [match goal with |- implements _ ?m ?oi =>
           let o := eval cbv in (decode_cond k) in
           match o with Some ?c => exact (implements_sf c) end end|]
    end.
  repeat match goal with
    | |- context [key =? ?k] => destruct (Z.eqb_spec key k); [exfalso; subst; by auto|]
    end.
  apply implements_unimpl.
Qed.

Lemma implements_sfi c :
  implements s (total (sfi_handler c) s cont) (Some (Sfi c a (c_I cont))).
Proof.
  apply implements_total with (g := fun cpu =>
    cpu_set_f cpu (b2z (cond_sem c (cpu_get_gpr (s_cpu s) a) (simm (c_I cont))))); [|done].
  rewrite (sfi_handler_ok (s_cpu s) cont cpu_ok cont_wf). by regs.
Qed.

Lemma sfi_table :
  implements s (sfi s cont) ((fun c => Sfi c a (c_I cont)) <$> decode_cond d).
Proof.
  unfold sfi, decode_cond. unfold cont at 1. rewrite field_sf_op. fold d.
  table (fun m oop => implements s m ((fun c => Sfi c a (c_I cont)) <$> oop))
    using (idtac; match goal with |- context [@Some cond ?c] =>
             exact (implements_sfi c) end).
Qed.

(** ** Memory *)

Lemma calc_ea_of : calc_ea (s_cpu s) cont = ea_of (s_cpu s) a (c_I cont).
Proof.
  unfold calc_ea, ea_of, add32. rewrite exts_swrap by apply cont_wf. regs.
  by rewrite wrap_add_l, Z.add_comm.
Qed.

Lemma memory_cases k ea :
  match data_translate s ea with
  | Some pa => (4 <=? pa) && ((pa <? 0x08000000) || bus_byte k) = true
  | None => True
  end ->
  data_translate s ea = None \/
  (exists pa, data_translate s ea = Some pa /\ 4 <= pa < 0x08000000) \/
  (exists pa, data_translate s ea = Some pa /\ 0x08000000 <= pa /\ bus_byte k = true).
Proof.
  destruct (data_translate s ea) as [pa|]; [|by left]. intros Hd. right.
  destruct (Z.leb_spec 4 pa), (Z.ltb_spec pa 0x08000000); cbn [andb orb] in Hd; try done.
  - left. by exists pa.
  - right. by exists pa.
Qed.

Lemma implements_load k : implements s (load k s cont) (Some (Load k d a (c_I cont))).
Proof.
  cbn [implements instr_defined effect]. unfold memory_defined, load_effect.
  rewrite <- calc_ea_of. set (ea := calc_ea (s_cpu s) cont).
  destruct (Z.eqb_spec (ea mod width k) 0) as [Hal|Hal]; cbn [negb]; intros Hd.
  2: { destruct (access_unaligned k s cont Hal) as [Hl _]. eexists. split; [exact Hl|done]. }
  destruct (memory_cases k ea) as [Ht|[(pa & Ht & Hp)|(pa & Ht & Hp & Hk)]].
  - by destruct (data_translate s ea).
  - rewrite Ht. destruct (access_miss k s cont Hal Ht) as [Hl _]. by eexists.
  - rewrite Ht. rewrite (load_hit k s cont pa) by done. regs. eexists. split; [done|].
    by destruct (Z.ltb_spec pa 0x08000000); [|lia].
  - rewrite Ht. destruct (byte_bus s cont pa Ht Hp) as (Hz & Hbs & _). fold cont in Hz, Hbs.
    destruct (Z.ltb_spec pa 0x08000000); [lia|].
    unfold cont, d in *. rewrite field_rD in Hz, Hbs.
    destruct k; try done; [rewrite Hz|rewrite Hbs]; (eexists; split; [done|]).
    + by destruct (host_lbz pa (s_host s)).
    + by destruct (host_lbs pa (s_host s)).
Qed.

Lemma implements_store k : k <> HalfS -> k <> ByteS ->
  implements s (store k s cont) (Some (Store k a b (c_I cont))).
Proof.
  intros Hh Hb.
  cbn [implements instr_defined effect]. unfold memory_defined, store_effect.
  rewrite <- calc_ea_of. set (ea := calc_ea (s_cpu s) cont).
  destruct (Z.eqb_spec (ea mod width k) 0) as [Hal|Hal]; cbn [negb]; intros Hd.
  2: { destruct (access_unaligned k s cont Hal) as [_ Hl]. eexists. split; [exact Hl|done]. }
  destruct (memory_cases k ea) as [Ht|[(pa & Ht & Hp)|(pa & Ht & Hp & Hk)]].
  - by destruct (data_translate s ea).
  - rewrite Ht. destruct (access_miss k s cont Hal Ht) as [_ Hl]. by eexists.
  - rewrite Ht. destruct (store_hit k s cont pa cpu_ok Hal Ht Hp) as (h' & -> & Hst).
    unfold cont in Hst. rewrite field_rB in Hst.
    eexists. split; [done|]. by destruct (Z.ltb_spec pa 0x08000000); [|lia].
  - rewrite Ht. destruct (byte_bus s cont pa Ht Hp) as (_ & _ & Hst).
    destruct (Z.ltb_spec pa 0x08000000); [lia|].
    unfold cont in *. rewrite field_rB in Hst.
    destruct k; try done. rewrite Hst. eexists. by split.
Qed.

(** ** The other instructions *)

Lemma implements_imm op : c_K cont = c_I cont ->
  implements s (total (imm_handler op) s cont) (Some (Imm op d a (c_I cont))).
Proof.
  intros HK. apply implements_total with (g := fun cpu =>
    write_result cpu d (imm_sem op (cpu_get_cy (s_cpu s)) (cpu_get_gpr (s_cpu s) a) (c_I cont)));
    [|done].
  rewrite (imm_handler_ok (s_cpu s) cont cpu_ok cont_wf) by done. by regs.
Qed.

Lemma implements_jump op :
  implements s (branch (jump_handler op) s cont) (Some (Jump op (field w 0 26))).
Proof.
  apply implements_branch with (g := jump_sem op (field w 0 26)); [|done].
  rewrite (jump_handler_ok (s_cpu s) cont cont_wf). by regs.
Qed.

Lemma implements_jr link :
  implements s (branch (if link : bool then Insn.jalr else Insn.jr) s cont) (Some (Jr link b)).
Proof.
  apply implements_branch with (g := jump_reg_sem link b); [|done].
  rewrite jump_reg_ok. by regs.
Qed.

Lemma implements_nop k : implements s (total or32_nop s cont) (Some (Nop k)).
Proof. intros _. eexists. split; [done|]. by destruct s. Qed.

Lemma implements_macrc_movhi : c_K cont = field w 0 16 ->
  implements s (total Insn.macrc_movhi s cont)
    (Some (if field w 0 17 =? 0x10000 then Macrc d else Movhi d (field w 0 16))).
Proof.
  intros HK _. unfold total, Insn.macrc_movhi.
  change (c_inst cont) with w. change 0x1ffff with (2 ^ 17 - 1). rewrite land_field by lia.
  eexists. split; [done|]. destruct (_ =? 0x10000); cbn [effect]; unfold on_cpu; f_equal.
  - unfold Insn.macrc. regs. cbv zeta.
    rewrite (cpu_get_mac_value (s_cpu s) cpu_ok), cpu_set_mac_write.
    change 0xffffffff with (2 ^ 32 - 1). by rewrite land_mask, wrap_wrap by lia.
  - unfold Insn.movhi. rewrite HK, shl_value by lia. regs. f_equal.
    apply wrap_small. assert (is_word 16 (field w 0 16)) as [] by (apply Z.mod_pos_bound; lia).
    split; lia.
Qed.

Lemma mac_product x i : is_u32 x -> is_i32 i -> calc_mul (i32 x) i = i32 x * i.
Proof. intros. apply calc_mul_mul; [apply swrap_range; lia|done]. Qed.

Lemma implements_maci : implements s (partial Insn.maci s cont) (Some (Maci a (c_I cont))).
Proof.
  apply implements_partial with (g := fun cpu =>
    mac_write cpu (mac_value cpu + i32 (cpu_get_gpr (s_cpu s) a) * swrap 16 (c_I cont))); [|done].
  cbn [instr_defined]. intros Hd. unfold Insn.maci. cbv zeta. regs. unfold cont, a in Hd.
  assert (Hi : sign_extend (c_I (decode w)) 15 = swrap 16 (c_I (decode w)))
    by (apply (sign_extend_swrap _ 15); [lia|apply cont_wf]).
  rewrite Hi, mac_product.
  - rewrite (cpu_get_mac_value (s_cpu s) cpu_ok). unfold signed_c. rewrite Hd, bind_Ok.
    by rewrite cpu_set_mac_write.
  - pose proof cpu_ok. wf.
  - pose proof (swrap_range 16 (c_I (decode w)) ltac:(lia)) as Hr.
    unfold is_sword in *. change (2 ^ (16 - 1)) with 32768 in Hr.
    change (2 ^ (32 - 1)) with 2147483648. lia.
Qed.

Lemma implements_mac sub :
  implements s (partial (if sub : bool then Insn.msb else Insn.mac) s cont) (Some (Mac sub a b)).
Proof.
  pose proof cpu_ok as Hwf.
  apply implements_partial with (g := fun cpu =>
    mac_write cpu (if sub then mac_value cpu - i32 (cpu_get_gpr (s_cpu s) a) * i32 (cpu_get_gpr (s_cpu s) b)
      else mac_value cpu + i32 (cpu_get_gpr (s_cpu s) a) * i32 (cpu_get_gpr (s_cpu s) b))); [|done].
  cbn [instr_defined]. intros Hd. unfold a, b in Hd.
  destruct sub; [unfold Insn.msb|unfold Insn.mac]; cbv zeta; regs;
    rewrite mac_product by (wf || (apply swrap_range; lia));
    rewrite (cpu_get_mac_value (s_cpu s) cpu_ok); unfold signed_c;
    by rewrite Hd, bind_Ok, cpu_set_mac_write.
Qed.

Lemma mac_table :
  implements s (mac_msb s cont)
    (switch (field w 0 4)
       [ (0x2, Some (Mac true a b)); (0x1, Some (Mac false a b)) ] None).
Proof.
  unfold mac_msb. change (c_inst cont) with w. change 0xf with (2 ^ 4 - 1).
  rewrite land_field by lia. cbn [switch].
  destruct (_ =? 2); [exact (implements_mac true)|].
  destruct (_ =? 1); [exact (implements_mac false)|apply implements_unimpl].
Qed.

Lemma implements_mtspr : implements s (or32_mtspr s cont) (Some (Mtspr a b (c_K cont))).
Proof.
  cbn [implements instr_defined effect]. unfold or32_mtspr. regs.
  destruct (cpu_set_spr _ _ _) as [s'| | |]; intros Hd; try done. by exists s'.
Qed.

Lemma implements_mfspr : implements s (or32_mfspr s cont) (Some (Mfspr d a (c_K cont))).
Proof.
  cbn [implements instr_defined effect]. unfold or32_mfspr. regs.
  destruct (cpu_get_spr _ _) as [v| | |]; intros Hd; try done.
  eexists. split; [done|]. by exists v.
Qed.

Lemma sys_table k :
  implements s (sys_trap_sync (BAIL s) cont)
    (switch (field w 16 16) [ (0x2000, Some (Sys k)); (0x2100, Some (Trap k)) ] None).
Proof.
  unfold sys_trap_sync, BAIL. change (c_inst cont) with w.
  assert (Hk : w .& 0xffff0000 = field w 16 16 * 2 ^ 16).
  { unfold field. rewrite <- Z.shiftl_mul_pow2, <- Z.shiftr_div_pow2 by lia.
    fold (wrap 16 (w >> 16)). change 0xffff0000 with (Z.shiftl (2 ^ 16 - 1) 16). zbits.
    destruct (Z.le_gt_cases 16 i).
    - rewrite testbit_mask, testbit_wrap, Z.shiftr_spec by lia.
      replace (i - 16 + 16) with i by lia. apply andb_comm.
    - rewrite !(Z.testbit_neg_r _ (i - 16)) by lia. apply andb_false_r. }
  rewrite Hk. generalize (field w 16 16) as key. intros key. cbn [switch].
  destruct (Z.eqb_spec (key * 2 ^ 16) 0x20000000), (Z.eqb_spec key 0x2000); try lia.
  { intros _. by eexists. }
  destruct (Z.eqb_spec (key * 2 ^ 16) 0x21000000), (Z.eqb_spec key 0x2100); try lia.
  { intros _. by eexists. }
  apply implements_unimpl.
Qed.

Lemma implements_rfe : implements s (total (fun cpu _ => rfe cpu) s cont) (Some Rfe).
Proof. intros _. by eexists. Qed.

End Groups.

Section Execute.
Context `{HB : Build} {H : Type} `{HL : HostLaws H}.

(** [execute] after the dispatch. *)
Definition dispatched (s s1 : sim H) : sim H := with_cpu s1 (cpu_advance_pc (s_cpu s1)).

(** In a row the opcode is known: the operands [I] and [K] are the fields the
    manual gives the instruction. *)
Ltac closed_if E :=
  match type of E with
  | _ = (if ?c then _ else _) =>
      let v := eval vm_compute in c in change c with v in E; cbv iota in E
  end.
Ltac operands w HI HK Hkey :=
  pose proof (decode_I w) as HI; pose proof (decode_K w) as HK;
  rewrite Hkey in HI, HK; closed_if HI; closed_if HK.

(** The rule for the instruction of a row. *)
Ltac instruction w s Hw Hs HI HK :=
  match goal with
  | |- implements _ _ (Some (Jump ?op _)) => exact (implements_jump w s Hw Hs op)
  | |- implements _ _ (Some (Jr ?link _)) => exact (implements_jr w s Hw Hs link)
  | |- implements _ _ (Some (Nop ?k)) => exact (implements_nop w s Hw Hs k)
  | |- implements _ _ (Some (Load ?k _ _ _)) => rewrite <- HI; exact (implements_load w s Hw Hs k)
  | |- implements _ _ (Some (Store ?k _ _ _)) =>
      rewrite <- HI; exact (implements_store w s Hw Hs k ltac:(done) ltac:(done))
  | |- implements _ _ (Some (Imm ?op _ _ _)) =>
      rewrite <- HI; generalize (implements_imm w s Hw Hs op (eq_trans HK (eq_sym HI)));
      cbn [imm_handler]; exact (fun x => x)
  | |- implements _ _ (Some (Maci _ _)) => rewrite <- HI; exact (implements_maci w s Hw Hs)
  | |- implements _ _ (Some (if _ then Macrc _ else _)) =>
      exact (implements_macrc_movhi w s Hw Hs HK)
  | |- implements _ _ (Some (Mtspr _ _ _)) => rewrite <- HK; exact (implements_mtspr w s Hw Hs)
  | |- implements _ _ (Some (Mfspr _ _ _)) => rewrite <- HK; exact (implements_mfspr w s Hw Hs)
  | |- implements _ _ (Some Rfe) => exact (implements_rfe w s Hw Hs)
  | |- implements _ (alu _ _) _ => exact (alu_table w s Hw Hs)
  | |- implements _ (mac_msb _ _) _ => exact (mac_table w s Hw Hs)
  | |- implements _ (sfi _ _) _ => rewrite <- HI; exact (sfi_table w s Hw Hs)
  | |- implements _ (sf _ _) _ => exact (sf_table w s Hw Hs)
  | |- implements _ (ro_shift_i _ _) _ => exact (shift_table w s Hw Hs)
  | |- implements _ (sys_trap_sync _ _) _ => apply (sys_table w s Hw Hs)
  end.

Lemma execute_implements w (s : sim H) : is_u32 w -> sim_wf s ->
  exists m, execute (OPCODE w) s (decode w) =
    (s1 ← m; Ok (with_cpu s1 (cpu_advance_pc (s_cpu s1)))) /\
    implements s m (isa_decode w).
Proof.
  intros Hw Hs. unfold execute. eexists. split; [reflexivity|].
  rewrite opcode_field. unfold isa_decode. cbv zeta.
  apply (switch_related (implements s)); [|apply implements_unimpl].
  repeat (apply List.Forall2_cons; [split; [reflexivity|intros Hkey; cbn [fst snd] in *]|]).
  34: apply List.Forall2_nil.
  all: operands w HI HK Hkey.
  all: instruction w s Hw Hs HI HK.
Qed.

End Execute.

(** ** Fetching *)

Section Fetch.
Context `{HB : Build} {H : Type} `{HL : HostLaws H}.

(** The instruction address as the TLB of the host translates it. *)
Definition inst_translate (s : sim H) (va : Z) : option Z :=
  translate (cpu_get_ime (s_cpu s)) SPR_ITLBMR_BASE SPR_ITLBTR_BASE va (s_host s).

(** The word [w] is the next instruction: the page of the PC is mapped to RAM
    other than its first word. *)
Definition next_word (s : sim H) (w : Z) : Prop :=
  exists pa, inst_translate s (pc (s_cpu s)) = Some pa /\ Ram pa /\ pa <> 0 /\
    w = (host_load32 pa (s_host s)).1.

Lemma fetch_hit (s : sim H) w : sim_wf s -> next_word s w -> fetch s = (w, s).
Proof.
  intros Hs (pa & Ht & Hr & Hnz & ->). unfold fetch, guestLoadI, guestLoad.
  rewrite virtualToPhysicalI_translate by (apply wf_pc, Hs).
  unfold inst_translate in Ht. unfold cpu_get_pc. rewrite Ht. cbn [default from_option id].
  pose proof (load32_pure pa (s_host s) Hr) as Hp. destruct Hr as [Hb Hm].
  assert (H2 : (2 <? pa) = true).
  { apply Z.ltb_lt. destruct (Z.lt_ge_cases 2 pa); [done|].
    exfalso. assert (pa = 1 \/ pa = 2) as [-> | ->] by lia; done. }
  change (default 1 (Some pa)) with pa. rewrite H2.
  destruct (host_load32 pa (s_host s)) as [x h]. cbn [fst snd] in *. subst h. by destruct s.
Qed.

Lemma fetch_miss (s : sim H) : sim_wf s -> inst_translate s (pc (s_cpu s)) = None ->
  fetch s = (no_inst, with_cpu s (instructionTLBMiss (s_cpu s) (pc (s_cpu s)))).
Proof.
  intros Hs Ht. unfold fetch, guestLoadI.
  rewrite virtualToPhysicalI_translate by (apply wf_pc, Hs).
  unfold inst_translate in Ht. unfold cpu_get_pc. by rewrite Ht.
Qed.

Lemma cpu_exec_inst_fetched (s : sim H) w : sim_wf s -> next_word s w -> w <> no_inst ->
  cpu_exec_inst s = execute (OPCODE w) s (decode w).
Proof.
  intros Hs Hw Hne. unfold cpu_exec_inst. rewrite (fetch_hit s w) by done.
  by destruct (Z.eqb_spec w 0xdeadbeef).
Qed.

Lemma next_word_word (s : sim H) w : next_word s w -> is_u32 w.
Proof. intros (pa & _ & _ & _ & ->). apply load32_word. Qed.

End Fetch.
