(* ===== verification/Recover.v ===== *)
(** The recovery handler: src/system/software/sim_module/runSim.c.

    The handler of an assertion violation simulates the instructions around the
    one the hardware squashed.  [runSim] finds where to resume, repairs the
    exception registers when the violation was on exception entry, and
    simulates two instructions, and more as long as it is in the delay slot of
    a branch.  The global variable [cpu] is the processor of the state.

    The loop of [runSim] is bounded by [fuel]; [None] is a loop that needs more.
    The theorems say when it ends and that the result does not depend on the
    fuel. *)

From S2P Require Import Prelude Spr Host Cpu Arith Decode Exceptions Mmu Instr Memory Exec.
From S2P Require Import Isa Handlers Refine.

Open Scope Z_scope.
Open Scope cword_scope.

Section Recover.
Context `{HB : Build} {H : Type} `{HH : Host H}.

Definition getAssertionReg (h : H) : Z := host_mfspr ASSERTION_REG h.
Definition getEPPCReg (h : H) : Z := host_mfspr EPPC_REG h.
Definition getEPCRReg (h : H) : Z := host_mfspr SPR_EPCR_BASE h.

(** [cpu->pc = address; cpu->npc = address + 4;] *)
Definition set_pc_npc (s : sim H) (address : Z) : sim H :=
  with_cpu s (cpu_set_npc (cpu_set_pc (s_cpu s) address) (address +! 4)).

Definition recalc_ea (s : sim H) (address : Z) : Z * sim H :=
  let backup_pc := pc (s_cpu s) in
  let s := set_pc_npc s address in
  let '(insn, s) := fetch s in
  let cont := decode insn in
  let ea := calc_ea (s_cpu s) cont in
  (ea, set_pc_npc s backup_pc).

Definition calc_jump_target (s : sim H) (address : Z) : Z * sim H :=
  let backup_pc := pc (s_cpu s) in
  let s := set_pc_npc s address in
  let '(insn, s) := fetch s in
  let cont := decode insn in
  let cpu := s_cpu s in
  let relative := Insn.branch_target cpu cont in
  let register := cpu_get_gpr cpu (c_rB cont) in
  let target := switch (c_opcode cont)
    [ (OP_RFE, cpu_get_epcr cpu);
      (OP_J, relative); (OP_JAL, relative); (OP_BF, relative); (OP_BNF, relative);
      (OP_JALR, register); (OP_JR, register);
      (OP_SYS_TRAP_SYNC, 0xC00) ] 0 in
  (target, set_pc_npc s backup_pc).

(** [((cpu_get_pc(&cpu) & 0xFFFFFF00) == 0xA00) ? a : recalc_ea(&cpu, b)] *)
Definition eear_for (s : sim H) (a b : Z) : Z * sim H :=
  if cpu_get_pc (s_cpu s) .& 0xFFFFFF00 =? 0xA00 then (a, s) else recalc_ea s b.

(** The repair of EPCR and EEAR when the violation concerns exception entry. *)
Definition fix_exception (s : sim H) (violated : Z) : sim H :=
  let eppc := getEPPCReg (s_host s) in
  let '(epcr, eear, s) :=
    if cpu_get_dsx (s_cpu s) then
      let epcr := eppc in
      let '(eear, s) := eear_for s (epcr +! 4) (epcr +! 4) in (epcr, eear, s)
    else if violated .& 0x80000 =? 0 then
      let epcr := eppc +! 4 in
      let '(eear, s) := eear_for s epcr epcr in (epcr, eear, s)
    else
      let '(target_addr, s) := calc_jump_target s (eppc -! 4) in
      let '(target_addr, s) :=
        if target_addr =? 0 then calc_jump_target s eppc else (target_addr, s) in
      let epcr := target_addr in
      let '(eear, s) := eear_for s target_addr target_addr in (epcr, eear, s) in
  with_cpu s (cpu_set_eear (cpu_set_epcr (s_cpu s) epcr) eear).

(** The address of the squashed instruction. *)
Definition resume_pc (h : H) : Z :=
  let pc := getEPPCReg h in
  let epcr_t := getEPCRReg h in
  if (4 <? epcr_t -! pc) || (4 <? pc -! epcr_t) then pc -! 4 else pc.

(** The instruction is printed in a build with [debug_print], which loads it. *)
Definition debug_load (s : sim H) : sim H :=
  if STANDALONE then s
  else
    let cpu := s_cpu s in
    let '(_, _, h) := guestLoadI cpu (cpu_get_pc cpu) None (s_host s) in Sim cpu h.

(** [do cpu_exec_inst(&cpu); while(is_in_delay_slot(&cpu));] *)
Fixpoint exec_loop (fuel : nat) (s : sim H) : option (outcome (sim H)) :=
  match fuel with
  | O => None
  | S fuel =>
      match cpu_exec_inst (debug_load s) with
      | Ok s => if is_in_delay_slot (s_cpu s) then exec_loop fuel s else Some (Ok s)
      | Hang => Some Hang
      | AssertFail => Some AssertFail
      | Undef => Some Undef
      end
  end.

(** The state in which the simulation starts, or the one in which [runSim]
    returns at once. *)
Definition prepare (s : sim H) : sim H + sim H :=
  let violated := getAssertionReg (s_host s) in
  let protection := truth (violated .& 0x308) in
  let s :=
    if protection then
      let insn := cpu_get_sr (s_cpu s) in
      with_cpu s (cpu_set_sr (s_cpu s) (insn .& 0xFFFFFFFE))
    else s in
  if protection && (violated .& 0x8 =? 0) then inr s else
  if truth (violated .& 0x8000) then
    let cpu := cpu_set_sr (s_cpu s) (cpu_get_esr (s_cpu s)) in
    inr (with_cpu s (cpu_set_pc cpu (cpu_get_epcr cpu)))
  else
  let pc := resume_pc (s_host s) in
  let s := set_pc_npc s pc in
  inl (if truth (violated .& 0x8) then fix_exception s violated else s).

Definition runSim (fuel : nat) (s : sim H) : option (outcome (sim H)) :=
  match prepare s with
  | inr s => Some (Ok s)
  | inl s =>
      match cpu_exec_inst (debug_load s) with
      | Ok s => exec_loop fuel s
      | Hang => Some Hang
      | AssertFail => Some AssertFail
      | Undef => Some Undef
      end
  end.

End Recover.

(** ** Results and termination *)

Section Loop.
Context `{HB : Build} {H : Type} `{HH : Host H}.

Lemma debug_load_cpu (s : sim H) : s_cpu (debug_load s) = s_cpu s.
Proof.
  unfold debug_load. destruct STANDALONE; [done|].
  by destruct (guestLoadI _ _ _ _) as [[??]?].
Qed.

(** More fuel does not change the result. *)
Lemma exec_loop_mono n m (s : sim H) r :
  (n <= m)%nat -> exec_loop n s = Some r -> exec_loop m s = Some r.
Proof.
  revert m s. induction n as [|n IH]; intros [|m] s Hle; cbn [exec_loop]; try done; [lia|].
  destruct (cpu_exec_inst (debug_load s)) as [s'| | |]; try done.
  destruct (is_in_delay_slot (s_cpu s')); [|done]. apply IH. lia.
Qed.

(** The loop ends on an instruction that is not in a delay slot. *)
Lemma exec_loop_no_delay_slot n (s s' : sim H) :
  exec_loop n s = Some (Ok s') -> is_in_delay_slot (s_cpu s') = false.
Proof.
  revert s. induction n as [|n IH]; intros s; cbn [exec_loop]; [done|].
  destruct (cpu_exec_inst (debug_load s)) as [s1| | |]; try done.
  destruct (is_in_delay_slot (s_cpu s1)) eqn:E; [apply IH|]. by intros [= <-].
Qed.

(** Among the next [n] instructions there is one that is no jump, or one that
    does not return. *)
Fixpoint plain_within (n : nat) (s : sim H) : bool :=
  match n with
  | O => false
  | S n =>
      negb (is_jump (OPCODE (fetch (debug_load s)).1)) ||
      match cpu_exec_inst (debug_load s) with
      | Ok s => plain_within n s
      | _ => true
      end
  end.

Lemma exec_loop_returns n (s : sim H) :
  settled (s_cpu s) -> plain_within n s = true -> exists r, exec_loop n s = Some r.
Proof.
  revert s. induction n as [|n IH]; intros s Hset; cbn [plain_within exec_loop]; [done|].
  intros Hp. rewrite <- (debug_load_cpu s) in Hset.
  pose proof (cpu_exec_inst_plain (debug_load s) Hset) as Hplain.
  pose proof (cpu_exec_inst_settled (debug_load s)) as Hs'.
  destruct (cpu_exec_inst (debug_load s)) as [s'| | |]; try by eexists.
  cbn [returns] in *. destruct (is_jump _); cbn [negb orb] in Hp.
  - destruct (is_in_delay_slot (s_cpu s')); [by apply IH|by eexists].
  - rewrite Hplain by done. by eexists.
Qed.

(** [r] is what [2 + k] instructions give, the first of them apart each left
    the next one in a delay slot, the last one does not. *)
Definition stops_after (k : nat) (s : sim H) (r : outcome (sim H)) : Prop :=
  run (2 + k) s = r /\
  (forall s', r = Ok s' -> is_in_delay_slot (s_cpu s') = false) /\
  (forall j sj, (j < k)%nat -> run (2 + j) s = Ok sj -> is_in_delay_slot (s_cpu sj) = true).

Lemma run_S k (s : sim H) : run (S k) s = (s1 ← cpu_exec_inst s; run k s1).
Proof. done. Qed.

(** A loop that ends has run some number of instructions, and was in a delay slot
    after each of them but the last. *)
Lemma exec_loop_run n (s : sim H) r :
  STANDALONE = true -> exec_loop n s = Some r ->
  exists k, run (S k) s = r /\
    (forall s', r = Ok s' -> is_in_delay_slot (s_cpu s') = false) /\
    forall j sj, (j < k)%nat -> run (S j) s = Ok sj -> is_in_delay_slot (s_cpu sj) = true.
Proof.
  intros Hb. revert s. induction n as [|n IH]; intros s; cbn [exec_loop]; [done|].
  unfold debug_load. rewrite Hb. destruct (cpu_exec_inst s) as [s1| | |] eqn:E.
  2-4: intros [= <-]; exists 0%nat; cbn [run]; rewrite E; (split; [done|]; split; [done|lia]).
  destruct (is_in_delay_slot (s_cpu s1)) eqn:Ed.
  - intros Hl. destruct (IH s1 Hl) as (k & Hk & Hd & Hj). exists (S k).
    rewrite run_S, E. split; [done|]. split; [done|].
    intros [|j] sj Hlt; rewrite run_S, E, bind_Ok.
    + by intros [= <-].
    + apply Hj. lia.
  - intros [= <-]. exists 0%nat. cbn [run]. rewrite E. split; [done|]. split; [|lia].
    by intros s' [= <-].
Qed.

(** and where the instructions lead there, the loop ends there. *)
Lemma exec_loop_ends k n (s : sim H) r :
  STANDALONE = true -> run (S k) s = r ->
  (forall s', r = Ok s' -> is_in_delay_slot (s_cpu s') = false) ->
  (forall j sj, (j < k)%nat -> run (S j) s = Ok sj -> is_in_delay_slot (s_cpu sj) = true) ->
  (k < n)%nat -> exec_loop n s = Some r.
Proof.
  intros Hb. revert n s. induction k as [|k IH]; intros [|n] s Hr Hd Hj Hlt; try lia;
    cbn [exec_loop]; unfold debug_load; rewrite Hb; rewrite run_S in Hr;
    destruct (cpu_exec_inst s) as [s1| | |] eqn:E; cbn [mbind outcome_bind] in Hr;
    try (by subst r).
  - cbn [run] in Hr. by rewrite (Hd s1 (eq_sym Hr)), <- Hr.
  - assert (E1 : is_in_delay_slot (s_cpu s1) = true).
    { apply (Hj 0%nat s1); [lia|]. by rewrite run_S, E. }
    rewrite E1. apply IH; [done|done| |lia]. intros j sj Hlt' Hr'. apply (Hj (S j)); [lia|].
    by rewrite run_S, E.
Qed.

Lemma runSim_mono n m (s : sim H) r :
  (n <= m)%nat -> runSim n s = Some r -> runSim m s = Some r.
Proof.
  intros Hle. unfold runSim. destruct (prepare s) as [s1|s1]; [|done].
  destruct (cpu_exec_inst (debug_load s1)) as [s2| | |]; try done. by apply exec_loop_mono.
Qed.

(** [pc] moves back whenever EPPC and EPCR differ. *)
Lemma resume_pc_spec (h : H) :
  is_u32 (getEPPCReg h) -> is_u32 (getEPCRReg h) ->
  resume_pc h = if getEPPCReg h =? getEPCRReg h then getEPPCReg h else getEPPCReg h -! 4.
Proof.
  intros Hp He. unfold resume_pc. set (p := getEPPCReg h) in *. set (e := getEPCRReg h) in *.
  unfold sub32, wrap, is_word in *.
  pose proof (Z.div_mod (e - p) (2 ^ 32) ltac:(lia)).
  pose proof (Z.mod_pos_bound (e - p) (2 ^ 32) ltac:(lia)).
  pose proof (Z.div_mod (p - e) (2 ^ 32) ltac:(lia)).
  pose proof (Z.mod_pos_bound (p - e) (2 ^ 32) ltac:(lia)).
  destruct (Z.eqb_spec p e) as [->|]; [by rewrite Z.sub_diag|].
  destruct (Z.ltb_spec 4 ((e - p) mod 2 ^ 32)), (Z.ltb_spec 4 ((p - e) mod 2 ^ 32));
    cbn [orb]; (done || lia).
Qed.

End Loop.

Section PrepareWf.
Context `{HB : Build} {H : Type} `{HL : HostLaws H}.

Lemma set_pc_npc_wf (s : sim H) a : sim_wf s -> is_u32 a -> sim_wf (set_pc_npc s a).
Proof. unfold sim_wf. intros. simpl. wf. Qed.

Lemma recalc_ea_wf (s : sim H) a : sim_wf s -> is_u32 a ->
  is_u32 (recalc_ea s a).1 /\ sim_wf (recalc_ea s a).2.
Proof.
  intros Hs Ha. unfold recalc_ea. destruct (fetch_wf _ (set_pc_npc_wf s a Hs Ha)) as [_ Hf].
  destruct (fetch (set_pc_npc s a)) as [insn s1]. cbn [fst snd] in *. split; [wf|].
  apply set_pc_npc_wf; [done|]. apply Hs.
Qed.

Lemma calc_jump_target_wf (s : sim H) a : sim_wf s -> is_u32 a ->
  is_u32 (calc_jump_target s a).1 /\ sim_wf (calc_jump_target s a).2.
Proof.
  intros Hs Ha. unfold calc_jump_target.
  destruct (fetch_wf _ (set_pc_npc_wf s a Hs Ha)) as [_ Hf].
  destruct (fetch (set_pc_npc s a)) as [insn s1]. cbn [fst snd] in *. cbv zeta.
  unfold sim_wf in Hf.
  split; [|apply set_pc_npc_wf; [done|apply Hs]].
  apply switch_ind; [repeat (apply List.Forall_cons; [cbn [snd]; wf|]); apply Forall_nil_2|].
  by vm_compute.
Qed.

Lemma eear_for_wf (s : sim H) a b : sim_wf s -> is_u32 a -> is_u32 b ->
  is_u32 (eear_for s a b).1 /\ sim_wf (eear_for s a b).2.
Proof. intros. unfold eear_for. destruct (_ =? _); [done|]. by apply recalc_ea_wf. Qed.

Lemma fix_exception_wf (s : sim H) v : sim_wf s -> sim_wf (fix_exception s v).
Proof.
  intros Hs. unfold fix_exception. set (eppc := getEPPCReg _).
  assert (Hp : is_u32 eppc) by apply mfspr_word.
  assert (Hfin : forall e (s1 : sim H) x, is_u32 e -> is_u32 x -> sim_wf s1 ->
    sim_wf (with_cpu s1 (cpu_set_eear (cpu_set_epcr (s_cpu s1) e) x))).
  { unfold sim_wf. intros. simpl. wf. }
  destruct (cpu_get_dsx _); [|destruct (_ =? 0)].
  - destruct (eear_for_wf s (eppc +! 4) (eppc +! 4) Hs) as [??]; [wf|wf|].
    destruct (eear_for _ _ _). by apply Hfin.
  - destruct (eear_for_wf s (eppc +! 4) (eppc +! 4) Hs) as [??]; [wf|wf|].
    destruct (eear_for _ _ _). apply Hfin; [wf|done|done].
  - destruct (calc_jump_target_wf s (eppc -! 4) Hs ltac:(wf)) as [Ht Hs1].
    destruct (calc_jump_target s (eppc -! 4)) as [t s1]. cbn [fst snd] in *.
    assert (Hc : is_u32 (if t =? 0 then calc_jump_target s1 eppc else (t, s1)).1 /\
                 sim_wf (if t =? 0 then calc_jump_target s1 eppc else (t, s1)).2)
      by (destruct (t =? 0); [by apply calc_jump_target_wf|done]).
    destruct (if t =? 0 then _ else _) as [t2 s2]. cbn [fst snd] in *. destruct Hc as [Ht2 Hs2].
    destruct (eear_for_wf s2 t2 t2 Hs2 Ht2 Ht2) as [??].
    destruct (eear_for _ _ _). by apply Hfin.
Qed.

Lemma resume_pc_word (h : H) : is_u32 (resume_pc h).
Proof. unfold resume_pc. destruct (_ || _); [wf|apply mfspr_word]. Qed.

Definition prepared_wf (r : sim H + sim H) : Prop :=
  match r with inl s | inr s => sim_wf s end.

Lemma prepare_wf (s : sim H) : sim_wf s -> prepared_wf (prepare s).
Proof.
  intros Hs. unfold prepare. set (v := getAssertionReg _).
  set (s1 := if truth _ then _ else s).
  assert (Hs1 : sim_wf s1).
  { unfold s1, sim_wf in *. destruct (truth _); [|done]. simpl. wf. }
  clearbody s1. unfold sim_wf in *. destruct (_ && _); [done|].
  destruct (truth (v .& 0x8000)); [simpl; wf|]. cbn [prepared_wf].
  assert (Hp : sim_wf (set_pc_npc s1 (resume_pc (s_host s1))))
    by (apply set_pc_npc_wf; [done|apply resume_pc_word]).
  destruct (truth _); [by apply fix_exception_wf|done].
Qed.

Lemma debug_load_wf (s : sim H) : sim_wf s -> sim_wf (debug_load s).
Proof. unfold sim_wf. by rewrite debug_load_cpu. Qed.

Lemma exec_loop_wf n (s : sim H) m : sim_wf s -> exec_loop n s = Some m -> returns sim_wf m.
Proof.
  revert s. induction n as [|n IH]; intros s Hs; cbn [exec_loop]; [done|].
  pose proof (cpu_exec_inst_wf (debug_load s) (debug_load_wf s Hs)) as Hi.
  destruct (cpu_exec_inst (debug_load s)) as [s1| | |]; try (by intros [= <-]).
  destruct (is_in_delay_slot (s_cpu s1)); [by apply IH|]. by intros [= <-].
Qed.

Lemma runSim_wf n (s : sim H) m : sim_wf s -> runSim n s = Some m -> returns sim_wf m.
Proof.
  intros Hs. unfold runSim. pose proof (prepare_wf s Hs) as Hp.
  destruct (prepare s) as [s1|s1]; cbn [prepared_wf] in Hp; [|by intros [= <-]].
  pose proof (cpu_exec_inst_wf (debug_load s1) (debug_load_wf s1 Hp)) as Hi.
  destruct (cpu_exec_inst (debug_load s1)) as [s2| | |]; try (by intros [= <-]).
  by apply exec_loop_wf.
Qed.

End PrepareWf.

(** ** The instructions the handler looks at *)

Section Reconstruct.
Context `{HB : Build} {H : Type} `{HL : HostLaws H}.

Lemma set_pc_npc_id (s : sim H) : npc (s_cpu s) = pc (s_cpu s) +! 4 ->
  set_pc_npc s (pc (s_cpu s)) = s.
Proof. intros E. unfold set_pc_npc. rewrite <- E. by destruct s as [[] ?]. Qed.

Lemma clear_low_bit v : is_u32 v -> v .& 0xFFFFFFFE = Z.clearbit v 0.
Proof.
  intros Hv. apply Z.bits_inj'. intros i Hi.
  rewrite Z.clearbit_eqb, Z.land_spec. change 0xFFFFFFFE with (Z.ldiff (2 ^ 32 - 1) 1).
  rewrite Z.ldiff_spec, testbit_mask by lia.
  destruct (Z.ltb_spec i 32).
  - change 1 with (2 ^ 0). rewrite Z.pow2_bits_eqb by lia. by rewrite andb_true_l.
  - by rewrite (testbit_word 32 v).
Qed.

(** The pages of the exception vectors. *)
Lemma page_of_vector cpu : is_u32 (pc cpu) ->
  (cpu_get_pc cpu .& 0xFFFFFF00 =? 0xA00) = (pc cpu / 2 ^ 8 =? 0xA).
Proof.
  intros Hp. unfold cpu_get_pc. set (v := pc cpu) in *.
  assert (v .& 0xFFFFFF00 = v / 2 ^ 8 * 2 ^ 8) as ->.
  { change 0xFFFFFF00 with (Z.ldiff (2 ^ 32 - 1) (2 ^ 8 - 1)).
    rewrite <- Z.shiftl_mul_pow2, <- Z.shiftr_div_pow2 by lia.
    apply Z.bits_inj'. intros i Hi. rewrite Z.land_spec, Z.ldiff_spec, !testbit_mask by lia.
    rewrite Z.shiftl_spec by lia. destruct (Z.ltb_spec i 8).
    - rewrite (Z.testbit_neg_r _ (i - 8)) by lia. rewrite andb_false_r. apply andb_false_r.
    - rewrite Z.shiftr_spec by lia. replace (i - 8 + 8) with i by lia. rewrite andb_true_r.
      destruct (Z.ltb_spec i 32); [apply andb_true_r|].
      by rewrite (testbit_word 32 v). }
  change 0xA00 with (0xA * 2 ^ 8).
  destruct (Z.eqb_spec (v / 2 ^ 8) 0xA), (Z.eqb_spec (v / 2 ^ 8 * 2 ^ 8) (0xA * 2 ^ 8)); lia.
Qed.

(** The word [w] is the instruction at [address]. *)
Definition word_at (s : sim H) (address w : Z) : Prop :=
  next_word (set_pc_npc s address) w.

Lemma refetch (s : sim H) address w : sim_wf s -> is_u32 address -> word_at s address w ->
  fetch (set_pc_npc s address) = (w, set_pc_npc s address).
Proof. intros Hs Ha Hw. apply fetch_hit; [by apply set_pc_npc_wf|done]. Qed.

Lemma recalc_ea_at (s : sim H) address w : sim_wf s -> is_u32 address ->
  word_at s address w ->
  recalc_ea s address = (calc_ea (s_cpu s) (decode w), set_pc_npc s (pc (s_cpu s))).
Proof. intros. unfold recalc_ea. by rewrite (refetch s address w). Qed.

(** The target of the jump [w] at [address], as the processor of [s] would
    compute it; 0 for a word that is no jump. *)
Definition jump_target (s : sim H) (address w : Z) : Z :=
  let relative := u32 (address + 4 * swrap 26 (field w 0 26)) in
  let register := cpu_get_gpr (s_cpu s) (field w 11 5) in
  switch (field w 26 6)
    [ (0x09, epcr (s_cpu s));
      (0x00, relative); (0x01, relative); (0x03, relative); (0x04, relative);
      (0x11, register); (0x12, register); (0x08, 0xC00) ] 0.

Lemma calc_jump_target_at (s : sim H) address w : sim_wf s -> is_u32 address ->
  word_at s address w ->
  calc_jump_target s address = (jump_target s address w, set_pc_npc s (pc (s_cpu s))).
Proof.
  intros Hs Ha Hw. unfold calc_jump_target. rewrite (refetch s address w) by done.
  assert (Hword : is_u32 w) by apply (next_word_word _ w Hw). cbv zeta.
  rewrite branch_target_ok, field_N, field_rB by (by apply decode_in_range).
  change (c_opcode (decode w)) with (OPCODE w). rewrite opcode_field.
  unfold jump_target, target. f_equal. cbn [s_cpu set_pc_npc with_cpu].
  unfold switch.
  change OP_RFE with 0x09. change OP_J with 0. change OP_JAL with 1. change OP_BF with 4.
  change OP_BNF with 3. change OP_JALR with 0x12. change OP_JR with 0x11.
  change OP_SYS_TRAP_SYNC with 8.
  generalize (field w 26 6) as k. intros k.
  repeat match goal with |- context [k =? ?x] => destruct (Z.eqb_spec k x) end; done || lia.
Qed.

End Reconstruct.
