(* ===== verification/TlbHandlers.v ===== *)
(** The TLB miss handlers of the test program loopMMU.c
    (src/system/software/sim_module/loopMMU.c), which map every page to itself.

    They are what a guest installs at the vectors 0x900 and 0xA00, and so what
    runs after the misses the simulator raises. *)

From S2P Require Import Prelude Spr Host Cpu Arith Mmu Memory.

Open Scope Z_scope.
Open Scope cword_scope.

Definition TLB_FLAGS_M : Z := 0x0001.
Definition TLB_FLAGS_T_D : Z := 0x03C0.
Definition TLB_FLAGS_T_I : Z := 0x00C0.

Section Handlers.
Context {H : Type} `{HH : Host H}.

(** [(ea & (-1 << 13))], the shift of -1 as compilers define it; the values written to
    the trace are left out. *)
Definition page_mask : Z := u32 (Z.shiftl (-1) 13).

Definition dtlb (h : H) : H :=
  let ea := host_mfspr SPR_EEAR_BASE h in
  let h := setDMMUMatchReg 0 ((ea >> 13) .& 63) ((ea .& page_mask) .| TLB_FLAGS_M) h in
  setDMMUTranslateReg 0 ((ea >> 13) .& 63) ((ea .& page_mask) .| TLB_FLAGS_T_D) h.

Definition itlb (h : H) : H :=
  let ea := host_mfspr SPR_EEAR_BASE h in
  let h := setIMMUMatchReg 0 ((ea >> 13) .& 63) ((ea .& page_mask) .| TLB_FLAGS_M) h in
  setIMMUTranslateReg 0 ((ea >> 13) .& 63) ((ea .& page_mask) .| TLB_FLAGS_T_I) h.

End Handlers.

Lemma page_flags ea f : is_u32 ea -> is_word 13 f ->
  (ea .& page_mask) .| f = ea / 2 ^ 13 * 2 ^ 13 + f.
Proof.
  intros Hea Hf. change page_mask with 0xffffe000. rewrite frame_mask by done.
  by apply frame_offset_lor.
Qed.

Section Identity.
Context {H : Type} `{HL : HostLaws H}.

(** A write of the two registers of an entry, and the entry it makes. *)
Lemma identity_entry (mr tr : Z -> Z) ea f va h :
  is_u32 ea -> is_u32 va -> is_word 13 f ->
  let set := (ea >> 13) .& 63 in
  (forall i j, 0 <= i < 64 -> 0 <= j < 64 -> mr 0 + i <> tr 0 + j) ->
  (forall i, 0 <= i < 64 -> mr 0 + i <> SPR_DCBFR /\ mr 0 + i <> SPR_ICBIR /\
                            tr 0 + i <> SPR_DCBFR /\ tr 0 + i <> SPR_ICBIR) ->
  translate true mr tr va
    (setSPR (tr 0 + set) ((ea .& page_mask) .| f)
      (setSPR (mr 0 + set) ((ea .& page_mask) .| TLB_FLAGS_M) h)) =
  if va / 2 ^ 13 =? ea / 2 ^ 13 then Some va
  else if va / 2 ^ 13 mod 64 =? ea / 2 ^ 13 mod 64 then None
  else translate true mr tr va h.
Proof.
  intros Hea Hva Hf set Hdisj Hreg.
  assert (Hset : set = ea / 2 ^ 13 mod 64).
  { unfold set. change 63 with (NUM_SETS_WAY - 1). apply set_index. }
  rewrite Hset. clear set Hset.
  rewrite !page_flags by done.
  pose proof (Z.mod_pos_bound (ea / 2 ^ 13) 64 ltac:(lia)) as Hs.
  pose proof (Z.mod_pos_bound (va / 2 ^ 13) 64 ltac:(lia)) as Hv.
  pose proof (Hreg _ Hs) as (R1 & R2 & R3 & R4).
  pose proof (Hdisj _ _ Hs Hs) as D1.
  unfold translate. cbn [negb]. unfold setSPR.
  set (se := ea / 2 ^ 13 mod 64) in *. set (sv := va / 2 ^ 13 mod 64) in *.
  assert (Hw : forall g, is_word 13 g -> is_u32 (ea / 2 ^ 13 * 2 ^ 13 + g)).
  { intros g [g1 g2]. destruct Hea as [e1 e2]. split.
    - pose proof (Z.div_pos ea (2 ^ 13) ltac:(lia) ltac:(lia)). lia.
    - assert (ea / 2 ^ 13 < 2 ^ 19) by (apply Z.div_lt_upper_bound; lia). lia. }
  assert (HM : is_word 13 TLB_FLAGS_M) by (by vm_compute).
  destruct (Z.eq_dec sv se) as [E|E].
  - rewrite E. rewrite mfspr_mtspr_ne, mfspr_mtspr by (done || auto).
    rewrite mfspr_mtspr by auto.
    assert (Z.odd (ea / 2 ^ 13 * 2 ^ 13 + TLB_FLAGS_M) = true) as ->.
    { rewrite Z.odd_add. change (2 ^ 13) with (2 * 2 ^ 12) at 2.
      rewrite Z.mul_assoc, (Z.mul_comm _ 2), <- Z.mul_assoc, Z.odd_mul. done. }
    rewrite !Z.div_add_l, !(Z.div_small TLB_FLAGS_M), (Z.div_small f), !Z.add_0_r by
      (lia || done).
    cbn [andb]. rewrite (Z.eqb_sym (va / 2 ^ 13)), Z.eqb_refl.
    destruct (Z.eqb_spec (ea / 2 ^ 13) (va / 2 ^ 13)) as [Ep|]; [|done].
    rewrite Ep. f_equal. pose proof (Z.div_mod va (2 ^ 13) ltac:(lia)). lia.
  - assert (va / 2 ^ 13 <> ea / 2 ^ 13) by (intros Eq; apply E; unfold sv, se; by rewrite Eq).
    destruct (Z.eqb_spec (va / 2 ^ 13) (ea / 2 ^ 13)); [done|].
    destruct (Z.eqb_spec sv se); [done|].
    pose proof (Hdisj _ _ Hs Hv). pose proof (Hdisj _ _ Hv Hs).
    by rewrite !mfspr_mtspr_ne by lia.
Qed.

End Identity.
