(* ===== verification/SimMain.v ===== *)
(** The simulator as a program of its own: the memory and the image loader of
    src/system/software/sim_module/sim_main.c.

    The RAM is one block of [RAM_SIZE] bytes accessed by words.  [malloc] does
    not write it: a word that was never stored has no value.  The loop around
    [cpu_exec_inst] at the end of [main], which does not return, is not here. *)

From S2P Require Import Prelude Cpu.
From stdpp Require Import gmap.

Open Scope Z_scope.
Open Scope cword_scope.

Definition RAM_SIZE : Z := 1024 * 1024.

(** Words by byte address. *)
Abbreviation memory := (gmap Z Z).

(** Returns whether the address is in the RAM, and the variable. *)
Definition guestLoad (ram : memory) (guestAddr : Z) (value : option Z)
    : outcome (bool * option Z) :=
  if negb (guestAddr .& 0x3 =? 0) then AssertFail else
  if RAM_SIZE - 4 <? guestAddr then Ok (false, value)
  else Ok (true, ram !! guestAddr).

Definition guestStore (ram : memory) (guestAddr value : Z) : outcome (bool * memory) :=
  if negb (guestAddr .& 0x3 =? 0) then AssertFail else
  if RAM_SIZE - 4 <? guestAddr then Ok (false, ram)
  else Ok (true, <[guestAddr := value]> ram).

(** The loop of [fillState] on the rest of the file: an incomplete word at the
    end is not stored. *)
Fixpoint fill (ram : memory) (address size : Z) (file : list Z) : outcome memory :=
  match file with
  | b0 :: b1 :: b2 :: b3 :: file =>
      r ← guestStore ram address
        ((b0 .& 0xff) << 24 .| (b1 .& 0xff) << 16 .| (b2 .& 0xff) << 8 .| (b3 .& 0xff));
      let address := address +! 0x4 in
      if address <? size then fill r.2 address size file else AssertFail
  | _ => Ok ram
  end.

(** [fillState(fileName, ram, size)], where the file exists and is read without
    errors. *)
Definition fillState (ram : memory) (size : Z) (file : list Z) : outcome memory :=
  if 0 <? size then fill ram 0 size file else AssertFail.

(** [main] up to its loop: the processor and the memory it starts with.
    [garbage] is what the stack held. *)
Definition main_init (garbage : CPU) (file : list Z) : outcome (CPU * memory) :=
  let cpu := cpu_init0 garbage in
  let cpu := cpu_reset cpu in
  let cpu := cpu_set_sp cpu (RAM_SIZE - 4) in
  ram ← fillState ∅ RAM_SIZE file;
  Ok (cpu, ram).

(** ** The loader *)

(** The big endian word of four bytes, and of a file the word at [k]. *)
Definition be_word (b0 b1 b2 b3 : Z) : Z := b0 * 2 ^ 24 + b1 * 2 ^ 16 + b2 * 2 ^ 8 + b3.

Fixpoint file_word (file : list Z) (k : nat) : option Z :=
  match file with
  | b0 :: b1 :: b2 :: b3 :: file =>
      match k with O => Some (be_word b0 b1 b2 b3) | S k => file_word file k end
  | _ => None
  end.

Lemma shl_byte b n : is_u8 b -> 0 <= n <= 24 -> (b .& 0xff) << n = b * 2 ^ n.
Proof.
  intros Hb Hn. change 0xff with (2 ^ 8 - 1).
  rewrite land_mask, (wrap_small 8) by (lia || done).
  unfold shl32. rewrite Z.shiftl_mul_pow2 by lia. apply wrap_small. destruct Hb.
  pose proof (Z.pow_le_mono_r 2 n 24 ltac:(lia) ltac:(lia)).
  unfold is_word in *. change (2 ^ 32) with (2 ^ 8 * 2 ^ 24). change (2 ^ 8) with 256 in *.
  split; [lia|]. nia.
Qed.

Lemma lor_shift x y k : 0 <= k -> is_word k y -> x * 2 ^ k .| y = x * 2 ^ k + y.
Proof.
  intros Hk Hy. rewrite <- Z.lxor_lor, <- Z.add_nocarry_lxor; [done|..];
    rewrite <- Z.shiftl_mul_pow2 by lia; zbits;
    (destruct (Z.le_gt_cases k i);
     [rewrite (testbit_word k y) by (done || lia); apply andb_false_r
     |by rewrite (Z.testbit_neg_r _ (i - k)) by lia]).
Qed.

Lemma be_word_bits b0 b1 b2 b3 : is_u8 b0 -> is_u8 b1 -> is_u8 b2 -> is_u8 b3 ->
  (b0 .& 0xff) << 24 .| (b1 .& 0xff) << 16 .| (b2 .& 0xff) << 8 .| (b3 .& 0xff) =
  be_word b0 b1 b2 b3.
Proof.
  intros H0 H1 H2 H3. rewrite !shl_byte by (done || lia).
  change (b3 .& 0xff) with (b3 .& (2 ^ 8 - 1)). rewrite land_mask, (wrap_small 8) by (lia || done).
  unfold is_word in *.
  rewrite (lor_shift b0 _ 24) by (lia || (unfold is_word; lia)).
  replace (b0 * 2 ^ 24 + b1 * 2 ^ 16) with ((b0 * 2 ^ 8 + b1) * 2 ^ 16) by lia.
  rewrite (lor_shift _ _ 16) by (lia || (unfold is_word; lia)).
  replace ((b0 * 2 ^ 8 + b1) * 2 ^ 16 + b2 * 2 ^ 8)
    with ((b0 * 2 ^ 16 + b1 * 2 ^ 8 + b2) * 2 ^ 8) by lia.
  rewrite (lor_shift _ _ 8) by (lia || (unfold is_word; lia)).
  unfold be_word. lia.
Qed.

(** Files, four bytes at a time. *)
Lemma file_ind (P : list Z -> Prop) :
  (forall f, (length f < 4)%nat -> P f) ->
  (forall b0 b1 b2 b3 f, P f -> P (b0 :: b1 :: b2 :: b3 :: f)) ->
  forall f, P f.
Proof.
  intros Hs Hstep f. remember (length f) as n eqn:En. revert f En.
  induction n as [n IH] using lt_wf_ind. intros [|b0 [|b1 [|b2 [|b3 f]]]] ->;
    try (apply Hs; simpl; lia).
  apply Hstep. apply (IH (length f)); simpl; lia.
Qed.

Definition words (f : list Z) : Z := Z.of_nat (length f) / 4.

Lemma words_short f : (length f < 4)%nat -> words f = 0.
Proof. intros. apply Z.div_small. lia. Qed.

Lemma words_step b0 b1 b2 b3 f : words (b0 :: b1 :: b2 :: b3 :: f) = words f + 1.
Proof.
  unfold words. simpl length. rewrite !Nat2Z.inj_succ.
  rewrite <- (Z.div_add _ 1 4) by lia. f_equal. lia.
Qed.

Lemma words_nonneg f : 0 <= words f.
Proof. apply Z.div_pos; lia. Qed.

Lemma fill_short ram a size f : (length f < 4)%nat -> fill ram a size f = Ok ram.
Proof. destruct f as [|? [|? [|? [|? ?]]]]; simpl; (done || lia). Qed.

Lemma file_word_short f k : (length f < 4)%nat -> file_word f k = None.
Proof. destruct f as [|? [|? [|? [|? ?]]]]; simpl; (done || lia). Qed.

(** An address the loader uses. *)
Definition loader_address (a : Z) : Prop := 0 <= a < RAM_SIZE /\ a mod 4 = 0.

Lemma guestStore_ok ram a v : loader_address a ->
  guestStore ram a v = Ok (true, <[a := v]> ram).
Proof.
  intros [Ha Hm]. unfold guestStore. change 0x3 with (2 ^ 2 - 1).
  rewrite land_mask by lia. unfold wrap. change (2 ^ 2) with 4. rewrite Hm. cbn [negb Z.eqb].
  unfold RAM_SIZE in *. pose proof (Z.div_mod a 4 ltac:(lia)).
  by destruct (Z.ltb_spec (1024 * 1024 - 4) a); [lia|].
Qed.

Lemma guestLoad_ok ram a v : loader_address a -> guestLoad ram a v = Ok (true, ram !! a).
Proof.
  intros [Ha Hm]. unfold guestLoad. change 0x3 with (2 ^ 2 - 1).
  rewrite land_mask by lia. unfold wrap. change (2 ^ 2) with 4. rewrite Hm. cbn [negb Z.eqb].
  unfold RAM_SIZE in *. pose proof (Z.div_mod a 4 ltac:(lia)).
  by destruct (Z.ltb_spec (1024 * 1024 - 4) a); [lia|].
Qed.

Lemma next_address a : loader_address a -> a +! 0x4 = a + 4.
Proof. intros [Ha _]. apply wrap_small. unfold RAM_SIZE in Ha. split; lia. Qed.

Lemma fill_step ram a b0 b1 b2 b3 f : loader_address a -> Forall is_u8 [b0; b1; b2; b3] ->
  fill ram a RAM_SIZE (b0 :: b1 :: b2 :: b3 :: f) =
  if a + 4 <? RAM_SIZE then fill (<[a := be_word b0 b1 b2 b3]> ram) (a + 4) RAM_SIZE f
  else AssertFail.
Proof.
  intros Ha Hb. decompose_Forall_hyps. cbn [fill].
  by rewrite guestStore_ok, bind_Ok, next_address, be_word_bits.
Qed.

Lemma four_bytes b0 b1 b2 b3 :
  is_u8 b0 -> is_u8 b1 -> is_u8 b2 -> is_u8 b3 -> Forall is_u8 [b0; b1; b2; b3].
Proof. intros. by rewrite !Forall_cons, Forall_nil. Qed.

Lemma next_loader_address a : loader_address a -> a + 4 < RAM_SIZE -> loader_address (a + 4).
Proof.
  intros [Ha Hm] Hlt. split; [lia|]. rewrite Z.add_mod, Hm by lia. done.
Qed.

Lemma fill_words f : forall ram a, loader_address a -> Forall is_u8 f ->
  a + 4 * words f < RAM_SIZE ->
  exists ram', fill ram a RAM_SIZE f = Ok ram' /\
    (forall k, ram' !! (a + 4 * Z.of_nat k) =
       match file_word f k with Some v => Some v | None => ram !! (a + 4 * Z.of_nat k) end) /\
    (forall b, b < a -> ram' !! b = ram !! b).
Proof.
  induction f as [f Hf|b0 b1 b2 b3 f IH] using file_ind; intros ram a Ha Hb Hlt.
  - exists ram. rewrite fill_short by done. repeat split. intros k. by rewrite file_word_short.
  - rewrite words_step in Hlt. pose proof (words_nonneg f).
    apply Forall_cons in Hb as [H0 Hb]. apply Forall_cons in Hb as [H1 Hb].
    apply Forall_cons in Hb as [H2 Hb]. apply Forall_cons in Hb as [H3 Hb].
    rewrite fill_step by (done || by apply four_bytes).
    destruct (Z.ltb_spec (a + 4) RAM_SIZE); [|lia].
    destruct (IH (<[a := be_word b0 b1 b2 b3]> ram) (a + 4)) as (ram' & Hr & Hk & Hlow);
      [by apply next_loader_address|done|lia|].
    exists ram'. split; [done|]. split.
    + intros [|k].
      * rewrite Z.mul_0_r, Z.add_0_r, Hlow by lia. apply lookup_insert_eq.
      * specialize (Hk k). cbn [file_word].
        replace (a + 4 * Z.of_nat (S k)) with (a + 4 + 4 * Z.of_nat k) by lia.
        rewrite Hk. destruct (file_word f k); [done|]. by rewrite lookup_insert_ne by lia.
    + intros b Hlt'. rewrite Hlow by lia. by rewrite lookup_insert_ne by lia.
Qed.

Lemma fill_too_big f : forall ram a, loader_address a -> Forall is_u8 f ->
  RAM_SIZE <= a + 4 * words f -> fill ram a RAM_SIZE f = AssertFail.
Proof.
  induction f as [f Hf|b0 b1 b2 b3 f IH] using file_ind; intros ram a Ha Hb Hlt.
  - rewrite words_short in Hlt by done. destruct Ha. lia.
  - rewrite words_step in Hlt. pose proof (words_nonneg f).
    apply Forall_cons in Hb as [H0 Hb]. apply Forall_cons in Hb as [H1 Hb].
    apply Forall_cons in Hb as [H2 Hb]. apply Forall_cons in Hb as [H3 Hb].
    rewrite fill_step by (done || by apply four_bytes).
    destruct (Z.ltb_spec (a + 4) RAM_SIZE); [|done].
    apply IH; [by apply next_loader_address|done|lia].
Qed.
