(* ===== verification/Utils.v ===== *)
(** The converters of program images, src/system/software/utils: [bin2hex],
    [bin2vmem], [bin2srec], [bin2flimg] and [bin2c].

    A file is the list of its bytes, the output the list of the characters
    printed.  A program is a function of its arguments and of what [fopen] finds;
    what it prints to stderr is left out.  [unsigned long] has 64 bits.  The
    counters of type [int] are not wrapped: they count bytes of the file. *)

From Stdlib Require Import Ascii String.
From S2P Require Import Prelude.
From stdpp Require Import list strings.

Open Scope Z_scope.
Open Scope cword_scope.

(** * The C library *)

Abbreviation text := (list ascii).

Definition str (s : string) : text := list_ascii_of_string s.
Definition newline : ascii := "010"%char.

Definition hex_digit (d : Z) : ascii :=
  ascii_of_N (Z.to_N (if d <? 10 then 48 + d else 87 + d)).

(** The last [n] hexadecimal digits. *)
Fixpoint nibbles (n : nat) (v : Z) : text :=
  match n with
  | O => []
  | S n => nibbles n (v / 16) ++ [hex_digit (v mod 16)]
  end.

Definition hex_length (v : Z) : nat :=
  if v =? 0 then 0%nat else Z.to_nat (Z.log2 v / 4 + 1).

(** The conversion [%.<prec>x] of an unsigned number. *)
Definition print_hex (prec : nat) (v : Z) : text := nibbles (max prec (hex_length v)) v.

(** A file being read: [feof] holds once a read has found the end. *)
Record stream : Type := Stream { rest : list Z; feof : bool }.

Definition fgetc (f : stream) : option Z * stream :=
  match rest f with
  | [] => (None, Stream [] true)
  | c :: r => (Some c, Stream r (feof f))
  end.

(** [if (c == EOF) c = 0] *)
Definition fgetc0 (f : stream) : Z * stream :=
  let '(c, f) := fgetc f in (default 0 c, f).

Definition is_space (c : ascii) : bool :=
  let n := N_of_ascii c in ((n =? 32) || (9 <=? n) && (n <=? 13))%N.
Definition digit_value (c : ascii) : option Z :=
  let n := Z.of_N (N_of_ascii c) in
  if (48 <=? n) && (n <=? 57) then Some (n - 48) else None.
Fixpoint read_digits (t : text) (acc : Z) : Z :=
  match t with
  | c :: t => match digit_value c with Some d => read_digits t (10 * acc + d) | None => acc end
  | [] => acc
  end.
Fixpoint skip_spaces (t : text) : text :=
  match t with c :: t' => if is_space c then skip_spaces t' else t | [] => [] end.

(** [atoi]: undefined when the number does not fit. *)
Definition atoi (s : string) : outcome Z :=
  match skip_spaces (str s) with
  | "-"%char :: t => signed_c 32 (- read_digits t 0)
  | "+"%char :: t => signed_c 32 (read_digits t 0)
  | t => signed_c 32 (read_digits t 0)
  end.

(** How a program ends: its exit status and what it has printed. *)
Record result : Type := Exit { status : Z; stdout : text }.

(** * bin2hex.c *)

Module Bin2hex.

(** Prints a byte, and breaks the line after [bytes_per_line] of them; the state
    is [i] and the output. *)
Definition put (bytes_per_line : Z) (st : Z * text) (c : Z) : Z * text :=
  let '(i, out) := st in
  let out := out ++ print_hex 2 c in
  let i := i + 1 in
  if i =? bytes_per_line then (0, out ++ [newline]) else (i, out).

(** The size of the image, rounded up to whole words. *)
Definition image_size (size : Z) : Z := (size +! 3) .& 0xfffffffc.

Definition size_word (size bytes_per_line : Z) : text :=
  (fold_left (put bytes_per_line)
    [(size >> 24) .& 0xff; (size >> 16) .& 0xff; (size >> 8) .& 0xff; size .& 0xff]
    (0, [])).2.

(** The data: the first four bytes are skipped, and [i] starts again. *)
Definition data (file : list Z) (bytes_per_line : Z) (out : text) : text :=
  let f := for_upto 4 (fun _ f => (fgetc f).2) (Stream file false) in
  (fold_left (put bytes_per_line) (rest f) (0, out)).2.

Definition main (argv : list string) (fopen : string -> option (list Z)) : outcome result :=
  match argv with
  | _ :: filename :: bytes_per_line :: options =>
      let write_size_word :=
        match options with [o] => String.eqb "-size_word" o | _ => false end in
      bytes_per_line ← atoi bytes_per_line;
      if (bytes_per_line =? 0) || (8 <? bytes_per_line) then Ok (Exit 1 []) else
      match fopen filename with
      | None => Ok (Exit 1 [])
      | Some file =>
          let size := image_size (u32 (Z.of_nat (length file))) in
          if write_size_word then
            if size <? 8 then Ok (Exit 1 [])
            else Ok (Exit 0 (data file bytes_per_line (size_word size bytes_per_line)))
          else Ok (Exit 0 (data file bytes_per_line []))
      end
  | _ => Ok (Exit 1 [])
  end.

End Bin2hex.

(** * bin2vmem.c *)

Module Bin2vmem.

Definition WORDS_PER_LINE : Z := 4.
Definition BYTES_PER_WORD : Z := 4.

Record state : Type := State {
  current_addr : Z;
  word_counter : Z;
  byte_counter : Z;
  starting_new_line : bool;
  out : text;
}.

(** The body of the loop, for the byte [c]. *)
Definition put (st : state) (c : Z) : state :=
  let '(State current_addr word_counter byte_counter starting_new_line out) := st in
  let '(current_addr, starting_new_line, out) :=
    if starting_new_line then
      (current_addr + WORDS_PER_LINE, false, out ++ str "@" ++ print_hex 8 (u32 current_addr))
    else (current_addr, starting_new_line, out) in
  let out := if byte_counter =? 0 then out ++ str " " else out in
  let out := out ++ print_hex 2 c in
  let byte_counter := byte_counter + 1 in
  let '(word_counter, byte_counter) :=
    if byte_counter =? BYTES_PER_WORD then (word_counter + 1, 0)
    else (word_counter, byte_counter) in
  if word_counter =? WORDS_PER_LINE
  then State current_addr 0 byte_counter true (out ++ [newline])
  else State current_addr word_counter byte_counter starting_new_line out.

(** The branches under [write_size_word], which is 0, are left out. *)
Definition main (argv : list string) (fopen : string -> option (list Z)) : result :=
  match argv with
  | _ :: filename :: _ =>
      match fopen filename with
      | None => Exit 1 []
      | Some file => Exit 0 (out (fold_left put file (State 0 0 0 true [])))
      end
  | _ => Exit 1 []
  end.

End Bin2vmem.

(** * bin2srec.c *)

Module Bin2srec.

Definition SMARK : text := str "S214".
Definition INIT_ADDR : Z := 0x100100.
Definition SCHKSUM : Z := 0xff.

(** The inner loop: the file, the checksum and the output. *)
Definition put (_ : Z) (st : stream * (Z * text)) : stream * (Z * text) :=
  let '(f, (chksum, out)) := st in
  let '(c, f) := fgetc0 f in
  (f, (u8 (chksum - c), out ++ print_hex 2 c)).

(** One record. *)
Definition record (addr : Z) (f : stream) (out : text) : stream * text :=
  let chksum := SCHKSUM in
  let out := out ++ SMARK ++ print_hex 6 addr in
  let '(f, (chksum, out)) := for_upto 16 put (f, (chksum, out)) in
  let chksum := u8 (chksum - (addr .& 0xff)) in
  let chksum := u8 (chksum - ((addr >> 8) .& 0xff)) in
  let chksum := u8 (chksum - ((addr >> 16) .& 0xff)) in
  let chksum := u8 (chksum - 0x14) in
  (f, out ++ print_hex 2 chksum ++ ["013"%char; newline]).

Fixpoint loop (fuel : nat) (addr : Z) (f : stream) (out : text) : option text :=
  match fuel with
  | O => None
  | S fuel =>
      if feof f then Some out
      else
        let '(f, out) := record addr f out in
        loop fuel (u64 (addr + 16)) f out
  end.

Definition main (fuel : nat) (argv : list string) (fopen : string -> option (list Z))
    : option result :=
  match argv with
  | [_; filename] =>
      match fopen filename with
      | None => Some (Exit 1 [])
      | Some file => Exit 0 <$> loop fuel INIT_ADDR (Stream file false) []
      end
  | _ => Some (Exit 1 [])
  end.

End Bin2srec.

(** * bin2flimg.c *)

Module Bin2flimg.

Definition put (_ : Z) (st : stream * Z) : stream * Z :=
  let '(f, word) := st in
  let '(c, f) := fgetc0 f in
  (f, u64 (u64 (Z.shiftl word 8) + c)).

Definition print_word (width word : Z) : text :=
  print_hex (if width =? 1 then 2%nat else if width =? 2 then 4%nat else 8%nat) word ++ [newline].

(** [while (j < width)] makes no step when [width] is negative. *)
Fixpoint loop (fuel : nat) (width : Z) (f : stream) (out : text) : option text :=
  match fuel with
  | O => None
  | S fuel =>
      if feof f then Some out
      else
        let '(f, word) := for_upto width put (f, 0) in
        loop fuel width f (out ++ print_word width word)
  end.

Definition main (fuel : nat) (argv : list string) (fopen : string -> option (list Z))
    : option (outcome result) :=
  match argv with
  | [_; width; filename] =>
      match atoi width with
      | Ok width =>
          match fopen filename with
          | None => Some (Ok (Exit 1 []))
          | Some file => (fun out => Ok (Exit 0 out)) <$> loop fuel width (Stream file false) []
          end
      | _ => Some Undef
      end
  | _ => Some (Ok (Exit 1 []))
  end.

End Bin2flimg.

(** * bin2c.c *)

Module Bin2c.

Definition put (st : Z * text) (c : Z) : Z * text :=
  let '(i, out) := st in
  let out := out ++ str "0x" ++ print_hex 2 c ++ str ", " in
  let out := if i mod 32 =? 0 then out ++ [newline] else out in
  (i + 1, out).

Definition header : text :=
  str "#ifdef HAVE_CONFIG_H" ++ [newline] ++
  str "# include " ++ ["034"%char] ++ str "config.h" ++ ["034"%char; newline] ++
  str "#endif" ++ [newline; newline] ++
  str "#ifdef EMBED" ++ [newline] ++
  str "unsigned char flash_data[] = {" ++ [newline].

(** From stdin. *)
Definition main (input : list Z) : result :=
  let '(_, out) := fold_left put input (0, header) in
  Exit 0 (out ++ str " };" ++ [newline] ++ str "#endif" ++ [newline]).

End Bin2c.

(** * What they print *)

(** ** Hexadecimal *)

Definition hex_value (c : ascii) : option Z :=
  let n := Z.of_N (N_of_ascii c) in
  if (48 <=? n) && (n <=? 57) then Some (n - 48)
  else if (97 <=? n) && (n <=? 102) then Some (n - 87) else None.

(** Pairs of hexadecimal digits, with line breaks anywhere between pairs. *)
Fixpoint unhex (t : text) : option (list Z) :=
  match t with
  | [] => Some []
  | c :: t' =>
      if Ascii.eqb c newline then unhex t'
      else
        match t' with
        | d :: t'' => x ← hex_value c; y ← hex_value d; l ← unhex t''; Some (16 * x + y :: l)
        | [] => None
        end
  end.

Lemma hex_value_digit d : 0 <= d < 16 -> hex_value (hex_digit d) = Some d.
Proof. apply (Z_range_check 16 (fun d => hex_value (hex_digit d) = Some d)). by vm_compute. Qed.

Lemma hex_digit_newline d : 0 <= d < 16 -> Ascii.eqb (hex_digit d) newline = false.
Proof. apply (Z_range_check 16 (fun d => Ascii.eqb (hex_digit d) newline = false)). by vm_compute. Qed.

Lemma print_byte c : is_u8 c -> print_hex 2 c = [hex_digit (c / 16); hex_digit (c mod 16)].
Proof.
  apply (Z_range_check 256 (fun c => print_hex 2 c = [hex_digit (c / 16); hex_digit (c mod 16)])).
  by vm_compute.
Qed.

Lemma unhex_byte c t : is_u8 c -> unhex (print_hex 2 c ++ t) = cons c <$> unhex t.
Proof.
  intros Hc. rewrite print_byte by done. destruct Hc as [Hl Hh]. change (2 ^ 8) with 256 in Hh.
  pose proof (Z.mod_pos_bound c 16 ltac:(lia)) as Hm.
  assert (Hd : 0 <= c / 16 < 16)
    by (split; [apply Z.div_pos; lia|apply Z.div_lt_upper_bound; lia]).
  cbn [app unhex]. rewrite hex_digit_newline, !hex_value_digit by done. cbn [mbind option_bind].
  rewrite <- Z.div_mod by lia. by destruct (unhex t).
Qed.

Lemma unhex_newline t : unhex (newline :: t) = unhex t.
Proof. done. Qed.

(** ** Reading a file in blocks *)

(** [n] bytes, with zeros after the end. *)
Definition padded (n : nat) (l : list Z) : list Z := take n (l ++ replicate n 0).

Lemma padded_length n l : length (padded n l) = n.
Proof. unfold padded. rewrite length_take, length_app, length_replicate. lia. Qed.

Lemma padded_cons n c l : padded (S n) (c :: l) = c :: padded n l.
Proof.
  unfold padded. cbn [app take]. f_equal.
  rewrite !take_app, !take_replicate. do 2 f_equal. lia.
Qed.

Lemma padded_nil n : padded n [] = replicate n 0.
Proof. unfold padded. rewrite app_nil_l, take_replicate. f_equal. lia. Qed.

(** A loop that reads [n] bytes and works on each of them. *)
Lemma for_bytes {A} (body : A -> Z -> A) step n : forall lo f acc,
  (forall i f acc, step i (f, acc) = ((fgetc0 f).2, body acc (fgetc0 f).1)) ->
  for_from n lo step (f, acc) =
  (Stream (drop n (rest f)) (feof f || (length (rest f) <? n)%nat),
   fold_left body (padded n (rest f)) acc).
Proof.
  induction n as [|n IH]; intros lo f acc Hstep; cbn [for_from].
  - destruct f as [r e]. by rewrite orb_false_r.
  - rewrite Hstep, IH by done. destruct f as [[|c r] e]; cbn [fgetc0 fgetc rest feof fst snd].
    + cbn [default from_option]. rewrite !padded_nil. cbn [drop orb replicate fold_left id].
      rewrite drop_nil. f_equal. by rewrite orb_true_r.
    + cbn [default from_option id]. rewrite padded_cons. done.
Qed.

Lemma for_upto_bytes {A} (body : A -> Z -> A) step n f acc :
  (forall i f acc, step i (f, acc) = ((fgetc0 f).2, body acc (fgetc0 f).1)) ->
  for_upto n step (f, acc) =
  (Stream (drop (Z.to_nat n) (rest f)) (feof f || (length (rest f) <? Z.to_nat n)%nat),
   fold_left body (padded (Z.to_nat n) (rest f)) acc).
Proof. apply for_bytes. Qed.

(** ** Blocks of a file *)

(** [f] of every block of [n] bytes and its number, and [g] of the rest. *)
Definition by_blocks {A} (n : nat) (f : nat -> list Z -> list A) (g : nat -> list Z -> list A)
    (l : list Z) : list A :=
  let m := (length l / n)%nat in
  concat (map (fun k => f k (take n (drop (n * k) l))) (seq 0 m)) ++ g m (drop (n * m) l).

Lemma by_blocks_short {A} n f g l : (length l < n)%nat -> @by_blocks A n f g l = g 0%nat l.
Proof.
  intros Hl. unfold by_blocks. rewrite Nat.div_small by done. by rewrite Nat.mul_0_r, drop_0.
Qed.

Lemma by_blocks_step {A} n f g b l : length b = n -> (0 < n)%nat ->
  @by_blocks A n f g (b ++ l) =
  f 0%nat b ++ by_blocks n (fun k => f (S k)) (fun k => g (S k)) l.
Proof.
  intros Hb Hn. unfold by_blocks. rewrite length_app, Hb.
  replace ((n + length l) / n)%nat with (S (length l / n)).
  2: { replace (n + length l)%nat with (length l + 1 * n)%nat by lia.
       rewrite Nat.div_add by lia. lia. }
  assert (Hd : forall k, drop (n * S k) (b ++ l) = drop (n * k) l).
  { intros k. replace (n * S k)%nat with (length b + n * k)%nat by lia.
    by rewrite drop_app_add. }
  cbn [seq map concat]. rewrite Nat.mul_0_r, drop_0, <- Hb, take_app_length, Hb.
  rewrite <- app_assoc. f_equal. rewrite Hd. f_equal.
  rewrite <- seq_shift, map_map. f_equal. apply map_ext. intros k. by rewrite Hd.
Qed.

Lemma by_blocks_ext {A} n f f' g g' l :
  (forall k b, f k b = f' k b) -> (forall k b, g k b = g' k b) ->
  @by_blocks A n f g l = by_blocks n f' g' l.
Proof.
  intros Hf Hg. unfold by_blocks. rewrite Hg. f_equal. f_equal. by apply map_ext.
Qed.

(** Files, [n] bytes at a time. *)
Lemma blocks_ind n (P : list Z -> Prop) : (0 < n)%nat ->
  (forall l, (length l < n)%nat -> P l) ->
  (forall b l, length b = n -> P l -> P (b ++ l)) ->
  forall l, P l.
Proof.
  intros Hn Hs Hb l. remember (length l) as m eqn:E. revert l E.
  induction m as [m IH] using lt_wf_ind. intros l ->.
  destruct (decide (length l < n)%nat); [by apply Hs|].
  rewrite <- (take_drop n l). apply Hb; [rewrite length_take; lia|].
  apply (IH (length (drop n l))); [rewrite length_drop; lia|done].
Qed.

Definition hex_bytes (l : list Z) : text := concat (map (print_hex 2) l).

(** ** bin2hex *)

Section Bin2hexOutput.
Context (n : Z) (Hn : 1 <= n <= 8).

Lemma hex_put_run b : forall i out, 0 <= i -> i + Z.of_nat (length b) < n ->
  fold_left (Bin2hex.put n) b (i, out) = (i + Z.of_nat (length b), out ++ hex_bytes b).
Proof.
  induction b as [|c b IH]; intros i out Hi Hlt; cbn [length] in *.
  - cbn. by rewrite Z.add_0_r, app_nil_r.
  - cbn [fold_left Bin2hex.put]. destruct (Z.eqb_spec (i + 1) n); [lia|].
    rewrite IH by lia. cbn [hex_bytes map concat]. rewrite <- app_assoc. f_equal. lia.
Qed.

Lemma hex_put_line b out : Z.of_nat (length b) = n ->
  fold_left (Bin2hex.put n) b (0, out) = (0, out ++ hex_bytes b ++ [newline]).
Proof.
  intros Hb. destruct b as [|c b _] using rev_ind; [cbn in Hb; lia|].
  rewrite length_app in Hb. cbn [length] in Hb.
  rewrite fold_left_app, hex_put_run by lia. cbn [fold_left Bin2hex.put].
  destruct (Z.eqb_spec (0 + Z.of_nat (length b) + 1) n); [|lia].
  unfold hex_bytes. rewrite map_app, concat_app. cbn. by rewrite app_nil_r, <- !app_assoc.
Qed.

Lemma hex_put_lines l out :
  (fold_left (Bin2hex.put n) l (0, out)).2 =
  out ++ by_blocks (Z.to_nat n) (fun _ b => hex_bytes b ++ [newline]) (fun _ => hex_bytes) l.
Proof.
  revert l out. refine (blocks_ind (Z.to_nat n) _ _ _ _); [lia|intros l Hl out|intros b l Hb IH out].
  - rewrite by_blocks_short by done. by rewrite hex_put_run by lia.
  - rewrite by_blocks_step by (done || lia).
    rewrite fold_left_app, hex_put_line by lia. by rewrite IH, <- !app_assoc.
Qed.

(** Whatever the line length, the bytes can be read back. *)
Lemma hex_put_unhex l : Forall is_u8 l -> forall i out, exists t,
  (fold_left (Bin2hex.put n) l (i, out)).2 = out ++ t /\
  forall u, unhex (t ++ u) = app l <$> unhex u.
Proof.
  induction 1 as [|c l Hc _ IH]; intros i out.
  - exists []. rewrite app_nil_r. split; [done|]. intros u. cbn. by destruct (unhex u).
  - cbn [fold_left Bin2hex.put]. destruct (i + 1 =? n).
    + destruct (IH 0 ((out ++ print_hex 2 c) ++ [newline])) as (t & -> & Ht).
      exists (print_hex 2 c ++ newline :: t). split; [by rewrite <- !app_assoc|].
      intros u. rewrite <- app_assoc, unhex_byte by done. cbn [app].
      rewrite unhex_newline, Ht. by destruct (unhex u).
    + destruct (IH (i + 1) (out ++ print_hex 2 c)) as (t & -> & Ht).
      exists (print_hex 2 c ++ t). split; [by rewrite <- !app_assoc|].
      intros u. rewrite <- app_assoc, unhex_byte, Ht by done. by destruct (unhex u).
Qed.

End Bin2hexOutput.

Lemma skip_four file : rest (for_upto 4 (fun _ f => (fgetc f).2) (Stream file false)) = drop 4 file.
Proof. by destruct file as [|? [|? [|? [|? ?]]]]. Qed.

Lemma image_size_words (size : nat) : Z.of_nat size < 2 ^ 32 - 4 ->
  Bin2hex.image_size (u32 (Z.of_nat size)) = (Z.of_nat size + 3) / 4 * 4.
Proof.
  intros Hs. unfold Bin2hex.image_size, add32.
  rewrite (wrap_small 32 (Z.of_nat size)), wrap_small by (split; lia).
  set (v := Z.of_nat size + 3). change 0xfffffffc with (Z.ldiff (2 ^ 32 - 1) (2 ^ 2 - 1)).
  change 4 with (2 ^ 2). rewrite <- Z.shiftl_mul_pow2, <- Z.shiftr_div_pow2 by lia.
  apply Z.bits_inj'. intros i Hi. rewrite Z.land_spec, Z.ldiff_spec, !testbit_mask by lia.
  rewrite Z.shiftl_spec by lia. destruct (Z.ltb_spec i 2).
  - rewrite (Z.testbit_neg_r _ (i - 2)) by lia. rewrite andb_false_r. apply andb_false_r.
  - rewrite Z.shiftr_spec by lia. replace (i - 2 + 2) with i by lia. rewrite andb_true_r.
    destruct (Z.ltb_spec i 32); [apply andb_true_r|].
    rewrite (testbit_word 32 v); [done|unfold v; split; lia|lia].
Qed.

(** The big endian bytes of a word. *)
Definition be_bytes (v : Z) : list Z :=
  [v / 2 ^ 24 mod 2 ^ 8; v / 2 ^ 16 mod 2 ^ 8; v / 2 ^ 8 mod 2 ^ 8; v mod 2 ^ 8].

Lemma be_bytes_masks v :
  [(v >> 24) .& 0xff; (v >> 16) .& 0xff; (v >> 8) .& 0xff; v .& 0xff] = be_bytes v.
Proof.
  unfold be_bytes. change 0xff with (2 ^ 8 - 1).
  rewrite !land_mask, !Z.shiftr_div_pow2 by lia. done.
Qed.

Lemma be_bytes_u8 v : Forall is_u8 (be_bytes v).
Proof.
  unfold be_bytes. rewrite !Forall_cons, Forall_nil.
  repeat split; try (apply Z.mod_pos_bound; lia).
Qed.

Lemma size_word_unhex size n : exists t, Bin2hex.size_word size n = t /\
  forall u, unhex (t ++ u) = app (be_bytes size) <$> unhex u.
Proof.
  unfold Bin2hex.size_word. rewrite be_bytes_masks.
  destruct (hex_put_unhex n (be_bytes size) (be_bytes_u8 size) 0 []) as (t & -> & Ht).
  by exists t.
Qed.

(** ** bin2srec *)

Definition sum (l : list Z) : Z := fold_right Z.add 0 l.

(** The record for 16 bytes at an address: length, address, data, checksum. *)
Definition srec_checksum (addr : Z) (data : list Z) : Z :=
  u8 (0xff - (0x14 + sum (tail (be_bytes addr)) + sum data)).
Definition srec_record (addr : Z) (data : list Z) : text :=
  str "S214" ++ print_hex 6 addr ++ hex_bytes data ++ print_hex 2 (srec_checksum addr data) ++
  ["013"%char; newline].

Definition srec_body (acc : Z * text) (c : Z) : Z * text :=
  let '(chksum, out) := acc in (u8 (chksum - c), out ++ print_hex 2 c).

Lemma u8_sub a b : u8 (u8 a - b) = u8 (a - b).
Proof. unfold wrap. apply Zminus_mod_idemp_l. Qed.

Lemma srec_body_fold l : forall k out, fold_left srec_body l (u8 k, out) =
  (u8 (k - sum l), out ++ hex_bytes l).
Proof.
  induction l as [|c l IH]; intros k out; cbn [fold_left srec_body].
  - cbn. by rewrite Z.sub_0_r, app_nil_r.
  - rewrite u8_sub, IH. cbn [hex_bytes sum fold_right map concat].
    rewrite <- app_assoc. f_equal. f_equal. unfold sum. lia.
Qed.

Lemma srec_record_ok addr f out : 0 <= addr ->
  Bin2srec.record addr f out =
  (Stream (drop 16 (rest f)) (feof f || (length (rest f) <? 16)%nat),
   out ++ srec_record addr (padded 16 (rest f))).
Proof.
  intros Ha. unfold Bin2srec.record.
  rewrite (for_upto_bytes srec_body) by (intros i f' [k o]; cbn; by destruct (fgetc0 f')).
  change (Z.to_nat 16) with 16%nat. set (data := padded 16 (rest f)).
  change Bin2srec.SCHKSUM with (u8 0xff). rewrite srec_body_fold. f_equal.
  unfold srec_record, Bin2srec.SMARK. rewrite <- !app_assoc. do 5 f_equal.
  unfold srec_checksum. change 0xff with (2 ^ 8 - 1) at 2 3 4.
  rewrite !land_mask, !Z.shiftr_div_pow2 by lia.
  set (k := 255 - sum data). rewrite (u8_sub k), (u8_sub (k - _)), (u8_sub (k - _ - _)),
    (u8_sub (k - _ - _ - _)).
  do 2 f_equal. unfold k, be_bytes, wrap. generalize (sum data) as d. intros d.
  unfold sum. cbn [tail fold_right]. ring.
Qed.

Lemma srec_loop_blocks l : forall addr fuel out,
  0 <= addr -> addr + 16 * (Z.of_nat (length l) / 16 + 1) < 2 ^ 64 ->
  (length l / 16 + 2 <= fuel)%nat ->
  Bin2srec.loop fuel addr (Stream l false) out =
  Some (out ++ by_blocks 16 (fun k b => srec_record (addr + 16 * Z.of_nat k) b)
                            (fun k b => srec_record (addr + 16 * Z.of_nat k) (padded 16 b)) l).
Proof.
  revert l. refine (blocks_ind 16 _ _ _ _); [lia|intros l Hl|intros b l Hb IH];
    intros addr fuel out Ha Hmax Hf; (destruct fuel as [|fuel]; [lia|]);
    cbn [Bin2srec.loop feof]; rewrite srec_record_ok by done; cbn [rest feof orb].
  - destruct (Nat.ltb_spec (length l) 16); [|lia].
    rewrite by_blocks_short by done. destruct fuel as [|fuel]; [lia|]. cbn.
    by rewrite Z.add_0_r.
  - rewrite length_app, Hb in *. destruct (Nat.ltb_spec (16 + length l) 16); [lia|].
    rewrite <- Hb at 1. rewrite drop_app_length.
    assert (Hq : ((16 + length l) / 16 = S (length l / 16))%nat).
    { replace (16 + length l)%nat with (length l + 1 * 16)%nat by lia.
      rewrite Nat.div_add by lia. lia. }
    assert (HqZ : Z.of_nat (16 + length l) / 16 = Z.of_nat (length l) / 16 + 1).
    { rewrite Nat2Z.inj_add. change (Z.of_nat 16) with 16.
      replace (16 + Z.of_nat (length l)) with (Z.of_nat (length l) + 1 * 16) by lia.
      by rewrite Z.div_add by lia. }
    pose proof (Z.div_pos (Z.of_nat (length l)) 16 ltac:(lia) ltac:(lia)).
    rewrite (wrap_small 64) by (split; lia).
    rewrite IH by lia. rewrite by_blocks_step by (done || lia).
    rewrite <- app_assoc. do 2 f_equal. rewrite Z.mul_0_r, Z.add_0_r.
    assert (Hp : padded 16 (b ++ l) = b).
    { unfold padded. rewrite <- app_assoc, <- Hb. apply take_app_length. }
    rewrite Hp. f_equal. apply by_blocks_ext; intros k b'; f_equal; lia.
Qed.

(** ** Numbers as bytes *)

(** The big endian number of some bytes. *)
Definition be (l : list Z) : Z := fold_left (fun w c => w * 2 ^ 8 + c) l 0.

Lemma be_snoc l c : be (l ++ [c]) = be l * 2 ^ 8 + c.
Proof. unfold be. by rewrite fold_left_app. Qed.

Lemma be_range l : Forall is_u8 l -> 0 <= be l < 2 ^ (8 * Z.of_nat (length l)).
Proof.
  induction l as [|c l IH] using rev_ind; [cbn; lia|].
  rewrite Forall_app, Forall_singleton. intros [Hl [c1 c2]]. specialize (IH Hl).
  rewrite be_snoc, length_app. cbn [length].
  replace (8 * Z.of_nat (length l + 1)) with (8 * Z.of_nat (length l) + 8) by lia.
  rewrite Z.pow_add_r by lia. set (p := 2 ^ (8 * Z.of_nat (length l))) in *.
  change (2 ^ 8) with 256 in *. lia.
Qed.

Lemma hex_length_le v n : 0 <= v < 2 ^ (4 * Z.of_nat n) -> (hex_length v <= n)%nat.
Proof.
  intros Hv. unfold hex_length. destruct (Z.eqb_spec v 0); [lia|].
  assert (Hl : Z.log2 v < 4 * Z.of_nat n) by (apply Z.log2_lt_pow2; lia).
  assert (Z.log2 v / 4 < Z.of_nat n) by (apply Z.div_lt_upper_bound; lia). lia.
Qed.

Lemma nibbles_byte n v c : is_u8 c ->
  nibbles (S (S n)) (v * 2 ^ 8 + c) = nibbles n v ++ print_hex 2 c.
Proof.
  intros Hc. rewrite print_byte by done. cbn [nibbles]. rewrite <- app_assoc. cbn [app].
  destruct Hc as [c1 c2]. change (2 ^ 8) with 256 in *.
  assert (Hq : 0 <= c / 16 < 16)
    by (split; [apply Z.div_pos; lia|apply Z.div_lt_upper_bound; lia]).
  pose proof (Z.div_mod c 16 ltac:(lia)). pose proof (Z.mod_pos_bound c 16 ltac:(lia)).
  rewrite <- (Z.div_unique (v * 256 + c) 16 (v * 16 + c / 16) (c mod 16)) by lia.
  rewrite <- (Z.mod_unique (v * 256 + c) 16 (v * 16 + c / 16) (c mod 16)) by lia.
  rewrite <- (Z.div_unique (v * 16 + c / 16) 16 v (c / 16)) by lia.
  by rewrite <- (Z.mod_unique (v * 16 + c / 16) 16 v (c / 16)) by lia.
Qed.

(** A number printed with two digits for each of its bytes. *)
Lemma print_be n l : length l = n -> Forall is_u8 l -> print_hex (2 * n) (be l) = hex_bytes l.
Proof.
  intros Hn Hl. pose proof (be_range l Hl) as Hr. unfold print_hex.
  rewrite Nat.max_l by (apply hex_length_le; rewrite Hn in Hr;
    by replace (4 * Z.of_nat (2 * n)) with (8 * Z.of_nat n) by lia).
  clear Hr. revert n Hn. induction l as [|c l IH] using rev_ind; intros n Hn.
  - cbn in Hn. by subst n.
  - apply Forall_app in Hl as [Hl Hc]. rewrite Forall_singleton in Hc.
    rewrite length_app in Hn. cbn in Hn. destruct n as [|n]; [lia|].
    replace (2 * S n)%nat with (S (S (2 * n))) by lia.
    rewrite be_snoc, nibbles_byte, IH by (done || lia).
    unfold hex_bytes. by rewrite map_app, concat_app; cbn; rewrite app_nil_r.
Qed.

Lemma unhex_bytes l u : Forall is_u8 l -> unhex (hex_bytes l ++ u) = app l <$> unhex u.
Proof.
  induction 1 as [|c l Hc _ IH]; [by cbn; destruct (unhex u)|].
  cbn [hex_bytes map concat]. rewrite <- app_assoc, unhex_byte by done.
  fold (hex_bytes l). rewrite IH. by destruct (unhex u).
Qed.

Lemma be_bytes_be v : 0 <= v < 2 ^ 24 -> be (tail (be_bytes v)) = v.
Proof.
  intros Hv. unfold be, be_bytes. cbn [tail fold_left].
  pose proof (Z.div_mod v (2 ^ 8) ltac:(lia)) as E1.
  pose proof (Z.div_mod (v / 2 ^ 8) (2 ^ 8) ltac:(lia)) as E2.
  rewrite Z.div_div in E2 by lia. change (2 ^ 8 * 2 ^ 8) with (2 ^ 16) in E2.
  rewrite (Z.mod_small (v / 2 ^ 16)); [lia|].
  split; [apply Z.div_pos; lia|apply Z.div_lt_upper_bound; lia].
Qed.

(** A reader of the format finds the length, the address, the data, and a
    checksum that makes the sum of all bytes 0xff. *)
Lemma srec_record_read addr data :
  0 <= addr < 2 ^ 24 -> Forall is_u8 data ->
  exists t, srec_record addr data = str "S2" ++ t ++ ["013"%char; newline] /\
    unhex t = Some (0x14 :: tail (be_bytes addr) ++ data ++ [srec_checksum addr data]) /\
    (0x14 + sum (tail (be_bytes addr)) + sum data + srec_checksum addr data) mod 2 ^ 8 = 0xff.
Proof.
  intros Ha Hd.
  assert (Ht : Forall is_u8 (tail (be_bytes addr))).
  { pose proof (be_bytes_u8 addr) as Hb. by apply Forall_cons in Hb as [_ Hb]. }
  assert (Hc : is_u8 (srec_checksum addr data)) by (apply wrap_range; lia).
  exists (str "14" ++ print_hex 6 addr ++ hex_bytes data ++ print_hex 2 (srec_checksum addr data)).
  split; [|split].
  - unfold srec_record. rewrite <- !app_assoc. done.
  - rewrite <- (be_bytes_be addr Ha) at 1. rewrite (print_be 3) by done.
    change (str "14") with (hex_bytes [0x14]). rewrite !unhex_bytes by (done || (apply Forall_singleton; by vm_compute)).
    rewrite <- (app_nil_r (print_hex 2 _)), unhex_byte by done. done.
  - unfold srec_checksum, wrap. rewrite Zplus_mod_idemp_r.
    match goal with |- ?z mod _ = _ => replace z with 255 by lia end. done.
Qed.

(** ** bin2flimg *)

Definition flimg_body (word c : Z) : Z := u64 (u64 (Z.shiftl word 8) + c).

Lemma flimg_fold l : Forall is_u8 l -> (length l <= 8)%nat -> fold_left flimg_body l 0 = be l.
Proof.
  induction l as [|c l IH] using rev_ind; [done|]. intros Hl Hlen.
  pose proof (be_range _ Hl) as Hr. rewrite length_app in *. cbn in Hlen, Hr.
  apply Forall_app in Hl as [Hl Hc]. rewrite Forall_singleton in Hc.
  pose proof (Z.pow_le_mono_r 2 (8 * Z.of_nat (length l + 1)) 64 ltac:(lia) ltac:(lia)).
  rewrite be_snoc in Hr. destruct Hc as [c1 c2]. pose proof (be_range l Hl).
  rewrite fold_left_app, IH, be_snoc by (done || lia). cbn [fold_left]. unfold flimg_body.
  rewrite Z.shiftl_mul_pow2 by lia. rewrite (wrap_small 64 (be l * _)) by (split; lia).
  apply wrap_small. split; lia.
Qed.

Lemma flimg_loop_blocks w l : forall fuel out,
  In w [1%nat; 2%nat; 4%nat] -> Forall is_u8 l -> (length l / w + 2 <= fuel)%nat ->
  Bin2flimg.loop fuel (Z.of_nat w) (Stream l false) out =
  Some (out ++ by_blocks w (fun _ b => hex_bytes b ++ [newline])
                           (fun _ b => hex_bytes (padded w b) ++ [newline]) l).
Proof.
  intros fuel out Hw. assert (Hw0 : (0 < w <= 8)%nat)
    by (destruct Hw as [<-|[<-|[<-|[]]]]; lia). revert fuel out. revert l.
  assert (Hpad : forall b, Forall is_u8 b -> Forall is_u8 (padded w b)).
  { intros b Hb. apply Forall_take, Forall_app. split; [done|].
    apply Forall_replicate. by vm_compute. }
  assert (Hprint : forall b, Forall is_u8 b -> length b = w ->
    Bin2flimg.print_word (Z.of_nat w) (fold_left flimg_body b 0) = hex_bytes b ++ [newline]).
  { intros b Hb Hlen. rewrite flimg_fold by (done || lia). unfold Bin2flimg.print_word.
    rewrite <- (print_be w b) by done. by destruct Hw as [<-|[<-|[<-|[]]]]. }
  refine (blocks_ind w _ _ _ _); [lia|intros l Hl|intros b l Hb IH]; intros fuel out Hu Hf;
    (destruct fuel as [|fuel]; [lia|]); cbn [Bin2flimg.loop feof];
    rewrite (for_upto_bytes flimg_body) by (intros i f k; cbn; by destruct (fgetc0 f));
    cbn [rest feof orb]; rewrite Nat2Z.id.
  - rewrite Hprint by (auto using padded_length).
    destruct (Nat.ltb_spec (length l) w); [|lia].
    rewrite by_blocks_short by done. destruct fuel as [|fuel]; [lia|]. done.
  - apply Forall_app in Hu as [Hub Hul]. rewrite length_app, Hb in *.
    assert (Hp : padded w (b ++ l) = b).
    { unfold padded. rewrite <- app_assoc, <- Hb. apply take_app_length. }
    rewrite Hp, Hprint by done. destruct (Nat.ltb_spec (w + length l) w); [lia|].
    rewrite <- Hb at 2. rewrite drop_app_length.
    assert (Hq : ((w + length l) / w = S (length l / w))%nat).
    { replace (w + length l)%nat with (length l + 1 * w)%nat by lia.
      rewrite Nat.div_add by lia. lia. }
    rewrite IH by (done || lia). rewrite by_blocks_step by (done || lia).
    by rewrite <- app_assoc.
Qed.

(** Without a positive width the loop reads nothing, and never finds the end. *)
Lemma flimg_loop_diverges fuel width f out : width <= 0 -> feof f = false ->
  Bin2flimg.loop fuel width f out = None.
Proof.
  intros Hw. revert f out. induction fuel as [|fuel IH]; intros f out Hf; cbn; [done|].
  rewrite Hf. unfold for_upto. replace (Z.to_nat width) with 0%nat by lia. by apply IH.
Qed.

(** ** bin2vmem *)

(** Words of four bytes, each after a space. *)
Definition vmem_word (b : list Z) : text := match b with [] => [] | _ => str " " ++ hex_bytes b end.
Definition vmem_words (b : list Z) : text :=
  by_blocks 4 (fun _ => vmem_word) (fun _ => vmem_word) b.

(** A line of [b] at word address [addr]; the line break ends a full line. *)
Definition vmem_line (addr : Z) (b : list Z) : text :=
  match b with
  | [] => []
  | _ => str "@" ++ print_hex 8 addr ++ vmem_words b ++
         (if (length b =? 16)%nat then [newline] else [])
  end.

Section VmemLine.
Import Bin2vmem.

Lemma vmem_next_byte a w j o c : 0 <= j < 4 ->
  put (State a w j false o) c =
  let o := o ++ (if j =? 0 then str " " else []) ++ print_hex 2 c in
  if j =? 3 then
    if w =? 3 then State a 0 0 true (o ++ [newline]) else State a (w + 1) 0 false o
  else if w =? 4 then State a 0 (j + 1) true (o ++ [newline]) else State a w (j + 1) false o.
Proof.
  intros Hj. unfold put, BYTES_PER_WORD, WORDS_PER_LINE. cbv zeta.
  assert (Ho : (if j =? 0 then o ++ str " " else o) ++ print_hex 2 c =
    o ++ (if j =? 0 then str " " else []) ++ print_hex 2 c)
    by (destruct (j =? 0); by rewrite <- ?app_assoc).
  rewrite Ho. destruct (Z.eqb_spec (j + 1) 4), (Z.eqb_spec j 3); try lia; [|done].
  destruct (Z.eqb_spec (w + 1) 4), (Z.eqb_spec w 3); (lia || done).
Qed.

Lemma vmem_byte a w o c : 0 <= w < 4 ->
  put (State a w 0 false o) c = State a w 1 false (o ++ str " " ++ print_hex 2 c) /\
  put (State a w 1 false o) c = State a w 2 false (o ++ print_hex 2 c) /\
  put (State a w 2 false o) c = State a w 3 false (o ++ print_hex 2 c) /\
  put (State a w 3 false o) c =
    if w =? 3 then State a 0 0 true (o ++ print_hex 2 c ++ [newline])
    else State a (w + 1) 0 false (o ++ print_hex 2 c).
Proof.
  intros Hw. assert ((w =? 4) = false) as E by (apply Z.eqb_neq; lia).
  rewrite !vmem_next_byte by lia. cbv zeta. rewrite E. split; [done|]. split; [done|].
  split; [done|]. change (if 3 =? 0 then str " " else []) with (@nil ascii).
  change (3 =? 3) with true. cbv iota. by rewrite <- !app_assoc.
Qed.

(** A word of the line, then the rest of it. *)
Lemma vmem_put_word b a w o : length b = 4%nat -> 0 <= w < 4 ->
  fold_left put b (State a w 0 false o) =
  let o := o ++ vmem_word b in
  if w =? 3 then State a 0 0 true (o ++ [newline]) else State a (w + 1) 0 false o.
Proof.
  intros Hb Hw. destruct b as [|c0 [|c1 [|c2 [|c3 [|? ?]]]]]; try done.
  cbn [fold_left].
  rewrite (proj1 (vmem_byte _ _ _ c0 Hw)), (proj1 (proj2 (vmem_byte _ _ _ c1 Hw))),
    (proj1 (proj2 (proj2 (vmem_byte _ _ _ c2 Hw)))),
    (proj2 (proj2 (proj2 (vmem_byte _ _ _ c3 Hw)))).
  unfold vmem_word, hex_bytes. cbn [map concat]. rewrite app_nil_r, <- !app_assoc. done.
Qed.

Lemma vmem_put_part b a w o : (length b < 4)%nat -> 0 <= w < 4 ->
  out (fold_left put b (State a w 0 false o)) = o ++ vmem_word b.
Proof.
  intros Hb Hw. destruct b as [|c0 [|c1 [|c2 [|? ?]]]]; cbn [length] in Hb; try lia;
    cbn [fold_left out]; [by rewrite app_nil_r|..];
    rewrite ?(proj1 (vmem_byte _ _ _ c0 Hw)), ?(proj1 (proj2 (vmem_byte _ _ _ _ Hw))),
      ?(proj1 (proj2 (proj2 (vmem_byte _ _ _ _ Hw))));
    unfold vmem_word, hex_bytes; cbn [map concat out]; by rewrite app_nil_r, <- ?app_assoc.
Qed.

(** What is left of a line of which [w] words have been printed. *)
Lemma vmem_put_rest b a : forall w o, 0 <= w < 4 ->
  (length b < 16 - 4 * Z.to_nat w)%nat ->
  out (fold_left put b (State a w 0 false o)) = o ++ vmem_words b.
Proof.
  revert b. refine (blocks_ind 4 _ _ _ _); [lia|intros b Hb|intros c b Hc IH]; intros w o Hw Hlt.
  - unfold vmem_words. rewrite by_blocks_short by done. by apply vmem_put_part.
  - rewrite length_app in Hlt. rewrite fold_left_app, vmem_put_word by done. cbv zeta.
    destruct (Z.eqb_spec w 3); [lia|]. rewrite IH by lia.
    unfold vmem_words. rewrite by_blocks_step by (done || lia). by rewrite <- app_assoc.
Qed.

Lemma vmem_put_full b a : forall w o, 0 <= w < 4 ->
  (length b = 16 - 4 * Z.to_nat w)%nat ->
  fold_left put b (State a w 0 false o) = State a 0 0 true (o ++ vmem_words b ++ [newline]).
Proof.
  revert b. refine (blocks_ind 4 _ _ _ _); [lia|intros b Hb|intros c b Hc IH]; intros w o Hw Hlt.
  - lia.
  - rewrite length_app in Hlt. rewrite fold_left_app, vmem_put_word by done. cbv zeta.
    unfold vmem_words in *. rewrite by_blocks_step by (done || lia).
    destruct (Z.eqb_spec w 3) as [->|].
    + destruct b; [|cbn in Hlt; lia]. cbn. by rewrite app_nil_r, <- app_assoc.
    + rewrite IH by lia. by rewrite <- !app_assoc.
Qed.

(** The first byte of a line prints the address. *)
Lemma vmem_start b a o : b <> [] -> 0 <= a < 2 ^ 32 ->
  fold_left put b (State a 0 0 true o) =
  fold_left put b (State (a + 4) 0 0 false (o ++ str "@" ++ print_hex 8 a)).
Proof.
  intros Hb Ha. destruct b as [|c b]; [done|]. cbn [fold_left]. f_equal.
  unfold put. by rewrite (wrap_small 32 a).
Qed.

Lemma vmem_lines l : forall a o, 0 <= a -> a + Z.of_nat (length l) < 2 ^ 32 ->
  out (fold_left put l (State a 0 0 true o)) =
  o ++ by_blocks 16 (fun k => vmem_line (a + 4 * Z.of_nat k))
                    (fun k => vmem_line (a + 4 * Z.of_nat k)) l.
Proof.
  revert l. refine (blocks_ind 16 _ _ _ _); [lia|intros l Hl|intros b l Hb IH];
    intros a o Ha Hmax.
  - rewrite by_blocks_short by done. rewrite Z.mul_0_r, Z.add_0_r.
    destruct (decide (l = [])) as [->|Hne]; [cbn; by rewrite app_nil_r|].
    rewrite vmem_start, vmem_put_rest by (done || lia).
    unfold vmem_line. destruct (Nat.eqb_spec (length l) 16); [lia|].
    destruct l; [done|]. by rewrite <- !app_assoc, app_nil_r.
  - rewrite length_app, Nat2Z.inj_add, Hb in Hmax. change (Z.of_nat 16) with 16 in Hmax.
    rewrite fold_left_app, vmem_start, vmem_put_full by (done || lia || by destruct b).
    rewrite IH by lia. rewrite by_blocks_step by (done || lia).
    rewrite Z.mul_0_r, Z.add_0_r.
    assert (Hline : vmem_line a b = str "@" ++ print_hex 8 a ++ vmem_words b ++ [newline]).
    { unfold vmem_line. rewrite Hb. by destruct b. }
    rewrite Hline, <- !app_assoc. do 5 f_equal. apply by_blocks_ext; intros k b'; f_equal; lia.
Qed.

End VmemLine.
