(* ===== verification/Demo.v ===== *)
(** Concrete machines on which the theorems are instantiated: the host is
    [RamHost], a RAM with a register file, and the build is the standalone
    one. *)

From Stdlib Require Import String.
From stdpp Require Import gmap strings.
From S2P Require Import Prelude Spr Host Cpu Arith Decode Exceptions Mmu Instr Memory Exec.
From S2P Require Import Isa Refine Recover.

Open Scope Z_scope.

Definition standalone_build : Build := true.
Definition hosted_build : Build := false.

(** A processor out of reset, with some registers set. *)
Definition demo_cpu (at_pc status : Z) (regs : list (Z * Z)) : CPU :=
  let cpu := cpu_reset (cpu_init0 (Cpu [] 0 0 0 0 0 0 0 0 0 0 0 0)) in
  let cpu := fold_right (fun p cpu => cpu_set_gpr cpu p.1 p.2) cpu regs in
  cpu_set_sr (cpu_set_npc (cpu_set_pc cpu at_pc) (at_pc + 4)) status.

Definition demo_host (words regs : list (Z * Z)) : RamHost.ram_host :=
  RamHost.RamHost (list_to_map words) (list_to_map regs) ∅.

Definition demo (at_pc status : Z) (regs words sprs : list (Z * Z)) : sim RamHost.ram_host :=
  Sim (demo_cpu at_pc status regs) (demo_host words sprs).

(** Supervisor mode, MMUs off. *)
Definition sr_reset : Z := 0x8001.
(** The same with the data MMU on, and with the instruction MMU on. *)
Definition sr_dmmu : Z := 0x8021.
Definition sr_immu : Z := 0x8041.

(** The control word of an instruction. *)
Definition demo_cont (i : instr) : control := decode (encode i).

Import RamHost.
#[local] Existing Instance standalone_build.

(** The squashed instruction is an addition at 0x200; the next is a subtraction. *)
Definition recovery_demo (violated : Z) : sim RamHost.ram_host :=
  demo 0x100 sr_reset [(1, 7); (2, 35)]
    [(0x1fc, encode (Jump J 1)); (0x200, encode (Alu Add 3 1 2));
     (0x204, encode (Alu Sub 4 3 1)); (0x208, encode (Load Word 5 3 8))]
    [(ASSERTION_REG, violated); (EPPC_REG, 0x204); (SPR_EPCR_BASE, 0x208)].

Definition recovered (s : sim RamHost.ram_host) : sim RamHost.ram_host :=
  match runSim 4 s with Some (Ok s') => s' | _ => s end.

(** A file system with one file. *)
Definition one_file (file : list Z) : string -> option (list Z) :=
  fun name => if String.eqb name "f"%string then Some file else None.

(** Decides a proposition by computation. *)
Ltac by_computation := apply (bool_decide_eq_true_1 _); vm_compute; reflexivity.

Lemma demo_wf_at_0x100 :
  sim_wf (demo 0x100 sr_reset [(1, 7); (2, 35)] [(0x100, encode (Alu Add 3 1 2))] []).
Proof. unfold sim_wf. by_computation. Qed.
