(* ===== verification/Properties.v ===== *)
(** The theorems about the simulator and the recovery handler, each with an
    instance on a concrete machine where it has hypotheses. *)

From Stdlib Require Import Ascii String.
From stdpp Require Import gmap strings.
From S2P Require Import Prelude Spr Host Cpu Arith Decode Exceptions Mmu Instr Memory Exec.
From S2P Require Import Isa Handlers Refine Recover TlbHandlers SimMain Utils Demo.

Open Scope Z_scope.
Open Scope cword_scope.

(** ** The instruction set *)

Section Simulator.
Context `{HB : Build} {H : Type} `{HL : HostLaws H}.

(** C1: one call of [cpu_exec_inst] on a fetched word has the effect the
    instruction set of Isa.v gives the instruction the word encodes, and then
    advances the PC; on a word that encodes no instruction it does not return,
    and the word 0xdeadbeef, which stands for a failed fetch, is skipped.  The
    effect is claimed for the operands [instr_defined] admits.  Left out are
    those for which C leaves the code undefined: the sum of l.mac, l.msb and
    l.maci out of 64 bits, l.srl by 32 or more, l.ror and l.rori by zero, the
    least integer as rB of l.sub and as an operand of l.div; those for which
    the code is defined but is not the instruction: l.sub with rD = 0, whose
    overflow flag is computed from r0; and the accesses that do not reach the
    RAM: of any width to the physical addresses 0 to 3, of words and half words
    at 0x08000000 or above (bytes go to the byte bus there, which is covered),
    and of special registers the simulator refuses. *)
Theorem cpu_exec_inst_refines (s : sim H) w :
  sim_wf s -> next_word s w ->
  if w =? no_inst then cpu_exec_inst s = Ok (with_cpu s (cpu_advance_pc (s_cpu s)))
  else
  (forall i, isa_decode w = Some i -> instr_defined i s = true ->
     exists s1, effect i s s1 /\
       cpu_exec_inst s = Ok (with_cpu s1 (cpu_advance_pc (s_cpu s1)))) /\
  (isa_decode w = None -> cpu_exec_inst s = if STANDALONE then Hang else AssertFail).
Proof.
  intros Hs Hw. destruct (Z.eqb_spec w no_inst) as [->|Hne].
  { unfold cpu_exec_inst. by rewrite (fetch_hit s _ Hs Hw). }
  rewrite (cpu_exec_inst_fetched s w) by done.
  destruct (execute_implements w s (next_word_word s w Hw) Hs) as (m & -> & Hm).
  split.
  - intros i Hi Hd. rewrite Hi in Hm. destruct (Hm Hd) as (s1 & -> & He). by exists s1.
  - intros Hi. rewrite Hi in Hm. cbn [implements] in Hm. rewrite Hm. by destruct STANDALONE.
Qed.

(** C2: simulating any number of instructions keeps every register a 32-bit
    word and register 0 zero, and leaves no branch pending between
    instructions. *)
Theorem run_invariant n (s : sim H) :
  sim_wf s -> settled (s_cpu s) ->
  returns (fun s' => sim_wf s' /\ settled (s_cpu s') /\ cpu_get_gpr (s_cpu s') 0 = 0)
    (run n s).
Proof.
  revert s. induction n as [|n IH]; intros s Hs Hb; cbn [run].
  - split; [done|]. split; [done|]. apply get_gpr_0, Hs.
  - apply (returns_bind (fun s1 => sim_wf s1 /\ settled (s_cpu s1))).
    + pose proof (cpu_exec_inst_wf s Hs) as H1. pose proof (cpu_exec_inst_settled s) as H2.
      by destruct (cpu_exec_inst s).
    + intros s1 [H1 H2]. by apply IH.
Qed.

(** ** Memory *)

(** C3: a load of any width at an unaligned address raises an alignment
    exception, at an address the data TLB does not map a TLB miss; where the
    translated address is from 4 to below 0x08000000, it puts the big endian
    number in the bytes there, extended with zeros or the sign, into the
    destination register.  At the translated address 0, which the code takes for
    a result code, what it loads is undefined, for every width; a byte at or
    above 0x08000000 is the one the byte bus returns.  The addresses 1 to 3, and
    words and half words at or above 0x08000000, are left out. *)
Theorem load_correct k (s : sim H) cont :
  let ea := calc_ea (s_cpu s) cont in
  (ea mod width k <> 0 ->
     load k s cont = Ok (with_cpu s (alignment_exception (s_cpu s) ea))) /\
  (ea mod width k = 0 -> data_translate s ea = None ->
     load k s cont = Ok (with_cpu s (dataTLBMiss (s_cpu s) (miss_address k ea)))) /\
  (forall pa, ea mod width k = 0 -> data_translate s ea = Some pa ->
     4 <= pa < 0x08000000 ->
     load k s cont = Ok (set_gpr s (c_rD cont) (load_value k (s_host s) pa))) /\
  (ea mod width k = 0 -> data_translate s ea = Some 0 -> load k s cont = Undef) /\
  (forall pa, data_translate s ea = Some pa -> 0x08000000 <= pa -> bus_byte k = true ->
     let r := match k with ByteS => host_lbs pa (s_host s) | _ => host_lbz pa (s_host s) end in
     load k s cont = Ok (set_gpr (Sim (s_cpu s) r.2) (c_rD cont) r.1)).
Proof.
  intros ea. split; [|split; [|split; [|split]]].
  - intros Hu. exact (proj1 (access_unaligned k s cont Hu)).
  - intros Hal Ht. exact (proj1 (access_miss k s cont Hal Ht)).
  - intros pa. apply load_hit.
  - intros Hal. by apply load_word0_undef.
  - intros pa Ht Hpa Hk. destruct (byte_bus s cont pa Ht Hpa) as (Hz & Hb & _).
    by destruct k.
Qed.

(** C4: a store of any width fails as a load does; where the translated
    address is from 4 to below 0x08000000, it replaces exactly the bytes it
    writes: every other byte below 0x08000000, the processor and the special
    registers are as before, but for DCBFR and ICBIR, the two registers that it
    writes to flush the line from the caches and of which nothing is claimed.
    At the translated address 0, which the code takes for a result code, a
    store of a word is dropped and the others are undefined; a byte at or above
    0x08000000 goes to the byte bus.  The addresses 1 to 3, and words and half
    words at or above 0x08000000, are left out. *)
Theorem store_correct k (s : sim H) cont :
  sim_wf s ->
  let ea := calc_ea (s_cpu s) cont in
  (ea mod width k <> 0 ->
     store k s cont = Ok (with_cpu s (alignment_exception (s_cpu s) ea))) /\
  (ea mod width k = 0 -> data_translate s ea = None ->
     store k s cont = Ok (with_cpu s (dataTLBMiss (s_cpu s) (miss_address k ea)))) /\
  (forall pa, ea mod width k = 0 -> data_translate s ea = Some pa ->
     4 <= pa < 0x08000000 ->
     exists h', store k s cont = Ok (Sim (s_cpu s) h') /\
       stored (width k) pa (cpu_get_gpr (s_cpu s) (c_rB cont)) (s_host s) h') /\
  (ea mod width k = 0 -> data_translate s ea = Some 0 ->
     store k s cont = match k with Word => Ok s | _ => Undef end) /\
  (forall pa, data_translate s ea = Some pa -> 0x08000000 <= pa -> bus_byte k = true ->
     store k s cont =
       Ok (Sim (s_cpu s) (host_sb pa (cpu_get_gpr (s_cpu s) (c_rB cont)) (s_host s)))).
Proof.
  intros Hs ea. split; [|split; [|split; [|split]]].
  - intros Hu. exact (proj2 (access_unaligned k s cont Hu)).
  - intros Hal Ht. exact (proj2 (access_miss k s cont Hal Ht)).
  - intros pa. by apply store_hit.
  - intros Hal Ht. by apply store_word0.
  - intros pa Ht Hpa Hk. destruct (byte_bus s cont pa Ht Hpa) as (_ & _ & Hb).
    by destruct k.
Qed.

(** C5: a load that follows a store of the same width at the same address finds
    the low bytes of the register that was stored, where the address is aligned
    and translated to one of the bytes from 4 to below 0x08000000: the first
    word of the RAM cannot be accessed. *)
Theorem store_load k (s : sim H) cst cld pa :
  sim_wf s ->
  calc_ea (s_cpu s) cst mod width k = 0 ->
  calc_ea (s_cpu s) cld = calc_ea (s_cpu s) cst ->
  data_translate s (calc_ea (s_cpu s) cst) = Some pa ->
  4 <= pa -> pa + width k <= 0x08000000 ->
  exists h',
    (s1 ← store k s cst; load k s1 cld) =
    Ok (set_gpr (Sim (s_cpu s) h') (c_rD cld)
          (extended k (cpu_get_gpr (s_cpu s) (c_rB cst)))).
Proof.
  intros Hs Hal Heq Ht Hlo Hhi. assert (0 < width k) by (destruct k; cbn; lia).
  destruct (store_hit k s cst pa) as (h' & -> & Hst); [done..|lia|].
  exists h'. rewrite bind_Ok.
  rewrite (load_hit k _ cld pa); cbn [s_cpu]; rewrite ?Heq.
  - rewrite (stored_load_value k pa (cpu_get_gpr (s_cpu s) (c_rB cst)) (s_host s) h')
      by (done || lia). done.
  - done.
  - by rewrite (stored_translate s pa _ _ _ _ Hst).
  - lia.
Qed.

(** the word [encode i] of an instruction is executed as [i]: decoding by
    [decode] loses none of its operands. *)
Theorem execute_encoded i (s : sim H) :
  instr_wf i -> sim_wf s -> instr_defined i s = true ->
  exists s1, effect i s s1 /\
    execute (OPCODE (encode i)) s (decode (encode i)) =
    Ok (with_cpu s1 (cpu_advance_pc (s_cpu s1))).
Proof.
  intros Hi Hs Hd.
  destruct (execute_implements (encode i) s (encode_word i Hi) Hs) as (m & -> & Hm).
  rewrite isa_decode_encode in Hm by done. destruct (Hm Hd) as (s1 & -> & He). by exists s1.
Qed.

(** ** Control flow *)

(** The PC moves to the next instruction; the one after it is the target of
    a pending branch, and the branch is no longer pending.  The next instruction
    is recognised as a delay slot exactly when a branch was pending whose target
    is not the instruction after the delay slot. *)
Theorem advance_pc_correct cpu :
  let next := cpu_advance_pc cpu in
  pc next = npc cpu /\
  npc next = (if branch_pc cpu =? 0xffffffff then npc cpu +! 4 else branch_pc cpu) /\
  branch_pc next = 0xffffffff /\
  (gpr next, sr next, epcr next, esr next, eear next) =
    (gpr cpu, sr cpu, epcr cpu, esr cpu, eear cpu) /\
  is_in_delay_slot next =
    negb (branch_pc cpu =? 0xffffffff) && negb (branch_pc cpu =? npc cpu +! 4).
Proof.
  intros next. split; [|split; [|split; [|split]]].
  - unfold next, cpu_advance_pc. by destruct (negb _).
  - unfold next, cpu_advance_pc, cpu_get_branch_pc. cbn.
    by destruct (branch_pc cpu =? 0xffffffff).
  - apply advance_settled.
  - unfold next, cpu_advance_pc. by destruct (negb _).
  - apply advance_delay_slot.
Qed.

(** An instruction that is no jump, executed with no branch pending, is not
    followed by a delay slot, exceptions included. *)
Theorem no_delay_slot_without_jump (s : sim H) w :
  sim_wf s -> settled (s_cpu s) -> next_word s w -> is_jump (OPCODE w) = false ->
  returns (fun s' => npc (s_cpu s') = pc (s_cpu s') +! 4) (cpu_exec_inst s).
Proof.
  intros Hs Hb Hw Hj. pose proof (cpu_exec_inst_plain s Hb) as Hp.
  rewrite (fetch_hit s w Hs Hw) in Hp. specialize (Hp Hj).
  destruct (cpu_exec_inst s) as [s'| | |]; [|done..]. cbn [returns] in *.
  unfold is_in_delay_slot, cpu_get_npc, cpu_get_pc in Hp.
  by destruct (Z.eqb_spec (npc (s_cpu s')) (pc (s_cpu s') +! 4)).
Qed.

(** ** Exceptions *)

(** C6: every exception saves the restart address and the status, with DSX
    telling whether the instruction was in a delay slot, goes to its vector, and
    enters supervisor mode with the MMUs, interrupts and the timer off; no
    other register of the processor and no other bit of SR changes.  A system
    call saves the address of the next instruction, or of the branch when it is
    in a delay slot, and the status before DSX is brought up to date. *)
Theorem exception_entry cpu ea :
  cpu_wf cpu -> is_u32 ea ->
  entered 0x600 (restart_pc cpu) ea (sr_dsx cpu) cpu (alignment_exception cpu ea) /\
  entered 0x300 (restart_pc cpu) ea (sr_dsx cpu) cpu (dataPageFault cpu ea) /\
  entered 0x900 (restart_pc cpu) ea (sr_dsx cpu) cpu (dataTLBMiss cpu ea) /\
  entered 0x400 (restart_pc cpu) ea (sr_dsx cpu) cpu (instructionPageFault cpu ea) /\
  entered 0xA00 (restart_pc cpu) ea (sr_dsx cpu) cpu (instructionTLBMiss cpu ea) /\
  entered 0xB00 (restart_pc cpu) (eear cpu) (sr_dsx cpu) cpu (range_exception cpu) /\
  entered 0xE00 (restart_pc cpu) (eear cpu) (sr_dsx cpu) cpu (trap cpu) /\
  entered 0xC00 (if is_in_delay_slot cpu then pc cpu -! 4 else npc cpu) (eear cpu) (sr cpu)
    cpu (sys cpu).
Proof.
  intros Hwf Hea. pose proof (sys_entered cpu Hwf) as Hsys.
  destruct (handlers_enter cpu ea) as (-> & -> & -> & -> & -> & -> & ->).
  assert (Hs : forall a, Some ea = Some a -> is_u32 a) by (by intros a [= <-]).
  assert (Hn : forall a, @None Z = Some a -> is_u32 a) by done.
  repeat match goal with |- _ /\ _ => split end;
    first [ exact Hsys | refine (enter_entered _ (Some ea) cpu Hwf _ Hs); by vm_compute
          | refine (enter_entered _ None cpu Hwf _ Hn); by vm_compute ].
Qed.

(** A system call that is not in a delay slot goes to 0xC00 in supervisor
    mode, and [l.rfe] executed by the handler comes back to the next
    instruction with the status of the caller; registers changed by the handler
    stay changed. *)
Theorem syscall_returns cpu (handler : CPU -> CPU) :
  cpu_wf cpu -> settled cpu -> is_in_delay_slot cpu = false ->
  (forall c, esr (handler c) = esr c /\ epcr (handler c) = epcr c /\
             branch_pc (handler c) = branch_pc c) ->
  let entry := cpu_advance_pc (sys cpu) in
  let back := cpu_advance_pc (rfe (handler entry)) in
  pc entry = (if cpu_get_eph cpu then 0xF0000C00 else 0xC00) /\
  cpu_get_sm entry = true /\
  pc back = npc cpu /\ npc back = npc cpu +! 4 /\ sr back = sr cpu /\
  gpr back = gpr (handler entry).
Proof.
  intros Hwf Hset Hds Hh entry back.
  pose proof (sys_entered cpu Hwf) as Hs. rewrite Hds in Hs. destruct Hs as [Hnpc Hepc _ Hesr Hsr Hgpr _ _ _ _].
  destruct (advance_pc_parts (sys cpu)) as (A1 & A2 & A3 & A4 & A5 & A6 & A7).
  destruct (advance_pc_parts (rfe (handler entry))) as (B1 & B2 & B3 & B4 & B5 & B6 & B7).
  fold entry in A1, A2, A3, A4, A5, A6, A7. fold back in B1, B2, B3, B4, B5, B6, B7.
  destruct (Hh entry) as (E1 & E2 & E3).
  assert (Hb : branch_pc (rfe (handler entry)) = 0xffffffff).
  { change (branch_pc (rfe (handler entry))) with (branch_pc (handler entry)).
    rewrite E3. apply advance_settled. }
  rewrite Hb, Z.eqb_refl in B2.
  assert (Hn : npc (rfe (handler entry)) = npc cpu).
  { change (npc (rfe (handler entry))) with (epcr (handler entry)). congruence. }
  split; [rewrite A1, Hnpc; by destruct (cpu_get_eph cpu)|]. split.
  { unfold cpu_get_sm. change SPR_SR_SM with (2 ^ 0). rewrite is_set_sr_flag_bit by lia.
    assert (Hbit : sr_bit (sys cpu) 0 = true) by (by rewrite Hsr).
    unfold sr_bit in *. by rewrite A4. }
  split; [congruence|]. split; [by rewrite B2, Hn|]. split; [|done].
  rewrite B4. change (sr (rfe (handler entry))) with (esr (handler entry)). congruence.
Qed.

(** An instruction whose page the TLB does not map is not executed: the
    instruction TLB miss is taken with EEAR the address of the instruction and
    EPCR the address to restart from, and the handler is the next instruction. *)
Theorem instruction_miss (s : sim H) :
  sim_wf s -> settled (s_cpu s) -> inst_translate s (pc (s_cpu s)) = None ->
  exists cpu',
    cpu_exec_inst s = Ok (with_cpu s cpu') /\
    pc cpu' = (if cpu_get_eph (s_cpu s) then 0xF0000A00 else 0xA00) /\
    npc cpu' = pc cpu' +! 4 /\
    epcr cpu' = restart_pc (s_cpu s) /\ eear cpu' = pc (s_cpu s) /\
    esr cpu' = sr_dsx (s_cpu s) /\ gpr cpu' = gpr (s_cpu s).
Proof.
  intros Hs Hb Ht. set (cpu := s_cpu s) in *.
  pose proof (enter_entered 0xA00 (Some (pc cpu)) cpu Hs ltac:(by vm_compute)
    ltac:(intros a [= <-]; apply wf_pc, Hs)) as [Hnpc Hepc Heear Hesr _ Hgpr _ Hbr _ _].
  destruct (advance_pc_parts (instructionTLBMiss cpu (pc cpu)))
    as (A1 & A2 & A3 & A4 & A5 & A6 & A7).
  change (enter 0xA00 (Some (pc cpu)) cpu) with (instructionTLBMiss cpu (pc cpu)) in *.
  exists (cpu_advance_pc (instructionTLBMiss cpu (pc cpu))). split.
  { unfold cpu_exec_inst. by rewrite (fetch_miss s Hs Ht). }
  rewrite Hbr, Hb, Z.eqb_refl in A2.
  split; [rewrite A1, Hnpc; by destruct (cpu_get_eph cpu)|].
  split; [congruence|]. split; [congruence|]. split; [congruence|]. split; congruence.
Qed.

(** ** Address translation *)

(** C7: the functions that walk the TLBs compute the translation by the entry
    of the page's set, with 1 for a miss; a translation is a 32-bit address with
    the offset of the virtual one. *)
Theorem translation_correct cpu va (h : H) :
  is_u32 va ->
  virtualToPhysicalD cpu va h =
    default 1 (translate (cpu_get_dme cpu) SPR_DTLBMR_BASE SPR_DTLBTR_BASE va h) /\
  virtualToPhysicalI cpu va h =
    default 1 (translate (cpu_get_ime cpu) SPR_ITLBMR_BASE SPR_ITLBTR_BASE va h) /\
  (forall enabled mr tr pa, translate enabled mr tr va h = Some pa ->
     is_u32 pa /\ pa mod 2 ^ 13 = va mod 2 ^ 13).
Proof.
  intros Hva. split; [by apply virtualToPhysicalD_translate|].
  split; [by apply virtualToPhysicalI_translate|]. intros en mr tr pa Ht.
  split; [by eapply translate_word|by eapply translate_offset].
Qed.

(** The data TLB miss handler maps the page of the address in EEAR to
    itself: with the data MMU on, an address of this page is then translated to
    itself, one of another page of the same of the 64 sets is missed (1), since
    its entry has been taken, and every other address is translated as before. *)
Theorem dtlb_maps_page cpu va (h : H) :
  is_u32 va -> cpu_get_dme cpu = true ->
  let ea := host_mfspr SPR_EEAR_BASE h in
  virtualToPhysicalD cpu va (dtlb h) =
    if va / 2 ^ 13 =? ea / 2 ^ 13 then va
    else if va / 2 ^ 13 mod 64 =? ea / 2 ^ 13 mod 64 then 1
    else virtualToPhysicalD cpu va h.
Proof.
  intros Hva Hd ea. rewrite !virtualToPhysicalD_translate, Hd by done.
  unfold dtlb, setDMMUMatchReg, setDMMUTranslateReg. fold ea.
  rewrite identity_entry.
  - destruct (_ =? _); [done|]. by destruct (_ =? _).
  - apply mfspr_word.
  - done.
  - by vm_compute.
  - intros i j. change (SPR_DTLBMR_BASE 0) with 2560. change (SPR_DTLBTR_BASE 0) with 2688. lia.
  - intros i Hi. change (SPR_DTLBMR_BASE 0) with 2560. change (SPR_DTLBTR_BASE 0) with 2688.
    change SPR_DCBFR with 6146. change SPR_ICBIR with 8194. lia.
Qed.

(** the instruction TLB miss handler does the same for instructions. *)
Theorem itlb_maps_page cpu va (h : H) :
  is_u32 va -> cpu_get_ime cpu = true ->
  let ea := host_mfspr SPR_EEAR_BASE h in
  virtualToPhysicalI cpu va (itlb h) =
    if va / 2 ^ 13 =? ea / 2 ^ 13 then va
    else if va / 2 ^ 13 mod 64 =? ea / 2 ^ 13 mod 64 then 1
    else virtualToPhysicalI cpu va h.
Proof.
  intros Hva Hd ea. rewrite !virtualToPhysicalI_translate, Hd by done.
  unfold itlb, setIMMUMatchReg, setIMMUTranslateReg. fold ea.
  rewrite identity_entry.
  - destruct (_ =? _); [done|]. by destruct (_ =? _).
  - apply mfspr_word.
  - done.
  - by vm_compute.
  - intros i j. change (SPR_ITLBMR_BASE 0) with 4608. change (SPR_ITLBTR_BASE 0) with 4736. lia.
  - intros i Hi. change (SPR_ITLBMR_BASE 0) with 4608. change (SPR_ITLBTR_BASE 0) with 4736.
    change SPR_DCBFR with 6146. change SPR_ICBIR with 8194. lia.
Qed.

(** ** Recovery *)

(** [runSim] simulates nothing when the violation is an escalation of
    privilege alone: it leaves supervisor mode and changes nothing else.  When
    it is on return from an exception, it completes the return: the status and
    the PC are those that were saved. *)
Theorem runSim_immediate fuel (s : sim H) :
  let violated := getAssertionReg (s_host s) in
  let cpu := s_cpu s in
  sim_wf s ->
  (truth (violated .& 0x308) = true -> Z.testbit violated 3 = false ->
     runSim fuel s = Some (Ok (with_cpu s (cpu_set_sr cpu (Z.clearbit (sr cpu) 0))))) /\
  (Z.testbit violated 3 = true \/ violated .& 0x308 = 0 ->
   Z.testbit violated 15 = true ->
     runSim fuel s = Some (Ok (with_cpu s (cpu_set_pc (cpu_set_sr cpu (esr cpu)) (epcr cpu))))).
Proof.
  intros v cpu Hs. unfold runSim, prepare. fold v. fold cpu.
  assert (H3 : (v .& 0x8 =? 0) = negb (Z.testbit v 3)).
  { change 0x8 with (2 ^ 3). rewrite <- (truth_land_pow2 v 3) by lia. unfold truth.
    by rewrite negb_involutive. }
  rewrite H3. change 0x8000 with (2 ^ 15). rewrite truth_land_pow2 by lia. split.
  - intros -> ->. cbn [andb negb]. do 3 f_equal. unfold cpu_get_sr. f_equal.
    apply (clear_low_bit _ (wf_sr _ Hs)).
  - intros Hv ->. destruct (truth (v .& 0x308)) eqn:Et; cbn [andb]; [|done].
    destruct Hv as [->|E]; [done|]. by rewrite E in Et.
Qed.

(** C8: when the assertion register has none of the bits 3, 8, 9 and 15, for
    which [runSim] ends early or repairs registers first, a stand-alone build goes to the PC of the
    violation if that is also the saved PC, and to the instruction before it in
    every other case: the differences in the code are unsigned, so that its
    test for "more than 4 apart", which its comment calls a delay slot, holds
    whenever the two differ.  From there it simulates two instructions, and then
    one more for as long as the next one is in a delay slot.  Whatever [runSim]
    returns with any fuel, failures included, is what this number of
    instructions gives; and whenever the instructions lead to such an end after
    [2 + k] of them, [runSim] returns it for every fuel above [k].  (The comment at
    runSim.c:160 says that one instruction back is for delay slots only.) *)
Theorem runSim_runs (s : sim H) :
  STANDALONE = true ->
  getAssertionReg (s_host s) .& 0x8308 = 0 ->
  let eppc := getEPPCReg (s_host s) in
  let start := set_pc_npc s (if eppc =? getEPCRReg (s_host s) then eppc else eppc -! 4) in
  (forall fuel r, runSim fuel s = Some r -> exists k, stops_after k start r) /\
  (forall k r, stops_after k start r -> forall fuel, (k < fuel)%nat -> runSim fuel s = Some r).
Proof.
  intros Hb Hv eppc start.
  assert (Hbits : forall j, Z.testbit 0x8308 j = true ->
    getAssertionReg (s_host s) .& 2 ^ j = 0).
  { intros j Hj. assert (0 <= j) by (destruct (Z.neg_nonneg_cases j); [|done];
      by rewrite Z.testbit_neg_r in Hj).
    pose proof (f_equal (fun z => Z.testbit z j) Hv) as E. cbn beta in E.
    rewrite Z.land_spec, Hj, Z.bits_0, andb_true_r in E.
    pose proof (truth_land_pow2 (getAssertionReg (s_host s)) j ltac:(done)) as Ht.
    rewrite E in Ht. unfold truth in Ht. by destruct (Z.eqb_spec (getAssertionReg (s_host s) .& 2 ^ j) 0). }
  pose proof (Hbits 3 Logic.eq_refl) as B3. pose proof (Hbits 15 Logic.eq_refl) as B15.
  change (2 ^ 3) with 0x8 in B3. change (2 ^ 15) with 0x8000 in B15.
  assert (B : getAssertionReg (s_host s) .& 0x308 = 0).
  { change 0x308 with (Z.land 0x8308 0x308). by rewrite Z.land_assoc, Hv. }
  assert (Hprep : prepare s = inl start).
  { unfold prepare. rewrite B, B3, B15. cbn [truth Z.eqb negb andb].
    rewrite resume_pc_spec by apply mfspr_word. done. }
  assert (Hrun : forall fuel, runSim fuel s =
    match cpu_exec_inst start with Ok s1 => exec_loop fuel s1 | r => Some r end).
  { intros fuel. unfold runSim. rewrite Hprep. unfold debug_load. rewrite Hb.
    by destruct (cpu_exec_inst start). }
  unfold stops_after. cbn [Nat.add]. setoid_rewrite run_S. setoid_rewrite Hrun.
  destruct (cpu_exec_inst start) as [s1| | |].
  2-4: split; [intros _ r [= <-]; by exists 0%nat|by intros k r (<- & _)].
  split.
  - intros fuel r Hl. destruct (exec_loop_run _ _ _ Hb Hl) as (k & Hk & Hd & Hj). by exists k.
  - intros k r (Hk & Hd & Hj) fuel. by apply exec_loop_ends.
Qed.

(** C9: [runSim] returns, or stops on an instruction that does not, as soon as
    one of the instructions it comes to after the first is no jump, and its
    result does not depend on how long the loop may run. *)
Theorem runSim_terminates n (s : sim H) :
  (forall s1 s2, prepare s = inl s1 -> cpu_exec_inst (debug_load s1) = Ok s2 ->
     plain_within n s2 = true) ->
  exists r, forall m, (n <= m)%nat -> runSim m s = Some r.
Proof.
  intros Hp. assert (Hn : exists r, runSim n s = Some r).
  { unfold runSim. destruct (prepare s) as [s1|s1]; [|by eexists].
    pose proof (cpu_exec_inst_settled (debug_load s1)) as Hset.
    specialize (Hp s1). destruct (cpu_exec_inst (debug_load s1)) as [s2| | |]; try by eexists.
    apply exec_loop_returns; [done|by apply Hp]. }
  destruct Hn as [r Hr]. exists r. intros m Hle. by apply (runSim_mono n).
Qed.

(** Recovery leaves a processor whose registers are all 32-bit words and
    whose register 0 is zero, whatever the instructions it simulated. *)
Theorem runSim_invariant fuel (s : sim H) m :
  sim_wf s -> runSim fuel s = Some m ->
  returns (fun s' => sim_wf s' /\ cpu_get_gpr (s_cpu s') 0 = 0) m.
Proof.
  intros Hs Hr. pose proof (runSim_wf fuel s m Hs Hr) as Hm.
  destruct m as [s'| | |]; [|done..]. split; [done|]. apply get_gpr_0, Hm.
Qed.

(** When exception entry was contaminated, EPCR becomes the PC of the
    violation in a delay slot, the instruction after it in the middle of a
    block, and the target of the last jump at the start of one; EEAR becomes
    the address of the instruction to restart when its fetch missed the TLB,
    and the address it accesses otherwise. *)
Theorem exception_registers_repaired (s : sim H) violated w1 w2 w :
  let cpu := s_cpu s in
  let eppc := getEPPCReg (s_host s) in
  let jump := jump_target s (eppc -! 4) w1 in
  let epc :=
    if cpu_get_dsx cpu then eppc
    else if negb (Z.testbit violated 19) then eppc +! 4
    else if jump =? 0 then jump_target s eppc w2 else jump in
  let fault := if cpu_get_dsx cpu then eppc +! 4 else epc in
  sim_wf s -> npc cpu = pc cpu +! 4 ->
  word_at s (eppc -! 4) w1 -> word_at s eppc w2 -> word_at s fault w ->
  fix_exception s violated =
    with_cpu s (cpu_set_eear (cpu_set_epcr cpu epc)
      (if pc cpu / 2 ^ 8 =? 0xA then fault else calc_ea cpu (decode w))).
Proof.
  intros cpu eppc jump epc fault Hs Hn H1 H2 Hw.
  assert (Hid : set_pc_npc s (pc cpu) = s) by (by apply set_pc_npc_id).
  assert (He : is_u32 eppc) by apply mfspr_word.
  pose proof (calc_jump_target_at s (eppc -! 4) w1 Hs ltac:(wf) H1) as C1.
  pose proof (calc_jump_target_at s eppc w2 Hs He H2) as C2.
  fold cpu in C1, C2. rewrite Hid in C1, C2. fold jump in C1.
  assert (Hj : is_u32 (if jump =? 0 then jump_target s eppc w2 else jump)).
  { pose proof (proj1 (calc_jump_target_wf s (eppc -! 4) Hs ltac:(wf))) as J1.
    pose proof (proj1 (calc_jump_target_wf s eppc Hs He)) as J2.
    rewrite C1 in J1. rewrite C2 in J2. by destruct (jump =? 0). }
  assert (Hf : is_u32 fault)
    by (unfold fault, epc; destruct (cpu_get_dsx cpu), (Z.testbit violated 19); cbn [negb]; wf).
  assert (Hea : eear_for s fault fault =
    (if pc cpu / 2 ^ 8 =? 0xA then fault else calc_ea cpu (decode w), s)).
  { unfold eear_for. rewrite page_of_vector by (apply wf_pc, Hs). fold cpu.
    destruct (_ =? 0xA); [done|]. rewrite (recalc_ea_at s fault w) by done.
    fold cpu. by rewrite Hid. }
  assert (H19 : (violated .& 0x80000 =? 0) = negb (Z.testbit violated 19)).
  { change 0x80000 with (2 ^ 19). rewrite <- (truth_land_pow2 violated 19) by lia.
    unfold truth. by rewrite negb_involutive. }
  unfold fix_exception. fold cpu. fold eppc. rewrite H19.
  unfold fault, epc in *. destruct (cpu_get_dsx cpu); [by rewrite Hea|].
  destruct (Z.testbit violated 19); cbn [negb] in *; [|by rewrite Hea].
  rewrite C1. destruct (jump =? 0); [rewrite C2|]; by rewrite Hea.
Qed.

(** ** Privilege and special registers *)

(** a user-mode program that accesses a special register stops a hosted
    simulator at its assertion.  The standalone build, the one used for
    recovery, has no assertion: the access is carried out, so that [l.mtspr] to
    SR turns user mode into supervisor mode. *)
Theorem privileged_access (s : sim H) cont :
  cpu_get_sm (s_cpu s) = false ->
  (STANDALONE = false ->
     or32_mtspr s cont = AssertFail /\ or32_mfspr s cont = AssertFail) /\
  (STANDALONE = true ->
     (exists s', or32_mtspr s cont = Ok s') /\ (exists s', or32_mfspr s cont = Ok s') /\
     (cpu_get_gpr (s_cpu s) (c_rA cont) .| c_K cont = SPR_SR ->
      Z.odd (cpu_get_gpr (s_cpu s) (c_rB cont)) = true ->
      exists s', or32_mtspr s cont = Ok s' /\ cpu_get_sm (s_cpu s') = true)).
Proof.
  intros Hsm. change (truth (cpu_get_sr (s_cpu s) .& SPR_SR_SM) = false) in Hsm.
  unfold or32_mtspr, or32_mfspr, cpu_set_spr, cpu_get_spr, c_assert.
  rewrite Hsm. split; intros Hb; rewrite Hb; [done|]. rewrite !bind_Ok. cbv zeta.
  split; [|split].
  - apply (switch_ind (fun m => exists s', m = Ok s')); [|by eexists].
    rewrite app_nil_r. repeat (apply List.Forall_cons; [by eexists|]). apply Forall_nil_2.
  - apply (switch_ind (fun m => exists s', (v ← m; Ok (set_gpr s (c_rD cont) v)) = Ok s'));
      [|by eexists].
    rewrite app_nil_r. repeat (apply List.Forall_cons; [by eexists|]). apply Forall_nil_2.
  - intros -> Hodd. eexists. split; [done|]. change SPR_SR_SM with (2 ^ 0).
    unfold cpu_get_sm, cpu_is_set_sr_flag, with_cpu, cpu_get_sr. cbn [s_cpu cpu_set_sr sr].
    change SPR_SR_SM with (2 ^ 0). rewrite truth_land_pow2 by lia.
    by rewrite Z.lor_spec, Z.land_spec, Z.bit0_odd, Hodd.
Qed.

(** In the standalone build a special register reads what was last written
    to it, except that SR keeps only its implemented bits and FO reads 1; the
    registers the simulator holds are not confused with each other or with
    those of the processor. *)
Theorem spr_write_read (s s' : sim H) spr v :
  STANDALONE = true -> is_u32 v -> spr <> SPR_DCBFR -> spr <> SPR_ICBIR ->
  cpu_set_spr s spr v = Ok s' ->
  cpu_get_spr s' spr = Ok (if spr =? SPR_SR then (v .& 0xf001ffff) .| 0x8000 else v) /\
  (forall spr', spr' <> spr -> cpu_get_spr s' spr' = cpu_get_spr s spr') /\
  gpr (s_cpu s') = gpr (s_cpu s).
Proof.
  intros Hb Hv N1 N2. unfold cpu_set_spr, cpu_get_spr, c_assert. rewrite Hb, !bind_Ok.
  rewrite !app_nil_r. cbv zeta.
  apply switch_cases_or.
  - repeat (apply List.Forall_cons;
      [cbn [fst snd]; intros -> [= <-]; split; [done|split; [|done]];
       intros spr' Hne; cbn [switch s_cpu with_cpu];
       repeat match goal with |- context [spr' =? ?k] =>
         destruct (Z.eqb_spec spr' k) end; (done || congruence)|]).
    apply Forall_nil_2.
  - intros Hout [= <-]. cbn [s_cpu s_host].
    split; [|split; [|done]].
    + rewrite switch_default by exact Hout. rewrite mfspr_mtspr by done.
      destruct (Z.eqb_spec spr SPR_SR) as [->|]; [|done].
      exfalso. apply Hout. by vm_compute; right; left.
    + intros spr' Hne. cbn [switch].
      by rewrite mfspr_mtspr_ne by done.
Qed.

(** setting a bit of the supervision register, which is how the simulator
    sets the flag, the carry, the overflow, the mode and the enable bits, sets
    that bit and no other. *)
Theorem sr_flags_independent cpu k j b :
  cpu_wf cpu -> 0 <= k < 32 -> 0 <= j < 32 ->
  cpu_is_set_sr_flag (cpu_set_sr_flag cpu (2 ^ k) (b2z b)) (2 ^ j) =
  if k =? j then b else cpu_is_set_sr_flag cpu (2 ^ j).
Proof.
  intros Hwf Hk Hj. rewrite !is_set_sr_flag_bit by lia.
  apply sr_bit_set_flag; (done || lia).
Qed.

(** ** Arithmetic *)

(** C10: The bit-serial adder, on two 32-bit words and a carry, computes the
    sum modulo [2^32], the carry out of bit 31, and whether the signed sum is out
    of range. *)
Theorem calc_add_correct cin a b :
  is_u32 a -> is_u32 b ->
  calc_add cin a b =
    (u32 (a + b + b2z cin), negb (in_sword 32 (i32 a + i32 b + b2z cin)),
     2 ^ 32 <=? a + b + b2z cin).
Proof.
  intros Ha Hb. pose proof (calc_add_carry cin a b Ha Hb) as Hc.
  assert (Ho : (calc_add cin a b).1.2 = is_overflow a b (calc_add cin a b).1.1)
    by (unfold calc_add; by destruct (for_upto 32 _ _)).
  destruct (calc_add cin a b) as [[r o] c]. destruct Hc as [-> ->]. cbn [fst snd] in Ho.
  by rewrite Ho, is_overflow_spec.
Qed.

(** The shift-and-add multipliers compute the exact 64-bit products. *)
Theorem multiplication_exact a b :
  (is_u32 a -> is_u32 b -> calc_mulu a b = a * b /\ peasant_mulu a b = calc_mulu a b) /\
  (is_i32 a -> is_i32 b -> calc_mul a b = a * b).
Proof.
  split; [|by apply calc_mul_mul]. intros Ha Hb. split; [by apply calc_mulu_mul|].
  apply peasant_mulu_calc.
Qed.

(** The long division computes the quotient; the remainder comes out
    without its bit 31, so it is right for divisors up to [2^31]. *)
Theorem calc_divu_correct d n :
  is_u32 d -> 0 < d -> is_u32 n ->
  calc_divu d n = (n / d, (n mod d) mod 2 ^ 31) /\
  (d <= 2 ^ 31 -> calc_divu d n = (n / d, n mod d)).
Proof.
  intros Hd Hpos Hn. rewrite calc_divu_div by done. split; [done|]. intros Hle.
  pose proof (Z.mod_pos_bound n d Hpos). by rewrite (Z.mod_small (n mod d)) by lia.
Qed.

(** [sign_extend] reads a field of [k + 1] bits as a signed number, with
    the upper bits of the result all equal to its sign bit. *)
Theorem sign_extend_correct v k :
  0 <= k < 31 -> is_word (k + 1) v ->
  sign_extend v k = swrap (k + 1) v /\
  (forall j, k <= j -> Z.testbit (sign_extend v k) j = Z.testbit v k).
Proof.
  intros Hk Hv. rewrite sign_extend_swrap by done. split; [done|]. intros j Hj.
  apply testbit_swrap_high; (done || lia).
Qed.


(** ** Decoding, and the corners of memory *)

(** every field [decode] extracts is in the range the structure declares
    for it: register numbers below 32, immediates of 16 bits, a 26-bit offset,
    an opcode of 6 bits. *)
Theorem decode_in_declared_range inst :
  is_u32 inst -> control_wf (decode inst) /\
  (forall cpu, cpu_wf cpu ->
     gpr cpu !! Z.to_nat (c_rA (decode inst)) =
       Some (cpu_get_gpr cpu (c_rA (decode inst))) /\
     gpr cpu !! Z.to_nat (c_rB (decode inst)) =
       Some (cpu_get_gpr cpu (c_rB (decode inst)))).
Proof.
  intros Hi. pose proof (decode_in_range inst Hi) as Hc. split; [done|].
  intros cpu Hwf. split; apply gpr_in_bounds; try done; apply Hc.
Qed.

(** a program whose next word is 0xdeadbeef does not execute it: the word
    is the one a failed fetch returns, and the PC just advances. *)
Theorem deadbeef_skipped (s : sim H) :
  sim_wf s -> next_word s 0xdeadbeef ->
  cpu_exec_inst s = Ok (with_cpu s (cpu_advance_pc (s_cpu s))).
Proof. intros Hs Hw. unfold cpu_exec_inst. by rewrite (fetch_hit s _ Hs Hw). Qed.

(** an access to the first word of the physical memory is taken for a
    result code: a load reports success without having read anything, so that
    the value it writes to the register is undefined, and a word store is
    dropped. *)
Theorem first_word_inaccessible (s : sim H) cont :
  let ea := calc_ea (s_cpu s) cont in
  data_translate s ea = Some 0 ->
  (forall k, ea mod width k = 0 -> load k s cont = Undef) /\
  (ea mod 4 = 0 -> store Word s cont = Ok s).
Proof.
  intros ea Ht. split; [intros k Hal; by apply load_word0_undef|].
  intros Hal. by apply store_word0_dropped.
Qed.

(** a byte access at or above 0x08000000 goes to the byte bus, unlike word
    accesses: loads take what the bus returns, stores give it the register. *)
Theorem byte_bus_access (s : sim H) cont pa :
  let ea := calc_ea (s_cpu s) cont in
  data_translate s ea = Some pa -> 0x08000000 <= pa ->
  load ByteZ s cont =
    Ok (set_gpr (Sim (s_cpu s) (host_lbz pa (s_host s)).2) (c_rD cont)
          (host_lbz pa (s_host s)).1) /\
  load ByteS s cont =
    Ok (set_gpr (Sim (s_cpu s) (host_lbs pa (s_host s)).2) (c_rD cont)
          (host_lbs pa (s_host s)).1) /\
  store ByteZ s cont =
    Ok (Sim (s_cpu s) (host_sb pa (cpu_get_gpr (s_cpu s) (c_rB cont)) (s_host s))).
Proof. intros ea. apply byte_bus. Qed.

(** the multiply-accumulate unit reads back the 64-bit number written to
    it, from any processor. *)
Theorem mac_round_trip cpu m :
  cpu_wf cpu -> is_i64 m ->
  cpu_get_mac (cpu_set_mac cpu m) = m /\ cpu_wf (cpu_set_mac cpu m).
Proof.
  intros Hwf Hm. assert (Hw : cpu_wf (cpu_set_mac cpu m)) by wf. split; [|done].
  rewrite cpu_get_mac_value by done. rewrite cpu_set_mac_write. by apply mac_value_write.
Qed.

(** ** The simulator as a program *)

(** the loader stores the file's bytes as big endian words from address 0
    on, which [guestLoad] returns; it writes nothing else, and stops at its
    assertion when the file has as many words as the RAM, or more. *)
Theorem fillState_loads file :
  Forall is_u8 file ->
  (4 * words file < RAM_SIZE ->
     exists ram, fillState ∅ RAM_SIZE file = Ok ram /\
       (forall k, ram !! (4 * Z.of_nat k) = file_word file k) /\
       (forall k v, 4 * Z.of_nat k < RAM_SIZE ->
          SimMain.guestLoad ram (4 * Z.of_nat k) v = Ok (true, file_word file k))) /\
  (RAM_SIZE <= 4 * words file -> fillState ∅ RAM_SIZE file = AssertFail).
Proof.
  intros Hf. assert (H0a : loader_address 0) by done. split; intros Hsz.
  - destruct (fill_words file ∅ 0 H0a Hf ltac:(lia)) as (ram & Hr & Hk & _).
    assert (Hk' : forall k, ram !! (4 * Z.of_nat k) = file_word file k).
    { intros k. specialize (Hk k). rewrite Z.add_0_l in Hk. rewrite Hk.
      by destruct (file_word file k). }
    exists ram. split; [done|]. split; [done|]. intros k v Hlt.
    rewrite guestLoad_ok; [by rewrite Hk'|]. split; [lia|].
    rewrite Z.mul_comm. apply Z_mod_mult.
  - by apply (fill_too_big file ∅ 0).
Qed.

(** the simulator starts at the reset vector in supervisor mode with the
    MMUs off and no branch pending, the stack at the end of the RAM and the
    other registers zero, whatever was in the structure before. *)
Theorem main_starts garbage file :
  Forall is_u8 file -> 4 * words file < RAM_SIZE ->
  exists cpu ram,
    main_init garbage file = Ok (cpu, ram) /\ fillState ∅ RAM_SIZE file = Ok ram /\
    cpu_wf cpu /\ pc cpu = 0x100 /\ npc cpu = 0x104 /\ settled cpu /\ sr cpu = 0x8001 /\
    (forall r, 0 <= r < 32 -> cpu_get_gpr cpu r = if r =? 1 then RAM_SIZE - 4 else 0).
Proof.
  intros Hf Hsz.
  destruct (fill_words file ∅ 0 ltac:(done) Hf ltac:(lia)) as (ram & Hr & _).
  assert (Hl : fillState ∅ RAM_SIZE file = Ok ram) by done.
  exists (cpu_set_sp (cpu_reset (cpu_init0 garbage)) (RAM_SIZE - 4)), ram.
  split; [unfold main_init; by rewrite Hl|]. split; [done|].
  change (cpu_init0 garbage) with (cpu_init0 (Cpu [] 0 0 0 0 0 0 0 0 0 0 0 0)).
  split; [by apply (bool_decide_eq_true_1 _); vm_compute|].
  do 4 (split; [by vm_compute|]).
  intros r Hr32. apply (Z_range_check 32 (fun r => cpu_get_gpr _ r =
    if r =? 1 then RAM_SIZE - 4 else 0)); [by vm_compute|done].
Qed.

(** ** The image converters *)

(** [bin2hex] prints the file after its first four bytes in lines of as
    many bytes as asked for, and the bytes can be read back from what it
    prints. *)
Theorem bin2hex_output prog name width n fopen file :
  atoi width = Ok n -> 1 <= n <= 8 -> fopen name = Some file -> Forall is_u8 file ->
  exists out,
    Bin2hex.main [prog; name; width] fopen = Ok (Exit 0 out) /\
    out = by_blocks (Z.to_nat n) (fun _ b => hex_bytes b ++ [newline]) (fun _ => hex_bytes)
            (drop 4 file) /\
    unhex out = Some (drop 4 file).
Proof.
  intros Ha Hn Hf Hu. exists (Bin2hex.data file n []). unfold Bin2hex.data.
  rewrite skip_four. split; [|split].
  - unfold Bin2hex.main. rewrite Ha, bind_Ok, Hf.
    destruct (Z.eqb_spec n 0), (Z.ltb_spec 8 n); try lia. cbn [orb].
    unfold Bin2hex.data. by rewrite skip_four.
  - by rewrite hex_put_lines.
  - destruct (hex_put_unhex n (drop 4 file) ltac:(by apply Forall_drop) 0 [])
      as (t & -> & Ht).
    cbn [app]. rewrite <- (app_nil_r t), Ht. cbn. by rewrite app_nil_r.
Qed.

(** with [-size_word], [bin2hex] prints the size of the file, rounded up to
    whole words, as a big endian word in place of the first four bytes; it
    refuses a file of at most one word. *)
Theorem bin2hex_size_word prog name width n fopen file :
  atoi width = Ok n -> 1 <= n <= 8 -> fopen name = Some file -> Forall is_u8 file ->
  Z.of_nat (length file) < 2 ^ 32 - 4 ->
  let size := (Z.of_nat (length file) + 3) / 4 * 4 in
  (Z.of_nat (length file) <= 4 ->
     Bin2hex.main [prog; name; width; "-size_word"%string] fopen = Ok (Exit 1 [])) /\
  (4 < Z.of_nat (length file) ->
     exists out,
       Bin2hex.main [prog; name; width; "-size_word"%string] fopen = Ok (Exit 0 out) /\
       unhex out = Some (be_bytes size ++ drop 4 file)).
Proof.
  intros Ha Hn Hf Hu Hlen size.
  assert (Hmain : Bin2hex.main [prog; name; width; "-size_word"%string] fopen =
    if size <? 8 then Ok (Exit 1 [])
    else Ok (Exit 0 (Bin2hex.data file n (Bin2hex.size_word size n)))).
  { unfold Bin2hex.main. rewrite Ha, bind_Ok, Hf.
    destruct (Z.eqb_spec n 0), (Z.ltb_spec 8 n); try lia. cbn [orb].
    by rewrite image_size_words. }
  rewrite Hmain. split; intros H4.
  - destruct (Z.ltb_spec size 8) as [|H8]; [done|].
    exfalso. unfold size in H8.
    assert ((Z.of_nat (length file) + 3) / 4 < 2) by (apply Z.div_lt_upper_bound; lia). lia.
  - destruct (Z.ltb_spec size 8) as [H8|].
    + exfalso. unfold size in H8.
      assert (2 <= (Z.of_nat (length file) + 3) / 4) by (apply Z.div_le_lower_bound; lia). lia.
    + eexists. split; [done|]. unfold Bin2hex.data. rewrite skip_four.
      destruct (size_word_unhex size n) as (t1 & -> & Hs1).
      destruct (hex_put_unhex n (drop 4 file) ltac:(by apply Forall_drop) 0 t1)
        as (t & -> & Ht).
      rewrite <- (app_nil_r t), Hs1, Ht. cbn. by rewrite app_nil_r.
Qed.

(** [bin2srec] ends, and prints one record for each 16 bytes from address
    0x100100 on, with zeros after the end of the file, where a file of whole
    records gets one more record of zeros; in each record a reader finds the
    length, the address and the data, and a checksum with which the bytes sum
    up to 0xff. *)
Theorem bin2srec_output prog name fopen file :
  fopen name = Some file -> Forall is_u8 file -> Z.of_nat (length file) < 2 ^ 23 ->
  let record k b := srec_record (Bin2srec.INIT_ADDR + 16 * Z.of_nat k) b in
  (forall fuel, (length file / 16 + 2 <= fuel)%nat ->
     Bin2srec.main fuel [prog; name] fopen =
     Some (Exit 0 (by_blocks 16 record (fun k b => record k (padded 16 b)) file))) /\
  (forall k data, (k <= length file / 16)%nat -> Forall is_u8 data ->
     exists t, record k data = str "S2" ++ t ++ ["013"%char; newline] /\
       let addr := Bin2srec.INIT_ADDR + 16 * Z.of_nat k in
       unhex t = Some (0x14 :: tail (be_bytes addr) ++ data ++ [srec_checksum addr data]) /\
       (0x14 + sum (tail (be_bytes addr)) + sum data + srec_checksum addr data) mod 2 ^ 8
         = 0xff).
Proof.
  intros Hf Hu Hlen record. change Bin2srec.INIT_ADDR with 0x100100 in *. split.
  - intros fuel Hfuel. unfold Bin2srec.main. rewrite Hf.
    rewrite srec_loop_blocks; [done|done| |done]. change Bin2srec.INIT_ADDR with 0x100100.
    assert (Z.of_nat (length file) / 16 < 2 ^ 23) by (apply Z.div_lt_upper_bound; lia). lia.
  - intros k data Hk Hd. apply srec_record_read; [|done].
    assert (Hk' : (16 * k <= length file)%nat).
    { pose proof (Nat.Div0.mul_div_le (length file) 16). lia. }
    change Bin2srec.INIT_ADDR with 0x100100. lia.
Qed.

(** [bin2flimg] for words of 1, 2 or 4 bytes ends and prints each word of
    the file on a line, then one more that holds what is left of the file and
    zeros; for a width that is not positive it does not end. *)
Theorem bin2flimg_output prog name width w fopen file :
  fopen name = Some file -> Forall is_u8 file ->
  (atoi width = Ok (Z.of_nat w) -> In w [1%nat; 2%nat; 4%nat] ->
     forall fuel, (length file / w + 2 <= fuel)%nat ->
     Bin2flimg.main fuel [prog; width; name] fopen =
     Some (Ok (Exit 0 (by_blocks w (fun _ b => hex_bytes b ++ [newline])
                         (fun _ b => hex_bytes (padded w b) ++ [newline]) file)))) /\
  (forall n, atoi width = Ok n -> n <= 0 ->
     forall fuel, Bin2flimg.main fuel [prog; width; name] fopen = None).
Proof.
  intros Hf Hu. unfold Bin2flimg.main. split.
  - intros -> Hw fuel Hfuel. rewrite Hf. by rewrite flimg_loop_blocks.
  - intros n -> Hn fuel. rewrite Hf. by rewrite flimg_loop_diverges.
Qed.

(** [bin2vmem] prints lines of four words of four bytes, each line after
    the word address of its first word, and a last line, without a line break,
    with what is left of the file. *)
Theorem bin2vmem_output prog name more fopen file :
  fopen name = Some file -> Z.of_nat (length file) < 2 ^ 31 ->
  Bin2vmem.main (prog :: name :: more) fopen =
  Exit 0 (by_blocks 16 (fun k => vmem_line (4 * Z.of_nat k)) (fun k => vmem_line (4 * Z.of_nat k))
            file).
Proof.
  intros Hf Hlen. unfold Bin2vmem.main. rewrite Hf. f_equal.
  rewrite vmem_lines by lia. done.
Qed.

End Simulator.

(** * Instances *)

Import RamHost.
#[local] Existing Instance standalone_build.

(** [l.add r3, r1, r2] at 0x100. *)
Lemma cpu_exec_inst_refines_witness :
  let s := demo 0x100 sr_reset [(1, 7); (2, 35)] [(0x100, encode (Alu Add 3 1 2))] [] in
  exists s1, effect (Alu Add 3 1 2) s s1 /\
    cpu_exec_inst s = Ok (with_cpu s1 (cpu_advance_pc (s_cpu s1))).
Proof.
  intros s.
  assert (Hs : sim_wf s) by (unfold sim_wf; by_computation).
  assert (Hw : next_word s (encode (Alu Add 3 1 2)))
    by (exists 0x100; repeat split; by_computation).
  apply (proj1 (cpu_exec_inst_refines s (encode (Alu Add 3 1 2)) Hs Hw)).
  - by vm_compute.
  - by vm_compute.
Defined.

Lemma run_invariant_witness :
  returns (fun s' => sim_wf s' /\ settled (s_cpu s') /\ cpu_get_gpr (s_cpu s') 0 = 0)
    (run 2 (demo 0x100 sr_reset [(1, 7); (2, 35)]
      [(0x100, encode (Alu Add 3 1 2)); (0x104, encode (Jump J 0))] [])).
Proof. apply run_invariant; [unfold sim_wf; by_computation|by vm_compute]. Defined.

(** A byte in the middle of a word. *)
Lemma load_correct_witness :
  let s := demo 0x100 sr_reset [(1, 0x2000)] [(0x2000, 0x11223344)] [] in
  load ByteZ s (demo_cont (Load ByteZ 3 1 2)) = Ok (set_gpr s 3 0x33).
Proof.
  intros s.
  rewrite (proj1 (proj2 (proj2 (load_correct ByteZ s (demo_cont (Load ByteZ 3 1 2))))) 0x2002);
    [by vm_compute|by vm_compute|by vm_compute|lia].
Defined.

Lemma store_correct_witness :
  let s := demo 0x100 sr_reset [(1, 0x2000); (2, 0xaabb)] [(0x2000, 0x11223344)] [] in
  exists h', store HalfZ s (demo_cont (Store HalfZ 1 2 2)) = Ok (Sim (s_cpu s) h') /\
    stored 2 0x2002 0xaabb (s_host s) h'.
Proof.
  intros s.
  assert (E : cpu_get_gpr (s_cpu s) (c_rB (demo_cont (Store HalfZ 1 2 2))) = 0xaabb)
    by (by vm_compute).
  rewrite <- E.
  apply (proj1 (proj2 (proj2 (store_correct HalfZ s (demo_cont (Store HalfZ 1 2 2))
    ltac:(unfold sim_wf; by_computation)))) 0x2002); [by vm_compute|by vm_compute|lia].
Defined.

(** With the data MMU on: the page of 0x2000 is mapped to that of 0x4000. *)
Lemma store_load_witness :
  let s := demo 0x100 sr_dmmu [(1, 0x2000); (2, 0xffff8001)] []
    [(SPR_DTLBMR_BASE 0 + 1, 0x2001); (SPR_DTLBTR_BASE 0 + 1, 0x43c0)] in
  exists h',
    (s1 ← store HalfZ s (demo_cont (Store HalfZ 1 2 6));
     load HalfZ s1 (demo_cont (Load HalfZ 3 1 6))) =
    Ok (set_gpr (Sim (s_cpu s) h') 3 0x8001).
Proof.
  intros s.
  assert (E : extended HalfZ (cpu_get_gpr (s_cpu s) (c_rB (demo_cont (Store HalfZ 1 2 6))))
    = 0x8001) by (by vm_compute).
  rewrite <- E. change 3 with (c_rD (demo_cont (Load HalfZ 3 1 6))) at 2.
  apply (store_load HalfZ s (demo_cont (Store HalfZ 1 2 6))
    (demo_cont (Load HalfZ 3 1 6)) 0x4006);
    [unfold sim_wf; by_computation|by vm_compute|by vm_compute|by vm_compute|lia|cbn; lia].
Defined.

Lemma execute_encoded_witness :
  let s := demo 0x100 sr_reset [(1, 0xfffffff0)] [] [] in
  exists s1, effect (Shift Srai 3 1 2) s s1 /\
    execute (OPCODE (encode (Shift Srai 3 1 2))) s (decode (encode (Shift Srai 3 1 2))) =
    Ok (with_cpu s1 (cpu_advance_pc (s_cpu s1))).
Proof.
  intros s. apply (execute_encoded (Shift Srai 3 1 2) s);
    [by vm_compute|unfold sim_wf; by_computation|by vm_compute].
Defined.

Lemma no_delay_slot_without_jump_witness :
  returns (fun s' => npc (s_cpu s') = pc (s_cpu s') +! 4)
    (cpu_exec_inst (demo 0x100 sr_reset [] [(0x100, encode (Imm Addi 3 0 7))] [])).
Proof.
  apply (no_delay_slot_without_jump _ (encode (Imm Addi 3 0 7)));
    [unfold sim_wf; by_computation|by vm_compute| |by vm_compute].
  exists 0x100. repeat split; by_computation.
Defined.

Lemma exception_entry_witness :
  entered 0x600 0x204 0x2001 0x8001 (demo_cpu 0x204 sr_reset [])
    (alignment_exception (demo_cpu 0x204 sr_reset []) 0x2001).
Proof.
  exact (proj1 (exception_entry (demo_cpu 0x204 sr_reset []) 0x2001
    ltac:(by_computation) ltac:(by vm_compute))).
Defined.

(** A handler that returns a value in register 11. *)
Lemma syscall_returns_witness :
  let cpu := demo_cpu 0x1000 0x8200 [(3, 9)] in
  let entry := cpu_advance_pc (sys cpu) in
  let back := cpu_advance_pc (rfe (cpu_set_gpr entry 11 5)) in
  pc entry = 0xC00 /\ pc back = 0x1004 /\ sr back = 0x8200.
Proof.
  intros cpu.
  destruct (syscall_returns cpu (fun c => cpu_set_gpr c 11 5) ltac:(by_computation)
    ltac:(by vm_compute) ltac:(by vm_compute) ltac:(done)) as (E1 & _ & E2 & _ & E3 & _).
  cbv zeta. rewrite E1, E2, E3. by vm_compute.
Defined.

Lemma instruction_miss_witness :
  exists cpu',
    cpu_exec_inst (demo 0x2100 sr_immu [] [] []) =
      Ok (with_cpu (demo 0x2100 sr_immu [] [] []) cpu') /\
    pc cpu' = 0xA00 /\ epcr cpu' = 0x2100.
Proof.
  destruct (instruction_miss (demo 0x2100 sr_immu [] [] [])
    ltac:(unfold sim_wf; by_computation) ltac:(by vm_compute) ltac:(by vm_compute))
    as (cpu' & E & E1 & _ & E2 & _).
  exists cpu'. split; [done|]. split; [rewrite E1; by vm_compute|rewrite E2; by vm_compute].
Defined.

Lemma translation_correct_witness :
  virtualToPhysicalD (demo_cpu 0x100 sr_dmmu []) 0x2abc
    (demo_host [] [(SPR_DTLBMR_BASE 0 + 1, 0x2001); (SPR_DTLBTR_BASE 0 + 1, 0x43c0)]) = 0x4abc.
Proof.
  rewrite (proj1 (translation_correct (demo_cpu 0x100 sr_dmmu []) 0x2abc _ ltac:(by vm_compute))).
  by vm_compute.
Defined.

Lemma dtlb_maps_page_witness :
  virtualToPhysicalD (demo_cpu 0x100 sr_dmmu []) 0x3ffc
    (dtlb (demo_host [] [(SPR_EEAR_BASE, 0x2004)])) = 0x3ffc.
Proof.
  rewrite (dtlb_maps_page (demo_cpu 0x100 sr_dmmu []) 0x3ffc
    (demo_host [] [(SPR_EEAR_BASE, 0x2004)]) ltac:(by vm_compute) ltac:(by vm_compute)).
  by vm_compute.
Defined.

Lemma itlb_maps_page_witness :
  virtualToPhysicalI (demo_cpu 0x100 sr_immu []) 0x82000
    (itlb (demo_host [] [(SPR_EEAR_BASE, 0x2004)])) = 1.
Proof.
  rewrite (itlb_maps_page (demo_cpu 0x100 sr_immu []) 0x82000
    (demo_host [] [(SPR_EEAR_BASE, 0x2004)]) ltac:(by vm_compute) ltac:(by vm_compute)).
  by vm_compute.
Defined.

(** A privilege escalation, and a contaminated return. *)
Lemma runSim_immediate_witness :
  let s v := demo 0x100 sr_reset [] [] [(ASSERTION_REG, v)] in
  runSim 0 (s 0x300) = Some (Ok (with_cpu (s 0x300)
    (cpu_set_sr (s_cpu (s 0x300)) (Z.clearbit (sr (s_cpu (s 0x300))) 0)))) /\
  runSim 0 (s 0x8000) = Some (Ok (with_cpu (s 0x8000)
    (cpu_set_pc (cpu_set_sr (s_cpu (s 0x8000)) (esr (s_cpu (s 0x8000))))
       (epcr (s_cpu (s 0x8000)))))).
Proof.
  intros s. split.
  - apply (proj1 (runSim_immediate 0 (s 0x300) ltac:(unfold sim_wf; by_computation)));
      by vm_compute.
  - apply (proj2 (runSim_immediate 0 (s 0x8000) ltac:(unfold sim_wf; by_computation)));
      [right|]; by vm_compute.
Defined.

Lemma runSim_runs_witness :
  let s := recovery_demo 0x40 in
  exists k, stops_after k (set_pc_npc s 0x200) (Ok (recovered s)) /\
    forall fuel, (k < fuel)%nat -> runSim fuel s = Some (Ok (recovered s)).
Proof.
  intros s. destruct (runSim_runs s ltac:(done) ltac:(by vm_compute)) as [H1 H2].
  assert (Hs : (if getEPPCReg (s_host s) =? getEPCRReg (s_host s) then getEPPCReg (s_host s)
                else getEPPCReg (s_host s) -! 4) = 0x200) by (by vm_compute).
  rewrite Hs in H1, H2.
  destruct (H1 4%nat (Ok (recovered s)) ltac:(by vm_compute)) as (k & Hk).
  exists k. split; [exact Hk|]. exact (H2 k _ Hk).
Defined.

Lemma runSim_terminates_witness :
  exists r, forall m, (1 <= m)%nat -> runSim m (recovery_demo 0x40) = Some r.
Proof.
  apply runSim_terminates. intros s1 s2 E1 E2.
  assert (Hc : match prepare (recovery_demo 0x40) with
    | inl s1 => match cpu_exec_inst (debug_load s1) with Ok s2 => plain_within 1 s2 | _ => true end
    | inr _ => true end = true) by (by vm_compute).
  by rewrite E1, E2 in Hc.
Defined.

Lemma runSim_invariant_witness :
  match runSim 4 (recovery_demo 0x8) with
  | Some m => returns (fun s' => sim_wf s' /\ cpu_get_gpr (s_cpu s') 0 = 0) m
  | None => False
  end.
Proof.
  destruct (runSim 4 (recovery_demo 0x8)) as [m|] eqn:E; [|by vm_compute in E].
  apply (runSim_invariant 4 (recovery_demo 0x8)); [unfold sim_wf; by_computation|done].
Defined.

(** In the middle of a block: the load at 0x208 is to be restarted. *)
Lemma exception_registers_repaired_witness :
  let s := set_pc_npc (recovery_demo 0x8) 0x200 in
  fix_exception s 0x8 =
    with_cpu s (cpu_set_eear (cpu_set_epcr (s_cpu s) 0x208) 8).
Proof.
  intros s.
  rewrite (exception_registers_repaired s 0x8 (encode (Alu Add 3 1 2))
    (encode (Alu Sub 4 3 1)) (encode (Load Word 5 3 8)));
    [by vm_compute|unfold sim_wf; by_computation|by vm_compute|..].
  - exists 0x200. repeat split; by_computation.
  - exists 0x204. repeat split; by_computation.
  - exists 0x208. repeat split; by_computation.
Defined.

(** User mode, and [l.mtspr] to SR with bit 0 set. *)
Lemma privileged_access_witness :
  let s := demo 0x100 0x8000 [(2, 0x8001)] [] [] in
  let cont := demo_cont (Mtspr 0 2 SPR_SR) in
  or32_mtspr (HB := hosted_build) s cont = AssertFail /\
  exists s', or32_mtspr s cont = Ok s' /\ cpu_get_sm (s_cpu s') = true.
Proof.
  intros s cont. split.
  - apply (proj1 (privileged_access (HB := hosted_build) s cont ltac:(by vm_compute))). done.
  - apply (proj2 (proj2 (proj2 (privileged_access s cont ltac:(by vm_compute)) Logic.eq_refl)));
      by vm_compute.
Defined.

Lemma spr_write_read_witness :
  exists s', cpu_set_spr (demo 0x100 sr_reset [] [] []) SPR_SR 0xffffffff = Ok s' /\
    cpu_get_spr s' SPR_SR = Ok 0xf001ffff.
Proof.
  destruct (cpu_set_spr (demo 0x100 sr_reset [] [] []) SPR_SR 0xffffffff) as [s'| | |] eqn:E;
    try (by vm_compute in E).
  exists s'. split; [done|].
  transitivity (Ok (if SPR_SR =? SPR_SR then (0xffffffff .& 0xf001ffff) .| 0x8000
    else 0xffffffff)); [|by vm_compute].
  exact (proj1 (spr_write_read (demo 0x100 sr_reset [] [] []) s' SPR_SR 0xffffffff
    Logic.eq_refl ltac:(by vm_compute) ltac:(done) ltac:(done) E)).
Defined.

Lemma sr_flags_independent_witness :
  cpu_is_set_sr_flag (cpu_set_sr_flag (demo_cpu 0x100 sr_reset []) (2 ^ 9) (b2z true)) (2 ^ 0) =
  true.
Proof.
  rewrite (sr_flags_independent (demo_cpu 0x100 sr_reset []) 9 0 true);
    [by vm_compute|by_computation|lia|lia].
Defined.

Lemma calc_add_correct_witness :
  calc_add true 0x7fffffff 0 = (0x80000000, true, false).
Proof. rewrite (calc_add_correct true 0x7fffffff 0); by vm_compute. Defined.

Lemma multiplication_exact_witness :
  calc_mulu 0xffffffff 0xffffffff = 0xffffffff * 0xffffffff /\ calc_mul (-3) 7 = -21.
Proof.
  split.
  - exact (proj1 (proj1 (multiplication_exact 0xffffffff 0xffffffff)
      ltac:(by vm_compute) ltac:(by vm_compute))).
  - exact (proj2 (multiplication_exact (-3) 7) ltac:(by vm_compute) ltac:(by vm_compute)).
Defined.

(** The remainder 0xfffffffe of a division by 0xffffffff loses its top bit. *)
Lemma calc_divu_correct_witness :
  calc_divu 10 103 = (10, 3) /\ calc_divu 0xffffffff 0xfffffffe = (0, 0x7ffffffe).
Proof.
  split.
  - rewrite (proj2 (calc_divu_correct 10 103 ltac:(by vm_compute) ltac:(lia) ltac:(by vm_compute)));
      [by vm_compute|lia].
  - rewrite (proj1 (calc_divu_correct 0xffffffff 0xfffffffe ltac:(by vm_compute) ltac:(lia)
      ltac:(by vm_compute))). by vm_compute.
Defined.

Lemma sign_extend_correct_witness : sign_extend 0x8001 15 = -0x7fff.
Proof.
  rewrite (proj1 (sign_extend_correct 0x8001 15 ltac:(lia) ltac:(by vm_compute))).
  by vm_compute.
Defined.


Lemma decode_in_declared_range_witness :
  control_wf (decode (encode (Store Word 1 2 0xfffc))).
Proof.
  exact (proj1 (decode_in_declared_range (encode (Store Word 1 2 0xfffc))
    ltac:(by vm_compute))).
Defined.

Lemma deadbeef_skipped_witness :
  let s := demo 0x100 sr_reset [] [(0x100, 0xdeadbeef)] [] in
  cpu_exec_inst s = Ok (with_cpu s (cpu_advance_pc (s_cpu s))).
Proof.
  intros s. apply deadbeef_skipped; [unfold sim_wf; by_computation|].
  exists 0x100. repeat split; by_computation.
Defined.

Lemma first_word_inaccessible_witness :
  let s := demo 0x100 sr_reset [] [(0, 0x11223344)] [] in
  load Word s (demo_cont (Load Word 3 0 0)) = Undef /\
  store Word s (demo_cont (Store Word 0 0 0)) = Ok s.
Proof.
  intros s. split.
  - apply (proj1 (first_word_inaccessible s (demo_cont (Load Word 3 0 0))
      ltac:(by vm_compute)) Word). by vm_compute.
  - apply (proj2 (first_word_inaccessible s (demo_cont (Store Word 0 0 0))
      ltac:(by vm_compute))). by vm_compute.
Defined.

Lemma byte_bus_access_witness :
  let s := demo 0x100 sr_reset [(1, 0x90000000); (2, 65)] [] [] in
  store ByteZ s (demo_cont (Store ByteZ 1 2 3)) =
  Ok (Sim (s_cpu s) (host_sb 0x90000003
        (cpu_get_gpr (s_cpu s) (c_rB (demo_cont (Store ByteZ 1 2 3)))) (s_host s))).
Proof.
  intros s. apply (proj2 (proj2 (byte_bus_access s (demo_cont (Store ByteZ 1 2 3)) 0x90000003
    ltac:(by vm_compute) ltac:(lia)))).
Defined.

Lemma mac_round_trip_witness :
  cpu_get_mac (cpu_set_mac (demo_cpu 0x100 sr_reset []) (-5000000000)) = -5000000000.
Proof.
  exact (proj1 (mac_round_trip (demo_cpu 0x100 sr_reset []) (-5000000000)
    ltac:(by_computation) ltac:(by vm_compute))).
Defined.

Lemma fillState_loads_witness :
  exists ram, fillState ∅ RAM_SIZE [0x12; 0x34; 0x56; 0x78; 0x9a] = Ok ram /\
    ram !! 0 = Some 0x12345678 /\ ram !! 4 = None.
Proof.
  destruct (proj1 (fillState_loads [0x12; 0x34; 0x56; 0x78; 0x9a] ltac:(by_computation))
    ltac:(by vm_compute)) as (ram & Hr & Hk & _).
  exists ram. split; [done|]. split; [exact (Hk 0%nat)|exact (Hk 1%nat)].
Defined.

Lemma main_starts_witness :
  exists cpu ram, main_init (demo_cpu 0 0 []) [0x15; 0; 0; 0] = Ok (cpu, ram) /\
    pc cpu = 0x100 /\ cpu_get_gpr cpu 1 = RAM_SIZE - 4.
Proof.
  destruct (main_starts (demo_cpu 0 0 []) [0x15; 0; 0; 0] ltac:(by_computation)
    ltac:(by vm_compute)) as (cpu & ram & Hm & _ & _ & Hpc & _ & _ & _ & Hr).
  exists cpu, ram. split; [done|]. split; [done|]. by rewrite Hr.
Defined.

Lemma bin2hex_output_witness :
  Bin2hex.main ["bin2hex"%string; "f"%string; "2"%string] (one_file [1; 2; 3; 4; 0xab; 0xcd; 0xef]) =
  Ok (Exit 0 (str "abcd" ++ [newline] ++ str "ef")).
Proof.
  destruct (bin2hex_output "bin2hex"%string "f"%string "2"%string 2
    (one_file [1; 2; 3; 4; 0xab; 0xcd; 0xef]) [1; 2; 3; 4; 0xab; 0xcd; 0xef]
    ltac:(by vm_compute) ltac:(lia) ltac:(done) ltac:(by_computation)) as (out & E & Eo & _).
  rewrite E, Eo. by vm_compute.
Defined.

Lemma bin2hex_size_word_witness :
  exists out,
    Bin2hex.main ["bin2hex"%string; "f"%string; "1"%string; "-size_word"%string]
      (one_file [1; 2; 3; 4; 0xab; 0xcd; 0xef]) = Ok (Exit 0 out) /\
    unhex out = Some [0; 0; 0; 8; 0xab; 0xcd; 0xef].
Proof.
  destruct (bin2hex_size_word "bin2hex"%string "f"%string "1"%string 1
    (one_file [1; 2; 3; 4; 0xab; 0xcd; 0xef]) [1; 2; 3; 4; 0xab; 0xcd; 0xef]
    ltac:(by vm_compute) ltac:(lia) ltac:(done) ltac:(by_computation) ltac:(by vm_compute))
    as [_ Hs].
  destruct (Hs ltac:(by vm_compute)) as (out & E & Eo).
  exists out. split; [done|]. rewrite Eo. by vm_compute.
Defined.

(** A file of one record gets two. *)
Lemma bin2srec_output_witness :
  Bin2srec.main 3 ["bin2srec"%string; "f"%string] (one_file (replicate 16 1)) =
  Some (Exit 0 (srec_record 0x100100 (replicate 16 1) ++ srec_record 0x100110 (replicate 16 0))).
Proof.
  rewrite (proj1 (bin2srec_output "bin2srec"%string "f"%string (one_file (replicate 16 1))
    (replicate 16 1) ltac:(done) ltac:(by_computation) ltac:(by vm_compute)) 3%nat
    ltac:(by vm_compute; lia)).
  by vm_compute.
Defined.

Lemma bin2flimg_output_witness :
  Bin2flimg.main 4 ["bin2flimg"%string; "2"%string; "f"%string] (one_file [0xab; 0xcd; 0xef]) =
  Some (Ok (Exit 0 (str "abcd" ++ [newline] ++ str "ef00" ++ [newline]))).
Proof.
  rewrite (proj1 (bin2flimg_output "bin2flimg"%string "f"%string "2"%string 2
    (one_file [0xab; 0xcd; 0xef]) [0xab; 0xcd; 0xef] ltac:(done) ltac:(by_computation))
    ltac:(by vm_compute) ltac:(by right; left) 4%nat ltac:(cbn; lia)).
  by vm_compute.
Defined.

Lemma bin2vmem_output_witness :
  Bin2vmem.main ["bin2vmem"%string; "f"%string] (one_file [1; 2; 3; 4; 0xab]) =
  Exit 0 (str "@00000000 01020304 ab").
Proof.
  rewrite (bin2vmem_output "bin2vmem"%string "f"%string [] (one_file [1; 2; 3; 4; 0xab])
    [1; 2; 3; 4; 0xab] ltac:(done) ltac:(by vm_compute)).
  by vm_compute.
Defined.
