(* ===== verification/StateM.v ===== *)
(** Imperative C over a state: the monad [M], loops in it, and total
    correctness [wp].

    A command reads and changes the global variables of a program and calls
    hardware; [M St A] is such a command over the state [St] whose C function
    returns [A].  What C leaves undefined and what does not end is an [outcome]
    of Prelude.  [wp m Q s] says that [m], started in [s], returns and that
    what it returns and leaves satisfies [Q]; a theorem in terms of [wp] is
    therefore never about a call that does not return. *)

From S2P Require Import Prelude.

Definition M (St A : Type) : Type := St -> outcome (A * St).

#[export] Instance M_ret St : MRet (M St) := fun A a s => Ok (a, s).
#[export] Instance M_bind St : MBind (M St) := fun A B f m s =>
  match m s with
  | Ok (a, s') => f a s'
  | Hang => Hang
  | AssertFail => AssertFail
  | Undef => Undef
  end.

(** An operation that does not touch the state, a read and a write of it. *)
Definition lift {St A} (m : outcome A) : M St A := fun s =>
  match m with Ok a => Ok (a, s) | Hang => Hang | AssertFail => AssertFail | Undef => Undef end.
Definition gets {St A} (f : St -> A) : M St A := fun s => Ok (f s, s).
Definition modify {St} (f : St -> St) : M St unit := fun s => Ok (tt, f s).

(** [for (i = lo; i < lo + n; i++) body], the body changing local variables
    [a] as well as the state. *)
Fixpoint mfor {St A} (n : nat) (lo : Z) (body : Z -> A -> M St A) (a : A) : M St A :=
  match n with
  | O => mret a
  | S n' => a' ← body lo a; mfor n' (lo + 1) body a'
  end.

(** [for (i = 0; i < hi; i++) body] *)
Definition mfor_upto {St A} (hi : Z) (body : Z -> A -> M St A) (a : A) : M St A :=
  mfor (Z.to_nat hi) 0 body a.

(** * Total correctness *)

Definition wp {St A} (m : M St A) (Q : A -> St -> Prop) (s : St) : Prop :=
  exists a s', m s = Ok (a, s') /\ Q a s'.

Lemma M_bind_Ok {S A B} (m : M S A) (f : A -> M S B) s r :
  (m ≫= f) s = Ok r -> exists a s', m s = Ok (a, s') /\ f a s' = Ok r.
Proof. unfold mbind, M_bind. destruct (m s) as [[a s']| | |]; [|done..]. eauto. Qed.

Section wp.
Context {St : Type}.

Lemma wp_ret {A} (a : A) (Q : A -> St -> Prop) s : Q a s -> wp (mret a) Q s.
Proof. intros. by exists a, s. Qed.

Lemma wp_bind {A B} (m : M St A) (f : A -> M St B) Q s :
  wp m (fun a => wp (f a) Q) s -> wp (m ≫= f) Q s.
Proof.
  intros (a & s' & Hm & b & s'' & Hf & HQ). exists b, s''. split; [|done].
  unfold mbind, M_bind. by rewrite Hm.
Qed.

Lemma wp_mono {A} (m : M St A) (P Q : A -> St -> Prop) s :
  wp m P s -> (forall a s', P a s' -> Q a s') -> wp m Q s.
Proof. intros (a & s' & Hm & HP) H. exists a, s'. auto. Qed.

Lemma wp_lift {A} (m : outcome A) a (Q : A -> St -> Prop) s :
  m = Ok a -> Q a s -> wp (lift m) Q s.
Proof. intros -> HQ. by exists a, s. Qed.

Lemma wp_gets {A} (f : St -> A) (Q : A -> St -> Prop) s : Q (f s) s -> wp (gets f) Q s.
Proof. intros. by exists (f s), s. Qed.

Lemma wp_modify f (Q : unit -> St -> Prop) s : Q tt (f s) -> wp (modify f) Q s.
Proof. intros. by exists tt, (f s). Qed.

Lemma wp_if {A} (b : bool) (m1 m2 : M St A) Q s :
  (b = true -> wp m1 Q s) -> (b = false -> wp m2 Q s) -> wp (if b then m1 else m2) Q s.
Proof. destruct b; auto. Qed.

(** The rule of the loop: [I i] holds whenever the counter is [i]. *)
Lemma wp_mfor {A} (I : Z -> A -> St -> Prop) n lo body (a : A) s :
  I lo a s ->
  (forall i a s, lo <= i < lo + Z.of_nat n -> I i a s -> wp (body i a) (I (i + 1)) s) ->
  wp (mfor n lo body a) (I (lo + Z.of_nat n)) s.
Proof.
  revert lo a s. induction n as [|n IH]; intros lo a s Hi Hb; simpl.
  - apply wp_ret. by rewrite Z.add_0_r.
  - apply wp_bind. eapply wp_mono; [apply Hb; [lia|done]|].
    intros a' s' Hi'. replace (lo + Z.of_nat (S n)) with (lo + 1 + Z.of_nat n) by lia.
    apply IH; [done|]. intros i b t Hr. apply Hb. lia.
Qed.

Lemma wp_mfor_upto {A} (I : Z -> A -> St -> Prop) hi body (a : A) s :
  0 <= hi -> I 0 a s ->
  (forall i a s, 0 <= i < hi -> I i a s -> wp (body i a) (I (i + 1)) s) ->
  wp (mfor_upto hi body a) (I hi) s.
Proof.
  intros Hh Hi Hb. unfold mfor_upto.
  replace (I hi) with (I (0 + Z.of_nat (Z.to_nat hi))) by (f_equal; lia).
  apply wp_mfor; [done|]. intros i b t Hr. apply Hb. lia.
Qed.

Lemma wp_det {A} (m : M St A) (P Q : A -> St -> Prop) s :
  wp m P s -> (forall a s', m s = Ok (a, s') -> P a s' -> Q a s') -> wp m Q s.
Proof. intros (a & s' & Hm & HP) H. exists a, s'. auto. Qed.

Lemma wp_inv {A} (m : M St A) Q s a s' : wp m Q s -> m s = Ok (a, s') -> Q a s'.
Proof. intros (b & t & Hm & HQ) Hm'. rewrite Hm in Hm'. by injection Hm' as -> ->. Qed.
End wp.

(** * What every result satisfies

    [post m P]: whatever [m] returns satisfies [P]; nothing is said of a call
    that does not return, which is what [wp] is for. *)

Definition post {St A} (m : M St A) (P : A -> Prop) : Prop :=
  forall s a s', m s = Ok (a, s') -> P a.

Section post.
Context {St : Type}.

Lemma post_ret {A} (a : A) (P : A -> Prop) : P a -> post (St := St) (mret a) P.
Proof. by intros Hp s b s' [= <- <-]. Qed.

Lemma post_True {A} (m : M St A) : post m (fun _ => True).
Proof. done. Qed.

Lemma post_bind {A B} (m : M St A) (f : A -> M St B) P Q :
  post m P -> (forall a, P a -> post (f a) Q) -> post (m ≫= f) Q.
Proof.
  intros Hm Hf s b s'. unfold mbind, M_bind. destruct (m s) as [[a s1]| | |] eqn:E; [|done..].
  by apply Hf, (Hm s a s1).
Qed.

(** A command whose result does not matter. *)
Lemma post_skip {A B} (m : M St A) (f : A -> M St B) Q :
  (forall a, post (f a) Q) -> post (m ≫= f) Q.
Proof. intros Hf. by eapply post_bind; [apply post_True|]. Qed.

Lemma post_mfor {A} (I : A -> Prop) n lo body (a : A) :
  I a -> (forall i a, I a -> post (body i a) I) -> post (St := St) (mfor n lo body a) I.
Proof.
  intros Ha Hb. revert lo a Ha. induction n as [|n IH]; intros lo a Ha; simpl.
  - by apply post_ret.
  - eapply post_bind; [by apply Hb|]. intros a' Ha'. by apply IH.
Qed.

Lemma wp_post {A} (R : Prop) (m : M St A) (P : A -> Prop) Q s :
  (R -> post m P) -> wp m Q s -> wp m (fun a s' => Q a s' /\ (R -> P a)) s.
Proof.
  intros Hp (a & s' & Hm & HQ). exists a, s'. split; [done|]. split; [done|].
  intros Hr. exact (Hp Hr s a s' Hm).
Qed.
End post.

(** A sequence that ends in undefined behaviour. *)
Section undef.
Context {St : Type}.

Lemma undef_bind {A B} (m : M St A) (f : A -> M St B) s :
  wp m (fun a s' => f a s' = Undef) s -> (m ≫= f) s = Undef.
Proof. intros (a & s' & Hm & Hf). unfold mbind, M_bind. by rewrite Hm. Qed.

Lemma undef_bind_undef {A B} (m : M St A) (f : A -> M St B) s :
  m s = Undef -> (m ≫= f) s = Undef.
Proof. intros Hm. unfold mbind, M_bind. by rewrite Hm. Qed.
End undef.

(** [wp_pure]: the next command of a sequence, by the rule of its form. *)
Ltac wp_pure :=
  cbv beta;
  lazymatch goal with
  | |- wp (mret _) _ _ => apply wp_ret
  | |- wp (_ ≫= _) _ _ => apply wp_bind
  | |- wp (gets _) _ _ => apply wp_gets
  | |- wp (modify _) _ _ => apply wp_modify
  end.

(** Use a specification [H] of the next command, naming what it returns. *)
Tactic Notation "wp_use" uconstr(H) "as" simple_intropattern(a) simple_intropattern(s)
    simple_intropattern(p) :=
  eapply wp_mono; [eapply H|intros a s p].
