(* ===== verification/Tap.v ===== *)
(** The hardware a JTAG cable is plugged into.

    This file is the specification the bridge is proved against, not code of the
    program: the pulses of a JTAG connector ([pulse]), what any device promises
    ([Device]), the test access port controller of IEEE 1149.1 ([tap_next]) and
    a device made of that controller and the registers behind it ([Chip],
    [tapped]).  [dr_scan] and [ir_scan] are what the standard calls a scan of the
    data and of the instruction register; the theorems about the bridge say
    which scans a command amounts to. *)

From S2P Require Import Prelude.

(** * Pulses

    One cycle of TCK: the levels of TMS and TDI at its rising edge, and
    whether TRST is asserted. *)
Record pulse := Pulse { p_tms : bool; p_tdi : bool; p_trst : bool }.

#[export] Instance pulse_eq_dec : EqDecision pulse.
Proof. solve_decision. Defined.

(** What is at the other end of the cable: a pulse changes it, and between two
    pulses it drives TDO. *)
Class Device (D : Type) := {
  clock : pulse -> D -> D;
  tdo : D -> bool
}.

Definition clocks {D} `{Device D} (ps : list pulse) (d : D) : D :=
  fold_left (fun d p => clock p d) ps d.

(** The level of TDO before each of the pulses. *)
Fixpoint samples {D} `{Device D} (ps : list pulse) (d : D) : list bool :=
  match ps with
  | [] => []
  | p :: ps' => tdo d :: samples ps' (clock p d)
  end.

(** The pulses that shift [bits] in, the first one first; TMS is [last] on the
    last of them. *)
Fixpoint shift_pulses (bits : list bool) (last : bool) : list pulse :=
  match bits with
  | [] => []
  | [b] => [Pulse last b false]
  | b :: bs => Pulse false b false :: shift_pulses bs last
  end.

(** The pulses of a sequence of levels of TMS. *)
Definition tms_pulses (l : list bool) : list pulse := map (fun t => Pulse t false false) l.

Section device.
Context {D : Type} `{Device D}.

Lemma clocks_app ps qs d : clocks (ps ++ qs) d = clocks qs (clocks ps d).
Proof. apply fold_left_app. Qed.

Lemma samples_app ps qs d : samples (ps ++ qs) d = samples ps d ++ samples qs (clocks ps d).
Proof. revert d. induction ps as [|p ps IH]; intros d; simpl; [done|]. by rewrite IH. Qed.

Lemma samples_length ps d : length (samples ps d) = length ps.
Proof. revert d. induction ps as [|p ps IH]; intros d; simpl; [done|]. by rewrite IH. Qed.
End device.

Lemma shift_pulses_false bits : shift_pulses bits false = map (fun b => Pulse false b false) bits.
Proof. induction bits as [|b [|c bs] IH]; simpl in *; congruence. Qed.

Lemma shift_pulses_snoc bits b last :
  shift_pulses (bits ++ [b]) last = shift_pulses bits false ++ [Pulse last b false].
Proof.
  induction bits as [|c bits IH]; [done|].
  rewrite shift_pulses_false in *. destruct bits; simpl in *; [done|]. by rewrite IH.
Qed.

Lemma shift_pulses_app bits cs last :
  cs <> [] ->
  shift_pulses (bits ++ cs) last = shift_pulses bits false ++ shift_pulses cs last.
Proof.
  intros Hc. destruct (exists_last Hc) as (cs' & c & ->).
  rewrite app_assoc, !shift_pulses_snoc, app_assoc. f_equal.
  by rewrite !shift_pulses_false, map_app.
Qed.

Lemma shift_pulses_length bits last : length (shift_pulses bits last) = length bits.
Proof.
  destruct bits as [|b bits _] using rev_ind; [done|].
  by rewrite shift_pulses_snoc, !length_app, shift_pulses_false, length_map.
Qed.

(** * The controller of IEEE 1149.1 *)

Inductive tap_state :=
| TestLogicReset | RunTestIdle
| SelectDR | CaptureDR | ShiftDR | Exit1DR | PauseDR | Exit2DR | UpdateDR
| SelectIR | CaptureIR | ShiftIR | Exit1IR | PauseIR | Exit2IR | UpdateIR.

#[export] Instance tap_state_eq_dec : EqDecision tap_state.
Proof. solve_decision. Defined.

Definition tap_next (tms : bool) (t : tap_state) : tap_state :=
  match t, tms with
  | TestLogicReset, false => RunTestIdle | TestLogicReset, true => TestLogicReset
  | RunTestIdle, false => RunTestIdle    | RunTestIdle, true => SelectDR
  | SelectDR, false => CaptureDR         | SelectDR, true => SelectIR
  | CaptureDR, false => ShiftDR          | CaptureDR, true => Exit1DR
  | ShiftDR, false => ShiftDR            | ShiftDR, true => Exit1DR
  | Exit1DR, false => PauseDR            | Exit1DR, true => UpdateDR
  | PauseDR, false => PauseDR            | PauseDR, true => Exit2DR
  | Exit2DR, false => ShiftDR            | Exit2DR, true => UpdateDR
  | UpdateDR, false => RunTestIdle       | UpdateDR, true => SelectDR
  | SelectIR, false => CaptureIR         | SelectIR, true => TestLogicReset
  | CaptureIR, false => ShiftIR          | CaptureIR, true => Exit1IR
  | ShiftIR, false => ShiftIR            | ShiftIR, true => Exit1IR
  | Exit1IR, false => PauseIR            | Exit1IR, true => UpdateIR
  | PauseIR, false => PauseIR            | PauseIR, true => Exit2IR
  | Exit2IR, false => ShiftIR            | Exit2IR, true => UpdateIR
  | UpdateIR, false => RunTestIdle       | UpdateIR, true => SelectDR
  end.

(** The registers behind the controller: the path from TDI to TDO of the
    selected data register and of the instruction register, and what capture,
    shift, update and reset do. *)
Class Chip (H : Type) := {
  capture_dr : H -> H; shift_dr : bool -> H -> H; update_dr : H -> H; out_dr : H -> bool;
  capture_ir : H -> H; shift_ir : bool -> H -> H; update_ir : H -> H; out_ir : H -> bool;
  chip_reset : H -> H
}.

Record tapped (H : Type) := Tapped { tap : tap_state; chip : H }.
Arguments Tapped {H} _ _.
Arguments tap {H} _.
Arguments chip {H} _.

(** [trst]: whether the device has a TRST pin that the cable drives. *)
Class HasTrst := trst : bool.

(** Capture and shift happen at the rising edge of TCK in the state of that
    name, update and reset on entering theirs. *)
#[export] Instance tapped_device {H} `{Chip H, HasTrst} : Device (tapped H) := {|
  clock p d :=
    let h := match tap d with
             | CaptureDR => capture_dr (chip d)
             | ShiftDR => shift_dr (p_tdi p) (chip d)
             | CaptureIR => capture_ir (chip d)
             | ShiftIR => shift_ir (p_tdi p) (chip d)
             | _ => chip d
             end in
    let t := if p_trst p && trst then TestLogicReset else tap_next (p_tms p) (tap d) in
    Tapped t (match t with
              | UpdateDR => update_dr h
              | UpdateIR => update_ir h
              | TestLogicReset => chip_reset h
              | _ => h
              end);
  tdo d := match tap d with
           | ShiftDR => out_dr (chip d)
           | ShiftIR => out_ir (chip d)
           | _ => true
           end
|}.

(** * Scans *)

Section scans.
Context {H : Type} `{Chip H, HasTrst}.

Definition shift_drs (bits : list bool) (h : H) : H := fold_left (fun h b => shift_dr b h) bits h.
Definition shift_irs (bits : list bool) (h : H) : H := fold_left (fun h b => shift_ir b h) bits h.

(** What comes out of the data register while [bits] go in. *)
Fixpoint read_drs (bits : list bool) (h : H) : list bool :=
  match bits with
  | [] => []
  | b :: bs => out_dr h :: read_drs bs (shift_dr b h)
  end.

Definition dr_scan (bits : list bool) (h : H) : H := update_dr (shift_drs bits (capture_dr h)).
Definition ir_scan (bits : list bool) (h : H) : H := update_ir (shift_irs bits (capture_ir h)).

(** The pulses of a whole scan, from Run-Test/Idle and back. *)
Definition dr_scan_pulses (bits : list bool) : list pulse :=
  tms_pulses [true; false; false] ++ shift_pulses bits true ++ tms_pulses [true; false].
Definition ir_scan_pulses (bits : list bool) : list pulse :=
  tms_pulses [true; true; false; false] ++ shift_pulses bits true ++ tms_pulses [true; false].

Lemma shift_drs_app b1 b2 h : shift_drs (b1 ++ b2) h = shift_drs b2 (shift_drs b1 h).
Proof. apply fold_left_app. Qed.

Lemma read_drs_length bits h : length (read_drs bits h) = length bits.
Proof. revert h. induction bits as [|b bits IH]; intros h; simpl; congruence. Qed.

Lemma clocks_shift_dr bits h :
  clocks (shift_pulses bits false) (Tapped ShiftDR h) = Tapped ShiftDR (shift_drs bits h).
Proof.
  rewrite shift_pulses_false. revert h.
  induction bits as [|b bits IH]; intros h; [done|]. apply (IH (shift_dr b h)).
Qed.

Lemma clocks_shift_ir bits h :
  clocks (shift_pulses bits false) (Tapped ShiftIR h) = Tapped ShiftIR (shift_irs bits h).
Proof.
  rewrite shift_pulses_false. revert h.
  induction bits as [|b bits IH]; intros h; [done|]. apply (IH (shift_ir b h)).
Qed.

Lemma samples_shift_dr bits last h :
  samples (shift_pulses bits last) (Tapped ShiftDR h) = read_drs bits h.
Proof.
  revert h. induction bits as [|b bits IH]; intros h; [done|].
  destruct bits as [|c bits]; [done|]. specialize (IH (shift_dr b h)).
  change (shift_pulses (b :: c :: bits) last)
    with (Pulse false b false :: shift_pulses (c :: bits) last).
  change (read_drs (b :: c :: bits) h) with (out_dr h :: read_drs (c :: bits) (shift_dr b h)).
  rewrite <- IH. done.
Qed.

Lemma clocks_enter_shift_dr h :
  clocks (tms_pulses [true; false; false]) (Tapped RunTestIdle h) = Tapped ShiftDR (capture_dr h).
Proof. done. Qed.

Lemma clocks_exit_shift_dr bits h :
  bits <> [] ->
  clocks (shift_pulses bits true ++ tms_pulses [true; false]) (Tapped ShiftDR h)
  = Tapped RunTestIdle (update_dr (shift_drs bits h)).
Proof.
  intros Hb. destruct (exists_last Hb) as (bs & b & ->).
  rewrite shift_pulses_snoc, <- app_assoc, clocks_app, clocks_shift_dr, shift_drs_app. done.
Qed.

Lemma clocks_dr_scan bits h :
  bits <> [] ->
  clocks (dr_scan_pulses bits) (Tapped RunTestIdle h) = Tapped RunTestIdle (dr_scan bits h).
Proof.
  intros Hb. unfold dr_scan_pulses. rewrite clocks_app, clocks_enter_shift_dr.
  by apply clocks_exit_shift_dr.
Qed.

Lemma clocks_ir_scan bits h :
  bits <> [] ->
  clocks (ir_scan_pulses bits) (Tapped RunTestIdle h) = Tapped RunTestIdle (ir_scan bits h).
Proof.
  intros Hb. destruct (exists_last Hb) as (bs & b & ->).
  unfold ir_scan_pulses. rewrite clocks_app, shift_pulses_snoc, <- app_assoc, clocks_app.
  change (clocks (tms_pulses [true; true; false; false]) (Tapped RunTestIdle h))
    with (Tapped ShiftIR (capture_ir h)).
  rewrite clocks_shift_ir. unfold ir_scan, shift_irs. by rewrite fold_left_app.
Qed.
End scans.

(** The bits of a stream: [len] bits of the words, the first word first, the low
    bit of a word first. *)
Definition stream_bit (words : list Z) (i : Z) : bool :=
  Z.testbit (nth (Z.to_nat (i / 32)) words 0) (i mod 32).
Definition stream_bits (words : list Z) (len : Z) : list bool :=
  map (stream_bit words) (seqZ 0 len).

(** The number whose binary digits are [bits], the low one first. *)
Fixpoint bits_value (bits : list bool) : Z :=
  match bits with
  | [] => 0
  | b :: bs => b2z b + 2 * bits_value bs
  end.

(** The words that hold a list of bits, the inverse of [stream_bits]. *)
Definition stream_word (bits : list bool) (k : Z) : Z :=
  bits_value (take 32 (drop (Z.to_nat (32 * k)) bits)).

Lemma testbit_bits_value bits i :
  0 <= i -> Z.testbit (bits_value bits) i = nth (Z.to_nat i) bits false.
Proof.
  revert i. induction bits as [|b bits IH]; intros i Hi; simpl.
  - rewrite Z.bits_0. by destruct (Z.to_nat i).
  - rewrite Z.add_comm. destruct (Z.eq_dec i 0) as [->|Hne].
    + by rewrite Z.testbit_0_r.
    + replace i with (Z.succ (i - 1)) by lia. rewrite Z.testbit_succ_r, IH by lia.
      by replace (Z.to_nat (Z.succ (i - 1))) with (S (Z.to_nat (i - 1))) by lia.
Qed.

(** The number whose digits are the bits [a], ..., [a + n - 1] of [z]. *)
Lemma bits_value_testbits z a n : 0 <= a -> 0 <= n ->
  bits_value (map (Z.testbit z) (seqZ a n)) = wrap n (Z.shiftr z a).
Proof.
  intros Ha Hn. apply Z.bits_inj'. intros i Hi.
  rewrite testbit_bits_value, testbit_wrap, Z.shiftr_spec by lia.
  destruct (Z.ltb_spec i n); cbn [andb].
  - apply nth_lookup_Some. change (map (Z.testbit z) (seqZ a n)) with (Z.testbit z <$> seqZ a n).
    rewrite list_lookup_fmap, lookup_seqZ_lt by lia. simpl. do 2 f_equal. lia.
  - apply nth_overflow. rewrite length_map, length_seqZ. lia.
Qed.
