(* ===== verification/Cable.v ===== *)
(** cable_common.c: bits and streams of bits on a JTAG cable, by changing the
    levels of its wires; cable_parallel.c: two cables on the parallel port.

    A driver is a [jtag_cable_t], the table of functions of cable_common.h over
    the state [St] of the driver and of what is plugged into it.  [WireLaws] is
    what [out_func] and [inout_func] of a driver promise of the wires,
    [CableLaws] what the four functions that send promise to chain_commands.c:
    which pulses the device gets and what is read from it.  The functions
    [cable_common_*] make the second of the first ([bitbang_laws]). *)

From stdpp Require Import strings.
From S2P Require Import Prelude StateM Tap.

(** * errcodes.h, errcodes.c *)

Definition APP_ERR_NONE : Z := 0.
Definition APP_ERR_COMM : Z := 0x1.
Definition APP_ERR_MALLOC : Z := 0x2.
Definition APP_ERR_MAX_RETRY : Z := 0x4.
Definition APP_ERR_CRC : Z := 0x08.
Definition APP_ERR_MAX_BUS_ERR : Z := 0x10.
Definition APP_ERR_CABLE_INVALID : Z := 0x20.
Definition APP_ERR_INIT_FAILED : Z := 0x40.
Definition APP_ERR_BAD_PARAM : Z := 0x080.
Definition APP_ERR_CONNECT : Z := 0x100.
Definition APP_ERR_USB : Z := 0x200.
Definition APP_ERR_CABLENOTFOUND : Z := 0x400.
Definition APP_ERR_TEST_FAIL : Z := 0x0800.

Open Scope cword_scope.

(** [strcat(errstr, s)] for each bit of [err] that has a text. *)
Definition get_err_string (err : Z) : string :=
  let errstr := EmptyString in
  let cat bit text errstr :=
    if truth (err .& bit) then (errstr +:+ text)%string else errstr in
  let errstr := cat APP_ERR_COMM "'JTAG comm error' "%string errstr in
  let errstr := cat APP_ERR_MALLOC "'malloc failed' "%string errstr in
  let errstr := cat APP_ERR_MAX_RETRY "'max retries' "%string errstr in
  let errstr := cat APP_ERR_CRC "'CRC mismatch' "%string errstr in
  let errstr := cat APP_ERR_MAX_BUS_ERR "'max WishBone bus errors' "%string errstr in
  let errstr := cat APP_ERR_CABLE_INVALID "'Invalid cable' "%string errstr in
  let errstr := cat APP_ERR_INIT_FAILED "'init failed' "%string errstr in
  let errstr := cat APP_ERR_BAD_PARAM "'bad command line parameter' "%string errstr in
  let errstr := cat APP_ERR_CONNECT "'connection failed' "%string errstr in
  let errstr := cat APP_ERR_USB "'USB' "%string errstr in
  cat APP_ERR_CABLENOTFOUND "'cable not found' "%string errstr.

(** * The machine the bridge is compiled for

    [wide_count n] is the count by which the processor shifts a 32-bit operand
    when the count is [n], negative or 32 or more: [None] where nothing is known
    of it, as in C.  [long_size] is [sizeof(long)]. *)
Class Target := { wide_count : Z -> option Z; long_size : Z }.

Definition shift_count `{Target} (n : Z) : outcome Z :=
  if (0 <=? n) && (n <? 32) then Ok n else read_var (wide_count n).
Definition shr_target `{Target} (a n : Z) : outcome Z := n ← shift_count n; Ok (Z.shiftr a n).
Definition shl_target `{Target} (a n : Z) : outcome Z := n ← shift_count n; Ok (shl32 a n).

(** What C promises, and the processors the program is run on: the shifts of
    x86 use the low five bits of the count. *)
Definition iso_c : Target := {| wide_count _ := None; long_size := 8 |}.
Definition i386 : Target := {| wide_count n := Some (n mod 32); long_size := 4 |}.
Definition x86_64 : Target := {| wide_count n := Some (n mod 32); long_size := 8 |}.

Class Mod32 `{Target} : Prop := wide_mod32 n : wide_count n = Some (n mod 32).

#[export] Instance i386_mod32 : Mod32 (H := i386).
Proof. done. Qed.
#[export] Instance x86_64_mod32 : Mod32 (H := x86_64).
Proof. done. Qed.

(** * cable_common.h *)

Definition TRST : Z := 0x04.
Definition TMS : Z := 0x02.
Definition TDO : Z := 0x01.

Definition TCLK_BIT : Z := 0x01.
Definition TRST_BIT : Z := 0x02.
Definition TDI_BIT : Z := 0x04.
Definition TMS_BIT : Z := 0x08.
Definition TDO_BIT : Z := 0x20.

(** A buffer of words: [None] is a word that was never written. *)
Abbreviation buffer := (list (option Z)).

(** A table of functions.  A function that writes through a [uint8_t *] or a
    [uint32_t *] returns what it wrote beside its error code. *)
Record jtag_cable_t (St : Type) := {
  name : string;
  inout_func : Z -> M St (Z * Z);
  out_func : Z -> M St Z;
  init_func : M St Z;
  bit_out_func : Z -> M St Z;
  bit_inout_func : Z -> M St (Z * Z);
  stream_out_func : list Z -> Z -> Z -> M St Z;
  stream_inout_func : list Z -> buffer -> Z -> Z -> M St (Z * buffer);
  flush_func : option (M St Z);
  opts : string
}.
Arguments name {St} _.
Arguments inout_func {St} _.
Arguments out_func {St} _.
Arguments init_func {St} _.
Arguments bit_out_func {St} _.
Arguments bit_inout_func {St} _.
Arguments stream_out_func {St} _.
Arguments stream_inout_func {St} _.
Arguments flush_func {St} _.
Arguments opts {St} _.

(** [cable_select]: the cable of that name among those of [jtag_cables]. *)
Fixpoint cable_select {St} (jtag_cables : list (jtag_cable_t St)) (cable : string)
    : Z * option (jtag_cable_t St) :=
  match jtag_cables with
  | [] => (APP_ERR_CABLE_INVALID, None)
  | c :: cs => if (cable =? name c)%string then (APP_ERR_NONE, Some c) else cable_select cs cable
  end.

Definition cable_get_args {St} (jtag_cable_in_use : option (jtag_cable_t St)) : option string :=
  option_map opts jtag_cable_in_use.

(** * Access to arrays of words *)

Definition load_word (words : list Z) (index : Z) : outcome Z :=
  if 0 <=? index then read_var (words !! Z.to_nat index) else Undef.
Definition load_slot (buf : buffer) (index : Z) : outcome Z :=
  if 0 <=? index then v ← read_var (buf !! Z.to_nat index); read_var v else Undef.
Definition store_slot (buf : buffer) (index v : Z) : outcome buffer :=
  if (0 <=? index) && (index <? Z.of_nat (length buf))
  then Ok (<[Z.to_nat index := Some v]> buf) else Undef.

Section cable_common.
Context `{Target} {St : Type} (jtag_cable_in_use : jtag_cable_t St).

(** ** Cable API functions *)

Definition cable_write_stream := stream_out_func jtag_cable_in_use.
Definition cable_read_write_stream := stream_inout_func jtag_cable_in_use.
Definition cable_write_bit := bit_out_func jtag_cable_in_use.
Definition cable_read_write_bit := bit_inout_func jtag_cable_in_use.
Definition cable_init := init_func jtag_cable_in_use.
Definition cable_flush : M St Z :=
  match flush_func jtag_cable_in_use with Some f => f | None => mret APP_ERR_NONE end.

(** ** Common functions *)

(** The levels of the wires for a packet, the clock low. *)
Definition packet_data (packet : Z) : Z :=
  let data := TRST_BIT in
  let data := if truth (packet .& TDO) then data .| TDI_BIT else data in
  let data := if truth (packet .& TMS) then data .| TMS_BIT else data in
  if truth (packet .& TRST) then u8 (data .& Z.lnot TRST_BIT) else data.

Definition cable_common_write_bit (packet : Z) : M St Z :=
  let data := packet_data packet in
  e1 ← out_func jtag_cable_in_use data;
  e2 ← out_func jtag_cable_in_use (data .| TCLK_BIT);
  mret (APP_ERR_NONE .| e1 .| e2).

Definition cable_common_read_write_bit (packet_out : Z) : M St (Z * Z) :=
  let data := packet_data packet_out in
  e1 ← out_func jtag_cable_in_use data;
  '(e2, bit_in) ← inout_func jtag_cable_in_use (data .| TCLK_BIT);
  mret (APP_ERR_NONE .| e1 .| e2, bit_in).

Definition cable_common_write_stream (stream : list Z) (len_bits set_last_bit : Z) : M St Z :=
  '(index, _, err) ← mfor_upto (len_bits - 1)
    (fun _ '(index, bits_this_index, err) =>
       w ← lift (load_word stream index);
       out ← lift (shr_target w bits_this_index);
       e ← cable_write_bit (out .& 1);
       let bits_this_index := bits_this_index + 1 in
       mret (if 32 <=? bits_this_index then (index + 1, 0, err .| e)
             else (index, bits_this_index, err .| e)))
    (0, 0, APP_ERR_NONE);
  w ← lift (load_word stream index);
  out ← lift (shr_target w (len_bits - 1));
  let out := out .& 1 in
  let out := if truth set_last_bit then out .| TMS else out in
  e ← cable_write_bit out;
  mret (err .| e).

Definition cable_common_read_stream (outstream : list Z) (instream : buffer)
    (len_bits set_last_bit : Z) : M St (Z * buffer) :=
  instream ← lift (store_slot instream 0 0);
  '(index, bits_this_index, instream, err) ← mfor_upto (len_bits - 1)
    (fun _ '(index, bits_this_index, instream, err) =>
       w ← lift (load_word outstream index);
       outval ← lift (shr_target w bits_this_index);
       '(e, inval) ← cable_read_write_bit (outval .& 1);
       old ← lift (load_slot instream index);
       new ← lift (shl_target inval bits_this_index);
       instream ← lift (store_slot instream index (old .| new));
       let bits_this_index := bits_this_index + 1 in
       if 32 <=? bits_this_index then
         instream ← lift (store_slot instream (index + 1) 0);
         mret (index + 1, 0, instream, err .| e)
       else mret (index, bits_this_index, instream, err .| e))
    (0, 0, instream, APP_ERR_NONE);
  w ← lift (load_word outstream index);
  outval ← lift (shr_target w (len_bits - 1));
  let outval := if truth set_last_bit then (outval .& 1) .| TMS else outval .& 1 in
  '(e, inval) ← cable_read_write_bit outval;
  old ← lift (load_slot instream index);
  new ← lift (shl_target inval bits_this_index);
  instream ← lift (store_slot instream index (old .| new));
  mret (err .| e, instream).
End cable_common.

(** * The cables of cable_parallel.c

    [outb], [inb] and [ioperm] of sys/io.h are the class [ParPort]; [base] is
    the address of the port, the static variable of the file. *)
Class ParPort (St : Type) := {
  outb : Z -> Z -> St -> St;
  inb : Z -> St -> Z * St;
  ioperm : Z -> Z -> Z -> St -> Z * St
}.

Section cable_parallel.
Context `{Target} {St : Type} `{ParPort St} (base : Z).

Definition LPT_READ : Z := base + 1.
Definition LPT_WRITE : Z := base.

Definition cable_parallel_init : M St Z := fun s =>
  let '(r, s) := ioperm base 3 1 s in
  Ok (if truth r then APP_ERR_INIT_FAILED else APP_ERR_NONE, s).

Definition cable_parallel_out (value : Z) : M St Z := fun s =>
  Ok (APP_ERR_NONE, outb value LPT_WRITE s).

Definition cable_parallel_inout (value : Z) : M St (Z * Z) := fun s =>
  let '(inval, s) := inb LPT_READ s in
  Ok ((APP_ERR_NONE, inval), outb value LPT_WRITE s).

(** The bits of [value] as the wires of the cable. *)
Definition cable_xpc3_bits (value : Z) : Z :=
  let out := 0 in
  let out := if truth (value .& TCLK_BIT) then out .| 0x02 else out in
  let out := if truth (value .& TRST_BIT) then out .| 0x10 else out in
  let out := if truth (value .& TDI_BIT) then out .| 0x01 else out in
  if truth (value .& TMS_BIT) then out .| 0x04 else out.

Definition cable_xpc3_out (value : Z) : M St Z := cable_parallel_out (cable_xpc3_bits value).

Definition cable_xpc3_inout (value : Z) : M St (Z * Z) :=
  '(retval, in_) ← cable_parallel_inout (cable_xpc3_bits value);
  mret (retval, if truth (in_ .& 0x10) then 1 else 0).

Definition cable_xess_bits (value : Z) : Z :=
  let out := 0 in
  let out := if truth (value .& TCLK_BIT) then out .| 0x04 else out in
  let out := if truth (value .& TRST_BIT) then out .| 0x08 else out in
  let out := if truth (value .& TDI_BIT) then out .| 0x10 else out in
  if truth (value .& TMS_BIT) then out .| 0x20 else out.

Definition cable_xess_out (value : Z) : M St Z := cable_parallel_out (cable_xess_bits value).

Definition cable_xess_inout (value : Z) : M St (Z * Z) :=
  '(retval, in_) ← cable_parallel_inout (cable_xess_bits value);
  mret (retval, if truth (in_ .& 0x20) then 1 else 0).
End cable_parallel.

(** A table whose entries for bits and streams are the [cable_common_*].  Those
    functions call the entries of the table they are in; here each layer calls
    the one below, which is the same function. *)
Section bitbang.
Context `{Target} {St : Type} (nm : string) (inout : Z -> M St (Z * Z)) (out : Z -> M St Z)
  (init : M St Z) (op : string).

Definition bitbang_table (bo : Z -> M St Z) (bio : Z -> M St (Z * Z))
    (so : list Z -> Z -> Z -> M St Z) (sio : list Z -> buffer -> Z -> Z -> M St (Z * buffer))
    : jtag_cable_t St :=
  {| name := nm; inout_func := inout; out_func := out; init_func := init;
     bit_out_func := bo; bit_inout_func := bio;
     stream_out_func := so; stream_inout_func := sio;
     flush_func := None; opts := op |}.

Definition bitbang : jtag_cable_t St :=
  let wires := bitbang_table (fun _ => lift Undef) (fun _ => lift Undef)
                 (fun _ _ _ => lift Undef) (fun _ _ _ _ => lift Undef) in
  let bits := bitbang_table (cable_common_write_bit wires) (cable_common_read_write_bit wires)
                (fun _ _ _ => lift Undef) (fun _ _ _ _ => lift Undef) in
  bitbang_table (cable_common_write_bit wires) (cable_common_read_write_bit wires)
    (cable_common_write_stream bits) (cable_common_read_stream bits).
End bitbang.

Definition xpc3_cable_driver `{Target} {St} `{ParPort St} (base : Z) : jtag_cable_t St :=
  bitbang "xpc3" (cable_xpc3_inout base) (cable_xpc3_out base) (cable_parallel_init base) "p:".

Definition xess_cable_driver `{Target} {St} `{ParPort St} (base : Z) : jtag_cable_t St :=
  bitbang "xess" (cable_xess_inout base) (cable_xess_out base) (cable_parallel_init base) "p:".

(** * What a driver promises *)

(** The pulse of a packet of the API, and of the levels of the wires. *)
Definition packet_pulse (packet : Z) : pulse :=
  Pulse (Z.testbit packet 1) (Z.testbit packet 0) (Z.testbit packet 2).
Definition wire_pulse (data : Z) : pulse :=
  Pulse (Z.testbit data 3) (Z.testbit data 2) (negb (Z.testbit data 1)).

(** The device after the wires are given the levels [data]: a pulse where TCK
    rises. *)
Definition wires_to {D} `{Device D} (tck : bool) (data : Z) (d : D) : D :=
  if Z.testbit data 0 && negb tck then clock (wire_pulse data) d else d.

(** A driver of wires: [tck] is the level of TCK, [dev] the device.  A call that
    returns an error promises nothing of them. *)
Class WireLaws {St D : Type} `{Device D} (c : jtag_cable_t St) (dev : St -> D) (tck : St -> bool)
    : Prop := {
  wire_out data s : is_word 4 data ->
    wp (out_func c data) (fun e s' => e = 0 ->
      tck s' = Z.testbit data 0 /\ dev s' = wires_to (tck s) data (dev s)) s;
  wire_inout data s : is_word 4 data ->
    wp (inout_func c data) (fun r s' => fst r = 0 ->
      snd r = b2z (tdo (dev s))
      /\ tck s' = Z.testbit data 0 /\ dev s' = wires_to (tck s) data (dev s)) s
}.

(** The words a stream is read into. *)
Definition stream_words (bits : list bool) : list Z :=
  map (stream_word bits) (seqZ 0 ((Z.of_nat (length bits) - 1) / 32 + 1)).

(** The buffer [buf] with its first words overwritten. *)
Definition overwrite (buf : buffer) (words : list Z) : buffer :=
  map Some words ++ drop (length words) buf.

(** A driver of packets and streams. *)
Class CableLaws {St D : Type} `{Device D} (c : jtag_cable_t St) (dev : St -> D) : Prop := {
  law_bit_out p s :
    wp (bit_out_func c p) (fun e s' => e = 0 -> dev s' = clock (packet_pulse p) (dev s)) s;
  law_bit_inout p s :
    wp (bit_inout_func c p) (fun r s' => fst r = 0 ->
      snd r = b2z (tdo (dev s)) /\ dev s' = clock (packet_pulse p) (dev s)) s;
  law_stream_out words len last s : 0 < len <= 32 * Z.of_nat (length words) ->
    wp (stream_out_func c words len last) (fun e s' => e = 0 ->
      dev s' = clocks (shift_pulses (stream_bits words len) (truth last)) (dev s)) s;
  law_stream_inout words buf len last s :
    0 < len <= 32 * Z.of_nat (length words) -> len <= 32 * Z.of_nat (length buf) ->
    wp (stream_inout_func c words buf len last) (fun r s' =>
      exists read, snd r = overwrite buf read /\ Z.of_nat (length read) = (len - 1) / 32 + 1
      /\ Forall is_u32 read
      /\ (fst r = 0 ->
          let ps := shift_pulses (stream_bits words len) (truth last) in
          dev s' = clocks ps (dev s) /\ read = stream_words (samples ps (dev s)))) s
}.

(** The table is one whose entries are the [cable_common_*]. *)
Class BitBang `{Target} {St} (c : jtag_cable_t St) : Prop := {
  bb_bit_out : bit_out_func c = cable_common_write_bit c;
  bb_bit_inout : bit_inout_func c = cable_common_read_write_bit c;
  bb_stream_out : stream_out_func c = cable_common_write_stream c;
  bb_stream_inout : stream_inout_func c = cable_common_read_stream c
}.

#[export] Instance bitbang_bitbang `{Target} {St} nm inout out init op :
  BitBang (bitbang (St := St) nm inout out init op).
Proof. by constructor. Qed.

(** * Bit-banging is lawful *)

(** ** Packets *)

Section packets.
Lemma packet_data_cases p :
  packet_data p
  = (if Z.testbit p 2 then 0 else TRST_BIT) .| (if Z.testbit p 0 then TDI_BIT else 0)
    .| (if Z.testbit p 1 then TMS_BIT else 0).
Proof.
  unfold packet_data. change TDO with (2 ^ 0). change TMS with (2 ^ 1). change TRST with (2 ^ 2).
  rewrite !truth_land_pow2 by lia.
  by destruct (Z.testbit p 0), (Z.testbit p 1), (Z.testbit p 2).
Qed.

Lemma packet_data_range p : is_word 4 (packet_data p) /\ is_word 4 (packet_data p .| TCLK_BIT).
Proof.
  rewrite packet_data_cases. unfold is_word.
  by destruct (Z.testbit p 0), (Z.testbit p 1), (Z.testbit p 2).
Qed.

Lemma packet_data_low p : Z.testbit (packet_data p) 0 = false.
Proof.
  rewrite packet_data_cases. by destruct (Z.testbit p 0), (Z.testbit p 1), (Z.testbit p 2).
Qed.

Lemma packet_data_high p :
  Z.testbit (packet_data p .| TCLK_BIT) 0 = true
  /\ wire_pulse (packet_data p .| TCLK_BIT) = packet_pulse p.
Proof.
  rewrite packet_data_cases. unfold wire_pulse, packet_pulse.
  by destruct (Z.testbit p 0), (Z.testbit p 1), (Z.testbit p 2).
Qed.

Lemma packet_pulse_bit b : packet_pulse (b2z b) = Pulse false b false.
Proof. by destruct b. Qed.

Lemma packet_pulse_last b last :
  packet_pulse (if truth last then b2z b .| TMS else b2z b) = Pulse (truth last) b false.
Proof. by destruct b, (truth last). Qed.
End packets.

(** An error code that is zero is made of error codes that are. *)
Lemma lor_0 a b : a .| b = 0 <-> a = 0 /\ b = 0.
Proof. apply Z.lor_eq_0_iff. Qed.

Lemma land_1 w : w .& 1 = b2z (Z.testbit w 0).
Proof. change 1 with (2 ^ 1 - 1). rewrite land_mask by lia. unfold wrap. by rewrite Z.bit0_mod. Qed.

(** ** The words of a stream *)

Section stream_words.
Lemma bits_value_word bits n : Z.of_nat (length bits) <= n -> is_word n (bits_value bits).
Proof.
  unfold is_word. revert n. induction bits as [|b bits IH]; intros n Hn; simpl in *.
  - split; [done|]. by apply Z.pow_pos_nonneg; lia.
  - specialize (IH (n - 1) ltac:(lia)). replace n with (Z.succ (n - 1)) by lia.
    rewrite Z.pow_succ_r by lia. destruct b; simpl; lia.
Qed.

Lemma bits_value_snoc bits b :
  bits_value (bits ++ [b]) = bits_value bits + b2z b * 2 ^ Z.of_nat (length bits).
Proof.
  induction bits as [|c bits IH]; simpl; [lia|]. rewrite IH, Nat2Z.inj_succ, Z.pow_succ_r by lia.
  lia.
Qed.

Lemma stream_word_u32 bits k : is_u32 (stream_word bits k).
Proof. apply bits_value_word. rewrite length_take. lia. Qed.

(** Adding a bit at the end leaves the full words and extends the last. *)
Lemma stream_word_snoc_old bits b k :
  0 <= k -> 32 * (k + 1) <= Z.of_nat (length bits) ->
  stream_word (bits ++ [b]) k = stream_word bits k.
Proof.
  intros Hk Hn. unfold stream_word. f_equal. rewrite drop_app_le by lia.
  apply take_app_le. rewrite length_drop. lia.
Qed.

Lemma stream_word_snoc_new bits b :
  let n := Z.of_nat (length bits) in
  stream_word (bits ++ [b]) (n / 32)
  = stream_word bits (n / 32) .| shl32 (b2z b) (n mod 32).
Proof.
  intros n. unfold stream_word.
  assert (Hn : 0 <= n) by lia.
  pose proof (Z.div_mod n 32 ltac:(lia)) as Hd. pose proof (Z.mod_pos_bound n 32 ltac:(lia)) as Hm.
  rewrite drop_app_le by lia.
  set (rest := drop (Z.to_nat (32 * (n / 32))) bits).
  assert (Hl : Z.of_nat (length rest) = n mod 32) by (unfold rest; rewrite length_drop; lia).
  rewrite !take_ge by (rewrite ?length_app; simpl; lia).
  rewrite bits_value_snoc, Hl, <- Z.shiftl_mul_pow2 by lia.
  unfold shl32. rewrite wrap_small.
  2: { destruct b; simpl; unfold is_word; rewrite ?Z.shiftl_0_l, ?Z.shiftl_1_l; [|lia].
       split; [lia|]. apply Z.pow_lt_mono_r; lia. }
  rewrite <- Z.lxor_lor, <- Z.add_nocarry_lxor; [done| |].
  all: apply Z.bits_inj'; intros i Hi; rewrite Z.land_spec, Z.bits_0, Z.shiftl_spec by lia.
  all: destruct (Z.ltb_spec i (n mod 32));
    [rewrite (Z.testbit_neg_r _ (i - _)) by lia; apply andb_false_r|
     rewrite (testbit_word (n mod 32)); [done| |lia]; apply bits_value_word; lia].
Qed.

Lemma stream_words_snoc bits b :
  let n := Z.of_nat (length bits) in
  stream_words (bits ++ [b])
  = map (stream_word bits) (seqZ 0 (n / 32)) ++ [stream_word bits (n / 32) .| shl32 (b2z b) (n mod 32)].
Proof.
  intros n. unfold stream_words. rewrite length_app, Nat2Z.inj_add. simpl length.
  replace (Z.of_nat (length bits) + Z.of_nat 1 - 1) with n by lia.
  assert (0 <= n / 32) by (apply Z.div_pos; lia).
  rewrite seqZ_app, map_app by lia. f_equal.
  - apply map_ext_in. intros k Hk. apply list_elem_of_In, elem_of_seqZ in Hk.
    apply stream_word_snoc_old; [lia|]. pose proof (Z.mul_div_le n 32 ltac:(lia)). lia.
  - simpl. unfold n. by rewrite stream_word_snoc_new.
Qed.

Lemma stream_words_length bits :
  bits <> [] -> Z.of_nat (length (stream_words bits)) = (Z.of_nat (length bits) - 1) / 32 + 1.
Proof.
  intros Hb. unfold stream_words. rewrite length_map, length_seqZ, Z2Nat.id; [done|].
  assert (0 < Z.of_nat (length bits)) by (destruct bits; simpl; [done|lia]).
  pose proof (Z.div_pos (Z.of_nat (length bits) - 1) 32). lia.
Qed.
Lemma stream_words_short bits :
  0 < Z.of_nat (length bits) <= 32 -> stream_words bits = [bits_value bits].
Proof.
  intros Hl. unfold stream_words.
  rewrite Z.div_small by lia. simpl. unfold stream_word. by rewrite drop_0, take_ge by lia.
Qed.
End stream_words.

(** ** Positions in a stream *)

Section positions.
Context `{Target}.

Lemma next_position i : 0 <= i ->
  (i mod 32 = 31 /\ (i + 1) / 32 = i / 32 + 1 /\ (i + 1) mod 32 = 0)
  \/ (i mod 32 < 31 /\ (i + 1) / 32 = i / 32 /\ (i + 1) mod 32 = i mod 32 + 1).
Proof.
  intros Hi. pose proof (Z.div_mod i 32 ltac:(lia)). pose proof (Z.mod_pos_bound i 32 ltac:(lia)).
  pose proof (Z.div_mod (i + 1) 32 ltac:(lia)). pose proof (Z.mod_pos_bound (i + 1) 32 ltac:(lia)).
  assert (i / 32 <= (i + 1) / 32 <= i / 32 + 1) by (split; [apply Z.div_le_mono; lia|lia]).
  destruct (Z.eq_dec (i mod 32) 31); lia.
Qed.

Lemma shift_count_mod `{!Mod32} n : shift_count n = Ok (n mod 32).
Proof.
  unfold shift_count. destruct (Z.leb_spec 0 n), (Z.ltb_spec n 32); simpl.
  1: by rewrite Z.mod_small. all: by rewrite wide_mod32.
Qed.

Lemma shift_count_low n : 0 <= n < 32 -> shift_count n = Ok n.
Proof.
  intros. unfold shift_count. by destruct (Z.leb_spec 0 n), (Z.ltb_spec n 32); try lia.
Qed.

(** The bit the code takes out of a stream at position [i]. *)
Lemma load_stream words i : 0 <= i < 32 * Z.of_nat (length words) ->
  exists w, load_word words (i / 32) = Ok w
  /\ Z.shiftr w (i mod 32) .& 1 = b2z (stream_bit words i).
Proof.
  intros Hi. assert (0 <= i / 32 < Z.of_nat (length words))
    by (split; [apply Z.div_pos; lia|apply Z.div_lt_upper_bound; lia]).
  destruct (lookup_lt_is_Some_2 words (Z.to_nat (i / 32))) as [w Hw]; [lia|].
  exists w. unfold load_word. destruct (Z.leb_spec 0 (i / 32)); [|lia].
  rewrite Hw. split; [done|]. rewrite land_1, Z.shiftr_spec by lia.
  unfold stream_bit. by rewrite (nth_lookup_Some _ _ _ _ Hw), Z.add_0_l.
Qed.

Lemma stream_bits_snoc words i : 0 <= i ->
  stream_bits words (i + 1) = stream_bits words i ++ [stream_bit words i].
Proof.
  intros. unfold stream_bits. rewrite seqZ_app, map_app by lia. done.
Qed.

Lemma stream_bits_last words len : 0 < len ->
  stream_bits words len = stream_bits words (len - 1) ++ [stream_bit words (len - 1)].
Proof. intros. rewrite <- stream_bits_snoc by lia. f_equal. lia. Qed.

Lemma stream_bits_length words i : 0 <= i -> Z.of_nat (length (stream_bits words i)) = i.
Proof. intros. unfold stream_bits. rewrite length_map, length_seqZ. lia. Qed.

Lemma stream_bits_pos words i : 0 < i -> stream_bits words i <> [].
Proof.
  intros Hi E. pose proof (stream_bits_length words i ltac:(lia)) as Hl. rewrite E in Hl.
  simpl in Hl. lia.
Qed.
End positions.

Section lawful.
Context `{Target} {St D : Type} `{Device D} (c : jtag_cable_t St) (dev : St -> D).

(** *** Bits *)

Lemma cable_common_write_bit_law (tck : St -> bool) `{!WireLaws c dev tck} p s :
  wp (cable_common_write_bit c p)
    (fun e s' => e = 0 -> dev s' = clock (packet_pulse p) (dev s)) s.
Proof.
  destruct (packet_data_range p) as [Hl Hh]. destruct (packet_data_high p) as [Hb Hp].
  unfold cable_common_write_bit. wp_pure. wp_use (wire_out _ _ Hl) as e1 s1 H1.
  wp_pure. wp_use (wire_out _ _ Hh) as e2 s2 H2. wp_pure.
  intros [[_ E1]%lor_0 E2]%lor_0. destruct (H1 E1) as [T1 D1], (H2 E2) as [_ D2].
  rewrite D2, D1. unfold wires_to. by rewrite T1, Hb, packet_data_low, Hp.
Qed.

Lemma cable_common_read_write_bit_law (tck : St -> bool) `{!WireLaws c dev tck} p s :
  wp (cable_common_read_write_bit c p) (fun r s' => fst r = 0 ->
    snd r = b2z (tdo (dev s)) /\ dev s' = clock (packet_pulse p) (dev s)) s.
Proof.
  destruct (packet_data_range p) as [Hl Hh]. destruct (packet_data_high p) as [Hb Hp].
  unfold cable_common_read_write_bit. wp_pure. wp_use (wire_out _ _ Hl) as e1 s1 H1.
  wp_pure. wp_use (wire_inout _ _ Hh) as [e2 b] s2 H2. wp_pure.
  intros [[_ E1]%lor_0 E2]%lor_0. destruct (H1 E1) as [T1 D1], (H2 E2) as (Rb & _ & D2).
  cbn [fst snd] in *. unfold wires_to in *. rewrite packet_data_low in D1. cbn [andb] in D1.
  by rewrite Rb, D2, D1, T1, Hb, packet_data_low, Hp.
Qed.

(** *** Streams *)

Section streams.
Context (bit_out : forall p s,
  wp (bit_out_func c p) (fun e s' => e = 0 -> dev s' = clock (packet_pulse p) (dev s)) s).
Context (bit_inout : forall p s, wp (bit_inout_func c p) (fun r s' => fst r = 0 ->
  snd r = b2z (tdo (dev s)) /\ dev s' = clock (packet_pulse p) (dev s)) s).

(** The state of the writing loop after [i] bits. *)
Definition write_inv (words : list Z) (s0 : St) (i : Z) (a : Z * Z * Z) (s : St) : Prop :=
  exists err, a = (i / 32, i mod 32, err)
  /\ (err = 0 -> dev s = clocks (shift_pulses (stream_bits words i) false) (dev s0)).

Lemma clock_bit ps b d : clock (Pulse false b false) (clocks ps d) = clocks (ps ++ [Pulse false b false]) d.
Proof. by rewrite clocks_app. Qed.

Lemma cable_common_write_stream_law `{!Mod32} words len last s :
  0 < len <= 32 * Z.of_nat (length words) ->
  wp (cable_common_write_stream c words len last) (fun e s' => e = 0 ->
    dev s' = clocks (shift_pulses (stream_bits words len) (truth last)) (dev s)) s.
Proof.
  intros Hl. unfold cable_common_write_stream. wp_pure.
  wp_use (wp_mfor_upto (write_inv words s)) as a s1 Ha; [lia| |..].
  - exists APP_ERR_NONE. by split.
  - intros i a t Hi (err & -> & He). destruct (load_stream words i) as (w & Hw & Hb); [lia|].
    wp_pure. eapply wp_lift; [done|]. wp_pure. eapply wp_lift.
    { unfold shr_target. by rewrite shift_count_low by (apply Z.mod_pos_bound; lia). }
    wp_pure. rewrite Hb. wp_use bit_out as e t' He'. wp_pure. rewrite packet_pulse_bit in He'.
    destruct (next_position i) as [(Hm & Hd & Hn)|(Hm & Hd & Hn)]; [lia|..];
      destruct (Z.leb_spec 32 (i mod 32 + 1)); try lia;
      (exists (err .| e); rewrite Hd, Hn; split; [done|];
       intros [E1 E2]%lor_0; rewrite (He' E2), (He E1), stream_bits_snoc, shift_pulses_snoc by lia;
       apply clock_bit).
  - destruct Ha as (err & -> & He).
    destruct (load_stream words (len - 1)) as (w & Hw & Hb); [lia|].
    wp_pure. eapply wp_lift; [done|]. wp_pure. eapply wp_lift.
    { unfold shr_target. by rewrite shift_count_mod. }
    rewrite Hb. wp_pure. wp_use bit_out as e t' He'. wp_pure. rewrite packet_pulse_last in He'.
    intros [E1 E2]%lor_0. rewrite (He' E2), (He E1).
    by rewrite (stream_bits_last words len), shift_pulses_snoc, clocks_app by lia.
Qed.

(** The words of the buffer after [i] bits: the full ones and the open one. *)
Definition open_words (bits : list bool) : list Z :=
  map (stream_word bits) (seqZ 0 (Z.of_nat (length bits) / 32 + 1)).

Definition read_inv (words : list Z) (buf : buffer) (s0 : St) (i : Z)
    (a : Z * Z * buffer * Z) (s : St) : Prop :=
  exists full open err, a = (i / 32, i mod 32, overwrite buf (full ++ [open]), err)
  /\ Z.of_nat (length full) = i / 32 /\ Forall is_u32 (full ++ [open])
  /\ (err = 0 -> let ps := shift_pulses (stream_bits words i) false in
      dev s = clocks ps (dev s0) /\ full ++ [open] = open_words (samples ps (dev s0))).

Lemma open_words_last bits : exists full,
  open_words bits = full ++ [stream_word bits (Z.of_nat (length bits) / 32)]
  /\ Z.of_nat (length full) = Z.of_nat (length bits) / 32
  /\ full = map (stream_word bits) (seqZ 0 (Z.of_nat (length bits) / 32)).
Proof.
  assert (0 <= Z.of_nat (length bits) / 32) by (apply Z.div_pos; lia).
  eexists. unfold open_words. rewrite seqZ_app, map_app by lia. split; [reflexivity|].
  split; [|done]. rewrite length_map, length_seqZ. lia.
Qed.

Lemma open_words_snoc bits b :
  let n := Z.of_nat (length bits) in
  open_words (bits ++ [b])
  = stream_words (bits ++ [b]) ++ (if n mod 32 =? 31 then [0] else []).
Proof.
  intros n. unfold open_words, stream_words. rewrite length_app, Nat2Z.inj_add. simpl length.
  change (Z.of_nat (length bits)) with n. replace (n + Z.of_nat 1 - 1) with n by lia.
  replace (n + Z.of_nat 1) with (n + 1) by lia.
  assert (0 <= n / 32) by (apply Z.div_pos; lia).
  pose proof (Z.div_mod n 32 ltac:(lia)) as Hd.
  destruct (next_position n) as [(Hm & -> & Hn)|(Hm & -> & Hn)]; [lia|..]; rewrite ?Hm; simpl.
  - rewrite (seqZ_app 0 (n / 32 + 1) 1), map_app by lia. f_equal. simpl. f_equal.
    unfold stream_word. rewrite drop_ge; [done|]. rewrite length_app. simpl. lia.
  - destruct (Z.eqb_spec (n mod 32) 31); [lia|]. by rewrite app_nil_r.
Qed.

(** The open word is the one the code reads and writes back. *)
Lemma load_open buf full open k :
  Z.of_nat (length full) = k -> load_slot (overwrite buf (full ++ [open])) k = Ok open.
Proof.
  intros <-. unfold load_slot, overwrite. destruct (Z.leb_spec 0 (Z.of_nat (length full))); [|lia].
  rewrite Nat2Z.id, map_app, <- app_assoc, lookup_app_r by (by rewrite length_map).
  by rewrite length_map, Nat.sub_diag.
Qed.

Lemma store_open buf full open k v :
  Z.of_nat (length full) = k -> k < Z.of_nat (length buf) ->
  store_slot (overwrite buf (full ++ [open])) k v = Ok (overwrite buf (full ++ [v])).
Proof.
  intros <- Hk. unfold store_slot, overwrite.
  rewrite length_app, length_map, length_drop, !length_app.
  destruct (Z.leb_spec 0 (Z.of_nat (length full))); [|lia].
  destruct (Z.ltb_spec (Z.of_nat (length full)) (Z.of_nat (length full + length [open]
    + (length buf - (length full + length [open]))))); [|simpl in *; lia]. cbn [andb].
  rewrite Nat2Z.id, !map_app, <- !app_assoc, insert_app_r_alt by (by rewrite length_map).
  by rewrite length_map, Nat.sub_diag.
Qed.

Lemma store_next buf words k v :
  Z.of_nat (length words) = k -> k < Z.of_nat (length buf) ->
  store_slot (overwrite buf words) k v = Ok (overwrite buf (words ++ [v])).
Proof.
  intros <- Hk. unfold store_slot, overwrite. rewrite length_app, length_map, length_drop.
  destruct (Z.leb_spec 0 (Z.of_nat (length words))); [|lia].
  destruct (Z.ltb_spec (Z.of_nat (length words)) (Z.of_nat (length words
    + (length buf - length words)))); [|lia]. cbn [andb].
  rewrite Nat2Z.id, map_app, <- app_assoc, insert_app_r_alt by (by rewrite length_map).
  rewrite length_map, Nat.sub_diag, length_app. do 2 f_equal.
  destruct (lookup_lt_is_Some_2 buf (length words)) as [x Hx]; [lia|].
  by rewrite (drop_S _ _ _ Hx), Nat.add_1_r.
Qed.

(** The bit that has come back goes into the open word. *)
Lemma read_inv_bit words s0 i full open err e b t t' :
  0 <= i ->
  (err = 0 -> let ps := shift_pulses (stream_bits words i) false in
      dev t = clocks ps (dev s0) /\ full ++ [open] = open_words (samples ps (dev s0))) ->
  Z.of_nat (length full) = i / 32 ->
  (e = 0 -> b = b2z (tdo (dev t))
    /\ dev t' = clock (Pulse false (stream_bit words i) false) (dev t)) ->
  err .| e = 0 ->
  let ps := shift_pulses (stream_bits words (i + 1)) false in
  dev t' = clocks ps (dev s0)
  /\ (forall last, full ++ [open .| shl32 b (i mod 32)]
      = stream_words (samples (shift_pulses (stream_bits words (i + 1)) last) (dev s0)))
  /\ Z.of_nat (length (samples (shift_pulses (stream_bits words i) false) (dev s0))) = i
  /\ exists x, samples ps (dev s0)
               = samples (shift_pulses (stream_bits words i) false) (dev s0) ++ [x].
Proof.
  intros Hi Hw Hf He [E1 E2]%lor_0 ps. destruct (Hw E1) as [Ht Hbuf], (He E2) as [-> Ht'].
  unfold ps. rewrite stream_bits_snoc, shift_pulses_snoc, clocks_app, <- Ht by lia.
  assert (Hlen : Z.of_nat (length
    (samples (shift_pulses (stream_bits words i) false) (dev s0))) = i).
  { by rewrite samples_length, shift_pulses_length, stream_bits_length. }
  split; [done|]. split; [|split; [done|]].
  - intros last. rewrite shift_pulses_snoc, samples_app, <- Ht. cbn [samples].
    set (bits := samples _ _) in *.
    destruct (open_words_last bits) as (full' & Ho & _ & Hfull).
    rewrite Ho in Hbuf. apply app_inj_tail in Hbuf as [-> ->].
    by rewrite stream_words_snoc, Hfull, Hlen.
  - eexists. by rewrite samples_app, <- Ht.
Qed.

Lemma cable_common_read_stream_law `{!Mod32} words buf len last s :
  0 < len <= 32 * Z.of_nat (length words) -> len <= 32 * Z.of_nat (length buf) ->
  wp (cable_common_read_stream c words buf len last) (fun r s' =>
    exists read, snd r = overwrite buf read /\ Z.of_nat (length read) = (len - 1) / 32 + 1
    /\ Forall is_u32 read
    /\ (fst r = 0 ->
        let ps := shift_pulses (stream_bits words len) (truth last) in
        dev s' = clocks ps (dev s) /\ read = stream_words (samples ps (dev s)))) s.
Proof.
  intros Hl Hb. unfold cable_common_read_stream. wp_pure.
  eapply wp_lift; [apply (store_next buf [] 0); simpl; lia|]. wp_pure.
  wp_use (wp_mfor_upto (read_inv words buf s)) as a s1 Ha; [lia| |..].
  - exists [], 0, APP_ERR_NONE. split; [done|]. split; [done|]. split; [|done].
    by apply List.Forall_cons; [split; lia|].
  - intros i a t Hi (full & open & err & -> & Hf & Hu & He).
    destruct (load_stream words i) as (w & Hw & Hbit); [lia|].
    assert (Hk : i / 32 < Z.of_nat (length buf)) by (apply Z.div_lt_upper_bound; lia).
    pose proof (Z.mod_pos_bound i 32 ltac:(lia)) as Hm.
    wp_pure. eapply wp_lift; [done|]. wp_pure. eapply wp_lift.
    { unfold shr_target. by rewrite shift_count_low. }
    wp_pure. rewrite Hbit. wp_use bit_inout as [e b] t' He'. rewrite packet_pulse_bit in He'.
    cbn [fst snd] in He'.
    wp_pure. eapply wp_lift; [by apply load_open|]. wp_pure. eapply wp_lift.
    { unfold shl_target. by rewrite shift_count_low. }
    wp_pure. eapply wp_lift; [by apply store_open|].
    pose proof (read_inv_bit words s i full open err e b t t' ltac:(lia) He Hf He') as Hinv.
    apply Forall_app in Hu as [Hu Ho]. apply List.Forall_cons_iff in Ho as [Ho _].
    assert (Hu' : Forall is_u32 (full ++ [open .| shl32 b (i mod 32)])).
    { apply Forall_app. split; [done|]. apply List.Forall_cons; [|done].
      apply is_word_lor; [lia|done|]. apply wrap_range. lia. }
    destruct (next_position i) as [(Hm' & Hd & Hn)|(Hm' & Hd & Hn)]; [lia|..];
      destruct (Z.leb_spec 32 (i mod 32 + 1)); try lia; cycle 1.
    + wp_pure. exists full, (open .| shl32 b (i mod 32)), (err .| e).
      rewrite Hd, Hn. split; [done|]. split; [done|]. split; [done|].
      intros E. destruct (Hinv E) as (Ht' & Hr & Hlen & x & Hx). split; [done|].
      rewrite Hx, open_words_snoc, Hlen, <- Hx, <- Hr.
      destruct (Z.eqb_spec (i mod 32) 31); [lia|]. by rewrite app_nil_r.
    + wp_pure. eapply wp_lift.
      { apply store_next; [rewrite length_app; simpl; lia|].
        assert ((i + 1) / 32 < Z.of_nat (length buf)) by (apply Z.div_lt_upper_bound; lia). lia. }
      wp_pure. exists (full ++ [open .| shl32 b (i mod 32)]), 0, (err .| e).
      rewrite Hd, Hn. split; [done|]. split; [rewrite length_app; simpl; lia|]. split.
      { apply Forall_app. split; [done|]. apply List.Forall_cons; [split; lia|done]. }
      intros E. destruct (Hinv E) as (Ht' & Hr & Hlen & x & Hx). split; [done|].
      rewrite Hx, open_words_snoc, Hlen, <- Hx, <- Hr.
      by destruct (Z.eqb_spec (i mod 32) 31); [|lia].
  - destruct Ha as (full & open & err & -> & Hf & Hu & He).
    destruct (load_stream words (len - 1)) as (w & Hw & Hbit); [lia|].
    assert (Hk : (len - 1) / 32 < Z.of_nat (length buf)) by (apply Z.div_lt_upper_bound; lia).
    pose proof (Z.mod_pos_bound (len - 1) 32 ltac:(lia)) as Hm.
    wp_pure. eapply wp_lift; [done|]. wp_pure. eapply wp_lift.
    { unfold shr_target. by rewrite shift_count_mod. }
    wp_pure. rewrite Hbit. wp_use bit_inout as [e b] t' He'. rewrite packet_pulse_last in He'.
    cbn [fst snd] in He'.
    wp_pure. eapply wp_lift; [by apply load_open|]. wp_pure. eapply wp_lift.
    { unfold shl_target. by rewrite shift_count_low. }
    wp_pure. eapply wp_lift; [by apply store_open|]. wp_pure.
    apply Forall_app in Hu as [Hu Ho]. apply List.Forall_cons_iff in Ho as [Ho _].
    exists (full ++ [open .| shl32 b ((len - 1) mod 32)]). split; [done|]. split.
    { rewrite length_app. simpl. lia. }
    split.
    { apply Forall_app. split; [done|]. apply List.Forall_cons; [|done].
      apply is_word_lor; [lia|done|]. apply wrap_range. lia. }
    cbn [fst]. intros [E1 E2]%lor_0. destruct (He E1) as [Ht Hbuf], (He' E2) as [-> ->].
    rewrite (stream_bits_last words len) by lia.
    rewrite shift_pulses_snoc, clocks_app, samples_app, <- Ht. split; [done|]. cbn [samples].
    assert (Hlen : Z.of_nat (length (samples
      (shift_pulses (stream_bits words (len - 1)) false) (dev s))) = len - 1).
    { by rewrite samples_length, shift_pulses_length, stream_bits_length by lia. }
    set (bits := samples _ (dev s)) in *.
    destruct (open_words_last bits) as (full' & Ho' & _ & Hfull).
    rewrite Ho' in Hbuf. apply app_inj_tail in Hbuf as [-> ->].
    by rewrite stream_words_snoc, Hfull, Hlen.
Qed.
End streams.

(** A table made of the [cable_common_*] over a lawful driver of wires is
    lawful, on a processor that reduces the count of a shift. *)
Lemma bitbang_laws `{!Mod32, !BitBang c} (tck : St -> bool) `{!WireLaws c dev tck} :
  CableLaws c dev.
Proof.
  assert (Hout : forall p s,
    wp (bit_out_func c p) (fun e s' => e = 0 -> dev s' = clock (packet_pulse p) (dev s)) s).
  { intros p s. rewrite bb_bit_out. by apply (cable_common_write_bit_law tck). }
  assert (Hio : forall p s, wp (bit_inout_func c p) (fun r s' => fst r = 0 ->
    snd r = b2z (tdo (dev s)) /\ dev s' = clock (packet_pulse p) (dev s)) s).
  { intros p s. rewrite bb_bit_inout. by apply (cable_common_read_write_bit_law tck). }
  split; [done|done|..].
  - intros words len last s Hl. rewrite bb_stream_out. by apply cable_common_write_stream_law.
  - intros words buf len last s Hl Hb. rewrite bb_stream_inout.
    by apply cable_common_read_stream_law.
Qed.
End lawful.

(** * Reliable cables

    Drivers that never report an error; those of the parallel port. *)

Class Reliable {St} (c : jtag_cable_t St) : Prop := {
  rel_bit_out p : post (bit_out_func c p) (fun e => e = 0);
  rel_bit_inout p : post (bit_inout_func c p) (fun r => fst r = 0);
  rel_stream_out ws n last : post (stream_out_func c ws n last) (fun e => e = 0);
  rel_stream_inout ws buf n last : post (stream_inout_func c ws buf n last) (fun r => fst r = 0)
}.

Section reliable.
Context `{Target} {St : Type} (c : jtag_cable_t St).

(** The streams of [cable_common_*] over bits that report no error. *)
Lemma common_reliable :
  (forall p, post (bit_out_func c p) (fun e => e = 0)) ->
  (forall p, post (bit_inout_func c p) (fun r => fst r = 0)) ->
  (forall ws n last, post (cable_common_write_stream c ws n last) (fun e => e = 0))
  /\ (forall ws buf n last, post (cable_common_read_stream c ws buf n last) (fun r => fst r = 0)).
Proof.
  intros Hb Hbio. split.
  - intros ws n last. unfold cable_common_write_stream.
    eapply post_bind; [apply (post_mfor (fun a => snd a = 0)); [done|]|].
    + intros i [[index bits] err] He. simpl in He. subst err.
      apply post_skip; intros w. apply post_skip; intros v.
      eapply post_bind; [apply Hb|]. intros e ->. apply post_ret. by destruct (32 <=? _).
    + intros [[index bits] err] He. simpl in He. subst err.
      apply post_skip; intros w. apply post_skip; intros v.
      eapply post_bind; [apply Hb|]. intros e ->. by apply post_ret.
  - intros ws buf n last. unfold cable_common_read_stream.
    apply post_skip; intros buf0.
    eapply post_bind; [apply (post_mfor (fun a => snd a = 0)); [done|]|].
    + intros i [[[index bits] inp] err] He. simpl in He. subst err.
      do 2 (apply post_skip; intros ?).
      eapply post_bind; [apply Hbio|]. intros [e b] He. simpl in He. subst e.
      do 3 (apply post_skip; intros ?). destruct (32 <=? _).
      * apply post_skip; intros ?. by apply post_ret.
      * by apply post_ret.
    + intros [[[index bits] inp] err] He. simpl in He. subst err.
      do 2 (apply post_skip; intros ?).
      eapply post_bind; [apply Hbio|]. intros [e b] He. simpl in He. subst e.
      do 3 (apply post_skip; intros ?). by apply post_ret.
Qed.

Lemma bitbang_reliable `{!BitBang c} :
  (forall v, post (out_func c v) (fun e => e = 0)) ->
  (forall v, post (inout_func c v) (fun r => fst r = 0)) -> Reliable c.
Proof.
  intros Ho Hio.
  assert (Hb : forall p, post (bit_out_func c p) (fun e => e = 0)).
  { intros p. rewrite bb_bit_out. eapply post_bind; [apply Ho|]. intros e ->.
    eapply post_bind; [apply Ho|]. intros e ->. by apply post_ret. }
  assert (Hbio : forall p, post (bit_inout_func c p) (fun r => fst r = 0)).
  { intros p. rewrite bb_bit_inout. eapply post_bind; [apply Ho|]. intros e ->.
    eapply post_bind; [apply Hio|]. intros [e b] He. simpl in He. subst e. by apply post_ret. }
  destruct (common_reliable Hb Hbio) as [Hs Hsio]. split; [done|done|..]; intros.
  - rewrite bb_stream_out. apply Hs.
  - rewrite bb_stream_inout. apply Hsio.
Qed.
End reliable.
