(* ===== verification/Parallel.v ===== *)
(** The two cables of cable_parallel.c on a port with a device: they are lawful
    drivers, so everything proved of a lawful cable holds of them. *)

From S2P Require Import Prelude StateM Tap Cable.

Open Scope cword_scope.

(** Which bit of the data and of the status register of the port is which wire
    of the JTAG connector; [None] for TRST where the cable does not have it. *)
Record wiring := Wiring { w_tck : Z; w_tdi : Z; w_tms : Z; w_trst : option Z; w_tdo : Z }.

(** The wires of the comments in cable_xpc3_out and cable_xess_out. *)
Definition xpc3_wiring : wiring := Wiring 1 0 2 None 4.
Definition xess_wiring : wiring := Wiring 2 4 5 (Some 3) 5.

(** A port whose data register holds [lines], and the device. *)
Record portdev (D : Type) := PortDev { lines : Z; pdev : D }.
Arguments PortDev {D} _ _.
Arguments lines {D} _.
Arguments pdev {D} _.

Section port.
Context {D : Type} `{Device D} (w : wiring) (base : Z).

Definition port_pulse (v : Z) : pulse :=
  Pulse (Z.testbit v (w_tms w)) (Z.testbit v (w_tdi w))
    (match w_trst w with Some n => negb (Z.testbit v n) | None => false end).

Definition port_write (v : Z) (s : portdev D) : portdev D :=
  PortDev v (if Z.testbit v (w_tck w) && negb (Z.testbit (lines s) (w_tck w))
             then clock (port_pulse v) (pdev s) else pdev s).

Definition wired_port : ParPort (portdev D) := {|
  outb v port s := if port =? base then port_write v s else s;
  inb port s := (if port =? base + 1 then Z.shiftl (b2z (tdo (pdev s))) (w_tdo w) else 0xff, s);
  ioperm _ _ _ s := (0, s)
|}.

Definition port_tck (s : portdev D) : bool := Z.testbit (lines s) (w_tck w).
End port.

(** A device that does not look at TRST. *)
Class IgnoresTrst D `{Device D} : Prop :=
  ignores_trst p d : clock p d = clock (Pulse (p_tms p) (p_tdi p) false) d.

#[export] Instance tapped_ignores_trst {H} `{Chip H} :
  @IgnoresTrst (tapped H) (@tapped_device H _ false).
Proof. intros [tms tdi tr] [t h]. unfold clock. simpl. unfold trst. by rewrite !andb_false_r. Qed.

Section laws.
Context `{Target} {D : Type} `{Device D} (base : Z).

(** The bits of the bytes that go to the port. *)
Lemma xpc3_bits data :
  cable_xpc3_bits data
  = (if Z.testbit data 0 then 0x02 else 0) .| (if Z.testbit data 1 then 0x10 else 0)
    .| (if Z.testbit data 2 then 0x01 else 0) .| (if Z.testbit data 3 then 0x04 else 0).
Proof.
  unfold cable_xpc3_bits. change TCLK_BIT with (2 ^ 0). change TRST_BIT with (2 ^ 1).
  change TDI_BIT with (2 ^ 2). change TMS_BIT with (2 ^ 3). rewrite !truth_land_pow2 by lia.
  by destruct (Z.testbit data 0), (Z.testbit data 1), (Z.testbit data 2), (Z.testbit data 3).
Qed.

Lemma xess_bits data :
  cable_xess_bits data
  = (if Z.testbit data 0 then 0x04 else 0) .| (if Z.testbit data 1 then 0x08 else 0)
    .| (if Z.testbit data 2 then 0x10 else 0) .| (if Z.testbit data 3 then 0x20 else 0).
Proof.
  unfold cable_xess_bits. change TCLK_BIT with (2 ^ 0). change TRST_BIT with (2 ^ 1).
  change TDI_BIT with (2 ^ 2). change TMS_BIT with (2 ^ 3). rewrite !truth_land_pow2 by lia.
  by destruct (Z.testbit data 0), (Z.testbit data 1), (Z.testbit data 2), (Z.testbit data 3).
Qed.

Lemma tdo_bit b n : 0 <= n -> truth (Z.shiftl (b2z b) n .& 2 ^ n) = b.
Proof.
  intros. rewrite truth_land_pow2, Z.shiftl_spec, Z.sub_diag by lia. by destruct b.
Qed.

Lemma port_out w bits data s :
  Z.testbit (bits data) (w_tck w) = Z.testbit data 0 ->
  (forall d : D, clock (port_pulse w (bits data)) d = clock (wire_pulse data) d) ->
  let s' := port_write w (bits data) s in
  port_tck w s' = Z.testbit data 0 /\ pdev s' = wires_to (port_tck w s) data (pdev s).
Proof.
  intros Ht Hp. unfold port_write, port_tck, wires_to. cbn [lines pdev]. by rewrite Ht, Hp.
Qed.

#[export] Instance xpc3_laws `{!IgnoresTrst D} :
  WireLaws (xpc3_cable_driver (H0 := wired_port xpc3_wiring base) base) pdev (port_tck xpc3_wiring).
Proof.
  assert (Hw : forall data s, let s' := port_write xpc3_wiring (cable_xpc3_bits data) s in
    port_tck xpc3_wiring s' = Z.testbit data 0
    /\ pdev s' = wires_to (port_tck xpc3_wiring s) data (pdev s)).
  { intros data s. apply port_out.
    - rewrite xpc3_bits.
      by destruct (Z.testbit data 0), (Z.testbit data 1), (Z.testbit data 2), (Z.testbit data 3).
    - intros d. rewrite (ignores_trst (wire_pulse _)). f_equal. rewrite xpc3_bits.
      unfold port_pulse, wire_pulse.
      by destruct (Z.testbit data 0), (Z.testbit data 1), (Z.testbit data 2), (Z.testbit data 3). }
  split; intros data s _; eexists _, _; (split; [reflexivity|]); intros _;
    cbn; unfold LPT_READ, LPT_WRITE; rewrite !Z.eqb_refl; [apply Hw|].
  change 0x10 with (2 ^ 4). rewrite tdo_bit by lia. split; [by destruct (tdo _)|apply Hw].
Qed.

#[export] Instance xess_laws :
  WireLaws (xess_cable_driver (H0 := wired_port xess_wiring base) base) pdev (port_tck xess_wiring).
Proof.
  assert (Hw : forall data s, let s' := port_write xess_wiring (cable_xess_bits data) s in
    port_tck xess_wiring s' = Z.testbit data 0
    /\ pdev s' = wires_to (port_tck xess_wiring s) data (pdev s)).
  { intros data s. apply port_out.
    - rewrite xess_bits.
      by destruct (Z.testbit data 0), (Z.testbit data 1), (Z.testbit data 2), (Z.testbit data 3).
    - intros d. f_equal. rewrite xess_bits. unfold port_pulse, wire_pulse.
      by destruct (Z.testbit data 0), (Z.testbit data 1), (Z.testbit data 2), (Z.testbit data 3). }
  split; intros data s _; eexists _, _; (split; [reflexivity|]); intros _;
    cbn; unfold LPT_READ, LPT_WRITE; rewrite !Z.eqb_refl; [apply Hw|].
  change 0x20 with (2 ^ 5). rewrite tdo_bit by lia. split; [by destruct (tdo _)|apply Hw].
Qed.
End laws.

#[export] Instance xpc3_bitbang `{Target} {St} `{ParPort St} base :
  BitBang (xpc3_cable_driver (St := St) base).
Proof. apply bitbang_bitbang. Qed.

#[export] Instance xess_bitbang `{Target} {St} `{ParPort St} base :
  BitBang (xess_cable_driver (St := St) base).
Proof. apply bitbang_bitbang. Qed.

(** The cable with a TRST wire on a processor that reduces shift counts, and the
    one without it for a device that does not need it. *)
#[export] Instance xess_cable_laws `{Target, !Mod32} {D} `{Device D} base :
  CableLaws (xess_cable_driver (H0 := wired_port xess_wiring base) base) (pdev (D := D)).
Proof. apply (bitbang_laws _ _ (port_tck xess_wiring)). Qed.

#[export] Instance xpc3_cable_laws `{Target, !Mod32} {D} `{Device D, !IgnoresTrst D} base :
  CableLaws (xpc3_cable_driver (H0 := wired_port xpc3_wiring base) base) (pdev (D := D)).
Proof. apply (bitbang_laws _ _ (port_tck xpc3_wiring)). Qed.

#[export] Instance xpc3_reliable `{Target} {St} `{ParPort St} base :
  Reliable (xpc3_cable_driver (St := St) base).
Proof.
  apply bitbang_reliable; [apply _|..]; intros v s a s'; simpl.
  - by intros [= <- <-].
  - unfold cable_xpc3_inout, cable_parallel_inout, mbind, M_bind.
    destruct (inb _ s) as [x s1]. by intros [= <- <-].
Qed.

#[export] Instance xess_reliable `{Target} {St} `{ParPort St} base :
  Reliable (xess_cable_driver (St := St) base).
Proof.
  apply bitbang_reliable; [apply _|..]; intros v s a s'; simpl.
  - by intros [= <- <-].
  - unfold cable_xess_inout, cable_parallel_inout, mbind, M_bind.
    destruct (inb _ s) as [x s1]. by intros [= <- <-].
Qed.
