(* ===== verification/Blaster.v ===== *)
(** cable_usbblaster.c and cable_ft245.c: the USB-Blaster cable, through libusb and through
    libftdi.

    The cable takes bytes: one with the levels of the wires, or a header with the number of
    bytes that follow it, which it shifts through the chain by itself.  The libraries are the
    classes [LibUsb] and [LibFtdi]; the functions that the two files share word for word are
    in one Section, over what is different in them.  The host is little endian: the bytes of
    a stream are those of its words, the low one first. *)

From stdpp Require Import strings.
From S2P Require Import Prelude StateM Tap Cable.

Open Scope Z_scope.
Open Scope cword_scope.

(** * The protocol *)

Definition USBBLASTER_CMD_TCK : Z := 0x01.
Definition USBBLASTER_CMD_TMS : Z := 0x02.
Definition USBBLASTER_CMD_nCS : Z := 0x08.
Definition USBBLASTER_CMD_TDI : Z := 0x10.
Definition USBBLASTER_CMD_OE : Z := 0x20.
Definition USBBLASTER_CMD_READ : Z := 0x40.
Definition USBBLASTER_CMD_BYTESHIFT : Z := 0x80.

Definition USBBLASTER_MAX_WRITE : Z := 63.
Definition USBBLASTER_MAX_READ : Z := 62.

(** * Streams by bytes *)

(** [memcpy] of the bytes [from], [from + 1], ... of a stream. *)
Definition stream_byte (stream : list Z) (k : Z) : outcome Z :=
  w ← load_word stream (k >> 2);
  Ok ((w >> (8 * (k .& 3))) .& 0xff).
Definition copy_bytes (stream : list Z) (from n : Z) : outcome (list Z) :=
  mapM (stream_byte stream) (seqZ from n).

(** [bytes_to_transfer] and [leftover_bit_length]: the last bit goes with TMS, which a shift
    of bytes does not change. *)
Definition split_length (len_bits set_last_bit : Z) : Z * Z :=
  let bytes_to_transfer := u32 (Z.quot len_bits 8) in
  let leftover_bit_length := u32 (len_bits - bytes_to_transfer * 8) in
  if (leftover_bit_length =? 0) && truth set_last_bit
  then (u32 (bytes_to_transfer - 1), u32 (leftover_bit_length + 8))
  else (bytes_to_transfer, leftover_bit_length).

Definition leftover (stream : list Z) (bytes_to_transfer : Z) : outcome Z :=
  w ← load_word stream (bytes_to_transfer >> 2);
  Ok ((w >> ((bytes_to_transfer .& 3) * 8)) .& 0xff).

(** The loop over the words counts in an unsigned char: it does not end when there are more
    of them than that counts. *)
Definition zero_input (instream : buffer) (len_bits : Z) : outcome buffer :=
  let n := Z.quot len_bits 32 in
  instream ← foldl (fun b i => b ← b; store_slot b i 0) (Ok instream) (seqZ 0 (Z.min n 256));
  if 256 <=? n then Hang else
  if truth (Z.rem len_bits 32) then store_slot instream (Z.max n 0) 0 else Ok instream.

(** Received bytes into the stream.  The place in the word is that of the index within this
    transfer. *)
Fixpoint put_received (instream : buffer) (total i : Z) (data : list Z) : outcome buffer :=
  match data with
  | [] => Ok instream
  | tmp :: data =>
      let index := u32 (total + i) >> 2 in
      old ← load_slot instream index;
      instream ← store_slot instream index (old .| shl32 tmp ((i .& 3) * 8));
      put_received instream total (i + 1) data
  end.

Section byte_shift.
Context `{Target} {St : Type} (bits : jtag_cable_t St).
(** [open]: what is done when the device is not open; [send]: whether the whole packet has
    been taken; [receive]: how many bytes have come, and the bytes, or an error; [fail]: what
    is done on an error of a read. *)
Context (out : Z -> M St Z) (open : M St Z) (send : list Z -> M St bool)
  (receive : Z -> M St (option (Z * list Z))) (fail : M St unit).

Fixpoint write_transfers (fuel : nat) (stream : list Z) (pos bytes_remaining err : Z) : M St Z :=
  if bytes_remaining <=? 0 then mret err else
  match fuel with
  | O => lift Hang
  | S fuel =>
      let n := if USBBLASTER_MAX_WRITE <? bytes_remaining then USBBLASTER_MAX_WRITE else bytes_remaining in
      data ← lift (copy_bytes stream pos n);
      ok ← send ((USBBLASTER_CMD_BYTESHIFT .| (n .& 0x3F)) :: data);
      if negb ok then mret (err .| APP_ERR_USB)
      else write_transfers fuel stream (pos + n) (bytes_remaining - n) err
  end.

Definition byte_write_stream (stream : list Z) (len_bits set_last_bit : Z) : M St Z :=
  let '(bytes_to_transfer, leftover_bit_length) := split_length len_bits set_last_bit in
  if bytes_to_transfer =? 0 then cable_common_write_stream bits stream len_bits set_last_bit else
  e ← out 0;
  leftover_bits ← lift (leftover stream bytes_to_transfer);
  rv ← open;
  if negb (rv =? APP_ERR_NONE) then mret rv else
  err ← write_transfers (Z.to_nat bytes_to_transfer) stream 0 (i32 bytes_to_transfer) e;
  if negb (leftover_bit_length =? 0)
  then cable_common_write_stream bits [leftover_bits] leftover_bit_length set_last_bit
  else mret err.

(** The answer to one transfer: until all bytes are there, or fifteen times nothing has come.
    [None]: an error of the library. *)
Fixpoint receive_transfer (fuel : nat) (n : Z) (instream : buffer) (retries bytes_received total : Z)
    : M St (option Z * buffer) :=
  match fuel with
  | O => lift Hang
  | S fuel =>
      r ← receive (n - bytes_received);
      match r with
      | None => fail;; mret (None, instream)
      | Some (count, data) =>
          let retries := if 0 <? count then 0 else retries + 1 in
          instream ← lift (put_received instream total 0 data);
          let bytes_received := u32 (bytes_received + count) in
          let total := u32 (total + count) in
          if (bytes_received <? n) && (retries <? 15)
          then receive_transfer fuel n instream retries bytes_received total
          else mret (Some total, instream)
      end
  end.

Definition transfer_fuel : nat := 16 * 64.

(** [None]: one of the transfers has failed. *)
Fixpoint read_transfers (fuel : nat) (stream : list Z) (instream : buffer) (pos bytes_remaining total : Z)
    : M St (bool * buffer) :=
  if bytes_remaining <=? 0 then mret (true, instream) else
  match fuel with
  | O => lift Hang
  | S fuel =>
      let n := if USBBLASTER_MAX_READ <? bytes_remaining then USBBLASTER_MAX_READ else bytes_remaining in
      data ← lift (copy_bytes stream pos n);
      ok ← send ((USBBLASTER_CMD_BYTESHIFT .| USBBLASTER_CMD_READ .| (n .& 0x3F)) :: data);
      if negb ok then fail;; mret (false, instream) else
      '(r, instream) ← receive_transfer transfer_fuel n instream 0 0 total;
      match r with
      | None => mret (false, instream)
      | Some total => read_transfers fuel stream instream (pos + n) (bytes_remaining - n) total
      end
  end.

Definition byte_read_stream (outstream : list Z) (instream : buffer) (len_bits set_last_bit : Z)
    : M St (Z * buffer) :=
  let '(bytes_to_transfer, leftover_bit_length) := split_length len_bits set_last_bit in
  if bytes_to_transfer =? 0 then cable_common_read_stream bits outstream instream len_bits set_last_bit else
  retval ← out 0;
  instream ← lift (zero_input instream len_bits);
  leftover_bits ← lift (leftover outstream bytes_to_transfer);
  rv ← open;
  if negb (rv =? APP_ERR_NONE) then mret (rv, instream) else
  '(ok, instream) ← read_transfers (Z.to_nat bytes_to_transfer) outstream instream 0 (i32 bytes_to_transfer) 0;
  if negb ok then mret (APP_ERR_USB, instream) else
  if negb (leftover_bit_length =? 0) then
    '(e, leftovers) ← cable_common_read_stream bits [leftover_bits] [Some 0] leftover_bit_length set_last_bit;
    leftovers_received ← lift (load_slot leftovers 0);
    old ← lift (load_slot instream (bytes_to_transfer >> 2));
    instream ← lift (store_slot instream (bytes_to_transfer >> 2)
      (old .| shl32 (leftovers_received .& 0xff) (8 * (bytes_to_transfer .& 3))));
    mret (retval .| e, instream)
  else mret (retval, instream).
End byte_shift.

(** A table with functions for streams of its own. *)
Definition stream_table {St} (c : jtag_cable_t St) (so : list Z -> Z -> Z -> M St Z)
    (sio : list Z -> buffer -> Z -> Z -> M St (Z * buffer)) : jtag_cable_t St :=
  {| name := name c; inout_func := inout_func c; out_func := out_func c; init_func := init_func c;
     bit_out_func := bit_out_func c; bit_inout_func := bit_inout_func c;
     stream_out_func := so; stream_inout_func := sio; flush_func := None; opts := opts c |}.

(** * cable_usbblaster.c *)

Definition ALTERA_VID : Z := 0x09FB.
Definition ALTERA_PID : Z := 0x6001.

(** libusb: transfers with the two endpoints of the cable and control messages that read,
    [None] for a negative result; the vendor and the product of the devices of each bus; the
    other calls, each with its result. *)
Inductive usb_call :=
| usb_open | usb_set_configuration | usb_claim_interface | usb_release_interface | usb_close
| usb_reset | usb_control_msg (requesttype request value index : Z).
Class LibUsb (St : Type) := {
  usb_bulk_write : list Z -> St -> Z * St;
  usb_bulk_read : Z -> St -> option (list Z) * St;
  usb_control_in : Z -> Z -> Z -> Z -> Z -> St -> option (list Z) * St;
  usb_find_devices : St -> list (list (Z * Z)) * St;
  usb : usb_call -> St -> Z * St
}.

Definition call {St A} (f : St -> A * St) : M St A := fun s => Ok (f s).

(** [usbblaster_device] and [h_device], whether they are not null. *)
Record usbblaster_t (U : Type) := Usbblaster { usbblaster_device : bool; h_device : bool; usb_bus : U }.
Arguments Usbblaster {U} _ _ _.
Arguments usbblaster_device {U} _.
Arguments h_device {U} _.
Arguments usb_bus {U} _.

Section cable_usbblaster.
Context `{Target, Unspecified} {U : Type} `{LibUsb U}.
Abbreviation St := (usbblaster_t U).

Definition on_usb {A} (f : M U A) : M St A := fun s =>
  match f (usb_bus s) with
  | Ok (a, u) => Ok (a, Usbblaster (usbblaster_device s) (h_device s) u)
  | Hang => Hang | AssertFail => AssertFail | Undef => Undef
  end.
Definition libusb (c : usb_call) : M St Z := on_usb (call (usb c)).
Definition set_h_device (v : bool) : M St unit := modify (fun s => Usbblaster (usbblaster_device s) v (usb_bus s)).

Definition usbblaster_start_interface : M St Z :=
  r ← libusb (usb_control_msg 0x40 0 0 0); mret (if r <? 0 then APP_ERR_USB else APP_ERR_NONE).
Definition usbblaster_read_firmware_version : M St Z :=
  r ← on_usb (call (usb_control_in 0xC0 0x90 0 3 2));
  mret (match r with None => APP_ERR_USB | Some _ => APP_ERR_NONE end).

Definition usbblaster_enumerate_bus : M St Z :=
  busses ← on_usb (call usb_find_devices);
  let found := existsb (existsb (fun '(v, p) => (v =? ALTERA_VID) && (p =? ALTERA_PID))) busses in
  modify (fun s => Usbblaster found (h_device s) (usb_bus s));;
  mret (if found then APP_ERR_NONE else APP_ERR_CABLENOTFOUND).

(** The interface is claimed until that succeeds; [claim_fuel] bounds how often. *)
Context (claim_fuel : nat).

Fixpoint usb_claim (fuel : nat) : M St unit :=
  match fuel with
  | O => lift Hang
  | S fuel => r ← libusb usb_claim_interface; if truth r then usb_claim fuel else mret tt
  end.

Definition cable_usbblaster_open_cable : M St Z :=
  h ← libusb usb_open;
  set_h_device (truth h);;
  if negb (truth h) then mret APP_ERR_USB else
  r ← libusb usb_set_configuration;
  if truth r then _ ← libusb usb_close; set_h_device false;; mret APP_ERR_USB else
  usb_claim claim_fuel;;
  mret APP_ERR_NONE.

Definition cable_usbblaster_close_cable : M St unit :=
  h ← gets h_device;
  if h : bool then
    _ ← libusb usb_release_interface;
    _ ← libusb usb_close;
    set_h_device false
  else mret tt.

(** "open the device, if necessary" *)
Definition open_if_necessary : M St Z :=
  h ← gets h_device;
  if h : bool then mret APP_ERR_NONE else cable_usbblaster_open_cable.

Definition cable_usbblaster_init : M St Z :=
  err ← usbblaster_enumerate_bus;
  if truth err then mret err else
  h ← libusb usb_open;
  set_h_device (truth h);;
  if negb (truth h) then mret APP_ERR_USB else
  _ ← libusb usb_reset;
  _ ← libusb usb_close;
  err ← usbblaster_enumerate_bus;
  if truth err then mret err else
  err ← cable_usbblaster_open_cable;
  if negb (err =? APP_ERR_NONE) then mret err else
  _ ← usbblaster_start_interface;
  err ← usbblaster_read_firmware_version;
  if truth err then _ ← libusb usb_close; mret err else
  _ ← on_usb (call (usb_bulk_read 2));
  mret APP_ERR_NONE.

(** The levels of the wires, which has no TRST. *)
Definition usbblaster_bits (value out : Z) : Z :=
  let out := if truth (value .& TCLK_BIT) then out .| USBBLASTER_CMD_TCK else out in
  let out := if truth (value .& TDI_BIT) then out .| USBBLASTER_CMD_TDI else out in
  if truth (value .& TMS_BIT) then out .| USBBLASTER_CMD_TMS else out.

Definition cable_usbblaster_out (value : Z) : M St Z :=
  rv ← open_if_necessary;
  if negb (rv =? APP_ERR_NONE) then mret rv else
  let out := usbblaster_bits value (USBBLASTER_CMD_OE .| USBBLASTER_CMD_nCS) in
  rv ← on_usb (call (usb_bulk_write [out]));
  mret (if negb (rv =? 1) then APP_ERR_USB else APP_ERR_NONE).

(** The third byte that comes back, of twenty reads at most; 0 where there was none. *)
Fixpoint read_tdo (retries : nat) : M St (option Z) :=
  match retries with
  | O => mret (Some 0)
  | S retries =>
      rv ← on_usb (call (usb_bulk_read 3));
      match rv with
      | None => mret None
      | Some (_ :: _ :: b :: _) => mret (Some b)
      | Some _ => read_tdo retries
      end
  end.

Definition cable_usbblaster_inout (value : Z) : M St (Z * Z) :=
  let out := usbblaster_bits value (USBBLASTER_CMD_OE .| USBBLASTER_CMD_nCS .| USBBLASTER_CMD_READ) in
  rv ← open_if_necessary;
  if negb (rv =? APP_ERR_NONE) then mret (rv, unspecified) else
  rv ← on_usb (call (usb_bulk_write [out]));
  if negb (rv =? 1) then cable_usbblaster_close_cable;; mret (APP_ERR_USB, unspecified) else
  ret2 ← read_tdo 20;
  match ret2 with
  | None => cable_usbblaster_close_cable;; mret (APP_ERR_USB, unspecified)
  | Some b => mret (APP_ERR_NONE, b .& 1)
  end.

(** A packet, and the bytes that come after the two that are useless. *)
Definition usbblaster_send (packet : list Z) : M St bool :=
  rv ← on_usb (call (usb_bulk_write packet)); mret (rv =? Z.of_nat (length packet)).
Definition usbblaster_receive (n : Z) : M St (option (Z * list Z)) :=
  rv ← on_usb (call (usb_bulk_read (n + 2)));
  mret (option_map (fun d => (Z.of_nat (length d) - 2, drop 2 d)) rv).

(** The table before its functions for streams, with the functions for bits. *)
Definition usbblaster_wires : jtag_cable_t St :=
  bitbang "usbblaster" cable_usbblaster_inout cable_usbblaster_out cable_usbblaster_init EmptyString.

Definition cable_usbblaster_write_stream : list Z -> Z -> Z -> M St Z :=
  byte_write_stream usbblaster_wires cable_usbblaster_out open_if_necessary usbblaster_send.
Definition cable_usbblaster_read_stream : list Z -> buffer -> Z -> Z -> M St (Z * buffer) :=
  byte_read_stream usbblaster_wires cable_usbblaster_out open_if_necessary usbblaster_send
    usbblaster_receive cable_usbblaster_close_cable.

Definition usbblaster_cable_driver : jtag_cable_t St :=
  stream_table usbblaster_wires cable_usbblaster_write_stream cable_usbblaster_read_stream.
End cable_usbblaster.

(** * cable_ft245.c *)

(** libftdi: transfers, which leave out the two bytes; and the calls that set it up. *)
Inductive ftdi_call :=
| ftdi_init | ftdi_usb_open (vendor product : Z) | ftdi_usb_reset | ftdi_set_latency_timer (latency : Z)
| ftdi_get_latency_timer | ftdi_disable_bitbang | ftdi_set_baudrate (baudrate : Z)
| ftdi_deinit | ftdi_usb_open_desc (vendor product : Z) | ftdi_usb_close | ftdi_usb_purge_buffers
| ftdi_write_data_set_chunksize (n : Z) | ftdi_read_data_set_chunksize (n : Z) | ftdi_set_bitmode (bitmask mode : Z).
Class LibFtdi (St : Type) := {
  ftdi_write_data : list Z -> St -> Z * St;
  ftdi_read_data : Z -> St -> option (list Z) * St;
  ftdi : ftdi_call -> St -> Z * St
}.

Section cable_ft245.
Context `{Target} {St : Type} `{LibFtdi St}.

(** The result and [bytes_written]. *)
Definition usb_blaster_buf_write (buf : list Z) : M St (Z * Z) :=
  retval ← call (ftdi_write_data buf);
  mret (if retval <? 0 then (-1, 0) else (0, retval)).

(** The result and the bytes that have been read. *)
Fixpoint buf_read_loop (timeout : nat) (size : Z) (read : list Z) : M St (Z * list Z) :=
  if Z.of_nat (length read) <? size then
    match timeout with
    | O => mret (0, read)
    | S timeout =>
        retval ← call (ftdi_read_data (size - Z.of_nat (length read)));
        match retval with
        | None => mret (-1, [])
        | Some data => buf_read_loop timeout size (read ++ data)
        end
    end
  else mret (0, read).
Definition usb_blaster_buf_read (size : Z) : M St (Z * list Z) := buf_read_loop 100 size [].

Definition FTDI_TCK : Z := 0.
Definition FTDI_TMS : Z := 1.
Definition FTDI_TDI : Z := 4.
Definition FTDI_READ : Z := 6.
Definition FTDI_OTHERS : Z := Z.shiftl 1 2 .| Z.shiftl 1 3 .| Z.shiftl 1 5.

Definition ftdi_bits (tck tms tdi : Z) : Z :=
  FTDI_OTHERS .| (if truth tck then Z.shiftl 1 FTDI_TCK else 0)
    .| (if truth tms then Z.shiftl 1 FTDI_TMS else 0) .| (if truth tdi then Z.shiftl 1 FTDI_TDI else 0).

Definition usb_blaster_write (tck tms tdi : Z) : M St unit :=
  _ ← usb_blaster_buf_write [ftdi_bits tck tms tdi]; mret tt.

(** What is in the buffer when nothing comes is the command. *)
Definition usb_blaster_write_read (tck tms tdi : Z) : M St Z :=
  let buf := ftdi_bits tck tms tdi .| Z.shiftl 1 FTDI_READ in
  _ ← usb_blaster_buf_write [buf];
  '(_, read) ← usb_blaster_buf_read 1;
  mret (match read with [] => buf | b :: _ => b end .& 1).

Definition usb_blaster_speed (speed : Z) : M St Z :=
  r ← call (ftdi (ftdi_set_baudrate speed)); mret (if r <? 0 then -1 else 0).

(** The wires of a value: TCK, TMS and TDI. *)
Definition ft245_wires (value : Z) : Z * Z * Z :=
  (if truth (value .& TCLK_BIT) then 1 else 0, if truth (value .& TMS_BIT) then 1 else 0,
   if truth (value .& TDI_BIT) then 1 else 0).

Definition cable_ft245_out (value : Z) : M St Z :=
  let '(tck, tms, tdi) := ft245_wires value in
  usb_blaster_write tck tms tdi;; mret 0.
Definition cable_ft245_inout (value : Z) : M St (Z * Z) :=
  let '(tck, tms, tdi) := ft245_wires value in
  in_bit ← usb_blaster_write_read tck tms tdi; mret (0, in_bit).

Definition cable_ft245_init : M St Z :=
  let step (c : ftdi_call) (next : M St Z) : M St Z := r ← call (ftdi c); if r <? 0 then mret (-1) else next in
  step ftdi_init (step (ftdi_usb_open ALTERA_VID ALTERA_PID) (step ftdi_usb_reset
    (step (ftdi_set_latency_timer 2) (step ftdi_get_latency_timer
      (_ ← call (ftdi ftdi_disable_bitbang); _ ← usb_blaster_speed 300000; mret 0))))).

Definition ft245_send (packet : list Z) : M St bool :=
  '(_, count) ← usb_blaster_buf_write packet; mret (count =? Z.of_nat (length packet)).
Definition ft245_receive (n : Z) : M St (option (Z * list Z)) :=
  '(rv, read) ← usb_blaster_buf_read n;
  mret (if rv <? 0 then None else Some (Z.of_nat (length read), read)).

Definition ft245_bits : jtag_cable_t St :=
  bitbang "ft245" cable_ft245_inout cable_ft245_out cable_ft245_init EmptyString.

Definition cable_ft245_write_stream : list Z -> Z -> Z -> M St Z :=
  byte_write_stream ft245_bits cable_ft245_out (mret APP_ERR_NONE) ft245_send.
Definition cable_ft245_read_stream : list Z -> buffer -> Z -> Z -> M St (Z * buffer) :=
  byte_read_stream ft245_bits cable_ft245_out (mret APP_ERR_NONE) ft245_send ft245_receive (mret tt).

Definition ft245_cable_driver : jtag_cable_t St :=
  stream_table ft245_bits cable_ft245_write_stream cable_ft245_read_stream.
End cable_ft245.
