(* ===== verification/BlasterFacts.v ===== *)
(** The USB-Blaster at the end of the cable, and what cable_usbblaster.c and cable_ft245.c
    do with it.

    Specification: [blaster] is the cable as the comments of cable_ft245.c describe it.  It
    takes packets byte by byte; it answers the commands that ask for it, after a number of
    reads that get nothing, which is at most fourteen.  It shifts bytes only while TCK is
    low. *)

From S2P Require Import Prelude StateM Tap Cable Parallel Blaster.
From stdpp Require Import list.

Open Scope Z_scope.
Open Scope cword_scope.

(** * The cable *)

(** The levels of TCK and TMS, and the device. *)
Record pins (D : Type) := Pins { pin_tck : bool; pin_tms : bool; pin_dev : D }.
Arguments Pins {D} _ _ _.
Arguments pin_tck {D} _.
Arguments pin_tms {D} _.
Arguments pin_dev {D} _.

(** The answer, how many reads are in vain before it is there, and the same of the answers
    to come. *)
Record blaster (D : Type) := BlasterDev { bl_pins : pins D; bl_reply : list Z; bl_wait : nat; bl_lag : list nat }.
Arguments BlasterDev {D} _ _ _ _.
Arguments bl_pins {D} _.
Arguments bl_reply {D} _.
Arguments bl_wait {D} _.
Arguments bl_lag {D} _.

Definition byte_bits (b : Z) : list bool := map (Z.testbit b) (seqZ 0 8).
Definition bytes_bits (l : list Z) : list bool := mjoin (map byte_bits l).

Section blaster.
Context {D : Type} `{Device D}.

Definition held (tms : bool) (bits : list bool) : list pulse := map (fun b => Pulse tms b false) bits.

(** A byte with the levels of the wires. *)
Definition bang (c : Z) (p : pins D) : pins D * list Z :=
  (Pins (Z.testbit c 0) (Z.testbit c 1)
     (if Z.testbit c 0 && negb (pin_tck p) then clock (Pulse (Z.testbit c 1) (Z.testbit c 4) false) (pin_dev p)
      else pin_dev p),
   if Z.testbit c 6 then [2 + b2z (tdo (pin_dev p))] else []).

(** A byte that is shifted, the low bit first. *)
Definition shift_byte (read : bool) (b : Z) (p : pins D) : pins D * list Z :=
  let ps := if pin_tck p then [] else held (pin_tms p) (byte_bits b) in
  (Pins (pin_tck p) (pin_tms p) (clocks ps (pin_dev p)),
   if read then [bits_value (samples ps (pin_dev p))] else []).

(** The bytes of a packet; [rest] of them are still to be shifted. *)
Fixpoint run_packet (rest : nat) (read : bool) (packet : list Z) (p : pins D) : pins D * list Z :=
  match packet with
  | [] => (p, [])
  | b :: packet =>
      match rest with
      | S rest => let '(p, r) := shift_byte read b p in
                  let '(p, rs) := run_packet rest read packet p in (p, r ++ rs)
      | O => if Z.testbit b 7 then run_packet (Z.to_nat (b .& 0x3F)) (Z.testbit b 6) packet p
             else let '(p, r) := bang b p in
                  let '(p, rs) := run_packet 0 false packet p in (p, r ++ rs)
      end
  end.

Definition bl_packet (packet : list Z) (s : blaster D) : blaster D :=
  match run_packet 0 false packet (bl_pins s) with
  | (p, []) => BlasterDev p (bl_reply s) (bl_wait s) (bl_lag s)
  | (p, r) => BlasterDev p r (Nat.min 14 (hd O (bl_lag s))) (tl (bl_lag s))
  end.

Definition bl_read (n : Z) (s : blaster D) : list Z * blaster D :=
  match bl_wait s with
  | S w => ([], BlasterDev (bl_pins s) (bl_reply s) w (bl_lag s))
  | O => (take (Z.to_nat n) (bl_reply s), BlasterDev (bl_pins s) (drop (Z.to_nat n) (bl_reply s)) 0 (bl_lag s))
  end.

(** On the bus, behind two bytes that say nothing; and as libftdi gives it. *)
#[export] Instance blaster_usb : LibUsb (blaster D) := {|
  usb_bulk_write p s := (Z.of_nat (length p), bl_packet p s);
  usb_bulk_read n s := let '(d, s) := bl_read (n - 2) s in (Some ([0x31; 0x60] ++ d), s);
  usb_control_in _ _ _ _ n s := (Some (replicate (Z.to_nat n) 0), s);
  usb_find_devices s := ([[(ALTERA_VID, ALTERA_PID)]], s);
  usb c s := (match c with usb_open => 1 | _ => 0 end, s)
|}.
#[export] Instance blaster_ftdi : LibFtdi (blaster D) := {|
  ftdi_write_data p s := (Z.of_nat (length p), bl_packet p s);
  ftdi_read_data n s := let '(d, s) := bl_read n s in (Some d, s);
  ftdi _ s := (0, s)
|}.

Definition bl_dev (s : blaster D) : D := pin_dev (bl_pins s).
Definition bl_tck (s : blaster D) : bool := pin_tck (bl_pins s).

(** ** Packets of bytes *)

Lemma held_app tms b c : held tms (b ++ c) = held tms b ++ held tms c.
Proof. apply map_app. Qed.

Lemma held_low bits : held false bits = shift_pulses bits false.
Proof. by rewrite shift_pulses_false. Qed.

(** The replies to bytes that are shifted while TCK is low. *)
Fixpoint replies (bytes : list Z) (tms : bool) (d : D) : list Z :=
  match bytes with
  | [] => []
  | b :: bytes => bits_value (samples (held tms (byte_bits b)) d)
                  :: replies bytes tms (clocks (held tms (byte_bits b)) d)
  end.

Lemma run_bytes bytes rest read p : pin_tck p = false -> (length bytes <= rest)%nat ->
  run_packet rest read bytes p
  = (Pins false (pin_tms p) (clocks (held (pin_tms p) (bytes_bits bytes)) (pin_dev p)),
     if read then replies bytes (pin_tms p) (pin_dev p) else []).
Proof.
  revert rest p. induction bytes as [|b bytes IH]; intros rest [tck tms d] Ht Hl; cbn in Ht; subst tck.
  - by destruct read.
  - destruct rest as [|rest]; [cbn in Hl; lia|]. cbn [run_packet shift_byte pin_tck pin_tms pin_dev].
    rewrite IH by (done || (cbn in Hl; lia)). cbn [pin_tms pin_dev].
    change (bytes_bits (b :: bytes)) with (byte_bits b ++ bytes_bits bytes).
    rewrite held_app, clocks_app. by destruct read.
Qed.
End blaster.

(** * Bytes of a stream *)

Section bytes.
Lemma byte_bits_length b : length (byte_bits b) = 8%nat.
Proof. done. Qed.

Lemma bytes_bits_length l : length (bytes_bits l) = (8 * length l)%nat.
Proof.
  induction l as [|b l IH]; [done|]. change (bytes_bits (b :: l)) with (byte_bits b ++ bytes_bits l).
  rewrite length_app, byte_bits_length, IH. cbn. lia.
Qed.

(** The eight bits from [8 * k] on. *)
Lemma word_byte words k : 0 <= k < 4 * Z.of_nat (length words) ->
  exists w, load_word words (k >> 2) = Ok w
  /\ byte_bits ((w >> (8 * (k .& 3))) .& 0xff) = map (stream_bit words) (seqZ (8 * k) 8).
Proof.
  intros Hk. change 3 with (2 ^ 2 - 1). change 0xff with (2 ^ 8 - 1).
  rewrite land_mask by lia. unfold wrap at 1. change (2 ^ 2) with 4.
  assert (Hd : k >> 2 = k / 4) by (by rewrite Z.shiftr_div_pow2).
  rewrite Hd. pose proof (Z.div_mod k 4 ltac:(lia)) as Hm. pose proof (Z.mod_pos_bound k 4 ltac:(lia)) as Hb.
  assert (Hr : 0 <= k / 4 < Z.of_nat (length words)) by lia.
  destruct (lookup_lt_is_Some_2 words (Z.to_nat (k / 4))) as [w Hw]; [lia|].
  exists w. unfold load_word. destruct (Z.leb_spec 0 (k / 4)); [|lia]. rewrite Hw. split; [done|].
  unfold byte_bits. apply list_eq. intros i.
  destruct (decide (i < 8)%nat) as [Hi|Hi].
  2: { rewrite !lookup_ge_None_2; [done|..]; rewrite length_map, length_seqZ; lia. }
  change (map ?f ?l) with (f <$> l). rewrite !list_lookup_fmap, !lookup_seqZ_lt by lia. cbn. f_equal.
  rewrite land_mask, testbit_wrap by lia. destruct (Z.ltb_spec (0 + Z.of_nat i) 8); [|lia]. cbn [andb].
  rewrite Z.shiftr_spec by lia. unfold stream_bit.
  replace ((8 * k + Z.of_nat i) / 32) with (k / 4)
    by (apply Z.div_unique with (r := 8 * (k mod 4) + Z.of_nat i); lia).
  rewrite (nth_lookup_Some _ _ _ _ Hw). f_equal.
  replace ((8 * k + Z.of_nat i) mod 32) with (8 * (k mod 4) + Z.of_nat i)
    by (apply Z.mod_unique with (q := k / 4); lia). lia.
Qed.

Lemma copy_bytes_ok words pos n : 0 <= pos -> 0 <= n -> pos + n <= 4 * Z.of_nat (length words) ->
  exists data, copy_bytes words pos n = Ok data /\ Z.of_nat (length data) = n
  /\ bytes_bits data = map (stream_bit words) (seqZ (8 * pos) (8 * n)).
Proof.
  intros Hp Hn. revert pos Hp. pattern n. revert n Hn. apply natlike_ind.
  - intros pos _ _. by exists [].
  - intros n Hn IH pos Hp Hl. destruct (word_byte words pos) as (w & Hw & Hb); [lia|].
    destruct (IH (pos + 1)) as (data & Hd & Hlen & Hbits); [lia..|].
    exists (((w >> (8 * (pos .& 3))) .& 0xff) :: data). split; [|split].
    + unfold copy_bytes in *. rewrite seqZ_cons by lia. replace (Z.pred (Z.succ n)) with n by lia.
      cbn [mapM]. assert (stream_byte words pos = Ok ((w >> (8 * (pos .& 3))) .& 0xff)) as ->.
      { unfold stream_byte. by rewrite Hw. }
      replace (Z.succ pos) with (pos + 1) by lia. cbn. by rewrite Hd.
    + cbn [length]. lia.
    + change (bytes_bits (?b :: data)) with (byte_bits b ++ bytes_bits data). rewrite Hb, Hbits, <- map_app.
      replace (8 * (pos + 1)) with (8 * pos + 8) by lia. rewrite <- seqZ_app by lia. do 2 f_equal. lia.
Qed.

Lemma leftover_ok words k n : 0 <= k < 4 * Z.of_nat (length words) -> 0 <= n <= 8 ->
  exists b, leftover words k = Ok b /\ stream_bits [b] n = map (stream_bit words) (seqZ (8 * k) n).
Proof.
  intros Hk Hn. destruct (word_byte words k Hk) as (w & Hw & Hb). unfold leftover. rewrite Hw. cbn.
  eexists. split; [done|]. rewrite (Z.mul_comm (k .& 3) 8).
  replace (8 * k) with (8 * k + 0) in * by lia.
  set (b := (w >> (8 * (k .& 3))) .& 0xff) in *. unfold stream_bits.
  assert (Hs : seqZ 0 8 = seqZ 0 n ++ seqZ n (8 - n)) by (rewrite <- (seqZ_app 0 n) by lia; f_equal; lia).
  assert (Ht : seqZ (8 * k + 0) 8 = seqZ (8 * k + 0) n ++ seqZ (8 * k + 0 + n) (8 - n))
    by (rewrite <- seqZ_app by lia; f_equal; lia).
  unfold byte_bits in Hb. rewrite Hs, Ht, !map_app in Hb. apply app_inj_1 in Hb as [Hb _].
  2: { by rewrite !length_map, !length_seqZ. }
  rewrite <- Hb. apply map_ext_in. intros i Hi%list_elem_of_In%elem_of_seqZ.
  unfold stream_bit. by rewrite Z.div_small, Z.mod_small by lia.
Qed.

Lemma stream_bits_split words n m : 0 <= n -> 0 <= m ->
  stream_bits words (n + m) = stream_bits words n ++ map (stream_bit words) (seqZ n m).
Proof. intros. unfold stream_bits. by rewrite seqZ_app, map_app. Qed.

(** A piece that lies in one word. *)
Lemma stream_word_app bits piece k : 0 <= k ->
  let n := Z.of_nat (length bits) in n mod 32 + Z.of_nat (length piece) <= 32 ->
  stream_word (bits ++ piece) k
  = if k =? n / 32 then stream_word bits k .| shl32 (bits_value piece) (n mod 32) else stream_word bits k.
Proof.
  intros Hk n. revert bits n. induction piece as [|b piece IH] using rev_ind; intros bits n Hn.
  - rewrite app_nil_r. cbn. unfold shl32. rewrite Z.shiftl_0_l, Z.lor_0_r. by destruct (_ =? _).
  - rewrite length_app in Hn. cbn in Hn. rewrite app_assoc.
    assert (0 <= n) by lia. pose proof (Z.mod_pos_bound n 32 ltac:(lia)). pose proof (Z.div_mod n 32 ltac:(lia)).
    specialize (IH bits). cbv zeta in IH. fold n in IH.
    set (m := n + Z.of_nat (length piece)). assert (Hl : Z.of_nat (length (bits ++ piece)) = m).
    { rewrite length_app. unfold m, n. lia. }
    assert (Hd : m / 32 = n / 32) by (symmetry; apply Z.div_unique with (r := n mod 32 + Z.of_nat (length piece)); lia).
    assert (Hm : m mod 32 = n mod 32 + Z.of_nat (length piece)) by (symmetry; apply Z.mod_unique with (q := n / 32); lia).
    destruct (Z.eqb_spec k (n / 32)) as [->|Hne].
    + pose proof (stream_word_snoc_new (bits ++ piece) b) as E. cbv zeta in E. rewrite Hl, Hd, Hm in E.
      rewrite E, IH by lia. cbv beta. rewrite ?Z.eqb_refl, <- Z.lor_assoc. f_equal.
      apply Z.bits_inj'. intros i Hi. unfold shl32. rewrite Z.lor_spec, !testbit_wrap by lia.
      destruct (Z.ltb_spec i 32); [|done]. cbn [andb]. rewrite !Z.shiftl_spec by lia.
      destruct (Z.ltb_spec i (n mod 32)) as [Hlt|Hge].
      { by rewrite !(Z.testbit_neg_r _ (i - _)) by lia. }
      rewrite !testbit_bits_value by lia.
      destruct (Z.ltb_spec i (n mod 32 + Z.of_nat (length piece))) as [Hin|Hout].
      * rewrite (Z.testbit_neg_r (b2z b)), orb_false_r by lia. rewrite app_nth1 by lia. done.
      * rewrite (nth_overflow piece) by lia. cbn [orb]. rewrite app_nth2 by lia.
        destruct (Z.eqb_spec i (n mod 32 + Z.of_nat (length piece))) as [->|].
        -- replace (Z.to_nat _ - length piece)%nat with O by lia.
           replace (n mod 32 + Z.of_nat (length piece) - (n mod 32 + Z.of_nat (length piece))) with 0 by lia.
           by destruct b.
        -- rewrite nth_overflow by (cbn; lia).
           replace (i - (n mod 32 + Z.of_nat (length piece)))
             with (Z.succ (i - (n mod 32 + Z.of_nat (length piece)) - 1)) by lia.
           destruct b; [|by rewrite Z.bits_0].
           change (b2z true) with (2 * 0 + 1). by rewrite Z.testbit_odd_succ, Z.bits_0 by lia.
    + destruct (Z.ltb_spec k (n / 32)).
      * rewrite stream_word_snoc_old, IH by (rewrite ?Hl; lia). by destruct (Z.eqb_spec k (n / 32)).
      * unfold stream_word. rewrite !drop_ge; [done|..]; rewrite ?length_app; cbn; lia.
Qed.
End bytes.

(** * The words that are read *)

Section input.
Definition words_of (W : Z) (bits : list bool) : list Z := map (stream_word bits) (seqZ 0 W).

Lemma words_of_length W bits : 0 <= W -> Z.of_nat (length (words_of W bits)) = W.
Proof. intros. unfold words_of. rewrite length_map, length_seqZ. lia. Qed.

Lemma words_of_nil W : words_of W [] = replicate (Z.to_nat W) 0.
Proof.
  unfold words_of. apply list_eq. intros i. change (map ?f ?l) with (f <$> l). rewrite list_lookup_fmap.
  destruct (decide (i < Z.to_nat W)%nat).
  - rewrite lookup_seqZ_lt, lookup_replicate_2 by lia. cbn. unfold stream_word. by rewrite drop_nil, take_nil.
  - by rewrite !lookup_ge_None_2 by (rewrite ?length_replicate, ?length_seqZ; lia).
Qed.

Lemma overwrite_lookup buf words i x : words !! i = Some x -> overwrite buf words !! i = Some (Some x).
Proof.
  intros Hx. unfold overwrite. rewrite lookup_app_l by (rewrite length_map; by eapply lookup_lt_Some).
  change (map ?f ?l) with (f <$> l). by rewrite list_lookup_fmap, Hx.
Qed.

Lemma overwrite_insert buf words i x : (i < length words)%nat ->
  <[i := Some x]> (overwrite buf words) = overwrite buf (<[i := x]> words).
Proof.
  intros Hi. unfold overwrite. rewrite insert_app_l by (by rewrite length_map). rewrite length_insert. f_equal.
  change (map ?f ?l) with (f <$> l). by rewrite list_fmap_insert.
Qed.

Lemma overwrite_length buf words : (length words <= length buf)%nat -> length (overwrite buf words) = length buf.
Proof. intros. unfold overwrite. rewrite length_app, length_map, length_drop. lia. Qed.

(** A piece goes into the word it belongs to. *)
Lemma put_piece W bits piece buf :
  let n := Z.of_nat (length bits) in let k := n / 32 in
  n mod 32 + Z.of_nat (length piece) <= 32 -> k < W -> W <= Z.of_nat (length buf) ->
  load_slot (overwrite buf (words_of W bits)) k = Ok (stream_word bits k)
  /\ store_slot (overwrite buf (words_of W bits)) k (stream_word bits k .| shl32 (bits_value piece) (n mod 32))
     = Ok (overwrite buf (words_of W (bits ++ piece))).
Proof.
  intros n k Hp Hk Hb. assert (0 <= k) by (unfold k, n; apply Z.div_pos; lia).
  pose proof (words_of_length W bits ltac:(lia)) as Hl.
  assert (Hx : words_of W bits !! Z.to_nat k = Some (stream_word bits k)).
  { unfold words_of. change (map ?f ?l) with (f <$> l). rewrite list_lookup_fmap, lookup_seqZ_lt by lia. cbn. do 2 f_equal. lia. }
  split.
  - unfold load_slot. destruct (Z.leb_spec 0 k); [|lia]. by rewrite (overwrite_lookup _ _ _ _ Hx).
  - unfold store_slot. rewrite overwrite_length by lia.
    destruct (Z.leb_spec 0 k); [|lia]. destruct (Z.ltb_spec k (Z.of_nat (length buf))); [|lia]. cbn [andb].
    rewrite overwrite_insert by lia. do 2 f_equal. apply list_eq. intros i.
    assert (Hw : forall b, (i < Z.to_nat W)%nat -> words_of W b !! i = Some (stream_word b (Z.of_nat i))).
    { intros b Hi. unfold words_of. change (map ?f ?l) with (f <$> l). by rewrite list_lookup_fmap, lookup_seqZ_lt by lia. }
    destruct (decide (i < Z.to_nat W)%nat) as [Hi|Hi].
    2: { pose proof (words_of_length W (bits ++ piece) ltac:(lia)).
         rewrite !lookup_ge_None_2; [done|..]; rewrite ?length_insert; lia. }
    rewrite (Hw (bits ++ piece)), stream_word_app by (done || lia). fold n k.
    destruct (Z.eqb_spec (Z.of_nat i) k) as [E|E].
    + rewrite E. replace i with (Z.to_nat k) by lia. by rewrite list_lookup_insert_eq by lia.
    + rewrite list_lookup_insert_ne by lia. by apply Hw.
Qed.

Lemma store_zeros buf k n : (k + n <= length buf)%nat ->
  foldl (fun b i => b ← b; store_slot b i 0) (Ok (overwrite buf (replicate k 0))) (seqZ (Z.of_nat k) (Z.of_nat n))
  = Ok (overwrite buf (replicate (k + n) 0)).
Proof.
  revert k. induction n as [|n IH]; intros k Hk; [by rewrite Nat.add_0_r|].
  rewrite seqZ_cons by lia. cbn [foldl]. change (Ok ?b ≫= ?f) with (f b).
  cbv beta. rewrite (store_next buf (replicate k 0) (Z.of_nat k)) by (rewrite ?length_replicate; lia).
  replace (replicate k 0 ++ [0]) with (replicate (S k) 0)
    by (replace (S k) with (k + 1)%nat by lia; by rewrite replicate_add).
  replace (Z.succ (Z.of_nat k)) with (Z.of_nat (S k)) by lia. replace (Z.pred (Z.of_nat (S n))) with (Z.of_nat n) by lia.
  rewrite IH by lia. do 3 f_equal. lia.
Qed.

Lemma zero_input_ok buf len : 0 < len < 8192 -> len <= 32 * Z.of_nat (length buf) ->
  zero_input buf len = Ok (overwrite buf (words_of ((len - 1) / 32 + 1) [])).
Proof.
  intros Hl Hb. unfold zero_input. rewrite Z.quot_div_nonneg, Z.rem_mod_nonneg by lia.
  pose proof (Z.div_mod len 32 ltac:(lia)) as Hd. pose proof (Z.mod_pos_bound len 32 ltac:(lia)) as Hm.
  rewrite Z.min_l, Z.max_l by lia.
  pose proof (store_zeros buf 0 (Z.to_nat (len / 32))) as E. cbn [replicate Nat.add Z.of_nat] in E.
  rewrite Z2Nat.id in E by lia. change (overwrite buf []) with buf in E. change (Z.of_nat 0) with 0 in E. rewrite E by lia. clear E.
  change (Ok ?b ≫= ?f) with (f b). cbv beta.
  destruct (Z.leb_spec 256 (len / 32)); [lia|]. rewrite words_of_nil. unfold truth.
  destruct (Z.eqb_spec (len mod 32) 0) as [E|E]; cbn [negb].
  - do 3 f_equal. f_equal. assert ((len - 1) / 32 = len / 32 - 1)
      by (symmetry; apply Z.div_unique with (r := 31); lia). lia.
  - assert ((len - 1) / 32 = len / 32) as -> by (symmetry; apply Z.div_unique with (r := len mod 32 - 1); lia).
    rewrite (store_next buf (replicate _ 0) (len / 32)) by (rewrite ?length_replicate; lia).
    do 2 f_equal. replace (Z.to_nat (len / 32 + 1)) with (Z.to_nat (len / 32) + 1)%nat by lia. by rewrite replicate_add.
Qed.

(** Whole bytes, from the byte [i] on. *)
Lemma put_received_ok W chunks bits buf i :
  Forall (fun c => length c = 8%nat) chunks -> Z.of_nat (length bits) = 8 * i -> 0 <= i ->
  8 * (i + Z.of_nat (length chunks)) <= 32 * W -> W <= Z.of_nat (length buf) -> i + Z.of_nat (length chunks) < 2 ^ 32 ->
  put_received (overwrite buf (words_of W bits)) 0 i (map bits_value chunks)
  = Ok (overwrite buf (words_of W (bits ++ mjoin chunks))).
Proof.
  intros Hc. revert bits i. induction Hc as [|c chunks Hl Hc IH]; intros bits i Hn Hi HW Hb Hs.
  - cbn. by rewrite app_nil_r.
  - cbn [map put_received length] in *. rewrite Z.add_0_l, (wrap_small 32 i) by (split; lia).
    rewrite Z.shiftr_div_pow2 by lia. change (2 ^ 2) with 4.
    change 3 with (2 ^ 2 - 1). rewrite land_mask by lia. change (wrap 2 i) with (i mod 4).
    assert (Hd : Z.of_nat (length bits) / 32 = i / 4) by (rewrite Hn; change 32 with (8 * 4); by rewrite Z.div_mul_cancel_l).
    assert (Hm : Z.of_nat (length bits) mod 32 = i mod 4 * 8)
      by (rewrite Hn; change 32 with (8 * 4); rewrite Z.mul_mod_distr_l by lia; lia).
    pose proof (Z.mod_pos_bound i 4 ltac:(lia)). pose proof (Z.div_mod i 4 ltac:(lia)).
    destruct (put_piece W bits c buf) as [Hload Hstore]; [rewrite Hm, Hl; lia|rewrite Hd; lia|done|].
    rewrite Hd in Hload, Hstore. rewrite Hm in Hstore. rewrite Hload. change (Ok ?b ≫= ?f) with (f b). cbv beta.
    rewrite Hstore. change (Ok ?b ≫= ?f) with (f b). cbv beta.
    rewrite IH by (rewrite ?length_app, ?Hl; lia). by rewrite <- app_assoc.
Qed.
(** The bits after the last whole byte. *)
Lemma put_rest W read piece buf n :
  Z.of_nat (length read) = 8 * n -> 0 < Z.of_nat (length piece) <= 8 ->
  8 * n + Z.of_nat (length piece) <= 32 * W -> W <= Z.of_nat (length buf) ->
  exists old, load_slot (overwrite buf (words_of W read)) (n >> 2) = Ok old
  /\ store_slot (overwrite buf (words_of W read)) (n >> 2)
       (old .| shl32 (bits_value piece .& 0xff) (8 * (n .& 3)))
     = Ok (overwrite buf (words_of W (read ++ piece))).
Proof.
  intros Hr Hp HW Hb. change 3 with (2 ^ 2 - 1). change 0xff with (2 ^ 8 - 1). rewrite !land_mask by lia.
  rewrite (wrap_small 8) by (apply bits_value_word; lia). change (wrap 2 n) with (n mod 4).
  rewrite Z.shiftr_div_pow2 by lia. change (2 ^ 2) with 4.
  assert (Hd : Z.of_nat (length read) / 32 = n / 4) by (rewrite Hr; change 32 with (8 * 4); by rewrite Z.div_mul_cancel_l).
  assert (Hm : Z.of_nat (length read) mod 32 = 8 * (n mod 4))
    by (rewrite Hr; change 32 with (8 * 4); by rewrite Z.mul_mod_distr_l).
  pose proof (Z.div_mod n 4 ltac:(lia)). pose proof (Z.mod_pos_bound n 4 ltac:(lia)).
  destruct (put_piece W read piece buf) as [Hload Hstore]; [rewrite Hm; lia|rewrite Hd; lia|done|].
  rewrite Hd in Hload, Hstore. rewrite Hm in Hstore. by eexists.
Qed.
End input.

(** * Transfers *)

Section transfers.
Context {D : Type} `{Device D}.

(** What comes out for each of the bytes. *)
Fixpoint chunks (bytes : list Z) (d : D) : list (list bool) :=
  match bytes with
  | [] => []
  | b :: bytes => samples (held false (byte_bits b)) d :: chunks bytes (clocks (held false (byte_bits b)) d)
  end.

Lemma replies_chunks bytes d : replies bytes false d = map bits_value (chunks bytes d).
Proof. revert d. induction bytes as [|b bytes IH]; intros d; [done|]. cbn [replies chunks map]. by rewrite IH. Qed.

Lemma chunks_join bytes d : mjoin (chunks bytes d) = samples (held false (bytes_bits bytes)) d.
Proof.
  revert d. induction bytes as [|b bytes IH]; intros d; [done|].
  change (bytes_bits (b :: bytes)) with (byte_bits b ++ bytes_bits bytes).
  rewrite held_app, samples_app, <- IH. done.
Qed.

Lemma chunks_length bytes d : length (chunks bytes d) = length bytes.
Proof. revert d. induction bytes as [|b bytes IH]; intros d; [done|]. cbn. by rewrite IH. Qed.

Lemma chunks_bytes bytes d : Forall (fun c => length c = 8%nat) (chunks bytes d).
Proof.
  revert d. induction bytes as [|b bytes IH]; intros d; [done|]. cbn [chunks]. apply List.Forall_cons; [|done].
  by rewrite samples_length.
Qed.

Definition header (read : bool) (n : Z) : Z :=
  (if read then USBBLASTER_CMD_BYTESHIFT .| USBBLASTER_CMD_READ else USBBLASTER_CMD_BYTESHIFT) .| (n .& 0x3F).

Lemma header_bits read n : 0 <= n <= 63 ->
  Z.testbit (header read n) 7 = true /\ Z.testbit (header read n) 6 = read /\ header read n .& 0x3F = n.
Proof.
  intros Hn. unfold header. change 0x3F with (2 ^ 6 - 1). rewrite (land_mask n) by lia.
  rewrite (wrap_small 6 n) by (unfold is_word; lia). rewrite Z.land_lor_distr_l, !Z.lor_spec, (land_mask n) by lia.
  rewrite (wrap_small 6 n), !(testbit_word 6 n) by (unfold is_word; lia). by destruct read.
Qed.

Lemma run_header read data p : pin_tck p = false -> pin_tms p = false -> Z.of_nat (length data) <= 63 ->
  run_packet 0 false (header read (Z.of_nat (length data)) :: data) p
  = (Pins false false (clocks (held false (bytes_bits data)) (pin_dev p)),
     if read then map bits_value (chunks data (pin_dev p)) else []).
Proof.
  intros Ht Hm Hl. destruct (header_bits read (Z.of_nat (length data))) as (H7 & H6 & Hn); [lia|].
  cbn [run_packet]. rewrite H7, H6, Hn, run_bytes, Hm, replies_chunks by (done || lia). done.
Qed.

(** A transfer that is written, and one that is answered. *)
Lemma packet_written data s : pin_tck (bl_pins s) = false -> pin_tms (bl_pins s) = false -> Z.of_nat (length data) <= 63 ->
  bl_pins (bl_packet (header false (Z.of_nat (length data)) :: data) s)
  = Pins false false (clocks (held false (bytes_bits data)) (bl_dev s)).
Proof. intros. unfold bl_packet. by rewrite run_header. Qed.

Lemma packet_read data s : pin_tck (bl_pins s) = false -> pin_tms (bl_pins s) = false ->
  0 < Z.of_nat (length data) <= 63 ->
  let s' := bl_packet (header true (Z.of_nat (length data)) :: data) s in
  bl_pins s' = Pins false false (clocks (held false (bytes_bits data)) (bl_dev s))
  /\ bl_reply s' = map bits_value (chunks data (bl_dev s)) /\ (bl_wait s' <= 14)%nat.
Proof.
  intros Ht Hm Hl s'. subst s'. unfold bl_packet. rewrite run_header by (done || lia).
  destruct data as [|b data]; [cbn in *; lia|]. cbn [chunks map bl_pins bl_reply bl_wait].
  repeat split. lia.
Qed.
End transfers.

(** * Streams *)

Section streams.
Context `{Target, !Mod32} {St D : Type} `{Device D} (bl : St -> blaster D).
Abbreviation dev s := (bl_dev (bl s)).
Context (bits : jtag_cable_t St) `{!BitBang bits, !CableLaws bits (fun s => dev s), !Reliable bits}.
Context (out : Z -> M St Z) (open : M St Z) (send : list Z -> M St bool)
  (receive : Z -> M St (option (Z * list Z))) (fail : M St unit).
Context (wp_out : forall s, wp (out 0) (fun e s' => e = 0 /\ bl_pins (bl s') = Pins false false (dev s)) s)
  (wp_open : forall s, wp open (fun rv s' => rv = 0 /\ bl s' = bl s) s)
  (wp_send : forall p s, wp (send p) (fun ok s' => ok = true /\ bl s' = bl_packet p (bl s)) s)
  (wp_receive : forall n s, 0 < n -> Z.of_nat (length (bl_reply (bl s))) = n -> (bl_wait (bl s) <= 14)%nat ->
    wp (receive n) (fun r s' => bl_pins (bl s') = bl_pins (bl s)
      /\ (r = Some (n, bl_reply (bl s))
          \/ (r = Some (0, []) /\ bl_reply (bl s') = bl_reply (bl s) /\ bl_wait (bl s) = S (bl_wait (bl s'))))) s).

Lemma wp_common_write words len last s : 0 < len <= 32 * Z.of_nat (length words) ->
  wp (cable_common_write_stream bits words len last)
    (fun e s' => e = 0 /\ dev s' = clocks (shift_pulses (stream_bits words len) (truth last)) (dev s)) s.
Proof.
  intros Hl. rewrite <- bb_stream_out. eapply wp_mono.
  - apply (wp_post True); [intros _; apply rel_stream_out|]. by apply (law_stream_out (dev := fun s => dev s)).
  - intros e s' [He Hp]. split; auto.
Qed.

Lemma wp_common_read words buf len last s :
  0 < len <= 32 * Z.of_nat (length words) -> len <= 32 * Z.of_nat (length buf) ->
  wp (cable_common_read_stream bits words buf len last) (fun r s' =>
    let ps := shift_pulses (stream_bits words len) (truth last) in
    fst r = 0 /\ dev s' = clocks ps (dev s) /\ snd r = overwrite buf (stream_words (samples ps (dev s)))) s.
Proof.
  intros Hl Hb. rewrite <- bb_stream_inout. eapply wp_mono.
  - apply (wp_post True); [intros _; apply rel_stream_inout|]. by apply (law_stream_inout (dev := fun s => dev s)).
  - intros r s' [(read & Hr & _ & _ & He) Hp]. specialize (Hp I). cbv beta in Hp.
    destruct (He Hp) as [Hd ->]. done.
Qed.

Definition low (s : St) : Prop := pin_tck (bl_pins (bl s)) = false /\ pin_tms (bl_pins (bl s)) = false.

Lemma write_transfers_S fuel words pos n err :
  write_transfers send (S fuel) words pos n err
  = if n <=? 0 then mret err else
    let m := if USBBLASTER_MAX_WRITE <? n then USBBLASTER_MAX_WRITE else n in
    data ← lift (copy_bytes words pos m);
    ok ← send (header false m :: data);
    if negb ok then mret (err .| APP_ERR_USB) else write_transfers send fuel words (pos + m) (n - m) err.
Proof. done. Qed.

(** Bytes from [pos] on. *)
Lemma wp_write_transfers words fuel pos n s : low s -> 0 <= pos -> 0 <= n <= Z.of_nat fuel ->
  pos + n <= 4 * Z.of_nat (length words) ->
  wp (write_transfers send fuel words pos n 0) (fun e s' =>
    e = 0 /\ dev s' = clocks (held false (map (stream_bit words) (seqZ (8 * pos) (8 * n)))) (dev s)) s.
Proof.
  revert pos n s. induction fuel as [|fuel IH]; intros pos n s [Ht Hm] Hp Hn Hl.
  { assert (n = 0) as -> by lia. by apply wp_ret. }
  rewrite write_transfers_S. destruct (Z.leb_spec n 0).
  { assert (n = 0) as -> by lia. by apply wp_ret. }
  cbv zeta. set (m := if USBBLASTER_MAX_WRITE <? n then USBBLASTER_MAX_WRITE else n). assert (0 < m <= 63 /\ m <= n)
    by (unfold m, USBBLASTER_MAX_WRITE; destruct (Z.ltb_spec 63 n); lia).
  destruct (copy_bytes_ok words pos m) as (data & Hd & Hlen & Hb); [lia..|].
  wp_pure. eapply wp_lift; [done|]. wp_pure. wp_use wp_send as ok s1 [-> E]. cbn [negb].
  rewrite <- Hlen in E. pose proof (packet_written data (bl s) Ht Hm ltac:(lia)) as Hw. rewrite <- E in Hw.
  eapply wp_mono; [apply IH; try lia; unfold low; by rewrite Hw|]. intros e s' [-> ->]. split; [done|].
  unfold bl_dev at 1. rewrite Hw. cbn [pin_dev]. rewrite <- clocks_app, <- held_app, Hb, <- map_app.
  do 2 f_equal. replace (8 * (pos + m)) with (8 * pos + 8 * m) by lia. rewrite <- seqZ_app by lia. do 2 f_equal. lia.
Qed.

Lemma split_length_ok len last : 0 < len < 2 ^ 31 ->
  exists n rest, split_length len last = (n, rest) /\ 8 * n + rest = len /\ 0 <= n /\ 0 <= rest <= 8
  /\ (rest = 0 -> truth last = false).
Proof.
  intros Hl. unfold split_length. rewrite Z.quot_div_nonneg by lia.
  pose proof (Z.div_mod len 8 ltac:(lia)). pose proof (Z.mod_pos_bound len 8 ltac:(lia)).
  rewrite (wrap_small 32 (len / 8)), (wrap_small 32 (len - len / 8 * 8)) by (unfold is_word; lia).
  destruct (Z.eqb_spec (len - len / 8 * 8) 0) as [E|E]; [destruct (truth last) eqn:Et|]; cbn [andb].
  - rewrite E. exists (len / 8 - 1), 8. rewrite !wrap_small by (unfold is_word; lia). repeat split; try lia.
  - exists (len / 8), 0. rewrite E. repeat split; try lia; done.
  - exists (len / 8), (len mod 8). repeat split; try lia. f_equal. lia.
Qed.

(** A stream in two parts, of bytes and of bits. *)
Lemma clocks_parts words n rest b last (d : D) : 0 <= n -> 0 < rest ->
  stream_bits [b] rest = map (stream_bit words) (seqZ (8 * n) rest) ->
  clocks (shift_pulses (stream_bits [b] rest) last) (clocks (shift_pulses (stream_bits words (8 * n)) false) d)
  = clocks (shift_pulses (stream_bits words (8 * n + rest)) last) d
  /\ samples (shift_pulses (stream_bits words (8 * n + rest)) last) d
     = samples (shift_pulses (stream_bits words (8 * n)) false) d
       ++ samples (shift_pulses (stream_bits [b] rest) last) (clocks (shift_pulses (stream_bits words (8 * n)) false) d).
Proof.
  intros Hn Hr Hb. rewrite stream_bits_split, <- Hb, shift_pulses_app by (lia || by apply stream_bits_pos; lia).
  by rewrite clocks_app, samples_app.
Qed.

Lemma wp_byte_write words len last s :
  0 < len <= 32 * Z.of_nat (length words) -> len < 2 ^ 31 -> truth last = true \/ len < 32 * Z.of_nat (length words) ->
  wp (byte_write_stream bits out open send words len last) (fun e s' => e = 0
    /\ dev s' = clocks (shift_pulses (stream_bits words len) (truth last)) (dev s)) s.
Proof.
  intros Hl Hi Hx. unfold byte_write_stream.
  destruct (split_length_ok len last) as (n & rest & -> & Hlen & Hn & Hr & Hz); [lia|].
  destruct (Z.eqb_spec n 0); [by apply wp_common_write|].
  assert (n < 4 * Z.of_nat (length words)).
  { destruct (Z.eq_dec rest 0) as [E|E]; [destruct Hx as [Hx|Hx]; [by rewrite Hz in Hx by done|]|]; lia. }
  destruct (leftover_ok words n rest) as (b & Hb & Hbits); [lia..|].
  wp_pure. wp_use wp_out as e s1 [-> Hs1]. wp_pure. eapply wp_lift; [done|]. wp_pure.
  wp_use wp_open as rv s2 [-> E2]. change (negb (0 =? APP_ERR_NONE)) with false. cbv iota. wp_pure.
  assert (i32 n = n) as -> by (apply swrap_small; unfold is_sword; lia).
  assert (Hs2 : bl_pins (bl s2) = Pins false false (dev s)) by (by rewrite E2).
  wp_use (wp_write_transfers words (Z.to_nat n) 0 n s2) as e s3 [-> E3]; [|lia|lia|lia|].
  { split; by rewrite Hs2. }
  unfold bl_dev at 2 in E3. rewrite Hs2 in E3. cbn [pin_dev] in E3. rewrite Z.mul_0_r in E3.
  change (map (stream_bit words) (seqZ 0 (8 * n))) with (stream_bits words (8 * n)) in E3. rewrite held_low in E3.
  destruct (Z.eqb_spec rest 0) as [->|Hne]; cbn [negb].
  - apply wp_ret. split; [done|]. rewrite E3, Hz, <- Hlen by done. by rewrite Z.add_0_r.
  - wp_use (wp_common_write [b] rest last s3) as e s4 [-> E4]; [cbn; lia|]. split; [done|].
    rewrite E4, E3, <- Hlen. by apply clocks_parts; [lia..|].
Qed.

Lemma wp_receive_transfer n fuel retries instream result s :
  0 < n < 2 ^ 32 -> Z.of_nat (length (bl_reply (bl s))) = n -> 0 <= retries ->
  Z.of_nat (bl_wait (bl s)) + retries <= 14 -> (bl_wait (bl s) < fuel)%nat ->
  put_received instream 0 0 (bl_reply (bl s)) = Ok result ->
  wp (receive_transfer receive fail fuel n instream retries 0 0)
    (fun r s' => r = (Some n, result) /\ bl_pins (bl s') = bl_pins (bl s)) s.
Proof.
  intros Hn. revert retries s. induction fuel as [|fuel IH]; intros retries s Hl Hr Hw Hf Hput; [lia|].
  cbn [receive_transfer]. rewrite Z.sub_0_r. wp_pure.
  wp_use (wp_receive n s) as r s1 [Hp [->|(-> & Hrep & Hwait)]]; [lia|done|lia|..].
  - wp_pure. eapply wp_lift; [done|]. rewrite !Z.add_0_l, !(wrap_small 32 n) by (unfold is_word; lia).
    rewrite Z.ltb_irrefl. cbn [andb]. by apply wp_ret.
  - wp_pure. cbn [put_received]. eapply wp_lift; [done|]. change (u32 (0 + 0)) with 0.
    change (0 <? 0) with false. cbv iota.
    destruct (Z.ltb_spec 0 n); [|lia]. destruct (Z.ltb_spec (retries + 1) 15); [|lia]. cbn [andb].
    eapply wp_mono; [apply (IH (retries + 1) s1); try lia; by rewrite Hrep|]. intros r s' [-> Hs']. split; [done|].
    by rewrite Hs'.
Qed.

(** A single transfer. *)
Lemma wp_read_transfer words instream n W buf s : low s -> 0 < n <= USBBLASTER_MAX_READ ->
  n <= 4 * Z.of_nat (length words) -> 8 * n <= 32 * W -> W <= Z.of_nat (length buf) ->
  instream = overwrite buf (words_of W []) ->
  wp (read_transfers send receive fail (Z.to_nat n) words instream 0 n 0) (fun r s' =>
    let ps := shift_pulses (stream_bits words (8 * n)) false in
    r = (true, overwrite buf (words_of W (samples ps (dev s)))) /\ dev s' = clocks ps (dev s)) s.
Proof.
  unfold USBBLASTER_MAX_READ. intros [Ht Hm] Hn Hl HW Hb ->.
  destruct (Z.to_nat n) as [|fuel] eqn:Ef; [lia|]. cbn [read_transfers].
  destruct (Z.leb_spec n 0); [lia|]. change USBBLASTER_MAX_READ with 62. destruct (Z.ltb_spec 62 n); [lia|].
  destruct (copy_bytes_ok words 0 n) as (data & Hd & Hlen & Hbits); [lia..|].
  wp_pure. eapply wp_lift; [done|]. wp_pure.
  change (USBBLASTER_CMD_BYTESHIFT .| USBBLASTER_CMD_READ .| (n .& 63)) with (header true n).
  wp_use wp_send as ok s1 [-> E]. cbn [negb]. rewrite <- Hlen in E.
  destruct (packet_read data (bl s) Ht Hm) as (Hp & Hr & Hw); [lia|]. rewrite <- E in Hp, Hr, Hw.
  pose proof (chunks_length data (dev s)) as Hc.
  pose proof (put_received_ok W (chunks data (dev s)) [] buf 0 (chunks_bytes _ _)) as Hput.
  rewrite Hc in Hput. specialize (Hput ltac:(done) ltac:(done) ltac:(lia) Hb ltac:(lia)).
  rewrite <- Hr, app_nil_l, chunks_join, Hbits, held_low in Hput. rewrite Z.mul_0_r in Hput.
  wp_pure. wp_use (wp_receive_transfer n transfer_fuel 0 _ _ s1) as r s2 [-> Hs2]; [lia|..].
  { rewrite Hr, length_map, Hc. lia. }
  { lia. } { lia. } { unfold transfer_fuel. lia. } { exact Hput. }
  destruct fuel; cbn [read_transfers]; (destruct (Z.leb_spec (n - n) 0); [|lia]); apply wp_ret;
    (split; [done|]; unfold bl_dev at 1; rewrite Hs2, Hp; cbn [pin_dev]; by rewrite Hbits, held_low, Z.mul_0_r).
Qed.

Lemma wp_byte_read words buf len last s :
  0 < len <= 32 * Z.of_nat (length words) -> len <= 32 * Z.of_nat (length buf) ->
  truth last = true \/ len < 32 * Z.of_nat (length words) -> fst (split_length len last) <= USBBLASTER_MAX_READ ->
  len < 2 ^ 31 ->
  wp (byte_read_stream bits out open send receive fail words buf len last) (fun r s' =>
    let ps := shift_pulses (stream_bits words len) (truth last) in
    fst r = 0 /\ dev s' = clocks ps (dev s) /\ snd r = overwrite buf (stream_words (samples ps (dev s)))) s.
Proof.
  intros Hl Hb Hx Hmax Hi. unfold byte_read_stream.
  destruct (split_length_ok len last) as (n & rest & E & Hlen & Hn & Hr & Hz); [lia|].
  rewrite E in Hmax |- *. cbn [fst] in Hmax. unfold USBBLASTER_MAX_READ in Hmax.
  destruct (Z.eqb_spec n 0); [by apply wp_common_read|].
  assert (n < 4 * Z.of_nat (length words)).
  { destruct (Z.eq_dec rest 0) as [Er|Er]; [destruct Hx as [Hx|Hx]; [by rewrite Hz in Hx by done|]|]; lia. }
  destruct (leftover_ok words n rest) as (b & Hleft & Hbits); [lia..|].
  pose proof (Z.div_mod (len - 1) 32 ltac:(lia)). pose proof (Z.mod_pos_bound (len - 1) 32 ltac:(lia)).
  set (W := (len - 1) / 32 + 1) in *.
  wp_pure. wp_use wp_out as e s1 [-> Hs1]. wp_pure.
  eapply wp_lift; [apply zero_input_ok; lia|]. wp_pure. eapply wp_lift; [done|]. wp_pure.
  wp_use wp_open as rv s2 [-> E2]. change (negb (0 =? APP_ERR_NONE)) with false. cbv iota. wp_pure.
  assert (i32 n = n) as -> by (apply swrap_small; unfold is_sword; lia).
  assert (Hs2 : bl_pins (bl s2) = Pins false false (dev s)) by (by rewrite E2).
  wp_use (wp_read_transfer words _ n W buf s2) as [ok instream] s3 [[= -> ->] E3]; [split; by rewrite Hs2|..].
  1-4: unfold USBBLASTER_MAX_READ; lia. { done. }
  assert (Ed : dev s2 = dev s) by (unfold bl_dev; by rewrite Hs2). rewrite Ed in *. cbn [negb].
  set (ps := shift_pulses (stream_bits words (8 * n)) false) in *.
  assert (Hps : Z.of_nat (length (samples ps (dev s))) = 8 * n).
  { unfold ps. rewrite samples_length, shift_pulses_length, stream_bits_length; lia. }
  assert (Hwords : forall l, Z.of_nat (length l) = len -> words_of W l = stream_words l)
    by (intros l El; unfold words_of, stream_words; by rewrite El).
  destruct (Z.eqb_spec rest 0) as [->|Hne]; cbn [negb].
  - apply wp_ret. cbn [fst snd]. rewrite E3, Hwords, Hz, <- Hlen, Z.add_0_r by (done || lia). done.
  - wp_pure. wp_use (wp_common_read [b] [Some 0] rest last s3) as [e leftovers] s4 (He & E4 & Hread); [cbn; lia..|].
    cbn [fst snd] in He, Hread. subst e leftovers.
    destruct (clocks_parts words n rest b (truth last) (dev s)) as [Hclocks Hsamples]; [lia..|done|].
    fold ps in Hclocks, Hsamples. rewrite E3 in E4 |- *.
    set (piece := samples (shift_pulses (stream_bits [b] rest) (truth last)) (clocks ps (dev s))) in *.
    assert (Hpl : Z.of_nat (length piece) = rest).
    { unfold piece. rewrite samples_length, shift_pulses_length, stream_bits_length; lia. }
    rewrite stream_words_short by lia. wp_pure. eapply wp_lift; [reflexivity|]. wp_pure.
    destruct (put_rest W (samples ps (dev s)) piece buf n) as (old & Hload & Hstore); [lia..|].
    eapply wp_lift; [exact Hload|]. wp_pure. eapply wp_lift; [exact Hstore|]. wp_pure.
    cbn [fst snd]. rewrite E4, Hclocks, <- Hsamples, Hwords, Hlen; [done|].
    rewrite Hsamples, length_app, Nat2Z.inj_add, Hps, Hpl. lia.
Qed.
End streams.
