(* ===== verification/BlasterProps.v ===== *)
(** The properties of the two drivers of the USB-Blaster, on the cable of BlasterFacts.v. *)

From S2P Require Import Prelude StateM Tap Cable Parallel Blaster BlasterFacts.
From stdpp Require Import list.

Open Scope Z_scope.
Open Scope cword_scope.

(** * The wires *)

Section wires.
Context {D : Type} `{Device D} `{!IgnoresTrst D}.

(** A byte with the levels of [data]. *)
Definition wire_byte (data : Z) (read : bool) (c : Z) : Prop :=
  Z.testbit c 0 = Z.testbit data 0 /\ Z.testbit c 1 = Z.testbit data 3 /\ Z.testbit c 4 = Z.testbit data 2
  /\ Z.testbit c 6 = read /\ Z.testbit c 7 = false.

Lemma packet_bang data read c (s : blaster D) : wire_byte data read c ->
  let s' := bl_packet [c] s in
  bl_tck s' = Z.testbit data 0 /\ bl_dev s' = wires_to (bl_tck s) data (bl_dev s)
  /\ (read = true -> bl_reply s' = [2 + b2z (tdo (bl_dev s))] /\ (bl_wait s' <= 14)%nat).
Proof.
  intros (E0 & E1 & E4 & E6 & E7) s'. subst s'. unfold bl_packet. cbn [run_packet]. rewrite E7.
  unfold bang. rewrite E0, E1, E4, E6. destruct s as [[tck tms d] reply wait lag].
  unfold bl_tck, bl_dev, wires_to. cbn [bl_pins pin_tck pin_tms pin_dev].
  rewrite (ignores_trst (wire_pulse data)). unfold wire_pulse.
  destruct read; cbn -[Nat.min]; (split; [done|]; split; [done|]); intros Hr; [|done]. split; [done|]. lia.
Qed.

(** The last byte before bytes are shifted lowers TCK and TMS. *)
Lemma packet_low c (s : blaster D) : Z.testbit c 0 = false -> Z.testbit c 1 = false -> Z.testbit c 7 = false ->
  Z.testbit c 6 = false -> bl_pins (bl_packet [c] s) = Pins false false (bl_dev s).
Proof.
  intros E0 E1 E7 E6. unfold bl_packet. cbn [run_packet]. rewrite E7. unfold bang. by rewrite E0, E1, E6.
Qed.
End wires.

Lemma blaster_bits data read : wire_byte data read
  (usbblaster_bits data (if read then USBBLASTER_CMD_OE .| USBBLASTER_CMD_nCS .| USBBLASTER_CMD_READ
                         else USBBLASTER_CMD_OE .| USBBLASTER_CMD_nCS)).
Proof.
  unfold usbblaster_bits, wire_byte. change TCLK_BIT with (2 ^ 0). change TDI_BIT with (2 ^ 2). change TMS_BIT with (2 ^ 3).
  rewrite !truth_land_pow2 by lia.
  by destruct read, (Z.testbit data 0), (Z.testbit data 2), (Z.testbit data 3).
Qed.

Lemma ftdi_byte data (read : bool) : wire_byte data read
  (let '(tck, tms, tdi) := ft245_wires data in
   if read then ftdi_bits tck tms tdi .| Z.shiftl 1 FTDI_READ else ftdi_bits tck tms tdi).
Proof.
  unfold ft245_wires, wire_byte. change TCLK_BIT with (2 ^ 0). change TDI_BIT with (2 ^ 2). change TMS_BIT with (2 ^ 3).
  rewrite !truth_land_pow2 by lia.
  by destruct read, (Z.testbit data 0), (Z.testbit data 2), (Z.testbit data 3).
Qed.

Lemma answer_bit b : (2 + b2z b) .& 1 = b2z b.
Proof. by destruct b. Qed.

(** * Through libusb *)

Section usbblaster.
Context `{Target, !Mod32, Unspecified} {D : Type} `{Device D} `{!IgnoresTrst D} (claim_fuel : nat).
Abbreviation St := (usbblaster_t (blaster D)).
Abbreviation driver := (usbblaster_cable_driver (U := blaster D) (S claim_fuel)).
Abbreviation wires := (usbblaster_wires (U := blaster D) (S claim_fuel)).

Lemma wp_usb_open (s : St) :
  wp (open_if_necessary (S claim_fuel)) (fun rv s' => rv = 0 /\ usb_bus s' = usb_bus s) s.
Proof. destruct s as [d [] u]; eexists _, _; (split; [reflexivity|]); done. Qed.

Lemma wp_usb_write p (s : St) :
  wp (on_usb (call (usb_bulk_write p))) (fun rv s' => rv = Z.of_nat (length p) /\ usb_bus s' = bl_packet p (usb_bus s)) s.
Proof. eexists _, _. by split. Qed.

Lemma wp_usb_read n (s : St) :
  wp (on_usb (call (usb_bulk_read n))) (fun rv s' =>
    rv = Some ([0x31; 0x60] ++ (bl_read (n - 2) (usb_bus s)).1) /\ usb_bus s' = (bl_read (n - 2) (usb_bus s)).2) s.
Proof.
  unfold wp, on_usb, call. cbn. destruct (bl_read _ _) as [d u] eqn:E. eexists _, _. split; [reflexivity|]. done.
Qed.

Lemma bl_read_cases n (s : blaster D) : Z.of_nat (length (bl_reply s)) = n ->
  bl_pins (bl_read n s).2 = bl_pins s
  /\ (((bl_read n s).1 = bl_reply s /\ bl_wait s = O)
      \/ ((bl_read n s).1 = [] /\ bl_reply (bl_read n s).2 = bl_reply s /\ bl_wait s = S (bl_wait (bl_read n s).2))).
Proof.
  intros Hn. unfold bl_read. destruct (bl_wait s) as [|w]; cbn; (split; [done|]).
  - left. rewrite take_ge by lia. done.
  - by right.
Qed.

Lemma wp_read_tdo fuel b (s : St) : bl_reply (usb_bus s) = [b] -> (bl_wait (usb_bus s) < fuel)%nat ->
  wp (read_tdo fuel) (fun r s' => r = Some b /\ bl_pins (usb_bus s') = bl_pins (usb_bus s)) s.
Proof.
  revert s. induction fuel as [|fuel IH]; intros s Hr Hw; [lia|]. cbn [read_tdo]. wp_pure.
  wp_use wp_usb_read as rv s1 [-> Hs1].
  destruct (bl_read_cases (3 - 2) (usb_bus s)) as [Hp [[E _]|(E & Hr' & Hw')]]; [by rewrite Hr|..]; rewrite E.
  - rewrite Hr. cbn [app]. apply wp_ret. by rewrite Hs1.
  - cbn [app]. rewrite <- Hs1 in Hr', Hw', Hp. eapply wp_mono; [apply IH; [by rewrite Hr'|lia]|].
    intros r s' [-> ->]. done.
Qed.

Lemma wp_usbblaster_out data (s : St) :
  wp (cable_usbblaster_out (S claim_fuel) data) (fun e s' => e = 0
    /\ usb_bus s' = bl_packet [usbblaster_bits data (USBBLASTER_CMD_OE .| USBBLASTER_CMD_nCS)] (usb_bus s)) s.
Proof.
  unfold cable_usbblaster_out. wp_pure. wp_use wp_usb_open as rv s1 [-> E1].
  change (negb (0 =? APP_ERR_NONE)) with false. cbv iota zeta. wp_pure. wp_use wp_usb_write as rv s2 [-> E2].
  apply wp_ret. by rewrite E2, E1.
Qed.

Lemma wp_usbblaster_inout data (s : St) :
  wp (cable_usbblaster_inout (S claim_fuel) data) (fun r s' => r = (0, b2z (tdo (bl_dev (usb_bus s))))
    /\ bl_tck (usb_bus s') = Z.testbit data 0
    /\ bl_dev (usb_bus s') = wires_to (bl_tck (usb_bus s)) data (bl_dev (usb_bus s))) s.
Proof.
  unfold cable_usbblaster_inout. cbv zeta. wp_pure. wp_use wp_usb_open as rv s1 [-> E1].
  change (negb (0 =? APP_ERR_NONE)) with false. cbv iota. wp_pure. wp_use wp_usb_write as rv s2 [-> E2].
  cbn [length Z.of_nat]. change (negb (_ =? 1)) with false. cbv iota. rewrite E1 in E2.
  destruct (packet_bang data true _ (usb_bus s) (blaster_bits data true)) as (Ht & Hd & Hr).
  destruct (Hr eq_refl) as [Hreply Hwait]. cbv iota in Ht, Hd, Hreply, Hwait. rewrite <- E2 in Ht, Hd, Hreply, Hwait.
  wp_pure. wp_use wp_read_tdo as r s3 [-> Hp]; [done|lia|]. apply wp_ret.
  rewrite answer_bit. unfold bl_tck, bl_dev in *. rewrite Hp. done.
Qed.

#[export] Instance usbblaster_wire_laws : WireLaws wires (fun s => bl_dev (usb_bus s)) (fun s => bl_tck (usb_bus s)).
Proof.
  split; intros data s _.
  - eapply wp_mono; [apply wp_usbblaster_out|]. intros e s' [_ E] _. cbv beta. rewrite E.
    destruct (packet_bang data false _ (usb_bus s) (blaster_bits data false)) as (Ht & Hd & _). done.
  - eapply wp_mono; [apply wp_usbblaster_inout|]. intros r s' [-> Hs'] _. done.
Qed.

#[export] Instance usbblaster_reliable : Reliable wires.
Proof.
  apply bitbang_reliable; [apply _|..]; intros v s.
  - intros e s' E. by destruct (wp_inv _ _ _ _ _ (wp_usbblaster_out v s) E).
  - intros r s' E. by destruct (wp_inv _ _ _ _ _ (wp_usbblaster_inout v s) E) as [-> _].
Qed.

#[export] Instance usbblaster_wires_laws : CableLaws wires (fun s => bl_dev (usb_bus s)).
Proof. apply (bitbang_laws _ _ (fun s => bl_tck (usb_bus s))). Qed.

Lemma wp_usbblaster_send p (s : St) :
  wp (usbblaster_send p) (fun ok s' => ok = true /\ usb_bus s' = bl_packet p (usb_bus s)) s.
Proof. unfold usbblaster_send. wp_pure. wp_use wp_usb_write as rv s1 [-> E]. apply wp_ret. by rewrite Z.eqb_refl. Qed.

Lemma wp_usbblaster_receive n (s : St) : 0 < n -> Z.of_nat (length (bl_reply (usb_bus s))) = n ->
  wp (usbblaster_receive n) (fun r s' => bl_pins (usb_bus s') = bl_pins (usb_bus s)
    /\ (r = Some (n, bl_reply (usb_bus s))
        \/ (r = Some (0, []) /\ bl_reply (usb_bus s') = bl_reply (usb_bus s)
            /\ bl_wait (usb_bus s) = S (bl_wait (usb_bus s'))))) s.
Proof.
  intros Hn Hl. unfold usbblaster_receive. wp_pure. wp_use wp_usb_read as rv s1 [-> E]. apply wp_ret.
  replace (n + 2 - 2) with n in * by lia. rewrite E. destruct (bl_read_cases n _ Hl) as [Hp [[-> _]|(-> & Hr & Hw)]].
  - split; [done|]. left. cbn. do 2 f_equal. lia.
  - split; [done|]. by right.
Qed.
End usbblaster.

(** * Through libftdi *)

Section ft245.
Context `{Target, !Mod32} {D : Type} `{Device D} `{!IgnoresTrst D}.
Abbreviation St := (blaster D).

Lemma wp_buf_write p (s : St) :
  wp (usb_blaster_buf_write p) (fun r s' => r = (0, Z.of_nat (length p)) /\ s' = bl_packet p s) s.
Proof.
  eexists _, _. split; [reflexivity|]. cbn. by destruct (Z.ltb_spec (Z.of_nat (length p)) 0); [lia|].
Qed.

Lemma wp_ftdi_read n (s : St) :
  wp (call (ftdi_read_data n)) (fun r s' => r = Some (bl_read n s).1 /\ s' = (bl_read n s).2) s.
Proof. unfold wp, call. cbn. destruct (bl_read n s). by eexists _, _. Qed.

Lemma wp_buf_read fuel n (s : St) : 0 < n -> Z.of_nat (length (bl_reply s)) = n -> (bl_wait s < fuel)%nat ->
  wp (buf_read_loop fuel n []) (fun r s' => r = (0, bl_reply s) /\ bl_pins s' = bl_pins s) s.
Proof.
  intros Hn. revert s. induction fuel as [|fuel IH]; intros s Hl Hw; [lia|]. cbn [buf_read_loop length].
  destruct (Z.ltb_spec (Z.of_nat 0) n); [|lia]. rewrite Z.sub_0_r. wp_pure.
  wp_use wp_ftdi_read as rv s1 [-> Hs1].
  destruct (bl_read_cases n s Hl) as [Hp [[E _]|(E & Hr & Hw')]]; rewrite E; cbn [app]; rewrite <- Hs1 in *.
  - destruct fuel; cbn [buf_read_loop]; (destruct (Z.ltb_spec (Z.of_nat (length (bl_reply s))) n); [lia|]);
      by apply wp_ret.
  - eapply wp_mono; [apply IH; [by rewrite Hr|lia]|]. intros r s' [-> ->]. by rewrite Hr.
Qed.

Lemma wp_ft245_out data (s : St) :
  wp (cable_ft245_out data) (fun e s' => e = 0
    /\ s' = bl_packet [let '(tck, tms, tdi) := ft245_wires data in ftdi_bits tck tms tdi] s) s.
Proof.
  unfold cable_ft245_out. destruct (ft245_wires data) as [[tck tms] tdi]. unfold usb_blaster_write.
  wp_pure. wp_pure. wp_use wp_buf_write as r s1 [-> ->]. wp_pure. by apply wp_ret.
Qed.

Lemma wp_ft245_inout data (s : St) :
  wp (cable_ft245_inout data) (fun r s' => r = (0, b2z (tdo (bl_dev s)))
    /\ bl_tck s' = Z.testbit data 0 /\ bl_dev s' = wires_to (bl_tck s) data (bl_dev s)) s.
Proof.
  pose proof (ftdi_byte data true) as Hb. unfold cable_ft245_inout.
  destruct (ft245_wires data) as [[tck tms] tdi]. unfold usb_blaster_write_read, usb_blaster_buf_read.
  destruct (packet_bang data true _ s Hb) as (Ht & Hd & Hr). destruct (Hr eq_refl) as [Hreply Hwait].
  cbv zeta. wp_pure. wp_pure. wp_use wp_buf_write as r s1 [-> ->]. wp_pure.
  wp_use (wp_buf_read 100 1) as r s2 [-> Hp]; [lia|by rewrite Hreply|lia|]. rewrite Hreply. wp_pure. apply wp_ret.
  rewrite answer_bit. unfold bl_tck, bl_dev in *. rewrite Hp. done.
Qed.

#[export] Instance ft245_wire_laws : WireLaws (ft245_bits (St := St)) bl_dev bl_tck.
Proof.
  split; intros data s _.
  - eapply wp_mono; [apply wp_ft245_out|]. intros e s' [_ ->] _.
    destruct (packet_bang data false _ s (ftdi_byte data false)) as (Ht & Hd & _). done.
  - eapply wp_mono; [apply wp_ft245_inout|]. intros r s' [-> Hs'] _. done.
Qed.

#[export] Instance ft245_reliable : Reliable (ft245_bits (St := St)).
Proof.
  apply bitbang_reliable; [apply _|..]; intros v s.
  - intros e s' E. by destruct (wp_inv _ _ _ _ _ (wp_ft245_out v s) E).
  - intros r s' E. by destruct (wp_inv _ _ _ _ _ (wp_ft245_inout v s) E) as [-> _].
Qed.

#[export] Instance ft245_bits_laws : CableLaws (ft245_bits (St := St)) bl_dev.
Proof. apply (bitbang_laws _ _ bl_tck). Qed.

Lemma wp_ft245_send p (s : St) : wp (ft245_send p) (fun ok s' => ok = true /\ s' = bl_packet p s) s.
Proof. unfold ft245_send. wp_pure. wp_use wp_buf_write as r s1 [-> ->]. apply wp_ret. by rewrite Z.eqb_refl. Qed.

Lemma wp_ft245_receive n (s : St) : 0 < n -> Z.of_nat (length (bl_reply s)) = n -> (bl_wait s <= 14)%nat ->
  wp (ft245_receive n) (fun r s' => r = Some (n, bl_reply s) /\ bl_pins s' = bl_pins s) s.
Proof.
  intros Hn Hl Hw. unfold ft245_receive, usb_blaster_buf_read. wp_pure.
  wp_use (wp_buf_read 100 n) as r s1 [-> Hp]; [done|done|lia|]. wp_pure. rewrite Hl. done.
Qed.
End ft245.

(** * Streams *)

(** What the drivers promise: bits and streams arrive, and are read, without an error.  The
    words of a stream that does not end with TMS go on after it, and a stream that is read
    is no longer than a transfer and eight bits. *)
Class StreamLaws {St D : Type} `{Device D} (c : jtag_cable_t St) (dev : St -> D) : Prop := {
  stream_bit_out p s :
    wp (bit_out_func c p) (fun e s' => e = 0 /\ dev s' = clock (packet_pulse p) (dev s)) s;
  stream_bit_inout p s :
    wp (bit_inout_func c p) (fun r s' => r = (0, b2z (tdo (dev s))) /\ dev s' = clock (packet_pulse p) (dev s)) s;
  stream_out words len last s : 0 < len <= 32 * Z.of_nat (length words) -> len < 2 ^ 31 ->
    truth last = true \/ len < 32 * Z.of_nat (length words) ->
    wp (stream_out_func c words len last) (fun e s' => e = 0
      /\ dev s' = clocks (shift_pulses (stream_bits words len) (truth last)) (dev s)) s;
  stream_inout words buf len last s :
    0 < len <= 32 * Z.of_nat (length words) -> len <= 32 * Z.of_nat (length buf) ->
    truth last = true \/ len < 32 * Z.of_nat (length words) -> fst (split_length len last) <= USBBLASTER_MAX_READ ->
    len < 2 ^ 31 ->
    wp (stream_inout_func c words buf len last) (fun r s' =>
      let ps := shift_pulses (stream_bits words len) (truth last) in
      fst r = 0 /\ dev s' = clocks ps (dev s) /\ snd r = overwrite buf (stream_words (samples ps (dev s)))) s
}.

Section streams.
Context `{Target, !Mod32, Unspecified} {D : Type} `{Device D} `{!IgnoresTrst D}.

(** The functions for bits are those of the table below. *)
Lemma bits_streams {St} (c bits : jtag_cable_t St) (dev : St -> D) `{!CableLaws bits dev, !Reliable bits} :
  (forall p s, bit_out_func c p s = bit_out_func bits p s) ->
  (forall p s, bit_inout_func c p s = bit_inout_func bits p s) ->
  (forall p s, wp (bit_out_func c p) (fun e s' => e = 0 /\ dev s' = clock (packet_pulse p) (dev s)) s)
  /\ (forall p s, wp (bit_inout_func c p) (fun r s' => r = (0, b2z (tdo (dev s))) /\ dev s' = clock (packet_pulse p) (dev s)) s).
Proof.
  intros Eo Ei. split; intros p s; unfold wp; rewrite ?Eo, ?Ei.
  - eapply wp_mono; [apply (wp_post True); [intros _; apply rel_bit_out|apply law_bit_out]|].
    intros e s' [He Hp]. auto.
  - eapply wp_mono; [apply (wp_post True); [intros _; apply rel_bit_inout|apply law_bit_inout]|].
    intros [e b] s' [He Hp]. cbn [fst snd] in *. rewrite Hp in * by done. destruct He as [-> ->]; done.
Qed.

Lemma wp_usbblaster_low claim_fuel (s : usbblaster_t (blaster D)) :
  wp (cable_usbblaster_out (S claim_fuel) 0) (fun e s' => e = 0
    /\ bl_pins (usb_bus s') = Pins false false (bl_dev (usb_bus s))) s.
Proof. eapply wp_mono; [apply wp_usbblaster_out|]. intros e s' [-> ->]. split; [done|]. by apply packet_low. Qed.

Lemma wp_ft245_low (s : blaster D) :
  wp (cable_ft245_out 0) (fun e s' => e = 0 /\ bl_pins s' = Pins false false (bl_dev s)) s.
Proof. eapply wp_mono; [apply wp_ft245_out|]. intros e s' [-> ->]. split; [done|]. by apply packet_low. Qed.

Lemma wp_ft245_open (s : blaster D) : wp (mret APP_ERR_NONE) (fun rv s' => rv = 0 /\ s' = s) s.
Proof. by apply wp_ret. Qed.

Lemma wp_ft245_answer n (s : blaster D) : 0 < n -> Z.of_nat (length (bl_reply s)) = n -> (bl_wait s <= 14)%nat ->
  wp (ft245_receive n) (fun r s' => bl_pins s' = bl_pins s
    /\ (r = Some (n, bl_reply s) \/ (r = Some (0, []) /\ bl_reply s' = bl_reply s /\ bl_wait s = S (bl_wait s')))) s.
Proof. intros Hn Hl Hw. eapply wp_mono; [by apply wp_ft245_receive|]. intros r s' [-> ->]. auto. Qed.

(** C12: Both drivers of the USB-Blaster, the one on libusb and the one on libftdi, get the
    bits and streams they are given to the device, and what they read from it into the
    words of the caller, though the cable takes most of a stream by bytes and the rest bit
    by bit.  The cable at the other end is the one of Blaster.v: it takes each transfer as a
    whole, transfers do not fail, and an answer comes whole, after at most as many reads in
    vain as the drivers try.  The streams are those of at least one bit that fit into the
    words given for them; unless their last bit is to go with TMS they are shorter than those words,
    because the drivers read the word after the whole bytes in any case, which is undefined
    behind the last word ([blaster_overread]); one that is read has no more than 62 whole
    bytes, which is one transfer.  The processor takes the counts of 32-bit shifts modulo 32,
    as x86 does: C leaves the shift by 32 at the end of a word undefined. *)
Theorem blaster_streams claim_fuel :
  StreamLaws (usbblaster_cable_driver (U := blaster D) (S claim_fuel)) (fun s => bl_dev (usb_bus s))
  /\ StreamLaws (ft245_cable_driver (St := blaster D)) bl_dev.
Proof.
  split.
  - destruct (bits_streams (usbblaster_cable_driver (S claim_fuel)) (usbblaster_wires (S claim_fuel))
      (fun s => bl_dev (usb_bus s))) as [Ho Hi]; [done..|].
    split; [exact Ho|exact Hi|..]; intros.
    + by apply (wp_byte_write usb_bus _ _ _ _ (wp_usbblaster_low claim_fuel) (wp_usb_open claim_fuel) wp_usbblaster_send).
    + by apply (wp_byte_read usb_bus _ _ _ _ _ _ (wp_usbblaster_low claim_fuel) (wp_usb_open claim_fuel)
        wp_usbblaster_send (fun n s Hn Hl _ => wp_usbblaster_receive n s Hn Hl)).
  - destruct (bits_streams (ft245_cable_driver (St := blaster D)) ft245_bits bl_dev) as [Ho Hi]; [done..|].
    split; [exact Ho|exact Hi|..]; intros.
    + by apply (wp_byte_write id _ _ _ _ wp_ft245_low wp_ft245_open wp_ft245_send).
    + by apply (wp_byte_read id _ _ _ _ _ _ wp_ft245_low wp_ft245_open wp_ft245_send wp_ft245_answer).
Qed.
End streams.

(** * What the drivers do wrong *)

Section limits.
Context `{Target, !Mod32, Unspecified} {D : Type} `{Device D} `{!IgnoresTrst D}.

Lemma stores_zeros_ok buf n : (n <= length buf)%nat ->
  exists buf', foldl (fun b i => b ← b; store_slot b i 0) (Ok buf) (seqZ 0 (Z.of_nat n)) = Ok buf'.
Proof.
  intros Hn. pose proof (store_zeros buf 0 n Hn) as E. change (overwrite buf (replicate 0 0)) with buf in E.
  change (Z.of_nat 0) with 0 in E. by eexists.
Qed.

Lemma zero_input_hangs buf len : 8192 <= len -> 256 <= Z.of_nat (length buf) -> zero_input buf len = Hang.
Proof.
  intros Hl Hb. unfold zero_input. rewrite Z.quot_div_nonneg by lia.
  assert (256 <= len / 32) by (apply Z.div_le_lower_bound; lia). rewrite Z.min_r by lia.
  destruct (stores_zeros_ok buf 256) as [buf' E]; [lia|]. change (Z.of_nat 256) with 256 in E. rewrite E.
  change (Ok ?b ≫= ?f) with (f b). cbv beta. by destruct (Z.leb_spec 256 (len / 32)); [|lia].
Qed.

Lemma bind_ends {St A B} (m : M St A) (f : A -> M St B) s r :
  wp m (fun a s' => f a s' = r) s -> (m ≫= f) s = r.
Proof. intros (a & s' & Em & Ef). unfold mbind, M_bind. by rewrite Em. Qed.

Lemma byte_read_hangs {St} bits out open send receive fail words buf len last (s : St) :
  (exists Q, wp (out 0) Q s) -> 8192 <= len < 2 ^ 31 -> 256 <= Z.of_nat (length buf) ->
  byte_read_stream bits out open send receive fail words buf len last s = Hang.
Proof.
  intros [Q Ho] Hl Hb. unfold byte_read_stream. destruct (split_length_ok len last) as (n & rest & -> & ? & ? & ? & ?); [lia|].
  destruct (Z.eqb_spec n 0); [lia|]. apply bind_ends. eapply wp_mono; [exact Ho|]. intros e s' _. cbv beta.
  rewrite zero_input_hangs by lia. done.
Qed.

(** A stream of 1024 bytes or more is not read: the loop that clears the words does not end. *)
Theorem blaster_long_read_hangs claim_fuel words buf len last s t :
  8192 <= len < 2 ^ 31 -> 256 <= Z.of_nat (length buf) ->
  stream_inout_func (usbblaster_cable_driver (U := blaster D) (S claim_fuel)) words buf len last s = Hang
  /\ stream_inout_func (ft245_cable_driver (St := blaster D)) words buf len last t = Hang.
Proof.
  intros Hl Hb. split; apply byte_read_hangs; try lia; eexists; [apply wp_usbblaster_low|apply wp_ft245_low].
Qed.

Lemma byte_write_overreads {St} bits out open send w (s : St) :
  (exists Q, wp (out 0) Q s) -> byte_write_stream bits out open send [w] 32 0 s = Undef.
Proof.
  intros [Q Ho]. unfold byte_write_stream. change (split_length 32 0) with (4, 0). cbv iota beta.
  change (4 =? 0) with false. cbv iota. apply bind_ends. eapply wp_mono; [exact Ho|]. done.
Qed.

(** A stream of one word that does not end with TMS: the word after it is read. *)
Theorem blaster_overread claim_fuel w s t :
  stream_out_func (usbblaster_cable_driver (U := blaster D) (S claim_fuel)) [w] 32 0 s = Undef
  /\ stream_out_func (ft245_cable_driver (St := blaster D)) [w] 32 0 t = Undef.
Proof. split; apply byte_write_overreads; eexists; [apply wp_usbblaster_low|apply wp_ft245_low]. Qed.
End limits.

(** * Demonstrations *)

#[local] Instance host : Target := x86_64.
#[local] Instance zero : Unspecified := 0.

(** A device that gives the bits of a tape and notes the pulses it gets. *)
Record tape := Tape { ahead : list bool; got : list pulse }.
#[local] Instance tape_device : Device tape := {|
  clock p d := Tape (tl (ahead d)) (got d ++ [Pulse (p_tms p) (p_tdi p) false]);
  tdo d := hd false (ahead d)
|}.
#[local] Instance tape_trst : IgnoresTrst tape.
Proof. by intros p d. Qed.

Definition with_tape (bits : list bool) (lag : list nat) : blaster tape :=
  BlasterDev (Pins true false (Tape bits [])) [] 0 lag.

(** Twelve bits are read, by a byte and four bits, from a cable that lets the driver wait. *)
Definition slow_cable : blaster tape :=
  with_tape [true; false; false; false; false; true; true; true] [3%nat; 0%nat; 5%nat].
Lemma blaster_streams_witness :
  wp (stream_inout_func (ft245_cable_driver (St := blaster tape)) [0x5A5] [None] 12 1)
    (fun r s => r = (0, [Some 0xE1])
      /\ map p_tdi (got (bl_dev s)) = [true; false; true; false; false; true; false; true; true; false; true; false]) slow_cable.
Proof.
  destruct (blaster_streams (D := tape) 0) as [_ [_ _ _ Hread]].
  eapply wp_mono; [apply Hread; [by split|done|by left|by vm_compute|done]|].
  intros [e buf] s (He & Hd & Hb). cbn [fst snd] in *. rewrite He, Hb, Hd. by vm_compute.
Defined.

(** Of 64 bytes the last ones come in a second transfer: byte 62 is put where byte 60 is. *)
Example second_transfer_misplaced :
  match stream_inout_func (ft245_cable_driver (St := blaster tape)) (replicate 17 0) (replicate 17 None) 520 1
          (with_tape (replicate 496 false ++ [true]) []) with
  | Ok ((_, buf), _) => drop 15 buf
  | _ => []
  end = [Some 1; Some 0].
Proof. vm_compute. reflexivity. Qed.

(** A bus that takes no more than one byte at a time: the driver reports no error, and the
    device has got four bits of twelve. *)
#[local] Instance narrow_usb : LibUsb (blaster tape) := {|
  usb_bulk_write p s := if Z.of_nat (length p) =? 1 then usb_bulk_write (LibUsb := blaster_usb) p s else (-1, s);
  usb_bulk_read := usb_bulk_read (LibUsb := blaster_usb);
  usb_control_in := usb_control_in (LibUsb := blaster_usb);
  usb_find_devices := usb_find_devices (LibUsb := blaster_usb);
  usb := usb (LibUsb := blaster_usb)
|}.
Example write_error_lost :
  match stream_out_func (usbblaster_cable_driver (U := blaster tape) (H1 := narrow_usb) 1) [0x5A5] 12 1
          (Usbblaster true true (with_tape [] [])) with
  | Ok (err, s) => (err, map p_tdi (got (bl_dev (usb_bus s))))
  | _ => (-1, [])
  end = (0, [true; false; true; false]).
Proof. vm_compute. reflexivity. Qed.

(** Twenty reads without an answer: the bit that is returned is 0, and no error. *)
#[local] Instance silent_usb : LibUsb (blaster tape) := {|
  usb_bulk_write := usb_bulk_write (LibUsb := blaster_usb);
  usb_bulk_read n s := (Some [0x31; 0x60], s);
  usb_control_in := usb_control_in (LibUsb := blaster_usb);
  usb_find_devices := usb_find_devices (LibUsb := blaster_usb);
  usb := usb (LibUsb := blaster_usb)
|}.
Example silent_cable :
  match inout_func (usbblaster_cable_driver (U := blaster tape) (H1 := silent_usb) 1) 0
          (Usbblaster true true (with_tape [true] [])) with
  | Ok (r, _) => r
  | _ => (-1, -1)
  end = (0, 0).
Proof. vm_compute. reflexivity. Qed.
