(* ===== verification/XpcUsb.v ===== *)
(** cable_xpc_dlc9.c: the Xilinx Platform Cable USB, model DLC9.

    Every change of the wires is a control message of its own, for which the device is
    opened and closed again.  Bits and streams are those of cable_common.c but for a bit
    that is read: TDO is read with TCK low, before it is raised.  The cable is specified as
    the comments of the file have it ([dlc9]); on it the driver keeps the promises of any
    cable. *)

From stdpp Require Import strings.
From S2P Require Import Prelude StateM Tap Cable Parallel Blaster BlasterFacts.

Open Scope Z_scope.
Open Scope cword_scope.

(** * The driver *)

Definition XPCUSB_VID : Z := 0x3fd.
Definition XPCUSB_PID : Z := 0x08.
Definition XPCUSB_CMD_TDI : Z := 0x01.
Definition XPCUSB_CMD_TDO : Z := 0x01.
Definition XPCUSB_CMD_TMS : Z := 0x02.
Definition XPCUSB_CMD_TCK : Z := 0x04.
Definition XPCUSB_CMD_PROG : Z := 0x08.

(** [device], whether it is not null. *)
Record xpcusb_t (U : Type) := Xpcusb { device : bool; xpc_bus : U }.
Arguments Xpcusb {U} _ _.
Arguments device {U} _.
Arguments xpc_bus {U} _.

Section cable_xpc_dlc9.
Context `{Target, Unspecified} {U : Type} `{LibUsb U} (claim_fuel : nat).
Abbreviation St := (xpcusb_t U).

Definition on_bus {A} (f : M U A) : M St A := fun s =>
  match f (xpc_bus s) with
  | Ok (a, u) => Ok (a, Xpcusb (device s) u)
  | Hang => Hang | AssertFail => AssertFail | Undef => Undef
  end.
Definition lib (c : usb_call) : M St Z := on_bus (call (usb c)).
Definition lib_in (value index : Z) (n : Z) : M St (option (list Z)) := on_bus (call (usb_control_in 0xC0 0xB0 value index n)).
Definition lib_out (value index : Z) : M St Z := lib (usb_control_msg 0x40 0xB0 value index).

Definition xpcu_request (value index : Z) : M St Z :=
  r ← lib_out value index; mret (if r <? 0 then APP_ERR_USB else APP_ERR_NONE).
Definition xpcu_request_28 (value : Z) : M St Z := xpcu_request 0x28 value.
Definition xpcu_raise_ioa5 : M St Z := xpcu_request 0x18 0.
Definition xpcu_select_gpio (chain : Z) : M St Z := xpcu_request 0x52 chain.
Definition xpcu_read_version (index : Z) : M St Z :=
  r ← lib_in 0x50 index 2; mret (match r with None => APP_ERR_USB | Some _ => APP_ERR_NONE end).
Definition xpcu_read_firmware_version : M St Z := xpcu_read_version 0.
Definition xpcu_read_cpld_version : M St Z := xpcu_read_version 1.

Definition xpcusb_enumerate_bus : M St Z :=
  busses ← on_bus (call usb_find_devices);
  let found := existsb (existsb (fun '(v, p) => (v =? XPCUSB_VID) && (p =? XPCUSB_PID))) busses in
  modify (fun s => Xpcusb found (xpc_bus s));;
  mret (if found then APP_ERR_NONE else APP_ERR_CABLENOTFOUND).

(** The interface is claimed until that succeeds; [claim_fuel] bounds how often. *)
Fixpoint xpc_claim (fuel : nat) : M St unit :=
  match fuel with
  | O => lift Hang
  | S fuel => r ← lib usb_claim_interface; if truth r then xpc_claim fuel else mret tt
  end.

Definition cable_xpcusb_init : M St Z :=
  err ← xpcusb_enumerate_bus;
  if truth err then mret err else
  h ← lib usb_open;
  if negb (truth h) then mret APP_ERR_USB else
  _ ← lib usb_reset;
  _ ← lib usb_close;
  err ← xpcusb_enumerate_bus;
  if truth err then mret err else
  h ← lib usb_open;
  if negb (truth h) then mret APP_ERR_USB else
  r ← lib usb_set_configuration;
  if truth r then _ ← lib usb_close; mret APP_ERR_USB else
  xpc_claim claim_fuel;;
  _ ← xpcu_request_28 0x11;
  _ ← lib_out 0x30 0x08;
  _ ← xpcu_read_firmware_version;
  _ ← xpcu_read_cpld_version;
  _ ← xpcu_raise_ioa5;
  _ ← xpcu_select_gpio 0;
  r ← lib usb_release_interface;
  _ ← lib usb_close;
  mret (if truth r then APP_ERR_USB else APP_ERR_NONE).

(** The device is opened, its configuration set and its interface claimed. *)
Definition xpcusb_open : M St Z :=
  h ← lib usb_open;
  if negb (truth h) then _ ← lib usb_close; mret APP_ERR_USB else
  r ← lib usb_set_configuration;
  if truth r then _ ← lib usb_close; mret APP_ERR_USB else
  xpc_claim claim_fuel;;
  mret APP_ERR_NONE.

Definition xpcusb_bits (value : Z) : Z :=
  let out := 0 in
  let out := if truth (value .& TCLK_BIT) then out .| XPCUSB_CMD_TCK else out in
  let out := if truth (value .& TDI_BIT) then out .| XPCUSB_CMD_TDI else out in
  let out := if truth (value .& TMS_BIT) then out .| XPCUSB_CMD_TMS else out in
  out .| XPCUSB_CMD_PROG.

(** A message that fails is not reported. *)
Definition cable_xpcusb_out (value : Z) : M St Z :=
  e ← xpcusb_open;
  if negb (e =? APP_ERR_NONE) then mret e else
  _ ← lib_out 0x30 (xpcusb_bits value);
  _ ← lib usb_release_interface;
  _ ← lib usb_close;
  mret APP_ERR_NONE.

Definition cable_xpcusb_inout (value : Z) : M St (Z * Z) :=
  let fail : M St (Z * Z) :=
    _ ← lib usb_release_interface; _ ← lib usb_close; mret (APP_ERR_USB, unspecified) in
  e ← xpcusb_open;
  if negb (e =? APP_ERR_NONE) then mret (e, unspecified) else
  rv ← lib_out 0x30 (xpcusb_bits value);
  if rv <? 0 then fail else
  rv ← lib_in 0x38 0 1;
  match rv with
  | None => fail
  | Some read =>
      r ← lib usb_release_interface;
      _ ← lib usb_close;
      if truth r then mret (APP_ERR_USB, unspecified)
      else mret (APP_ERR_NONE, if truth (hd 0 read .& XPCUSB_CMD_TDO) then 1 else 0)
  end.

Definition cable_xpcusb_read_write_bit (packet_out : Z) : M St (Z * Z) :=
  let data := packet_data packet_out in
  '(e1, bit_in) ← cable_xpcusb_inout data;
  e2 ← cable_xpcusb_out (data .| TCLK_BIT);
  mret (APP_ERR_NONE .| e1 .| e2, bit_in).

Definition xpcusb_bits_table : jtag_cable_t St :=
  bitbang_table "xpc_usb" cable_xpcusb_inout cable_xpcusb_out cable_xpcusb_init EmptyString
    (cable_common_write_bit (bitbang "xpc_usb" cable_xpcusb_inout cable_xpcusb_out cable_xpcusb_init EmptyString))
    cable_xpcusb_read_write_bit (fun _ _ _ => lift Undef) (fun _ _ _ _ => lift Undef).

Definition dlc9_cable_driver : jtag_cable_t St :=
  stream_table xpcusb_bits_table
    (cable_common_write_stream xpcusb_bits_table) (cable_common_read_stream xpcusb_bits_table).
End cable_xpc_dlc9.

(** * The cable *)

Section dlc9.
Context {D : Type} `{Device D}.

Definition dlc9_write (v : Z) (p : pins D) : pins D :=
  Pins (Z.testbit v 2) (Z.testbit v 1)
    (if Z.testbit v 2 && negb (pin_tck p) then clock (Pulse (Z.testbit v 1) (Z.testbit v 0) false) (pin_dev p)
     else pin_dev p).

#[export] Instance dlc9_usb : LibUsb (pins D) := {|
  usb_bulk_write _ p := (-1, p);
  usb_bulk_read _ p := (None, p);
  usb_control_in _ _ value _ n p :=
    (Some (if value =? 0x38 then [b2z (tdo (pin_dev p))] else replicate (Z.to_nat n) 1), p);
  usb_find_devices p := ([[(XPCUSB_VID, XPCUSB_PID)]], p);
  usb c p := match c with
             | usb_open => (1, p)
             | usb_control_msg _ _ value index => (0, if value =? 0x30 then dlc9_write index p else p)
             | _ => (0, p)
             end
|}.
End dlc9.

Section laws.
Context `{Target, !Mod32, Unspecified} {D : Type} `{Device D} `{!IgnoresTrst D} (claim_fuel : nat).
Abbreviation St := (xpcusb_t (pins D)).
Abbreviation driver := (dlc9_cable_driver (U := pins D) (S claim_fuel)).
Definition xpc_dev (s : St) : D := pin_dev (xpc_bus s).
Definition xpc_tck (s : St) : bool := pin_tck (xpc_bus s).

Lemma xpcusb_levels data : let v := xpcusb_bits data in
  Z.testbit v 2 = Z.testbit data 0 /\ Z.testbit v 0 = Z.testbit data 2 /\ Z.testbit v 1 = Z.testbit data 3.
Proof.
  unfold xpcusb_bits. change TCLK_BIT with (2 ^ 0). change TDI_BIT with (2 ^ 2). change TMS_BIT with (2 ^ 3).
  rewrite !truth_land_pow2 by lia.
  by destruct (Z.testbit data 0), (Z.testbit data 2), (Z.testbit data 3).
Qed.

Lemma dlc9_wires data (p : pins D) : let p' := dlc9_write (xpcusb_bits data) p in
  pin_tck p' = Z.testbit data 0 /\ pin_dev p' = wires_to (pin_tck p) data (pin_dev p).
Proof.
  destruct (xpcusb_levels data) as (E2 & E0 & E1). unfold dlc9_write, wires_to. cbn [pin_tck pin_dev].
  rewrite E2, E0, E1, (ignores_trst (wire_pulse data)). done.
Qed.

Lemma wp_xpcusb_out data (s : St) : wp (cable_xpcusb_out (S claim_fuel) data) (fun e s' => e = 0
  /\ xpc_bus s' = dlc9_write (xpcusb_bits data) (xpc_bus s)) s.
Proof. eexists _, _. split; [reflexivity|]. done. Qed.

Lemma wp_xpcusb_inout data (s : St) : wp (cable_xpcusb_inout (S claim_fuel) data) (fun r s' =>
  r = (0, b2z (tdo (xpc_dev s'))) /\ xpc_bus s' = dlc9_write (xpcusb_bits data) (xpc_bus s)) s.
Proof. eexists _, _. split; [reflexivity|]. cbn. split; [|done]. by destruct (tdo _). Qed.

Lemma wp_xpcusb_write_bit p (s : St) : wp (bit_out_func driver p) (fun e s' => e = 0
  /\ xpc_dev s' = clock (packet_pulse p) (xpc_dev s)) s.
Proof.
  set (c := bitbang "xpc_usb" (cable_xpcusb_inout (S claim_fuel)) (cable_xpcusb_out (S claim_fuel))
    (cable_xpcusb_init (S claim_fuel)) EmptyString).
  change (bit_out_func driver p) with (cable_common_write_bit c p).
  destruct (packet_data_high p) as [Hb Hp]. unfold cable_common_write_bit. cbv zeta.
  wp_pure. wp_use wp_xpcusb_out as e s1 [-> E1]. wp_pure. wp_use wp_xpcusb_out as e s2 [-> E2]. apply wp_ret.
  split; [done|]. destruct (dlc9_wires (packet_data p) (xpc_bus s)) as [T1 D1].
  destruct (dlc9_wires (packet_data p .| TCLK_BIT) (xpc_bus s1)) as [_ D2]. unfold xpc_dev.
  rewrite E2, D2, E1, D1, T1. unfold wires_to. by rewrite Hb, packet_data_low, Hp.
Qed.

Lemma wp_xpcusb_read_write_bit p (s : St) : wp (bit_inout_func driver p) (fun r s' =>
  r = (0, b2z (tdo (xpc_dev s))) /\ xpc_dev s' = clock (packet_pulse p) (xpc_dev s)) s.
Proof.
  change (bit_inout_func driver p) with (cable_xpcusb_read_write_bit (U := pins D) (S claim_fuel) p).
  destruct (packet_data_high p) as [Hb Hp]. unfold cable_xpcusb_read_write_bit. cbv zeta.
  wp_pure. wp_use wp_xpcusb_inout as r s1 [-> E1]. wp_pure. wp_use wp_xpcusb_out as e s2 [-> E2]. apply wp_ret.
  destruct (dlc9_wires (packet_data p) (xpc_bus s)) as [T1 D1].
  destruct (dlc9_wires (packet_data p .| TCLK_BIT) (xpc_bus s1)) as [_ D2]. unfold xpc_dev.
  rewrite E2, D2, E1, D1, T1. unfold wires_to. by rewrite Hb, packet_data_low, Hp.
Qed.

#[export] Instance dlc9_cable_laws : CableLaws driver xpc_dev.
Proof.
  assert (Hout : forall p s, wp (bit_out_func driver p) (fun e s' => e = 0 ->
    xpc_dev s' = clock (packet_pulse p) (xpc_dev s)) s).
  { intros p s. eapply wp_mono; [apply wp_xpcusb_write_bit|]. by intros e s' [_ E] _. }
  assert (Hio : forall p s, wp (bit_inout_func driver p) (fun r s' => fst r = 0 ->
    snd r = b2z (tdo (xpc_dev s)) /\ xpc_dev s' = clock (packet_pulse p) (xpc_dev s)) s).
  { intros p s. eapply wp_mono; [apply wp_xpcusb_read_write_bit|]. by intros r s' [-> E] _. }
  split; [exact Hout|exact Hio|..].
  - intros words len last s Hl. by apply (cable_common_write_stream_law driver xpc_dev Hout).
  - intros words buf len last s Hl Hb. by apply (cable_common_read_stream_law driver xpc_dev Hio).
Qed.

#[export] Instance dlc9_reliable : Reliable driver.
Proof.
  assert (Hb : forall p, post (bit_out_func driver p) (fun e => e = 0)).
  { intros p s e s' E. by destruct (wp_inv _ _ _ _ _ (wp_xpcusb_write_bit p s) E). }
  assert (Hbio : forall p, post (bit_inout_func driver p) (fun r => fst r = 0)).
  { intros p s r s' E. by destruct (wp_inv _ _ _ _ _ (wp_xpcusb_read_write_bit p s) E) as [-> _]. }
  destruct (common_reliable driver Hb Hbio) as [Hs Hsio]. split; [done|done|exact Hs|exact Hsio].
Qed.
End laws.

(** The driver of the Platform Cable keeps the promises every theorem about the chain
    and the debug unit is proved from, and reports no error; its initialization finds the
    cable and does not move the device. *)
Theorem xpc_usb_lawful `{Target, !Mod32, Unspecified} {D : Type} `{Device D} `{!IgnoresTrst D} claim_fuel :
  let driver := dlc9_cable_driver (U := pins D) (S claim_fuel) in
  CableLaws driver xpc_dev /\ Reliable driver
  /\ forall s, wp (init_func driver) (fun e s' => e = 0 /\ device s' = true /\ xpc_dev s' = xpc_dev s) s.
Proof.
  cbv zeta. split; [apply _|]. split; [apply _|]. intros [d p].
  exists 0, (Xpcusb true (Pins false false (pin_dev p))). split; [reflexivity|done].
Qed.

(** * A demonstration *)

#[local] Instance host : Target := x86_64.
#[local] Instance zero : Unspecified := 0.
(** A device that gives the bits of a list. *)
#[local] Instance bits_device : Device (list bool) := {| clock _ := tl; tdo := hd false |}.
#[local] Instance bits_trst : IgnoresTrst (list bool).
Proof. by intros p d. Qed.
Definition xpc_driver : jtag_cable_t (xpcusb_t (pins (list bool))) := dlc9_cable_driver 1.
Definition xpc_start : xpcusb_t (pins (list bool)) := Xpcusb true (Pins true true [true; false; true; true]).

Lemma xpc_usb_lawful_witness :
  wp (stream_inout_func xpc_driver [0] [None] 4 1) (fun r s => r = (0, [Some 13]) /\ xpc_dev s = []) xpc_start.
Proof.
  destruct (xpc_usb_lawful (D := list bool) 0) as (L & R & _).
  eapply wp_mono; [apply (wp_post True); [intros _; apply (rel_stream_inout (Reliable := R))|]|].
  - by apply (law_stream_inout (CableLaws := L)).
  - intros [e buf] s [(read & Hb & _ & _ & He) Hp]. cbn [fst snd] in *. specialize (Hp I).
    destruct (He Hp) as [Hd Hr]. rewrite Hb, Hr, Hd, Hp. by vm_compute.
Defined.
