(* ===== verification/Vpi.v ===== *)
(** cable_sim.c and sim_lib/src/jp-io-vpi.c: the cable to a Verilog simulator, the driver of
    the bridge and the plugin of the simulator, which talk over a socket.

    The driver sends a byte with the levels of the wires, and waits until the plugin has
    acknowledged it and the simulator has gone on for half a period of TCK; the byte 0x80
    asks for TDO, 0x81 for the wait.  The plugin is called by the simulator: [vpi_jp_in]
    again and again, [vpi_jp_out] when TDO changes, [jp_wait_time] when the time has passed.
    Sockets are the class [VpiSocket] for the driver; [Simulator] is what the plugin calls:
    its sockets, which do not block, and the objects of the simulator. *)

From stdpp Require Import strings.
From S2P Require Import Prelude StateM Tap Cable Blaster.

Open Scope Z_scope.
Open Scope cword_scope.

(** * cable_sim.c *)

(** The result of recv for one byte: the byte; the connection is closed; an error. *)
Inductive received := Byte (b : Z) | Closed | RecvError.

Class VpiSocket (St : Type) := {
  vpi_socket : St -> Z * St;
  vpi_gethostbyname : string -> St -> bool * St;
  vpi_connect : Z -> St -> Z * St;
  vpi_send : Z -> St -> Z * St;
  vpi_recv : M St received
}.

Definition vpi_port : Z := 4567.
Definition vpi_server : string := "localhost".

Section cable_vpi.
Context `{Target} {St : Type} `{VpiSocket St}.

Definition cable_vpi_init : M St Z :=
  vpi_comm ← call vpi_socket;
  if vpi_comm <? 0 then mret APP_ERR_CONNECT else
  he ← call (vpi_gethostbyname vpi_server);
  if negb he then mret APP_ERR_CONNECT else
  r ← call (vpi_connect vpi_port);
  mret (if r =? -1 then APP_ERR_CONNECT else APP_ERR_NONE).

(** [dat], and what is only printed. *)
Definition cable_vpi_wait : M St unit :=
  _ ← call (vpi_send 0x81);
  _ ← vpi_recv;
  mret tt.

(** The loop until the acknowledgment comes; [ack] keeps its value when nothing comes. *)
Fixpoint wait_ack (fuel : nat) (value : Z) (ack : option Z) : M St Z :=
  match fuel with
  | O => lift Hang
  | S fuel =>
      ret ← vpi_recv;
      match ret with
      | RecvError => mret APP_ERR_CONNECT
      | _ =>
          let ack := match ret with Byte b => Some b | _ => ack end in
          a ← lift (read_var ack);
          if negb (a =? value .| 0x10) then wait_ack fuel value ack
          else cable_vpi_wait;; mret APP_ERR_NONE
      end
  end.

(** How many bytes that are no acknowledgment are read. *)
Context (ack_fuel : nat).

Definition cable_vpi_out (value : Z) : M St Z :=
  _ ← call (vpi_send value);
  wait_ack ack_fuel value None.

(** The result of [cable_vpi_out] is not looked at. *)
Definition cable_vpi_inout (value : Z) : M St (Z * Z) :=
  let dat := 0x80 in
  _ ← call (vpi_send dat);
  r ← vpi_recv;
  let dat := match r with Byte b => b | _ => dat end in
  _ ← cable_vpi_out value;
  cable_vpi_wait;;
  mret (APP_ERR_NONE, dat).

Definition vpi_cable_driver : jtag_cable_t St :=
  bitbang "vpi" cable_vpi_inout cable_vpi_out cable_vpi_init "s:p:".
End cable_vpi.

(** * jp-io-vpi.c *)

(** The result of accept and recv on sockets that do not block. *)
Inductive polled (A : Type) := Ready (a : A) | Ended | TryAgain | PollError.
Arguments Ready {A} _.
Arguments Ended {A}.
Arguments TryAgain {A}.
Arguments PollError {A}.

(** The argument of a call from the simulator: none, or whether it is of the type that is
    needed, a net for [vpi_jp_out] and a register for [vpi_jp_in]. *)
Inductive argument := NoArgument | WrongType | Argument.

Class Simulator (W : Type) := {
  jp_socket : W -> Z * W;
  jp_bind : string -> W -> Z * W;
  jp_listen : W -> Z * W;
  jp_accept : W -> polled unit * W;
  jp_recv : W -> polled Z * W;
  jp_send : Z -> W -> W;
  vpi_net_arg : W -> argument;
  vpi_reg_arg : W -> argument;
  vpi_get_value : W -> Z * Z;
  vpi_put_value : Z -> W -> W
}.

(** [vpi_out], [jp_got_con], [count_comp], [jp_waiting]. *)
Record jp (W : Type) := Jp { vpi_out : Z; jp_got_con : bool; count_comp : bool; jp_waiting : bool; jp_sim : W }.
Arguments Jp {W} _ _ _ _ _.
Arguments vpi_out {W} _.
Arguments jp_got_con {W} _.
Arguments count_comp {W} _.
Arguments jp_waiting {W} _.
Arguments jp_sim {W} _.

Definition jp_start {W} (w : W) : jp W := Jp 0 false false false w.

Section plugin.
Context {W : Type} `{Simulator W}.

Definition set_vpi_out (v : Z) (j : jp W) : jp W := Jp v (jp_got_con j) (count_comp j) (jp_waiting j) (jp_sim j).
Definition set_jp_got_con (v : bool) (j : jp W) : jp W := Jp (vpi_out j) v (count_comp j) (jp_waiting j) (jp_sim j).
Definition set_count_comp (v : bool) (j : jp W) : jp W := Jp (vpi_out j) (jp_got_con j) v (jp_waiting j) (jp_sim j).
Definition set_jp_waiting (v : bool) (j : jp W) : jp W := Jp (vpi_out j) (jp_got_con j) (count_comp j) v (jp_sim j).
Definition set_jp_sim (w : W) (j : jp W) : jp W := Jp (vpi_out j) (jp_got_con j) (count_comp j) (jp_waiting j) w.
Definition send_byte (b : Z) (j : jp W) : jp W := set_jp_sim (jp_send b (jp_sim j)) j.

Definition vpi_jp_out (j : jp W) : jp W :=
  match vpi_net_arg (jp_sim j) with
  | NoArgument | WrongType => j
  | Argument =>
      let '(aval, bval) := vpi_get_value (jp_sim j) in
      if truth (bval .& 1) then j else set_vpi_out (aval .& 1) j
  end.

Definition jp_check_con (j : jp W) : bool * jp W :=
  match jp_accept (jp_sim j) with
  | (Ready _, w) => (true, set_jp_got_con true (set_jp_sim w j))
  | (_, w) => (false, set_jp_sim w j)
  end.

(** A byte that is no command. *)
Definition jp_data (dat : Z) (j : jp W) : jp W :=
  match vpi_reg_arg (jp_sim j) with
  | NoArgument | WrongType => j
  | Argument =>
      let j := set_jp_sim (vpi_put_value ((dat .& 0xf) .| 0x10) (jp_sim j)) j in
      let j := send_byte (dat .| 0x10) j in
      set_count_comp false j
  end.

Definition vpi_jp_in (j : jp W) : jp W :=
  let '(con, j) := if jp_got_con j then (true, j) else jp_check_con j in
  if negb con then j else
  let '(r, w) := jp_recv (jp_sim j) in
  let j := set_jp_sim w j in
  match r with
  | Ready dat =>
      if truth (dat .& 0x80) && (dat .& 0x7f =? 0) then send_byte (vpi_out j) j
      else if truth (dat .& 0x80) && (dat .& 0x7f =? 1) then
        if count_comp j then send_byte 0xFF j else set_jp_waiting true j
      else jp_data dat j
  | _ => j
  end.

Definition jp_wait_time (j : jp W) : jp W :=
  let j := if jp_waiting j then set_jp_waiting false (send_byte 0xFF j) else j in
  set_count_comp true j.

(** [port]: the argument of [$jp_init]. *)
Definition init_sock (port : option string) (j : jp W) : jp W :=
  match port with
  | None => j
  | Some port =>
      let '(fd, w) := jp_socket (jp_sim j) in
      let j := set_jp_sim w j in
      if fd <? 0 then j else
      let '(r, w) := jp_bind port (jp_sim j) in
      let j := set_jp_sim w j in
      if r =? -1 then j else
      let '(r, w) := jp_listen (jp_sim j) in
      let j := set_jp_sim w j in
      if r =? -1 then j else
      set_jp_waiting false (set_jp_got_con false j)
  end.
End plugin.
