(* ===== verification/VpiProps.v ===== *)
(** The simulator at the other end of cable_sim.c, and that the cable is lawful.

    Specification: [bench] is sim_rtl/dbg_comm_vpi.v with the plugin in it and a device at
    its pins: a process that polls the plugin, and the clock of the system, which counts to
    the time-out.  Which of the two runs next is what a schedule says, any schedule that
    forgets neither; the simulator goes on while the bridge does something else, for as long
    as [net_lag] says. *)

From stdpp Require Import strings.
From S2P Require Import Prelude StateM Tap Cable Parallel Blaster Vpi.

Open Scope Z_scope.
Open Scope cword_scope.

#[local] Arguments Z.testbit : simpl never.

(** * The simulator *)

(** Whether the bridge has connected, the bytes to the plugin and to the bridge, the
    register [memory] and the net [P_TDO]. *)
Record wires := Wires { connected : bool; to_plugin : list Z; to_bridge : list Z; memory : Z; p_tdo_net : bool }.

#[export] Instance wires_simulator : Simulator wires := {
  jp_socket w := (3, w);
  jp_bind _ w := (0, w);
  jp_listen w := (0, w);
  jp_accept w := (if connected w then Ready tt else TryAgain, w);
  jp_recv w := match to_plugin w with
               | [] => (TryAgain, w)
               | b :: rest => (Ready b, Wires (connected w) rest (to_bridge w) (memory w) (p_tdo_net w))
               end;
  jp_send b w := Wires (connected w) (to_plugin w) (to_bridge w ++ [b]) (memory w) (p_tdo_net w);
  vpi_net_arg _ := Argument;
  vpi_reg_arg _ := Argument;
  vpi_get_value w := (b2z (p_tdo_net w), 0);
  vpi_put_value v w := Wires (connected w) (to_plugin w) (to_bridge w) v (p_tdo_net w)
}.

Definition TIMEOUT_COUNT : Z := 20.

(** Which process of the simulator runs. *)
Inductive event := Poll | SysClk.
#[export] Instance event_eq_dec : EqDecision event.
Proof. solve_decision. Defined.

Section bench.
Context {D : Type} `{Device D}.

Record bench := Bench { b_jp : jp wires; in_word_r : Z; clk_count : Z; b_dev : D }.

Definition net_of (b : bench) : wires := jp_sim (b_jp b).
Definition set_memory (v : Z) (w : wires) : wires := Wires (connected w) (to_plugin w) (to_bridge w) v (p_tdo_net w).
Definition set_tdo (v : bool) (w : wires) : wires := Wires (connected w) (to_plugin w) (to_bridge w) (memory w) v.

(** [$jp_in(memory)], and the wires where there is a new word; [$jp_out(P_TDO)] where that
    changes TDO. *)
Definition poll (b : bench) : bench :=
  let j := vpi_jp_in (b_jp b) in
  let m := memory (jp_sim j) in
  if Z.testbit m 4 then
    let dev := wires_to (Z.testbit (in_word_r b) 0) (m .& 15) (b_dev b) in
    let w := set_memory (m .& 15) (jp_sim j) in
    let j := set_jp_sim (set_tdo (tdo dev) w) j in
    Bench (if Bool.eqb (tdo dev) (p_tdo_net w) then j else vpi_jp_out j) (m .& 15) 0 dev
  else Bench j (in_word_r b) (clk_count b) (b_dev b).

Definition sys_clk (b : bench) : bench :=
  if clk_count b <? TIMEOUT_COUNT then Bench (b_jp b) (in_word_r b) (clk_count b + 1) (b_dev b)
  else if clk_count b =? TIMEOUT_COUNT then
    Bench (jp_wait_time (b_jp b)) (in_word_r b) (clk_count b + 1) (b_dev b)
  else b.

Definition happens (e : event) : bench -> bench := match e with Poll => poll | SysClk => sys_clk end.

(** After the [initial] blocks, and the [$jp_out] of the first level of TDO. *)
Definition bench_start (dev : D) : bench :=
  let w := Wires false [] [] 0 (tdo dev) in
  Bench (vpi_jp_out (init_sock (Some "4567") (jp_start w))) 0 (TIMEOUT_COUNT + 1) dev.

(** The words of four wires. *)
Lemma nibbles (P : Z -> bool) : forallb P (seqZ 0 16) = true -> forall v, is_word 4 v -> P v = true.
Proof.
  intros Hp v Hv. rewrite forallb_forall in Hp. apply Hp, list_elem_of_In, elem_of_seqZ. unfold is_word in Hv. lia.
Qed.

Lemma nibble_bits v : is_word 4 v ->
  truth (v .& 0x80) = false /\ Z.testbit ((v .& 0xf) .| 0x10) 4 = true
  /\ ((v .& 0xf) .| 0x10) .& 15 = v /\ Z.testbit v 4 = false.
Proof.
  intros Hv. pose proof (nibbles (fun v => negb (truth (v .& 0x80)) && Z.testbit ((v .& 0xf) .| 0x10) 4
    && (((v .& 0xf) .| 0x10) .& 15 =? v) && negb (Z.testbit v 4)) eq_refl v Hv) as E.
  apply andb_prop in E as [[[E1 E2]%andb_prop E3]%andb_prop E4].
  apply negb_true_iff in E1, E4. apply Z.eqb_eq in E3. done.
Qed.

(** ** What the processes do *)

(** The bytes under way, and whether the plugin owes an answer; everything else is at rest. *)
Definition shape (i o : list Z) (owes : bool) (b : bench) : Prop :=
  to_plugin (net_of b) = i /\ to_bridge (net_of b) = o /\ jp_waiting (b_jp b) = owes
  /\ Z.testbit (memory (net_of b)) 4 = false
  /\ p_tdo_net (net_of b) = tdo (b_dev b) /\ vpi_out (b_jp b) = b2z (tdo (b_dev b)).

(** The wires and the device are the same, and the clock is still to count to the end if it
    was. *)
Definition timed (b : bench) : Prop := count_comp (b_jp b) = true \/ 0 <= clk_count b <= TIMEOUT_COUNT.
Definition kept (b b' : bench) : Prop :=
  in_word_r b' = in_word_r b /\ b_dev b' = b_dev b /\ connected (net_of b') = connected (net_of b)
  /\ (timed b -> timed b').

Lemma kept_refl b : kept b b.
Proof. repeat split. auto. Qed.

Lemma kept_trans b1 b2 b3 : kept b1 b2 -> kept b2 b3 -> kept b1 b3.
Proof. intros (A1 & A2 & A3 & A4) (B1 & B2 & B3 & B4). repeat split; [congruence..|auto]. Qed.

Lemma clk_step i o b : shape i o false b -> shape i o false (sys_clk b) /\ kept b (sys_clk b).
Proof.
  destruct b as [[vo gc cc jw [cn tp tb m pt]] iw ck d]. intros (Hi & Ho & Hw & Hm & Ht & Hv). cbn in *. subst.
  unfold sys_clk. cbn. destruct (Z.ltb_spec ck TIMEOUT_COUNT); [|destruct (Z.eqb_spec ck TIMEOUT_COUNT)]; cbn;
    (split; [by repeat split|]); repeat split; unfold timed; cbn; [|auto..].
  intros [->|Hc]; [by left|right; lia].
Qed.

(** The time passes while the plugin owes an answer. *)
Lemma clk_wait b : shape [] [] true b -> count_comp (b_jp b) = false -> 0 <= clk_count b <= TIMEOUT_COUNT ->
  kept b (sys_clk b) /\
  if clk_count b =? TIMEOUT_COUNT then shape [] [0xFF] false (sys_clk b) /\ timed (sys_clk b)
  else shape [] [] true (sys_clk b) /\ count_comp (b_jp (sys_clk b)) = false /\ clk_count (sys_clk b) = clk_count b + 1.
Proof.
  destruct b as [[vo gc cc jw [cn tp tb m pt]] iw ck d]. intros (Hi & Ho & Hw & Hm & Ht & Hv) Hc Hr. cbn in *. subst.
  unfold sys_clk. cbn. destruct (Z.eqb_spec ck TIMEOUT_COUNT) as [->|Hne].
  - cbn. split; [repeat split; by left|]. split; [by repeat split|by left].
  - destruct (Z.ltb_spec ck TIMEOUT_COUNT); [|lia]. split; [repeat split; right; cbn; lia|]. by repeat split.
Qed.

Lemma poll_idle o owes b : shape [] o owes b -> shape [] o owes (poll b) /\ kept b (poll b)
  /\ count_comp (b_jp (poll b)) = count_comp (b_jp b) /\ clk_count (poll b) = clk_count b.
Proof.
  destruct b as [[vo gc cc jw [cn tp tb m pt]] iw ck d]. intros (Hi & Ho & Hw & Hm & Ht & Hv). cbn in *. subst.
  destruct gc, cn; cbn; unfold poll; cbn; rewrite Hm; cbn; (split; [by repeat split|]); repeat split; auto.
Qed.

(** A word for the wires. *)
Lemma poll_data v b : is_word 4 v -> shape [v] [] false b -> connected (net_of b) = true ->
  shape [] [v .| 0x10] false (poll b) /\ timed (poll b) /\ connected (net_of (poll b)) = true
  /\ in_word_r (poll b) = v /\ b_dev (poll b) = wires_to (Z.testbit (in_word_r b) 0) v (b_dev b).
Proof.
  destruct b as [[vo gc cc jw [cn tp tb m pt]] iw ck d]. intros Hv16 (Hi & Ho & Hw & Hm & Ht & Hv) Hcn. cbn in *. subst.
  destruct (nibble_bits v Hv16) as (E1 & E2 & E3 & E4). unfold poll.
  assert (Ej : exists gc', vpi_jp_in (Jp (b2z (tdo d)) gc cc false (Wires true [v] [] m (tdo d)))
    = Jp (b2z (tdo d)) gc' false false (Wires true [] [v .| 0x10] ((v .& 0xf) .| 0x10) (tdo d))).
  { unfold vpi_jp_in. destruct gc; cbn; rewrite E1; cbn; by eexists. }
  destruct Ej as [gc' Ej]. cbn [b_jp]. rewrite Ej. cbn. rewrite E2, E3.
  set (dev := wires_to (Z.testbit iw 0) v d). destruct (Bool.eqb (tdo dev) (tdo d)) eqn:Eq.
  - apply eqb_prop in Eq. cbn. repeat split; try done; [cbn; by rewrite Eq|]. by right.
  - cbn. unfold vpi_jp_out. cbn. repeat split; try done; [cbn; by destruct (tdo dev)|]. by right.
Qed.

(** A question for TDO, and one for the end of the time. *)
Lemma poll_tdo b : shape [0x80] [] false b -> connected (net_of b) = true ->
  shape [] [b2z (tdo (b_dev b))] false (poll b) /\ kept b (poll b).
Proof.
  destruct b as [[vo gc cc jw [cn tp tb m pt]] iw ck d]. intros (Hi & Ho & Hw & Hm & Ht & Hv) Hcn. cbn in *. subst.
  assert (Ej : vpi_jp_in (Jp (b2z (tdo d)) gc cc false (Wires true [0x80] [] m (tdo d)))
    = Jp (b2z (tdo d)) true cc false (Wires true [] [b2z (tdo d)] m (tdo d))) by by destruct gc.
  unfold poll. cbn [b_jp]. rewrite Ej. cbn. rewrite Hm. (split; [by repeat split|]); repeat split; auto.
Qed.

Lemma poll_wait b : shape [0x81] [] false b -> connected (net_of b) = true -> timed b ->
  kept b (poll b) /\
  (shape [] [0xFF] false (poll b)
   \/ shape [] [] true (poll b) /\ count_comp (b_jp (poll b)) = false /\ 0 <= clk_count (poll b) <= TIMEOUT_COUNT).
Proof.
  destruct b as [[vo gc cc jw [cn tp tb m pt]] iw ck d]. intros (Hi & Ho & Hw & Hm & Ht & Hv) Hcn Htm. cbn in *. subst.
  unfold timed in Htm. cbn in Htm.
  assert (Ej : vpi_jp_in (Jp (b2z (tdo d)) gc cc false (Wires true [0x81] [] m (tdo d)))
    = Jp (b2z (tdo d)) true cc (negb cc) (Wires true [] (if cc then [0xFF] else []) m (tdo d))) by by destruct gc, cc.
  unfold poll. cbn [b_jp]. rewrite Ej. cbn. rewrite Hm. split; [repeat split; auto|].
  destruct cc; [left; by repeat split|right]. split; [by repeat split|]. by destruct Htm.
Qed.
End bench.

(** * The bridge and the simulator *)

(** Within any [K] steps both processes run. *)
Class Fair (sched : nat -> event) (K : nat) : Prop :=
  fair e n : exists m, (n <= m < n + K)%nat /\ sched m = e.

(** The simulator, the number of its steps, and how many it takes before each call of the
    bridge. *)
Record net (D : Type) := Net { net_bench : bench (D := D); net_now : nat; net_lag : list nat }.
Arguments Net {D} _ _ _.
Arguments net_bench {D} _.
Arguments net_now {D} _.
Arguments net_lag {D} _.

Section net.
Context {D : Type} `{Device D} (sched : nat -> event).

Definition advance (s : net D) : net D :=
  Net (happens (sched (net_now s)) (net_bench s)) (S (net_now s)) (net_lag s).
Fixpoint steps (n : nat) (s : net D) : net D :=
  match n with O => s | S n => steps n (advance s) end.
Definition pause (s : net D) : net D :=
  let s := steps (hd 0%nat (net_lag s)) s in Net (net_bench s) (net_now s) (tl (net_lag s)).

Definition map_wires (f : wires -> wires) (s : net D) : net D :=
  let b := net_bench s in
  Net (Bench (set_jp_sim (f (net_of b)) (b_jp b)) (in_word_r b) (clk_count b) (b_dev b)) (net_now s) (net_lag s).
Definition enqueue (x : Z) (w : wires) : wires :=
  Wires (connected w) (to_plugin w ++ [x]) (to_bridge w) (memory w) (p_tdo_net w).
Definition dequeue (w : wires) : wires :=
  Wires (connected w) (to_plugin w) (tl (to_bridge w)) (memory w) (p_tdo_net w).
Definition accept (w : wires) : wires :=
  Wires true (to_plugin w) (to_bridge w) (memory w) (p_tdo_net w).

(** recv waits until there is a byte; [patience] bounds the steps of the simulator. *)
Fixpoint wait_byte (patience : nat) : M (net D) received := fun s =>
  match to_bridge (net_of (net_bench s)), patience with
  | b :: _, _ => Ok (Byte b, map_wires dequeue s)
  | [], O => Hang
  | [], S patience => wait_byte patience (advance s)
  end.

Definition net_socket (patience : nat) : VpiSocket (net D) := {|
  vpi_socket s := (3, s);
  vpi_gethostbyname _ s := (true, s);
  vpi_connect port s := (0, map_wires accept s);
  vpi_send b s := (1, map_wires (enqueue b) (pause s));
  vpi_recv s := wait_byte patience (pause s)
|}.

(** ** Waiting *)

Lemma wp_wait_ready patience b rest Q s :
  to_bridge (net_of (net_bench s)) = b :: rest -> Q (Byte b) (map_wires dequeue s) -> wp (wait_byte patience) Q s.
Proof. intros E HQ. exists (Byte b), (map_wires dequeue s). split; [|done]. destruct patience; cbn; by rewrite E. Qed.

Lemma wp_wait_step patience Q s :
  to_bridge (net_of (net_bench s)) = [] -> wp (wait_byte patience) Q (advance s) -> wp (wait_byte (S patience)) Q s.
Proof. intros E (a & s' & Hm & HQ). exists a, s'. split; [|done]. cbn. by rewrite E. Qed.

Lemma wp_wait_more p p' Q s : (p <= p')%nat -> wp (wait_byte p) Q s -> wp (wait_byte p') Q s.
Proof.
  intros Hp (a & s' & Hm & HQ). exists a, s'. split; [|done]. revert p' Hp s Hm.
  induction p as [|p IH]; intros p' Hp s Hm; (destruct p' as [|p']; [try lia; done|]); cbn in *;
    (destruct (to_bridge _); [|done]); [done|]. apply IH; [lia|done].
Qed.

(** Until the process [e] runs, which it does soon; the other one keeps [P]. *)
Lemma wp_wait_event K `{!Fair sched K} e (P : bench -> Prop) patience Q s :
  (forall b, P b -> to_bridge (net_of b) = []) ->
  (forall b e', e' <> e -> P b -> P (happens e' b)) ->
  P (net_bench s) ->
  (forall s', P (net_bench s') -> net_lag s' = net_lag s -> sched (net_now s') = e ->
     wp (wait_byte patience) Q (advance s')) ->
  wp (wait_byte (K + patience)) Q s.
Proof.
  intros Hq Ho Hp Hn. destruct (fair e (net_now s)) as (m & Hm & He).
  remember (m - net_now s)%nat as d eqn:Ed. apply (wp_wait_more (S d + patience)); [lia|].
  clear Fair0. revert s Hp Hn Hm Ed. induction d as [|d IH]; intros s Hp Hn Hm Ed.
  - apply wp_wait_step; [by apply Hq|]. apply Hn; [done|done|]. by replace (net_now s) with m by lia.
  - destruct (decide (sched (net_now s) = e)) as [Hs|Hs].
    + apply (wp_wait_more (S patience)); [lia|]. apply wp_wait_step; [by apply Hq|]. by apply Hn.
    + apply (wp_wait_step (S d + patience)); [by apply Hq|]. apply IH; cbn; [by apply Ho|done|lia|lia].
Qed.
End net.

(** * One byte and its answer *)

Section answers.
Context {D : Type} `{Device D} (sched : nat -> event) (K patience : nat) `{!Fair sched K}.
Context (Hpatience : (23 * K <= patience)%nat).
#[local] Existing Instance net_socket | 10.
Abbreviation send := (vpi_send (VpiSocket := net_socket sched patience)).
Abbreviation recv := (vpi_recv (VpiSocket := net_socket sched patience)).

(** Nothing is under way. *)
Definition calm (o : list Z) (b0 b : bench (D := D)) : Prop := shape [] o false b /\ kept b0 b.
Definition sent (x : Z) (b0 b : bench (D := D)) : Prop := shape [x] [] false b /\ kept b0 b.

Lemma calm_step o b0 b e : calm o b0 b -> calm o b0 (happens e b).
Proof.
  intros [Hs Hk]. destruct e; cbn [happens].
  - destruct (poll_idle _ _ _ Hs) as (Hs' & Hk' & _). split; [done|]. by eapply kept_trans.
  - destruct (clk_step _ _ _ Hs) as [Hs' Hk']. split; [done|]. by eapply kept_trans.
Qed.

Lemma sent_clk x b0 b : sent x b0 b -> sent x b0 (sys_clk b).
Proof. intros [Hs Hk]. destruct (clk_step _ _ _ Hs) as [Hs' Hk']. split; [done|]. by eapply kept_trans. Qed.

(** What every step keeps, a pause keeps. *)
Lemma pause_keeps (P : bench -> Prop) (s : net D) :
  (forall e b, P b -> P (happens e b)) -> P (net_bench s) -> P (net_bench (pause sched s)).
Proof.
  intros Hs. unfold pause. cbn [net_bench]. generalize (hd 0%nat (net_lag s)). intros n. revert s.
  induction n as [|n IH]; intros s Hp; [done|]. cbn [steps]. apply IH. cbn. by apply Hs.
Qed.

Lemma calm_refl b : shape [] [] false b -> calm [] b b.
Proof. intros Hs. split; [done|apply kept_refl]. Qed.

Lemma wp_net_send x b0 (s : net D) : calm [] b0 (net_bench s) ->
  wp (call (send x)) (fun _ s' => sent x b0 (net_bench s')) s.
Proof.
  intros Hc. exists 1, (map_wires (enqueue x) (pause sched s)). split; [reflexivity|].
  assert (Hp : calm [] b0 (net_bench (pause sched s))).
  { apply pause_keeps; [|done]. intros e b. apply calm_step. }
  revert Hp. generalize (pause sched s). intros s1 [(Hi & Ho & Hw & Hm & Ht & Hv) Hk]. split; [|exact Hk].
  repeat split; cbn; try done. by rewrite Hi.
Qed.

(** The byte in the queue of the bridge is taken. *)
Lemma calm_taken x b0 (s : net D) : calm [x] b0 (net_bench s) -> calm [] b0 (net_bench (map_wires dequeue s)).
Proof.
  intros [(Hi & Ho & Hw & Hm & Ht & Hv) Hk]. split; [|exact Hk]. repeat split; cbn; try done. by rewrite Ho.
Qed.

Lemma wp_take n x b0 Q (s : net D) : calm [x] b0 (net_bench s) ->
  (forall s', calm [] b0 (net_bench s') -> Q (Byte x) s') -> wp (wait_byte sched n) Q s.
Proof.
  intros Hc HQ. eapply wp_wait_ready; [apply Hc|]. apply HQ. by eapply calm_taken.
Qed.

(** A phase: a byte is under way until the poll, and its answer after it. *)
Lemma wp_recv_phase x b0 (done : bench -> Prop) Q (s : net D) :
  sent x b0 (net_bench s) ->
  (forall b, sent x b0 b -> done (poll b)) ->
  (forall e b, done b -> done (happens e b)) ->
  (forall s', done (net_bench s') -> wp (wait_byte sched (22 * K)) Q s') ->
  wp recv Q s.
Proof.
  intros Hs Hp Hd Hw. cbn [vpi_recv net_socket].
  assert (Hphase : sent x b0 (net_bench (pause sched s)) \/ done (net_bench (pause sched s))).
  { apply (pause_keeps (fun b => sent x b0 b \/ done b)); [|by left].
    intros [] b [Hb|Hb]; try (right; by apply Hd); cbn [happens]; [right; by apply Hp|left; by apply sent_clk]. }
  apply (wp_wait_more _ (K + 22 * K)); [lia|]. destruct Hphase as [Hb|Hb].
  - eapply (wp_wait_event sched K Poll (sent x b0)); [| |exact Hb|].
    + by intros b [(_ & Ho & _) _].
    + intros b [] Hne Hb'; [done|]. by apply sent_clk.
    + intros s' Hs' _ He. apply Hw. unfold advance. rewrite He. cbn. by apply Hp.
  - apply (wp_wait_more _ (22 * K)); [lia|]. by apply Hw.
Qed.

(** *** The three kinds of byte *)

(** The wires have the levels [v] now, and the time has begun to pass. *)
Definition word_done (v : Z) (b0 b1 : bench (D := D)) : Prop :=
  timed b1 /\ connected (net_of b1) = true /\ in_word_r b1 = v
  /\ b_dev b1 = wires_to (Z.testbit (in_word_r b0) 0) v (b_dev b0).

Lemma wp_recv_data v b0 (s : net D) : is_word 4 v -> connected (net_of b0) = true -> sent v b0 (net_bench s) ->
  wp recv (fun r s' => r = Byte (v .| 0x10) /\ exists b1, word_done v b0 b1 /\ calm [] b1 (net_bench s')) s.
Proof.
  intros Hv Hc Hs. eapply (wp_recv_phase v b0 (fun b => exists b1, word_done v b0 b1 /\ calm [v .| 0x10] b1 b)); [exact Hs|..].
  - intros b [Hsb (Hw & Hd & Hcn & _)]. rewrite Hc in Hcn.
    destruct (poll_data v b Hv Hsb Hcn) as (Hsh & Htm & Hc' & Hw' & Hd'). exists (poll b).
    split; [|split; [done|apply kept_refl]]. rewrite Hw, Hd in Hd'. by repeat split.
  - intros e b (b1 & Hd & Hb). exists b1. split; [done|]. by apply calm_step.
  - intros s' (b1 & Hd & Hb). eapply wp_take; [exact Hb|]. intros s2 H2. split; [done|]. by exists b1.
Qed.

Lemma wp_recv_tdo b0 (s : net D) : connected (net_of b0) = true -> sent 0x80 b0 (net_bench s) ->
  wp recv (fun r s' => r = Byte (b2z (tdo (b_dev b0))) /\ calm [] b0 (net_bench s')) s.
Proof.
  intros Hc Hs. eapply (wp_recv_phase 0x80 b0 (calm [b2z (tdo (b_dev b0))] b0)); [exact Hs|..].
  - intros b [Hsb Hk]. pose proof Hk as (Hw & Hd & Hcn & Ht). rewrite Hc in Hcn.
    destruct (poll_tdo b Hsb Hcn) as [Hsh Hk']. rewrite Hd in Hsh. split; [done|]. by eapply kept_trans.
  - intros e b. apply calm_step.
  - intros s' Hb. by eapply wp_take; [exact Hb|].
Qed.

(** The plugin owes the end of the time. *)
Definition owing (b0 b : bench (D := D)) : Prop :=
  shape [] [] true b /\ kept b0 b /\ count_comp (b_jp b) = false /\ 0 <= clk_count b <= TIMEOUT_COUNT.

Lemma owing_poll b0 b : owing b0 b -> owing b0 (poll b) /\ clk_count (poll b) = clk_count b.
Proof.
  intros (Hs & Hk & Hc & Hr). destruct (poll_idle _ _ _ Hs) as (Hs' & Hk' & Hc' & Hr').
  split; [|done]. split; [done|]. split; [by eapply kept_trans|]. by rewrite Hc', Hr'.
Qed.

Lemma owing_clk b0 b : owing b0 b ->
  if clk_count b =? TIMEOUT_COUNT then calm [0xFF] b0 (sys_clk b)
  else owing b0 (sys_clk b) /\ clk_count (sys_clk b) = clk_count b + 1.
Proof.
  intros (Hs & Hk & Hc & Hr). destruct (clk_wait b Hs Hc Hr) as [Hk' Hq].
  destruct (Z.eqb_spec (clk_count b) TIMEOUT_COUNT) as [E|E].
  - split; [apply Hq|by eapply kept_trans].
  - destruct Hq as (Hs' & Hc' & Hr'). split; [|done]. split; [done|]. split; [by eapply kept_trans|]. split; [done|]. lia.
Qed.

(** It is paid after at most 21 ticks. *)
Lemma wp_owing n b0 Q (s : net D) : (forall s', calm [] b0 (net_bench s') -> Q (Byte 0xFF) s') ->
  owing b0 (net_bench s) -> TIMEOUT_COUNT - clk_count (net_bench s) = Z.of_nat n ->
  wp (wait_byte sched (S n * K)) Q s.
Proof.
  intros HQ. revert s. induction n as [|n IH]; intros s Ho Hn.
  all: eapply (wp_wait_event sched K SysClk
    (fun b => owing b0 b /\ clk_count b = clk_count (net_bench s))); [| |by split|].
  1,4: intros b [(Hs & _) _]; apply Hs.
  1,3: intros b [] Hne [Hb Hc]; [|done]; cbn [happens]; destruct (owing_poll _ _ Hb) as [Hb' Hc']; split; [done|lia].
  all: intros s' [Hb Hc] _ He; pose proof (owing_clk _ _ Hb) as Hq; unfold advance; rewrite He; cbn [happens];
    destruct (Z.eqb_spec (clk_count (net_bench s')) TIMEOUT_COUNT); try lia.
  - eapply wp_take; [exact Hq|]. done.
  - destruct Hq as [Hb' Hc']. apply IH; [exact Hb'|]. cbn [net_bench]. lia.
Qed.

Lemma wp_recv_wait b0 (s : net D) : connected (net_of b0) = true -> timed b0 -> sent 0x81 b0 (net_bench s) ->
  wp recv (fun r s' => r = Byte 0xFF /\ calm [] b0 (net_bench s')) s.
Proof.
  intros Hc Htm Hs. eapply (wp_recv_phase 0x81 b0 (fun b => calm [0xFF] b0 b \/ owing b0 b)); [exact Hs|..].
  - intros b [Hsb Hk]. pose proof Hk as (Hw & Hd & Hcn & Ht). rewrite Hc in Hcn.
    destruct (poll_wait b Hsb Hcn (Ht Htm)) as [Hk' Hq].
    assert (Hk2 : kept b0 (poll b)) by (by eapply kept_trans).
    destruct Hq as [Hq|(Hq & Hc' & Hr)]; [by left|right]. exact (conj Hq (conj Hk2 (conj Hc' Hr))).
  - intros [] b [Hb|Hb]; cbn [happens].
    + left. by apply (calm_step _ _ _ Poll).
    + right. by apply owing_poll.
    + left. by apply (calm_step _ _ _ SysClk).
    + pose proof (owing_clk _ _ Hb) as Hq. destruct (_ =? _); [by left|right; apply Hq].
  - intros s' [Hb|Hb]; [by eapply wp_take; [exact Hb|]|].
    destruct Hb as (Hs1 & Hk1 & Hc1 & Hr1). apply (wp_wait_more _ (S (Z.to_nat (TIMEOUT_COUNT - clk_count (net_bench s'))) * K)).
    { apply Nat.mul_le_mono_r. unfold TIMEOUT_COUNT in *. lia. }
    eapply (wp_owing _ b0); [done|exact (conj Hs1 (conj Hk1 (conj Hc1 Hr1)))|lia].
Qed.
End answers.

(** * Commands on the states of an invariant *)

Section restrict.
Context {S : Type} (I : S -> Prop).

Record within := Within { state_of : S; state_ok : I state_of }.

Definition restrict {A} (m : M S A) (keeps : forall s a s', I s -> m s = Ok (a, s') -> I s') : M within A := fun q =>
  match m (state_of q) as r return m (state_of q) = r -> outcome (A * within) with
  | Ok (a, s') => fun E => Ok (a, Within s' (keeps _ a s' (state_ok q) E))
  | Hang => fun _ => Hang | AssertFail => fun _ => AssertFail | Undef => fun _ => Undef
  end eq_refl.

(** [m] on the states themselves does what [m'] does. *)
Definition follows {A} (m' : M within A) (m : M S A) : Prop := forall q,
  m (state_of q) = match m' q with
                   | Ok (a, q') => Ok (a, state_of q')
                   | Hang => Hang | AssertFail => AssertFail | Undef => Undef
                   end.

Lemma restrict_cases {A} (m : M S A) keeps q :
  match restrict m keeps q with
  | Ok (a, q') => m (state_of q) = Ok (a, state_of q')
  | Hang => m (state_of q) = Hang | AssertFail => m (state_of q) = AssertFail | Undef => m (state_of q) = Undef
  end.
Proof.
  unfold restrict. generalize (eq_refl (m (state_of q))).
  generalize (m (state_of q)) at 2 3 as r. by intros [[a s']| | |] E.
Qed.

Lemma restrict_follows {A} (m : M S A) keeps : follows (restrict m keeps) m.
Proof. intros q. pose proof (restrict_cases m keeps q) as E. by destruct (restrict m keeps q) as [[a q']| | |]. Qed.

Lemma follows_ret {A} (a : A) : follows (mret a) (mret a).
Proof. done. Qed.

Lemma follows_lift {A} (m : outcome A) : follows (lift m) (lift m).
Proof. intros q. by destruct m. Qed.

Lemma follows_bind {A B} m' m (f' : A -> M within B) f :
  follows m' m -> (forall a, follows (f' a) (f a)) -> follows (m' ≫= f') (m ≫= f).
Proof.
  intros Hm Hf q. unfold mbind, M_bind. rewrite (Hm q). destruct (m' q) as [[a q']| | |]; [|done..]. apply Hf.
Qed.

Lemma follows_mfor {A} n lo (body' : Z -> A -> M within A) body a :
  (forall i a, follows (body' i a) (body i a)) -> follows (mfor n lo body' a) (mfor n lo body a).
Proof. intros Hb. revert lo a. induction n as [|n IH]; intros lo a; [done|]. cbn. by apply follows_bind. Qed.

Lemma follows_wp {A} (m' : M within A) m Q q :
  follows m' m -> wp m' (fun a q' => Q a (state_of q')) q -> wp m Q (state_of q).
Proof. intros Ht (a & q' & E & HQ). exists a, (state_of q'). split; [|done]. by rewrite (Ht q), E. Qed.

Lemma wp_follows {A} (m' : M within A) m Q q :
  follows m' m -> wp m Q (state_of q) -> wp m' (fun a q' => Q a (state_of q')) q.
Proof.
  intros Ht (a & s' & E & HQ). rewrite (Ht q) in E. destruct (m' q) as [[a' q']| | |] eqn:E'; [|done..].
  injection E as -> <-. by exists a, q'.
Qed.

(** The common functions over drivers that do the same for packets. *)
Context `{Target} (c' : jtag_cable_t within) (c : jtag_cable_t S).
Context (out_follows : forall v, is_word 4 v -> follows (out_func c' v) (out_func c v))
  (inout_follows : forall v, is_word 4 v -> follows (inout_func c' v) (inout_func c v)).

Lemma write_bit_follows p : follows (cable_common_write_bit c' p) (cable_common_write_bit c p).
Proof.
  destruct (packet_data_range p) as [Hl Hh]. unfold cable_common_write_bit.
  apply follows_bind; [by apply out_follows|]. intros e1. apply follows_bind; [by apply out_follows|]. done.
Qed.

Lemma read_write_bit_follows p : follows (cable_common_read_write_bit c' p) (cable_common_read_write_bit c p).
Proof.
  destruct (packet_data_range p) as [Hl Hh]. unfold cable_common_read_write_bit.
  apply follows_bind; [by apply out_follows|]. intros e1. apply follows_bind; [by apply inout_follows|]. by intros [e2 b].
Qed.

Ltac track := repeat first
  [ done | apply follows_lift | apply follows_ret
  | apply follows_bind; [|intros ?] | apply follows_mfor; intros ? ?
  | match goal with |- follows (let '(_, _) := ?x in _) _ => destruct x end
  | match goal with |- follows (if ?b then _ else _) _ => destruct b end ].

Context (bit_out_follows : forall p, follows (bit_out_func c' p) (bit_out_func c p))
  (bit_inout_follows : forall p, follows (bit_inout_func c' p) (bit_inout_func c p)).

Lemma write_stream_follows words len last :
  follows (cable_common_write_stream c' words len last) (cable_common_write_stream c words len last).
Proof. unfold cable_common_write_stream. cbv zeta. unfold mfor_upto. track; apply bit_out_follows. Qed.

Lemma read_stream_follows words buf len last :
  follows (cable_common_read_stream c' words buf len last) (cable_common_read_stream c words buf len last).
Proof. unfold cable_common_read_stream. cbv zeta. unfold mfor_upto. track; apply bit_inout_follows. Qed.
End restrict.
Arguments Within {S I} _ _.
Arguments state_of {S I} _.
Arguments state_ok {S I} _.

(** * The driver *)

Section driver.
Context `{Target} {D : Type} `{Device D} (sched : nat -> event) (K patience ack_fuel : nat) `{!Fair sched K}.
Context (Hpatience : (23 * K <= patience)%nat).
#[local] Existing Instance net_socket | 10.
Abbreviation sock := (net_socket (D := D) sched patience).
Abbreviation driver := (vpi_cable_driver (H0 := sock) (S ack_fuel)).

Definition net_dev (s : net D) : D := b_dev (net_bench s).
Definition net_tck (s : net D) : bool := Z.testbit (in_word_r (net_bench s)) 0.

(** The bridge is connected and nothing is under way. *)
Definition quiet (s : net D) : Prop :=
  shape [] [] false (net_bench s) /\ connected (net_of (net_bench s)) = true.

Lemma calm_quiet b0 s : calm [] b0 (net_bench s) -> connected (net_of b0) = true -> quiet s.
Proof. intros [Hs (_ & _ & Hc & _)] H1. split; [done|]. by rewrite Hc. Qed.

Lemma wp_vpi_wait b0 (s : net D) : calm [] b0 (net_bench s) -> connected (net_of b0) = true -> timed b0 ->
  wp (cable_vpi_wait (H0 := sock)) (fun _ s' => calm [] b0 (net_bench s')) s.
Proof.
  intros Hc Hcn Ht. unfold cable_vpi_wait. apply wp_bind.
  eapply wp_mono; [by apply (wp_net_send sched patience 0x81 b0)|]. intros ? s1 Hs. apply wp_bind.
  eapply wp_mono; [by apply (wp_recv_wait sched K patience Hpatience b0)|]. intros r s2 [_ Hs2]. by apply wp_ret.
Qed.

Lemma wp_vpi_out v (s : net D) : is_word 4 v -> quiet s ->
  wp (cable_vpi_out (H0 := sock) (S ack_fuel) v) (fun e s' => e = 0 /\ exists b1, word_done v (net_bench s) b1
    /\ calm [] b1 (net_bench s')) s.
Proof.
  intros Hv [Hq Hc]. unfold cable_vpi_out. apply wp_bind.
  eapply wp_mono; [apply (wp_net_send sched patience v (net_bench s)); by apply calm_refl|]. intros ? s1 Hs.
  cbn [wait_ack]. apply wp_bind.
  eapply wp_mono; [by apply (wp_recv_data sched K patience Hpatience v (net_bench s))|].
  intros r s2 (-> & b1 & Hd & Hs2). cbn [read_var]. apply wp_bind. eapply wp_lift; [done|].
  rewrite Z.eqb_refl. cbn [negb]. apply wp_bind. destruct Hd as (Htm & Hcn & Hd).
  eapply wp_mono; [by apply (wp_vpi_wait b1)|]. intros ? s3 Hs3. apply wp_ret. split; [done|]. by exists b1.
Qed.

Lemma wp_vpi_inout v (s : net D) : is_word 4 v -> quiet s ->
  wp (cable_vpi_inout (H0 := sock) (S ack_fuel) v) (fun r s' => r = (0, b2z (tdo (net_dev s)))
    /\ exists b1, word_done v (net_bench s) b1 /\ calm [] b1 (net_bench s')) s.
Proof.
  intros Hv [Hq Hc]. unfold cable_vpi_inout. apply wp_bind.
  eapply wp_mono; [apply (wp_net_send sched patience 0x80 (net_bench s)); by apply calm_refl|]. intros ? s1 Hs. apply wp_bind.
  eapply wp_mono; [by apply (wp_recv_tdo sched K patience Hpatience (net_bench s))|].
  intros r s2 [-> Hs2]. apply wp_bind.
  eapply wp_mono; [apply (wp_vpi_out v s2 Hv); by eapply calm_quiet|]. intros e s3 (_ & b1 & (Htm & Hcn & Hw & Hd) & Hs3).
  apply wp_bind. eapply wp_mono; [by apply (wp_vpi_wait b1)|]. intros ? s4 Hs4. apply wp_ret.
  destruct Hs2 as [_ (Hw2 & Hd2 & _ & _)]. rewrite Hw2, Hd2 in Hd. split; [done|]. exists b1. exact (conj (conj Htm (conj Hcn (conj Hw Hd))) Hs4).
Qed.

(** ** The laws, from quiet states *)

Lemma word_done_laws v s b1 s' : word_done v (net_bench s) b1 -> calm [] b1 (net_bench s') ->
  quiet s' /\ net_tck s' = Z.testbit v 0 /\ net_dev s' = wires_to (net_tck s) v (net_dev s).
Proof.
  intros (Htm & Hcn & Hw & Hd) Hs. split; [by eapply calm_quiet|]. destruct Hs as [_ (Hw' & Hd' & _)].
  unfold net_tck, net_dev. by rewrite Hw', Hd', Hw.
Qed.

(** ** The driver on quiet states *)

Lemma out_keeps v : is_word 4 v -> forall s a s', quiet s -> cable_vpi_out (H0 := sock) (S ack_fuel) v s = Ok (a, s') -> quiet s'.
Proof.
  intros Hv s a s' Hq E. destruct (wp_inv _ _ _ _ _ (wp_vpi_out v s Hv Hq) E) as (_ & b1 & Hd & Hs).
  by destruct (word_done_laws v s b1 s' Hd Hs).
Qed.

Lemma inout_keeps v : is_word 4 v -> forall s a s', quiet s -> cable_vpi_inout (H0 := sock) (S ack_fuel) v s = Ok (a, s') -> quiet s'.
Proof.
  intros Hv s a s' Hq E. destruct (wp_inv _ _ _ _ _ (wp_vpi_inout v s Hv Hq) E) as (_ & b1 & Hd & Hs).
  by destruct (word_done_laws v s b1 s' Hd Hs).
Qed.

Definition quiet_out (v : Z) : M (within quiet) Z :=
  match decide (0 <= v < 2 ^ 4) with
  | left Hv => restrict quiet _ (out_keeps v Hv)
  | right _ => lift Undef
  end.
Definition quiet_inout (v : Z) : M (within quiet) (Z * Z) :=
  match decide (0 <= v < 2 ^ 4) with
  | left Hv => restrict quiet _ (inout_keeps v Hv)
  | right _ => lift Undef
  end.
Definition quiet_driver : jtag_cable_t (within quiet) := bitbang "vpi" quiet_inout quiet_out (mret APP_ERR_NONE) "s:p:".
Definition quiet_dev (q : within quiet) : D := net_dev (state_of q).

Lemma quiet_out_follows v : is_word 4 v -> follows quiet (out_func quiet_driver v) (out_func driver v).
Proof. intros Hv. cbn. unfold quiet_out. destruct (decide _) as [Hd|Hd]; [|done]. apply restrict_follows. Qed.
Lemma quiet_inout_follows v : is_word 4 v -> follows quiet (inout_func quiet_driver v) (inout_func driver v).
Proof. intros Hv. cbn. unfold quiet_inout. destruct (decide _) as [Hd|Hd]; [|done]. apply restrict_follows. Qed.

#[export] Instance quiet_wire_laws : WireLaws quiet_driver quiet_dev (fun q => net_tck (state_of q)).
Proof.
  split; intros v q Hv.
  - eapply wp_mono; [eapply (wp_follows quiet); [by apply quiet_out_follows|apply (wp_vpi_out v); [done|apply state_ok]]|].
    intros e q' (_ & b1 & Hd & Hs) _. by apply (word_done_laws v _ b1).
  - eapply wp_mono; [eapply (wp_follows quiet); [by apply quiet_inout_follows|apply (wp_vpi_inout v); [done|apply state_ok]]|].
    intros r q' (-> & b1 & Hd & Hs) _. split; [done|]. by apply (word_done_laws v _ b1).
Qed.

#[export] Instance quiet_bitbang : BitBang quiet_driver.
Proof. apply bitbang_bitbang. Qed.
#[export] Instance vpi_bitbang : BitBang driver.
Proof. apply bitbang_bitbang. Qed.

#[export] Instance quiet_cable_laws `{!Mod32} : CableLaws quiet_driver quiet_dev.
Proof. apply (bitbang_laws _ _ (fun q => net_tck (state_of q))). Qed.

(** No error is reported. *)
#[export] Instance quiet_reliable : Reliable quiet_driver.
Proof.
  apply bitbang_reliable; [apply _|..]; intros v q a q' E; cbn in E;
    [unfold quiet_out in E|unfold quiet_inout in E]; (destruct (decide _) as [Hv|Hv]; [|done]).
  - pose proof (restrict_cases quiet _ (out_keeps v Hv) q) as Hr. rewrite E in Hr.
    by destruct (wp_inv _ _ _ _ _ (wp_vpi_out v (state_of q) Hv (state_ok q)) Hr).
  - pose proof (restrict_cases quiet _ (inout_keeps v Hv) q) as Hr. rewrite E in Hr.
    by destruct (wp_inv _ _ _ _ _ (wp_vpi_inout v (state_of q) Hv (state_ok q)) Hr) as [-> _].
Qed.
End driver.

(** A driver that keeps the promises of a cable, and an invariant, without an error. *)
Record lawful_on {St D} `{Device D} (inv : St -> Prop) (c : jtag_cable_t St) (dev : St -> D) : Prop := {
  on_bit_out p s : inv s ->
    wp (bit_out_func c p) (fun e s' => e = 0 /\ inv s' /\ dev s' = clock (packet_pulse p) (dev s)) s;
  on_bit_inout p s : inv s ->
    wp (bit_inout_func c p) (fun r s' => r = (0, b2z (tdo (dev s))) /\ inv s'
      /\ dev s' = clock (packet_pulse p) (dev s)) s;
  on_stream_out words len last s : inv s -> 0 < len <= 32 * Z.of_nat (length words) ->
    wp (stream_out_func c words len last) (fun e s' => e = 0 /\ inv s'
      /\ dev s' = clocks (shift_pulses (stream_bits words len) (truth last)) (dev s)) s;
  on_stream_inout words buf len last s : inv s ->
    0 < len <= 32 * Z.of_nat (length words) -> len <= 32 * Z.of_nat (length buf) ->
    wp (stream_inout_func c words buf len last) (fun r s' =>
      let ps := shift_pulses (stream_bits words len) (truth last) in
      fst r = 0 /\ inv s' /\ dev s' = clocks ps (dev s)
      /\ snd r = overwrite buf (stream_words (samples ps (dev s)))) s
}.

(** The laws of a driver on the states of an invariant, for the driver itself. *)
Lemma lawful_within {St D} `{Device D} (inv : St -> Prop) (c' : jtag_cable_t (within inv)) (c : jtag_cable_t St) dev :
  CableLaws c' (fun q => dev (state_of q)) -> Reliable c' ->
  (forall p, follows inv (bit_out_func c' p) (bit_out_func c p)) ->
  (forall p, follows inv (bit_inout_func c' p) (bit_inout_func c p)) ->
  (forall w n l, follows inv (stream_out_func c' w n l) (stream_out_func c w n l)) ->
  (forall w b n l, follows inv (stream_inout_func c' w b n l) (stream_inout_func c w b n l)) ->
  lawful_on inv c dev.
Proof.
  intros L R T1 T2 T3 T4.
  split.
  - intros p s Hi. apply (follows_wp inv _ _ _ (Within s Hi) (T1 p)). eapply wp_mono; [apply (wp_post True); [intros _; apply rel_bit_out|apply law_bit_out]|].
    intros e q [He Hp]. specialize (Hp I). split; [done|]. split; [apply state_ok|]. by apply He.
  - intros p s Hi. apply (follows_wp inv _ _ _ (Within s Hi) (T2 p)). eapply wp_mono; [apply (wp_post True); [intros _; apply rel_bit_inout|apply law_bit_inout]|].
    intros [e b] q [He Hp]. specialize (Hp I). cbn [fst snd] in *. destruct (He Hp) as [-> ->]. rewrite Hp.
    split; [done|]. split; [apply state_ok|done].
  - intros words len last s Hi Hl. apply (follows_wp inv _ _ _ (Within s Hi) (T3 words len last)).
    eapply wp_mono; [apply (wp_post True); [intros _; apply rel_stream_out|by apply law_stream_out]|].
    intros e q [He Hp]. specialize (Hp I). split; [done|]. split; [apply state_ok|]. by apply He.
  - intros words buf len last s Hi Hl Hb'. apply (follows_wp inv _ _ _ (Within s Hi) (T4 words buf len last)).
    eapply wp_mono; [apply (wp_post True); [intros _; apply rel_stream_inout|by apply law_stream_inout]|].
    intros [e b] q [(read & Hb & _ & _ & He) Hp]. specialize (Hp I). cbn [fst snd] in *. destruct (He Hp) as [Hd Hr].
    split; [done|]. split; [apply state_ok|]. split; [done|]. by rewrite Hb, Hr.
Qed.

(** C14: The driver in the bridge, the plugin in the simulator and the Verilog around it make
    a lawful cable: after the bridge has connected, every bit and stream it sends is clocked
    into the device once and in order, and what it reads is TDO, whichever way the processes
    of the simulator and the calls of the bridge interleave, as long as both processes run
    again and again, within [K] turns; no call waits for ever.  The bridge runs on a processor
    that takes the counts of 32-bit shifts modulo 32, as x86 does (C leaves the shift by 32
    at the end of a word undefined), and the connection between the two is not closed. *)
Theorem vpi_lawful `{Target, !Mod32} {D} `{Device D} sched K patience ack_fuel (dev : D) now lag :
  Fair sched K -> (23 * K <= patience)%nat ->
  let driver := vpi_cable_driver (H0 := net_socket sched patience) (S ack_fuel) in
  wp (init_func driver) (fun e s => e = 0 /\ quiet s /\ net_dev s = dev) (Net (bench_start dev) now lag)
  /\ lawful_on quiet driver net_dev.
Proof.
  intros Hf Hp. cbv zeta. split.
  - exists 0, (map_wires accept (Net (bench_start dev) now lag)). split; [reflexivity|]. split; [done|].
    split; [|done]. repeat split; cbn. by destruct (tdo dev).
  - apply (lawful_within quiet (quiet_driver sched K patience ack_fuel Hp));
      [apply (quiet_cable_laws sched K patience ack_fuel Hp)|apply quiet_reliable|..].
    1,3: assert (Hb : forall p, follows quiet (bit_out_func (quiet_driver sched K patience ack_fuel Hp) p)
      (bit_out_func (vpi_cable_driver (H0 := net_socket sched patience) (S ack_fuel)) p))
      by (intros p; apply write_bit_follows, quiet_out_follows).
    3,4: assert (Hb : forall p, follows quiet (bit_inout_func (quiet_driver sched K patience ack_fuel Hp) p)
      (bit_inout_func (vpi_cable_driver (H0 := net_socket sched patience) (S ack_fuel)) p))
      by (intros p; apply read_write_bit_follows; [apply quiet_out_follows|apply quiet_inout_follows]).
    + exact Hb.
    + intros w n l. apply write_stream_follows, Hb.
    + exact Hb.
    + intros w b n l. apply read_stream_follows, Hb.
Qed.

(** * A demonstration *)

#[local] Instance vpi_host : Target := x86_64.
(** A device that gives the bits of a list. *)
#[local] Instance tape_device : Device (list bool) := {| clock _ := tl; tdo := hd false |}.
(** The processes take turns. *)
Definition turns (n : nat) : event := if Nat.even n then Poll else SysClk.

Lemma turns_fair : Fair turns 2.
Proof.
  intros e n. unfold turns. destruct (Nat.even n) eqn:E, e;
    [exists n|exists (S n)|exists (S n)|exists n]; (split; [lia|]);
    rewrite ?Nat.even_succ, <- ?Nat.negb_even, ?E; done.
Defined.

Definition vpi_demo : jtag_cable_t (net (list bool)) := vpi_cable_driver (H0 := net_socket turns 46) 1.

(** The bridge connects and reads four bits; the simulator is ahead of it now and then. *)
Lemma vpi_lawful_witness :
  wp (_ ← init_func vpi_demo; stream_inout_func vpi_demo [0] [None] 4 1)
    (fun r s => r = (0, [Some 13]) /\ net_dev s = [])
    (Net (bench_start [true; false; true; true]) 5 [3; 0; 70; 1]%nat).
Proof.
  destruct (vpi_lawful turns 2 46 0 [true; false; true; true] 5 [3; 0; 70; 1]%nat turns_fair (le_n 46)) as [Hi L].
  apply wp_bind. eapply wp_mono; [exact Hi|]. intros e s (_ & Hq & Hd).
  eapply wp_mono; [apply (on_stream_inout _ _ _ L); [exact Hq|by vm_compute..]|].
  intros [r buf] s' (Hr & _ & Hd' & Hb). cbn [fst snd] in *. rewrite Hr, Hb, Hd', Hd. by vm_compute.
Defined.
