(* ===== verification/Chain.v ===== *)
(** chain_commands.c: transactions on a JTAG chain.

    The global variables of the bridge (those of chain_commands.c, and
    [current_reg_idx] and the scratchpads of adv_dbg_commands.c, which
    [tap_reset] resets or the burst commands use) are the record [globals]; a
    command is an [M (bridge St)] over them and the state of the cable.  The
    [wp_*] lemmas at the end say, for a lawful cable, which pulses each command
    sends and which of the variables it changes. *)

From stdpp Require Import strings.
From S2P Require Import Prelude StateM Tap Cable.

Open Scope cword_scope.

(** * Global variables *)

Definition ALTERA_CYCLONE_CMD_VIR : Z := 0x0E.
Definition ALTERA_CYCLONE_CMD_VDR : Z := 0x0C.
Definition ALT_VJTAG_IR_SIZE : Z := 4.
Definition ALT_VJTAG_CMD_DEBUG : Z := 0x8.
Definition NUM_SOFT_RETRIES : Z := 0.
Definition DBG_MAX_MODULES : Z := 4.

(** The configuration data, set from the command line and the BSDL files. *)
Record config := Config {
  global_IR_size : Z; global_IR_prefix_bits : Z; global_IR_postfix_bits : Z;
  global_DR_prefix_bits : Z; global_DR_postfix_bits : Z;
  global_jtag_cmd_debug : Z; global_altera_virtual_jtag : Z;
  vjtag_cmd_vir : Z; vjtag_cmd_vdr : Z; global_xilinx_bscan : Z
}.

(** [ir_chain]: [None] is the null pointer.  Of the scratchpads only the sizes
    are kept: a command never reads what an earlier one left in them. *)
Record globals := Globals {
  cfg : config;
  current_chain : Z; desired_chain : Z; soft_retry_no : Z;
  ir_chain : option buffer;
  current_reg_idx : list Z;
  input_scratchpad_size : Z; output_scratchpad_size : Z
}.

Definition initial_config : config :=
  Config 0 0 0 0 0 0 0 ALTERA_CYCLONE_CMD_VIR ALTERA_CYCLONE_CMD_VDR 0.
Definition initial_globals : globals :=
  Globals initial_config (-1) (-1) 0 None [0; 0; 0; 0] 0 0.

Record bridge (St : Type) := Bridge { drv : St; gl : globals }.
Arguments Bridge {St} _ _.
Arguments drv {St} _.
Arguments gl {St} _.

Definition set_cfg (c : config) (g : globals) : globals :=
  Globals c (current_chain g) (desired_chain g) (soft_retry_no g) (ir_chain g)
    (current_reg_idx g) (input_scratchpad_size g) (output_scratchpad_size g).
Definition set_current_chain (v : Z) (g : globals) : globals :=
  Globals (cfg g) v (desired_chain g) (soft_retry_no g) (ir_chain g)
    (current_reg_idx g) (input_scratchpad_size g) (output_scratchpad_size g).
Definition set_desired_chain (v : Z) (g : globals) : globals :=
  Globals (cfg g) (current_chain g) v (soft_retry_no g) (ir_chain g)
    (current_reg_idx g) (input_scratchpad_size g) (output_scratchpad_size g).
Definition set_soft_retry_no (v : Z) (g : globals) : globals :=
  Globals (cfg g) (current_chain g) (desired_chain g) v (ir_chain g)
    (current_reg_idx g) (input_scratchpad_size g) (output_scratchpad_size g).
Definition set_ir_chain (v : option buffer) (g : globals) : globals :=
  Globals (cfg g) (current_chain g) (desired_chain g) (soft_retry_no g) v
    (current_reg_idx g) (input_scratchpad_size g) (output_scratchpad_size g).
Definition set_current_reg_idx (v : list Z) (g : globals) : globals :=
  Globals (cfg g) (current_chain g) (desired_chain g) (soft_retry_no g) (ir_chain g)
    v (input_scratchpad_size g) (output_scratchpad_size g).
Definition set_scratchpad_sizes (i o : Z) (g : globals) : globals :=
  Globals (cfg g) (current_chain g) (desired_chain g) (soft_retry_no g) (ir_chain g)
    (current_reg_idx g) i o.

(** * Configuration *)

Definition config_set_IR_size (size : Z) (c : config) : config :=
  Config size (global_IR_prefix_bits c) (global_IR_postfix_bits c) (global_DR_prefix_bits c)
    (global_DR_postfix_bits c) (global_jtag_cmd_debug c) (global_altera_virtual_jtag c)
    (vjtag_cmd_vir c) (vjtag_cmd_vdr c) (global_xilinx_bscan c).
Definition config_set_IR_prefix_bits (bits : Z) (c : config) : config :=
  Config (global_IR_size c) bits (global_IR_postfix_bits c) (global_DR_prefix_bits c)
    (global_DR_postfix_bits c) (global_jtag_cmd_debug c) (global_altera_virtual_jtag c)
    (vjtag_cmd_vir c) (vjtag_cmd_vdr c) (global_xilinx_bscan c).
Definition config_set_IR_postfix_bits (bits : Z) (c : config) : config :=
  Config (global_IR_size c) (global_IR_prefix_bits c) bits (global_DR_prefix_bits c)
    (global_DR_postfix_bits c) (global_jtag_cmd_debug c) (global_altera_virtual_jtag c)
    (vjtag_cmd_vir c) (vjtag_cmd_vdr c) (global_xilinx_bscan c).
Definition config_set_DR_prefix_bits (bits : Z) (c : config) : config :=
  Config (global_IR_size c) (global_IR_prefix_bits c) (global_IR_postfix_bits c) bits
    (global_DR_postfix_bits c) (global_jtag_cmd_debug c) (global_altera_virtual_jtag c)
    (vjtag_cmd_vir c) (vjtag_cmd_vdr c) (global_xilinx_bscan c).
Definition config_set_DR_postfix_bits (bits : Z) (c : config) : config :=
  Config (global_IR_size c) (global_IR_prefix_bits c) (global_IR_postfix_bits c)
    (global_DR_prefix_bits c) bits (global_jtag_cmd_debug c) (global_altera_virtual_jtag c)
    (vjtag_cmd_vir c) (vjtag_cmd_vdr c) (global_xilinx_bscan c).
Definition config_set_debug_cmd (cmd : Z) (c : config) : config :=
  Config (global_IR_size c) (global_IR_prefix_bits c) (global_IR_postfix_bits c)
    (global_DR_prefix_bits c) (global_DR_postfix_bits c) cmd (global_altera_virtual_jtag c)
    (vjtag_cmd_vir c) (vjtag_cmd_vdr c) (global_xilinx_bscan c).
Definition config_set_alt_vjtag (enable : Z) (c : config) : config :=
  Config (global_IR_size c) (global_IR_prefix_bits c) (global_IR_postfix_bits c)
    (global_DR_prefix_bits c) (global_DR_postfix_bits c) (global_jtag_cmd_debug c)
    (if truth enable then 1 else 0) (vjtag_cmd_vir c) (vjtag_cmd_vdr c) (global_xilinx_bscan c).
Definition config_set_vjtag_cmd_vir (cmd : Z) (c : config) : config :=
  Config (global_IR_size c) (global_IR_prefix_bits c) (global_IR_postfix_bits c)
    (global_DR_prefix_bits c) (global_DR_postfix_bits c) (global_jtag_cmd_debug c)
    (global_altera_virtual_jtag c) cmd (vjtag_cmd_vdr c) (global_xilinx_bscan c).
Definition config_set_vjtag_cmd_vdr (cmd : Z) (c : config) : config :=
  Config (global_IR_size c) (global_IR_prefix_bits c) (global_IR_postfix_bits c)
    (global_DR_prefix_bits c) (global_DR_postfix_bits c) (global_jtag_cmd_debug c)
    (global_altera_virtual_jtag c) (vjtag_cmd_vir c) cmd (global_xilinx_bscan c).
Definition config_set_xilinx_bscan (enable : Z) (c : config) : config :=
  Config (global_IR_size c) (global_IR_prefix_bits c) (global_IR_postfix_bits c)
    (global_DR_prefix_bits c) (global_DR_postfix_bits c) (global_jtag_cmd_debug c)
    (global_altera_virtual_jtag c) (vjtag_cmd_vir c) (vjtag_cmd_vdr c)
    (if truth enable then 1 else 0).

(** Whether [malloc] or [realloc] of so many bytes returns a block. *)
Class Alloc := malloc_ok : Z -> bool.

(** The words of a buffer as a stream: all of the first [n] must be written. *)
Definition buffer_words (buf : buffer) (n : Z) : outcome (list Z) :=
  read_var (mapM id (take (Z.to_nat n) buf)).

(** [0xFFFFFFFF], the word the instruction registers are filled with. *)
Definition ones32 : Z := 0xFFFFFFFF.

Section chain_commands.
Context `{Target, Alloc} {St : Type} (jtag_cable : jtag_cable_t St).

Definition cable {A} (m : M St A) : M (bridge St) A := fun b =>
  match m (drv b) with
  | Ok (a, s) => Ok (a, Bridge s (gl b))
  | Hang => Hang | AssertFail => AssertFail | Undef => Undef
  end.

Definition get {A} (f : globals -> A) : M (bridge St) A := gets (fun b => f (gl b)).
Definition getc {A} (f : config -> A) : M (bridge St) A := get (fun g => f (cfg g)).
Definition set (f : globals -> globals) : M (bridge St) unit :=
  modify (fun b => Bridge (drv b) (f (gl b))).

(** * Bits and streams *)

Definition jtag_write_bit (packet : Z) : M (bridge St) Z :=
  cable (cable_write_bit jtag_cable packet).

Definition jtag_read_write_bit (packet : Z) : M (bridge St) (Z * Z) :=
  cable (cable_read_write_bit jtag_cable packet).

(** [for (i = 0; i < n; i++) err |= jtag_write_bit(packet);] *)
Definition write_bits (n packet err : Z) : M (bridge St) Z :=
  mfor_upto n (fun _ err => e ← jtag_write_bit packet; mret (err .| e)) err.

Definition jtag_write_stream (out_data : list Z) (length_bits set_TMS : Z) : M (bridge St) Z :=
  prefix ← getc global_DR_prefix_bits;
  if negb (truth set_TMS) then cable (cable_write_stream jtag_cable out_data length_bits 0)
  else if prefix =? 0 then cable (cable_write_stream jtag_cable out_data length_bits 1)
  else
    err ← cable (cable_write_stream jtag_cable out_data length_bits 0);
    err ← write_bits (prefix - 1) 0 err;
    e ← jtag_write_bit TMS;
    mret (err .| e).

Definition jtag_read_write_stream (out_data : list Z) (in_data : buffer)
    (length_bits adjust set_TMS : Z) : M (bridge St) (Z * buffer) :=
  postfix ← getc global_DR_postfix_bits;
  prefix ← getc global_DR_prefix_bits;
  err ← (if truth adjust && (0 <? postfix) then write_bits postfix 0 APP_ERR_NONE
         else mret APP_ERR_NONE);
  if negb (truth set_TMS) then
    '(e, in_data) ← cable (cable_read_write_stream jtag_cable out_data in_data length_bits 0);
    mret (err .| e, in_data)
  else if prefix =? 0 then
    '(e, in_data) ← cable (cable_read_write_stream jtag_cable out_data in_data length_bits 1);
    mret (err .| e, in_data)
  else
    '(e, in_data) ← cable (cable_read_write_stream jtag_cable out_data in_data length_bits 0);
    err ← write_bits (prefix - 1) 0 (err .| e);
    e ← jtag_write_bit TMS;
    mret (err .| e, in_data).

(** * The TAP *)

(** The bits 0 written first, the eight TMS, TRST and the last 0; the two
    waits of 100 ms between them change nothing here. *)
Definition tap_reset : M (bridge St) Z :=
  err ← jtag_write_bit 0;
  err ← write_bits 8 TMS err;
  e ← jtag_write_bit TRST;
  e' ← jtag_write_bit 0;
  set (set_current_chain (-1));;
  set (set_current_reg_idx (replicate (Z.to_nat DBG_MAX_MODULES) (-1)));;
  mret (err .| e .| e').

Definition tap_set_ir (ir : Z) : M (bridge St) Z :=
  size ← getc global_IR_size;
  prefix ← getc global_IR_prefix_bits;
  postfix ← getc global_IR_postfix_bits;
  let chain_size := size + prefix + postfix in
  let chain_size_words := Z.quot chain_size 32 + 1 in
  chain ← get ir_chain;
  if (match chain with None => negb (malloc_ok (chain_size_words * 4)) | Some _ => false end)
  then mret APP_ERR_MALLOC
  else
    let chain := default (replicate (Z.to_nat chain_size_words) None) chain in
    chain ← mfor_upto chain_size_words (fun i c => lift (store_slot c i ones32)) chain;
    let startoffset := Z.quot postfix 32 in
    let startshift := postfix - startoffset * 32 in
    w ← lift (load_slot chain startoffset);
    v ← lift (shl_target ir startshift);
    let w := w .& v in
    v ← lift (shl_target ones32 startshift);
    let w := w .| not32 v in
    v ← lift (shl_target ones32 (startshift + size));
    let w := w .| v in
    chain ← lift (store_slot chain startoffset w);
    chain ← (if 32 <? startshift + size then
               w ← lift (load_slot chain (startoffset + 1));
               v ← lift (shr_target ir (32 - startshift));
               let w := w .& u32 v in
               v ← lift (shl_target ones32 (size - (32 - startshift)));
               lift (store_slot chain (startoffset + 1) (w .| v))
             else mret chain);
    set (set_ir_chain (Some chain));;
    e1 ← jtag_write_bit TMS;
    e2 ← jtag_write_bit TMS;
    e3 ← jtag_write_bit 0;
    e4 ← jtag_write_bit 0;
    words ← lift (buffer_words chain chain_size_words);
    e5 ← cable (cable_write_stream jtag_cable words chain_size 1);
    e6 ← jtag_write_bit TMS;
    e7 ← jtag_write_bit 0;
    set (set_current_chain (-1));;
    mret (e1 .| e2 .| e3 .| e4 .| e5 .| e6 .| e7).

Definition tap_set_shift_dr : M (bridge St) Z :=
  e1 ← jtag_write_bit TMS;
  e2 ← jtag_write_bit 0;
  e3 ← jtag_write_bit 0;
  mret (e1 .| e2 .| e3).

Definition tap_exit_to_idle : M (bridge St) Z :=
  e1 ← jtag_write_bit TMS;
  e2 ← jtag_write_bit 0;
  mret (e1 .| e2).

Definition tap_enable_debug_module : M (bridge St) Z :=
  vjtag ← getc global_altera_virtual_jtag;
  if truth vjtag then
    vir ← getc vjtag_cmd_vir;
    e1 ← tap_set_ir (i32 vir);
    e2 ← jtag_write_bit TMS;
    e3 ← jtag_write_bit 0;
    e4 ← jtag_write_bit 0;
    let data := (1 << ALT_VJTAG_IR_SIZE) .| ALT_VJTAG_CMD_DEBUG in
    e5 ← jtag_write_stream [data] (ALT_VJTAG_IR_SIZE + 1) 1;
    e6 ← jtag_write_bit TMS;
    e7 ← jtag_write_bit 0;
    vdr ← getc vjtag_cmd_vdr;
    e8 ← tap_set_ir (i32 vdr);
    mret (e1 .| e2 .| e3 .| e4 .| e5 .| e6 .| e7 .| e8)
  else
    cmd ← getc global_jtag_cmd_debug;
    tap_set_ir (i32 cmd).

(** * The devices of the chain *)

Definition ALLOC_SIZE : Z := 64.
Definition MAX_DEVICES : Z := 1024.
Definition done_code : Z := 0x3f.

(** [idcodes[devindex] = id;] after the array, which has room for
    [ALLOC_SIZE << reallocs] codes, is made twice as large where that is not
    enough; [size] is the [sizeof] the call of [realloc] uses.  [None]: there
    is no memory. *)
Definition store_idcode (size : Z) (idcodes : buffer) (reallocs devindex id : Z)
    : outcome (option (buffer * Z)) :=
  if ALLOC_SIZE << reallocs <=? devindex then
    let bytes := (ALLOC_SIZE << (reallocs + 1)) * size in
    if malloc_ok bytes then
      let idcodes := idcodes ++ replicate (Z.to_nat (bytes / 4) - length idcodes) None in
      idcodes ← store_slot idcodes devindex id;
      Ok (Some (idcodes, reallocs + 1))
    else Ok None
  else
    idcodes ← store_slot idcodes devindex id;
    Ok (Some (idcodes, reallocs)).

(** What the loop leaves by: [return err], or the end with the codes found. *)
Inductive probe :=
| ProbeReturn (err : Z)
| ProbeDone (err : Z) (idcodes : buffer) (devindex : Z).

(** [while(devindex < MAX_DEVICES) { ... }]; [fuel] counts iterations. *)
Fixpoint enumerate_loop (fuel : nat) (invalid_code devindex reallocs err : Z) (idcodes : buffer)
    : M (bridge St) probe :=
  match fuel with
  | O => lift Hang
  | S fuel =>
      if devindex <? MAX_DEVICES then
        '(e, start_bit) ← jtag_read_write_bit (invalid_code .& 0x01);
        let err := err .| e in
        let invalid_code := Z.shiftr invalid_code 1 in
        if start_bit =? 0 then
          r ← lift (store_idcode 4 idcodes reallocs devindex (u32 (-1)));
          match r with
          | None => mret (ProbeReturn APP_ERR_MALLOC)
          | Some (idcodes, reallocs) =>
              if truth err then mret (ProbeReturn err)
              else enumerate_loop fuel invalid_code (devindex + 1) reallocs err idcodes
          end
        else
          '(e, manuf) ← jtag_read_write_stream [invalid_code] [None] 11 0 0;
          let err := err .| e in
          let invalid_code := Z.shiftr invalid_code 11 in
          temp_manuf_code ← lift (load_slot manuf 0);
          if temp_manuf_code =? done_code then mret (ProbeDone err idcodes devindex)
          else
            '(e, rest) ← jtag_read_write_stream [invalid_code] [None] 20 0 0;
            let err := err .| e in
            let invalid_code := Z.shiftr invalid_code 20 in
            temp_rest_code ← lift (load_slot rest 0);
            let tempID := (temp_rest_code << 12) .| (temp_manuf_code << 1) .| 0x01 in
            r ← lift (store_idcode long_size idcodes reallocs devindex tempID);
            match r with
            | None => mret (ProbeReturn APP_ERR_MALLOC)
            | Some (idcodes, reallocs) =>
                if truth err then mret (ProbeReturn err)
                else enumerate_loop fuel invalid_code (devindex + 1) reallocs err idcodes
            end
      else mret (ProbeDone err idcodes devindex)
  end.

(** The error code, and the array and the number of devices where they are
    given to the caller. *)
Definition jtag_enumerate_chain : M (bridge St) (Z * option (buffer * Z)) :=
  if negb (malloc_ok (ALLOC_SIZE * 4)) then mret (APP_ERR_MALLOC, None)
  else
    e1 ← jtag_write_bit TMS;
    e2 ← jtag_write_bit 0;
    e3 ← jtag_write_bit 0;
    r ← enumerate_loop (Z.to_nat (MAX_DEVICES + 1)) 0x7f 0 0 (e1 .| e2 .| e3)
          (replicate (Z.to_nat ALLOC_SIZE) None);
    match r with
    | ProbeReturn err => mret (err, None)
    | ProbeDone err idcodes devindex =>
        e1 ← jtag_write_bit TMS;
        e2 ← jtag_write_bit TMS;
        e3 ← jtag_write_bit 0;
        mret (err .| e1 .| e2 .| e3, Some (idcodes, devindex))
    end.

Definition jtag_get_idcode (cmd : Z) (idcode : buffer) : M (bridge St) (Z * buffer) :=
  saveconfig ← getc global_altera_virtual_jtag;
  set (fun g => set_cfg (config_set_alt_vjtag 0 (cfg g)) g);;
  e1 ← tap_set_ir (i32 cmd);
  e2 ← tap_set_shift_dr;
  '(e3, idcode) ← jtag_read_write_stream [0] idcode 32 1 1;
  e4 ← jtag_write_bit TMS;
  e5 ← jtag_write_bit 0;
  set (fun g => set_cfg (config_set_alt_vjtag saveconfig (cfg g)) g);;
  mret (e1 .| e2 .| e3 .| e4 .| e5, idcode).

(** * Retries *)

Definition retry_do : M (bridge St) Z :=
  n ← get soft_retry_no;
  if NUM_SOFT_RETRIES <=? n then mret 0
  else
    err ← tap_reset;
    if truth err then mret 0
    else
      err ← tap_enable_debug_module;
      if truth err then mret 0
      else
        set (set_soft_retry_no (n + 1));;
        mret 1.

Definition retry_ok : M (bridge St) unit := set (set_soft_retry_no 0).
End chain_commands.

(** * What the commands send

    For any lawful cable, to any device. *)

Lemma samples_shift_last {D} `{Device D} bits last d :
  samples (shift_pulses bits last) d = samples (shift_pulses bits false) d.
Proof.
  destruct bits as [|b bits _] using rev_ind; [done|]. by rewrite !shift_pulses_snoc, !samples_app.
Qed.

Lemma shift_pulses_pad bits n :
  (0 < n)%nat ->
  shift_pulses (bits ++ replicate n false) true
  = shift_pulses bits false ++ replicate (n - 1) (Pulse false false false) ++ [Pulse true false false].
Proof.
  intros Hn. destruct n as [|n]; [lia|]. rewrite Nat.sub_succ, Nat.sub_0_r.
  rewrite replicate_S_end, app_assoc, shift_pulses_snoc, app_assoc. f_equal.
  rewrite !shift_pulses_false, map_app. f_equal. clear Hn. induction n; simpl; congruence.
Qed.

(** [wp_step]: as [wp_pure], with the accesses to the global variables. *)
Ltac wp_step :=
  cbv beta;
  lazymatch goal with
  | |- wp (getc _) _ _ => apply wp_gets
  | |- wp (get _) _ _ => apply wp_gets
  | |- wp (set _) _ _ => apply wp_modify
  | |- wp retry_ok _ _ => apply wp_modify
  | |- _ => wp_pure
  end.

(** The zeros that move data past the other devices' bypass registers. *)
Definition dr_pad (c : config) : list bool := replicate (Z.to_nat (global_DR_prefix_bits c)) false.
Definition dr_burn (c : config) : list pulse :=
  replicate (Z.to_nat (global_DR_postfix_bits c)) (Pulse false false false).

(** The combined instruction register of the chain: [ir] in the target, ones,
    the BYPASS instruction, in the devices on both sides. *)
Definition ir_bits (c : config) (ir : Z) : list bool :=
  replicate (Z.to_nat (global_IR_postfix_bits c)) true
  ++ map (Z.testbit ir) (seqZ 0 (global_IR_size c))
  ++ replicate (Z.to_nat (global_IR_prefix_bits c)) true.

Definition ir_words (c : config) : Z :=
  (global_IR_size c + global_IR_prefix_bits c + global_IR_postfix_bits c) / 32 + 1.

(** A configuration whose target instruction register lies in one word of the
    stream, short of its last bit. *)
Definition config_wf (c : config) : Prop :=
  0 < global_IR_size c /\ 0 <= global_IR_prefix_bits c /\ 0 <= global_IR_postfix_bits c
  /\ global_IR_postfix_bits c mod 32 + global_IR_size c < 32
  /\ 0 <= global_DR_prefix_bits c /\ 0 <= global_DR_postfix_bits c.

Section sends.
Context `{Target, Alloc} {St D : Type} `{Device D}
  (jtag_cable : jtag_cable_t St) (dev : St -> D) `{!CableLaws jtag_cable dev}.

(** If the command reports no error, the device got exactly the pulses [ps]. *)
Definition sent (ps : list pulse) (b b' : bridge St) (e : Z) : Prop :=
  e = 0 -> dev (drv b') = clocks ps (dev (drv b)).

Definition sends (ps : list pulse) (m : M (bridge St) Z) : Prop :=
  forall b, wp m (fun e b' => gl b' = gl b /\ sent ps b b' e) b.

Lemma sent_nil b e : sent [] b b e.
Proof. done. Qed.

Lemma sent_app ps qs b b' b'' e e' :
  sent ps b b' e -> sent qs b' b'' e' -> sent (ps ++ qs) b b'' (e .| e').
Proof. intros Hp Hq [E1 E2]%lor_0. by rewrite clocks_app, <- (Hp E1), (Hq E2). Qed.

Lemma wp_cable {A} (m : M St A) (Q : A -> bridge St -> Prop) b :
  wp m (fun a s => Q a (Bridge s (gl b))) (drv b) -> wp (cable m) Q b.
Proof.
  intros (a & s & Hm & HQ). exists a, (Bridge s (gl b)). split; [|done].
  unfold cable. by rewrite Hm.
Qed.

Lemma sends_bit p : sends [packet_pulse p] (jtag_write_bit jtag_cable p).
Proof.
  intros b. apply wp_cable. unfold cable_write_bit. eapply wp_mono; [apply law_bit_out|].
  by intros e s He.
Qed.

Lemma wp_read_bit p b :
  wp (jtag_read_write_bit jtag_cable p) (fun r b' => gl b' = gl b
    /\ (fst r = 0 -> snd r = b2z (tdo (dev (drv b)))) /\ sent [packet_pulse p] b b' (fst r)) b.
Proof.
  apply wp_cable. unfold cable_read_write_bit. eapply wp_mono; [apply law_bit_inout|].
  intros r s Hr. split; [done|]. split; intros E; by destruct (Hr E).
Qed.

Lemma wp_write_bits n p err b : 0 <= n ->
  wp (write_bits jtag_cable n p err) (fun e b' => gl b' = gl b
    /\ (e = 0 -> err = 0) /\ sent (replicate (Z.to_nat n) (packet_pulse p)) b b' e) b.
Proof.
  intros Hn. unfold write_bits.
  eapply wp_mono; [apply (wp_mfor_upto (fun i e b' => gl b' = gl b
    /\ (e = 0 -> err = 0) /\ sent (replicate (Z.to_nat i) (packet_pulse p)) b b' e)); [done| |]|].
  - by split; [|split].
  - intros i e b1 Hi (Hg & He & Hs). wp_step. wp_use sends_bit as e' b2 [Hg' Hs']. wp_step.
    split; [congruence|]. split; [by intros [? _]%lor_0; auto|].
    replace (Z.to_nat (i + 1)) with (S (Z.to_nat i)) by lia. rewrite replicate_S_end.
    by eapply sent_app.
  - done.
Qed.

Lemma sends_write_stream words len tms b :
  0 < len <= 32 * Z.of_nat (length words) -> 0 <= global_DR_prefix_bits (cfg (gl b)) ->
  wp (jtag_write_stream jtag_cable words len tms) (fun e b' => gl b' = gl b
    /\ sent (shift_pulses (stream_bits words len ++ (if truth tms then dr_pad (cfg (gl b)) else []))
               (truth tms)) b b' e) b.
Proof.
  intros Hl Hp. unfold jtag_write_stream. wp_step. wp_step. unfold dr_pad.
  set (prefix := global_DR_prefix_bits _) in *.
  destruct (truth tms); cbn [negb]; [destruct (Z.eqb_spec prefix 0) as [->|Hne]|].
  - apply wp_cable. eapply wp_mono; [by apply law_stream_out|]. intros e s He.
    split; [done|]. by rewrite app_nil_r.
  - wp_step. apply wp_cable. eapply wp_mono; [by apply law_stream_out|]. intros e s He. wp_step.
    eapply wp_mono; [apply wp_write_bits; lia|]. intros e' b2 (Hg2 & He2 & Hs2). wp_step.
    wp_use sends_bit as e3 b3 [Hg3 Hs3]. wp_step. split; [by rewrite Hg3, Hg2|].
    rewrite shift_pulses_pad by lia. intros [E1 E2]%lor_0.
    rewrite clocks_app, clocks_app, (Hs3 E2), (Hs2 E1). simpl drv. rewrite (He (He2 E1)).
    by replace (Z.to_nat prefix - 1)%nat with (Z.to_nat (prefix - 1)) by lia.
  - apply wp_cable. eapply wp_mono; [by apply law_stream_out|]. intros e s He.
    split; [done|]. by rewrite app_nil_r.
Qed.

(** A read: the words put into the buffer, and what they are when there is no
    error. *)
Definition reads (burn out_ : list pulse) (bits : list bool) (len : Z) (buf : buffer)
    (b : bridge St) (r : Z * buffer) (b' : bridge St) : Prop :=
  gl b' = gl b /\ sent (burn ++ out_) b b' (fst r)
  /\ exists read, snd r = overwrite buf read /\ Z.of_nat (length read) = (len - 1) / 32 + 1
     /\ Forall is_u32 read
     /\ (fst r = 0 -> read = stream_words
           (samples (shift_pulses bits false) (clocks burn (dev (drv b))))).

Lemma reads_stream words buf len adjust tms b :
  0 < len <= 32 * Z.of_nat (length words) -> len <= 32 * Z.of_nat (length buf) ->
  0 <= global_DR_prefix_bits (cfg (gl b)) -> 0 <= global_DR_postfix_bits (cfg (gl b)) ->
  wp (jtag_read_write_stream jtag_cable words buf len adjust tms)
    (reads (if truth adjust then dr_burn (cfg (gl b)) else [])
       (shift_pulses (stream_bits words len ++ (if truth tms then dr_pad (cfg (gl b)) else []))
          (truth tms))
       (stream_bits words len) len buf b) b.
Proof.
  intros Hl Hb Hp Hq. unfold jtag_read_write_stream. do 4 wp_step.
  unfold dr_pad, dr_burn. set (prefix := global_DR_prefix_bits _) in *.
  set (postfix := global_DR_postfix_bits _) in *.
  wp_step. apply wp_mono with (fun e b1 => gl b1 = gl b /\ sent (if truth adjust then
    replicate (Z.to_nat postfix) (Pulse false false false) else []) b b1 e).
  { destruct (truth adjust); cbn [andb]; [|by apply wp_ret].
    destruct (Z.ltb_spec 0 postfix).
    - eapply wp_mono; [by apply wp_write_bits|]. by intros e b1 (Hg & _ & Hs).
    - replace (Z.to_nat postfix) with 0%nat by lia. by apply wp_ret. }
  intros e b1 [Hg1 Hs1]. set (burn := if truth adjust then _ else _) in *.
  destruct (truth tms); cbn [negb]; [destruct (Z.eqb_spec prefix 0) as [->|Hne]|].
  1, 3: wp_step; apply wp_cable; (eapply wp_mono; [by apply law_stream_inout|]);
    intros [e2 buf'] s (read & Hbuf & Hlen & Hu & Hr); wp_step; cbn [fst snd] in *; subst buf';
    (split; [done|]); split; [intros [E1 E2]%lor_0; destruct (Hr E2) as [Hd _];
       rewrite clocks_app, <- (Hs1 E1), app_nil_r; exact Hd|];
    exists read; (split; [done|]); split; [done|]; split; [done|];
    intros [E1 E2]%lor_0; destruct (Hr E2) as [_ ->]; by rewrite samples_shift_last, (Hs1 E1).
  wp_step. apply wp_cable. eapply wp_mono; [by apply law_stream_inout|].
  intros [e2 buf'] s (read & Hbuf & Hlen & Hu & Hr). cbn [fst snd] in *. subst buf'. wp_step.
  eapply wp_mono; [apply wp_write_bits; lia|]. intros e3 b3 (Hg3 & He3 & Hs3). wp_step.
  wp_use sends_bit as e4 b4 [Hg4 Hs4]. wp_step. split; [by rewrite Hg4, Hg3|]. split.
  - intros [E1 E2]%lor_0. destruct (proj1 (lor_0 _ _) (He3 E1)) as [E3 E4].
    destruct (Hr E4) as [Hd _].
    rewrite shift_pulses_pad, clocks_app, <- (Hs1 E3), !clocks_app by lia.
    rewrite (Hs4 E2), (Hs3 E1). simpl drv. rewrite Hd.
    by replace (Z.to_nat prefix - 1)%nat with (Z.to_nat (prefix - 1)) by lia.
  - exists read. split; [done|]. split; [done|]. split; [done|]. cbn [fst].
    intros [E1 E2]%lor_0. destruct (proj1 (lor_0 _ _) (He3 E1)) as [E3 E4].
    destruct (Hr E4) as [_ ->]. by rewrite (Hs1 E3).
Qed.

(** ** The TAP *)

Definition reset_pulses : list pulse :=
  [packet_pulse 0] ++ replicate 8 (packet_pulse TMS) ++ [packet_pulse TRST] ++ [packet_pulse 0].

Definition reset_globals (g : globals) : globals :=
  set_current_reg_idx [-1; -1; -1; -1] (set_current_chain (-1) g).

Lemma wp_tap_reset b :
  wp (tap_reset jtag_cable) (fun e b' => gl b' = reset_globals (gl b) /\ sent reset_pulses b b' e) b.
Proof.
  unfold tap_reset. wp_step. wp_use sends_bit as e1 b1 [Hg1 Hs1]. wp_step.
  eapply wp_mono; [apply wp_write_bits; lia|]. intros e2 b2 (Hg2 & He2 & Hs2).
  wp_step. wp_use sends_bit as e3 b3 [Hg3 Hs3]. wp_step. wp_use sends_bit as e4 b4 [Hg4 Hs4].
  do 5 wp_step. split; [cbn; by rewrite Hg4, Hg3, Hg2, Hg1|].
  intros [[E2 E3]%lor_0 E4]%lor_0. unfold reset_pulses. change (Z.to_nat 8) with 8%nat in Hs2.
  by rewrite !clocks_app, <- (Hs1 (He2 E2)), <- (Hs2 E2), <- (Hs3 E3), <- (Hs4 E4).
Qed.

Lemma sends_tap_set_shift_dr :
  sends (tms_pulses [true; false; false]) (tap_set_shift_dr jtag_cable).
Proof.
  intros b. unfold tap_set_shift_dr. wp_step. wp_use sends_bit as e1 b1 [Hg1 Hs1].
  wp_step. wp_use sends_bit as e2 b2 [Hg2 Hs2]. wp_step. wp_use sends_bit as e3 b3 [Hg3 Hs3].
  wp_step. split; [congruence|].
  apply (sent_app [packet_pulse TMS; packet_pulse 0] [packet_pulse 0] b b2 b3); [|done].
  by apply (sent_app [packet_pulse TMS] [packet_pulse 0] b b1 b2).
Qed.

Lemma sends_tap_exit_to_idle : sends (tms_pulses [true; false]) (tap_exit_to_idle jtag_cable).
Proof.
  intros b. unfold tap_exit_to_idle. wp_step. wp_use sends_bit as e1 b1 [Hg1 Hs1].
  wp_step. wp_use sends_bit as e2 b2 [Hg2 Hs2]. wp_step. split; [congruence|].
  by apply (sent_app [packet_pulse TMS] [packet_pulse 0] b b1 b2).
Qed.

(** ** The instruction register *)

Lemma ir_word_bits ir shift size j :
  0 <= shift -> 0 < size -> shift + size < 32 -> 0 <= j < 32 ->
  Z.testbit (ones32 .& shl32 ir shift .| not32 (shl32 ones32 shift)
             .| shl32 ones32 (shift + size)) j
  = if (shift <=? j) && (j <? shift + size) then Z.testbit ir (j - shift) else true.
Proof.
  intros Hs Hz Hsum Hj. change ones32 with (2 ^ 32 - 1). unfold not32, shl32.
  autorewrite with zbits.
  destruct (Z.ltb_spec j 32); [|lia]. cbn [andb].
  destruct (Z.leb_spec shift j), (Z.ltb_spec j (shift + size)); cbn [andb].
  all: rewrite ?(Z.testbit_neg_r _ (j - shift)), ?(Z.testbit_neg_r _ (j - (shift + size))) by lia.
  all: rewrite ?testbit_mask by lia; zbits_cases; cbn; by rewrite ?orb_false_r, ?orb_true_r.
Qed.

Lemma map_const_seqZ {A} (f : Z -> A) lo n x :
  0 <= n -> (forall i, lo <= i < lo + n -> f i = x) -> map f (seqZ lo n) = replicate (Z.to_nat n) x.
Proof.
  intros Hn Hf. apply list_eq. intros i. destruct (decide (i < Z.to_nat n)%nat) as [Hi|Hi].
  - rewrite lookup_replicate_2 by done. change (map f (seqZ lo n)) with (f <$> seqZ lo n).
    rewrite list_lookup_fmap, lookup_seqZ_lt by lia. simpl. f_equal. apply Hf. lia.
  - rewrite !lookup_ge_None_2; [done| |]; [rewrite length_replicate; lia|].
    rewrite length_map, length_seqZ. lia.
Qed.

Lemma stream_ir_bits c ir w :
  config_wf c ->
  let shift := global_IR_postfix_bits c mod 32 in
  (forall j, 0 <= j < 32 -> Z.testbit w j =
     if (shift <=? j) && (j <? shift + global_IR_size c) then Z.testbit ir (j - shift) else true) ->
  stream_bits (<[Z.to_nat (global_IR_postfix_bits c / 32) := w]>
                 (replicate (Z.to_nat (ir_words c)) ones32))
    (global_IR_size c + global_IR_prefix_bits c + global_IR_postfix_bits c)
  = ir_bits c ir.
Proof.
  destruct c as [size prefix postfix dpre dpost dbg vj vir vdr xil].
  unfold config_wf, ir_words, ir_bits. cbn.
  intros (Hz & Hpre & Hpost & Hfit & _ & _) Hw.
  set (total := size + prefix + postfix).
  pose proof (Z.div_mod postfix 32 ltac:(lia)) as Hdm.
  pose proof (Z.mod_pos_bound postfix 32 ltac:(lia)) as Hm.
  assert (0 <= postfix / 32 <= total / 32).
  { split; [apply Z.div_pos; lia|apply Z.div_le_mono; unfold total; lia]. }
  assert (Hf : forall i, 0 <= i < total ->
    stream_bit (<[Z.to_nat (postfix / 32) := w]> (replicate (Z.to_nat (total / 32 + 1)) ones32)) i
    = if (postfix <=? i) && (i <? postfix + size) then Z.testbit ir (i - postfix) else true).
  { intros i Hi. unfold stream_bit.
    pose proof (Z.div_mod i 32 ltac:(lia)) as Hid. pose proof (Z.mod_pos_bound i 32 ltac:(lia)).
    assert (0 <= i / 32 <= total / 32) by (split; [apply Z.div_pos; lia|apply Z.div_le_mono; lia]).
    destruct (Z.eq_dec (i / 32) (postfix / 32)) as [E|E].
    - erewrite nth_lookup_Some; [|rewrite E; apply list_lookup_insert_eq; rewrite length_replicate; lia].
      rewrite Hw by lia.
      replace (postfix <=? i) with (postfix mod 32 <=? i mod 32)
        by (apply Bool.eq_iff_eq_true; rewrite !Z.leb_le; lia).
      replace (i <? postfix + size) with (i mod 32 <? postfix mod 32 + size)
        by (apply Bool.eq_iff_eq_true; rewrite !Z.ltb_lt; lia).
      by replace (i mod 32 - postfix mod 32) with (i - postfix) by lia.
    - erewrite nth_lookup_Some; [|rewrite list_lookup_insert_ne by lia;
        apply lookup_replicate_2; lia].
      change ones32 with (2 ^ 32 - 1). rewrite testbit_mask by lia.
      destruct (Z.ltb_spec (i mod 32) 32); [|lia].
      destruct (Z.leb_spec postfix i), (Z.ltb_spec i (postfix + size)); try done.
      exfalso. apply E. apply Z.le_antisymm; [|by apply Z.div_le_mono].
      apply Z.lt_succ_r, Z.div_lt_upper_bound; lia. }
  unfold stream_bits. erewrite map_ext_in; [|intros i Hi%list_elem_of_In%elem_of_seqZ; apply Hf; lia].
  unfold total. replace (size + prefix + postfix) with (postfix + (size + prefix)) by lia.
  rewrite !seqZ_app, !map_app by lia. f_equal; [|f_equal].
  - apply map_const_seqZ; [done|]. intros i Hi. by destruct (Z.leb_spec postfix i); [lia|].
  - assert (Hseq : seqZ (0 + postfix) size = map (Z.add postfix) (seqZ 0 size)).
    { symmetry. rewrite Z.add_comm. apply fmap_add_seqZ. }
    rewrite Hseq, map_map. apply map_ext_in. intros i Hi%list_elem_of_In%elem_of_seqZ.
    destruct (Z.leb_spec postfix (postfix + i)); [|lia].
    destruct (Z.ltb_spec (postfix + i) (postfix + size)); [|lia]. simpl. f_equal. lia.
  - apply map_const_seqZ; [done|]. intros i Hi.
    destruct (Z.ltb_spec i (postfix + size)); [lia|]. by rewrite andb_false_r.
Qed.

Lemma load_overwrite buf words k w :
  0 <= k -> words !! Z.to_nat k = Some w -> load_slot (overwrite buf words) k = Ok w.
Proof.
  intros Hk Hw. unfold load_slot, overwrite. destruct (Z.leb_spec 0 k); [|lia].
  rewrite lookup_app_l by (rewrite length_map; by apply lookup_lt_Some in Hw).
  change (map Some words) with (Some <$> words). by rewrite list_lookup_fmap, Hw.
Qed.

Lemma store_overwrite buf words k v :
  0 <= k < Z.of_nat (length words) -> 
  store_slot (overwrite buf words) k v = Ok (overwrite buf (<[Z.to_nat k := v]> words)).
Proof.
  intros Hk. unfold store_slot, overwrite. rewrite length_app, length_map.
  destruct (Z.leb_spec 0 k); [|lia]. destruct (Z.ltb_spec k (Z.of_nat (length words
    + length (drop (length words) buf)))); [|lia]. cbn [andb].
  rewrite insert_app_l by (rewrite length_map; lia). rewrite length_insert. do 2 f_equal.
  change (map Some words) with (Some <$> words). by rewrite <- list_fmap_insert.
Qed.

Lemma buffer_words_overwrite buf words :
  buffer_words (overwrite buf words) (Z.of_nat (length words)) = Ok words.
Proof.
  unfold buffer_words, overwrite.
  rewrite Nat2Z.id, take_app_le, take_ge by (by rewrite length_map).
  replace (mapM id (map Some words)) with (Some words); [done|].
  symmetry. apply mapM_Some. induction words; simpl; constructor; auto.
Qed.

(** [ir_chain] is large enough, or can be allocated. *)
Definition chain_ready (g : globals) : Prop :=
  match ir_chain g with
  | None => malloc_ok (ir_words (cfg g) * 4) = true
  | Some buf => ir_words (cfg g) <= Z.of_nat (length buf)
  end.

Definition ir_set (b b' : bridge St) : Prop := exists chain,
  gl b' = set_current_chain (-1) (set_ir_chain (Some chain) (gl b))
  /\ ir_words (cfg (gl b)) <= Z.of_nat (length chain).

Lemma wp_fill_chain (chain : buffer) n (b : bridge St) :
  0 <= n <= Z.of_nat (length chain) ->
  wp (mfor_upto n (fun i c => lift (store_slot c i ones32)) chain)
    (fun c b' => b' = b /\ c = overwrite chain (replicate (Z.to_nat n) ones32)) b.
Proof.
  intros Hn. apply (wp_mfor_upto (fun i c b' =>
    b' = b /\ c = overwrite chain (replicate (Z.to_nat i) ones32))); [lia|done|].
  intros i c b1 Hi [-> ->]. eapply wp_lift.
  - apply store_next; [rewrite length_replicate; lia|lia].
  - split; [done|]. rewrite <- replicate_S_end. do 2 f_equal. lia.
Qed.

Lemma wp_tap_set_ir ir b :
  config_wf (cfg (gl b)) -> chain_ready (gl b) ->
  wp (tap_set_ir jtag_cable ir)
    (fun e b' => ir_set b b' /\ sent (ir_scan_pulses (ir_bits (cfg (gl b)) ir)) b b' e) b.
Proof.
  intros Hwf Hready. pose proof Hwf as (Hz & Hpre & Hpost & Hfit & _ & _).
  assert (Hwords : 1 <= ir_words (cfg (gl b))).
  { unfold ir_words. assert (0 <= (global_IR_size (cfg (gl b)) + global_IR_prefix_bits (cfg (gl b))
      + global_IR_postfix_bits (cfg (gl b))) / 32) by (apply Z.div_pos; lia). lia. }
  unfold tap_set_ir. do 8 wp_step.
  rewrite !Z.quot_div_nonneg by lia. fold (ir_words (cfg (gl b))).
  set (chain := default _ _).
  assert (Hlen : ir_words (cfg (gl b)) <= Z.of_nat (length chain)).
  { unfold chain. unfold chain_ready in Hready.
    destruct (ir_chain (gl b)); simpl; [done|]. rewrite length_replicate. lia. }
  apply wp_if; intros Hm.
  { unfold chain_ready in Hready. destruct (ir_chain (gl b)); [done|]. by rewrite Hready in Hm. }
  clearbody chain. wp_step. wp_use (wp_fill_chain chain) as c b0 [-> ->]; [lia|].
  set (postfix := global_IR_postfix_bits (cfg (gl b))) in *.
  set (ones := replicate _ ones32).
  assert (Hk : 0 <= postfix / 32 < Z.of_nat (length ones)).
  { unfold ones. rewrite length_replicate, Z2Nat.id by lia. split; [apply Z.div_pos; lia|].
    unfold ir_words. apply Z.lt_succ_r, Z.div_le_mono; lia. }
  replace (postfix - postfix / 32 * 32) with (postfix mod 32) by (rewrite Z.mod_eq; lia).
  pose proof (Z.mod_pos_bound postfix 32 ltac:(lia)) as Hs.
  wp_step. eapply wp_lift.
  { apply load_overwrite; [lia|]. unfold ones in *. rewrite length_replicate in Hk.
    apply lookup_replicate_2. lia. }
  wp_step. eapply wp_lift; [by unfold shl_target; rewrite shift_count_low by lia|].
  wp_step. eapply wp_lift; [by unfold shl_target; rewrite shift_count_low by lia|].
  wp_step. eapply wp_lift; [by unfold shl_target; rewrite shift_count_low by lia|].
  wp_step. eapply wp_lift; [by apply store_overwrite|].
  destruct (Z.ltb_spec 32 (postfix mod 32 + global_IR_size (cfg (gl b)))); [lia|].
  do 5 wp_step.
  wp_use sends_bit as e1 b1 [Hg1 Hs1]. wp_step. wp_use sends_bit as e2 b2 [Hg2 Hs2].
  wp_step. wp_use sends_bit as e3 b3 [Hg3 Hs3]. wp_step. wp_use sends_bit as e4 b4 [Hg4 Hs4].
  set (stream := <[_ := _]> ones). assert (Hsl : length stream = Z.to_nat (ir_words (cfg (gl b)))).
  { unfold stream, ones. by rewrite length_insert, length_replicate. }
  wp_step. eapply wp_lift.
  { rewrite <- (buffer_words_overwrite chain stream). f_equal. lia. }
  wp_step. apply wp_cable. eapply wp_mono; [apply law_stream_out|].
  { rewrite Hsl, Z2Nat.id by lia. unfold ir_words, postfix in *.
    pose proof (Z.mul_succ_div_gt (global_IR_size (cfg (gl b)) + global_IR_prefix_bits (cfg (gl b))
      + global_IR_postfix_bits (cfg (gl b))) 32 ltac:(lia)). lia. }
  intros e5 s5 Hs5. wp_step. wp_use sends_bit as e6 b6 [Hg6 Hs6].
  wp_step. wp_use sends_bit as e7 b7 [Hg7 Hs7]. do 3 wp_step. split.
  - exists (overwrite chain stream). split.
    + cbn [gl drv] in *. by rewrite Hg7, Hg6, Hg4, Hg3, Hg2, Hg1.
    + unfold overwrite. rewrite length_app, length_map, Hsl. lia.
  - intros [[[[[[E1 E2]%lor_0 E3]%lor_0 E4]%lor_0 E5]%lor_0 E6]%lor_0 E7]%lor_0.
    unfold ir_scan_pulses. unfold sent in *. cbn [drv] in *.
    rewrite (Hs7 E7), (Hs6 E6), (Hs5 E5), (Hs4 E4), (Hs3 E3), (Hs2 E2), (Hs1 E1), !clocks_app.
    unfold stream, ones, postfix. rewrite (stream_ir_bits _ ir); [done|done|].
    intros j Hj. unfold postfix in *. apply ir_word_bits; lia.
Qed.

(** ** The debug command in the instruction register *)

Definition vjtag_bits : list bool := [false; false; false; true; true].

(** The pulses that select the debug unit. *)
Definition enable_pulses (c : config) : list pulse :=
  if truth (global_altera_virtual_jtag c) then
    ir_scan_pulses (ir_bits c (i32 (vjtag_cmd_vir c)))
    ++ dr_scan_pulses (vjtag_bits ++ dr_pad c)
    ++ ir_scan_pulses (ir_bits c (i32 (vjtag_cmd_vdr c)))
  else ir_scan_pulses (ir_bits c (i32 (global_jtag_cmd_debug c))).

Lemma ir_set_ready b b' : ir_set b b' -> chain_ready (gl b').
Proof. intros (chain & -> & Hl). done. Qed.

Lemma ir_set_cfg b b' : ir_set b b' -> cfg (gl b') = cfg (gl b).
Proof. by intros (chain & -> & Hl). Qed.

Lemma wp_tap_enable_debug_module b :
  config_wf (cfg (gl b)) -> chain_ready (gl b) ->
  wp (tap_enable_debug_module jtag_cable)
    (fun e b' => ir_set b b' /\ sent (enable_pulses (cfg (gl b))) b b' e) b.
Proof.
  intros Hwf Hready. unfold tap_enable_debug_module, enable_pulses. wp_step. wp_step.
  destruct (truth (global_altera_virtual_jtag (cfg (gl b)))).
  2: { wp_step. wp_step. by apply wp_tap_set_ir. }
  wp_step. wp_step. wp_step. wp_use wp_tap_set_ir as e1 b1 [Hg1 Hs1]; [done|done|].
  pose proof (ir_set_cfg _ _ Hg1) as Hc.
  wp_step. wp_use sends_bit as e2 b2 [Hg2 Hs2]. wp_step. wp_use sends_bit as e3 b3 [Hg3 Hs3].
  wp_step. wp_use sends_bit as e4 b4 [Hg4 Hs4].
  assert (Hgl4 : gl b4 = gl b1) by congruence. pose proof Hwf as (_ & _ & _ & _ & Hdp & _).
  wp_step. wp_use sends_write_stream as e5 b5 [Hg5 Hs5];
    [by vm_compute|by rewrite Hgl4, Hc|].
  wp_step. wp_use sends_bit as e6 b6 [Hg6 Hs6]. wp_step. wp_use sends_bit as e7 b7 [Hg7 Hs7].
  assert (Hgl7 : gl b7 = gl b1) by congruence.
  wp_step. wp_step. wp_step.
  wp_use wp_tap_set_ir as e8 b8 [Hg8 Hs8];
    [by rewrite Hgl7, Hc|rewrite Hgl7; by apply (ir_set_ready b)|].
  wp_step. split.
  - destruct Hg8 as (chain & Hg8 & Hl8), Hg1 as (chain1 & Hg1 & Hl1).
    exists chain. rewrite Hg8, Hgl7, Hg1. split; [done|]. by rewrite Hgl7, Hc in Hl8.
  - intros [[[[[[[E1 E2]%lor_0 E3]%lor_0 E4]%lor_0 E5]%lor_0 E6]%lor_0 E7]%lor_0 E8]%lor_0.
    rewrite Hgl7, Hc in Hs8. rewrite Hgl4, Hc in Hs5. unfold dr_scan_pulses.
    rewrite (Hs8 E8), (Hs7 E7), (Hs6 E6), (Hs5 E5), (Hs4 E4), (Hs3 E3), (Hs2 E2), (Hs1 E1).
    by rewrite !clocks_app.
Qed.

(** ** Retries *)

(** [NUM_SOFT_RETRIES] is 0: there never is a retry. *)
Lemma wp_retry_do b :
  0 <= soft_retry_no (gl b) -> wp (retry_do jtag_cable) (fun r b' => r = 0 /\ b' = b) b.
Proof.
  intros Hn. unfold retry_do, NUM_SOFT_RETRIES. wp_step. wp_step.
  destruct (Z.leb_spec 0 (soft_retry_no (gl b))); [|lia]. by apply wp_ret.
Qed.
End sends.

(** Close a goal about the pulses sent from the facts about each command. *)
Ltac sent_compose :=
  repeat match goal with
    | H : _ .| _ = 0 |- _ => apply lor_0 in H; destruct H
    end;
  repeat match goal with
    | H : sent _ _ _ _ ?e, E : ?e = 0 |- _ => specialize (H E)
    end.
