(* ===== verification/Ft2232.v ===== *)
(** cable_ft2232.c: cables with the FT2232, a chip that is sent commands for its MPSSE.

    Commands are collected in [send_buf] and sent when a number of bytes to come back is
    exceeded or when the buffer is flushed; what comes back is read into [recv_buf] and from
    there when the program asks for it.  libftdi is the class [LibFtdi] of Blaster.v, the
    constants of its header are the class [FtdiH].  The host is little endian.

    A buffer of words is read and written by bytes, and only the bits that came are changed:
    where a word was never written, the others are those of [unspecified]. *)

From stdpp Require Import strings.
From S2P Require Import Prelude StateM Tap Cable Blaster Chain.

Open Scope Z_scope.
Open Scope cword_scope.

(** * cable_ft2232.h and ftdi.h *)

Definition FTDX_MAXSEND : Z := 4096.
Definition FTDX_MAXSEND_MPSSE : Z := 64 * 1024.
Definition FTDI_MAXRECV : Z := 4 * 64.

Class FtdiH := {
  MPSSE_WRITE_NEG : Z; MPSSE_BITMODE : Z; MPSSE_LSB : Z; MPSSE_DO_WRITE : Z; MPSSE_DO_READ : Z; MPSSE_WRITE_TMS : Z;
  SET_BITS_LOW : Z; SET_BITS_HIGH : Z; LOOPBACK_END : Z; TCK_DIVISOR : Z; SEND_IMMEDIATE : Z; BITMODE_MPSSE : Z;
  sizeof_ftdi_context : Z
}.

(** The buffers are null where a [realloc] has failed.  [vid], [pid] and [serial], which
    nothing reads, are left out; [ftdic] is whether it is not null. *)
Record ftdi_param_t := FtdiParam {
  ftdic : bool;
  send_buf_len : Z; send_buffered : Z; send_buf : option (list Z);
  recv_buf_len : Z; to_recv : Z; recv_write_idx : Z; recv_read_idx : Z; recv_buf : option (list Z)
}.

(** usbconn_ft2232_mpsse_CableID2: VID and PID. *)
Definition CableID2 : Z * Z := (0x0403, 0x6010).

(** [ft2232_device]: null, or what its params are. *)
Record ft2232_t (U : Type) := Ft2232 { ft2232_device : option ftdi_param_t; libftdi : U }.
Arguments Ft2232 {U} _ _.
Arguments ft2232_device {U} _.
Arguments libftdi {U} _.

(** * Bytes *)

(** [memcpy] from and to arrays of bytes. *)
Definition load_bytes (buf : option (list Z)) (from n : Z) : outcome (list Z) :=
  match buf with
  | Some b => if (0 <=? from) && (0 <=? n) && (from + n <=? Z.of_nat (length b))
              then Ok (take (Z.to_nat n) (drop (Z.to_nat from) b)) else Undef
  | None => Undef
  end.
Definition store_bytes (buf : option (list Z)) (at_ : Z) (data : list Z) : outcome (option (list Z)) :=
  match buf with
  | Some b => if (0 <=? at_) && (at_ + Z.of_nat (length data) <=? Z.of_nat (length b))
              then Ok (Some (take (Z.to_nat at_) b ++ data ++ drop (Z.to_nat at_ + length data) b)) else Undef
  | None => Undef
  end.

(** What [malloc] and [realloc] give. *)
Definition malloced `{Unspecified} (n : Z) : list Z := replicate (Z.to_nat n) (u8 unspecified).
Definition realloc `{Alloc, Unspecified} (buf : option (list Z)) (len : Z) : option (list Z) :=
  match buf with
  | Some b => if malloc_ok len then Some (b ++ malloced (len - Z.of_nat (length b))) else None
  | None => None
  end.

(** Bytes of a buffer of words. *)
Definition slot_word `{Unspecified} (buf : buffer) (k : Z) : Z :=
  u32 (default unspecified (mjoin (buf !! Z.to_nat k))).
Definition load_byte `{Unspecified} (buf : buffer) (k : Z) : outcome Z :=
  if (0 <=? k) && (k <? 4 * Z.of_nat (length buf))
  then Ok ((slot_word buf (k >> 2) >> (8 * (k .& 3))) .& 0xff) else Undef.
Definition store_byte `{Unspecified} (buf : buffer) (k v : Z) : outcome buffer :=
  let sh := 8 * (k .& 3) in
  if 0 <=? k
  then store_slot buf (k >> 2) ((slot_word buf (k >> 2) .& u32 (Z.lnot (Z.shiftl 0xff sh))) .| Z.shiftl v sh)
  else Undef.

Section cable_ft2232.
Context `{Target, Alloc, Unspecified, FtdiH} {U : Type} `{LibFtdi U} (wait_fuel : nat).
Abbreviation St := (ft2232_t U).

(** * libftdi *)

Definition my_ftdi (c : ftdi_call) : M St Z := fun s =>
  let '(r, u) := ftdi c (libftdi s) in Ok (r, Ft2232 (ft2232_device s) u).
Definition my_ftdi_write_data (buf : list Z) : M St Z := fun s =>
  let '(r, u) := ftdi_write_data buf (libftdi s) in Ok (r, Ft2232 (ft2232_device s) u).
Definition my_ftdi_read_data (size : Z) : M St (option (list Z)) := fun s =>
  let '(r, u) := ftdi_read_data size (libftdi s) in Ok (r, Ft2232 (ft2232_device s) u).

Definition my_ftdi_deinit : M St Z := my_ftdi ftdi_deinit.
Definition my_ftdi_usb_open_desc (vendor product : Z) : M St Z := my_ftdi (ftdi_usb_open_desc vendor product).
Definition my_ftdi_usb_purge_buffers : M St Z := my_ftdi ftdi_usb_purge_buffers.
Definition my_ftdi_usb_reset : M St Z := my_ftdi ftdi_usb_reset.
Definition my_ftdi_set_latency_timer (latency : Z) : M St Z := my_ftdi (ftdi_set_latency_timer latency).
Definition my_ftdi_read_data_set_chunksize (n : Z) : M St Z := my_ftdi (ftdi_read_data_set_chunksize n).
Definition my_ftdi_write_data_set_chunksize (n : Z) : M St Z := my_ftdi (ftdi_write_data_set_chunksize n).
Definition my_ftdi_set_bitmode (bitmask mode : Z) : M St Z := my_ftdi (ftdi_set_bitmode bitmask mode).
Definition my_ftdi_usb_close : M St Z := my_ftdi ftdi_usb_close.

(** * The connection *)

(** [conn->params]; [conn] is [ft2232_device]. *)
Definition params : M St ftdi_param_t := fun s =>
  match ft2232_device s with Some p => Ok (p, s) | None => Undef end.
Definition set_params (p : ftdi_param_t) : M St unit := modify (fun s => Ft2232 (Some p) (libftdi s)).

Definition usbconn_ftdi_common_open : M St Z :=
  error ← my_ftdi_usb_open_desc (fst CableID2) (snd CableID2);
  if truth error then _ ← my_ftdi_deinit; mret (-1) else mret 0.

(** The number of bytes a read has given. *)
Definition recvd_of (r : option (list Z)) : Z :=
  match r with Some data => Z.of_nat (length data) | None => -1 end.

Definition seq_purge : M St Z :=
  r ← my_ftdi_usb_purge_buffers;
  if 0 <=? r then r ← my_ftdi_read_data 1; mret (if recvd_of r <? 0 then -1 else 0) else mret (-1).

Definition seq_reset : M St Z :=
  r ← my_ftdi_usb_reset;
  if r <? 0 then mret (-1) else
  r ← seq_purge;
  mret (if r <? 0 then -1 else 0).

(** [while (recvd == 0)]: until something comes; [wait_fuel] bounds how often. *)
Fixpoint wait_data (fuel : nat) (size : Z) : M St (option (list Z)) :=
  match fuel with
  | O => lift Hang
  | S fuel => r ← my_ftdi_read_data size; if recvd_of r =? 0 then wait_data fuel size else mret r
  end.

(** "read all scheduled receive bytes" *)
Definition receive_scheduled : M St bool :=
  p ← params;
  if truth (to_recv p) then
    let need := u32 (recv_write_idx p + to_recv p) in
    let p := if recv_buf_len p <? need then
      FtdiParam (ftdic p) (send_buf_len p) (send_buffered p) (send_buf p) need (to_recv p) (recv_write_idx p)
        (recv_read_idx p) (realloc (recv_buf p) need)
      else p in
    set_params p;;
    match recv_buf p with
    | None => mret false
    | Some _ =>
        r ← wait_data wait_fuel (i32 (to_recv p));
        let data := default [] r in let recvd := recvd_of r in
        recv ← lift (store_bytes (recv_buf p) (recv_write_idx p) data);
        set_params (FtdiParam (ftdic p) (send_buf_len p) (send_buffered p) (send_buf p) (recv_buf_len p)
          (u32 (to_recv p - recvd)) (u32 (recv_write_idx p + recvd)) (recv_read_idx p) recv);;
        mret true
    end
  else mret true.

(** The comparison is one of unsigned numbers: a result of -1 is not "fewer bytes". *)
Definition usbconn_ftdi_flush : M St Z :=
  p ← params;
  if negb (ftdic p) then mret (-1) else
  if send_buffered p =? 0 then mret 0 else
  data ← lift (load_bytes (send_buf p) 0 (send_buffered p));
  xferred ← my_ftdi_write_data data;
  if u32 xferred <? send_buffered p then mret (-1) else
  set_params (FtdiParam (ftdic p) (send_buf_len p) 0 (send_buf p) (recv_buf_len p) (to_recv p) (recv_write_idx p)
    (recv_read_idx p) (recv_buf p));;
  ok ← receive_scheduled;
  if negb ok then mret (-1) else mret (if xferred <? 0 then -1 else xferred).

(** The result is [cpy_len + len], however many bytes have come. *)
Definition usbconn_ftdi_read (len : Z) : M St (Z * list Z) :=
  p ← params;
  if negb (ftdic p) then mret (-1, []) else
  r ← usbconn_ftdi_flush;
  if r <? 0 then mret (-1, []) else
  if len =? 0 then mret (0, []) else
  p ← params;
  let cpy_len := Z.min (i32 (recv_write_idx p - recv_read_idx p)) len in
  let len := len - cpy_len in
  buf ← (if 0 <? cpy_len then
           buf ← lift (load_bytes (recv_buf p) (recv_read_idx p) cpy_len);
           let rd := u32 (recv_read_idx p + cpy_len) in
           let all := rd =? recv_write_idx p in
           set_params (FtdiParam (ftdic p) (send_buf_len p) (send_buffered p) (send_buf p) (recv_buf_len p) (to_recv p)
             (if all then 0 else recv_write_idx p) (if all then 0 else rd) (recv_buf p));;
           mret buf
         else mret []);
  if 0 <? len then
    if cpy_len <? 0 then lift Undef else
    r ← wait_data wait_fuel len;
    let data := default [] r in
    mret (if recvd_of r <? 0 then -1 else cpy_len + len, buf ++ data ++ malloced (len - Z.of_nat (length data)))
  else mret (cpy_len + len, buf).

Definition usbconn_ftdi_write (buf : list Z) (recv : Z) : M St Z :=
  let len := Z.of_nat (length buf) in
  p ← params;
  if negb (ftdic p) then mret (-1) else
  xferred ← (if (FTDI_MAXRECV <? u32 (to_recv p + recv)) || ((FTDX_MAXSEND <? send_buffered p) && (to_recv p =? 0))
             then usbconn_ftdi_flush else mret 0);
  if xferred <? 0 then mret (-1) else
  p ← params;
  let need := u32 (send_buffered p + len) in
  let '(send_len, send) := if send_buf_len p <? need then (need, realloc (send_buf p) need)
                           else (send_buf_len p, send_buf p) in
  set_params (FtdiParam (ftdic p) send_len (send_buffered p) send (recv_buf_len p) (to_recv p) (recv_write_idx p)
    (recv_read_idx p) (recv_buf p));;
  match send with
  | None => mret (-1)
  | Some _ =>
      send ← lift (store_bytes send (send_buffered p) buf);
      set_params (FtdiParam (ftdic p) send_len need send (recv_buf_len p)
        (if 0 <? recv then u32 (to_recv p + recv) else to_recv p) (recv_write_idx p) (recv_read_idx p) (recv_buf p));;
      xferred ← (if recv <? 0 then usbconn_ftdi_flush else mret xferred);
      mret (if xferred <? 0 then -1 else len)
  end.

(** [if (r >= 0) r = ...]. *)
Definition if_ok (m : M St Z) (next : M St Z) : M St Z := r ← m; if 0 <=? r then next else mret r.

Definition usbconn_ftdi_mpsse_open : M St Z :=
  _ ← params;
  r ← usbconn_ftdi_common_open;
  if r <? 0 then mret (-1) else
  r ← if_ok seq_reset (if_ok seq_purge
       (if_ok (my_ftdi_write_data_set_chunksize FTDX_MAXSEND_MPSSE)
       (if_ok (my_ftdi_read_data_set_chunksize FTDX_MAXSEND_MPSSE)
       (if_ok (my_ftdi_set_latency_timer 16) (if_ok (my_ftdi_set_bitmode 0x0b BITMODE_MPSSE)
       (if_ok my_ftdi_usb_reset (if_ok seq_purge
       (if_ok (usbconn_ftdi_write [u8 TCK_DIVISOR; 0x00; 0x00] 0)
       (if_ok (usbconn_ftdi_write [u8 LOOPBACK_END] 0)
       (if_ok ('(r, _) ← usbconn_ftdi_read 0; mret r)
       (if_ok my_ftdi_usb_reset seq_purge)))))))))));
  if r <? 0 then
    _ ← my_ftdi_usb_close; _ ← my_ftdi_deinit;
    p ← params;
    set_params (FtdiParam false (send_buf_len p) (send_buffered p) (send_buf p) (recv_buf_len p) (to_recv p)
      (recv_write_idx p) (recv_read_idx p) (recv_buf p));;
    mret (-1)
  else mret 0.

Definition usbconn_ftdi_close : M St Z :=
  p ← params;
  if ftdic p then
    _ ← my_ftdi_usb_close; _ ← my_ftdi_deinit;
    set_params (FtdiParam false (send_buf_len p) (send_buffered p) (send_buf p) (recv_buf_len p) (to_recv p)
      (recv_write_idx p) (recv_read_idx p) (recv_buf p));;
    mret 0
  else mret 0.

(** What [ft2232_device] points to is no more. *)
Definition usbconn_ftdi_free : M St unit :=
  _ ← params; modify (fun s => Ft2232 None (libftdi s)).

(** When something cannot be allocated, [params->send_buf] is read of params that are null
    or have just been freed. *)
Definition usbconn_ftdi_connect : M St (option ftdi_param_t) :=
  let allocated := forallb malloc_ok
    [3 * long_size; 32 + 4 * long_size; sizeof_ftdi_context; FTDX_MAXSEND; FTDI_MAXRECV] in
  if negb allocated then lift Undef else
  _ ← my_ftdi ftdi_init;
  r ← usbconn_ftdi_common_open;
  if negb (r =? 0) then mret None else
  _ ← my_ftdi_usb_close;
  mret (Some (FtdiParam true FTDX_MAXSEND 0 (Some (malloced FTDX_MAXSEND)) FTDI_MAXRECV 0 0 0 (Some (malloced FTDI_MAXRECV)))).

(** * Commands *)

Definition opcode (op : Z) (postread : bool) : Z := u8 (if postread then u8 op .| MPSSE_DO_READ else op).

Definition bytes_op : Z := MPSSE_DO_WRITE .| MPSSE_LSB .| MPSSE_WRITE_NEG.
Definition bits_op : Z := MPSSE_DO_WRITE .| MPSSE_LSB .| MPSSE_WRITE_NEG .| MPSSE_BITMODE.
Definition tms_op : Z := MPSSE_WRITE_TMS .| MPSSE_LSB .| MPSSE_BITMODE .| MPSSE_WRITE_NEG.

(** "in chunks with a maximun length of 65536 bytes each" *)
Fixpoint write_chunks (fuel : nat) (stream : list Z) (pos len : Z) (postread : bool) (recv : Z) : M St Z :=
  if len <=? 0 then mret recv else
  match fuel with
  | O => lift Hang
  | S fuel =>
      let cur_chunk_len := Z.min len 65536 in
      data ← lift (copy_bytes stream pos cur_chunk_len);
      xferred ← usbconn_ftdi_write
        (opcode bytes_op postread :: u8 (cur_chunk_len - 1) :: u8 ((cur_chunk_len - 1) >> 8) :: data)
        (if postread then cur_chunk_len else 0);
      if negb (xferred =? cur_chunk_len + 3) then mret (-1)
      else write_chunks fuel stream (pos + cur_chunk_len) (len - cur_chunk_len) postread
             (if postread then recv + cur_chunk_len else recv)
  end.

Definition cable_ft2232_write_bytes (stream : list Z) (len : Z) (postread : bool) : M St Z :=
  if len =? 0 then mret 0 else
  if negb (malloc_ok (Z.min len 65536 + 3)) then lift Undef else
  write_chunks (Z.to_nat (Z.quot len 65536 + 1)) stream 0 len postread 0.

(** The bits from the byte [off] of the stream on. *)
Fixpoint write_bit_chunks (fuel : nat) (stream : list Z) (off i len : Z) (postread with_tms : bool) (recv : Z)
    : M St Z :=
  if len <=? 0 then mret recv else
  match fuel with
  | O => lift Hang
  | S fuel =>
      let cur_chunk_len := Z.min len (if with_tms then 1 else 8) in
      b ← lift (stream_byte stream (off + Z.quot i 8));
      xferred ← usbconn_ftdi_write
        [opcode (if with_tms then tms_op else bits_op) postread; u8 (cur_chunk_len - 1);
         if with_tms then u8 (0x01 .| Z.shiftl (b >> Z.rem i 8) 7) else b]
        (if postread then 1 else 0);
      if negb (xferred =? 3) then mret (-1)
      else write_bit_chunks fuel stream off (if with_tms then i + 1 else i + 8) (len - cur_chunk_len) postread
             with_tms (if postread then recv + 1 else recv)
  end.

Definition cable_ft2232_write_bits (stream : list Z) (off len : Z) (postread with_tms : bool) : M St Z :=
  if len =? 0 then mret 0 else
  if negb (malloc_ok 3) then lift Undef else
  write_bit_chunks (Z.to_nat len) stream off 0 len postread with_tms 0.

(** A bit of the packets, which have [bits_per_packet] each, into its place.  The shift to
    the right is by a negative number. *)
Definition store_packed_bit (mybuf : list Z) (bits_per_packet offset i : Z) (buf : buffer) : outcome buffer :=
  let dst_row := Z.quot i 8 in
  let dst_col := Z.rem i 8 in
  let src_row := Z.quot (i - offset) bits_per_packet in
  let src_col := Z.rem (i - offset) bits_per_packet in
  let dst_mask := u8 (Z.lnot (Z.shiftl 1 dst_col)) in
  let src_mask := u8 (Z.shiftl 1 src_col) in
  v ← load_word mybuf src_row;
  old ← load_byte buf dst_row;
  bit ← (if src_col <=? dst_col then Ok (Z.shiftl (v .& src_mask) (dst_col - src_col))
         else shr_target (v .& src_mask) (dst_col - src_col));
  store_byte buf dst_row (u8 ((old .& dst_mask) .| bit)).

(** [memcpy] into a buffer of words. *)
Fixpoint store_row (buf : buffer) (k : Z) (data : list Z) : outcome buffer :=
  match data with
  | [] => Ok buf
  | b :: data => buf ← store_byte buf k b; store_row buf (k + 1) data
  end.

Definition cable_ft2232_read_packed_bits (buf : buffer) (packet_len bits_per_packet offset : Z)
    : M St (Z * buffer) :=
  if (packet_len =? 0) || (bits_per_packet =? 0) then mret (0, buf) else
  if negb (malloc_ok packet_len) then lift Undef else
  '(r, mybuf) ← usbconn_ftdi_read packet_len;
  if r <? 0 then mret (-1, buf) else
  let ret := if r <? 1 then -1 else 0 in
  if bits_per_packet <? 8 then
    let mybuf := map (fun b => b >> (8 - bits_per_packet)) mybuf in
    buf ← lift (foldl (fun buf i => buf ← buf; store_packed_bit mybuf bits_per_packet offset i buf) (Ok buf)
                  (seqZ offset (packet_len * bits_per_packet)));
    mret (ret, buf)
  else if bits_per_packet =? 8 then
    buf ← lift (store_row buf (Z.quot offset 8) (take (Z.to_nat packet_len) mybuf));
    mret (ret, buf)
  else mret (-1, buf).

(** What the parts return is not looked at. *)
Definition cable_ft2232_write_stream (stream : list Z) (len : Z) (postread with_tms : bool) : M St Z :=
  let len_tms_bits := if with_tms then 1 else 0 in
  let len_bytes := Z.quot (len - len_tms_bits) 8 in
  let len_bits := Z.rem (len - len_tms_bits) 8 in
  _ ← (if 0 <? len_bytes then cable_ft2232_write_bytes stream len_bytes postread else mret 0);
  _ ← (if 0 <? len_bits then cable_ft2232_write_bits stream len_bytes len_bits postread false else mret 0);
  _ ← (if 0 <? len_tms_bits then
         b ← lift (stream_byte stream len_bytes);
         cable_ft2232_write_bits [b >> len_bits] 0 1 postread true
       else mret 0);
  mret 0.

Definition cable_ft2232_read_stream (buf : buffer) (len : Z) (with_tms : bool) : M St (Z * buffer) :=
  let len_tms_bits := if with_tms then 1 else 0 in
  let len_bytes := Z.quot (len - len_tms_bits) 8 in
  let len_bits := Z.rem (len - len_tms_bits) 8 in
  '(_, buf) ← (if 0 <? len_bytes then cable_ft2232_read_packed_bits buf len_bytes 8 0 else mret (0, buf));
  '(_, buf) ← (if 0 <? len_bits then cable_ft2232_read_packed_bits buf 1 len_bits (len_bytes * 8) else mret (0, buf));
  '(_, buf) ← (if 0 <? len_tms_bits then cable_ft2232_read_packed_bits buf 1 1 (len_bits + len_bytes * 8)
               else mret (0, buf));
  mret (0, buf).

(** * The driver *)

Definition cable_ftdi_init : M St Z :=
  if negb (malloc_ok 10) then lift Undef else
  conn ← usbconn_ftdi_connect;
  modify (fun s => Ft2232 conn (libftdi s));;
  res ← usbconn_ftdi_mpsse_open;
  let err := if negb (res =? 0) then APP_ERR_NONE .| APP_ERR_USB else APP_ERR_NONE in
  r ← usbconn_ftdi_write
    [u8 SET_BITS_LOW; 0x00; 0x0b; u8 TCK_DIVISOR; 0x01; 0x00; u8 SET_BITS_HIGH; u8 (Z.lnot 0x04); 0x04; u8 SEND_IMMEDIATE] 0;
  let err := if negb (r =? 10) then err .| APP_ERR_USB else err in
  _ ← usbconn_ftdi_flush;
  mret err.

Definition cable_ftdi_close : M St Z :=
  _ ← usbconn_ftdi_close; usbconn_ftdi_free;; mret APP_ERR_NONE.

Definition cable_ftdi_flush : M St Z := _ ← usbconn_ftdi_flush; mret APP_ERR_NONE.

Definition cable_ftdi_write_bit (packet : Z) : M St Z :=
  let buf := if truth (packet .& TDO) then 0x01 else 0x00 in
  let tms := truth (packet .& TMS) in
  r ← cable_ft2232_write_stream [buf] 1 false tms;
  let err := if r <? 0 then APP_ERR_NONE .| APP_ERR_COMM else APP_ERR_NONE in
  _ ← cable_ftdi_flush;
  mret err.

(** The byte that the bit is read into is one that was never written. *)
Definition cable_ftdi_read_write_bit (packet_out : Z) : M St (Z * Z) :=
  let buf := if truth (packet_out .& TDO) then 0x01 else 0x00 in
  let tms := truth (packet_out .& TMS) in
  r ← cable_ft2232_write_stream [buf] 1 true tms;
  let err := if r <? 0 then APP_ERR_COMM else APP_ERR_NONE in
  '(r, bit_in) ← cable_ft2232_read_stream [None] 1 tms;
  let err := if r <? 0 then APP_ERR_COMM else err in
  mret (err, u8 (slot_word bit_in 0)).

Definition cable_ftdi_write_stream (stream : list Z) (len_bits set_last_bit : Z) : M St Z :=
  r ← cable_ft2232_write_stream stream len_bits false (truth set_last_bit);
  let err := if r <? 0 then APP_ERR_NONE .| APP_ERR_COMM else APP_ERR_NONE in
  _ ← cable_ftdi_flush;
  mret err.

Definition cable_ftdi_read_stream (outstream : list Z) (instream : buffer) (len_bits set_last_bit : Z)
    : M St (Z * buffer) :=
  r ← cable_ft2232_write_stream outstream len_bits true (truth set_last_bit);
  let err := if r <? 0 then APP_ERR_NONE .| APP_ERR_COMM else APP_ERR_NONE in
  '(r, instream) ← cable_ft2232_read_stream instream len_bits (truth set_last_bit);
  let err := if r <? 0 then err .| APP_ERR_COMM else err in
  mret (err, instream).

(** The functions for the wires are null. *)
Definition ft2232_cable_driver : jtag_cable_t St :=
  {| name := "ft2232"; inout_func := fun _ => lift Undef; out_func := fun _ => lift Undef;
     init_func := cable_ftdi_init; bit_out_func := cable_ftdi_write_bit; bit_inout_func := cable_ftdi_read_write_bit;
     stream_out_func := cable_ftdi_write_stream; stream_inout_func := cable_ftdi_read_stream;
     flush_func := Some cable_ftdi_flush; opts := EmptyString |}.
End cable_ft2232.
