(* ===== verification/Ft2232Facts.v ===== *)
(** What cable_ft2232.c does with the chip at the end of the cable.

    Specification: [mpsse_cmd] are the commands of the MPSSE that the driver sends, with the
    pulses and the bytes that come back for each ([cmd_pulses], [cmd_replies]); [Mpsse] is
    what the driver relies on of libftdi and the chip, the commands carried out in order and
    TMS low while data is shifted.  [merged] is what becomes of a buffer that bits are read
    into: the bits that were in it before stay behind them. *)

From S2P Require Import Prelude StateM Tap Cable Parallel Blaster BlasterFacts Chain Ft2232.
From stdpp Require Import list.

Open Scope Z_scope.
Open Scope cword_scope.

(** * The chip *)

(** The last five set the chip up and do not move the device. *)
Inductive mpsse_cmd :=
| CBytes (read : bool) (data : list Z)
| CBits (read : bool) (n b : Z)
| CTms (read : bool) (b : Z)
| CDivisor (lo hi : Z)
| CLoopbackEnd
| CLow (levels directions : Z)
| CHigh (levels directions : Z)
| CImmediate.

(** What the driver sends: the numbers of bytes and bits are those a command may have, and
    no command leaves TMS high: the bit that follows the one for TMS is zero, and so is
    the level of the pin, bit 3, when the pins are set. *)
Definition cmd_ok (c : mpsse_cmd) : Prop :=
  match c with
  | CBytes _ data => 0 < Z.of_nat (length data) <= 65536
  | CBits _ n _ => 1 <= n <= 8
  | CTms _ b => Z.testbit b 1 = false
  | CLow levels _ => Z.testbit levels 3 = false
  | _ => True
  end.

Definition encode `{FtdiH} (c : mpsse_cmd) : list Z :=
  match c with
  | CBytes read data =>
      let n := Z.of_nat (length data) in opcode bytes_op read :: u8 (n - 1) :: u8 ((n - 1) >> 8) :: data
  | CBits read n b => [opcode bits_op read; u8 (n - 1); b]
  | CTms read b => [opcode tms_op read; u8 (1 - 1); b]
  | CDivisor lo hi => [u8 TCK_DIVISOR; lo; hi]
  | CLoopbackEnd => [u8 LOOPBACK_END]
  | CLow l d => [u8 SET_BITS_LOW; l; d]
  | CHigh l d => [u8 SET_BITS_HIGH; l; d]
  | CImmediate => [u8 SEND_IMMEDIATE]
  end.
Definition encodes `{FtdiH} (cs : list mpsse_cmd) : list Z := mjoin (map encode cs).

Definition cmd_pulses (c : mpsse_cmd) : list pulse :=
  match c with
  | CBytes _ data => held false (bytes_bits data)
  | CBits _ n b => held false (take (Z.to_nat n) (byte_bits b))
  | CTms _ b => [Pulse (Z.testbit b 0) (Z.testbit b 7) false]
  | _ => []
  end.
Definition cmds_pulses (cs : list mpsse_cmd) : list pulse := mjoin (map cmd_pulses cs).

Section replies.
Context {D : Type} `{Device D}.

(** The bits in each byte that comes back. *)
Definition cmd_replies (c : mpsse_cmd) (d : D) : list (list bool) :=
  match c with
  | CBytes true data => chunks data d
  | CBits true _ _ | CTms true _ => [samples (cmd_pulses c) d]
  | _ => []
  end.
Fixpoint cmds_replies (cs : list mpsse_cmd) (d : D) : list (list bool) :=
  match cs with
  | [] => []
  | c :: cs => cmd_replies c d ++ cmds_replies cs (clocks (cmd_pulses c) d)
  end.
End replies.

(** The bits are the high ones of the byte. *)
Definition matches (bits : list bool) (b : Z) : Prop :=
  is_u8 b /\ b >> (8 - Z.of_nat (length bits)) = bits_value bits.

(** [pending]: the bytes still to come; [lag]: how often nothing will be read before they
    do, which is at most [most].  libftdi lets a write send less and a read bring a part of
    what was asked for, and either fail; the driver does not handle these cases, so that they
    are excluded here: a write sends everything, a read brings nothing or all that is due
    up to its length, and the other calls succeed.  TMS is low while bytes and bits are
    shifted, as no command leaves it high. *)
Class Mpsse `{FtdiH} {E D : Type} `{LibFtdi E, Device D} (dev : E -> D) (pending : E -> list Z) (lag : E -> nat)
    (most : nat) : Prop := {
  mpsse_write cs e : Forall cmd_ok cs -> exists e' ans,
    ftdi_write_data (encodes cs) e = (Z.of_nat (length (encodes cs)), e')
    /\ dev e' = clocks (cmds_pulses cs) (dev e)
    /\ pending e' = pending e ++ ans /\ Forall2 matches (cmds_replies cs (dev e)) ans;
  mpsse_read n e : 0 < n -> exists data e', ftdi_read_data n e = (Some data, e') /\ dev e' = dev e
    /\ ((data = take (Z.to_nat n) (pending e) /\ pending e' = drop (Z.to_nat n) (pending e))
        \/ (data = [] /\ pending e' = pending e /\ (lag e' < lag e)%nat));
  mpsse_lag e : (lag e <= most)%nat;
  mpsse_call c e : exists r e', ftdi c e = (r, e') /\ 0 <= r /\ dev e' = dev e
    /\ (pending e = [] -> pending e' = []) /\ (forall v p, c = ftdi_usb_open_desc v p -> r = 0)
}.

(** ** Sequences of commands *)

Section cmds.
Context `{FtdiH} {D : Type} `{Device D}.

Lemma encodes_app cs cs' : encodes (cs ++ cs') = encodes cs ++ encodes cs'.
Proof. unfold encodes. by rewrite map_app, join_app. Qed.

Lemma cmds_pulses_app cs cs' : cmds_pulses (cs ++ cs') = cmds_pulses cs ++ cmds_pulses cs'.
Proof. unfold cmds_pulses. by rewrite map_app, join_app. Qed.

Lemma cmds_replies_app cs cs' (d : D) :
  cmds_replies (cs ++ cs') d = cmds_replies cs d ++ cmds_replies cs' (clocks (cmds_pulses cs) d).
Proof.
  revert d. induction cs as [|e cs IH]; intros d; [done|]. cbn [app cmds_replies].
  rewrite IH, app_assoc. change (cmds_pulses (e :: cs)) with (cmd_pulses e ++ cmds_pulses cs). by rewrite clocks_app.
Qed.

Lemma cmd_replies_length c (d : D) : (length (cmd_replies c d) <= length (encode c))%nat.
Proof. destruct c as [[] | [] | [] | | | | |]; cbn; rewrite ?chunks_length; lia. Qed.

Lemma cmds_replies_length cs (d : D) : (length (cmds_replies cs d) <= length (encodes cs))%nat.
Proof.
  revert d. induction cs as [|c cs IH]; intros d; [done|]. change (encodes (c :: cs)) with (encode c ++ encodes cs).
  cbn [cmds_replies]. rewrite !length_app. pose proof (cmd_replies_length c d).
  pose proof (IH (clocks (cmd_pulses c) d)). lia.
Qed.
End cmds.

(** * Bytes *)

Section bytes.
Context `{Alloc, Unspecified}.

Lemma memcpy_ok b from n : 0 <= from -> 0 <= n -> from + n <= Z.of_nat (length b) ->
  load_bytes (Some b) from n = Ok (take (Z.to_nat n) (drop (Z.to_nat from) b)).
Proof.
  intros. unfold load_bytes. destruct (Z.leb_spec 0 from); [|lia]. destruct (Z.leb_spec 0 n); [|lia].
  by destruct (Z.leb_spec (from + n) (Z.of_nat (length b))); [|lia].
Qed.

(** Bytes stored behind others. *)
Lemma store_bytes_ok b at_ data : 0 <= at_ -> at_ + Z.of_nat (length data) <= Z.of_nat (length b) ->
  exists b', store_bytes (Some b) at_ data = Ok (Some b') /\ length b' = length b
  /\ take (Z.to_nat at_ + length data) b' = take (Z.to_nat at_) b ++ data.
Proof.
  intros. unfold store_bytes. destruct (Z.leb_spec 0 at_); [|lia].
  destruct (Z.leb_spec (at_ + Z.of_nat (length data)) (Z.of_nat (length b))); [|lia].
  eexists. split; [done|]. assert (length (take (Z.to_nat at_) b) = Z.to_nat at_) by (rewrite length_take; lia).
  split.
  - rewrite !length_app, length_drop. lia.
  - rewrite app_assoc, take_app_le by (rewrite length_app; lia). apply take_ge. rewrite length_app. lia.
Qed.

Lemma realloc_ok b len : malloc_ok len = true -> Z.of_nat (length b) <= len ->
  exists b', realloc (Some b) len = Some b' /\ Z.of_nat (length b') = len
  /\ forall n, (n <= length b)%nat -> take n b' = take n b.
Proof.
  intros Hm Hl. unfold realloc. rewrite Hm. eexists. split; [done|]. split.
  - rewrite length_app. unfold malloced. rewrite length_replicate. lia.
  - intros n Hn. by rewrite take_app_le.
Qed.
End bytes.

(** * The buffers *)

Section buffers.
Context `{Target, Alloc, Unspecified} `{Mpsse E D dev pending lag most}.
Context (malloc_all : forall n, malloc_ok n = true).
Abbreviation St := (ft2232_t E).
Abbreviation flush := (usbconn_ftdi_flush (U := E) (S most)).

(** The state in which the device will be at [d] when all commands have been carried out,
    and [expected] are the bytes that have been asked for and not been read: [got] are in
    [recv_buf], [due] are on the way, the replies to [cs], which are in [send_buf], are still
    to come.  [B] bounds the numbers. *)
Record queued (B : Z) (d : D) (expected : list (list bool)) (s : St) (p : ftdi_param_t) (sb rb : list Z)
    (cs : list mpsse_cmd) (due got : list (list bool)) : Prop := {
  q_device : ft2232_device s = Some p;
  q_ftdic : ftdic p = true;
  q_send_buf : send_buf p = Some sb;
  q_recv_buf : recv_buf p = Some rb;
  q_send_len : Z.of_nat (length sb) = send_buf_len p;
  q_recv_len : Z.of_nat (length rb) = recv_buf_len p;
  q_buffered : 0 <= send_buffered p <= send_buf_len p /\ send_buffered p <= B;
  q_cmds : take (Z.to_nat (send_buffered p)) sb = encodes cs;
  q_cmds_ok : Forall cmd_ok cs;
  q_dev : d = clocks (cmds_pulses cs) (dev (libftdi s));
  q_due : Forall2 matches due (pending (libftdi s));
  q_expected : expected = got ++ due ++ cmds_replies cs (dev (libftdi s));
  q_to_recv : to_recv p = Z.of_nat (length (due ++ cmds_replies cs (dev (libftdi s))));
  q_indices : 0 <= recv_read_idx p <= recv_write_idx p /\ recv_write_idx p <= recv_buf_len p;
  q_got : Forall2 matches got (drop (Z.to_nat (recv_read_idx p)) (take (Z.to_nat (recv_write_idx p)) rb));
  q_reset : recv_read_idx p = recv_write_idx p -> recv_write_idx p = 0;
  q_bound : recv_read_idx p + Z.of_nat (length expected) <= B
}.

Definition pipe (B : Z) (d : D) (expected : list (list bool)) (s : St) : Prop :=
  exists p sb rb cs got, queued B d expected s p sb rb cs [] got.
(** Everything has been sent and has come. *)
Definition settled (B : Z) (d : D) (expected : list (list bool)) (s : St) : Prop :=
  exists p sb rb, queued B d expected s p sb rb [] [] expected.

Lemma settled_pipe B d expected s : settled B d expected s -> pipe B d expected s.
Proof. intros (p & sb & rb & Hq). by exists p, sb, rb, [], expected. Qed.

Lemma encodes_nil cs : encodes cs = [] -> cs = [].
Proof. destruct cs as [|[] cs]; done. Qed.

(** [recv_buf] holds as much as has come. *)
Lemma q_got_length B d expected s p sb rb cs due got : queued B d expected s p sb rb cs due got ->
  Z.of_nat (length got) = recv_write_idx p - recv_read_idx p.
Proof.
  intros []. rewrite (Forall2_length _ _ _ q_got0), length_drop, length_take. lia.
Qed.

Lemma wp_params B d expected s p sb rb cs due got : queued B d expected s p sb rb cs due got ->
  wp params (fun r s' => r = p /\ s' = s) s.
Proof. intros Hq. exists p, s. unfold params. by rewrite (q_device _ _ _ _ _ _ _ _ _ _ Hq). Qed.

Lemma wp_write_data cs (s : St) : Forall cmd_ok cs -> wp (my_ftdi_write_data (encodes cs)) (fun r s' =>
  exists ans, r = Z.of_nat (length (encodes cs)) /\ ft2232_device s' = ft2232_device s
  /\ dev (libftdi s') = clocks (cmds_pulses cs) (dev (libftdi s))
  /\ pending (libftdi s') = pending (libftdi s) ++ ans
  /\ Forall2 matches (cmds_replies cs (dev (libftdi s))) ans) s.
Proof.
  intros Hc. destruct (mpsse_write cs (libftdi s) Hc) as (e & ans & Hw & Hr). unfold wp, my_ftdi_write_data.
  rewrite Hw. eexists _, _. split; [done|]. by exists ans.
Qed.

(** The bytes come, after [lag] reads in vain. *)
Lemma wp_wait_data fuel n (s : St) : 0 < n -> Z.of_nat (length (pending (libftdi s))) = n ->
  (lag (libftdi s) < fuel)%nat ->
  wp (wait_data fuel n) (fun r s' => r = Some (pending (libftdi s)) /\ ft2232_device s' = ft2232_device s
    /\ dev (libftdi s') = dev (libftdi s) /\ pending (libftdi s') = []) s.
Proof.
  intros Hn. revert s. induction fuel as [|fuel IH]; intros s Hl Hf; [lia|]. cbn [wait_data].
  destruct (mpsse_read n (libftdi s) Hn) as (data & e & Hr & Hd & [[-> Hp]|(-> & Hp & Hlag)]).
  - rewrite take_ge in Hr by lia. rewrite drop_ge in Hp by lia. wp_pure. unfold wp at 1, my_ftdi_read_data. rewrite Hr.
    eexists _, _. split; [done|]. cbn [recvd_of].
    destruct (Z.eqb_spec (Z.of_nat (length (pending (libftdi s)))) 0); [lia|]. by apply wp_ret.
  - wp_pure. unfold wp at 1, my_ftdi_read_data. rewrite Hr. eexists _, _. split; [done|].
    change (recvd_of (Some []) =? 0) with true. cbv iota.
    eapply wp_mono; [apply IH; cbn [libftdi]; [by rewrite Hp|lia]|]. cbn [libftdi ft2232_device].
    intros r s' (-> & -> & -> & ->). by rewrite Hp, Hd.
Qed.

Ltac params_simpl :=
  cbn [ft2232_device libftdi ftdic send_buf recv_buf send_buf_len send_buffered recv_buf_len to_recv recv_write_idx
    recv_read_idx].

(** The receive buffer is large enough, or is made so. *)
Definition extended (p : ftdi_param_t) (need : Z) : ftdi_param_t :=
  if recv_buf_len p <? need then
    FtdiParam (ftdic p) (send_buf_len p) (send_buffered p) (send_buf p) need (to_recv p) (recv_write_idx p)
      (recv_read_idx p) (realloc (recv_buf p) need)
  else p.

Lemma extended_ok p rb need : recv_buf p = Some rb -> Z.of_nat (length rb) = recv_buf_len p ->
  0 <= recv_write_idx p <= recv_buf_len p -> exists rb' n,
  extended p need = FtdiParam (ftdic p) (send_buf_len p) (send_buffered p) (send_buf p) n (to_recv p) (recv_write_idx p)
    (recv_read_idx p) (Some rb')
  /\ Z.of_nat (length rb') = n /\ need <= n
  /\ take (Z.to_nat (recv_write_idx p)) rb' = take (Z.to_nat (recv_write_idx p)) rb.
Proof.
  intros Hb Hl Hw. unfold extended. destruct (Z.ltb_spec (recv_buf_len p) need).
  - rewrite Hb. destruct (realloc_ok rb need (malloc_all need)) as (rb' & -> & Hl' & Ht); [lia|].
    exists rb', need. split; [done|]. split; [done|]. split; [lia|]. apply Ht. lia.
  - exists rb, (recv_buf_len p). destruct p; cbn in *. by subst.
Qed.

Lemma wp_receive B d expected s p sb rb due got : B < 2 ^ 31 ->
  queued B d expected s p sb rb [] due got ->
  wp (receive_scheduled (S most)) (fun ok s' => ok = true /\ settled B d expected s') s.
Proof.
  intros HB Hq. pose proof (q_got_length _ _ _ _ _ _ _ _ _ _ Hq) as Hgl. destruct Hq.
  unfold receive_scheduled. wp_pure. exists p, s. unfold params at 1. rewrite q_device0. split; [done|].
  cbn [cmds_replies] in *. rewrite app_nil_r in *. subst expected.
  destruct (truth (to_recv p)) eqn:Et.
  2: { assert (due = []) as ->.
       { destruct due; [done|]. revert Et. rewrite q_to_recv0. unfold truth. cbn [length]. by destruct (Z.eqb_spec (Z.of_nat (S (length due))) 0); [lia|]. }
       apply wp_ret. split; [done|]. exists p, sb, rb. rewrite app_nil_r in *. split; try done. by rewrite app_nil_r. }
  rewrite length_app in q_bound0. pose proof (Forall2_length _ _ _ q_due0) as Hlen.
  assert (0 < to_recv p) by (revert Et; unfold truth; destruct (Z.eqb_spec (to_recv p) 0); [done|lia]).
  rewrite (wrap_small 32 (recv_write_idx p + to_recv p)) by (unfold is_word; lia).
  cbv zeta. fold (extended p (recv_write_idx p + to_recv p)).
  destruct (extended_ok p rb (recv_write_idx p + to_recv p)) as (rb' & n & -> & Hn & Hneed & Htake); [done..|lia|].
  params_simpl. wp_pure. apply wp_modify.
  wp_pure. rewrite swrap_small by (unfold is_sword; lia).
  wp_use wp_wait_data as r s1 (-> & Es & Ed & Ep); [lia|cbn; lia|cbn; pose proof (mpsse_lag (libftdi s)); lia|].
  cbn [default recvd_of libftdi] in *. wp_pure.
  destruct (store_bytes_ok rb' (recv_write_idx p) (pending (libftdi s))) as (rb2 & Hst & Hl2 & Ht2); [lia..|].
  eapply wp_lift; [exact Hst|]. wp_pure. apply wp_modify. apply wp_ret. split; [done|].
  eexists _, sb, rb2. rewrite <- Hlen. rewrite wrap_small, wrap_small by (unfold is_word; lia).
  split; [done|..]; params_simpl; try done; try lia.
  - by rewrite Ed.
  - by rewrite Ep.
  - by rewrite app_nil_r.
  - cbn. lia.
  - replace (Z.to_nat (recv_write_idx p + Z.of_nat (length due))) with (Z.to_nat (recv_write_idx p) + length (pending (libftdi s)))%nat by lia.
    rewrite Ht2, Htake, drop_app_le by (rewrite length_take; lia). by apply Forall2_app.
  - rewrite length_app. lia.
Qed.

Lemma encodes_length B d expected s p sb rb cs due got : queued B d expected s p sb rb cs due got ->
  Z.of_nat (length (encodes cs)) = send_buffered p.
Proof. intros []. rewrite <- q_cmds0, length_take. lia. Qed.

Lemma wp_ftdi_flush B d expected s : B < 2 ^ 31 -> pipe B d expected s ->
  wp flush (fun r s' => 0 <= r /\ settled B d expected s') s.
Proof.
  intros HB (p & sb & rb & cs & got & Hq). pose proof (encodes_length _ _ _ _ _ _ _ _ _ _ Hq) as Hel.
  unfold usbconn_ftdi_flush. wp_pure. wp_use wp_params as p' s' [-> ->]; [exact Hq|].
  rewrite (q_ftdic _ _ _ _ _ _ _ _ _ _ Hq). cbn [negb].
  destruct (Z.eqb_spec (send_buffered p) 0) as [E0|E0].
  { apply wp_ret. split; [done|]. rewrite E0 in Hel. assert (cs = []) as -> by (apply encodes_nil, length_zero_iff_nil; lia).
    exists p, sb, rb. assert (expected = got) as Heq; [|by rewrite Heq in *].
    destruct Hq. subst expected. by rewrite !app_nil_r. }
  destruct Hq. rewrite q_send_buf0, memcpy_ok by lia. rewrite drop_0, q_cmds0. wp_pure. eapply wp_lift; [done|].
  wp_pure. wp_use wp_write_data as r s1 (ans & -> & Es & Ed & Ep & Hans); [done|].
  rewrite Hel, wrap_small by (unfold is_word; lia). rewrite Z.ltb_irrefl. wp_pure. apply wp_modify. wp_pure.
  wp_use (wp_receive B d expected _ _ sb rb (cmds_replies cs (dev (libftdi s))) got) as ok s2 [-> Hs]; [done| |].
  - rewrite (Forall2_nil_inv_l _ _ q_due0) in Ep. split; [done|..]; params_simpl; try done; try lia.
    + by rewrite Ed.
    + by rewrite Ep.
    + cbn [cmds_replies]. by rewrite app_nil_r.
    + cbn [cmds_replies]. by rewrite app_nil_r.
  - cbn [negb]. destruct (Z.ltb_spec (send_buffered p) 0); [lia|]. apply wp_ret. split; [lia|done].
Qed.

(** The send buffer is large enough, or is made so. *)
Lemma send_extended sb k n need : Z.of_nat (length sb) = n -> 0 <= k <= n -> exists sb' n',
  (if n <? need then (need, realloc (Some sb) need) else (n, Some sb)) = (n', Some sb')
  /\ Z.of_nat (length sb') = n' /\ need <= n' /\ take (Z.to_nat k) sb' = take (Z.to_nat k) sb.
Proof.
  intros Hl Hk. destruct (Z.ltb_spec n need).
  - destruct (realloc_ok sb need (malloc_all need)) as (sb' & -> & Hl' & Ht); [lia|].
    exists sb', need. split; [done|]. split; [done|]. split; [lia|]. apply Ht. lia.
  - by exists sb, n.
Qed.

Lemma wp_before_write B d expected s (b : bool) : B < 2 ^ 31 -> pipe B d expected s ->
  wp (if b then flush else mret 0) (fun r s' => 0 <= r /\ pipe B d expected s') s.
Proof.
  intros HB Hp. destruct b; [|by apply wp_ret]. eapply wp_mono; [by apply wp_ftdi_flush|].
  intros r s' [Hr Hs]. split; [done|]. by apply settled_pipe.
Qed.

(** Commands are put behind the others. *)
Lemma wp_conn_writes B d expected s c : Forall cmd_ok c -> B + Z.of_nat (length (encodes c)) < 2 ^ 31 -> pipe B d expected s ->
  wp (usbconn_ftdi_write (S most) (encodes c) (Z.of_nat (length (cmds_replies c d)))) (fun r s' =>
    r = Z.of_nat (length (encodes c))
    /\ pipe (B + Z.of_nat (length (encodes c))) (clocks (cmds_pulses c) d) (expected ++ cmds_replies c d) s') s.
Proof.
  intros Hc HB Hpipe. pose proof Hpipe as (p0 & sb0 & rb0 & cs0 & got0 & Hq0). unfold usbconn_ftdi_write.
  wp_pure. wp_use wp_params as p' s' [-> ->]; [exact Hq0|]. rewrite (q_ftdic _ _ _ _ _ _ _ _ _ _ Hq0). cbn [negb].
  wp_pure. wp_use (wp_before_write B d expected) as r s1 [Hr Hp1]; [lia|exact Hpipe|]. clear Hq0 p0 sb0 rb0 cs0 got0.
  destruct (Z.ltb_spec r 0); [lia|]. destruct Hp1 as (p & sb & rb & cs & got & Hq).
  wp_pure. wp_use wp_params as p' s' [-> ->]; [exact Hq|].
  destruct Hq. pose proof (cmds_replies_length c d) as Hrep. cbn [app] in *.
  rewrite (wrap_small 32 (send_buffered p + _)) by (unfold is_word; lia). rewrite q_send_buf0.
  destruct (send_extended sb (send_buffered p) (send_buf_len p) (send_buffered p + Z.of_nat (length (encodes c))))
    as (sb1 & n1 & -> & Hl1 & Hn1 & Ht1); [done..|lia|].
  wp_pure. apply wp_modify. wp_pure. destruct (store_bytes_ok sb1 (send_buffered p) (encodes c)) as (sb2 & Hst & Hl2 & Ht2); [lia..|].
  eapply wp_lift; [exact Hst|]. wp_pure. apply wp_modify. destruct (Z.ltb_spec (Z.of_nat (length (cmds_replies c d))) 0); [lia|].
  wp_pure. apply wp_ret. destruct (Z.ltb_spec r 0); [lia|]. apply wp_ret. split; [done|].
  assert (Hto : (if 0 <? Z.of_nat (length (cmds_replies c d)) then u32 (to_recv p + Z.of_nat (length (cmds_replies c d))) else to_recv p)
    = Z.of_nat (length (cmds_replies (cs ++ c) (dev (libftdi s1))))).
  { rewrite cmds_replies_app, <- q_dev0, length_app. subst expected. rewrite length_app in q_bound0.
    rewrite wrap_small by (unfold is_word; lia). destruct (Z.ltb_spec 0 (Z.of_nat (length (cmds_replies c d)))); lia. }
  rewrite Hto. eexists _, sb2, rb, (cs ++ c), got. split; [done|..]; params_simpl; try done; try lia.
  - rewrite encodes_app, <- q_cmds0, <- Ht1, <- Ht2. f_equal. lia.
  - by apply Forall_app_2.
  - by rewrite cmds_pulses_app, clocks_app, <- q_dev0.
  - rewrite cmds_replies_app, <- q_dev0, q_expected0. cbn [app]. by rewrite app_assoc.
  - rewrite length_app. lia.
Qed.

Lemma wp_conn_write B d expected s c : cmd_ok c -> B + Z.of_nat (length (encode c)) < 2 ^ 31 -> pipe B d expected s ->
  wp (usbconn_ftdi_write (S most) (encode c) (Z.of_nat (length (cmd_replies c d)))) (fun r s' =>
    r = Z.of_nat (length (encode c))
    /\ pipe (B + Z.of_nat (length (encode c))) (clocks (cmd_pulses c) d) (expected ++ cmd_replies c d) s') s.
Proof.
  intros Hc HB Hp. pose proof (wp_conn_writes B d expected s [c]) as W. cbn [cmds_replies] in W.
  change (encodes [c]) with (encode c ++ []) in W. change (cmds_pulses [c]) with (cmd_pulses c ++ []) in W.
  rewrite !app_nil_r in W. apply W; [by apply List.Forall_cons|done|done].
Qed.

(** The bytes that were expected first. *)
Lemma wp_conn_read B d e1 e2 s : B < 2 ^ 31 -> e1 <> [] -> pipe B d (e1 ++ e2) s ->
  wp (usbconn_ftdi_read (S most) (Z.of_nat (length e1))) (fun r s' => exists data,
    r = (Z.of_nat (length e1), data) /\ Forall2 matches e1 data /\ settled B d e2 s') s.
Proof.
  intros HB He Hpipe. pose proof Hpipe as (p0 & sb0 & rb0 & cs0 & got0 & Hq0). unfold usbconn_ftdi_read.
  assert (0 < Z.of_nat (length e1)) by (destruct e1; [done|cbn [length]; lia]).
  wp_pure. wp_use wp_params as p' s' [-> ->]; [exact Hq0|]. rewrite (q_ftdic _ _ _ _ _ _ _ _ _ _ Hq0). cbn [negb].
  wp_pure. wp_use (wp_ftdi_flush B d (e1 ++ e2)) as r s1 [Hr (p & sb & rb & Hq)]; [done|exact Hpipe|]. clear Hq0 p0 sb0 rb0 cs0 got0.
  destruct (Z.ltb_spec r 0); [lia|]. destruct (Z.eqb_spec (Z.of_nat (length e1)) 0); [lia|].
  wp_pure. wp_use wp_params as p' s' [-> ->]; [exact Hq|]. pose proof (q_got_length _ _ _ _ _ _ _ _ _ _ Hq) as Hgl.
  destruct Hq. rewrite length_app in *. cbv zeta. rewrite (swrap_small 32) by (unfold is_sword; lia).
  rewrite Z.min_r by lia. destruct (Z.ltb_spec 0 (Z.of_nat (length e1))); [|lia]. rewrite Z.sub_diag.
  destruct (Z.ltb_spec 0 0); [lia|]. rewrite q_recv_buf0, memcpy_ok by lia. rewrite wrap_small by (unfold is_word; lia).
  wp_pure. wp_pure. eapply wp_lift; [done|]. wp_pure. apply wp_modify. apply wp_ret. rewrite Z.add_0_r. apply wp_ret.
  assert (Hsplit : drop (Z.to_nat (recv_read_idx p)) (take (Z.to_nat (recv_write_idx p)) rb)
    = take (Z.to_nat (Z.of_nat (length e1))) (drop (Z.to_nat (recv_read_idx p)) rb)
      ++ drop (Z.to_nat (recv_read_idx p + Z.of_nat (length e1))) (take (Z.to_nat (recv_write_idx p)) rb)).
  { rewrite <- (take_drop (length e1) (drop _ (take _ rb))) at 1. f_equal.
    - rewrite skipn_firstn_comm, take_take, Nat2Z.id. f_equal. lia.
    - rewrite drop_drop. f_equal. lia. }
  rewrite Hsplit in q_got0. apply Forall2_app_inv in q_got0 as [Hg1 Hg2].
  2: { rewrite length_take, length_drop. lia. }
  eexists. split; [done|]. split; [done|].
  eexists _, sb, rb. split; [done|..]; params_simpl; try done; try lia.
  - cbn [cmds_replies app]. by rewrite app_nil_r.
  - destruct (Z.eqb_spec (recv_read_idx p + Z.of_nat (length e1)) (recv_write_idx p)); lia.
  - destruct (Z.eqb_spec (recv_read_idx p + Z.of_nat (length e1)) (recv_write_idx p)) as [E1|E1]; [|done].
    destruct e2; [done|cbn [length] in *; lia].
  - destruct (Z.eqb_spec (recv_read_idx p + Z.of_nat (length e1)) (recv_write_idx p)); lia.
  - destruct (Z.eqb_spec (recv_read_idx p + Z.of_nat (length e1)) (recv_write_idx p)); lia.
Qed.

(** Nothing is left to be sent or read. *)
Definition idle (d : D) (s : St) : Prop := settled 0 d [] s.

Lemma settled_idle B d s : settled B d [] s -> idle d s.
Proof.
  intros (p & sb & rb & Hq). pose proof (encodes_length _ _ _ _ _ _ _ _ _ _ Hq) as Hl. cbn in Hl.
  pose proof (q_got_length _ _ _ _ _ _ _ _ _ _ Hq) as Hgl. cbn in Hgl. destruct Hq.
  exists p, sb, rb. split; try done; cbn; lia.
Qed.

Lemma pipe_idle d s : pipe 0 d [] s -> idle d s.
Proof.
  intros (p & sb & rb & cs & got & Hq). pose proof (encodes_length _ _ _ _ _ _ _ _ _ _ Hq) as Hl.
  assert (cs = []) as -> by (apply encodes_nil, length_zero_iff_nil; destruct Hq; lia).
  assert (got = []) as -> by (destruct Hq; by destruct got). by exists p, sb, rb.
Qed.

Lemma idle_dev d s : idle d s -> d = dev (libftdi s).
Proof. intros (p & sb & rb & []). done. Qed.
End buffers.

(** * Bits into a buffer of words *)

Section merged.
Context `{Unspecified}.

Definition slot_bit (buf : buffer) (i : Z) : bool := Z.testbit (slot_word buf (i / 32)) (i mod 32).

(** The bits that came, and behind them what was there before. *)
Definition merge_bit (buf : buffer) (bits : list bool) (i : Z) : bool :=
  if i <? Z.of_nat (length bits) then nth (Z.to_nat i) bits false else slot_bit buf i.
Definition merge_slot (buf : buffer) (bits : list bool) (k : Z) : option Z :=
  if 32 * k <? Z.of_nat (length bits)
  then Some (bits_value (map (merge_bit buf bits) (seqZ (32 * k) 32))) else mjoin (buf !! Z.to_nat k).
Definition merged (buf : buffer) (bits : list bool) : buffer :=
  map (merge_slot buf bits) (seqZ 0 (Z.of_nat (length buf))).

Lemma merge_length buf bits : length (merged buf bits) = length buf.
Proof. unfold merged. rewrite length_map, length_seqZ. lia. Qed.

Lemma merge_lookup buf bits k : 0 <= k < Z.of_nat (length buf) ->
  merged buf bits !! Z.to_nat k = Some (merge_slot buf bits k).
Proof.
  intros Hk. unfold merged. change (map ?f ?l) with (f <$> l). rewrite list_lookup_fmap, lookup_seqZ_lt by lia.
  cbn. do 2 f_equal. lia.
Qed.

Lemma merge_nil buf : merged buf [] = buf.
Proof.
  apply list_eq. intros i. destruct (decide (i < length buf)%nat) as [Hi|Hi].
  - replace i with (Z.to_nat (Z.of_nat i)) at 1 by lia. rewrite merge_lookup by lia. unfold merge_slot.
    cbn [length]. destruct (Z.ltb_spec (32 * Z.of_nat i) (Z.of_nat 0)); [lia|]. rewrite Nat2Z.id.
    by destruct (lookup_lt_is_Some_2 buf i Hi) as [x ->].
  - rewrite !lookup_ge_None_2; [done|lia|]. rewrite merge_length. lia.
Qed.

Lemma testbit_word32 (f : Z -> bool) a j : 0 <= j ->
  Z.testbit (bits_value (map f (seqZ a 32))) j = (j <? 32) && f (a + j).
Proof.
  intros Hj. rewrite testbit_bits_value by lia. destruct (Z.ltb_spec j 32); cbn [andb].
  - apply nth_lookup_Some. change (map f (seqZ a 32)) with (f <$> seqZ a 32).
    rewrite list_lookup_fmap, lookup_seqZ_lt by lia. cbn. do 2 f_equal. lia.
  - apply nth_overflow. rewrite length_map, length_seqZ. lia.
Qed.

Lemma slot_word_merge buf bits k j : 0 <= k < Z.of_nat (length buf) -> 0 <= j < 32 ->
  Z.testbit (slot_word (merged buf bits) k) j = merge_bit buf bits (32 * k + j).
Proof.
  intros Hk Hj. unfold slot_word. rewrite merge_lookup by lia. cbn [mjoin option_join]. unfold merge_slot.
  rewrite testbit_wrap by lia. destruct (Z.ltb_spec j 32); [|lia]. cbn [andb].
  destruct (Z.ltb_spec (32 * k) (Z.of_nat (length bits))).
  - cbn [from_option id]. unfold id. rewrite testbit_word32 by lia. by destruct (Z.ltb_spec j 32); [|lia].
  - unfold merge_bit, slot_bit. destruct (Z.ltb_spec (32 * k + j) (Z.of_nat (length bits))); [lia|].
    replace ((32 * k + j) / 32) with k by (apply Z.div_unique with (r := j); lia).
    replace ((32 * k + j) mod 32) with j by (apply Z.mod_unique with (q := k); lia).
    unfold slot_word. rewrite testbit_wrap by lia. by destruct (Z.ltb_spec j 32); [|lia].
Qed.

Lemma slot_word_u32 buf k : is_u32 (slot_word buf k).
Proof. apply wrap_range. lia. Qed.

Lemma merge_bit_app buf bits piece i :
  i < Z.of_nat (length bits) \/ Z.of_nat (length bits) + Z.of_nat (length piece) <= i -> 0 <= i ->
  merge_bit buf (bits ++ piece) i = merge_bit buf bits i.
Proof.
  intros Hi Hi0. unfold merge_bit. rewrite length_app. destruct (Z.ltb_spec i (Z.of_nat (length bits))).
  - destruct (Z.ltb_spec i (Z.of_nat (length bits + length piece))); [|lia]. by rewrite app_nth1 by lia.
  - by destruct (Z.ltb_spec i (Z.of_nat (length bits + length piece))); [lia|].
Qed.

(** A piece goes into the word it belongs to. *)
Lemma merge_store buf bits piece w :
  let n := Z.of_nat (length bits) in let k := n / 32 in
  n mod 32 + Z.of_nat (length piece) <= 32 -> piece <> [] -> k < Z.of_nat (length buf) -> is_u32 w ->
  (forall j, 0 <= j < 32 -> Z.testbit w j = merge_bit buf (bits ++ piece) (32 * k + j)) ->
  store_slot (merged buf bits) k w = Ok (merged buf (bits ++ piece)).
Proof.
  intros n k Hn Hp Hk Hw Hb. pose proof (Z.div_mod n 32 ltac:(lia)) as Hd. fold k in Hd.
  pose proof (Z.mod_pos_bound n 32 ltac:(lia)) as Hm. assert (0 <= n) by lia. assert (0 <= k) by (unfold k; apply Z.div_pos; lia).
  assert (0 < Z.of_nat (length piece)) by (destruct piece; [done|cbn [length]; lia]).
  unfold store_slot. rewrite merge_length. destruct (Z.leb_spec 0 k); [|lia]. destruct (Z.ltb_spec k (Z.of_nat (length buf))); [|lia].
  cbn [andb]. f_equal. apply list_eq. intros i. destruct (decide (i < length buf)%nat) as [Hi|Hi].
  2: { rewrite !lookup_ge_None_2; rewrite ?length_insert, ?merge_length; done || lia. }
  assert (Hi' : i = Z.to_nat (Z.of_nat i)) by lia. set (z := Z.of_nat i) in *. rewrite Hi'.
  rewrite (merge_lookup buf (bits ++ piece)) by lia. unfold merge_slot at 1. rewrite length_app.
  destruct (Z.eq_dec z k) as [->|Hne].
  - rewrite list_lookup_insert_eq by (rewrite merge_length; lia).
    destruct (Z.ltb_spec (32 * k) (Z.of_nat (length bits + length piece))); [|lia]. do 2 f_equal.
    apply Z.bits_inj'. intros j Hj. rewrite testbit_word32 by lia. destruct (Z.ltb_spec j 32); cbn [andb]; [by apply Hb|].
    by rewrite (testbit_word 32) by (done || lia).
  - rewrite list_lookup_insert_ne by lia. rewrite merge_lookup by lia. unfold merge_slot. f_equal.
    fold n. destruct (Z.ltb_spec (32 * z) n), (Z.ltb_spec (32 * z) (Z.of_nat (length bits + length piece))); try lia; [|done].
    do 2 f_equal. apply map_ext_in. intros i' Hi1%list_elem_of_In%elem_of_seqZ. symmetry. apply merge_bit_app; lia.
Qed.

(** The byte [k] of a word and the place of its bits. *)
Lemma byte_place k : 0 <= k ->
  k >> 2 = k / 4 /\ 8 * (k .& 3) = 8 * (k mod 4) /\ k = 4 * (k / 4) + k mod 4 /\ 0 <= k mod 4 < 4 /\ 0 <= k / 4.
Proof.
  intros Hk. change 3 with (2 ^ 2 - 1). rewrite land_mask by lia. rewrite Z.shiftr_div_pow2 by lia.
  change (2 ^ 2) with 4. change (wrap 2 k) with (k mod 4).
  pose proof (Z.div_mod k 4 ltac:(lia)). pose proof (Z.mod_pos_bound k 4 ltac:(lia)). repeat split; try lia.
Qed.

Lemma merge_load_byte buf bits k : 0 <= k < 4 * Z.of_nat (length buf) -> exists old,
  load_byte (merged buf bits) k = Ok old
  /\ forall j, 0 <= j < 8 -> Z.testbit old j = merge_bit buf bits (8 * k + j).
Proof.
  intros Hk. destruct (byte_place k) as (E1 & E2 & E3 & Hm & Hq); [lia|]. unfold load_byte. rewrite merge_length.
  destruct (Z.leb_spec 0 k); [|lia]. destruct (Z.ltb_spec k (4 * Z.of_nat (length buf))); [|lia]. cbn [andb].
  rewrite E1, E2. eexists. split; [done|]. intros j Hj. change 0xff with (2 ^ 8 - 1).
  rewrite land_mask, testbit_wrap by lia. destruct (Z.ltb_spec j 8); [|lia]. cbn [andb].
  rewrite Z.shiftr_spec, slot_word_merge by lia. f_equal. lia.
Qed.

(** A piece goes into the byte it belongs to. *)
Lemma merge_store_byte buf bits piece v :
  let n := Z.of_nat (length bits) in let k := n / 8 in
  n mod 8 + Z.of_nat (length piece) <= 8 -> piece <> [] -> k < 4 * Z.of_nat (length buf) -> is_u8 v ->
  (forall j, 0 <= j < 8 -> Z.testbit v j = merge_bit buf (bits ++ piece) (8 * k + j)) ->
  store_byte (merged buf bits) k v = Ok (merged buf (bits ++ piece)).
Proof.
  intros n k Hn Hp Hk Hv Hb. pose proof (Z.div_mod n 8 ltac:(lia)) as Hd. fold k in Hd.
  pose proof (Z.mod_pos_bound n 8 ltac:(lia)) as Hm. assert (0 <= k) by (unfold k, n; apply Z.div_pos; lia).
  assert (Hn32 : n / 32 = k / 4) by (unfold k; rewrite Z.div_div by lia; done).
  pose proof (Z.div_mod n 32 ltac:(lia)) as Hd32.
  destruct (byte_place k) as (E1 & E2 & E3 & Hm4 & Hq); [lia|]. unfold store_byte. rewrite E1, E2.
  destruct (Z.leb_spec 0 k); [|lia]. rewrite <- Hn32. set (sh := 8 * (k mod 4)) in *.
  assert (Hff : forall i, 0 <= i -> Z.testbit 0xff i = (i <? 8)) by (intros; change 0xff with (2 ^ 8 - 1); by apply testbit_mask).
  assert (Hv8 : forall i, 8 <= i -> Z.testbit v i = false) by (intros; apply (testbit_word 8); done || lia).
  apply (merge_store buf bits piece); fold n; try done; try lia.
  - apply is_word_lor; [lia| |]; [apply is_word_land_l; [lia|apply slot_word_u32]|].
    apply is_word_bits; [lia|apply Z.shiftl_nonneg; unfold is_word in Hv; lia|]. intros i Hi.
    rewrite Z.shiftl_spec by lia. apply Hv8. lia.
  - intros j Hj. rewrite Z.lor_spec, Z.land_spec, testbit_wrap, Z.lnot_spec, !Z.shiftl_spec by lia.
    rewrite slot_word_merge by lia. destruct (Z.ltb_spec j 32); [|lia]. cbn [andb].
    destruct (Z.ltb_spec j sh) as [Hlt|Hge]; [|destruct (Z.ltb_spec (j - sh) 8) as [Hin|Hout]].
    + rewrite !(Z.testbit_neg_r _ (j - sh)) by lia. cbn [negb]. rewrite andb_true_r, orb_false_r.
      symmetry. apply merge_bit_app; lia.
    + rewrite Hff by lia. destruct (Z.ltb_spec (j - sh) 8); [|lia]. cbn [negb]. rewrite andb_false_r. cbn [orb].
      rewrite Hb by lia. f_equal. lia.
    + rewrite Hff by lia. destruct (Z.ltb_spec (j - sh) 8); [lia|]. cbn [negb]. rewrite andb_true_r, Hv8, orb_false_r by lia.
      symmetry. apply merge_bit_app; lia.
Qed.

Lemma merge_bit_new buf bits piece j : 0 <= j < Z.of_nat (length piece) ->
  merge_bit buf (bits ++ piece) (Z.of_nat (length bits) + j) = nth (Z.to_nat j) piece false.
Proof.
  intros Hj. unfold merge_bit. rewrite length_app.
  destruct (Z.ltb_spec (Z.of_nat (length bits) + j) (Z.of_nat (length bits + length piece))); [|lia].
  rewrite app_nth2 by lia. f_equal. lia.
Qed.

(** Whole bytes. *)
Lemma merge_store_row buf pieces : Forall (fun g => length g = 8%nat) pieces -> forall bits data k,
  Forall2 matches pieces data -> Z.of_nat (length bits) = 8 * k ->
  8 * (k + Z.of_nat (length pieces)) <= 32 * Z.of_nat (length buf) ->
  store_row (merged buf bits) k data = Ok (merged buf (bits ++ mjoin pieces)).
Proof.
  induction 1 as [|g pieces Hg _ IH]; intros bits data k Hm Hl Hb.
  - apply Forall2_nil_inv_l in Hm as ->. cbn. by rewrite app_nil_r.
  - apply Forall2_cons_inv_l in Hm as (b & data' & [Hb8 Hbg] & Hm & ->). cbn [store_row length] in *.
    rewrite Hg in Hbg. change (8 - Z.of_nat 8) with 0 in Hbg. rewrite Z.shiftr_0_r in Hbg.
    assert (Z.of_nat (length bits) / 8 = k) as Hk by (rewrite Hl, Z.mul_comm; by apply Z.div_mul).
    pose proof (merge_store_byte buf bits g b) as E. cbv zeta in E. rewrite Hk in E. rewrite E; clear E.
    + change (Ok ?b ≫= ?f) with (f b). cbv beta. rewrite (IH _ data' (k + 1)); [|done|rewrite length_app; lia|lia].
      cbn. by rewrite <- app_assoc.
    + rewrite Hl, Z.mul_comm, Z.mod_mul by lia. lia.
    + by destruct g.
    + lia.
    + done.
    + intros j Hj. replace (8 * k + j) with (Z.of_nat (length bits) + j) by lia. rewrite merge_bit_new by lia.
      rewrite Hbg. apply testbit_bits_value. lia.
Qed.

(** Bits of one byte. *)
Lemma merge_packed_bit `{Target} buf bits g v m :
  let n := Z.of_nat (length bits) in
  v = bits_value g -> n mod 8 + Z.of_nat (length g) <= 8 -> 0 <= m < Z.of_nat (length g) ->
  n + m < 32 * Z.of_nat (length buf) ->
  store_packed_bit [v] (Z.of_nat (length g)) n (n + m) (merged buf (bits ++ take (Z.to_nat m) g))
  = Ok (merged buf (bits ++ take (Z.to_nat (m + 1)) g)).
Proof.
  intros n Hv Hn Hm Hb. pose proof (Z.div_mod n 8 ltac:(lia)) as Hd. pose proof (Z.mod_pos_bound n 8 ltac:(lia)) as Hm8.
  assert (0 <= n) by lia. assert (0 <= n / 8) by (apply Z.div_pos; lia).
  assert (E1 : (n + m) / 8 = n / 8) by (symmetry; apply Z.div_unique with (r := n mod 8 + m); lia).
  assert (E2 : (n + m) mod 8 = n mod 8 + m) by (symmetry; apply Z.mod_unique with (q := n / 8); lia).
  unfold store_packed_bit. replace (n + m - n) with m by lia.
  rewrite !Z.quot_div_nonneg, !Z.rem_mod_nonneg by lia. rewrite E1, E2, (Z.div_small m), (Z.mod_small m) by lia.
  change (load_word [v] 0) with (Ok (A := Z) v). change (Ok ?b ≫= ?f) with (f b). cbv beta.
  set (done := bits ++ take (Z.to_nat m) g). assert (Hlen : Z.of_nat (length done) = n + m)
    by (unfold done; rewrite length_app, length_take; lia).
  destruct (merge_load_byte buf done (n / 8)) as (old & -> & Hold); [lia|]. change (Ok ?b ≫= ?f) with (f b). cbv beta.
  destruct (Z.leb_spec m (n mod 8 + m)); [|lia]. change (Ok ?b ≫= ?f) with (f b). cbv beta.
  destruct (lookup_lt_is_Some_2 g (Z.to_nat m)) as [b Hgb]; [lia|].
  assert (Htake : bits ++ take (Z.to_nat (m + 1)) g = done ++ [b]).
  { unfold done. rewrite <- app_assoc. f_equal. replace (Z.to_nat (m + 1)) with (S (Z.to_nat m)) by lia. by apply take_S_r. }
  rewrite Htake. pose proof (merge_store_byte buf done [b]) as E. cbv zeta in E. rewrite Hlen, E1 in E. apply E; clear E.
  - rewrite E2. cbn [length]. lia.
  - done.
  - lia.
  - apply wrap_range. lia.
  - intros j Hj. rewrite testbit_wrap by lia. destruct (Z.ltb_spec j 8); [|lia]. cbn [andb].
    rewrite !Z.shiftl_1_l, Z.lor_spec, Z.land_spec, testbit_wrap, Z.lnot_spec, Z.shiftl_spec by lia. destruct (Z.ltb_spec j 8); [|lia]. cbn [andb]. rewrite testbit_pow2 by lia.
    replace (n mod 8 + m - m) with (n mod 8) by lia.
    destruct (Z.eqb_spec j (n mod 8 + m)) as [Ej|Ej]; cbn [negb].
    + rewrite andb_false_r. cbn [orb]. replace (8 * (n / 8) + j) with (Z.of_nat (length done) + 0) by lia.
      rewrite merge_bit_new by (cbn; lia). rewrite Z.land_spec, testbit_wrap, testbit_pow2 by lia.
      replace (j - n mod 8) with m by lia. rewrite Z.eqb_refl. destruct (Z.ltb_spec m 8); [|lia]. rewrite andb_true_r.
      rewrite Hv, testbit_bits_value by lia. cbn. by apply nth_lookup_Some.
    + rewrite andb_true_r, Hold by lia.
      assert (Z.testbit (v .& u8 (2 ^ m)) (j - n mod 8) = false) as ->.
      { destruct (Z.ltb_spec (j - n mod 8) 0); [by apply Z.testbit_neg_r|].
        rewrite Z.land_spec, testbit_wrap, testbit_pow2 by lia. destruct (Z.eqb_spec (j - n mod 8) m); [lia|].
        by rewrite andb_false_r, andb_false_r. }
      rewrite orb_false_r. symmetry. apply merge_bit_app; cbn; lia.
Qed.

Lemma merge_packed `{Target} buf bits g v :
  let n := Z.of_nat (length bits) in
  v = bits_value g -> n mod 8 + Z.of_nat (length g) <= 8 -> n + Z.of_nat (length g) <= 32 * Z.of_nat (length buf) ->
  foldl (fun buf i => buf ← buf; store_packed_bit [v] (Z.of_nat (length g)) n i buf) (Ok (merged buf bits))
    (seqZ n (1 * Z.of_nat (length g)))
  = Ok (merged buf (bits ++ g)).
Proof.
  intros n Hv Hn Hb. rewrite Z.mul_1_l.
  assert (Hk : forall k, (k <= length g)%nat ->
    foldl (fun buf i => buf ← buf; store_packed_bit [v] (Z.of_nat (length g)) n i buf) (Ok (merged buf bits))
      (seqZ n (Z.of_nat k)) = Ok (merged buf (bits ++ take k g))).
  { induction k as [|k IH]; intros Hk; [cbn; by rewrite app_nil_r|].
    rewrite Nat2Z.inj_succ, <- Z.add_1_r, seqZ_app, foldl_app, IH by lia. cbn [seqZ].
    change (seqZ (n + Z.of_nat k) 1) with [0 + (n + Z.of_nat k)]. cbn [foldl]. change (Ok ?b ≫= ?f) with (f b). cbv beta.
    rewrite Z.add_0_l. pose proof (merge_packed_bit buf bits g v (Z.of_nat k)) as E. cbv zeta in E. fold n in E.
    rewrite Nat2Z.id in E. rewrite E by lia. do 4 f_equal. lia. }
  specialize (Hk (length g) (le_n _)). by rewrite take_ge in Hk by lia.
Qed.
End merged.
