(* ===== verification/Ft2232Props.v ===== *)
(** The properties of cable_ft2232.c, on any chip that keeps [Mpsse] of Ft2232Facts.v, and a
    chip that does. *)

From S2P Require Import Prelude StateM Tap Cable Parallel Blaster BlasterFacts Chain Ft2232 Ft2232Facts.
From stdpp Require Import list.

Open Scope Z_scope.
Open Scope cword_scope.

(** * Streams *)

Section streams.
Context `{Target, Alloc, Unspecified} `{Mpsse E D dev pending lag most}.
Context (malloc_all : forall n, malloc_ok n = true).
Abbreviation St := (ft2232_t E).
Abbreviation pipe := (pipe (dev := dev) (pending := pending)).
Abbreviation settled := (settled (dev := dev) (pending := pending)).
Abbreviation idle := (idle (dev := dev) (pending := pending)).

Lemma pipe_weaken B B' d expected (s : St) : B <= B' -> pipe B d expected s -> pipe B' d expected s.
Proof.
  intros HB (p & sb & rb & cs & got & []). exists p, sb, rb, cs, got. split; try done; lia.
Qed.

(** [n] bytes that come back, each with [w] bits. *)
Definition pieces (n w : Z) (rs : list (list bool)) : Prop :=
  Z.of_nat (length rs) = n /\ Forall (fun g => Z.of_nat (length g) = w) rs.

(** A part of a stream: the device gets [ps]; [rs], of the shape [n], [w], will come back. *)
Definition sends (m : M St Z) (cost : Z) (read : bool) (ps : list pulse) (n w : Z) : Prop :=
  forall B d expected s, B + cost < 2 ^ 31 -> pipe B d expected s -> wp m (fun _ s' => exists rs,
    pipe (B + cost) (clocks ps d) (expected ++ rs) s'
    /\ (if read then pieces n w rs /\ mjoin rs = samples ps d else rs = [])) s.

Lemma sends_cmd c (read : bool) n w (m : Z -> M St Z) : cmd_ok c ->
  (forall d : D, if read then pieces n w (cmd_replies c d) /\ mjoin (cmd_replies c d) = samples (cmd_pulses c) d
                 else cmd_replies c d = []) ->
  (forall r, r = Z.of_nat (length (encode c)) -> exists x, m r = mret x) -> forall recv,
  (forall d : D, recv = Z.of_nat (length (cmd_replies c d))) ->
  sends (usbconn_ftdi_write (S most) (encode c) recv ≫= m) (Z.of_nat (length (encode c))) read (cmd_pulses c) n w.
Proof.
  intros Hc Hr Hm recv Hrecv B d expected s HB Hp. rewrite (Hrecv d). wp_pure.
  wp_use wp_conn_write as r s1 [-> Hp1]; [done|done|exact HB|exact Hp|].
  destruct (Hm _ eq_refl) as [x ->]. apply wp_ret. eexists. split; [exact Hp1|]. apply Hr.
Qed.

Lemma sends_chunks words read fuel pos n recv : 0 <= pos -> 0 <= n <= 65536 * Z.of_nat fuel ->
  pos + n <= 4 * Z.of_nat (length words) ->
  sends (write_chunks (S most) fuel words pos n read recv) (4 * n) read
    (held false (map (stream_bit words) (seqZ (8 * pos) (8 * n)))) n 8.
Proof.
  revert pos n recv. induction fuel as [|fuel IH]; intros pos n recv Hp Hn Hl B d expected s HB Hpipe.
  { assert (n = 0) as -> by lia. apply wp_ret. exists []. rewrite app_nil_r, Z.add_0_r. by destruct read. }
  cbn [write_chunks]. destruct (Z.leb_spec n 0).
  { assert (n = 0) as -> by lia. apply wp_ret. exists []. rewrite app_nil_r, Z.add_0_r. by destruct read. }
  cbv zeta. set (cur := Z.min n 65536). destruct (copy_bytes_ok words pos cur) as (data & Hd & Hlen & Hb); [lia..|].
  wp_pure. eapply wp_lift; [done|]. wp_pure.
  assert (Henc : opcode bytes_op read :: u8 (cur - 1) :: u8 ((cur - 1) >> 8) :: data = encode (CBytes read data))
    by (cbn [encode]; by rewrite Hlen).
  assert (Hel : Z.of_nat (length (encode (CBytes read data))) = cur + 3) by (cbn [encode length]; lia).
  assert (Hrecv : (if read then cur else 0) = Z.of_nat (length (cmd_replies (CBytes read data) d)))
    by (destruct read; cbn; rewrite ?chunks_length; lia).
  rewrite Henc, Hrecv. wp_use (wp_conn_write malloc_all B d expected s) as r s1 [-> Hp1]; [cbn; lia|lia|done|].
  rewrite Hel, Z.eqb_refl in *. cbn [negb].
  eapply wp_mono; [apply (IH (pos + cur) (n - cur) _ ltac:(lia) ltac:(lia) ltac:(lia)); [|exact Hp1]; lia|].
  intros _ s' (rs & Hp2 & Hrs). exists (cmd_replies (CBytes read data) d ++ rs).
  assert (Hps : held false (map (stream_bit words) (seqZ (8 * pos) (8 * n)))
    = cmd_pulses (CBytes read data) ++ held false (map (stream_bit words) (seqZ (8 * (pos + cur)) (8 * (n - cur))))).
  { cbn [cmd_pulses]. rewrite Hb, <- held_app, <- map_app. do 2 f_equal.
    replace (8 * (pos + cur)) with (8 * pos + 8 * cur) by lia. rewrite <- seqZ_app by lia. f_equal. lia. }
  rewrite Hps, clocks_app, app_assoc. split.
  - eapply pipe_weaken; [|exact Hp2]. lia.
  - destruct read; [|by subst rs]. destruct Hrs as [[Hn1 Hf] Hj]. cbn [cmd_replies]. repeat split.
    + rewrite length_app, chunks_length. lia.
    + apply Forall_app_2; [|done]. eapply List.Forall_impl; [|apply chunks_bytes]. intros g Hg. cbv beta in *. lia.
    + rewrite join_app, Hj, chunks_join, samples_app. done.
Qed.

Lemma stream_byte_ok words k : 0 <= k < 4 * Z.of_nat (length words) -> exists b,
  stream_byte words k = Ok b /\ byte_bits b = map (stream_bit words) (seqZ (8 * k) 8).
Proof.
  intros Hk. destruct (word_byte words k Hk) as (w & Hw & Hb). eexists. split; [|exact Hb].
  unfold stream_byte. by rewrite Hw.
Qed.

(** One chunk is enough. *)
Lemma last_chunk fuel words off i read tms recv r x : r = x ->
  exists y, (if negb (r =? x) then mret (-1)
             else write_bit_chunks (U := E) (S most) fuel words off i 0 read tms recv) = mret y.
Proof. intros ->. rewrite Z.eqb_refl. cbn [negb]. destruct fuel; by eexists. Qed.

Lemma sends_bits words read off len : 0 < len <= 8 -> 0 <= off -> 8 * off + len <= 32 * Z.of_nat (length words) ->
  sends (cable_ft2232_write_bits (S most) words off len read false) 3 read
    (held false (map (stream_bit words) (seqZ (8 * off) len))) 1 len.
Proof.
  intros Hl Ho Hw B d expected s HB Hpipe. unfold cable_ft2232_write_bits. destruct (Z.eqb_spec len 0); [lia|].
  rewrite malloc_all. cbn [negb]. replace (Z.to_nat len) with (S (Z.to_nat (len - 1))) by lia. cbn [write_bit_chunks].
  destruct (Z.leb_spec len 0); [lia|]. cbv zeta. rewrite Z.min_l by lia. change (Z.quot 0 8) with 0. rewrite Z.add_0_r, Z.sub_diag.
  destruct (stream_byte_ok words off) as (b & Hb & Hbits); [lia|]. rewrite Hb. wp_pure. eapply wp_lift; [done|].
  assert (Hps : held false (map (stream_bit words) (seqZ (8 * off) len)) = cmd_pulses (CBits read len b)).
  { cbn [cmd_pulses]. rewrite Hbits. f_equal. change (map ?f ?l) with (f <$> l). rewrite <- fmap_take. f_equal.
    replace (seqZ (8 * off) 8) with (seqZ (8 * off) len ++ seqZ (8 * off + len) (8 - len))
      by (rewrite <- seqZ_app by lia; f_equal; lia).
    rewrite take_app_le by (rewrite length_seqZ; lia). by rewrite take_ge by (rewrite length_seqZ; lia). }
  rewrite Hps. apply (sends_cmd (CBits read len b)); try done; try (cbn; lia).
  - intros d0. destruct read; [|done]. cbn [cmd_replies]. split; [|apply app_nil_r].
    split; [done|]. apply List.Forall_cons; [|done]. rewrite samples_length. cbn [cmd_pulses]. unfold held.
    rewrite length_map, length_take, byte_bits_length. lia.
  - intros r Hr. by apply last_chunk.
  - intros d0. by destruct read.
Qed.

Lemma sends_tms words read off k b : 0 <= k < 8 -> 0 <= off -> 8 * off + k < 32 * Z.of_nat (length words) ->
  stream_byte words off = Ok b ->
  sends (cable_ft2232_write_bits (S most) [b >> k] 0 1 read true) 3 read
    [Pulse true (stream_bit words (8 * off + k)) false] 1 1.
Proof.
  intros Hk Ho Hw Hb B d expected s HB Hpipe. unfold cable_ft2232_write_bits. change (1 =? 0) with false.
  rewrite malloc_all. cbn [negb]. cbv iota. change (Z.to_nat 1) with 1%nat. cbn [write_bit_chunks].
  change (1 <=? 0) with false. cbv zeta iota. change (Z.min 1 1) with 1. change (1 - 1) with 0.
  destruct (stream_byte_ok words off) as (b' & Hb' & Hbits); [lia|]. rewrite Hb in Hb'. injection Hb' as <-.
  change (stream_byte [b >> k] (0 + Z.quot 0 8)) with (Ok (((b >> k) >> 0) .& 0xff)). wp_pure. eapply wp_lift; [done|].
  set (v := u8 (0x01 .| Z.shiftl ((((b >> k) >> 0) .& 0xff) >> Z.rem 0 8) 7)).
  assert (Hps : [Pulse true (stream_bit words (8 * off + k)) false] = cmd_pulses (CTms read v)).
  { cbn [cmd_pulses]. unfold v. rewrite !testbit_wrap, !Z.lor_spec, !Z.shiftl_spec by lia.
    change (Z.testbit 1 0) with true. change (Z.testbit 1 7) with false. cbn [orb andb]. change (7 <? 8) with true.
    change (Z.rem 0 8) with 0. change (7 - 7) with 0. rewrite !Z.shiftr_0_r. cbn [andb].
    change 0xff with (2 ^ 8 - 1). rewrite land_mask, testbit_wrap, Z.shiftr_spec by lia. change (0 <? 8) with true. cbn [andb].
    do 2 f_equal. rewrite Z.add_0_l.
    assert (Hn : byte_bits b !! Z.to_nat k = Some (Z.testbit b k)).
    { unfold byte_bits. change (map ?f ?l) with (f <$> l). rewrite list_lookup_fmap, lookup_seqZ_lt by lia. cbn. do 2 f_equal. lia. }
    rewrite Hbits in Hn. change (map ?f ?l) with (f <$> l) in Hn. rewrite list_lookup_fmap, lookup_seqZ_lt in Hn by lia.
    cbn in Hn. injection Hn as Hn. rewrite <- Hn. f_equal. lia. }
  assert (Hlow : cmd_ok (CTms read v)).
  { cbn [cmd_ok]. unfold v. rewrite testbit_wrap, Z.lor_spec, Z.shiftl_spec by lia.
    assert (forall x, Z.testbit x (1 - 7) = false) as -> by (intros x; by apply Z.testbit_neg_r). done. }
  rewrite Hps. apply (sends_cmd (CTms read v)); try done; try (cbn; lia).
  - intros d0. destruct read; [|done]. cbn [cmd_replies]. split; [|apply app_nil_r].
    split; [done|]. apply List.Forall_cons; [|done]. by rewrite samples_length.
  - intros r ->. by eexists.
  - intros d0. by destruct read.
Qed.

(** A part that may be left out. *)
Lemma sends_if (b : bool) m cost (read : bool) ps n w : (b = true -> sends m cost read ps n w) -> (b = false -> ps = []) ->
  0 <= cost -> forall B d expected s, B + cost < 2 ^ 31 -> pipe B d expected s ->
  wp (if b then m else mret 0) (fun _ s' => exists rs,
    pipe (B + cost) (clocks ps d) (expected ++ rs) s'
    /\ (if read then (if b then pieces n w rs else rs = []) /\ mjoin rs = samples ps d else rs = [])) s.
Proof.
  intros Hm Hps Hcost B d expected s HB Hp. destruct b; [by apply (Hm eq_refl)|].
  rewrite (Hps eq_refl). apply wp_ret. exists []. rewrite app_nil_r. split; [eapply pipe_weaken; [|done]; lia|by destruct read].
Qed.

(** The whole bytes of a stream, the bits behind them and the one that goes with TMS. *)
Definition part_bytes (len : Z) (tms : bool) : Z := Z.quot (len - if tms then 1 else 0) 8.
Definition part_bits (len : Z) (tms : bool) : Z := Z.rem (len - if tms then 1 else 0) 8.
Definition parts (len : Z) (tms : bool) (rs : list (list bool)) : Prop := exists r1 r2 r3, rs = r1 ++ r2 ++ r3
  /\ (if 0 <? part_bytes len tms then pieces (part_bytes len tms) 8 r1 else r1 = [])
  /\ (if 0 <? part_bits len tms then pieces 1 (part_bits len tms) r2 else r2 = [])
  /\ (if tms then pieces 1 1 r3 else r3 = []).

Lemma part_sizes len tms : 0 < len -> len = 8 * part_bytes len tms + part_bits len tms + (if tms then 1 else 0)
  /\ 0 <= part_bytes len tms /\ 0 <= part_bits len tms < 8.
Proof.
  intros Hl. unfold part_bytes, part_bits. assert (0 <= len - if tms then 1 else 0) by (destruct tms; lia).
  rewrite Z.quot_div_nonneg, Z.rem_mod_nonneg by lia.
  pose proof (Z.div_mod (len - if tms then 1 else 0) 8 ltac:(lia)).
  pose proof (Z.mod_pos_bound (len - if tms then 1 else 0) 8 ltac:(lia)).
  assert (0 <= (len - if tms then 1 else 0) / 8) by (apply Z.div_pos; lia). lia.
Qed.

Lemma stream_parts words len tms : 0 < len -> let nb := part_bytes len tms in let nr := part_bits len tms in
  shift_pulses (stream_bits words len) tms
  = held false (map (stream_bit words) (seqZ (8 * 0) (8 * nb))) ++ held false (map (stream_bit words) (seqZ (8 * nb) nr))
    ++ (if tms then [Pulse true (stream_bit words (8 * nb + nr)) false] else []).
Proof.
  intros Hl nb nr. destruct (part_sizes len tms Hl) as (El & Hnb & Hnr). fold nb nr in El, Hnb, Hnr.
  rewrite app_assoc, <- held_app, <- map_app. change (8 * 0) with 0. replace (8 * nb) with (0 + 8 * nb) at 2 by lia.
  rewrite <- seqZ_app by lia. fold (stream_bits words (8 * nb + nr)). rewrite held_low. destruct tms.
  - by rewrite El, stream_bits_snoc, shift_pulses_snoc by lia.
  - by rewrite El, Z.add_0_r, app_nil_r.
Qed.

(** A stream that is sent, and what will come back for it. *)
Lemma wp_write_stream words len read tms d (s : St) : 0 < len <= 32 * Z.of_nat (length words) -> len < 2 ^ 31 ->
  pipe 0 d [] s -> let ps := shift_pulses (stream_bits words len) tms in
  wp (cable_ft2232_write_stream (S most) words len read tms) (fun r s' => r = 0 /\ exists rs,
    pipe (2 ^ 31 - 1) (clocks ps d) rs s' /\ (if read then parts len tms rs /\ mjoin rs = samples ps d else rs = [])) s.
Proof.
  intros Hl Hmax Hp ps. unfold cable_ft2232_write_stream. cbv zeta. fold (part_bytes len tms) (part_bits len tms).
  destruct (part_sizes len tms) as (El & Hnb & Hnr); [lia|]. set (nb := part_bytes len tms) in *. set (nr := part_bits len tms) in *.
  assert (nb < 2 ^ 28 /\ 8 * nb + nr <= len) by (destruct tms; lia).
  wp_pure. eapply wp_mono; [apply (sends_if _ _ (4 * nb) read
    (held false (map (stream_bit words) (seqZ (8 * 0) (8 * nb)))) nb 8) with (B := 0) (d := d) (expected := []); [| |lia|lia|exact Hp]|].
  { intros _. unfold cable_ft2232_write_bytes. destruct (Z.eqb_spec nb 0) as [->|Hne].
    - intros B' d' e' s1 HB' Hp'. apply wp_ret. exists []. rewrite app_nil_r, Z.add_0_r. by destruct read.
    - rewrite malloc_all. cbn [negb]. rewrite Z.quot_div_nonneg by lia.
      pose proof (Z.div_mod nb 65536 ltac:(lia)). pose proof (Z.mod_pos_bound nb 65536 ltac:(lia)).
      apply sends_chunks; lia. }
  { intros Hb%Z.ltb_ge. by replace nb with 0 by lia. }
  intros _ s1 (r1 & Hp1 & Hr1). cbn [app] in Hp1. wp_pure.
  eapply wp_mono; [apply (sends_if _ _ 3 read (held false (map (stream_bit words) (seqZ (8 * nb) nr))) 1 nr)
    with (B := 0 + 4 * nb); [| |lia|lia|exact Hp1]|].
  { intros Hb%Z.ltb_lt. apply sends_bits; lia. }
  { intros Hb%Z.ltb_ge. by replace nr with 0 by lia. }
  intros _ s2 (r2 & Hp2 & Hr2). wp_pure.
  eapply wp_mono; [apply (sends_if _ _ 3 read (if tms then [Pulse true (stream_bit words (8 * nb + nr)) false] else []) 1 1)
    with (B := 0 + 4 * nb + 3); [| |lia|lia|exact Hp2]|].
  { intros Hb. destruct tms; [|done]. destruct (stream_byte_ok words nb) as (b & Hby & _); [lia|].
    intros B' d' e' s3 HB' Hp'. wp_pure. eapply wp_lift; [exact Hby|]. apply (sends_tms words); [lia..|done|done|done]. }
  { by destruct tms. }
  intros _ s3 (r3 & Hp3 & Hr3). apply wp_ret. split; [done|]. exists (r1 ++ r2 ++ r3). unfold ps.
  rewrite stream_parts by lia. fold nb nr. rewrite !clocks_app. split.
  - rewrite app_assoc. eapply pipe_weaken; [|exact Hp3]. lia.
  - destruct read; [|by rewrite Hr1, Hr2, Hr3]. destruct Hr1 as [Hs1 Hj1], Hr2 as [Hs2 Hj2], Hr3 as [Hs3 Hj3]. split.
    + exists r1, r2, r3. split; [done|]. fold nb nr. by destruct tms.
    + by rewrite !join_app, Hj1, Hj2, Hj3, !samples_app.
Qed.

(** Bytes that come back into a buffer that has [bits] already. *)
Lemma wp_read_bytes B d rs e2 buf bits n (s : St) : B < 2 ^ 31 -> pieces n 8 rs -> 0 < n -> pipe B d (rs ++ e2) s ->
  bits = [] -> 8 * n <= 32 * Z.of_nat (length buf) ->
  wp (cable_ft2232_read_packed_bits (S most) (merged buf bits) n 8 0) (fun r s' =>
    r = (0, merged buf (bits ++ mjoin rs)) /\ settled B d e2 s') s.
Proof.
  intros HB [Hn Hf] Hpos Hp -> Hl. unfold cable_ft2232_read_packed_bits. destruct (Z.eqb_spec n 0); [lia|].
  change (8 =? 0) with false. cbn [orb]. rewrite malloc_all. cbn [negb]. rewrite <- Hn. wp_pure.
  wp_use (wp_conn_read malloc_all B d rs e2) as r s1 (data & -> & Hm & Hp1); [done|destruct rs; [cbn in *; lia|done]|exact Hp|].
  rewrite Hn. destruct (Z.ltb_spec n 0); [lia|]. destruct (Z.ltb_spec n 1); [lia|]. change (8 <? 8) with false.
  change (8 =? 8) with true. cbv zeta iota. wp_pure. pose proof (Forall2_length _ _ _ Hm).
  change (Z.quot 0 8) with 0. rewrite take_ge by lia. eapply wp_lift; [|by apply wp_ret].
  apply (merge_store_row buf rs); [|done|done|lia]. eapply List.Forall_impl; [|exact Hf]. intros g Hg. cbv beta in Hg. lia.
Qed.

(** A byte with some bits. *)
Lemma wp_read_bits B d g e2 buf bits w (s : St) : B < 2 ^ 31 -> 1 <= w < 8 -> Z.of_nat (length g) = w ->
  pipe B d ([g] ++ e2) s -> let n := Z.of_nat (length bits) in
  n mod 8 + w <= 8 -> n + w <= 32 * Z.of_nat (length buf) ->
  wp (cable_ft2232_read_packed_bits (S most) (merged buf bits) 1 w n) (fun r s' =>
    r = (0, merged buf (bits ++ g)) /\ settled B d e2 s') s.
Proof.
  intros HB Hw Hg Hp n Hn Hl. unfold cable_ft2232_read_packed_bits. change (1 =? 0) with false.
  destruct (Z.eqb_spec w 0); [lia|]. cbn [orb]. rewrite malloc_all. cbn [negb]. wp_pure.
  wp_use (wp_conn_read malloc_all B d [g] e2) as r s1 (data & -> & Hm & Hp1); [done|done|exact Hp|].
  apply Forall2_cons_inv_l in Hm as (b & rest & [_ Hb] & Hm & ->). apply Forall2_nil_inv_l in Hm as ->.
  change (Z.of_nat (length [g])) with 1. change (1 <? 0) with false. change (1 <? 1) with false.
  destruct (Z.ltb_spec w 8); [|lia]. cbv zeta iota. cbn [map]. wp_pure. eapply wp_lift; [|by apply wp_ret].
  rewrite <- Hg in Hn, Hl |- *. by apply merge_packed.
Qed.

Lemma pieces_length n w rs : pieces n w rs -> Z.of_nat (length (mjoin rs)) = n * w.
Proof.
  intros [<- Hf]. induction Hf as [|g rs Hg Hf IH]; [done|]. change (mjoin (g :: rs)) with (g ++ mjoin rs).
  rewrite length_app. cbn [length]. lia.
Qed.

(** A single byte that comes back. *)
Lemma pieces_single w rs : pieces 1 w rs -> exists g, rs = [g] /\ Z.of_nat (length g) = w.
Proof.
  intros [Hn Hf]. destruct rs as [|g [|]]; cbn in Hn; try lia. exists g. split; [done|]. by apply List.Forall_inv in Hf.
Qed.

(** [settled] once something has been read. *)
Definition reading (read : bool) (B : Z) (d : D) (expected : list (list bool)) (s : St) : Prop :=
  if read then settled B d expected s else pipe B d expected s.
Lemma reading_pipe read B d expected s : reading read B d expected s -> pipe B d expected s.
Proof. destruct read; [apply settled_pipe|done]. Qed.

(** A part of what comes back for a stream, which may be left out. *)
Lemma wp_read_part B d (q b : bool) rs e2 buf bits n w (s : St) : B < 2 ^ 31 ->
  (if b then pieces n w rs else rs = []) -> reading q B d (rs ++ e2) s -> let off := Z.of_nat (length bits) in
  (b = true -> (w = 8 /\ bits = [] /\ 0 < n \/ n = 1 /\ 1 <= w < 8 /\ off mod 8 + w <= 8)
    /\ off + n * w <= 32 * Z.of_nat (length buf)) ->
  wp (if b then cable_ft2232_read_packed_bits (S most) (merged buf bits) n w off else mret (0, merged buf bits))
    (fun r s' => (exists e, r = (e, merged buf (bits ++ mjoin rs))) /\ reading (q || b) B d e2 s') s.
Proof.
  intros HB Hr Hq off Hb. destruct b.
  - rewrite orb_true_r. apply reading_pipe in Hq. destruct (Hb eq_refl) as [[(-> & -> & Hn)|(-> & Hw & Ho)] Hl].
    + eapply wp_mono; [apply (wp_read_bytes B d rs); try done; cbn in *; lia|]. intros r s' [-> Hs]. eauto.
    + apply pieces_single in Hr as (g & -> & Hg).
      eapply wp_mono; [apply (wp_read_bits B d g e2); try done; lia|]. intros r s' [-> Hs]. cbn. rewrite app_nil_r. eauto.
  - subst rs. apply wp_ret. cbn in *. rewrite app_nil_r, orb_false_r. eauto.
Qed.

(** What has come back for a stream goes into the buffer. *)
Lemma wp_read_stream B d rs len tms buf (s : St) : B < 2 ^ 31 -> 0 < len <= 32 * Z.of_nat (length buf) ->
  parts len tms rs -> pipe B d rs s ->
  wp (cable_ft2232_read_stream (S most) buf len tms) (fun r s' => r = (0, merged buf (mjoin rs)) /\ settled B d [] s') s.
Proof.
  intros HB Hl (r1 & r2 & r3 & -> & Hr1 & Hr2 & Hr3) Hp. unfold cable_ft2232_read_stream. cbv zeta.
  fold (part_bytes len tms) (part_bits len tms). destruct (part_sizes len tms) as (El & Hnb & Hnr); [lia|].
  set (nb := part_bytes len tms) in *. set (nr := part_bits len tms) in *.
  assert (Hlen1 : Z.of_nat (length (mjoin r1)) = nb * 8).
  { destruct (Z.ltb_spec 0 nb); [by apply pieces_length|subst r1; cbn; lia]. }
  assert (Hlen2 : Z.of_nat (length (mjoin r1 ++ mjoin r2)) = nr + nb * 8).
  { rewrite length_app. destruct (Z.ltb_spec 0 nr); [rewrite Nat2Z.inj_add, (pieces_length 1 nr r2) by done; lia|subst r2; cbn; lia]. }
  assert (nb * 8 + nr <= len) by (destruct tms; lia).
  pose proof (wp_read_part B d false (0 <? nb) r1 (r2 ++ r3) buf [] nb 8 s HB Hr1 Hp) as W. cbv zeta in W.
  rewrite merge_nil in W. cbn [length Z.of_nat app orb] in W. wp_pure. eapply wp_mono; [apply W|].
  { intros Hb%Z.ltb_lt. split; [by left|lia]. }
  intros r s1 [[e1 ->] Hp1]. cbn [app] in *. wp_pure. rewrite <- Hlen1.
  eapply wp_mono; [apply (wp_read_part B d (0 <? nb) (0 <? nr) r2 r3 buf (mjoin r1) 1 nr); [done|done|exact Hp1|]|].
  { intros Hb%Z.ltb_lt. rewrite Hlen1, Z.mod_mul by lia. split; [right|]; lia. }
  intros r s2 [[e2 ->] Hp2]. wp_pure. rewrite Hlen1, <- Hlen2.
  eapply wp_mono; [apply (wp_read_part B d ((0 <? nb) || (0 <? nr)) (0 <? if tms then 1 else 0) r3 [] buf (mjoin r1 ++ mjoin r2) 1 1); [done|by destruct tms|by rewrite app_nil_r|]|].
  { intros Hb. destruct tms; [|done]. rewrite Hlen2, Z.mod_add by lia. rewrite Z.mod_small by lia. split; [right|]; lia. }
  intros r s3 [[e3 ->] Hp3]. apply wp_ret. rewrite !join_app, app_assoc. split; [done|].
  destruct (Z.ltb_spec 0 nb), (Z.ltb_spec 0 nr), tms; try exact Hp3; lia.
Qed.
End streams.

(** * The driver *)

Section laws.
Context `{Target, Alloc, Unspecified} `{Mpsse E D dev pending lag most} `{!IgnoresTrst D}.
Context (malloc_all : forall n, malloc_ok n = true).
Abbreviation St := (ft2232_t E).
Abbreviation driver := (ft2232_cable_driver (U := E) (S most)).
Abbreviation pipe := (pipe (dev := dev) (pending := pending)).
Abbreviation idle := (idle (dev := dev) (pending := pending)).

Lemma idle_pipe d (s : St) : idle d s -> pipe 0 d [] s.
Proof. apply settled_pipe. Qed.

Lemma wp_cable_flush B d (s : St) : B < 2 ^ 31 -> pipe B d [] s ->
  wp (cable_ftdi_flush (S most)) (fun e s' => e = 0 /\ idle d s') s.
Proof.
  intros HB Hp. unfold cable_ftdi_flush. wp_pure. wp_use (wp_ftdi_flush malloc_all B d []) as r s1 [_ Hs]; [done|done|].
  apply wp_ret. split; [done|]. by eapply settled_idle.
Qed.

Lemma wp_stream_out words len last d (s : St) : 0 < len <= 32 * Z.of_nat (length words) -> len < 2 ^ 31 -> idle d s ->
  wp (stream_out_func driver words len last) (fun e s' => e = 0
    /\ idle (clocks (shift_pulses (stream_bits words len) (truth last)) d) s') s.
Proof.
  intros Hl Hm Hi. unfold stream_out_func, ft2232_cable_driver, cable_ftdi_write_stream. wp_pure.
  wp_use (wp_write_stream malloc_all words len false (truth last) d) as r s1 [-> (rs & Hp & ->)]; [done|done|by apply idle_pipe|].
  change (0 <? 0) with false. cbv zeta iota. wp_pure. wp_use wp_cable_flush as e s2 [_ Hs]; [|exact Hp|]; [lia|].
  by apply wp_ret.
Qed.

Lemma wp_stream_inout words buf len last d (s : St) : 0 < len <= 32 * Z.of_nat (length words) ->
  len <= 32 * Z.of_nat (length buf) -> len < 2 ^ 31 -> idle d s ->
  let ps := shift_pulses (stream_bits words len) (truth last) in
  wp (stream_inout_func driver words buf len last) (fun r s' => r = (0, merged buf (samples ps d)) /\ idle (clocks ps d) s') s.
Proof.
  intros Hl Hb Hm Hi ps. unfold stream_inout_func, ft2232_cable_driver, cable_ftdi_read_stream. wp_pure.
  wp_use (wp_write_stream malloc_all words len true (truth last) d) as r s1 [-> (rs & Hp & Hparts & Hj)]; [done|done|by apply idle_pipe|].
  change (0 <? 0) with false. cbv zeta iota. wp_pure.
  wp_use (wp_read_stream malloc_all (2 ^ 31 - 1) _ rs len) as r s2 [-> Hs]; [lia|lia|done|exact Hp|].
  wp_pure. unfold ps. rewrite <- Hj. split; [done|]. by eapply settled_idle.
Qed.

(** The stream of one bit that a packet is. *)
Lemma packet_stream p d : let b := if truth (p .& TDO) then 0x01 else 0x00 in
  let ps := shift_pulses (stream_bits [b] 1) (truth (p .& TMS)) in
  clocks ps d = clock (packet_pulse p) d /\ samples ps d = [tdo d].
Proof.
  change TDO with (2 ^ 0). change TMS with (2 ^ 1). rewrite !truth_land_pow2 by lia. cbv zeta.
  split; [|done]. rewrite (ignores_trst (packet_pulse p)). unfold packet_pulse. by destruct (Z.testbit p 0).
Qed.

Lemma wp_bit_out p d (s : St) : idle d s ->
  wp (bit_out_func driver p) (fun e s' => e = 0 /\ idle (clock (packet_pulse p) d) s') s.
Proof.
  intros Hi. destruct (packet_stream p d) as [Hc _]. rewrite <- Hc. unfold bit_out_func, ft2232_cable_driver, cable_ftdi_write_bit.
  cbv zeta. wp_pure.
  wp_use (wp_write_stream malloc_all _ 1 false) as r s1 [-> (rs & Hp & ->)]; [cbn; lia|lia|by apply idle_pipe|].
  change (0 <? 0) with false. cbv zeta iota. wp_pure. wp_use wp_cable_flush as e s2 [_ Hs]; [|exact Hp|]; [lia|].
  by apply wp_ret.
Qed.

Lemma merge_one_bit b : let v := u8 (slot_word (merged [None] [b]) 0) in
  Z.testbit v 0 = b /\ v >> 1 = u8 unspecified >> 1.
Proof.
  cbv zeta. assert (Hv : forall j, 0 <= j < 8 -> Z.testbit (u8 (slot_word (merged [None] [b]) 0)) j
    = merge_bit [None] [b] j).
  { intros j Hj. rewrite testbit_wrap by lia. destruct (Z.ltb_spec j 8); [|lia]. cbn [andb].
    rewrite slot_word_merge by (cbn; lia). f_equal. }
  split; [by rewrite Hv by lia|]. apply Z.bits_inj'. intros j Hj. rewrite !Z.shiftr_spec by lia.
  destruct (Z.ltb_spec (j + 1) 8).
  - rewrite Hv by lia. unfold merge_bit, slot_bit. cbn [length]. destruct (Z.ltb_spec (j + 1) (Z.of_nat 1)); [lia|].
    rewrite Z.div_small, Z.mod_small by lia. unfold slot_word. cbn [lookup list_lookup Z.to_nat mjoin option_join from_option].
    rewrite !testbit_wrap by lia. destruct (Z.ltb_spec (j + 1) 8), (Z.ltb_spec (j + 1) 32); done || lia.
  - by rewrite !(testbit_word 8) by (lia || apply wrap_range; lia).
Qed.

Lemma wp_bit_inout p d (s : St) : idle d s ->
  wp (bit_inout_func driver p) (fun r s' => fst r = 0 /\ Z.testbit (snd r) 0 = tdo d
    /\ snd r >> 1 = u8 unspecified >> 1 /\ idle (clock (packet_pulse p) d) s') s.
Proof.
  intros Hi. destruct (packet_stream p d) as [Hc Hs]. rewrite <- Hc.
  unfold bit_inout_func, ft2232_cable_driver, cable_ftdi_read_write_bit. cbv zeta. wp_pure.
  wp_use (wp_write_stream malloc_all _ 1 true) as r s1 [-> (rs & Hp & Hparts & Hj)]; [cbn; lia|lia|by apply idle_pipe|].
  change (0 <? 0) with false. cbv zeta iota. wp_pure.
  wp_use (wp_read_stream malloc_all (2 ^ 31 - 1) _ rs 1 _ [None]) as r s2 [-> Hs2]; [lia|cbn; lia|done|exact Hp|].
  wp_pure. cbn [fst snd]. rewrite Hj, Hs. destruct (merge_one_bit (tdo d)) as [H6 H7].
  split; [done|]. split; [done|]. split; [done|]. by eapply settled_idle.
Qed.

(** ** Setting up *)

Lemma wp_ftdi c B d expected (s : St) : pipe B d expected s -> wp (my_ftdi c) (fun r s' => 0 <= r
  /\ (forall v p, c = ftdi_usb_open_desc v p -> r = 0) /\ pipe B d expected s') s.
Proof.
  intros (p & sb & rb & cs & got & Hq). destruct (mpsse_call c (libftdi s)) as (r & e & Hc & Hr & Hd & Hp & Ho).
  unfold wp, my_ftdi. rewrite Hc. eexists _, _. split; [done|]. split; [done|]. split; [done|].
  exists p, sb, rb, cs, got. destruct Hq. apply Forall2_nil_inv_l in q_due.
  split; cbn [ft2232_device libftdi]; rewrite ?Hd; try done. by rewrite Hp.
Qed.

Lemma wp_purge B d expected (s : St) : pipe B d expected s ->
  wp seq_purge (fun r s' => 0 <= r /\ pipe B d expected s') s.
Proof.
  intros Hp. unfold seq_purge. wp_pure. wp_use wp_ftdi as r s1 (Hr & _ & Hp1); [exact Hp|].
  destruct (Z.leb_spec 0 r); [|lia]. destruct Hp1 as (p & sb & rb & cs & got & []). apply Forall2_nil_inv_l in q_due.
  destruct (mpsse_read 1 (libftdi s1)) as (data & e & Hrd & Hd & Hcase); [lia|]. rewrite q_due in Hcase.
  assert (data = [] /\ pending e = []) as [-> He] by (destruct Hcase as [[-> ->]|(-> & -> & _)]; done).
  wp_pure. unfold wp at 1, my_ftdi_read_data. rewrite Hrd. eexists _, _. split; [done|]. apply wp_ret. split; [done|].
  exists p, sb, rb, cs, got. split; cbn [ft2232_device libftdi]; rewrite ?Hd; try done. by rewrite He.
Qed.

Lemma wp_if_ok (m next : M St Z) (P : St -> Prop) Q s :
  wp m (fun r s' => 0 <= r /\ P s') s -> (forall s', P s' -> wp next Q s') -> wp (if_ok m next) Q s.
Proof.
  intros Hm Hn. unfold if_ok. wp_pure. eapply wp_mono; [exact Hm|]. intros r s' [Hr HP].
  destruct (Z.leb_spec 0 r); [by apply Hn|lia].
Qed.

Lemma wp_call c B d expected (s : St) : pipe B d expected s ->
  wp (my_ftdi c) (fun r s' => 0 <= r /\ pipe B d expected s') s.
Proof. intros Hp. eapply wp_mono; [by apply wp_ftdi|]. by intros r s' (Hr & _ & Hs). Qed.

Lemma wp_reset d B expected (s : St) : pipe B d expected s ->
  wp seq_reset (fun r s' => 0 <= r /\ pipe B d expected s') s.
Proof.
  intros Hp. unfold seq_reset. wp_pure. wp_use wp_call as r s1 [Hr Hp1]; [exact Hp|].
  destruct (Z.ltb_spec r 0); [lia|]. wp_pure. wp_use wp_purge as r' s2 [Hr' Hp2]; [exact Hp1|].
  destruct (Z.ltb_spec r' 0); [lia|]. by apply wp_ret.
Qed.

(** Commands that set the chip up. *)
Lemma wp_setup cs B d (s : St) : Forall cmd_ok cs -> cmds_pulses cs = [] -> (forall d : D, cmds_replies cs d = []) ->
  B + Z.of_nat (length (encodes cs)) < 2 ^ 31 -> pipe B d [] s ->
  wp (usbconn_ftdi_write (S most) (encodes cs) 0) (fun r s' => r = Z.of_nat (length (encodes cs))
    /\ pipe (B + Z.of_nat (length (encodes cs))) d [] s') s.
Proof.
  intros Hc Hps Hrs HB Hp. pose proof (wp_conn_writes malloc_all B d [] s cs Hc HB Hp) as W.
  rewrite Hps, Hrs in W. exact W.
Qed.

Lemma wp_open_mpsse d (s : St) : idle d s -> wp (usbconn_ftdi_mpsse_open (S most)) (fun r s' => r = 0 /\ idle d s') s.
Proof.
  intros Hi. pose proof Hi as (p & sb & rb & Hq). unfold usbconn_ftdi_mpsse_open, usbconn_ftdi_common_open.
  wp_pure. wp_use wp_params as p' s' [-> ->]; [exact Hq|]. wp_pure. wp_pure.
  wp_use wp_ftdi as r s1 (_ & Hr & Hp1); [by apply idle_pipe|]. rewrite (Hr _ _ eq_refl). change (truth 0) with false.
  cbv iota. apply wp_ret. change (0 <? 0) with false. cbv iota. wp_pure.
  eapply wp_mono with (P := fun r s' => 0 <= r /\ pipe 0 d [] s').
  - eapply wp_if_ok; [by apply wp_reset|]. intros s2 Hp2. eapply wp_if_ok; [by apply wp_purge|]. intros s3 Hp3.
    do 5 (eapply wp_if_ok; [by apply wp_call|]; clear dependent s3; intros s3 Hp3).
    eapply wp_if_ok; [by apply wp_purge|]. intros s4 Hp4.
    eapply (wp_if_ok _ _ (pipe 3 d [])).
    { eapply wp_mono; [apply (wp_setup [CDivisor 0 0] 0 d); [by repeat (apply List.Forall_cons; [done|])|done|done|done|exact Hp4]|]. by intros r' s' [-> Hs]. }
    intros s5 Hp5. eapply (wp_if_ok _ _ (pipe 4 d [])).
    { eapply wp_mono; [apply (wp_setup [CLoopbackEnd] 3 d); [by repeat (apply List.Forall_cons; [done|])|done|done|done|exact Hp5]|]. by intros r' s' [-> Hs]. }
    intros s6 Hp6. eapply (wp_if_ok _ _ (pipe 0 d [])).
    { pose proof Hp6 as (p6 & sb6 & rb6 & cs6 & got6 & Hq6). unfold usbconn_ftdi_read. wp_pure. wp_pure.
      wp_use wp_params as p' s' [-> ->]; [exact Hq6|]. rewrite (q_ftdic _ _ _ _ _ _ _ _ _ _ Hq6). cbn [negb]. wp_pure.
      wp_use (wp_ftdi_flush malloc_all 4 d []) as r' s7 [Hr' Hs7]; [done|exact Hp6|].
      destruct (Z.ltb_spec r' 0); [lia|]. apply wp_ret. apply wp_ret. split; [done|]. by eapply idle_pipe, settled_idle. }
    intros s7 Hp7. eapply wp_if_ok; [by apply wp_call|]. intros s8 Hp8. by apply wp_purge.
  - intros r' s2 [Hr' Hs2]. destruct (Z.ltb_spec r' 0); [lia|]. apply wp_ret. split; [done|]. by apply pipe_idle.
Qed.

(** The structures that have been allocated. *)
Lemma connected (u : E) : pending u = [] -> idle (dev u) (Ft2232 (Some (FtdiParam true FTDX_MAXSEND 0
  (Some (malloced FTDX_MAXSEND)) FTDI_MAXRECV 0 0 0 (Some (malloced FTDI_MAXRECV)))) u).
Proof.
  intros Hp. eexists _, _, _. split; [done|..]; cbn [libftdi]; rewrite ?Hp; try done; cbn; rewrite ?drop_nil; try done; try lia.
Qed.

Lemma wp_connect (s : St) : pending (libftdi s) = [] -> wp (usbconn_ftdi_connect (U := E)) (fun r s' =>
  idle (dev (libftdi s)) (Ft2232 r (libftdi s'))) s.
Proof.
  intros Hp. unfold usbconn_ftdi_connect, usbconn_ftdi_common_open. cbn [forallb]. rewrite !malloc_all. cbn [andb negb].
  assert (Hcall : forall c (s1 : St), dev (libftdi s1) = dev (libftdi s) -> pending (libftdi s1) = [] ->
    wp (my_ftdi c) (fun r s' => (forall v p, c = ftdi_usb_open_desc v p -> r = 0)
      /\ dev (libftdi s') = dev (libftdi s) /\ pending (libftdi s') = []) s1).
  { intros c s1 Hd Hp1. destruct (mpsse_call c (libftdi s1)) as (r & e & Hc & Hr & Hd' & Hpe & Ho).
    unfold wp, my_ftdi. rewrite Hc. eexists _, _. split; [done|]. cbn. split; [done|]. split; [congruence|]. auto. }
  wp_pure. wp_use Hcall as r s1 (_ & Hd1 & Hp1); [done|done|]. wp_pure. wp_pure.
  wp_use Hcall as r' s2 (Hr & Hd2 & Hp2); [done|done|]. rewrite (Hr _ _ eq_refl). change (truth 0) with false. cbv iota.
  apply wp_ret. change (negb (0 =? 0)) with false. cbv iota. wp_pure. wp_use Hcall as r'' s3 (_ & Hd3 & Hp3); [done|done|].
  apply wp_ret. rewrite <- Hd3. by apply connected.
Qed.

Lemma wp_init (s : St) : pending (libftdi s) = [] ->
  wp (init_func driver) (fun e s' => e = 0 /\ idle (dev (libftdi s)) s') s.
Proof.
  intros Hp. unfold init_func, ft2232_cable_driver, cable_ftdi_init. rewrite malloc_all. cbn [negb].
  wp_pure. wp_use wp_connect as conn s1 Hc; [done|]. wp_pure. apply wp_modify. wp_pure.
  wp_use wp_open_mpsse as r s2 [-> Hi]; [exact Hc|]. change (negb (0 =? 0)) with false. cbv zeta iota. wp_pure.
  wp_use (wp_setup [CLow 0 0x0b; CDivisor 1 0; CHigh (u8 (Z.lnot 0x04)) 0x04; CImmediate] 0) as r s3 [-> Hp3];
    [by repeat (apply List.Forall_cons; [done|])|done|done|done|by apply idle_pipe|]. wp_pure.
  wp_use (wp_ftdi_flush malloc_all 10 (dev (libftdi s)) []) as r s4 [_ Hs]; [done|exact Hp3|]. apply wp_ret.
  split; [done|]. by eapply settled_idle.
Qed.
End laws.

(** On buffers that are zero, what comes is what every other cable gives. *)
Lemma merge_clear `{Unspecified} buf bits : Forall (fun w => u32 (default unspecified w) = 0) buf -> bits <> [] ->
  Z.of_nat (length bits) <= 32 * Z.of_nat (length buf) -> merged buf bits = overwrite buf (stream_words bits).
Proof.
  intros Hz Hb Hl. pose proof (stream_words_length bits Hb) as Hw.
  assert (0 < Z.of_nat (length bits)) by (destruct bits; [done|cbn [length]; lia]).
  pose proof (Z.div_mod (Z.of_nat (length bits) - 1) 32 ltac:(lia)).
  pose proof (Z.mod_pos_bound (Z.of_nat (length bits) - 1) 32 ltac:(lia)).
  assert (Hslot : forall k, 0 <= k < Z.of_nat (length buf) -> slot_word buf k = 0).
  { intros k Hk. unfold slot_word. destruct (lookup_lt_is_Some_2 buf (Z.to_nat k)) as [w Hw']; [lia|].
    rewrite Hw'. exact (proj1 (Forall_lookup _ _) Hz _ _ Hw'). }
  apply list_eq. intros i. destruct (decide (i < length buf)%nat) as [Hi|Hi].
  2: { rewrite !lookup_ge_None_2; [done|rewrite overwrite_length; lia|rewrite merge_length; lia]. }
  assert (Ei : i = Z.to_nat (Z.of_nat i)) by lia. set (k := Z.of_nat i) in *. rewrite Ei, merge_lookup by lia.
  unfold merge_slot. destruct (Z.ltb_spec (32 * k) (Z.of_nat (length bits))) as [Hk|Hk].
  - erewrite overwrite_lookup; [reflexivity|]. unfold stream_words. change (map ?f ?l) with (f <$> l).
    rewrite list_lookup_fmap, lookup_seqZ_lt by lia. cbn. rewrite Z.add_0_l. replace (Z.of_nat (Z.to_nat k)) with k by lia.
    f_equal. apply Z.bits_inj'. intros j Hj. unfold stream_word.
    rewrite (testbit_word32 (merge_bit buf bits)), testbit_bits_value by lia.
    destruct (Z.ltb_spec j 32); cbn [andb]; [|by rewrite nth_overflow by (rewrite length_take; lia)].
    unfold merge_bit. destruct (Z.ltb_spec (32 * k + j) (Z.of_nat (length bits))) as [Hin|Hout].
    + destruct (lookup_lt_is_Some_2 bits (Z.to_nat (32 * k + j))) as [b Hbit]; [lia|].
      rewrite (nth_lookup_Some _ _ _ _ Hbit). apply nth_lookup_Some.
      rewrite lookup_take_lt, lookup_drop by lia. rewrite <- Hbit. f_equal. lia.
    + rewrite nth_overflow by (rewrite length_take, length_drop; lia). unfold slot_bit.
      rewrite Hslot; [by rewrite Z.bits_0|]. replace ((32 * k + j) / 32) with k by (apply Z.div_unique with (r := j); lia). lia.
  - unfold overwrite. rewrite lookup_app_r by (rewrite length_map; lia). rewrite length_map, lookup_drop.
    replace (length (stream_words bits) + (Z.to_nat k - length (stream_words bits)))%nat with (Z.to_nat k) by lia.
    by destruct (lookup_lt_is_Some_2 buf (Z.to_nat k)) as [w ->]; [lia|].
Qed.

(** C13: The driver of the FT2232, as long as the transfers succeed and are whole: libftdi
    sends all bytes it is given, a read brings nothing, up to [most] times, or everything
    that is due, the other calls succeed and malloc finds memory (the driver does not handle
    what else libftdi may do; its answer to a failed write is [write_error_hangs]).  The chip
    carries the commands out in order, with TMS low while it shifts, which the driver counts
    on by never leaving it high.  Then the initialization finds nothing to read and leaves
    the device where it is; from then on each packet and each stream, of at least one bit
    and no more than the words it comes from, gives the device exactly its pulses and leaves
    nothing unsent or unread, no error is reported, and the bits TDO had are put into the
    buffer, all other bits of which stay what they were: those of a word that was never
    written are not made zero. *)
Theorem ft2232_streams `{Target, Alloc, Unspecified} `{Mpsse E D dev pending lag most} `{!IgnoresTrst D} :
  (forall n, malloc_ok n = true) ->
  let driver := ft2232_cable_driver (U := E) (S most) in
  let idle := idle (dev := dev) (pending := pending) in
  (forall s, pending (libftdi s) = [] -> wp (init_func driver) (fun e s' => e = 0 /\ idle (dev (libftdi s)) s') s)
  /\ forall d s, idle d s ->
    (forall p, wp (bit_out_func driver p) (fun e s' => e = 0 /\ idle (clock (packet_pulse p) d) s') s)
    /\ (forall p, wp (bit_inout_func driver p) (fun r s' => fst r = 0 /\ Z.testbit (snd r) 0 = tdo d
          /\ snd r >> 1 = u8 unspecified >> 1 /\ idle (clock (packet_pulse p) d) s') s)
    /\ (forall words len last, 0 < len <= 32 * Z.of_nat (length words) -> len < 2 ^ 31 ->
          wp (stream_out_func driver words len last) (fun e s' => e = 0
            /\ idle (clocks (shift_pulses (stream_bits words len) (truth last)) d) s') s)
    /\ (forall words buf len last, 0 < len <= 32 * Z.of_nat (length words) -> len <= 32 * Z.of_nat (length buf) ->
          len < 2 ^ 31 -> let ps := shift_pulses (stream_bits words len) (truth last) in
          wp (stream_inout_func driver words buf len last) (fun r s' => r = (0, merged buf (samples ps d))
            /\ idle (clocks ps d) s') s).
Proof.
  intros Ha driver idle. split; [intros s; by apply wp_init|]. intros d s Hi. split; [|split; [|split]].
  - intros p. by apply wp_bit_out.
  - intros p. by apply wp_bit_inout.
  - intros words len last Hl Hm. by apply wp_stream_out.
  - intros words buf len last Hl Hb Hm. by apply wp_stream_inout.
Qed.

(** A bit that is read as zero into a word that was never written gives what was in the
    word: the driver of the debug unit takes it for the bit "CRC match" when it is not zero. *)
Theorem stale_bit `{Target, Alloc, Unspecified} `{Mpsse E D dev pending lag most} d s words :
  (forall n, malloc_ok n = true) -> idle (dev := dev) (pending := pending) d s -> words <> [] -> tdo d = false ->
  2 <= u32 unspecified ->
  wp (stream_inout_func (ft2232_cable_driver (U := E) (S most)) words [None] 1 0) (fun r s' =>
    exists w, r = (0, [Some w]) /\ Z.testbit w 0 = false /\ w <> 0) s.
Proof.
  intros Ha Hi Hw Ht Hu. assert (0 < Z.of_nat (length words)) by (destruct words; [done|cbn [length]; lia]).
  eapply wp_mono; [apply (wp_stream_inout Ha words [None] 1 0 d); [lia|cbn; lia|lia|done]|].
  intros r s' [-> _]. eexists. split; [reflexivity|]. split; [by rewrite (testbit_word32 (merge_bit _ _))|]. intros E0.
  assert (Hbits : forall j, 0 <= j < 32 -> 1 <= j -> Z.testbit (u32 unspecified) j = false).
  { intros j Hj Hj1. apply (f_equal (fun w => Z.testbit w j)) in E0. rewrite Z.bits_0 in E0.
    rewrite (testbit_word32 (merge_bit _ _)) in E0 by lia. destruct (Z.ltb_spec j 32); [|lia]. cbn [andb] in E0.
    change (32 * (Z.of_nat 0 + 0) + j) with j in E0. rewrite <- E0. unfold merge_bit. rewrite samples_length, shift_pulses_length.
    change (length (stream_bits words 1)) with 1%nat. destruct (Z.ltb_spec j (Z.of_nat 1)); [lia|].
    unfold slot_bit. rewrite Z.div_small, Z.mod_small by lia. reflexivity. }
  pose proof (wrap_range 32 unspecified ltac:(lia)) as Hr. assert (u32 unspecified < 2) as ?; [|lia].
  assert (Hw1 : is_word 1 (u32 unspecified)); [|unfold is_word in Hw1; lia].
  apply is_word_bits; [lia|unfold is_word in Hr; lia|]. intros j Hj.
  destruct (Z.ltb_spec j 32); [apply Hbits; lia|by apply (testbit_word 32); [|lia]].
Qed.

(** * A write that fails *)

Section write_fails.
Context `{Target, Alloc, Unspecified} {U : Type} `{LibFtdi U}.

Lemma wait_nothing fuel n (s : ft2232_t U) : (forall n u, fst (ftdi_read_data n u) = Some []) ->
  wait_data fuel n s = Hang.
Proof.
  intros Hr. revert s. induction fuel as [|fuel IH]; intros s; [done|]. cbn [wait_data].
  unfold mbind, M_bind, my_ftdi_read_data. specialize (Hr n (libftdi s)).
  destruct (ftdi_read_data n (libftdi s)) as [r u]. cbn in Hr. subst r. exact (IH _).
Qed.

(** When libftdi reports an error of a write, the flush does not return it: -1 compared as an
    unsigned number is not fewer bytes than were to be sent.  It waits for the answers to
    commands that the chip has never got, for as long as none come. *)
Theorem write_error_hangs wait_fuel (s : ft2232_t U) p data u : ft2232_device s = Some p -> ftdic p = true ->
  0 < send_buffered p < 2 ^ 32 -> load_bytes (send_buf p) 0 (send_buffered p) = Ok data ->
  0 < to_recv p -> u32 (recv_write_idx p + to_recv p) <= recv_buf_len p -> recv_buf p <> None ->
  ftdi_write_data data (libftdi s) = (-1, u) -> (forall n u, fst (ftdi_read_data n u) = Some []) ->
  usbconn_ftdi_flush wait_fuel s = Hang.
Proof.
  intros Hd Hf Hs Hl Ht Hroom Hb Hw Hr. unfold usbconn_ftdi_flush, params, mbind, M_bind. rewrite Hd, Hf. cbn [negb].
  destruct (Z.eqb_spec (send_buffered p) 0); [lia|]. rewrite Hl. cbn [lift]. unfold my_ftdi_write_data. rewrite Hw.
  change (u32 (-1)) with (2 ^ 32 - 1). destruct (Z.ltb_spec (2 ^ 32 - 1) (send_buffered p)); [lia|].
  unfold receive_scheduled, params, mbind, M_bind, set_params, modify.
  cbn [ft2232_device libftdi to_recv recv_write_idx recv_buf_len recv_buf]. unfold truth.
  destruct (Z.eqb_spec (to_recv p) 0); [lia|]. cbn [negb].
  destruct (Z.ltb_spec (recv_buf_len p) (u32 (recv_write_idx p + to_recv p))); [lia|]. cbn [recv_buf to_recv].
  destruct (recv_buf p); [|done]. by rewrite wait_nothing.
Qed.
End write_fails.

(** * A chip *)

(** The constants of libftdi. *)
#[local] Instance ftdi_h : FtdiH := {|
  MPSSE_WRITE_NEG := 0x01; MPSSE_BITMODE := 0x02; MPSSE_LSB := 0x08; MPSSE_DO_WRITE := 0x10; MPSSE_DO_READ := 0x20;
  MPSSE_WRITE_TMS := 0x40; SET_BITS_LOW := 0x80; SET_BITS_HIGH := 0x82; LOOPBACK_END := 0x85; TCK_DIVISOR := 0x86;
  SEND_IMMEDIATE := 0x87; BITMODE_MPSSE := 2; sizeof_ftdi_context := 128
|}.

Section chip.
Context {D : Type} `{Device D}.

(** The device, the bytes to be read and how often nothing is read before they are. *)
Record ft2232h := Chip2232 { ch_dev : D; ch_out : list Z; ch_wait : nat }.

Definition ch_clock (ps : list pulse) (read : bool) (c : D * list Z) : D * list Z :=
  (clocks ps (fst c),
   snd c ++ if read then [Z.shiftl (bits_value (samples ps (fst c))) (8 - Z.of_nat (length ps))] else []).

Definition ch_bytes (data : list Z) (read : bool) (c : D * list Z) : D * list Z :=
  foldl (fun c b => ch_clock (held false (byte_bits b)) read c) c data.

(** The commands of a sequence of bytes. *)
Fixpoint ch_run (fuel : nat) (bytes : list Z) (c : D * list Z) : D * list Z :=
  match fuel, bytes with
  | S fuel, op :: l =>
      let read := Z.testbit op 5 in
      if (op =? 0x19) || (op =? 0x39) then
        match l with
        | lo :: hi :: l => let n := Z.to_nat (lo + 256 * hi + 1) in
                           ch_run fuel (drop n l) (ch_bytes (take n l) read c)
        | _ => c
        end
      else if (op =? 0x1b) || (op =? 0x3b) then
        match l with
        | n :: b :: l => ch_run fuel l (ch_clock (held false (take (Z.to_nat (n + 1)) (byte_bits b))) read c)
        | _ => c
        end
      else if (op =? 0x4b) || (op =? 0x6b) then
        match l with
        | _ :: b :: l => ch_run fuel l (ch_clock [Pulse (Z.testbit b 0) (Z.testbit b 7) false] read c)
        | _ => c
        end
      else if (op =? 0x80) || (op =? 0x82) || (op =? 0x86) then ch_run fuel (drop 2 l) c
      else ch_run fuel l c
  | _, _ => c
  end.

Definition ch_lag (s : ft2232h) : nat := Nat.min 2 (ch_wait s).

#[export] Instance chip_ftdi : LibFtdi ft2232h := {|
  ftdi_write_data p s := let '(d, out) := ch_run (length p) p (ch_dev s, ch_out s) in
                         (Z.of_nat (length p), Chip2232 d out 2);
  ftdi_read_data n s := match ch_lag s with
                        | S w => (Some [], Chip2232 (ch_dev s) (ch_out s) w)
                        | O => (Some (take (Z.to_nat n) (ch_out s)), Chip2232 (ch_dev s) (drop (Z.to_nat n) (ch_out s)) 0)
                        end;
  ftdi _ s := (0, s)
|}.

Lemma ch_bytes_eq data read c : ch_bytes data read c
  = (clocks (held false (bytes_bits data)) (fst c), snd c ++ if read then map bits_value (chunks data (fst c)) else []).
Proof.
  revert c. induction data as [|b data IH]; intros [d out]; cbn [ch_bytes foldl fst snd].
  - by destruct read; rewrite app_nil_r.
  - unfold ch_bytes in IH. rewrite IH. unfold ch_clock. cbn [fst snd chunks map].
    change (bytes_bits (b :: data)) with (byte_bits b ++ bytes_bits data). rewrite held_app, clocks_app, <- app_assoc.
    by destruct read.
Qed.

(** The reply to a command. *)
Definition ch_reply (bits : list bool) : Z := Z.shiftl (bits_value bits) (8 - Z.of_nat (length bits)).

Lemma ch_cmd c l fuel x : cmd_ok c -> (length (encode c ++ l) <= S fuel)%nat ->
  ch_run (S fuel) (encode c ++ l) x
  = ch_run fuel l (clocks (cmd_pulses c) (fst x), snd x ++ map ch_reply (cmd_replies c (fst x))).
Proof.
  destruct x as [d out]. intros Hc Hf. destruct c as [read data|read n b|read b| | | | |]; cbn [cmd_ok] in Hc;
    [| | |cbn; by rewrite app_nil_r..].
  - cbn [encode app ch_run]. assert (Hop : opcode bytes_op read = if read then 0x39 else 0x19) by by destruct read.
    rewrite Hop. set (n := Z.of_nat (length data)) in *.
    assert (Hn : u8 (n - 1) + 256 * u8 ((n - 1) >> 8) + 1 = n).
    { rewrite Z.shiftr_div_pow2 by lia. unfold wrap. change (2 ^ 8) with 256.
      rewrite (Z.mod_small ((n - 1) / 256)) by (split; [apply Z.div_pos; lia|apply Z.div_lt_upper_bound; lia]).
      pose proof (Z.div_mod (n - 1) 256 ltac:(lia)). lia. }
    assert (Hr : (((if read then 0x39 else 0x19) =? 0x19) || ((if read then 0x39 else 0x19) =? 0x39)) = true) by by destruct read.
    rewrite Hr, Hn, take_app_le, take_ge, drop_app_ge by lia. replace (Z.to_nat n - length data)%nat with O by lia.
    rewrite drop_0, ch_bytes_eq. assert (Ht : Z.testbit (if read then 0x39 else 0x19) 5 = read) by by destruct read.
    rewrite Ht. cbn [fst snd cmd_pulses cmd_replies]. f_equal. f_equal. f_equal. destruct read; [|done].
    apply map_ext_in. intros g Hg%list_elem_of_In. unfold ch_reply.
    rewrite (proj1 (Forall_forall _ _) (chunks_bytes data d) g Hg). by rewrite Z.shiftl_0_r.
  - assert (Hk : u8 (n - 1) + 1 = n) by (rewrite wrap_small by (unfold is_word; lia); lia).
    assert (Hlen : length (held false (take (Z.to_nat n) (byte_bits b))) = Z.to_nat n)
      by (unfold held; rewrite length_map, length_take, byte_bits_length; lia).
    destruct read; cbn [encode app ch_run]; change (opcode bits_op true) with 0x3b; change (opcode bits_op false) with 0x1b;
      cbn -[Z.shiftl u8 byte_bits held take Z.add]; rewrite Hk; unfold ch_clock, ch_reply; cbn [fst snd];
      by rewrite ?samples_length.
  - destruct read; cbn [encode app ch_run]; unfold ch_clock, ch_reply; cbn; done.
Qed.

Lemma ch_cmds cs fuel x : Forall cmd_ok cs -> (length (encodes cs) <= fuel)%nat ->
  ch_run fuel (encodes cs) x
  = (clocks (cmds_pulses cs) (fst x), snd x ++ map ch_reply (cmds_replies cs (fst x))).
Proof.
  intros Hc. revert fuel x. induction Hc as [|c cs Hc _ IH]; intros fuel [d out] Hf.
  - destruct fuel; cbn; by rewrite app_nil_r.
  - change (encodes (c :: cs)) with (encode c ++ encodes cs) in *. rewrite length_app in Hf.
    assert (0 < length (encode c))%nat by (destruct c; cbn; lia). destruct fuel as [|fuel]; [lia|].
    rewrite ch_cmd, IH by (done || rewrite ?length_app; lia). cbn [fst snd cmds_replies].
    change (cmds_pulses (c :: cs)) with (cmd_pulses c ++ cmds_pulses cs). by rewrite clocks_app, map_app, app_assoc.
Qed.

Lemma ch_reply_matches g : (length g <= 8)%nat -> matches g (ch_reply g).
Proof.
  intros Hg. unfold matches, ch_reply. split.
  - rewrite Z.shiftl_mul_pow2 by lia. pose proof (bits_value_word g (Z.of_nat (length g)) ltac:(lia)) as Hb. unfold is_word in *.
    assert (2 ^ 8 = 2 ^ Z.of_nat (length g) * 2 ^ (8 - Z.of_nat (length g))) as -> by (rewrite <- Z.pow_add_r by lia; f_equal; lia).
    assert (0 < 2 ^ (8 - Z.of_nat (length g))) by (apply Z.pow_pos_nonneg; lia). nia.
  - by rewrite Z.shiftr_shiftl_l, Z.sub_diag, Z.shiftl_0_r by lia.
Qed.

Lemma cmds_replies_bytes cs (d : D) : Forall cmd_ok cs -> Forall (fun g => (length g <= 8)%nat) (cmds_replies cs d).
Proof.
  intros Hc. revert d. induction Hc as [|c cs Hc _ IH]; intros d; [done|]. cbn [cmds_replies]. apply Forall_app_2; [|done].
  destruct c as [[] data|[] n b|[] b| | | | |]; cbn [cmd_replies cmd_ok] in *; try done.
  - eapply List.Forall_impl; [|apply chunks_bytes]. cbv beta. lia.
  - apply List.Forall_cons; [|done]. rewrite samples_length. cbn [cmd_pulses]. unfold held.
    rewrite length_map, length_take, byte_bits_length. lia.
  - apply List.Forall_cons; [|done]. rewrite samples_length. cbn. lia.
Qed.

#[export] Instance chip_mpsse : Mpsse ch_dev ch_out ch_lag 2.
Proof.
  split.
  - intros cs [d out w] Hc. cbn [ftdi_write_data chip_ftdi ch_dev ch_out]. rewrite ch_cmds by done. cbn [fst snd].
    eexists _, _. split; [done|]. split; [done|]. split; [done|].
    pose proof (cmds_replies_bytes cs d Hc) as Hb. induction Hb as [|g rs Hg _ IH]; [by apply List.Forall2_nil|].
    apply List.Forall2_cons; [by apply ch_reply_matches|done].
  - intros n [d out w] Hn. cbn [ftdi_read_data chip_ftdi]. unfold ch_lag. cbn [ch_wait].
    destruct (Nat.min 2 w) as [|l] eqn:E; eexists _, _; (split; [done|]); (split; [done|]); [by left|].
    right. split; [done|]. split; [done|]. cbn [ch_wait]. lia.
  - intros e. unfold ch_lag. lia.
  - intros c e. exists 0, e. split; [done|]. split; [done|]. split; [done|]. done.
Qed.
End chip.

(** ** A demonstration *)

#[local] Instance host : Target := x86_64.
#[local] Instance memory_enough : Alloc := fun _ => true.
#[local] Instance garbage : Unspecified := 0xA5A5A5A5.
(** A device that gives the bits of a list. *)
#[local] Instance bits_device : Device (list bool) := {| clock _ := tl; tdo := hd false |}.
#[local] Instance bits_trst : IgnoresTrst (list bool).
Proof. by intros p d. Qed.
Definition ft_driver : jtag_cable_t (ft2232_t (ft2232h (D := list bool))) := ft2232_cable_driver 3.
Definition ft_start : ft2232_t (ft2232h (D := list bool)) := Ft2232 None (Chip2232 [true; false; true; true] [] 1).

(** Four bits are read, after the initialization, into a word that was never written. *)
Lemma ft2232_streams_witness : wp (init_func ft_driver) (fun e s => e = 0
  /\ wp (stream_inout_func ft_driver [0] [None] 4 1) (fun r s' => r = (0, [Some 0xA5A5A5AD]) /\ ch_dev (libftdi s') = []) s)
  ft_start.
Proof.
  destruct (ft2232_streams (dev := ch_dev (D := list bool)) (pending := ch_out) (lag := ch_lag) (most := 2) (fun _ => eq_refl))
    as [Hinit Huse].
  eapply wp_mono; [by apply Hinit|]. intros e s [-> Hi]. split; [done|].
  destruct (Huse _ _ Hi) as (_ & _ & _ & Hio). eapply wp_mono; [apply (Hio [0] [None] 4 1); cbn; lia|].
  intros r s' [-> Hi']. split; [by vm_compute|]. by rewrite <- (idle_dev _ _ Hi').
Defined.

Lemma stale_bit_witness : wp (init_func ft_driver) (fun e s =>
  wp (stream_inout_func ft_driver [0] [None] 1 0) (fun r s' => exists w, r = (0, [Some w]) /\ Z.testbit w 0 = false /\ w <> 0) s)
  (Ft2232 None (Chip2232 [false] [] 0)).
Proof.
  eapply wp_mono; [apply (wp_init (most := 2) (dev := ch_dev (D := list bool)) (pending := ch_out) (lag := ch_lag) (fun _ => eq_refl)); done|].
  intros e s [-> Hi]. by apply (stale_bit _ _ [0] (fun _ => eq_refl) Hi).
Defined.

(** A library whose writes fail. *)
Definition unplugged : LibFtdi unit :=
  {| ftdi_write_data _ u := (-1, u); ftdi_read_data _ u := (Some [], u); ftdi _ u := (0, u) |}.

Lemma write_error_hangs_witness : usbconn_ftdi_flush (H3 := unplugged) 1000
  (Ft2232 (Some (FtdiParam true 4 3 (Some [0x39; 0; 0; 7]) 4 1 0 0 (Some [0; 0; 0; 0]))) tt) = Hang.
Proof.
  by apply (write_error_hangs (H2 := unplugged) 1000 _ (FtdiParam true 4 3 (Some [0x39; 0; 0; 7]) 4 1 0 0 (Some [0; 0; 0; 0])) [0x39; 0; 0] tt).
Defined.
