(* ===== verification/Enumerate.v ===== *)
(** jtag_enumerate_chain (chain_commands.c) finds the devices of the chain.

    The chain is specified here: each device has, after a reset, a bypass
    register of one bit that captures 0 or an identification register of 32 bits
    whose low bit is 1 (IEEE 1149.1); the registers lie one after the other
    between TDI and TDO.  [InstrChain], for what configure_chain (AdvJtagBridge.v) leaves
    behind, adds the registers that a scan of the instructions passes; [taps] is a chain
    that keeps both promises. *)

From S2P Require Import Prelude StateM Tap Cable Chain.

Open Scope cword_scope.

(** * The chain *)

(** [None]: a device without an identification register. *)
Abbreviation device_id := (option Z).

Definition device_bits (d : device_id) : list bool :=
  match d with
  | None => [false]
  | Some id => map (Z.testbit id) (seqZ 0 32)
  end.

(** The device nearest to TDO comes first. *)
Definition chain_bits (devices : list device_id) : list bool := concat (map device_bits devices).

Lemma chain_bits_pos devices : devices <> [] -> (0 < length (chain_bits devices))%nat.
Proof. by destruct devices as [|[?|] ?]; [|simpl; lia..]. Qed.

(** The data registers between TDI and TDO, the bit at TDO first. *)
Section scan_path.
Context (devices : list device_id).

Definition scan_path : Chip (list bool) := {|
  capture_dr _ := chain_bits devices;
  shift_dr b p := tail (p ++ [b]);
  update_dr p := p;
  out_dr p := default true (head p);
  capture_ir p := p; shift_ir _ p := p; update_ir p := p; out_ir _ := true;
  chip_reset p := p
|}.
End scan_path.

(** A chip whose registers, after a reset and as long as no instruction is selected, are
    those of the devices: [id_path] is what lies between TDI and TDO then. *)
Class IdChain (Hw : Type) `{Chip Hw} (devices : list device_id) := {
  id_path : Hw -> option (list bool);
  id_shift h p b : id_path h = Some p -> p <> [] -> id_path (shift_dr b h) = Some (tail (p ++ [b]));
  id_out h p : id_path h = Some p -> p <> [] -> out_dr h = default true (head p);
  id_capture h : id_path (capture_dr (chip_reset h)) = Some (chain_bits devices)
}.
Arguments id_path {Hw} {_} devices {_} _.

#[export] Instance scan_path_chain devices : @IdChain (list bool) (scan_path devices) devices.
Proof.
  refine (@Build_IdChain (list bool) (scan_path devices) devices (fun p => Some p) _ _ _).
  - by intros h p b [= ->].
  - by intros h p [= ->].
  - done.
Defined.

(** What the program is to find: the code of each device, all ones where it has
    none. *)
Definition device_code (d : device_id) : Z := default 0xFFFFFFFF d.

(** An identification code as the standard has it: a low bit of 1, and not with
    the manufacturer field the program takes for the end of the chain. *)
Definition id_ok (d : device_id) : Prop :=
  match d with
  | None => True
  | Some id => is_u32 id /\ Z.testbit id 0 = true /\ Z.shiftr id 1 mod 2 ^ 11 <> done_code
  end.

(** * Shifting through a path *)

Section path.
Context {Hw : Type} `{Chip Hw} (devices : list device_id) `{!IdChain Hw devices}.

Lemma read_path xs h p : id_path devices h = Some p -> p <> [] ->
  read_drs xs h = take (length xs) (p ++ xs)
  /\ id_path devices (shift_drs xs h) = Some (drop (length xs) (p ++ xs)).
Proof.
  revert h p. induction xs as [|x xs IH]; intros h p Hh Hp.
  - by rewrite app_nil_r, take_0, drop_0.
  - pose proof (id_shift h p x Hh Hp) as Hx. pose proof (id_out h p Hh Hp) as Ho.
    destruct p as [|b p]; [done|]. destruct (IH (shift_dr x h) (p ++ [x])) as [Hr Hs]; [done|by destruct p|].
    rewrite <- app_assoc in Hr, Hs. split; simpl; [f_equal; [exact Ho|exact Hr]|exact Hs].
Qed.
End path.

(** The bits of the marker 0x7f followed by zeros, from the [a]-th on. *)
Definition marker (a n : Z) : list bool := map (Z.testbit 0x7f) (seqZ a n).

Lemma marker_app a n m : 0 <= n -> 0 <= m -> marker a (n + m) = marker a n ++ marker (a + n) m.
Proof. intros. unfold marker. by rewrite seqZ_app, map_app by lia. Qed.

Lemma marker_length a n : length (marker a n) = Z.to_nat n.
Proof. unfold marker. by rewrite length_map, length_seqZ. Qed.

(** What the program shifts in is the next bits of the marker. *)
Lemma stream_marker n len :
  0 <= n -> 0 <= len <= 32 -> stream_bits [Z.shiftr 0x7f n] len = marker n len.
Proof.
  intros Hn Hl. unfold stream_bits, marker.
  rewrite <- (Z.add_0_r n) at 2. rewrite <- (fmap_add_seqZ n 0).
  change (Z.add n <$> seqZ 0 len) with (map (Z.add n) (seqZ 0 len)). rewrite map_map.
  apply map_ext_in. intros i Hi%list_elem_of_In%elem_of_seqZ. unfold stream_bit.
  rewrite Z.div_small, Z.mod_small by lia. simpl. rewrite Z.shiftr_spec by lia. f_equal. lia.
Qed.

(** * The array of codes *)

Section array.
Context `{Target, Alloc} (malloc_all : forall n, malloc_ok n = true).

(** [codes] are stored, and [ALLOC_SIZE << reallocs] more can be. *)
Definition array_inv (idcodes : buffer) (reallocs : Z) (codes : list Z) : Prop :=
  let n := Z.of_nat (length codes) in
  (exists rest, idcodes = map Some codes ++ rest)
  /\ 0 <= reallocs /\ n <= 64 * 2 ^ reallocs <= Z.of_nat (length idcodes)
  /\ 64 * 2 ^ reallocs <= Z.max 64 (2 * n).

Lemma store_code idcodes codes id :
  (exists rest, idcodes = map Some codes ++ rest) ->
  Z.of_nat (length codes) < Z.of_nat (length idcodes) ->
  exists idcodes', store_slot idcodes (Z.of_nat (length codes)) id = Ok idcodes'
  /\ length idcodes' = length idcodes
  /\ exists rest, idcodes' = map Some (codes ++ [id]) ++ rest.
Proof.
  intros [rest ->] Hl. rewrite length_app, length_map in Hl.
  destruct rest as [|x rest]; [simpl in Hl; lia|]. unfold store_slot.
  rewrite length_app, length_map.
  destruct (Z.leb_spec 0 (Z.of_nat (length codes))); [|lia].
  destruct (Z.ltb_spec (Z.of_nat (length codes))
              (Z.of_nat (length codes + length (x :: rest)))); [|simpl in *; lia].
  eexists. split; [reflexivity|]. rewrite Nat2Z.id, length_insert, length_app, length_map.
  split; [done|]. exists rest.
  rewrite insert_app_r_alt, length_map, Nat.sub_diag by (by rewrite length_map).
  by rewrite map_app, <- app_assoc.
Qed.

Lemma store_idcode_ok size idcodes reallocs codes id :
  4 <= size -> array_inv idcodes reallocs codes -> Z.of_nat (length codes) < MAX_DEVICES ->
  exists idcodes' reallocs',
    store_idcode size idcodes reallocs (Z.of_nat (length codes)) id = Ok (Some (idcodes', reallocs'))
    /\ array_inv idcodes' reallocs' (codes ++ [id]).
Proof.
  unfold MAX_DEVICES. intros Hs (Hrest & Hr & Hn & Hmax) Hlt.
  assert (Hp : 64 * 2 ^ reallocs <= 2048) by lia.
  assert (H2 : 0 < 2 ^ reallocs) by (apply Z.pow_pos_nonneg; lia).
  assert (Hsh : forall k, reallocs <= k <= reallocs + 1 -> ALLOC_SIZE << k = 64 * 2 ^ k).
  { intros k Hk. unfold ALLOC_SIZE, shl32. rewrite Z.shiftl_mul_pow2 by lia. apply wrap_small.
    assert (2 ^ k <= 2 ^ (reallocs + 1)) by (apply Z.pow_le_mono_r; lia).
    assert (0 < 2 ^ k) by (apply Z.pow_pos_nonneg; lia).
    assert (2 ^ (reallocs + 1) = 2 * 2 ^ reallocs) by (by rewrite Z.pow_add_r, Z.mul_comm by lia).
    unfold is_word. lia. }
  unfold store_idcode. rewrite !Hsh by lia. unfold array_inv. rewrite length_app.
  destruct (Z.leb_spec (64 * 2 ^ reallocs) (Z.of_nat (length codes))).
  - rewrite malloc_all. rewrite Z.pow_add_r, Z.pow_1_r by lia.
    set (cap := (64 * (2 ^ reallocs * 2) * size) / 4).
    assert (Hcap : 64 * (2 ^ reallocs * 2) <= cap)
      by (apply Z.div_le_lower_bound; [lia|]; nia).
    set (grown := idcodes ++ _).
    assert (Hg : 64 * (2 ^ reallocs * 2) <= Z.of_nat (length grown))
      by (unfold grown; rewrite length_app, length_replicate; lia).
    destruct (store_code grown codes id) as (a & -> & Hla & Ha); [|lia|].
    { destruct Hrest as [rest ->]. unfold grown. rewrite <- app_assoc. by eexists. }
    simpl. eexists _, _. split; [reflexivity|]. rewrite Z.pow_add_r by lia.
    split; [done|]. rewrite Hla. simpl. lia.
  - destruct (store_code idcodes codes id) as (a & -> & Hla & Ha); [done|lia|].
    simpl. eexists _, _. split; [reflexivity|]. split; [done|]. rewrite Hla. simpl. lia.
Qed.
End array.

(** * The loop *)

Section enumerate.
Context `{Target, Alloc} (malloc_all : forall n, malloc_ok n = true) (long : 4 <= long_size).
Context {St : Type} (jtag_cable : jtag_cable_t St) `{HasTrst} {Hw : Type} `{Chip Hw}
  (devices : list device_id) `{!IdChain Hw devices}.
Context (dev : St -> tapped Hw) `{!CableLaws jtag_cable dev}.
Context (nonempty : devices <> []) (ids : Forall id_ok devices)
  (few : Z.of_nat (length devices) <= MAX_DEVICES).

Definition cfg_ok (b : bridge St) : Prop :=
  0 <= global_DR_prefix_bits (cfg (gl b)) /\ 0 <= global_DR_postfix_bits (cfg (gl b)).

Definition shifting (b : bridge St) (p : list bool) : Prop := exists h,
  dev (drv b) = Tapped ShiftDR h /\ id_path devices h = Some p.

Lemma wp_probe_bit x b :
  wp (jtag_read_write_bit jtag_cable (b2z x)) (fun r b' => gl b' = gl b
    /\ (fst r = 0 -> forall p, shifting b p -> p <> [] ->
        snd r = b2z (default true (head p)) /\ shifting b' (drop 1 (p ++ [x])))) b.
Proof.
  eapply wp_mono; [apply (wp_read_bit jtag_cable dev)|]. intros r b' (Hg & Hr & Hs). split; [done|].
  intros E p (h & Hb & Hh) Hp. rewrite (Hr E), Hb. split.
  { simpl. by rewrite (id_out h p). }
  exists (shift_dr x h). rewrite (Hs E), Hb, packet_pulse_bit. split; [done|].
  rewrite (id_shift h p) by done. by destruct (p ++ [x]).
Qed.

Lemma wp_probe_stream w len b :
  0 < len <= 32 -> cfg_ok b ->
  wp (jtag_read_write_stream jtag_cable [w] [None] len 0 0) (fun r b' => gl b' = gl b
    /\ exists v, snd r = [Some v]
    /\ (fst r = 0 -> forall p, shifting b p -> p <> [] ->
        let xs := stream_bits [w] len in
        v = bits_value (take (Z.to_nat len) (p ++ xs))
        /\ shifting b' (drop (Z.to_nat len) (p ++ xs)))) b.
Proof.
  intros Hl [Hp Hq]. eapply wp_mono; [apply (reads_stream jtag_cable dev); simpl; lia|].
  intros r b' (Hg & Hs & read & Hbuf & Hlen & _ & Hread). split; [done|].
  rewrite Z.div_small in Hlen by lia. destruct read as [|v [|v' read]]; [simpl in *; lia| |simpl in *; lia].
  exists v. split; [done|]. intros E p (h & Hb & Hh) Hne. cbn [truth Z.eqb negb] in *. rewrite app_nil_r in Hs.
  set (xs := stream_bits [w] len) in *.
  assert (Hxs : length xs = Z.to_nat len)
    by (pose proof (stream_bits_length [w] len ltac:(lia)) as Hxl; unfold xs; lia).
  destruct (read_path devices xs h p Hh Hne) as [Hr Hd].
  specialize (Hs E). specialize (Hread E). change ([] ++ ?x) with x in *.
  rewrite Hb in Hs, Hread. change (clocks [] ?d) with d in Hread.
  rewrite clocks_shift_dr in Hs. rewrite samples_shift_dr in Hread.
  rewrite Hr, Hxs in Hread. rewrite Hxs in Hd. split; [|by exists (shift_drs xs h)].
  rewrite stream_words_short in Hread; [by injection Hread|].
  rewrite length_take, length_app. lia.
Qed.

(** ** One device *)

(** The loop has found the devices [done], and [rest] is still to come. *)
Definition probing (b : bridge St) (done rest : list device_id) (ic : Z) : Prop :=
  let n := Z.of_nat (length (chain_bits done)) in
  done ++ rest = devices /\ ic = Z.shiftr 0x7f n /\ shifting b (chain_bits rest ++ marker 0 n).

Lemma marker_next q n k : 0 <= n -> 0 <= k ->
  (q ++ marker 0 n) ++ marker n k = q ++ marker 0 (n + k).
Proof. intros. by rewrite <- app_assoc, (marker_app 0 n k), Z.add_0_l by lia. Qed.

Lemma probing_nonempty b done rest ic :
  probing b done rest ic -> chain_bits rest ++ marker 0 (Z.of_nat (length (chain_bits done))) <> [].
Proof.
  intros (Hd & _ & _) E. apply app_eq_nil in E as [Er Em].
  destruct rest as [|[id|] rest]; [|done..]. rewrite app_nil_r in Hd.
  destruct done as [|d done]; [by subst|]. apply (f_equal length) in Em.
  rewrite marker_length in Em. destruct d; simpl in Em; lia.
Qed.

(** The first bit of the next device, or of the marker when there is none. *)
Definition first_bit (rest : list device_id) : bool :=
  match rest with None :: _ => false | _ => true end.

Lemma probing_first b done rest ic :
  probing b done rest ic ->
  default true (head (chain_bits rest ++ marker 0 (Z.of_nat (length (chain_bits done)))))
  = first_bit rest.
Proof.
  intros Hp. pose proof (probing_nonempty _ _ _ _ Hp) as Hne. destruct Hp as (Hd & _ & _).
  destruct rest as [|[id|] rest]; [| |done].
  - change (chain_bits []) with (@nil bool) in *. cbn [app first_bit] in *.
    set (n := Z.of_nat (length (chain_bits done))) in *. destruct (Z.eq_dec n 0) as [E|E]; [by rewrite E in Hne|].
    unfold marker. by rewrite seqZ_cons by lia.
  - rewrite <- Hd in ids. apply Forall_app in ids as [_ Hi].
    apply List.Forall_cons_iff in Hi as [(_ & Hb & _) _]. exact Hb.
Qed.

Lemma chain_bits_snoc done d :
  chain_bits (done ++ [d]) = chain_bits done ++ device_bits d.
Proof. unfold chain_bits. by rewrite map_app, concat_app; simpl; rewrite app_nil_r. Qed.

Lemma probing_bypass b b' done rest ic :
  probing b done (None :: rest) ic ->
  shifting b' (drop 1 ((chain_bits (None :: rest)
    ++ marker 0 (Z.of_nat (length (chain_bits done)))) ++ [Z.testbit ic 0])) ->
  probing b' (done ++ [None]) rest (Z.shiftr ic 1).
Proof.
  intros (Hd & -> & _) Hs. unfold probing. rewrite chain_bits_snoc, length_app.
  set (n := Z.of_nat (length (chain_bits done))) in *. simpl length.
  replace (Z.of_nat (length (chain_bits done) + 1)) with (n + 1) by (unfold n; lia).
  split; [by rewrite <- app_assoc|]. split; [by rewrite Z.shiftr_shiftr by lia|].
  rewrite Z.shiftr_spec, Z.add_0_l in Hs by lia.
  change [Z.testbit 0x7f n] with (marker n 1) in Hs. rewrite marker_next in Hs by lia. exact Hs.
Qed.

(** The rest of a device with a code, in the two reads of the program. *)
Lemma probing_manuf b b1 b2 done rest ic id manuf :
  let n := Z.of_nat (length (chain_bits done)) in
  probing b done (Some id :: rest) ic ->
  shifting b1 (drop 1 ((chain_bits (Some id :: rest) ++ marker 0 n) ++ [Z.testbit ic 0])) ->
  (forall p, shifting b1 p -> p <> [] ->
    manuf = bits_value (take 11 (p ++ stream_bits [Z.shiftr ic 1] 11))
    /\ shifting b2 (drop 11 (p ++ stream_bits [Z.shiftr ic 1] 11))) ->
  manuf = wrap 11 (Z.shiftr id 1)
  /\ shifting b2 (map (Z.testbit id) (seqZ 12 20) ++ chain_bits rest ++ marker 0 (n + 12)).
Proof.
  intros n (Hd & -> & _) Hs1 Hs2. fold n in Hs1, Hs2. rewrite Z.shiftr_shiftr in Hs2 by lia.
  rewrite Z.shiftr_spec, Z.add_0_l in Hs1 by lia.
  change [Z.testbit 0x7f n] with (marker n 1) in Hs1. rewrite marker_next in Hs1 by lia.
  assert (Hsplit : chain_bits (Some id :: rest) = [Z.testbit id 0]
    ++ map (Z.testbit id) (seqZ 1 11) ++ map (Z.testbit id) (seqZ 12 20) ++ chain_bits rest).
  { change (chain_bits (Some id :: rest))
      with (map (Z.testbit id) (seqZ 0 (1 + (11 + 20))) ++ chain_bits rest).
    rewrite !seqZ_app, !map_app by lia. by rewrite <- !app_assoc. }
  rewrite Hsplit in Hs1. rewrite <- !app_assoc in Hs1. cbn [app drop] in Hs1.
  rewrite drop_0 in Hs1. destruct (Hs2 _ Hs1) as [Hm Hs2']; [done|].
  rewrite stream_marker in Hm, Hs2' by lia. rewrite <- !app_assoc in Hm, Hs2'.
  rewrite take_app_le in Hm by done. rewrite drop_app_le in Hs2' by done.
  rewrite take_ge in Hm by done. rewrite drop_ge in Hs2' by done. cbn [app] in Hs2'.
  rewrite bits_value_testbits in Hm by lia. split; [done|].
  replace (n + 12) with (n + 1 + 11) by lia. rewrite (marker_app 0 (n + 1) 11) by lia. exact Hs2'.
Qed.

Lemma probing_rest b b2 b3 done rest ic id rest_code :
  let n := Z.of_nat (length (chain_bits done)) in
  let ic' := Z.shiftr (Z.shiftr ic 1) 11 in
  probing b done (Some id :: rest) ic ->
  shifting b2 (map (Z.testbit id) (seqZ 12 20) ++ chain_bits rest ++ marker 0 (n + 12)) ->
  (forall p, shifting b2 p -> p <> [] ->
    rest_code = bits_value (take 20 (p ++ stream_bits [ic'] 20))
    /\ shifting b3 (drop 20 (p ++ stream_bits [ic'] 20))) ->
  rest_code = wrap 20 (Z.shiftr id 12) /\ probing b3 (done ++ [Some id]) rest (Z.shiftr ic' 20).
Proof.
  intros n ic' (Hd & -> & _) Hs2 Hs3. unfold probing, ic' in *. fold n in Hs3 |- *.
  rewrite !Z.shiftr_shiftr in * by lia. replace (n + (1 + 11)) with (n + 12) in * by lia.
  destruct (Hs3 _ Hs2) as [Hr Hs3']; [done|]. rewrite stream_marker in Hr, Hs3' by lia.
  rewrite <- !app_assoc in Hr, Hs3'.
  rewrite take_app_le in Hr by done. rewrite drop_app_le in Hs3' by done.
  rewrite take_ge in Hr by done. rewrite drop_ge in Hs3' by done. cbn [app] in Hs3'.
  rewrite bits_value_testbits in Hr by lia. split; [done|].
  rewrite chain_bits_snoc, length_app. change (length (device_bits (Some id))) with 32%nat.
  replace (Z.of_nat (length (chain_bits done) + 32)) with (n + 32) by (unfold n; lia).
  split; [by rewrite <- app_assoc|]. split; [f_equal; lia|].
  replace (n + 32) with (n + 12 + 20) by lia. rewrite (marker_app 0 (n + 12) 20) by lia. exact Hs3'.
Qed.

(** The end of the chain: the program reads its own marker. *)
Lemma probing_end b b1 b2 done ic manuf :
  let n := Z.of_nat (length (chain_bits done)) in
  probing b done [] ic ->
  shifting b1 (drop 1 ((chain_bits [] ++ marker 0 n) ++ [Z.testbit ic 0])) ->
  (forall p, shifting b1 p -> p <> [] ->
    manuf = bits_value (take 11 (p ++ stream_bits [Z.shiftr ic 1] 11))
    /\ shifting b2 (drop 11 (p ++ stream_bits [Z.shiftr ic 1] 11))) ->
  manuf = done_code.
Proof.
  intros n Hp Hs1 Hs2. pose proof (probing_nonempty _ _ _ _ Hp) as Hne. fold n in Hne.
  destruct Hp as (Hd & -> & _). fold n in Hs1, Hs2. change (chain_bits []) with (@nil bool) in *. cbn [app] in *.
  assert (Hn : 1 <= n) by (destruct (Z.eq_dec n 0) as [E|E]; [by rewrite E in Hne|lia]).
  rewrite Z.shiftr_spec, Z.add_0_l in Hs1 by lia. rewrite Z.shiftr_shiftr in Hs2 by lia.
  change [Z.testbit 0x7f n] with (marker n 1) in Hs1.
  assert (Hsw : marker 0 n ++ marker n 1 = marker 0 1 ++ marker 1 n).
  { etransitivity; [symmetry; apply (marker_app 0 n 1); lia|].
    rewrite Z.add_comm. apply marker_app; lia. }
  rewrite Hsw, drop_app_le, drop_ge in Hs1 by (by rewrite marker_length). cbn [app] in Hs1.
  destruct (Hs2 _ Hs1) as [-> _].
  { intros E. apply (f_equal length) in E. rewrite marker_length in E. simpl in E. lia. }
  rewrite stream_marker by lia.
  assert (Hsw2 : marker 1 n ++ marker (n + 1) 11 = marker 1 11 ++ marker 12 n).
  { rewrite (Z.add_comm n), <- marker_app, (Z.add_comm n) by lia. apply marker_app; lia. }
  by rewrite Hsw2, take_app_le, take_ge by (by rewrite marker_length).
Qed.

(** ** The whole loop *)

Definition found (b : bridge St) (r : probe) (b' : bridge St) : Prop :=
  gl b' = gl b
  /\ match r with
     | ProbeReturn e => e <> 0
     | ProbeDone e idcodes n => e = 0 ->
         n = Z.of_nat (length devices)
         /\ (exists rest, idcodes = map Some (map device_code devices) ++ rest)
         /\ exists p, shifting b' p
     end.

Lemma device_code_id id manuf rest_code :
  id_ok (Some id) -> manuf = wrap 11 (Z.shiftr id 1) -> rest_code = wrap 20 (Z.shiftr id 12) ->
  (rest_code << 12) .| (manuf << 1) .| b2z true = id.
Proof.
  intros (Hid32 & Hb & _) -> ->. zbits. unfold shl32. autorewrite with zbits.
  rewrite andb_true_r.
  destruct (Z.ltb_spec i 32); cbn [andb].
  2: { rewrite (testbit_word 32 id) by (done || lia). by destruct (Z.eqb_spec i 0); [lia|]. }
  destruct (Z.eqb_spec i 0) as [->|].
  { by rewrite Hb, orb_true_r. }
  rewrite orb_false_r. destruct (Z.ltb_spec i 12).
  - rewrite (Z.testbit_neg_r _ (i - 12)) by lia. rewrite testbit_wrap, Z.shiftr_spec by lia.
    destruct (Z.ltb_spec (i - 1) 11); [|lia]. cbn. f_equal. lia.
  - rewrite !testbit_wrap, !Z.shiftr_spec by lia.
    destruct (Z.ltb_spec (i - 1) 11); [lia|]. destruct (Z.ltb_spec (i - 12) 20); [|lia].
    cbn. rewrite orb_false_r. f_equal. lia.
Qed.

Lemma truth_0_or e : (truth e = false /\ e = 0) \/ (truth e = true /\ e <> 0).
Proof. unfold truth. destruct (Z.eqb_spec e 0); auto. Qed.

Lemma wp_enumerate_loop fuel ic codes reallocs err idcodes b :
  MAX_DEVICES - Z.of_nat (length codes) < Z.of_nat fuel ->
  array_inv idcodes reallocs codes -> Z.of_nat (length codes) <= MAX_DEVICES -> cfg_ok b ->
  (err = 0 -> exists done rest, codes = map device_code done /\ probing b done rest ic) ->
  wp (enumerate_loop jtag_cable fuel ic (Z.of_nat (length codes)) reallocs err idcodes) (found b) b.
Proof.
  revert ic codes reallocs err idcodes b.
  induction fuel as [|fuel IH]; intros ic codes reallocs err idcodes b Hf Ha Hc Hok Hp; [lia|].
  cbn [enumerate_loop]. destruct (Z.ltb_spec (Z.of_nat (length codes)) MAX_DEVICES) as [Hlt|Hge].
  2: { wp_step. split; [done|]. intros E. destruct (Hp E) as (done & rest & Hco & Hd & _ & Hs).
       assert (Hl : length codes = length done) by (by rewrite Hco, length_map).
       assert (rest = []) as ->.
       { apply length_zero_iff_nil. apply (f_equal length) in Hd. rewrite length_app in Hd. lia. }
       rewrite app_nil_r in Hd. subst done. split; [by rewrite Hl|]. split; [|by eexists].
       destruct Ha as ((rest & ->) & _). exists rest. by rewrite Hco. }
  wp_step. change (ic .& 0x01) with (ic .& 1). rewrite land_1.
  wp_use wp_probe_bit as [e1 start] b1 [Hg1 Hs1]. cbn [fst snd] in Hs1.
  assert (Hfirst : err .| e1 = 0 -> exists done rest, codes = map device_code done
    /\ probing b done rest ic /\ start = b2z (first_bit rest)
    /\ shifting b1 (drop 1 ((chain_bits rest ++ marker 0 (Z.of_nat (length (chain_bits done))))
         ++ [Z.testbit ic 0]))).
  { intros [E0 E1]%lor_0. destruct (Hp E0) as (done & rest & Hco & Hpr). exists done, rest.
    destruct (Hs1 E1 _ (proj2 (proj2 Hpr)) (probing_nonempty _ _ _ _ Hpr)) as [Hst Hb1].
    rewrite (probing_first _ _ _ _ Hpr) in Hst. done. }
  assert (Hok1 : cfg_ok b1) by (unfold cfg_ok in *; by rewrite Hg1).
  destruct (Z.eqb_spec start 0) as [Hz|Hnz].
  - destruct (store_idcode_ok malloc_all 4 idcodes reallocs codes (u32 (-1)))
      as (idc & re & Hst & Ha'); [lia|done|done|].
    wp_step. eapply wp_lift; [exact Hst|]. cbv beta iota.
    destruct (truth_0_or (err .| e1)) as [[-> E]|[-> E]]; [|by wp_step].
    destruct (Hfirst E) as (done & rest & Hco & Hpr & Hstart & Hb1).
    replace (Z.of_nat (length codes) + 1) with (Z.of_nat (length (codes ++ [u32 (-1)])))
      by (rewrite length_app; simpl; lia).
    eapply wp_mono; [apply IH|]; [rewrite length_app; simpl; lia|done
      |rewrite length_app; simpl; lia|done| |].
    + intros _. destruct rest as [|[id|] rest]; [by rewrite Hstart in Hz..|].
      exists (done ++ [None]), rest. split; [by rewrite map_app, Hco|].
      by eapply probing_bypass.
    + intros r b' [Hg Hfd]. split; [congruence|done].
  - wp_step. wp_use wp_probe_stream as [e2 buf2] b2 [Hg2 (manuf & Hbuf2 & Hs2)]; [lia|done|].
    cbn [fst snd] in *. subst buf2. wp_step. eapply wp_lift; [done|]. cbv beta.
    assert (Hok2 : cfg_ok b2) by (unfold cfg_ok in *; by rewrite Hg2).
    destruct (Z.eqb_spec manuf done_code) as [Hdone|Hmore].
    + wp_step. split; [congruence|]. intros [E1 E2]%lor_0.
      destruct (Hfirst E1) as (done & rest & Hco & Hpr & Hstart & Hb1).
      destruct rest as [|[id|] rest]; [| |by rewrite Hstart in Hnz].
      * destruct Hpr as (Hd & _ & _). rewrite app_nil_r in Hd. subst done.
        split; [by rewrite Hco, length_map|]. destruct Ha as ((tl & ->) & _).
        split; [exists tl; by rewrite Hco|]. eexists. apply (Hs2 E2 _ Hb1).
        intros E. apply (f_equal length) in E. rewrite length_drop, !length_app in E.
        pose proof (marker_length 0 (Z.of_nat (length (chain_bits devices)))) as Hm.
        rewrite Hm in E. simpl in E.
        pose proof (chain_bits_pos devices nonempty). lia.
      * exfalso. pose proof Hpr as (Hd & _ & _).
        assert (Hid : id_ok (Some id)).
        { rewrite <- Hd in ids. apply Forall_app in ids as [_ Hi].
          by apply List.Forall_cons_iff in Hi as [Hi _]. }
        destruct (probing_manuf b b1 b2 done rest ic id manuf) as [Hm _]; [done|done|by apply Hs2|].
        destruct Hid as (_ & _ & Hid). apply Hid. by rewrite <- Hdone, Hm.
    + wp_step. wp_use wp_probe_stream as [e3 buf3] b3 [Hg3 (rest_code & Hbuf3 & Hs3)]; [lia|done|].
      cbn [fst snd] in *. subst buf3. wp_step. eapply wp_lift; [done|]. cbv beta.
      set (id := (rest_code << 12) .| (manuf << 1) .| 0x01).
      destruct (store_idcode_ok malloc_all long_size idcodes reallocs codes id)
        as (idc & re & Hst & Ha'); [lia|done|done|].
      wp_step. eapply wp_lift; [exact Hst|]. cbv beta iota.
      destruct (truth_0_or (err .| e1 .| e2 .| e3)) as [[-> E]|[-> E]].
      2: { wp_step. split; [congruence|done]. }
      apply lor_0 in E as [[E1 E2]%lor_0 E3].
      destruct (Hfirst E1) as (done & rest & Hco & Hpr & Hstart & Hb1).
      replace (Z.of_nat (length codes) + 1) with (Z.of_nat (length (codes ++ [id])))
        by (rewrite length_app; simpl; lia).
      eapply wp_mono; [apply IH|]; [rewrite length_app; simpl; lia|done
        |rewrite length_app; simpl; lia|unfold cfg_ok in *; by rewrite Hg3| |].
      * intros _. destruct rest as [|[id'|] rest]; [| |by rewrite Hstart in Hnz].
        { exfalso. apply Hmore. by apply (probing_end b b1 b2 done ic); [..|apply Hs2]. }
        destruct (probing_manuf b b1 b2 done rest ic id' manuf) as [Hm Hb2];
          [done|done|by apply Hs2|].
        destruct (probing_rest b b2 b3 done rest ic id' rest_code) as [Hr Hpr3];
          [done|done|by apply Hs3|].
        exists (done ++ [Some id']), rest. split; [|done].
        rewrite map_app, Hco. f_equal. unfold device_code. simpl. f_equal.
        apply device_code_id; [|done|done].
        destruct Hpr as (Hd & _ & _). rewrite <- Hd in ids. apply Forall_app in ids as [_ Hi].
        by apply List.Forall_cons_iff in Hi as [Hi _].
      * intros r b' [Hg Hfd]. split; [congruence|done].
Qed.

(** From Run-Test/Idle and back. *)
Lemma wp_enumerate_chain b h :
  cfg_ok b -> dev (drv b) = Tapped RunTestIdle h -> id_path devices (capture_dr h) = Some (chain_bits devices) ->
  wp (jtag_enumerate_chain jtag_cable) (fun r b' => gl b' = gl b
    /\ (fst r = 0 -> exists rest h',
          snd r = Some (map Some (map device_code devices) ++ rest, Z.of_nat (length devices))
          /\ dev (drv b') = Tapped RunTestIdle h')) b.
Proof.
  intros Hok Hd Hh. unfold jtag_enumerate_chain. rewrite malloc_all. cbn [negb].
  wp_step. wp_use (sends_bit jtag_cable dev) as e1 b1 [Hg1 Hs1].
  wp_step. wp_use (sends_bit jtag_cable dev) as e2 b2 [Hg2 Hs2].
  wp_step. wp_use (sends_bit jtag_cable dev) as e3 b3 [Hg3 Hs3]. wp_step.
  assert (Hg : gl b3 = gl b) by congruence.
  eapply wp_mono.
  { apply (wp_enumerate_loop _ _ []).
    - unfold MAX_DEVICES. simpl. lia.
    - unfold array_inv, ALLOC_SIZE. rewrite length_replicate. split; [by eexists|].
      change (2 ^ 0) with 1. simpl. lia.
    - done.
    - unfold cfg_ok. by rewrite Hg.
    - intros [[E1 E2]%lor_0 E3]%lor_0. exists [], devices. split; [done|]. split; [done|].
      split; [done|]. exists (capture_dr h). rewrite (Hs3 E3), (Hs2 E2), (Hs1 E1), Hd.
      unfold marker. by rewrite app_nil_r. }
  intros [e|e idc n] b4 [Hg4 Hf].
  { wp_step. split; [congruence|]. intros E. by cbn in E. }
  wp_step. wp_use (sends_bit jtag_cable dev) as e5 b5 [Hg5 Hs5].
  wp_step. wp_use (sends_bit jtag_cable dev) as e6 b6 [Hg6 Hs6].
  wp_step. wp_use (sends_bit jtag_cable dev) as e7 b7 [Hg7 Hs7]. wp_step. cbn [fst snd].
  split; [congruence|]. intros [[[E4 E5]%lor_0 E6]%lor_0 E7]%lor_0.
  destruct (Hf E4) as (-> & [rest ->] & q & h' & Hsh & _). eexists rest, _. split; [done|].
  by rewrite (Hs7 E7), (Hs6 E6), (Hs5 E5), Hsh.
Qed.
End enumerate.

(** * Chains with their instruction registers *)

Open Scope Z_scope.

(** A device: its identification code, if it has one, and the length of its instruction
    register.  The device nearest to TDO comes first. *)
Record station := Station { st_id : device_id; st_ir : nat }.

(** Bits cut into pieces of the given lengths. *)
Fixpoint pieces (lengths : list nat) (bits : list bool) : list (list bool) :=
  match lengths with
  | [] => []
  | n :: lengths => take n bits :: pieces lengths (drop n bits)
  end.

Definition ir_lengths (stations : list station) : list nat := map st_ir stations.

(** [instructions]: what is in the instruction register of each device, the low bit first. *)
Class InstrChain (Hw : Type) `{Chip Hw} (stations : list station) := {
  instr_ids :: IdChain Hw (map st_id stations);
  instructions : Hw -> list (list bool);
  instr_scanned h bits : length bits = sum_list (ir_lengths stations) ->
    instructions (ir_scan bits h) = pieces (ir_lengths stations) bits
}.
Arguments instructions {Hw} {_} stations {_} _.

(** The device at [pos] has an instruction, the others are bypassed. *)
Definition bypassed (s : station) : list bool := replicate (st_ir s) true.
Fixpoint only_selected (stations : list station) (pos : nat) (instr : list bool) : list (list bool) :=
  match stations, pos with
  | [], _ => []
  | s :: stations, O => instr :: map bypassed stations
  | s :: stations, S pos => bypassed s :: only_selected stations pos instr
  end.

(** The lengths of the instruction registers before and after a device. *)
Definition bits_before (stations : list station) (pos : nat) : nat := sum_list (take pos (ir_lengths stations)).
Definition bits_after (stations : list station) (pos : nat) : nat := sum_list (drop (S pos) (ir_lengths stations)).

Lemma sum_list_cons n ls : sum_list (n :: ls) = (n + sum_list ls)%nat.
Proof. done. Qed.

Lemma pieces_app ls1 ls2 b1 b2 : length b1 = sum_list ls1 ->
  pieces (ls1 ++ ls2) (b1 ++ b2) = pieces ls1 b1 ++ pieces ls2 b2.
Proof.
  revert b1. induction ls1 as [|n ls1 IH]; intros b1 Hl; cbn [pieces app].
  - by apply nil_length_inv in Hl as ->.
  - rewrite sum_list_cons in Hl. rewrite take_app_le, drop_app_le by lia. f_equal. apply IH. rewrite length_drop. lia.
Qed.

Lemma pieces_ones ls : pieces ls (replicate (sum_list ls) true) = map (fun n => replicate n true) ls.
Proof.
  induction ls as [|n ls IH]; [done|]. cbn [pieces map]. rewrite sum_list_cons, take_replicate, drop_replicate, Nat.min_l by lia.
  replace (n + sum_list ls - n)%nat with (sum_list ls) by lia. by rewrite IH.
Qed.

(** The combined instruction register, cut into those of the devices. *)
Lemma pieces_selected stations pos s instr : stations !! pos = Some s -> length instr = st_ir s ->
  pieces (ir_lengths stations) (replicate (bits_before stations pos) true ++ instr ++ replicate (bits_after stations pos) true)
  = only_selected stations pos instr.
Proof.
  revert pos. induction stations as [|s0 stations IH]; intros pos Hs Hi; [done|]. unfold ir_lengths. cbn [map].
  fold (ir_lengths stations). destruct pos as [|pos]; cbn [only_selected].
  - injection Hs as ->. unfold bits_before, bits_after, ir_lengths. cbn [map take drop pieces].
    change (sum_list []) with O. cbn [replicate app]. rewrite take_app_le, drop_app_le, take_ge, drop_ge by lia.
    cbn [app]. by rewrite drop_0, pieces_ones, map_map.
  - unfold bits_before, bits_after, ir_lengths. cbn [map take drop pieces]. fold (ir_lengths stations).
    fold (bits_after stations pos). rewrite sum_list_cons. fold (bits_before stations pos).
    rewrite replicate_add, <- app_assoc, take_app_le, drop_app_le, take_ge, drop_ge by (rewrite length_replicate; lia).
    cbn [app]. by rewrite IH.
Qed.

Lemma only_selected_lookup stations pos instr k s : stations !! k = Some s ->
  only_selected stations pos instr !! k = Some (if decide (k = pos) then instr else bypassed s).
Proof.
  revert pos k. induction stations as [|s0 stations IH]; intros pos k Hk; [done|].
  destruct pos as [|pos], k as [|k]; cbn [only_selected]; [by injection Hk as ->| |by injection Hk as ->|].
  - change (stations !! k = Some s) in Hk. change ((bypassed <$> stations) !! k = Some (bypassed s)). by rewrite list_lookup_fmap, Hk.
  - change (only_selected stations pos instr !! k = Some (if decide (S k = S pos) then instr else bypassed s)).
    rewrite IH by done. by destruct (decide (k = pos)), (decide (S k = S pos)); [|lia|lia|].
Qed.

(** * A chain of TAPs

    After a reset every device has its identification register, or its bypass register,
    between TDI and TDO; an instruction, whatever it is, selects a register of one bit here.
    The chip is the registers the scans pass, and the instructions, none after a reset. *)
Record tap_chain := TapChain { data_path : list bool; ir_path : list bool; instrs : option (list (list bool)) }.

Section taps.
Context (stations : list station).

Definition captured (c : tap_chain) : list bool :=
  match instrs c with
  | None => chain_bits (map st_id stations)
  | Some _ => replicate (length stations) false
  end.

#[export] Instance taps : Chip tap_chain := {|
  capture_dr c := TapChain (captured c) (ir_path c) (instrs c);
  shift_dr b c := TapChain (tail (data_path c ++ [b])) (ir_path c) (instrs c);
  update_dr c := c;
  out_dr c := default true (head (data_path c));
  capture_ir c := TapChain (data_path c) (replicate (sum_list (ir_lengths stations)) true) (instrs c);
  shift_ir b c := TapChain (data_path c) (tail (ir_path c ++ [b])) (instrs c);
  update_ir c := TapChain (data_path c) (ir_path c) (Some (pieces (ir_lengths stations) (ir_path c)));
  out_ir c := default true (head (ir_path c));
  chip_reset c := TapChain (data_path c) (ir_path c) None
|}.

#[export] Instance taps_ids : IdChain tap_chain (map st_id stations).
Proof.
  refine {| id_path c := Some (data_path c) |}.
  - by intros h p b [= <-].
  - by intros h p [= <-].
  - done.
Defined.

Lemma ir_path_scanned bits c : (0 < length (ir_path c))%nat -> length bits = length (ir_path c) ->
  ir_path (shift_irs bits c) = bits /\ length bits = length (ir_path c).
Proof.
  intros Hp Hl. split; [|done].
  assert (forall xs c, ir_path (shift_irs xs c) = drop (length xs) (ir_path c ++ xs) \/ ir_path c = []) as Hs.
  { clear. induction xs as [|x xs IH]; intros c.
    - left. by rewrite app_nil_r, drop_0.
    - destruct (ir_path c) as [|b p] eqn:E; [by right|]. left. cbn [shift_irs fold_left].
      destruct (IH (shift_ir x c)) as [Hx|Hx]; cbn in Hx; rewrite E in Hx; cbn in Hx; [|by destruct p].
      rewrite <- app_assoc in Hx. etransitivity; [|exact Hx]. unfold shift_irs. cbn. by rewrite E. }
  destruct (Hs bits c) as [->|E]; [|rewrite E in Hp; cbn in Hp; lia]. by rewrite Hl, drop_app_length.
Qed.

#[export] Instance taps_instrs : InstrChain tap_chain stations.
Proof.
  refine {| instructions c := default [] (instrs c) |}. intros h bits Hl.
  unfold ir_scan. cbn [instrs update_ir taps default]. f_equal.
  destruct (sum_list (ir_lengths stations)) as [|n] eqn:E.
  - apply nil_length_inv in Hl as ->. cbn. by rewrite E.
  - unfold id. f_equal. apply ir_path_scanned; cbn [ir_path capture_ir taps]; rewrite length_replicate; lia.
Defined.
End taps.
