(* ===== verification/AdvDbg.v ===== *)
(** adv_dbg_commands.c: commands to the modules of the debug unit, as the
    Makefile builds it by default ([ADBG_OPT_HISPEED], [OPTIMIZE_JSP_FOR_USB],
    one device for the serial port); utilities.c.

    A caller's [void *data] is a list of bytes, [None] where one was never
    written; the machine is little-endian. *)

From S2P Require Import Prelude StateM Tap Cable Chain.

Open Scope cword_scope.

(** * adv_dbg_commands.h *)

Definition DBG_MODULE_SELECT_REG_SIZE : Z := 2.
Definition DC_WISHBONE : Z := 0.
Definition DC_CPU0 : Z := 1.
Definition DC_CPU1 : Z := 2.
Definition DC_JSP : Z := 3.
Definition ADBG_CRC_POLY : Z := 0xedb88320.
Definition DBG_WB_REG_SEL_LEN : Z := 1.
Definition DBG_WB_REG_ERROR : Z := 0.
Definition DBG_WB_OPCODE_LEN : Z := 4.
Definition DBG_WB_CMD_NOP : Z := 0x0.
Definition DBG_WB_CMD_BWRITE8 : Z := 0x1.
Definition DBG_WB_CMD_BWRITE16 : Z := 0x2.
Definition DBG_WB_CMD_BWRITE32 : Z := 0x3.
Definition DBG_WB_CMD_BREAD8 : Z := 0x5.
Definition DBG_WB_CMD_BREAD16 : Z := 0x6.
Definition DBG_WB_CMD_BREAD32 : Z := 0x7.
Definition DBG_WB_CMD_IREG_WR : Z := 0x9.
Definition DBG_WB_CMD_IREG_SEL : Z := 0xd.
Definition DBG_CPU0_REG_SEL_LEN : Z := 1.
Definition DBG_CPU0_REG_STATUS : Z := 0.
Definition DBG_CPU0_OPCODE_LEN : Z := 4.
Definition DBG_CPU0_CMD_NOP : Z := 0x0.
Definition DBG_CPU0_CMD_BWRITE32 : Z := 0x3.
Definition DBG_CPU0_CMD_BREAD32 : Z := 0x7.
Definition DBG_CPU0_CMD_IREG_WR : Z := 0x9.
Definition DBG_CPU0_CMD_IREG_SEL : Z := 0xd.
Definition DBG_CPU1_REG_SEL_LEN : Z := 1.
Definition DBG_CPU1_REG_STATUS : Z := 0.
Definition DBG_CPU1_OPCODE_LEN : Z := 4.
Definition DBG_CPU1_CMD_NOP : Z := 0x0.
Definition DBG_CPU1_CMD_BWRITE32 : Z := 0x3.
Definition DBG_CPU1_CMD_BREAD32 : Z := 0x7.
Definition DBG_CPU1_CMD_IREG_WR : Z := 0x9.
Definition DBG_CPU1_CMD_IREG_SEL : Z := 0xd.
Definition MAX_READ_STATUS_WAIT : Z := 100.
Definition MAX_BUS_ERRORS : Z := 10.

(** * Bytes of memory *)

(** The bytes of a word in memory. *)
Definition word_bytes (w : Z) : list Z :=
  [w .& 0xFF; w >> 8 .& 0xFF; w >> 16 .& 0xFF; w >> 24 .& 0xFF].
Definition words_bytes (words : list Z) : list Z := concat (map word_bytes words).
(** The number some bytes stand for, little-endian. *)
Fixpoint bytes_value (bytes : list Z) : Z :=
  match bytes with
  | [] => 0
  | b :: bs => b + 2 ^ 8 * bytes_value bs
  end.

(** The words a block of memory holds; a word that is not wholly in the block is
    none of them. *)
Fixpoint bytes_words (bytes : list Z) : list Z :=
  match bytes with
  | b0 :: b1 :: b2 :: b3 :: rest => bytes_value [b0; b1; b2; b3] :: bytes_words rest
  | _ => []
  end.

(** The [n] bytes at [offset] of a caller's block. *)
Definition load_bytes (data : buffer) (offset n : Z) : outcome (list Z) :=
  if (0 <=? offset) && (offset + n <=? Z.of_nat (length data))
  then read_var (mapM id (take (Z.to_nat n) (drop (Z.to_nat offset) data))) else Undef.

(** [memcpy(data, bytes, n)] *)
Definition store_bytes (data : buffer) (bytes : list Z) : outcome buffer :=
  if Z.of_nat (length bytes) <=? Z.of_nat (length data) then Ok (overwrite data bytes) else Undef.

(** * utilities.c *)

(** The error code and the new size of the buffer. *)
Definition check_buffer_size `{Alloc} (buf_size_bytes requested_size_bytes : Z) : Z * Z :=
  if requested_size_bytes <=? buf_size_bytes then (APP_ERR_NONE, buf_size_bytes)
  else if malloc_ok requested_size_bytes then (APP_ERR_NONE, requested_size_bytes)
  else (APP_ERR_MALLOC, 0).

(** * The CRC *)

Definition crc_step (d : bool) (crc_out : Z) : Z :=
  let d := if d then 0xffffffff else 0 in
  let c := if truth (crc_out .& 0x1) then 0xffffffff else 0 in
  let crc_out := crc_out >> 1 in
  crc_out .^ ((d .^ c) .& ADBG_CRC_POLY).

Definition adbg_compute_crc `{Target} (crc_in data_in length_bits : Z) : outcome Z :=
  for_upto length_bits
    (fun i crc =>
       crc_out ← crc;
       d ← shr_target data_in i;
       Ok (crc_step (truth (d .& 0x1)) crc_out)) (Ok crc_in).

(** The CRC of a list of words of [bits] bits, one after the other. *)
Definition compute_crcs `{Target} (crc : Z) (words : list Z) (bits : Z) : outcome Z :=
  fold_left (fun crc w => c ← crc; adbg_compute_crc c w bits) words (Ok crc).

Section adv_dbg_commands.
Context `{Target, Alloc} {St : Type} (jtag_cable : jtag_cable_t St).

(** * Selecting a module and a register *)

Definition adbg_select_module (chain : Z) : M (bridge St) Z :=
  current ← get current_chain;
  if current =? chain then mret APP_ERR_NONE
  else
    set (set_current_chain (-1));;
    set (set_desired_chain chain);;
    let data := u32 (chain .| (1 << DBG_MODULE_SELECT_REG_SIZE)) in
    e1 ← tap_set_shift_dr jtag_cable;
    e2 ← jtag_write_stream jtag_cable [data] 3 1;
    e3 ← tap_exit_to_idle jtag_cable;
    set (set_current_chain chain);;
    mret (e1 .| e2 .| e3).

(** The length of the register index and the opcode, by the module; [None]:
    the chain is not one with registers. *)
Definition ireg_command (wb cpu0 cpu1 : Z) (current : Z) : option (Z * Z) :=
  switch current
    [(DC_WISHBONE, Some (DBG_WB_REG_SEL_LEN, wb));
     (DC_CPU0, Some (DBG_CPU0_REG_SEL_LEN, cpu0));
     (DC_CPU1, Some (DBG_CPU1_REG_SEL_LEN, cpu1))] None.

(** [data = (opcode & ~(1<<DBG_WB_OPCODE_LEN)) << index_len; data |= regidx;] *)
Definition ireg_data (index_len opcode regidx : Z) : Z :=
  ((opcode .& not32 (1 << DBG_WB_OPCODE_LEN)) << index_len) .| u32 regidx.

(** [regidx] is an [unsigned long]; the [int] it is compared with is converted
    to one. *)
Definition adbg_select_ctrl_reg (regidx : Z) : M (bridge St) Z :=
  desired ← get desired_chain;
  err ← adbg_select_module desired;
  if truth err then mret err
  else
    current ← get current_chain;
    regs ← get current_reg_idx;
    idx ← lift (load_word regs current);
    if wrap (8 * long_size) idx =? regidx then mret APP_ERR_NONE
    else
      match ireg_command DBG_WB_CMD_IREG_SEL DBG_CPU0_CMD_IREG_SEL DBG_CPU1_CMD_IREG_SEL current with
      | None => mret 1
      | Some (index_len, opcode) =>
          e1 ← tap_set_shift_dr jtag_cable;
          e2 ← jtag_write_stream jtag_cable [ireg_data index_len opcode regidx] (5 + index_len) 1;
          e3 ← tap_exit_to_idle jtag_cable;
          retry_ok;;
          set (set_current_reg_idx (<[Z.to_nat current := i32 regidx]> regs));;
          mret (err .| e1 .| e2 .| e3)
      end.

Definition adbg_ctrl_write (regidx : Z) (cmd_data : list Z) (length_bits : Z) : M (bridge St) Z :=
  desired ← get desired_chain;
  err ← adbg_select_module desired;
  if truth err then mret err
  else
    current ← get current_chain;
    match ireg_command DBG_WB_CMD_IREG_WR DBG_CPU0_CMD_IREG_WR DBG_CPU1_CMD_IREG_WR current with
    | None => mret 1
    | Some (index_len, opcode) =>
        e1 ← tap_set_shift_dr jtag_cable;
        e2 ← jtag_write_stream jtag_cable cmd_data length_bits 0;
        e3 ← jtag_write_stream jtag_cable [ireg_data index_len opcode regidx] (5 + index_len) 1;
        e4 ← tap_exit_to_idle jtag_cable;
        retry_ok;;
        regs ← get current_reg_idx;
        set (set_current_reg_idx (<[Z.to_nat current := i32 regidx]> regs));;
        mret (err .| e1 .| e2 .| e3 .| e4)
    end.

Definition adbg_ctrl_read (regidx : Z) (data : buffer) (databits : Z)
    : M (bridge St) (Z * buffer) :=
  desired ← get desired_chain;
  err ← adbg_select_module desired;
  if truth err then mret (err, data)
  else
    err ← adbg_select_ctrl_reg regidx;
    if truth err then mret (err, data)
    else
      current ← get current_chain;
      let nop := switch current
        [(DC_WISHBONE, Some (DBG_WB_CMD_NOP, DBG_WB_OPCODE_LEN));
         (DC_CPU0, Some (DBG_CPU0_CMD_NOP, DBG_CPU0_OPCODE_LEN));
         (DC_CPU1, Some (DBG_CPU1_CMD_NOP, DBG_CPU1_OPCODE_LEN))] None in
      match nop with
      | None => mret (1, data)
      | Some (opcode, opcode_len) =>
          let outdata := [opcode .& not32 (1 << opcode_len); 0; 0; 0] in
          e1 ← tap_set_shift_dr jtag_cable;
          '(e2, data) ← jtag_read_write_stream jtag_cable outdata data databits 1 0;
          e3 ← jtag_write_stream jtag_cable outdata (opcode_len + 1) 1;
          e4 ← tap_exit_to_idle jtag_cable;
          retry_ok;;
          mret (err .| e1 .| e2 .| e3 .| e4, data)
      end.

(** [data[0]] and [data[1]] of adbg_burst_command. *)
Definition burst_words (opcode address length_words : Z) : list Z :=
  [u32 (length_words .| Z.shiftl address 16);
   u32 ((Z.shiftr address 16 .| Z.shiftl (opcode .& 0xf) 16) .& Z.lnot (2 ^ 20))].

Definition adbg_burst_command (opcode address length_words : Z) : M (bridge St) Z :=
  desired ← get desired_chain;
  err ← adbg_select_module desired;
  if truth err then mret err
  else
    e1 ← tap_set_shift_dr jtag_cable;
    e2 ← jtag_write_stream jtag_cable (burst_words opcode address length_words) 53 1;
    e3 ← tap_exit_to_idle jtag_cable;
    retry_ok;;
    mret (err .| e1 .| e2 .| e3).

(** * Burst reads *)

(** The opcode by the module and the size of a word; sizes it does not know are
    taken as four bytes. *)
Definition read_opcode (current word_size_bytes : Z) : option Z :=
  switch current
    [(DC_WISHBONE,
       Some (if word_size_bytes =? 1 then DBG_WB_CMD_BREAD8
             else if word_size_bytes =? 2 then DBG_WB_CMD_BREAD16
             else if word_size_bytes =? 4 then DBG_WB_CMD_BREAD32
             else DBG_WB_CMD_BREAD32));
     (DC_CPU0,
       Some (if word_size_bytes =? 4 then DBG_CPU0_CMD_BREAD32 else DBG_CPU0_CMD_BREAD32));
     (DC_CPU1,
       Some (if word_size_bytes =? 4 then DBG_CPU1_CMD_BREAD32 else DBG_CPU0_CMD_BREAD32))] None.

(** What a pass through the body of the function ends with: a return, or one of
    the two labels it jumps back to. *)
Inductive pass :=
| Return (err : Z) (data : buffer)
| RetryFull (err bus_error_retries : Z) (data : buffer)
| RetryPartial (i addr err bus_error_retries : Z) (data : buffer).

(** [while(!status)]: the errors so far and whether it timed out.  [j] counts
    up to [MAX_READ_STATUS_WAIT + 1]. *)
Fixpoint wait_status (fuel : nat) (j err : Z) : M (bridge St) (Z * bool) :=
  match fuel with
  | O => lift Hang
  | S fuel =>
      '(e, status) ← jtag_read_write_bit jtag_cable 0;
      let err := err .| e in
      let j := j + 1 in
      if MAX_READ_STATUS_WAIT <? j then mret (err, true)
      else if truth status then mret (err, false)
      else wait_status fuel j err
  end.

(** The data and the CRC in one stream, and [memcpy]s out of the scratchpad.
    Only the first [total_size_bytes] of [output_scratchpad] are cleared, and
    only their bits are sent. *)
Definition read_scratchpad (total_size_bytes n : Z) : M (bridge St) (Z * list Z * Z) :=
  isize ← get input_scratchpad_size;
  osize ← get output_scratchpad_size;
  '(e, input) ← jtag_read_write_stream jtag_cable
     (replicate (Z.to_nat (osize / 4)) 0) (replicate (Z.to_nat (isize / 4)) None)
     (total_size_bytes * 8) 0 1;
  words ← lift (buffer_words input ((total_size_bytes * 8 - 1) / 32 + 1));
  let bytes := words_bytes words in
  mret (e, take (Z.to_nat n) bytes, bytes_value (take 4 (drop (Z.to_nat n) bytes))).

(** The check of the error register of the Wishbone module after a burst: the
    bit, and the address and [err_data] when there was an error. *)
Definition read_wb_error (err : Z) : M (bridge St) (Z * option (Z * list Z)) :=
  '(e, err_data) ← adbg_ctrl_read DBG_WB_REG_ERROR [None; None] 1;
  let err := err .| e in
  w0 ← lift (load_slot err_data 0);
  if truth (w0 .& 0x1) then
    '(e, err_data) ← adbg_ctrl_read DBG_WB_REG_ERROR err_data 33;
    w0 ← lift (load_slot err_data 0);
    w1 ← lift (load_slot err_data 1);
    mret (err .| e, Some (Z.shiftr w0 1 .| (w1 << 31), [w0; w1]))
  else mret (err, None).

(** [i = (addr - start_address) / word_size_bytes;] in [unsigned long]s. *)
Definition failed_index (addr start_address word_size_bytes : Z) : outcome Z :=
  let w := 8 * long_size in
  if wrap w word_size_bytes =? 0 then Undef
  else Ok (i32 (wrap w (addr - start_address) / wrap w word_size_bytes)).

(** One transfer, from [wb_burst_read_retry_partial] to the check of the CRC: a
    return before the data is there, the time-out, or the data and whether the
    CRC is right. *)
Inductive fetched :=
| FetchReturn (err : Z)
| FetchTimeout (err : Z)
| Fetched (err : Z) (data : buffer) (crc_ok : bool).

Definition burst_fetch (opcode word_size_bytes word_count i addr err : Z) (data : buffer)
    : M (bridge St) fetched :=
  e ← adbg_burst_command opcode addr (word_count - i);
  let err := err .| e in
  if truth err then mret (FetchReturn err)
  else
    xilinx ← getc global_xilinx_bscan;
    err ← (if truth xilinx then
             e1 ← tap_set_ir jtag_cable (i32 0xFFFFFFFF);
             e2 ← tap_enable_debug_module jtag_cable;
             mret (err .| e1 .| e2)
           else mret err);
    e ← tap_set_shift_dr jtag_cable;
    '(err, timed_out) ← wait_status (Z.to_nat (MAX_READ_STATUS_WAIT + 1)) 0 (err .| e);
    if (timed_out : bool) then mret (FetchTimeout err)
    else
      n ← lift (signed_c 32 (word_count * word_size_bytes));
      total_size_bytes ← lift (signed_c 32 (n + 4));
      isize ← get input_scratchpad_size;
      osize ← get output_scratchpad_size;
      let '(e1, isize) := check_buffer_size isize total_size_bytes in
      let '(e2, osize) := check_buffer_size osize total_size_bytes in
      set (set_scratchpad_sizes isize osize);;
      let err := err .| e1 .| e2 in
      if truth err then mret (FetchReturn err)
      else
        '(e, bytes, crc_read) ← read_scratchpad total_size_bytes n;
        data ← lift (store_bytes data bytes);
        crc_calc ← lift (compute_crcs 0xffffffff bytes 8);
        e' ← tap_exit_to_idle jtag_cable;
        mret (Fetched (err .| e .| e') data (crc_calc =? crc_read)).

(** The pass, with the retries after a time-out, a wrong CRC and an error of the
    Wishbone bus. *)
Definition burst_read_pass (opcode word_size_bytes word_count start_address : Z)
    (i addr err bus_error_retries : Z) (data : buffer) : M (bridge St) pass :=
  r ← burst_fetch opcode word_size_bytes word_count i addr err data;
  match r with
  | FetchReturn err => mret (Return err data)
  | FetchTimeout err =>
      r ← retry_do jtag_cable;
      if negb (truth r) then mret (Return (err .| APP_ERR_MAX_RETRY) data)
      else mret (RetryFull APP_ERR_NONE bus_error_retries data)
  | Fetched err data crc_ok =>
      if negb crc_ok then
        r ← retry_do jtag_cable;
        if negb (truth r) then mret (Return (err .| APP_ERR_CRC) data)
        else mret (RetryFull err bus_error_retries data)
      else
        current ← get current_chain;
        if current =? DC_WISHBONE then
          '(err, failed) ← read_wb_error err;
          match failed with
          | None => retry_ok;; mret (Return err data)
          | Some (addr, err_data) =>
              i ← lift (failed_index addr start_address word_size_bytes);
              let bus_error_retries := bus_error_retries + 1 in
              if MAX_BUS_ERRORS <? bus_error_retries
              then mret (Return (err .| APP_ERR_MAX_BUS_ERR) data)
              else
                e ← adbg_ctrl_write DBG_WB_REG_ERROR (<[0%nat := 1]> err_data) 1;
                mret (RetryPartial i addr (err .| e) bus_error_retries data)
          end
        else retry_ok;; mret (Return err data)
  end.

(** The jumps back; [fuel] counts passes. *)
Fixpoint burst_read_loop (fuel : nat) (opcode word_size_bytes word_count start_address : Z)
    (i addr err bus_error_retries : Z) (data : buffer) : M (bridge St) (Z * buffer) :=
  match fuel with
  | O => lift Hang
  | S fuel =>
      p ← burst_read_pass opcode word_size_bytes word_count start_address
            i addr err bus_error_retries data;
      match p with
      | Return err data => mret (err, data)
      | RetryFull err bus_error_retries data =>
          burst_read_loop fuel opcode word_size_bytes word_count start_address
            0 start_address err bus_error_retries data
      | RetryPartial i addr err bus_error_retries data =>
          burst_read_loop fuel opcode word_size_bytes word_count start_address
            i addr err bus_error_retries data
      end
  end.

Definition adbg_wb_burst_read (fuel : nat) (word_size_bytes word_count start_address : Z)
    (data : buffer) : M (bridge St) (Z * buffer) :=
  if word_count <=? 0 then mret (0, data)
  else
    current ← get current_chain;
    match read_opcode current word_size_bytes with
    | None => mret (1, data)
    | Some opcode =>
        burst_read_loop fuel opcode word_size_bytes word_count start_address
          0 start_address APP_ERR_NONE 0 data
    end.

(** * Burst writes *)

Definition write_opcode (current word_size_bytes : Z) : option Z :=
  switch current
    [(DC_WISHBONE,
       Some (if word_size_bytes =? 1 then DBG_WB_CMD_BWRITE8
             else if word_size_bytes =? 2 then DBG_WB_CMD_BWRITE16
             else if word_size_bytes =? 4 then DBG_WB_CMD_BWRITE32
             else DBG_WB_CMD_BWRITE32));
     (DC_CPU0,
       Some (if word_size_bytes =? 4 then DBG_CPU0_CMD_BWRITE32 else DBG_CPU0_CMD_BWRITE32));
     (DC_CPU1,
       Some (if word_size_bytes =? 4 then DBG_CPU1_CMD_BWRITE32 else DBG_CPU0_CMD_BWRITE32))] None.

(** A word of the data as the loop that computes the CRC reads it: through an
    [unsigned long *] when its size is four. *)
Definition data_word (data : list Z) (word_size_bytes loopct : Z) : outcome Z :=
  let size := if word_size_bytes =? 4 then long_size
              else if word_size_bytes =? 2 then 2 else 1 in
  bytes ← load_bytes (map Some data) (loopct * size) size;
  Ok (u32 (bytes_value bytes)).

Definition write_crc (data : list Z) (word_size_bytes word_count : Z) : outcome Z :=
  for_upto word_count
    (fun loopct crc =>
       crc_calc ← crc;
       w ← data_word data word_size_bytes loopct;
       adbg_compute_crc crc_calc w (word_size_bytes * 8)) (Ok 0xffffffff).

(** What a pass of a write ends with, and what the function ends with: it may
    also call [exit]. *)
Inductive write_pass :=
| WReturn (err : Z)
| WExit (code : Z)
| WRetryFull (err bus_error_retries : Z)
| WRetryPartial (i addr err bus_error_retries : Z).
Inductive write_result := Returned (err : Z) | Exited (code : Z).

(** The data and the CRC, one stream out of the scratchpad. *)
Definition write_scratchpad (data : list Z) (n crc_calc total_size_bytes : Z)
    : M (bridge St) Z :=
  osize ← get output_scratchpad_size;
  bytes ← lift (load_bytes (map Some data) 0 n);
  let content := bytes ++ word_bytes crc_calc in
  let words := bytes_words (content ++ replicate (Z.to_nat osize - length content) 0) in
  jtag_write_stream jtag_cable words (total_size_bytes * 8) 0.

(** The first half of a transfer, from [wb_burst_write_retry_partial] to the
    stream of the data; the flag says that the function returns there. *)
Definition burst_send (data : list Z) (opcode word_size_bytes word_count i addr err : Z)
    : M (bridge St) (Z * bool) :=
  e ← adbg_burst_command opcode addr (word_count - i);
  let err := err .| e in
  if truth err then mret (err, true)
  else
    e1 ← tap_set_shift_dr jtag_cable;
    e2 ← jtag_write_bit jtag_cable TDO;
    crc_calc ← lift (write_crc data word_size_bytes word_count);
    n ← lift (signed_c 32 (word_count * word_size_bytes));
    total_size_bytes ← lift (signed_c 32 (n + 4));
    osize ← get output_scratchpad_size;
    isize ← get input_scratchpad_size;
    let '(e3, osize) := check_buffer_size osize total_size_bytes in
    set (set_scratchpad_sizes isize osize);;
    let err := err .| e1 .| e2 .| e3 in
    if truth err then mret (err, true)
    else
      e ← write_scratchpad data n crc_calc total_size_bytes;
      mret (err .| e, false).

(** The second half: the zeros, the match bit and the way to idle. *)
Definition read_crc_match (err : Z) : M (bridge St) (Z * Z) :=
  prefix ← getc global_DR_prefix_bits;
  err ← write_bits jtag_cable prefix 0 err;
  '(e1, match_) ← jtag_read_write_stream jtag_cable [0; 0] [None] 1 1 0;
  e2 ← jtag_write_bit jtag_cable TMS;
  e3 ← tap_exit_to_idle jtag_cable;
  crc_match ← lift (load_slot match_ 0);
  mret (err .| e1 .| e2 .| e3, crc_match).

Definition burst_write_pass (data : list Z) (opcode word_size_bytes word_count start_address : Z)
    (i addr err bus_error_retries : Z) : M (bridge St) write_pass :=
  '(err, returned) ← burst_send data opcode word_size_bytes word_count i addr err;
  if (returned : bool) then mret (WReturn err)
  else
    '(err, crc_match) ← read_crc_match err;
    if negb (truth crc_match) then
      r ← retry_do jtag_cable;
      if negb (truth r) then mret (WExit 1) else mret (WRetryFull err bus_error_retries)
    else
      current ← get current_chain;
      if current =? DC_WISHBONE then
        '(err, failed) ← read_wb_error err;
        match failed with
        | None => retry_ok;; mret (WReturn err)
        | Some (addr, err_data) =>
            i ← lift (failed_index addr start_address word_size_bytes);
            let bus_error_retries := bus_error_retries + 1 in
            if MAX_BUS_ERRORS <? bus_error_retries
            then mret (WReturn (err .| APP_ERR_MAX_BUS_ERR))
            else
              e ← adbg_ctrl_write DBG_WB_REG_ERROR err_data 1;
              mret (WRetryPartial i addr (err .| e) bus_error_retries)
        end
      else retry_ok;; mret (WReturn err).

Fixpoint burst_write_loop (fuel : nat) (data : list Z)
    (opcode word_size_bytes word_count start_address : Z)
    (i addr err bus_error_retries : Z) : M (bridge St) write_result :=
  match fuel with
  | O => lift Hang
  | S fuel =>
      p ← burst_write_pass data opcode word_size_bytes word_count start_address
            i addr err bus_error_retries;
      match p with
      | WReturn err => mret (Returned err)
      | WExit code => mret (Exited code)
      | WRetryFull err bus_error_retries =>
          burst_write_loop fuel data opcode word_size_bytes word_count start_address
            0 start_address err bus_error_retries
      | WRetryPartial i addr err bus_error_retries =>
          burst_write_loop fuel data opcode word_size_bytes word_count start_address
            i addr err bus_error_retries
      end
  end.

Definition adbg_wb_burst_write (fuel : nat) (data : list Z)
    (word_size_bytes word_count start_address : Z) : M (bridge St) write_result :=
  if word_count <=? 0 then mret (Returned 0)
  else
    current ← get current_chain;
    match write_opcode current word_size_bytes with
    | None => mret (Returned 1)
    | Some opcode =>
        burst_write_loop fuel data opcode word_size_bytes word_count start_address
          0 start_address APP_ERR_NONE 0
    end.

(** * The serial port *)

(** Nine bytes each way, and one bit more when the last of them ends with a 1.
    [outdata] and [indata] are arrays of ten bytes, which hold two whole words.
    The result: the error code, the bytes sent and the bytes received. *)
Definition adbg_jsp_transact (data_to_send : list Z) (bytes_to_send : Z)
    : M (bridge St) (Z * Z * list Z) :=
  let xmitsize := if 8 <? bytes_to_send then 8 else bytes_to_send in
  desired ← get desired_chain;
  err ← adbg_select_module desired;
  if truth err then mret (err, bytes_to_send, [])
  else
    e1 ← tap_set_shift_dr jtag_cable;
    sent ← lift (load_bytes (map Some data_to_send) 0 xmitsize);
    let outdata := take 10 (u8 (xmitsize << 4) :: sent ++ replicate 10 0) in
    b8 ← lift (read_var (outdata !! 8%nat));
    let stopbit := if truth (b8 .& 0x80) then 1 else 0 in
    '(e2, input) ← jtag_read_write_stream jtag_cable (bytes_words outdata) [None; None]
                     (72 + stopbit) 1 1;
    words ← lift (buffer_words input 2);
    let indata := words_bytes words in
    b0 ← lift (load_word indata 0);
    let bytes_received := b0 >> 4 .& 0xF in
    received ← lift (load_bytes (map Some indata) 1 bytes_received);
    let bytes_free := b0 .& 0x0F in
    let bytes_sent := if bytes_free <? xmitsize then bytes_free else xmitsize in
    e3 ← tap_exit_to_idle jtag_cable;
    mret (e1 .| e2 .| e3, bytes_sent, received).
End adv_dbg_commands.
