(* ===== verification/Crc.v ===== *)
(** The CRC of adv_dbg_commands.c: it depends on the bits only, not on how they
    are cut into words, and it detects every burst of errors of at most 32
    bits. *)

From S2P Require Import Prelude StateM Tap Cable Chain AdvDbg.

Open Scope cword_scope.

Definition crc_bits (crc : Z) (bits : list bool) : Z := fold_left (fun c d => crc_step d c) bits crc.

(** The low bits of a word, in the order they are sent. *)
Definition word_bits (w n : Z) : list bool := map (Z.testbit w) (seqZ 0 n).
Definition bytes_bits (bytes : list Z) : list bool := concat (map (fun b => word_bits b 8) bytes).

Lemma crc_bits_app crc xs ys : crc_bits crc (xs ++ ys) = crc_bits (crc_bits crc xs) ys.
Proof. apply fold_left_app. Qed.

(** * The code computes it *)

Section compute.
Context `{Target}.

Lemma compute_crc_bits crc w len :
  0 <= len <= 32 -> adbg_compute_crc crc w len = Ok (crc_bits crc (word_bits w len)).
Proof.
  intros Hl. unfold adbg_compute_crc.
  apply (for_upto_inv (fun i acc => acc = Ok (crc_bits crc (word_bits w i)))); [lia|done|].
  intros i acc Hi ->. simpl. unfold shr_target. rewrite shift_count_low by lia. simpl.
  rewrite land_1, truth_b2z, Z.shiftr_spec, Z.add_0_l by lia. unfold word_bits.
  by rewrite seqZ_app, map_app, crc_bits_app by lia.
Qed.

Lemma compute_crcs_bits crc ws len :
  0 <= len <= 32 ->
  compute_crcs crc ws len = Ok (crc_bits crc (concat (map (fun w => word_bits w len) ws))).
Proof.
  intros Hl. unfold compute_crcs. revert crc. induction ws as [|w ws IH]; intros crc; [done|].
  simpl. rewrite compute_crc_bits by done. by rewrite IH, crc_bits_app.
Qed.
End compute.

(** * The state of the register *)

Lemma crc_step_word d crc : is_u32 crc -> is_u32 (crc_step d crc).
Proof.
  intros Hc. unfold crc_step. apply is_word_lxor; [lia| |].
  - apply is_word_shiftr; [lia|lia|done].
  - apply is_word_land_r; [lia|]. by split.
Qed.

Lemma crc_step_eq d crc :
  crc_step d crc = (crc >> 1) .^ (if xorb d (Z.testbit crc 0) then ADBG_CRC_POLY else 0).
Proof.
  unfold crc_step. rewrite land_1, truth_b2z. f_equal.
  destruct d, (Z.testbit crc 0); reflexivity.
Qed.

Lemma crc_bits_word crc bits : is_u32 crc -> is_u32 (crc_bits crc bits).
Proof.
  revert crc. induction bits as [|d bits IH]; intros crc Hc; [done|]. by apply IH, crc_step_word.
Qed.

(** The top bit of the register after a step is the bit that was fed back. *)
Lemma crc_step_top d crc :
  is_u32 crc -> Z.testbit (crc_step d crc) 31 = xorb d (Z.testbit crc 0).
Proof.
  intros Hc. rewrite crc_step_eq, Z.lxor_spec, Z.shiftr_spec by lia.
  rewrite (testbit_word 32 crc) by (done || lia).
  rewrite xorb_false_l. by destruct (xorb d _).
Qed.

(** Feeding the same bit, the step loses nothing. *)
Lemma crc_step_inj d c1 c2 :
  is_u32 c1 -> is_u32 c2 -> crc_step d c1 = crc_step d c2 -> c1 = c2.
Proof.
  intros H1 H2 E. pose proof (f_equal (fun c => Z.testbit c 31) E) as Ht. cbv beta in Ht.
  rewrite !crc_step_top in Ht by done.
  assert (H0 : Z.testbit c1 0 = Z.testbit c2 0)
    by (destruct d, (Z.testbit c1 0), (Z.testbit c2 0); done).
  rewrite !crc_step_eq, H0 in E.
  assert (Hs : c1 >> 1 = c2 >> 1).
  { apply Z.bits_inj'. intros i Hi. apply (f_equal (fun c => Z.testbit c i)) in E. cbv beta in E.
    rewrite !Z.lxor_spec in E.
    by destruct (Z.testbit (c1 >> 1) i), (Z.testbit (c2 >> 1) i), (Z.testbit _ i). }
  apply Z.bits_inj'. intros i Hi. destruct (Z.eq_dec i 0) as [->|]; [done|].
  apply (f_equal (fun c => Z.testbit c (i - 1))) in Hs. cbv beta in Hs.
  rewrite !Z.shiftr_spec in Hs by lia. by replace (i - 1 + 1) with i in Hs by lia.
Qed.

Lemma crc_bits_inj bits c1 c2 :
  is_u32 c1 -> is_u32 c2 -> crc_bits c1 bits = crc_bits c2 bits -> c1 = c2.
Proof.
  revert c1 c2. induction bits as [|d bits IH]; intros c1 c2 H1 H2 E; [done|].
  apply (crc_step_inj d); [done..|]. apply IH; [by apply crc_step_word..|done].
Qed.

(** * Errors within 32 bits *)

(** The bits fed back while [bits] go through the register. *)
Fixpoint feedback (crc : Z) (bits : list bool) : list bool :=
  match bits with
  | [] => []
  | d :: ds => xorb d (Z.testbit crc 0) :: feedback (crc_step d crc) ds
  end.

Lemma feedback_snoc crc bits d :
  feedback crc (bits ++ [d]) = feedback crc bits ++ [xorb d (Z.testbit (crc_bits crc bits) 0)].
Proof. revert crc. induction bits as [|b bits IH]; intros crc; simpl; [done|]. by rewrite IH. Qed.

Lemma xorb_cancel_r x y b : xorb x b = xorb y b -> x = y.
Proof. by destruct x, y, b. Qed.

(** From the same register the bits fed back determine the bits. *)
Lemma feedback_inj crc xs ys : feedback crc xs = feedback crc ys -> xs = ys.
Proof.
  revert crc ys. induction xs as [|x xs IH]; intros crc [|y ys] E; [done..|].
  cbn [feedback] in E. injection E as Hx Ht.
  assert (x = y) as -> by (by apply xorb_cancel_r in Hx).
  f_equal. by eapply IH.
Qed.

(** Registers that agree from bit [j] on have got the same last bits back. *)
Lemma feedback_last xs ys c1 c2 j :
  length xs = length ys -> 0 <= j -> j + Z.of_nat (length xs) <= 32 -> is_u32 c1 -> is_u32 c2 ->
  crc_bits c1 xs >> j = crc_bits c2 ys >> j -> feedback c1 xs = feedback c2 ys.
Proof.
  revert ys j. induction xs as [|x xs IH] using rev_ind; intros ys j Hl Hj Hs H1 H2 E.
  - by destruct ys.
  - destruct ys as [|y ys _] using rev_ind; [rewrite length_app in Hl; simpl in Hl; lia|].
    rewrite !length_app in Hl. rewrite length_app in Hs. simpl in Hl, Hs.
    rewrite !crc_bits_app in E. cbn [crc_bits fold_left] in E. rewrite !feedback_snoc.
    pose proof (crc_bits_word c1 xs H1) as Hw1. pose proof (crc_bits_word c2 ys H2) as Hw2.
    set (a := crc_bits c1 xs) in *. set (b := crc_bits c2 ys) in *.
    assert (Ht : xorb x (Z.testbit a 0) = xorb y (Z.testbit b 0)).
    { rewrite <- (crc_step_top x a), <- (crc_step_top y b) by done.
      apply (f_equal (fun c => Z.testbit c (31 - j))) in E. cbv beta in E.
      rewrite !Z.shiftr_spec in E by lia. by replace (31 - j + j) with 31 in E by lia. }
    rewrite Ht. f_equal. apply (IH ys (j + 1)); [lia|lia|lia|done|done|]. fold a b.
    apply Z.bits_inj'. intros i Hi. apply (f_equal (fun c => Z.testbit c i)) in E. cbv beta in E.
    rewrite !Z.shiftr_spec in E |- * by lia. rewrite !crc_step_eq, Ht in E.
    rewrite !Z.lxor_spec, !Z.shiftr_spec in E by lia.
    replace (i + (j + 1)) with (i + j + 1) by lia.
    by destruct (Z.testbit a (i + j + 1)), (Z.testbit b (i + j + 1)), (Z.testbit _ (i + j)).
Qed.

Lemma crc_burst crc xs ys zs :
  is_u32 crc -> length xs = length ys -> Z.of_nat (length xs) <= 32 ->
  crc_bits crc (xs ++ zs) = crc_bits crc (ys ++ zs) -> xs = ys.
Proof.
  intros Hc Hl Hs E. rewrite !crc_bits_app in E.
  apply crc_bits_inj in E; [|by apply crc_bits_word..].
  apply (feedback_inj crc). apply (feedback_last xs ys crc crc 0); [done|lia|lia|done|done|].
  by rewrite E.
Qed.
