(* ===== verification/AdvFacts.v ===== *)
(** What the commands of adv_dbg_commands.c send, for a lawful cable: the scans of
    the data register that select a module, write a register and start a
    burst; and resets and scans of the instruction and the identification register, from
    Run-Test/Idle and back. *)

From S2P Require Import Prelude StateM Tap Cable Chain AdvDbg Crc.

Open Scope cword_scope.

(** * The scans *)

(** A module is selected by two bits and a 1; a command to the module ends with a
    0. *)
Definition select_bits (chain : Z) : list bool := word_bits chain 2 ++ [true].
Definition ireg_bits (opcode regidx : Z) : list bool :=
  word_bits regidx 1 ++ word_bits opcode 4 ++ [false].
Definition burst_bits (opcode address length_words : Z) : list bool :=
  word_bits length_words 16 ++ word_bits address 32 ++ word_bits opcode 4 ++ [false].

Lemma seqZ_shift n m : seqZ (0 + n) m = map (Z.add n) (seqZ 0 m).
Proof. symmetry. rewrite Z.add_comm. apply fmap_add_seqZ. Qed.

Lemma word_bits_app w n m : 0 <= n -> 0 <= m ->
  word_bits w (n + m) = word_bits w n ++ word_bits (Z.shiftr w n) m.
Proof.
  intros Hn Hm. unfold word_bits. rewrite seqZ_app, map_app by done. f_equal.
  rewrite (seqZ_shift n m), map_map. apply map_ext_in. intros i Hi%list_elem_of_In%elem_of_seqZ.
  rewrite Z.shiftr_spec by lia. f_equal. lia.
Qed.

(** The bits of a stream of one word, and of a first full word and the rest. *)
Lemma stream_word_bits w ws n : 0 <= n <= 32 -> stream_bits (w :: ws) n = word_bits w n.
Proof.
  intros Hn. apply map_ext_in. intros i Hi%list_elem_of_In%elem_of_seqZ.
  unfold stream_bit. by rewrite Z.div_small, Z.mod_small by lia.
Qed.

Lemma stream_bits_cons w ws n : 0 <= n ->
  stream_bits (w :: ws) (32 + n) = word_bits w 32 ++ stream_bits ws n.
Proof.
  intros Hn. unfold stream_bits. rewrite seqZ_app, map_app by lia.
  apply (f_equal2 app).
  - apply map_ext_in. intros i Hi%list_elem_of_In%elem_of_seqZ.
    unfold stream_bit. by rewrite Z.div_small, Z.mod_small by lia.
  - rewrite (seqZ_shift 32 n), map_map. apply map_ext_in. intros i Hi%list_elem_of_In%elem_of_seqZ.
    unfold stream_bit. replace (32 + i) with (i + 1 * 32) by lia.
    rewrite Z.div_add, Z.mod_add by lia.
    assert (0 <= i / 32) by (apply Z.div_pos; lia).
    by replace (Z.to_nat (i / 32 + 1)) with (S (Z.to_nat (i / 32))) by lia.
Qed.

(** Words with the same low bits. *)
Lemma word_bits_ext v w n :
  (forall i, 0 <= i < n -> Z.testbit v i = Z.testbit w i) -> word_bits v n = word_bits w n.
Proof. intros Hi. apply map_ext_in. intros i ?%list_elem_of_In%elem_of_seqZ. apply Hi. lia. Qed.

Lemma word_bits_1 w : word_bits w 1 = [Z.testbit w 0].
Proof. done. Qed.

Lemma word_bits_length w n : 0 <= n -> Z.of_nat (length (word_bits w n)) = n.
Proof. intros. unfold word_bits. rewrite length_map, length_seqZ. lia. Qed.

Lemma select_stream chain : is_word 2 chain ->
  stream_bits [u32 (chain .| (1 << DBG_MODULE_SELECT_REG_SIZE))] 3 = select_bits chain.
Proof.
  intros Hc. rewrite stream_word_bits by lia. change 3 with (2 + 1).
  rewrite word_bits_app by lia. unfold select_bits, DBG_MODULE_SELECT_REG_SIZE. f_equal.
  - apply word_bits_ext. intros i Hi. change (1 << 2) with (2 ^ 2). autorewrite with zbits.
    destruct (Z.ltb_spec i 32), (Z.eqb_spec i 2); try lia. by rewrite orb_false_r.
  - rewrite word_bits_1, Z.shiftr_spec by lia. change (1 << 2) with (2 ^ 2).
    rewrite testbit_wrap, Z.lor_spec, testbit_pow2 by lia. by rewrite orb_true_r.
Qed.

Lemma ireg_stream opcode regidx :
  is_word 4 opcode -> is_word 1 regidx ->
  stream_bits [ireg_data 1 opcode regidx] (5 + 1) = ireg_bits opcode regidx.
Proof.
  unfold is_word. intros Ho Hr. rewrite stream_word_bits by lia.
  assert (In opcode (seqZ 0 16)) as Hi by (apply list_elem_of_In, elem_of_seqZ; lia).
  assert (In regidx (seqZ 0 2)) as Hj by (apply list_elem_of_In, elem_of_seqZ; lia).
  unfold ireg_bits. cbn in Hi, Hj.
  repeat (destruct Hj as [<-|Hj]; [repeat (destruct Hi as [<-|Hi]; [vm_compute; reflexivity|]); done|]).
  done.
Qed.

(** The fields of a burst command, for an address and a length that fit their
    fields. *)
Lemma burst_stream opcode address length_words :
  is_u32 address -> is_word 16 length_words ->
  stream_bits (burst_words opcode address length_words) 53
  = burst_bits opcode address length_words.
Proof.
  intros Ha Hl. unfold burst_words, burst_bits. change 53 with (32 + 21).
  rewrite stream_bits_cons, stream_word_bits by lia.
  assert (H32 : forall w, word_bits w 32 = word_bits w 16 ++ word_bits (Z.shiftr w 16) 16)
    by (intros w; apply (word_bits_app w 16 16); lia).
  rewrite !H32. change 21 with (16 + (4 + 1)).
  rewrite !word_bits_app, <- !app_assoc by lia. f_equal; [|f_equal; [|f_equal; [|f_equal]]].
  - apply word_bits_ext. intros i Hi. autorewrite with zbits.
    rewrite (Z.testbit_neg_r address) by lia. destruct (Z.ltb_spec i 32); [|lia].
    by rewrite orb_false_r.
  - apply word_bits_ext. intros i Hi. rewrite Z.shiftr_spec by lia. autorewrite with zbits.
    rewrite (testbit_word 16 length_words) by (done || lia).
    destruct (Z.ltb_spec (i + 16) 32); [|lia]. cbn. f_equal. lia.
  - apply word_bits_ext. intros i Hi. autorewrite with zbits.
    rewrite (Z.testbit_neg_r _ (i - 16)) by lia.
    destruct (Z.ltb_spec i 32), (Z.eqb_spec i 20); try lia. cbn.
    by rewrite orb_false_r, andb_true_r.
  - apply word_bits_ext. intros i Hi. rewrite Z.shiftr_spec by lia. autorewrite with zbits.
    rewrite (testbit_word 32 address) by (done || lia).
    destruct (Z.ltb_spec (i + 16) 32), (Z.eqb_spec (i + 16) 20); try lia. cbn.
    change 0xf with (2 ^ 4 - 1). rewrite testbit_mask by lia. destruct (Z.ltb_spec (i + 16 - 16) 4); [|lia].
    rewrite !andb_true_r. f_equal. lia.
  - rewrite word_bits_1, !Z.shiftr_spec by lia. autorewrite with zbits.
    cbn. by rewrite andb_false_r.
Qed.

(** * Commands on a reliable cable report no error *)

Section quiet.
Context `{Target, Alloc} {St : Type} (jtag_cable : jtag_cable_t St).

Abbreviation quiet m := (post m (fun e => e = 0)).

Lemma post_cable {A} (m : M St A) P : post m P -> post (cable m) P.
Proof.
  intros Hm b a b'. unfold cable. destruct (m (drv b)) as [[x s]| | |] eqn:E; [|done..].
  intros [= <- <-]. by apply (Hm (drv b) x s).
Qed.

Context (Hr : Reliable jtag_cable).

Lemma quiet_write_bit p : quiet (jtag_write_bit jtag_cable p).
Proof. apply post_cable, rel_bit_out. Qed.

Lemma quiet_read_bit p : post (jtag_read_write_bit jtag_cable p) (fun r => fst r = 0).
Proof. apply post_cable, rel_bit_inout. Qed.

Lemma quiet_write_bits n p : quiet (write_bits jtag_cable n p 0).
Proof.
  apply (post_mfor (fun e => e = 0)); [done|]. intros i e ->.
  eapply post_bind; [apply quiet_write_bit|]. intros e ->. by apply post_ret.
Qed.

Lemma quiet_write_stream ws n tms : quiet (jtag_write_stream jtag_cable ws n tms).
Proof.
  unfold jtag_write_stream. apply post_skip; intros prefix. destruct (negb _); [|destruct (_ =? 0)].
  1, 2: apply post_cable, rel_stream_out.
  eapply post_bind; [apply post_cable, rel_stream_out|]. intros e ->.
  eapply post_bind; [apply quiet_write_bits|]. intros e ->.
  eapply post_bind; [apply quiet_write_bit|]. intros e ->. by apply post_ret.
Qed.

Lemma quiet_read_stream ws buf n adjust tms :
  post (jtag_read_write_stream jtag_cable ws buf n adjust tms) (fun r => fst r = 0).
Proof.
  unfold jtag_read_write_stream. apply post_skip; intros postfix. apply post_skip; intros prefix.
  eapply post_bind with (P := fun e => e = 0).
  { destruct (_ && _); [apply quiet_write_bits|by apply post_ret]. }
  intros e ->. destruct (negb _); [|destruct (_ =? 0)].
  1, 2: eapply post_bind; [apply post_cable, rel_stream_inout|]; intros [e d] He; simpl in He;
    subst e; by apply post_ret.
  eapply post_bind; [apply post_cable, rel_stream_inout|]. intros [e d] He. simpl in He. subst e.
  eapply post_bind; [apply quiet_write_bits|]. intros e ->.
  eapply post_bind; [apply quiet_write_bit|]. intros e ->. by apply post_ret.
Qed.

Lemma quiet_set_shift_dr : quiet (tap_set_shift_dr jtag_cable).
Proof.
  do 3 (eapply post_bind; [apply quiet_write_bit|]; intros e ->). by apply post_ret.
Qed.

Lemma quiet_exit_to_idle : quiet (tap_exit_to_idle jtag_cable).
Proof.
  do 2 (eapply post_bind; [apply quiet_write_bit|]; intros e ->). by apply post_ret.
Qed.

Lemma quiet_dr_scan {A} words len (k : Z -> Z -> Z -> M (bridge St) A) P :
  post (k 0 0 0) P ->
  post (e1 ← tap_set_shift_dr jtag_cable;
        e2 ← jtag_write_stream jtag_cable words len 1;
        e3 ← tap_exit_to_idle jtag_cable; k e1 e2 e3) P.
Proof.
  intros Hk. eapply post_bind; [apply quiet_set_shift_dr|]. intros e ->.
  eapply post_bind; [apply quiet_write_stream|]. intros e ->.
  eapply post_bind; [apply quiet_exit_to_idle|]. by intros e ->.
Qed.

Lemma quiet_select_module c : quiet (adbg_select_module jtag_cable c).
Proof.
  unfold adbg_select_module. apply post_skip; intros current. destruct (_ =? _); [by apply post_ret|].
  do 2 (apply post_skip; intros ?). apply quiet_dr_scan. apply post_skip; intros ?. by apply post_ret.
Qed.

Lemma quiet_burst_command op addr len : quiet (adbg_burst_command jtag_cable op addr len).
Proof.
  unfold adbg_burst_command. apply post_skip; intros desired.
  eapply post_bind; [apply quiet_select_module|]. intros e ->. cbn [truth Z.eqb negb].
  apply quiet_dr_scan. apply post_skip; intros ?. by apply post_ret.
Qed.
End quiet.

(** As [wp_use], with what a reliable cable adds. *)
Tactic Notation "wp_rel" uconstr(Q) uconstr(H) "as" simple_intropattern(a)
    simple_intropattern(s) simple_intropattern(p) :=
  match goal with
  | c : jtag_cable_t _ |- _ =>
      eapply wp_mono; [apply (wp_post (Reliable c)); [intros ?Hrel; by apply Q|apply H]|intros a s p]
  end.

(** * The commands *)

Section commands.
Context `{Target, Alloc} {St D : Type} `{Device D}
  (jtag_cable : jtag_cable_t St) (dev : St -> D) `{!CableLaws jtag_cable dev}.

Abbreviation sent := (sent dev).

(** The number of bits other devices put on both sides is one. *)
Definition dr_ok (g : globals) : Prop :=
  0 <= global_DR_prefix_bits (cfg g) /\ 0 <= global_DR_postfix_bits (cfg g).

(** The module [c] is selected and is the one commands are for. *)
Definition selected (c : Z) (g : globals) : Prop := current_chain g = c /\ desired_chain g = c.

Lemma wp_select_same c b :
  current_chain (gl b) = c -> wp (adbg_select_module jtag_cable c) (fun e b' => e = 0 /\ b' = b) b.
Proof.
  intros Hc. unfold adbg_select_module. do 2 wp_step. rewrite Hc, Z.eqb_refl. by wp_step.
Qed.

(** A scan of the data register in one stream, as most commands do it. *)
Lemma wp_dr_scan {A} b words len (k : Z -> Z -> Z -> M (bridge St) A) Q :
  0 < len <= 32 * Z.of_nat (length words) -> dr_ok (gl b) ->
  (forall e1 e2 e3 b', gl b' = gl b ->
     sent (dr_scan_pulses (stream_bits words len ++ dr_pad (cfg (gl b)))) b b' (e1 .| e2 .| e3) ->
     (Reliable jtag_cable -> e1 .| e2 .| e3 = 0) ->
     wp (k e1 e2 e3) Q b') ->
  wp (e1 ← tap_set_shift_dr jtag_cable;
      e2 ← jtag_write_stream jtag_cable words len 1;
      e3 ← tap_exit_to_idle jtag_cable;
      k e1 e2 e3) Q b.
Proof.
  intros Hl [Hp _] Hk.
  wp_step. wp_rel quiet_set_shift_dr (sends_tap_set_shift_dr jtag_cable dev) as e1 b1 [[Hg1 Hs1] Hq1].
  wp_step. wp_rel quiet_write_stream (sends_write_stream jtag_cable dev)
    as e2 b2 [[Hg2 Hs2] Hq2]; [done|by rewrite Hg1|].
  wp_step. wp_rel quiet_exit_to_idle (sends_tap_exit_to_idle jtag_cable dev) as e3 b3 [[Hg3 Hs3] Hq3].
  apply Hk; [congruence| |intros Hrel; by rewrite Hq1, Hq2, Hq3]. intros [[E1 E2]%lor_0 E3]%lor_0.
  unfold Chain.sent in *. rewrite (Hs3 E3), (Hs2 E2), (Hs1 E1), Hg1.
  unfold dr_scan_pulses. by rewrite !clocks_app.
Qed.

Lemma wp_select_other c b :
  current_chain (gl b) <> c -> is_word 2 c -> dr_ok (gl b) ->
  wp (adbg_select_module jtag_cable c) (fun e b' =>
    gl b' = set_current_chain c (set_desired_chain c (gl b))
    /\ sent (dr_scan_pulses (select_bits c ++ dr_pad (cfg (gl b)))) b b' e) b.
Proof.
  intros Hc Hw Hd. unfold adbg_select_module. do 2 wp_step.
  destruct (Z.eqb_spec (current_chain (gl b)) c); [done|]. do 4 wp_step.
  apply wp_dr_scan; [by vm_compute|done|]. intros e1 e2 e3 b' Hg Hs Hq.
  do 3 wp_step. rewrite select_stream in Hs by done. cbn [gl drv] in *. by rewrite Hg.
Qed.

(** What the function does when the module is selected, or is not. *)
Definition select_pulses (c : Z) (g : globals) : list pulse :=
  if decide (current_chain g = c) then [] else dr_scan_pulses (select_bits c ++ dr_pad (cfg g)).

Lemma wp_select_module c b :
  is_word 2 c -> dr_ok (gl b) -> (current_chain (gl b) = c -> desired_chain (gl b) = c) ->
  wp (adbg_select_module jtag_cable c) (fun e b' =>
    gl b' = set_current_chain c (set_desired_chain c (gl b))
    /\ sent (select_pulses c (gl b)) b b' e) b.
Proof.
  intros Hw Hd Hsel. unfold select_pulses. destruct (decide _) as [Hc|Hc].
  - eapply wp_mono; [by apply wp_select_same|]. intros e b' [-> ->].
    specialize (Hsel Hc). split; [|done]. destruct b as [s []]. cbn in *. by subst.
  - by apply wp_select_other.
Qed.

(** The commands to the selected module. *)
Lemma wp_burst_command c b opcode address length_words :
  selected c (gl b) -> dr_ok (gl b) ->
  wp (adbg_burst_command jtag_cable opcode address length_words) (fun e b' =>
    gl b' = set_soft_retry_no 0 (gl b)
    /\ sent (dr_scan_pulses (stream_bits (burst_words opcode address length_words) 53
               ++ dr_pad (cfg (gl b)))) b b' e) b.
Proof.
  intros [Hc Hd] Hok. unfold adbg_burst_command. do 2 wp_step. rewrite Hd. wp_step.
  eapply wp_mono; [by apply wp_select_same|]. intros e b0 [-> ->]. cbn [truth Z.eqb negb].
  apply wp_dr_scan; [by vm_compute|done|]. intros e1 e2 e3 b' Hg Hs Hq.
  do 3 wp_step. cbn [gl drv] in *. by rewrite Hg, Z.lor_0_l.
Qed.

(** The modules with registers: the codes of their commands are the same. *)
Definition has_registers (c : Z) : Prop := c = DC_WISHBONE \/ c = DC_CPU0 \/ c = DC_CPU1.

Lemma ireg_command_eq (op c : Z) :
  has_registers c -> ireg_command op op op c = Some (1, op).
Proof. by intros [->|[->| ->]]. Qed.

Lemma wp_ctrl_write c b regidx words len :
  selected c (gl b) -> has_registers c -> dr_ok (gl b) -> is_word 1 regidx ->
  0 < len <= 32 * Z.of_nat (length words) ->
  wp (adbg_ctrl_write jtag_cable regidx words len) (fun e b' =>
    gl b' = set_current_reg_idx (<[Z.to_nat c := i32 regidx]> (current_reg_idx (gl b)))
              (set_soft_retry_no 0 (gl b))
    /\ (Reliable jtag_cable -> e = 0)
    /\ sent (dr_scan_pulses (stream_bits words len
               ++ ireg_bits DBG_WB_CMD_IREG_WR regidx ++ dr_pad (cfg (gl b)))) b b' e) b.
Proof.
  intros [Hc Hd] Hr [Hp Hq] Hi Hl. unfold adbg_ctrl_write. do 2 wp_step. rewrite Hd. wp_step.
  eapply wp_mono; [by apply wp_select_same|]. intros e b0 [-> ->]. cbn [truth Z.eqb negb].
  do 2 wp_step. rewrite Hc, (ireg_command_eq DBG_WB_CMD_IREG_WR) by done.
  wp_step. wp_rel quiet_set_shift_dr (sends_tap_set_shift_dr jtag_cable dev) as e1 b1 [[Hg1 Hs1] Hq1].
  wp_step. wp_rel quiet_write_stream (sends_write_stream jtag_cable dev)
    as e2 b2 [[Hg2 Hs2] Hq2]; [done|by rewrite Hg1|].
  wp_step. wp_rel quiet_write_stream (sends_write_stream jtag_cable dev)
    as e3 b3 [[Hg3 Hs3] Hq3]; [by vm_compute|by rewrite Hg2, Hg1|].
  wp_step. wp_rel quiet_exit_to_idle (sends_tap_exit_to_idle jtag_cable dev) as e4 b4 [[Hg4 Hs4] Hq4].
  do 7 wp_step. rewrite Z.lor_0_l. split; [cbn [gl drv] in *; by rewrite Hg4, Hg3, Hg2, Hg1|].
  split; [intros Hrel; by rewrite Hq1, Hq2, Hq3, Hq4|].
  intros [[[E1 E2]%lor_0 E3]%lor_0 E4]%lor_0. rewrite ireg_stream in Hs3 by done.
  unfold Chain.sent in *. cbn [drv gl truth Z.eqb negb] in *.
  rewrite (Hs4 E4), (Hs3 E3), (Hs2 E2), (Hs1 E1), Hg2, Hg1, app_nil_r.
  unfold dr_scan_pulses. rewrite (shift_pulses_app (stream_bits words len))
    by (unfold ireg_bits; by rewrite word_bits_1).
  by rewrite !clocks_app.
Qed.

(** Selecting a register: nothing is sent when it is the current one. *)
Definition reg_is (c regidx : Z) (g : globals) : bool :=
  match current_reg_idx g !! Z.to_nat c with
  | Some idx => wrap (8 * long_size) idx =? regidx
  | None => false
  end.
Definition select_reg_pulses (c regidx : Z) (g : globals) : list pulse :=
  if reg_is c regidx g then []
  else dr_scan_pulses (ireg_bits DBG_WB_CMD_IREG_SEL regidx ++ dr_pad (cfg g)).
Definition select_reg_globals (c regidx : Z) (g : globals) : globals :=
  if reg_is c regidx g then g
  else set_current_reg_idx (<[Z.to_nat c := i32 regidx]> (current_reg_idx g))
         (set_soft_retry_no 0 g).

Lemma wp_select_ctrl_reg c b regidx :
  selected c (gl b) -> has_registers c -> dr_ok (gl b) -> is_word 1 regidx ->
  Z.of_nat (length (current_reg_idx (gl b))) = DBG_MAX_MODULES ->
  wp (adbg_select_ctrl_reg jtag_cable regidx) (fun e b' =>
    gl b' = select_reg_globals c regidx (gl b)
    /\ (Reliable jtag_cable -> e = 0)
    /\ sent (select_reg_pulses c regidx (gl b)) b b' e) b.
Proof.
  intros [Hc Hd] Hr Hok Hi Hl. unfold adbg_select_ctrl_reg. do 2 wp_step. rewrite Hd. wp_step.
  eapply wp_mono; [by apply wp_select_same|]. intros e b0 [-> ->]. cbn [truth Z.eqb negb].
  do 4 wp_step. rewrite Hc. unfold DBG_MAX_MODULES in Hl.
  assert (Hc' : 0 <= c < 4) by (destruct Hr as [->|[->| ->]]; done).
  destruct (lookup_lt_is_Some_2 (current_reg_idx (gl b)) (Z.to_nat c)) as [idx Hidx]; [lia|].
  wp_step. eapply wp_lift.
  { unfold load_word. destruct (Z.leb_spec 0 c); [|lia]. by rewrite Hidx. }
  unfold select_reg_globals, select_reg_pulses, reg_is. rewrite Hidx.
  destruct (_ =? regidx); [by wp_step|].
  rewrite (ireg_command_eq DBG_WB_CMD_IREG_SEL) by done.
  apply wp_dr_scan; [by vm_compute|done|]. intros e1 e2 e3 b' Hg Hs Hq.
  do 5 wp_step. rewrite ireg_stream in Hs by done. cbn [gl drv] in *.
  rewrite Z.lor_0_l. split; [by rewrite Hg|by split].
Qed.

Definition zeros (n : Z) : list bool := replicate (Z.to_nat n) false.

Lemma stream_zeros n : 0 <= n <= 128 -> stream_bits [0; 0; 0; 0] n = zeros n.
Proof.
  intros Hn. apply map_const_seqZ; [lia|]. intros i Hi. unfold stream_bit.
  assert (i / 32 < 4) by (apply Z.div_lt_upper_bound; lia).
  assert (0 <= i / 32) by (apply Z.div_pos; lia).
  destruct (Z.to_nat (i / 32)) as [|[|[|[|k]]]] eqn:E; try apply Z.bits_0. lia.
Qed.

(** The pulses of a register read before the data comes, and after. *)
Definition ctrl_read_before (c regidx : Z) (g : globals) : list pulse :=
  select_reg_pulses c regidx g ++ tms_pulses [true; false; false] ++ dr_burn (cfg g).
Definition ctrl_read_pulses (c regidx n : Z) (g : globals) : list pulse :=
  ctrl_read_before c regidx g ++ shift_pulses (zeros n ++ zeros 5 ++ dr_pad (cfg g)) true
  ++ tms_pulses [true; false].

(** What the register read returns. *)
Definition ctrl_reads (c regidx n : Z) (buf : buffer) (b : bridge St) (r : Z * buffer)
    (b' : bridge St) : Prop :=
  (fst r <> 0 /\ ~ Reliable jtag_cable /\ gl b' = select_reg_globals c regidx (gl b))
  \/ (gl b' = set_soft_retry_no 0 (select_reg_globals c regidx (gl b))
      /\ (Reliable jtag_cable -> fst r = 0)
      /\ sent (ctrl_read_pulses c regidx n (gl b)) b b' (fst r)
      /\ exists read, snd r = overwrite buf read /\ Z.of_nat (length read) = (n - 1) / 32 + 1
         /\ Forall is_u32 read
         /\ (fst r = 0 -> read = stream_words (samples (shift_pulses (zeros n) false)
               (clocks (ctrl_read_before c regidx (gl b)) (dev (drv b)))))).

Lemma wp_ctrl_read c b regidx n buf :
  selected c (gl b) -> has_registers c -> dr_ok (gl b) -> is_word 1 regidx ->
  Z.of_nat (length (current_reg_idx (gl b))) = DBG_MAX_MODULES ->
  0 < n <= 128 -> n <= 32 * Z.of_nat (length buf) ->
  wp (adbg_ctrl_read jtag_cable regidx buf n) (ctrl_reads c regidx n buf b) b.
Proof.
  intros [Hc Hd] Hr Hok Hi Hl Hn Hb. unfold adbg_ctrl_read. do 2 wp_step. rewrite Hd. wp_step.
  eapply wp_mono; [by apply wp_select_same|]. intros e b0 [-> ->]. cbn [truth Z.eqb negb].
  wp_step. eapply wp_mono; [by apply (wp_select_ctrl_reg c)|]. intros e b1 (Hg1 & Hq1 & Hs1).
  unfold truth. destruct (Z.eqb_spec e 0) as [->|Hne]; cbn [negb]; [|wp_step; left; by split; [|split; [auto|]]].
  assert (Hcfg : cfg (gl b1) = cfg (gl b) /\ current_chain (gl b1) = c).
  { rewrite Hg1. unfold select_reg_globals. by destruct (reg_is _ _ _). }
  destruct Hcfg as [Hcfg Hc1]. destruct Hok as [Hp Hq]. do 2 wp_step. rewrite Hc1.
  set (nop := switch _ _ _).
  assert (nop = Some (0, 4)) as -> by (by destruct Hr as [->|[->| ->]]).
  change (0 .& not32 (1 << 4)) with 0.
  wp_step. wp_rel quiet_set_shift_dr (sends_tap_set_shift_dr jtag_cable dev) as e2 b2 [[Hg2 Hs2] Hq2].
  wp_step. wp_rel quiet_read_stream (reads_stream jtag_cable dev)
    as [e3 buf'] b3 [(Hg3 & Hs3 & read & Hbuf & Hlr & Hu & Hr3) Hq3];
    [simpl; lia|done|by rewrite Hg2, Hcfg|by rewrite Hg2, Hcfg|].
  wp_step. wp_rel quiet_write_stream (sends_write_stream jtag_cable dev)
    as e4 b4 [[Hg4 Hs4] Hq4]; [by vm_compute|by rewrite Hg3, Hg2, Hcfg|].
  wp_step. wp_rel quiet_exit_to_idle (sends_tap_exit_to_idle jtag_cable dev) as e5 b5 [[Hg5 Hs5] Hq5].
  do 3 wp_step. right. cbn [fst snd gl drv] in *.
  split; [by rewrite Hg5, Hg4, Hg3, Hg2, Hg1|].
  rewrite Hg3, Hg2, Hcfg in Hs4. rewrite Hg2, Hcfg in Hs3, Hr3.
  cbn [truth Z.eqb negb] in Hs3, Hs4, Hr3. rewrite app_nil_r, stream_zeros in Hs3 by lia.
  rewrite (stream_zeros (4 + 1)) in Hs4 by lia. rewrite stream_zeros in Hr3 by lia.
  rewrite Z.lor_0_l. split; [intros Hrel; by rewrite Hq2, Hq3, Hq4, Hq5|]. split.
  - intros [[[E2 E3]%lor_0 E4]%lor_0 E5]%lor_0. unfold Chain.sent in *. cbn [drv] in *.
    rewrite (Hs5 E5), (Hs4 E4), (Hs3 E3), (Hs2 E2), (Hs1 eq_refl).
    unfold ctrl_read_pulses, ctrl_read_before.
    rewrite (shift_pulses_app (zeros n)) by done. by rewrite !clocks_app.
  - exists read. split; [done|]. split; [done|]. split; [done|].
    intros [[[E2 E3]%lor_0 E4]%lor_0 E5]%lor_0. rewrite (Hr3 E3).
    unfold ctrl_read_before. by rewrite !clocks_app, <- (Hs1 eq_refl), <- (Hs2 E2).
Qed.
End commands.

(** * Resets, instructions and identification codes *)

Section tap.
Context `{Target, Alloc} {St Hw : Type} `{Chip Hw} `{Htrst : HasTrst}
  (jtag_cable : jtag_cable_t St) (dev : St -> tapped Hw) `{!CableLaws jtag_cable dev}.

Lemma clocks_reset (d : tapped Hw) : exists h, clocks reset_pulses d = Tapped RunTestIdle (chip_reset h).
Proof.
  destruct d as [t h].
  assert (reset_pulses = [Pulse false false false] ++ replicate 8 (Pulse true false false)
    ++ [Pulse false false true; Pulse false false false]) as -> by reflexivity.
  destruct Htrst, t; cbn; eexists; reflexivity.
Qed.

Lemma wp_reset_idle b :
  wp (tap_reset jtag_cable) (fun e b' => gl b' = reset_globals (gl b)
    /\ (e = 0 -> exists h, dev (drv b') = Tapped RunTestIdle (chip_reset h))) b.
Proof.
  eapply wp_mono; [apply (wp_tap_reset jtag_cable dev)|]. intros e b' [Hg Hs].
  split; [done|]. intros E. rewrite (Hs E). apply clocks_reset.
Qed.

Lemma ir_bits_length c ir : config_wf c ->
  Z.of_nat (length (ir_bits c ir)) = global_IR_postfix_bits c + global_IR_size c + global_IR_prefix_bits c.
Proof.
  intros (Hz & Hp & Hq & _). unfold ir_bits. rewrite !length_app, !length_replicate, length_map, length_seqZ. lia.
Qed.

Lemma clocks_ir_bits c ir (h : Hw) : config_wf c ->
  clocks (ir_scan_pulses (ir_bits c ir)) (Tapped RunTestIdle h) = Tapped RunTestIdle (ir_scan (ir_bits c ir) h).
Proof.
  intros Hwf. apply clocks_ir_scan. intros Hnil. pose proof (ir_bits_length c ir Hwf) as Hl. rewrite Hnil in Hl.
  destruct Hwf as (Hz & Hp & Hq & _). cbn in Hl. lia.
Qed.

(** What jtag_get_idcode reads: 32 bits of the data register, past the bypass
    bits of the devices before the target. *)
Definition idcode_read (c : config) (h : Hw) : Z :=
  bits_value (read_drs (zeros 32) (shift_drs (zeros (global_DR_postfix_bits c)) (capture_dr h))).

Lemma wp_get_idcode b cmd idcode h :
  config_wf (cfg (gl b)) -> chain_ready (gl b) -> idcode <> [] ->
  (global_altera_virtual_jtag (cfg (gl b)) = 0 \/ global_altera_virtual_jtag (cfg (gl b)) = 1) ->
  dev (drv b) = Tapped RunTestIdle h ->
  wp (jtag_get_idcode jtag_cable cmd idcode) (fun r b' => ir_set b b' /\ (fst r = 0 ->
        let h' := ir_scan (ir_bits (cfg (gl b)) (i32 cmd)) h in
        snd r = overwrite idcode [idcode_read (cfg (gl b)) h']
        /\ exists h'', dev (drv b') = Tapped RunTestIdle h'')) b.
Proof.
  intros Hwf Hready Hid Hv Hd. set (c := cfg (gl b)) in *. pose proof Hwf as (Hz & _ & _ & _ & Hp & Hq).
  assert (Hbuf : 1 <= Z.of_nat (length idcode)) by (destruct idcode; [done|simpl; lia]).
  unfold jtag_get_idcode. do 5 wp_step. fold c.
  wp_use (wp_tap_set_ir jtag_cable dev) as e1 b1 [(chain & Hg1 & Hlen) Hs1]; [done|done|].
  wp_step. wp_use (sends_tap_set_shift_dr jtag_cable dev) as e2 b2 [Hg2 Hs2].
  assert (Hc2 : cfg (gl b2) = config_set_alt_vjtag 0 c) by (by rewrite Hg2, Hg1).
  wp_step. wp_use (reads_stream jtag_cable dev)
    as [e3 buf] b3 (Hg3 & Hs3 & read & Hb3 & Hl3 & _ & Hr3); [simpl; lia|lia|by rewrite Hc2..|].
  cbn [fst snd] in *. subst buf. wp_step. wp_use (sends_bit jtag_cable dev) as e4 b4 [Hg4 Hs4].
  wp_step. wp_use (sends_bit jtag_cable dev) as e5 b5 [Hg5 Hs5]. do 3 wp_step. cbn [gl drv cfg fst snd].
  assert (Hg5' : gl b5 = gl b1) by congruence.
  split.
  { exists chain. split; [|exact Hlen]. rewrite Hg5', Hg1. destruct (gl b) as [c' cc dc sr ic ri si so] eqn:Eb.
    unfold c in *. cbn in Hv |- *. unfold set_cfg, set_current_chain, set_ir_chain. cbn. f_equal. destruct c'. cbn in Hv.
    by destruct Hv as [->| ->]. }
  intros [[[[E1 E2]%lor_0 E3]%lor_0 E4]%lor_0 E5]%lor_0.
  set (h' := ir_scan _ h).
  unfold sent in *. cbn [drv gl] in *. rewrite Hc2 in Hs3, Hr3. cbn [truth Z.eqb negb] in Hs3, Hr3.
  rewrite stream_word_bits in Hs3, Hr3 by lia. change (word_bits 0 32) with (zeros 32) in *.
  assert (Hd2 : dev (drv b2) = Tapped ShiftDR (capture_dr h')).
  { by rewrite (Hs2 E2), (Hs1 E1), Hd, clocks_ir_bits. }
  assert (Hb : dr_burn (config_set_alt_vjtag 0 c) = shift_pulses (zeros (global_DR_postfix_bits c)) false).
  { rewrite shift_pulses_false. unfold zeros, dr_burn. symmetry.
    apply (fmap_replicate (fun b => Pulse false b false)). }
  rewrite Hb in *. rewrite Hd2, clocks_shift_dr in Hr3. rewrite Hd2, clocks_app, clocks_shift_dr in Hs3.
  rewrite samples_shift_dr in Hr3.
  rewrite stream_words_short in Hr3 by (rewrite read_drs_length; simpl; lia).
  split; [by rewrite (Hr3 E3)|]. rewrite (Hs5 E5), (Hs4 E4), (Hs3 E3).
  assert (Ht : [packet_pulse TMS] ++ [packet_pulse 0] = tms_pulses [true; false]) by reflexivity.
  rewrite <- (clocks_app [packet_pulse TMS]), Ht, <- clocks_app.
  rewrite clocks_exit_shift_dr by done. by eexists.
Qed.
End tap.
