(* ===== verification/Burst.v ===== *)
(** Burst reads (adbg_wb_burst_read): what one transfer reads, and the result of
    the call as a function of what the device answers. *)

From S2P Require Import Prelude StateM Tap Cable Chain AdvDbg Crc AdvFacts.

Open Scope cword_scope.

(** * Words, bytes and bits *)

Lemma word_bytes_bits w : bytes_bits (word_bytes w) = word_bits w 32.
Proof.
  unfold bytes_bits, word_bytes. cbn [map concat]. rewrite app_nil_r.
  change 32 with (8 + (8 + (8 + 8))). rewrite !word_bits_app by lia.
  repeat apply (f_equal2 app); apply word_bits_ext; intros i Hi;
    rewrite ?Z.shiftr_shiftr, Z.land_spec, ?Z.shiftr_spec by lia;
    change 0xFF with (2 ^ 8 - 1); rewrite testbit_mask by lia;
    (destruct (Z.ltb_spec i 8); [|lia]); rewrite andb_true_r; f_equal; lia.
Qed.

Lemma word_bytes_u8 w : Forall is_u8 (word_bytes w).
Proof.
  unfold word_bytes. change 0xFF with (2 ^ 8 - 1). rewrite !land_mask by lia.
  repeat (apply List.Forall_cons; [apply wrap_range; lia|]). done.
Qed.

Lemma bytes_value_word w : is_u32 w -> bytes_value (word_bytes w) = w.
Proof.
  intros Hw. unfold word_bytes. change 0xFF with (2 ^ 8 - 1). rewrite !land_mask by lia.
  cbn [bytes_value]. unfold wrap. unfold is_word in Hw. change (2 ^ 8) with 256.
  rewrite !Z.shiftr_div_pow2 by lia.
  pose proof (Z.div_mod w 256 ltac:(lia)). pose proof (Z.div_mod (w / 256) 256 ltac:(lia)).
  pose proof (Z.div_mod (w / 256 / 256) 256 ltac:(lia)).
  change (2 ^ 16) with (256 * 256). change (2 ^ 24) with (256 * 256 * 256). change (2 ^ 8) with 256.
  rewrite <- !Z.div_div by lia.
  rewrite (Z.mod_small (w / 256 / 256 / 256)); [lia|].
  rewrite !Z.div_div by lia. split; [apply Z.div_pos; lia|apply Z.div_lt_upper_bound; lia].
Qed.

Lemma words_bytes_bits ws : bytes_bits (words_bytes ws) = concat (map (fun w => word_bits w 32) ws).
Proof.
  unfold words_bytes. induction ws as [|w ws IH]; [done|].
  cbn [map concat]. rewrite <- IH, <- word_bytes_bits. unfold bytes_bits.
  by rewrite map_app, concat_app.
Qed.

Lemma words_bytes_length ws : length (words_bytes ws) = (4 * length ws)%nat.
Proof.
  unfold words_bytes. induction ws as [|w ws IH]; [done|].
  cbn [map concat]. rewrite length_app, IH. simpl. lia.
Qed.

Lemma words_bytes_u8 ws : Forall is_u8 (words_bytes ws).
Proof.
  unfold words_bytes. induction ws as [|w ws IH]; [done|].
  cbn [map concat]. apply Forall_app. split; [apply word_bytes_u8|done].
Qed.

(** Reading bits into words loses nothing when they fill the words. *)
Lemma bits_value_bits bits : word_bits (bits_value bits) (Z.of_nat (length bits)) = bits.
Proof.
  apply list_eq. intros i. unfold word_bits.
  change (map (Z.testbit (bits_value bits)) (seqZ 0 (Z.of_nat (length bits))))
    with (Z.testbit (bits_value bits) <$> seqZ 0 (Z.of_nat (length bits))).
  rewrite list_lookup_fmap. destruct (decide (i < length bits)%nat) as [Hi|Hi].
  - rewrite lookup_seqZ_lt by lia. simpl. rewrite testbit_bits_value, Z.add_0_l, Nat2Z.id by lia.
    destruct (lookup_lt_is_Some_2 bits i Hi) as [x Hx]. rewrite Hx. f_equal.
    by apply nth_lookup_Some.
  - rewrite lookup_seqZ_ge by lia. simpl. symmetry. apply lookup_ge_None_2. lia.
Qed.

Lemma stream_words_bits bits m :
  Z.of_nat (length bits) = 32 * m -> 0 < m ->
  concat (map (fun w => word_bits w 32) (stream_words bits)) = bits.
Proof.
  intros Hl Hm. unfold stream_words. rewrite Hl.
  replace ((32 * m - 1) / 32 + 1) with m.
  2: { replace (32 * m - 1) with (31 + (m - 1) * 32) by lia. rewrite Z.div_add by lia.
       rewrite Z.div_small by lia. lia. }
  rewrite map_map. revert bits m Hl Hm.
  enough (Hgen : forall k bits, Z.of_nat (length bits) = 32 * Z.of_nat k ->
    concat (map (fun x => word_bits (stream_word bits x) 32) (seqZ 0 (Z.of_nat k))) = bits).
  { intros bits m Hl Hm. rewrite <- (Z2Nat.id m) by lia. apply Hgen. lia. }
  induction k as [|k IH]; intros bits Hl.
  - by destruct bits; [|simpl in Hl; lia].
  - replace (Z.of_nat (S k)) with (Z.of_nat k + 1) by lia.
    rewrite seqZ_app, map_app, concat_app by lia. cbn [seqZ].
    transitivity (take (32 * k) bits ++ drop (32 * k) bits); [|apply take_drop].
    apply (f_equal2 app).
    + rewrite <- (IH (take (32 * k) bits)) by (rewrite length_take; lia). f_equal.
      apply map_ext_in. intros i Hi%list_elem_of_In%elem_of_seqZ. f_equal. unfold stream_word.
      rewrite skipn_firstn_comm, take_take. do 2 f_equal. lia.
    + change (seqZ (0 + Z.of_nat k) 1) with [0 + Z.of_nat k]. cbn [map concat]. rewrite app_nil_r.
      unfold stream_word. replace (Z.to_nat (32 * (0 + Z.of_nat k))) with (32 * k)%nat by lia.
      rewrite take_ge by (rewrite length_drop; lia).
      rewrite <- (bits_value_bits (drop (32 * k) bits)) at 2. f_equal. rewrite length_drop. lia.
Qed.

Lemma bytes_bits_inj xs ys :
  Forall is_u8 xs -> Forall is_u8 ys -> length xs = length ys -> bytes_bits xs = bytes_bits ys -> xs = ys.
Proof.
  intros Hx Hy Hl. revert ys Hy Hl. induction Hx as [|x xs Hx Hxs IH]; intros [|y ys] Hy Hl E; [done..|].
  apply List.Forall_cons_iff in Hy as [Hy Hys]. unfold bytes_bits in E. cbn [map concat] in E.
  apply app_inj_1 in E as [E1 E2]; [|done]. f_equal; [|apply IH; [done|by injection Hl|done]].
  rewrite <- (wrap_small 8 x Hx), <- (wrap_small 8 y Hy).
  rewrite <- (Z.shiftr_0_r x), <- (Z.shiftr_0_r y), <- !bits_value_testbits by lia. by f_equal.
Qed.

Lemma truth_or e : (truth e = true /\ e <> 0) \/ (truth e = false /\ e = 0).
Proof. unfold truth. destruct (Z.eqb_spec e 0); auto. Qed.

(** * The status bits *)

Definition idle_pulse : pulse := Pulse false false false.

Section burst.
Context `{Target, Alloc} {St D : Type} `{Device D}
  (jtag_cable : jtag_cable_t St) (dev : St -> D) `{!CableLaws jtag_cable dev}.

Abbreviation sent := (sent dev).

(** After [k] bits 0 the device answers 1. *)
Definition ready_after (k : nat) (d : D) : Prop :=
  samples (replicate (S k) idle_pulse) d = replicate k false ++ [true].
(** The first [n] bits are 0. *)
Definition not_ready (n : nat) (d : D) : Prop :=
  samples (replicate n idle_pulse) d = replicate n false.

(** What polling comes to from [d]: [r] is the error code and whether it timed
    out, [n] the bits it has left. *)
Definition polled (n : nat) (err : Z) (d : D) (r : Z * bool) (d' : D) : Prop :=
  (Reliable jtag_cable -> err = 0 -> fst r = 0)
  /\ (fst r = 0 -> err = 0 /\
      if snd r then not_ready (n - 1) d /\ d' = clocks (replicate n idle_pulse) d
      else exists k, (k < n - 1)%nat /\ ready_after k d
           /\ d' = clocks (replicate (S k) idle_pulse) d).

Lemma wp_wait_status n j err b :
  Z.of_nat n = MAX_READ_STATUS_WAIT + 1 - j -> 0 <= j <= MAX_READ_STATUS_WAIT ->
  wp (wait_status jtag_cable n j err)
    (fun r b' => gl b' = gl b /\ polled n err (dev (drv b)) r (dev (drv b'))) b.
Proof.
  unfold MAX_READ_STATUS_WAIT.
  revert j err b. induction n as [|n IH]; intros j err b Hn Hj; [lia|].
  cbn [wait_status]. wp_step.
  eapply wp_mono.
  { apply (wp_post (Reliable jtag_cable)); [intros Hr; by apply quiet_read_bit|].
    apply (wp_read_bit jtag_cable dev). }
  intros [e status] b1 [(Hg & Hst & Hs) Hrel]. cbn [fst snd] in *. unfold MAX_READ_STATUS_WAIT.
  destruct (Z.ltb_spec 100 (j + 1)) as [Hlast|Hmore].
  - wp_step. split; [done|]. assert (n = 0%nat) as -> by lia. split; cbn [fst snd].
    + intros Hr ->. by rewrite Hrel.
    + intros [E1 E2]%lor_0. split; [done|]. split; [done|]. by apply Hs.
  - destruct (truth status) eqn:Ht.
    + wp_step. split; [done|]. split; cbn [fst snd].
      * intros Hr ->. by rewrite Hrel.
      * intros [E1 E2]%lor_0. split; [done|]. exists 0%nat. split; [lia|].
        split; [|by apply Hs]. unfold ready_after. simpl.
        rewrite (Hst E2) in Ht. rewrite truth_b2z in Ht. by rewrite Ht.
    + eapply wp_mono; [apply IH; lia|]. intros [e' timed] b2 [Hg2 [Hq2 Hp2]].
      split; [congruence|]. cbn [fst snd] in *. split; cbn [fst snd].
      * intros Hr ->. apply Hq2; [done|]. by rewrite Hrel.
      * intros E. destruct (Hp2 E) as [[E1 E2]%lor_0 Hd]. split; [done|].
        rewrite (Hst E2), truth_b2z in Ht. specialize (Hs E2).
        change (clocks [packet_pulse 0] ?d) with (clock idle_pulse d) in Hs.
        rewrite Hs in Hd. destruct timed.
        -- destruct Hd as [Hnr Hd]. replace (S n - 1)%nat with (S (n - 1)) by lia. split; [|exact Hd].
           unfold not_ready in *. cbn [replicate samples]. by rewrite Hnr, Ht.
        -- destruct Hd as (k & Hk & Hra & Hd). exists (S k). split; [lia|]. split; [|exact Hd].
           unfold ready_after in *. cbn [replicate samples app] in *. by rewrite Hra, Ht.
Qed.

(** * One transfer *)

Lemma stream_zero_words k n :
  0 <= n <= 32 * Z.of_nat k -> stream_bits (replicate k 0) n = zeros n.
Proof.
  intros Hn. apply map_const_seqZ; [lia|]. intros i Hi. unfold stream_bit.
  assert (0 <= i / 32) by (apply Z.div_pos; lia).
  assert (i / 32 < Z.of_nat k) by (apply Z.div_lt_upper_bound; lia).
  erewrite nth_lookup_Some; [|apply lookup_replicate_2; lia]. apply Z.bits_0.
Qed.

(** The words that come back: those of the data, and the CRC. *)
Definition answer_bits (words : list Z) (crc : Z) : list bool :=
  bytes_bits (words_bytes words) ++ word_bits crc 32.

Lemma answer_words words crc :
  answer_bits words crc = concat (map (fun w => word_bits w 32) (words ++ [crc])).
Proof.
  unfold answer_bits. rewrite words_bytes_bits, map_app, concat_app. cbn [map concat].
  by rewrite app_nil_r.
Qed.

(** [n] bytes of data, a whole number of words, and the CRC. *)
Lemma wp_read_scratchpad b k :
  let n := 4 * Z.of_nat k in
  n + 4 <= input_scratchpad_size (gl b) -> n + 4 <= output_scratchpad_size (gl b) -> dr_ok (gl b) ->
  wp (read_scratchpad jtag_cable (n + 4) n) (fun r b' => gl b' = gl b
    /\ exists words crc, Forall is_u32 words /\ is_u32 crc /\ length words = k
       /\ snd (fst r) = words_bytes words /\ snd r = crc
       /\ (Reliable jtag_cable -> fst (fst r) = 0)
       /\ (fst (fst r) = 0 ->
            samples (shift_pulses (zeros (8 * n + 32)) false) (dev (drv b)) = answer_bits words crc
            /\ dev (drv b') = clocks (shift_pulses (zeros (8 * n + 32) ++ dr_pad (cfg (gl b))) true)
                                (dev (drv b)))) b.
Proof.
  intros n Hi Ho [Hp Hq]. unfold read_scratchpad. do 5 wp_step.
  replace ((n + 4) * 8) with (8 * n + 32) by lia. set (bits := 8 * n + 32).
  assert (Hlen : forall size, n + 4 <= size ->
    bits <= 32 * Z.of_nat (length (replicate (Z.to_nat (size / 4)) 0))).
  { intros size Hsz. rewrite length_replicate.
    assert (n / 4 + 1 <= size / 4).
    { replace (n / 4 + 1) with ((n + 4) / 4) by (rewrite <- Z.div_add by lia; f_equal; lia).
      apply Z.div_le_mono; lia. }
    unfold n, bits in *. rewrite (Z.mul_comm 4), Z.div_mul in H2 by lia. lia. }
  eapply wp_mono.
  { apply (wp_post (Reliable jtag_cable)); [intros Hr; by apply quiet_read_stream|].
    apply (reads_stream jtag_cable dev); [|rewrite length_replicate|done|done].
    - specialize (Hlen _ Ho). unfold bits, n in *. lia.
    - specialize (Hlen _ Hi). rewrite length_replicate in Hlen. lia. }
  intros [e buf] b1 [(Hg & Hs & read & Hbuf & Hlr & Hu & Hread) Hrel]. cbn [fst snd] in *. subst buf.
  replace ((bits - 1) / 32 + 1) with (Z.of_nat (S k)) in *.
  2: { unfold bits, n. replace (8 * (4 * Z.of_nat k) + 32 - 1) with (31 + Z.of_nat k * 32) by lia.
       rewrite Z.div_add, Z.div_small by lia. lia. }
  wp_step. eapply wp_lift.
  { rewrite <- Hlr. apply buffer_words_overwrite. }
  wp_step. split; [done|]. cbn [fst snd].
  assert (exists words crc, read = words ++ [crc]) as (words & crc & ->).
  { destruct read as [|x read _] using rev_ind; [simpl in Hlr; lia|]. by exists read, x. }
  rewrite length_app in Hlr. simpl in Hlr.
  apply Forall_app in Hu as [Hu Hc]. apply List.Forall_cons_iff in Hc as [Hc _].
  exists words, crc. split; [done|]. split; [done|]. split; [lia|].
  assert (Hwb : words_bytes (words ++ [crc]) = words_bytes words ++ word_bytes crc).
  { unfold words_bytes. rewrite map_app, concat_app. simpl. done. }
  assert (Hn : Z.to_nat n = length (words_bytes words)) by (rewrite words_bytes_length; unfold n; lia).
  rewrite Hwb, Hn. split; [by rewrite take_app_length|]. split.
  { rewrite drop_app_length. by apply bytes_value_word. }
  split; [done|]. intros E. specialize (Hs E). specialize (Hread E).
  cbn [truth Z.eqb negb] in Hs, Hread. change ([] ++ ?x) with x in Hs. change (clocks [] ?d) with d in Hread.
  assert (Hb0 : 0 <= bits <= 32 * Z.of_nat (Z.to_nat (output_scratchpad_size (gl b) / 4))).
  { specialize (Hlen _ Ho). rewrite length_replicate in Hlen. unfold bits, n in *. lia. }
  rewrite stream_zero_words in Hs, Hread by done. split; [|exact Hs].
  rewrite answer_words, Hread. symmetry. apply (stream_words_bits _ (Z.of_nat (S k))); [|lia].
  rewrite samples_length, shift_pulses_length. unfold zeros. rewrite length_replicate.
  unfold bits, n. lia.
Qed.

Context (malloc_all : forall n, malloc_ok n = true).

Lemma check_buffer_ok size n :
  exists size', check_buffer_size size n = (APP_ERR_NONE, size') /\ n <= size'.
Proof.
  unfold check_buffer_size. destruct (Z.leb_spec n size); [by eexists|].
  rewrite malloc_all. by eexists.
Qed.

(** The pulses of the burst command and of the way to the first status bit. *)
Definition start_pulses (opcode addr len : Z) (g : globals) : list pulse :=
  dr_scan_pulses (stream_bits (burst_words opcode addr len) 53 ++ dr_pad (cfg g)) ++ tms_pulses [true; false; false].

Definition end_pulses (n : Z) (g : globals) : list pulse :=
  shift_pulses (zeros (8 * n + 32) ++ dr_pad (cfg g)) true ++ tms_pulses [true; false].

(** The device, in the state [d] after the command, answers after [j] bits with
    [words] and [crc]. *)
Definition answers (d : D) (j : nat) (words : list Z) (crc : Z) : Prop :=
  ready_after j d
  /\ samples (shift_pulses (zeros (8 * (4 * Z.of_nat (length words)) + 32)) false)
       (clocks (replicate (S j) idle_pulse) d) = answer_bits words crc.

(** What a transfer of [n] bytes comes to. *)
Definition fetches (opcode addr len n err : Z) (data : buffer) (b : bridge St) (r : fetched)
    (b' : bridge St) : Prop :=
  let d := clocks (start_pulses opcode addr len (gl b)) (dev (drv b)) in
  (exists i o, gl b' = set_scratchpad_sizes i o (set_soft_retry_no 0 (gl b)))
  /\ match r with
     | FetchReturn e => e <> 0 /\ (Reliable jtag_cable -> err = 0 -> e = 0)
     | FetchTimeout e =>
         (Reliable jtag_cable -> err = 0 -> e = 0)
         /\ (e = 0 -> not_ready 100 d /\ dev (drv b') = clocks (replicate 101 idle_pulse) d)
     | Fetched e data' ok =>
         (Reliable jtag_cable -> err = 0 -> e = 0)
         /\ exists words crc, Forall is_u32 words /\ is_u32 crc
            /\ 4 * Z.of_nat (length words) = n
            /\ data' = overwrite data (words_bytes words)
            /\ ok = (crc_bits 0xffffffff (bytes_bits (words_bytes words)) =? crc)
            /\ (e = 0 -> exists j, (j < 100)%nat /\ answers d j words crc
                 /\ dev (drv b') = clocks (end_pulses n (gl b))
                                    (clocks (replicate (S j) idle_pulse) d))
     end.

Lemma signed_ok z : 0 <= z < 2 ^ 31 -> signed_c 32 z = Ok z.
Proof.
  intros Hz. unfold signed_c. assert (in_sword 32 z = true) as ->; [|done].
  apply in_sword_spec. unfold is_sword. simpl. lia.
Qed.

Lemma set_sizes_id g i o : i = input_scratchpad_size g -> o = output_scratchpad_size g ->
  g = set_scratchpad_sizes i o g.
Proof. intros -> ->. by destruct g. Qed.

Lemma wp_burst_fetch c b opcode word_size count i addr err data k :
  let n := count * word_size in
  selected c (gl b) -> dr_ok (gl b) -> global_xilinx_bscan (cfg (gl b)) = 0 ->
  n = 4 * Z.of_nat k -> n + 4 < 2 ^ 31 ->
  n <= Z.of_nat (length data) -> err = 0 ->
  wp (burst_fetch jtag_cable opcode word_size count i addr err data)
    (fetches opcode addr (count - i) n err data b) b.
Proof.
  intros n Hsel Hok Hx Hn Hn31 Hdata ->. unfold burst_fetch. wp_step.
  eapply wp_mono.
  { apply (wp_post (Reliable jtag_cable)); [intros Hr; by apply quiet_burst_command|].
    by apply (wp_burst_command jtag_cable dev c). }
  intros e1 b1 [[Hg1 Hs1] Hq1]. rewrite Z.lor_0_l.
  destruct (truth e1) eqn:Ht1.
  { wp_step. split; [exists (input_scratchpad_size (gl b)), (output_scratchpad_size (gl b));
      rewrite Hg1; by apply set_sizes_id|].
    split; [|by auto]. intros ->. by rewrite truth_0 in Ht1. }
  assert (e1 = 0) as -> by (unfold truth in Ht1; by destruct (Z.eqb_spec e1 0)).
  do 2 wp_step. rewrite Hg1. cbn [cfg set_soft_retry_no]. rewrite Hx. cbn [truth Z.eqb negb].
  do 2 wp_step. wp_step. eapply wp_mono.
  { apply (wp_post (Reliable jtag_cable)); [intros Hr; by apply quiet_set_shift_dr|].
    apply (sends_tap_set_shift_dr jtag_cable dev). }
  intros e2 b2 [[Hg2 Hs2] Hq2]. rewrite Z.lor_0_l. wp_step.
  eapply wp_mono; [by apply wp_wait_status|]. intros [e3 timed] b3 [Hg3 [Hq3 Hp3]].
  cbn [fst snd] in *. unfold fetches. set (d := clocks _ (dev (drv b))).
  assert (Hd2 : e2 = 0 -> dev (drv b2) = d).
  { intros E. unfold d, start_pulses. by rewrite clocks_app, <- (Hs1 eq_refl), <- (Hs2 E). }
  assert (Hg : gl b3 = set_soft_retry_no 0 (gl b)) by congruence.
  assert (Hq : Reliable jtag_cable -> e3 = 0) by auto.
  destruct timed.
  { wp_step. split; [exists (input_scratchpad_size (gl b)), (output_scratchpad_size (gl b));
      rewrite Hg; by apply set_sizes_id|].
    split; [auto|]. intros E. destruct (Hp3 E) as (E2 & Hnr & Hd). rewrite (Hd2 E2) in *. done. }
  wp_step. eapply wp_lift; [apply signed_ok; unfold n in *; lia|].
  wp_step. eapply wp_lift; [apply signed_ok; unfold n in *; lia|]. do 4 wp_step.
  destruct (check_buffer_ok (input_scratchpad_size (gl b3)) (n + 4)) as (isize & Hci & Hi).
  destruct (check_buffer_ok (output_scratchpad_size (gl b3)) (n + 4)) as (osize & Hco & Ho).
  fold n. rewrite Hci, Hco. do 2 wp_step. unfold APP_ERR_NONE. rewrite !Z.lor_0_r.
  set (b4 := Bridge (drv b3) _).
  assert (Hg4 : gl b4 = set_scratchpad_sizes isize osize (set_soft_retry_no 0 (gl b)))
    by (unfold b4; cbn [gl]; by rewrite Hg).
  destruct (truth e3) eqn:Ht3.
  { wp_step. split; [by exists isize, osize|]. split; [|by auto].
    intros ->. by rewrite truth_0 in Ht3. }
  assert (e3 = 0) as -> by (unfold truth in Ht3; by destruct (Z.eqb_spec e3 0)).
  destruct (Hp3 eq_refl) as (E2 & j & Hj & Hra & Hdj). rewrite (Hd2 E2) in *.
  wp_step. rewrite Hn. eapply wp_mono.
  { apply (wp_read_scratchpad b4 k); [rewrite Hg4; simpl input_scratchpad_size; lia
      |rewrite Hg4; simpl output_scratchpad_size; lia|].
    unfold dr_ok. rewrite Hg4. apply Hok. }
  intros [[e5 bytes] crc] b5 (Hg5 & words & crc' & Hw & Hcw & Hk & Hby & Hcr & Hq5 & Hs5).
  cbn [fst snd] in *. subst bytes crc'. rewrite <- Hk in *.
  wp_step. eapply wp_lift.
  { unfold store_bytes. rewrite words_bytes_length.
    destruct (Z.leb_spec (Z.of_nat (4 * length words)) (Z.of_nat (length data))); [done|].
    unfold n in *. lia. }
  wp_step. eapply wp_lift; [apply compute_crcs_bits; lia|].
  wp_step. eapply wp_mono.
  { apply (wp_post (Reliable jtag_cable)); [intros Hr; by apply quiet_exit_to_idle|].
    apply (sends_tap_exit_to_idle jtag_cable dev). }
  intros e6 b6 [[Hg6 Hs6] Hq6]. wp_step. rewrite Z.lor_0_l.
  split; [exists isize, osize; congruence|]. split.
  { intros Hr _. by rewrite Hq5, Hq6. }
  exists words, crc. split; [done|]. split; [done|]. split; [done|].
  split; [done|]. split; [done|]. intros [E5 E6]%lor_0. exists j. split; [unfold MAX_READ_STATUS_WAIT in *; lia|].
  destruct (Hs5 E5) as [Hread Hd5]. assert (Hb4 : drv b4 = drv b3) by done.
  rewrite Hb4, Hdj in *. split; [by split|].
  unfold end_pulses. rewrite clocks_app. rewrite (Hs6 E6), Hd5, Hg4. done.
Qed.
End burst.
