(* ===== verification/BurstRead.v ===== *)
(** adbg_wb_burst_read as a whole: its result for a CPU module as a function of
    what the device answers, and its retries for the Wishbone module. *)

From S2P Require Import Prelude StateM Tap Cable Chain AdvDbg Crc AdvFacts Burst.

Open Scope cword_scope.

Section burst_read.
Context `{Target, Alloc} {St D : Type} `{Device D}
  (jtag_cable : jtag_cable_t St) (dev : St -> D) `{!CableLaws jtag_cable dev}.
Context (malloc_all : forall n, malloc_ok n = true).

(** What the caller of a burst has set up: the module is selected, and the chain
    is not behind a Xilinx BSCAN primitive. *)
Definition burst_ready (c : Z) (g : globals) : Prop :=
  selected c g /\ dr_ok g /\ global_xilinx_bscan (cfg g) = 0
  /\ Z.of_nat (length (current_reg_idx g)) = DBG_MAX_MODULES.

Lemma burst_ready_step c g i o n :
  burst_ready c g -> burst_ready c (set_scratchpad_sizes i o (set_soft_retry_no n g)).
Proof. done. Qed.

(** ** CPU modules *)

Definition is_cpu (c : Z) : Prop := c = DC_CPU0 \/ c = DC_CPU1.

(** The state of the device when the first status bit is read. *)
Definition started (addr count : Z) (b : bridge St) : D :=
  clocks (start_pulses DBG_CPU0_CMD_BREAD32 addr count (gl b)) (dev (drv b)).

Definition data_crc (words : list Z) : Z :=
  crc_bits 0xffffffff (bytes_bits (words_bytes words)).

(** The result of a burst read from a CPU module. *)
Definition cpu_result (d : D) (count : Z) (data : buffer) (r : Z * buffer) : Prop :=
  (fst r = 0 -> exists j words, (j < 100)%nat /\ Z.of_nat (length words) = count
     /\ Forall is_u32 words /\ answers d j words (data_crc words)
     /\ snd r = overwrite data (words_bytes words))
  /\ (Reliable jtag_cable ->
      (not_ready 100 d /\ r = (APP_ERR_MAX_RETRY, data))
      \/ exists j words crc, (j < 100)%nat /\ Z.of_nat (length words) = count
         /\ Forall is_u32 words /\ is_u32 crc /\ answers d j words crc
         /\ r = (if data_crc words =? crc then 0 else APP_ERR_CRC,
                 overwrite data (words_bytes words))).

Lemma wp_cpu_read c b count addr data fuel :
  burst_ready c (gl b) -> is_cpu c -> 0 < count -> 4 * count + 4 < 2 ^ 31 ->
  4 * count <= Z.of_nat (length data) ->
  wp (adbg_wb_burst_read jtag_cable (S fuel) 4 count addr data)
    (fun r b' => cpu_result (started addr count b) count data r
       /\ exists i o, gl b' = set_scratchpad_sizes i o (set_soft_retry_no 0 (gl b))) b.
Proof.
  intros (Hsel & Hok & Hx & Hregs) Hcpu Hc Hc31 Hdata. unfold adbg_wb_burst_read.
  destruct (Z.leb_spec count 0); [lia|]. do 2 wp_step. pose proof Hsel as [Hcur _]. rewrite Hcur.
  assert (read_opcode c 4 = Some DBG_CPU0_CMD_BREAD32) as -> by (by destruct Hcpu as [->| ->]).
  cbn [burst_read_loop]. wp_step. unfold burst_read_pass. wp_step.
  eapply wp_mono.
  { apply (wp_burst_fetch jtag_cable dev malloc_all c b _ 4 count 0 addr APP_ERR_NONE data
             (Z.to_nat count)); [done|done|done|lia|lia|lia|done]. }
  intros r b1 [(i & o & Hg) Hr]. rewrite Z.sub_0_r in Hr. fold (started addr count b) in Hr.
  set (d := started addr count b) in *.
  assert (Hcur1 : current_chain (gl b1) = c) by (rewrite Hg; exact Hcur).
  assert (Hretry : 0 <= soft_retry_no (gl b1)) by (rewrite Hg; done).
  destruct r as [e|e|e data' ok].
  - destruct Hr as [Hne Hrel]. do 2 wp_step. split; [|by exists i, o].
    split; [done|]. intros R. by rewrite Hrel in Hne.
  - destruct Hr as [Hrel Hr]. wp_step.
    eapply wp_mono; [by apply wp_retry_do|]. intros r b2 [-> ->]. cbn [truth Z.eqb negb].
    do 2 wp_step. split; [|by exists i, o]. split.
    + intros [_ E]%lor_0. done.
    + intros R. left. rewrite (Hrel R eq_refl) in *. by destruct Hr as [Hnr _].
  - destruct Hr as (Hrel & words & crc & Hw & Hcrc & Hl & -> & -> & Hr).
    fold (data_crc words) in *.
    assert (Hlw : Z.of_nat (length words) = count) by lia.
    destruct (data_crc words =? crc) eqn:Hok'; cbn [negb].
    + do 2 wp_step. rewrite Hcur1.
      assert ((c =? DC_WISHBONE) = false) as -> by (by destruct Hcpu as [->| ->]).
      do 4 wp_step. cbn [gl drv]. split.
      * apply Z.eqb_eq in Hok'. subst crc. split.
        -- intros E. destruct (Hr E) as (j & Hj & Ha & _). by exists j, words.
        -- intros R. right. destruct (Hr (Hrel R eq_refl)) as (j & Hj & Ha & _).
           exists j, words, (data_crc words). rewrite Z.eqb_refl, (Hrel R eq_refl). done.
      * exists i, o. by rewrite Hg.
    + wp_step. eapply wp_mono; [by apply wp_retry_do|]. intros r b2 [-> ->]. cbn [truth Z.eqb negb].
      do 2 wp_step. split; [|by exists i, o]. split.
      * intros [_ E]%lor_0. done.
      * intros R. right. destruct (Hr (Hrel R eq_refl)) as (j & Hj & Ha & _).
        exists j, words, crc. rewrite Hok', (Hrel R eq_refl). done.
Qed.

(** The answer of the device determines the data. *)
Lemma ready_after_inj d j k : ready_after j d -> ready_after k d -> j = k.
Proof.
  enough (Hle : forall j k d, ready_after j d -> ready_after k d -> (j <= k)%nat).
  { intros Hj Hk. pose proof (Hle j k d Hj Hk). pose proof (Hle k j d Hk Hj). lia. }
  clear. intros j. induction j as [|j IH]; intros k d Hj Hk; [lia|].
  unfold ready_after in *. destruct k as [|k]; [cbn in *; congruence|].
  enough (j <= k)%nat by lia. apply (IH k (clock idle_pulse d)).
  - cbn [replicate samples app] in Hj |- *. by injection Hj.
  - cbn [replicate samples app] in Hk |- *. by injection Hk.
Qed.

Lemma ready_not_ready d j n : (j < n)%nat -> ready_after j d -> not_ready n d -> False.
Proof.
  revert j d. induction n as [|n IH]; intros j d Hl Hj Hn; [lia|].
  unfold ready_after, not_ready in *. destruct j as [|j].
  - cbn in *. congruence.
  - cbn [replicate samples app] in Hj, Hn. apply (IH j (clock idle_pulse d)); [lia|..].
    + by injection Hj.
    + by injection Hn.
Qed.

Lemma word_bits_inj v w : is_u32 v -> is_u32 w -> word_bits v 32 = word_bits w 32 -> v = w.
Proof.
  intros Hv Hw E. rewrite <- (wrap_small 32 v Hv), <- (wrap_small 32 w Hw).
  rewrite <- (Z.shiftr_0_r v), <- (Z.shiftr_0_r w), <- !bits_value_testbits by lia.
  by f_equal.
Qed.

Lemma answer_inj ws vs c1 c2 :
  Forall is_u32 ws -> Forall is_u32 vs -> is_u32 c1 -> is_u32 c2 -> length ws = length vs ->
  answer_bits ws c1 = answer_bits vs c2 -> ws = vs /\ c1 = c2.
Proof.
  intros Hws Hvs H1' H2' Hl E. rewrite !answer_words in E.
  enough (ws ++ [c1] = vs ++ [c2]) as Heq by (by apply app_inj_tail in Heq).
  assert (Hf1 : Forall is_u32 (ws ++ [c1])) by (apply Forall_app; by split; [|apply List.Forall_cons]).
  assert (Hf2 : Forall is_u32 (vs ++ [c2])) by (apply Forall_app; by split; [|apply List.Forall_cons]).
  assert (Hl' : length (ws ++ [c1]) = length (vs ++ [c2])) by (rewrite !length_app; simpl; lia).
  revert Hf1 Hf2 Hl' E. generalize (ws ++ [c1]) as xs, (vs ++ [c2]) as ys. clear.
  induction xs as [|x xs IH]; intros [|y ys] Hx Hy Hl E; [done|done|done|].
  cbn [map concat] in E. apply app_inj_1 in E as [E1 E2]; [|done].
  apply List.Forall_cons_iff in Hx as [Hx Hxs]. apply List.Forall_cons_iff in Hy as [Hy Hys].
  rewrite (word_bits_inj x y) by done. f_equal. apply IH; [done|done|by injection Hl|done].
Qed.

Lemma answers_inj d j ws c1 k vs c2 :
  Forall is_u32 ws -> Forall is_u32 vs -> is_u32 c1 -> is_u32 c2 -> length ws = length vs ->
  answers d j ws c1 -> answers d k vs c2 -> ws = vs /\ c1 = c2.
Proof.
  intros Hws Hvs H1' H2' Hl [Hr1 Ha1] [Hr2 Ha2]. rewrite (ready_after_inj d j k Hr1 Hr2) in *.
  rewrite Hl, Ha2 in Ha1. symmetry in Ha1. by apply answer_inj.
Qed.

Lemma data_crc_u32 words : is_u32 (data_crc words).
Proof. by apply crc_bits_word; split. Qed.

(** With a device that answers in time the call returns what it answers. *)
Lemma cpu_result_answers d count data r j words crc :
  Reliable jtag_cable -> cpu_result d count data r ->
  (j < 100)%nat -> answers d j words crc -> Forall is_u32 words -> is_u32 crc ->
  Z.of_nat (length words) = count ->
  r = (if data_crc words =? crc then 0 else APP_ERR_CRC, overwrite data (words_bytes words)).
Proof.
  intros R [_ Hr] Hj Ha Hw Hc Hl. destruct (Hr R) as [[Hnr _]|(k & vs & c & Hk & Hlv & Hv & Hcv & Hav & ->)].
  - exfalso. apply (ready_not_ready d j 100 Hj); [apply Ha|done].
  - destruct (answers_inj d k vs c j words crc) as [-> ->]; [done..|lia|done|done|done].
Qed.

(** ** The Wishbone module *)

Context (long : 1 <= long_size).

(** The module keeps the state of its caller. *)
Definition wb_ready (b : bridge St) : Prop :=
  burst_ready DC_WISHBONE (gl b) /\ 0 <= soft_retry_no (gl b).

Lemma select_reg_globals_ready c regidx g :
  burst_ready c g -> burst_ready c (select_reg_globals c regidx g).
Proof.
  intros (Hs & Hd & Hx & Hl). unfold select_reg_globals. destruct (reg_is _ _ _); [done|].
  split; [done|]. split; [done|]. split; [done|]. cbn. by rewrite length_insert.
Qed.

(** The check of the error register, on a reliable cable. *)
Lemma wp_read_wb_error b :
  Reliable jtag_cable -> wb_ready b ->
  wp (read_wb_error jtag_cable 0) (fun r b' => fst r = 0 /\ wb_ready b'
    /\ match snd r with Some (_, ws) => length ws = 2%nat | None => True end) b.
Proof.
  intros R [(Hsel & Hok & Hx & Hl) Hn]. unfold read_wb_error. wp_step.
  eapply wp_mono.
  { apply (wp_ctrl_read jtag_cable dev DC_WISHBONE); [done|by left|done|done|done|lia|simpl; lia]. }
  intros [e buf] b1 [(Hne & Hrel & _)|(Hg & Hrel & Hs & read & Hbuf & Hlr & _ & _)]; [done|].
  cbn [fst snd] in *. rewrite (Hrel R). subst buf.
  assert (Hready : burst_ready DC_WISHBONE (gl b1)).
  { rewrite Hg. by apply (select_reg_globals_ready DC_WISHBONE DBG_WB_REG_ERROR (gl b)). }
  change ((1 - 1) / 32 + 1) with 1 in Hlr. destruct read as [|w [|? ?]]; [simpl in Hlr; lia| |simpl in Hlr; lia].
  wp_step. eapply wp_lift; [done|]. destruct (truth (w .& 0x1)).
  2: { wp_step. split; [done|]. split; [|done]. split; [done|]. by rewrite Hg. }
  wp_step. destruct Hready as (Hsel1 & Hok1 & Hx1 & Hl1).
  eapply wp_mono.
  { apply (wp_ctrl_read jtag_cable dev DC_WISHBONE); [done|by left|done|done|done|lia|simpl; lia]. }
  intros [e2 buf2] b2 [(Hne & Hrel2 & _)|(Hg2 & Hrel2 & Hs2 & read2 & Hbuf2 & Hlr2 & _ & _)]; [done|].
  cbn [fst snd] in *. rewrite (Hrel2 R). subst buf2.
  change ((33 - 1) / 32 + 1) with 2 in Hlr2. destruct read2 as [|w0 [|w1 [|? ?]]]; [simpl in Hlr2; lia|simpl in Hlr2; lia| |simpl in Hlr2; lia].
  wp_step. eapply wp_lift; [done|]. wp_step. eapply wp_lift; [done|].
  wp_step. split; [done|]. split; [|done]. split; [|by rewrite Hg2].
  rewrite Hg2. by apply (select_reg_globals_ready DC_WISHBONE DBG_WB_REG_ERROR (gl b1)).
Qed.

(** What every way out of a pass satisfies: the data in the caller's block are
    those of a transfer whose CRC was right, and the error code says what went
    wrong. *)
Definition checked (count : Z) (data data' : buffer) : Prop :=
  exists d j words, (j < 100)%nat /\ Z.of_nat (length words) = count /\ Forall is_u32 words
    /\ answers d j words (data_crc words) /\ data' = overwrite data (words_bytes words).
Definition wb_result (count : Z) (data : buffer) (r : Z * buffer) : Prop :=
  (fst r = 0 /\ checked count data (snd r))
  \/ fst r = APP_ERR_MAX_RETRY \/ fst r = APP_ERR_CRC \/ fst r = APP_ERR_MAX_BUS_ERR.

(** Reads put their words at the start of the block, so the last one is what is
    there. *)
Definition same_block (count : Z) (data data' : buffer) : Prop :=
  length data' = length data
  /\ forall words, Z.of_nat (length words) = count ->
       overwrite data' (words_bytes words) = overwrite data (words_bytes words).

Lemma same_block_overwrite count data words :
  Z.of_nat (length words) = count -> 4 * count <= Z.of_nat (length data) ->
  same_block count data (overwrite data (words_bytes words)).
Proof.
  intros Hl Hd. split.
  - unfold overwrite. rewrite length_app, length_map, length_drop, words_bytes_length. lia.
  - intros vs Hv. unfold overwrite. f_equal. rewrite !words_bytes_length.
    rewrite drop_app_ge by (rewrite length_map, words_bytes_length; lia).
    rewrite length_map, words_bytes_length, drop_drop. f_equal. lia.
Qed.

Lemma same_block_trans count d1 d2 d3 :
  same_block count d1 d2 -> same_block count d2 d3 -> same_block count d1 d3.
Proof.
  intros [Hl1 H1'] [Hl2 H2']. split; [congruence|]. intros ws Hw. by rewrite H2', H1'.
Qed.

Lemma failed_index_ok addr start : exists i, failed_index addr start 4 = Ok i.
Proof.
  unfold failed_index. destruct (Z.eqb_spec (wrap (8 * long_size) 4) 0) as [E|_]; [|by eexists].
  exfalso. rewrite wrap_small in E; [done|]. split; [done|].
  apply Z.lt_le_trans with (2 ^ 8); [done|]. apply Z.pow_le_mono_r; lia.
Qed.

Lemma wp_wb_pass b count start i addr retries data0 data :
  Reliable jtag_cable -> wb_ready b -> 0 < count -> 4 * count + 4 < 2 ^ 31 ->
  4 * count <= Z.of_nat (length data0) -> same_block count data0 data -> retries <= MAX_BUS_ERRORS ->
  wp (burst_read_pass jtag_cable DBG_WB_CMD_BREAD32 4 count start i addr 0 retries data)
    (fun p b' => wb_ready b' /\
      match p with
      | Return e data' => wb_result count data0 (e, data')
      | RetryFull _ _ _ => False
      | RetryPartial _ _ e retries' data' =>
          e = 0 /\ retries' = retries + 1 /\ retries' <= MAX_BUS_ERRORS
          /\ same_block count data0 data'
      end) b.
Proof.
  intros R Hready Hc Hc31 Hdata Hsame Hretries. pose proof Hready as [(Hsel & Hok & Hx & Hl) Hn].
  pose proof Hsame as [Hdl Hds]. unfold burst_read_pass. wp_step.
  eapply wp_mono.
  { apply (wp_burst_fetch jtag_cable dev malloc_all DC_WISHBONE b _ 4 count i addr 0 data
             (Z.to_nat count)); [done|done|done|lia|lia|lia|done]. }
  intros r b1 [(x & y & Hg) Hr].
  assert (Hready1 : wb_ready b1) by (split; [by rewrite Hg|by rewrite Hg]).
  destruct r as [e|e|e data' ok].
  - destruct Hr as [Hne Hrel]. by rewrite Hrel in Hne.
  - destruct Hr as [Hrel _]. wp_step. eapply wp_mono; [by apply wp_retry_do, Hready1|].
    intros r b2 [-> ->]. cbn [truth Z.eqb negb]. wp_step. split; [done|].
    rewrite (Hrel R eq_refl). right. by left.
  - destruct Hr as (Hrel & words & crc & Hw & Hcrc & Hlw & -> & -> & Hr).
    rewrite (Hrel R eq_refl) in *. destruct (Hr eq_refl) as (j & Hj & Ha & _).
    fold (data_crc words) in *. assert (Hlc : Z.of_nat (length words) = count) by lia.
    rewrite Hds by done.
    destruct (Z.eqb_spec (data_crc words) crc) as [<-|Hne]; cbn [negb].
    2: { wp_step. eapply wp_mono; [by apply wp_retry_do, Hready1|].
         intros r b2 [-> ->]. cbn [truth Z.eqb negb]. wp_step. split; [done|]. right. right. by left. }
    do 2 wp_step. destruct Hready1 as [Hb1 Hn1]. pose proof Hb1 as ([Hcur1 _] & _).
    rewrite Hcur1, Z.eqb_refl. wp_step. eapply wp_mono; [by apply wp_read_wb_error|].
    intros [ew failed] b2 (He & Hready2 & Hf). cbn [fst snd] in *. subst ew.
    destruct failed as [[addr' ws]|].
    2: { do 3 wp_step. split; [by destruct Hready2|]. left. split; [done|].
         by eexists _, j, words. }
    destruct (failed_index_ok addr' start) as [i' Hi'].
    wp_step. eapply wp_lift; [done|].
    destruct (Z.ltb_spec MAX_BUS_ERRORS (retries + 1)).
    { wp_step. split; [done|]. right. right. by right. }
    wp_step. destruct Hready2 as [(Hsel2 & Hok2 & Hx2 & Hl2) Hn2].
    eapply wp_mono.
    { apply (wp_ctrl_write jtag_cable dev DC_WISHBONE); [done|by left|done|done|].
      rewrite length_insert, Hf. simpl. lia. }
    intros e3 b3 (Hg3 & Hq3 & _). wp_step. rewrite (Hq3 R). split.
    + split; [|by rewrite Hg3]. rewrite Hg3. split; [done|]. split; [done|]. split; [done|].
      cbn. by rewrite length_insert.
    + split; [done|]. split; [done|]. split; [lia|]. by apply same_block_overwrite.
Qed.

Lemma wp_wb_loop fuel b count start i addr retries data0 data :
  Reliable jtag_cable -> wb_ready b -> 0 < count -> 4 * count + 4 < 2 ^ 31 ->
  4 * count <= Z.of_nat (length data0) -> same_block count data0 data -> retries <= MAX_BUS_ERRORS ->
  MAX_BUS_ERRORS - retries < Z.of_nat fuel ->
  wp (burst_read_loop jtag_cable fuel DBG_WB_CMD_BREAD32 4 count start i addr 0 retries data)
    (fun r b' => wb_ready b' /\ wb_result count data0 r) b.
Proof.
  intros R. revert b i addr retries data. induction fuel as [|fuel IH];
    intros b i addr retries data Hready Hc Hc31 Hdata Hsame Hretries Hf; [lia|].
  cbn [burst_read_loop]. wp_step. eapply wp_mono; [by apply wp_wb_pass|].
  intros p b1 [Hready1 Hp]. destruct p as [e data'|e k data'|i' addr' e k data'].
  - by wp_step.
  - done.
  - destruct Hp as (-> & -> & Hk & Hs). apply IH; [done..|lia].
Qed.

Lemma wp_wb_read b count addr data fuel :
  Reliable jtag_cable -> wb_ready b -> 0 < count -> 4 * count + 4 < 2 ^ 31 ->
  4 * count <= Z.of_nat (length data) -> (11 <= fuel)%nat ->
  wp (adbg_wb_burst_read jtag_cable fuel 4 count addr data)
    (fun r b' => wb_ready b' /\ wb_result count data r) b.
Proof.
  intros R Hready Hc Hc31 Hdata Hf. unfold adbg_wb_burst_read.
  destruct (Z.leb_spec count 0); [lia|]. do 2 wp_step.
  pose proof Hready as [([Hcur _] & _) _]. rewrite Hcur.
  change (read_opcode DC_WISHBONE 4) with (Some DBG_WB_CMD_BREAD32).
  apply wp_wb_loop; unfold MAX_BUS_ERRORS; try done || lia.
Qed.
End burst_read.
