(* ===== verification/BurstWrite.v ===== *)
(** adbg_wb_burst_write to a CPU module: the data and the CRC of the data are what
    is sent, and the call returns when the debug unit says they agree. *)

From S2P Require Import Prelude StateM Tap Cable Chain AdvDbg Crc AdvFacts Burst BurstRead.

Open Scope cword_scope.

(** * Bytes as bits *)

Lemma bytes_value_bits bytes :
  Forall is_u8 bytes -> word_bits (bytes_value bytes) (8 * Z.of_nat (length bytes)) = bytes_bits bytes.
Proof.
  induction bytes as [|b bytes IH]; intros Hf; [done|].
  apply List.Forall_cons_iff in Hf as [Hb Hf]. cbn [bytes_value length].
  replace (8 * Z.of_nat (S (length bytes))) with (8 + 8 * Z.of_nat (length bytes)) by lia.
  rewrite word_bits_app by lia. unfold bytes_bits. cbn [map concat]. apply (f_equal2 app).
  - apply word_bits_ext. intros i Hi.
    rewrite <- (Z.mod_pow2_bits_low _ 8 i) by lia. rewrite Z.mul_comm, Z.mod_add by done.
    by rewrite Z.mod_small.
  - rewrite Z.shiftr_div_pow2, Z.mul_comm, Z.div_add, Z.div_small, Z.add_0_l by done. by apply IH.
Qed.

Lemma bytes_value_word_range bytes :
  Forall is_u8 bytes -> is_word (8 * Z.of_nat (length bytes)) (bytes_value bytes).
Proof.
  induction bytes as [|b bytes IH]; intros Hf; [by split|].
  apply List.Forall_cons_iff in Hf as [Hb Hf]. specialize (IH Hf). unfold is_word in *.
  cbn [bytes_value length].
  replace (8 * Z.of_nat (S (length bytes))) with (8 + 8 * Z.of_nat (length bytes)) by lia.
  rewrite Z.pow_add_r by lia. lia.
Qed.

Lemma bytes_words_app k l r :
  length l = (4 * k)%nat -> bytes_words (l ++ r) = bytes_words l ++ bytes_words r.
Proof.
  revert l. induction k as [|k IH]; intros l Hl; [by destruct l|].
  destruct l as [|b0 [|b1 [|b2 [|b3 l]]]]; simpl in Hl; try lia.
  cbn [bytes_words app]. rewrite IH by lia. done.
Qed.

Lemma bytes_words_length k l : length l = (4 * k)%nat -> length (bytes_words l) = k.
Proof.
  revert l. induction k as [|k IH]; intros l Hl; [by destruct l|].
  destruct l as [|b0 [|b1 [|b2 [|b3 l]]]]; simpl in Hl; try lia.
  cbn [bytes_words length]. rewrite IH by lia. done.
Qed.

(** The stream of a block of memory is its bytes, low bit first. *)
Lemma stream_bytes k l r :
  length l = (4 * k)%nat -> Forall is_u8 l ->
  stream_bits (bytes_words l ++ r) (32 * Z.of_nat k) = bytes_bits l.
Proof.
  revert l. induction k as [|k IH]; intros l Hl Hf; [by destruct l|].
  destruct l as [|b0 [|b1 [|b2 [|b3 l]]]]; simpl in Hl; try lia.
  change (b0 :: b1 :: b2 :: b3 :: l) with ([b0; b1; b2; b3] ++ l) in Hf |- *.
  apply Forall_app in Hf as [Hf0 Hf].
  replace (32 * Z.of_nat (S k)) with (32 + 32 * Z.of_nat k) by lia.
  cbn [bytes_words app]. rewrite stream_bits_cons, IH by (done || lia).
  pose proof (bytes_value_bits [b0; b1; b2; b3] Hf0) as Hb.
  change (8 * Z.of_nat (length [b0; b1; b2; b3])) with 32 in Hb. rewrite Hb.
  unfold bytes_bits. change (b0 :: b1 :: b2 :: b3 :: l) with ([b0; b1; b2; b3] ++ l).
  by rewrite map_app, concat_app.
Qed.

Lemma load_bytes_ok data offset n :
  0 <= offset -> 0 <= n -> offset + n <= Z.of_nat (length data) ->
  load_bytes (map Some data) offset n = Ok (take (Z.to_nat n) (drop (Z.to_nat offset) data)).
Proof.
  intros Ho Hn Hl. unfold load_bytes. rewrite length_map.
  destruct (Z.leb_spec 0 offset), (Z.leb_spec (offset + n) (Z.of_nat (length data))); try lia.
  cbn [andb]. change (map Some data) with (Some <$> data). rewrite <- fmap_drop, <- fmap_take.
  set (l := take _ _). replace (mapM id (Some <$> l)) with (Some l); [done|].
  symmetry. apply mapM_Some. induction l; simpl; constructor; auto.
Qed.

(** Where a [long] has eight bytes the loop reads twice as many as there are. *)
Lemma write_crc_64 `{Target} data count :
  long_size = 8 -> 0 < count -> Z.of_nat (length data) = 4 * count -> write_crc data 4 count = Undef.
Proof.
  intros Hlong Hc Hl. unfold write_crc.
  set (P := fun (i : Z) (acc : outcome Z) => acc = Undef \/ exists c, acc = Ok c /\ 8 * i <= Z.of_nat (length data)).
  match goal with |- ?x = _ => enough (P count x) as [E|(c & _ & Hlt)]; [exact E|lia|] end.
  apply (for_upto_inv P); [lia|right; eexists; split; [done|lia]|].
  intros i acc Hi [->|(c & -> & Hlt)]; [by left|]. rewrite bind_Ok. unfold data_word.
  cbn [Z.eqb Pos.eqb]. rewrite Hlong.
  destruct (Z.le_gt_cases (i * 8 + 8) (Z.of_nat (length data))) as [Hle|Hgt].
  - right. rewrite load_bytes_ok, !bind_Ok, compute_crc_bits by lia. eexists. split; [done|lia].
  - left. unfold load_bytes. rewrite length_map.
    destruct (Z.leb_spec (i * 8 + 8) (Z.of_nat (length data))); [lia|]. by rewrite andb_false_r.
Qed.

Section burst_write.
Context `{Target, Alloc} {St D : Type} `{Device D}
  (jtag_cable : jtag_cable_t St) (dev : St -> D) `{!CableLaws jtag_cable dev}.
Context (malloc_all : forall n, malloc_ok n = true) (long4 : long_size = 4).

Abbreviation sent := (sent dev).

Definition bytes_crc (data : list Z) : Z := crc_bits 0xffffffff (bytes_bits data).

(** Where a [long] has four bytes the CRC is that of the bytes sent. *)
Lemma write_crc_bytes data count :
  0 <= count -> Z.of_nat (length data) = 4 * count -> Forall is_u8 data ->
  write_crc data 4 count = Ok (bytes_crc data).
Proof.
  intros Hc Hl Hf. unfold write_crc, bytes_crc.
  replace (bytes_bits data) with (bytes_bits (take (Z.to_nat (4 * count)) data))
    by (rewrite take_ge; [done|lia]).
  apply (for_upto_inv (fun i acc =>
    acc = Ok (crc_bits 0xffffffff (bytes_bits (take (Z.to_nat (4 * i)) data))))); [done|done|].
  intros i acc Hi ->. unfold data_word. cbn [Z.eqb Pos.eqb]. rewrite long4.
  rewrite bind_Ok, load_bytes_ok by lia.
  replace (Z.to_nat (i * 4)) with (Z.to_nat (4 * i)) by lia.
  rewrite !bind_Ok. set (bs := take (Z.to_nat 4) (drop (Z.to_nat (4 * i)) data)).
  assert (Hbl : length bs = 4%nat).
  { unfold bs. rewrite length_take, length_drop. lia. }
  assert (Hbf : Forall is_u8 bs) by (unfold bs; apply Forall_take, Forall_drop; done).
  rewrite compute_crc_bits by lia. rewrite <- crc_bits_app. do 2 f_equal.
  replace (Z.to_nat (4 * (i + 1))) with (Z.to_nat (4 * i) + Z.to_nat 4)%nat by lia.
  rewrite <- take_take_drop. unfold bytes_bits at 2. rewrite map_app, concat_app. fold (bytes_bits).
  apply (f_equal2 app); [done|].
  pose proof (bytes_value_word_range bs Hbf) as Hw. pose proof (bytes_value_bits bs Hbf) as Hb.
  rewrite Hbl in Hw, Hb. rewrite wrap_small by exact Hw. exact Hb.
Qed.

(** A scratchpad with the data and the CRC, sent in one stream. *)
Lemma wp_write_scratchpad b data k :
  length data = (4 * k)%nat -> Forall is_u8 data -> dr_ok (gl b) ->
  let n := Z.of_nat (length data) in
  n + 4 <= output_scratchpad_size (gl b) ->
  wp (write_scratchpad jtag_cable data n (bytes_crc data) (n + 4)) (fun e b' => gl b' = gl b
    /\ sent (shift_pulses (bytes_bits data ++ word_bits (bytes_crc data) 32) false) b b' e) b.
Proof.
  intros Hl Hf [Hp Hq] n Hsize. unfold write_scratchpad. do 2 wp_step. wp_step.
  eapply wp_lift; [apply load_bytes_ok; lia|].
  rewrite Z2Nat.inj_0, drop_0, take_ge by lia.
  set (content := data ++ word_bytes (bytes_crc data)).
  assert (Hcl : length content = (4 * S k)%nat) by (unfold content; rewrite length_app; simpl; lia).
  assert (Hcf : Forall is_u8 content) by (apply Forall_app; split; [done|apply word_bytes_u8]).
  rewrite (bytes_words_app (S k)) by done. set (rest := bytes_words (replicate _ 0)).
  replace ((n + 4) * 8) with (32 * Z.of_nat (S k)) by lia.
  eapply wp_mono; [apply (sends_write_stream jtag_cable dev)|].
  - rewrite length_app, (bytes_words_length (S k)) by done. lia.
  - done.
  - intros e b' [Hg Hs]. split; [done|]. cbn [truth Z.eqb negb] in Hs.
    rewrite app_nil_r, (stream_bytes (S k)) in Hs by done.
    replace (bytes_bits data ++ _) with (bytes_bits content); [done|].
    unfold content, bytes_bits at 1. rewrite map_app, concat_app. f_equal. apply word_bytes_bits.
Qed.

(** ** The two halves *)

(** The pulses up to the end of the data. *)
Definition send_pulses (addr count : Z) (data : list Z) (g : globals) : list pulse :=
  dr_scan_pulses (stream_bits (burst_words DBG_CPU0_CMD_BWRITE32 addr count) 53 ++ dr_pad (cfg g))
  ++ tms_pulses [true; false; false] ++ [packet_pulse TDO]
  ++ shift_pulses (bytes_bits data ++ word_bits (bytes_crc data) 32) false.
(** The pulses before the match bit. *)
Definition match_pulses (c : config) : list pulse :=
  replicate (Z.to_nat (global_DR_prefix_bits c)) idle_pulse ++ dr_burn c.

Definition same_burst (b b' : bridge St) : Prop :=
  exists i o, gl b' = set_scratchpad_sizes i o (set_soft_retry_no 0 (gl b)).

Lemma wp_burst_send c b count addr data :
  burst_ready c (gl b) -> 0 < count -> 4 * count + 4 < 2 ^ 31 ->
  Z.of_nat (length data) = 4 * count -> Forall is_u8 data ->
  wp (burst_send jtag_cable data DBG_CPU0_CMD_BWRITE32 4 count 0 addr 0)
    (fun r b' => same_burst b b' /\ (Reliable jtag_cable -> fst r = 0)
      /\ (if snd r then fst r <> 0 else sent (send_pulses addr count data (gl b)) b b' (fst r))) b.
Proof.
  intros (Hsel & Hok & Hx & Hregs) Hc Hc31 Hl Hf. unfold burst_send. rewrite Z.sub_0_r. wp_step.
  wp_rel quiet_burst_command (wp_burst_command jtag_cable dev c) as e1 b1 [[Hg1 Hs1] Hq1];
    [done|done|].
  rewrite Z.lor_0_l. destruct (truth_or e1) as [[-> Hne]|[-> ->]].
  { wp_step. split; [|done]. eexists _, _. rewrite Hg1. by apply set_sizes_id. }
  wp_step. wp_rel quiet_set_shift_dr (sends_tap_set_shift_dr jtag_cable dev) as e2 b2 [[Hg2 Hs2] Hq2].
  wp_step. wp_rel quiet_write_bit (sends_bit jtag_cable dev) as e3 b3 [[Hg3 Hs3] Hq3].
  wp_step. eapply wp_lift; [by apply write_crc_bytes; [lia| |]|].
  wp_step. eapply wp_lift; [apply signed_ok; lia|].
  wp_step. eapply wp_lift; [apply signed_ok; lia|]. do 4 wp_step.
  assert (Hgl3 : gl b3 = set_soft_retry_no 0 (gl b)) by congruence.
  replace (count * 4) with (Z.of_nat (length data)) by lia.
  destruct (check_buffer_ok malloc_all (output_scratchpad_size (gl b3))
    (Z.of_nat (length data) + 4)) as (osize & -> & Ho).
  do 2 wp_step. unfold APP_ERR_NONE. rewrite Z.lor_0_l, Z.lor_0_r. rewrite Hgl3.
  set (b4 := Bridge (drv b3) _).
  assert (Hg4 : same_burst b b4) by (by eexists _, _).
  destruct (truth_or (e2 .| e3)) as [[-> Hne]|[-> [-> ->]%lor_0]].
  { wp_step. split; [done|]. split; [|done]. intros R. cbn [fst]. by rewrite Hq2, Hq3. }
  wp_step. eapply wp_mono.
  { apply (wp_post (Reliable jtag_cable)) with (P := fun e => e = 0).
    - intros R. unfold write_scratchpad. do 2 (apply post_skip; intros ?). by apply quiet_write_stream.
    - apply (wp_write_scratchpad b4 data (Z.to_nat count)); [lia|done|done|exact Ho]. }
  intros e5 b5 [[Hg5 Hs5] Hq5]. wp_step. rewrite Z.lor_0_l. cbn [fst snd].
  split; [destruct Hg4 as (i & o & Hg4); exists i, o; congruence|].
  split; [done|]. intros E. unfold send_pulses. rewrite !clocks_app, (Hs5 E).
  assert (Hb4 : drv b4 = drv b3) by done.
  by rewrite Hb4, (Hs3 eq_refl), (Hs2 eq_refl), (Hs1 eq_refl).
Qed.

Lemma wp_read_crc_match b err :
  dr_ok (gl b) ->
  let before := match_pulses (cfg (gl b)) in
  wp (read_crc_match jtag_cable err) (fun r b' => gl b' = gl b
    /\ (Reliable jtag_cable -> err = 0 -> fst r = 0)
    /\ (fst r = 0 -> err = 0 /\ truth (snd r) = tdo (clocks before (dev (drv b)))
        /\ dev (drv b') = clocks (before ++ [idle_pulse] ++ tms_pulses [true; true; false])
                            (dev (drv b)))) b.
Proof.
  intros [Hp Hq] before. unfold read_crc_match. do 2 wp_step. wp_step.
  eapply wp_mono.
  { apply (wp_post (Reliable jtag_cable /\ err = 0)) with (P := fun e => e = 0).
    - intros [R ->]. by apply quiet_write_bits.
    - by apply (wp_write_bits jtag_cable dev). }
  intros e6 b6 [(Hg6 & He6 & Hs6) Hq6]. wp_step.
  wp_rel quiet_read_stream (reads_stream jtag_cable dev)
    as [e7 buf] b7 [(Hg7 & Hs7 & read & Hbuf & Hlr & _ & Hr7) Hq7];
    [done|done|by rewrite Hg6|by rewrite Hg6|].
  cbn [fst snd] in *. subst buf. change ((1 - 1) / 32 + 1) with 1 in Hlr.
  destruct read as [|w [|? ?]]; [simpl in Hlr; lia| |simpl in Hlr; lia].
  wp_step. wp_rel quiet_write_bit (sends_bit jtag_cable dev) as e8 b8 [[Hg8 Hs8] Hq8].
  wp_step. wp_rel quiet_exit_to_idle (sends_tap_exit_to_idle jtag_cable dev) as e9 b9 [[Hg9 Hs9] Hq9].
  wp_step. eapply wp_lift; [done|]. wp_step. cbn [fst snd]. split; [congruence|]. split.
  { intros R E. by rewrite (Hq6 (conj R E)), (Hq7 R), (Hq8 R), (Hq9 R). }
  intros [[[E6 E7]%lor_0 E8]%lor_0 E9]%lor_0. split; [auto|].
  rewrite Hg6 in Hs7, Hr7. cbn [truth Z.eqb negb] in Hs7, Hr7.
  rewrite stream_word_bits, word_bits_1 in Hs7, Hr7 by lia. change (Z.testbit 0 0) with false in *.
  rewrite (Hs6 E6), <- clocks_app in Hr7. specialize (Hr7 E7). split.
  - cbn [shift_pulses samples] in Hr7. fold before in Hr7. set (x := tdo _) in *.
    change (stream_words [x]) with [b2z x + 2 * 0] in Hr7. injection Hr7 as ->. by destruct x.
  - rewrite (Hs9 E9), (Hs8 E8), (Hs7 E7), (Hs6 E6). unfold before, match_pulses.
    rewrite app_nil_r. by rewrite !clocks_app.
Qed.

(** ** The call *)

Definition write_before (addr count : Z) (data : list Z) (g : globals) : list pulse :=
  send_pulses addr count data g ++ match_pulses (cfg g).
Definition write_pulses (addr count : Z) (data : list Z) (g : globals) : list pulse :=
  write_before addr count data g ++ [idle_pulse] ++ tms_pulses [true; true; false].

(** The answer of the debug unit: the bit read after that. *)
Definition crc_matched (addr count : Z) (data : list Z) (b : bridge St) : bool :=
  tdo (clocks (write_before addr count data (gl b)) (dev (drv b))).

Definition write_result_of (matched : bool) : write_result :=
  if matched then Returned 0 else Exited 1.

Definition writes (addr count : Z) (data : list Z) (b : bridge St) (r : write_result)
    (b' : bridge St) : Prop :=
  (r = Returned 0 -> crc_matched addr count data b = true
     /\ dev (drv b') = clocks (write_pulses addr count data (gl b)) (dev (drv b)))
  /\ (Reliable jtag_cable -> r = write_result_of (crc_matched addr count data b)).

Lemma wp_cpu_write c b count addr data fuel :
  burst_ready c (gl b) -> is_cpu c -> 0 < count -> 4 * count + 4 < 2 ^ 31 ->
  Z.of_nat (length data) = 4 * count -> Forall is_u8 data ->
  wp (adbg_wb_burst_write jtag_cable (S fuel) data 4 count addr) (writes addr count data b) b.
Proof.
  intros Hready Hcpu Hc Hc31 Hl Hf. pose proof Hready as ([Hcur _] & Hok & _).
  unfold adbg_wb_burst_write. destruct (Z.leb_spec count 0); [lia|]. do 2 wp_step. rewrite Hcur.
  assert (write_opcode c 4 = Some DBG_CPU0_CMD_BWRITE32) as -> by (by destruct Hcpu as [->| ->]).
  cbn [burst_write_loop]. wp_step. unfold burst_write_pass. wp_step.
  eapply wp_mono; [by apply (wp_burst_send c)|].
  intros [e returned] b1 ((i & o & Hg1) & Hq1 & Hs1). cbn [fst snd] in *. destruct returned.
  { do 2 wp_step. split; [by intros [= ->]|]. intros R. by rewrite Hq1 in Hs1. }
  wp_step. eapply wp_mono; [apply wp_read_crc_match; by rewrite Hg1|].
  intros [e2 w] b2 (Hg2 & Hq2 & Hr2). cbn [fst snd] in *. rewrite Hg1 in Hg2, Hr2.
  assert (Hmatch : e2 = 0 -> truth w = crc_matched addr count data b
    /\ dev (drv b2) = clocks (write_pulses addr count data (gl b)) (dev (drv b))).
  { intros E. destruct (Hr2 E) as (E1 & -> & ->). rewrite (Hs1 E1), <- !clocks_app.
    unfold crc_matched, write_pulses, write_before. rewrite <- !app_assoc. done. }
  assert (Hretry : 0 <= soft_retry_no (gl b2)) by (by rewrite Hg2).
  assert (Hcur2 : current_chain (gl b2) = c) by (rewrite Hg2; exact Hcur).
  destruct (truth w) eqn:Hw; cbn [negb].
  - do 2 wp_step. rewrite Hcur2.
    assert ((c =? DC_WISHBONE) = false) as -> by (by destruct Hcpu as [->| ->]).
    do 4 wp_step. split; cbn [gl drv].
    + intros [= E]. by destruct (Hmatch E) as [<- Hd].
    + intros R. rewrite (Hq2 R (Hq1 R)) in *. by destruct (Hmatch eq_refl) as [<- _].
  - wp_step. eapply wp_mono; [by apply wp_retry_do|]. intros r b10 [-> ->]. cbn [truth Z.eqb negb].
    do 2 wp_step. split; [done|]. intros R. by destruct (Hmatch (Hq2 R (Hq1 R))) as [<- _].
Qed.
End burst_write.
