(* ===== verification/DbgApi.v ===== *)
(** dbg_api.c: the debug unit's memory and registers, one access at a time.  The
    access functions are compiled for the advanced debug unit
    ([DBG_HW_ADVANCED]).

    [dbg_access_mutex] is part of the state: locking it when it is held would
    wait for ever ([Hang]), and [exit] inside a burst write leaves it held. *)

From S2P Require Import Prelude StateM Tap Cable Chain AdvDbg.

Open Scope cword_scope.

Record api (St : Type) := Api { dbg_access_mutex : bool; api_bridge : bridge St }.
Arguments Api {St} _ _.
Arguments dbg_access_mutex {St} _.
Arguments api_bridge {St} _.

Section dbg_api.
Context `{Target, Alloc} {St : Type} (jtag_cable : jtag_cable_t St) (fuel : nat).

Definition lock : M (api St) unit := fun a =>
  if dbg_access_mutex a then Hang else Ok (tt, Api true (api_bridge a)).
Definition unlock : M (api St) unit := fun a => Ok (tt, Api false (api_bridge a)).
Definition locked {A} (m : M (bridge St) A) : M (api St) A := fun a =>
  match m (api_bridge a) with
  | Ok (x, b) => Ok (x, Api (dbg_access_mutex a) b)
  | Hang => Hang | AssertFail => AssertFail | Undef => Undef
  end.

(** [cable_flush();], its result not looked at. *)
Definition flush : M (bridge St) unit := _ ← cable (cable_flush jtag_cable); mret tt.

(** The shape of every function that reads: lock, select the module, on an error
    flush, unlock and return it; else the access, flush, unlock. *)
Definition read_access (chain word_size len adr : Z) (data : buffer)
    : M (api St) (Z * buffer) :=
  lock;;
  err ← locked (adbg_select_module jtag_cable chain);
  if truth err then locked flush;; unlock;; mret (err, data)
  else
    r ← locked (adbg_wb_burst_read jtag_cable fuel word_size len adr data);
    locked flush;; unlock;; mret r.

Definition write_access (chain word_size len adr : Z) (data : list Z)
    : M (api St) write_result :=
  lock;;
  err ← locked (adbg_select_module jtag_cable chain);
  if truth err then locked flush;; unlock;; mret (Returned err)
  else
    r ← locked (adbg_wb_burst_write jtag_cable fuel data word_size len adr);
    match r with
    | Exited code => mret (Exited code)
    | Returned err => locked flush;; unlock;; mret (Returned err)
    end.

(** ** Wishbone *)

Definition dbg_wb_read32 (adr : Z) (data : buffer) := read_access DC_WISHBONE 4 1 adr data.
Definition dbg_wb_write32 (adr data : Z) := write_access DC_WISHBONE 4 1 adr (word_bytes data).
Definition dbg_wb_write16 (adr data : Z) :=
  write_access DC_WISHBONE 2 1 adr (take 2 (word_bytes data)).
Definition dbg_wb_write8 (adr data : Z) :=
  write_access DC_WISHBONE 1 1 adr (take 1 (word_bytes data)).

(** A block of no words is no access: GDB may ask for one. *)
Definition dbg_wb_read_block32 (adr : Z) (data : buffer) (len : Z) : M (api St) (Z * buffer) :=
  if len =? 0 then mret (APP_ERR_NONE, data) else read_access DC_WISHBONE 4 len adr data.
Definition dbg_wb_read_block16 (adr : Z) (data : buffer) (len : Z) : M (api St) (Z * buffer) :=
  if len =? 0 then mret (APP_ERR_NONE, data) else read_access DC_WISHBONE 2 len adr data.
Definition dbg_wb_read_block8 (adr : Z) (data : buffer) (len : Z) : M (api St) (Z * buffer) :=
  if len =? 0 then mret (APP_ERR_NONE, data) else read_access DC_WISHBONE 1 len adr data.
Definition dbg_wb_write_block32 (adr : Z) (data : list Z) (len : Z) : M (api St) write_result :=
  if len =? 0 then mret (Returned APP_ERR_NONE) else write_access DC_WISHBONE 4 len adr data.
Definition dbg_wb_write_block16 (adr : Z) (data : list Z) (len : Z) : M (api St) write_result :=
  if len =? 0 then mret (Returned APP_ERR_NONE) else write_access DC_WISHBONE 2 len adr data.
Definition dbg_wb_write_block8 (adr : Z) (data : list Z) (len : Z) : M (api St) write_result :=
  if len =? 0 then mret (Returned APP_ERR_NONE) else write_access DC_WISHBONE 1 len adr data.

(** ** The CPUs *)

Definition dbg_cpu0_read (adr : Z) (data : buffer) := read_access DC_CPU0 4 1 adr data.
Definition dbg_cpu0_read_block (adr : Z) (data : buffer) (count : Z) :=
  read_access DC_CPU0 4 count adr data.
Definition dbg_cpu0_write (adr data : Z) := write_access DC_CPU0 4 1 adr (word_bytes data).
Definition dbg_cpu0_write_block (adr : Z) (data : list Z) (count : Z) :=
  write_access DC_CPU0 4 count adr data.
Definition dbg_cpu1_read (adr : Z) (data : buffer) := read_access DC_CPU1 4 1 adr data.
(** It selects [DC_CPU0]. *)
Definition dbg_cpu1_write (adr data : Z) := write_access DC_CPU0 4 1 adr (word_bytes data).

(** ** The registers of the CPU modules *)

Definition write_ctrl (chain reg data : Z) : M (api St) Z :=
  lock;;
  err ← locked (adbg_select_module jtag_cable chain);
  if truth err then locked flush;; unlock;; mret err
  else
    err ← locked (adbg_ctrl_write jtag_cable reg [u32 data] 2);
    locked flush;; unlock;; mret err.

(** The error code and [*data], which only a read without an error changes. *)
Definition read_ctrl (chain reg : Z) (data : option Z) : M (api St) (Z * option Z) :=
  lock;;
  err ← locked (adbg_select_module jtag_cable chain);
  if truth err then locked flush;; unlock;; mret (err, data)
  else
    '(err, dataword) ← locked (adbg_ctrl_read jtag_cable reg [None] 2);
    if truth err then locked flush;; unlock;; mret (err, data)
    else
      w ← lift (load_slot dataword 0);
      locked flush;; unlock;; mret (err, Some (u8 w)).

Definition dbg_cpu0_write_ctrl (adr data : Z) := write_ctrl DC_CPU0 DBG_CPU0_REG_STATUS data.
Definition dbg_cpu0_read_ctrl (adr : Z) (data : option Z) :=
  read_ctrl DC_CPU0 DBG_CPU0_REG_STATUS data.
Definition dbg_cpu1_write_ctrl (adr data : Z) := write_ctrl DC_CPU1 DBG_CPU1_REG_STATUS data.
Definition dbg_cpu1_read_ctrl (adr : Z) (data : option Z) :=
  read_ctrl DC_CPU1 DBG_CPU1_REG_STATUS data.

(** ** The serial port *)

Definition dbg_serial_sndrcv (bytes_to_send : Z) (data_to_send : list Z)
    : M (api St) (Z * Z * list Z) :=
  lock;;
  err ← locked (adbg_select_module jtag_cable DC_JSP);
  if truth err then locked flush;; unlock;; mret (err, bytes_to_send, [])
  else
    r ← locked (adbg_jsp_transact jtag_cable data_to_send bytes_to_send);
    locked flush;; unlock;; mret r.
End dbg_api.
