(* ===== verification/BridgeInv.v ===== *)
(** What every command of the bridge keeps, whatever the cable and the device do
    and whether or not it reports an error: the global variables stay in their
    ranges, and the mutex of dbg_api.c is free between calls; and, at the end, what the
    functions for blocks of dbg_api.c return and leave. *)

From stdpp Require Import relations.
From S2P Require Import Prelude StateM Tap Cable Chain AdvDbg DbgApi Crc AdvFacts Burst BurstRead BurstWrite.

Open Scope cword_scope.

(** * Invariants of a command

    [keeps I m Q]: if [I] holds before and the command returns, [I] holds after
    it, and [Q] of what it returns. *)

Definition keeps {S A} (I : S -> Prop) (m : M S A) (Q : A -> Prop) : Prop :=
  forall s a s', I s -> m s = Ok (a, s') -> I s' /\ Q a.

Abbreviation any := (fun _ => True).

Section keeps.
Context {S : Type} (I : S -> Prop).

Lemma keeps_ret {A} (a : A) (Q : A -> Prop) : Q a -> keeps I (mret a) Q.
Proof. by intros Hq s b s' Hs [= <- <-]. Qed.

Lemma keeps_bind {A B} (m : M S A) (f : A -> M S B) (P : A -> Prop) Q :
  keeps I m P -> (forall a, P a -> keeps I (f a) Q) -> keeps I (m ≫= f) Q.
Proof.
  intros Hm Hf s b s' Hs. unfold mbind, M_bind.
  destruct (m s) as [[a s1]| | |] eqn:E; [|done..]. destruct (Hm s a s1 Hs E) as [Hs1 Ha].
  by apply Hf.
Qed.

Lemma keeps_mono {A} (m : M S A) (P Q : A -> Prop) :
  keeps I m P -> (forall a, P a -> Q a) -> keeps I m Q.
Proof. intros Hm Hpq s a s' Hs E. destruct (Hm s a s' Hs E). auto. Qed.

Lemma keeps_lift {A} (m : outcome A) : keeps I (lift m) any.
Proof. intros s a s' Hs. unfold lift. destruct m; [|done..]. by intros [= <- <-]. Qed.

Lemma keeps_gets {A} (f : S -> A) (Q : A -> Prop) :
  (forall s, I s -> Q (f s)) -> keeps I (gets f) Q.
Proof. intros Hq s a s' Hs [= <- <-]. auto. Qed.

Lemma keeps_modify f : (forall s, I s -> I (f s)) -> keeps I (modify f) any.
Proof. intros Hf s a s' Hs [= <- <-]. auto. Qed.

Lemma keeps_mfor {A} n lo (body : Z -> A -> M S A) (a : A) :
  (forall i a, keeps I (body i a) any) -> keeps I (mfor n lo body a) any.
Proof.
  intros Hb. revert lo a. induction n as [|n IH]; intros lo a; simpl; [by apply keeps_ret|].
  eapply keeps_bind; [apply Hb|]. auto.
Qed.
End keeps.

Create HintDb keeps.

(** [keeps]: a goal about a command follows its structure down to commands the
    hints know. *)
Ltac keeps :=
  cbv beta zeta;
  lazymatch goal with
  | |- keeps _ (mret _) _ => by apply keeps_ret
  | |- keeps _ (lift _) _ => apply keeps_lift
  | |- keeps _ (mfor_upto _ _ _) _ => unfold mfor_upto; apply keeps_mfor; intros; keeps
  | |- keeps _ (if ?b then _ else _) _ => destruct b; keeps
  | |- keeps _ (match ?x with _ => _ end) _ => destruct x; keeps
  | |- keeps _ (_ ≫= _) _ =>
      eapply keeps_bind with (P := any);
        [keeps|let a := fresh "a" in intros a _; keeps]
  | |- ?G => first [solve [eauto with keeps | eapply keeps_mono; [eauto with keeps|done]] | idtac "stuck:" G; fail]
  end.

(** * The global variables *)

(** A module number or -1; four register numbers, each an [int]; no retries. *)
Definition module_or_none (c : Z) : Prop := -1 <= c < DBG_MAX_MODULES.
Definition regs_wf (regs : list Z) : Prop :=
  Z.of_nat (length regs) = DBG_MAX_MODULES /\ Forall (is_sword 32) regs.
Definition globals_wf (g : globals) : Prop :=
  module_or_none (current_chain g) /\ module_or_none (desired_chain g)
  /\ soft_retry_no g = 0 /\ regs_wf (current_reg_idx g).

Lemma initial_globals_wf : globals_wf initial_globals.
Proof. repeat split; cbn; try lia. repeat (apply List.Forall_cons; [split; cbn; lia|]). done. Qed.

Definition bridge_wf {St} (b : bridge St) : Prop := globals_wf (gl b).

Section commands.
Context `{Target, Alloc} {St : Type} (jtag_cable : jtag_cable_t St).

Abbreviation kept m := (keeps (bridge_wf (St := St)) m any).

Lemma kept_cable {A} (m : M St A) : kept (cable m).
Proof. intros b a b' Hb. unfold cable. destruct (m (drv b)) as [[x s]| | |]; [|done..]. by intros [= <- <-]. Qed.

Lemma kept_get {A} (f : globals -> A) : kept (get f).
Proof. by apply keeps_gets. Qed.

Lemma kept_getc {A} (f : config -> A) : kept (getc f).
Proof. by apply keeps_gets. Qed.

Lemma kept_set f : (forall g, globals_wf g -> globals_wf (f g)) -> kept (set f).
Proof. intros Hf. apply keeps_modify. intros b. apply Hf. Qed.

(** The assignments of the commands. *)
Lemma set_chain_wf c : module_or_none c ->
  forall g, globals_wf g -> globals_wf (set_current_chain c g).
Proof. by intros Hc g (_ & Hd & Hn & Hr). Qed.
Lemma set_desired_wf c : module_or_none c ->
  forall g, globals_wf g -> globals_wf (set_desired_chain c g).
Proof. by intros Hc g (Hd & _ & Hn & Hr). Qed.
Lemma set_regs_wf regs : regs_wf regs ->
  forall g, globals_wf g -> globals_wf (set_current_reg_idx regs g).
Proof. by intros Hc g (Hd & Hn & Hr & _). Qed.
Lemma insert_reg_wf n v regs : regs_wf regs -> regs_wf (<[n := i32 v]> regs).
Proof.
  intros [Hl Hf]. split; [by rewrite length_insert|]. apply Forall_insert; [done|].
  apply swrap_range. lia.
Qed.

Hint Resolve kept_cable kept_get kept_getc : keeps.
Hint Extern 2 (keeps _ (set _) _) => (apply kept_set; done) : keeps.

(** ** chain_commands.c *)

Lemma kept_write_bit p : kept (jtag_write_bit jtag_cable p).
Proof. apply kept_cable. Qed.
Lemma kept_read_bit p : kept (jtag_read_write_bit jtag_cable p).
Proof. apply kept_cable. Qed.
Hint Resolve kept_write_bit kept_read_bit : keeps.

Lemma kept_write_bits n p err : kept (write_bits jtag_cable n p err).
Proof. unfold write_bits. keeps. Qed.
Hint Resolve kept_write_bits : keeps.

Lemma kept_write_stream ws n tms : kept (jtag_write_stream jtag_cable ws n tms).
Proof. unfold jtag_write_stream. keeps. Qed.
Lemma kept_read_stream ws buf n adjust tms :
  kept (jtag_read_write_stream jtag_cable ws buf n adjust tms).
Proof. unfold jtag_read_write_stream. keeps. Qed.
Hint Resolve kept_write_stream kept_read_stream : keeps.

Lemma kept_set_chain c : module_or_none c -> kept (set (set_current_chain c)).
Proof. intros Hc. by apply kept_set, set_chain_wf. Qed.
Lemma none_wf : module_or_none (-1).
Proof. by split. Qed.
Hint Resolve kept_set_chain none_wf : keeps.

Lemma no_regs_wf : regs_wf (replicate (Z.to_nat DBG_MAX_MODULES) (-1)).
Proof. split; [done|]. by apply Forall_replicate. Qed.

Lemma kept_tap_reset : kept (tap_reset jtag_cable).
Proof.
  assert (Hregs := kept_set _ (set_regs_wf _ no_regs_wf)). unfold tap_reset. keeps.
Qed.
Lemma kept_tap_set_ir ir : kept (tap_set_ir jtag_cable ir).
Proof. unfold tap_set_ir. keeps. Qed.
Lemma kept_set_shift_dr : kept (tap_set_shift_dr jtag_cable).
Proof. unfold tap_set_shift_dr. keeps. Qed.
Lemma kept_exit_to_idle : kept (tap_exit_to_idle jtag_cable).
Proof. unfold tap_exit_to_idle. keeps. Qed.
Hint Resolve kept_tap_reset kept_tap_set_ir kept_set_shift_dr kept_exit_to_idle : keeps.

Lemma kept_enable : kept (tap_enable_debug_module jtag_cable).
Proof. unfold tap_enable_debug_module. keeps. Qed.
Hint Resolve kept_enable : keeps.

Lemma kept_enumerate_loop fuel ic i re err idc :
  kept (enumerate_loop jtag_cable fuel ic i re err idc).
Proof.
  revert ic i re err idc. induction fuel as [|fuel IH]; intros; cbn [enumerate_loop]; keeps.
Qed.
Hint Resolve kept_enumerate_loop : keeps.
Lemma kept_enumerate : kept (jtag_enumerate_chain jtag_cable).
Proof. unfold jtag_enumerate_chain. keeps. Qed.
Lemma kept_get_idcode cmd idc : kept (jtag_get_idcode jtag_cable cmd idc).
Proof. unfold jtag_get_idcode. keeps. Qed.

Lemma kept_retry_do : kept (retry_do jtag_cable).
Proof.
  unfold retry_do. eapply keeps_bind.
  - apply keeps_gets with (Q := fun n => n = 0). by intros b (_ & _ & Hn & _).
  - intros n ->. by apply keeps_ret.
Qed.
Lemma kept_retry_ok : kept retry_ok.
Proof. apply kept_set. by intros g (Hc & Hd & _ & Hr). Qed.
Hint Resolve kept_retry_do kept_retry_ok : keeps.

(** ** adv_dbg_commands.c *)

Lemma kept_sizes i o : kept (set (set_scratchpad_sizes i o)).
Proof. by apply kept_set. Qed.
Hint Resolve kept_sizes : keeps.

Lemma kept_select c : module_or_none c -> kept (adbg_select_module jtag_cable c).
Proof.
  intros Hc. assert (Hd := kept_set _ (set_desired_wf _ Hc)). unfold adbg_select_module. keeps.
Qed.

(** The commands first select the module that was desired last. *)
Lemma kept_reselect {A} (f : Z -> M (bridge St) A) :
  (forall err, kept (f err)) ->
  kept (desired ← get desired_chain; err ← adbg_select_module jtag_cable desired; f err).
Proof.
  intros Hf. eapply keeps_bind.
  - apply keeps_gets with (Q := module_or_none). by intros b (_ & Hd & _).
  - intros d Hd. eapply keeps_bind; [by apply kept_select|]. auto.
Qed.

Lemma kept_get_regs {A} (f : list Z -> M (bridge St) A) :
  (forall regs, regs_wf regs -> kept (f regs)) -> kept (regs ← get current_reg_idx; f regs).
Proof.
  intros Hf. eapply keeps_bind; [|exact Hf].
  apply keeps_gets with (Q := regs_wf). by intros b (_ & _ & _ & Hr).
Qed.

Lemma kept_set_reg n v regs : regs_wf regs -> kept (set (set_current_reg_idx (<[n := i32 v]> regs))).
Proof. intros Hr. by apply kept_set, set_regs_wf, insert_reg_wf. Qed.
Hint Resolve kept_set_reg : keeps.

Lemma kept_select_reg idx : kept (adbg_select_ctrl_reg jtag_cable idx).
Proof.
  apply kept_reselect. intros err. destruct (truth err); [keeps|].
  eapply keeps_bind; [apply kept_get|]. intros current _. apply kept_get_regs. intros regs Hregs. keeps.
Qed.
Lemma kept_ctrl_write idx ws n : kept (adbg_ctrl_write jtag_cable idx ws n).
Proof.
  apply kept_reselect. intros err. destruct (truth err); [keeps|].
  eapply keeps_bind; [apply kept_get|]. intros current _. destruct (ireg_command _ _ _ _) as [[l op]|]; [|keeps].
  do 5 (eapply keeps_bind with (P := any); [keeps|intros ? _]).
  apply kept_get_regs. intros regs Hregs. keeps.
Qed.
Hint Resolve kept_select_reg kept_ctrl_write : keeps.
Lemma kept_ctrl_read idx buf n : kept (adbg_ctrl_read jtag_cable idx buf n).
Proof. apply kept_reselect. intros err. keeps. Qed.
Lemma kept_burst_command op addr n : kept (adbg_burst_command jtag_cable op addr n).
Proof. apply kept_reselect. intros err. keeps. Qed.
Hint Resolve kept_ctrl_read kept_burst_command : keeps.

Lemma kept_wait n j err : kept (wait_status jtag_cable n j err).
Proof. revert j err. induction n as [|n IH]; intros j err; cbn [wait_status]; keeps. Qed.
Lemma kept_wb_error err : kept (read_wb_error jtag_cable err).
Proof. unfold read_wb_error. keeps. Qed.
Hint Resolve kept_wait kept_wb_error : keeps.

Lemma kept_fetch op size n i addr err data : kept (burst_fetch jtag_cable op size n i addr err data).
Proof. unfold burst_fetch, read_scratchpad. keeps. Qed.
Hint Resolve kept_fetch : keeps.

Lemma kept_burst_read fuel size n addr data :
  kept (adbg_wb_burst_read jtag_cable fuel size n addr data).
Proof.
  assert (Hl : forall op i a err r d, kept (burst_read_loop jtag_cable fuel op size n addr i a err r d)).
  { induction fuel as [|f IH]; intros; cbn [burst_read_loop]; unfold burst_read_pass; keeps. }
  unfold adbg_wb_burst_read. keeps.
Qed.

Lemma kept_burst_write fuel data size n addr :
  kept (adbg_wb_burst_write jtag_cable fuel data size n addr).
Proof.
  assert (Hl : forall op i a err r, kept (burst_write_loop jtag_cable fuel data op size n addr i a err r)).
  { induction fuel as [|f IH]; intros; cbn [burst_write_loop];
      unfold burst_write_pass, burst_send, write_scratchpad, read_crc_match; keeps. }
  unfold adbg_wb_burst_write. keeps.
Qed.

Lemma kept_jsp data n : kept (adbg_jsp_transact jtag_cable data n).
Proof. apply kept_reselect. intros err. keeps. Qed.
End commands.

#[export] Hint Resolve kept_burst_read kept_burst_write kept_jsp kept_ctrl_read kept_ctrl_write
  kept_cable : keeps.

(** * The mutex *)

Section api.
Context `{Target, Alloc} {St : Type} (jtag_cable : jtag_cable_t St).

Definition api_with (held : bool) (a : api St) : Prop :=
  dbg_access_mutex a = held /\ bridge_wf (api_bridge a).

(** Between two calls. *)
Definition api_idle : api St -> Prop := api_with false.

Lemma keeps_locked {A} (m : M (bridge St) A) :
  keeps bridge_wf m any -> keeps (api_with true) (locked m) any.
Proof.
  intros Hm a x a' [Ha Hb]. unfold locked. destruct (m (api_bridge a)) as [[y b]| | |] eqn:E; [|done..].
  intros [= <- <-]. split; [|done]. split; [done|]. by apply (Hm _ _ _ Hb E).
Qed.

Lemma keeps_flush : keeps bridge_wf (flush jtag_cable) any.
Proof. unfold flush. keeps. Qed.
Hint Resolve keeps_locked keeps_flush : keeps.

(** A command that, with the mutex held, returns what is not [R] or frees it. *)
Definition frees {A} (R : A -> Prop) (m : M (api St) A) : Prop :=
  forall a x a', api_with true a -> m a = Ok (x, a') -> R x -> api_idle a'.

Lemma frees_bind {A B} R (m : M (api St) A) (f : A -> M (api St) B) :
  keeps (api_with true) m any -> (forall a, frees R (f a)) -> frees R (m ≫= f).
Proof.
  intros Hm Hf a x a' Ha. unfold mbind, M_bind.
  destruct (m a) as [[y a1]| | |] eqn:E; [|done..]. apply Hf. by apply (Hm a y a1).
Qed.

Lemma frees_unlock {A} R (x : A) : frees R (unlock;; mret x).
Proof. intros [h b] y a' [_ Hb] [= <- <-] _. by split. Qed.

Lemma frees_exit code : frees (fun r => exists e, r = Returned e) (mret (Exited code)).
Proof. by intros a x a' _ [= <- <-] [e He]. Qed.

(** A function that locks first; it would wait for ever if the mutex were
    held. *)
Lemma call_frees {A} (R : A -> Prop) (m : M (api St) A) a x a' :
  frees R m -> api_idle a -> (lock;; m) a = Ok (x, a') -> R x -> api_idle a'.
Proof.
  intros Hm [Hh Hb]. unfold mbind, M_bind, lock. rewrite Hh. by apply Hm.
Qed.

Lemma call_hangs {A} (m : M (api St) A) a : dbg_access_mutex a = true -> (lock;; m) a = Hang.
Proof. intros Hh. unfold mbind, M_bind, lock. by rewrite Hh. Qed.

Ltac frees :=
  lazymatch goal with
  | |- frees _ (unlock;; _) => apply frees_unlock
  | |- frees _ (mret (Exited _)) => apply frees_exit
  | |- frees _ (if ?b then _ else _) => destruct b; frees
  | |- frees _ (match ?x with _ => _ end) => destruct x; frees
  | |- frees _ (_ ≫= _) => apply frees_bind; [|intros; frees]
  end.

Lemma keeps_lift_api {A} (m : outcome A) : keeps (api_with true) (lift m) any.
Proof. apply keeps_lift. Qed.
Hint Resolve keeps_lift_api : keeps.

(** Of a function that writes: it returned, it did not call [exit]. *)
Definition returned (r : write_result) : Prop := exists e, r = Returned e.

Context (fuel : nat).

Lemma read_access_idle chain size len adr data a x a' :
  module_or_none chain -> api_idle a ->
  read_access jtag_cable fuel chain size len adr data a = Ok (x, a') -> api_idle a'.
Proof.
  intros Hc Ha E. assert (Hsel := kept_select jtag_cable chain Hc).
  eapply (call_frees any); [|done|exact E|done]. frees; eauto with keeps.
Qed.

Lemma write_access_idle chain size len adr data a x a' :
  module_or_none chain -> api_idle a ->
  write_access jtag_cable fuel chain size len adr data a = Ok (x, a') -> returned x -> api_idle a'.
Proof.
  intros Hc Ha E. assert (Hsel := kept_select jtag_cable chain Hc).
  eapply (call_frees returned); [|done|exact E]. frees; eauto with keeps.
Qed.

Lemma write_ctrl_idle chain reg data a x a' :
  module_or_none chain -> api_idle a ->
  write_ctrl jtag_cable chain reg data a = Ok (x, a') -> api_idle a'.
Proof.
  intros Hc Ha E. assert (Hsel := kept_select jtag_cable chain Hc).
  eapply (call_frees any); [|done|exact E|done]. frees; eauto with keeps.
Qed.

Lemma read_ctrl_idle chain reg data a x a' :
  module_or_none chain -> api_idle a ->
  read_ctrl jtag_cable chain reg data a = Ok (x, a') -> api_idle a'.
Proof.
  intros Hc Ha E. assert (Hsel := kept_select jtag_cable chain Hc).
  eapply (call_frees any); [|done|exact E|done]. frees; eauto with keeps.
Qed.

Lemma serial_idle n data a x a' :
  api_idle a -> dbg_serial_sndrcv jtag_cable n data a = Ok (x, a') -> api_idle a'.
Proof.
  intros Ha E. assert (Hsel := kept_select jtag_cable DC_JSP ltac:(by split)).
  eapply (call_frees any); [|done|exact E|done]. frees; eauto with keeps.
Qed.
End api.

(** * The functions of dbg_api.h

    The state before and after a call that returned. *)

Section steps.
Context `{Target, Alloc} {St : Type} (jtag_cable : jtag_cable_t St) (fuel : nat).

Inductive api_step : api St -> api St -> Prop :=
| Step_wb_read32 adr data r a a' :
    dbg_wb_read32 jtag_cable fuel adr data a = Ok (r, a') -> api_step a a'
| Step_wb_write32 adr data e a a' :
    dbg_wb_write32 jtag_cable fuel adr data a = Ok (Returned e, a') -> api_step a a'
| Step_wb_write16 adr data e a a' :
    dbg_wb_write16 jtag_cable fuel adr data a = Ok (Returned e, a') -> api_step a a'
| Step_wb_write8 adr data e a a' :
    dbg_wb_write8 jtag_cable fuel adr data a = Ok (Returned e, a') -> api_step a a'
| Step_wb_read_block32 adr data len r a a' :
    dbg_wb_read_block32 jtag_cable fuel adr data len a = Ok (r, a') -> api_step a a'
| Step_wb_read_block16 adr data len r a a' :
    dbg_wb_read_block16 jtag_cable fuel adr data len a = Ok (r, a') -> api_step a a'
| Step_wb_read_block8 adr data len r a a' :
    dbg_wb_read_block8 jtag_cable fuel adr data len a = Ok (r, a') -> api_step a a'
| Step_wb_write_block32 adr data len e a a' :
    dbg_wb_write_block32 jtag_cable fuel adr data len a = Ok (Returned e, a') -> api_step a a'
| Step_wb_write_block16 adr data len e a a' :
    dbg_wb_write_block16 jtag_cable fuel adr data len a = Ok (Returned e, a') -> api_step a a'
| Step_wb_write_block8 adr data len e a a' :
    dbg_wb_write_block8 jtag_cable fuel adr data len a = Ok (Returned e, a') -> api_step a a'
| Step_cpu0_read adr data r a a' :
    dbg_cpu0_read jtag_cable fuel adr data a = Ok (r, a') -> api_step a a'
| Step_cpu0_read_block adr data count r a a' :
    dbg_cpu0_read_block jtag_cable fuel adr data count a = Ok (r, a') -> api_step a a'
| Step_cpu0_write adr data e a a' :
    dbg_cpu0_write jtag_cable fuel adr data a = Ok (Returned e, a') -> api_step a a'
| Step_cpu0_write_block adr data count e a a' :
    dbg_cpu0_write_block jtag_cable fuel adr data count a = Ok (Returned e, a') -> api_step a a'
| Step_cpu1_read adr data r a a' :
    dbg_cpu1_read jtag_cable fuel adr data a = Ok (r, a') -> api_step a a'
| Step_cpu1_write adr data e a a' :
    dbg_cpu1_write jtag_cable fuel adr data a = Ok (Returned e, a') -> api_step a a'
| Step_cpu0_write_ctrl adr data r a a' :
    dbg_cpu0_write_ctrl jtag_cable adr data a = Ok (r, a') -> api_step a a'
| Step_cpu0_read_ctrl adr data r a a' :
    dbg_cpu0_read_ctrl jtag_cable adr data a = Ok (r, a') -> api_step a a'
| Step_cpu1_write_ctrl adr data r a a' :
    dbg_cpu1_write_ctrl jtag_cable adr data a = Ok (r, a') -> api_step a a'
| Step_cpu1_read_ctrl adr data r a a' :
    dbg_cpu1_read_ctrl jtag_cable adr data a = Ok (r, a') -> api_step a a'
| Step_serial n data r a a' :
    dbg_serial_sndrcv jtag_cable n data a = Ok (r, a') -> api_step a a'.

Lemma module_wf c : 0 <= c < 4 -> module_or_none c.
Proof. unfold module_or_none, DBG_MAX_MODULES. lia. Qed.

(** A block of no words leaves everything as it is. *)
Lemma no_words_idle {A} (len : Z) (x r : A) (m : M (api St) A) a a' :
  api_idle a -> (m a = Ok (r, a') -> api_idle a') ->
  (if len =? 0 then mret x else m) a = Ok (r, a') -> api_idle a'.
Proof. intros Ha Hm. destruct (len =? 0); [by intros [= <- <-]|done]. Qed.

Lemma api_step_idle a a' : api_step a a' -> api_idle a -> api_idle a'.
Proof.
  assert (Hr : forall chain size len adr data a r a', 0 <= chain < 4 -> api_idle a ->
    read_access jtag_cable fuel chain size len adr data a = Ok (r, a') -> api_idle a').
  { intros. eapply read_access_idle; [by apply module_wf| |]; eassumption. }
  assert (Hw : forall chain size len adr data a e a', 0 <= chain < 4 -> api_idle a ->
    write_access jtag_cable fuel chain size len adr data a = Ok (Returned e, a') -> api_idle a').
  { intros. eapply write_access_idle; [by apply module_wf| | |by eexists]; eassumption. }
  destruct 1; intros Ha;
    try (unfold dbg_wb_read_block32, dbg_wb_read_block16, dbg_wb_read_block8,
           dbg_wb_write_block32, dbg_wb_write_block16, dbg_wb_write_block8 in *;
         eapply no_words_idle; [exact Ha| |eassumption]; intros);
    try (eapply Hr; [|exact Ha|eassumption]; done);
    try (eapply Hw; [|exact Ha|eassumption]; done).
  1, 3: eapply write_ctrl_idle; [|exact Ha|eassumption]; by apply module_wf.
  1, 2: eapply read_ctrl_idle; [|exact Ha|eassumption]; by apply module_wf.
  by eapply serial_idle.
Qed.

Lemma api_steps_idle a a' : rtc api_step a a' -> api_idle a -> api_idle a'.
Proof. induction 1; intros; [done|]. eauto using api_step_idle. Qed.
End steps.

(** * What the API does *)

Section api.
Context `{Target, Alloc} {St D : Type} `{Device D}
  (jtag_cable : jtag_cable_t St) (dev : St -> D) `{!CableLaws jtag_cable dev}.
Context (malloc_all : forall n, malloc_ok n = true).
Context (R : Reliable jtag_cable) (no_flush : flush_func jtag_cable = None).

(** ** The wrappers *)

Lemma wp_lock (Q : unit -> api St -> Prop) a :
  dbg_access_mutex a = false -> Q tt (Api true (api_bridge a)) -> wp lock Q a.
Proof. intros Ha HQ. exists tt, (Api true (api_bridge a)). unfold lock. by rewrite Ha. Qed.

Lemma wp_unlock (Q : unit -> api St -> Prop) a : Q tt (Api false (api_bridge a)) -> wp unlock Q a.
Proof. intros HQ. by exists tt, (Api false (api_bridge a)). Qed.

Lemma wp_locked {A} (m : M (bridge St) A) (Q : A -> api St -> Prop) a :
  wp m (fun x b => Q x (Api (dbg_access_mutex a) b)) (api_bridge a) -> wp (locked m) Q a.
Proof.
  intros (x & b & Hm & HQ). exists x, (Api (dbg_access_mutex a) b). unfold locked. by rewrite Hm.
Qed.

Lemma wp_flush (Q : unit -> bridge St -> Prop) b : Q tt b -> wp (flush jtag_cable) Q b.
Proof.
  intros HQ. unfold flush. wp_step. apply wp_cable. unfold cable_flush. rewrite no_flush.
  wp_step. wp_step. by destruct b.
Qed.

(** ** The module *)

(** What a caller of the API may rely on between two calls. *)
Definition api_ready (a : api St) : Prop :=
  let g := gl (api_bridge a) in
  dbg_access_mutex a = false /\ dr_ok g /\ global_xilinx_bscan (cfg g) = 0
  /\ Z.of_nat (length (current_reg_idx g)) = DBG_MAX_MODULES /\ 0 <= soft_retry_no g
  /\ (current_chain g = -1 \/ current_chain g = desired_chain g).

(** The state when the module [c] has been selected. *)
Definition select_state (c : Z) (b b' : bridge St) : Prop :=
  gl b' = set_current_chain c (set_desired_chain c (gl b))
  /\ dev (drv b') = clocks (select_pulses c (gl b)) (dev (drv b)).

Lemma wp_select_ready c a :
  is_word 2 c -> api_ready a ->
  wp (adbg_select_module jtag_cable c) (fun e b => e = 0 /\ select_state c (api_bridge a) b)
    (api_bridge a).
Proof.
  intros Hc (_ & Hok & _ & _ & _ & Hsel).
  wp_rel quiet_select_module (wp_select_module jtag_cable dev) as e b [[Hg Hs] Hq]; [done|done| |].
  - intros E. destruct Hsel as [E'|E']; [|congruence]. unfold is_word in Hc. lia.
  - rewrite (Hq R) in *. split; [done|]. split; [done|]. by apply Hs.
Qed.

Lemma select_ready c a b :
  has_registers c -> api_ready a -> select_state c (api_bridge a) b -> burst_ready c (gl b).
Proof. intros _ (_ & Hok & Hx & Hl & _) [-> _]. by repeat split; try apply Hok. Qed.

(** ** Reads and writes *)

Lemma wp_read_access c size len adr data fuel Q a :
  is_word 2 c -> api_ready a ->
  (forall b, select_state c (api_bridge a) b ->
     wp (adbg_wb_burst_read jtag_cable fuel size len adr data)
       (fun r b' => Q r (Api false b')) b) ->
  wp (read_access jtag_cable fuel c size len adr data) Q a.
Proof.
  intros Hc Ha Hr. unfold read_access. wp_step. apply wp_lock; [apply Ha|].
  wp_step. apply wp_locked. eapply wp_mono; [by apply (wp_select_ready c a)|].
  intros e b [-> Hb]. cbn [truth Z.eqb negb]. wp_step. apply wp_locked.
  eapply wp_mono; [by apply Hr|]. intros r b' HQ. wp_step. apply wp_locked, wp_flush.
  wp_step. apply wp_unlock. by wp_step.
Qed.

(** [exit] leaves the mutex as it is. *)
Definition mutex_after (r : write_result) : bool :=
  match r with Returned _ => false | Exited _ => true end.

Lemma wp_write_access c size len adr data fuel Q a :
  is_word 2 c -> api_ready a ->
  (forall b, select_state c (api_bridge a) b ->
     wp (adbg_wb_burst_write jtag_cable fuel data size len adr)
       (fun r b' => Q r (Api (mutex_after r) b')) b) ->
  wp (write_access jtag_cable fuel c size len adr data) Q a.
Proof.
  intros Hc Ha Hr. unfold write_access. wp_step. apply wp_lock; [apply Ha|].
  wp_step. apply wp_locked. eapply wp_mono; [by apply (wp_select_ready c a)|].
  intros e b [-> Hb]. cbn [truth Z.eqb negb]. wp_step. apply wp_locked.
  eapply wp_mono; [by apply Hr|]. intros [err|code] b' HQ; [|by wp_step].
  wp_step. apply wp_locked, wp_flush. wp_step. apply wp_unlock. by wp_step.
Qed.

(** The device when it has been told which words are wanted. *)
Definition requested (c addr count : Z) (a : api St) : D :=
  let g := gl (api_bridge a) in
  clocks (select_pulses c g ++ start_pulses DBG_CPU0_CMD_BREAD32 addr count g)
    (dev (drv (api_bridge a))).

Lemma wp_cpu0_read_block a count addr data fuel :
  api_ready a -> 0 < count -> 4 * count + 4 < 2 ^ 31 -> 4 * count <= Z.of_nat (length data) ->
  wp (dbg_cpu0_read_block jtag_cable (S fuel) addr data count)
    (fun r a' => cpu_result jtag_cable (requested DC_CPU0 addr count a) count data r /\ api_ready a') a.
Proof.
  intros Ha Hc Hc31 Hd. apply wp_read_access; [done|done|]. intros b Hb.
  pose proof (select_ready DC_CPU0 a b ltac:(by right; left) Ha Hb) as Hready.
  eapply wp_mono.
  { by apply (wp_cpu_read jtag_cable dev malloc_all DC_CPU0); [|left|..]. }
  intros r b' (Hres & i & o & Hg). destruct Hb as [Hgb Hdb]. split.
  - unfold requested. rewrite clocks_app, <- Hdb. unfold started in Hres. by rewrite Hgb in Hres.
  - destruct Ha as (_ & Hok & Hx & Hl & Hn & _). unfold api_ready. cbn [api_bridge]. rewrite Hg, Hgb.
    by repeat split; try apply Hok; try right.
Qed.

(** What the device has got before the bit that says whether the CRC matched,
    and by the end of the call. *)
Definition written_before (addr count : Z) (data : list Z) (a : api St) : D :=
  let g := gl (api_bridge a) in
  clocks (select_pulses DC_CPU0 g ++ write_before addr count data g) (dev (drv (api_bridge a))).
Definition written (addr count : Z) (data : list Z) (a : api St) : D :=
  let g := gl (api_bridge a) in
  clocks (select_pulses DC_CPU0 g ++ write_pulses addr count data g) (dev (drv (api_bridge a))).

Lemma wp_cpu0_write_block a count addr data fuel (long4 : long_size = 4) :
  api_ready a -> 0 < count -> 4 * count + 4 < 2 ^ 31 ->
  Z.of_nat (length data) = 4 * count -> Forall is_u8 data ->
  wp (dbg_cpu0_write_block jtag_cable (S fuel) addr data count)
    (fun r a' => r = (if tdo (written_before addr count data a) then Returned 0 else Exited 1)
      /\ (r = Returned 0 -> dbg_access_mutex a' = false
          /\ dev (drv (api_bridge a')) = written addr count data a)) a.
Proof.
  intros Ha Hc Hc31 Hd Hu. apply wp_write_access; [done|done|]. intros b Hb.
  pose proof (select_ready DC_CPU0 a b ltac:(by right; left) Ha Hb) as Hready.
  eapply wp_mono.
  { by apply (wp_cpu_write jtag_cable dev malloc_all long4 DC_CPU0); [|left|..]. }
  intros r b' [Hw Hr]. specialize (Hr R). destruct Hb as [Hgb Hdb].
  unfold crc_matched, write_result_of, write_before in *. unfold written_before, written.
  rewrite !clocks_app, <- Hdb. rewrite Hgb in Hw, Hr. split; [exact Hr|]. intros Er.
  destruct (Hw Er) as [_ Hdev]. rewrite Er. split; [done|exact Hdev].
Qed.
End api.
