(* ===== verification/BridgeProps.v ===== *)
(** The properties of the JTAG bridge, for any lawful cable and any device. *)

From stdpp Require Import relations.
From S2P Require Import Prelude StateM Tap Cable Parallel Chain Enumerate AdvDbg.
From S2P Require Import Crc AdvFacts Burst BurstRead BurstWrite DbgApi BridgeInv.

Open Scope cword_scope.

(** * The cable *)

Section cable.
Context `{Target} {D : Type} `{Device D} (base : Z).

(** The two cables of the parallel port do what the driver interface
    promises, on a processor that takes the count of a shift modulo 32: a bit
    or a stream of any length reaches the device as exactly the pulses it stands
    for, what comes back fills whole 32-bit words of the caller's buffer and
    leaves the rest of it, and no call reports an error.  The cable without a
    TRST wire needs a device that does not look at it. *)
Theorem parallel_cables_lawful `{!Mod32} :
  (CableLaws (xess_cable_driver (H0 := wired_port xess_wiring base) base) (pdev (D := D))
   /\ Reliable (xess_cable_driver (H0 := wired_port xess_wiring base) base))
  /\ (IgnoresTrst D ->
      CableLaws (xpc3_cable_driver (H0 := wired_port xpc3_wiring base) base) (pdev (D := D))
      /\ Reliable (xpc3_cable_driver (H0 := wired_port xpc3_wiring base) base)).
Proof. split; [|intros Hi]; split; apply _. Qed.
End cable.

(** * The TAP *)

Section tap.
Context `{Target, Alloc} {St Hw : Type} `{Chip Hw} `{Htrst : HasTrst}
  (jtag_cable : jtag_cable_t St) (dev : St -> tapped Hw) `{!CableLaws jtag_cable dev}.

(** Tap_reset reaches Run-Test/Idle from every state of the controller,
    with or without a TRST pin, the registers of the device just reset; the
    program forgets which module and which registers were selected. *)
Theorem tap_reset_idle b :
  wp (tap_reset jtag_cable) (fun e b' => gl b' = reset_globals (gl b)
    /\ (e = 0 -> exists h, dev (drv b') = Tapped RunTestIdle (chip_reset h))) b.
Proof. by apply wp_reset_idle. Qed.

(** Tap_set_ir scans, into the instruction registers of the chain, the
    instruction for the target and ones, BYPASS, for the devices on both sides,
    from Run-Test/Idle and back to it. *)
Theorem tap_set_ir_scans b ir h :
  config_wf (cfg (gl b)) -> chain_ready (gl b) -> dev (drv b) = Tapped RunTestIdle h ->
  wp (tap_set_ir jtag_cable ir) (fun e b' => cfg (gl b') = cfg (gl b) /\ current_chain (gl b') = -1
    /\ (e = 0 -> dev (drv b') = Tapped RunTestIdle (ir_scan (ir_bits (cfg (gl b)) ir) h))) b.
Proof.
  intros Hwf Hready Hd. eapply wp_mono; [by apply (wp_tap_set_ir jtag_cable dev)|].
  intros e b' [(chain & Hg & _) Hs]. rewrite Hg. split; [done|]. split; [done|].
  intros E. rewrite (Hs E), Hd. by apply clocks_ir_bits.
Qed.

(** Jtag_get_idcode scans the command into the instruction register, returns
    the 32 bits of the target's data register and comes back to Run-Test/Idle
    with the configuration as it was. *)
Theorem get_idcode_correct b cmd idcode h :
  config_wf (cfg (gl b)) -> chain_ready (gl b) -> idcode <> [] ->
  (global_altera_virtual_jtag (cfg (gl b)) = 0 \/ global_altera_virtual_jtag (cfg (gl b)) = 1) ->
  dev (drv b) = Tapped RunTestIdle h ->
  wp (jtag_get_idcode jtag_cable cmd idcode) (fun r b' => cfg (gl b') = cfg (gl b)
    /\ (fst r = 0 ->
        let h' := ir_scan (ir_bits (cfg (gl b)) (i32 cmd)) h in
        snd r = overwrite idcode [idcode_read (cfg (gl b)) h']
        /\ tap (dev (drv b')) = RunTestIdle)) b.
Proof.
  intros Hwf Hready Hid Hv Hd. eapply wp_mono; [by apply (wp_get_idcode jtag_cable dev b cmd idcode h)|].
  intros r b' [Hs Hr]. split; [by apply ir_set_cfg|]. intros E. destruct (Hr E) as (-> & h' & ->). done.
Qed.
End tap.

(** * The devices of the chain *)

Section enumerate.
Context `{Target, Alloc} {St : Type} (jtag_cable : jtag_cable_t St) `{HasTrst} {Hw : Type} `{Chip Hw}
  (devices : list device_id) `{!IdChain Hw devices}.
Context (dev : St -> tapped Hw) `{!CableLaws jtag_cable dev}.

(** C15: Over a lawful cable, from Run-Test/Idle, on a chain of one to 1024 devices that have just been reset
    and whose registers are then as IEEE 1149.1 has them, jtag_enumerate_chain returns:
    with an error code, or with their number and their codes in the order of the chain,
    all ones for a device that has none, and the controller in Run-Test/Idle.  Each code is
    a word of 32 bits with bit 0 set, and its manufacturer field (bits 1 to 11) is not 0x3f,
    which the code takes for the end of the chain (chain_commands.c:347); memory can be
    allocated, a long has at least four bytes, and the numbers of bits around the device are
    not negative. *)
Theorem enumerate_chain_correct b h :
  (forall n, malloc_ok n = true) -> 4 <= long_size ->
  devices <> [] -> Forall id_ok devices -> Z.of_nat (length devices) <= MAX_DEVICES ->
  0 <= global_DR_prefix_bits (cfg (gl b)) -> 0 <= global_DR_postfix_bits (cfg (gl b)) ->
  dev (drv b) = Tapped RunTestIdle (chip_reset h) ->
  wp (jtag_enumerate_chain jtag_cable) (fun r b' => gl b' = gl b
    /\ (fst r = 0 -> exists rest,
          snd r = Some (map Some (map device_code devices) ++ rest, Z.of_nat (length devices))
          /\ tap (dev (drv b')) = RunTestIdle)) b.
Proof.
  intros Hm Hlong Hne Hids Hfew Hp Hq Hd. eapply wp_mono.
  { by apply (wp_enumerate_chain Hm Hlong jtag_cable devices dev Hne Hids Hfew b (chip_reset h)), id_capture. }
  intros r b' [Hg Hr]. split; [done|]. intros E. destruct (Hr E) as (rest & h' & Hs & ->). by exists rest.
Qed.
End enumerate.

(** * The debug unit *)

(** C16: Two blocks of the same length that differ only within 32 consecutive bits
    have different CRCs: adbg_compute_crc detects every such error of a burst. *)
Theorem crc_detects_bursts `{Target} data data' before xs ys after :
  Forall is_u8 data -> Forall is_u8 data' -> length data = length data' ->
  bytes_bits data = before ++ xs ++ after -> bytes_bits data' = before ++ ys ++ after ->
  length xs = length ys -> (length xs <= 32)%nat ->
  data <> data' -> compute_crcs 0xffffffff data 8 <> compute_crcs 0xffffffff data' 8.
Proof.
  intros Hu Hu' Hl Hd Hd' Hx Hx32 Hne E. apply Hne. rewrite !compute_crcs_bits in E by lia.
  fold (bytes_bits data) (bytes_bits data') in E. rewrite Hd, Hd', !(crc_bits_app _ before) in E. injection E as E.
  assert (Hw : is_u32 (crc_bits 0xffffffff before)) by (by apply crc_bits_word; split).
  apply crc_burst in E as ->; [|done|done|lia].
  rewrite <- Hd' in Hd. by apply bytes_bits_inj.
Qed.

Section commands.
Context `{Target, Alloc} {St Hw : Type} `{Chip Hw, HasTrst}
  (jtag_cable : jtag_cable_t St) (dev : St -> tapped Hw) `{!CableLaws jtag_cable dev}.

(** The command, if it reports no error, is one scan of the data register. *)
Definition scans (m : M (bridge St) Z) (bits : list bool) (b : bridge St) (h : Hw) : Prop :=
  wp m (fun e b' => e = 0 ->
    dev (drv b') = Tapped RunTestIdle (dr_scan (bits ++ dr_pad (cfg (gl b))) h)) b.

(** C17: Selecting a module, writing a register and starting a burst are each one
    scan of the data register, with the fields where the debug unit expects
    them: the module number and a 1; or the data, the register number, the
    opcode and a 0; or the length in 16 bits, the address in 32, the opcode
    and a 0.  The bypass bits of the other devices are padded. *)
Theorem commands_are_scans c b h :
  dr_ok (gl b) -> dev (drv b) = Tapped RunTestIdle h ->
  (is_word 2 c -> current_chain (gl b) <> c ->
     scans (adbg_select_module jtag_cable c) (select_bits c) b h)
  /\ (selected c (gl b) -> has_registers c ->
       (forall regidx words len, is_word 1 regidx -> 0 < len <= 32 * Z.of_nat (length words) ->
          scans (adbg_ctrl_write jtag_cable regidx words len)
            (stream_bits words len ++ ireg_bits DBG_WB_CMD_IREG_WR regidx) b h)
       /\ (forall opcode address length_words, is_u32 address -> is_word 16 length_words ->
            scans (adbg_burst_command jtag_cable opcode address length_words)
              (burst_bits opcode address length_words) b h)).
Proof.
  intros Hok Hd.
  assert (Hne : forall w n xs, 0 < n -> word_bits w n ++ xs <> []).
  { intros w n xs Hn E. apply (f_equal length) in E. rewrite length_app in E.
    pose proof (word_bits_length w n ltac:(lia)). simpl in E. lia. }
  assert (Hscan : forall bits, bits <> [] -> clocks (dr_scan_pulses bits) (dev (drv b))
    = Tapped RunTestIdle (dr_scan bits h)) by (intros; by rewrite Hd, clocks_dr_scan).
  split; [intros Hc Hcur|intros Hsel Hregs; split; [intros regidx words len Hr Hl|intros op adr len Ha Hl]].
  - eapply wp_mono; [by apply (wp_select_other jtag_cable dev)|]. intros e b' [_ Hs] E.
    rewrite (Hs E), Hscan; [done|]. unfold select_bits. rewrite <- app_assoc. by apply Hne.
  - eapply wp_mono; [by apply (wp_ctrl_write jtag_cable dev c)|]. intros e b' (_ & _ & Hs) E.
    rewrite (Hs E), Hscan, <- app_assoc; [done|]. intros En. apply app_eq_nil in En as [En _].
    pose proof (stream_bits_length words len ltac:(lia)) as Hln. rewrite En in Hln. simpl in Hln. lia.
  - eapply wp_mono; [by apply (wp_burst_command jtag_cable dev c)|]. intros e b' [_ Hs] E.
    rewrite burst_stream in Hs by done. rewrite (Hs E), Hscan; [done|].
    unfold burst_bits. rewrite <- app_assoc. by apply Hne.
Qed.

(** The chip when the register is selected. *)
Definition reg_selected (c regidx : Z) (g : globals) (h : Hw) : Hw :=
  if reg_is c regidx g then h else dr_scan (ireg_bits DBG_WB_CMD_IREG_SEL regidx ++ dr_pad (cfg g)) h.

(** Adbg_ctrl_read selects the register, unless it was selected last, and
    returns what the data register then gives out, past the bypass bits of the
    devices before the target, in whole 32-bit words; the rest of the caller's
    block stays. *)
Theorem ctrl_read_correct c b h regidx n buf :
  selected c (gl b) -> has_registers c -> dr_ok (gl b) -> is_word 1 regidx ->
  Z.of_nat (length (current_reg_idx (gl b))) = DBG_MAX_MODULES ->
  0 < n <= 128 -> n <= 32 * Z.of_nat (length buf) -> dev (drv b) = Tapped RunTestIdle h ->
  wp (adbg_ctrl_read jtag_cable regidx buf n) (fun r b' => fst r = 0 ->
    let h' := reg_selected c regidx (gl b) h in
    let postfix := zeros (global_DR_postfix_bits (cfg (gl b))) in
    snd r = overwrite buf (stream_words (read_drs (zeros n) (shift_drs postfix (capture_dr h'))))
    /\ dev (drv b') = Tapped RunTestIdle
         (dr_scan (postfix ++ zeros n ++ zeros 5 ++ dr_pad (cfg (gl b))) h')) b.
Proof.
  intros Hsel Hregs Hok Hr Hl Hn Hb Hd. eapply wp_mono; [by apply (wp_ctrl_read jtag_cable dev c)|].
  intros r b' [(Hne & _)|(_ & _ & Hs & read & Hbuf & _ & _ & Hread)] E; [done|]. intros h' postfix.
  assert (Hsel' : clocks (select_reg_pulses c regidx (gl b)) (dev (drv b)) = Tapped RunTestIdle h').
  { unfold select_reg_pulses, h', reg_selected. destruct (reg_is _ _ _); [done|].
    rewrite Hd. apply clocks_dr_scan. unfold ireg_bits. by rewrite word_bits_1. }
  assert (Hbefore : clocks (ctrl_read_before c regidx (gl b)) (dev (drv b))
    = Tapped ShiftDR (shift_drs postfix (capture_dr h'))).
  { unfold ctrl_read_before. rewrite !clocks_app, Hsel', clocks_enter_shift_dr, <- clocks_shift_dr.
    f_equal. rewrite shift_pulses_false. symmetry. apply (fmap_replicate (fun b => Pulse false b false)). }
  rewrite Hbuf, (Hread E), (Hs E), Hbefore, samples_shift_dr. split; [done|].
  unfold ctrl_read_pulses. rewrite clocks_app, Hbefore, clocks_exit_shift_dr; [|by intros [_ En]%app_eq_nil].
  unfold dr_scan, shift_drs. by rewrite (fold_left_app _ postfix).
Qed.
End commands.

(** * Bursts and the API *)

Section bursts.
Context `{Target, Alloc} {St D : Type} `{Device D}
  (jtag_cable : jtag_cable_t St) (dev : St -> D) `{!CableLaws jtag_cable dev}.

(** C18: dbg_cpu0_read_block returns, with the mutex free, what the device
    answers: if it reports ready within 100 polls, the words it then sends, with
    no error when their CRC is right; if it does not, an error and the caller's
    block as it was. *)
Theorem cpu0_read_block_live a count addr data fuel :
  (forall n, malloc_ok n = true) -> Reliable jtag_cable -> flush_func jtag_cable = None ->
  api_ready a -> 0 < count -> 4 * count + 4 < 2 ^ 31 -> 4 * count <= Z.of_nat (length data) ->
  wp (dbg_cpu0_read_block jtag_cable (S fuel) addr data count) (fun r a' =>
    api_ready a'
    /\ (forall j words crc, (j < 100)%nat -> Z.of_nat (length words) = count ->
          Forall is_u32 words -> is_u32 crc ->
          answers (requested dev DC_CPU0 addr count a) j words crc ->
          r = (if data_crc words =? crc then 0 else APP_ERR_CRC, overwrite data (words_bytes words)))
    /\ (not_ready 100 (requested dev DC_CPU0 addr count a) -> r = (APP_ERR_MAX_RETRY, data))) a.
Proof.
  intros Hm R Hf Ha Hc Hc31 Hd.
  eapply wp_mono; [by apply (wp_cpu0_read_block jtag_cable dev Hm R Hf)|].
  intros r a' [Hr Ha']. split; [done|]. split.
  - intros j words crc Hj Hl Hw Hcrc Hans. by eapply (cpu_result_answers jtag_cable).
  - intros Hn. destruct Hr as [_ Hr].
    destruct (Hr R) as [[_ ->]|(j & words & crc & Hj & _ & _ & _ & [Hready _] & _)]; [done|].
    by destruct (ready_not_ready _ j 100 Hj Hready Hn).
Qed.

(** C19: Over any lawful cable, also one that loses connection in the middle, a
    burst read from a CPU module that returns 0 has put into the caller's block
    words that the device sent together with their CRC. *)
Theorem cpu_read_checked c b count addr data fuel :
  (forall n, malloc_ok n = true) -> burst_ready c (gl b) -> is_cpu c ->
  0 < count -> 4 * count + 4 < 2 ^ 31 -> 4 * count <= Z.of_nat (length data) ->
  wp (adbg_wb_burst_read jtag_cable (S fuel) 4 count addr data) (fun r b' => fst r = 0 ->
    exists j words, (j < 100)%nat /\ Z.of_nat (length words) = count /\ Forall is_u32 words
    /\ answers (started dev addr count b) j words (data_crc words)
    /\ snd r = overwrite data (words_bytes words)) b.
Proof.
  intros Hm Hready Hcpu Hc Hc31 Hd.
  eapply wp_mono; [by apply (wp_cpu_read jtag_cable dev Hm c)|]. by intros r b' [[Hr _] _].
Qed.

(** A burst read from the Wishbone module comes to an end after at most
    eleven transfers, whatever the device answers: with data whose CRC was right
    or with the error of a time-out, of a wrong CRC or of too many errors of the
    bus. *)
Theorem wb_burst_read_terminates b count addr data :
  (forall n, malloc_ok n = true) -> 1 <= long_size -> Reliable jtag_cable -> wb_ready b ->
  0 < count -> 4 * count + 4 < 2 ^ 31 -> 4 * count <= Z.of_nat (length data) ->
  wp (adbg_wb_burst_read jtag_cable 11 4 count addr data) (fun r b' =>
    wb_ready b' /\ wb_result count data r) b.
Proof. intros Hm Hlong R Hready Hc Hc31 Hd. by apply (wp_wb_read jtag_cable dev Hm Hlong). Qed.

(** C20: dbg_cpu0_write_block, where a long has four bytes: the device gets the
    burst command, the data and their CRC; the call returns 0 when the device
    says that the CRC matched, and otherwise ends the program. *)
Theorem cpu0_write_block_correct a count addr data fuel :
  (forall n, malloc_ok n = true) -> Reliable jtag_cable -> flush_func jtag_cable = None ->
  long_size = 4 -> api_ready a -> 0 < count -> 4 * count + 4 < 2 ^ 31 ->
  Z.of_nat (length data) = 4 * count -> Forall is_u8 data ->
  wp (dbg_cpu0_write_block jtag_cable (S fuel) addr data count) (fun r a' =>
    r = (if tdo (written_before dev addr count data a) then Returned 0 else Exited 1)
    /\ (r = Returned 0 -> dbg_access_mutex a' = false
        /\ dev (drv (api_bridge a')) = written dev addr count data a)) a.
Proof.
  intros Hm R Hf Hlong Ha Hc Hc31 Hd Hu. by apply (wp_cpu0_write_block jtag_cable dev Hm R Hf).
Qed.

(** Where a long has eight bytes, the loop that computes the CRC of a burst
    of 32-bit words reads past the end of the caller's block. *)
Theorem burst_write_64_undefined c b count addr data fuel :
  Reliable jtag_cable -> long_size = 8 -> burst_ready c (gl b) -> has_registers c ->
  0 < count -> Z.of_nat (length data) = 4 * count ->
  adbg_wb_burst_write jtag_cable (S fuel) data 4 count addr b = Undef.
Proof.
  intros R Hlong Hready Hregs Hc Hd. unfold adbg_wb_burst_write.
  destruct (Z.leb_spec count 0); [lia|]. apply undef_bind. do 1 wp_step.
  pose proof Hready as ((Hcur & Hdes) & Hok & _). rewrite Hcur.
  assert (write_opcode c 4 = Some DBG_WB_CMD_BWRITE32) as -> by (by destruct Hregs as [->|[->| ->]]).
  cbn [burst_write_loop]. apply undef_bind_undef. unfold burst_write_pass.
  apply undef_bind_undef. unfold burst_send. rewrite Z.sub_0_r.
  apply undef_bind.
  wp_rel quiet_burst_command (wp_burst_command jtag_cable dev c) as e1 b1 [_ Hq1]; [done|done|].
  rewrite (Hq1 R). cbn [truth Z.eqb negb]. unfold APP_ERR_NONE. rewrite Z.lor_0_l. cbn [truth Z.eqb negb].
  apply undef_bind. wp_use (sends_tap_set_shift_dr jtag_cable dev) as e2 b2 _.
  apply undef_bind. wp_use (sends_bit jtag_cable dev) as e3 b3 _.
  apply undef_bind_undef. unfold lift. by rewrite write_crc_64.
Qed.

(** C21: In whatever order the functions of dbg_api.c are called, and whatever the
    cable and the device do, the mutex is free after every call that returns, so
    that the next call can take it; with the mutex held a call would wait for
    ever. *)
Theorem api_mutex_free (any_cable : jtag_cable_t St) fuel a a' :
  rtc (api_step any_cable fuel) a a' ->
  dbg_access_mutex a = false -> globals_wf (gl (api_bridge a)) ->
  dbg_access_mutex a' = false
  /\ (forall adr data, dbg_cpu0_read any_cable fuel adr data (Api true (api_bridge a')) = Hang).
Proof.
  intros Hs Hm Hg. destruct (api_steps_idle _ _ _ _ Hs (conj Hm Hg)) as [Hm' _].
  split; [done|]. intros adr data. by apply call_hangs.
Qed.

(** The global variables keep their ranges: at the start, and through every
    command, whatever the cable and the device do and whether or not the command
    reports an error, the current and the desired module are -1 or one of the
    four, as long as adbg_select_module, which does not look, is called with one of
    these, and each of the four has a register number that is an int. *)
Theorem globals_typed (any_cable : jtag_cable_t St) fuel c ir cmd idx n op addr size data buf :
  module_or_none c ->
  globals_wf initial_globals
  /\ Forall (fun m => keeps (bridge_wf (St := St)) m any)
      [tap_reset any_cable; tap_set_ir any_cable ir; tap_enable_debug_module any_cable;
       adbg_select_module any_cable c; adbg_select_ctrl_reg any_cable idx;
       adbg_ctrl_write any_cable idx data n; adbg_burst_command any_cable op addr n;
       retry_do any_cable]
  /\ Forall (fun m => keeps (bridge_wf (St := St)) m any)
      [adbg_ctrl_read any_cable idx buf n; jtag_get_idcode any_cable cmd buf;
       adbg_wb_burst_read any_cable fuel size n addr buf]
  /\ keeps (bridge_wf (St := St)) (jtag_enumerate_chain any_cable) any
  /\ keeps (bridge_wf (St := St)) (adbg_wb_burst_write any_cable fuel data size n addr) any
  /\ keeps (bridge_wf (St := St)) (adbg_jsp_transact any_cable data n) any.
Proof.
  intros Hc. split; [apply initial_globals_wf|].
  repeat match goal with
    | |- _ /\ _ => split
    | |- Forall _ (_ :: _) => apply List.Forall_cons
    | |- Forall _ [] => constructor
    end; cbv beta; eauto using kept_tap_reset, kept_tap_set_ir, kept_enable, kept_select, kept_select_reg,
      kept_ctrl_write, kept_burst_command, kept_retry_do, kept_ctrl_read, kept_get_idcode,
      kept_burst_read, kept_enumerate, kept_burst_write, kept_jsp.
Qed.
End bursts.

(** * Instances of the properties

    The cable is the one with a TRST wire on the port at 0x378, driven by a 64-bit
    PC. *)

#[local] Instance pc : Target := x86_64.
#[local] Instance memory_enough : Alloc := fun _ => true.
#[local] Instance with_trst : HasTrst := true.

(** A chain of a device with a code and one without. *)
Definition demo_devices : list device_id := [Some 0x14951185; None].
#[local] Instance demo_chip : Chip (list bool) := scan_path demo_devices.
Definition demo_cable : jtag_cable_t (portdev (tapped (list bool))) :=
  xess_cable_driver (H0 := wired_port xess_wiring 0x378) 0x378.
Definition demo_config : config := Config 4 5 0 1 0 8 0 0x0E 0x0C 0.
Definition demo_bridge (t : tap_state) : bridge (portdev (tapped (list bool))) :=
  Bridge (PortDev 0 (Tapped t [])) (set_cfg demo_config initial_globals).

Lemma parallel_cables_lawful_witness :
  CableLaws demo_cable pdev /\ Reliable demo_cable.
Proof.
  exact (proj1 (parallel_cables_lawful (H := x86_64) (D := tapped (list bool)) 0x378)).
Defined.

#[local] Instance demo_laws : CableLaws demo_cable (pdev (D := tapped (list bool))).
Proof. apply (bitbang_laws _ _ (port_tck xess_wiring)). Qed.

(** From Pause-IR, say. *)
Lemma tap_reset_idle_witness :
  wp (tap_reset demo_cable) (fun e b' => gl b' = reset_globals (gl (demo_bridge PauseIR))
    /\ (e = 0 -> exists h, pdev (drv b') = Tapped RunTestIdle (chip_reset h))) (demo_bridge PauseIR).
Proof. apply (tap_reset_idle demo_cable pdev). Defined.

Definition idle_bridge : bridge (portdev (tapped (list bool))) := demo_bridge RunTestIdle.

Lemma tap_set_ir_scans_witness :
  wp (tap_set_ir demo_cable 8) (fun e b' =>
    cfg (gl b') = demo_config /\ current_chain (gl b') = -1
    /\ (e = 0 -> pdev (drv b') = Tapped RunTestIdle (ir_scan (ir_bits demo_config 8) []))) idle_bridge.
Proof. apply (tap_set_ir_scans demo_cable pdev idle_bridge 8 []); by repeat split. Defined.

Lemma get_idcode_correct_witness :
  wp (jtag_get_idcode demo_cable 2 [None]) (fun r b' => cfg (gl b') = demo_config
    /\ (fst r = 0 -> snd r = [Some (idcode_read demo_config (ir_scan (ir_bits demo_config 2) []))]
                     /\ tap (pdev (drv b')) = RunTestIdle)) idle_bridge.
Proof.
  apply (get_idcode_correct demo_cable pdev idle_bridge 2 [None] []); [by repeat split|done|done|by left|done].
Defined.

Lemma enumerate_chain_correct_witness :
  wp (jtag_enumerate_chain demo_cable) (fun r b' => gl b' = gl idle_bridge
    /\ (fst r = 0 -> exists rest, snd r = Some ([Some 0x14951185; Some 0xFFFFFFFF] ++ rest, 2)
                     /\ tap (pdev (drv b')) = RunTestIdle)) idle_bridge.
Proof.
  apply (enumerate_chain_correct demo_cable demo_devices pdev idle_bridge []); try done.
  repeat apply List.Forall_cons; [by repeat split|done|done].
Defined.

(** Run on the model of the chain, the program finds both devices. *)
Example enumerate_demo :
  match jtag_enumerate_chain demo_cable idle_bridge with
  | Ok (e, Some (codes, n), b') => (e, take 2 codes, n, tap (pdev (drv b')))
  | _ => (1, [], 0, TestLogicReset)
  end = (0, [Some 0x14951185; Some 0xFFFFFFFF], 2, RunTestIdle).
Proof. vm_compute. reflexivity. Qed.

(** Two bytes changed, and a third between them not. *)
Lemma crc_detects_bursts_witness :
  compute_crcs 0xffffffff [1; 2; 3; 4; 5] 8 <> compute_crcs 0xffffffff [1; 0xff; 3; 0x84; 5] 8.
Proof.
  apply (crc_detects_bursts [1; 2; 3; 4; 5] [1; 0xff; 3; 0x84; 5] (bytes_bits [1])
           (bytes_bits [2; 3; 4]) (bytes_bits [0xff; 3; 0x84]) (bytes_bits [5]));
    try done; try (repeat apply List.Forall_cons; by repeat split).
  vm_compute. lia.
Defined.

(** The module selected in the state of the commands. *)
Definition selected_bridge : bridge (portdev (tapped (list bool))) :=
  Bridge (drv idle_bridge) (set_current_chain 1 (set_desired_chain 1 (gl idle_bridge))).

Lemma commands_are_scans_witness :
  scans pdev (adbg_burst_command demo_cable 7 0x100 4) (burst_bits 7 0x100 4)
    selected_bridge [].
Proof.
  apply (commands_are_scans demo_cable pdev 1 selected_bridge []);
    [done|done|done|by right; left|done|done].
Defined.

Lemma ctrl_read_correct_witness :
  wp (adbg_ctrl_read demo_cable 0 [None] 2) (fun r b' => fst r = 0 ->
    let h' := reg_selected 1 0 (gl selected_bridge) [] in
    snd r = [Some (bits_value (read_drs (zeros 2) (capture_dr h')))]
    /\ pdev (drv b') = Tapped RunTestIdle (dr_scan (zeros 2 ++ zeros 5 ++ [false]) h')) selected_bridge.
Proof.
  apply (ctrl_read_correct demo_cable pdev 1 selected_bridge [] 0 2 [None]);
    try done; by right; left.
Defined.

(** A device that answers what is on a tape, one bit a pulse. *)
#[local] Instance tape_device : Device (list bool) := {|
  clock _ tape := tail tape;
  tdo tape := default false (head tape)
|}.
Definition tape_cable : jtag_cable_t (portdev (list bool)) :=
  xess_cable_driver (H0 := wired_port xess_wiring 0x378) 0x378.

#[local] Instance tape_laws : CableLaws tape_cable (pdev (D := list bool)).
Proof. apply (bitbang_laws _ _ (port_tck xess_wiring)). Qed.
Lemma tape_reliable : Reliable tape_cable.
Proof. apply (xess_reliable (H0 := wired_port xess_wiring 0x378)). Qed.

(** The CPU is asked for two words, is ready after three polls, and answers with
    their CRC. *)
Definition tape_words : list Z := [0x15000000; 0x9c21fffc].
Definition tape (g : globals) : list bool :=
  replicate (length (select_pulses DC_CPU0 g ++ start_pulses DBG_CPU0_CMD_BREAD32 0x100 2 g)) false
  ++ replicate 3 false ++ [true] ++ answer_bits tape_words (data_crc tape_words).
Definition tape_api : api (portdev (list bool)) :=
  Api false (Bridge (PortDev 0 (tape initial_globals)) initial_globals).
Definition eight : buffer := replicate 8 None.

Lemma tape_api_ready : api_ready tape_api.
Proof. by repeat split; try left. Qed.

Lemma cpu0_read_block_live_witness :
  wp (dbg_cpu0_read_block tape_cable 1 0x100 eight 2)
    (fun r a' => r = (0, map Some (words_bytes tape_words)) /\ api_ready a') tape_api.
Proof.
  eapply wp_mono.
  - apply (cpu0_read_block_live tape_cable pdev tape_api 2 0x100 eight 0);
      [done|apply tape_reliable|done|apply tape_api_ready|done|done|done].
  - intros r a' (Ha & Hr & _). split; [|done].
    rewrite (Hr 3%nat tape_words (data_crc tape_words)); [by vm_compute|lia|done| | |by split; vm_compute].
    + repeat (apply List.Forall_cons; [by split|]). done.
    + apply data_crc_u32.
Defined.

Definition tape_bridge : bridge (portdev (list bool)) :=
  Bridge (PortDev 0 (drop 8 (tape initial_globals)))
    (set_current_chain 1 (set_desired_chain 1 initial_globals)).

Lemma cpu_read_checked_witness :
  wp (adbg_wb_burst_read tape_cable 1 4 2 0x100 eight) (fun r b' => fst r = 0 ->
    exists j words, (j < 100)%nat /\ Z.of_nat (length words) = 2 /\ Forall is_u32 words
    /\ answers (started pdev 0x100 2 tape_bridge) j words (data_crc words)
    /\ snd r = overwrite eight (words_bytes words)) tape_bridge.
Proof.
  apply (cpu_read_checked tape_cable pdev 1 tape_bridge 2 0x100 eight 0);
    [done|by repeat split|by left|done|done|done].
Defined.

(** Run on the tape, it returns 0. *)
Example cpu_read_demo :
  match adbg_wb_burst_read tape_cable 1 4 2 0x100 eight tape_bridge with
  | Ok (r, _) => r | _ => (1, [])
  end = (0, map Some (words_bytes tape_words)).
Proof. vm_compute. reflexivity. Qed.

Definition wb_bridge : bridge (portdev (list bool)) :=
  Bridge (PortDev 0 []) (set_current_chain 0 (set_desired_chain 0 initial_globals)).

Lemma wb_burst_read_terminates_witness :
  wp (adbg_wb_burst_read tape_cable 11 4 2 0x100 eight) (fun r b' =>
    wb_ready b' /\ wb_result 2 eight r) wb_bridge.
Proof.
  apply (wb_burst_read_terminates tape_cable pdev wb_bridge 2 0x100 eight);
    [done|done|apply tape_reliable|by repeat split|done|done|done].
Defined.

(** The device says that the CRC matched. *)
Definition write_api (matched : bool) : api (portdev (list bool)) :=
  let data := word_bytes 0x15000000 in
  let ps := select_pulses DC_CPU0 initial_globals
    ++ write_before 0x100 1 data initial_globals in
  Api false (Bridge (PortDev 0 (replicate (length ps) false ++ [matched])) initial_globals).

Definition i386_cable : jtag_cable_t (portdev (list bool)) :=
  xess_cable_driver (H := i386) (H0 := wired_port xess_wiring 0x378) 0x378.
Lemma i386_laws : CableLaws i386_cable (pdev (D := list bool)).
Proof. apply (bitbang_laws (H := i386) _ _ (port_tck xess_wiring)). Qed.
Lemma i386_reliable : Reliable i386_cable.
Proof. apply (xess_reliable (H := i386) (H0 := wired_port xess_wiring 0x378)). Qed.

Lemma cpu0_write_block_correct_witness :
  wp (dbg_cpu0_write_block (H := i386) i386_cable 1 0x100 (word_bytes 0x15000000) 1)
    (fun r a' => r = Returned 0 /\ dbg_access_mutex a' = false) (write_api true).
Proof.
  eapply wp_mono.
  - apply (cpu0_write_block_correct (H := i386) i386_cable pdev (CableLaws0 := i386_laws)
      (write_api true) 1 0x100 (word_bytes 0x15000000) 0);
      [done|apply i386_reliable|done|done|by repeat split; try left|done|done|done|apply word_bytes_u8].
  - intros r a' [-> Ha].
    assert (E : tdo (written_before pdev 0x100 1 (word_bytes 0x15000000) (write_api true)) = true)
      by (vm_compute; reflexivity).
    rewrite E in *. split; [done|]. by apply Ha.
Defined.

Lemma burst_write_64_undefined_witness :
  adbg_wb_burst_write tape_cable 1 (word_bytes 0x15000000) 4 1 0x100 tape_bridge = Undef.
Proof.
  apply (burst_write_64_undefined tape_cable pdev 1);
    [apply tape_reliable|done|by repeat split|by right; left|done|done].
Defined.

Lemma api_mutex_free_witness : exists a',
  api_step tape_cable 1 tape_api a' /\ dbg_access_mutex a' = false.
Proof.
  destruct (dbg_cpu0_read_block tape_cable 1 0x100 eight 2 tape_api) as [[r a']| | |] eqn:E;
    [|vm_compute in E; discriminate..].
  assert (Hs : api_step tape_cable 1 tape_api a') by (exact (Step_cpu0_read_block _ _ _ _ _ _ _ _ E)).
  exists a'. split; [exact Hs|].
  apply (api_mutex_free tape_cable 1 tape_api a'); [by apply rtc_once|done|apply initial_globals_wf].
Defined.

Lemma globals_typed_witness :
  globals_wf initial_globals /\ keeps bridge_wf (adbg_select_module tape_cable 3) any.
Proof.
  assert (Hc : module_or_none 3) by (by split).
  destruct (globals_typed tape_cable 1 3 0 0 0 0 0 0 0 [] [] Hc) as (Hi & Hm & _).
  split; [exact Hi|]. rewrite List.Forall_forall in Hm. apply Hm. by do 3 right; left.
Defined.
