(* ===== verification/Scanf.v ===== *)
(** Strings of C and [sscanf], as far as rsp-server.c uses them.

    A string is the list of its bytes, without the zero that ends it; [cstr] is
    the string at the start of an array.  [sscanf] is given its format as a list
    of directives and returns what it has converted, so that the number it
    returns in C is the length of the list.  A number that the variable cannot
    hold is undefined in C.  A byte that ends a conversion is left in the input. *)

From Stdlib Require Import Ascii String.
From S2P Require Import Prelude.
From stdpp Require Import list.

Open Scope Z_scope.

Definition bytes (s : string) : list Z :=
  map (fun c => Z.of_N (N_of_ascii c)) (list_ascii_of_string s).

(** The bytes before the first zero. *)
Fixpoint cstr (data : list Z) : list Z :=
  match data with
  | [] => []
  | c :: data => if c =? 0 then [] else c :: cstr data
  end.

(** [0 == strcmp (s, t)] and [0 == strncmp (s, t, n)] *)
Definition strcmp0 (s t : list Z) : bool := bool_decide (s = t).
Definition strncmp0 (s t : list Z) (n : nat) : bool := bool_decide (take n s = take n t).

(** The text of [s] is a prefix of [t]: [0 == strncmp (s, t, strlen (s))]. *)
Definition starts_with (s : string) (t : list Z) : bool :=
  strncmp0 (bytes s) t (List.length (bytes s)).
Definition equals (s : string) (t : list Z) : bool := strcmp0 (bytes s) t.

(** The value of a digit, -1 for another character. *)
Definition hex (c : Z) : Z :=
  if (97 <=? c) && (c <=? 102) then c - 97 + 10
  else if (48 <=? c) && (c <=? 57) then c - 48
  else if (65 <=? c) && (c <=? 70) then c - 65 + 10 else -1.

Definition isspace (c : Z) : bool := (c =? 32) || ((9 <=? c) && (c <=? 13)).
Definition isdigit (c : Z) : bool := (48 <=? c) && (c <=? 57).
Definition isxdigit (c : Z) : bool := negb (hex c =? -1).

Fixpoint skip_white (s : list Z) : list Z :=
  match s with
  | c :: s' => if isspace c then skip_white s' else s
  | [] => []
  end.

(** At most [n] characters that satisfy [p], and the rest. *)
Fixpoint span (n : nat) (p : Z -> bool) (s : list Z) : list Z * list Z :=
  match n, s with
  | S n, c :: s' => if p c then let '(a, b) := span n p s' in (c :: a, b) else ([], s)
  | _, _ => ([], s)
  end.

(** The value of digits in a base. *)
Definition number (base : Z) (digits : list Z) : Z :=
  fold_left (fun v c => base * v + hex c) digits 0.

(** A sign, if there is one, out of [n] characters: whether it is minus, what is
    left of the [n], the rest. *)
Definition scan_sign (n : nat) (s : list Z) : bool * nat * list Z :=
  match n, s with
  | S n', c :: s' => if c =? 45 then (true, n', s') else if c =? 43 then (false, n', s') else (false, n, s)
  | _, _ => (false, n, s)
  end.

(** [0x] before hexadecimal digits. *)
Definition scan_0x (n : nat) (s : list Z) : nat * list Z :=
  match n, s with
  | S (S n'), c :: x :: s' =>
      if (c =? 48) && ((x =? 120) || (x =? 88)) then (n', s') else (n, s)
  | _, _ => (n, s)
  end.

(** [%<n>x] and [%<n>d], after white space: sign, value and the rest. *)
Definition scan_hex (n : nat) (s : list Z) : option (bool * Z * list Z) :=
  let '(neg, n, s) := scan_sign n (skip_white s) in
  let '(n, s) := scan_0x n s in
  let '(digits, s) := span n isxdigit s in
  if bool_decide (digits = []) then None else Some (neg, number 16 digits, s).
Definition scan_dec (n : nat) (s : list Z) : option (bool * Z * list Z) :=
  let '(neg, n, s) := scan_sign n (skip_white s) in
  let '(digits, s) := span n isdigit s in
  if bool_decide (digits = []) then None else Some (neg, number 10 digits, s).

(** A number read into an unsigned variable of [bits] bits, a negative one as
    [strtoul] does, and into an [int]. *)
Definition to_unsigned (bits : Z) (neg : bool) (v : Z) : outcome Z :=
  if v <? 2 ^ bits then Ok (if neg then wrap bits (- v) else v) else Undef.
Definition to_int (neg : bool) (v : Z) : outcome Z := signed_c 32 (if neg then - v else v).

Inductive directive :=
| Lit (c : Z)
| White
| Hexadecimal (width : option nat) (bits : Z)
| Decimal (width : option nat)
| Word (width : nat).

Inductive scanned := Num (z : Z) | Text (s : list Z).

Definition width_of (width : option nat) (s : list Z) : nat :=
  default (List.length s) width.

Fixpoint sscanf (s : list Z) (format : list directive) : outcome (list scanned) :=
  match format with
  | [] => Ok []
  | Lit c :: format =>
      match s with
      | c' :: s => if c' =? c then sscanf s format else Ok []
      | [] => Ok []
      end
  | White :: format => sscanf (skip_white s) format
  | Hexadecimal width bits :: format =>
      match scan_hex (width_of width s) s with
      | None => Ok []
      | Some (neg, v, s) =>
          v ← to_unsigned bits neg v; vs ← sscanf s format; Ok (Num v :: vs)
      end
  | Decimal width :: format =>
      match scan_dec (width_of width s) s with
      | None => Ok []
      | Some (neg, v, s) => v ← to_int neg v; vs ← sscanf s format; Ok (Num v :: vs)
      end
  | Word width :: format =>
      let '(w, s) := span width (fun c => negb (isspace c)) (skip_white s) in
      if bool_decide (w = []) then Ok []
      else vs ← sscanf s format; Ok (Text w :: vs)
  end.

(** The literal characters of a format. *)
Definition lits (s : string) : list directive := map Lit (bytes s).

(** [%x], [%<n>x] and [%<n>d] *)
Definition pct_x : directive := Hexadecimal None 32.
Definition pct_nx (n : nat) : directive := Hexadecimal (Some n) 32.
Definition pct_nd (n : nat) : directive := Decimal (Some n).

(** * Lemmas *)

Lemma strncmp0_spec s t : strncmp0 s t (List.length s) = true <-> exists r, t = s ++ r.
Proof.
  unfold strncmp0. rewrite bool_decide_eq_true, take_ge by lia. split.
  - intros Hs. exists (drop (List.length s) t). rewrite Hs at 1. by rewrite take_drop.
  - intros [r ->]. by rewrite take_app_length.
Qed.

Lemma equals_starts s t : equals s t = true -> starts_with s t = true.
Proof.
  unfold equals, strcmp0, starts_with. rewrite bool_decide_eq_true. intros <-.
  apply strncmp0_spec. exists []. by rewrite app_nil_r.
Qed.

Lemma cstr_no_zero data : Forall (fun c => c <> 0) (cstr data).
Proof.
  induction data as [|c data IH]; simpl; [done|].
  destruct (Z.eqb_spec c 0); [done|]. by constructor.
Qed.

Lemma cstr_app s data : Forall (fun c => c <> 0) s -> cstr (s ++ 0 :: data) = s.
Proof.
  induction 1 as [|c s Hc Hs IH]; simpl; [done|].
  destruct (Z.eqb_spec c 0); [done|]. by rewrite IH.
Qed.

Lemma hex_range c : -1 <= hex c <= 15.
Proof.
  unfold hex. destruct (Z.leb_spec 97 c), (Z.leb_spec c 102), (Z.leb_spec 48 c), (Z.leb_spec c 57),
    (Z.leb_spec 65 c), (Z.leb_spec c 70); simpl; lia.
Qed.

Lemma span_all n p s t :
  Forall (fun c => p c = true) s -> (length s <= n)%nat ->
  span n p (s ++ t) = (s ++ (span (n - length s) p t).1, (span (n - length s) p t).2).
Proof.
  intros Hs. revert n. induction Hs as [|c s Hc Hs IH]; intros n Hn; simpl in *.
  - rewrite Nat.sub_0_r. by destruct (span n p t).
  - destruct n as [|n]; [lia|]. cbn [span]. rewrite Hc, (IH n) by lia. done.
Qed.

(** A maximal run of characters, read whole. *)
Lemma span_stop n p s t :
  Forall (fun c => p c = true) s -> (length s <= n)%nat ->
  (forall c r, t = c :: r -> p c = false) -> span n p (s ++ t) = (s, t).
Proof.
  intros Hs Hn Ht. rewrite (span_all n p s t Hs Hn).
  enough (span (n - length s) p t = ([], t)) as -> by (simpl; by rewrite app_nil_r).
  destruct (n - length s)%nat; [done|]. destruct t as [|c r]; [done|]. simpl.
  by rewrite (Ht c r).
Qed.

(** ** Numbers in a text *)

(** [ds] are the digits of [v], in hexadecimal. *)
Definition hex_text (ds : list Z) (v : Z) : Prop :=
  ds <> [] /\ Forall (fun c => isxdigit c = true) ds /\ number 16 ds = v.

(** The text that follows cannot be taken for a part of the number. *)
Definition ends_number (s : list Z) : Prop :=
  forall c r, s = c :: r -> isxdigit c = false /\ c <> 120 /\ c <> 88.

Lemma isxdigit_plain c : isxdigit c = true ->
  isspace c = false /\ c <> 45 /\ c <> 43 /\ c <> 120 /\ c <> 88 /\ c <> 0.
Proof.
  intros Hx. assert (97 <= c <= 102 \/ 48 <= c <= 57 \/ 65 <= c <= 70) as Hr.
  { unfold isxdigit, hex in Hx.
    destruct ((97 <=? c) && (c <=? 102)) eqn:E1; [lia|].
    destruct ((48 <=? c) && (c <=? 57)) eqn:E2; [lia|].
    destruct ((65 <=? c) && (c <=? 70)) eqn:E3; [lia|done]. }
  split; [|lia]. unfold isspace. destruct (Z.eqb_spec c 32), (Z.leb_spec 9 c), (Z.leb_spec c 13); simpl; lia.
Qed.

Lemma hex_digit c : isxdigit c = true -> 0 <= hex c < 16.
Proof.
  unfold isxdigit, hex. intros Hx.
  destruct ((97 <=? c) && (c <=? 102)) eqn:E1; [lia|].
  destruct ((48 <=? c) && (c <=? 57)) eqn:E2; [lia|].
  destruct ((65 <=? c) && (c <=? 70)) eqn:E3; [lia|done].
Qed.

Lemma scan_hex_text n ds v s :
  hex_text ds v -> ends_number s -> (length ds <= n)%nat ->
  scan_hex n (ds ++ s) = Some (false, v, s).
Proof.
  intros (Hne & Hds & <-) Hs Hn. destruct ds as [|d ds]; [done|].
  pose proof Hds as Hall. apply Forall_cons in Hds as [Hd Hds].
  destruct (isxdigit_plain d Hd) as (Hsp & H45 & H43 & _).
  unfold scan_hex. cbn [app skip_white]. rewrite Hsp.
  destruct n as [|n]; [simpl in Hn; lia|]. cbn [scan_sign].
  destruct (Z.eqb_spec d 45), (Z.eqb_spec d 43); try done.
  assert (scan_0x (S n) (d :: ds ++ s) = (S n, d :: ds ++ s)) as ->.
  { destruct n as [|n]; [done|]. cbn [scan_0x].
    destruct (ds ++ s) as [|x r] eqn:E; [done|].
    assert (x <> 120 /\ x <> 88) as [? ?].
    { destruct ds as [|d' ds]; simpl in E.
      - by destruct (Hs x r E) as (_ & ? & ?).
      - injection E as -> <-. apply Forall_cons in Hds as [Hx _].
        by destruct (isxdigit_plain x Hx) as (_ & _ & _ & ? & ? & _). }
    destruct (Z.eqb_spec x 120), (Z.eqb_spec x 88); try done. by rewrite andb_false_r. }
  change (d :: ds ++ s) with ((d :: ds) ++ s).
  rewrite (span_stop (S n) isxdigit (d :: ds) s Hall Hn); [done|].
  intros c r E. by destruct (Hs c r E).
Qed.

Lemma sscanf_pct_x ds v s format :
  hex_text ds v -> ends_number s -> v < 2 ^ 32 ->
  sscanf (ds ++ s) (pct_x :: format) = vs ← sscanf s format; Ok (Num v :: vs).
Proof.
  intros Hd Hs Hv. unfold pct_x. cbn [sscanf width_of default from_option id].
  rewrite (scan_hex_text _ ds v s) by (try done; rewrite length_app; lia).
  unfold to_unsigned. destruct (Z.ltb_spec v (2 ^ 32)); [|lia]. done.
Qed.

Lemma sscanf_lit c s format : sscanf (c :: s) (Lit c :: format) = sscanf s format.
Proof. cbn [sscanf]. by rewrite Z.eqb_refl. Qed.

(** A decimal digit read by [%1d]. *)
Lemma sscanf_digit d s format :
  0 <= d < 10 -> sscanf (48 + d :: s) (pct_nd 1 :: format) = vs ← sscanf s format; Ok (Num d :: vs).
Proof.
  intros Hd. unfold pct_nd. cbn [sscanf width_of default from_option id].
  assert (scan_dec 1 (48 + d :: s) = Some (false, d, s)) as ->.
  { revert d Hd. enough (forall d, 0 <= d < 10 -> isspace (48 + d) = false /\ (48 + d =? 45) = false
      /\ (48 + d =? 43) = false /\ isdigit (48 + d) = true /\ number 10 [48 + d] = d) as Hall.
    { intros d Hd. destruct (Hall d Hd) as (E1 & E2 & E3 & E4 & E5).
      unfold scan_dec. cbn [skip_white]. rewrite E1. cbn [scan_sign]. rewrite E2, E3.
      cbn [span]. rewrite E4. cbn [bool_decide decide_rel]. by rewrite E5. }
    apply (Z_range_check 10 (fun d => isspace (48 + d) = false /\ (48 + d =? 45) = false
      /\ (48 + d =? 43) = false /\ isdigit (48 + d) = true /\ number 10 [48 + d] = d)). by vm_compute. }
  unfold to_int, signed_c. rewrite (proj2 (in_sword_spec 32 d)) by (unfold is_sword; simpl; lia). done.
Qed.

(** A word of as many characters as fit. *)
Lemma sscanf_word n w s format :
  Forall (fun c => isspace c = false) w -> length w = S n ->
  sscanf (w ++ s) (Word (S n) :: format) = vs ← sscanf s format; Ok (Text w :: vs).
Proof.
  intros Hw Hl. cbn [sscanf].
  assert (skip_white (w ++ s) = w ++ s) as ->.
  { destruct w as [|c w]; [done|]. apply Forall_cons in Hw as [Hc _]. simpl. by rewrite Hc. }
  rewrite (span_all (S n) _ w s); [|by eapply Forall_impl; [exact Hw|]; intros c ->|lia].
  rewrite Hl, Nat.sub_diag. cbn [span fst snd]. rewrite app_nil_r.
  rewrite bool_decide_false by by destruct w. done.
Qed.
