(* ===== verification/RspData.v ===== *)
(** The data of rsp-server.c: registers, signals, hexadecimal text, escapes, the
    frame of a packet and the table of matchpoints.

    [unsigned long] has the size of the target ([Target] of Cable.v).  A [char] of
    a packet is a byte; the code compares it with ASCII characters only, so that
    its sign does not matter. *)

From Stdlib Require Import String.
From S2P Require Import Prelude Scanf StateM Cable Chain.
From stdpp Require Import gmap list.

Open Scope Z_scope.
Open Scope cword_scope.

(** * spr-defs.h and except.h *)

Definition MAX_GRPS : Z := 32.
Definition MAX_GPRS : Z := 32.
Definition MAX_SPRS : Z := 0x10000.
Definition MAX_SPRS_PER_GRP_BITS : Z := 11.
Definition SPRGROUP_SYS : Z := Z.shiftl 0 MAX_SPRS_PER_GRP_BITS.
Definition SPRGROUP_D : Z := Z.shiftl 6 MAX_SPRS_PER_GRP_BITS.
Definition SPR_NPC : Z := SPRGROUP_SYS + 16.
Definition SPR_SR : Z := SPRGROUP_SYS + 17.
Definition SPR_PPC : Z := SPRGROUP_SYS + 18.
Definition SPR_GPR_BASE : Z := SPRGROUP_SYS + 1024.
Definition SPR_DVR (n : Z) : Z := SPRGROUP_D + n.
Definition SPR_DCR (n : Z) : Z := SPRGROUP_D + 8 + n.
Definition SPR_DMR1 : Z := SPRGROUP_D + 16.
Definition SPR_DMR2 : Z := SPRGROUP_D + 17.
Definition SPR_DSR : Z := SPRGROUP_D + 20.
Definition SPR_DRR : Z := SPRGROUP_D + 21.

Definition SPR_SR_SM : Z := 0x00000001.
Definition SPR_DMR1_ST : Z := 0x00400000.
Definition SPR_DMR1_BT : Z := 0x00800000.
Definition SPR_DMR2_WBS : Z := 0xffc00000.

Definition SPR_DSR_BUSEE : Z := 0x00000002.
Definition SPR_DSR_AE : Z := 0x00000020.
Definition SPR_DSR_IIE : Z := 0x00000040.
Definition SPR_DSR_RE : Z := 0x00000400.
Definition SPR_DSR_FPE : Z := 0x00001000.
Definition SPR_DSR_TE : Z := 0x00002000.

Definition SPR_DRR_RSTE : Z := 0x00000001.
Definition SPR_DRR_BUSEE : Z := 0x00000002.
Definition SPR_DRR_DPFE : Z := 0x00000004.
Definition SPR_DRR_IPFE : Z := 0x00000008.
Definition SPR_DRR_TTE : Z := 0x00000010.
Definition SPR_DRR_AE : Z := 0x00000020.
Definition SPR_DRR_IIE : Z := 0x00000040.
Definition SPR_DRR_IE : Z := 0x00000080.
Definition SPR_DRR_DME : Z := 0x00000100.
Definition SPR_DRR_IME : Z := 0x00000200.
Definition SPR_DRR_RE : Z := 0x00000400.
Definition SPR_DRR_SCE : Z := 0x00000800.
Definition SPR_DRR_FPE : Z := 0x00001000.
Definition SPR_DRR_TE : Z := 0x00002000.

Definition EXCEPT_NONE : Z := 0x0000.
Definition EXCEPT_RESET : Z := 0x0100.

(** * rsp-server.c: constants *)

Definition PPC_REGNUM : Z := MAX_GPRS + 0.
Definition NPC_REGNUM : Z := MAX_GPRS + 1.
Definition SR_REGNUM : Z := MAX_GPRS + 2.
Definition NUM_REGS : Z := MAX_GRPS + 3.
Definition OR1K_TRAP_INSTR : Z := 0x21000001.

Definition TARGET_SIGNAL_NONE : Z := 0.
Definition TARGET_SIGNAL_INT : Z := 2.
Definition TARGET_SIGNAL_ILL : Z := 4.
Definition TARGET_SIGNAL_TRAP : Z := 5.
Definition TARGET_SIGNAL_FPE : Z := 8.
Definition TARGET_SIGNAL_BUS : Z := 10.
Definition TARGET_SIGNAL_SEGV : Z := 11.
Definition TARGET_SIGNAL_ALRM : Z := 14.
Definition TARGET_SIGNAL_USR2 : Z := 31.
Definition TARGET_SIGNAL_PWR : Z := 32.

Definition GDB_BUF_MAX : Z := 16 * 1024.
Definition MP_HASH_SIZE : Z := 1021.

Definition BP_MEMORY : Z := 0.
Definition BP_HARDWARE : Z := 1.
Definition WP_WRITE : Z := 2.
Definition WP_READ : Z := 3.
Definition WP_ACCESS : Z := 4.

(** The signal for what the debug reason register says, [None] for a warning. *)
Definition signal_of (except : Z) : option Z :=
  switch except
    [(SPR_DRR_RSTE, Some TARGET_SIGNAL_PWR); (SPR_DRR_BUSEE, Some TARGET_SIGNAL_BUS);
     (SPR_DRR_DPFE, Some TARGET_SIGNAL_SEGV); (SPR_DRR_IPFE, Some TARGET_SIGNAL_SEGV);
     (SPR_DRR_TTE, Some TARGET_SIGNAL_ALRM); (SPR_DRR_AE, Some TARGET_SIGNAL_BUS);
     (SPR_DRR_IIE, Some TARGET_SIGNAL_ILL); (SPR_DRR_IE, Some TARGET_SIGNAL_INT);
     (SPR_DRR_DME, Some TARGET_SIGNAL_SEGV); (SPR_DRR_IME, Some TARGET_SIGNAL_SEGV);
     (SPR_DRR_RE, Some TARGET_SIGNAL_FPE); (SPR_DRR_SCE, Some TARGET_SIGNAL_USR2);
     (SPR_DRR_FPE, Some TARGET_SIGNAL_FPE); (SPR_DRR_TE, Some TARGET_SIGNAL_TRAP);
     (0, Some TARGET_SIGNAL_TRAP)] None.

(** * Hexadecimal text *)

Definition hexchars : list Z := bytes "0123456789abcdef".

(** [hexchars[i]], for the four-bit numbers it is used with. *)
Definition hexchar (i : Z) : Z := default 0 (hexchars !! Z.to_nat i).

(** The eight digits [reg2hex] writes, before the zero it ends them with. *)
Definition reg2hex (val : Z) : list Z :=
  map (fun n => hexchar (Z.shiftr val (28 - n * 4) .& 0xf)) (seqZ 0 8).

(** The array [buf] has eight characters.  A character that is no digit counts as
    -1, and an [int] is extended with its sign to the [unsigned long].  The shift of
    -1, and of a digit from 8 on into the sign bit, is as compilers define it: it keeps
    the low 32 bits. *)
Definition hex2reg `{Target} (buf : list Z) : Z :=
  for_upto 8 (fun n val =>
    val .| wrap (8 * long_size) (i32 (Z.shiftl (hex (default 0 (buf !! Z.to_nat n))) (28 - n * 4)))) 0.

Definition ascii2hex (src : list Z) : list Z :=
  concat (map (fun ch => [hexchar (Z.shiftr ch 4 .& 0xf); hexchar (ch .& 0xf)]) src).

Fixpoint hex2ascii (src : list Z) : list Z :=
  match src with
  | a :: b :: src => Z.shiftl (hex a .& 0xf) 4 .| (hex b .& 0xf) :: hex2ascii src
  | _ => []
  end.

(** * Escapes *)

(** The characters [put_packet] escapes, and what it sends for a character. *)
Definition escaped (ch : Z) : bool :=
  (36 =? ch) || (35 =? ch) || (42 =? ch) || (125 =? ch).
Definition escape_char (ch : Z) : list Z :=
  if escaped ch then [125; ch .^ 0x20] else [ch].
Definition escape (data : list Z) : list Z := concat (map escape_char data).

(** The loop of [rsp_unescape], which moves the characters within the array. *)
Fixpoint unescape_loop (fuel : nat) (data : list Z) (len from_off to_off : Z)
    : outcome (list Z * Z) :=
  match fuel with
  | O => Ok (data, to_off)
  | S fuel =>
      if from_off <? len then
        c ← load_word data from_off;
        if c =? 125 then
          c ← load_word data (from_off + 1);
          unescape_loop fuel (<[Z.to_nat to_off := c .^ 0x20]> data) len (from_off + 2) (to_off + 1)
        else
          unescape_loop fuel (<[Z.to_nat to_off := c]> data) len (from_off + 1) (to_off + 1)
      else Ok (data, to_off)
  end.

(** The offset grows in every pass, so [len] passes are enough. *)
Definition rsp_unescape (data : list Z) (len : Z) : outcome (list Z * Z) :=
  unescape_loop (Z.to_nat len) data len 0 0.

(** * The frame of a packet *)

Definition checksum (chars : list Z) : Z := u8 (fold_left Z.add chars 0).

Definition frame (data : list Z) : list Z :=
  [36] ++ escape data ++ [35; hexchar (Z.shiftr (checksum (escape data)) 4);
                          hexchar (checksum (escape data) mod 16)].

(** * The table of matchpoints *)

Record mp_entry := MpEntry { mp_type : Z; mp_addr : Z; mp_instr : Z }.

Abbreviation mp_table := (list (list mp_entry)).

Definition mp_hash_init : mp_table := replicate (Z.to_nat MP_HASH_SIZE) [].

Definition mp_match (type addr : Z) (e : mp_entry) : bool :=
  (type =? mp_type e) && (addr =? mp_addr e).

Definition mp_chain (hash : mp_table) (addr : Z) : list mp_entry :=
  default [] (hash !! Z.to_nat (addr mod MP_HASH_SIZE)).

Fixpoint chain_find (type addr : Z) (chain : list mp_entry) : option mp_entry :=
  match chain with
  | [] => None
  | e :: chain => if mp_match type addr e then Some e else chain_find type addr chain
  end.
Fixpoint chain_delete (type addr : Z) (chain : list mp_entry) : list mp_entry :=
  match chain with
  | [] => []
  | e :: chain => if mp_match type addr e then chain else e :: chain_delete type addr chain
  end.

Definition mp_hash_lookup (hash : mp_table) (type addr : Z) : option mp_entry :=
  chain_find type addr (mp_chain hash addr).

(** [malloc]'s result is used without a test. *)
Definition mp_hash_add `{Target, Alloc} (hash : mp_table) (type addr instr : Z)
    : outcome mp_table :=
  if bool_decide (is_Some (mp_hash_lookup hash type addr)) then Ok hash
  else if malloc_ok (4 * long_size) then
    Ok (<[Z.to_nat (addr mod MP_HASH_SIZE) := MpEntry type addr instr :: mp_chain hash addr]> hash)
  else Undef.

Definition mp_hash_delete (hash : mp_table) (type addr : Z) : option mp_entry * mp_table :=
  match mp_hash_lookup hash type addr with
  | None => (None, hash)
  | Some e =>
      (Some e,
       <[Z.to_nat (addr mod MP_HASH_SIZE) := chain_delete type addr (mp_chain hash addr)]> hash)
  end.

(** The map a table stands for. *)
Definition mp_map (hash : mp_table) (key : Z * Z) : option Z :=
  mp_instr <$> mp_hash_lookup hash key.1 key.2.
