(* ===== verification/RspCodec.v ===== *)
(** What the conversions of RspData.v are worth: hexadecimal text and escapes can
    be read back, and the table of matchpoints is a finite map. *)

From S2P Require Import Prelude Scanf StateM Cable Chain RspData.
From stdpp Require Import gmap list.

Open Scope Z_scope.
Open Scope cword_scope.

(** * Digits *)

Lemma hex_hexchar i : 0 <= i < 16 -> hex (hexchar i) = i.
Proof. apply (Z_range_check 16 (fun i => hex (hexchar i) = i)). by vm_compute. Qed.

(** A digit is a character of its own: no zero, blank, sign, escape or mark. *)
Definition plain_digit (c : Z) : bool :=
  (48 <=? c) && (c <=? 102) && isxdigit c && negb (isspace c) && negb (escaped c).

Lemma hexchar_plain i : 0 <= i < 16 -> plain_digit (hexchar i) = true.
Proof. apply (Z_range_check 16 (fun i => plain_digit (hexchar i) = true)). by vm_compute. Qed.

Lemma plain_digit_spec c : plain_digit c = true ->
  48 <= c <= 102 /\ isxdigit c = true /\ isspace c = false /\ escaped c = false.
Proof.
  unfold plain_digit. rewrite !andb_true_iff, !negb_true_iff, !Z.leb_le. tauto.
Qed.

Lemma nibble_range x : 0 <= x .& 0xf < 16.
Proof.
  change 0xf with (2 ^ 4 - 1). rewrite land_mask by lia. by apply (wrap_range 4).
Qed.
#[export] Hint Resolve nibble_range : word.

Definition digits (s : list Z) : Prop := Forall (fun c => plain_digit c = true) s.

Lemma digits_reg2hex v : digits (reg2hex v).
Proof. unfold digits, reg2hex. rewrite Forall_map. apply Forall_true. intros n. apply hexchar_plain, nibble_range. Qed.

Lemma digits_ascii2hex s : digits (ascii2hex s).
Proof.
  induction s as [|c s IH]; [by constructor|].
  by repeat constructor; [apply hexchar_plain, nibble_range..|].
Qed.

Lemma length_reg2hex v : length (reg2hex v) = 8%nat.
Proof. done. Qed.

Lemma length_ascii2hex s : length (ascii2hex s) = (2 * length s)%nat.
Proof. unfold ascii2hex. induction s as [|c s IH]; simpl; [done|]. rewrite IH. lia. Qed.

(** * Registers *)

Section target.
Context `{Target} (long : 4 <= long_size).

(** An [int] that becomes an [unsigned long] keeps its low bits. *)
Lemma long_of_int z : u32 (wrap (8 * long_size) (i32 z)) = u32 z.
Proof.
  rewrite <- (wrap_swrap 32 z). zbits.
  destruct (Z.ltb_spec i 32); [|done]. simpl. by destruct (Z.ltb_spec i (8 * long_size)); [|lia].
Qed.

Lemma wrap_lor w a b : 0 <= w -> wrap w (a .| b) = wrap w a .| wrap w b.
Proof. intros. zbits. by destruct (i <? w). Qed.

(** A nibble in its place. *)
Lemma nibble_bit v s i : 0 <= s -> 0 <= i ->
  Z.testbit (Z.shiftl (Z.shiftr v s .& 0xf) s) i = (s <=? i) && (i <? s + 4) && Z.testbit v i.
Proof.
  intros Hs Hi. rewrite Z.shiftl_spec by lia. destruct (Z.leb_spec s i); simpl.
  - rewrite Z.land_spec, Z.shiftr_spec by lia. change 0xf with (2 ^ 4 - 1).
    rewrite testbit_mask, Z.sub_add, andb_comm by lia. f_equal.
    destruct (Z.ltb_spec (i - s) 4), (Z.ltb_spec i (s + 4)); lia.
  - apply Z.testbit_neg_r. lia.
Qed.

Lemma reg2hex_digit v rest k : 0 <= k < 8 ->
  hex (default 0 ((reg2hex v ++ rest) !! Z.to_nat k)) = Z.shiftr v (28 - k * 4) .& 0xf.
Proof.
  intros Hk. rewrite lookup_app_l by (rewrite length_reg2hex; lia).
  unfold reg2hex. change (map ?f ?l) with (f <$> l). rewrite list_lookup_fmap.
  rewrite lookup_seqZ_lt by lia. cbn [fmap option_fmap option_map default from_option id].
  rewrite hex_hexchar by apply nibble_range. by rewrite Z2Nat.id by lia.
Qed.

Lemma hex2reg_reg2hex v rest : u32 (hex2reg (reg2hex v ++ rest)) = u32 v.
Proof.
  unfold hex2reg, for_upto. change (Z.to_nat 8) with 8%nat. cbn [for_from].
  rewrite !reg2hex_digit by lia. rewrite !wrap_lor, !long_of_int by lia.
  apply Z.bits_inj'. intros i Hi. rewrite !Z.lor_spec, !testbit_wrap by lia.
  destruct (Z.ltb_spec i 32); cbn [andb]; [|done].
  rewrite !nibble_bit, Z.bits_0 by lia.
  repeat match goal with
    | |- context [?a <=? i] => destruct (Z.leb_spec a i); [|cbn [andb orb]; try lia]
    | |- context [i <? ?a] => destruct (Z.ltb_spec i a); cbn [andb orb]; try lia
    end; try done; by rewrite ?orb_false_r.
Qed.
End target.

(** * Text *)

(** The two nibbles of a byte. *)
Lemma byte_nibbles c : is_u8 c -> (Z.shiftl (Z.shiftr c 4 .& 0xf) 4) .| (c .& 0xf) = c.
Proof.
  intros Hc. change 0xf with (2 ^ 4 - 1). rewrite <- (wrap_small 8 c Hc) at 3. zbits.
  destruct (Z.ltb_spec i 4).
  - rewrite Z.testbit_neg_r by lia. destruct (Z.ltb_spec i 8); [|lia]. by rewrite andb_true_r.
  - autorewrite with zbits. rewrite Z.sub_add, andb_false_r, orb_false_r, andb_comm. f_equal.
    destruct (Z.ltb_spec (i - 4) 4), (Z.ltb_spec i 8); lia.
Qed.

Lemma nibble_small i : 0 <= i < 16 -> i .& 0xf = i.
Proof. intros Hi. change 0xf with (2 ^ 4 - 1). rewrite land_mask by lia. by apply (wrap_small 4). Qed.

Lemma hex2ascii_ascii2hex s : Forall is_u8 s -> hex2ascii (ascii2hex s) = s.
Proof.
  induction 1 as [|c s Hc Hs IH]; [done|].
  cbn [ascii2hex map concat app hex2ascii]. fold (ascii2hex s). rewrite IH.
  rewrite !hex_hexchar by apply nibble_range.
  rewrite !(nibble_small (_ .& _)) by apply nibble_range. by rewrite byte_nibbles.
Qed.

(** * Escapes *)

(** What [rsp_unescape] makes of a text, without the array. *)
Fixpoint unescape (s : list Z) : list Z :=
  match s with
  | [] => []
  | c :: s =>
      if c =? 125 then match s with c' :: s => c' .^ 0x20 :: unescape s | [] => [0x20] end
      else c :: unescape s
  end.

Lemma unescape_char c s : unescape (escape_char c ++ s) = c :: unescape s.
Proof.
  unfold escape_char. destruct (escaped c) eqn:E; simpl.
  - by rewrite Z.lxor_assoc, Z.lxor_nilpotent, Z.lxor_0_r.
  - destruct (Z.eqb_spec c 125); [|done]. subst. done.
Qed.

Lemma unescape_escape data : unescape (escape data) = data.
Proof.
  induction data as [|c data IH]; [done|].
  change (escape (c :: data)) with (escape_char c ++ escape data). by rewrite unescape_char, IH.
Qed.

Lemma load_word_at pre c post :
  load_word (pre ++ c :: post) (Z.of_nat (length pre)) = Ok c.
Proof.
  unfold load_word. destruct (Z.leb_spec 0 (Z.of_nat (length pre))); [|lia].
  by rewrite Nat2Z.id, list_lookup_middle.
Qed.

Lemma load_word_next pre d c post :
  load_word (pre ++ d :: c :: post) (Z.of_nat (length pre) + 1) = Ok c.
Proof.
  replace (Z.of_nat (length pre) + 1) with (Z.of_nat (length (pre ++ [d])))
    by (rewrite length_app; simpl; lia).
  change (d :: c :: post) with ([d] ++ c :: post). by rewrite (assoc_L _ pre), load_word_at.
Qed.

(** The loop writes behind where it reads: [written] is what it has written, [gap]
    what has been read and not overwritten. *)
Lemma unescape_loop_spec fuel written gap data rest len :
  (length data <= fuel)%nat -> len = Z.of_nat (length (written ++ gap ++ escape data)) ->
  exists tail,
    unescape_loop fuel (written ++ gap ++ escape data ++ rest) len
      (Z.of_nat (length (written ++ gap))) (Z.of_nat (length written))
    = Ok ((written ++ data) ++ tail, Z.of_nat (length (written ++ data))).
Proof.
  revert written gap data. induction fuel as [|fuel IH]; intros written gap data Hf Hlen.
  { destruct data; [|simpl in Hf; lia]. rewrite !app_nil_r. by eexists. }
  cbn [unescape_loop]. destruct data as [|c data].
  { cbn [escape map concat] in Hlen. rewrite !app_nil_r in Hlen. rewrite <- Hlen, Z.ltb_irrefl.
    rewrite app_nil_r. by eexists. }
  change (escape (c :: data)) with (escape_char c ++ escape data) in *.
  assert (exists x gap', gap ++ escape_char c = x :: gap'
    /\ (length (gap ++ escape_char c) = S (length gap'))%nat) as (x & gap' & Hx & Hl).
  { destruct (gap ++ escape_char c) as [|x gap'] eqn:E; [|by exists x, gap'].
    apply app_nil in E as [_ E]. unfold escape_char in E. by destruct (escaped c). }
  destruct (IH (written ++ [c]) gap' data) as [tail IH']; [simpl in Hf; lia| |].
  { rewrite Hlen. rewrite (assoc_L _ gap), Hx, !length_app. simpl. lia. }
  exists tail. rewrite <- (app_assoc written [c] data) in IH'. cbn [app] in IH'. rewrite <- IH'.
  clear IH'.
  assert (Hstore : forall v, (<[Z.to_nat (Z.of_nat (length written)) := v]>
    (written ++ gap ++ escape_char c ++ escape data ++ rest))
    = written ++ v :: gap' ++ escape data ++ rest).
  { intros v. rewrite Nat2Z.id, (assoc_L _ gap), Hx, insert_app_r_alt, Nat.sub_diag by lia. done. }
  assert ((Z.of_nat (length (written ++ gap)) <? len) = true) as ->.
  { apply Z.ltb_lt. rewrite Hlen, !length_app. unfold escape_char. destruct (escaped c); simpl; lia. }
  rewrite length_app in Hl. unfold escape_char in *. destruct (escaped c) eqn:Ec; cbn [app] in *.
  - rewrite (assoc_L _ written gap), load_word_at. cbn [mbind outcome_bind Z.eqb Pos.eqb].
    rewrite load_word_next. cbn [mbind outcome_bind].
    rewrite Z.lxor_assoc, Z.lxor_nilpotent, Z.lxor_0_r, <- !app_assoc. cbn [app]. rewrite Hstore.
    f_equal; rewrite <- ?app_assoc, ?length_app; simpl in *; lia.
  - rewrite (assoc_L _ written gap), load_word_at. cbn [mbind outcome_bind].
    destruct (Z.eqb_spec c 125) as [->|]; [done|]. rewrite <- !app_assoc. cbn [app]. rewrite Hstore.
    f_equal; rewrite <- ?app_assoc, ?length_app; simpl in *; lia.
Qed.

Lemma length_escape data : (length data <= length (escape data))%nat.
Proof.
  induction data as [|c data IH]; [done|]. change (escape (c :: data)) with (escape_char c ++ escape data).
  rewrite length_app. unfold escape_char. destruct (escaped c); simpl; lia.
Qed.

Lemma unescape_loop_length fuel data len from to data' n :
  unescape_loop fuel data len from to = Ok (data', n) -> length data' = length data.
Proof.
  revert data from to. induction fuel as [|fuel IH]; intros data from to; cbn [unescape_loop].
  { by intros [= <- _]. }
  destruct (from <? len); [|by intros [= <- _]].
  destruct (load_word data from) as [c| | |]; try done. cbn [mbind outcome_bind].
  destruct (c =? 125).
  - destruct (load_word data (from + 1)) as [c'| | |]; try done. cbn [mbind outcome_bind].
    intros Hu. rewrite (IH _ _ _ Hu). apply length_insert.
  - intros Hu. rewrite (IH _ _ _ Hu). apply length_insert.
Qed.

Lemma rsp_unescape_length data len data' n :
  rsp_unescape data len = Ok (data', n) -> length data' = length data.
Proof. apply unescape_loop_length. Qed.

Lemma rsp_unescape_escape data rest :
  exists tail, rsp_unescape (escape data ++ rest) (Z.of_nat (length (escape data)))
    = Ok (data ++ tail, Z.of_nat (length data)).
Proof.
  apply (unescape_loop_spec _ [] [] data rest); [|done].
  rewrite Nat2Z.id. apply length_escape.
Qed.

(** * The table of matchpoints *)

Definition mp_key (e : mp_entry) : Z * Z := (mp_type e, mp_addr e).

(** No matchpoint is twice in a chain. *)
Definition mp_wf (hash : mp_table) : Prop :=
  length hash = Z.to_nat MP_HASH_SIZE /\ Forall (fun chain => NoDup (map mp_key chain)) hash.

Lemma mp_match_spec type addr e : mp_match type addr e = true <-> mp_key e = (type, addr).
Proof.
  unfold mp_match, mp_key. rewrite andb_true_iff, !Z.eqb_eq. split; [by intros [-> ->]|].
  by intros [= -> ->].
Qed.

Lemma mp_match_false type addr e : mp_match type addr e = false <-> mp_key e <> (type, addr).
Proof. rewrite <- mp_match_spec. by destruct (mp_match type addr e). Qed.

Lemma chain_find_key type addr chain e :
  chain_find type addr chain = Some e -> mp_key e = (type, addr) /\ e ∈ chain.
Proof.
  induction chain as [|e' chain IH]; simpl; [done|].
  destruct (mp_match type addr e') eqn:E.
  - intros [= ->]. apply mp_match_spec in E. split; [done|left].
  - intros [? ?]%IH. split; [done|by right].
Qed.

Lemma chain_find_None type addr chain :
  (type, addr) ∉ map mp_key chain -> chain_find type addr chain = None.
Proof.
  intros Hn. destruct (chain_find type addr chain) as [e|] eqn:E; [|done].
  apply chain_find_key in E as [Hk He]. destruct Hn. rewrite <- Hk.
  change (map ?f ?l) with (f <$> l). by apply list_elem_of_fmap_2.
Qed.

Lemma chain_find_absent type addr chain :
  chain_find type addr chain = None -> (type, addr) ∉ map mp_key chain.
Proof.
  induction chain as [|e chain IH]; simpl; [by intros _ ?%elem_of_nil|].
  destruct (mp_match type addr e) eqn:E; [done|]. apply mp_match_false in E.
  intros Hn. rewrite elem_of_cons. intros [Hk|Hk]; [congruence|by apply IH].
Qed.

Lemma chain_delete_sub type addr chain : map mp_key (chain_delete type addr chain) `sublist_of` map mp_key chain.
Proof.
  induction chain as [|e chain IH]; simpl; [done|]. destruct (mp_match type addr e).
  - by apply sublist_cons.
  - by apply sublist_skip.
Qed.

Lemma chain_find_delete t a type addr chain :
  NoDup (map mp_key chain) ->
  chain_find t a (chain_delete type addr chain)
  = if bool_decide ((t, a) = (type, addr)) then None else chain_find t a chain.
Proof.
  induction chain as [|e chain IH]; simpl; intros Hd.
  { by destruct (bool_decide _). }
  apply NoDup_cons in Hd as [Hn Hd]. destruct (mp_match type addr e) eqn:E.
  - apply mp_match_spec in E. case_bool_decide as Ek.
    + injection Ek as -> ->. apply chain_find_None. by rewrite <- E.
    + destruct (mp_match t a e) eqn:E'; [|done]. apply mp_match_spec in E'. congruence.
  - simpl. rewrite (IH Hd). apply mp_match_false in E. case_bool_decide as Ek; [|done].
    destruct (mp_match t a e) eqn:E'; [|done]. apply mp_match_spec in E'. congruence.
Qed.

Lemma mp_slot addr : (Z.to_nat (addr mod MP_HASH_SIZE) < Z.to_nat MP_HASH_SIZE)%nat.
Proof. pose proof (Z.mod_pos_bound addr MP_HASH_SIZE ltac:(done)). unfold MP_HASH_SIZE in *. lia. Qed.

Lemma mp_chain_insert hash addr a chain :
  mp_wf hash ->
  mp_chain (<[Z.to_nat (addr mod MP_HASH_SIZE) := chain]> hash) a
  = if bool_decide (addr mod MP_HASH_SIZE = a mod MP_HASH_SIZE) then chain else mp_chain hash a.
Proof.
  intros [Hl _]. unfold mp_chain. case_bool_decide as E.
  - rewrite <- E, list_lookup_insert_eq; [done|]. rewrite Hl. apply mp_slot.
  - rewrite list_lookup_insert_ne; [done|].
    pose proof (Z.mod_pos_bound addr MP_HASH_SIZE ltac:(done)).
    pose proof (Z.mod_pos_bound a MP_HASH_SIZE ltac:(done)). lia.
Qed.

Lemma mp_chain_nodup hash a : mp_wf hash -> NoDup (map mp_key (mp_chain hash a)).
Proof.
  intros [_ Hf]. unfold mp_chain. destruct (hash !! _) as [chain|] eqn:E; simpl; [|constructor].
  by apply (Forall_lookup_1 _ _ _ _ Hf E).
Qed.

Lemma mp_wf_insert hash i chain :
  mp_wf hash -> NoDup (map mp_key chain) -> mp_wf (<[i := chain]> hash).
Proof.
  intros [Hl Hf] Hc. split; [by rewrite length_insert|]. by apply Forall_insert.
Qed.

Lemma mp_wf_init : mp_wf mp_hash_init.
Proof.
  unfold mp_hash_init. split; [apply length_replicate|]. apply Forall_replicate. constructor.
Qed.

Lemma mp_map_init k : mp_map mp_hash_init k = None.
Proof.
  unfold mp_map, mp_hash_lookup, mp_chain, mp_hash_init.
  rewrite lookup_replicate_2 by apply mp_slot. done.
Qed.

Lemma mp_hash_delete_spec hash type addr :
  mp_wf hash ->
  let '(e, hash') := mp_hash_delete hash type addr in
  mp_instr <$> e = mp_map hash (type, addr) /\ mp_wf hash'
  /\ forall k, mp_map hash' k = if bool_decide (k = (type, addr)) then None else mp_map hash k.
Proof.
  intros Hw. unfold mp_hash_delete, mp_map, mp_hash_lookup.
  pose proof (mp_chain_nodup hash addr Hw) as Hd. cbn [fst snd].
  destruct (chain_find type addr (mp_chain hash addr)) as [e|] eqn:E.
  - split; [done|]. split.
    { apply mp_wf_insert; [done|]. eapply sublist_NoDup; [|apply chain_delete_sub]. done. }
    intros [t a]. cbn [fst snd]. rewrite mp_chain_insert by done. case_bool_decide as Ea.
    + rewrite chain_find_delete by done. case_bool_decide as Ek; [done|].
      unfold mp_chain. by rewrite Ea.
    + rewrite bool_decide_false; [done|]. congruence.
  - split; [done|]. split; [done|]. intros [t a]. cbn [fst snd].
    case_bool_decide as Ek; [|done]. injection Ek as -> ->. by rewrite E.
Qed.

Lemma mp_hash_add_spec `{Target, Alloc} hash type addr instr :
  malloc_ok (4 * long_size) = true -> mp_wf hash ->
  exists hash', mp_hash_add hash type addr instr = Ok hash' /\ mp_wf hash'
  /\ forall k, mp_map hash' k
     = if bool_decide (k = (type, addr)) then Some (default instr (mp_map hash k)) else mp_map hash k.
Proof.
  intros Hm Hw. unfold mp_hash_add, mp_map, mp_hash_lookup. cbn [fst snd].
  pose proof (mp_chain_nodup hash addr Hw) as Hd.
  destruct (chain_find type addr (mp_chain hash addr)) as [e|] eqn:E.
  - rewrite bool_decide_true by done. exists hash. split; [done|]. split; [done|].
    intros [t a]. cbn [fst snd]. case_bool_decide as Ek; [|done]. injection Ek as -> ->. by rewrite E.
  - rewrite bool_decide_false by (by intros [? ?]). rewrite Hm. eexists. split; [done|]. split.
    { apply mp_wf_insert; [done|]. simpl. apply NoDup_cons. split; [|done]. by apply chain_find_absent. }
    intros [t a]. cbn [fst snd]. rewrite mp_chain_insert by done. case_bool_decide as Ea.
    + simpl. destruct (mp_match t a _) eqn:Em.
      * apply mp_match_spec in Em. injection Em as -> ->. rewrite bool_decide_true by done.
        by rewrite E.
      * apply mp_match_false in Em. rewrite bool_decide_false; [unfold mp_chain; by rewrite Ea|].
        intros [= -> ->]. by apply Em.
    + rewrite bool_decide_false; [done|]. congruence.
Qed.
