(* ===== verification/DebugUnit.v ===== *)
(** The interface of dbg_api.h, as the servers of the bridge use it.

    [DebugUnit] has the functions the servers call, on variables and arrays of
    the C types.  A variable that was never written is [None].  The functions of
    DbgApi.v, which work on the bytes of the caller's memory, are an instance.
    [DebugLaws] is what a target promises that answers every access: registers
    and memory hold what is written, but for the present bits of the DCRs, which are read
    only, and the indicators of DMR2, which a write may clear.  [Board] is a target that keeps the promise.

    A write may end the process ([Exited]); in the servers that is [AssertFail],
    like a failed [assert]: nothing of the program runs any more. *)

From S2P Require Import Prelude StateM Tap Cable Chain AdvDbg DbgApi RspData.
From stdpp Require Import gmap list.

Open Scope Z_scope.
Open Scope cword_scope.

Class DebugUnit (D : Type) := {
  cpu0_read : Z -> option Z -> M D (Z * option Z);
  cpu0_write : Z -> Z -> M D write_result;
  cpu0_read_block : Z -> buffer -> Z -> M D (Z * buffer);
  cpu0_write_block : Z -> list Z -> Z -> M D write_result;
  cpu0_write_ctrl : Z -> Z -> M D Z;
  cpu0_read_ctrl : Z -> option Z -> M D (Z * option Z);
  wb_read_block32 : Z -> buffer -> Z -> M D (Z * buffer);
  wb_write_block32 : Z -> list Z -> Z -> M D write_result;
  wb_read_block8 : Z -> buffer -> Z -> M D (Z * buffer);
  wb_write_block8 : Z -> list Z -> Z -> M D write_result
}.

(** The code that ends the process. *)
Definition returned (r : write_result) : outcome Z :=
  match r with Returned err => Ok err | Exited _ => AssertFail end.

(** * The functions of dbg_api.c *)

(** An array of [uint32_t] as the bytes of the host's memory, and back: a word of
    which a byte was not written is not written. *)
Definition slot_bytes (w : option Z) : buffer :=
  match w with Some w => map Some (word_bytes w) | None => replicate 4 None end.
Definition array_bytes (words : buffer) : buffer := concat (map slot_bytes words).
Fixpoint bytes_array (data : buffer) : buffer :=
  match data with
  | b0 :: b1 :: b2 :: b3 :: rest => fmap bytes_value (mapM id [b0; b1; b2; b3]) :: bytes_array rest
  | _ => []
  end.

Section dbg_api.
Context `{Target, Alloc} {St : Type} (jtag_cable : jtag_cable_t St) (fuel : nat).

(** A function that reads words into an array. *)
Definition read_words (f : buffer -> M (api St) (Z * buffer)) (words : buffer)
    : M (api St) (Z * buffer) :=
  '(err, data) ← f (array_bytes words);
  mret (err, bytes_array data).
Definition read_word (f : buffer -> M (api St) (Z * buffer)) (word : option Z)
    : M (api St) (Z * option Z) :=
  '(err, data) ← read_words f [word];
  mret (err, mjoin (data !! 0%nat)).

#[export] Instance api_debug_unit : DebugUnit (api St) := {
  cpu0_read adr := read_word (dbg_cpu0_read jtag_cable fuel adr);
  cpu0_write := dbg_cpu0_write jtag_cable fuel;
  cpu0_read_block adr words count :=
    read_words (fun data => dbg_cpu0_read_block jtag_cable fuel adr data count) words;
  cpu0_write_block adr words count :=
    dbg_cpu0_write_block jtag_cable fuel adr (words_bytes words) count;
  cpu0_write_ctrl := dbg_cpu0_write_ctrl jtag_cable;
  cpu0_read_ctrl := dbg_cpu0_read_ctrl jtag_cable;
  wb_read_block32 adr words len :=
    read_words (fun data => dbg_wb_read_block32 jtag_cable fuel adr data len) words;
  wb_write_block32 adr words len :=
    dbg_wb_write_block32 jtag_cable fuel adr (words_bytes words) len;
  wb_read_block8 := dbg_wb_read_block8 jtag_cable fuel;
  wb_write_block8 := dbg_wb_write_block8 jtag_cable fuel
}.
End dbg_api.

(** * A target that answers *)

(** The 32-bit word at an address, most significant byte first. *)
Definition word_at (mem : Z -> Z) (a : Z) : Z :=
  2 ^ 24 * mem a + 2 ^ 16 * mem (a + 1) + 2 ^ 8 * mem (a + 2) + mem (a + 3).

(** Memory after bytes have been written from an address on. *)
Definition mem_write (mem : Z -> Z) (a : Z) (data : list Z) : Z -> Z := fun x =>
  if (a <=? x) && (x <? a + Z.of_nat (length data)) then default 0 (data !! Z.to_nat (x - a)) else mem x.

Definition mem_read (mem : Z -> Z) (a len : Z) : list Z := map mem (seqZ a len).

(** The bytes of a word, most significant first. *)
Definition be_bytes (w : Z) : list Z := [w >> 24 .& 0xff; w >> 16 .& 0xff; w >> 8 .& 0xff; w .& 0xff].

(** The debug registers that do not hold all they are written: the control registers of
    the watchpoints and DMR2. *)
Definition is_dcr (a : Z) : bool := (SPR_DCR 0 <=? a) && (a <=? SPR_DCR 7).
Definition status_reg (a : Z) : bool := is_dcr a || (a =? SPR_DMR2).

(** The program counter is no register of this kind: it reads as 0 until the next
    instruction has been executed.  [store_spr adr old new] is what a register holds that held
    [old] when [new] is written to it. *)
Class DebugLaws (D : Type) `{DebugUnit D} := {
  spr : D -> Z -> Z;
  mem : D -> Z -> Z;
  stalled : D -> bool;
  store_spr : Z -> Z -> Z -> Z;
  store_plain adr old new : status_reg adr = false -> store_spr adr old new = new;
  store_dcr adr old new : is_dcr adr = true -> store_spr adr old new = (new .& not32 1) .| (old .& 1);
  store_dmr2 old new :
    store_spr SPR_DMR2 old new .& not32 SPR_DMR2_WBS = new .& not32 SPR_DMR2_WBS;
  mem_u8 d a : is_u8 (mem d a);
  spr_u32 d a : is_u32 (spr d a);
  law_cpu0_read adr v d : cpu0_read adr v d = Ok ((0, Some (spr d adr)), d);
  law_cpu0_read_block adr words count d :
    0 < count -> Z.of_nat (length words) = count ->
    cpu0_read_block adr words count d = Ok ((0, map (fun i => Some (spr d (adr + i))) (seqZ 0 count)), d);
  law_cpu0_write adr v d :
    adr <> SPR_NPC -> is_u32 v ->
    wp (cpu0_write adr v) (fun r d' => r = Returned 0
      /\ (forall a, spr d' a = if a =? adr then store_spr adr (spr d adr) v else spr d a)
      /\ (forall a, mem d' a = mem d a) /\ stalled d' = stalled d) d;
  law_cpu0_write_block adr words d :
    Forall is_u32 words ->
    (forall a, adr <= a < adr + Z.of_nat (length words) -> status_reg a = false) ->
    wp (cpu0_write_block adr words (Z.of_nat (length words))) (fun r d' => r = Returned 0
      /\ (forall a, a <> SPR_NPC -> spr d' a = mem_write (spr d) adr words a)
      /\ (forall a, mem d' a = mem d a) /\ stalled d' = stalled d) d;
  law_set_npc v d :
    is_u32 v ->
    wp (cpu0_write SPR_NPC v) (fun r d' => r = Returned 0
      /\ (forall a, a <> SPR_NPC -> spr d' a = spr d a) /\ (forall a, mem d' a = mem d a) /\ stalled d' = stalled d) d;
  law_write_ctrl adr v d :
    wp (cpu0_write_ctrl adr v) (fun r d' => r = 0 /\ (forall a, spr d' a = spr d a)
      /\ (forall a, mem d' a = mem d a)
      /\ stalled d' = Z.testbit v 0) d;
  law_read_ctrl adr v d :
    exists s, cpu0_read_ctrl adr v d = Ok ((0, Some s), d) /\ Z.testbit s 0 = stalled d;
  law_read_block8 adr data len d :
    0 < len -> Z.of_nat (length data) = len -> adr + len <= 2 ^ 32 ->
    wb_read_block8 adr data len d = Ok ((0, map Some (mem_read (mem d) adr len)), d);
  law_write_block8 adr data d :
    data <> [] -> Forall is_u8 data -> adr + Z.of_nat (length data) <= 2 ^ 32 ->
    wp (wb_write_block8 adr data (Z.of_nat (length data))) (fun r d' => r = Returned 0
      /\ (forall a, spr d' a = spr d a) /\ (forall a, mem d' a = mem_write (mem d) adr data a)
      /\ stalled d' = stalled d) d;
  law_read_word adr v d :
    adr mod 4 = 0 ->
    wb_read_block32 adr [v] 1 d = Ok ((0, [Some (word_at (mem d) adr)]), d);
  law_write_word adr v d :
    adr mod 4 = 0 -> is_u32 v ->
    wp (wb_write_block32 adr [v] 1) (fun r d' => r = Returned 0
      /\ (forall a, spr d' a = spr d a)
      /\ (forall a, mem d' a = mem_write (mem d) adr (be_bytes v) a) /\ stalled d' = stalled d) d
}.

#[global] Arguments store_spr D {_ _} adr old new : rename.

(** What is not a status bit is what is written. *)
Lemma store_dcr_control {D} `{DebugLaws D} adr old new : is_dcr adr = true ->
  store_spr D adr old new .& not32 1 = new .& not32 1.
Proof.
  intros Ha. rewrite store_dcr by done. rewrite Z.land_lor_distr_l, <- !Z.land_assoc, Z.land_diag.
  change (1 .& not32 1) with 0. by rewrite Z.land_0_r, Z.lor_0_r.
Qed.

Lemma store_dmr2_bit {D} `{DebugLaws D} old new k : 0 <= k < 22 ->
  Z.testbit (store_spr D SPR_DMR2 old new) k = Z.testbit new k.
Proof.
  intros Hk. pose proof (f_equal (fun z => Z.testbit z k) (store_dmr2 (D := D) old new)) as E. cbv beta in E.
  rewrite !Z.land_spec in E.
  assert (Z.testbit (not32 SPR_DMR2_WBS) k = true) as Hb.
  { apply (Z_range_check 22 (fun k => Z.testbit (not32 SPR_DMR2_WBS) k = true)); [by vm_compute|lia]. }
  by rewrite Hb, !andb_true_r in E.
Qed.

(** A board with its registers and its memory. *)
Record board := Board { board_spr : gmap Z Z; board_mem : gmap Z Z; board_stalled : bool }.

Definition board_get (m : gmap Z Z) (w a : Z) : Z := wrap w (default 0 (m !! a)).
Fixpoint board_put (data : list Z) (a : Z) (m : gmap Z Z) : gmap Z Z :=
  match data with
  | [] => m
  | b :: data => <[a := b]> (board_put data (a + 1) m)
  end.

(** A write clears the indicators. *)
Definition board_store (adr old new : Z) : Z :=
  if is_dcr adr then (new .& not32 1) .| (old .& 1)
  else if adr =? SPR_DMR2 then new .& not32 SPR_DMR2_WBS
  else new.

Definition board_write_spr (adr v : Z) : M board write_result := fun d =>
  Ok (Returned 0, Board (<[adr := board_store adr (board_get (board_spr d) 32 adr) v]> (board_spr d))
    (board_mem d) (board_stalled d)).
Definition board_write_mem (adr : Z) (data : list Z) : M board write_result := fun d =>
  Ok (Returned 0, Board (board_spr d) (board_put data adr (board_mem d)) (board_stalled d)).

#[export] Instance board_unit : DebugUnit board := {
  cpu0_read adr v d := Ok ((0, Some (board_get (board_spr d) 32 adr)), d);
  cpu0_write := board_write_spr;
  cpu0_read_block adr words count d :=
    Ok ((0, map (fun i => Some (board_get (board_spr d) 32 (adr + i))) (seqZ 0 count)), d);
  cpu0_write_block adr words count d :=
    Ok (Returned 0, Board (board_put words adr (board_spr d)) (board_mem d) (board_stalled d));
  cpu0_write_ctrl adr v d := Ok (0, Board (board_spr d) (board_mem d) (Z.testbit v 0));
  cpu0_read_ctrl adr v d := Ok ((0, Some (b2z (board_stalled d))), d);
  wb_read_block32 adr words len d := Ok ((0, [Some (word_at (board_get (board_mem d) 8) adr)]), d);
  wb_write_block32 adr words len := board_write_mem adr (concat (map be_bytes words));
  wb_read_block8 adr data len d :=
    Ok ((0, map Some (mem_read (board_get (board_mem d) 8) adr len)), d);
  wb_write_block8 adr data len := board_write_mem adr data
}.

Lemma board_put_get data adr m w a :
  Forall (is_word w) data ->
  board_get (board_put data adr m) w a = mem_write (board_get m w) adr data a.
Proof.
  intros Hd. revert adr. induction Hd as [|b data Hb Hd IH]; intros adr; unfold mem_write in *.
  - change (Z.of_nat (length [])) with 0. rewrite Z.add_0_r.
    by destruct (Z.leb_spec adr a), (Z.ltb_spec a adr); [lia|..].
  - simpl. unfold board_get. destruct (Z.eq_dec a adr) as [->|Hne].
    + rewrite lookup_insert_eq. simpl. rewrite wrap_small by done.
      destruct (Z.leb_spec adr adr); [|lia]. rewrite Z.sub_diag.
      destruct (Z.ltb_spec adr (adr + Z.of_nat (S (length data)))); [done|lia].
    + rewrite lookup_insert_ne by done. fold (board_get (board_put data (adr + 1) m) w a). rewrite IH.
      replace (adr + 1 + Z.of_nat (length data)) with (adr + Z.of_nat (S (length data))) by lia.
      destruct (Z.leb_spec adr a), (Z.leb_spec (adr + 1) a); simpl; try lia; [|done].
      destruct (a <? _); [|done]. by replace (Z.to_nat (a - adr)) with (S (Z.to_nat (a - (adr + 1)))) by lia.
Qed.

Lemma be_bytes_are_u8 v : Forall is_u8 (be_bytes v).
Proof. repeat constructor; apply (is_word_land_r 8); done. Qed.

Lemma board_get_insert m w a v x :
  is_word w v -> board_get (<[a := v]> m) w x = if x =? a then v else board_get m w x.
Proof.
  intros Hv. unfold board_get. destruct (Z.eqb_spec x a) as [->|Hne].
  - by rewrite lookup_insert_eq; apply wrap_small.
  - by rewrite lookup_insert_ne.
Qed.

Lemma board_store_u32 adr old new : is_u32 new -> is_u32 (board_store adr old new).
Proof.
  intros Hn. unfold board_store. destruct (is_dcr adr).
  - apply is_word_lor; [done|by apply is_word_land_l|by apply is_word_land_r].
  - destruct (adr =? SPR_DMR2); [by apply is_word_land_l|done].
Qed.

#[export] Instance board_laws : DebugLaws board.
Proof.
  refine {| spr d := board_get (board_spr d) 32; mem d := board_get (board_mem d) 8;
            stalled := board_stalled; store_spr := board_store |}; intros; try apply wrap_range; try done.
  - unfold board_store. unfold status_reg in H. by destruct (is_dcr adr), (adr =? SPR_DMR2).
  - unfold board_store. by rewrite H.
  - unfold board_store. change (is_dcr SPR_DMR2) with false. rewrite Z.eqb_refl.
    by rewrite <- Z.land_assoc, Z.land_diag.
  - eexists _, _. split; [done|]. split; [done|]. split; [|done]. intros a. cbn [board_spr].
    by apply board_get_insert, board_store_u32.
  - eexists _, _. split; [done|]. split; [done|]. split; [|done]. intros a Ha. by apply board_put_get.
  - eexists _, _. split; [done|]. split; [done|]. split; [|done]. intros a Ha. cbn [board_spr].
    rewrite board_get_insert by done. by destruct (Z.eqb_spec a SPR_NPC).
  - by eexists _, _.
  - eexists. split; [done|]. by destruct (board_stalled d).
  - eexists _, _. split; [done|]. split; [done|]. split; [done|]. split; [|done].
    intros a. by apply board_put_get.
  - eexists _, _. split; [done|]. split; [done|]. split; [done|]. split; [|done].
    intros a. by apply (board_put_get (be_bytes v)), be_bytes_are_u8.
Defined.
