(* ===== verification/SelfTest.v ===== *)
(** or32_selftest.c: the test of the board, as it is compiled: the SRAM and the processor.

    [dbg_test] writes words to the memory and reads them back, then puts a program there,
    steps the processor through it, replaces its instructions by traps, and compares the sum
    of the counters and of register 1 at every stop.  A call that fails ends the process
    ([CHECK]), which is [AssertFail].  What is only printed is read all the same. *)

From S2P Require Import Prelude StateM Tap Cable Chain AdvDbg DbgApi RspData DebugUnit.
From stdpp Require Import gmap list.

Open Scope Z_scope.
Open Scope cword_scope.

(** * The functions of dbg_api.h that are used here *)

Class WordAccess (D : Type) := {
  wb_read32 : Z -> option Z -> M D (Z * option Z);
  wb_write32 : Z -> Z -> M D write_result;
  wb_read_block16 : Z -> buffer -> Z -> M D (Z * buffer);
  wb_write_block16 : Z -> list Z -> Z -> M D write_result
}.

(** An array of [uint16_t] as bytes, and back. *)
Definition half_bytes (w : option Z) : buffer := take 2 (slot_bytes w).
Fixpoint bytes_halves (data : buffer) : buffer :=
  match data with
  | b0 :: b1 :: rest => fmap bytes_value (mapM id [b0; b1]) :: bytes_halves rest
  | _ => []
  end.

Section dbg_api.
Context `{Target, Alloc} {St : Type} (jtag_cable : jtag_cable_t St) (fuel : nat).

#[export] Instance api_word_access : WordAccess (api St) := {
  wb_read32 adr := read_word (dbg_wb_read32 jtag_cable fuel adr);
  wb_write32 := dbg_wb_write32 jtag_cable fuel;
  wb_read_block16 adr halves len :=
    '(err, data) ← dbg_wb_read_block16 jtag_cable fuel adr (concat (map half_bytes halves)) len;
    mret (err, bytes_halves data);
  wb_write_block16 adr halves len :=
    dbg_wb_write_block16 jtag_cable fuel adr (concat (map (fun h => take 2 (word_bytes h)) halves)) len
}.
End dbg_api.

(** * The system *)

Definition MC_BASE_ADDR : Z := 0x93000000.
Definition SDRAM_BASE : Z := 0x00000000.
Definition SDRAM_SIZE : Z := 0x400.
Definition SRAM_BASE : Z := 0x00000000.
Definition SRAM_SIZE : Z := 0x04000000.
Definition FLASH_BASE_ADDR : Z := 0xf0000000.
Definition FLASH_BAR_VAL : Z := FLASH_BASE_ADDR.
Definition SDRAM_BASE_ADDR : Z := SDRAM_BASE.
Definition SDRAM_BAR_VAL : Z := SDRAM_BASE_ADDR.
Definition SDRAM_AMR_VAL : Z := not32 (SDRAM_SIZE - 1).

Definition MC_BAR_0 : Z := 0x00.
Definition MC_AMR_0 : Z := 0x04.
Definition MC_WTR_0 : Z := 0x30.
Definition MC_RTR_0 : Z := 0x34.
Definition MC_OSR : Z := 0xe8.
Definition MC_BAR_1 : Z := 0x08.
Definition MC_BAR_4 : Z := 0x80.
Definition MC_AMR_1 : Z := 0x0c.
Definition MC_AMR_4 : Z := 0x84.
Definition MC_CCR_1 : Z := 0x24.
Definition MC_CCR_4 : Z := 0xa0.
Definition MC_RATR : Z := 0xb0.
Definition MC_RCDR : Z := 0xc8.
Definition MC_RCTR : Z := 0xb4.
Definition MC_REFCTR : Z := 0xc4.
Definition MC_PTR : Z := 0xbc.
Definition MC_RRDR : Z := 0xb8.
Definition MC_RIR : Z := 0xcc.
Definition MC_ORR : Z := 0xe4.
Definition FLASH_AMR_VAL : Z := 0xf0000000.
Definition FLASH_WTR_VAL : Z := 0x00011009.
Definition FLASH_RTR_VAL : Z := 0x01002009.
Definition SDRAM_RATR_VAL : Z := 0x00000006.
Definition SDRAM_RCDR_VAL : Z := 0x00000002.
Definition SDRAM_RCTR_VAL : Z := 0x00000006.
Definition SDRAM_REFCTR_VAL : Z := 0x00000006.
Definition SDRAM_PTR_VAL : Z := 0x00000001.
Definition SDRAM_RRDR_VAL : Z := 0x00000000.
Definition SDRAM_RIR_VAL : Z := 0x000000C0.
Definition CPU_OP_ADR : Z := 0.

Section selftest.
Context `{Target} {D : Type} `{DebugUnit D, WordAccess D}.

(** * CHECK *)

Definition check (i : Z) : M D unit := if negb (i =? 0) then lift AssertFail else mret tt.
Definition CHECK (m : M D Z) : M D unit := i ← m; check i.
Definition CHECK_write (m : M D write_result) : M D unit :=
  r ← m; i ← lift (returned r); check i.
(** The variable a function reads into. *)
Definition CHECK_read (m : option Z -> M D (Z * option Z)) : M D Z :=
  '(i, v) ← m None; check i;; lift (read_var v).

(** Writes of words at offsets from a base, and reads whose result is printed; the variable
    keeps the last one. *)
Definition write_words (base : Z) (words : list (Z * Z)) : M D unit :=
  foldr (fun '(a, v) next => CHECK_write (wb_write32 (u32 (base + a)) v);; next) (mret tt) words.
Fixpoint read_back (base : Z) (offsets : list Z) (last : Z) : M D Z :=
  match offsets with
  | [] => mret last
  | a :: offsets => v ← CHECK_read (wb_read32 (u32 (base + a))); read_back base offsets v
  end.

(** * The tests *)

Definition stall_cpus : M D Z :=
  CHECK (cpu0_write_ctrl 0 0x01);;
  stalled ← CHECK_read (cpu0_read_ctrl 0);
  mret (if negb (truth (stalled .& 0x1)) then APP_ERR_TEST_FAIL else APP_ERR_NONE).

Definition init_mc : M D unit :=
  write_words MC_BASE_ADDR
    [(MC_BAR_0, FLASH_BAR_VAL .& 0xffff0000); (MC_AMR_0, FLASH_AMR_VAL .& 0xffff0000);
     (MC_WTR_0, FLASH_WTR_VAL); (MC_RTR_0, FLASH_RTR_VAL); (MC_OSR, 0x40000000);
     (MC_BAR_4, SDRAM_BAR_VAL .& 0xffff0000); (MC_AMR_4, SDRAM_AMR_VAL .& 0xffff0000);
     (MC_CCR_4, 0x00bf0005); (MC_RATR, SDRAM_RATR_VAL); (MC_RCDR, SDRAM_RCDR_VAL);
     (MC_RCTR, SDRAM_RCTR_VAL); (MC_REFCTR, SDRAM_REFCTR_VAL); (MC_PTR, SDRAM_PTR_VAL);
     (MC_RRDR, SDRAM_RRDR_VAL); (MC_RIR, SDRAM_RIR_VAL); (MC_OSR, 0x5e000000); (MC_ORR, 0x5e000000);
     (MC_OSR, 0x6e000000); (MC_ORR, 0x6e000000); (MC_ORR, 0x6e000000); (MC_ORR, 0x6e000000);
     (MC_ORR, 0x6e000000); (MC_ORR, 0x6e000000); (MC_ORR, 0x6e000000); (MC_ORR, 0x6e000000);
     (MC_ORR, 0x6e000000); (MC_OSR, 0x7e000033); (MC_ORR, 0x7e000033); (MC_CCR_4, 0xc0bf0005)];;
  _ ← CHECK_read (wb_read32 (MC_BASE_ADDR + MC_CCR_4));
  mret tt.

Definition init_sram : M D unit :=
  write_words MC_BASE_ADDR
    [(MC_BAR_1, SRAM_BASE .& 0xffff0000); (MC_AMR_1, not32 (SRAM_SIZE - 1) .& 0xffff0000);
     (MC_CCR_1, 0xc020001f)].

(** [for (i = 0x10; i < bound; i = i << 1)], each with its [return]. *)
Fixpoint doublings (fuel : nat) (i bound : Z) (body : Z -> M D (option Z)) : M D (option Z) :=
  if bound <=? i then mret None else
  match fuel with
  | O => lift Hang
  | S fuel =>
      r ← body i;
      match r with Some _ => mret r | None => doublings fuel (Z.shiftl i 1) bound body end
  end.
Definition doublings_fuel : nat := 64.

Definition sdram_words : M D (option Z) :=
  let bound := SDRAM_SIZE + SDRAM_BASE in
  _ ← doublings doublings_fuel 0x10 bound
        (fun i => CHECK_write (wb_write32 (u32 (SDRAM_BASE + i)) (u32 i));; mret None);
  doublings doublings_fuel 0x10 bound
    (fun i => insn ← CHECK_read (wb_read32 (u32 (SDRAM_BASE + i)));
              mret (if negb (i =? insn) then Some APP_ERR_TEST_FAIL else None)).

(** The elements are compared until two differ. *)
Fixpoint same (expected : list Z) (read : buffer) : outcome bool :=
  match expected, read with
  | w :: expected, r :: read =>
      r ← read_var r; if negb (w =? r) then Ok false else same expected read
  | [], _ => Ok true
  | _ :: _, [] => Undef
  end.

(** A block that is written, read into the same array, and compared. *)
Definition block_test (write : list Z -> Z -> M D write_result) (read : buffer -> Z -> M D (Z * buffer))
    (data : list Z) (len : Z) : M D (option Z) :=
  CHECK_write (write data len);;
  '(i, data_out) ← read (map Some data) len;
  check i;;
  ok ← lift (same data data_out);
  mret (if negb ok then Some APP_ERR_TEST_FAIL else None).

Definition data4 : list Z :=
  map (fun i => (4 * i + 3) << 24 .| (4 * i + 2) << 16 .| (4 * i + 1) << 8 .| (4 * i)) (seqZ 0 8).
Definition data2 : list Z := map (fun i => Z.shiftl (4 * i + 1) 8 .| (4 * i)) (seqZ 0 16).
Definition data1 : list Z := map (fun i => 4 * i) (seqZ 0 32).

(** A block of 32-bit words has 0x20 of them for the functions, and 8 here; one of 16-bit
    words 16. *)
Definition test_sdram : M D Z :=
  r ← sdram_words;
  match r with Some e => mret e | None =>
  r ← block_test (wb_write_block32 SDRAM_BASE) (wb_read_block32 SDRAM_BASE) data4 0x20;
  match r with Some e => mret e | None =>
  r ← block_test (wb_write_block16 SDRAM_BASE) (wb_read_block16 SDRAM_BASE) data2 0x20;
  match r with Some e => mret e | None =>
  r ← block_test (wb_write_block8 SDRAM_BASE) (wb_read_block8 SDRAM_BASE) data1 0x20;
  mret (default APP_ERR_NONE r)
  end end end.

Definition test_sdram_2 : M D Z :=
  write_words SDRAM_BASE [(0x00, 0x12345678)];;
  insn ← CHECK_read (wb_read32 (SDRAM_BASE + 0x00));
  if negb (insn =? 0x12345678) then mret APP_ERR_TEST_FAIL else
  write_words SDRAM_BASE [(0x0000, 0x11112222)];;
  insn ← CHECK_read (wb_read32 (SDRAM_BASE + 0x0000));
  if negb (insn =? 0x11112222) then mret APP_ERR_TEST_FAIL else
  write_words SDRAM_BASE
    [(0x0004, 0x33334444); (0x0008, 0x55556666); (0x000c, 0x77778888); (0x0010, 0x9999aaaa);
     (0x0014, 0xbbbbcccc); (0x0018, 0xddddeeee); (0x001c, 0xffff0000); (0x0020, 0xdeadbeef)];;
  insn ← read_back SDRAM_BASE
    [0x0000; 0x0004; 0x0008; 0x000c; 0x0010; 0x0014; 0x0018; 0x001c; 0x0020] insn;
  mret (if negb (insn =? 0xdeadbeef) then APP_ERR_TEST_FAIL else APP_ERR_NONE).

Definition sram_words : list (Z * Z) :=
  [(0x0000, 0x11112222); (0x0004, 0x33334444); (0x0008, 0x55556666); (0x000c, 0x77778888);
   (0x0010, 0x9999aaaa); (0x0014, 0xbbbbcccc); (0x0018, 0xddddeeee); (0x001c, 0xffff0000);
   (0x0020, 0xdedababa)].

(** Only the last word is compared. *)
Definition test_sram : M D Z :=
  write_words SRAM_BASE sram_words;;
  ins ← read_back SRAM_BASE (map fst sram_words) 0;
  mret (if negb (ins =? 0xdedababa) then APP_ERR_TEST_FAIL else APP_ERR_NONE).

(** ** The processor *)

Definition or1k_program : list (Z * Z) :=
  [(0x00, 0xe0000005); (0x04, 0x9c200000); (0x08, 0x18400000); (0x0c, 0xa8420030);
   (0x10, 0x9c210001); (0x14, 0x9c210001); (0x18, 0xd4020800); (0x1c, 0x9c210001);
   (0x20, 0x84620000); (0x24, 0x03fffffb); (0x28, 0xe0211800)].

Definition NPC : Z := Z.shiftl 0 11 + 16.
Definition SR : Z := Z.shiftl 0 11 + 17.
Definition PPC : Z := Z.shiftl 0 11 + 18.
Definition DMR1 : Z := Z.shiftl 6 11 + 16.
Definition DSR : Z := Z.shiftl 6 11 + 20.
Definition STEP : Z := Z.shiftl 1 22.
Definition TRAP_INSN : Z := 0x21000001.

Definition setup_cpu0 : M D unit :=
  CHECK_write (cpu0_write SR 0x01);;
  CHECK_write (cpu0_write DSR 0x2000);;
  CHECK_write (cpu0_write NPC SDRAM_BASE);;
  CHECK_write (cpu0_write DMR1 STEP).

(** [do CHECK(dbg_cpu0_read_ctrl(CPU_OP_ADR, &stalled)); while (!(stalled & 1));] *)
Fixpoint wait_stalled (fuel : nat) : M D unit :=
  match fuel with
  | O => lift Hang
  | S fuel =>
      stalled ← CHECK_read (cpu0_read_ctrl CPU_OP_ADR);
      if truth (stalled .& 1) then mret tt else wait_stalled fuel
  end.
Definition unstall (fuel : nat) : M D unit :=
  CHECK (cpu0_write_ctrl CPU_OP_ADR 0x00);;
  wait_stalled fuel.

(** The sum of the three registers, which is added to the result. *)
Definition read_result : M D Z :=
  npc ← CHECK_read (cpu0_read NPC);
  ppc ← CHECK_read (cpu0_read PPC);
  r1 ← CHECK_read (cpu0_read 0x401);
  mret (u32 (npc + ppc + r1)).

Section or1k.
(** The processor is started, and stops again. *)
Context (go : M D unit).

Definition run_steps (n : Z) : M D unit := mfor_upto n (fun _ _ => go) tt.

(** A trap instead of the instruction at an offset, from a PC that is set or not. *)
Definition trap_test (at_ : Z) (set_pc : option Z) : M D Z :=
  insn ← CHECK_read (wb_read32 (SDRAM_BASE + at_));
  CHECK_write (wb_write32 (SDRAM_BASE + at_) TRAP_INSN);;
  (match set_pc with Some a => CHECK_write (cpu0_write NPC (SDRAM_BASE + a)) | None => mret tt end);;
  go;;
  r ← read_result;
  CHECK_write (wb_write32 (SDRAM_BASE + at_) insn);;
  mret r.

Definition trap_tests (result : Z) : M D Z :=
  CHECK_write (cpu0_write DMR1 0);;
  r1 ← trap_test 0x28 None;
  r2 ← trap_test 0x24 (Some 0x10);
  r3 ← trap_test 0x20 (Some 0x24);
  r4 ← trap_test 0x1c (Some 0x20);
  r5 ← trap_test 0x20 (Some 0x1c);
  r6 ← trap_test 0x10 (Some 0x20);
  mret (u32 (result + r1 + r2 + r3 + r4 + r5 + r6)).

Definition step_tests (result : Z) : M D Z :=
  CHECK_write (cpu0_write DMR1 STEP);;
  run_steps 5;;
  r1 ← read_result;
  CHECK_write (cpu0_write NPC (SDRAM_BASE + 0x24));;
  run_steps 2;;
  r2 ← read_result;
  mret (u32 (result + r1 + r2)).

Definition or1k_test : M D Z :=
  write_words SDRAM_BASE or1k_program;;
  setup_cpu0;;
  run_steps 11;;
  r ← read_result;
  r ← trap_tests r;
  r ← step_tests r;
  mret (if negb (Z.lxor r 0xdeaddae1 =? 0xdeaddead) then APP_ERR_TEST_FAIL else APP_ERR_NONE).
End or1k.

(** [fuel] bounds how often the processor is asked whether it has stopped. *)
Definition test_or1k_cpu0 (fuel : nat) : M D Z := or1k_test (unstall fuel).

Definition dbg_test (fuel : nat) : M D Z :=
  success ← stall_cpus;
  if success =? APP_ERR_NONE then
    e1 ← test_sram;
    e2 ← test_or1k_cpu0 fuel;
    mret (success .| e1 .| e2)
  else mret APP_ERR_TEST_FAIL.
End selftest.
