(* ===== verification/SelfTestBoard.v ===== *)
(** The self test on boards: what it shows of a memory that keeps its words, and that it
    passes on a processor that executes instructions as the simulator does (Exec.v).

    Specification: [soc] is a board with that processor and its debug unit.  A processor
    that has been started executes instructions whenever it is asked whether it has stopped;
    it stops after each one when the step bit is set, and at a trap when traps stop it.  The
    program counters are those of the next and of the last instruction. *)

From S2P Require Import Prelude Spr Host Cpu Exec StateM Tap Cable Chain AdvDbg DbgApi RspData DebugUnit SelfTest.
From Stdlib Require Import FunctionalExtensionality.
From stdpp Require Import gmap list.

Open Scope Z_scope.
Open Scope cword_scope.

(** * A processor behind the debug unit *)

(** Memory in bytes, and the special registers. *)
Record board_host := BoardHost { bh_mem : Z -> Z; bh_spr : Z -> Z }.
Definition byte_at (h : board_host) (a : Z) : Z := u8 (bh_mem h a).
Definition fset (f : Z -> Z) (a v : Z) : Z -> Z := fun x => if x =? a then v else f x.
Definition put_bytes (h : board_host) (a : Z) (data : list Z) : board_host :=
  BoardHost (mem_write (bh_mem h) a data) (bh_spr h).

#[export] Instance board_host_Host : Host board_host := {
  host_mfspr s h := u32 (bh_spr h s);
  host_mtspr s v h := BoardHost (bh_mem h) (fset (bh_spr h) s v);
  host_load32 a h := (word_at (byte_at h) a, h);
  host_store32 a v h := put_bytes h a (be_bytes v);
  host_lbz a h := (byte_at h a, h);
  host_lbs a h := (u32 (swrap 8 (byte_at h a)), h);
  host_sb a v h := put_bytes h a [u8 v]
}.

(** The processor, the counter of the last instruction, whether it is stalled, and how many
    instructions it executes between two questions. *)
Record soc := Soc { soc_sim : sim board_host; soc_ppc : Z; soc_stalled : bool; soc_speed : nat }.

Section soc.
Context `{HB : Build}.

Definition soc_host (s : soc) : board_host := s_host (soc_sim s).
Definition with_host (s : soc) (h : board_host) : soc :=
  Soc (Sim (s_cpu (soc_sim s)) h) (soc_ppc s) (soc_stalled s) (soc_speed s).
Definition with_soc_cpu (s : soc) (c : CPU) : soc :=
  Soc (Sim c (soc_host s)) (soc_ppc s) (soc_stalled s) (soc_speed s).
Definition set_stalled (s : soc) (b : bool) : soc := Soc (soc_sim s) (soc_ppc s) b (soc_speed s).
Definition soc_word (s : soc) (a : Z) : Z := word_at (byte_at (soc_host s)) a.

Definition is_trap (w : Z) : bool := Z.shiftr w 16 =? 0x2100.

(** One instruction. *)
Definition soc_insn (s : soc) : outcome soc :=
  let cpu := s_cpu (soc_sim s) in
  let steps := Z.testbit (bh_spr (soc_host s) DMR1) 22 in
  if is_trap (soc_word s (pc cpu)) && Z.testbit (bh_spr (soc_host s) DSR) 13
  then Ok (Soc (Sim (cpu_advance_pc cpu) (soc_host s)) (pc cpu) true (soc_speed s))
  else sim' ← cpu_exec_inst (soc_sim s); Ok (Soc sim' (pc cpu) steps (soc_speed s)).

(** [n] instructions, or fewer when it stops. *)
Fixpoint soc_run (n : nat) (s : soc) : outcome soc :=
  match n with
  | O => Ok s
  | S n => if soc_stalled s then Ok s else s ← soc_insn s; soc_run n s
  end.

Definition soc_read (adr : Z) (s : soc) : Z :=
  let cpu := s_cpu (soc_sim s) in
  if adr =? NPC then pc cpu else if adr =? PPC then soc_ppc s else if adr =? SR then sr cpu
  else if (0x400 <=? adr) && (adr <? 0x420) then cpu_get_gpr cpu (adr - 0x400)
  else u32 (bh_spr (soc_host s) adr).
Definition soc_write (adr v : Z) (s : soc) : soc :=
  let cpu := s_cpu (soc_sim s) in
  if adr =? NPC then with_soc_cpu s (cpu_set_branch_pc (cpu_set_npc (cpu_set_pc cpu v) (v +! 4)) 0xffffffff)
  else if adr =? SR then with_soc_cpu s (cpu_set_sr cpu v)
  else if (0x400 <=? adr) && (adr <? 0x420) then with_soc_cpu s (cpu_set_gpr cpu (adr - 0x400) v)
  else with_host s (BoardHost (bh_mem (soc_host s)) (fset (bh_spr (soc_host s)) adr v)).

Definition write_bytes (adr : Z) (data : list Z) : M soc write_result := fun s =>
  Ok (Returned 0, with_host s (put_bytes (soc_host s) adr data)).

#[export] Instance soc_unit : DebugUnit soc := {
  cpu0_read adr v s := Ok ((0, Some (soc_read adr s)), s);
  cpu0_write adr v s := Ok (Returned 0, soc_write adr v s);
  cpu0_read_block adr words count s := Ok ((0, map (fun i => Some (soc_read (adr + i) s)) (seqZ 0 count)), s);
  cpu0_write_block adr words count s := Ok (Returned 0, foldl (fun s '(i, v) => soc_write (adr + i) v s) s
    (zip (seqZ 0 count) words));
  cpu0_write_ctrl adr v s := Ok (0, set_stalled s (Z.testbit v 0));
  cpu0_read_ctrl adr v s := s ← soc_run (soc_speed s) s; Ok ((0, Some (b2z (soc_stalled s))), s);
  wb_read_block32 adr words len s := Ok ((0, map (fun i => Some (soc_word s (adr + 4 * i))) (seqZ 0 len)), s);
  wb_write_block32 adr words len := write_bytes adr (concat (map be_bytes words));
  wb_read_block8 adr data len s := Ok ((0, map Some (mem_read (byte_at (soc_host s)) adr len)), s);
  wb_write_block8 adr data len := write_bytes adr data
}.

#[export] Instance soc_words : WordAccess soc := {
  wb_read32 adr v s := Ok ((0, Some (soc_word s adr)), s);
  wb_write32 adr v := write_bytes adr (be_bytes v);
  wb_read_block16 adr halves len s :=
    Ok ((0, map (fun i => Some (byte_at (soc_host s) (adr + 2 * i) << 8 .| byte_at (soc_host s) (adr + 2 * i + 1))) (seqZ 0 len)), s);
  wb_write_block16 adr halves len := write_bytes adr (concat (map (fun h => [h >> 8 .& 0xff; h .& 0xff]) halves))
}.
End soc.

(** * Waiting for the processor *)

Section waiting.
Context `{HB : Build}.

Lemma soc_run_stalled n (s : soc) : soc_stalled s = true -> soc_run n s = Ok s.
Proof. intros Hs. destruct n; cbn [soc_run]; [done|]. by rewrite Hs. Qed.

Lemma soc_run_add a b (s : soc) : soc_run (a + b) s = (s ← soc_run a s; soc_run b s).
Proof.
  revert s. induction a as [|a IH]; intros s; [done|]. cbn [Nat.add soc_run].
  destruct (soc_stalled s) eqn:Hs; [symmetry; by apply soc_run_stalled|].
  destruct (soc_insn s) as [s1| | |]; [|done..]. apply IH.
Qed.

Lemma soc_insn_speed (s s' : soc) : soc_insn s = Ok s' -> soc_speed s' = soc_speed s.
Proof.
  unfold soc_insn. destruct (_ && _); [by intros [= <-]|].
  destruct (cpu_exec_inst _); [|done..]. by intros [= <-].
Qed.

Lemma soc_run_speed n (s s' : soc) : soc_run n s = Ok s' -> soc_speed s' = soc_speed s.
Proof.
  revert s. induction n as [|n IH]; intros s; cbn [soc_run]; [by intros [= <-]|].
  destruct (soc_stalled s); [by intros [= <-]|].
  destruct (soc_insn s) as [s1| | |] eqn:E; [|done..]. intros Hr. rewrite (IH _ Hr). by apply soc_insn_speed.
Qed.

(** However fast the processor is, the bridge finds it where it stops. *)
Lemma wait_stalled_run fuel k (s s' : soc) :
  (0 < soc_speed s)%nat -> (0 < k <= fuel)%nat -> soc_run k s = Ok s' -> soc_stalled s' = true ->
  wait_stalled fuel s = Ok (tt, s').
Proof.
  revert k s. induction fuel as [|fuel IH]; intros k s Hn Hk Hr Hs; [lia|]. cbn [wait_stalled].
  assert (Hask : forall s1, soc_run (soc_speed s) s = Ok s1 ->
    CHECK_read (cpu0_read_ctrl CPU_OP_ADR) s = Ok (b2z (soc_stalled s1), s1)).
  { intros s1 E. unfold CHECK_read, mbind, M_bind. cbn. rewrite E. done. }
  destruct (soc_run (soc_speed s) s) as [s1| | |] eqn:E1.
  2-4: exfalso; destruct (Nat.le_gt_cases k (soc_speed s)) as [Hle|Hgt];
    [replace (soc_speed s) with (k + (soc_speed s - k))%nat in E1 by lia; rewrite soc_run_add, Hr in E1;
     cbn in E1; by rewrite soc_run_stalled in E1
    |replace k with (soc_speed s + (k - soc_speed s))%nat in Hr by lia; by rewrite soc_run_add, E1 in Hr].
  - unfold mbind at 1, M_bind. rewrite (Hask s1 eq_refl). destruct (Nat.le_gt_cases k (soc_speed s)) as [Hle|Hgt].
    + replace (soc_speed s) with (k + (soc_speed s - k))%nat in E1 by lia. rewrite soc_run_add, Hr in E1. cbn in E1.
      rewrite soc_run_stalled in E1 by done. injection E1 as ->. by rewrite Hs.
    + replace k with (soc_speed s + (k - soc_speed s))%nat in Hr by lia. rewrite soc_run_add, E1 in Hr. cbn in Hr.
      destruct (soc_stalled s1) eqn:Hs1; [rewrite soc_run_stalled in Hr by done; by injection Hr as ->|].
      cbn. apply (IH (k - soc_speed s)%nat); [by rewrite (soc_run_speed _ _ _ E1)|lia|done|done].
Qed.

(** Starting the processor, where it stops within [k] instructions. *)
Definition start (k fuel : nat) : M soc unit := fun s =>
  match soc_speed s, soc_run k (set_stalled s false) with
  | S _, Ok s' => if soc_stalled s' then Ok (tt, s') else unstall fuel s
  | _, _ => unstall fuel s
  end.

Lemma unstall_start k fuel : (0 < k <= fuel)%nat -> unstall fuel = start k fuel.
Proof.
  intros Hk. apply functional_extensionality. intros s. unfold start.
  destruct (soc_speed s) eqn:Hn; [done|]. destruct (soc_run k (set_stalled s false)) as [s'| | |] eqn:Hr; [|done..].
  destruct (soc_stalled s') eqn:Hs; [|done].
  change (unstall fuel s) with (wait_stalled fuel (set_stalled s false)).
  apply (wait_stalled_run fuel k); [|done..]. cbn. lia.
Qed.
End waiting.

(** * The memory tests *)

(** What the two functions for words promise, beside [DebugLaws]. *)
Class WordLaws (D : Type) `{DebugLaws D, WordAccess D} := {
  law_read32 adr v d : adr mod 4 = 0 -> wb_read32 adr v d = Ok ((0, Some (word_at (mem d) adr)), d);
  law_write32 adr v d : adr mod 4 = 0 -> is_u32 v ->
    wp (wb_write32 adr v) (fun r d' => r = Returned 0
      /\ (forall a, spr d' a = spr d a)
      /\ (forall a, mem d' a = mem_write (mem d) adr (be_bytes v) a) /\ stalled d' = stalled d) d
}.

#[export] Instance board_words : WordAccess board := {
  wb_read32 adr v d := Ok ((0, Some (word_at (board_get (board_mem d) 8) adr)), d);
  wb_write32 adr v := board_write_mem adr (be_bytes v);
  wb_read_block16 adr halves len d :=
    let m := board_get (board_mem d) 8 in
    Ok ((0, map (fun i => Some (2 ^ 8 * m (adr + 2 * i) + m (adr + 2 * i + 1))) (seqZ 0 len)), d);
  wb_write_block16 adr halves len :=
    board_write_mem adr (concat (map (fun h => [h >> 8 .& 0xff; h .& 0xff]) halves))
}.

#[export] Instance board_word_laws : WordLaws board.
Proof.
  split; [done|]. intros adr v d Ha Hv. eexists _, _. split; [done|]. split; [done|]. split; [done|]. split; [|done].
  intros a. by apply (board_put_get (be_bytes v)), be_bytes_are_u8.
Defined.

Section memory.
Context {D : Type} `{WordLaws D}.

(** The memory after the words at some offsets have been written. *)
Definition words_written (words : list (Z * Z)) (m : Z -> Z) : Z -> Z :=
  foldl (fun m '(a, v) => mem_write m a (be_bytes v)) m words.
Definition word_ok : Z * Z -> Prop := fun '(a, v) => a mod 4 = 0 /\ is_u32 a /\ is_u32 v.

Lemma mem_write_ext m m' a data : (forall x, m x = m' x) -> forall x, mem_write m a data x = mem_write m' a data x.
Proof. intros E x. unfold mem_write. by rewrite E. Qed.

Lemma words_written_ext words m m' : (forall x, m x = m' x) -> forall x, words_written words m x = words_written words m' x.
Proof.
  revert m m'. induction words as [|[a v] words IH]; intros m m' E x; [apply E|]. cbn. apply IH.
  by apply mem_write_ext.
Qed.

Lemma word_at_same m m' a : (forall x, m x = m' x) -> word_at m a = word_at m' a.
Proof. intros E. unfold word_at. by rewrite !E. Qed.

(** Only the words are changed. *)
Definition only_words (words : list (Z * Z)) (d d' : D) : Prop :=
  (forall a, spr d' a = spr d a) /\ (forall a, mem d' a = words_written words (mem d) a) /\ stalled d' = stalled d.

Lemma wp_write_words words (d : D) : Forall word_ok words ->
  wp (write_words 0 words) (fun _ d' => only_words words d d') d.
Proof.
  intros Hw. revert d. induction Hw as [|[a v] words (Ha & Ra & Hv) _ IH]; intros d; cbn [write_words foldr].
  - by apply wp_ret.
  - apply wp_bind, wp_bind. change (0 + a) with a. rewrite (wrap_small 32 a) by done.
    eapply wp_mono; [by apply law_write32|]. intros r d1 (-> & Hs & Hm & Ht). apply wp_bind.
    eapply wp_lift; [done|]. cbn. apply wp_ret. eapply wp_mono; [apply IH|]. intros [] d2 (Hs2 & Hm2 & Ht2).
    repeat split; [intros x; by rewrite Hs2| |by rewrite Ht2]. intros x. rewrite Hm2. cbn. by apply words_written_ext.
Qed.

Lemma wp_read32 a (d : D) : a mod 4 = 0 -> wp (CHECK_read (wb_read32 a)) (fun v d' => v = word_at (mem d) a /\ d' = d) d.
Proof. intros Ha. unfold CHECK_read. eexists _, _. unfold mbind, M_bind. by rewrite law_read32. Qed.

Lemma wp_read_back offsets last (d : D) : Forall (fun a => a mod 4 = 0 /\ is_u32 a) offsets ->
  wp (read_back 0 offsets last) (fun v d' => v = foldl (fun _ a => word_at (mem d) a) last offsets /\ d' = d) d.
Proof.
  intros Ho. revert last. induction Ho as [|a offsets [Ha Ra] _ IH]; intros last; cbn [read_back]; [by apply wp_ret|].
  apply wp_bind. change (0 + a) with a. rewrite (wrap_small 32 a) by done.
  eapply wp_mono; [by apply wp_read32|]. intros v d' [-> ->]. apply IH.
Qed.
End memory.

Ltac words_in_range := repeat constructor; vm_compute; (done || (split; congruence)).

(** The processor is stalled before anything is tested. *)
Theorem stall_cpus_stalls {D} `{DebugLaws D} (d : D) :
  wp stall_cpus (fun r d' => r = 0 /\ stalled d' = true /\ (forall a, spr d' a = spr d a) /\ (forall a, mem d' a = mem d a)) d.
Proof.
  unfold stall_cpus, CHECK. apply wp_bind, wp_bind.
  eapply wp_mono; [apply law_write_ctrl|]. intros r d1 (-> & Hs & Hm & Ht). cbn. apply wp_ret, wp_bind.
  destruct (law_read_ctrl 0 None d1) as (s & E & Eb). rewrite Ht in Eb. exists s, d1. split.
  { unfold CHECK_read, mbind, M_bind. by rewrite E. }
  apply wp_ret. change 0x1 with (2 ^ 0). rewrite truth_land_pow2, Eb by lia. by rewrite Ht.
Qed.

(** On a memory that keeps what is written, the test of the SRAM passes, and its words, and
    nothing else, are in the memory. *)
Theorem test_sram_passes {D} `{WordLaws D} (d : D) :
  wp test_sram (fun r d' => r = 0 /\ only_words sram_words d d'
    /\ Forall (fun '(a, v) => word_at (mem d') a = v) sram_words) d.
Proof.
  unfold test_sram. apply wp_bind. eapply wp_mono; [apply (wp_write_words sram_words); words_in_range|].
  intros [] d1 Hd. apply wp_bind. eapply wp_mono; [apply wp_read_back; words_in_range|]. intros v d2 [-> ->].
  destruct Hd as (Hs & Hm & Ht). apply wp_ret. cbn [foldl map fst sram_words].
  rewrite (word_at_same _ _ _ Hm). split; [by vm_compute|]. split; [done|].
  rewrite List.Forall_forall. intros [a v] Hin. rewrite (word_at_same _ _ _ Hm).
  repeat (destruct Hin as [[= <- <-]|Hin]; [by vm_compute|]). done.
Qed.


(** * The whole test *)

(** What the board is after the test: the processor stands at the loop of the program, with
    the sum that the program makes in register 1, and the program is in the memory. *)
Definition tested (s : soc) : bool :=
  soc_stalled s && (pc (s_cpu (soc_sim s)) =? 0x10) && (soc_ppc s =? 0x28)
  && (cpu_get_gpr (s_cpu (soc_sim s)) 1 =? 201)
  && forallb (fun '(a, v) => soc_word s a =? v) or1k_program.

(** C22: The test passes on a board whose processor executes instructions as the simulator
    of the recovery software does, whatever its registers and its memory hold and however
    fast it is; no stop takes more than eleven instructions. *)
Theorem selftest_passes `{Build} fuel speed pc npc sr machi maclo b esr epcr eear dsr ttmr ttcr regs mem spr ppc st :
  (11 <= fuel)%nat -> length regs = 31%nat ->
  wp (dbg_test fuel) (fun r s => r = 0 /\ tested s = true)
    (Soc (Sim (Cpu (0 :: regs) pc npc sr machi maclo b esr epcr eear dsr ttmr ttcr) (BoardHost mem spr)) ppc st (S speed)).
Proof.
  intros Hf Hl. unfold dbg_test, test_or1k_cpu0. rewrite (unstall_start 11) by lia.
  do 31 (destruct regs as [|? regs]; [done|]). destruct regs; [|done].
  match goal with |- wp ?m ?Q ?s => assert (E : match m s with Ok (r, s') => (r =? 0) && tested s' | _ => false end = true) end.
  { destruct H; vm_compute; reflexivity. }
  match goal with |- wp ?m ?Q ?s => destruct (m s) as [[r s']| | |] eqn:Em; [|done..] end.
  apply andb_prop in E as [Er Et]. exists r, s'. split; [done|]. split; [by apply Z.eqb_eq|done].
Qed.

Lemma selftest_passes_witness : let build : Build := true in
  wp (dbg_test 11) (fun r s => r = 0 /\ tested s = true)
    (Soc (Sim (Cpu (0 :: replicate 31 7) 0x100 0x104 0x8001 0 0 0xffffffff 0 0 0 0 0 0)
       (BoardHost (fun a => a) (fun _ => 0))) 0 false 3).
Proof. intros build. exact (selftest_passes 11 2 0x100 0x104 0x8001 0 0 0xffffffff 0 0 0 0 0 0 (replicate 31 7)
  (fun a => a) (fun _ => 0) 0 false (le_n 11) eq_refl). Defined.

(** * What the tests do not see *)

Section blind.
(** A board whose memory gives the same word at every address, and whose registers read as
    what the list says, whatever was written. *)
#[local] Instance blind_words : WordAccess (list Z) := {
  wb_read32 adr v s := Ok ((0, Some 0xdedababa), s);
  wb_write32 adr v s := Ok (Returned 0, s);
  wb_read_block16 adr halves len s := Ok ((0, halves), s);
  wb_write_block16 adr halves len s := Ok (Returned 0, s)
}.
#[local] Instance blind_unit : DebugUnit (list Z) := {
  cpu0_read adr v s := Ok ((0, Some (hd 0 s)), tl s);
  cpu0_write adr v s := Ok (Returned 0, s);
  cpu0_read_block adr words count s := Ok ((0, words), s);
  cpu0_write_block adr words count s := Ok (Returned 0, s);
  cpu0_write_ctrl adr v s := Ok (0, s);
  cpu0_read_ctrl adr v s := Ok ((0, Some 1), s);
  wb_read_block32 adr words len s := Ok ((0, words), s);
  wb_write_block32 adr words len s := Ok (Returned 0, s);
  wb_read_block8 adr data len s := Ok ((0, data), s);
  wb_write_block8 adr data len s := Ok (Returned 0, s)
}.

(** Of the nine words only the last is compared, of the registers only their sum: this board,
    on which nothing can be written and every register but one reads as 0, passes. *)
Example blind_board_passes : dbg_test 1 [1100] = Ok (0, []).
Proof. by vm_compute. Qed.
End blind.
