(* ===== verification/HwMonitor.v ===== *)
(** hardware_monitor.c: the thread that stalls and starts the CPU for the servers
    and tells them when it stops, and the pipes between it and them.

    [pipes_mutex] is part of the state; locking it when it is held waits for ever
    ([Hang]).  A pass of the thread's endless loop is [target_handler], given what
    [select] has returned.  Messages on stderr are left out. *)

From S2P Require Import Prelude StateM Tap Cable Chain AdvDbg RspData DebugUnit.
From stdpp Require Import gmap list.

Open Scope Z_scope.

(** * Pipes

    [pipe] opens two descriptors, the second for writing; its results may be
    prescribed, all others are successes.  Descriptors are numbered in sequence
    and not used again.  What is written to a pipe is read from it in order. *)
Record pipes := Pipes {
  next_fd : Z; open_fds : gset Z; queues : gmap Z (list Z); pipe_results : list bool
}.

Definition pipe (p : pipes) : option (Z * Z) * pipes :=
  let later := tail (pipe_results p) in
  if default true (head (pipe_results p)) then
    let r := next_fd p in
    (Some (r, r + 1), Pipes (r + 2) ({[r; r + 1]} ∪ open_fds p) (<[r := []]> (queues p)) later)
  else (None, Pipes (next_fd p) (open_fds p) (queues p) later).

(** What a descriptor for reading holds. *)
Definition queue (fd : Z) (p : pipes) : list Z := default [] (queues p !! fd).

(** [write (fd, &c, 1)]: nothing happens to a descriptor that is closed. *)
Definition fd_write (fd c : Z) (p : pipes) : pipes :=
  if bool_decide (fd ∈ open_fds p /\ fd - 1 ∈ open_fds p) then
    Pipes (next_fd p) (open_fds p) (<[fd - 1 := queue (fd - 1) p ++ [c]]> (queues p)) (pipe_results p)
  else p.

(** [read (fd, &c, 1)]: [None] when there is nothing to be had, [Hang] when there
    may be later. *)
Definition fd_read (fd : Z) (p : pipes) : outcome (option Z * pipes) :=
  if bool_decide (fd ∈ open_fds p) then
    match queue fd p with
    | c :: q =>
        Ok (Some c, Pipes (next_fd p) (open_fds p) (<[fd := q]> (queues p)) (pipe_results p))
    | [] => if bool_decide (fd + 1 ∈ open_fds p) then Hang else Ok (None, p)
    end
  else Ok (None, p).

Definition fd_close (fd : Z) (p : pipes) : pipes :=
  Pipes (next_fd p) (open_fds p ∖ {[fd]}) (queues p) (pipe_results p).

(** * The state *)

Definition MAX_MONITOR_CONNECTIONS : Z := 5.

(** Both arrays have the reading end at 0 and the writing end at 1. *)
Record fdstruct_t := FdStruct {
  server_to_monitor_fds : Z * Z; monitor_to_server_fds : Z * Z
}.

Record hwmon (D : Type) := HwMon {
  monitor_thread_running : bool;
  target_is_running : bool;
  num_monitor_connections : Z;
  connections : list fdstruct_t;
  pipes_mutex : bool;
  io : pipes;
  unit_of : D
}.
Arguments HwMon {D} _ _ _ _ _ _ _.
Arguments monitor_thread_running {D} _.
Arguments target_is_running {D} _.
Arguments num_monitor_connections {D} _.
Arguments connections {D} _.
Arguments pipes_mutex {D} _.
Arguments io {D} _.
Arguments unit_of {D} _.

Section monitor.
Context {D : Type} `{DebugUnit D}.

Definition set_monitor_thread_running (v : bool) (m : hwmon D) : hwmon D :=
  HwMon v (target_is_running m) (num_monitor_connections m) (connections m) (pipes_mutex m)
    (io m) (unit_of m).
Definition set_target_is_running (v : bool) (m : hwmon D) : hwmon D :=
  HwMon (monitor_thread_running m) v (num_monitor_connections m) (connections m) (pipes_mutex m)
    (io m) (unit_of m).
Definition set_connections (n : Z) (v : list fdstruct_t) (m : hwmon D) : hwmon D :=
  HwMon (monitor_thread_running m) (target_is_running m) n v (pipes_mutex m) (io m) (unit_of m).
Definition set_pipes_mutex (v : bool) (m : hwmon D) : hwmon D :=
  HwMon (monitor_thread_running m) (target_is_running m) (num_monitor_connections m)
    (connections m) v (io m) (unit_of m).
Definition set_io (v : pipes) (m : hwmon D) : hwmon D :=
  HwMon (monitor_thread_running m) (target_is_running m) (num_monitor_connections m)
    (connections m) (pipes_mutex m) v (unit_of m).
Definition set_unit (v : D) (m : hwmon D) : hwmon D :=
  HwMon (monitor_thread_running m) (target_is_running m) (num_monitor_connections m)
    (connections m) (pipes_mutex m) (io m) v.

(** The initial values: descriptors 0 to 2 are open. *)
Definition initial_hwmon (results : list bool) (d : D) : hwmon D :=
  HwMon false false 0 (replicate (Z.to_nat MAX_MONITOR_CONNECTIONS) (FdStruct (0, 0) (0, 0))) false
    (Pipes 3 {[0; 1; 2]} ∅ results) d.

(** ** Locks, pipes and the debug unit as commands *)

Definition lock_pipes : M (hwmon D) unit := fun m =>
  if pipes_mutex m then Hang else Ok (tt, set_pipes_mutex true m).
Definition unlock_pipes : M (hwmon D) unit := modify (set_pipes_mutex false).

Definition make_pipe : M (hwmon D) (option (Z * Z)) := fun m =>
  let '(r, p) := pipe (io m) in Ok (r, set_io p m).
Definition write_pipe (fd c : Z) : M (hwmon D) unit := modify (fun m => set_io (fd_write fd c (io m)) m).
Definition close_fd (fd : Z) : M (hwmon D) unit := modify (fun m => set_io (fd_close fd (io m)) m).
Definition read_pipe (fd : Z) : M (hwmon D) (option Z) := fun m =>
  match fd_read fd (io m) with
  | Ok (c, p) => Ok (c, set_io p m)
  | Hang => Hang | AssertFail => AssertFail | Undef => Undef
  end.

Definition on_unit {A} (f : M D A) : M (hwmon D) A := fun m =>
  match f (unit_of m) with
  | Ok (a, d) => Ok (a, set_unit d m)
  | Hang => Hang | AssertFail => AssertFail | Undef => Undef
  end.

Definition connection (i : Z) : M (hwmon D) fdstruct_t := fun m =>
  match read_var (if 0 <=? i then connections m !! Z.to_nat i else None) with
  | Ok c => Ok (c, m)
  | _ => Undef
  end.

(** ** Public API functions *)

(** [created]: whether [pthread_create] succeeds. *)
Definition start_monitor_thread (created : bool) : M (hwmon D) Z :=
  modify (set_target_is_running true);;
  if created then modify (set_monitor_thread_running true);; mret 1 else mret 0.

Definition set_connection (i : Z) (c : fdstruct_t) (m : hwmon D) : hwmon D :=
  set_connections (num_monitor_connections m) (<[Z.to_nat i := c]> (connections m)) m.

(** The result and the new [pipe_fds], if they are set.  A failure to make a pipe
    returns with the lock held. *)
Definition register_with_monitor_thread : M (hwmon D) (Z * option (Z * Z)) :=
  running ← gets monitor_thread_running;
  if negb running then mret (0, None) else
  num ← gets num_monitor_connections;
  if MAX_MONITOR_CONNECTIONS <=? num then mret (0, None) else
  lock_pipes;;
  p ← make_pipe;
  match p with
  | None => mret (0, None)
  | Some fds =>
      c ← connection num;
      modify (set_connection num (FdStruct fds (monitor_to_server_fds c)));;
      q ← make_pipe;
      match q with
      | None => mret (0, None)
      | Some fds' =>
          modify (set_connection num (FdStruct fds fds'));;
          modify (fun m => set_connections (num + 1) (connections m) m);;
          unlock_pipes;;
          mret (1, Some (fds.2, fds'.1))
      end
  end.

Definition is_connection (pipe_fds : Z * Z) (c : fdstruct_t) : bool :=
  (snd (server_to_monitor_fds c) =? pipe_fds.1) && (fst (monitor_to_server_fds c) =? pipe_fds.2).

(** The first of the [num] connections with these descriptors. *)
Definition find_connection (pipe_fds : Z * Z) (m : hwmon D) : option Z :=
  for_return (num_monitor_connections m) (fun i =>
    match connections m !! Z.to_nat i with
    | Some c => if is_connection pipe_fds c then Some i else None
    | None => None
    end).

(** Returns the new [pipe_fds]. *)
Definition unregister_with_monitor_thread (pipe_fds : Z * Z) : M (hwmon D) (Z * Z) :=
  if (pipe_fds.1 <? 0) || (pipe_fds.2 <? 0) then mret pipe_fds else
  lock_pipes;;
  found ← gets (find_connection pipe_fds);
  match found with
  | None => unlock_pipes;; mret pipe_fds
  | Some i =>
      c ← connection i;
      close_fd (fst (server_to_monitor_fds c));;
      close_fd (snd (server_to_monitor_fds c));;
      close_fd (fst (monitor_to_server_fds c));;
      close_fd (snd (monitor_to_server_fds c));;
      num ← gets num_monitor_connections;
      last ← connection (num - 1);
      (if negb (i =? num - 1) then modify (set_connection i last) else mret tt);;
      modify (fun m => set_connections (num - 1) (connections m) m);;
      unlock_pipes;;
      mret (-1, -1)
  end.

(** ** Helper functions *)

Definition stall_cpu (stall : Z) : M (hwmon D) unit :=
  let data := if 0 <? stall then 1 else 0 in
  _ ← on_unit (cpu0_write_ctrl 0 data);
  modify (set_target_is_running (negb (truth data))).

Definition notify_listeners (c : Z) : M (hwmon D) unit :=
  num ← gets num_monitor_connections;
  mfor_upto num (fun i _ =>
    k ← connection i;
    write_pipe (snd (monitor_to_server_fds k)) c) tt.

(** ** The thread *)

(** What [select] returns: an error, no descriptor within a quarter of a second,
    or the descriptors that are ready. *)
Inductive select_result :=
| SelectError
| SelectTimeout
| SelectReady (readset : gset Z).

(** A command: S (83) stalls, U (85) starts the CPU. *)
Definition run_command (cmd : Z) : M (hwmon D) unit :=
  running ← gets target_is_running;
  if cmd =? 83 then
    (if (running : bool) then stall_cpu 1 else mret tt);; notify_listeners 72
  else if cmd =? 85 then
    (if negb running then stall_cpu 0 else mret tt);; notify_listeners 82
  else mret tt.

Definition poll_target : M (hwmon D) unit :=
  running ← gets target_is_running;
  if negb running then mret tt else
  '(ret, status) ← on_unit (cpu0_read_ctrl 0 None);
  if truth ret then mret tt else
  status ← lift (read_var status);
  if truth (Z.land status 1) then
    modify (set_target_is_running false);;
    lock_pipes;;
    notify_listeners 72;;
    unlock_pipes
  else mret tt.

Definition target_handler (selected : select_result) : M (hwmon D) unit :=
  match selected with
  | SelectReady readset =>
      lock_pipes;;
      num ← gets num_monitor_connections;
      mfor_upto num (fun i _ =>
        k ← connection i;
        let fd := fst (server_to_monitor_fds k) in
        if bool_decide (fd ∈ readset) then
          cmd ← read_pipe fd;
          match cmd with
          | Some cmd => run_command cmd
          | None => mret tt
          end
        else mret tt) tt;;
      unlock_pipes
  | _ => poll_target
  end.

(** The descriptors a [select] finds ready: the reading ends that are not empty. *)
Definition readset (m : hwmon D) : gset Z :=
  list_to_set (filter (fun fd => queue fd (io m) <> [])
    (map (fun c => fst (server_to_monitor_fds c))
       (take (Z.to_nat (num_monitor_connections m)) (connections m)))).

Definition select (m : hwmon D) : select_result :=
  if decide (readset m = ∅) then SelectTimeout else SelectReady (readset m).
End monitor.
