(* ===== verification/Rsp.v ===== *)
(** rsp-server.c: the state of the server and its packets.

    The GDB client is what the system calls on its socket return: [reads] and
    [writes] are the results of the coming calls of [read] and [write].  A [read]
    of which the result is not in the list finds nothing, for ever, and the server
    tries again for ever ([Hang]); a [write] of which the result is not in the list
    succeeds.  [sent] is what the client has been sent.

    The loops that wait for a character use up [reads], so that as many passes as
    there are results, and one more, are enough. *)

From Stdlib Require Import String.
From S2P Require Import Prelude Scanf StateM Tap Cable Chain AdvDbg RspData DebugUnit HwMonitor.
From stdpp Require Import gmap list.

Open Scope Z_scope.
Open Scope cword_scope.

(** * The state *)

(** The static variables of the file: the structure [rsp], [use_cached_npc],
    [cached_npc], [pipe_fds] and the buffer of [get_packet]. *)
Record rsp_t := Rsp {
  client_waiting : bool;
  target_running : bool;
  single_step_mode : bool;
  server_fd : Z;
  client_fd : Z;
  sigval : Z;
  start_addr : Z;
  mp_hash : mp_table;
  use_cached_npc : bool;
  cached_npc : Z;
  pipe_fds : Z * Z;
  buf_data : list Z;
  buf_len : Z
}.

Definition set_client_waiting (v : bool) (r : rsp_t) : rsp_t :=
  Rsp v (target_running r) (single_step_mode r) (server_fd r) (client_fd r) (sigval r)
    (start_addr r) (mp_hash r) (use_cached_npc r) (cached_npc r) (pipe_fds r) (buf_data r)
    (buf_len r).
Definition set_target_running (v : bool) (r : rsp_t) : rsp_t :=
  Rsp (client_waiting r) v (single_step_mode r) (server_fd r) (client_fd r) (sigval r)
    (start_addr r) (mp_hash r) (use_cached_npc r) (cached_npc r) (pipe_fds r) (buf_data r)
    (buf_len r).
Definition set_single_step_mode (v : bool) (r : rsp_t) : rsp_t :=
  Rsp (client_waiting r) (target_running r) v (server_fd r) (client_fd r) (sigval r)
    (start_addr r) (mp_hash r) (use_cached_npc r) (cached_npc r) (pipe_fds r) (buf_data r)
    (buf_len r).
Definition set_server_fd (v : Z) (r : rsp_t) : rsp_t :=
  Rsp (client_waiting r) (target_running r) (single_step_mode r) v (client_fd r) (sigval r)
    (start_addr r) (mp_hash r) (use_cached_npc r) (cached_npc r) (pipe_fds r) (buf_data r)
    (buf_len r).
Definition set_client_fd (v : Z) (r : rsp_t) : rsp_t :=
  Rsp (client_waiting r) (target_running r) (single_step_mode r) (server_fd r) v (sigval r)
    (start_addr r) (mp_hash r) (use_cached_npc r) (cached_npc r) (pipe_fds r) (buf_data r)
    (buf_len r).
Definition set_sigval (v : Z) (r : rsp_t) : rsp_t :=
  Rsp (client_waiting r) (target_running r) (single_step_mode r) (server_fd r) (client_fd r) v
    (start_addr r) (mp_hash r) (use_cached_npc r) (cached_npc r) (pipe_fds r) (buf_data r)
    (buf_len r).
Definition set_start_addr (v : Z) (r : rsp_t) : rsp_t :=
  Rsp (client_waiting r) (target_running r) (single_step_mode r) (server_fd r) (client_fd r)
    (sigval r) v (mp_hash r) (use_cached_npc r) (cached_npc r) (pipe_fds r) (buf_data r)
    (buf_len r).
Definition set_mp_hash (v : mp_table) (r : rsp_t) : rsp_t :=
  Rsp (client_waiting r) (target_running r) (single_step_mode r) (server_fd r) (client_fd r)
    (sigval r) (start_addr r) v (use_cached_npc r) (cached_npc r) (pipe_fds r) (buf_data r)
    (buf_len r).
Definition set_use_cached_npc (v : bool) (r : rsp_t) : rsp_t :=
  Rsp (client_waiting r) (target_running r) (single_step_mode r) (server_fd r) (client_fd r)
    (sigval r) (start_addr r) (mp_hash r) v (cached_npc r) (pipe_fds r) (buf_data r) (buf_len r).
Definition set_cached_npc (v : Z) (r : rsp_t) : rsp_t :=
  Rsp (client_waiting r) (target_running r) (single_step_mode r) (server_fd r) (client_fd r)
    (sigval r) (start_addr r) (mp_hash r) (use_cached_npc r) v (pipe_fds r) (buf_data r)
    (buf_len r).
Definition set_pipe_fds (v : Z * Z) (r : rsp_t) : rsp_t :=
  Rsp (client_waiting r) (target_running r) (single_step_mode r) (server_fd r) (client_fd r)
    (sigval r) (start_addr r) (mp_hash r) (use_cached_npc r) (cached_npc r) v (buf_data r)
    (buf_len r).
Definition set_buf_data (v : list Z) (r : rsp_t) : rsp_t :=
  Rsp (client_waiting r) (target_running r) (single_step_mode r) (server_fd r) (client_fd r)
    (sigval r) (start_addr r) (mp_hash r) (use_cached_npc r) (cached_npc r) (pipe_fds r) v
    (buf_len r).
Definition set_buf_len (v : Z) (r : rsp_t) : rsp_t :=
  Rsp (client_waiting r) (target_running r) (single_step_mode r) (server_fd r) (client_fd r)
    (sigval r) (start_addr r) (mp_hash r) (use_cached_npc r) (cached_npc r) (pipe_fds r)
    (buf_data r) v.

(** Before [rsp_init], and after it when it has opened the socket [fd]. *)
Definition zero_rsp : rsp_t :=
  Rsp false false false 0 0 0 0 (replicate (Z.to_nat MP_HASH_SIZE) []) false 0 (0, 0)
    (replicate (Z.to_nat GDB_BUF_MAX) 0) 0.

Inductive read_result := Char (c : Z) | ReadAgain | ReadEof | ReadError.
Inductive write_call := WriteDone | WriteAgain | WriteError.

(** [poll] on the socket of the server or of the client and the pipe: an error,
    which may be an interrupt, no event, or which of the two has input. *)
Inductive poll_result :=
| PollError (interrupt : bool)
| PollTimeout
| PollEvent (socket pipe : bool).

(** [accept]: an error, which may be one that permits a retry, or a descriptor, and
    whether its options can be set. *)
Inductive accept_result :=
| AcceptError (retry : bool)
| Accepted (fd : Z) (options : bool).

Record gdb_t := Gdb {
  reads : list read_result;
  writes : list write_call;
  sent : list Z;
  polls : list poll_result;
  accepts : list accept_result
}.

Definition set_reads (v : list read_result) (g : gdb_t) : gdb_t :=
  Gdb v (writes g) (sent g) (polls g) (accepts g).
Definition set_writes (v : list write_call) (g : gdb_t) : gdb_t :=
  Gdb (reads g) v (sent g) (polls g) (accepts g).
Definition send_char (c : Z) (g : gdb_t) : gdb_t :=
  Gdb (reads g) (writes g) (sent g ++ [u8 c]) (polls g) (accepts g).
Definition set_polls (v : list poll_result) (g : gdb_t) : gdb_t :=
  Gdb (reads g) (writes g) (sent g) v (accepts g).
Definition set_accepts (v : list accept_result) (g : gdb_t) : gdb_t :=
  Gdb (reads g) (writes g) (sent g) (polls g) v.

(** The server, its client, the watchpoints in use (hwp_server.c), and the monitor
    thread with the debug unit. *)
Record world (D : Type) := World {
  rsp : rsp_t; gdb : gdb_t; hwp_in_use : list Z; hm : hwmon D
}.
Arguments World {D} _ _ _ _.
Arguments rsp {D} _.
Arguments gdb {D} _.
Arguments hwp_in_use {D} _.
Arguments hm {D} _.

Section rsp.
Context `{Target, Alloc, Unspecified} {D : Type} `{DebugUnit D}.

Definition upd_rsp (f : rsp_t -> rsp_t) (w : world D) : world D :=
  World (f (rsp w)) (gdb w) (hwp_in_use w) (hm w).
Definition upd_gdb (f : gdb_t -> gdb_t) (w : world D) : world D :=
  World (rsp w) (f (gdb w)) (hwp_in_use w) (hm w).
Definition upd_hwp (f : list Z -> list Z) (w : world D) : world D :=
  World (rsp w) (gdb w) (f (hwp_in_use w)) (hm w).
Definition set_hm (v : hwmon D) (w : world D) : world D :=
  World (rsp w) (gdb w) (hwp_in_use w) v.

Definition get {A} (f : rsp_t -> A) : M (world D) A := gets (fun w => f (rsp w)).
Definition put (f : rsp_t -> rsp_t) : M (world D) unit := modify (upd_rsp f).

Definition on_hm {A} (f : M (hwmon D) A) : M (world D) A := fun w =>
  match f (hm w) with
  | Ok (a, m) => Ok (a, set_hm m w)
  | Hang => Hang | AssertFail => AssertFail | Undef => Undef
  end.

(** A call of the debug API, and one that writes. *)
Definition dbg {A} (f : M D A) : M (world D) A := on_hm (on_unit f).
Definition dbg_write (f : M D write_result) : M (world D) Z := r ← dbg f; lift (returned r).

(** [dbg_cpu0_read (adr, &v)]: the error and the variable. *)
Definition read_spr (adr : Z) (v : option Z) : M (world D) (Z * option Z) := dbg (cpu0_read adr v).
Definition write_spr (adr v : Z) : M (world D) Z := dbg_write (cpu0_write adr (u32 v)).
Definition value (v : option Z) : Z := default unspecified v.

(** * Connections and the target *)

Definition set_stall_state (stall : Z) : M (world D) unit :=
  (if stall =? 0 then put (set_use_cached_npc false) else mret tt);;
  fds ← get pipe_fds;
  on_hm (write_pipe fds.1 (if truth stall then 83 else 85)).

Definition rsp_server_close : M (world D) unit := put (set_server_fd (-1)).

Definition rsp_client_close : M (world D) unit :=
  running ← get target_running;
  (if (running : bool) then set_stall_state 1 else mret tt);;
  _ ← write_spr SPR_DSR 0;
  running ← get target_running;
  (if (running : bool) then set_stall_state 0 else mret tt);;
  fds ← get pipe_fds;
  fds ← on_hm (unregister_with_monitor_thread fds);
  put (set_pipe_fds fds);;
  put (set_client_fd (-1)).

(** * Characters *)

(** The results up to that of the call that ends the loop: whether it succeeds. *)
Fixpoint write_loop (results : list write_call) : bool * list write_call :=
  match results with
  | [] => (true, [])
  | WriteDone :: results => (true, results)
  | WriteError :: results => (false, results)
  | WriteAgain :: results => write_loop results
  end.

Definition put_rsp_char (c : Z) : M (world D) unit :=
  fd ← get client_fd;
  if fd =? -1 then mret tt else
  results ← gets (fun w => writes (gdb w));
  let '(ok, results) := write_loop results in
  modify (upd_gdb (set_writes results));;
  if (ok : bool) then modify (upd_gdb (send_char c)) else rsp_client_close.

Fixpoint read_loop (results : list read_result) : outcome (option Z * list read_result) :=
  match results with
  | [] => Hang
  | Char c :: results => Ok (Some (u8 c), results)
  | ReadAgain :: results => read_loop results
  | ReadEof :: results | ReadError :: results => Ok (None, results)
  end.

Definition get_rsp_char : M (world D) Z :=
  fd ← get client_fd;
  if fd =? -1 then mret (-1) else
  results ← gets (fun w => reads (gdb w));
  '(c, results) ← lift (read_loop results);
  modify (upd_gdb (set_reads results));;
  match c with
  | Some c => mret c
  | None => rsp_client_close;; mret (-1)
  end.

(** * Packets *)

(** The loop over the characters of a packet: it returns the checksum. *)
Fixpoint put_body (data : list Z) (checksum : Z) : M (world D) Z :=
  match data with
  | [] => mret checksum
  | ch :: data =>
      if escaped ch then
        put_rsp_char 125;;
        put_rsp_char (ch .^ 0x20);;
        put_body data (u8 (u8 (checksum + 125) + (ch .^ 0x20)))
      else
        put_rsp_char ch;;
        put_body data (u8 (checksum + ch))
  end.

Definition put_frame (data : list Z) : M (world D) unit :=
  put_rsp_char 36;;
  checksum ← put_body data 0;
  put_rsp_char 35;;
  put_rsp_char (hexchar (Z.shiftr checksum 4));;
  put_rsp_char (hexchar (checksum mod 16)).

Fixpoint put_packet_loop (fuel : nat) (data : list Z) : M (world D) unit :=
  match fuel with
  | O => lift Hang
  | S fuel =>
      put_frame data;;
      ch ← get_rsp_char;
      if ch =? -1 then mret tt else
      if ch =? 43 then mret tt else put_packet_loop fuel data
  end.

Definition put_packet (data : list Z) : M (world D) unit :=
  results ← gets (fun w => reads (gdb w));
  put_packet_loop (S (List.length results)) data.

Definition put_str_packet (str : string) : M (world D) unit :=
  put_packet (take (Z.to_nat (GDB_BUF_MAX - 1)) (bytes str)).

(** [buf.data[i] = c]: undefined outside of the buffer. *)
Definition put_buf (i c : Z) : M (world D) unit :=
  if (0 <=? i) && (i <? GDB_BUF_MAX) then put (fun r => set_buf_data (<[Z.to_nat i := c]> (buf_data r)) r)
  else lift Undef.

(** Waiting for the start of a packet: 36, -1 for the end of the connection, or 3
    for a break. *)
Fixpoint wait_start (fuel : nat) : M (world D) Z :=
  match fuel with
  | O => lift Hang
  | S fuel =>
      ch ← get_rsp_char;
      if (ch =? 36) || (ch =? -1) || (ch =? 3) then mret ch else wait_start fuel
  end.

(** The characters up to the mark, -1, or the end of the buffer: the last character,
    the checksum and the number of characters. *)
Fixpoint get_body (fuel : nat) (ch checksum count : Z) : M (world D) (Z * Z * Z) :=
  match fuel with
  | O => lift Hang
  | S fuel =>
      if count <? GDB_BUF_MAX - 1 then
        ch ← get_rsp_char;
        if ch =? -1 then mret (ch, checksum, count) else
        if ch =? 36 then get_body fuel ch 0 0 else
        if ch =? 35 then mret (ch, checksum, count) else
        put_buf count ch;;
        get_body fuel ch (u8 (checksum + ch)) (count + 1)
      else mret (ch, checksum, count)
  end.

(** How an attempt to get a packet ends. *)
Inductive attempt := NoPacket | Packet | Again.

(** The checksum that follows the mark. *)
Definition get_checksum (checksum : Z) : M (world D) attempt :=
  ch ← get_rsp_char;
  if ch =? -1 then mret NoPacket else
  xmitcsum ← lift (shl_int (hex ch) 4);
  let xmitcsum := u8 xmitcsum in
  ch ← get_rsp_char;
  if ch =? -1 then mret NoPacket else
  if negb (checksum =? u8 (xmitcsum + hex ch)) then put_rsp_char 45;; mret Again
  else put_rsp_char 43;; mret Packet.

Definition get_attempt (fuel : nat) : M (world D) attempt :=
  ch ← wait_start fuel;
  if ch =? -1 then mret NoPacket else
  if ch =? 3 then put_buf 0 3;; put (set_buf_len 1);; mret Packet else
  '(ch, checksum, count) ← get_body fuel ch 0 0;
  if ch =? -1 then mret NoPacket else
  put_buf count 0;;
  put (set_buf_len count);;
  if ch =? 35 then get_checksum checksum else mret Again.

Fixpoint get_packet_loop (fuel : nat) : M (world D) bool :=
  match fuel with
  | O => lift Hang
  | S fuel =>
      results ← gets (fun w => reads (gdb w));
      r ← get_attempt (S (List.length results));
      match r with
      | NoPacket => mret false
      | Packet => mret true
      | Again => get_packet_loop fuel
      end
  end.

(** Whether there is a packet; it is then in the buffer. *)
Definition get_packet : M (world D) bool :=
  results ← gets (fun w => reads (gdb w));
  get_packet_loop (S (List.length results)).
End rsp.
