(* ===== verification/RspFacts.v ===== *)
(** Characters and packets of rsp-server.c: what goes over the socket when the client
    is connected.

    [talks r s w w'] says that between [w] and [w'] the results [r] of [read] have
    been used and [s] has been sent, and that nothing else of the world has changed. *)

From Stdlib Require Import String.
From S2P Require Import Prelude Scanf StateM Tap Cable Chain AdvDbg RspData RspCodec.
From S2P Require Import DebugUnit HwMonitor Rsp.
From stdpp Require Import gmap list.

Open Scope Z_scope.
Open Scope cword_scope.

Definition writes_ok (ws : list write_call) : Prop := Forall (fun r => r <> WriteError) ws.

(** The client is there, and no write fails. *)
Definition connected {D} (w : world D) : Prop :=
  client_fd (rsp w) <> -1 /\ writes_ok (writes (gdb w)).

Record talks {D} (r : list read_result) (s : list Z) (w w' : world D) : Prop := Talks {
  talks_rsp : rsp w' = rsp w;
  talks_hwp : hwp_in_use w' = hwp_in_use w;
  talks_hm : hm w' = hm w;
  talks_reads : reads (gdb w) = r ++ reads (gdb w');
  talks_sent : sent (gdb w') = sent (gdb w) ++ s;
  talks_polls : polls (gdb w') = polls (gdb w);
  talks_accepts : accepts (gdb w') = accepts (gdb w);
  talks_writes : writes_ok (writes (gdb w'))
}.

(** [rs] are results of [read] with which the characters [s] arrive, none of them
    left behind the last. *)
Inductive delivers : list Z -> list read_result -> Prop :=
| delivers_nil : delivers [] []
| delivers_char n c s rs :
    is_u8 c -> delivers s rs -> delivers (c :: s) (replicate n ReadAgain ++ Char c :: rs).

(** The next command of the server. *)
Ltac rsp_pure :=
  cbv beta iota;
  lazymatch goal with
  | |- wp (get _) _ _ => apply wp_gets
  | |- wp (put _) _ _ => apply wp_modify
  | |- wp (match ?p with pair _ _ => _ end) _ _ => destruct p eqn:?
  | |- _ => wp_pure
  end.

(** Sums of bytes that differ in where they are reduced. *)
Ltac u8_sums := unfold wrap; change (2 ^ 8) with 256; Z.div_mod_to_equations; lia.

Section talks.
Context `{Target, Alloc, Unspecified} {D : Type} `{DebugUnit D}.
Implicit Types w : world D.

Lemma talks_refl w : writes_ok (writes (gdb w)) -> talks [] [] w w.
Proof. intros. split; try done. by rewrite app_nil_r. Qed.

Lemma talks_trans r r' s s' w1 w2 w3 :
  talks r s w1 w2 -> talks r' s' w2 w3 -> talks (r ++ r') (s ++ s') w1 w3.
Proof.
  intros [A1 A2 A3 A4 A5 A6 A7 A8] [B1 B2 B3 B4 B5 B6 B7 B8]. split; try congruence.
  - by rewrite A4, B4, app_assoc.
  - by rewrite B5, A5, app_assoc.
Qed.

Lemma talks_rest r s w w' rest :
  talks r s w w' -> reads (gdb w) = r ++ rest -> reads (gdb w') = rest.
Proof. intros T Hr. rewrite (talks_reads _ _ _ _ T) in Hr. by apply app_inv_head in Hr. Qed.

Lemma talks_connected r s w w' : talks r s w w' -> connected w -> connected w'.
Proof. intros T [Hc _]. split; [by rewrite (talks_rsp _ _ _ _ T)|apply T]. Qed.

Lemma delivers_app s s' rs rs' : delivers s rs -> delivers s' rs' -> delivers (s ++ s') (rs ++ rs').
Proof.
  induction 1 as [|n c s rs Hc Hs IH]; intros Hs'; [done|].
  rewrite <- app_assoc. simpl. by constructor; [|apply IH].
Qed.

Lemma delivers_app_inv s s' rs :
  delivers (s ++ s') rs -> exists r r', rs = r ++ r' /\ delivers s r /\ delivers s' r'.
Proof.
  revert rs. induction s as [|c s IH]; intros rs Hd.
  { exists [], rs. split; [done|]. split; [constructor|done]. }
  simpl in Hd. inversion Hd as [|n c' s0 rs0 Hc Hd' E1 E2]; subst.
  destruct (IH _ Hd') as (r & r' & -> & Hr & Hr').
  exists (replicate n ReadAgain ++ Char c :: r), r'. split; [by rewrite <- app_assoc|].
  split; [by constructor|done].
Qed.

Lemma delivers_map s : Forall is_u8 s -> delivers s (map Char s).
Proof. induction 1 as [|c s Hc Hs IH]; [constructor|]. by apply (delivers_char 0). Qed.

Lemma delivers_length s rs : delivers s rs -> (length s <= length rs)%nat.
Proof. induction 1; [done|]. rewrite length_app. simpl. lia. Qed.

(** ** The buffer *)

(** Putting a character into the buffer, where it has room. *)
Lemma put_buf_in i c : 0 <= i < GDB_BUF_MAX ->
  put_buf (D := D) i c = put (fun r => set_buf_data (<[Z.to_nat i := c]> (buf_data r)) r).
Proof. intros Hi. unfold put_buf. destruct (Z.leb_spec 0 i), (Z.ltb_spec i GDB_BUF_MAX); [done|lia..]. Qed.

(** ** Characters *)

Lemma write_loop_ok ws : writes_ok ws ->
  exists ws', write_loop ws = (true, ws') /\ writes_ok ws'.
Proof.
  induction 1 as [|r ws Hr Hws IH]; simpl; [exists []; split; [done|constructor]|].
  destruct r; [by exists ws|done|done].
Qed.

Lemma wp_put_rsp_char c w :
  connected w -> wp (put_rsp_char c) (fun _ w' => talks [] [u8 c] w w') w.
Proof.
  intros [Hc Hw]. unfold put_rsp_char. rsp_pure. rsp_pure.
  destruct (Z.eqb_spec (client_fd (rsp w)) (-1)); [done|]. rsp_pure. rsp_pure.
  destruct (write_loop_ok _ Hw) as (ws' & -> & Hws'). rsp_pure. rsp_pure. rsp_pure.
  by split.
Qed.

Lemma wp_get_rsp_char n c rest w :
  connected w -> is_u8 c -> reads (gdb w) = replicate n ReadAgain ++ Char c :: rest ->
  wp get_rsp_char (fun c' w' => c' = c /\ talks (replicate n ReadAgain ++ [Char c]) [] w w') w.
Proof.
  intros [Hc Hw] Hu Hr. unfold get_rsp_char. rsp_pure. rsp_pure.
  destruct (Z.eqb_spec (client_fd (rsp w)) (-1)); [done|]. rsp_pure. rsp_pure. rsp_pure.
  rewrite Hr. eapply wp_lift.
  { instantiate (1 := (Some c, rest)). clear Hr. induction n as [|n IH]; [|done].
    simpl. by rewrite (wrap_small 8). }
  rsp_pure. rsp_pure. rsp_pure. split; [done|].
  split; try done; simpl; [by rewrite Hr, <- app_assoc|by rewrite app_nil_r].
Qed.

(** A command that only talks, and what comes after it. *)
Lemma wp_talks {A B} (m : M (world D) A) (f : A -> M (world D) B) (P : A -> Prop) r s r' s'
    (R : B -> Prop) w :
  connected w ->
  wp m (fun a w' => P a /\ talks r s w w') w ->
  (forall a w', P a -> talks r s w w' -> connected w' ->
     wp (f a) (fun b w'' => R b /\ talks r' s' w' w'') w') ->
  wp (m ≫= f) (fun b w'' => R b /\ talks (r ++ r') (s ++ s') w w'') w.
Proof.
  intros Hc Hm Hf. apply wp_bind. eapply wp_mono; [done|]. intros a w' [Ha T].
  eapply wp_mono; [by apply Hf, (talks_connected _ _ _ _ T)|].
  intros b w'' (Hb & T'). split; [done|]. by eapply talks_trans.
Qed.

Lemma wp_put_char c w :
  connected w -> is_u8 c -> wp (put_rsp_char c) (fun _ w' => True /\ talks [] [c] w w') w.
Proof.
  intros Hc Hu. eapply wp_mono; [by apply wp_put_rsp_char|]. intros ? w' T. cbv beta in T.
  rewrite (wrap_small 8) in T; [by split|done].
Qed.

(** ** Packets *)

Lemma fold_add_from l a : fold_left Z.add l a = a + fold_left Z.add l 0.
Proof.
  revert a. induction l as [|x l IH]; intros a; simpl; [lia|].
  rewrite (IH (a + x)), (IH (0 + x)). lia.
Qed.

Lemma checksum_app l1 l2 : checksum (l1 ++ l2) = u8 (checksum l1 + checksum l2).
Proof.
  unfold checksum. by rewrite fold_left_app, fold_add_from, wrap_add_l, wrap_add_r.
Qed.

Lemma checksum_one c : checksum [c] = u8 c.
Proof. done. Qed.

Lemma escaped_u8 c : is_u8 c -> is_u8 (c .^ 0x20).
Proof. intros. by apply is_word_lxor. Qed.

Lemma escape_char_u8 c : is_u8 c -> Forall is_u8 (escape_char c).
Proof.
  intros Hc. unfold escape_char. destruct (escaped c); rewrite ?Forall_cons, ?Forall_nil; [|done].
  split; [done|]. split; [by apply escaped_u8|done].
Qed.

Lemma wp_put_body data cs w :
  connected w -> Forall is_u8 data ->
  wp (put_body data cs)
    (fun c w' => u8 c = u8 (cs + checksum (escape data)) /\ talks [] (escape data) w w') w.
Proof.
  intros Hc Hd. revert cs w Hc. induction Hd as [|c data Hu Hd IH]; intros cs w Hc.
  { cbn [put_body]. rsp_pure. unfold checksum. simpl. rewrite Z.add_0_r. split; [done|]. apply talks_refl, Hc. }
  change (escape (c :: data)) with (escape_char c ++ escape data). rewrite checksum_app.
  cbn [put_body]. pose proof (escape_char_u8 c Hu) as Hu'. unfold escape_char in *.
  destruct (escaped c).
  - apply Forall_cons in Hu' as [Hu1 [Hu2 _]%Forall_cons].
    change ([125; c .^ 32] ++ escape data) with ([125] ++ ([c .^ 32] ++ escape data)).
    apply (wp_talks _ _ _ [] _ [] _ _ _ Hc (wp_put_char _ _ Hc Hu1)). intros _ w1 _ _ Hc1.
    apply (wp_talks _ _ _ [] _ [] _ _ _ Hc1 (wp_put_char _ _ Hc1 Hu2)). intros _ w2 _ _ Hc2.
    eapply wp_mono; [by apply IH|]. intros r w3 [Hr T]. split; [|done]. rewrite Hr.
    change [125; c .^ 32] with ([125] ++ [c .^ 32]). rewrite checksum_app, !checksum_one.
    u8_sums.
  - apply Forall_cons in Hu' as [Hu' _].
    apply (wp_talks _ _ _ [] _ [] _ _ _ Hc (wp_put_char _ _ Hc Hu')). intros _ w1 _ _ Hc1.
    eapply wp_mono; [by apply IH|]. intros r w2 [Hr T]. split; [|done]. rewrite Hr.
    rewrite checksum_one. u8_sums.
Qed.

Lemma hexchar_u8 i : 0 <= i < 16 -> is_u8 (hexchar i).
Proof.
  intros Hi. destruct (plain_digit_spec _ (hexchar_plain i Hi)) as [Hr _]. unfold is_word. lia.
Qed.

Lemma put_body_u8 data cs w :
  is_u8 cs -> wp (put_body data cs) (fun _ _ => True) w ->
  wp (put_body data cs) (fun c _ => is_u8 c) w.
Proof.
  intros Hcs (c & w' & Hm & _). exists c, w'. split; [done|].
  revert cs w Hcs Hm. induction data as [|x data IH]; intros cs w Hcs Hm.
  { by injection Hm as -> ->. }
  cbn [put_body] in Hm. unfold mbind, M_bind in Hm.
  destruct (escaped x).
  - destruct (put_rsp_char 125 w) as [[? w1]| | |]; try done.
    destruct (put_rsp_char (x .^ 32) w1) as [[? w2]| | |]; try done.
    by apply IH in Hm; [|apply wrap_range].
  - destruct (put_rsp_char x w) as [[? w1]| | |]; try done.
    by apply IH in Hm; [|apply wrap_range].
Qed.

Lemma wp_put_frame data w :
  connected w -> Forall is_u8 data ->
  wp (put_frame data) (fun _ w' => True /\ talks [] (frame data) w w') w.
Proof.
  intros Hc Hd. unfold put_frame, frame.
  apply (wp_talks _ _ _ [] _ [] _ _ _ Hc (wp_put_char 36 _ Hc ltac:(done))). intros _ w1 _ _ Hc1.
  apply (wp_talks _ _ (fun c => c = checksum (escape data)) [] _ [] _ _ _ Hc1).
  { pose proof (wp_put_body data 0 w1 Hc1 Hd) as Hb.
    assert (wp (put_body data 0) (fun c _ => is_u8 c) w1) as (c & w2 & Hm & Hu).
    { apply put_body_u8; [done|]. eapply wp_mono; [exact Hb|done]. }
    exists c, w2. split; [done|]. destruct (wp_inv _ _ _ _ _ Hb Hm) as [Hcs T]. split; [|done].
    rewrite (wrap_small 8 c Hu) in Hcs. rewrite Hcs, Z.add_0_l. apply wrap_wrap. }
  intros c w2 -> _ Hc2. assert (is_u8 (checksum (escape data))) as Hu by by apply wrap_range.
  change [35; ?a; ?b] with ([35] ++ [a] ++ [b]).
  apply (wp_talks _ _ _ [] _ [] _ _ _ Hc2 (wp_put_char 35 _ Hc2 ltac:(done))). intros _ w3 _ _ Hc3.
  apply (wp_talks _ _ (fun _ => True) [] _ [] _ _ _ Hc3).
  { apply wp_put_char; [done|]. apply hexchar_u8. rewrite Z.shiftr_div_pow2 by done.
    unfold is_word in Hu. change (2 ^ 4) with 16. change (2 ^ 8) with 256 in Hu.
    Z.div_mod_to_equations. lia. }
  intros _ w4 _ _ Hc4. apply wp_put_char; [done|]. apply hexchar_u8.
  by apply Z.mod_pos_bound.
Qed.

Lemma delivers_cons_inv c s rs :
  delivers (c :: s) rs ->
  exists n rs', rs = replicate n ReadAgain ++ Char c :: rs' /\ is_u8 c /\ delivers s rs'.
Proof. intros Hd. inversion Hd; subst. by eexists _, _. Qed.

(** The frame is sent again for each character that is no acknowledgment. *)
Lemma wp_put_packet_loop fuel data nacks rs rest w :
  connected w -> Forall is_u8 data -> (length nacks < fuel)%nat ->
  Forall (fun c => c <> 43) nacks -> delivers (nacks ++ [43]) rs -> reads (gdb w) = rs ++ rest ->
  wp (put_packet_loop fuel data)
    (fun _ w' => talks rs (concat (replicate (S (length nacks)) (frame data))) w w') w.
Proof.
  intros Hc Hd. revert fuel rs w Hc.
  induction nacks as [|c nacks IH]; intros fuel rs w Hc Hf Hn Hrs Hr;
    (destruct fuel as [|fuel]; [lia|]); cbn [put_packet_loop]; rsp_pure;
    (eapply wp_mono; [by apply wp_put_frame|]); intros ? w1 [_ T1];
    pose proof (talks_connected _ _ _ _ T1 Hc) as Hc1;
    pose proof (talks_rest _ _ _ _ (rs ++ rest) T1 Hr) as Hr1; rsp_pure;
    apply delivers_cons_inv in Hrs as (n & rs' & -> & Hu & Hrs'); rewrite <- app_assoc in Hr1;
    (eapply wp_mono; [by eapply (wp_get_rsp_char n)|]); intros ? w2 [-> T2].
  - inversion Hrs'; subst. cbn [Z.eqb Pos.eqb]. rsp_pure. cbn [length replicate concat].
    rewrite app_nil_r. rewrite <- (app_nil_r (frame data)). by apply (talks_trans [] _ _ _ _ w1).
  - destruct (Z.eqb_spec c (-1)) as [->|]; [by destruct Hu|].
    apply Forall_cons in Hn as [Hc43 Hn]. destruct (Z.eqb_spec c 43); [done|].
    pose proof (talks_connected _ _ _ _ T2 Hc1) as Hc2. eapply wp_mono.
    { apply (IH fuel rs' w2); [done|simpl in Hf; lia|done|done|].
      apply (talks_rest _ _ _ _ _ T2). by rewrite Hr1, <- app_assoc. }
    intros ? w3 T3. cbn [length replicate concat].
    change (replicate n ReadAgain ++ Char c :: rs') with (replicate n ReadAgain ++ [Char c] ++ rs').
    rewrite (assoc_L _ (replicate n ReadAgain)).
    apply (talks_trans [] _ (frame data) _ _ w1); [done|].
    by apply (talks_trans _ _ [] _ _ w2).
Qed.

Lemma wp_put_packet data nacks rs rest w :
  connected w -> Forall is_u8 data -> Forall (fun c => c <> 43) nacks ->
  delivers (nacks ++ [43]) rs -> reads (gdb w) = rs ++ rest ->
  wp (put_packet data)
    (fun _ w' => talks rs (concat (replicate (S (length nacks)) (frame data))) w w') w.
Proof.
  intros Hc Hd Hn Hrs Hr. unfold put_packet. rsp_pure. rsp_pure.
  eapply wp_put_packet_loop; try done. apply delivers_length in Hrs.
  rewrite length_app in Hrs. rewrite Hr, length_app. simpl in Hrs. lia.
Qed.

(** The connection is closed. *)
Lemma client_close_fd w r : rsp_client_close w = Ok r -> client_fd (rsp r.2) = -1.
Proof.
  unfold rsp_client_close. intros E. do 7 (apply M_bind_Ok in E as (? & ? & _ & E)). injection E as <-. done.
Qed.
End talks.
