(* ===== verification/RspPacket.v ===== *)
(** Packets that arrive: [get_packet] against a grammar of what a client may send.

    [incoming cs replies p]: the characters [cs] end with a packet or a break, which
    is [p], and [replies] are the acknowledgments for the packets in it, positive
    for the last and negative for those with a wrong checksum.  A start character in
    the middle of a packet starts it again; a packet that is too long is dropped. *)

From Stdlib Require Import String.
From S2P Require Import Prelude Scanf StateM Tap Cable Chain AdvDbg RspData RspCodec.
From S2P Require Import DebugUnit HwMonitor Rsp RspFacts.
From stdpp Require Import gmap list.

Open Scope Z_scope.
Open Scope cword_scope.

Definition noise (s : list Z) : Prop := Forall (fun c => c <> 36 /\ c <> 3) s.

(** A run of characters between marks. *)
Definition run (s : list Z) : Prop := Forall (fun c => c <> 36 /\ c <> 35) s.

(** What follows the first start character, up to the end mark: the last run is the
    text of the packet. *)
Inductive started : list Z -> list Z -> Prop :=
| started_text body :
    run body -> Z.of_nat (length body) < GDB_BUF_MAX - 1 -> started body body
| started_again s pre body :
    run s -> Z.of_nat (length s) < GDB_BUF_MAX - 1 -> started pre body ->
    started (s ++ 36 :: pre) body.

Lemma started_length pre body : started pre body -> Z.of_nat (length body) < GDB_BUF_MAX - 1.
Proof. by induction 1. Qed.

(** What follows it when the buffer overruns. *)
Inductive overrun : list Z -> Prop :=
| overrun_text s : run s -> Z.of_nat (length s) = GDB_BUF_MAX - 1 -> overrun s
| overrun_again s pre :
    run s -> Z.of_nat (length s) < GDB_BUF_MAX - 1 -> overrun pre -> overrun (s ++ 36 :: pre).

(** The two characters after the mark are digits and give the checksum. *)
Definition good (body : list Z) (h1 h2 : Z) : Prop :=
  isxdigit h1 = true /\ isxdigit h2 = true /\ checksum body = 16 * hex h1 + hex h2.

(** The first is a digit, and the two do not give the checksum.  A second character that
    is no digit counts as -1, as the code reads it. *)
Definition bad (body : list Z) (h1 h2 : Z) : Prop :=
  isxdigit h1 = true /\ checksum body <> u8 (16 * hex h1 + hex h2).

Inductive message := Break | Text (body : list Z).

Inductive incoming : list Z -> list Z -> message -> Prop :=
| incoming_break n : noise n -> incoming (n ++ [3]) [] Break
| incoming_packet n pre body h1 h2 :
    noise n -> started pre body -> good body h1 h2 ->
    incoming (n ++ 36 :: pre ++ [35; h1; h2]) [43] (Text body)
| incoming_bad n pre body h1 h2 cs replies p :
    noise n -> started pre body -> bad body h1 h2 -> incoming cs replies p ->
    incoming (n ++ 36 :: pre ++ [35; h1; h2] ++ cs) (45 :: replies) p
| incoming_overrun n pre cs replies p :
    noise n -> overrun pre -> incoming cs replies p ->
    incoming (n ++ 36 :: pre ++ cs) replies p.

(** The buffer holds a message; a text is a string. *)
Definition holds (p : message) (r : rsp_t) : Prop :=
  match p with
  | Break => buf_len r = 1 /\ buf_data r !! 0%nat = Some 3
  | Text body => buf_len r = Z.of_nat (length body) /\ exists rest, buf_data r = body ++ 0 :: rest
  end.

Definition buf_wf (r : rsp_t) : Prop := length (buf_data r) = Z.to_nat GDB_BUF_MAX.

(** Nothing but the buffer differs. *)
Definition same_but_buf (r r' : rsp_t) : Prop :=
  r' = set_buf_len (buf_len r') (set_buf_data (buf_data r') r).

Section packet.
Context `{Target, Alloc, Unspecified} {D : Type} `{DebugUnit D}.
Implicit Types w : world D.

(** Between [w] and [w'] the client has been heard, and the buffer has changed. *)
Definition hears (r : list read_result) (s : list Z) (w w' : world D) : Prop :=
  talks r s (upd_rsp (fun _ => rsp w') w) w' /\ same_but_buf (rsp w) (rsp w')
  /\ (buf_wf (rsp w) -> buf_wf (rsp w')).

Lemma talks_hears r s w w' : talks r s w w' -> hears r s w w'.
Proof.
  intros T. pose proof (talks_rsp _ _ _ _ T) as E. split; [|split].
  - destruct T. by split.
  - rewrite E. unfold same_but_buf. by destruct (rsp w).
  - by rewrite E.
Qed.

Lemma hears_trans r r' s s' w1 w2 w3 :
  hears r s w1 w2 -> hears r' s' w2 w3 -> hears (r ++ r') (s ++ s') w1 w3.
Proof.
  intros ([A1 A2 A3 A4 A5 A6 A7 A8] & As & Ab) ([B1 B2 B3 B4 B5 B6 B7 B8] & Bs & Bb).
  cbn in *. split; [|split; [|by auto]].
  - split; cbn; try congruence; [by rewrite A4, B4, app_assoc|by rewrite B5, A5, app_assoc].
  - unfold same_but_buf in *. rewrite As in Bs at 1. rewrite Bs at 1. done.
Qed.

Lemma hears_rest r s w w' rest :
  hears r s w w' -> reads (gdb w) = r ++ rest -> reads (gdb w') = rest.
Proof. intros [T _] Hr. by apply (talks_rest _ _ _ _ rest T). Qed.

Lemma hears_connected r s w w' : hears r s w w' -> connected w -> connected w'.
Proof.
  intros ([] & E & _) [Hc _]. split; [|done]. unfold same_but_buf in E. rewrite E. done.
Qed.

Lemma hears_put_buf i c w :
  connected w -> hears [] [] w (upd_rsp (fun r => set_buf_data (<[Z.to_nat i := c]> (buf_data r)) r) w).
Proof.
  intros [_ Hw]. split; [|split].
  - split; cbn; try done. by rewrite app_nil_r.
  - unfold same_but_buf. cbn. by destruct (rsp w).
  - unfold buf_wf. cbn. by rewrite length_insert.
Qed.

(** ** The start character *)

Lemma wp_wait_start fuel n c rs rest w :
  connected w -> noise n -> c = 36 \/ c = 3 -> (length n < fuel)%nat ->
  delivers (n ++ [c]) rs -> reads (gdb w) = rs ++ rest ->
  wp (wait_start fuel) (fun c' w' => c' = c /\ talks rs [] w w') w.
Proof.
  intros Hc Hn Hcc Hf Hd Hr. revert fuel rs w Hc Hf Hd Hr.
  induction Hn as [|x n [Hx1 Hx2] Hn IH]; intros fuel rs w Hc Hf Hd Hr;
    (destruct fuel as [|fuel]; [simpl in Hf; lia|]); cbn [wait_start]; rsp_pure;
    apply delivers_cons_inv in Hd as (k & rs' & -> & Hu & Hd'); rewrite <- app_assoc in Hr;
    (eapply wp_mono; [by eapply (wp_get_rsp_char k)|]); intros ? w1 [-> T1].
  - inversion Hd'; subst. destruct Hcc as [-> | ->]; cbn [Z.eqb Pos.eqb orb]; by rsp_pure.
  - destruct (Z.eqb_spec x 36), (Z.eqb_spec x (-1)), (Z.eqb_spec x 3); try lia;
      [by subst; destruct Hu|]. cbn [orb]. eapply wp_mono.
    { apply (IH fuel rs' w1); [by apply (talks_connected _ _ _ _ T1)|simpl in Hf; lia|done|].
      apply (talks_rest _ _ _ _ _ T1). by rewrite Hr, <- app_assoc. }
    intros ? w2 [-> T2]. split; [done|].
    change (replicate k ReadAgain ++ Char x :: rs') with (replicate k ReadAgain ++ [Char x] ++ rs').
    rewrite (assoc_L _ (replicate k ReadAgain)). by apply (talks_trans _ _ [] [] _ w1).
Qed.

(** ** The body *)

(** One character of the body: reading it leaves [get_body] with one pass less. *)
Lemma wp_get_body_char Q fuel ch cs count n c rest w :
  connected w -> is_u8 c -> count < GDB_BUF_MAX - 1 ->
  reads (gdb w) = replicate n ReadAgain ++ Char c :: rest ->
  (forall w', talks (replicate n ReadAgain ++ [Char c]) [] w w' -> connected w' ->
     wp (if c =? 36 then get_body fuel c 0 0 else if c =? 35 then mret (c, cs, count)
         else put_buf count c;; get_body fuel c (u8 (cs + c)) (count + 1)) Q w') ->
  wp (get_body (S fuel) ch cs count) Q w.
Proof.
  intros Hc Hu Hn Hr HQ. cbn [get_body]. destruct (Z.ltb_spec count (GDB_BUF_MAX - 1)); [|lia].
  rsp_pure. eapply wp_mono; [by eapply (wp_get_rsp_char n)|]. intros ? w' [-> T].
  destruct (Z.eqb_spec c (-1)); [by subst; destruct Hu|].
  apply HQ; [done|by apply (talks_connected _ _ _ _ T)].
Qed.

(** The last character read is no mark. *)
Definition no_mark (c : Z) : Prop := c <> 35 /\ c <> -1.

(** A run of characters goes into the buffer. *)
Lemma wp_get_body_run Q s fuel ch cs count rs rest w :
  connected w -> run s -> delivers s rs -> reads (gdb w) = rs ++ rest ->
  0 <= count -> count + Z.of_nat (length s) <= GDB_BUF_MAX - 1 -> is_u8 cs -> no_mark ch ->
  (forall ch' w', no_mark ch' -> hears rs [] w w' -> connected w' ->
     buf_data (rsp w') = list_inserts (Z.to_nat count) s (buf_data (rsp w)) ->
     wp (get_body fuel ch' (u8 (cs + checksum s)) (count + Z.of_nat (length s))) Q w') ->
  wp (get_body (length s + fuel) ch cs count) Q w.
Proof.
  intros Hc Hs. revert ch cs count rs w Hc.
  induction Hs as [|c s [Hc1 Hc2] Hs IH]; intros ch cs count rs w Hc Hd Hr H0' Hn Hcs Hch HQ.
  { inversion Hd; subst. specialize (HQ ch w Hch). cbn [length list_inserts] in HQ.
    unfold checksum in HQ. cbn [fold_left] in HQ. change (Z.of_nat 0) with 0 in HQ.
    rewrite !Z.add_0_r, (wrap_small 8 cs) in HQ by done.
    apply HQ; [|done|done]. by apply talks_hears, talks_refl, Hc. }
  apply delivers_cons_inv in Hd as (k & rs' & -> & Hu & Hd'). rewrite <- app_assoc in Hr.
  cbn [length] in *. rewrite Nat2Z.inj_succ in *. cbn [Nat.add].
  apply (wp_get_body_char _ _ _ _ _ k c (rs' ++ rest)); try done; [lia|]. intros w1 T1 Hc1'.
  destruct (Z.eqb_spec c 36), (Z.eqb_spec c 35); try done. rewrite put_buf_in by lia. rsp_pure. rsp_pure.
  pose proof (talks_rsp _ _ _ _ T1) as E1.
  pose proof (hears_put_buf count c w1 Hc1') as T2.
  pose proof (hears_trans _ _ _ _ _ _ _ (talks_hears _ _ _ _ T1) T2) as T12.
  rewrite app_nil_r in T12.
  eapply IH; [by apply (hears_connected _ _ _ _ T2)|done| |lia|lia|by apply wrap_range| |].
  { apply (talks_rest _ _ _ _ _ T1). by rewrite Hr, <- app_assoc. }
  { split; [done|]. intros ->. by destruct Hu. }
  intros ch' w3 Hch' T3 Hc3 Hd3. cbn [upd_rsp rsp set_buf_data buf_data] in Hd3. rewrite E1 in Hd3.
  replace (count + 1 + Z.of_nat (length s)) with (count + Z.succ (Z.of_nat (length s))) by lia.
  replace (u8 (u8 (cs + c) + checksum s)) with (u8 (cs + checksum (c :: s)))
    by (change (c :: s) with ([c] ++ s); rewrite checksum_app, checksum_one; u8_sums).
  apply HQ; [done| |done|].
  - change (replicate k ReadAgain ++ Char c :: rs') with (replicate k ReadAgain ++ [Char c] ++ rs').
    rewrite (assoc_L _ (replicate k ReadAgain)). by apply (hears_trans _ _ [] [] _ _ _ T12).
  - rewrite Hd3. cbn [list_inserts]. replace (Z.to_nat (count + 1)) with (S (Z.to_nat count)) by lia.
    symmetry. apply list_insert_inserts_lt. lia.
Qed.

(** A text put at the start of the buffer. *)
Lemma inserts_start (s d : list Z) :
  (length s <= length d)%nat -> list_inserts 0 s d = s ++ drop (length s) d.
Proof.
  intros Hl. rewrite <- (take_drop (length s) d) at 1. apply list_inserts_0_r.
  rewrite length_take. lia.
Qed.

Lemma started_fits pre body : started pre body -> Z.of_nat (length body) < GDB_BUF_MAX - 1.
Proof. by induction 1. Qed.

(** A start character among the others. *)
Lemma wp_get_body_again Q s fuel ch pre rs rest w :
  connected w -> run s -> Z.of_nat (length s) < GDB_BUF_MAX - 1 -> no_mark ch ->
  delivers (s ++ 36 :: pre) rs -> reads (gdb w) = rs ++ rest ->
  (forall r r' w', rs = r ++ r' -> delivers pre r' -> hears r [] w w' -> connected w' ->
     wp (get_body fuel 36 0 0) Q w') ->
  wp (get_body (length s + S fuel) ch 0 0) Q w.
Proof.
  intros Hc Hs Hl Hch Hd Hr HQ. apply delivers_app_inv in Hd as (r & r' & -> & Hr1 & Hr2).
  rewrite <- app_assoc in Hr.
  eapply (wp_get_body_run Q s (S fuel) ch 0 0 r); try done; try lia.
  intros ch' w1 Hch' T1 Hc1 _. apply delivers_cons_inv in Hr2 as (k & r2 & -> & Hu & Hr2).
  pose proof (hears_rest _ _ _ _ _ T1 Hr) as Hr'. rewrite <- app_assoc in Hr'.
  apply (wp_get_body_char _ _ _ _ _ k 36 (r2 ++ rest)); try done; try lia.
  intros w2 T2 Hc2. cbn [Z.eqb Pos.eqb].
  apply (HQ (r ++ replicate k ReadAgain ++ [Char 36]) r2); [by rewrite <- !app_assoc|done| |done].
  eapply (hears_trans _ _ [] []); [done|]. by apply talks_hears.
Qed.

Lemma wp_get_body_started pre body fuel ch rs rest w :
  started pre body -> connected w -> buf_wf (rsp w) -> no_mark ch -> (length pre < fuel)%nat ->
  delivers (pre ++ [35]) rs -> reads (gdb w) = rs ++ rest ->
  wp (get_body fuel ch 0 0) (fun r w' => r = (35, checksum body, Z.of_nat (length body))
    /\ hears rs [] w w' /\ exists tail, buf_data (rsp w') = body ++ tail) w.
Proof.
  intros Hp. revert fuel ch rs w.
  induction Hp as [body Hs Hl|s pre body Hs Hl Hp IH]; intros fuel ch rs w Hc Hb Hch Hf Hd Hr.
  - apply delivers_app_inv in Hd as (r & r' & -> & Hr1 & Hr2). rewrite <- app_assoc in Hr.
    replace fuel with (length body + S (fuel - S (length body)))%nat by lia.
    eapply (wp_get_body_run _ body _ ch 0 0 r); try done; try lia.
    intros ch' w1 Hch' T1 Hc1 Hd1. apply delivers_cons_inv in Hr2 as (k & r2 & -> & Hu & Hr2).
    inversion Hr2; subst. pose proof (hears_rest _ _ _ _ _ T1 Hr) as Hr'. rewrite <- app_assoc in Hr'.
    apply (wp_get_body_char _ _ _ _ _ k 35 ([] ++ rest)); try done; try lia.
    intros w2 T2 Hc2. cbn [Z.eqb Pos.eqb]. rsp_pure.
    rewrite !Z.add_0_l. rewrite (wrap_small 8 (checksum body)) by by apply wrap_range.
    split; [done|]. split.
    + eapply (hears_trans _ _ [] []); [done|]. by apply talks_hears.
    + rewrite (talks_rsp _ _ _ _ T2), Hd1. exists (drop (length body) (buf_data (rsp w))).
      apply inserts_start. rewrite Hb. unfold GDB_BUF_MAX in *. lia.
  - replace fuel with (length s + S (fuel - S (length s)))%nat by (rewrite length_app in Hf; simpl in Hf; lia).
    rewrite <- app_assoc in Hd. cbn [app] in Hd.
    eapply (wp_get_body_again _ s); try done. intros r r' w1 -> Hr' T1 Hc1.
    rewrite <- app_assoc in Hr. eapply wp_mono.
    { apply (IH _ 36 r'); [done|by apply T1|done| |done|by apply (hears_rest _ _ _ _ _ T1)].
      rewrite length_app in Hf. simpl in Hf. lia. }
    intros ? w2 (-> & T2 & Ht). split; [done|]. split; [|done].
    by apply (hears_trans _ _ [] [] _ _ _ T1).
Qed.

Lemma wp_get_body_overrun pre fuel ch rs rest w :
  overrun pre -> connected w -> no_mark ch -> (length pre < fuel)%nat ->
  delivers pre rs -> reads (gdb w) = rs ++ rest ->
  wp (get_body fuel ch 0 0) (fun '(ch', cs, count) w' => no_mark ch' /\ 0 <= count < GDB_BUF_MAX /\ hears rs [] w w') w.
Proof.
  intros Hp. revert fuel ch rs w.
  induction Hp as [s Hs Hl|s pre Hs Hl Hp IH]; intros fuel ch rs w Hc Hch Hf Hd Hr.
  - replace fuel with (length s + S (fuel - S (length s)))%nat by lia.
    eapply (wp_get_body_run _ s _ ch 0 0 rs); try done; try lia.
    intros ch' w1 Hch' T1 Hc1 Hd1. cbn [get_body].
    destruct (Z.ltb_spec (0 + Z.of_nat (length s)) (GDB_BUF_MAX - 1)); [lia|]. rsp_pure. split; [done|]. split; [lia|done].
  - replace fuel with (length s + S (fuel - S (length s)))%nat by (rewrite length_app in Hf; simpl in Hf; lia).
    eapply (wp_get_body_again _ s); try done. intros r r' w1 -> Hr' T1 Hc1.
    rewrite <- app_assoc in Hr. eapply wp_mono.
    { apply (IH _ 36 r'); [done|done| |done|by apply (hears_rest _ _ _ _ _ T1)].
      rewrite length_app in Hf. simpl in Hf. lia. }
    intros [[ch' cs] count] w2 (Hch' & Hn & T2). split; [done|]. split; [done|]. by apply (hears_trans _ _ [] [] _ _ _ T1).
Qed.

(** ** One attempt *)

Lemma hears_put_len l w :
  connected w -> hears [] [] w (upd_rsp (set_buf_len l) w).
Proof.
  intros [_ Hw]. split; [|split; [|done]].
  - split; cbn; try done. by rewrite app_nil_r.
  - unfold same_but_buf. cbn. by destruct (rsp w).
Qed.

(** A command that is followed by more. *)
Lemma wp_hears {A B} (m : M (world D) A) (f : A -> M (world D) B) (P : A -> Prop) r s r' s'
    (R : B -> world D -> Prop) w :
  connected w ->
  wp m (fun a w' => P a /\ hears r s w w') w ->
  (forall a w', P a -> hears r s w w' -> connected w' ->
     wp (f a) (fun b w'' => R b w'' /\ hears r' s' w' w'') w') ->
  wp (m ≫= f) (fun b w'' => R b w'' /\ hears (r ++ r') (s ++ s') w w'') w.
Proof.
  intros Hc Hm Hf. apply wp_bind. eapply wp_mono; [done|]. intros a w' [Ha T].
  eapply wp_mono; [by apply Hf, (hears_connected _ _ _ _ T)|].
  intros b w'' (Hb & T'). split; [done|]. by eapply hears_trans.
Qed.

Lemma wp_get_char k c rest w :
  connected w -> is_u8 c -> reads (gdb w) = replicate k ReadAgain ++ Char c :: rest ->
  wp get_rsp_char (fun c' w' => c' = c /\ hears (replicate k ReadAgain ++ [Char c]) [] w w') w.
Proof.
  intros Hc Hu Hr. eapply wp_mono; [by eapply wp_get_rsp_char|]. intros ? w' [-> T].
  split; [done|]. by apply talks_hears.
Qed.

(** The first digit as the code takes it. *)
Lemma shl_digit h n : isxdigit h = true -> shl_int (hex h) 4 = Ok (16 * hex h)
  /\ u8 (u8 (16 * hex h) + n) = u8 (16 * hex h + n).
Proof.
  intros Hd. split; [|apply wrap_add_l]. pose proof (hex_digit h Hd) as Hr.
  assert (Z.shiftl (hex h) 4 = 16 * hex h) as E by (rewrite Z.shiftl_mul_pow2 by done; lia).
  unfold shl_int, signed_c. rewrite E. destruct (Z.leb_spec 0 (hex h)); [|lia]. cbn [andb].
  assert (in_sword 32 (16 * hex h) = true) as -> by (apply in_sword_spec; unfold is_sword; lia). done.
Qed.

Lemma wp_get_checksum cs h1 h2 rs rest w :
  connected w -> isxdigit h1 = true -> delivers [h1; h2] rs -> reads (gdb w) = rs ++ rest ->
  let ok := bool_decide (cs = u8 (16 * hex h1 + hex h2)) in
  wp (get_checksum cs) (fun a w' => a = (if ok then Packet else Again)
    /\ talks rs [if ok then 43 else 45] w w') w.
Proof.
  intros Hc Hx Hd Hr ok. unfold get_checksum. destruct (shl_digit h1 (hex h2) Hx) as [Hs Hsum].
  apply delivers_cons_inv in Hd as (k1 & rs1 & -> & Hu1 & Hd).
  apply delivers_cons_inv in Hd as (k2 & rs2 & -> & Hu2 & Hd). inversion Hd; subst rs2.
  rewrite <- app_assoc in Hr. cbn [app] in Hr. rewrite <- app_assoc in Hr. cbn [app] in Hr.
  change (replicate k1 ReadAgain ++ Char h1 :: ?l) with (replicate k1 ReadAgain ++ [Char h1] ++ l).
  rewrite (assoc_L _ (replicate k1 ReadAgain)).
  rsp_pure. eapply wp_mono; [by eapply (wp_get_rsp_char k1 h1)|]. intros ? w1 [-> T1].
  pose proof (talks_connected _ _ _ _ T1 Hc) as Hc1.
  destruct (Z.eqb_spec h1 (-1)); [by subst; destruct Hu1|]. rsp_pure.
  eapply wp_lift; [exact Hs|]. rsp_pure.
  eapply wp_mono.
  { eapply (wp_get_rsp_char k2); [done|exact Hu2|]. apply (talks_rest _ _ _ _ _ T1).
    by rewrite Hr, <- app_assoc. }
  intros ? w2 [-> T2]. pose proof (talks_connected _ _ _ _ T2 Hc1) as Hc2.
  destruct (Z.eqb_spec h2 (-1)); [by subst; destruct Hu2|]. cbv zeta.
  assert (forall c (a : attempt), wp (put_rsp_char c;; mret a) (fun a' w' => a' = a /\ talks [] [u8 c] w2 w') w2)
    as Hput.
  { intros c a. rsp_pure. eapply wp_mono; [by apply wp_put_rsp_char|]. intros ? w3 T3. by rsp_pure. }
  pose proof (talks_trans _ _ _ _ _ _ _ T1 T2) as T12. rewrite app_nil_r in T12.
  rewrite Hsum. unfold ok. destruct (Z.eqb_spec cs (u8 (16 * hex h1 + hex h2))) as [E|E]; cbn [negb].
  - rewrite bool_decide_true by done. eapply wp_mono; [apply Hput|]. intros ? w3 [-> T3].
    split; [done|]. rewrite <- (app_nil_r (_ ++ _)). by apply (talks_trans _ _ [] _ _ w2).
  - rewrite bool_decide_false by done. eapply wp_mono; [apply Hput|]. intros ? w3 [-> T3].
    split; [done|]. rewrite <- (app_nil_r (_ ++ _)). by apply (talks_trans _ _ [] _ _ w2).
Qed.

Lemma wp_attempt_break fuel n rs rest w :
  connected w -> buf_wf (rsp w) -> noise n -> (length n < fuel)%nat ->
  delivers (n ++ [3]) rs -> reads (gdb w) = rs ++ rest ->
  wp (get_attempt fuel) (fun a w' => a = Packet /\ hears rs [] w w' /\ holds Break (rsp w')) w.
Proof.
  intros Hc Hb Hn Hf Hd Hr. unfold get_attempt. rsp_pure.
  eapply wp_mono; [by eapply (wp_wait_start fuel n 3); try right|]. intros ? w1 [-> T1].
  pose proof (talks_connected _ _ _ _ T1 Hc) as Hc1. apply talks_hears in T1.
  cbn [Z.eqb Pos.eqb]. rewrite put_buf_in by (unfold GDB_BUF_MAX; lia). rsp_pure. rsp_pure. rsp_pure. rsp_pure. rsp_pure.
  split; [done|]. split; [|split; [done|]].
  - pose proof (hears_put_buf 0 3 w1 Hc1) as T2.
    pose proof (hears_put_len 1 _ (hears_connected _ _ _ _ T2 Hc1)) as T3.
    pose proof (hears_trans _ _ _ _ _ _ _ T1 (hears_trans _ _ _ _ _ _ _ T2 T3)) as T.
    by rewrite app_nil_r in T.
  - cbn. apply list_lookup_insert_eq. destruct T1 as (_ & _ & Hb1). rewrite (Hb1 Hb). unfold GDB_BUF_MAX. lia.
Qed.

(** The attempt from the start character on. *)
Definition rest_of_attempt (fuel : nat) : M (world D) attempt :=
  '(ch, checksum, count) ← get_body fuel 36 0 0;
  if ch =? -1 then mret NoPacket else
  put_buf count 0;;
  put (set_buf_len count);;
  if ch =? 35 then get_checksum checksum else mret Again.

Lemma wp_attempt_start R fuel n pre rs rest w :
  connected w -> buf_wf (rsp w) -> noise n -> (length n < fuel)%nat ->
  delivers (n ++ 36 :: pre) rs -> reads (gdb w) = rs ++ rest ->
  (forall r1 r2 w1, rs = r1 ++ r2 -> delivers pre r2 -> hears r1 [] w w1 -> connected w1 ->
     buf_wf (rsp w1) -> reads (gdb w1) = r2 ++ rest -> wp (rest_of_attempt fuel) R w1) ->
  wp (get_attempt fuel) R w.
Proof.
  intros Hc Hb Hn Hf Hd Hr HR. change (36 :: pre) with ([36] ++ pre) in Hd.
  rewrite app_assoc in Hd. apply delivers_app_inv in Hd as (r1 & r2 & -> & Hd1 & Hd2).
  rewrite <- app_assoc in Hr. unfold get_attempt. rsp_pure.
  eapply wp_mono; [by eapply (wp_wait_start fuel n 36); try left|]. intros ? w1 [-> T1].
  pose proof (talks_connected _ _ _ _ T1 Hc) as Hc1.
  pose proof (talks_rest _ _ _ _ _ T1 Hr) as Hr1. apply talks_hears in T1.
  cbn [Z.eqb Pos.eqb]. apply (HR r1 r2); try done. by apply T1.
Qed.

Lemma wp_attempt_overrun fuel n pre rs rest w :
  connected w -> buf_wf (rsp w) -> noise n -> overrun pre -> (length (n ++ 36%Z :: pre) < fuel)%nat ->
  delivers (n ++ 36 :: pre) rs -> reads (gdb w) = rs ++ rest ->
  wp (get_attempt fuel) (fun a w' => a = Again /\ hears rs [] w w') w.
Proof.
  intros Hc Hb Hn Ho Hf Hd Hr. rewrite length_app in Hf. simpl in Hf.
  eapply (wp_attempt_start _ fuel n pre rs rest); try done; [lia|].
  intros r1 r2 w1 -> Hd2 T1 Hc1 Hb1 Hr1. unfold rest_of_attempt. rsp_pure.
  eapply wp_mono; [by eapply (wp_get_body_overrun pre); try done; lia|].
  intros [[ch cs] count] w2 ([Hch1 Hch2] & Hn2 & T2). cbv beta iota.
  destruct (Z.eqb_spec ch (-1)), (Z.eqb_spec ch 35); try done.
  pose proof (hears_connected _ _ _ _ T2 Hc1) as Hc2.
  rewrite put_buf_in by done. rsp_pure. rsp_pure. rsp_pure. rsp_pure. rsp_pure. split; [done|].
  pose proof (hears_put_buf count 0 w2 Hc2) as T3.
  pose proof (hears_put_len count _ (hears_connected _ _ _ _ T3 Hc2)) as T4.
  pose proof (hears_trans _ _ _ _ _ _ _ T2 (hears_trans _ _ _ _ _ _ _ T3 T4)) as T5.
  rewrite app_nil_r in T5. by apply (hears_trans _ _ [] [] _ _ _ T1).
Qed.

Lemma wp_attempt_packet fuel n pre body h1 h2 rs rest w :
  connected w -> buf_wf (rsp w) -> noise n -> started pre body -> isxdigit h1 = true -> (length (n ++ 36%Z :: pre) < fuel)%nat ->
  delivers (n ++ 36 :: pre ++ [35; h1; h2]) rs -> reads (gdb w) = rs ++ rest ->
  let ok := bool_decide (checksum body = u8 (16 * hex h1 + hex h2)) in
  wp (get_attempt fuel) (fun a w' => a = (if ok then Packet else Again)
    /\ hears rs [if ok then 43 else 45] w w' /\ holds (Text body) (rsp w')) w.
Proof.
  intros Hc Hb Hn Ho Hx Hf Hd Hr ok. rewrite length_app in Hf. simpl in Hf.
  eapply (wp_attempt_start _ fuel n (pre ++ [35; h1; h2]) rs rest); try done; [lia|].
  intros r1 r2 w1 -> Hd2 T1 Hc1 Hb1 Hr1. unfold rest_of_attempt. rsp_pure.
  change [35; h1; h2] with ([35] ++ [h1; h2]) in Hd2. rewrite app_assoc in Hd2.
  apply delivers_app_inv in Hd2 as (r3 & r4 & -> & Hd3 & Hd4). rewrite <- app_assoc in Hr1.
  eapply wp_mono; [by eapply (wp_get_body_started pre body); try done; lia|].
  intros ? w2 (-> & T2 & tail & Ht). cbv beta iota. cbn [Z.eqb Pos.eqb].
  pose proof (hears_connected _ _ _ _ T2 Hc1) as Hc2.
  assert (buf_wf (rsp w2)) as Hb2 by by apply T2.
  rewrite put_buf_in by (pose proof (started_fits _ _ Ho); lia). rsp_pure. rsp_pure. rsp_pure. rsp_pure.
  pose proof (hears_put_buf (Z.of_nat (length body)) 0 w2 Hc2) as T3.
  pose proof (hears_put_len (Z.of_nat (length body)) _ (hears_connected _ _ _ _ T3 Hc2)) as T4.
  pose proof (hears_trans _ _ _ _ _ _ _ T2 (hears_trans _ _ _ _ _ _ _ T3 T4)) as T5.
  rewrite app_nil_r in T5. pose proof (hears_trans _ _ [] [] _ _ _ T1 T5) as T6.
  eapply wp_mono.
  { eapply wp_get_checksum; [by apply (hears_connected _ _ _ _ T5)|done|done|].
    by apply (hears_rest _ _ _ _ _ T5). }
  intros a w3 [-> T7]. pose proof (talks_rsp _ _ _ _ T7) as E7. apply talks_hears in T7.
  split; [done|]. split.
  - rewrite (app_assoc r1). by apply (hears_trans _ _ [] _ _ _ _ T6).
  - rewrite E7. cbn. split; [done|]. rewrite Ht, Nat2Z.id.
    destruct tail as [|x tail].
    + exfalso. unfold buf_wf in Hb2. rewrite Ht, app_nil_r in Hb2.
      pose proof (started_length _ _ Ho). unfold GDB_BUF_MAX in *. lia.
    + exists tail. rewrite insert_app_r_alt, Nat.sub_diag by lia. done.
Qed.

(** ** The loop *)

(** There are characters enough for the passes of an attempt. *)
Lemma attempt_fuel s rs rest w :
  delivers s rs -> reads (gdb w) = rs ++ rest -> (length s < S (length (reads (gdb w))))%nat.
Proof. intros Hd%delivers_length ->. rewrite length_app. lia. Qed.

Lemma wp_get_packet_loop fuel cs replies p rs rest w :
  incoming cs replies p -> (length cs < fuel)%nat ->
  connected w -> buf_wf (rsp w) -> delivers cs rs -> reads (gdb w) = rs ++ rest ->
  wp (get_packet_loop fuel) (fun b w' => b = true /\ hears rs replies w w' /\ holds p (rsp w')) w.
Proof.
  intros Hi. revert fuel rs w.
  induction Hi as [n Hn|n pre body h1 h2 Hn Hs Hg|n pre body h1 h2 cs replies p Hn Hs Hg Hi IH
    |n pre cs replies p Hn Hs Hi IH]; intros fuel rs w Hf Hc Hb Hd Hr;
    (destruct fuel as [|fuel]; [lia|]); cbn [get_packet_loop]; rsp_pure; rsp_pure; rsp_pure;
    pose proof (attempt_fuel _ _ _ _ Hd Hr) as Hfuel.
  - eapply wp_mono; [eapply (wp_attempt_break _ n rs rest); try done|].
    { rewrite length_app in Hfuel. simpl in Hfuel. lia. }
    intros a w' (-> & T & Hh). by rsp_pure.
  - destruct Hg as (Hx & _ & Hg).
    eapply wp_mono; [eapply (wp_attempt_packet _ n pre body h1 h2 rs rest); try done|].
    { rewrite !length_app in *. simpl in *. rewrite length_app in Hfuel. lia. }
    rewrite bool_decide_true by (rewrite <- Hg; symmetry; apply wrap_wrap). intros a w' (-> & T & Hh). by rsp_pure.
  - destruct Hg as [Hx Hg]. replace (n ++ 36 :: pre ++ [35; h1; h2] ++ cs) with ((n ++ 36 :: pre ++ [35; h1; h2]) ++ cs) in *
      by (by rewrite <- !app_assoc; simpl; rewrite <- !app_assoc).
    apply delivers_app_inv in Hd as (r1 & r2 & -> & Hd1 & Hd2). rewrite <- app_assoc in Hr.
    eapply wp_mono; [eapply (wp_attempt_packet _ n pre body h1 h2 r1); try done|].
    { rewrite !length_app in *. simpl in *. rewrite length_app in Hfuel. lia. }
    rewrite bool_decide_false by done. intros a w1 (-> & T & _).
    eapply wp_mono.
    { apply (IH fuel r2); [|by apply (hears_connected _ _ _ _ T)|by apply T|done|].
      - rewrite length_app in Hf. simpl in Hf. rewrite !length_app in Hf. simpl in Hf. lia.
      - by apply (hears_rest _ _ _ _ _ T). }
    intros b w2 (-> & T2 & Hh). split; [done|]. split; [|done].
    by apply (hears_trans _ _ [45] _ _ _ _ T).
  - replace (n ++ 36 :: pre ++ cs) with ((n ++ 36 :: pre) ++ cs) in * by (by rewrite <- app_assoc).
    apply delivers_app_inv in Hd as (r1 & r2 & -> & Hd1 & Hd2). rewrite <- app_assoc in Hr.
    eapply wp_mono; [eapply (wp_attempt_overrun _ n pre r1); try done|].
    { rewrite !length_app in *. simpl in *. lia. }
    intros a w1 (-> & T). eapply wp_mono.
    { apply (IH fuel r2); [|by apply (hears_connected _ _ _ _ T)|by apply T|done|].
      - rewrite !length_app in Hf. simpl in Hf. lia.
      - by apply (hears_rest _ _ _ _ _ T). }
    intros b w2 (-> & T2 & Hh). split; [done|]. split; [|done].
    by apply (hears_trans _ _ [] _ _ _ _ T).
Qed.

Lemma wp_get_packet cs replies p rs rest w :
  incoming cs replies p -> connected w -> buf_wf (rsp w) ->
  delivers cs rs -> reads (gdb w) = rs ++ rest ->
  wp get_packet (fun b w' => b = true /\ hears rs replies w w' /\ holds p (rsp w')) w.
Proof.
  intros Hi Hc Hb Hd Hr. unfold get_packet. rsp_pure. rsp_pure.
  eapply wp_get_packet_loop; try done. by eapply attempt_fuel.
Qed.
End packet.
