(* ===== verification/RspCmds.v ===== *)
(** rsp-server.c: the requests of the GDB client, one definition for each function,
    and [rsp_client_request], which gets a packet and answers it. *)

From Stdlib Require Import String.
From S2P Require Import Prelude Scanf StateM Tap Cable Chain AdvDbg RspData DebugUnit HwMonitor Rsp.
From stdpp Require Import gmap list.

Open Scope Z_scope.
Open Scope cword_scope.

(** * hwp_server.c: the watchpoints of the CPU *)

Definition HWP_MAX_WP : Z := 8.

(** The first watchpoint that is not in use, or -1, and which are then in use. *)
Definition hwp_get_available_watchpoint (in_use : list Z) : Z * list Z :=
  match for_return HWP_MAX_WP (fun i =>
          if default 1 (in_use !! Z.to_nat i) =? 0 then Some i else None) with
  | Some i => (i, <[Z.to_nat i := 1]> in_use)
  | None => (-1, in_use)
  end.

Definition hwp_return_watchpoint (wp : Z) (in_use : list Z) : list Z :=
  if HWP_MAX_WP <=? wp then in_use else <[Z.to_nat wp := 0]> in_use.

Section cmds.
Context `{Target, Alloc, Unspecified} {D : Type} `{DebugUnit D}.

(** The text in the buffer, and a text put at its start with a zero after it. *)
Definition command : M (world D) (list Z) := get (fun r => cstr (buf_data r)).
Definition put_string (s : list Z) : M (world D) unit :=
  put (fun r => set_buf_data (list_inserts 0 (s ++ [0]) (buf_data r)) r).

(** [buf->len = strlen (buf->data); put_packet (buf);] *)
Definition put_buf_packet : M (world D) unit :=
  put (fun r => set_buf_len (Z.of_nat (List.length (cstr (buf_data r)))) r);;
  data ← get (fun r => take (Z.to_nat (buf_len r)) (buf_data r));
  put_packet data.

(** The reply to a request that has accessed the target. *)
Definition put_result (errcode : Z) : M (world D) unit :=
  if errcode =? APP_ERR_NONE then put_str_packet "OK" else put_str_packet "E01".

(** * Execution *)

Definition set_npc (addr : Z) : M (world D) Z :=
  errcode ← write_spr SPR_NPC addr;
  put (set_cached_npc (u32 addr));;
  put (set_use_cached_npc true);;
  mret errcode.

Definition rsp_report_exception : M (world D) unit :=
  sig ← get sigval;
  c1 ← lift (load_word (hexchars ++ [0]) (Z.shiftr sig 4));
  c2 ← lift (load_word (hexchars ++ [0]) (sig mod 16));
  put_packet (cstr [83; c1; c2; 0]).

Definition rsp_exception (except : Z) : M (world D) unit :=
  match signal_of except with
  | Some sig => put (set_sigval sig)
  | None => mret tt
  end.

(** Watchpoints that have been hit are cleared by any write to the register. *)
Definition clear_watchpoint_status (tmp : option Z) : M (world D) (option Z) :=
  '(_, tmp) ← read_spr SPR_DMR2 tmp;
  (if truth (value tmp .& SPR_DMR2_WBS) then _ ← write_spr SPR_DMR2 (value tmp); mret tt else mret tt);;
  mret tmp.

(** The argument is not used. *)
Definition rsp_continue_generic (except : Z) : M (world D) unit :=
  _ ← write_spr SPR_DRR 0;
  tmp ← clear_watchpoint_status None;
  '(_, tmp) ← read_spr SPR_DMR1 tmp;
  _ ← write_spr SPR_DMR1 (value tmp .& not32 (SPR_DMR1_ST .| SPR_DMR1_BT));
  set_stall_state 0;;
  put (set_client_waiting true);;
  put (set_single_step_mode false).

Definition rsp_continue : M (world D) unit :=
  cmd ← command;
  (if negb (strncmp0 cmd (bytes "c") 2) then
     scanned ← lift (sscanf cmd (lits "c" ++ [Hexadecimal None (8 * long_size)]));
     match scanned with
     | [Num addr] => _ ← set_npc addr; mret tt
     | _ => mret tt
     end
   else mret tt);;
  rsp_continue_generic EXCEPT_NONE.

(** A message on stdout, and nothing else. *)
Definition rsp_continue_with_signal : M (world D) unit := mret tt.

Definition rsp_step_generic (except : Z) : M (world D) unit :=
  _ ← write_spr SPR_DRR 0;
  tmp ← clear_watchpoint_status (Some 0);
  stepping ← get single_step_mode;
  (if negb stepping then
     '(_, tmp) ← read_spr SPR_DMR1 tmp;
     let tmp := value tmp .| (SPR_DMR1_ST .| SPR_DMR1_BT) in
     _ ← write_spr SPR_DMR1 tmp;
     '(_, tmp) ← read_spr SPR_DSR (Some tmp);
     (if negb (truth (value tmp .& SPR_DSR_TE)) then
        _ ← write_spr SPR_DSR (value tmp .| SPR_DSR_TE); mret tt
      else mret tt);;
     put (set_single_step_mode true)
   else mret tt);;
  set_stall_state 0;;
  put (set_client_waiting true).

(** An address in the request is read and not used. *)
Definition rsp_step : M (world D) unit :=
  cmd ← command;
  (if negb (strncmp0 cmd (bytes "s") 2) then
     _ ← lift (sscanf cmd (lits "s" ++ [Hexadecimal None (8 * long_size)])); mret tt
   else mret tt);;
  rsp_step_generic EXCEPT_NONE.

(** The signal in the request is handed on to be ignored. *)
Definition rsp_step_with_signal : M (world D) unit := rsp_step_generic EXCEPT_NONE.

Definition rsp_restart : M (world D) unit :=
  addr ← get start_addr;
  _ ← set_npc addr;
  mret tt.

(** * Registers *)

Definition uninit (n : Z) : buffer := replicate (Z.to_nat n) None.
Definition word (words : buffer) (i : Z) : Z := value (mjoin (words !! Z.to_nat i)).

(** The zero [reg2hex] writes is overwritten by the register that follows. *)
Definition rsp_read_all_regs : M (world D) unit :=
  '(errcode, regbuf) ← dbg (cpu0_read_block SPR_GPR_BASE (uninit MAX_GPRS) MAX_GPRS);
  let gprs := concat (map (fun r => reg2hex (word regbuf r)) (seqZ 0 MAX_GPRS)) in
  '(errcode', regbuf) ← dbg (cpu0_read_block SPR_NPC regbuf 3);
  cached ← get use_cached_npc;
  npc ← get cached_npc;
  let data := gprs ++ reg2hex (word regbuf 2)
    ++ reg2hex (if (cached : bool) then npc else word regbuf 0) ++ reg2hex (word regbuf 1) in
  if (errcode .| errcode') =? APP_ERR_NONE then put_packet data else put_str_packet "E01".

(** [hex2reg (&(buf->data[i]))] *)
Definition hex2reg_at (data : list Z) (i : Z) : Z := hex2reg (take 8 (drop (Z.to_nat i) data)).

Definition rsp_write_all_regs : M (world D) unit :=
  data ← get buf_data;
  errcode ← dbg_write (cpu0_write_block SPR_GPR_BASE
    (map (fun r => u32 (hex2reg_at data (r * 8))) (seqZ 0 MAX_GPRS)) MAX_GPRS);
  errcode' ← dbg_write (cpu0_write_block SPR_NPC
    [u32 (hex2reg_at data (NPC_REGNUM * 8)); u32 (hex2reg_at data (SR_REGNUM * 8));
     u32 (hex2reg_at data (PPC_REGNUM * 8))] 3);
  put_result (errcode .| errcode').

Definition rsp_read_reg : M (world D) unit :=
  cmd ← command;
  scanned ← lift (sscanf cmd (lits "p" ++ [pct_x]));
  match scanned with
  | [Num regnum] =>
      let reply (r : Z * option Z) : M (world D) unit :=
        if r.1 =? APP_ERR_NONE then put_string (reg2hex (value r.2));; put_buf_packet
        else put_str_packet "E01" in
      if regnum <? MAX_GPRS then r ← read_spr (SPR_GPR_BASE + regnum) None; reply r
      else if PPC_REGNUM =? regnum then r ← read_spr SPR_PPC None; reply r
      else if NPC_REGNUM =? regnum then
        cached ← get use_cached_npc;
        npc ← get cached_npc;
        if (cached : bool) then reply (APP_ERR_NONE, Some npc)
        else r ← read_spr SPR_NPC None; reply r
      else if SR_REGNUM =? regnum then r ← read_spr SPR_SR None; reply r
      else put_str_packet "E01"
  | _ => put_str_packet "E01"
  end.

(** A text shorter than eight characters leaves the rest of [valstr] unwritten. *)
Definition valstr (s : list Z) : list Z := take 8 (s ++ [0] ++ replicate 8 unspecified).

Definition rsp_write_reg : M (world D) unit :=
  cmd ← command;
  scanned ← lift (sscanf cmd (lits "P" ++ [pct_x] ++ lits "=" ++ [Word 8]));
  match scanned with
  | [Num regnum; Text s] =>
      let v := hex2reg (valstr s) in
      if regnum <? MAX_GPRS then e ← write_spr (SPR_GPR_BASE + regnum) v; put_result e
      else if PPC_REGNUM =? regnum then e ← write_spr SPR_PPC v; put_result e
      else if NPC_REGNUM =? regnum then e ← set_npc v; put_result e
      else if SR_REGNUM =? regnum then e ← write_spr SPR_SR v; put_result e
      else put_str_packet "E01"
  | _ => put_str_packet "E01"
  end.

(** * Memory *)

(** [malloc (len)]: the bytes of the block, none when there is no block. *)
Definition malloc_bytes (len : Z) : buffer :=
  if malloc_ok (wrap (8 * long_size) len) then uninit len else [].
Definition byte_at (data : buffer) (i : Z) : outcome Z :=
  match data !! Z.to_nat i with Some v => Ok (u8 (value v)) | None => Undef end.

Definition rsp_read_mem : M (world D) unit :=
  cmd ← command;
  scanned ← lift (sscanf cmd (lits "m" ++ [pct_x] ++ lits "," ++ [pct_x] ++ lits ":"));
  match scanned with
  | [Num addr; Num len] =>
      digits ← lift (signed_c 32 (i32 len * 2));
      let len := if GDB_BUF_MAX <=? digits then (GDB_BUF_MAX - 1) / 2 else i32 len in
      '(errcode, tmpbuf) ← dbg (wb_read_block8 addr (malloc_bytes len) len);
      mfor_upto len (fun off _ =>
        ch ← lift (byte_at tmpbuf off);
        put_buf (off * 2) (hexchar (Z.shiftr ch 4));;
        put_buf (off * 2 + 1) (hexchar (ch .& 0xf))) tt;;
      if errcode =? APP_ERR_NONE then
        put_buf (Z.max 0 len * 2) 0;;
        put_buf_packet
      else put_str_packet "E01"
  | _ => put_str_packet "E01"
  end.

(** [memchr (data, ':', GDB_BUF_MAX) + 1 - data]: no pointer can be computed from the
    null pointer. *)
Definition after_colon (data : list Z) : outcome Z :=
  match list_find (fun c => c = 58) data with
  | Some (i, _) => Ok (Z.of_nat i + 1)
  | None => Undef
  end.

(** The byte two characters stand for. *)
Definition sym_byte (c1 c2 : Z) : Z := u8 ((Z.shiftl (u8 (hex c1)) 4) .| u8 (hex c2)).

Definition rsp_write_mem : M (world D) unit :=
  cmd ← command;
  scanned ← lift (sscanf cmd (lits "M" ++ [pct_x] ++ lits "," ++ [pct_x] ++ lits ":"));
  match scanned with
  | [Num addr; Num len] =>
      let len := i32 len in
      data ← get buf_data;
      total ← get buf_len;
      symdat ← lift (after_colon data);
      digits ← lift (signed_c 32 (len * 2));
      if negb (digits =? total - symdat) then put_str_packet "E01" else
      if (0 <? len) && negb (malloc_ok (wrap (8 * long_size) len)) then lift Undef else
      let at' i := default 0 (data !! Z.to_nat (symdat + i)) in
      let tmpbuf := map (fun off => sym_byte (at' (off * 2)) (at' (off * 2 + 1))) (seqZ 0 len) in
      errcode ← dbg_write (wb_write_block8 addr tmpbuf len);
      put_result errcode
  | _ => put_str_packet "E01"
  end.

Definition rsp_write_mem_bin : M (world D) unit :=
  cmd ← command;
  scanned ← lift (sscanf cmd (lits "X" ++ [pct_x] ++ lits "," ++ [pct_x] ++ lits ":"));
  match scanned with
  | [Num addr; Num len] =>
      let len := i32 len in
      data ← get buf_data;
      total ← get buf_len;
      off ← lift (after_colon data);
      '(bindat, newlen) ← lift (rsp_unescape (drop (Z.to_nat off) data) (total - off));
      put (set_buf_data (take (Z.to_nat off) data ++ bindat));;
      let len := if negb (newlen =? len) then (if len <? newlen then len else newlen) else len in
      errcode ← dbg_write (wb_write_block8 addr (take (Z.to_nat len) bindat) len);
      put_result errcode
  | _ => put_str_packet "E01"
  end.

(** * Queries *)

(** [sprintf (cmd, "%8x", v)]: no zeros before the first digit. *)
Fixpoint blank_zeros (s : list Z) : list Z :=
  match s with
  | c :: ((_ :: _) as s') => if c =? 48 then 32 :: blank_zeros s' else s
  | s => s
  end.
Definition sprintf_8x (v : Z) : list Z := blank_zeros (reg2hex v).

Definition rsp_command : M (world D) unit :=
  cmd ← get (fun r => cstr (hex2ascii (cstr (drop (List.length (bytes "qRcmd,")) (buf_data r)))));
  if strncmp0 (bytes "readspr ") cmd (List.length (bytes "readspr")) then
    scanned ← lift (sscanf cmd (lits "readspr" ++ [White; pct_nx 4]));
    match scanned with
    | [Num regno] =>
        if MAX_SPRS <? regno then put_str_packet "E01" else
        '(_, tmp) ← read_spr regno None;
        put_string (ascii2hex (sprintf_8x (value tmp)));;
        put_buf_packet
    | _ => put_str_packet "E01"
    end
  else if strncmp0 (bytes "writespr ") cmd (List.length (bytes "writespr")) then
    scanned ← lift (sscanf cmd (lits "writespr" ++
      [White; pct_nx 4; White; Hexadecimal (Some 8%nat) (8 * long_size)]));
    match scanned with
    | [Num regno; Num val] =>
        if MAX_SPRS <? regno then put_str_packet "E01" else
        _ ← write_spr regno val;
        put_str_packet "OK"
    | _ => put_str_packet "E01"
    end
  else mret tt.

Definition rsp_query : M (world D) unit :=
  cmd ← command;
  if equals "qC" cmd then put_str_packet ""
  else if starts_with "qCRC" cmd then put_str_packet "E01"
  else if equals "qfThreadInfo" cmd then put_str_packet "m-1"
  else if equals "qsThreadInfo" cmd then put_str_packet "l"
  else if starts_with "qGetTLSAddr:" cmd then put_str_packet ""
  else if starts_with "qL" cmd then put_str_packet "qM001"
  else if equals "qOffsets" cmd then put_str_packet "Text=0;Data=0;Bss=0"
  else if starts_with "qP" cmd then put_str_packet ""
  else if starts_with "qRcmd," cmd then rsp_command
  else if starts_with "qSupported" cmd then put_str_packet "PacketSize=4000"
  else if starts_with "qSymbol:" cmd then put_str_packet "OK"
  else if starts_with "qThreadExtraInfo," cmd then
    put_string (ascii2hex (bytes "Runnable") ++ bytes "00");; put_buf_packet
  else if starts_with "qXfer:" cmd then put_str_packet ""
  else if starts_with "qAttached" cmd then put_str_packet ""
  else if equals "qTStatus" cmd then put_str_packet ""
  else mret tt.

Definition rsp_set : M (world D) unit :=
  cmd ← command;
  if starts_with "QPassSignals:" cmd then put_str_packet ""
  else if starts_with "QTDP" cmd || starts_with "QFrame" cmd || equals "QTStart" cmd
    || equals "QTStop" cmd || equals "QTinit" cmd || starts_with "QTro" cmd
  then put_str_packet "" else mret tt.

Definition rsp_vpkt : M (world D) unit :=
  cmd ← command;
  if starts_with "vAttach;" cmd then put_str_packet "S05"
  else if equals "vCont?" cmd then put_str_packet ""
  else if starts_with "vCont" cmd then mret tt
  else if starts_with "vFile:" cmd then put_str_packet ""
  else if starts_with "vFlashErase:" cmd then put_str_packet "E01"
  else if starts_with "vFlashWrite:" cmd then put_str_packet "E01"
  else if equals "vFlashDone" cmd then put_str_packet "E01"
  else if starts_with "vRun;" cmd then rsp_restart;; put_str_packet "S05"
  else put_str_packet "E01".

(** * Matchpoints *)

(** The bit of a watchpoint among those that generate breakpoints. *)
Definition wgb_bit (hwp : Z) : outcome Z := b ← shl_c 1 hwp; Ok (b << 12).

Definition remove_hardware (type addr : Z) : M (world D) unit :=
  hash ← get mp_hash;
  let '(mpe, hash) := mp_hash_delete hash type addr in
  put (set_mp_hash hash);;
  match mpe with
  | Some mpe =>
      let hwp := u32 (mp_instr mpe) in
      '(_, regdata) ← read_spr SPR_DMR2 None;
      bit ← lift (wgb_bit hwp);
      _ ← write_spr SPR_DMR2 (value regdata .& not32 bit);
      _ ← write_spr (SPR_DCR hwp) 0x01;
      modify (upd_hwp (hwp_return_watchpoint hwp));;
      put_str_packet "OK"
  | None => put_str_packet "OK"
  end.

Definition remove_memory (addr : Z) : M (world D) unit :=
  hash ← get mp_hash;
  let '(mpe, hash) := mp_hash_delete hash BP_MEMORY addr in
  put (set_mp_hash hash);;
  match mpe with
  | Some mpe => _ ← dbg_write (wb_write_block32 addr [u32 (mp_instr mpe)] 1); mret tt
  | None => mret tt
  end;;
  put_str_packet "OK".

(** The length is read and not used. *)
Definition rsp_remove_matchpoint : M (world D) unit :=
  cmd ← command;
  scanned ← lift (sscanf cmd (lits "z" ++ [pct_nd 1] ++ lits "," ++ [pct_x] ++ lits "," ++ [pct_nd 1]));
  match scanned with
  | [Num type; Num addr; Num len] =>
      switch type
        [(BP_MEMORY, remove_memory addr); (BP_HARDWARE, remove_hardware type addr);
         (WP_WRITE, remove_hardware type addr); (WP_READ, remove_hardware type addr);
         (WP_ACCESS, remove_hardware type addr)] (put_str_packet "E01")
  | _ => put_str_packet "E01"
  end.

Definition insert_memory (addr : Z) : M (world D) unit :=
  '(_, instbuf) ← dbg (wb_read_block32 addr [None] 1);
  hash ← get mp_hash;
  hash ← lift (mp_hash_add hash BP_MEMORY addr (word instbuf 0));
  put (set_mp_hash hash);;
  _ ← dbg_write (wb_write_block32 addr [OR1K_TRAP_INSTR] 1);
  put_str_packet "OK".

(** The four kinds of hardware matchpoint differ in the control register [dcr]. *)
Definition insert_hardware (type addr dcr : Z) : M (world D) unit :=
  in_use ← gets hwp_in_use;
  let '(hwp, in_use) := hwp_get_available_watchpoint in_use in
  modify (upd_hwp (fun _ => in_use));;
  if hwp =? -1 then put_str_packet "" else
  hash ← get mp_hash;
  hash ← lift (mp_hash_add hash type addr hwp);
  put (set_mp_hash hash);;
  _ ← write_spr (SPR_DVR hwp) addr;
  _ ← write_spr (SPR_DCR hwp) dcr;
  '(_, regdata) ← read_spr SPR_DMR2 (Some dcr);
  bit ← lift (wgb_bit hwp);
  _ ← write_spr SPR_DMR2 (value regdata .| bit);
  '(_, regdata) ← read_spr SPR_DMR1 (Some (value regdata .| bit));
  bits ← lift (shl_c 3 (2 * hwp));
  _ ← write_spr SPR_DMR1 (value regdata .& not32 bits);
  put_str_packet "OK".

Definition rsp_insert_matchpoint : M (world D) unit :=
  cmd ← command;
  scanned ← lift (sscanf cmd (lits "Z" ++ [pct_nd 1] ++ lits "," ++ [pct_x] ++ lits "," ++ [pct_nd 1]));
  match scanned with
  | [Num type; Num addr; Num len] =>
      switch type
        [(BP_MEMORY, insert_memory addr); (BP_HARDWARE, insert_hardware type addr 0x23);
         (WP_WRITE, insert_hardware type addr 0x63); (WP_READ, insert_hardware type addr 0x43);
         (WP_ACCESS, insert_hardware type addr 0xC3)] (put_str_packet "E01")
  | _ => put_str_packet "E01"
  end.

(** * Requests *)

(** While the target is running only a break is obeyed. *)
Definition request_running (c : Z) : M (world D) unit :=
  if c =? 0x03 then set_stall_state 1
  else put_str_packet "O6154677274656e20746f73206f74707064650a0d".

(** Detaching closes the connection to the monitor before it is used to start the
    target. *)
Definition rsp_detach : M (world D) unit :=
  put_str_packet "OK";; rsp_client_close;; set_stall_state 0.

Definition request_stopped (c : Z) : M (world D) unit :=
  switch c
    [(33, put_str_packet "OK"); (63, rsp_report_exception); (65, put_str_packet "E01");
     (99, rsp_continue); (67, rsp_continue_with_signal); (68, rsp_detach);
     (103, rsp_read_all_regs); (71, rsp_write_all_regs); (72, put_str_packet "OK");
     (105, rsp_step); (73, rsp_step_with_signal); (109, rsp_read_mem); (77, rsp_write_mem);
     (112, rsp_read_reg); (80, rsp_write_reg); (113, rsp_query); (81, rsp_set);
     (82, rsp_restart); (115, rsp_step); (83, rsp_step_with_signal);
     (84, put_str_packet "OK"); (118, rsp_vpkt); (88, rsp_write_mem_bin);
     (122, rsp_remove_matchpoint); (90, rsp_insert_matchpoint)]
    (mret tt).

Definition rsp_client_request : M (world D) unit :=
  packet ← get_packet;
  if negb packet then rsp_client_close else
  c ← get (fun r => default 0 (buf_data r !! 0%nat));
  running ← get target_running;
  if (running : bool) then request_running c else request_stopped c.
End cmds.
