(* ===== verification/RspServer.v ===== *)
(** rsp-server.c: the connection of the GDB client, and [handle_rsp], which waits for
    an event and handles it. *)

From Stdlib Require Import String.
From S2P Require Import Prelude Scanf StateM Tap Cable Chain AdvDbg RspData DebugUnit HwMonitor Rsp RspCmds.
From stdpp Require Import gmap list.

Open Scope Z_scope.
Open Scope cword_scope.

Section server.
Context `{Target, Alloc, Unspecified} {D : Type} `{DebugUnit D}.

(** [opened]: the descriptor of the socket, when there is one, and whether the calls
    that make it listen succeed. *)
Definition rsp_init (opened : option (Z * bool)) : M (world D) unit :=
  put (set_client_waiting false);;
  put (set_server_fd (-1));;
  put (set_client_fd (-1));;
  put (set_sigval 0);;
  put (set_start_addr EXCEPT_RESET);;
  put (set_mp_hash mp_hash_init);;
  match opened with
  | None => mret tt
  | Some (fd, listening) =>
      put (set_server_fd fd);;
      if (listening : bool) then mret tt else rsp_server_close
  end.

(** Stop the target, and have exceptions and traps handled by the debug unit. *)
Definition setup_target : M (world D) unit :=
  set_stall_state 1;;
  put (set_target_running false);;
  put (set_single_step_mode false);;
  '(_, tmp) ← read_spr SPR_DSR None;
  _ ← write_spr SPR_DSR (value tmp .| SPR_DSR_TE .| SPR_DSR_FPE .| SPR_DSR_RE .| SPR_DSR_IIE
    .| SPR_DSR_AE .| SPR_DSR_BUSEE);
  '(_, tmp) ← read_spr SPR_SR tmp;
  _ ← write_spr SPR_SR (value tmp .| SPR_SR_SM);
  mret tt.

(** An [accept] of which the result is not prescribed finds no connection. *)
Definition rsp_server_request : M (world D) unit :=
  results ← gets (fun w => accepts (gdb w));
  modify (upd_gdb (set_accepts (tail results)));;
  match default (AcceptError true) (head results) with
  | AcceptError retry =>
      if (retry : bool) then mret tt else rsp_client_close;; rsp_server_close
  | Accepted fd options =>
      client ← get client_fd;
      if negb (client =? -1) then mret tt else
      if negb options then mret tt else
      '(r, fds) ← on_hm register_with_monitor_thread;
      put (fun s => set_pipe_fds (default (pipe_fds s) fds) s);;
      if r <? 0 then rsp_server_close else
      put (set_client_fd fd);;
      setup_target
  end.

(** The exception of a target that has stopped, for a client that waits: after a
    breakpoint the program counter goes back to the instruction it replaced. *)
Definition report_stop : M (world D) unit :=
  '(_, ppcval) ← read_spr SPR_PPC None;
  sig ← get sigval;
  (if TARGET_SIGNAL_TRAP =? sig then
     hash ← get mp_hash;
     match mp_hash_lookup hash BP_MEMORY (value ppcval) with
     | Some _ => _ ← set_npc (value ppcval); mret tt
     | None =>
         '(_, dmr2val) ← read_spr SPR_DMR2 None;
         if truth (value dmr2val .& SPR_DMR2_WBS) then _ ← set_npc (value ppcval); mret tt
         else mret tt
     end
   else mret tt);;
  rsp_report_exception;;
  put (set_client_waiting false).

(** H (72): the target has stopped; R (82): it runs. *)
Definition monitor_event : M (world D) unit :=
  fds ← get pipe_fds;
  status ← on_hm (read_pipe fds.2);
  let monitor_status := value status in
  if monitor_status =? 72 then
    running ← get target_running;
    if (running : bool) then
      put (set_target_running false);;
      '(_, drrval) ← read_spr SPR_DRR None;
      rsp_exception (value drrval);;
      waiting ← get client_waiting;
      if (waiting : bool) then report_stop else mret tt
    else mret tt
  else if monitor_status =? 82 then put (set_target_running true)
  else mret tt.

(** The next result of [poll]; without one it waits for ever. *)
Definition next_poll : M (world D) poll_result :=
  results ← gets (fun w => polls (gdb w));
  match results with
  | [] => lift Hang
  | r :: results => modify (upd_gdb (set_polls results));; mret r
  end.

Definition close_both : M (world D) unit := rsp_client_close;; rsp_server_close.

(** Waiting for a client: whether there is one. *)
Fixpoint wait_client (fuel : nat) : M (world D) bool :=
  match fuel with
  | O => lift Hang
  | S fuel =>
      client ← get client_fd;
      if negb (client =? -1) then mret true else
      r ← next_poll;
      match r with
      | PollError interrupt =>
          if (interrupt : bool) then wait_client fuel else close_both;; mret false
      | PollTimeout => wait_client fuel
      | PollEvent socket _ =>
          if (socket : bool) then
            rsp_server_request;;
            put (set_client_waiting false);;
            wait_client fuel
          else close_both;; mret false
      end
  end.

(** 0 is an error of the server.  Every pass of the loop uses up a result of [poll]. *)
Definition handle_rsp : M (world D) Z :=
  server ← get server_fd;
  if server =? -1 then mret 0 else
  results ← gets (fun w => polls (gdb w));
  connected ← wait_client (S (List.length results));
  if negb connected then mret 0 else
  r ← next_poll;
  match r with
  | PollError interrupt => if (interrupt : bool) then mret 1 else close_both;; mret 0
  | PollTimeout => mret 1
  | PollEvent socket pipe =>
      (if (socket : bool) then rsp_client_request
       else if (pipe : bool) then monitor_event
       else rsp_client_close);;
      mret 1
  end.
End server.
