(* ===== verification/RspCmdFacts.v ===== *)
(** Requests of the client: how one is taken from a packet and answered, and what the
    requests for registers and memory do to a target that answers; the table of matchpoints
    and the requests that set and clear them. *)

From Stdlib Require Import String Ascii.
From S2P Require Import Prelude Scanf StateM Tap Cable Chain AdvDbg RspData RspCodec.
From S2P Require Import DebugUnit HwMonitor Rsp RspFacts RspPacket RspCmds.
From stdpp Require Import gmap list.

Open Scope Z_scope.
Open Scope cword_scope.

(** A text that is sent as it is. *)
Definition plain_text (s : list Z) : Prop :=
  Forall (fun c => is_u8 c /\ c <> 0 /\ escaped c = false) s.

Lemma plain_text_app s t : plain_text (s ++ t) <-> plain_text s /\ plain_text t.
Proof. apply Forall_app. Qed.

Lemma plain_escape s : plain_text s -> escape s = s.
Proof.
  induction 1 as [|c s (_ & _ & E) Hs IH]; [done|].
  change (escape (c :: s)) with (escape_char c ++ escape s). unfold escape_char. by rewrite E, IH.
Qed.

Lemma plain_cstr s t : plain_text s -> cstr (s ++ 0 :: t) = s.
Proof. intros Hs. apply cstr_app. eapply Forall_impl; [exact Hs|]. by intros c (_ & ? & _). Qed.

Lemma plain_cstr_app s t : plain_text s -> cstr (s ++ t) = s ++ cstr t.
Proof.
  induction 1 as [|c s (_ & Hc & _) Hs IH]; simpl; [done|].
  destruct (Z.eqb_spec c 0); [done|]. by rewrite IH.
Qed.

Lemma digits_plain s : digits s -> plain_text s.
Proof.
  intros Hs. eapply Forall_impl; [exact Hs|]. intros c Hc.
  destruct (plain_digit_spec c Hc) as (Hr & _ & _ & He). unfold is_word. repeat split; try done; lia.
Qed.

Lemma bytes_u8 s : Forall is_u8 (bytes s).
Proof.
  unfold bytes. apply Forall_map, Forall_true. intros c.
  pose proof (N_ascii_bounded c). unfold is_word. lia.
Qed.

(** The frame of a packet is a packet for the other side. *)
Lemma escape_run data : run (escape data).
Proof.
  unfold run. induction data as [|c data IH]; [constructor|].
  change (escape (c :: data)) with (escape_char c ++ escape data). apply Forall_app. split; [|done].
  unfold escape_char, escaped.
  destruct (Z.eqb_spec 36 c); [subst; by repeat constructor|].
  destruct (Z.eqb_spec 35 c); [subst; by repeat constructor|].
  destruct (Z.eqb_spec 42 c); [subst; by repeat constructor|].
  destruct (Z.eqb_spec 125 c); [subst; by repeat constructor|]. by repeat constructor.
Qed.

Lemma checksum_u8 s : is_u8 (checksum s).
Proof. by apply wrap_range. Qed.

Lemma frame_good data :
  good (escape data) (hexchar (Z.shiftr (checksum (escape data)) 4)) (hexchar (checksum (escape data) mod 16)).
Proof.
  unfold good. set (c := checksum (escape data)).
  assert (0 <= c < 256) as Hc by apply (checksum_u8 (escape data)).
  rewrite Z.shiftr_div_pow2 by done. change (2 ^ 4) with 16.
  assert (0 <= c / 16 < 16 /\ 0 <= c mod 16 < 16) as [H1 H2] by (Z.div_mod_to_equations; lia).
  split; [apply (plain_digit_spec _ (hexchar_plain _ H1))|].
  split; [apply (plain_digit_spec _ (hexchar_plain _ H2))|].
  rewrite !hex_hexchar by done. by apply Z.div_mod.
Qed.

Lemma frame_incoming data :
  Z.of_nat (length (escape data)) < GDB_BUF_MAX - 1 -> incoming (frame data) [43] (Text (escape data)).
Proof.
  intros Hl. unfold frame. change ([36] ++ escape data ++ ?t) with ([] ++ 36 :: escape data ++ t).
  apply incoming_packet; [constructor| |apply frame_good].
  apply started_text; [apply escape_run|done].
Qed.

Lemma frame_u8 data : Forall is_u8 data -> Forall is_u8 (frame data).
Proof.
  intros Hd. unfold frame. apply Forall_app. split; [by repeat constructor|].
  apply Forall_app. split.
  - induction Hd as [|c data Hc Hd IH]; [constructor|].
    change (escape (c :: data)) with (escape_char c ++ escape data). apply Forall_app.
    split; [by apply escape_char_u8|done].
  - pose proof (checksum_u8 (escape data)) as Hc. unfold is_word in Hc. change (2 ^ 8) with 256 in Hc.
    apply Forall_cons. split; [done|]. apply Forall_cons. split; [|apply Forall_singleton];
      apply hexchar_u8; rewrite ?Z.shiftr_div_pow2 by done; change (2 ^ 4) with 16;
      Z.div_mod_to_equations; lia.
Qed.

(** Tests of register numbers that are constants. *)
Ltac test_constant t :=
  let b := eval vm_compute in t in
  lazymatch b with true => idtac | false => idtac end; change t with b.
Ltac reg_tests :=
  repeat match goal with
    | |- context [?a <? MAX_GPRS] => test_constant (a <? MAX_GPRS)
    | |- context [Z.eqb ?a ?b] => test_constant (Z.eqb a b)
    end; cbn [andb].

Section requests.
Context `{Target, Alloc, Unspecified} {D : Type} `{DebugUnit D}.
Implicit Types w : world D.

(** ** Calls of the debug unit *)

Definition target w : D := unit_of (hm w).
Definition set_target (d : D) w : world D := set_hm (set_unit d (hm w)) w.

Lemma set_target_eq w : set_target (target w) w = w.
Proof. by destruct w as [? ? ? []]. Qed.

Lemma hears_set_target d r s w w' : hears r s w w' -> hears r s (set_target d w) (set_target d w').
Proof.
  intros ([T1 T2 T3 T4 T5 T6 T7 T8] & E & Hb). split; [|done]. split; try done. cbn in *. by rewrite T3.
Qed.

Lemma wp_dbg {A} (f : M D A) (Q : A -> world D -> Prop) w :
  wp f (fun a d => Q a (set_target d w)) (target w) -> wp (dbg f) Q w.
Proof.
  intros (a & d & Hf & HQ). exists a, (set_target d w). split; [|done].
  unfold dbg, on_hm, on_unit. unfold target in Hf. by rewrite Hf.
Qed.

Lemma wp_dbg_write (f : M D write_result) (Q : Z -> world D -> Prop) w :
  wp f (fun r d => exists e, r = Returned e /\ Q e (set_target d w)) (target w) ->
  wp (dbg_write f) Q w.
Proof.
  intros Hf. unfold dbg_write. apply wp_bind, wp_dbg. eapply wp_mono; [exact Hf|].
  intros r d (e & -> & HQ). by eapply wp_lift.
Qed.

(** ** The text of a request *)

(** The buffer holds a request. *)
Definition requested (s : list Z) w : Prop :=
  buf_len (rsp w) = Z.of_nat (length s) /\ exists tail, buf_data (rsp w) = s ++ 0 :: tail.

Lemma wp_command s (Q : list Z -> world D -> Prop) w :
  plain_text s -> requested s w -> Q s w -> wp command Q w.
Proof.
  intros Hs (_ & tail & Hb) HQ. unfold command. rsp_pure. by rewrite Hb, plain_cstr.
Qed.

(** A request that may have characters that are escaped. *)
Lemma wp_client_packet data c s rs rest (Q : unit -> world D -> Prop) w :
  connected w -> buf_wf (rsp w) -> target_running (rsp w) = false ->
  escape data = c :: s -> Z.of_nat (length (escape data)) < GDB_BUF_MAX - 1 ->
  delivers (frame data) rs -> reads (gdb w) = rs ++ rest ->
  (forall w', hears rs [43] w w' -> connected w' -> buf_wf (rsp w') -> requested (escape data) w' ->
     reads (gdb w') = rest -> wp (request_stopped c) Q w') ->
  wp rsp_client_request Q w.
Proof.
  intros Hc Hb Hrun Hs Hl Hd Hr HQ. unfold rsp_client_request. rsp_pure.
  pose proof (frame_incoming data Hl) as Hi.
  eapply wp_mono; [by eapply (wp_get_packet _ _ _ rs rest w Hi)|].
  intros ? w1 (-> & T & Hh). cbn [negb]. pose proof T as (_ & E & Hb1).
  rsp_pure. rsp_pure. rsp_pure. rsp_pure.
  assert (target_running (rsp w1) = false) as -> by (unfold same_but_buf in E; rewrite E; done).
  assert (default 0 (buf_data (rsp w1) !! 0%nat) = c) as ->.
  { destruct Hh as (_ & tail & ->). by rewrite Hs. }
  apply HQ; [done|by apply (hears_connected _ _ _ _ T)|by apply Hb1|done|].
  by apply (hears_rest _ _ _ _ _ T).
Qed.

Lemma wp_client_request c s rs rest (Q : unit -> world D -> Prop) w :
  connected w -> buf_wf (rsp w) -> target_running (rsp w) = false ->
  plain_text (c :: s) -> Z.of_nat (length (c :: s)) < GDB_BUF_MAX - 1 ->
  delivers (frame (c :: s)) rs -> reads (gdb w) = rs ++ rest ->
  (forall w', hears rs [43] w w' -> connected w' -> buf_wf (rsp w') -> requested (c :: s) w' ->
     reads (gdb w') = rest -> wp (request_stopped c) Q w') ->
  wp rsp_client_request Q w.
Proof.
  intros Hc Hb Hrun Hs Hl Hd Hr HQ. pose proof (plain_escape _ Hs) as E.
  apply (wp_client_packet (c :: s) c s rs rest); rewrite ?E; done.
Qed.

(** ** Replies *)

(** An acknowledgment from the client. *)
Lemma wp_send data rs rest w :
  connected w -> Forall is_u8 data -> delivers [43] rs -> reads (gdb w) = rs ++ rest ->
  wp (put_packet data) (fun _ w' => talks rs (frame data) w w') w.
Proof.
  intros Hc Hd Hrs Hr. eapply wp_mono; [by eapply (wp_put_packet data [])|].
  intros ? w' T. cbn [length replicate concat] in T. by rewrite app_nil_r in T.
Qed.

Lemma wp_send_str s rs rest w :
  (String.length s < 1000)%nat -> connected w -> delivers [43] rs -> reads (gdb w) = rs ++ rest ->
  wp (put_str_packet s) (fun _ w' => talks rs (frame (bytes s)) w w') w.
Proof.
  intros Hl Hc Hrs Hr. unfold put_str_packet.
  assert (length (bytes s) = String.length s) as Hlen.
  { unfold bytes. rewrite length_map. clear. induction s; simpl; [done|]. by f_equal. }
  rewrite take_ge by (rewrite Hlen; unfold GDB_BUF_MAX; lia).
  eapply wp_send; try done. apply bytes_u8.
Qed.

Lemma hears_put_data d w :
  connected w -> length d = length (buf_data (rsp w)) ->
  hears [] [] w (upd_rsp (set_buf_data d) w).
Proof.
  intros [_ Hw] Hl. split; [|split].
  - split; cbn; try done. by rewrite app_nil_r.
  - unfold same_but_buf. cbn. by destruct (rsp w).
  - unfold buf_wf. cbn. by rewrite Hl.
Qed.

(** The text in the buffer is sent. *)
Lemma wp_put_buf_packet s tail rs rest w :
  connected w -> plain_text s -> buf_data (rsp w) = s ++ 0 :: tail ->
  delivers [43] rs -> reads (gdb w) = rs ++ rest ->
  wp put_buf_packet (fun _ w' => hears rs (frame s) w w') w.
Proof.
  intros Hc Hs Hb Hrs Hr. unfold put_buf_packet. rsp_pure. rsp_pure. rsp_pure. rsp_pure.
  cbn [upd_rsp rsp set_buf_len buf_len buf_data].
  rewrite Hb, plain_cstr, Nat2Z.id, take_app_length by done.
  pose proof (hears_put_len (Z.of_nat (length s)) w Hc) as T1.
  assert (upd_rsp (fun r => set_buf_len (Z.of_nat (length (cstr (buf_data r)))) r) w
    = upd_rsp (set_buf_len (Z.of_nat (length s))) w) as ->
    by (unfold upd_rsp; by rewrite Hb, plain_cstr).
  eapply wp_mono.
  { eapply wp_send; [by apply (hears_connected _ _ _ _ T1)| |done|exact Hr].
    eapply Forall_impl; [exact Hs|]. by intros c (? & _). }
  intros ? w' T2. by apply (hears_trans [] _ [] _ _ _ _ T1), talks_hears.
Qed.

Lemma wp_put_string s rs rest w :
  connected w -> buf_wf (rsp w) -> plain_text s -> Z.of_nat (length s) < GDB_BUF_MAX ->
  delivers [43] rs -> reads (gdb w) = rs ++ rest ->
  wp (put_string s;; put_buf_packet) (fun _ w' => hears rs (frame s) w w') w.
Proof.
  intros Hc Hb Hs Hl Hrs Hr. unfold put_string. rsp_pure. rsp_pure.
  set (d := list_inserts 0 (s ++ [0]) (buf_data (rsp w))).
  assert (d = s ++ 0 :: drop (length (s ++ [0])) (buf_data (rsp w))) as Hd.
  { unfold d. rewrite inserts_start; [by rewrite <- app_assoc|].
    rewrite Hb, length_app. simpl. unfold GDB_BUF_MAX in *. lia. }
  pose proof (hears_put_data d w Hc ltac:(apply length_inserts)) as T1.
  eapply wp_mono; [eapply (wp_put_buf_packet s); try done|].
  intros ? w' T2. by apply (hears_trans [] _ [] _ _ _ _ T1).
Qed.

(** The reply to an access without an error. *)
Lemma wp_put_ok rs rest w :
  connected w -> delivers [43] rs -> reads (gdb w) = rs ++ rest ->
  wp (put_result 0) (fun _ w' => hears rs (frame (bytes "OK")) w w') w.
Proof.
  intros Hc Hrs Hr. unfold put_result. cbn [Z.eqb].
  eapply wp_mono; [eapply (wp_send_str "OK"); [simpl; lia|done..]|].
  intros ? w' T. by apply talks_hears.
Qed.

(** ** Numbers in requests *)

(** A number of 32 bits, in hexadecimal as GDB writes it. *)
Definition gdb_number (ds : list Z) (v : Z) : Prop := hex_text ds v /\ digits ds /\ v < 2 ^ 32.

Lemma ends_comma c s : isxdigit c = false -> c <> 120 -> c <> 88 -> ends_number (c :: s).
Proof. by intros ? ? ? c' r [= <- <-]. Qed.

Lemma ends_nil : ends_number [].
Proof. done. Qed.

Lemma scan_mem_request c ads addr lds len s :
  gdb_number ads addr -> gdb_number lds len -> ends_number s ->
  sscanf (c :: ads ++ 44 :: lds ++ s) ([Lit c] ++ [pct_x] ++ lits "," ++ [pct_x] ++ lits ":")
  = Ok [Num addr; Num len].
Proof.
  intros (Ha & _ & Ha32) (Hl & _ & Hl32) Hs. change (lits ",") with [Lit 44]. change (lits ":") with [Lit 58].
  cbn [app]. rewrite sscanf_lit, (sscanf_pct_x ads addr) by (try done; by apply ends_comma).
  rewrite sscanf_lit, (sscanf_pct_x lds len) by done. destruct s as [|x s]; [done|].
  cbn [sscanf]. by destruct (x =? 58).
Qed.

Definition plain_char (c : Z) : Prop := is_u8 c /\ c <> 0 /\ escaped c = false.

Lemma mem_request_plain c ads lds addr len :
  plain_char c -> gdb_number ads addr -> gdb_number lds len -> plain_text (c :: ads ++ 44 :: lds).
Proof.
  intros Hc (_ & Ha & _) (_ & Hl & _).
  change (c :: ads ++ 44 :: lds) with ([c] ++ ads ++ [44] ++ lds). rewrite !plain_text_app.
  split; [by apply Forall_singleton|]. split; [by apply digits_plain|].
  split; [by repeat constructor|by apply digits_plain].
Qed.

(** ** Memory *)

Context `{!DebugLaws D} (malloc_all : forall n, malloc_ok n = true).

Lemma mem_read_length (m : Z -> Z) a len : length (mem_read m a len) = Z.to_nat len.
Proof. unfold mem_read. by rewrite length_map, length_seqZ. Qed.

Lemma mem_read_u8 (d : D) a len : Forall is_u8 (mem_read (mem d) a len).
Proof. apply Forall_map, Forall_true. intros. apply mem_u8. Qed.

Lemma ascii2hex_snoc s c : ascii2hex (s ++ [c]) = ascii2hex s ++ [hexchar (Z.shiftr c 4 .& 0xf); hexchar (c .& 0xf)].
Proof. unfold ascii2hex. by rewrite map_app, concat_app. Qed.

(** The bytes of a block as digits in the buffer. *)
Lemma wp_hex_loop (data : list Z) w :
  connected w -> Forall is_u8 data -> 2 * Z.of_nat (length data) < GDB_BUF_MAX ->
  wp (mfor_upto (Z.of_nat (length data)) (fun off _ =>
        ch ← lift (byte_at (map Some data) off);
        put_buf (off * 2) (hexchar (Z.shiftr ch 4));;
        put_buf (off * 2 + 1) (hexchar (ch .& 0xf))) tt)
    (fun _ w' => w' = upd_rsp (set_buf_data (list_inserts 0 (ascii2hex data) (buf_data (rsp w)))) w) w.
Proof.
  intros Hc Hd Hmax.
  set (st k := upd_rsp (set_buf_data (list_inserts 0 (ascii2hex (take k data)) (buf_data (rsp w)))) w).
  eapply wp_mono.
  { apply (wp_mfor_upto (fun i _ w' => w' = st (Z.to_nat i))); [lia|by destruct w as [[] ? ? ?]|].
    intros i a w' Hi ->. destruct (lookup_lt_is_Some_2 data (Z.to_nat i)) as [c Hk]; [lia|].
    assert (is_u8 c) as Hu by by apply (Forall_lookup_1 _ _ _ _ Hd Hk).
    rsp_pure. eapply wp_lift.
    { unfold byte_at. change (map ?f ?l) with (f <$> l). rewrite list_lookup_fmap, Hk. simpl.
      by rewrite (wrap_small 8). }
    rsp_pure. rewrite !put_buf_in by lia. rsp_pure. rsp_pure. unfold st.
    replace (Z.to_nat (i + 1)) with (S (Z.to_nat i)) by lia.
    rewrite (take_S_r _ _ c Hk), ascii2hex_snoc.
    rewrite (list_inserts_app_l (ascii2hex _) [_; _]), length_ascii2hex, length_take, Nat.add_0_r.
    replace (Z.to_nat (i * 2)) with (2 * Nat.min (Z.to_nat i) (length data))%nat by lia.
    replace (Z.to_nat (i * 2 + 1)) with (S (2 * Nat.min (Z.to_nat i) (length data)))%nat by lia.
    cbn [list_inserts upd_rsp rsp set_buf_data buf_data].
    rewrite list_insert_insert_ne by lia. rewrite (nibble_small (Z.shiftr c 4)); [done|].
    unfold is_word in Hu. rewrite Z.shiftr_div_pow2 by done. change (2 ^ 4) with 16.
    change (2 ^ 8) with 256 in Hu. Z.div_mod_to_equations. lia. }
  intros ? w' ->. unfold st. by rewrite Nat2Z.id, take_ge by lia.
Qed.

Lemma wp_read_mem ads addr lds len rs rest w :
  connected w -> buf_wf (rsp w) -> gdb_number ads addr -> gdb_number lds len ->
  0 < len -> 2 * len < GDB_BUF_MAX -> addr + len <= 2 ^ 32 ->
  requested (109 :: ads ++ 44 :: lds) w -> delivers [43] rs -> reads (gdb w) = rs ++ rest ->
  wp rsp_read_mem (fun _ w' => hears rs (frame (ascii2hex (mem_read (mem (target w)) addr len))) w w') w.
Proof.
  intros Hc Hb Ha Hlen Hlen0 Hlen1 Hend Hreq Hrs Hr. unfold rsp_read_mem. rsp_pure.
  apply (wp_command _ _ _ (mem_request_plain 109 ads lds addr len ltac:(done) Ha Hlen) Hreq). rsp_pure.
  pose proof (scan_mem_request 109 ads addr lds len [] Ha Hlen ends_nil) as Hscan.
  rewrite app_nil_r in Hscan. eapply wp_lift; [exact Hscan|]. rsp_pure.
  assert (i32 len = len) as -> by (apply swrap_small; [done|]; unfold is_sword; unfold GDB_BUF_MAX in *; simpl; lia).
  eapply wp_lift.
  { unfold signed_c. rewrite (proj2 (in_sword_spec 32 (len * 2))); [done|].
    unfold is_sword, GDB_BUF_MAX in *. simpl. lia. }
  cbv zeta. destruct (Z.leb_spec GDB_BUF_MAX (len * 2)); [lia|]. rsp_pure.
  unfold malloc_bytes. rewrite malloc_all. apply wp_dbg.
  eexists _, _. split.
  { apply law_read_block8; [done| |done]. unfold uninit. rewrite length_replicate. lia. }
  rewrite set_target_eq. set (data := mem_read (mem (target w)) addr len).
  pose proof (mem_read_length (mem (target w)) addr len) as Hdl. fold data in Hdl.
  rsp_pure. replace len with (Z.of_nat (length data)) at 1 by lia.
  eapply wp_mono; [apply wp_hex_loop; [done|apply mem_read_u8|lia]|]. intros ? w1 ->.
  cbn [Z.eqb APP_ERR_NONE]. rewrite put_buf_in by lia. rsp_pure. rsp_pure.
  cbn [upd_rsp rsp set_buf_data buf_data].
  assert (length (ascii2hex data) < length (buf_data (rsp w)))%nat as Hfit.
  { rewrite length_ascii2hex, Hb. unfold GDB_BUF_MAX in *. lia. }
  set (d := <[Z.to_nat (Z.max 0 len * 2) := 0]> (list_inserts 0 (ascii2hex data) (buf_data (rsp w)))).
  assert (exists tail, d = ascii2hex data ++ 0 :: tail) as [tail Hd].
  { unfold d. rewrite inserts_start by lia.
    destruct (drop (length (ascii2hex data)) (buf_data (rsp w))) as [|x tail] eqn:E.
    - exfalso. apply (f_equal length) in E. rewrite length_drop in E. simpl in E. lia.
    - exists tail. rewrite insert_app_r_alt by (rewrite length_ascii2hex; lia).
      replace (Z.to_nat (Z.max 0 len * 2) - length (ascii2hex data))%nat with 0%nat; [done|].
      rewrite length_ascii2hex. lia. }
  assert (length d = length (buf_data (rsp w))) as Hdl2.
  { unfold d. by rewrite length_insert, length_inserts. }
  pose proof (hears_put_data d w Hc Hdl2) as T1.
  eapply wp_mono; [eapply (wp_put_buf_packet (ascii2hex data) tail)|]; try done.
  - apply digits_plain, digits_ascii2hex.
  - intros ? w' T2. by apply (hears_trans [] _ [] _ _ _ _ T1).
Qed.

(** The header of a request that writes has no colon but the one that ends it. *)
Lemma after_colon_at pre post :
  Forall (fun c => c <> 58) pre -> after_colon (pre ++ 58 :: post) = Ok (Z.of_nat (length pre) + 1).
Proof.
  intros Hp. unfold after_colon. enough (list_find (fun c => c = 58) (pre ++ 58 :: post)
    = Some (length pre, 58)) as -> by done.
  induction Hp as [|c pre Hc Hp IH]; simpl; [done|].
  destruct (decide (c = 58)); [done|]. by rewrite IH.
Qed.

Lemma digits_no_colon s : digits s -> Forall (fun c => c <> 58) s.
Proof.
  intros Hs. eapply Forall_impl; [exact Hs|]. intros c Hc ->. done.
Qed.

Lemma header_no_colon c ads lds addr len :
  c <> 58 -> gdb_number ads addr -> gdb_number lds len -> Forall (fun c => c <> 58) (c :: ads ++ 44 :: lds).
Proof.
  intros Hc (_ & Ha & _) (_ & Hl & _). constructor; [done|]. apply Forall_app.
  split; [by apply digits_no_colon|]. constructor; [done|by apply digits_no_colon].
Qed.

Lemma sym_byte_digits c : is_u8 c -> sym_byte (hexchar (Z.shiftr c 4 .& 0xf)) (hexchar (c .& 0xf)) = c.
Proof.
  intros Hc. unfold sym_byte. rewrite !hex_hexchar by apply nibble_range.
  rewrite !(wrap_small 8 (_ .& 0xf)) by (pose proof (nibble_range c); pose proof (nibble_range (Z.shiftr c 4));
    unfold is_word; simpl; lia).
  rewrite byte_nibbles by done. by apply wrap_small.
Qed.

Lemma ascii2hex_lookup data k c :
  data !! k = Some c ->
  ascii2hex data !! (2 * k)%nat = Some (hexchar (Z.shiftr c 4 .& 0xf))
  /\ ascii2hex data !! S (2 * k)%nat = Some (hexchar (c .& 0xf)).
Proof.
  intros Hk. rewrite <- (take_drop_middle data k c Hk).
  unfold ascii2hex. rewrite map_app, concat_app. fold (ascii2hex (take k data)).
  assert (length (ascii2hex (take k data)) = 2 * k)%nat as Hl.
  { apply lookup_lt_Some in Hk. rewrite length_ascii2hex, length_take. lia. }
  rewrite !lookup_app_r by lia. rewrite Hl, Nat.sub_diag, Nat.sub_succ_l, Nat.sub_diag by lia. done.
Qed.

(** The bytes that digits in the buffer stand for. *)
Lemma sym_bytes_digits data pre post :
  Forall is_u8 data ->
  let at' i := default 0 ((pre ++ ascii2hex data ++ post) !! Z.to_nat (Z.of_nat (length pre) + i)) in
  map (fun off => sym_byte (at' (off * 2)) (at' (off * 2 + 1))) (seqZ 0 (Z.of_nat (length data))) = data.
Proof.
  intros Hd at'. apply list_eq. intros k. change (map ?f ?l) with (f <$> l). rewrite list_lookup_fmap.
  destruct (data !! k) as [c|] eqn:Hk.
  - destruct (ascii2hex_lookup data k c Hk) as [H1' H2'].
    pose proof (lookup_lt_Some _ _ _ H1') as Hl1. pose proof (lookup_lt_Some _ _ _ H2') as Hl2.
    pose proof (lookup_lt_Some _ _ _ Hk) as Hlk.
    rewrite lookup_seqZ_lt by lia. cbn [fmap option_fmap option_map]. rewrite Z.add_0_l. f_equal.
    rewrite <- (sym_byte_digits c) by by apply (Forall_lookup_1 _ _ _ _ Hd Hk). unfold at'.
    replace (Z.to_nat (Z.of_nat (length pre) + Z.of_nat k * 2)) with (length pre + 2 * k)%nat by lia.
    replace (Z.to_nat (Z.of_nat (length pre) + (Z.of_nat k * 2 + 1)))
      with (length pre + S (2 * k))%nat by lia.
    rewrite !(lookup_app_r pre) by lia.
    replace (length pre + 2 * k - length pre)%nat with (2 * k)%nat by lia.
    replace (length pre + S (2 * k) - length pre)%nat with (S (2 * k))%nat by lia.
    rewrite !(lookup_app_l (ascii2hex data)) by done.
    by rewrite H1', H2'.
  - apply lookup_ge_None in Hk. rewrite lookup_seqZ_ge; [done|lia].
Qed.

(** The target has got the bytes, and nothing else has changed in it. *)
Definition stored (addr : Z) (data : list Z) (d d' : D) : Prop :=
  (forall a, spr d' a = spr d a) /\ (forall a, mem d' a = mem_write (mem d) addr data a)
  /\ stalled d' = stalled d.

Lemma wp_store addr data len rs rest w :
  connected w -> Forall is_u8 data -> data <> [] -> len = Z.of_nat (length data) ->
  addr + len <= 2 ^ 32 -> delivers [43] rs -> reads (gdb w) = rs ++ rest ->
  wp (errcode ← dbg_write (wb_write_block8 addr data len); put_result errcode)
    (fun _ w' => exists d, stored addr data (target w) d
       /\ hears rs (frame (bytes "OK")) (set_target d w) w') w.
Proof.
  intros Hc Hd Hne -> Hend Hrs Hr. rsp_pure. apply wp_dbg_write.
  eapply wp_mono; [by apply law_write_block8|]. intros r d (-> & Hst). exists 0. split; [done|].
  eapply wp_mono; [by eapply (wp_put_ok rs rest)|]. intros ? w' T. by exists d.
Qed.

Lemma wp_write_mem ads addr lds data rs rest w :
  connected w -> Forall is_u8 data -> data <> [] ->
  gdb_number ads addr -> gdb_number lds (Z.of_nat (length data)) ->
  Z.of_nat (length data) < GDB_BUF_MAX -> addr + Z.of_nat (length data) <= 2 ^ 32 ->
  requested (77 :: ads ++ 44 :: lds ++ 58 :: ascii2hex data) w ->
  delivers [43] rs -> reads (gdb w) = rs ++ rest ->
  wp rsp_write_mem (fun _ w' => exists d, stored addr data (target w) d
    /\ hears rs (frame (bytes "OK")) (set_target d w) w') w.
Proof.
  intros Hc Hd Hne Ha Hlen Hlen1 Hend Hreq Hrs Hr. unfold rsp_write_mem. rsp_pure.
  set (hdr := 77 :: ads ++ 44 :: lds).
  assert (77 :: ads ++ 44 :: lds ++ 58 :: ascii2hex data = hdr ++ 58 :: ascii2hex data) as E
    by (unfold hdr; simpl; by rewrite <- app_assoc).
  assert (plain_text hdr) as Hp by by apply (mem_request_plain 77 ads lds addr (Z.of_nat (length data))).
  assert (plain_text (hdr ++ 58 :: ascii2hex data)) as Hp'.
  { apply plain_text_app. split; [done|]. constructor; [done|apply digits_plain, digits_ascii2hex]. }
  pose proof Hreq as [Hl [tail Htail]]. rewrite E in *.
  apply (wp_command _ _ _ Hp' Hreq). rsp_pure. eapply wp_lift.
  { rewrite <- E. apply (scan_mem_request 77 ads addr lds (Z.of_nat (length data)));
      [done|done|by apply ends_comma]. }
  rsp_pure. rsp_pure. rsp_pure. rsp_pure.
  assert (i32 (Z.of_nat (length data)) = Z.of_nat (length data)) as ->
    by (apply swrap_small; [done|]; unfold is_sword, GDB_BUF_MAX in *; simpl; lia).
  rewrite Hl, Htail, <- app_assoc. cbn [app]. rsp_pure. eapply wp_lift.
  { by apply after_colon_at, (header_no_colon _ _ _ addr (Z.of_nat (length data))). }
  rsp_pure. eapply wp_lift.
  { unfold signed_c. rewrite (proj2 (in_sword_spec 32 (Z.of_nat (length data) * 2))); [done|].
    unfold is_sword, GDB_BUF_MAX in *. simpl. lia. }
  rewrite malloc_all, andb_false_r. cbv zeta.
  assert ((Z.of_nat (length data) * 2 =? Z.of_nat (length (hdr ++ 58 :: ascii2hex data))
    - (Z.of_nat (length hdr) + 1)) = true) as ->.
  { apply Z.eqb_eq. rewrite length_app. cbn [length]. rewrite length_ascii2hex. lia. }
  cbn [negb]. change (58 :: ascii2hex data ++ 0 :: tail) with ([58] ++ ascii2hex data ++ 0 :: tail).
  rewrite (assoc_L _ hdr). pose proof (sym_bytes_digits data (hdr ++ [58]) (0 :: tail) Hd) as Hsym.
  cbv zeta in Hsym. rewrite length_app in Hsym. cbn [length] in Hsym.
  rewrite Nat2Z.inj_add in Hsym. change (Z.of_nat 1) with 1 in Hsym. rewrite Hsym.
  by eapply (wp_store addr data _ rs rest).
Qed.

Lemma wp_write_mem_bin ads addr lds data rs rest w :
  connected w -> buf_wf (rsp w) -> Forall is_u8 data -> data <> [] ->
  gdb_number ads addr -> gdb_number lds (Z.of_nat (length data)) ->
  Z.of_nat (length data) < GDB_BUF_MAX -> addr + Z.of_nat (length data) <= 2 ^ 32 ->
  requested (88 :: ads ++ 44 :: lds ++ 58 :: escape data) w ->
  delivers [43] rs -> reads (gdb w) = rs ++ rest ->
  wp rsp_write_mem_bin (fun _ w' => exists d, stored addr data (target w) d
    /\ hears rs (frame (bytes "OK")) (set_target d w) w') w.
Proof.
  intros Hc Hb Hd Hne Ha Hlen Hlen1 Hend [Hl [tail Htail]] Hrs Hr. unfold rsp_write_mem_bin, command.
  set (hdr := 88 :: ads ++ 44 :: lds).
  assert (88 :: ads ++ 44 :: lds ++ 58 :: escape data = hdr ++ 58 :: escape data) as E
    by (unfold hdr; simpl; by rewrite <- app_assoc).
  assert (plain_text hdr) as Hp by by apply (mem_request_plain 88 ads lds addr (Z.of_nat (length data))).
  rewrite E in *. rsp_pure. rsp_pure. rsp_pure. eapply wp_lift.
  { rewrite Htail, <- app_assoc. cbn [app].
    assert (cstr (hdr ++ 58 :: escape data ++ 0 :: tail)
      = 88 :: ads ++ 44 :: lds ++ 58 :: cstr (escape data ++ 0 :: tail)) as ->
      by (rewrite plain_cstr_app by done; unfold hdr; simpl; by rewrite <- app_assoc).
    apply (scan_mem_request 88 ads addr lds (Z.of_nat (length data)));
      [done|done|by apply ends_comma]. }
  rsp_pure. rsp_pure. rsp_pure. rsp_pure.
  assert (i32 (Z.of_nat (length data)) = Z.of_nat (length data)) as ->
    by (apply swrap_small; [done|]; unfold is_sword, GDB_BUF_MAX in *; simpl; lia).
  rewrite Hl, Htail, <- app_assoc. cbn [app]. rsp_pure. eapply wp_lift.
  { by apply after_colon_at, (header_no_colon _ _ _ addr (Z.of_nat (length data))). }
  rsp_pure.
  destruct (rsp_unescape_escape data (0 :: tail)) as [tail' Hun].
  eapply wp_lift.
  { rewrite <- Hun. f_equal.
    - change (58 :: escape data ++ 0 :: tail) with ([58] ++ escape data ++ 0 :: tail).
      rewrite (assoc_L _ hdr). apply drop_app_length'. rewrite length_app. simpl. lia.
    - rewrite length_app. cbn [length]. lia. }
  rsp_pure. rsp_pure. cbv zeta. rewrite Z.eqb_refl. cbn [negb].
  rewrite Nat2Z.id, take_app_length.
  set (w1 := upd_rsp _ w).
  assert (hears [] [] w w1) as T1.
  { unfold w1. apply hears_put_data; [done|]. apply rsp_unescape_length in Hun.
    rewrite length_app, Hun, Htail, !length_app, length_take, !length_app. cbn [length].
    rewrite !length_app. cbn [length]. lia. }
  eapply wp_mono; [eapply (wp_store addr data _ rs rest); try done|].
  intros ? w' (d & Hst & T). exists d. split; [done|].
  by apply (hears_trans [] _ [] _ _ _ _ (hears_set_target d _ _ _ _ T1)).
Qed.

(** ** Registers *)

Context (long : 4 <= long_size).

(** Where GDB's register [n] is kept. *)
Definition register_spr (n : Z) : Z :=
  if n <? MAX_GPRS then SPR_GPR_BASE + n
  else if n =? PPC_REGNUM then SPR_PPC else if n =? NPC_REGNUM then SPR_NPC else SPR_SR.

(** The value GDB is told: the program counter is the one that was set last, until the
    target runs again. *)
Definition gdb_register (n : Z) w : Z :=
  if (n =? NPC_REGNUM) && use_cached_npc (rsp w) then cached_npc (rsp w)
  else spr (target w) (register_spr n).

Lemma register_cases n : 0 <= n < NUM_REGS ->
  n < MAX_GPRS /\ n <> NPC_REGNUM \/ n = PPC_REGNUM \/ n = NPC_REGNUM \/ n = SR_REGNUM.
Proof. unfold NUM_REGS, MAX_GRPS, NPC_REGNUM, PPC_REGNUM, SR_REGNUM, MAX_GPRS. lia. Qed.

Lemma register_spr_inj n m : 0 <= n < NUM_REGS -> 0 <= m < NUM_REGS ->
  register_spr n = register_spr m -> n = m.
Proof.
  intros Hn Hm. destruct (register_cases n Hn) as [[Hn1 Hn2]|[-> |[-> | ->]]],
    (register_cases m Hm) as [[Hm1 Hm2]|[-> |[-> | ->]]]; unfold register_spr; try done;
    repeat match goal with |- context [?a <? MAX_GPRS] => destruct (Z.ltb_spec a MAX_GPRS); try lia end;
    unfold SPR_GPR_BASE, SPR_PPC, SPR_NPC, SPR_SR, SPRGROUP_SYS, PPC_REGNUM, NPC_REGNUM, SR_REGNUM, MAX_GPRS in *;
    simpl; lia.
Qed.

Lemma wp_reply_register (e : Z) (v : option Z) x rs rest w :
  connected w -> buf_wf (rsp w) -> e = 0 -> v = Some x -> delivers [43] rs -> reads (gdb w) = rs ++ rest ->
  wp (if e =? APP_ERR_NONE then put_string (reg2hex (value v));; put_buf_packet
      else put_str_packet "E01") (fun _ w' => hears rs (frame (reg2hex x)) w w') w.
Proof.
  intros Hc Hb -> -> Hrs Hr. cbn [Z.eqb APP_ERR_NONE value default from_option id].
  eapply wp_put_string; try done. apply digits_plain, digits_reg2hex.
Qed.

Lemma wp_read_spr adr v (Q : Z * option Z -> world D -> Prop) w :
  Q (0, Some (spr (target w) adr)) w -> wp (read_spr adr v) Q w.
Proof.
  intros HQ. apply wp_dbg. eexists _, _. split; [apply law_cpu0_read|]. by rewrite set_target_eq.
Qed.

(** A request that names a register. *)
Lemma reg_request_plain c ds n s :
  plain_char c -> gdb_number ds n -> plain_text s -> plain_text (c :: ds ++ s).
Proof.
  intros Hc (_ & Hd & _) Hs. change (c :: ds ++ s) with ([c] ++ ds ++ s). rewrite !plain_text_app.
  split; [by apply Forall_singleton|]. split; [by apply digits_plain|done].
Qed.

Lemma wp_read_reg ds n rs rest w :
  connected w -> buf_wf (rsp w) -> gdb_number ds n -> 0 <= n < NUM_REGS ->
  requested (112 :: ds) w -> delivers [43] rs -> reads (gdb w) = rs ++ rest ->
  wp rsp_read_reg (fun _ w' => hears rs (frame (reg2hex (gdb_register n w))) w w') w.
Proof.
  intros Hc Hb Hd Hn Hreq Hrs Hr. unfold rsp_read_reg. rsp_pure.
  pose proof (reg_request_plain 112 ds n [] ltac:(done) Hd ltac:(constructor)) as Hp.
  rewrite app_nil_r in Hp. apply (wp_command _ _ _ Hp Hreq). rsp_pure. eapply wp_lift.
  { change (lits "p" ++ [pct_x]) with [Lit 112; pct_x]. rewrite sscanf_lit, <- (app_nil_r ds).
    rewrite (sscanf_pct_x ds n) by (try done; by destruct Hd as (? & _ & ?)). done. }
  cbv beta iota zeta. unfold gdb_register, register_spr.
  destruct (register_cases n Hn) as [[Hn1 Hn2]|[-> |[-> | ->]]].
  - destruct (Z.ltb_spec n MAX_GPRS); [|lia]. destruct (Z.eqb_spec n NPC_REGNUM); [done|].
    rsp_pure. apply wp_read_spr. by eapply wp_reply_register.
  - reg_tests. rsp_pure. apply wp_read_spr. by eapply wp_reply_register.
  - reg_tests. rsp_pure. rsp_pure. rsp_pure. rsp_pure. destruct (use_cached_npc (rsp w)).
    + by eapply wp_reply_register.
    + rsp_pure. apply wp_read_spr. by eapply wp_reply_register.
  - reg_tests. rsp_pure. apply wp_read_spr. by eapply wp_reply_register.
Qed.

Lemma valstr_reg2hex v : valstr (reg2hex v) = reg2hex v.
Proof. unfold valstr. by rewrite take_app_length' by done. Qed.

Lemma digits_no_space s : digits s -> Forall (fun c => isspace c = false) s.
Proof.
  intros Hs. eapply Forall_impl; [exact Hs|]. intros c Hc.
  by destruct (plain_digit_spec c Hc) as (_ & _ & ? & _).
Qed.

(** What a write of register [n] leaves. *)
Definition register_written (n v : Z) (w w' : world D) : Prop :=
  (forall m, 0 <= m < NUM_REGS -> gdb_register m w' = if m =? n then v else gdb_register m w)
  /\ (forall a, mem (target w') a = mem (target w) a) /\ stalled (target w') = stalled (target w).

Lemma gdb_register_hears n r s w w' : hears r s w w' -> gdb_register n w' = gdb_register n w.
Proof.
  intros (T & E & _). unfold gdb_register, target. rewrite (talks_hm _ _ _ _ T).
  unfold same_but_buf in E. rewrite E. done.
Qed.

Lemma target_hears r s w w' : hears r s w w' -> target w' = target w.
Proof. intros (T & _). unfold target. by rewrite (talks_hm _ _ _ _ T). Qed.

Lemma register_written_hears n v w w1 r s w' :
  register_written n v w w1 -> hears r s w1 w' -> register_written n v w w'.
Proof.
  intros (Hreg & Hmem & Hst) T. unfold register_written. rewrite (target_hears _ _ _ _ T).
  split; [|done]. intros m Hm. rewrite (gdb_register_hears _ _ _ _ _ T). by apply Hreg.
Qed.

Lemma register_written_spr n v (d : D) w :
  0 <= n < NUM_REGS -> n <> NPC_REGNUM ->
  (forall a, spr d a = if a =? register_spr n then v else spr (target w) a) ->
  (forall a, mem d a = mem (target w) a) -> stalled d = stalled (target w) ->
  register_written n v w (set_target d w).
Proof.
  intros Hn Hne Hs Hm Hst. split; [|done]. intros m Hmr. unfold gdb_register.
  change (target (set_target d w)) with d. change (rsp (set_target d w)) with (rsp w). rewrite Hs.
  destruct (Z.eqb_spec m NPC_REGNUM) as [->|].
  - destruct (Z.eqb_spec NPC_REGNUM n); [done|]. destruct (use_cached_npc (rsp w)); [done|].
    cbn [andb]. destruct (Z.eqb_spec (register_spr NPC_REGNUM) (register_spr n)) as [E|]; [|done].
    by apply register_spr_inj in E.
  - cbn [andb]. destruct (Z.eqb_spec m n) as [->|].
    + by rewrite Z.eqb_refl.
    + destruct (Z.eqb_spec (register_spr m) (register_spr n)) as [E|]; [|done].
      by apply register_spr_inj in E.
Qed.

(** None of them is a debug register. *)
Lemma register_not_status n : 0 <= n < NUM_REGS -> status_reg (register_spr n) = false.
Proof.
  apply (Z_range_check 35 (fun n => status_reg (register_spr n) = false)). by vm_compute.
Qed.

Lemma wp_write_spr n x v rs rest w :
  connected w -> 0 <= n < NUM_REGS -> n <> NPC_REGNUM -> u32 x = v ->
  delivers [43] rs -> reads (gdb w) = rs ++ rest ->
  wp (e ← write_spr (register_spr n) x; put_result e) (fun _ w' => exists w1,
    rsp w1 = rsp w /\ gdb w1 = gdb w /\ register_written n v w w1
    /\ hears rs (frame (bytes "OK")) w1 w') w.
Proof.
  intros Hc Hn Hne <- Hrs Hr. rsp_pure. apply wp_dbg_write. eapply wp_mono.
  { apply law_cpu0_write; [|by apply wrap_range]. intros E. by apply (register_spr_inj n NPC_REGNUM) in E. }
  intros r d (-> & Hs & Hm & Hst). exists 0. split; [done|].
  eapply wp_mono; [by eapply (wp_put_ok rs rest)|]. intros ? w' T. exists (set_target d w).
  split; [done|]. split; [done|]. split; [|done]. apply register_written_spr; try done.
  intros k. rewrite Hs. by rewrite store_plain by (by apply register_not_status).
Qed.

Lemma wp_set_npc x v rs rest w :
  connected w -> u32 x = v -> delivers [43] rs -> reads (gdb w) = rs ++ rest ->
  wp (e ← set_npc x; put_result e) (fun _ w' => exists w1,
    rsp w1 = set_use_cached_npc true (set_cached_npc v (rsp w)) /\ gdb w1 = gdb w
    /\ register_written NPC_REGNUM v w w1 /\ hears rs (frame (bytes "OK")) w1 w') w.
Proof.
  intros Hc <- Hrs Hr. unfold set_npc. rsp_pure. rsp_pure. apply wp_dbg_write. eapply wp_mono.
  { apply law_set_npc. by apply wrap_range. }
  intros r d (-> & Hs & Hm & Hst). exists 0. split; [done|]. rsp_pure. rsp_pure. rsp_pure. rsp_pure. rsp_pure.
  eapply wp_mono; [by eapply (wp_put_ok rs rest)|]. intros ? w' T. eexists.
  split; [|split; [|split; [|exact T]]]; [done..|]. split; [|done].
  intros m Hm'. unfold gdb_register. cbn -[register_spr NPC_REGNUM].
  destruct (Z.eqb_spec m NPC_REGNUM) as [->|]; [done|]. cbn [andb].
  change (spr d (register_spr m) = spr (target w) (register_spr m)). apply Hs.
  intros E. by apply (register_spr_inj m NPC_REGNUM) in E.
Qed.

Lemma wp_write_reg ds n v rs rest w :
  connected w -> gdb_number ds n -> 0 <= n < NUM_REGS -> is_u32 v ->
  requested (80 :: ds ++ 61 :: reg2hex v) w -> delivers [43] rs -> reads (gdb w) = rs ++ rest ->
  wp rsp_write_reg (fun _ w' => exists w1, gdb w1 = gdb w
    /\ (rsp w1 = rsp w \/ rsp w1 = set_use_cached_npc true (set_cached_npc v (rsp w)))
    /\ register_written n v w w1 /\ hears rs (frame (bytes "OK")) w1 w') w.
Proof.
  intros Hc Hd Hn Hv Hreq Hrs Hr. unfold rsp_write_reg. rsp_pure.
  assert (plain_text (80 :: ds ++ 61 :: reg2hex v)) as Hp.
  { apply (reg_request_plain 80 ds n); [done|done|]. constructor; [done|].
    apply digits_plain, digits_reg2hex. }
  apply (wp_command _ _ _ Hp Hreq). rsp_pure. eapply wp_lift.
  { change (lits "P" ++ [pct_x] ++ lits "=" ++ [Word 8]) with [Lit 80; pct_x; Lit 61; Word 8].
    rewrite sscanf_lit, (sscanf_pct_x ds n) by (destruct Hd as (? & _ & ?); try done; by apply ends_comma).
    rewrite sscanf_lit, <- (app_nil_r (reg2hex v)), (sscanf_word 7); [done| |done].
    apply digits_no_space, digits_reg2hex. }
  cbv beta iota zeta. rewrite valstr_reg2hex.
  assert (u32 (hex2reg (reg2hex v)) = v) as Hx.
  { rewrite <- (app_nil_r (reg2hex v)), hex2reg_reg2hex by done. by apply wrap_small. }
  assert (forall m, m = n -> m <> NPC_REGNUM ->
    wp (e ← write_spr (register_spr m) (hex2reg (reg2hex v)); put_result e) (fun _ w' => exists w1,
      gdb w1 = gdb w /\ (rsp w1 = rsp w \/ rsp w1 = set_use_cached_npc true (set_cached_npc v (rsp w)))
      /\ register_written n v w w1 /\ hears rs (frame (bytes "OK")) w1 w') w) as Hw.
  { intros m -> Hne. eapply wp_mono; [by eapply (wp_write_spr n)|].
    intros ? w' (w1 & ? & ? & ? & ?). exists w1.
    split; [done|]. split; [by left|by split]. }
  destruct (register_cases n Hn) as [[Hn1 Hn2]|[-> |[-> | ->]]].
  - destruct (Z.ltb_spec n MAX_GPRS); [|lia]. specialize (Hw n eq_refl Hn2).
    unfold register_spr in Hw. by destruct (Z.ltb_spec n MAX_GPRS); [|lia].
  - reg_tests. by apply (Hw PPC_REGNUM).
  - reg_tests. eapply wp_mono; [by eapply (wp_set_npc (hex2reg (reg2hex v)) v)|].
    intros ? w' (w1 & ? & ? & ? & ?). exists w1.
    split; [done|]. split; [by right|by split].
  - reg_tests. by apply (Hw SR_REGNUM).
Qed.
End requests.

(** * Matchpoints *)

(** * Words of memory *)

Lemma be_bytes_word v : is_u32 v ->
  2 ^ 24 * (v >> 24 .& 0xff) + 2 ^ 16 * (v >> 16 .& 0xff) + 2 ^ 8 * (v >> 8 .& 0xff) + (v .& 0xff) = v.
Proof.
  intros Hv. change 0xff with (2 ^ 8 - 1). rewrite !land_mask, !Z.shiftr_div_pow2 by done.
  unfold wrap, is_word in *. change (2 ^ 24) with 16777216. change (2 ^ 16) with 65536.
  change (2 ^ 8) with 256. change (2 ^ 32) with 4294967296 in Hv. Z.div_mod_to_equations. lia.
Qed.

Lemma mem_write_out m a data x :
  x < a \/ a + Z.of_nat (length data) <= x -> mem_write m a data x = m x.
Proof.
  intros Hx. unfold mem_write.
  destruct (Z.leb_spec a x), (Z.ltb_spec x (a + Z.of_nat (length data))); try lia; done.
Qed.

Lemma mem_write_in m a data k :
  0 <= k < Z.of_nat (length data) -> mem_write m a data (a + k) = default 0 (data !! Z.to_nat k).
Proof.
  intros Hk. unfold mem_write.
  destruct (Z.leb_spec a (a + k)), (Z.ltb_spec (a + k) (a + Z.of_nat (length data))); try lia.
  simpl. by replace (a + k - a) with k by lia.
Qed.

(** Words at addresses that are multiples of four do not overlap. *)
Lemma word_at_write m a v b : is_u32 v -> a mod 4 = 0 -> b mod 4 = 0 ->
  word_at (mem_write m a (be_bytes v)) b = if b =? a then v else word_at m b.
Proof.
  intros Hv Ha Hb. unfold word_at. destruct (Z.eqb_spec b a) as [->|Hne].
  - replace (mem_write m a (be_bytes v) a) with (mem_write m a (be_bytes v) (a + 0))
      by (by rewrite Z.add_0_r).
    rewrite !mem_write_in by (simpl; lia). cbn. by apply be_bytes_word.
  - rewrite !mem_write_out; [done|..]; cbn [be_bytes length]; Z.div_mod_to_equations; lia.
Qed.

Lemma word_at_ext m m' a : (forall x, m' x = m x) -> word_at m' a = word_at m a.
Proof. intros Hm. unfold word_at. by rewrite !Hm. Qed.

Lemma word_at_u32 m a : (forall x, is_u8 (m x)) -> is_u32 (word_at m a).
Proof.
  intros Hm. unfold word_at, is_word. pose proof (Hm a). pose proof (Hm (a + 1)).
  pose proof (Hm (a + 2)). pose proof (Hm (a + 3)). unfold is_word in *.
  change (2 ^ 8) with 256 in *. change (2 ^ 24) with 16777216. change (2 ^ 16) with 65536.
  change (2 ^ 32) with 4294967296. lia.
Qed.

Section matchpoints.
Context `{Target, Alloc, Unspecified} {D : Type} `{DebugUnit D} `{!DebugLaws D}.
Context (malloc_all : forall n, malloc_ok n = true).
Implicit Types w : world D.

(** * Breakpoints in memory *)

Definition breakpoint w (a : Z) : option Z := mp_map (mp_hash (rsp w)) (BP_MEMORY, a).

(** The instruction of the program at an address, whether or not a trap is there. *)
Definition program_word w (a : Z) : Z := default (word_at (mem (target w)) a) (breakpoint w a).

(** The traps are in memory, and the table has the words they replace. *)
Definition breakpoints_ok w : Prop :=
  mp_wf (mp_hash (rsp w))
  /\ forall a i, breakpoint w a = Some i -> a mod 4 = 0 /\ is_u32 i
       /\ word_at (mem (target w)) a = OR1K_TRAP_INSTR.

(** [w'] has the breakpoint [set] at [addr] and the same program. *)
Definition breakpoint_moved (addr : Z) (set : bool) w w' : Prop :=
  (forall a, a mod 4 = 0 -> program_word w' a = program_word w a)
  /\ (forall a, a <> addr -> breakpoint w' a = breakpoint w a)
  /\ (is_Some (breakpoint w' addr) <-> set = true)
  /\ (forall a, a mod 4 = 0 -> word_at (mem (target w')) a
      = if a =? addr then if set then OR1K_TRAP_INSTR else program_word w a
        else word_at (mem (target w)) a).

Lemma hears_hash r s w w' : hears r s w w' -> mp_hash (rsp w') = mp_hash (rsp w).
Proof. intros (_ & E & _). unfold same_but_buf in E. by rewrite E. Qed.

Lemma breakpoints_hears r s w w1 w2 addr set :
  hears r s w1 w2 -> breakpoints_ok w1 -> breakpoint_moved addr set w w1 ->
  breakpoints_ok w2 /\ breakpoint_moved addr set w w2.
Proof.
  intros T. unfold breakpoints_ok, breakpoint_moved, program_word, breakpoint.
  by rewrite (target_hears _ _ _ _ T), (hears_hash _ _ _ _ T).
Qed.

(** The table and memory after a breakpoint has been inserted or removed. *)
Lemma breakpoint_move addr (set : bool) hash (d : D) w :
  addr mod 4 = 0 -> breakpoints_ok w ->
  mp_wf hash ->
  (forall k, mp_map hash k = if bool_decide (k = (BP_MEMORY, addr))
     then if set then Some (program_word w addr) else None
     else mp_map (mp_hash (rsp w)) k) ->
  (forall a, a mod 4 = 0 -> word_at (mem d) a
     = if a =? addr then if set then OR1K_TRAP_INSTR else program_word w addr
       else word_at (mem (target w)) a) ->
  let w1 := upd_rsp (set_mp_hash hash) (set_target d w) in
  breakpoints_ok w1 /\ breakpoint_moved addr set w w1.
Proof.
  intros Ha [Hw Hok] Hwf Hh Hm w1.
  assert (forall a, breakpoint w1 a = if bool_decide (a = addr)
    then if set then Some (program_word w addr) else None else breakpoint w a) as Hb.
  { intros a. unfold breakpoint, w1. cbn [upd_rsp rsp set_mp_hash mp_hash]. rewrite Hh.
    destruct (decide (a = addr)) as [->|Hne]; [by rewrite !bool_decide_true|].
    rewrite !bool_decide_false; [done|done|congruence]. }
  assert (is_u32 (program_word w addr)) as Hu.
  { unfold program_word. destruct (breakpoint w addr) as [i|] eqn:E; simpl.
    - by destruct (Hok _ _ E) as (_ & ? & _).
    - apply word_at_u32. intros. apply mem_u8. }
  change (target w1) with d. split.
  - split; [done|]. intros a i. rewrite Hb. change (target w1) with d.
    case_bool_decide as Ea.
    + subst a. destruct set; [|done]. intros [= <-]. split; [done|]. split; [done|].
      by rewrite Hm, Z.eqb_refl.
    + intros Hi. destruct (Hok _ _ Hi) as (Ha' & Hi32 & Htrap). split; [done|]. split; [done|].
      rewrite Hm by done. by destruct (Z.eqb_spec a addr).
  - split; [|split; [|split]].
    + intros a Ha'. unfold program_word. rewrite Hb. change (target w1) with d.
      case_bool_decide as Ea; [subst a; destruct set; simpl|].
      * done.
      * by rewrite Hm, Z.eqb_refl.
      * rewrite Hm by done. by destruct (Z.eqb_spec a addr).
    + intros a Hne. rewrite Hb. by rewrite bool_decide_false.
    + rewrite Hb, bool_decide_true by done. destruct set; (split; [|done]); [done|]. by intros [? ?].
    + intros a Ha'. rewrite Hm by done. by destruct (Z.eqb_spec a addr) as [->|].
Qed.

Lemma wp_insert_memory addr rs rest w :
  connected w -> breakpoints_ok w -> addr mod 4 = 0 -> delivers [43] rs -> reads (gdb w) = rs ++ rest ->
  wp (insert_memory addr) (fun _ w' => exists hash d,
    let w1 := upd_rsp (set_mp_hash hash) (set_target d w) in
    breakpoints_ok w1 /\ breakpoint_moved addr true w w1
    /\ (forall a, spr d a = spr (target w) a) /\ hears rs (frame (bytes "OK")) w1 w') w.
Proof.
  intros Hc Hok Ha Hrs Hr. unfold insert_memory. rsp_pure. apply wp_dbg.
  eexists _, _. split; [by apply law_read_word|]. rewrite set_target_eq. rsp_pure. rsp_pure. rsp_pure.
  change (word [Some ?x] 0) with x.
  destruct (mp_hash_add_spec (mp_hash (rsp w)) BP_MEMORY addr (word_at (mem (target w)) addr)
    (malloc_all _) (proj1 Hok)) as (hash & Hadd & Hwf & Hh).
  eapply wp_lift; [exact Hadd|]. rsp_pure. rsp_pure. rsp_pure. apply wp_dbg_write.
  eapply wp_mono; [by apply law_write_word|]. intros r d (-> & Hs & Hm & Hst). exists 0. split; [done|].
  set (w1 := upd_rsp (set_mp_hash hash) (set_target d w)).
  assert (breakpoints_ok w1 /\ breakpoint_moved addr true w w1) as [Hok1 Hmv].
  { apply breakpoint_move; try done.
    - intros k. rewrite Hh. case_bool_decide as Ek; [|done]. subst k. done.
    - intros a Ha'. rewrite (word_at_ext _ _ _ Hm), word_at_write by done. done. }
  eapply wp_mono.
  { eapply (wp_send_str "OK" rs rest); [simpl; lia|done..]. }
  intros ? w2 T. exists hash, d. split; [done|]. split; [done|]. split; [done|]. by apply talks_hears.
Qed.

Lemma wp_remove_memory addr rs rest w :
  connected w -> breakpoints_ok w -> addr mod 4 = 0 -> delivers [43] rs -> reads (gdb w) = rs ++ rest ->
  wp (remove_memory addr) (fun _ w' => exists hash d,
    let w1 := upd_rsp (set_mp_hash hash) (set_target d w) in
    breakpoints_ok w1 /\ breakpoint_moved addr false w w1
    /\ (forall a, spr d a = spr (target w) a) /\ hears rs (frame (bytes "OK")) w1 w') w.
Proof.
  intros Hc Hok Ha Hrs Hr. unfold remove_memory. rsp_pure. rsp_pure.
  pose proof (mp_hash_delete_spec (mp_hash (rsp w)) BP_MEMORY addr (proj1 Hok)) as Hdel.
  destruct (mp_hash_delete (mp_hash (rsp w)) BP_MEMORY addr) as [mpe hash].
  destruct Hdel as (Hi & Hwf & Hh). change (mp_map _ _) with (breakpoint w addr) in Hi.
  assert (forall d, (forall a, a mod 4 = 0 -> word_at (mem d) a
       = if a =? addr then program_word w addr else word_at (mem (target w)) a) ->
     let w1 := upd_rsp (set_mp_hash hash) (set_target d w) in
     breakpoints_ok w1 /\ breakpoint_moved addr false w w1) as Hmove.
  { intros d Hd. by apply breakpoint_move. }
  rsp_pure. rsp_pure. destruct mpe as [mpe|]; simpl in Hi.
  - rsp_pure. rsp_pure. apply wp_dbg_write. destruct (proj2 Hok addr _ (eq_sym Hi)) as (_ & Hu & _).
    rewrite (wrap_small 32) by done.
    eapply wp_mono; [by apply law_write_word|]. intros r d (-> & Hs & Hm & Hst). exists 0. split; [done|].
    rsp_pure. destruct (Hmove d) as [Hok1 Hmv].
    { intros a Ha'. rewrite (word_at_ext _ _ _ Hm), word_at_write by done.
      unfold program_word. by rewrite <- Hi. }
    eapply wp_mono; [eapply (wp_send_str "OK" rs rest); [simpl; lia|done..]|].
    intros ? w2 T. exists hash, d. split; [done|]. split; [done|]. split; [done|]. by apply talks_hears.
  - rsp_pure. rsp_pure. destruct (Hmove (target w)) as [Hok1 Hmv].
    { intros a Ha'. destruct (Z.eqb_spec a addr) as [->|]; [|done]. unfold program_word. by rewrite <- Hi. }
    rewrite set_target_eq in *.
    eapply wp_mono; [eapply (wp_send_str "OK" rs rest); [simpl; lia|done..]|].
    intros ? w2 T. exists hash, (target w). rewrite set_target_eq.
    split; [done|]. split; [done|]. split; [done|]. by apply talks_hears.
Qed.

(** ** Requests *)

(** The text of a request about a matchpoint of four bytes. *)
Definition matchpoint_text (c type : Z) (ads : list Z) : list Z := c :: 48 + type :: 44 :: ads ++ [44; 52].

Lemma matchpoint_plain c type ads addr :
  plain_char c -> 0 <= type < 10 -> gdb_number ads addr -> plain_text (matchpoint_text c type ads).
Proof.
  intros Hc Ht (_ & Ha & _). unfold matchpoint_text.
  assert (plain_char (48 + type)) as Htc.
  { revert type Ht. enough (forall type, 0 <= type < 10 -> plain_digit (48 + type) = true) as Hall.
    - intros type Ht. destruct (plain_digit_spec _ (Hall type Ht)) as (? & _ & _ & ?).
      unfold plain_char, is_word. repeat split; try done; lia.
    - apply (Z_range_check 10 (fun t => plain_digit (48 + t) = true)). by vm_compute. }
  constructor; [done|]. constructor; [done|]. constructor; [done|]. apply Forall_app.
  split; [by apply digits_plain|]. by repeat constructor.
Qed.

Lemma scan_matchpoint c type ads addr :
  0 <= type < 10 -> gdb_number ads addr ->
  sscanf (matchpoint_text c type ads) ([Lit c] ++ [pct_nd 1] ++ lits "," ++ [pct_x] ++ lits "," ++ [pct_nd 1])
  = Ok [Num type; Num addr; Num 4].
Proof.
  intros Ht (Ha & _ & Ha32). unfold matchpoint_text. change (lits ",") with [Lit 44]. cbn [app].
  rewrite sscanf_lit, sscanf_digit, sscanf_lit by done.
  rewrite (sscanf_pct_x ads addr) by (try done; by apply ends_comma).
  rewrite sscanf_lit. change 52 with (48 + 4). rewrite sscanf_digit by done. done.
Qed.

(** What a request about a breakpoint in memory does: [set] is whether it inserts. *)
Lemma wp_breakpoint_request (set : bool) ads addr rs rest w :
  connected w -> breakpoints_ok w -> gdb_number ads addr -> addr mod 4 = 0 ->
  requested (matchpoint_text (if set then 90 else 122) BP_MEMORY ads) w ->
  delivers [43] rs -> reads (gdb w) = rs ++ rest ->
  wp (if set then rsp_insert_matchpoint else rsp_remove_matchpoint) (fun _ w' => exists hash d,
    let w1 := upd_rsp (set_mp_hash hash) (set_target d w) in
    breakpoints_ok w1 /\ breakpoint_moved addr set w w1
    /\ (forall a, spr d a = spr (target w) a) /\ hears rs (frame (bytes "OK")) w1 w') w.
Proof.
  intros Hc Hok Ha Ha4 Hreq Hrs Hr. destruct set.
  - unfold rsp_insert_matchpoint. rsp_pure.
    eapply wp_command; [by apply (matchpoint_plain 90 BP_MEMORY ads addr)|done|]. rsp_pure.
    eapply wp_lift; [by apply (scan_matchpoint 90 BP_MEMORY ads addr)|]. cbn [switch Z.eqb BP_MEMORY].
    by eapply wp_insert_memory.
  - unfold rsp_remove_matchpoint. rsp_pure.
    eapply wp_command; [by apply (matchpoint_plain 122 BP_MEMORY ads addr)|done|]. rsp_pure.
    eapply wp_lift; [by apply (scan_matchpoint 122 BP_MEMORY ads addr)|]. cbn [switch Z.eqb BP_MEMORY].
    by eapply wp_remove_memory.
Qed.

(** * Watchpoints of the hardware *)

Lemma wp_write_spr_to adr v (Q : Z -> world D -> Prop) w :
  adr <> SPR_NPC ->
  (forall d, (forall a, spr d a = if a =? adr then store_spr D adr (spr (target w) adr) (u32 v) else spr (target w) a) ->
     (forall a, mem d a = mem (target w) a) -> stalled d = stalled (target w) -> Q 0 (set_target d w)) ->
  wp (write_spr adr v) Q w.
Proof.
  intros Hne HQ. apply wp_dbg_write. eapply wp_mono; [apply law_cpu0_write; [done|by apply wrap_range]|].
  intros r d (-> & Hs & Hm & Hst). exists 0. split; [done|]. by apply HQ.
Qed.

(** The debug registers with watchpoint [i] set up for an address. *)
Definition watch_spr (i addr dcr : Z) (s : Z -> Z) : Z -> Z := fun a =>
  if a =? SPR_DMR1 then s SPR_DMR1 .& not32 (Z.shiftl 3 (2 * i))
  else if a =? SPR_DMR2 then store_spr D SPR_DMR2 (s SPR_DMR2) (s SPR_DMR2 .| Z.shiftl 1 (12 + i))
  else if a =? SPR_DCR i then store_spr D (SPR_DCR i) (s (SPR_DCR i)) dcr
  else if a =? SPR_DVR i then addr else s a.

(** The debug registers with watchpoint [i] disabled. *)
Definition unwatch_spr (i : Z) (s : Z -> Z) : Z -> Z := fun a =>
  if a =? SPR_DCR i then store_spr D (SPR_DCR i) (s (SPR_DCR i)) 1
  else if a =? SPR_DMR2 then store_spr D SPR_DMR2 (s SPR_DMR2) (s SPR_DMR2 .& not32 (Z.shiftl 1 (12 + i)))
  else s a.

Lemma available_watchpoint in_use i :
  Z.of_nat (length in_use) = HWP_MAX_WP -> 0 <= i < HWP_MAX_WP ->
  in_use !! Z.to_nat i = Some 0 -> (forall j, 0 <= j < i -> in_use !! Z.to_nat j <> Some 0) ->
  hwp_get_available_watchpoint in_use = (i, <[Z.to_nat i := 1]> in_use).
Proof.
  intros Hl Hi Hfree Hused. unfold hwp_get_available_watchpoint.
  rewrite (for_return_first HWP_MAX_WP i _ i); [done|done| |].
  - by rewrite Hfree.
  - intros j Hj. specialize (Hused j Hj).
    destruct (in_use !! Z.to_nat j) as [x|] eqn:E; simpl; [|done].
    destruct (Z.eqb_spec x 0); [congruence|done].
Qed.

Lemma no_watchpoint in_use :
  (forall j, 0 <= j < HWP_MAX_WP -> in_use !! Z.to_nat j <> Some 0) ->
  hwp_get_available_watchpoint in_use = (-1, in_use).
Proof.
  intros Hused. unfold hwp_get_available_watchpoint. rewrite for_return_none; [done|].
  intros j Hj. specialize (Hused j Hj).
  destruct (in_use !! Z.to_nat j) as [x|]; simpl; [|done]. destruct (Z.eqb_spec x 0); [congruence|done].
Qed.

Lemma wgb_bit_ok i : 0 <= i < HWP_MAX_WP -> wgb_bit i = Ok (Z.shiftl 1 (12 + i)) /\ is_u32 (Z.shiftl 1 (12 + i)).
Proof.
  apply (Z_range_check 8 (fun i => wgb_bit i = Ok (Z.shiftl 1 (12 + i)) /\ is_u32 (Z.shiftl 1 (12 + i)))).
  by vm_compute.
Qed.

Lemma debug_regs_distinct i : 0 <= i < HWP_MAX_WP ->
  (SPR_DMR2 =? SPR_DCR i) = false /\ (SPR_DMR2 =? SPR_DVR i) = false /\ (SPR_DMR1 =? SPR_DMR2) = false
  /\ (SPR_DMR1 =? SPR_DCR i) = false /\ (SPR_DMR1 =? SPR_DVR i) = false /\ (SPR_DCR i =? SPR_DMR2) = false
  /\ SPR_DVR i <> SPR_NPC /\ SPR_DCR i <> SPR_NPC /\ shl_c 3 (2 * i) = Ok (Z.shiftl 3 (2 * i))
  /\ (SPR_DCR i =? SPR_DVR i) = false /\ status_reg (SPR_DVR i) = false.
Proof.
  apply (Z_range_check 8 (fun i => (SPR_DMR2 =? SPR_DCR i) = false /\ (SPR_DMR2 =? SPR_DVR i) = false
    /\ (SPR_DMR1 =? SPR_DMR2) = false /\ (SPR_DMR1 =? SPR_DCR i) = false
    /\ (SPR_DMR1 =? SPR_DVR i) = false /\ (SPR_DCR i =? SPR_DMR2) = false
    /\ SPR_DVR i <> SPR_NPC /\ SPR_DCR i <> SPR_NPC /\ shl_c 3 (2 * i) = Ok (Z.shiftl 3 (2 * i))
    /\ (SPR_DCR i =? SPR_DVR i) = false /\ status_reg (SPR_DVR i) = false)).
  by vm_compute.
Qed.

(** What a command leaves of the world besides the watchpoints, the table and the target. *)
Definition world_with (in_use : list Z) (hash : mp_table) (d : D) w : world D :=
  upd_rsp (set_mp_hash hash) (upd_hwp (fun _ => in_use) (set_target d w)).

Lemma wp_send_ok w1 rs rest w :
  gdb w1 = gdb w -> rsp w1 = rsp w \/ client_fd (rsp w1) = client_fd (rsp w) ->
  connected w -> delivers [43] rs -> reads (gdb w) = rs ++ rest ->
  wp (put_str_packet "OK") (fun _ w' => hears rs (frame (bytes "OK")) w1 w') w1.
Proof.
  intros Eg Er [Hc Hw] Hrs Hr. eapply wp_mono.
  { eapply (wp_send_str "OK" rs rest); [simpl; lia| |done|by rewrite Eg].
    split; [by destruct Er as [-> | ->]|by rewrite Eg]. }
  intros ? w' T. by apply talks_hears.
Qed.

(** With a watchpoint that is free. *)
Lemma wp_insert_hardware type addr dcr i hash rs rest w :
  connected w -> delivers [43] rs -> reads (gdb w) = rs ++ rest ->
  0 <= i < HWP_MAX_WP -> is_u32 addr -> is_u32 dcr ->
  hwp_get_available_watchpoint (hwp_in_use w) = (i, <[Z.to_nat i := 1]> (hwp_in_use w)) ->
  mp_hash_add (mp_hash (rsp w)) type addr i = Ok hash ->
  wp (insert_hardware type addr dcr) (fun _ w' => exists d,
    (forall a, spr d a = watch_spr i addr dcr (spr (target w)) a)
    /\ (forall a, mem d a = mem (target w) a)
    /\ hears rs (frame (bytes "OK")) (world_with (<[Z.to_nat i := 1]> (hwp_in_use w)) hash d w) w') w.
Proof.
  intros Hc Hrs Hr Hi Ha Hdcr Hav Hadd.
  destruct (debug_regs_distinct i Hi) as (E1 & E2 & E3 & E4 & E5 & E6 & N1 & N2 & Hsh & E7 & Hplain).
  destruct (wgb_bit_ok i Hi) as [Hbit Hbitu].
  unfold insert_hardware. rsp_pure. rsp_pure. rewrite Hav. rsp_pure. rsp_pure.
  destruct (Z.eqb_spec i (-1)); [lia|]. rsp_pure. rsp_pure. rsp_pure. eapply wp_lift; [exact Hadd|].
  rsp_pure. rsp_pure. rsp_pure. apply wp_write_spr_to; [done|]. intros d1 Hs1 Hm1 Hst1.
  rsp_pure. apply wp_write_spr_to; [done|]. intros d2 Hs2 Hm2 Hst2.
  rsp_pure. apply wp_read_spr. rsp_pure. eapply wp_lift; [exact Hbit|].
  rsp_pure. apply wp_write_spr_to; [done|]. intros d3 Hs3 Hm3 Hst3.
  rsp_pure. apply wp_read_spr. rsp_pure. eapply wp_lift; [exact Hsh|].
  rsp_pure. apply wp_write_spr_to; [done|]. intros d4 Hs4 Hm4 Hst4.
  change (target (set_target ?d ?v)) with d in *. cbn [value default from_option id] in *.
  rewrite !(wrap_small 32) in * by done.
  eapply wp_mono; [eapply (wp_send_ok _ rs rest w); try done; by right|].
  intros res w' T. exists d4. split; [|split].
  - intros a. rewrite Hs4. unfold watch_spr. destruct (Z.eqb_spec a SPR_DMR1) as [->|].
    + rewrite (wrap_small 32); [|apply is_word_land_l; [done|apply spr_u32]].
      rewrite Hs3, E3, Hs2, E4, Hs1, E5. by rewrite store_plain.
    + rewrite Hs3. destruct (Z.eqb_spec a SPR_DMR2) as [->|].
      * rewrite (wrap_small 32); [|by apply is_word_lor, Hbitu; [|apply spr_u32]].
        rewrite Hs2, E1, Hs1, E2. done.
      * rewrite Hs2. destruct (a =? SPR_DCR i); [by rewrite Hs1, E7|].
        rewrite Hs1, store_plain by done. done.
  - intros a. by rewrite Hm4, Hm3, Hm2, Hm1.
  - exact T.
Qed.

Lemma wp_remove_hardware type addr i rs rest w :
  connected w -> delivers [43] rs -> reads (gdb w) = rs ++ rest -> mp_wf (mp_hash (rsp w)) ->
  0 <= i < HWP_MAX_WP -> mp_map (mp_hash (rsp w)) (type, addr) = Some i ->
  wp (remove_hardware type addr) (fun _ w' => exists hash d,
    mp_wf hash
    /\ (forall k, mp_map hash k = if bool_decide (k = (type, addr)) then None
                                  else mp_map (mp_hash (rsp w)) k)
    /\ (forall a, spr d a = unwatch_spr i (spr (target w)) a)
    /\ (forall a, mem d a = mem (target w) a)
    /\ hears rs (frame (bytes "OK")) (world_with (<[Z.to_nat i := 0]> (hwp_in_use w)) hash d w) w') w.
Proof.
  intros Hc Hrs Hr Hwf Hi Hmap.
  destruct (debug_regs_distinct i Hi) as (E1 & E2 & E3 & E4 & E5 & E6 & N1 & N2 & Hsh & E7 & Hplain).
  destruct (wgb_bit_ok i Hi) as [Hbit Hbitu].
  unfold remove_hardware. rsp_pure. rsp_pure.
  pose proof (mp_hash_delete_spec (mp_hash (rsp w)) type addr Hwf) as Hdel.
  destruct (mp_hash_delete (mp_hash (rsp w)) type addr) as [mpe hash].
  destruct Hdel as (He & Hwf' & Hh). rewrite Hmap in He. destruct mpe as [mpe|]; [|done].
  injection He as He. rsp_pure. rsp_pure. cbv zeta. rewrite He.
  assert (u32 i = i) as -> by (apply wrap_small; unfold is_word, HWP_MAX_WP in *; simpl; lia).
  rsp_pure. apply wp_read_spr. rsp_pure. eapply wp_lift; [exact Hbit|].
  rsp_pure. apply wp_write_spr_to; [done|]. intros d1 Hs1 Hm1 Hst1.
  rsp_pure. apply wp_write_spr_to; [done|]. intros d2 Hs2 Hm2 Hst2. rsp_pure. rsp_pure.
  change (target (set_target ?d ?v)) with d in *. cbn [value default from_option id] in *.
  assert (hwp_return_watchpoint i = <[Z.to_nat i := 0]>) as ->.
  { unfold hwp_return_watchpoint. by destruct (Z.leb_spec HWP_MAX_WP i); [lia|]. }
  eapply wp_mono; [eapply (wp_send_ok _ rs rest w); try done; by right|].
  intros res w' T. exists hash, d2. split; [done|]. split; [done|]. split; [|split].
  - intros a. rewrite Hs2. unfold unwatch_spr. destruct (Z.eqb_spec a (SPR_DCR i)) as [->|].
    { by rewrite Hs1, E6. }
    rewrite Hs1. destruct (Z.eqb_spec a SPR_DMR2) as [->|]; [|done].
    rewrite (wrap_small 32); [done|]. apply is_word_land_l; [done|apply spr_u32].
  - intros a. by rewrite Hm2, Hm1.
  - exact T.
Qed.
End matchpoints.
