(* ===== verification/MonitorFacts.v ===== *)
(** The monitor thread: its connections stay in order, and its commands reach the target
    and come back to every server; and what a pass of the thread does. *)

From S2P Require Import Prelude StateM Tap Cable Chain AdvDbg RspData DebugUnit HwMonitor.
From stdpp Require Import gmap list.

Open Scope Z_scope.

(** * Pipes *)

(** Both ends of the pipe that is written at [fd] are open. *)
Definition writable (fd : Z) (p : pipes) : Prop := fd ∈ open_fds p /\ fd - 1 ∈ open_fds p.

Lemma queue_write fd c p x : writable fd p ->
  queue x (fd_write fd c p) = if bool_decide (x = fd - 1) then queue x p ++ [c] else queue x p.
Proof.
  intros Hw. unfold fd_write. rewrite bool_decide_true by done. unfold queue at 1. cbn [queues].
  case_bool_decide as Ex; [subst x; by rewrite lookup_insert_eq|]. by rewrite lookup_insert_ne.
Qed.

(** The same descriptors, whatever is in the pipes. *)
Definition same_pipes (p p' : pipes) : Prop :=
  open_fds p' = open_fds p /\ next_fd p' = next_fd p /\ pipe_results p' = pipe_results p.

#[export] Instance same_pipes_po : PreOrder same_pipes.
Proof.
  split; [done|]. intros p p' p'' (E1 & E2 & E3) (E1' & E2' & E3').
  split; [|split]; by etransitivity.
Qed.

Lemma same_write fd c p : same_pipes p (fd_write fd c p).
Proof. unfold fd_write. by case_bool_decide. Qed.

(** * Connections *)

#[export] Instance fdstruct_eq_dec : EqDecision fdstruct_t.
Proof. solve_decision. Defined.

Definition fds (c : fdstruct_t) : list Z :=
  [(server_to_monitor_fds c).1; (server_to_monitor_fds c).2;
   (monitor_to_server_fds c).1; (monitor_to_server_fds c).2].

(** Each array is a pipe. *)
Definition two_pipes (c : fdstruct_t) : Prop :=
  (server_to_monitor_fds c).2 = (server_to_monitor_fds c).1 + 1
  /\ (monitor_to_server_fds c).2 = (monitor_to_server_fds c).1 + 1.

Section facts.
Context {D : Type} `{DebugUnit D}.
Implicit Types m : hwmon D.

(** The connections in use. *)
Definition active m : list fdstruct_t := take (Z.to_nat (num_monitor_connections m)) (connections m).

(** The array and the number agree; the connections have two pipes each, all
    different and open. *)
Record conn_ok m : Prop := ConnOk {
  ok_num : 0 <= num_monitor_connections m <= MAX_MONITOR_CONNECTIONS;
  ok_length : Z.of_nat (length (connections m)) = MAX_MONITOR_CONNECTIONS;
  ok_pipes : Forall two_pipes (active m);
  ok_distinct : NoDup (concat (map fds (active m)));
  ok_open : Forall (fun fd => fd ∈ open_fds (io m)) (concat (map fds (active m)));
  ok_next : 0 <= next_fd (io m);
  ok_known : forall fd, fd ∈ open_fds (io m) -> 0 <= fd < next_fd (io m)
}.

(** And nobody is in the middle of changing them. *)
Definition monitor_ok m : Prop := conn_ok m /\ pipes_mutex m = false.

Lemma active_lookup m i : conn_ok m -> 0 <= i < num_monitor_connections m ->
  exists c, connections m !! Z.to_nat i = Some c /\ active m !! Z.to_nat i = Some c.
Proof.
  intros Hok Hi. destruct Hok as [Hn Hl _ _ _ _ _].
  destruct (lookup_lt_is_Some_2 (connections m) (Z.to_nat i)) as [c Hc]; [lia|].
  exists c. split; [done|]. unfold active. by rewrite lookup_take_lt by lia.
Qed.

Lemma active_length m : conn_ok m -> Z.of_nat (length (active m)) = num_monitor_connections m.
Proof. intros [Hn Hl _ _ _ _ _]. unfold active. rewrite length_take. lia. Qed.

Lemma wp_connection i c (Q : fdstruct_t -> hwmon D -> Prop) m :
  0 <= i -> connections m !! Z.to_nat i = Some c -> Q c m -> wp (connection i) Q m.
Proof.
  intros Hi Hc HQ. exists c, m. split; [|done]. unfold connection.
  destruct (Z.leb_spec 0 i); [|lia]. by rewrite Hc.
Qed.

(** The descriptors of different connections are different. *)
Lemma fds_disjoint m i j ci cj x :
  conn_ok m -> active m !! i = Some ci -> active m !! j = Some cj ->
  x ∈ fds ci -> x ∈ fds cj -> i = j.
Proof.
  intros Hok. pose proof (ok_distinct m Hok) as Hd. revert i j Hd.
  generalize (active m) as cs. induction cs as [|c cs IH]; intros i j Hd Hi Hj Hxi Hxj; [done|].
  cbn [map concat] in Hd. apply NoDup_app in Hd as (_ & Hdis & Hd).
  assert (forall k ck, cs !! k = Some ck -> x ∈ fds ck -> x ∈ concat (map fds cs)) as Hin.
  { intros k ck Hk Hx. apply list_elem_of_In, in_concat. exists (fds ck).
    split; [|by apply list_elem_of_In]. apply in_map, list_elem_of_In. by eapply list_elem_of_lookup_2. }
  destruct i as [|i], j as [|j]; simpl in Hi, Hj.
  - done.
  - injection Hi as ->. destruct (Hdis x Hxi). by eapply Hin.
  - injection Hj as ->. destruct (Hdis x Hxj). by eapply Hin.
  - f_equal. by eapply IH.
Qed.

Lemma active_open m i c x : conn_ok m -> active m !! i = Some c -> x ∈ fds c -> x ∈ open_fds (io m).
Proof.
  intros Hok Hi Hx. pose proof (ok_open m Hok) as Ho. rewrite Forall_forall in Ho. apply Ho.
  apply list_elem_of_In, in_concat. exists (fds c). split; [|by apply list_elem_of_In].
  apply in_map, list_elem_of_In. by eapply list_elem_of_lookup_2.
Qed.

(** A change that leaves the connections and what is open alone. *)
Lemma conn_ok_same m m' :
  conn_ok m -> num_monitor_connections m' = num_monitor_connections m ->
  connections m' = connections m -> same_pipes (io m) (io m') -> conn_ok m'.
Proof.
  intros [H1 H2 H3 H4 H5 H6 H7] E1 E2 (E3 & E4 & _).
  assert (active m' = active m) as Ea by (unfold active; by rewrite E1, E2).
  split; rewrite ?Ea, ?E1, ?E2, ?E3, ?E4; done.
Qed.

(** * Notification *)

(** Where the servers read what the monitor tells them. *)
Definition listeners m : list Z := map (fun c => (monitor_to_server_fds c).1) (active m).

Lemma active_two_pipes m i c : conn_ok m -> active m !! i = Some c -> two_pipes c.
Proof. intros Hok Hi. apply (Forall_lookup_1 _ _ _ _ (ok_pipes m Hok) Hi). Qed.

Lemma listener_fds c : (monitor_to_server_fds c).1 ∈ fds c.
Proof. unfold fds. rewrite !elem_of_cons. auto. Qed.

Lemma listeners_lookup m i x : listeners m !! i = Some x ->
  exists c, active m !! i = Some c /\ x = (monitor_to_server_fds c).1.
Proof.
  unfold listeners. change (map ?f ?l) with (f <$> l). rewrite list_lookup_fmap.
  destruct (active m !! i) as [c|]; simpl; [|done]. intros [= <-]. by exists c.
Qed.

Lemma listeners_distinct m i j x : conn_ok m ->
  listeners m !! i = Some x -> listeners m !! j = Some x -> i = j.
Proof.
  intros Hok (c & Hc & ->)%listeners_lookup (c' & Hc' & E)%listeners_lookup.
  eapply (fds_disjoint m i j c c'); [done|done|done|apply listener_fds|]. rewrite E. apply listener_fds.
Qed.

Lemma wp_write_pipe fd c (Q : unit -> hwmon D -> Prop) m :
  Q tt (set_io (fd_write fd c (io m)) m) -> wp (write_pipe fd c) Q m.
Proof. intros HQ. by apply wp_modify. Qed.

Lemma wp_notify_listeners c m :
  conn_ok m ->
  wp (notify_listeners c) (fun _ m' => exists p, m' = set_io p m
    /\ same_pipes (io m) p
    /\ forall x, queue x p = if bool_decide (x ∈ listeners m) then queue x (io m) ++ [c]
                             else queue x (io m)) m.
Proof.
  intros Hok. unfold notify_listeners. wp_pure. wp_pure.
  pose proof (ok_num m Hok) as Hn. pose proof (active_length m Hok) as Hl.
  eapply wp_mono.
  { apply (wp_mfor_upto (fun i _ m' => exists p, m' = set_io p m
      /\ same_pipes (io m) p
      /\ forall x, queue x p = if bool_decide (x ∈ take (Z.to_nat i) (listeners m))
                               then queue x (io m) ++ [c] else queue x (io m))); [lia| |].
    - exists (io m). split; [by destruct m|]. split; [done|]. intros x.
      rewrite bool_decide_false; [done|]. rewrite take_0. apply not_elem_of_nil.
    - intros i u m' Hi (p & -> & Hp & Hq).
      destruct (active_lookup m i Hok Hi) as (k & Hk & Hak).
      wp_pure. eapply wp_connection; [lia|exact Hk|]. apply wp_write_pipe. cbn [io set_io].
      pose proof (active_two_pipes m _ _ Hok Hak) as [_ E2]. rewrite E2.
      set (fd := (monitor_to_server_fds k).1).
      assert (writable (fd + 1) p) as Hwr.
      { destruct Hp as (Ho & _). unfold writable. rewrite Ho, Z.add_simpl_r. split.
        - eapply active_open; [done|exact Hak|]. unfold fds. rewrite !elem_of_cons, E2. auto.
        - eapply active_open; [done|exact Hak|apply listener_fds]. }
      eexists. split; [reflexivity|]. split; [by etransitivity; [exact Hp|apply same_write]|].
      intros x. rewrite queue_write, Z.add_simpl_r, Hq by done.
      assert (listeners m !! Z.to_nat i = Some fd) as Hfd.
      { unfold listeners. change (map ?f ?l) with (f <$> l). by rewrite list_lookup_fmap, Hak. }
      replace (Z.to_nat (i + 1)) with (S (Z.to_nat i)) by lia. rewrite (take_S_r _ _ _ Hfd).
      case_bool_decide as Ex.
      + subst x. rewrite (bool_decide_true (_ ∈ _ ++ _)) by (apply elem_of_app; right; by left).
        rewrite bool_decide_false; [done|]. intros (j & Hj)%list_elem_of_lookup.
        apply lookup_take_Some in Hj as [Hj Hlt].
        pose proof (listeners_distinct m _ _ _ Hok Hj Hfd). lia.
      + destruct (decide (x ∈ take (Z.to_nat i) (listeners m))).
        * rewrite !bool_decide_true; [done|apply elem_of_app; by left|done].
        * rewrite !bool_decide_false; [done| |done].
          rewrite elem_of_app, list_elem_of_singleton. by intros [?|?]. }
  intros u m' (p & -> & Hp & Hq). exists p. split; [done|]. split; [done|].
  intros x. rewrite Hq, take_ge; [done|]. unfold listeners. rewrite length_map. lia.
Qed.

(** * Commands *)

Context `{!DebugLaws D}.

(** What the monitor believes and what the target does: whether it runs, whether it is
    stalled. *)
Definition run_state m : bool * bool := (target_is_running m, stalled (unit_of m)).

(** The target does what it is told, the queues are as given, and nothing else is changed. *)
Record state_after (t : bool * bool) (q : Z -> list Z) m m' : Prop := StateAfter {
  after_ok : conn_ok m';
  after_mutex : pipes_mutex m' = pipes_mutex m;
  after_active : active m' = active m;
  after_num : num_monitor_connections m' = num_monitor_connections m;
  after_results : pipe_results (io m') = pipe_results (io m);
  after_run : run_state m' = t;
  after_spr : forall a, spr (unit_of m') a = spr (unit_of m) a;
  after_mem : forall a, mem (unit_of m') a = mem (unit_of m) a;
  after_queue : forall x, queue x (io m') = q x
}.

Lemma state_after_trans s1 q1 s2 q2 m m1 m2 :
  state_after s1 q1 m m1 -> state_after s2 q2 m1 m2 -> state_after s2 q2 m m2.
Proof.
  intros [] []. split; try done; try congruence; intros a; by etransitivity.
Qed.

Lemma state_after_queues s q q' m m' :
  state_after s q m m' -> (forall x, q' x = q x) -> state_after s q' m m'.
Proof. intros [] E. split; try done. intros x. by rewrite E. Qed.

Lemma wp_on_unit {A} (f : M D A) (Q : A -> hwmon D -> Prop) m :
  wp f (fun a d => Q a (set_unit d m)) (unit_of m) -> wp (on_unit f) Q m.
Proof.
  intros (a & d & Hf & HQ). exists a, (set_unit d m). split; [|done]. unfold on_unit. by rewrite Hf.
Qed.

Lemma wp_stall_cpu stall m :
  conn_ok m ->
  wp (stall_cpu (b2z stall)) (fun _ m' => state_after (negb stall, stall) (fun x => queue x (io m)) m m') m.
Proof.
  intros Hok. unfold stall_cpu. wp_pure. apply wp_on_unit.
  eapply wp_mono; [apply law_write_ctrl|]. intros r d (-> & Hs & Hm & Hst). wp_pure.
  split; try done.
  - by apply (conn_ok_same m).
  - unfold run_state. cbn [target_is_running unit_of set_target_is_running set_unit]. rewrite Hst.
    by destruct stall.
Qed.

(** Every server that listens is told. *)
Definition tell (l : list Z) m (q : Z -> list Z) : Z -> list Z := fun x =>
  if bool_decide (x ∈ listeners m) then q x ++ l else q x.

Lemma wp_notify_command t told m m1 :
  state_after t (fun x => queue x (io m)) m m1 ->
  wp (notify_listeners told)
    (fun _ m' => state_after t (tell [told] m (fun x => queue x (io m))) m m') m1.
Proof.
  intros A. destruct A as [Hok Hx Ha Hn Hres Hrun Hs Hm Hq].
  assert (listeners m1 = listeners m) as Hli by (unfold listeners; by rewrite Ha).
  eapply wp_mono; [by apply wp_notify_listeners|]. intros u m2 (p & -> & Hp & Hq').
  split; try done; [by apply (conn_ok_same m1)|cbn; by destruct Hp as (_ & _ & ->)|]. intros x. cbn [io set_io]. unfold tell.
  by rewrite Hq', Hli, Hq.
Qed.

(** S (83) stalls a target that is believed to run, U (85) starts one that is not; the
    answer is H (72) or R (82). *)
Definition obeyed (t : bool * bool) (cmd : Z) : bool * bool :=
  if cmd =? 83 then (false, t.1 || t.2) else if cmd =? 85 then (true, t.1 && t.2) else t.
Definition answer_of (cmd : Z) : list Z :=
  if cmd =? 83 then [72] else if cmd =? 85 then [82] else [].

Lemma state_same m : conn_ok m -> state_after (run_state m) (fun x => queue x (io m)) m m.
Proof. done. Qed.

Lemma tell_nothing m q x : tell [] m q x = q x.
Proof. unfold tell. case_bool_decide; [apply app_nil_r|done]. Qed.

Lemma wp_run_command cmd m :
  conn_ok m ->
  wp (run_command cmd) (fun _ m' => state_after (obeyed (run_state m) cmd)
    (tell (answer_of cmd) m (fun x => queue x (io m))) m m') m.
Proof.
  intros Hok. unfold run_command, obeyed, answer_of. wp_pure. wp_pure.
  pose proof (state_same m Hok) as Hm. unfold run_state in *. cbn [fst snd].
  destruct (cmd =? 83); [|destruct (cmd =? 85)].
  - wp_pure. destruct (target_is_running m).
    + eapply wp_mono; [by apply (wp_stall_cpu true)|]. intros u m1 A. by apply wp_notify_command.
    + wp_pure. by apply wp_notify_command.
  - wp_pure. destruct (target_is_running m); cbn [negb].
    + wp_pure. by apply wp_notify_command.
    + eapply wp_mono; [by apply (wp_stall_cpu false)|]. intros u m1 A. by apply wp_notify_command.
  - wp_pure. eapply state_after_queues; [exact Hm|]. intros x. apply tell_nothing.
Qed.

(** ** Polling *)

Lemma wp_read_ctrl (Q : Z * option Z -> hwmon D -> Prop) m :
  (forall s, Z.testbit s 0 = stalled (unit_of m) -> Q (0, Some s) m) ->
  wp (on_unit (cpu0_read_ctrl 0 None)) Q m.
Proof.
  intros HQ. destruct (law_read_ctrl 0 None (unit_of m)) as (s & E & Hs).
  exists (0, Some s), m. split; [|by apply HQ]. unfold on_unit. rewrite E. by destruct m.
Qed.

Lemma wp_lock_pipes (Q : unit -> hwmon D -> Prop) m :
  pipes_mutex m = false -> Q tt (set_pipes_mutex true m) -> wp lock_pipes Q m.
Proof. intros E HQ. exists tt, (set_pipes_mutex true m). split; [|done]. unfold lock_pipes. by rewrite E. Qed.

Lemma status_bit (s : Z) : truth (Z.land s 1) = Z.testbit s 0.
Proof.
  unfold truth. change 1 with (Z.ones 1). rewrite Z.land_ones by lia. change (2 ^ 1) with 2.
  rewrite <- Z.bit0_mod. by destruct (Z.testbit s 0).
Qed.

Lemma state_unlock t q m m' :
  pipes_mutex m = false ->
  state_after t q (set_pipes_mutex true m) m' -> state_after t q m (set_pipes_mutex false m').
Proof. intros Hx []. split; try done. by apply (conn_ok_same m'). Qed.

Lemma conn_ok_lock v m : conn_ok m -> conn_ok (set_pipes_mutex v m).
Proof. intros Hok. by apply (conn_ok_same m). Qed.

(** A target that has stopped by itself is noticed, and everyone is told. *)
Lemma wp_poll_target m :
  monitor_ok m ->
  let '(running, stopped) := run_state m in
  wp poll_target (fun _ m' => state_after (running && negb stopped, stopped)
    (tell (if running && stopped then [72] else []) m (fun x => queue x (io m))) m m') m.
Proof.
  intros [Hok Hx]. cbn. unfold poll_target. wp_pure. wp_pure.
  pose proof (state_same m Hok) as Hm. unfold run_state in *.
  assert (forall q, state_after (false && negb (stalled (unit_of m)), stalled (unit_of m)) q m m ->
    state_after (false && negb (stalled (unit_of m)), stalled (unit_of m)) (tell [] m q) m m) as Hsame.
  { intros q A. eapply state_after_queues; [exact A|]. intros x. apply tell_nothing. }
  destruct (target_is_running m) eqn:Hr; cbn [negb andb] in *; [|wp_pure; by apply Hsame].
  wp_pure. apply wp_read_ctrl. intros s Hs. change (truth 0) with false. cbn iota.
  wp_pure. eapply wp_lift; [done|]. rewrite status_bit, Hs.
  destruct (stalled (unit_of m)) eqn:Hst; cbn [negb].
  - wp_pure. wp_pure. wp_pure. apply wp_lock_pipes; [done|]. wp_pure.
    eapply wp_mono; [apply (wp_notify_command (false, true) 72 (set_pipes_mutex true m))|].
    + split; try done; [by apply (conn_ok_same m)|]. unfold run_state. cbn. by rewrite Hst.
    + intros u m1 A. unfold unlock_pipes. wp_pure. by apply state_unlock.
  - wp_pure. eapply state_after_queues; [exact Hm|]. intros x. apply tell_nothing.
Qed.
End facts.

(** * The pass of the thread *)

Section pass.
Context {D : Type} `{DebugUnit D} `{!DebugLaws D}.
Implicit Types m : hwmon D.

(** Where the monitor reads commands. *)
Definition command_fd (c : fdstruct_t) : Z := (server_to_monitor_fds c).1.

(** The first command of every pipe that has one, in the order of the connections. *)
Definition commands m (cs : list fdstruct_t) : list Z :=
  omap (fun c => head (queue (command_fd c) (io m))) cs.

(** The queues after the commands of [cs] have been read, and answered. *)
Definition read_queue m (cs : list fdstruct_t) (x : Z) : list Z :=
  if bool_decide (x ∈ map command_fd cs) then tail (queue x (io m)) else queue x (io m).
Definition queues_after m (cs : list fdstruct_t) : Z -> list Z :=
  tell (concat (map answer_of (commands m cs))) m (read_queue m cs).

Lemma command_fds c : command_fd c ∈ fds c.
Proof. unfold fds. rewrite !elem_of_cons. auto. Qed.

Lemma command_not_listener m i c : conn_ok m -> active m !! i = Some c ->
  command_fd c ∉ listeners m.
Proof.
  intros Hok Hi (j & Hj)%list_elem_of_lookup.
  apply listeners_lookup in Hj as (c' & Hc' & E).
  assert (i = j) as <-.
  { eapply (fds_disjoint m i j c c'); [done..|apply command_fds|]. rewrite E. apply listener_fds. }
  rewrite Hi in Hc'. injection Hc' as <-.
  pose proof (ok_distinct m Hok) as Hd. clear Hok. revert i Hi Hd. generalize (active m) as cs.
  induction cs as [|k cs IH]; intros i Hi Hd; [done|]. cbn [map concat] in Hd.
  apply NoDup_app in Hd as (Hk & _ & Hd). destruct i as [|i]; [|by eapply IH].
  injection Hi as ->. unfold fds in Hk. unfold command_fd in E. rewrite !NoDup_cons, E in Hk.
  destruct Hk as (Hk & _). apply Hk. rewrite !elem_of_cons. auto.
Qed.

Lemma earlier_command m (i : nat) c : conn_ok m -> active m !! i = Some c ->
  command_fd c ∉ map command_fd (take i (active m)).
Proof.
  intros Hok Hi Hin. change (map ?f ?l) with (f <$> l) in Hin.
  apply list_elem_of_fmap in Hin as (c' & E & (j & Hj)%list_elem_of_lookup).
  apply lookup_take_Some in Hj as [Hj Hlt].
  assert (i = j); [|lia].
  eapply (fds_disjoint m i j c c'); [done..|apply command_fds|]. rewrite E. apply command_fds.
Qed.

(** A pipe that is read first has what it had at the beginning. *)
Lemma queues_before m (i : nat) c : conn_ok m -> active m !! i = Some c ->
  queues_after m (take i (active m)) (command_fd c) = queue (command_fd c) (io m).
Proof.
  intros Hok Hi. unfold queues_after, tell.
  rewrite bool_decide_false by (by eapply command_not_listener). unfold read_queue.
  by rewrite bool_decide_false by (by apply earlier_command).
Qed.

Lemma tell_more m l l' q x : tell (l ++ l') m q x = tell l' m (tell l m q) x.
Proof. unfold tell. case_bool_decide; [by rewrite app_assoc|done]. Qed.

Lemma commands_snoc m cs c :
  commands m (cs ++ [c]) = commands m cs ++ option_list (head (queue (command_fd c) (io m))).
Proof.
  unfold commands. rewrite omap_app. by destruct (queue (command_fd c) (io m)) eqn:E; simpl; rewrite E.
Qed.

Lemma queue_read fd c q p : fd ∈ open_fds p -> queue fd p = c :: q ->
  exists p', fd_read fd p = Ok (Some c, p') /\ same_pipes p p'
    /\ forall x, queue x p' = if bool_decide (x = fd) then q else queue x p.
Proof.
  intros Ho Hq. unfold fd_read. rewrite bool_decide_true by done. rewrite Hq.
  eexists. split; [done|]. split; [done|]. intros x. unfold queue. cbn [queues].
  case_bool_decide as E; [subst x; by rewrite lookup_insert_eq|by rewrite lookup_insert_ne].
Qed.

Lemma wp_read_pipe fd c q (Q : option Z -> hwmon D -> Prop) m :
  fd ∈ open_fds (io m) -> queue fd (io m) = c :: q ->
  (forall p, same_pipes (io m) p ->
     (forall x, queue x p = if bool_decide (x = fd) then q else queue x (io m)) ->
     Q (Some c) (set_io p m)) ->
  wp (read_pipe fd) Q m.
Proof.
  intros Ho Hq HQ. destruct (queue_read fd c q (io m) Ho Hq) as (p & E & Hp & Hqs).
  exists (Some c), (set_io p m). split; [|by apply HQ]. unfold read_pipe. by rewrite E.
Qed.

(** What is known before the command of the next connection is read. *)
Definition passed m (cs : list fdstruct_t) m' : Prop :=
  state_after (fold_left obeyed (commands m cs) (run_state m)) (queues_after m cs) m m'.

Lemma read_queue_snoc m cs c x :
  read_queue m (cs ++ [c]) x =
  if bool_decide (x = command_fd c) then tail (queue x (io m)) else read_queue m cs x.
Proof.
  unfold read_queue. rewrite map_app. cbn [map]. destruct (decide (x = command_fd c)) as [E|E].
  - rewrite (bool_decide_true (x = _)) by done.
    by rewrite bool_decide_true by (rewrite elem_of_app, list_elem_of_singleton; auto).
  - rewrite (bool_decide_false (x = _)) by done. erewrite bool_decide_ext; [done|]. rewrite elem_of_app, list_elem_of_singleton. tauto.
Qed.

(** Nothing to read. *)
Lemma passed_skip m cs c m' : queue (command_fd c) (io m) = [] ->
  passed m cs m' -> passed m (cs ++ [c]) m'.
Proof.
  intros Hq A. unfold passed in *.
  assert (commands m (cs ++ [c]) = commands m cs) as E by (by rewrite commands_snoc, Hq, app_nil_r).
  rewrite E. eapply state_after_queues; [exact A|]. intros x. unfold queues_after, tell.
  assert (read_queue m (cs ++ [c]) x = read_queue m cs x) as ->; [|by rewrite E].
  rewrite read_queue_snoc. destruct (decide (x = command_fd c)) as [->|Hx].
  - rewrite bool_decide_true by done. unfold read_queue. rewrite Hq. by case_bool_decide.
  - by rewrite bool_decide_false by done.
Qed.

(** A command to read and obey. *)
Lemma passed_read m i c cmd q m' p :
  conn_ok m -> active m !! i = Some c -> queue (command_fd c) (io m) = cmd :: q ->
  passed m (take i (active m)) m' ->
  same_pipes (io m') p ->
  (forall x, queue x p = if bool_decide (x = command_fd c) then q else queue x (io m')) ->
  wp (run_command cmd) (fun _ m2 => passed m (take (S i) (active m)) m2) (set_io p m').
Proof.
  intros Hok Hi Hq A Ho Hp. rewrite (take_S_r _ _ _ Hi). unfold passed in *.
  rewrite commands_snoc, fold_left_app, Hq. cbn [head option_list fold_left].
  destruct A as [Hok' Hmx Ha Hnum Hres Hrun Hs Hm Hqs].
  assert (conn_ok (set_io p m')) as Hok1 by (by apply (conn_ok_same m')).
  eapply wp_mono; [by apply wp_run_command|].
  intros u m2 [Hok2 Hmx2 Ha2 Hn2 Hres2 Hrun2 Hs2 Hm2 Hq2].
  change (unit_of (set_io p m')) with (unit_of m') in *.
  change (run_state (set_io p m')) with (run_state m') in Hrun2. rewrite Hrun in Hrun2.
  split; try done; try congruence.
  - by rewrite Hmx2.
  - by rewrite Ha2.
  - by rewrite Hn2.
  - rewrite Hres2. destruct Ho as (_ & _ & E). cbn. by rewrite E.
  - intros x. rewrite Hq2. unfold queues_after. rewrite commands_snoc, Hq. cbn [head option_list].
    rewrite map_app, concat_app. change (option_list (Some cmd)) with [cmd]. cbn [map concat].
    rewrite app_nil_r, tell_more.
    assert (listeners (set_io p m') = listeners m) as Hl.
    { unfold listeners. change (active (set_io p m')) with (active m'). by rewrite Ha. }
    unfold tell at 1 2. rewrite Hl.
    assert (queue x p = tell (concat (map answer_of (commands m (take i (active m))))) m
      (read_queue m (take i (active m) ++ [c])) x) as E; [|by rewrite <- E].
    rewrite Hp, Hqs. unfold queues_after, tell. rewrite read_queue_snoc.
    destruct (decide (x = command_fd c)) as [->|Hx]; [|by rewrite !(bool_decide_false (x = _)) by done].
    rewrite !(bool_decide_true (command_fd c = _)) by done.
    rewrite bool_decide_false by (by eapply command_not_listener). by rewrite Hq.
Qed.

Lemma passed_nothing m : conn_ok m -> passed m [] m.
Proof.
  intros Hok. unfold passed. eapply state_after_queues; [by apply state_same|].
  intros x. apply tell_nothing.
Qed.

Lemma active_lookup_lt m i : conn_ok m -> 0 <= i < num_monitor_connections m ->
  exists c, active m !! Z.to_nat i = Some c.
Proof. intros Hok Hi. destruct (active_lookup m i Hok Hi) as (c & _ & Hc). by exists c. Qed.

(** The loop over the connections: [select] has found the pipes that have something. *)
Lemma wp_command_loop m (ready : gset Z) :
  conn_ok m ->
  (forall fd : Z, fd ∈ ready <-> fd ∈ map command_fd (active m) /\ queue fd (io m) <> []) ->
  wp (mfor_upto (num_monitor_connections m) (fun i _ =>
        k ← connection i;
        let fd := fst (server_to_monitor_fds k) in
        if bool_decide (fd ∈ ready) then
          cmd ← read_pipe fd;
          match cmd with
          | Some cmd => run_command cmd
          | None => mret tt
          end
        else mret tt) tt)
    (fun _ m' => passed m (active m) m') m.
Proof.
  intros Hok Hready. pose proof (ok_num m Hok) as Hn. pose proof (active_length m Hok) as Hl.
  eapply wp_mono.
  { apply (wp_mfor_upto (fun i _ m' => passed m (take (Z.to_nat i) (active m)) m')); [lia| |].
    - rewrite take_0. by apply passed_nothing.
    - intros i u m' Hi A. replace (Z.to_nat (i + 1)) with (S (Z.to_nat i)) by lia.
      pose proof (after_ok _ _ _ _ A) as Hok'.
      destruct (active_lookup m' i Hok') as (k & Hk' & Hak').
      { by rewrite (after_num _ _ _ _ A). }
      pose proof Hak' as Hak. rewrite (after_active _ _ _ _ A) in Hak.
      wp_pure. eapply wp_connection; [lia|exact Hk'|]. cbv zeta.
      change (server_to_monitor_fds k).1 with (command_fd k).
      assert (queue (command_fd k) (io m') = queue (command_fd k) (io m)) as Hq.
      { rewrite (after_queue _ _ _ _ A). by apply queues_before. }
      assert (command_fd k ∈ map command_fd (active m)) as Hin.
      { change (map ?f ?l) with (f <$> l). apply list_elem_of_fmap. exists k.
        split; [done|]. by eapply list_elem_of_lookup_2. }
      destruct (queue (command_fd k) (io m)) as [|cmd q] eqn:E.
      + rewrite bool_decide_false by (rewrite Hready, E; tauto). wp_pure.
        rewrite (take_S_r _ _ _ Hak). by apply passed_skip.
      + rewrite bool_decide_true by (rewrite Hready, E; done). wp_pure.
        eapply wp_read_pipe; [eapply active_open; [done|exact Hak'|apply command_fds]|exact Hq|].
        intros p Ho Hp. by eapply (passed_read m _ k cmd q m' p). }
  intros u m' A. by rewrite take_ge in A by lia.
Qed.

Lemma readset_spec m fd :
  fd ∈ readset m <-> fd ∈ map command_fd (active m) /\ queue fd (io m) <> [].
Proof. unfold readset. rewrite elem_of_list_to_set, list_elem_of_filter. unfold active, command_fd. tauto. Qed.

Lemma readset_empty m : readset m = ∅ -> commands m (active m) = [].
Proof.
  intros E. assert (forall c, c ∈ active m -> queue (command_fd c) (io m) = []) as Hq.
  { intros c Hc. destruct (queue (command_fd c) (io m)) as [|x q] eqn:Eq; [done|].
    exfalso. apply (not_elem_of_empty (C := gset Z) (command_fd c)). rewrite <- E, readset_spec, Eq.
    split; [|done]. change (map ?f ?l) with (f <$> l). by apply list_elem_of_fmap_2. }
  revert Hq. unfold commands. generalize (active m) as cs. induction cs as [|c cs IH]; intros Hq; [done|].
  simpl. rewrite Hq by left. simpl. apply IH. intros k Hk. apply Hq. by right.
Qed.

(** ** A pass *)

(** Commands that have arrived are obeyed in the order of the connections; when there is
    none, the target is asked whether it has stopped. *)
Lemma wp_target_handler m :
  monitor_ok m ->
  wp (target_handler (select m)) (fun _ m' =>
    (readset m <> ∅ /\ passed m (active m) m')
    \/ (readset m = ∅ /\ state_after ((run_state m).1 && negb (run_state m).2, (run_state m).2)
          (tell (if (run_state m).1 && (run_state m).2 then [72] else []) m (fun x => queue x (io m))) m m')) m.
Proof.
  intros [Hok Hx]. unfold target_handler, select. destruct (decide (readset m = ∅)) as [E|E].
  - eapply wp_mono; [by apply wp_poll_target|]. intros u m' A. by right.
  - wp_pure. apply wp_lock_pipes; [done|]. wp_pure. wp_pure. wp_pure. eapply wp_mono.
    { apply (wp_command_loop (set_pipes_mutex true m) (readset m)); [by apply conn_ok_lock|].
      apply (readset_spec m). }
    intros u m1 A. unfold unlock_pipes. wp_pure. left. split; [done|]. by apply state_unlock.
Qed.

Lemma wp_target_handler_ok m :
  monitor_ok m -> wp (target_handler (select m)) (fun _ m' => monitor_ok m') m.
Proof.
  intros Hm. eapply wp_mono; [by apply wp_target_handler|].
  intros u m' [[_ A]|[_ A]]; split; try apply (after_ok _ _ _ _ A);
    rewrite (after_mutex _ _ _ _ A); apply Hm.
Qed.
End pass.
