(* ===== verification/MonitorConn.v ===== *)
(** The monitor thread: how connections come and go, and the states it can reach. *)

From S2P Require Import Prelude StateM Tap Cable Chain AdvDbg RspData DebugUnit HwMonitor.
From S2P Require Import MonitorFacts.
From stdpp Require Import gmap list.

Open Scope Z_scope.

Section connections.
Context {D : Type} `{DebugUnit D} `{!DebugLaws D}.
Implicit Types m : hwmon D.

Definition all_fds (cs : list fdstruct_t) : list Z := concat (map fds cs).

Lemma all_fds_perm cs cs' : cs ≡ₚ cs' -> all_fds cs ≡ₚ all_fds cs'.
Proof. intros E. unfold all_fds. rewrite <- !flat_map_concat_map. by apply Permutation.Permutation_flat_map. Qed.

Lemma set_active m i c : 0 <= i < num_monitor_connections m ->
  active (set_connection i c m) = <[Z.to_nat i := c]> (active m).
Proof. intros Hi. unfold active, set_connection. cbn. by rewrite take_insert_lt by lia. Qed.

(** ** A new connection *)

(** The pipes of a new connection are the next four descriptors. *)
Definition new_connection (p : pipes) : fdstruct_t :=
  FdStruct (next_fd p, next_fd p + 1) (next_fd p + 2, next_fd p + 3).
Definition new_pipes (p : pipes) : pipes := snd (pipe (snd (pipe p))).

Lemma wp_make_pipe (Q : option (Z * Z) -> hwmon D -> Prop) m :
  pipe_results (io m) = [] ->
  Q (Some (next_fd (io m), next_fd (io m) + 1)) (set_io (snd (pipe (io m))) m) ->
  wp make_pipe Q m.
Proof.
  intros E HQ. eexists _, _. split; [|exact HQ]. unfold make_pipe, pipe. by rewrite E.
Qed.

Lemma pipe_result p : pipe_results p = [] -> pipe_results (snd (pipe p)) = [].
Proof. intros E. unfold pipe. by rewrite E. Qed.
Lemma pipe_next p : pipe_results p = [] -> next_fd (snd (pipe p)) = next_fd p + 2.
Proof. intros E. unfold pipe. by rewrite E. Qed.
Lemma pipe_open p fd : pipe_results p = [] ->
  fd ∈ open_fds (snd (pipe p)) <-> fd = next_fd p \/ fd = next_fd p + 1 \/ fd ∈ open_fds p.
Proof.
  intros E. unfold pipe. rewrite E. cbn. rewrite !elem_of_union, !elem_of_singleton. tauto.
Qed.
Lemma pipe_queue p fd : pipe_results p = [] ->
  queue fd (snd (pipe p)) = if bool_decide (fd = next_fd p) then [] else queue fd p.
Proof.
  intros E. unfold pipe. rewrite E. unfold queue. cbn [snd queues head default tail].
  case_bool_decide as Ex; [subst fd; by rewrite lookup_insert_eq|by rewrite lookup_insert_ne].
Qed.

(** The connection is added to those there are. *)
Definition registered m c m' : Prop :=
  monitor_ok m' /\ active m' = active m ++ [c] /\ two_pipes c
  /\ pipe_results (io m') = [] /\ queue (command_fd c) (io m') = [] /\ queue (monitor_to_server_fds c).1 (io m') = []
  /\ (forall k x, k ∈ active m -> x ∈ fds k -> queue x (io m') = queue x (io m))
  /\ unit_of m' = unit_of m /\ target_is_running m' = target_is_running m.

Lemma new_conn_ok m c :
  conn_ok m -> pipe_results (io m) = [] -> num_monitor_connections m < MAX_MONITOR_CONNECTIONS ->
  c = new_connection (io m) ->
  conn_ok (set_connections (num_monitor_connections m + 1)
    (<[Z.to_nat (num_monitor_connections m) := c]> (connections m)) (set_io (new_pipes (io m)) m))
  /\ active (set_connections (num_monitor_connections m + 1)
    (<[Z.to_nat (num_monitor_connections m) := c]> (connections m)) (set_io (new_pipes (io m)) m))
     = active m ++ [c].
Proof.
  intros Hok Hp Hn ->. set (c := new_connection (io m)).
  pose proof (ok_num m Hok) as Hr. pose proof (ok_length m Hok) as Hl.
  set (m' := set_connections _ _ _).
  assert (active m' = active m ++ [c]) as Ha.
  { unfold active, m'. cbn [num_monitor_connections connections set_connections].
    replace (Z.to_nat (num_monitor_connections m + 1)) with (S (Z.to_nat (num_monitor_connections m))) by lia.
    rewrite (take_S_r _ _ c) by (apply list_lookup_insert_eq; lia).
    by rewrite take_insert_ge by lia. }
  split; [|done].
  assert (forall x, x ∈ fds c -> next_fd (io m) <= x < next_fd (io m) + 4) as Hfc.
  { intros x. unfold fds, c, new_connection. cbn. rewrite !elem_of_cons, elem_of_nil. lia. }
  assert (forall x, x ∈ open_fds (new_pipes (io m)) <-> x ∈ fds c \/ x ∈ open_fds (io m)) as Ho.
  { intros x. unfold new_pipes. rewrite !pipe_open, pipe_next by (try apply pipe_result; done).
    unfold fds, c, new_connection. cbn. rewrite !elem_of_cons, elem_of_nil.
    replace (next_fd (io m) + 2 + 1) with (next_fd (io m) + 3) by lia. tauto. }
  assert (all_fds (active m ++ [c]) = all_fds (active m) ++ fds c) as Hfd.
  { unfold all_fds. rewrite map_app, concat_app. cbn [map concat]. by rewrite app_nil_r. }
  split; rewrite ?Ha; fold (all_fds (active m ++ [c])); rewrite ?Hfd; cbn.
  - lia.
  - by rewrite length_insert.
  - apply Forall_app. split; [apply (ok_pipes m Hok)|]. by repeat constructor; cbn; lia.
  - apply NoDup_app. split; [apply (ok_distinct m Hok)|]. split.
    + intros x Hx Hc. apply Hfc in Hc. pose proof (ok_open m Hok) as Hopen.
      rewrite Forall_forall in Hopen. apply Hopen, (ok_known m Hok) in Hx. lia.
    + unfold fds, c, new_connection. cbn. rewrite !NoDup_cons, !elem_of_cons, !elem_of_nil.
      repeat split; try apply NoDup_nil_2; lia.
  - apply Forall_app. split.
    + eapply Forall_impl; [apply (ok_open m Hok)|]. intros x Hx. apply Ho. by right.
    + apply list.Forall_forall. intros x Hx. apply Ho. by left.
  - unfold new_pipes. rewrite !pipe_next by (try apply pipe_result; done). pose proof (ok_next m Hok). lia.
  - intros x Hx. apply Ho in Hx. unfold new_pipes. rewrite !pipe_next by (try apply pipe_result; done).
    destruct Hx as [Hx|Hx]; [apply Hfc in Hx|apply (ok_known m Hok) in Hx]; [|lia].
    pose proof (ok_next m Hok). lia.
Qed.

Lemma wp_register m :
  monitor_ok m -> monitor_thread_running m = true ->
  num_monitor_connections m < MAX_MONITOR_CONNECTIONS -> pipe_results (io m) = [] ->
  let c := new_connection (io m) in
  wp register_with_monitor_thread (fun r m' =>
    r = (1, Some ((server_to_monitor_fds c).2, (monitor_to_server_fds c).1)) /\ registered m c m') m.
Proof.
  intros [Hok Hx] Hrun Hn Hp c. pose proof (ok_num m Hok) as Hr. pose proof (ok_length m Hok) as Hl.
  destruct (lookup_lt_is_Some_2 (connections m) (Z.to_nat (num_monitor_connections m))) as [k Hk]; [lia|].
  unfold register_with_monitor_thread. wp_pure. wp_pure. rewrite Hrun. cbn [negb]. wp_pure. wp_pure.
  destruct (Z.leb_spec MAX_MONITOR_CONNECTIONS (num_monitor_connections m)); [lia|].
  wp_pure. apply wp_lock_pipes; [done|]. wp_pure. apply wp_make_pipe; [done|]. cbn iota.
  wp_pure. eapply wp_connection; [lia|exact Hk|]. wp_pure. wp_pure. wp_pure.
  apply wp_make_pipe; [by apply pipe_result|]. cbn iota.
  wp_pure. wp_pure. wp_pure. wp_pure. wp_pure. unfold unlock_pipes. wp_pure. wp_pure.
  set (m' := set_pipes_mutex false _).
  assert (m' = set_connections (num_monitor_connections m + 1)
    (<[Z.to_nat (num_monitor_connections m) := c]> (connections m)) (set_io (new_pipes (io m)) m)) as ->.
  { unfold m', set_pipes_mutex, set_connection, set_connections, set_io. cbn.
    rewrite !list_insert_insert_eq, pipe_next, Hx by done. unfold c, new_connection, new_pipes.
    by replace (next_fd (io m) + 2 + 1) with (next_fd (io m) + 3) by lia. }
  destruct (new_conn_ok m c Hok Hp Hn eq_refl) as [Hok' Ha]. split.
  - cbn. by rewrite pipe_next.
  - split; [by split|]. split; [done|]. split; [by split; cbn; lia|].
    assert (forall x, queue x (new_pipes (io m)) =
      if bool_decide (x = next_fd (io m) + 2) then []
      else if bool_decide (x = next_fd (io m)) then [] else queue x (io m)) as Hq.
    { intros x. unfold new_pipes. by rewrite !pipe_queue, pipe_next by (try apply pipe_result; done). }
    split; [by do 2 apply pipe_result|].
    unfold command_fd. cbn. rewrite !Hq. split; [by rewrite bool_decide_false, bool_decide_true by lia|].
    split; [by rewrite bool_decide_true by done|]. split; [|done]. intros k' x Hk' Hx'. rewrite Hq.
    assert (x < next_fd (io m)) as Hlt; [|by rewrite !bool_decide_false by lia].
    apply list_elem_of_lookup in Hk' as (i & Hi). by apply (ok_known m Hok), (active_open m i k').
Qed.

(** There is no connection when the thread does not run or has as many as it can. *)
Lemma wp_register_refused m :
  monitor_thread_running m = false \/ num_monitor_connections m = MAX_MONITOR_CONNECTIONS ->
  register_with_monitor_thread m = Ok ((0, None), m).
Proof.
  intros Hm. unfold register_with_monitor_thread, mbind, M_bind, gets. cbn.
  destruct Hm as [-> | E]; [done|]. destruct (monitor_thread_running m); [|done]. cbn.
  by rewrite E.
Qed.

(** When a pipe cannot be made the lock is kept. *)
Lemma register_keeps_lock m rest :
  monitor_ok m -> monitor_thread_running m = true ->
  num_monitor_connections m < MAX_MONITOR_CONNECTIONS ->
  pipe_results (io m) = false :: rest \/ pipe_results (io m) = true :: false :: rest ->
  wp register_with_monitor_thread (fun r m' => r = (0, None) /\ pipes_mutex m' = true
    /\ num_monitor_connections m' = num_monitor_connections m) m.
Proof.
  intros [Hok Hx] Hrun Hn Hp. pose proof (ok_num m Hok) as Hr. pose proof (ok_length m Hok) as Hl.
  destruct (lookup_lt_is_Some_2 (connections m) (Z.to_nat (num_monitor_connections m))) as [k Hk]; [lia|].
  unfold register_with_monitor_thread. wp_pure. wp_pure. rewrite Hrun. cbn [negb]. wp_pure. wp_pure.
  destruct (Z.leb_spec MAX_MONITOR_CONNECTIONS (num_monitor_connections m)); [lia|].
  wp_pure. apply wp_lock_pipes; [done|]. wp_pure. destruct Hp as [Hp|Hp].
  - eexists _, _. split; [unfold make_pipe, pipe; cbn; by rewrite ?Hp|]. cbn iota. by wp_pure.
  - eexists _, _. split; [unfold make_pipe, pipe; cbn; by rewrite ?Hp|]. cbn iota.
    wp_pure. eapply wp_connection; [lia|exact Hk|]. wp_pure. wp_pure. wp_pure.
    eexists _, _. split; [unfold make_pipe, pipe; cbn; by rewrite ?Hp|]. cbn iota. by wp_pure.
Qed.

(** ** A connection that goes *)

(** The array of the connections after the [i]-th has been taken out: the last one takes
    its place. *)
Definition without (i : nat) (cs : list fdstruct_t) : list fdstruct_t :=
  take (pred (length cs)) (match last cs with Some l => <[i := l]> cs | None => cs end).

Lemma without_perm i cs c : cs !! i = Some c -> cs ≡ₚ c :: without i cs.
Proof.
  intros Hi. unfold without. destruct (last cs) as [l|] eqn:El; [|by rewrite last_None in El; subst cs].
  apply last_Some in El as [cs' ->]. rewrite length_app. cbn [length].
  replace (pred (length cs' + 1)) with (length cs') by lia.
  destruct (decide (i < length cs')%nat) as [Hlt|Hge].
  - rewrite lookup_app_l in Hi by done. rewrite insert_app_l, take_app_length' by (try done; by rewrite length_insert).
    rewrite (Permutation_app_comm cs' [l]). cbn.
    rewrite <- (list_insert_id cs' i c Hi) at 1.
    rewrite (insert_take_drop cs' i c), (insert_take_drop cs' i l) by done.
    rewrite <- !Permutation_middle. apply perm_swap.
  - assert (i = length cs') as ->.
    { apply lookup_lt_Some in Hi. rewrite length_app in Hi. cbn in Hi. lia. }
    rewrite list_lookup_middle in Hi by done. injection Hi as ->.
    rewrite insert_app_r_alt, Nat.sub_diag by done. cbn. rewrite take_app_length.
    by rewrite (Permutation_app_comm cs' [c]).
Qed.

(** The descriptors a server has of its connection. *)
Definition server_fds (c : fdstruct_t) : Z * Z := ((server_to_monitor_fds c).2, (monitor_to_server_fds c).1).

Lemma is_connection_iff c k : is_connection (server_fds c) k = true <-> server_fds k = server_fds c.
Proof.
  unfold is_connection, server_fds. cbn. rewrite andb_true_iff, !Z.eqb_eq. split.
  - by intros [-> ->].
  - by intros [= -> ->].
Qed.

Lemma find_connection_at m i c : conn_ok m -> active m !! i = Some c ->
  find_connection (server_fds c) m = Some (Z.of_nat i).
Proof.
  intros Hok Hi. pose proof (active_length m Hok) as Hl. pose proof (lookup_lt_Some _ _ _ Hi) as Hlt.
  unfold find_connection. apply (for_return_first _ (Z.of_nat i)); [lia| |].
  - rewrite Nat2Z.id. destruct (active_lookup m (Z.of_nat i) Hok) as (k & Hk & Hak); [lia|].
    rewrite Nat2Z.id in *. rewrite Hi in Hak. injection Hak as <-. rewrite Hk.
    by rewrite (proj2 (is_connection_iff c c) eq_refl).
  - intros j Hj. destruct (active_lookup m j Hok) as (k & -> & Hak); [lia|].
    destruct (is_connection (server_fds c) k) eqn:E; [|done]. apply is_connection_iff in E.
    assert (Z.to_nat j = i); [|lia]. eapply (fds_disjoint m _ _ k c); [done..| |].
    + apply listener_fds.
    + injection E as _ ->. apply listener_fds.
Qed.

Definition closed (c : fdstruct_t) (p : pipes) : pipes :=
  fd_close (monitor_to_server_fds c).2 (fd_close (monitor_to_server_fds c).1
    (fd_close (server_to_monitor_fds c).2 (fd_close (server_to_monitor_fds c).1 p))).

Lemma closed_open c p x : x ∈ open_fds (closed c p) <-> x ∈ open_fds p /\ x ∉ fds c.
Proof.
  unfold closed, fd_close, fds. cbn. rewrite !elem_of_difference, !elem_of_cons, !elem_of_singleton, elem_of_nil.
  tauto.
Qed.

(** The connection is taken away, and its pipes are closed. *)
Definition unregistered m c m' : Prop :=
  monitor_ok m' /\ active m ≡ₚ c :: active m' /\ (forall x, x ∈ fds c -> x ∉ open_fds (io m'))
  /\ (forall x, queue x (io m') = queue x (io m)) /\ pipe_results (io m') = pipe_results (io m)
  /\ unit_of m' = unit_of m /\ target_is_running m' = target_is_running m.

Lemma conn_ok_without m m' c :
  conn_ok m -> active m ≡ₚ c :: active m' -> io m' = closed c (io m) ->
  num_monitor_connections m' = num_monitor_connections m - 1 ->
  length (connections m') = length (connections m) -> conn_ok m'.
Proof.
  intros Hok Hp Hio Hn Hlen. pose proof (all_fds_perm _ _ Hp) as Hfd.
  assert (all_fds (c :: active m') = fds c ++ all_fds (active m')) as E by done. rewrite E in Hfd.
  pose proof (ok_num m Hok) as Hr. pose proof (active_length m Hok) as Hl.
  apply Permutation_length in Hp as Hpl. cbn [length] in Hpl.
  pose proof (ok_distinct m Hok) as Hd. fold (all_fds (active m)) in Hd. rewrite Hfd in Hd.
  apply NoDup_app in Hd as (_ & Hdis & Hd).
  pose proof (ok_open m Hok) as Ho. fold (all_fds (active m)) in Ho. rewrite Hfd, Forall_app in Ho.
  split; try done.
  - rewrite Hn. lia.
  - rewrite Hlen. apply (ok_length m Hok).
  - pose proof (ok_pipes m Hok) as H2. rewrite Hp in H2. by inversion H2.
  - apply Forall_forall. intros x Hx. rewrite Hio, closed_open. destruct Ho as [_ Ho].
    rewrite Forall_forall in Ho. split; [by apply Ho|]. intros Hc. by apply (Hdis x).
  - rewrite Hio. apply (ok_next m Hok).
  - intros x. rewrite Hio, closed_open. intros [Hx _]. by apply (ok_known m Hok) in Hx.
Qed.

Lemma active_without m i arr :
  conn_ok m -> 0 <= i < num_monitor_connections m ->
  (forall last, connections m !! Z.to_nat (num_monitor_connections m - 1) = Some last ->
    arr = if i =? num_monitor_connections m - 1 then connections m
          else <[Z.to_nat i := last]> (connections m)) ->
  take (Z.to_nat (num_monitor_connections m - 1)) arr = without (Z.to_nat i) (active m).
Proof.
  intros Hok Hi Harr. pose proof (ok_num m Hok) as Hr. pose proof (ok_length m Hok) as Hl.
  pose proof (active_length m Hok) as Hal.
  destruct (active_lookup m (num_monitor_connections m - 1) Hok) as (l & Hk & Hak); [lia|].
  rewrite (Harr l Hk). unfold without.
  rewrite last_lookup. replace (pred (length (active m))) with (Z.to_nat (num_monitor_connections m - 1)) by lia.
  rewrite Hak. unfold active. destruct (Z.eqb_spec i (num_monitor_connections m - 1)) as [->|Hne].
  - rewrite take_insert_ge by lia. rewrite take_take. f_equal. lia.
  - rewrite !take_insert_lt by lia. rewrite take_take. f_equal. f_equal. lia.
Qed.

Lemma unregistered_state m i c arr :
  monitor_ok m -> active m !! i = Some c ->
  (forall last, connections m !! Z.to_nat (num_monitor_connections m - 1) = Some last ->
    arr = if Z.of_nat i =? num_monitor_connections m - 1 then connections m else <[i := last]> (connections m)) ->
  unregistered m c (set_pipes_mutex false (set_connections (num_monitor_connections m - 1) arr
    (set_io (closed c (io m)) (set_pipes_mutex true m)))).
Proof.
  intros [Hok Hx] Hi Harr. pose proof (active_length m Hok) as Hl.
  pose proof (lookup_lt_Some _ _ _ Hi) as Hlt. set (m' := set_pipes_mutex false _).
  assert (active m ≡ₚ c :: active m') as Hp.
  { unfold active at 2. cbn. rewrite (active_without m (Z.of_nat i) arr) by (rewrite ?Nat2Z.id; done || lia).
    rewrite Nat2Z.id. by apply without_perm. }
  assert (length arr = length (connections m)) as Hlen.
  { destruct (active_lookup m (num_monitor_connections m - 1) Hok) as (l & Hkl & _); [lia|].
    rewrite (Harr l Hkl). destruct (_ =? _); [done|]. by rewrite length_insert. }
  split; [split; [by apply (conn_ok_without m m' c)|done]|]. split; [done|]. split; [|done].
  intros x Hc Hopen. by apply closed_open in Hopen as [_ ?].
Qed.

Lemma wp_unregister m i c :
  monitor_ok m -> active m !! i = Some c ->
  wp (unregister_with_monitor_thread (server_fds c))
    (fun r m' => r = (-1, -1) /\ unregistered m c m') m.
Proof.
  intros [Hok Hx] Hi. pose proof (active_length m Hok) as Hl. pose proof (ok_num m Hok) as Hr.
  pose proof (lookup_lt_Some _ _ _ Hi) as Hlt. pose proof (active_two_pipes m i c Hok Hi) as [E1 E2].
  assert (forall x, x ∈ fds c -> 0 <= x) as Hpos.
  { intros x Hc. by apply (ok_known m Hok), (active_open m i c). }
  unfold unregister_with_monitor_thread. unfold server_fds at 1 2. cbn [fst snd].
  destruct (Z.ltb_spec (server_to_monitor_fds c).2 0) as [Hneg|_].
  { exfalso. revert Hneg. apply Z.le_ngt, Hpos. unfold fds. rewrite !elem_of_cons. auto. }
  destruct (Z.ltb_spec (monitor_to_server_fds c).1 0) as [Hneg|_].
  { exfalso. revert Hneg. apply Z.le_ngt, Hpos, listener_fds. }
  cbn [orb]. wp_pure. apply wp_lock_pipes; [done|]. wp_pure. wp_pure.
  replace (find_connection (server_fds c) (set_pipes_mutex true m)) with (Some (Z.of_nat i))
    by (symmetry; exact (find_connection_at m i c Hok Hi)).
  destruct (active_lookup m (Z.of_nat i) Hok) as (k & Hk & Hak); [lia|].
  rewrite Nat2Z.id in Hak. rewrite Hi in Hak. injection Hak as <-.
  wp_pure. eapply wp_connection; [lia|exact Hk|]. do 8 (wp_pure; unfold close_fd).
  destruct (active_lookup m (num_monitor_connections m - 1) Hok) as (l & Hkl & _); [lia|].
  wp_pure. wp_pure. wp_pure. eapply wp_connection; [cbn; lia|exact Hkl|].
  match goal with |- wp _ _ ?s => change s with (set_io (closed c (io m)) (set_pipes_mutex true m)) end.
  cbn [num_monitor_connections set_io set_pipes_mutex].
  destruct (Z.of_nat i =? num_monitor_connections m - 1) eqn:E; cbn [negb];
    do 4 wp_pure; unfold unlock_pipes; do 4 (try wp_pure); (split; [done|]).
  - apply (unregistered_state m i c); [done|done|]. intros ? _. by rewrite E.
  - unfold set_connection. rewrite Nat2Z.id. apply (unregistered_state m i c); [done|done|].
    intros l' Hl'. rewrite E. rewrite Hkl in Hl'. by injection Hl' as ->.
Qed.

(** Descriptors that are not those of a connection, like the -1 a server has after it has
    closed its own, change nothing. *)
Lemma wp_unregister_unknown m fds :
  monitor_ok m -> fds ∉ map server_fds (active m) ->
  unregister_with_monitor_thread fds m = Ok (fds, m).
Proof.
  intros [Hok Hx] Hf. unfold unregister_with_monitor_thread. destruct (_ || _); [done|].
  unfold mbind, M_bind, lock_pipes. rewrite Hx. unfold gets. cbn.
  assert (find_connection fds (set_pipes_mutex true m) = None) as ->; [|by destruct m; cbn in *; subst].
  apply for_return_none. intros j Hj. cbn in *.
  destruct (active_lookup m j Hok Hj) as (k & -> & Hk). destruct (is_connection fds k) eqn:E; [|done].
  destruct Hf. change (map ?f ?l) with (f <$> l). apply list_elem_of_fmap. exists k.
  split; [|by eapply list_elem_of_lookup_2]. unfold is_connection in E.
  apply andb_true_iff in E as [E1%Z.eqb_eq E2%Z.eqb_eq]. destruct fds. cbn in *. by subst.
Qed.

(** ** Everything that happens *)

(** Servers register, write commands, read events and go; the target may stop at any time;
    the thread passes through its loop. *)
Inductive monitor_step m : hwmon D -> Prop :=
| step_register r m' : register_with_monitor_thread m = Ok (r, m') -> monitor_step m m'
| step_unregister fds r m' : unregister_with_monitor_thread fds m = Ok (r, m') -> monitor_step m m'
| step_command k cmd : k ∈ active m ->
    monitor_step m (set_io (fd_write (server_fds k).1 cmd (io m)) m)
| step_event k e p : k ∈ active m -> fd_read (server_fds k).2 (io m) = Ok (Some e, p) ->
    monitor_step m (set_io p m)
| step_target d : monitor_step m (set_unit d m)
| step_pass m' : target_handler (select m) m = Ok (tt, m') -> monitor_step m m'.

(** Nobody is changing the connections, and pipes can be made. *)
Definition idle m : Prop := monitor_ok m /\ pipe_results (io m) = [].

Lemma idle_same m m' : idle m ->
  num_monitor_connections m' = num_monitor_connections m -> connections m' = connections m ->
  pipes_mutex m' = pipes_mutex m -> same_pipes (io m) (io m') -> idle m'.
Proof.
  intros [[Hok Hx] Hr] E1 E2 E3 Hp. split; [split; [by apply (conn_ok_same m)|by rewrite E3]|].
  destruct Hp as (_ & _ & ->). done.
Qed.

Lemma idle_register m r m' : idle m -> register_with_monitor_thread m = Ok (r, m') -> idle m'.
Proof.
  intros [Hm Hr] E. destruct (decide (monitor_thread_running m = true /\
    num_monitor_connections m < MAX_MONITOR_CONNECTIONS)) as [[H1 H2]|Hno].
  - apply (wp_inv _ _ _ _ _ (wp_register m Hm H1 H2 Hr)) in E as (_ & Hreg).
    split; apply Hreg.
  - rewrite wp_register_refused in E; [by injection E as _ <-|].
    destruct (monitor_thread_running m); [right|by left]. destruct Hm as [Hok _].
    pose proof (ok_num m Hok). destruct (Z.lt_ge_cases (num_monitor_connections m) MAX_MONITOR_CONNECTIONS);
      [by destruct Hno|lia].
Qed.

Lemma idle_unregister m fds r m' : idle m -> unregister_with_monitor_thread fds m = Ok (r, m') -> idle m'.
Proof.
  intros [Hm Hr] E. destruct (decide (fds ∈ map server_fds (active m))) as [Hin|Hno].
  - change (map ?f ?l) with (f <$> l) in Hin.
    apply list_elem_of_fmap in Hin as (c & -> & (i & Hi)%list_elem_of_lookup).
    apply (wp_inv _ _ _ _ _ (wp_unregister m i c Hm Hi)) in E as (_ & Hu).
    split; [apply Hu|]. destruct Hu as (_ & _ & _ & _ & -> & _). done.
  - rewrite wp_unregister_unknown in E by done. by injection E as _ <-.
Qed.

Lemma idle_pass m m' : idle m -> target_handler (select m) m = Ok (tt, m') -> idle m'.
Proof.
  intros [Hm Hr] E. split; [by apply (wp_inv _ _ _ _ _ (wp_target_handler_ok m Hm) E)|].
  apply (wp_inv _ _ _ _ _ (wp_target_handler m Hm)) in E as [[_ A]|[_ A]];
    by rewrite (after_results _ _ _ _ A).
Qed.

Lemma idle_step m m' : idle m -> monitor_step m m' -> idle m'.
Proof.
  intros Hm [r m1 E|fds r m1 E|k cmd Hk|k e p Hk E|d|m1 E].
  - by eapply idle_register.
  - by eapply idle_unregister.
  - apply (idle_same m); try done. apply same_write.
  - apply (idle_same m); try done. cbn. revert E. unfold fd_read.
    case_bool_decide; [|done]. destruct (queue _ _); [by case_bool_decide|]. by intros [= _ <-].
  - by apply (idle_same m).
  - by eapply idle_pass.
Qed.

(** After the thread has been started. *)
Definition started (d : D) : hwmon D :=
  set_monitor_thread_running true (set_target_is_running true (initial_hwmon [] d)).

Lemma idle_started d : idle (started d).
Proof.
  split; [split; [|done]|done]. split; try done.
  - apply NoDup_nil_2.
  - intros fd. cbn. rewrite !elem_of_union, !elem_of_singleton. lia.
Qed.
End connections.
