(* ===== verification/RspRequests.v ===== *)
(** A session: requests of the client served one after the other, each acknowledged
    and answered; what each request of GDB makes of the target. *)

From Stdlib Require Import String Ascii.
From S2P Require Import Prelude Scanf StateM Tap Cable Chain AdvDbg RspData RspCodec.
From S2P Require Import DebugUnit HwMonitor Rsp RspFacts RspPacket RspCmds RspCmdFacts.
From stdpp Require Import gmap list.

Open Scope Z_scope.
Open Scope cword_scope.

Section session.
Context `{Target, Alloc, Unspecified} {D : Type} `{DebugUnit D}.
Implicit Types w : world D.

(** A client is connected, and the target is stopped. *)
Definition session w : Prop := connected w /\ buf_wf (rsp w) /\ target_running (rsp w) = false.

(** What a request may change besides what a session is about. *)
Definition same_session w w' : Prop :=
  gdb w' = gdb w /\ client_fd (rsp w') = client_fd (rsp w) /\ buf_wf (rsp w') = buf_wf (rsp w)
  /\ target_running (rsp w') = target_running (rsp w).

Lemma session_hears r s w w' : session w -> hears r s w w' -> session w'.
Proof.
  intros (Hc & Hb & Hrun) T. split; [by apply (hears_connected _ _ _ _ T)|].
  destruct T as (_ & E & Hb'). split; [by apply Hb'|]. unfold same_but_buf in E. by rewrite E.
Qed.

Lemma session_same w w' : session w -> same_session w w' -> session w'.
Proof.
  intros ([Hc Hw] & Hb & Hrun) (Eg & Ef & Eb & Er). split; [|by rewrite Eb, Er].
  split; [by rewrite Ef|by rewrite Eg].
Qed.

(** The characters of a request and of the acknowledgment of its reply. *)
Definition exchange (data : list Z) : list Z := frame data ++ [43].

(** The reply to a request, after its acknowledgment. *)
Definition reply (data : list Z) : list Z := 43 :: frame data.

(** What [w] and [w'] have to do with each other when a request has been served: [w1] is
    the world with the request in the buffer, [w2] the one before the reply is sent. *)
Definition served (R : world D -> world D -> Prop) (answer : list Z) w w' : Prop :=
  exists r1 r2 w1 w2, hears r1 [43] w w1 /\ same_session w1 w2 /\ R w1 w2
    /\ hears r2 (frame answer) w2 w' /\ reads (gdb w) = r1 ++ r2 ++ reads (gdb w').

Lemma served_session R answer w w' : session w -> served R answer w w' -> session w'.
Proof.
  intros Hs (r1 & r2 & w1 & w2 & T1 & Hw & _ & T2 & _). eapply session_hears; [|exact T2].
  eapply session_same; [|exact Hw]. by eapply session_hears.
Qed.

Lemma served_sent R answer w w' : served R answer w w' -> sent (gdb w') = sent (gdb w) ++ reply answer.
Proof.
  intros (r1 & r2 & w1 & w2 & (T1 & _) & (Eg & _) & _ & (T2 & _) & _).
  rewrite (talks_sent _ _ _ _ T2). change (gdb (upd_rsp (fun _ => rsp w') w2)) with (gdb w2).
  rewrite Eg, (talks_sent _ _ _ _ T1), <- app_assoc. done.
Qed.

Lemma wp_request R answer data c s rs rest w :
  session w -> escape data = c :: s -> Z.of_nat (length (escape data)) < GDB_BUF_MAX - 1 ->
  delivers (exchange data) rs -> reads (gdb w) = rs ++ rest ->
  (forall w1 r2, session w1 -> requested (escape data) w1 -> delivers [43] r2 ->
     reads (gdb w1) = r2 ++ rest -> hm w1 = hm w -> hwp_in_use w1 = hwp_in_use w ->
     same_but_buf (rsp w) (rsp w1) ->
     wp (request_stopped c) (fun _ w' => exists w2, same_session w1 w2 /\ R w1 w2
       /\ hears r2 (frame answer) w2 w') w1) ->
  wp rsp_client_request (fun _ w' => served R answer w w' /\ reads (gdb w') = rest) w.
Proof.
  intros (Hc & Hb & Hrun) He Hl Hd Hr HQ. unfold exchange in Hd.
  apply delivers_app_inv in Hd as (r1 & r2 & -> & Hd1 & Hd2). rewrite <- app_assoc in Hr.
  eapply (wp_client_packet data c s r1 (r2 ++ rest)); try done.
  intros w1 T1 Hc1 Hb1 Hreq Hr1. pose proof T1 as (T & E & _).
  assert (session w1) as Hs1 by (eapply session_hears; [|exact T1]; by repeat split; try apply Hc).
  eapply wp_mono.
  { apply (HQ w1 r2); try done.
    - by rewrite (talks_hm _ _ _ _ T).
    - by rewrite (talks_hwp _ _ _ _ T). }
  intros ? w' (w2 & Hw & HR & T2).
  assert (reads (gdb w') = rest) as Hr'.
  { apply (hears_rest _ _ _ _ _ T2). destruct Hw as [-> _]. done. }
  split; [|done]. exists r1, r2, w1, w2. repeat split; try done; try apply Hw; try apply T1; try apply T2.
  by rewrite Hr'.
Qed.

(** As many requests as there are. *)
Fixpoint serve (n : nat) : M (world D) unit :=
  match n with
  | O => mret tt
  | S n => rsp_client_request;; serve n
  end.
End session.

(** * Requests of a session *)

Section requests.
Context `{Target, Alloc, Unspecified} {D : Type} `{DebugUnit D}.
Implicit Types w : world D.

(** [w'] goes on with a session in which [answer] has been said. *)
Definition said (answer : list Z) (rest : list read_result) w w' : Prop :=
  session w' /\ sent (gdb w') = sent (gdb w) ++ reply answer /\ reads (gdb w') = rest.

Lemma served_said R answer w w' rest :
  session w -> served R answer w w' -> reads (gdb w') = rest -> said answer rest w w'.
Proof.
  intros Hs Hsv Hr. split; [by eapply served_session|]. split; [by eapply served_sent|done].
Qed.

(** What is asked, and how it reaches the server. *)
Definition asked (data : list Z) (rs rest : list read_result) w : Prop :=
  Z.of_nat (length (escape data)) < GDB_BUF_MAX - 1
  /\ delivers (exchange data) rs /\ reads (gdb w) = rs ++ rest.

Lemma session_refl w : same_session w w.
Proof. done. Qed.

Lemma plain_asked s rs rest w :
  plain_text s -> Z.of_nat (length s) < GDB_BUF_MAX - 1 -> delivers (exchange s) rs ->
  reads (gdb w) = rs ++ rest -> asked s rs rest w.
Proof. intros Hs Hl Hd Hr. split; [by rewrite plain_escape|done]. Qed.

(** A handler that answers, for a request in plain text; [R] is what it does before. *)
Lemma wp_plain_request R answer c s rs rest w :
  session w -> asked (c :: s) rs rest w -> plain_text (c :: s) ->
  (forall w1 r2, session w1 -> requested (c :: s) w1 -> delivers [43] r2 ->
     reads (gdb w1) = r2 ++ rest -> hm w1 = hm w -> hwp_in_use w1 = hwp_in_use w ->
     same_but_buf (rsp w) (rsp w1) ->
     wp (request_stopped c) (fun _ w' => exists w2, same_session w1 w2 /\ R w1 w2
       /\ hears r2 (frame answer) w2 w') w1) ->
  wp rsp_client_request (fun _ w' => served R answer w w' /\ reads (gdb w') = rest) w.
Proof.
  intros Hs (Hl & Hd & Hr) Hp HQ. apply (wp_request R answer (c :: s) c s rs rest); try done.
  - by apply plain_escape.
  - intros w1 r2 ? Hreq. rewrite (plain_escape _ Hp) in Hreq. by apply HQ.
Qed.

Context `{!DebugLaws D} (malloc_all : forall n, malloc_ok n = true) (long : 4 <= long_size).

(** ** Registers *)

Definition read_reg_text (ds : list Z) : list Z := 112 :: ds.
Definition write_reg_text (ds : list Z) (v : Z) : list Z := 80 :: ds ++ 61 :: reg2hex v.

(** The registers and the memory as they were. *)
Definition same_target w w' : Prop :=
  (forall n, gdb_register n w' = gdb_register n w) /\ target w' = target w.

Lemma same_target_hears r s w w' : hears r s w w' -> same_target w w'.
Proof.
  intros T. split; [intros n; by eapply gdb_register_hears|by eapply target_hears].
Qed.

Lemma same_target_eq w w' : hm w' = hm w -> rsp w' = rsp w -> same_target w w'.
Proof. intros E1 E2. unfold same_target, gdb_register, target. by rewrite E1, E2. Qed.

Lemma same_target_trans w1 w2 w3 : same_target w1 w2 -> same_target w2 w3 -> same_target w1 w3.
Proof. intros [E1 E2] [E3 E4]. split; [intros n; by rewrite E3|by rewrite E4]. Qed.

Lemma request_read_reg ds n rs rest w :
  session w -> gdb_number ds n -> 0 <= n < NUM_REGS -> asked (read_reg_text ds) rs rest w ->
  wp rsp_client_request (fun _ w' => said (reg2hex (gdb_register n w)) rest w w' /\ same_target w w') w.
Proof.
  intros Hs Hd Hn Hask.
  pose proof (reg_request_plain 112 ds n [] ltac:(done) Hd ltac:(constructor)) as Hp. rewrite app_nil_r in Hp.
  eapply wp_mono.
  { apply (wp_plain_request eq (reg2hex (gdb_register n w)) 112 ds rs rest); try done.
    intros w1 r2 Hs1 Hreq Hr2 Hr Hhm _ E. cbn [request_stopped switch Z.eqb Pos.eqb].
    pose proof Hs1 as (Hc1 & Hb1 & _).
    eapply wp_mono; [by eapply (wp_read_reg ds n r2 rest)|]. intros ? w' T.
    exists w1. split; [done|]. split; [done|].
    assert (gdb_register n w1 = gdb_register n w) as <-; [|done].
    unfold gdb_register, target. rewrite Hhm. unfold same_but_buf in E. by rewrite E. }
  intros ? w' [Hsv Hr]. split; [by eapply served_said|].
  destruct Hsv as (r1 & r2 & w1 & w2 & T1 & _ & <- & T2 & _).
  eapply same_target_trans; by eapply same_target_hears.
Qed.

Lemma request_write_reg ds n v rs rest w :
  session w -> gdb_number ds n -> 0 <= n < NUM_REGS -> is_u32 v -> asked (write_reg_text ds v) rs rest w ->
  wp rsp_client_request (fun _ w' => said (bytes "OK") rest w w' /\ register_written n v w w') w.
Proof.
  intros Hs Hd Hn Hv Hask.
  assert (plain_text (write_reg_text ds v)) as Hp.
  { apply (reg_request_plain 80 ds n); [done|done|]. constructor; [done|].
    apply digits_plain, digits_reg2hex. }
  eapply wp_mono.
  { apply (wp_plain_request (register_written n v) (bytes "OK") 80 (ds ++ 61 :: reg2hex v) rs rest); try done.
    intros w1 r2 Hs1 Hreq Hr2 Hr Hhm _ E. cbn [request_stopped switch Z.eqb Pos.eqb].
    pose proof Hs1 as (Hc1 & Hb1 & _).
    eapply wp_mono; [by eapply (wp_write_reg ltac:(exact long) ds n v r2 rest)|].
    intros ? w' (w2 & Eg & Er & Hw & T). exists w2. split; [|by split].
    destruct Er as [Er|Er]; unfold same_session, buf_wf; by rewrite Er. }
  intros ? w' [Hsv Hr]. split; [by eapply served_said|].
  destruct Hsv as (r1 & r2 & w1 & w2 & T1 & _ & Hw & T2 & _).
  eapply register_written_hears; [|exact T2]. destruct Hw as (Hg & Hm & Hst).
  destruct (same_target_hears _ _ _ _ T1) as [E1 E2]. unfold register_written. rewrite <- E2.
  split; [|by split]. intros m Hmr. by rewrite Hg, E1.
Qed.

(** ** Memory *)

Definition read_mem_text (ads lds : list Z) : list Z := 109 :: ads ++ 44 :: lds.
(** Data in hexadecimal, or as they are. *)
Definition write_mem_text (binary : bool) (ads lds data : list Z) : list Z :=
  (if binary then 88 else 77) :: ads ++ 44 :: lds ++ 58 :: if binary then data else ascii2hex data.

Lemma request_read_mem ads addr lds len rs rest w :
  session w -> gdb_number ads addr -> gdb_number lds len -> 0 < len -> 2 * len < GDB_BUF_MAX ->
  addr + len <= 2 ^ 32 -> asked (read_mem_text ads lds) rs rest w ->
  wp rsp_client_request (fun _ w' =>
    said (ascii2hex (mem_read (mem (target w)) addr len)) rest w w' /\ same_target w w') w.
Proof.
  intros Hs Ha Hlen Hlen0 Hlen1 Hend Hask.
  pose proof (mem_request_plain 109 ads lds addr len ltac:(done) Ha Hlen) as Hp.
  eapply wp_mono.
  { apply (wp_plain_request eq (ascii2hex (mem_read (mem (target w)) addr len)) 109 (ads ++ 44 :: lds) rs rest);
      try done.
    intros w1 r2 Hs1 Hreq Hr2 Hr Hhm _ _. cbn [request_stopped switch Z.eqb Pos.eqb].
    pose proof Hs1 as (Hc1 & Hb1 & _).
    eapply wp_mono; [by eapply (wp_read_mem ltac:(exact malloc_all) ads addr lds len r2 rest)|].
    intros ? w' T. exists w1. split; [done|]. split; [done|].
    assert (target w1 = target w) as <-; [|done]. unfold target. by rewrite Hhm. }
  intros ? w' [Hsv Hr]. split; [by eapply served_said|].
  destruct Hsv as (r1 & r2 & w1 & w2 & T1 & _ & <- & T2 & _).
  eapply same_target_trans; by eapply same_target_hears.
Qed.

(** The bytes are in memory; registers and the rest of memory are as they were. *)
Definition memory_written (addr : Z) (data : list Z) w w' : Prop :=
  (forall n, 0 <= n < NUM_REGS -> gdb_register n w' = gdb_register n w)
  /\ (forall a, mem (target w') a = mem_write (mem (target w)) addr data a)
  /\ stalled (target w') = stalled (target w).

Lemma memory_written_stored addr data w w1 d r s w' :
  same_target w w1 -> stored addr data (target w1) d -> hears r s (set_target d w1) w' ->
  memory_written addr data w w'.
Proof.
  intros [E1 E2] (Hs & Hm & Hst) T. destruct (same_target_hears _ _ _ _ T) as [E3 E4].
  unfold memory_written. rewrite E4, <- E2. split; [|by split]. intros n Hn. rewrite E3, <- E1.
  unfold gdb_register. change (target (set_target d w1)) with d.
  change (rsp (set_target d w1)) with (rsp w1). by rewrite Hs.
Qed.

Lemma escape_app s t : escape (s ++ t) = escape s ++ escape t.
Proof. unfold escape. by rewrite map_app, concat_app. Qed.

Lemma escape_write_mem (binary : bool) ads addr lds data :
  gdb_number ads addr -> gdb_number lds (Z.of_nat (length data)) ->
  escape (write_mem_text binary ads lds data)
  = (if binary then 88 else 77) :: ads ++ 44 :: lds ++ 58 :: if binary then escape data else ascii2hex data.
Proof.
  intros Ha Hl. unfold write_mem_text.
  set (c := if binary then 88 else 77). assert (plain_char c) as Hc by (by destruct binary).
  pose proof (mem_request_plain c ads lds addr _ Hc Ha Hl) as Hp.
  assert (forall t, c :: ads ++ 44 :: lds ++ 58 :: t = (c :: ads ++ 44 :: lds) ++ [58] ++ t) as E
    by (intros t; simpl; by rewrite <- app_assoc).
  rewrite !E, !escape_app, (plain_escape _ Hp). f_equal. change (escape [58]) with [58].
  destruct binary; [done|]. by rewrite (plain_escape (ascii2hex data)) by apply digits_plain, digits_ascii2hex.
Qed.

Lemma request_write_mem (binary : bool) ads addr lds data rs rest w :
  session w -> gdb_number ads addr -> gdb_number lds (Z.of_nat (length data)) ->
  Forall is_u8 data -> data <> [] -> addr + Z.of_nat (length data) <= 2 ^ 32 ->
  asked (write_mem_text binary ads lds data) rs rest w ->
  wp rsp_client_request (fun _ w' =>
    said (bytes "OK") rest w w' /\ memory_written addr data w w') w.
Proof.
  intros Hs Ha Hl Hu Hne Hend (Hlen & Hd & Hr). pose proof (escape_write_mem binary ads addr lds data Ha Hl) as He.
  assert (Z.of_nat (length data) < GDB_BUF_MAX) as Hlen'.
  { rewrite He in Hlen. pose proof (length_escape data). pose proof (length_ascii2hex data).
    destruct binary; cbn [length] in Hlen; rewrite !length_app in Hlen; cbn [length] in Hlen;
      rewrite !length_app in Hlen; cbn [length] in Hlen; lia. }
  eapply wp_mono.
  { apply (wp_request (fun w1 w2 => exists d, stored addr data (target w1) d /\ w2 = set_target d w1)
      (bytes "OK") _ _ _ rs rest w Hs He Hlen Hd Hr).
    intros w1 r2 Hs1 Hreq Hr2 Hr1 _ _ _. rewrite He in Hreq. pose proof Hs1 as (Hc1 & Hb1 & _).
    assert (wp (request_stopped (if binary then 88 else 77)) (fun _ w' => exists d,
      stored addr data (target w1) d /\ hears r2 (frame (bytes "OK")) (set_target d w1) w') w1) as Hwp.
    { destruct binary; cbn [request_stopped switch Z.eqb Pos.eqb].
      - by eapply (wp_write_mem_bin ads addr lds data r2 rest).
      - by eapply (wp_write_mem ltac:(exact malloc_all) ads addr lds data r2 rest). }
    eapply wp_mono; [exact Hwp|]. intros ? w' (d & Hst & T). exists (set_target d w1).
    split; [done|]. split; [by exists d|done]. }
  intros ? w' [Hsv Hr']. split; [by eapply served_said|].
  destruct Hsv as (r1 & r2 & w1 & w2 & T1 & _ & (d & Hst & ->) & T2 & _).
  eapply memory_written_stored; [by eapply same_target_hears|exact Hst|exact T2].
Qed.

(** What has been written is read. *)
Lemma mem_read_write m addr data :
  mem_read (mem_write m addr data) addr (Z.of_nat (length data)) = data.
Proof.
  apply list_eq. intros i. unfold mem_read.
  change (map ?f ?l) with (f <$> l). rewrite list_lookup_fmap.
  destruct (decide (i < length data)%nat) as [Hi|Hi].
  - rewrite lookup_seqZ_lt by lia. cbn [fmap option_fmap option_map]. unfold mem_write.
    destruct (lookup_lt_is_Some_2 data i Hi) as [x Hx]. rewrite Hx.
    destruct (Z.leb_spec addr (addr + Z.of_nat i)), (Z.ltb_spec (addr + Z.of_nat i) (addr + Z.of_nat (length data)));
      try lia. cbn [andb]. by rewrite Z.add_simpl_l, Nat2Z.id, Hx.
  - rewrite lookup_seqZ_ge, (lookup_ge_None_2 data) by lia. done.
Qed.

Lemma mem_read_ext m m' addr len : (forall a, m' a = m a) -> mem_read m' addr len = mem_read m addr len.
Proof. intros E. unfold mem_read. by apply map_ext. Qed.

(** ** Breakpoints *)

(** A request that sets or removes a breakpoint in memory. *)
Definition breakpoint_text (set : bool) (ads : list Z) : list Z :=
  matchpoint_text (if set then 90 else 122) BP_MEMORY ads.

Lemma breakpoint_moved_from r s w0 w w' addr set :
  hears r s w0 w -> breakpoint_moved addr set w w' -> breakpoint_moved addr set w0 w'.
Proof.
  intros T. unfold breakpoint_moved, program_word, breakpoint.
  by rewrite (target_hears _ _ _ _ T), (hears_hash _ _ _ _ T).
Qed.

Lemma breakpoints_ok_hears r s w w' : hears r s w w' -> breakpoints_ok w -> breakpoints_ok w'.
Proof.
  intros T. unfold breakpoints_ok, breakpoint. by rewrite (target_hears _ _ _ _ T), (hears_hash _ _ _ _ T).
Qed.

Lemma request_breakpoint (set : bool) ads addr rs rest w :
  session w -> breakpoints_ok w -> gdb_number ads addr -> addr mod 4 = 0 ->
  asked (breakpoint_text set ads) rs rest w ->
  wp rsp_client_request (fun _ w' =>
    said (bytes "OK") rest w w' /\ breakpoints_ok w' /\ breakpoint_moved addr set w w') w.
Proof.
  intros Hs Hok Ha Ha4 Hask.
  assert (plain_text (breakpoint_text set ads)) as Hp.
  { apply (matchpoint_plain _ BP_MEMORY ads addr); [by destruct set|done|done]. }
  eapply wp_mono.
  { apply (wp_plain_request (fun w1 w2 => breakpoints_ok w1 -> breakpoints_ok w2 /\ breakpoint_moved addr set w1 w2)
      (bytes "OK") (if set then 90 else 122) (48 + BP_MEMORY :: 44 :: ads ++ [44; 52]) rs rest); try done.
    intros w1 r2 Hs1 Hreq Hr2 Hr Hhm _ E. pose proof Hs1 as (Hc1 & Hb1 & _).
    assert (breakpoints_ok w1) as Hok1.
    { revert Hok. unfold breakpoints_ok, breakpoint, target. rewrite Hhm. unfold same_but_buf in E. by rewrite E. }
    assert (request_stopped (if set then 90 else 122)
      = if set then rsp_insert_matchpoint else rsp_remove_matchpoint) as -> by (by destruct set).
    eapply wp_mono; [by eapply (wp_breakpoint_request ltac:(exact malloc_all) set ads addr r2 rest)|].
    intros ? w' (hash & d & Hok2 & Hmv & _ & T). eexists. split; [|split; [|exact T]]; done. }
  intros ? w' [Hsv Hr]. split; [by eapply served_said|].
  destruct Hsv as (r1 & r2 & w1 & w2 & T1 & _ & Hw & T2 & _).
  destruct Hw as [Hok2 Hmv]; [by eapply breakpoints_ok_hears|].
  eapply breakpoints_hears; [exact T2|done|]. by eapply breakpoint_moved_from.
Qed.

(** Many of them: whether it sets, the text and the value of the address, and the results
    of [read] with which it arrives. *)
Record bp_request := BpRequest {
  bp_set : bool; bp_digits : list Z; bp_addr : Z; bp_reads : list read_result
}.

Definition bp_request_ok (q : bp_request) : Prop :=
  gdb_number (bp_digits q) (bp_addr q) /\ bp_addr q mod 4 = 0
  /\ delivers (exchange (breakpoint_text (bp_set q) (bp_digits q))) (bp_reads q).

(** Whether there is a breakpoint at an address after the requests. *)
Definition bp_after (b : bool) (qs : list bp_request) (a : Z) : bool :=
  fold_left (fun b q => if bp_addr q =? a then bp_set q else b) qs b.

Definition has_breakpoint w (a : Z) : bool := bool_decide (is_Some (breakpoint w a)).

Lemma moved_has addr set w w' a : breakpoint_moved addr set w w' ->
  has_breakpoint w' a = if addr =? a then set else has_breakpoint w a.
Proof.
  intros (_ & Hother & Hsome & _). unfold has_breakpoint. destruct (Z.eqb_spec addr a) as [->|Hne].
  - destruct set; [by apply bool_decide_true, Hsome|apply bool_decide_false; by intros ?%Hsome].
  - by rewrite Hother.
Qed.

Lemma breakpoint_word w a : breakpoints_ok w -> has_breakpoint w a = true ->
  word_at (mem (target w)) a = OR1K_TRAP_INSTR.
Proof. intros [_ Hok] Hb%bool_decide_eq_true_1. destruct Hb as [i Hi]. by apply (Hok a i). Qed.

Lemma no_breakpoint_word w a : has_breakpoint w a = false ->
  word_at (mem (target w)) a = program_word w a.
Proof.
  intros Hb%bool_decide_eq_false_1. unfold program_word. destruct (breakpoint w a); [|done]. by destruct Hb.
Qed.

Lemma serve_breakpoints qs rest w :
  Forall bp_request_ok qs ->
  Forall (fun q => Z.of_nat (length (breakpoint_text (bp_set q) (bp_digits q))) < GDB_BUF_MAX - 1) qs ->
  session w -> breakpoints_ok w -> reads (gdb w) = concat (map bp_reads qs) ++ rest ->
  wp (serve (length qs)) (fun _ w' => session w' /\ breakpoints_ok w'
    /\ sent (gdb w') = sent (gdb w) ++ concat (replicate (length qs) (reply (bytes "OK")))
    /\ (forall a, has_breakpoint w' a = bp_after (has_breakpoint w a) qs a)
    /\ (forall a, a mod 4 = 0 -> program_word w' a = program_word w a)) w.
Proof.
  intros Hqs Hlen. revert w. induction Hqs as [|q qs (Ha & Ha4 & Hd) Hqs IH]; intros w Hs Hok Hr.
  - cbn [length serve]. wp_pure. split; [done|]. split; [done|]. split; [by rewrite app_nil_r|done].
  - inversion Hlen as [|? ? Hl Hls]; subst. cbn [length serve]. wp_pure. cbn [map concat] in Hr.
    rewrite <- app_assoc in Hr. eapply wp_mono.
    { apply (request_breakpoint (bp_set q) (bp_digits q) (bp_addr q) (bp_reads q)); try done.
      apply plain_asked; try done. eapply matchpoint_plain; [by destruct (bp_set q)|done|done]. }
    intros [] w1 ((Hs1 & Hsent & Hr1) & Hok1 & Hmv). eapply wp_mono; [by apply IH|].
    intros [] w2 (Hs2 & Hok2 & Hsent2 & Hb & Hp). split; [done|]. split; [done|]. split; [|split].
    + rewrite Hsent2, Hsent. cbn [replicate concat]. by rewrite app_assoc.
    + intros a. rewrite Hb. cbn [bp_after fold_left]. unfold bp_after. f_equal. by apply moved_has.
    + intros a Ha'. rewrite Hp by done. by apply (proj1 Hmv).
Qed.
End requests.
