(* ===== verification/RspRun.v ===== *)
(** Running and stopping the target: what the server and the monitor thread do together. *)

From Stdlib Require Import String Ascii.
From S2P Require Import Prelude Scanf StateM Tap Cable Chain AdvDbg RspData RspCodec.
From S2P Require Import DebugUnit HwMonitor Rsp RspFacts RspPacket RspCmds RspCmdFacts RspRequests.
From S2P Require Import RspServer MonitorFacts MonitorConn.
From stdpp Require Import gmap list.

Open Scope Z_scope.
Open Scope cword_scope.

Section run.
Context `{Target, Alloc, Unspecified} {D : Type} `{DebugUnit D} `{!DebugLaws D}.
Implicit Types w : world D.

(** ** The monitor's side *)

(** The connection [c] of the server is the [i]-th, and no server has commands waiting. *)
Record listening (i : nat) (c : fdstruct_t) w : Prop := Listening {
  listen_ok : monitor_ok (hm w);
  listen_active : active (hm w) !! i = Some c;
  listen_fds : pipe_fds (rsp w) = server_fds c;
  listen_quiet : forall k, k ∈ active (hm w) -> queue (command_fd k) (io (hm w)) = []
}.

(** A pass of the monitor thread. *)
Definition monitor_pass : M (world D) unit := on_hm (fun m => target_handler (select m) m).

Lemma wp_on_hm {A} (f : M (hwmon D) A) (Q : A -> world D -> Prop) w :
  wp f (fun a m => Q a (set_hm m w)) (hm w) -> wp (on_hm f) Q w.
Proof. intros (a & m & Hf & HQ). exists a, (set_hm m w). split; [|done]. unfold on_hm. by rewrite Hf. Qed.

Lemma wp_monitor_pass (Q : unit -> world D -> Prop) w :
  wp (target_handler (select (hm w))) (fun a m => Q a (set_hm m w)) (hm w) -> wp monitor_pass Q w.
Proof. intros HQ. by apply wp_on_hm. Qed.

Lemma quiet_readset (m : hwmon D) :
  (forall k, k ∈ active m -> queue (command_fd k) (io m) = []) -> readset m = ∅.
Proof.
  intros Hq. apply set_eq. intros fd. rewrite readset_spec. split; [|by intros ?%not_elem_of_empty].
  intros [Hin Hne]. change (map ?f ?l) with (f <$> l) in Hin.
  apply list_elem_of_fmap in Hin as (k & -> & Hk). by rewrite Hq in Hne.
Qed.

(** Nothing has been asked for: the target is polled. *)
Lemma wp_quiet_pass (Q : unit -> world D -> Prop) w :
  monitor_ok (hm w) -> (forall k, k ∈ active (hm w) -> queue (command_fd k) (io (hm w)) = []) ->
  (forall m, let '(running, stopped) := run_state (hm w) in
     state_after (running && negb stopped, stopped)
       (tell (if running && stopped then [72] else []) (hm w) (fun x => queue x (io (hm w)))) (hm w) m ->
     Q tt (set_hm m w)) ->
  wp monitor_pass Q w.
Proof.
  intros Hm Hq HQ. apply wp_monitor_pass. eapply wp_mono; [by apply wp_target_handler|].
  intros [] m [[Hne _]|[_ A]]; [by destruct Hne; apply quiet_readset|]. by apply HQ.
Qed.

(** The server writes a command. *)
Definition command_sent (cmd : Z) w : world D :=
  set_hm (set_io (fd_write (pipe_fds (rsp w)).1 cmd (io (hm w))) (hm w)) w.

Lemma wp_stall_state (stall : bool) w :
  wp (set_stall_state (b2z stall)) (fun _ w' => w' = command_sent (if stall then 83 else 85)
    (if stall then w else upd_rsp (set_use_cached_npc false) w)) w.
Proof. destruct stall; by eexists _, _. Qed.

Lemma command_sent_queue i c cmd w x :
  listening i c w ->
  queue x (io (hm (command_sent cmd w))) = if bool_decide (x = command_fd c) then queue x (io (hm w)) ++ [cmd]
                                           else queue x (io (hm w)).
Proof.
  intros [Hm Hi Hf _]. destruct Hm as [Hok _]. cbn. rewrite Hf. unfold server_fds. cbn [fst].
  pose proof (active_two_pipes _ _ _ Hok Hi) as [E _]. rewrite E.
  rewrite queue_write, Z.add_simpl_r; [done|]. split; rewrite ?Z.add_simpl_r.
  - eapply active_open; [done|exact Hi|]. unfold fds. rewrite <- E, !elem_of_cons. auto.
  - eapply active_open; [done|exact Hi|apply command_fds].
Qed.

(** Only one connection has a command. *)
Lemma single_command (m : hwmon D) i c cmd :
  conn_ok m -> active m !! i = Some c -> queue (command_fd c) (io m) = [cmd] ->
  (forall k, k ∈ active m -> k <> c -> queue (command_fd k) (io m) = []) ->
  commands m (active m) = [cmd].
Proof.
  intros Hok Hi Hc Hq. rewrite <- (take_drop_middle _ _ _ Hi). unfold commands.
  assert (forall cs, (forall k, k ∈ cs -> k ∈ active m /\ k <> c) ->
    omap (fun c => head (queue (command_fd c) (io m))) cs = []) as Hnil.
  { induction cs as [|k cs IH]; intros Hcs; [done|]. simpl. destruct (Hcs k) as [? ?]; [by left|].
    rewrite Hq by done. simpl. apply IH. intros k' Hk'. apply Hcs. by right. }
  assert (forall j k, active m !! j = Some k -> j <> i -> k <> c) as Hne.
  { intros j k Hj Hji ->. apply Hji. eapply (fds_disjoint m j i c c); try done; apply command_fds. }
  rewrite omap_app, Hnil.
  - simpl. rewrite Hc. simpl. f_equal. apply Hnil. intros k (j & Hj)%list_elem_of_lookup.
    rewrite lookup_drop in Hj. split; [by eapply list_elem_of_lookup_2|]. eapply Hne; [exact Hj|lia].
  - intros k (j & Hj)%list_elem_of_lookup. apply lookup_take_Some in Hj as [Hj Hlt].
    split; [by eapply list_elem_of_lookup_2|]. eapply Hne; [exact Hj|lia].
Qed.

(** What a pass that obeys [cmd] leaves. *)
Record obeyed_by (i : nat) (c : fdstruct_t) (cmd : Z) w w' : Prop := ObeyedBy {
  obey_rsp : rsp w' = rsp w;
  obey_gdb : gdb w' = gdb w;
  obey_hwp : hwp_in_use w' = hwp_in_use w;
  obey_listening : listening i c w';
  obey_run : run_state (hm w') = obeyed (run_state (hm w)) cmd;
  obey_spr : forall a, spr (target w') a = spr (target w) a;
  obey_mem : forall a, mem (target w') a = mem (target w) a;
  obey_events : queue (server_fds c).2 (io (hm w')) = queue (server_fds c).2 (io (hm w)) ++ answer_of cmd
}.

Lemma active_sent cmd w : active (hm (command_sent cmd w)) = active (hm w).
Proof. done. Qed.

Lemma monitor_ok_sent cmd w : monitor_ok (hm w) -> monitor_ok (hm (command_sent cmd w)).
Proof. intros [Hok Hx]. split; [|done]. apply (conn_ok_same (hm w)); try done. apply same_write. Qed.

Lemma listens i c w : listening i c w -> (server_fds c).2 ∈ listeners (hm w).
Proof.
  intros [_ Hi _ _]. unfold listeners. change (map ?f ?l) with (f <$> l). apply list_elem_of_fmap.
  exists c. split; [done|]. by eapply list_elem_of_lookup_2.
Qed.

Lemma listener_not_command i c k w : listening i c w -> k ∈ active (hm w) -> command_fd k <> (server_fds c).2.
Proof.
  intros L (j & Hj)%list_elem_of_lookup E. destruct (listen_ok i c w L) as [Hok _].
  eapply command_not_listener; [exact Hok|exact Hj|]. rewrite E. by eapply listens.
Qed.

(** The queues when [cmd] has been sent. *)
Lemma sent_queues i c cmd w : listening i c w ->
  queue (command_fd c) (io (hm (command_sent cmd w))) = [cmd]
  /\ (forall k, k ∈ active (hm w) -> k <> c -> queue (command_fd k) (io (hm (command_sent cmd w))) = [])
  /\ queue (server_fds c).2 (io (hm (command_sent cmd w))) = queue (server_fds c).2 (io (hm w)).
Proof.
  intros L. pose proof L as [[Hok _] Hi Hf Hq].
  assert (c ∈ active (hm w)) as Hca by by eapply list_elem_of_lookup_2.
  split; [|split].
  - rewrite (command_sent_queue i c cmd w _ L), bool_decide_true, Hq by done. done.
  - intros k Hk Hkc. rewrite (command_sent_queue i c cmd w _ L), bool_decide_false, Hq; try done.
    intros E. apply Hkc. apply list_elem_of_lookup in Hk as (j & Hj).
    assert (j = i) as ->; [|by rewrite Hj in Hi; injection Hi].
    eapply (fds_disjoint _ j i k c); [exact Hok|done|done|apply command_fds|]. rewrite E. apply command_fds.
  - rewrite (command_sent_queue i c cmd w _ L), bool_decide_false; [done|].
    intros E. by eapply listener_not_command.
Qed.

(** And when it has been obeyed. *)
Lemma obeyed_queues i c cmd w :
  listening i c w -> let m := hm (command_sent cmd w) in
  commands m (active m) = [cmd]
  /\ (forall k, k ∈ active m -> queues_after m (active m) (command_fd k) = [])
  /\ queues_after m (active m) (server_fds c).2 = queue (server_fds c).2 (io (hm w)) ++ answer_of cmd.
Proof.
  intros L m. destruct (sent_queues i c cmd w L) as (Hc & Hk & He). fold m in Hc, Hk, He.
  pose proof (monitor_ok_sent cmd w (listen_ok i c w L)) as [Hok _]. fold m in Hok.
  assert (commands m (active m) = [cmd]) as Hcmds.
  { apply (single_command m i c); try done. apply (listen_active i c w L). }
  split; [done|]. unfold queues_after, tell. rewrite Hcmds. split.
  - intros k Hka. rewrite bool_decide_false.
    + unfold read_queue. rewrite bool_decide_true.
      * destruct (decide (k = c)) as [->|Hkc]; [by rewrite Hc|by rewrite Hk].
      * change (map ?f ?l) with (f <$> l). by apply list_elem_of_fmap_2.
    + apply list_elem_of_lookup in Hka as (j & Hj). by eapply command_not_listener.
  - rewrite bool_decide_true by by apply (listens i c w L). cbn [map concat]. rewrite app_nil_r. f_equal.
    unfold read_queue. rewrite bool_decide_false; [done|].
    change (map ?f ?l) with (f <$> l). intros (k & E & Hka)%list_elem_of_fmap.
    by eapply (listener_not_command i c k w).
Qed.

Lemma wp_command_pass i c cmd w :
  listening i c w -> wp monitor_pass (fun _ w' => obeyed_by i c cmd w w') (command_sent cmd w).
Proof.
  intros L. destruct (obeyed_queues i c cmd w L) as (Hcmds & Hquiet & Hevents).
  pose proof L as [Hm Hi Hf _]. pose proof (monitor_ok_sent cmd w Hm) as Hm1.
  apply wp_monitor_pass. eapply wp_mono; [by apply wp_target_handler|]. intros [] m [[_ A]|[E _]].
  - unfold passed in A. rewrite Hcmds in A. destruct A as [Ho Hx Ha Hn Hr Hrun Hs Hmm Hqs].
    split; try done.
    + split; try done; [by split; [|exact (eq_trans Hx (proj2 Hm1))]|by cbn; rewrite Ha|].
      intros k Hk. cbn in *. rewrite Hqs. apply Hquiet. by rewrite <- Ha.
    + cbn. by rewrite Hqs.
  - exfalso. apply readset_empty in E. by rewrite Hcmds in E.
Qed.

(** ** The server's side *)

Lemma wp_event i c e q (Q : option Z -> world D -> Prop) w :
  listening i c w -> queue (server_fds c).2 (io (hm w)) = e :: q ->
  (forall p, same_pipes (io (hm w)) p ->
     (forall x, queue x p = if bool_decide (x = (server_fds c).2) then q else queue x (io (hm w))) ->
     Q (Some e) (set_hm (set_io p (hm w)) w)) ->
  wp (on_hm (read_pipe (server_fds c).2)) Q w.
Proof.
  intros L Hq HQ. apply wp_on_hm. eapply wp_read_pipe; [|exact Hq|exact HQ].
  eapply active_open; [apply (listen_ok i c w L)|apply (listen_active i c w L)|apply listener_fds].
Qed.

(** Reading an event leaves the connection as it was. *)
Lemma listening_event i c w p q :
  listening i c w -> same_pipes (io (hm w)) p ->
  (forall x, queue x p = if bool_decide (x = (server_fds c).2) then q else queue x (io (hm w))) ->
  listening i c (set_hm (set_io p (hm w)) w).
Proof.
  intros L Hp Hq. pose proof L as [[Hok Hx] Hi Hf Hquiet]. split; try done.
  - split; [by apply (conn_ok_same (hm w))|done].
  - intros k Hk. cbn. rewrite Hq, bool_decide_false; [by apply Hquiet|]. by eapply listener_not_command.
Qed.

(** The monitor says that the target runs. *)
Lemma wp_running_event i c q w :
  listening i c w -> queue (server_fds c).2 (io (hm w)) = 82 :: q ->
  wp monitor_event (fun _ w' => exists p, w' = upd_rsp (set_target_running true) (set_hm (set_io p (hm w)) w)
    /\ listening i c w' /\ queue (server_fds c).2 p = q) w.
Proof.
  intros L Hq. unfold monitor_event. rsp_pure. rsp_pure. rewrite (listen_fds i c w L). rsp_pure.
  eapply wp_event; [exact L|exact Hq|]. intros p Hp Hqp. cbn [value default from_option id Z.eqb Pos.eqb].
  rsp_pure. exists p. split; [done|]. split.
  - pose proof (listening_event i c w p q L Hp Hqp) as [? ? ? ?]. by split.
  - by rewrite Hqp, bool_decide_true.
Qed.

(** ** Continue and step *)

(** The indicators of watchpoints are cleared by writing back DMR2, if there are any. *)
Definition cleared_dmr2 (x : Z) : Z :=
  if truth (x .& SPR_DMR2_WBS) then store_spr D SPR_DMR2 x x else x.

(** The registers when the target is to run, or to make a step; the server does not switch
    on single steps and traps when its [single_step_mode] says that it has. *)
Definition go_spr (step stepping : bool) (s : Z -> Z) : Z -> Z := fun a =>
  if a =? SPR_DRR then 0
  else if a =? SPR_DMR2 then cleared_dmr2 (s SPR_DMR2)
  else if a =? SPR_DMR1 then
    if negb step then s SPR_DMR1 .& not32 (SPR_DMR1_ST .| SPR_DMR1_BT)
    else if stepping then s SPR_DMR1
    else s SPR_DMR1 .| (SPR_DMR1_ST .| SPR_DMR1_BT)
  else if step && negb stepping && (a =? SPR_DSR) then s SPR_DSR .| SPR_DSR_TE
  else s a.

(** What the target has in its registers and its memory. *)
Definition contents (s m : Z -> Z) (st : bool) (d : D) : Prop :=
  (forall a, spr d a = s a) /\ (forall a, mem d a = m a) /\ stalled d = st.

Lemma contents_self w : contents (spr (target w)) (mem (target w)) (stalled (target w)) (target w).
Proof. done. Qed.

Lemma wp_write_contents adr v s m st (Q : Z -> world D -> Prop) w :
  adr <> SPR_NPC -> status_reg adr = false -> contents s m st (target w) ->
  (forall d, contents (fun a => if a =? adr then u32 v else s a) m st d -> Q 0 (set_target d w)) ->
  wp (write_spr adr v) Q w.
Proof.
  intros Hne Hp (Hs & Hm & Hst) HQ. apply wp_write_spr_to; [done|]. intros d Hs' Hm' Hst'. apply HQ.
  split; [|split].
  - intros a. rewrite Hs', store_plain by done. by destruct (a =? adr).
  - intros a. by rewrite Hm'.
  - by rewrite Hst'.
Qed.

(** Writing back what was read clears the indicators. *)
Definition clear_dmr2 (s : Z -> Z) : Z -> Z := fun a => if a =? SPR_DMR2 then cleared_dmr2 (s SPR_DMR2) else s a.

Lemma wp_clear_status tmp s m st (Q : option Z -> world D -> Prop) w :
  contents s m st (target w) ->
  (forall d x, contents (clear_dmr2 s) m st d -> Q (Some x) (set_target d w)) ->
  wp (clear_watchpoint_status tmp) Q w.
Proof.
  intros C HQ. unfold clear_watchpoint_status. rsp_pure. apply wp_read_spr. rsp_pure.
  assert (is_u32 (s SPR_DMR2)) as Hu by (rewrite <- (proj1 C); apply spr_u32).
  rewrite (proj1 C). cbn [value default from_option id]. destruct (truth _) eqn:E.
  - rsp_pure. apply wp_write_spr_to; [done|]. intros d Hs Hm Hst. rsp_pure. rsp_pure.
    apply HQ. destruct C as (Cs & Cm & Cst). split; [|split; [intros a; by rewrite Hm|by rewrite Hst]].
    intros a. rewrite Hs, !Cs, (wrap_small 32) by done. unfold clear_dmr2, cleared_dmr2.
    by rewrite E.
  - rsp_pure. rsp_pure. rewrite <- (set_target_eq w). apply HQ. destruct C as (Cs & Cm). split; [|done].
    intros a. rewrite Cs. unfold clear_dmr2, cleared_dmr2. rewrite E.
    by destruct (Z.eqb_spec a SPR_DMR2) as [->|].
Qed.

(** What is left of the server and of the target when the target is let go. *)
Record let_go (step : bool) w w' : Prop := LetGo {
  go_target : contents (go_spr step (single_step_mode (rsp w)) (spr (target w))) (mem (target w)) (stalled (target w)) (target w');
  go_world : exists d, w' = command_sent 85 (upd_rsp (fun r =>
    set_single_step_mode step (set_client_waiting true (set_use_cached_npc false r))) (set_target d w))
}.

Lemma set_target_twice d d' w : set_target d' (set_target d w) = set_target d' w.
Proof. done. Qed.

Lemma target_set d w : target (set_target d w) = d.
Proof. done. Qed.

(** In which register the values differ. *)
Ltac at_register a :=
  cbn [negb andb]; unfold go_spr, clear_dmr2; cbn [negb andb];
  destruct (Z.eqb_spec a SPR_DRR) as [->|]; [done|];
  destruct (Z.eqb_spec a SPR_DMR2) as [->|]; [done|];
  destruct (Z.eqb_spec a SPR_DMR1) as [->|];
  [|try (destruct (Z.eqb_spec a SPR_DSR) as [->|])].

Lemma wp_continue_generic except w :
  wp (rsp_continue_generic except) (fun _ w' => let_go false w w') w.
Proof.
  unfold rsp_continue_generic. rsp_pure. eapply wp_write_contents; [done|done|apply contents_self|].
  intros d1 C1. rsp_pure. eapply wp_clear_status; [exact C1|]. intros d2 x2 C2.
  rsp_pure. apply wp_read_spr. rsp_pure. rewrite !target_set, (proj1 C2). cbn [value default from_option id].
  eapply wp_write_contents; [done|done|exact C2|]. intros d3 C3.
  rsp_pure. eapply wp_mono; [apply (wp_stall_state false)|]. intros [] w' ->. rsp_pure. rsp_pure. rsp_pure.
  rewrite !set_target_twice in *. split; [|by exists d3].
  destruct C3 as (Hs & Hm & Hst). split; [|by split]. intros a. cbn. rewrite Hs. at_register a; try done.
  cbn. apply wrap_small, is_word_land_l; [done|apply spr_u32].
Qed.

Lemma bit_already x : truth (x .& SPR_DSR_TE) = true -> x .| SPR_DSR_TE = x.
Proof.
  change SPR_DSR_TE with (2 ^ 13). rewrite truth_land_pow2 by done. intros Hb.
  apply Z.bits_inj'. intros n Hn.
  rewrite Z.lor_spec, Z.pow2_bits_eqb by lia.
  destruct (Z.eqb_spec 13 n) as [<-|]; [by rewrite Hb|apply orb_false_r].
Qed.

Lemma wp_trap_enabled s m st x (Q : unit -> world D -> Prop) w :
  contents s m st (target w) -> x = s SPR_DSR ->
  (forall d, contents (fun a => if a =? SPR_DSR then s SPR_DSR .| SPR_DSR_TE else s a) m st d ->
     Q tt (set_target d w)) ->
  wp (if negb (truth (x .& SPR_DSR_TE)) then _ ← write_spr SPR_DSR (x .| SPR_DSR_TE); mret tt else mret tt) Q w.
Proof.
  intros C -> HQ. assert (is_u32 (s SPR_DSR)) as Hu by (rewrite <- (proj1 C); apply spr_u32).
  destruct (truth _) eqn:E; cbn [negb].
  - rsp_pure. rewrite <- (set_target_eq w). apply HQ. rewrite (bit_already _ E).
    destruct C as (Hs & Cm). split; [|done]. intros a. rewrite Hs. by destruct (Z.eqb_spec a SPR_DSR) as [->|].
  - rsp_pure. eapply wp_write_contents; [done|done|exact C|]. intros d (Hs & Cm). rsp_pure. apply HQ.
    split; [|done]. intros a. rewrite Hs. destruct (a =? SPR_DSR); [|done].
    apply wrap_small. by apply is_word_lor.
Qed.

(** The first step switches single steps and traps on. *)
Lemma wp_first_step except w :
  single_step_mode (rsp w) = false ->
  wp (rsp_step_generic except) (fun _ w' => let_go true w w') w.
Proof.
  intros Hmode. unfold rsp_step_generic. rsp_pure. eapply wp_write_contents; [done|done|apply contents_self|].
  intros d1 C1. rsp_pure. eapply wp_clear_status; [exact C1|]. intros d2 x2 C2.
  rsp_pure. rsp_pure. cbn [rsp set_target set_hm]. rewrite Hmode. cbn [negb].
  rsp_pure. rsp_pure. apply wp_read_spr. rsp_pure. rewrite !target_set, (proj1 C2).
  cbn [value default from_option id]. cbv zeta.
  eapply wp_write_contents; [done|done|exact C2|]. intros d3 C3.
  rsp_pure. apply wp_read_spr. rsp_pure. rewrite !target_set. cbn [value default from_option id].
  eapply wp_trap_enabled; [exact C3|apply C3|]. intros d4 C4. rsp_pure. rsp_pure.
  eapply wp_mono; [apply (wp_stall_state false)|]. intros [] w' ->. rsp_pure.
  split; [|exists d4; by rewrite !set_target_twice].
  rewrite Hmode. destruct C4 as (Hs & Hm & Hst). split; [|by split]. intros a. cbn. rewrite Hs.
  at_register a; try done. cbn. apply wrap_small, is_word_lor; [done|apply spr_u32|done].
Qed.

Lemma step_mode_kept r : single_step_mode r = true -> set_single_step_mode true r = r.
Proof. destruct r. cbn. by intros ->. Qed.

(** The next ones find them switched on. *)
Lemma wp_next_step except w :
  single_step_mode (rsp w) = true ->
  wp (rsp_step_generic except) (fun _ w' => let_go true w w') w.
Proof.
  intros Hmode. unfold rsp_step_generic. rsp_pure. eapply wp_write_contents; [done|done|apply contents_self|].
  intros d1 C1. rsp_pure. eapply wp_clear_status; [exact C1|]. intros d2 x2 C2.
  rsp_pure. rsp_pure. cbn [rsp set_target set_hm]. rewrite Hmode. cbn [negb]. rsp_pure. rsp_pure.
  rsp_pure. eapply wp_mono; [apply (wp_stall_state false)|]. intros [] w' ->. rsp_pure.
  split.
  - rewrite Hmode. destruct C2 as (Hs & Hm & Hst). split; [|by split]. intros a. cbn. rewrite Hs.
    at_register a; done.
  - exists d2. rewrite !set_target_twice. unfold command_sent, upd_rsp. cbn.
    by rewrite step_mode_kept.
Qed.

Lemma wp_step_generic except w : wp (rsp_step_generic except) (fun _ w' => let_go true w w') w.
Proof. destruct (single_step_mode (rsp w)) eqn:E; [by apply wp_next_step|by apply wp_first_step]. Qed.

(** The requests c and s. *)
Definition go_text (step : bool) : list Z := [if step then 115 else 99].

Lemma request_go (step : bool) rs rest w :
  session w ->
  delivers (frame (go_text step)) rs -> reads (gdb w) = rs ++ rest ->
  wp rsp_client_request (fun _ w' => exists w1, hears rs [43] w w1 /\ let_go step w1 w') w.
Proof.
  intros (Hc & Hb & Hrun) Hd Hr.
  assert (plain_text (go_text step)) as Hp by (destruct step; by repeat constructor).
  eapply (wp_client_request _ [] rs rest); try done.
  intros w1 T Hc1 Hb1 Hreq Hr1. pose proof T as (_ & E & _).
  assert (forall f : M (world D) unit, wp f (fun _ w' => let_go step w1 w') w1 ->
    wp f (fun _ w' => exists w1, hears rs [43] w w1 /\ let_go step w1 w') w1) as Hw.
  { intros f Hf. eapply wp_mono; [exact Hf|]. intros [] w' L. by exists w1. }
  apply Hw. destruct step; cbn [request_stopped switch Z.eqb Pos.eqb].
  - unfold rsp_step. rsp_pure. apply (wp_command _ _ _ Hp Hreq).
    change (negb (strncmp0 (go_text true) (bytes "s") 2)) with false. rsp_pure. rsp_pure.
    apply wp_step_generic.
  - unfold rsp_continue. rsp_pure. apply (wp_command _ _ _ Hp Hreq).
    change (negb (strncmp0 (go_text false) (bytes "c") 2)) with false. rsp_pure. rsp_pure.
    apply wp_continue_generic.
Qed.

Lemma listening_hears i c r s w w' : hears r s w w' -> listening i c w -> listening i c w'.
Proof.
  intros (T & E & _) [Hm Hi Hf Hq]. pose proof (talks_hm _ _ _ _ T) as Eh. cbn in Eh.
  split; rewrite ?Eh; try done. unfold same_but_buf in E. by rewrite E.
Qed.

Lemma listening_target i c f d w :
  pipe_fds (f (rsp w)) = pipe_fds (rsp w) -> listening i c w -> listening i c (upd_rsp f (set_target d w)).
Proof.
  intros E [[Hok Hx] Hi Hf Hq]. split; try done; [|by cbn; rewrite E].
  split; [by apply (conn_ok_same (hm w))|done].
Qed.

(** The target runs, and the server knows: it waits for it to stop. *)
Definition running w : Prop :=
  run_state (hm w) = (true, false) /\ target_running (rsp w) = true /\ client_waiting (rsp w) = true
  /\ use_cached_npc (rsp w) = false.

Lemma wp_go (step : bool) i c rs rest w :
  session w -> listening i c w ->
  run_state (hm w) = (false, true) -> queue (server_fds c).2 (io (hm w)) = [] ->
  delivers (frame (go_text step)) rs -> reads (gdb w) = rs ++ rest ->
  wp (rsp_client_request;; monitor_pass;; monitor_event) (fun _ w' =>
    running w' /\ listening i c w' /\ queue (server_fds c).2 (io (hm w')) = []
    /\ contents (go_spr step (single_step_mode (rsp w)) (spr (target w))) (mem (target w)) false (target w')
    /\ sent (gdb w') = sent (gdb w) ++ [43] /\ reads (gdb w') = rest) w.
Proof.
  intros Hs L Hrun Hq Hd Hr. rsp_pure. eapply wp_mono; [by eapply request_go|].
  intros [] w' (w1 & T & [C (d & ->)]). pose proof (listening_hears _ _ _ _ _ _ T L) as L1.
  set (w2 := upd_rsp _ _) in *.
  assert (listening i c w2) as L2 by by apply listening_target.
  rsp_pure. eapply wp_mono; [by eapply wp_command_pass|]. intros [] w3 B.
  pose proof T as (T' & _). pose proof (talks_hm _ _ _ _ T') as Eh. cbn in Eh.
  assert (target w1 = target w) as Et by (unfold target; by rewrite Eh).
  assert (single_step_mode (rsp w1) = single_step_mode (rsp w)) as Em.
  { destruct T as (_ & E & _). unfold same_but_buf in E. by rewrite E. }
  destruct C as (Cs & Cm & Cst). change (target (command_sent 85 w2)) with d in *.
  pose proof (obey_events i c 85 w2 w3 B) as He.
  assert (io (hm w2) = io (hm w)) as Eio by (unfold w2; cbn; by rewrite Eh).
  rewrite Eio, Hq in He.
  assert (run_state (hm w3) = (true, false)) as Hrun3.
  { rewrite (obey_run i c 85 w2 w3 B). unfold obeyed, run_state in *. cbn. cbn in Hrun.
    rewrite Cst, Et, Eh. injection Hrun as -> Hst. unfold target. by rewrite Hst. }
  eapply wp_mono; [by apply (wp_running_event i c []); [apply B|]|]. intros [] w4 (p & -> & L4 & Hq4).
  split; [|split; [done|split; [done|]]].
  - unfold running. cbn. split; [done|]. by rewrite (obey_rsp i c 85 w2 w3 B).
  - split; [|split].
    + split; [|split].
      * intros a. change (spr (target w3) a = go_spr step (single_step_mode (rsp w)) (spr (target w)) a).
        rewrite (obey_spr i c 85 w2 w3 B), <- Et, <- Em. apply Cs.
      * intros a. change (mem (target w3) a = mem (target w) a). rewrite (obey_mem i c 85 w2 w3 B), <- Et. apply Cm.
      * by injection Hrun3.
    + cbn. rewrite (obey_gdb i c 85 w2 w3 B). cbn. apply (talks_sent _ _ _ _ T').
    + cbn. rewrite (obey_gdb i c 85 w2 w3 B). cbn. apply (hears_rest _ _ _ _ _ T Hr).
Qed.

(** ** The target stops *)

(** What the client is told: S and the signal. *)
Definition stop_text (sig : Z) : list Z := [83; hexchar (Z.shiftr sig 4); hexchar (sig mod 16)].

Lemma wp_report_exception sig rs rest w :
  connected w -> sigval (rsp w) = sig -> 0 <= sig < 256 -> delivers [43] rs -> reads (gdb w) = rs ++ rest ->
  wp rsp_report_exception (fun _ w' => talks rs (frame (stop_text sig)) w w') w.
Proof.
  intros Hc Hsig Hrange Hrs Hr. unfold rsp_report_exception. rsp_pure. rsp_pure. rewrite Hsig. clear Hsig.
  assert (forall x, 0 <= x < 16 -> load_word (hexchars ++ [0]) x = Ok (hexchar x)) as Hload.
  { apply (Z_range_check 16 (fun x => load_word (hexchars ++ [0]) x = Ok (hexchar x))). by vm_compute. }
  assert (0 <= Z.shiftr sig 4 < 16) as Hhi.
  { rewrite Z.shiftr_div_pow2 by done. change (2 ^ 4) with 16. Z.div_mod_to_equations. lia. }
  assert (0 <= sig mod 16 < 16) as Hlo by (apply Z.mod_pos_bound; lia).
  rsp_pure. eapply wp_lift; [by apply Hload|]. rsp_pure. eapply wp_lift; [by apply Hload|].
  assert (plain_text (stop_text sig)) as Hp.
  { apply (plain_text_app [83]). split; [by repeat constructor|]. apply digits_plain.
    by repeat constructor; apply hexchar_plain. }
  change [83; _; _; 0] with (stop_text sig ++ 0 :: []). rewrite plain_cstr by done.
  eapply wp_send; try done. eapply Forall_impl; [exact Hp|]. by intros c (? & _).
Qed.

(** Whether the program counter goes back to the instruction that was executed last: it
    has been replaced by a trap, or a watchpoint has been hit. *)
Definition steps_back (sig : Z) w : bool :=
  (TARGET_SIGNAL_TRAP =? sig)
  && (has_breakpoint w (spr (target w) SPR_PPC) || truth (spr (target w) SPR_DMR2 .& SPR_DMR2_WBS)).

(** The server after the report. *)
Definition reported (sig : Z) w w' : Prop :=
  rsp w' = set_client_waiting false
    (if steps_back sig w then set_use_cached_npc true (set_cached_npc (spr (target w) SPR_PPC) (rsp w))
     else rsp w)
  /\ (forall a, a <> SPR_NPC -> spr (target w') a = spr (target w) a)
  /\ (forall a, mem (target w') a = mem (target w) a)
  /\ exists d, hm w' = set_unit d (hm w) /\ stalled d = stalled (target w).

Lemma wp_step_back pc (Q : unit -> world D -> Prop) w :
  is_u32 pc ->
  (forall d, (forall a, a <> SPR_NPC -> spr d a = spr (target w) a) ->
     (forall a, mem d a = mem (target w) a) -> stalled d = stalled (target w) ->
     Q tt (upd_rsp (fun r => set_use_cached_npc true (set_cached_npc pc r)) (set_target d w))) ->
  wp (_ ← set_npc pc; mret tt) Q w.
Proof.
  intros Hpc HQ. unfold set_npc. rsp_pure. rsp_pure. apply wp_dbg_write.
  rewrite (wrap_small 32) by done. eapply wp_mono; [by apply law_set_npc|].
  intros r d (-> & Hs & Hm & Hst). exists 0. split; [done|]. rsp_pure. rsp_pure. rsp_pure. rsp_pure. rsp_pure. rsp_pure.
  by apply HQ.
Qed.

(** The end of the report, when the program counter has been seen to. *)
Lemma wp_finish_report sig rs rest (back : bool) d w :
  connected w -> sigval (rsp w) = sig -> 0 <= sig < 256 -> delivers [43] rs -> reads (gdb w) = rs ++ rest ->
  back = steps_back sig w -> (forall a, a <> SPR_NPC -> spr d a = spr (target w) a) ->
  (forall a, mem d a = mem (target w) a) -> stalled d = stalled (target w) ->
  wp (rsp_report_exception;; put (set_client_waiting false)) (fun _ w' => reported sig w w'
    /\ sent (gdb w') = sent (gdb w) ++ frame (stop_text sig) /\ reads (gdb w') = rest /\ connected w')
  (upd_rsp (fun r => if back then set_use_cached_npc true (set_cached_npc (spr (target w) SPR_PPC) r) else r)
    (set_target d w)).
Proof.
  intros Hc Hsig Hrange Hrs Hr -> Hs Hm Hst. rsp_pure. eapply wp_mono.
  { eapply (wp_report_exception sig rs rest); try done; [|by cbn; destruct (steps_back sig w)].
    destruct Hc. split; [by cbn; destruct (steps_back sig w)|done]. }
  intros [] w' T. rsp_pure. pose proof T as [T1 T2 T3 T4 T5 T6 T7 T8]. cbn in *. split; [|split; [|split]].
  - unfold reported. cbn. rewrite T1, T3. unfold target. cbn. rewrite T3. cbn.
    split; [by destruct (steps_back sig w)|]. split; [done|]. split; [done|]. by exists d.
  - exact T5.
  - by apply (talks_rest _ _ _ _ rest T).
  - split; [|done]. cbn. rewrite T1. by destruct (steps_back sig w), Hc.
Qed.

Lemma lookup_breakpoint w a :
  has_breakpoint w a = bool_decide (is_Some (mp_hash_lookup (mp_hash (rsp w)) BP_MEMORY a)).
Proof. apply bool_decide_ext. unfold breakpoint, mp_map. apply fmap_is_Some. Qed.

Lemma wp_report_stop sig rs rest w :
  connected w -> sigval (rsp w) = sig -> 0 <= sig < 256 -> delivers [43] rs -> reads (gdb w) = rs ++ rest ->
  wp report_stop (fun _ w' => reported sig w w' /\ sent (gdb w') = sent (gdb w) ++ frame (stop_text sig)
    /\ reads (gdb w') = rest /\ connected w') w.
Proof.
  intros Hc Hsig Hrange Hrs Hr. unfold report_stop. rsp_pure. apply wp_read_spr. rsp_pure. rsp_pure.
  rewrite Hsig. cbn [value default from_option id].
  pose proof (fun back d => wp_finish_report sig rs rest back d w Hc Hsig Hrange Hrs Hr) as Hend.
  assert (steps_back sig w = false -> wp (rsp_report_exception;; put (set_client_waiting false)) (fun _ w' =>
    reported sig w w' /\ sent (gdb w') = sent (gdb w) ++ frame (stop_text sig) /\ reads (gdb w') = rest
    /\ connected w') w) as Hno.
  { intros E. specialize (Hend false (target w)). rewrite (set_target_eq w) in Hend.
    destruct w. by apply Hend. }
  assert (is_u32 (spr (target w) SPR_PPC)) as Hu by apply spr_u32.
  unfold steps_back in *. rewrite lookup_breakpoint in *.
  destruct (TARGET_SIGNAL_TRAP =? sig); [|rsp_pure; rsp_pure; by apply Hno]. rsp_pure. rsp_pure. rsp_pure.
  destruct (mp_hash_lookup (mp_hash (rsp w)) BP_MEMORY (spr (target w) SPR_PPC)) as [e|].
  - apply wp_step_back; [done|]. intros d Hs Hm Hst. by apply (Hend true d).
  - rsp_pure. apply wp_read_spr. cbn iota. cbn [value default from_option id].
    destruct (truth (spr (target w) SPR_DMR2 .& SPR_DMR2_WBS)).
    + apply wp_step_back; [done|]. intros d Hs Hm Hst. by apply (Hend true d).
    + rsp_pure. by apply Hno.
Qed.

Lemma signal_range e sig : signal_of e = Some sig -> 0 <= sig < 256.
Proof.
  unfold signal_of. cbn [switch]. repeat (destruct (_ =? _); [intros [= <-]; by vm_compute|]). done.
Qed.

Lemma listening_same_conn i c w w' :
  listening i c w -> pipe_fds (rsp w') = pipe_fds (rsp w) -> (exists d, hm w' = set_unit d (hm w)) ->
  listening i c w'.
Proof.
  intros [[Hok Hx] Hi Hf Hq] E [d Eh]. split; rewrite ?Eh, ?E; try done.
  split; [by apply (conn_ok_same (hm w))|done].
Qed.

(** What the client and the server know after a stop. *)
Record stopped (i : nat) (c : fdstruct_t) (sig : Z) w w' : Prop := Stopped {
  stop_session : session w';
  stop_listening : listening i c w';
  stop_run : run_state (hm w') = (false, true);
  stop_waiting : client_waiting (rsp w') = false;
  stop_events : queue (server_fds c).2 (io (hm w')) = [];
  stop_sent : sent (gdb w') = sent (gdb w) ++ frame (stop_text sig);
  stop_pc : steps_back sig w = true -> gdb_register NPC_REGNUM w' = spr (target w) SPR_PPC;
  stop_spr : forall a, a <> SPR_NPC -> spr (target w') a = spr (target w) a;
  stop_mem : forall a, mem (target w') a = mem (target w) a
}.

(** The event that the target has stopped, with the client waiting. *)
Lemma wp_stopped_event i c sig rs rest w :
  connected w -> buf_wf (rsp w) -> listening i c w -> run_state (hm w) = (false, true) ->
  target_running (rsp w) = true -> client_waiting (rsp w) = true ->
  queue (server_fds c).2 (io (hm w)) = [72] ->
  signal_of (spr (target w) SPR_DRR) = Some sig -> delivers [43] rs -> reads (gdb w) = rs ++ rest ->
  wp monitor_event (fun _ w' => stopped i c sig w w' /\ reads (gdb w') = rest) w.
Proof.
  intros Hc Hb L Hrun Htr Hcw Hq Hsig Hrs Hr. unfold monitor_event. rsp_pure. rsp_pure.
  rewrite (listen_fds i c w L). rsp_pure. eapply wp_event; [exact L|exact Hq|]. intros p Hp Hqp.
  pose proof (listening_event i c w p [] L Hp Hqp) as Lp.
  cbn [value default from_option id Z.eqb Pos.eqb]. rsp_pure. rsp_pure. cbn [rsp set_hm]. rewrite Htr.
  rsp_pure. rsp_pure. rsp_pure. apply wp_read_spr. cbn iota. cbn [value default from_option id].
  change (target (upd_rsp _ _)) with (target w).
  unfold rsp_exception. rewrite Hsig. rsp_pure. rsp_pure. rsp_pure. rsp_pure. cbn [rsp upd_rsp set_hm set_sigval client_waiting set_target_running].
  rewrite Hcw. set (w1 := upd_rsp (set_sigval sig) _).
  pose proof (signal_range _ _ Hsig) as Hrange.
  eapply wp_mono; [by apply (wp_report_stop sig rs rest w1)|].
  intros [] w' ((Ersp & Es & Em & d & Eh & Est) & Esent & Erd & Hc'). split; [|done].
  change (steps_back sig w1) with (steps_back sig w) in Ersp.
  change (spr (target w1)) with (spr (target w)) in *. change (mem (target w1)) with (mem (target w)) in *.
  assert (forall A (f : rsp_t -> A), (forall r v, f (set_client_waiting v r) = f r) ->
    (forall r v, f (set_use_cached_npc v r) = f r) -> (forall r v, f (set_cached_npc v r) = f r) ->
    f (rsp w') = f (rsp w1)) as Hf.
  { intros A f F1 F2 F3. rewrite Ersp, F1. destruct (steps_back sig w); [by rewrite F2, F3|done]. }
  split; try done.
  - split; [done|]. unfold buf_wf. rewrite (Hf _ buf_data), (Hf _ target_running); done.
  - eapply listening_same_conn; [exact Lp|by rewrite (Hf _ pipe_fds)|]. by exists d.
  - unfold run_state in *. injection Hrun as R1 R2. rewrite Eh. cbn. rewrite R1, Est. f_equal. exact R2.
  - by rewrite Ersp.
  - rewrite Eh. cbn. by rewrite Hqp, bool_decide_true.
  - intros Hback. unfold gdb_register. rewrite Ersp, Hback. done.
Qed.

Lemma stopped_from i c sig w0 w w' :
  rsp w = rsp w0 -> gdb w = gdb w0 -> (forall a, spr (target w) a = spr (target w0) a) ->
  (forall a, mem (target w) a = mem (target w0) a) -> stopped i c sig w w' -> stopped i c sig w0 w'.
Proof.
  intros Er Eg Es Em [S1 S2 S3 S4 S5 S6 S7 S8 S9]. split; try done.
  - by rewrite S6, Eg.
  - intros Hback. rewrite S7; [by rewrite Es|]. revert Hback.
    unfold steps_back, has_breakpoint, breakpoint. by rewrite Er, !Es.
  - intros a Ha. by rewrite S8, Es.
  - intros a. by rewrite S9, Em.
Qed.

(** A pass that told the servers something. *)
Lemma listening_told i c t l m w :
  listening i c w -> state_after t (tell l (hm w) (fun x => queue x (io (hm w)))) (hm w) m ->
  listening i c (set_hm m w) /\ queue (server_fds c).2 (io m) = queue (server_fds c).2 (io (hm w)) ++ l.
Proof.
  intros L [Ho Hx Ha Hn Hres Hrun Hs Hm Hq]. pose proof L as [[Hok Hmx] Hi Hf Hquiet]. split.
  - split; cbn; rewrite ?Ha; try done; [by split; [|rewrite Hx]|]. intros k Hk. rewrite Hq. unfold tell.
    rewrite bool_decide_false; [by apply Hquiet|]. apply list_elem_of_lookup in Hk as (j & Hj).
    by eapply command_not_listener.
  - rewrite Hq. unfold tell. by rewrite bool_decide_true by by eapply listens.
Qed.

(** The target has stopped by itself: the monitor notices, and the server reports it. *)
Lemma wp_stop i c sig rs rest w :
  connected w -> buf_wf (rsp w) -> listening i c w -> run_state (hm w) = (true, true) ->
  target_running (rsp w) = true -> client_waiting (rsp w) = true ->
  queue (server_fds c).2 (io (hm w)) = [] ->
  signal_of (spr (target w) SPR_DRR) = Some sig -> delivers [43] rs -> reads (gdb w) = rs ++ rest ->
  wp (monitor_pass;; monitor_event) (fun _ w' => stopped i c sig w w' /\ reads (gdb w') = rest) w.
Proof.
  intros Hc Hb L Hrun Htr Hcw Hq Hsig Hrs Hr. rsp_pure.
  apply wp_quiet_pass; [apply (listen_ok i c w L)|apply (listen_quiet i c w L)|].
  rewrite Hrun. intros m A. destruct (listening_told i c _ _ m w L A) as [L1 Hq1]. rewrite Hq in Hq1.
  destruct A as [Ho Hx Ha Hn Hres Hrun1 Hs Hm _].
  eapply wp_mono.
  { apply (wp_stopped_event i c sig rs rest (set_hm m w)); try done.
    change (target (set_hm m w)) with (unit_of m). by rewrite Hs. }
  intros [] w' [S Hrd]. split; [|done]. by eapply stopped_from; [| | | |exact S].
Qed.

(** ** Detaching *)

Fixpoint passes (n : nat) : M (world D) unit :=
  match n with
  | O => mret tt
  | S n => monitor_pass;; passes n
  end.

(** The target is stalled, and nobody has asked for anything. *)
Definition parked (m : hwmon D) : Prop :=
  monitor_ok m /\ run_state m = (false, true)
  /\ forall k, k ∈ active m -> queue (command_fd k) (io m) = [].

(** As long as nobody asks, it stays so. *)
Lemma wp_passes n w :
  parked (hm w) -> wp (passes n) (fun _ w' => parked (hm w') /\ rsp w' = rsp w /\ gdb w' = gdb w) w.
Proof.
  revert w. induction n as [|n IH]; intros w P; cbn [passes]; rsp_pure; [done|].
  destruct P as ([Hok Hx] & Hrun & Hq). apply wp_quiet_pass; [done|done|].
  rewrite Hrun. intros m A. destruct A as [Ho Hmx Ha Hn Hres Hrun1 Hs Hm Hqs].
  apply (IH (set_hm m w)). split; [by split; [|exact (eq_trans Hmx Hx)]|]. split; [done|].
  intros k Hk. cbn. rewrite Hqs, tell_nothing. apply Hq. by rewrite <- Ha.
Qed.

(** Closing the client's connection, when the target is stopped. *)
Lemma wp_client_close i c w :
  listening i c w -> target_running (rsp w) = false ->
  wp rsp_client_close (fun _ w' => exists d m,
    stalled d = stalled (target w) /\ unregistered (set_unit d (hm w)) c m
    /\ rsp w' = set_client_fd (-1) (set_pipe_fds (-1, -1) (rsp w)) /\ gdb w' = gdb w /\ hm w' = m) w.
Proof.
  intros L Hrun. unfold rsp_client_close. do 3 rsp_pure. rewrite Hrun. do 2 rsp_pure.
  apply wp_write_spr_to; [done|]. intros d Hs Hm Hst. do 3 rsp_pure. cbn [rsp set_target set_hm]. rewrite Hrun.
  do 3 rsp_pure. cbn [rsp set_target set_hm]. rewrite (listen_fds i c w L). rsp_pure. apply wp_on_hm.
  pose proof (listening_target i c (fun r => r) d w eq_refl L) as [Lm La _ _].
  eapply wp_mono; [by apply (wp_unregister (hm (set_target d w)) i c)|].
  intros ? m [-> U]. do 3 rsp_pure. exists d, m. split; [done|]. by split.
Qed.

Lemma closed_fd_write (m : hwmon D) cmd : conn_ok m -> fd_write (-1) cmd (io m) = io m.
Proof.
  intros Hok. unfold fd_write. rewrite bool_decide_false; [done|]. intros [Hin _].
  apply (ok_known m Hok) in Hin. lia.
Qed.

Lemma unregistered_parked (m m' : hwmon D) c :
  parked m -> unregistered m c m' -> parked m'.
Proof.
  intros (Hm & Hrun & Hq) (Hm' & Hp & _ & Hqs & _ & Hu & Hr). split; [done|]. split.
  - unfold run_state in *. by rewrite Hu, Hr.
  - intros k Hk. rewrite Hqs. apply Hq. rewrite Hp. by right.
Qed.

Lemma wp_detach i c rs rest w :
  session w -> listening i c w -> run_state (hm w) = (false, true) ->
  delivers (exchange [68]) rs -> reads (gdb w) = rs ++ rest ->
  wp rsp_client_request (fun _ w' => parked (hm w') /\ client_fd (rsp w') = -1
    /\ sent (gdb w') = sent (gdb w) ++ reply (bytes "OK")) w.
Proof.
  intros (Hc & Hb & Htr) L Hrun Hd Hr. apply delivers_app_inv in Hd as (r1 & r2 & -> & Hd1 & Hd2).
  rewrite <- app_assoc in Hr. eapply (wp_client_request 68 [] r1 (r2 ++ rest)); try done; [by repeat constructor|].
  intros w1 T Hc1 Hb1 Hreq Hr1. pose proof (listening_hears _ _ _ _ _ _ T L) as L1.
  pose proof T as (T' & E & _). pose proof (talks_hm _ _ _ _ T') as Eh. cbn in Eh.
  assert (target_running (rsp w1) = false) as Htr1 by (unfold same_but_buf in E; by rewrite E).
  cbn [request_stopped switch Z.eqb Pos.eqb]. unfold rsp_detach. rsp_pure.
  eapply wp_mono; [by eapply (wp_send_str "OK" r2 rest); [simpl; lia|..]|]. intros [] w2 T2.
  pose proof (listening_hears _ _ _ _ _ _ (talks_hears _ _ _ _ T2) L1) as L2.
  pose proof (talks_rsp _ _ _ _ T2) as Er2. pose proof (talks_hm _ _ _ _ T2) as Eh2.
  rsp_pure. eapply wp_mono; [by apply (wp_client_close i c); [|rewrite Er2]|].
  intros [] w3 (d & m & Hst & U & Er3 & Eg3 & <-).
  assert (parked (hm w3)) as P.
  { eapply unregistered_parked; [|exact U]. destruct L2 as [[Hok2 Hx2] Hi2 Hf2 Hq2].
    split; [split; [by apply (conn_ok_same (hm w2))|done]|]. split; [|done].
    unfold run_state in *. cbn. rewrite Hst. unfold target. by rewrite Eh2, Eh. }
  eapply wp_mono; [apply (wp_stall_state false)|]. intros [] w4 ->.
  assert (hm (command_sent 85 (upd_rsp (set_use_cached_npc false) w3)) = hm w3) as ->.
  { cbn. rewrite Er3. cbn. rewrite closed_fd_write by apply P. by destruct (hm w3). }
  split; [done|]. split; [cbn; by rewrite Er3|]. cbn. rewrite Eg3, (talks_sent _ _ _ _ T2), (talks_sent _ _ _ _ T').
  cbn. by rewrite <- app_assoc.
Qed.

(** ** Requests while the target runs *)

Definition running_reply : list Z := bytes "O6154677274656e20746f73206f74707064650a0d".

Lemma message_first p w : holds p (rsp w) ->
  default 0 (buf_data (rsp w) !! 0%nat) = match p with Break => 3 | Text body => default 0 (head body) end.
Proof. destruct p as [|body]; cbn [holds]; intros (Hl & Hd); [by rewrite Hd|]. destruct Hd as [tail ->]. by destruct body. Qed.

(** A request other than a break is answered, and that is all. *)
Lemma wp_request_running cs replies body r1 r2 rest w :
  connected w -> buf_wf (rsp w) -> target_running (rsp w) = true ->
  incoming cs replies (Text body) -> head body <> Some 3 ->
  delivers cs r1 -> delivers [43] r2 -> reads (gdb w) = r1 ++ r2 ++ rest ->
  wp rsp_client_request (fun _ w' => hears (r1 ++ r2) (replies ++ frame running_reply) w w') w.
Proof.
  intros Hc Hb Hrun Hi Hne Hd1 Hd2 Hr. unfold rsp_client_request. rsp_pure.
  eapply wp_mono; [by eapply (wp_get_packet _ _ _ r1 (r2 ++ rest) w Hi)|].
  intros ? w1 (-> & T & Hh). cbn [negb]. do 4 rsp_pure. rewrite (message_first _ _ Hh).
  assert (target_running (rsp w1) = true) as ->.
  { destruct T as (_ & E & _). unfold same_but_buf in E. by rewrite E. }
  unfold request_running. destruct (Z.eqb_spec (default 0 (head body)) 3) as [E3|_].
  { by destruct body; cbn in E3; subst. }
  pose proof (hears_rest _ _ _ _ _ T Hr) as Hr1. pose proof (hears_connected _ _ _ _ T Hc) as Hc1.
  eapply wp_mono; [by eapply (wp_send_str _ r2 rest); [simpl; lia|..]|]. intros [] w2 T2.
  by eapply hears_trans; [exact T|apply talks_hears].
Qed.

(** A break: the monitor is told to stop the target. *)
Lemma wp_request_break cs replies rs rest w :
  connected w -> buf_wf (rsp w) -> target_running (rsp w) = true ->
  incoming cs replies Break -> delivers cs rs -> reads (gdb w) = rs ++ rest ->
  wp rsp_client_request (fun _ w' => exists w1, hears rs replies w w1 /\ w' = command_sent 83 w1) w.
Proof.
  intros Hc Hb Hrun Hi Hd Hr. unfold rsp_client_request. rsp_pure.
  eapply wp_mono; [by eapply (wp_get_packet _ _ _ rs rest w Hi)|].
  intros ? w1 (-> & T & Hh). cbn [negb]. do 4 rsp_pure. rewrite (message_first _ _ Hh).
  assert (target_running (rsp w1) = true) as ->.
  { destruct T as (_ & E & _). unfold same_but_buf in E. by rewrite E. }
  unfold request_running. cbn [Z.eqb Pos.eqb].
  eapply wp_mono; [apply (wp_stall_state true)|]. intros [] w' ->. by exists w1.
Qed.

Lemma wp_break i c cs replies rs rest w :
  connected w -> buf_wf (rsp w) -> target_running (rsp w) = true -> listening i c w ->
  incoming cs replies Break -> delivers cs rs -> reads (gdb w) = rs ++ rest ->
  wp (rsp_client_request;; monitor_pass) (fun _ w' =>
    listening i c w' /\ (run_state (hm w')).1 = false
    /\ ((run_state (hm w)).1 = true \/ (run_state (hm w)).2 = true -> (run_state (hm w')).2 = true)
    /\ queue (server_fds c).2 (io (hm w')) = queue (server_fds c).2 (io (hm w)) ++ [72]
    /\ (forall a, spr (target w') a = spr (target w) a)
    /\ (forall a, mem (target w') a = mem (target w) a)) w.
Proof.
  intros Hc Hb Hrun L Hi Hd Hr. rsp_pure. eapply wp_mono; [by eapply wp_request_break|].
  intros [] w' (w1 & T & ->). pose proof (listening_hears _ _ _ _ _ _ T L) as L1.
  pose proof T as (T' & _). pose proof (talks_hm _ _ _ _ T') as Eh. cbn in Eh.
  eapply wp_mono; [by eapply wp_command_pass|]. intros [] w2 B.
  pose proof (obey_run _ _ _ _ _ B) as Hrun2. pose proof (obey_events _ _ _ _ _ B) as He.
  rewrite Eh in Hrun2, He. unfold obeyed in Hrun2. cbn [Z.eqb Pos.eqb] in Hrun2. rewrite Hrun2.
  split; [apply B|]. split; [done|]. split; [|split; [done|split]].
  - cbn. intros [-> | ->]; [done|apply orb_true_r].
  - intros a. rewrite (obey_spr _ _ _ _ _ B). unfold target. by rewrite Eh.
  - intros a. rewrite (obey_mem _ _ _ _ _ B). unfold target. by rewrite Eh.
Qed.
End run.
