(* ===== verification/RspErrors.v ===== *)
(** Requests that do not do what GDB asks: registers that are written all at once, and a
    watchpoint that is set twice. *)

From Stdlib Require Import String Ascii.
From S2P Require Import Prelude Scanf StateM Tap Cable Chain AdvDbg RspData RspCodec.
From S2P Require Import DebugUnit HwMonitor Rsp RspFacts RspPacket RspCmds RspCmdFacts RspRequests.
From stdpp Require Import gmap list.

Open Scope Z_scope.
Open Scope cword_scope.

(** * All registers at once *)

(** What the server takes for a register: the last digit of the one before it, and all
    digits but the last of its own. *)
Definition shifted (v v' : Z) : Z := v mod 16 * 2 ^ 28 + v' / 16.

Lemma nibble_div x n : 0 <= n -> Z.shiftr x n .& 0xf = (x / 2 ^ n) mod 16.
Proof. intros Hn. change 0xf with (2 ^ 4 - 1). by rewrite land_mask, Z.shiftr_div_pow2. Qed.

Lemma shifted_nibble v v' k : is_u32 v' -> 0 <= k < 7 ->
  (shifted v v' / 2 ^ (4 * k)) mod 16 = (v' / 2 ^ (4 * k + 4)) mod 16.
Proof.
  intros Hv Hk. unfold shifted.
  replace (2 ^ 28) with (2 ^ (28 - 4 * k) * 2 ^ (4 * k)) by (rewrite <- Z.pow_add_r by lia; f_equal; lia).
  rewrite Z.mul_assoc, Z.div_add_l by lia. rewrite Z.div_div by lia.
  replace (16 * 2 ^ (4 * k)) with (2 ^ (4 * k + 4)) by (rewrite Z.pow_add_r by lia; lia).
  replace (2 ^ (28 - 4 * k)) with (2 ^ (24 - 4 * k) * 16)
    by (change 16 with (2 ^ 4); rewrite <- Z.pow_add_r by lia; f_equal; lia).
  rewrite Z.mul_assoc, Z.add_comm. by rewrite Z.mod_add by lia.
Qed.

Lemma shifted_top v v' : is_u32 v' -> (shifted v v' / 2 ^ 28) mod 16 = v mod 16.
Proof.
  intros Hv. unfold shifted. rewrite Z.div_add_l by lia. unfold is_word in Hv.
  assert (v' / 16 / 2 ^ 28 = 0) as ->; [|by rewrite Z.add_0_r, Z.mod_mod].
  rewrite Z.div_div by lia. apply Z.div_small. lia.
Qed.

Lemma shifted_u32 v v' : is_u32 v' -> is_u32 (shifted v v').
Proof.
  unfold is_word, shifted. intros Hv. pose proof (Z.mod_pos_bound v 16 ltac:(lia)).
  change (2 ^ 28) with 268435456. change (2 ^ 32) with 4294967296 in *.
  Z.div_mod_to_equations. lia.
Qed.

Lemma shifted_digits v v' : is_u32 v' ->
  hexchar (v .& 0xf) :: take 7 (reg2hex v') = reg2hex (shifted v v').
Proof.
  intros Hv. rewrite <- (Z.shiftr_0_r v) at 1. unfold reg2hex.
  assert (seqZ 0 8 = [0; 1; 2; 3; 4; 5; 6; 7]) as -> by done. cbn [map take].
  assert (forall n, 1 <= n <= 7 -> hexchar (Z.shiftr v' (28 - (n - 1) * 4) .& 0xf)
    = hexchar (Z.shiftr (shifted v v') (28 - n * 4) .& 0xf)) as Hd.
  { intros n Hn. rewrite !nibble_div by lia. f_equal. replace (28 - n * 4) with (4 * (7 - n)) by lia.
    rewrite shifted_nibble by (done || lia). f_equal. f_equal. f_equal. lia. }
  rewrite <- (Hd 1), <- (Hd 2), <- (Hd 3), <- (Hd 4), <- (Hd 5), <- (Hd 6), <- (Hd 7) by lia.
  rewrite !nibble_div by lia. rewrite Z.pow_0_r, Z.div_1_r.
  change (28 - 0 * 4) with 28. by rewrite shifted_top.
Qed.

Definition regs_text (vs : list Z) : list Z := 71 :: concat (map reg2hex vs).

Lemma drop_regs vs rest (k : nat) : (k <= length vs)%nat ->
  drop (8 * k) (concat (map reg2hex vs) ++ rest) = concat (map reg2hex (drop k vs)) ++ rest.
Proof.
  revert vs. induction k as [|k IH]; intros vs Hk; [done|].
  destruct vs as [|v vs]; [simpl in Hk; lia|]. cbn [map concat].
  replace (8 * S k)%nat with (length (reg2hex v) + 8 * k)%nat by (rewrite length_reg2hex; lia).
  rewrite <- app_assoc, <- drop_drop, drop_app_length. apply IH. simpl in Hk. lia.
Qed.

Lemma reg2hex_last v : drop 7 (reg2hex v) = [hexchar (v .& 0xf)].
Proof.
  unfold reg2hex. assert (seqZ 0 8 = [0; 1; 2; 3; 4; 5; 6; 7]) as -> by done. cbn [map drop].
  by change (28 - 7 * 4) with 0; rewrite Z.shiftr_0_r.
Qed.

(** The eight characters the server takes for register [r]. *)
Lemma regs_chunk vs tail r v v' :
  vs !! r = Some v -> vs !! S r = Some v' -> is_u32 v' ->
  take 8 (drop (8 * S r) (regs_text vs ++ tail)) = reg2hex (shifted v v').
Proof.
  intros Hv Hv' Hu. unfold regs_text. replace (8 * S r)%nat with (S (8 * r + 7)) by lia. cbn [app drop].
  rewrite <- drop_drop, drop_regs by (apply lookup_lt_Some in Hv; lia).
  rewrite (drop_S vs v r) by done. rewrite (drop_S vs v' (S r)) by done. cbn [map concat].
  rewrite <- !app_assoc. rewrite drop_app_le by (rewrite length_reg2hex; lia). rewrite reg2hex_last.
  rewrite <- (shifted_digits v v' Hu). cbn [app]. by rewrite (firstn_cons 7).
Qed.

Section errors.
Context `{Target, Alloc, Unspecified} {D : Type} `{DebugUnit D} `{!DebugLaws D}.
Context (long : 4 <= long_size).
Implicit Types w : world D.

Lemma hex2reg_regs vs tail r v v' :
  vs !! r = Some v -> vs !! S r = Some v' -> is_u32 v' ->
  u32 (hex2reg_at (regs_text vs ++ tail) (Z.of_nat (S r) * 8)) = shifted v v'.
Proof.
  intros Hv Hv' Hu. unfold hex2reg_at. replace (Z.to_nat (Z.of_nat (S r) * 8)) with (8 * S r)%nat by lia.
  rewrite (regs_chunk vs tail r v v') by done.
  rewrite <- (app_nil_r (reg2hex _)), hex2reg_reg2hex by done. by apply wrap_small, shifted_u32.
Qed.

(** What register [n] holds after all registers have been written. *)
Definition regs_written (vs : list Z) w w' : Prop :=
  (forall n v v', vs !! n = Some v -> vs !! S n = Some v' -> Z.of_nat (S n) <> NPC_REGNUM ->
     gdb_register (Z.of_nat (S n)) w' = shifted v v')
  /\ (forall a, mem (target w') a = mem (target w) a).

Lemma regs_written_hears vs w w1 r s w' : regs_written vs w w1 -> hears r s w1 w' -> regs_written vs w w'.
Proof.
  intros [Hr Hm] T. split.
  - intros n v v' Hv Hv' Hn. rewrite (gdb_register_hears _ _ _ _ _ T). by apply Hr.
  - intros a. by rewrite (target_hears _ _ _ _ T).
Qed.

Lemma wp_write_block adr words n (Q : Z -> world D -> Prop) w :
  Forall is_u32 words -> n = Z.of_nat (length words) ->
  (forall a, adr <= a < adr + n -> status_reg a = false) ->
  (forall d, (forall a, a <> SPR_NPC -> spr d a = mem_write (spr (target w)) adr words a) ->
     (forall a, mem d a = mem (target w) a) -> Q 0 (set_target d w)) ->
  wp (dbg_write (cpu0_write_block adr words n)) Q w.
Proof.
  intros Hu -> Hst HQ. apply wp_dbg_write. eapply wp_mono; [by apply law_cpu0_write_block|].
  intros r d (-> & Hs & Hm & _). exists 0. split; [done|]. by apply HQ.
Qed.

(** The blocks of registers that are written hold no debug register. *)
Lemma block_not_status adr n a : (adr = SPR_GPR_BASE /\ n = MAX_GPRS) \/ (adr = SPR_NPC /\ n = 3) ->
  adr <= a < adr + n -> status_reg a = false.
Proof.
  intros Hb Ha. unfold status_reg, is_dcr.
  assert (SPR_DCR 0 = 0x3008 /\ SPR_DCR 7 = 0x300f /\ SPR_DMR2 = 0x3011 /\ SPR_GPR_BASE = 0x400 /\ SPR_NPC = 16
    /\ MAX_GPRS = 32) as (-> & -> & -> & E1 & E2 & E3) by done.
  rewrite E1, E2, E3 in Hb. lia.
Qed.

Lemma write_all_requested vs w :
  requested (regs_text vs) w -> exists tail, buf_data (rsp w) = regs_text vs ++ tail.
Proof. intros (_ & tail & E). by exists (0 :: tail). Qed.

Lemma hex2reg_words_u32 data (ns : list Z) : Forall is_u32 (map (fun n => u32 (hex2reg_at data n)) ns).
Proof. apply Forall_map, Forall_true. intros n. by apply wrap_range. Qed.

(** The blocks that are written: the general registers, and the three that are not. *)
Lemma blocks_written data (s0 s1 s2 : Z -> Z) n :
  (forall a, a <> SPR_NPC -> s1 a = mem_write s0 SPR_GPR_BASE
    (map (fun r => u32 (hex2reg_at data (r * 8))) (seqZ 0 MAX_GPRS)) a) ->
  (forall a, a <> SPR_NPC -> s2 a = mem_write s1 SPR_NPC [u32 (hex2reg_at data (NPC_REGNUM * 8));
    u32 (hex2reg_at data (SR_REGNUM * 8)); u32 (hex2reg_at data (PPC_REGNUM * 8))] a) ->
  0 <= n < NUM_REGS -> n <> NPC_REGNUM -> s2 (register_spr n) = u32 (hex2reg_at data (n * 8)).
Proof.
  intros Hs1 Hs2 Hn Hne. rewrite Hs2.
  2: { intros E. by apply (register_spr_inj n NPC_REGNUM) in E. }
  destruct (register_cases n Hn) as [[Hn1 _]|[-> |[-> | ->]]]; [|by rewrite (mem_write_in _ SPR_NPC _ 2)|done
    |by rewrite (mem_write_in _ SPR_NPC _ 1)].
  unfold register_spr. destruct (Z.ltb_spec n MAX_GPRS); [|lia].
  rewrite mem_write_out by (right; cbn [length]; unfold SPR_NPC, SPR_GPR_BASE; lia).
  rewrite Hs1 by (unfold SPR_NPC, SPR_GPR_BASE; lia).
  rewrite mem_write_in by (rewrite length_map, length_seqZ; lia).
  change (map ?f ?l) with (f <$> l). rewrite list_lookup_fmap, lookup_seqZ_lt by lia. cbn.
  by rewrite Z2Nat.id by lia.
Qed.

Lemma wp_write_all_regs vs rs rest w :
  connected w -> length vs = Z.to_nat NUM_REGS -> Forall is_u32 vs -> requested (regs_text vs) w ->
  delivers [43] rs -> reads (gdb w) = rs ++ rest ->
  wp rsp_write_all_regs (fun _ w' => exists d, regs_written vs w (set_target d w)
    /\ hears rs (frame (bytes "OK")) (set_target d w) w') w.
Proof.
  intros Hc Hl Hu Hreq Hrs Hr. destruct (write_all_requested vs w Hreq) as [tail Hd].
  unfold rsp_write_all_regs. do 2 rsp_pure. rewrite Hd. rsp_pure. apply wp_write_block; [|done|by intros a; apply block_not_status; left|].
  { change (map ?f ?l) with (map (fun n => u32 (hex2reg_at (regs_text vs ++ tail) n)) (map (fun r => r * 8) l)).
    apply hex2reg_words_u32. }
  intros d1 Hs1 Hm1. rsp_pure. apply wp_write_block;
    [by repeat constructor; apply wrap_range|done|by intros a; apply block_not_status; right|].
  intros d2 Hs2 Hm2. change (set_target d2 (set_target d1 w)) with (set_target d2 w). eapply wp_mono; [by eapply (wp_put_ok rs rest)|].
  intros [] w' T. exists d2. split; [|exact T]. split; [|intros a; by rewrite Hm2, Hm1].
  intros n v v' Hv Hv' Hn. pose proof (lookup_lt_Some _ _ _ Hv') as Hlt. rewrite Hl in Hlt.
  assert (is_u32 v') as Hv32 by (by eapply Forall_lookup_1).
  rewrite <- (hex2reg_regs vs tail n v v' Hv Hv' Hv32). unfold gdb_register.
  destruct (Z.eqb_spec (Z.of_nat (S n)) NPC_REGNUM); [done|]. cbn [andb].
  apply (blocks_written _ (spr (target w)) (spr d1)); [done|done| |done].
  unfold NUM_REGS, MAX_GRPS in *. lia.
Qed.

Lemma digits_regs vs : digits (concat (map reg2hex vs)).
Proof. apply Forall_concat, Forall_map, Forall_true. intros v. apply digits_reg2hex. Qed.

Lemma request_write_all vs rs rest w :
  session w -> length vs = Z.to_nat NUM_REGS -> Forall is_u32 vs -> asked (regs_text vs) rs rest w ->
  wp rsp_client_request (fun _ w' => said (bytes "OK") rest w w' /\ regs_written vs w w') w.
Proof.
  intros Hs Hl Hu Hask.
  assert (plain_text (regs_text vs)) as Hp by (constructor; [done|apply digits_plain, digits_regs]).
  eapply wp_mono.
  { apply (wp_plain_request (fun w1 w2 => regs_written vs w1 w2) (bytes "OK") 71 (concat (map reg2hex vs)) rs rest);
      try done.
    intros w1 r2 (Hc1 & Hb1 & Hr1) Hreq Hr2 Hr _ _ _. cbn [request_stopped switch Z.eqb Pos.eqb].
    eapply wp_mono; [by eapply (wp_write_all_regs vs r2 rest)|]. intros [] w' (d & Hw & T).
    by exists (set_target d w1). }
  intros [] w' [Hsv Hr]. split; [by eapply served_said|].
  destruct Hsv as (r1 & r2 & w1 & w2 & T1 & _ & [Hw Hm] & T2 & _).
  destruct (regs_written_hears vs w1 w2 _ _ w' (conj Hw Hm) T2) as [Hw' Hm'].
  split; [done|]. intros a. by rewrite Hm', (target_hears _ _ _ _ T1).
Qed.

(** * Watchpoints *)

(** What the control register of a watchpoint says, by the type of the request. *)
Definition hardware_dcr (type : Z) : option Z :=
  switch type [(BP_HARDWARE, Some 0x23); (WP_WRITE, Some 0x63); (WP_READ, Some 0x43); (WP_ACCESS, Some 0xC3)]
    None.

Definition watch_text (set : bool) (type : Z) (ads : list Z) : list Z :=
  matchpoint_text (if set then 90 else 122) type ads.

Lemma hardware_cases type dcr : hardware_dcr type = Some dcr ->
  (type = 1 /\ dcr = 0x23) \/ (type = 2 /\ dcr = 0x63) \/ (type = 3 /\ dcr = 0x43) \/ (type = 4 /\ dcr = 0xC3).
Proof.
  unfold hardware_dcr. cbn [switch]. unfold BP_HARDWARE, WP_WRITE, WP_READ, WP_ACCESS.
  repeat match goal with |- context [?a =? ?b] => destruct (Z.eqb_spec a b) end; intros [= <-]; auto.
Qed.

Lemma set_watch_handler type dcr ads addr w (Q : unit -> world D -> Prop) :
  hardware_dcr type = Some dcr -> gdb_number ads addr -> requested (watch_text true type ads) w ->
  wp (insert_hardware type addr dcr) Q w -> wp (request_stopped 90) Q w.
Proof.
  intros Ht Ha Hreq HQ. cbn [request_stopped switch Z.eqb Pos.eqb]. unfold rsp_insert_matchpoint. rsp_pure.
  assert (0 <= type < 10) as Hr by (destruct (hardware_cases _ _ Ht) as [[-> _]|[[-> _]|[[-> _]|[-> _]]]]; lia).
  eapply wp_command; [by apply (matchpoint_plain 90 type ads addr)|done|]. rsp_pure.
  eapply wp_lift; [by apply (scan_matchpoint 90 type ads addr)|].
  by destruct (hardware_cases _ _ Ht) as [[-> ->]|[[-> ->]|[[-> ->]|[-> ->]]]].
Qed.

Lemma remove_watch_handler type dcr ads addr w (Q : unit -> world D -> Prop) :
  hardware_dcr type = Some dcr -> gdb_number ads addr -> requested (watch_text false type ads) w ->
  wp (remove_hardware type addr) Q w -> wp (request_stopped 122) Q w.
Proof.
  intros Ht Ha Hreq HQ. cbn [request_stopped switch Z.eqb Pos.eqb]. unfold rsp_remove_matchpoint. rsp_pure.
  assert (0 <= type < 10) as Hr by (destruct (hardware_cases _ _ Ht) as [[-> _]|[[-> _]|[[-> _]|[-> _]]]]; lia).
  eapply wp_command; [by apply (matchpoint_plain 122 type ads addr)|done|]. rsp_pure.
  eapply wp_lift; [by apply (scan_matchpoint 122 type ads addr)|].
  by destruct (hardware_cases _ _ Ht) as [[-> ->]|[[-> ->]|[[-> ->]|[-> ->]]]].
Qed.

(** The watchpoints, the table and the target, after a request about watchpoints. *)
Definition watch_state (in_use : list Z) (map : Z * Z -> option Z) (s : Z -> Z) w : Prop :=
  hwp_in_use w = in_use /\ mp_wf (mp_hash (rsp w)) /\ (forall k, mp_map (mp_hash (rsp w)) k = map k)
  /\ forall a, spr (target w) a = s a.

Lemma watch_state_hears u m s r t w w' : hears r t w w' -> watch_state u m s w -> watch_state u m s w'.
Proof.
  intros T (Hu & Hwf & Hm & Hs). unfold watch_state.
  rewrite (hears_hash _ _ _ _ T), (target_hears _ _ _ _ T). split; [|done].
  destruct T as (T & _). by rewrite (talks_hwp _ _ _ _ T).
Qed.

Lemma request_watch u m s u' m' s' c type ads rs rest w :
  session w -> watch_state u m s w -> asked (matchpoint_text c type ads) rs rest w ->
  plain_text (matchpoint_text c type ads) ->
  (forall w1 r2, session w1 -> watch_state u m s w1 -> requested (matchpoint_text c type ads) w1 ->
     delivers [43] r2 -> reads (gdb w1) = r2 ++ rest ->
     wp (request_stopped c) (fun _ w' => exists hash d, watch_state u' m' s' (world_with u' hash d w1)
       /\ hears r2 (frame (bytes "OK")) (world_with u' hash d w1) w') w1) ->
  wp rsp_client_request (fun _ w' => said (bytes "OK") rest w w' /\ watch_state u' m' s' w') w.
Proof.
  intros Hs Hst Hask Hp HQ. eapply wp_mono.
  { apply (wp_plain_request (fun _ w2 => watch_state u' m' s' w2) (bytes "OK") c
      (48 + type :: 44 :: ads ++ [44; 52]) rs rest); try done.
    intros w1 r2 Hs1 Hreq Hr2 Hr Hhm Hhwp E.
    assert (watch_state u m s w1) as Hst1.
    { destruct Hst as (Hu & Hwf & Hm & Hss). unfold watch_state, target. rewrite Hhm, Hhwp.
      unfold same_but_buf in E. by rewrite E. }
    eapply wp_mono; [by apply HQ|]. intros [] w' (hash & d & Hst2 & T).
    exists (world_with u' hash d w1). split; [done|]. by split. }
  intros [] w' [Hsv Hr]. split; [by eapply served_said|].
  destruct Hsv as (r1 & r2 & w1 & w2 & _ & _ & Hst2 & T2 & _). by eapply watch_state_hears.
Qed.

Context (malloc_all : forall n, malloc_ok n = true).

Lemma hex_text_nonneg ds v : hex_text ds v -> 0 <= v.
Proof.
  intros (_ & Hds & <-). unfold number.
  enough (forall n, 0 <= n -> 0 <= fold_left (fun n c => 16 * n + hex c) ds n) as Hn by by apply Hn.
  induction Hds as [|c ds Hc Hds IH]; intros n Hn; [done|]. apply IH.
  pose proof (hex_digit c Hc). lia.
Qed.

Lemma watch_text_plain (set : bool) type dcr ads addr :
  hardware_dcr type = Some dcr -> gdb_number ads addr -> plain_text (watch_text set type ads).
Proof.
  intros Ht Ha. apply (matchpoint_plain _ type ads addr); [by destruct set| |done].
  destruct (hardware_cases _ _ Ht) as [[-> _]|[[-> _]|[[-> _]|[-> _]]]]; lia.
Qed.

(** The table after an entry has been added, which does not change one there is, and after
    one has been deleted. *)
Definition table_add (key : Z * Z) (v : Z) (map : Z * Z -> option Z) (k : Z * Z) : option Z :=
  if bool_decide (k = key) then Some (default v (map k)) else map k.
Definition table_delete (key : Z * Z) (map : Z * Z -> option Z) (k : Z * Z) : option Z :=
  if bool_decide (k = key) then None else map k.

Lemma watch_spr_ext i addr dcr s s' a : (forall x, s' x = s x) -> watch_spr i addr dcr s' a = watch_spr i addr dcr s a.
Proof. intros E. unfold watch_spr. by rewrite !E. Qed.

Lemma unwatch_spr_ext i s s' a : (forall x, s' x = s x) -> unwatch_spr i s' a = unwatch_spr i s a.
Proof. intros E. unfold unwatch_spr. by rewrite !E. Qed.

Lemma request_set_watch type dcr ads addr i u m s rs rest w :
  session w -> watch_state u m s w -> hardware_dcr type = Some dcr -> gdb_number ads addr ->
  0 <= i < HWP_MAX_WP -> hwp_get_available_watchpoint u = (i, <[Z.to_nat i := 1]> u) ->
  asked (watch_text true type ads) rs rest w ->
  wp rsp_client_request (fun _ w' => said (bytes "OK") rest w w'
    /\ watch_state (<[Z.to_nat i := 1]> u) (table_add (type, addr) i m) (watch_spr i addr dcr s) w') w.
Proof.
  intros Hs Hst Ht Ha Hi Hav Hask. pose proof (watch_text_plain true type dcr ads addr Ht Ha) as Hp.
  eapply request_watch; [exact Hs|exact Hst|exact Hask|exact Hp|].
  intros w1 r2 (Hc1 & _) (Hu & Hwf & Hm & Hss) Hreq Hr2 Hr. eapply set_watch_handler; [exact Ht|exact Ha|exact Hreq|].
  destruct (mp_hash_add_spec (mp_hash (rsp w1)) type addr i (malloc_all _) Hwf) as (hash & Hadd & Hwf' & Hh).
  assert (is_u32 addr) as Hau.
  { destruct Ha as (Ht' & _ & Hlt). split; [|done]. by apply hex_text_nonneg in Ht'. }
  assert (is_u32 dcr) as Hdu by (destruct (hardware_cases _ _ Ht) as [[_ ->]|[[_ ->]|[[_ ->]|[_ ->]]]]; done).
  eapply wp_mono; [by eapply (wp_insert_hardware type addr dcr i hash r2 rest); rewrite ?Hu|].
  intros [] w' (d & Hd & Hmem & T). exists hash, d. rewrite Hu in T. split; [|exact T].
  split; [done|]. split; [done|]. split.
  - intros k. cbn. rewrite Hh. unfold table_add. by rewrite !Hm.
  - intros a. cbn. rewrite Hd. by apply watch_spr_ext.
Qed.

Lemma request_remove_watch type dcr ads addr i u m s rs rest w :
  session w -> watch_state u m s w -> hardware_dcr type = Some dcr -> gdb_number ads addr ->
  0 <= i < HWP_MAX_WP -> m (type, addr) = Some i -> asked (watch_text false type ads) rs rest w ->
  wp rsp_client_request (fun _ w' => said (bytes "OK") rest w w'
    /\ watch_state (<[Z.to_nat i := 0]> u) (table_delete (type, addr) m) (unwatch_spr i s) w') w.
Proof.
  intros Hs Hst Ht Ha Hi Hmap Hask. pose proof (watch_text_plain false type dcr ads addr Ht Ha) as Hp.
  eapply request_watch; [exact Hs|exact Hst|exact Hask|exact Hp|].
  intros w1 r2 (Hc1 & _) (Hu & Hwf & Hm & Hss) Hreq Hr2 Hr.
  eapply remove_watch_handler; [exact Ht|exact Ha|exact Hreq|].
  eapply wp_mono; [by eapply (wp_remove_hardware type addr i r2 rest); rewrite ?Hm|].
  intros [] w' (hash & d & Hwf' & Hh & Hd & Hmem & T). exists hash, d. rewrite Hu in T. split; [|exact T].
  split; [done|]. split; [done|]. split.
  - intros k. cbn. rewrite Hh. unfold table_delete. by rewrite Hm.
  - intros a. cbn. rewrite Hd. by apply unwatch_spr_ext.
Qed.

(** The registers of two watchpoints are different. *)
Lemma two_watchpoints i j : 0 <= i < HWP_MAX_WP -> 0 <= j < HWP_MAX_WP -> i <> j ->
  (SPR_DVR j =? SPR_DCR i) = false /\ (SPR_DVR j =? SPR_DMR2) = false /\ (SPR_DVR j =? SPR_DMR1) = false
  /\ (SPR_DVR j =? SPR_DCR j) = false /\ (SPR_DCR j =? SPR_DCR i) = false
  /\ Z.testbit (not32 (Z.shiftl 1 (12 + i))) (12 + j) = true.
Proof.
  intros Hi Hj Hne.
  assert (SPR_DVR j = SPRGROUP_D + 0 + j /\ SPR_DCR i = SPRGROUP_D + 8 + i /\ SPR_DCR j = SPRGROUP_D + 8 + j)
    as (E1 & E2 & E3) by done.
  rewrite E1, E2, E3. unfold SPRGROUP_D, SPR_DMR1, SPR_DMR2, HWP_MAX_WP, SPRGROUP_D in *.
  rewrite !Z.eqb_neq. do 5 (split; [lia|]).
  unfold not32, wrap. rewrite Z.mod_pow2_bits_low by lia.
  rewrite Z.lnot_spec, Z.shiftl_1_l, Z.pow2_bits_eqb by lia. by destruct (Z.eqb_spec (12 + i) (12 + j)); [lia|].
Qed.

Lemma is_dcr_at i : 0 <= i < HWP_MAX_WP -> is_dcr (SPR_DCR i) = true.
Proof. apply (Z_range_check 8 (fun i => is_dcr (SPR_DCR i) = true)). by vm_compute. Qed.

(** What the debug registers hold when two watchpoints have been set up for the same
    address and the first has been disabled. *)
Lemma watchpoint_left i j addr dcr s : 0 <= i < HWP_MAX_WP -> 0 <= j < HWP_MAX_WP -> i <> j ->
  let s' := unwatch_spr i (watch_spr j addr dcr (watch_spr i addr dcr s)) in
  s' (SPR_DVR j) = addr /\ s' (SPR_DCR j) .& not32 1 = dcr .& not32 1 /\ Z.testbit (s' SPR_DMR2) (12 + j) = true.
Proof.
  intros Hi Hj Hne. destruct (two_watchpoints i j Hi Hj Hne) as (E1 & E2 & E3 & E4 & E5 & Hb).
  destruct (debug_regs_distinct i Hi) as (F1 & _). destruct (debug_regs_distinct j Hj) as (G1 & G2 & G3 & G4 & _ & G6 & _).
  assert ((SPR_DCR j =? SPR_DMR1) = false) as G4' by (rewrite Z.eqb_sym; exact G4).
  assert ((SPR_DMR2 =? SPR_DMR1) = false) as G3' by done.
  cbn zeta. unfold unwatch_spr, watch_spr. rewrite E1, E2, E3, E4, E5, G6, G4', G3', F1, !Z.eqb_refl.
  split; [done|]. split; [by apply store_dcr_control, is_dcr_at|].
  rewrite store_dmr2_bit by (unfold HWP_MAX_WP in *; lia). rewrite Z.land_spec, store_dmr2_bit by (unfold HWP_MAX_WP in *; lia).
  rewrite Z.lor_spec, Hb, (Z.shiftl_1_l (12 + j)), Z.pow2_bits_true by lia. by rewrite orb_true_r.
Qed.
End errors.
