(* ===== verification/RspBounds.v ===== *)
(** The buffer of a packet stays within its bounds, whatever is received and however the
    connection is lost.  What get_packet does is undefined only for a checksum that does
    not begin with a digit, and it waits only for a client that has sent all it will. *)

From S2P Require Import Prelude Scanf StateM Tap Cable Chain AdvDbg RspData DebugUnit HwMonitor Rsp.
From S2P Require Import RspFacts RspPacket RspCmdFacts MonitorFacts MonitorConn.
From stdpp Require Import gmap list.

Open Scope Z_scope.

(** * Commands that may wait, or be undefined, under a condition *)

Section safe.
Context {S : Type} (may_wait may_undef : Prop).
Implicit Types I : S -> Prop.

(** From a state with [I] the command ends with [Q], or waits, or is undefined. *)
Definition safe {A} I (m : M S A) (Q : A -> S -> Prop) : Prop :=
  forall s, I s -> match m s with Ok (a, s') => Q a s' | Hang => may_wait | Undef => may_undef | AssertFail => False end.

Lemma safe_ret {A} (a : A) (Q : A -> S -> Prop) : safe (Q a) (mret a) Q.
Proof. by intros s. Qed.

Lemma safe_bind {A B} I (m : M S A) (f : A -> M S B) J Q :
  safe I m J -> (forall a, safe (J a) (f a) Q) -> safe I (m ≫= f) Q.
Proof.
  intros Hm Hf s Hs. unfold mbind, M_bind. specialize (Hm s Hs).
  destruct (m s) as [[a s1]| | |]; [by apply Hf|done..].
Qed.

Lemma safe_pre {A} I (J : S -> Prop) (m : M S A) Q : (forall s, I s -> J s) -> safe J m Q -> safe I m Q.
Proof. intros HI Hm s Hs. by apply Hm, HI. Qed.

Lemma safe_post {A} I (m : M S A) P (Q : A -> S -> Prop) :
  safe I m P -> (forall a s, P a s -> Q a s) -> safe I m Q.
Proof. intros Hm HQ s Hs. specialize (Hm s Hs). destruct (m s) as [[a s1]| | |]; auto. Qed.

Lemma safe_gets {A} I (f : S -> A) : safe I (gets f) (fun _ => I).
Proof. by intros s. Qed.

Lemma safe_modify I f (Q : unit -> S -> Prop) : (forall s, I s -> Q tt (f s)) -> safe I (modify f) Q.
Proof. intros Hf s Hs. by apply Hf. Qed.

Lemma safe_never {A} I (m : M S A) Q : (forall s, ~ I s) -> safe I m Q.
Proof. intros HI s Hs. by destruct (HI s). Qed.

(** Commands of this kind keep [I]. *)
Definition safe_keeps {A} I (m : M S A) : Prop := safe I m (fun _ => I).

Lemma safe_keeps_bind {A B} I (m : M S A) (f : A -> M S B) :
  safe_keeps I m -> (forall a, safe_keeps I (f a)) -> safe_keeps I (m ≫= f).
Proof. intros Hm Hf. by eapply safe_bind. Qed.
End safe.

Create HintDb safe.

(** [safe]: a goal about a command follows its structure down to commands the hints of
    the database [safe] know. *)
Ltac safe :=
  cbv zeta;
  lazymatch goal with
  | |- safe_keeps _ _ _ (mret _) => exact (safe_ret _ _ _ _)
  | |- safe_keeps _ _ _ (if ?b then _ else _) => destruct b; safe
  | |- safe_keeps _ _ _ (match ?x with _ => _ end) => destruct x; safe
  | |- safe_keeps _ _ _ (_ ≫= _) => apply safe_keeps_bind; [safe|intros ?; safe]
  | |- ?G => first [solve [eauto with safe] | idtac "stuck:" G; fail]
  end.

(** * The monitor of a server that goes *)

Section monitor.
Context {D : Type} `{DebugUnit D} `{!DebugLaws D}.
Context (may_wait may_undef : Prop).
Implicit Types m : hwmon D.

Lemma monitor_ok_same m m' :
  monitor_ok m -> num_monitor_connections m' = num_monitor_connections m ->
  connections m' = connections m -> same_pipes (io m) (io m') -> pipes_mutex m' = pipes_mutex m -> monitor_ok m'.
Proof. intros [Hok Hx] E1 E2 E3 E4. split; [by apply (conn_ok_same m)|congruence]. Qed.

Lemma safe_write_pipe fd c : safe_keeps may_wait may_undef monitor_ok (write_pipe (D := D) fd c).
Proof. apply safe_modify. intros m Hm. apply (monitor_ok_same m); try done. apply same_write. Qed.

Lemma safe_unregister fds : safe_keeps may_wait may_undef monitor_ok (unregister_with_monitor_thread (D := D) fds).
Proof.
  intros m Hm. destruct (decide (fds ∈ map server_fds (active m))) as [Hf|Hf].
  - change (map ?f ?l) with (f <$> l) in Hf. apply list_elem_of_fmap in Hf as (c & -> & Hc).
    apply list_elem_of_lookup in Hc as [i Hi].
    destruct (wp_unregister m i c Hm Hi) as (r & m' & -> & _ & Hu). apply Hu.
  - by rewrite wp_unregister_unknown.
Qed.

End monitor.

Section bounds.
Context `{Target, Alloc, Unspecified} {D : Type} `{DebugUnit D} `{!DebugLaws D}.
Implicit Types w : world D.

(** * What arrives *)

(** The connection is not lost with this result. *)
Definition live (r : read_result) : Prop := match r with Char _ | ReadAgain => True | _ => False end.

Lemma live_again k : Forall live (replicate k ReadAgain).
Proof. by apply list.Forall_replicate. Qed.

(** The mark of the end of a packet is followed by a character that is no digit. *)
Definition bad_mark (rs : list read_result) : Prop :=
  exists pre c k c' post, rs = pre ++ Char c :: replicate k ReadAgain ++ Char c' :: post
    /\ u8 c = 35 /\ isxdigit (u8 c') = false.

Section with_reads.
Context (rs0 : list read_result).
Abbreviation safe := (safe (Forall live rs0) (bad_mark rs0)).
Abbreviation safe_keeps := (safe_keeps (Forall live rs0) (bad_mark rs0)).

(** Of the results [rs0] those that are left, [n] at most, have not been used, and the
    connection is there; or it is lost. *)
Definition hearing (n : nat) (fd : Z) (rs : list read_result) : Prop :=
  (fd = -1 \/ exists pre, rs0 = pre ++ rs /\ Forall live pre) /\ (length rs <= n)%nat.

(** The last character was the mark. *)
Definition marked w : Prop := exists pre c, rs0 = pre ++ Char c :: reads (gdb w) /\ u8 c = 35.

(** * Parts of the server that leave the buffer alone *)

Definition buffer_of (r : rsp_t) : list Z * Z := (buf_data r, buf_len r).

Record buffer_is (P : list Z * Z -> Prop) (R : Z -> list read_result -> Prop) w : Prop := BufferIs {
  buffer_ok : P (buffer_of (rsp w));
  buffer_monitor : monitor_ok (hm w);
  buffer_hears : R (client_fd (rsp w)) (reads (gdb w))
}.

Section with_buffer.
Context (P : list Z * Z -> Prop) (R : Z -> list read_result -> Prop) (R_lost : forall fd rs, R fd rs -> R (-1) rs).
Abbreviation aside m := (safe_keeps (buffer_is P R) m).

Lemma aside_get {A} (f : rsp_t -> A) : aside (get f).
Proof. apply safe_gets. Qed.

Lemma aside_gets {A} (f : world D -> A) : aside (gets f).
Proof. apply safe_gets. Qed.

Lemma aside_put f :
  (forall r, buffer_of (f r) = buffer_of r /\ (client_fd (f r) = client_fd r \/ client_fd (f r) = -1)) -> aside (put f).
Proof.
  intros Hf. apply safe_modify. intros w [Hw Hm Hh]. destruct (Hf (rsp w)) as [E Hfd].
  split; cbn; [by rewrite E|done|]. destruct Hfd as [-> | ->]; [done|by eapply R_lost].
Qed.

Lemma aside_upd f : (forall g, reads (f g) = reads g) -> aside (modify (upd_gdb f)).
Proof. intros Hf. apply safe_modify. intros w [Hw Hm Hh]. split; cbn; [done..|by rewrite Hf]. Qed.

Lemma aside_on_hm {A} (f : M (hwmon D) A) :
  RspBounds.safe_keeps (Forall live rs0) (bad_mark rs0) monitor_ok f -> aside (on_hm f).
Proof.
  intros Hf w [Hw Hm Hh]. specialize (Hf _ Hm). unfold on_hm. by destruct (f (hm w)) as [[b m]| | |].
Qed.

Hint Resolve aside_get aside_gets : safe.
Hint Resolve aside_on_hm safe_write_pipe safe_unregister : safe.
Hint Extern 2 (safe_keeps _ (put _)) => (apply aside_put; intros r; split; [done|first [by left|by right]]) : safe.
Hint Extern 2 (safe_keeps _ (modify (upd_gdb _))) => (apply aside_upd; done) : safe.

Lemma aside_stall stall : aside (set_stall_state stall).
Proof. unfold set_stall_state. safe. Qed.
Hint Resolve aside_stall : safe.

Lemma aside_write_dsr : aside (write_spr SPR_DSR 0).
Proof.
  unfold write_spr, dbg_write. intros w [Hw Hm Hh]. unfold mbind, M_bind, dbg, on_hm, on_unit.
  destruct (law_cpu0_write SPR_DSR (u32 0) (unit_of (hm w))) as (r & d & -> & -> & _); [done|by apply wrap_range|].
  cbn. split; [done| |done]. by apply (monitor_ok_same (hm w)).
Qed.
Hint Resolve aside_write_dsr : safe.

Lemma aside_client_close : aside rsp_client_close.
Proof. unfold rsp_client_close. safe. Qed.
Hint Resolve aside_client_close : safe.

Lemma aside_put_rsp_char c : aside (put_rsp_char c).
Proof. unfold put_rsp_char. safe. Qed.
Hint Resolve aside_put_rsp_char : safe.

End with_buffer.

(** * A character *)

Lemma hearing_lost n fd rs : hearing n fd rs -> hearing n (-1) rs.
Proof. intros [_ Hn]. by split; [left|]. Qed.

Lemma read_loop_spec rs :
  match read_loop rs with
  | Ok (Some c, rest) => exists k x, rs = replicate k ReadAgain ++ Char x :: rest /\ c = u8 x
  | Ok (None, rest) => (length rest <= length rs)%nat
  | Hang => exists k, rs = replicate k ReadAgain
  | AssertFail | Undef => False
  end.
Proof.
  induction rs as [|[x| | |] rs IH]; cbn [read_loop]; [by exists 0%nat|by exists 0%nat, x| |simpl; lia..].
  destruct (read_loop rs) as [[[c|] rest]| | |]; [|simpl in *; lia| |done..].
  - destruct IH as (k & x & -> & ->). by exists (S k), x.
  - destruct IH as (k & ->). by exists (S k).
Qed.

Section chars.
Context (P : list Z * Z -> Prop).
Abbreviation heard n := (buffer_is P (hearing n)).

(** Either the connection is lost, or one character is used up. *)
Definition char_from (n : nat) (w : world D) (c : Z) (w' : world D) : Prop :=
  if c =? -1 then heard n w' /\ client_fd (rsp w') = -1
  else heard (pred n) w' /\ (0 < n)%nat
    /\ exists pre k x, rs0 = pre ++ reads (gdb w) /\ c = u8 x
          /\ reads (gdb w) = replicate k ReadAgain ++ Char x :: reads (gdb w').

(** Losing it. *)
Lemma safe_client_close n w0 w :
  P (buffer_of (rsp w)) -> monitor_ok (hm w) -> (length (reads (gdb w)) <= n)%nat ->
  safe (eq w) (rsp_client_close;; mret (-1)) (char_from n w0).
Proof.
  intros Hb Hm Hn ? <-. unfold mbind, M_bind.
  pose proof (aside_client_close P (fun _ rs => (length rs <= n)%nat) ltac:(done) w) as Hc.
  specialize (Hc ltac:(by split)). pose proof (client_close_fd w) as Hfd.
  destruct (rsp_client_close w) as [[[] w']| | |]; [|done..]. specialize (Hfd _ eq_refl). cbn in Hfd.
  destruct Hc as [Hb' Hm' Hn']. unfold char_from. cbn [Z.eqb Pos.eqb]. split; [|done].
  split; [done..|]. rewrite Hfd. by split; [left|].
Qed.

Lemma safe_get_rsp_char n w : heard n w -> safe (eq w) get_rsp_char (char_from n w).
Proof.
  intros Hw ? <-. unfold get_rsp_char, get, gets, lift, modify. unfold mbind at 1, M_bind at 1.
  destruct (Z.eqb_spec (client_fd (rsp w)) (-1)) as [Hfd|Hfd]; [by split|].
  destruct Hw as [Hb Hm [[Hh|(pre & Hpre & Hlive)] Hn]]; [done|].
  unfold mbind at 1 2, M_bind at 1 2.
  pose proof (read_loop_spec (reads (gdb w))) as Hr.
  destruct (read_loop (reads (gdb w))) as [[[c|] rest]| | |]; cbv beta iota; [| | |done..].
  - destruct Hr as (k & x & Hr & ->). unfold mbind, M_bind, char_from.
    cbn [mret M_ret]. destruct (Z.eqb_spec (u8 x) (-1)) as [E|_].
    { pose proof (wrap_range 8 x ltac:(done)) as [? _]. lia. }
    rewrite Hr, length_app in Hn. simpl in Hn. split; [|split; [lia|by exists pre, k, x]].
    split; [done..|]. split; [|cbn; lia]. right. exists (pre ++ replicate k ReadAgain ++ [Char x]). cbn. split.
    + by rewrite Hpre, Hr, <- !app_assoc.
    + apply Forall_app; split; [done|]. apply Forall_app; split; [apply live_again|]. by constructor.
  - unfold mbind at 1, M_bind at 1. cbv beta iota.
    apply (safe_client_close n w (upd_gdb (set_reads rest) w)); [done..|cbn; lia|done].
  - destruct Hr as (k & Hr). rewrite Hpre, Hr. apply Forall_app; split; [done|apply live_again].
Qed.

Lemma heard_mono n n' w : (n <= n')%nat -> heard n w -> heard n' w.
Proof. intros Hn [Hb Hm [Hh Hl]]. split; [done..|]. split; [done|lia]. Qed.

(** What comes after a character. *)
Lemma safe_char {A} n (I : world D -> Prop) (f : Z -> M (world D) A) (Q : A -> world D -> Prop) :
  (forall w, I w -> heard n w) ->
  safe (fun w => heard n w /\ client_fd (rsp w) = -1) (f (-1)) Q ->
  (forall w c, I w -> c <> -1 -> (0 < n)%nat ->
    safe (fun w' => heard (pred n) w' /\ exists pre k x, rs0 = pre ++ reads (gdb w) /\ c = u8 x
          /\ reads (gdb w) = replicate k ReadAgain ++ Char x :: reads (gdb w')) (f c) Q) ->
  safe I (get_rsp_char ≫= f) Q.
Proof.
  intros HI Hlost Hchar w Hw. refine (safe_bind _ _ (eq w) _ f (char_from n w) Q _ _ w eq_refl).
  { apply safe_get_rsp_char. by apply HI. }
  intros c w' Hc. unfold char_from in Hc. destruct (Z.eqb_spec c (-1)) as [->|Hne]; [by apply Hlost|].
  destruct Hc as (Hc & Hn & Hx). by apply (Hchar w c Hw Hne Hn).
Qed.

(** It stands behind the results used before it. *)
Lemma char_marked w k x : forall pre rest, rs0 = pre ++ rest -> rest = replicate k ReadAgain ++ Char x :: reads (gdb w) ->
  u8 x = 35 -> marked w.
Proof. intros pre rest -> ->. exists (pre ++ replicate k ReadAgain), x. by rewrite <- app_assoc. Qed.

Lemma char_bad_mark w k x rest : marked w -> reads (gdb w) = replicate k ReadAgain ++ Char x :: rest ->
  isxdigit (u8 x) = false -> bad_mark rs0.
Proof. intros (pre & c & -> & Hc) -> Hx. by exists pre, c, k, x, rest. Qed.

(** * The start and the checksum *)

Lemma safe_wait_start fuel n : (n < fuel)%nat ->
  safe (heard n) (wait_start fuel) (fun c w => if c =? -1 then heard n w /\ client_fd (rsp w) = -1
      else heard (pred n) w /\ (0 < n)%nat /\ no_mark c).
Proof.
  revert n. induction fuel as [|fuel IH]; intros n Hn; cbn [wait_start]; [lia|].
  apply (safe_char n); [done| |].
  - by intros w' Hw'.
  - intros w c _ Hne Hpos. destruct (Z.eqb_spec c (-1)); [done|]. rewrite orb_false_r.
    destruct ((c =? 36) || (c =? 3)) eqn:Hc.
    + intros w' [Hw' _]. cbn. destruct (Z.eqb_spec c (-1)); [done|]. split; [done|]. split; [done|]. split; lia.
    + eapply safe_pre; [|eapply safe_post; [apply (IH (pred n)); lia|]]; [by intros w' [Hw' _]|].
      intros c' w'. cbv beta. destruct (c' =? -1).
      * intros [Hw' Hfd]. split; [|done]. eapply heard_mono; [|done]. lia.
      * intros (Hw' & _ & Hc'). split; [|done]. eapply heard_mono; [|done]. lia.
Qed.

(** The first character of the checksum is a digit, or what follows the mark is not. *)
Lemma safe_get_checksum n cs :
  safe (fun w => heard n w /\ marked w) (get_checksum cs)
    (fun a w => heard n w /\ (a = NoPacket -> client_fd (rsp w) = -1)).
Proof.
  unfold get_checksum. apply (safe_char n); [by intros w [Hw _]|by intros w [Hw Hfd]|].
  intros w c [_ Hmark] Hne _. destruct (Z.eqb_spec c (-1)); [done|].
  intros w1 (Hw1 & pre & k & x & _ & -> & Hr). unfold mbind at 1, M_bind at 1, lift.
  destruct (isxdigit (u8 x)) eqn:Hx.
  2: { assert (hex (u8 x) = -1) as -> by (unfold isxdigit in Hx; by destruct (Z.eqb_spec (hex (u8 x)) (-1))).
       exact (char_bad_mark w k x _ Hmark Hr Hx). }
  destruct (shl_digit _ 0 Hx) as [-> _]. cbv beta iota zeta.
  apply (heard_mono _ n) in Hw1; [|lia]. revert w1 Hw1 Hr. 
  enough (forall s, safe (heard n) (ch ← get_rsp_char; if ch =? -1 then mret NoPacket else
    if negb (cs =? u8 (s + hex ch)) then put_rsp_char 45;; mret Again else put_rsp_char 43;; mret Packet)
    (fun a w => heard n w /\ (a = NoPacket -> client_fd (rsp w) = -1))) as Hs by (intros w1 Hw1 _; by apply Hs).
  intros s. apply (safe_char n); [done|by intros w1 [Hw1 Hfd]|]. intros w1 c' _ Hne' _.
  destruct (Z.eqb_spec c' (-1)); [done|]. apply (safe_pre _ _ _ (heard n)).
  { intros w2 [Hw2 _]. eapply heard_mono; [|done]. lia. }
  destruct (negb _); (eapply safe_bind; [apply aside_put_rsp_char, hearing_lost|]); by intros [] w2 Hw2.
Qed.
End chars.

(** * The buffer *)

Definition in_buffer (b : list Z * Z) : Prop := length b.1 = Z.to_nat GDB_BUF_MAX.

(** A packet is a string, or a break; its length and the zero that ends it are in the
    buffer. *)
Definition packet_in (b : list Z * Z) : Prop :=
  in_buffer b /\ 0 <= b.2 < GDB_BUF_MAX
  /\ (b.1 !! Z.to_nat b.2 = Some 0 \/ b.2 = 1 /\ b.1 !! 0%nat = Some 3).

Abbreviation heard n := (buffer_is in_buffer (hearing n)).

(** A character is put where the buffer has room. *)
Lemma safe_put_buf n i c (X : world D -> Prop) : 0 <= i < GDB_BUF_MAX ->
  (forall w f, X w -> X (upd_rsp f w)) ->
  safe (fun w => heard n w /\ X w) (put_buf i c)
    (fun _ w => (heard n w /\ X w) /\ buf_data (rsp w) !! Z.to_nat i = Some c).
Proof.
  intros Hi HX. rewrite put_buf_in by done. apply safe_modify. intros w [[Hw Hm Hh] Hx].
  unfold in_buffer in *. split; [split; [|by apply HX]|].
  - split; [unfold in_buffer; cbn in *; by rewrite length_insert|done..].
  - cbn in *. apply list_lookup_insert_eq. unfold GDB_BUF_MAX in *. lia.
Qed.

Definition body_result (n : nat) (r : Z * Z * Z) w : Prop :=
  heard n w /\ 0 <= r.2 < GDB_BUF_MAX
  /\ (r.1.1 = -1 -> client_fd (rsp w) = -1) /\ (r.1.1 = 35 -> marked w).

(** No more characters are put into the buffer than fit, with one place left. *)
Lemma safe_get_body fuel n ch cs count :
  0 <= count < GDB_BUF_MAX -> no_mark ch -> (n < fuel)%nat ->
  safe (heard n) (get_body fuel ch cs count) (body_result n).
Proof.
  revert n ch cs count. induction fuel as [|fuel IH]; intros n ch cs count Hc [Hch1 Hch2] Hn; cbn [get_body]; [lia|].
  destruct (Z.ltb_spec count (GDB_BUF_MAX - 1)).
  2: { intros w Hw. cbn. by split. }
  apply (safe_char in_buffer n); [done|by intros w [Hw Hfd]|]. intros w c _ Hne Hpos.
  destruct (Z.eqb_spec c (-1)); [done|].
  assert (forall (X : world D -> Prop) ch' cs' count', no_mark ch' -> 0 <= count' < GDB_BUF_MAX ->
    safe (fun w' => heard (pred n) w' /\ X w') (get_body fuel ch' cs' count') (body_result n)) as Hrec.
  { intros X ch' cs' count' Hch' Hc'. eapply safe_pre; [|eapply safe_post; [apply (IH (pred n) ch' cs' count'); [done|done|lia]|]].
    { by intros w' [Hw' _]. }
    intros r w' [Hw' Hr]. split; [|done]. eapply heard_mono; [|done]. lia. }
  destruct (Z.eqb_spec c 36) as [->|]; [apply Hrec; [done|unfold GDB_BUF_MAX; lia]|].
  destruct (Z.eqb_spec c 35) as [->|].
  - intros w' (Hw' & pre & k & x & E & Hx & Hr). split; [|split; [done|split; [done|]]].
    + eapply heard_mono; [|done]. lia.
    + intros _. by eapply char_marked.
  - eapply (safe_bind _ _ _ _ _ (fun _ w' => heard (pred n) w' /\ True)).
    + eapply safe_pre; [|eapply safe_post; [by apply (safe_put_buf (pred n) count c (fun _ => True))|]].
      * by intros w' [Hw' _].
      * by intros [] w' [Hw' _].
    + intros []. apply Hrec; [done|lia].
Qed.

(** * Attempts *)

Definition attempt_result (n : nat) (a : attempt) w : Prop :=
  match a with
  | NoPacket => heard n w /\ client_fd (rsp w) = -1
  | Packet => heard n w /\ packet_in (buffer_of (rsp w))
  | Again => heard (pred n) w /\ (0 < n)%nat
  end.

(** The length of a text that ends in the buffer. *)
Lemma safe_set_len n count (X : world D -> Prop) : 0 <= count < GDB_BUF_MAX ->
  (forall w f, X w -> X (upd_rsp f w)) ->
  safe (fun w => (heard n w /\ X w)
    /\ (buf_data (rsp w) !! Z.to_nat count = Some 0 \/ count = 1 /\ buf_data (rsp w) !! 0%nat = Some 3))
    (put (set_buf_len count)) (fun _ w => buffer_is packet_in (hearing n) w /\ X w).
Proof. intros Hc HX. apply safe_modify. intros w [[[Hw Hm Hh] Hx] Hz]. split; [by split|by apply HX]. Qed.

Lemma packet_is_in n w : buffer_is packet_in (hearing n) w -> heard n w /\ packet_in (buffer_of (rsp w)).
Proof. intros [Hw Hm Hh]. split; [|done]. split; [apply Hw|done..]. Qed.

Lemma marked_upd w f : marked w -> marked (upd_rsp f w).
Proof. done. Qed.

(** The end of a text: the zero and the length, and the checksum. *)
Lemma safe_close n ch cs count : 0 <= count < GDB_BUF_MAX -> (0 < n)%nat ->
  safe (fun w => heard (pred n) w /\ (ch = 35 -> marked w))
    (put_buf count 0;; put (set_buf_len count);; if ch =? 35 then get_checksum cs else mret Again) (attempt_result n).
Proof.
  intros Hc Hn. eapply safe_bind; [by apply (safe_put_buf (pred n) count 0 (fun w => ch = 35 -> marked w))|]. intros [].
  eapply safe_bind with (J := fun _ w => buffer_is packet_in (hearing (pred n)) w /\ (ch = 35 -> marked w)).
  { eapply safe_pre; [|by apply (safe_set_len (pred n) count)]. intros w [Hw Hz]. by split; [|left]. }
  intros _. destruct (Z.eqb_spec ch 35) as [->|].
  - eapply safe_pre; [|eapply safe_post; [apply (safe_get_checksum packet_in (pred n))|]].
    + intros w [Hw Hmk]. split; [done|by apply Hmk].
    + intros a w [Hw Ha]. apply packet_is_in in Hw as [Hw Hp]. destruct a; cbn.
      * split; [|by apply Ha]. eapply heard_mono; [|done]. lia.
      * split; [|done]. eapply heard_mono; [|done]. lia.
      * by split.
  - intros w [Hw _]. apply packet_is_in in Hw as [Hw _]. by split.
Qed.

Lemma safe_get_attempt fuel n : (n < fuel)%nat -> safe (heard n) (get_attempt fuel) (attempt_result n).
Proof.
  intros Hf. unfold get_attempt. eapply safe_bind; [by apply safe_wait_start|]. intros c. cbv beta.
  destruct (Z.eqb_spec c (-1)) as [->|Hne]; [by intros w Hw|]. destruct (Z.eqb_spec c 3) as [->|].
  - eapply safe_bind.
    { eapply safe_pre; [intros w (Hw & Hn & _); exact (conj Hw Hn)|].
      apply (safe_put_buf (pred n) 0 3 (fun _ => 0 < n)%nat); [unfold GDB_BUF_MAX; lia|done]. }
    intros []. eapply safe_bind.
    { eapply safe_pre; [|apply (safe_set_len (pred n) 1 (fun _ => 0 < n)%nat); [unfold GDB_BUF_MAX; lia|done]].
      intros w [Hw Hz]. by split; [|right]. }
    intros _ w [Hw Hn]. apply packet_is_in in Hw as [Hw Hp]. split; [|done]. eapply heard_mono; [|done]. lia.
  - intros w (Hw & Hn & Hch). refine (safe_bind _ _ (heard (pred n)) _ _ (body_result (pred n)) _ _ _ w Hw).
    { apply safe_get_body; [unfold GDB_BUF_MAX; lia|done|lia]. }
    intros [[ch cs] count] w' (Hw' & Hc & Hlost & Hmk). cbn in Hc, Hlost, Hmk.
    destruct (Z.eqb_spec ch (-1)) as [->|].
    + split; [|by apply Hlost]. eapply heard_mono; [|done]. lia.
    + by apply (safe_close n ch cs count Hc Hn w').
Qed.

(** Each attempt after which there is another uses up a result. *)
Definition packet_result (n : nat) (is_packet : bool) w : Prop :=
  heard n w /\ if is_packet then packet_in (buffer_of (rsp w)) else client_fd (rsp w) = -1.

Lemma heard_length n w : heard n w -> heard (length (reads (gdb w))) w.
Proof. intros [Hw Hm [Hh _]]. by split. Qed.

Lemma safe_get_packet_loop fuel n : (n < fuel)%nat -> safe (heard n) (get_packet_loop fuel) (packet_result n).
Proof.
  revert n. induction fuel as [|fuel IH]; intros n Hn; cbn [get_packet_loop]; [lia|].
  intros w Hw. unfold mbind at 1, M_bind at 1, gets at 1.
  pose proof (heard_length n w Hw) as Hw0. destruct Hw as [_ _ [_ Hl]]. set (l := length (reads (gdb w))) in *.
  refine (safe_bind _ _ (heard l) _ _ (attempt_result l) _ _ _ w Hw0); [apply safe_get_attempt; lia|].
  intros a w' Ha. destruct a; cbn in Ha.
  - split; [|apply Ha]. eapply heard_mono; [exact Hl|apply Ha].
  - split; [|apply Ha]. eapply heard_mono; [exact Hl|apply Ha].
  - destruct Ha as [Hw' Hpos]. pose proof (IH (pred l) ltac:(lia) w' Hw') as Hr.
    destruct (get_packet_loop fuel w') as [[b w2]| | |]; [|done..]. destruct Hr as [Hw2 Hb]. split; [|done].
    eapply heard_mono; [|done]. lia.
Qed.
End with_reads.

Lemma safe_get_packet w :
  in_buffer (buffer_of (rsp w)) -> monitor_ok (hm w) ->
  match get_packet w with
  | Ok (b, w') => in_buffer (buffer_of (rsp w')) /\ monitor_ok (hm w')
      /\ if b then packet_in (buffer_of (rsp w')) else client_fd (rsp w') = -1
  | Hang => Forall live (reads (gdb w))
  | Undef => bad_mark (reads (gdb w))
  | AssertFail => False
  end.
Proof.
  intros Hw Hm. set (rs := reads (gdb w)).
  assert (buffer_is in_buffer (hearing rs (length rs)) w) as H0w by (split; [done..|]; split; [|done]; right; by exists []).
  pose proof (safe_get_packet_loop rs (S (length rs)) (length rs) ltac:(lia) w H0w) as Hs.
  change (get_packet w) with (get_packet_loop (S (length rs)) w).
  destruct (get_packet_loop (S (length rs)) w) as [[b w']| | |]; [|done..].
  destruct Hs as [[? ? ?] ?]. done.
Qed.
End bounds.
