(* ===== verification/RspProps.v ===== *)
(** The properties of the GDB server and of the monitor thread. *)

From Stdlib Require Import String Ascii.
From S2P Require Import Prelude Scanf StateM Tap Cable Chain AdvDbg RspData RspCodec.
From S2P Require Import DebugUnit HwMonitor Rsp RspFacts RspPacket RspBounds RspCmds RspServer RspCmdFacts.
From S2P Require Import RspRequests RspErrors MonitorFacts MonitorConn RspRun.
From stdpp Require Import relations gmap list.

Open Scope Z_scope.
Open Scope cword_scope.

(** * Packets *)

Section packets.
Context `{Target, Alloc, Unspecified} {D : Type} `{DebugUnit D}.
Implicit Types w : world D.

(** C23: get_packet takes from the connection what the protocol calls a packet, and
    nothing after it: noise before the start is skipped, a start character begins the
    text again, a text that does not fit is given up, a packet whose two characters do not
    give the checksum is answered with a minus and the next awaited, and the packet whose two
    hexadecimal digits give it is answered with a plus.  Its text is then in the buffer, and
    nothing else of the server has changed.  The client is connected and no write to it
    fails.  The first of the two characters is a digit in
    every packet here, since for another the code is undefined; the second, when it is no
    digit, counts as -1, and the packets the code accepts by that are left out. *)
Theorem get_packet_correct cs replies p rs rest w :
  incoming cs replies p -> connected w -> buf_wf (rsp w) -> delivers cs rs -> reads (gdb w) = rs ++ rest ->
  wp get_packet (fun b w' => b = true /\ hears rs replies w w' /\ holds p (rsp w')
    /\ reads (gdb w') = rest) w.
Proof.
  intros Hi Hc Hb Hd Hr. eapply wp_mono; [by eapply wp_get_packet|].
  intros b w' (-> & T & Hh). split; [done|]. split; [done|]. split; [done|]. by eapply hears_rest.
Qed.

End packets.

Section packet_bounds.
Context `{Target, Alloc, Unspecified} {D : Type} `{DebugUnit D} `{!DebugLaws D}.
Implicit Types w : world D.

(** C24: Whatever arrives on the connection, and however it is lost, get_packet writes
    nothing past the end of its buffer.  When it reports a packet, the length and the zero
    that ends the text are in the buffer, or the packet is a break; when it reports none,
    the connection is closed.  It waits for ever only when the client sends nothing more and
    does not close the connection.  It is undefined only when a mark is followed by a
    character that is no hexadecimal digit, for which the code shifts -1 to the left
    (rsp-server.c:1181).  The connections of the monitor are in order when it begins, as C32
    says they are, and the debug unit answers. *)
Theorem get_packet_bounds w :
  in_buffer (buffer_of (rsp w)) -> monitor_ok (hm w) ->
  match get_packet w with
  | Ok (b, w') => in_buffer (buffer_of (rsp w')) /\ monitor_ok (hm w')
      /\ if b then packet_in (buffer_of (rsp w')) else client_fd (rsp w') = -1
  | Hang => Forall live (reads (gdb w))
  | Undef => bad_mark (reads (gdb w))
  | AssertFail => False
  end.
Proof. apply safe_get_packet. Qed.

End packet_bounds.

Section packet_texts.
Context `{Target, Alloc, Unspecified} {D : Type} `{DebugUnit D}.
Implicit Types w : world D.

(** C25: What put_packet sends, as often as the client asks for it again, can be received
    with get_packet, and rsp_unescape gives back the data, whichever bytes they are, as long
    as the data with its escapes is shorter than the buffer less one place (GDB_BUF_MAX - 1).
    A star is escaped too, and every escaped character by an exclusive or with 0x20; the
    comment of rsp_unescape (rsp-server.c:1316) names neither.  The clients are connected and no
    write to them fails. *)
Theorem packet_roundtrip data nacks r1 r2 rest1 rest2 w1 w2 :
  Forall is_u8 data -> Z.of_nat (length (escape data)) < GDB_BUF_MAX - 1 ->
  connected w1 -> Forall (fun c => c <> 43) nacks ->
  delivers (nacks ++ [43]) r1 -> reads (gdb w1) = r1 ++ rest1 ->
  connected w2 -> buf_wf (rsp w2) -> delivers (frame data) r2 -> reads (gdb w2) = r2 ++ rest2 ->
  wp (put_packet data) (fun _ w => sent (gdb w) = sent (gdb w1)
    ++ concat (replicate (S (length nacks)) (frame data)) /\ reads (gdb w) = rest1) w1
  /\ wp get_packet (fun b w => b = true /\ sent (gdb w) = sent (gdb w2) ++ [43] /\ reads (gdb w) = rest2
      /\ exists tail, rsp_unescape (buf_data (rsp w)) (buf_len (rsp w))
           = Ok (data ++ tail, Z.of_nat (length data))) w2.
Proof.
  intros Hu Hl Hc1 Hn Hd1 Hr1 Hc2 Hb2 Hd2 Hr2. split.
  - eapply wp_mono; [by eapply wp_put_packet|]. intros [] w T.
    split; [by apply (talks_sent _ _ _ _ T)|by eapply talks_rest].
  - eapply wp_mono; [by eapply (wp_get_packet _ _ _ r2 rest2 w2 (frame_incoming data Hl))|].
    intros b w (-> & T & Hlen & tail & Hbuf). split; [done|]. split; [apply (talks_sent _ _ _ _ (proj1 T))|].
    split; [by eapply hears_rest|]. rewrite Hbuf, Hlen. apply rsp_unescape_escape.
Qed.

(** C26: A request that arrives while the target runs, unless it is a break, is answered
    with a message that says so, and does nothing: the target, the monitor and the state
    of the server are what they were. *)
Theorem running_ignores_requests cs replies body r1 r2 rest w :
  connected w -> buf_wf (rsp w) -> target_running (rsp w) = true ->
  incoming cs replies (Text body) -> head body <> Some 3 ->
  delivers cs r1 -> delivers [43] r2 -> reads (gdb w) = r1 ++ r2 ++ rest ->
  wp rsp_client_request (fun _ w' => hm w' = hm w /\ hwp_in_use w' = hwp_in_use w
    /\ same_but_buf (rsp w) (rsp w')
    /\ sent (gdb w') = sent (gdb w) ++ replies ++ frame running_reply /\ reads (gdb w') = rest) w.
Proof.
  intros Hc Hb Hrun Hi Hne Hd1 Hd2 Hr. eapply wp_mono; [by eapply wp_request_running|].
  intros [] w' T. pose proof T as (T' & E & _). pose proof T' as [T1 T2 T3 T4 T5 _ _ _].
  split; [done|]. split; [done|]. split; [done|]. split; [done|].
  eapply hears_rest; [exact T|]. by rewrite <- app_assoc.
Qed.
End packet_texts.

(** * Registers, memory and breakpoints *)

Section target.
Context `{Target, Alloc, Unspecified} {D : Type} `{DebugUnit D} `{!DebugLaws D}.
Implicit Types w : world D.

(** A register that is written with P reads back with p, every other register has
    the value it had, and so has memory; both requests are answered. *)
Theorem register_roundtrip ds n v r1 r2 rest w :
  4 <= long_size -> session w -> gdb_number ds n -> 0 <= n < NUM_REGS -> is_u32 v ->
  asked (write_reg_text ds v) r1 (r2 ++ rest) w ->
  Z.of_nat (length (escape (read_reg_text ds))) < GDB_BUF_MAX - 1 -> delivers (exchange (read_reg_text ds)) r2 ->
  wp (serve 2) (fun _ w' => session w' /\ reads (gdb w') = rest
    /\ sent (gdb w') = sent (gdb w) ++ reply (bytes "OK") ++ reply (reg2hex v)
    /\ register_written n v w w') w.
Proof.
  intros long Hs Hd Hn Hv Ha1 Hl2 Hd2. cbn [serve]. rsp_pure.
  eapply wp_mono; [by eapply (request_write_reg long)|]. intros [] w1 ((Hs1 & E1 & Hr1) & Hw).
  rsp_pure. eapply wp_mono; [by eapply request_read_reg|]. intros [] w2 ((Hs2 & E2 & Hr2) & Hsame & Ht).
  rsp_pure. split; [done|]. split; [done|].
  assert (gdb_register n w1 = v) as Ev by (rewrite (proj1 Hw n Hn), Z.eqb_refl; done).
  split; [by rewrite E2, E1, Ev, <- app_assoc|]. destruct Hw as (Hreg & Hm & Hst).
  split; [intros m Hm'; by rewrite Hsame, Hreg|by rewrite Ht].
Qed.

(** C27: Bytes that are written with M, or with X as they are, are read back with m; the
    rest of memory and the registers are as they were. *)
Theorem memory_roundtrip (binary : bool) ads addr lds data r1 r2 rest w :
  (forall n, malloc_ok n = true) -> session w ->
  gdb_number ads addr -> gdb_number lds (Z.of_nat (length data)) ->
  Forall is_u8 data -> data <> [] -> 2 * Z.of_nat (length data) < GDB_BUF_MAX ->
  addr + Z.of_nat (length data) <= 2 ^ 32 ->
  asked (write_mem_text binary ads lds data) r1 (r2 ++ rest) w ->
  Z.of_nat (length (escape (read_mem_text ads lds))) < GDB_BUF_MAX - 1 ->
  delivers (exchange (read_mem_text ads lds)) r2 ->
  wp (serve 2) (fun _ w' => session w' /\ reads (gdb w') = rest
    /\ sent (gdb w') = sent (gdb w) ++ reply (bytes "OK") ++ reply (ascii2hex data)
    /\ memory_written addr data w w') w.
Proof.
  intros malloc_all Hs Ha Hlen Hu Hne Hmax Hend Ha1 Hl2 Hd2. cbn [serve]. rsp_pure.
  eapply wp_mono; [by apply (request_write_mem malloc_all binary ads addr lds data r1 (r2 ++ rest))|]. intros [] w1 ((Hs1 & E1 & Hr1) & Hw).
  rsp_pure. eapply wp_mono.
  { eapply (request_read_mem malloc_all ads addr lds (Z.of_nat (length data)) r2 rest); try done.
    destruct data; [done|cbn; lia]. }
  intros [] w2 ((Hs2 & E2 & Hr2) & Hsame & Ht). rsp_pure. split; [done|]. split; [done|].
  destruct Hw as (Hreg & Hm & Hst).
  split; [|split; [intros n Hn; by rewrite Hsame, Hreg|by rewrite Ht]].
  by rewrite E2, E1, (mem_read_ext _ _ _ _ Hm), mem_read_write, <- app_assoc.
Qed.

(** C28: However many breakpoints are set and removed with Z0 and z0, in any order and
    more than once at the same address, the program is as it was: where there is a
    breakpoint, memory has a trap and the server the word of the program, everywhere else
    memory has the word of the program.  There is a breakpoint where the last request
    said so. *)
Theorem breakpoints_transparent qs rest w :
  (forall n, malloc_ok n = true) -> Forall bp_request_ok qs ->
  Forall (fun q => Z.of_nat (length (breakpoint_text (bp_set q) (bp_digits q))) < GDB_BUF_MAX - 1) qs ->
  session w -> breakpoints_ok w -> reads (gdb w) = concat (map bp_reads qs) ++ rest ->
  wp (serve (length qs)) (fun _ w' => session w'
    /\ sent (gdb w') = sent (gdb w) ++ concat (replicate (length qs) (reply (bytes "OK")))
    /\ forall a, a mod 4 = 0 -> let set := bp_after (has_breakpoint w a) qs a in
         has_breakpoint w' a = set /\ program_word w' a = program_word w a
         /\ word_at (mem (target w')) a = if set then OR1K_TRAP_INSTR else program_word w a) w.
Proof.
  intros malloc_all Hqs Hl Hs Hok Hr. eapply wp_mono; [by eapply (serve_breakpoints malloc_all)|].
  intros [] w' (Hs' & Hok' & Hsent & Hb & Hp). split; [done|]. split; [done|]. intros a Ha set.
  split; [apply Hb|]. split; [by apply Hp|]. unfold set. rewrite <- Hb.
  destruct (has_breakpoint w' a) eqn:E; [by apply breakpoint_word|].
  by rewrite no_breakpoint_word, Hp.
Qed.

(** A watchpoint that is set twice is lost: the second request takes another
    watchpoint of the CPU, which the table does not record, so that after the request
    that removes it this one is still in use and still stops the program. *)
Theorem watchpoint_leak type dcr ads addr i j u m s r1 r2 r3 rest w :
  (forall n, malloc_ok n = true) -> session w -> watch_state u m s w ->
  hardware_dcr type = Some dcr -> gdb_number ads addr -> m (type, addr) = None ->
  0 <= i < HWP_MAX_WP -> 0 <= j < HWP_MAX_WP -> i <> j ->
  hwp_get_available_watchpoint u = (i, <[Z.to_nat i := 1]> u) ->
  hwp_get_available_watchpoint (<[Z.to_nat i := 1]> u) = (j, <[Z.to_nat j := 1]> (<[Z.to_nat i := 1]> u)) ->
  (Z.to_nat j < length u)%nat ->
  asked (watch_text true type ads) r1 (r2 ++ r3 ++ rest) w ->
  delivers (exchange (watch_text true type ads)) r2 ->
  Z.of_nat (length (escape (watch_text false type ads))) < GDB_BUF_MAX - 1 ->
  delivers (exchange (watch_text false type ads)) r3 ->
  wp (serve 3) (fun _ w' => sent (gdb w') = sent (gdb w) ++ reply (bytes "OK") ++ reply (bytes "OK") ++ reply (bytes "OK")
    /\ mp_map (mp_hash (rsp w')) (type, addr) = None
    /\ hwp_in_use w' !! Z.to_nat j = Some 1
    /\ spr (target w') (SPR_DVR j) = addr
    /\ spr (target w') (SPR_DCR j) .& not32 1 = dcr .& not32 1
    /\ Z.testbit (spr (target w') SPR_DMR2) (12 + j) = true) w.
Proof.
  intros malloc_all Hs Hst Ht Ha Hm Hi Hj Hij Hav1 Hav2 Hlj Hask1 Hd2 Hl3 Hd3. cbn [serve].
  rsp_pure. eapply wp_mono; [by apply (request_set_watch malloc_all type dcr ads addr i u m s r1 (r2 ++ r3 ++ rest))|]. intros [] w1 ((Hs1 & E1 & Hr1) & Hst1).
  rsp_pure. eapply wp_mono.
  { apply (request_set_watch malloc_all type dcr ads addr j _ _ _ r2 (r3 ++ rest) w1 Hs1 Hst1); try done. }
  intros [] w2 ((Hs2 & E2 & Hr2) & Hst2). rsp_pure. eapply wp_mono.
  { eapply (request_remove_watch type dcr ads addr i _ _ _ r3 rest w2 Hs2 Hst2); try done.
    unfold table_add. by rewrite !bool_decide_true, Hm. }
  intros [] w3 ((Hs3 & E3 & Hr3) & Hu & _ & Hmap & Hspr). rsp_pure.
  destruct (watchpoint_left i j addr dcr s Hi Hj Hij) as (L1 & L2 & L3).
  split; [by rewrite E3, E2, E1, <- !app_assoc|]. split.
  { rewrite Hmap. unfold table_delete. by rewrite bool_decide_true. }
  rewrite !Hspr, Hu. split; [|done].
  rewrite list_lookup_insert_ne by lia. apply list_lookup_insert_eq. by rewrite length_insert.
Qed.

(** G does not write the registers GDB sends: the digits are read from the letter G
    on, so that every register is a digit off, with the last digit of the register before
    it in front of its own. *)
Theorem write_all_regs_shifted vs rs rest w :
  4 <= long_size -> session w -> length vs = Z.to_nat NUM_REGS -> Forall is_u32 vs ->
  asked (regs_text vs) rs rest w ->
  wp rsp_client_request (fun _ w' => sent (gdb w') = sent (gdb w) ++ reply (bytes "OK")
    /\ forall n v v', vs !! n = Some v -> vs !! S n = Some v' -> Z.of_nat (S n) <> NPC_REGNUM ->
         gdb_register (Z.of_nat (S n)) w' = v mod 16 * 2 ^ 28 + v' / 16) w.
Proof.
  intros long Hs Hl Hu Hask. eapply wp_mono; [by eapply (request_write_all long)|].
  intros [] w' ((_ & Hsent & _) & Hregs & _). by split.
Qed.

(** * Running and stopping *)

(** C29: After c, or s, and a pass of the monitor thread, the target runs, the server knows
    that it runs and waits for it to stop.  What was written to the target until then: the
    debug reason (DRR) is cleared; the indicators of watchpoints in DMR2, if any is set, are
    cleared by writing the register back; c switches single steps and branch traps off in
    DMR1; s switches them on, and traps in DSR, unless the server is stepping already
    ([single_step_mode]), when it leaves DMR1 and DSR as they are.  Every other register and
    the memory are as they were.  The target has not executed anything yet.  Before, the
    client is connected, the target is stopped, the server is registered with the monitor and
    has no event left to read, and no server has a command under way. *)
Theorem go_runs_target (step : bool) i c rs rest w :
  session w -> listening i c w ->
  run_state (hm w) = (false, true) -> queue (server_fds c).2 (io (hm w)) = [] ->
  delivers (frame (go_text step)) rs -> reads (gdb w) = rs ++ rest ->
  wp (rsp_client_request;; monitor_pass;; monitor_event) (fun _ w' =>
    running w' /\ contents (go_spr step (single_step_mode (rsp w)) (spr (target w))) (mem (target w)) false (target w')
    /\ sent (gdb w') = sent (gdb w) ++ [43] /\ reads (gdb w') = rest) w.
Proof.
  intros Hs L Hrun Hq Hd Hr. eapply wp_mono; [by eapply wp_go|].
  by intros [] w' (? & _ & _ & ? & ? & ?).
Qed.


(** C31: A break that arrives while the target runs stops it: after a pass of the monitor
    thread it is stalled, with its registers and memory as they were, and the event that it has
    stopped is in the server's pipe.  The client is connected, the server is registered with
    the monitor, and no server has another command under way. *)
Theorem break_stops_target i c cs replies rs rest w :
  connected w -> buf_wf (rsp w) -> target_running (rsp w) = true -> listening i c w ->
  (run_state (hm w)).1 = true -> incoming cs replies Break -> delivers cs rs -> reads (gdb w) = rs ++ rest ->
  wp (rsp_client_request;; monitor_pass) (fun _ w' =>
    run_state (hm w') = (false, true)
    /\ queue (server_fds c).2 (io (hm w')) = queue (server_fds c).2 (io (hm w)) ++ [72]
    /\ (forall a, spr (target w') a = spr (target w) a)
    /\ (forall a, mem (target w') a = mem (target w) a)) w.
Proof.
  intros Hc Hb Hrun L Hflag Hi Hd Hr. eapply wp_mono; [by eapply wp_break|].
  intros [] w' (_ & E1 & E2 & Hq & Hs & Hm). split; [|done].
  destruct (run_state (hm w')) as [r s]. cbn in *. by rewrite E1, E2 by by left.
Qed.

(** D does not let the target go, as it is meant to: the connection to the monitor is
    closed before the command to start the target is written to it, so that the target is
    stalled for as long as no other server starts it. *)
Theorem detach_leaves_stalled i c rs rest n w :
  session w -> listening i c w -> run_state (hm w) = (false, true) ->
  delivers (exchange [68]) rs -> reads (gdb w) = rs ++ rest ->
  wp (rsp_client_request;; passes n) (fun _ w' =>
    sent (gdb w') = sent (gdb w) ++ reply (bytes "OK") /\ client_fd (rsp w') = -1
    /\ run_state (hm w') = (false, true)) w.
Proof.
  intros Hs L Hrun Hd Hr. rsp_pure. eapply wp_mono; [by eapply wp_detach|].
  intros [] w1 (P & Hfd & Hsent). eapply wp_mono; [by apply wp_passes|].
  intros [] w2 ((_ & Hrun2 & _) & Er & Eg). by rewrite Eg, Er.
Qed.
End target.

(** * The monitor thread *)

Section monitor.
Context {D : Type} `{DebugUnit D} `{!DebugLaws D}.

(** C32: As long as a pipe can be made for every server that registers, and in whatever order
    servers register, write commands, read events and go, the target stops, and the thread
    passes through its loop: the connections are at most five, each with two pipes of its own
    that are open, and the lock is free, so that the next pass comes to an end.  When pipe()
    fails, the code returns with the lock held (hardware_monitor.c:98), and this does not
    hold. *)
Theorem monitor_connections_ok d (m : hwmon D) :
  rtc monitor_step (started d) m ->
  monitor_ok m /\ exists m', target_handler (select m) m = Ok (tt, m').
Proof.
  intros Hm. assert (idle m) as [Hok _].
  { revert Hm. generalize (idle_started d). generalize (started d). intros m0 H0 Hm.
    induction Hm as [|m0 m1 m2 Hs _ IH]; [done|]. by eapply IH, idle_step. }
  split; [done|]. destruct (wp_target_handler_ok m Hok) as ([] & m' & E & _). by exists m'.
Qed.
End monitor.

(** * The table of matchpoints *)

Inductive mp_op := MpAdd (type addr instr : Z) | MpDelete (type addr : Z).

Definition mp_run1 `{Target, Alloc} (op : mp_op) (hash : mp_table) : outcome mp_table :=
  match op with
  | MpAdd type addr instr => mp_hash_add hash type addr instr
  | MpDelete type addr => Ok (mp_hash_delete hash type addr).2
  end.

Definition mp_run `{Target, Alloc} (ops : list mp_op) : outcome mp_table :=
  foldl (fun hash op => hash ← hash; mp_run1 op hash) (Ok mp_hash_init) ops.

(** The same on a finite map: what is there is not replaced. *)
Definition mp_spec1 (m : gmap (Z * Z) Z) (op : mp_op) : gmap (Z * Z) Z :=
  match op with
  | MpAdd type addr instr => <[(type, addr) := default instr (m !! (type, addr))]> m
  | MpDelete type addr => delete (type, addr) m
  end.

(** C33: The hash table of matchpoints is a finite map from types and addresses to words:
    after any sequence of mp_hash_add and mp_hash_delete, mp_hash_lookup finds exactly what
    the map has.  An entry that exists is not replaced. *)
Theorem matchpoints_map `{Target, Alloc} ops :
  malloc_ok (4 * long_size) = true ->
  exists hash, mp_run ops = Ok hash
    /\ forall type addr, mp_instr <$> mp_hash_lookup hash type addr = foldl mp_spec1 ∅ ops !! (type, addr).
Proof.
  intros Hm. enough (exists hash, mp_run ops = Ok hash /\ mp_wf hash
    /\ forall k, mp_map hash k = foldl mp_spec1 ∅ ops !! k) as (hash & E & _ & Hh).
  { exists hash. split; [done|]. intros type addr. apply (Hh (type, addr)). }
  induction ops as [|op ops (hash & E & Hwf & Hh)] using rev_ind.
  { exists mp_hash_init. split; [done|]. split; [apply mp_wf_init|]. intros k. apply mp_map_init. }
  unfold mp_run in *. rewrite !foldl_app. cbn [foldl]. rewrite E. destruct op as [type addr instr|type addr].
  - destruct (mp_hash_add_spec hash type addr instr Hm Hwf) as (hash' & E' & Hwf' & Hh').
    exists hash'. split; [exact E'|]. split; [done|]. intros k. rewrite Hh', Hh. cbn [mp_spec1].
    case_bool_decide as Ek; [subst k; by rewrite lookup_insert_eq|by rewrite lookup_insert_ne].
  - pose proof (mp_hash_delete_spec hash type addr Hwf) as Hdel. cbn [mbind outcome_bind mp_run1].
    destruct (mp_hash_delete hash type addr) as [e hash']. destruct Hdel as (_ & Hwf' & Hh').
    exists hash'. split; [done|]. split; [done|]. intros k. rewrite Hh', Hh. cbn [mp_spec1].
    case_bool_decide as Ek; [subst k; by rewrite lookup_delete_eq|by rewrite lookup_delete_ne].
Qed.

(** * Witnesses *)

Section witnesses.
#[local] Existing Instance i386.
#[local] Instance alloc_all : Alloc := fun _ => true.
#[local] Instance zeros : Unspecified := 0.

(** A client that sends a text, and a server that has a connection to it and to the
    monitor. *)
Definition sends (text : list Z) : gdb_t := Gdb (map Char text) [] [] [] [].
Definition link : fdstruct_t := FdStruct (3, 4) (5, 6).
Definition linked (running : bool) (d : board) : hwmon board :=
  HwMon true running 1 (link :: replicate 4 (FdStruct (0, 0) (0, 0))) false
    (Pipes 7 {[0; 1; 2; 3; 4; 5; 6]} ∅ []) d.
Definition connected_rsp : rsp_t := set_pipe_fds (4, 5) (set_client_fd 9 (set_mp_hash mp_hash_init zero_rsp)).
Definition scene (text : list Z) : world board :=
  World connected_rsp (sends text) (replicate 8 0) (linked false (Board ∅ ∅ true)).
Definition running_scene (text : list Z) (stopped : bool) : world board :=
  World (set_client_waiting true (set_target_running true connected_rsp)) (sends text) (replicate 8 0)
    (linked true (Board (<[SPR_DRR := SPR_DRR_TE]> ∅) ∅ stopped)).

Lemma scene_connected text : connected (scene text).
Proof. by split; [|constructor]. Qed.

Lemma scene_buf text : buf_wf (rsp (scene text)).
Proof. unfold buf_wf. cbn [rsp scene connected_rsp]. apply length_replicate. Qed.

Lemma scene_session text : session (scene text).
Proof. split; [apply scene_connected|]. split; [apply scene_buf|done]. Qed.

Lemma linked_ok running d : monitor_ok (linked running d).
Proof.
  split; [|done]. split; try done.
  - by repeat constructor.
  - cbn. apply (bool_decide_unpack _). by vm_compute.
  - cbn. apply (bool_decide_unpack _). by vm_compute.
  - intros fd. cbn. rewrite !elem_of_union, !elem_of_singleton. lia.
Qed.

Lemma scene_listening text : listening 0 link (scene text).
Proof.
  split; [apply linked_ok|done|done|]. intros k Hk. cbn in Hk. apply list_elem_of_singleton in Hk as ->. done.
Qed.

Lemma running_listening text stopped : listening 0 link (running_scene text stopped).
Proof.
  split; [apply linked_ok|done|done|]. intros k Hk. cbn in Hk. apply list_elem_of_singleton in Hk as ->. done.
Qed.

Lemma running_connected text stopped : connected (running_scene text stopped) /\ buf_wf (rsp (running_scene text stopped)).
Proof. split; [by split; [|constructor]|]. unfold buf_wf. cbn [rsp running_scene connected_rsp]. apply length_replicate. Qed.

Lemma text_delivered text : forallb (fun c => (0 <=? c) && (c <? 256)) text = true -> delivers text (map Char text).
Proof.
  intros Ht. apply delivers_map. apply list.Forall_forall. intros c Hc. rewrite forallb_forall in Ht.
  apply list_elem_of_In in Hc. apply Ht in Hc. unfold is_word. lia.
Qed.

Lemma get_packet_correct_witness :
  let cs := [120] ++ 36 :: bytes "g" ++ [35; 54; 55] in
  wp get_packet (fun b w' => b = true /\ hears (map Char cs) [43] (scene (cs ++ [36])) w'
    /\ holds (Text (bytes "g")) (rsp w') /\ reads (gdb w') = [Char 36]) (scene (cs ++ [36])).
Proof.
  intros cs. apply (get_packet_correct cs [43] (Text (bytes "g")) (map Char cs) [Char 36]).
  - apply incoming_packet; [by repeat constructor|apply started_text; [by repeat constructor|done]|by vm_compute].
  - apply scene_connected.
  - apply scene_buf.
  - by apply text_delivered.
  - done.
Defined.

(** The text does not end before the client is gone: the buffer is full by then. *)
Lemma get_packet_bounds_witness : let w := scene (36 :: replicate (Z.to_nat 20000) 97) in
  match get_packet (upd_gdb (fun g => set_reads (reads g ++ [ReadEof]) g) w) with
  | Ok (b, w') => in_buffer (buffer_of (rsp w')) /\ monitor_ok (hm w')
      /\ if b then packet_in (buffer_of (rsp w')) else client_fd (rsp w') = -1
  | Hang => Forall live (reads (gdb w) ++ [ReadEof])
  | Undef => bad_mark (reads (gdb w) ++ [ReadEof])
  | AssertFail => False
  end.
Proof.
  intros w. apply get_packet_bounds; [apply scene_buf|apply linked_ok].
Defined.

(** A checksum that ends with no digit is taken when the code's sum fits it: the text is
    the character 15, and "1z" counts as 16 - 1. *)
Example wrong_checksum_taken :
  match get_packet (scene [36; 15; 35; 49; 122]) with
  | Ok (b, w) => b = true /\ sent (gdb w) = [43] /\ take 2 (buf_data (rsp w)) = [15; 0]
  | _ => False
  end.
Proof. by vm_compute. Qed.

(** One that does not begin with a digit is undefined. *)
Example wrong_checksum_undefined : get_packet (scene [36; 120; 35; 122; 48]) = Undef.
Proof. by vm_compute. Qed.

Lemma packet_roundtrip_witness :
  let data := [35; 42; 200] in
  wp (put_packet data) (fun _ w => sent (gdb w) = [] ++ concat (replicate 2 (frame data)) /\ reads (gdb w) = [])
    (scene [45; 43])
  /\ wp get_packet (fun b w => b = true /\ sent (gdb w) = [] ++ [43] /\ reads (gdb w) = []
      /\ exists tail, rsp_unescape (buf_data (rsp w)) (buf_len (rsp w)) = Ok (data ++ tail, 3))
      (scene (frame data)).
Proof.
  intros data. apply (packet_roundtrip data [45] (map Char [45; 43]) (map Char (frame data)) [] []
    (scene [45; 43]) (scene (frame data))).
  - by repeat constructor.
  - by vm_compute.
  - apply scene_connected.
  - by repeat constructor.
  - by apply text_delivered.
  - done.
  - apply scene_connected.
  - apply scene_buf.
  - by apply text_delivered; vm_compute.
  - by rewrite app_nil_r.
Defined.

Lemma running_ignores_requests_witness :
  let w := running_scene (frame (bytes "g") ++ [43]) false in
  wp rsp_client_request (fun _ w' => hm w' = hm w /\ hwp_in_use w' = hwp_in_use w
    /\ same_but_buf (rsp w) (rsp w')
    /\ sent (gdb w') = [] ++ [43] ++ frame running_reply /\ reads (gdb w') = []) w.
Proof.
  intros w. destruct (running_connected (frame (bytes "g") ++ [43]) false) as [Hc Hb].
  apply (running_ignores_requests (frame (bytes "g")) [43] (bytes "g") (map Char (frame (bytes "g"))) [Char 43] []).
  - exact Hc.
  - exact Hb.
  - done.
  - by apply (frame_incoming (bytes "g")).
  - by vm_compute.
  - by apply text_delivered; vm_compute.
  - by apply (text_delivered [43]).
  - by vm_compute.
Defined.

Lemma asked_first text (rest : list Z) :
  Z.of_nat (length (escape text)) < GDB_BUF_MAX - 1 -> delivers (exchange text) (map Char (exchange text)) ->
  asked text (map Char (exchange text)) (map Char rest) (scene (exchange text ++ rest)).
Proof. intros Hl Hd. split; [done|]. split; [done|]. cbn. by rewrite map_app. Qed.

Lemma number_1 : gdb_number (bytes "1") 1.
Proof. split; [split; [done|split; [by repeat constructor|done]]|]. split; [by repeat constructor|done]. Qed.
Lemma number_4 : gdb_number (bytes "4") 4.
Proof. split; [split; [done|split; [by repeat constructor|done]]|]. split; [by repeat constructor|done]. Qed.
Lemma number_100 : gdb_number (bytes "100") 256.
Proof. split; [split; [done|split; [by repeat constructor|done]]|]. split; [by repeat constructor|done]. Qed.

Lemma register_roundtrip_witness :
  let t1 := write_reg_text (bytes "1") 0x1234 in let t2 := read_reg_text (bytes "1") in
  let w := scene (exchange t1 ++ exchange t2) in
  wp (serve 2) (fun _ w' => session w' /\ reads (gdb w') = []
    /\ sent (gdb w') = [] ++ reply (bytes "OK") ++ reply (reg2hex 0x1234)
    /\ register_written 1 0x1234 w w') w.
Proof.
  intros t1 t2 w. apply (register_roundtrip (bytes "1") 1 0x1234 (map Char (exchange t1)) (map Char (exchange t2)) []).
  - done.
  - apply scene_session.
  - apply number_1.
  - done.
  - done.
  - rewrite app_nil_r. apply asked_first; [by vm_compute|by apply text_delivered; vm_compute].
  - by vm_compute.
  - by apply text_delivered; vm_compute.
Defined.

Lemma memory_roundtrip_witness :
  let data := [36; 0; 125; 9] in
  let t1 := write_mem_text true (bytes "100") (bytes "4") data in let t2 := read_mem_text (bytes "100") (bytes "4") in
  let w := scene (exchange t1 ++ exchange t2) in
  wp (serve 2) (fun _ w' => session w' /\ reads (gdb w') = []
    /\ sent (gdb w') = [] ++ reply (bytes "OK") ++ reply (ascii2hex data)
    /\ memory_written 256 data w w') w.
Proof.
  intros data t1 t2 w.
  apply (memory_roundtrip true (bytes "100") 256 (bytes "4") data (map Char (exchange t1)) (map Char (exchange t2)) []).
  - done.
  - apply scene_session.
  - apply number_100.
  - apply number_4.
  - by repeat constructor.
  - done.
  - by vm_compute.
  - by vm_compute.
  - rewrite app_nil_r. apply asked_first; [by vm_compute|by apply text_delivered; vm_compute].
  - by vm_compute.
  - by apply text_delivered; vm_compute.
Defined.

Lemma breakpoints_transparent_witness :
  let t := breakpoint_text true (bytes "100") in
  let q set := BpRequest set (bytes "100") 256 (map Char (exchange (breakpoint_text set (bytes "100")))) in
  let w := scene (exchange t ++ exchange t ++ exchange (breakpoint_text false (bytes "100"))) in
  wp (serve 3) (fun _ w' => session w' /\ sent (gdb w') = [] ++ concat (replicate 3 (reply (bytes "OK")))
    /\ forall a, a mod 4 = 0 -> let set := bp_after (has_breakpoint w a) [q true; q true; q false] a in
         has_breakpoint w' a = set /\ program_word w' a = program_word w a
         /\ word_at (mem (target w')) a = if set then OR1K_TRAP_INSTR else program_word w a) w.
Proof.
  intros t q w.
  assert (forall set, bp_request_ok (q set)) as Hq.
  { intros set. split; [apply number_100|]. split; [done|]. destruct set; by apply text_delivered; vm_compute. }
  apply (breakpoints_transparent [q true; q true; q false] [] w).
  - done.
  - by repeat constructor; apply Hq.
  - by repeat constructor.
  - apply scene_session.
  - split; [apply mp_wf_init|]. intros a i. unfold breakpoint. cbn [rsp scene connected_rsp mp_hash set_mp_hash set_client_fd set_pipe_fds w].
    by rewrite mp_map_init.
  - by vm_compute.
Defined.

Lemma watchpoint_leak_witness :
  let t := watch_text true WP_WRITE (bytes "100") in let t' := watch_text false WP_WRITE (bytes "100") in
  let w := scene (exchange t ++ exchange t ++ exchange t') in
  wp (serve 3) (fun _ w' =>
    sent (gdb w') = [] ++ reply (bytes "OK") ++ reply (bytes "OK") ++ reply (bytes "OK")
    /\ mp_map (mp_hash (rsp w')) (WP_WRITE, 256) = None
    /\ hwp_in_use w' !! 1%nat = Some 1
    /\ spr (target w') (SPR_DVR 1) = 256 /\ spr (target w') (SPR_DCR 1) .& not32 1 = 0x63 .& not32 1
    /\ Z.testbit (spr (target w') SPR_DMR2) 13 = true) w.
Proof.
  intros t t' w.
  apply (watchpoint_leak WP_WRITE 0x63 (bytes "100") 256 0 1 (replicate 8 0) (mp_map mp_hash_init)
    (spr (target w)) (map Char (exchange t)) (map Char (exchange t)) (map Char (exchange t')) []).
  - done.
  - apply scene_session.
  - split; [done|]. split; [apply mp_wf_init|done].
  - done.
  - apply number_100.
  - apply mp_map_init.
  - done.
  - done.
  - done.
  - done.
  - done.
  - cbn. lia.
  - split; [by vm_compute|]. split; [by apply text_delivered; vm_compute|]. by vm_compute.
  - by apply text_delivered; vm_compute.
  - by vm_compute.
  - by apply text_delivered; vm_compute.
Defined.

Lemma write_all_regs_shifted_witness :
  let vs := replicate 35 0x12345678 in let w := scene (exchange (regs_text vs)) in
  wp rsp_client_request (fun _ w' => sent (gdb w') = [] ++ reply (bytes "OK")
    /\ gdb_register 1 w' = 0x81234567) w.
Proof.
  intros vs w. eapply wp_mono.
  - apply (write_all_regs_shifted vs (map Char (exchange (regs_text vs))) [] w).
    + done.
    + apply scene_session.
    + done.
    + by apply Forall_replicate.
    + split; [by vm_compute|]. split; [by apply text_delivered; vm_compute|]. by rewrite app_nil_r.
  - intros [] w' [Hs Hr]. split; [exact Hs|]. exact (Hr 0%nat 0x12345678 0x12345678 eq_refl eq_refl ltac:(done)).
Defined.

Lemma go_runs_target_witness :
  let w := scene (frame (bytes "c")) in
  wp (rsp_client_request;; monitor_pass;; monitor_event) (fun _ w' =>
    running w' /\ contents (go_spr false false (spr (target w))) (mem (target w)) false (target w')
    /\ sent (gdb w') = [] ++ [43] /\ reads (gdb w') = []) w.
Proof.
  intros w. apply (go_runs_target false 0 link (map Char (frame (bytes "c"))) [] w).
  - apply scene_session.
  - apply scene_listening.
  - done.
  - done.
  - by apply text_delivered; vm_compute.
  - by rewrite app_nil_r.
Defined.


Lemma break_stops_target_witness :
  let w := running_scene [3] false in
  wp (rsp_client_request;; monitor_pass) (fun _ w' =>
    run_state (hm w') = (false, true) /\ queue 5 (io (hm w')) = [] ++ [72]
    /\ (forall a, spr (target w') a = spr (target w) a)
    /\ (forall a, mem (target w') a = mem (target w) a)) w.
Proof.
  intros w. destruct (running_connected [3] false) as [Hc Hb].
  apply (break_stops_target 0 link [3] [] (map Char [3]) [] w).
  - exact Hc.
  - exact Hb.
  - done.
  - apply running_listening.
  - done.
  - by apply (incoming_break []); constructor.
  - by apply text_delivered.
  - done.
Defined.

Lemma detach_leaves_stalled_witness :
  let w := scene (exchange (bytes "D")) in
  wp (rsp_client_request;; passes 3) (fun _ w' =>
    sent (gdb w') = [] ++ reply (bytes "OK") /\ client_fd (rsp w') = -1 /\ run_state (hm w') = (false, true)) w.
Proof.
  intros w. apply (detach_leaves_stalled 0 link (map Char (exchange (bytes "D"))) [] 3 w).
  - apply scene_session.
  - apply scene_listening.
  - done.
  - by apply text_delivered; vm_compute.
  - by rewrite app_nil_r.
Defined.

Lemma monitor_connections_ok_witness : exists m,
  register_with_monitor_thread (started (Board ∅ ∅ true)) = Ok ((1, Some (4, 5)), m)
  /\ monitor_ok m /\ exists m', target_handler (select m) m = Ok (tt, m').
Proof.
  destruct (register_with_monitor_thread (started (Board ∅ ∅ true))) as [[r m]| | |] eqn:E;
    [|vm_compute in E; discriminate..].
  assert (r = (1, Some (4, 5))) as -> by (vm_compute in E; by injection E).
  exists m. split; [done|]. apply (monitor_connections_ok (Board ∅ ∅ true) m).
  by eapply rtc_once, step_register.
Defined.

Lemma matchpoints_map_witness : exists hash,
  mp_run [MpAdd 0 256 7; MpAdd 0 256 8; MpAdd 1 256 9; MpDelete 1 256] = Ok hash
  /\ forall type addr, mp_instr <$> mp_hash_lookup hash type addr
       = foldl mp_spec1 ∅ [MpAdd 0 256 7; MpAdd 0 256 8; MpAdd 1 256 9; MpDelete 1 256] !! (type, addr).
Proof. apply (matchpoints_map [MpAdd 0 256 7; MpAdd 0 256 8; MpAdd 1 256 9; MpDelete 1 256]). done. Defined.
End witnesses.
