(* ===== verification/JspServer.v ===== *)
(** jsp_server.c: the serial port of the debug unit on a socket.

    Two rings of bytes stand between the client and the hardware: [tohw] takes what the
    client sends, [fromhw] what the serial port gives.  The thread accepts a client and
    then passes, for as long as the client is there, through a loop that moves bytes;
    [jsp_iteration] is one turn of it, given what [accept] or [select] returns.
    Messages on stderr and the options of the sockets are left out. *)

From Stdlib Require Import String.
From S2P Require Import Prelude Scanf StateM Tap Cable Chain AdvDbg DbgApi RspData DebugUnit HwMonitor.
From stdpp Require Import gmap list pretty.

Open Scope Z_scope.

(** * The serial port of dbg_api.h

    The number of bytes to send, the bytes; the error, the number of bytes sent and the
    bytes received. *)
Class SerialPort (D : Type) := serial_sndrcv : Z -> list Z -> M D (Z * Z * list Z).

#[export] Instance api_serial_port `{Target, Alloc} {St} (jtag_cable : jtag_cable_t St) :
  SerialPort (api St) := dbg_serial_sndrcv jtag_cable.

(** * The socket of the client

    What the client sends arrives in pieces; between them there may be nothing to be had,
    and at the end the client may close.  [send] takes some of what it is given, or fails;
    when its result is not prescribed it takes everything. *)
Inductive recv_result := Bytes (data : list Z) | NoData | Closed.
Inductive send_result := Sent (k : Z) | SendFailed.

Record socket_t := Socket {
  incoming : list recv_result; sends : list send_result; outgoing : list Z
}.

(** [recv (fd, _, n, 0)]: the bytes, or -1. *)
Definition recv (n : Z) (s : socket_t) : option (list Z) * socket_t :=
  match incoming s with
  | [] => (None, s)
  | NoData :: later => (None, Socket later (sends s) (outgoing s))
  | Closed :: _ => (Some [], s)
  | Bytes data :: later =>
      let n := Z.to_nat n in
      let later := if bool_decide (length data <= n)%nat then later else Bytes (drop n data) :: later in
      (Some (take n data), Socket later (sends s) (outgoing s))
  end.

(** [send (fd, data, _, 0)]: the number of bytes, or -1. *)
Definition send (data : list Z) (s : socket_t) : option Z * socket_t :=
  let len := Z.of_nat (length data) in
  match default (Sent len) (head (sends s)) with
  | Sent k =>
      let k := Z.max 0 (Z.min k len) in
      (Some k, Socket (incoming s) (tail (sends s)) (outgoing s ++ take (Z.to_nat k) data))
  | SendFailed => (None, Socket (incoming s) (tail (sends s)) (outgoing s))
  end.

(** * The state *)

Definition JSP_BUFFER_SIZE : Z := 256.

Record ring := Ring { buf : list Z; rd_idx : Z; wr_idx : Z; count : Z }.

Definition initial_ring : ring := Ring (replicate (Z.to_nat JSP_BUFFER_SIZE) 0) 0 0 0.
Definition clear (r : ring) : ring := Ring (buf r) 0 0 0.

Record jsp_t := Jsp {
  jsp_server_fd : Z;
  jsp_client_fd : Z;
  jsp_pipe_fds : Z * Z;
  jsp_ipstr : list Z;
  jsp_portnum : Z;
  jsp_hostname : list Z;
  tohw : ring;
  fromhw : ring;
  jsp_server_running : bool;
  jsp_target_is_running : bool
}.

Definition initial_jsp : jsp_t := Jsp (-1) (-1) (0, 0) [] 0 [] initial_ring initial_ring false false.

Definition set_jsp_server_fd (v : Z) (j : jsp_t) : jsp_t :=
  Jsp v (jsp_client_fd j) (jsp_pipe_fds j) (jsp_ipstr j) (jsp_portnum j) (jsp_hostname j) (tohw j)
    (fromhw j) (jsp_server_running j) (jsp_target_is_running j).
Definition set_jsp_client_fd (v : Z) (j : jsp_t) : jsp_t :=
  Jsp (jsp_server_fd j) v (jsp_pipe_fds j) (jsp_ipstr j) (jsp_portnum j) (jsp_hostname j) (tohw j)
    (fromhw j) (jsp_server_running j) (jsp_target_is_running j).
Definition set_jsp_pipe_fds (v : Z * Z) (j : jsp_t) : jsp_t :=
  Jsp (jsp_server_fd j) (jsp_client_fd j) v (jsp_ipstr j) (jsp_portnum j) (jsp_hostname j) (tohw j)
    (fromhw j) (jsp_server_running j) (jsp_target_is_running j).
Definition set_names (ip : list Z) (port : Z) (host : list Z) (j : jsp_t) : jsp_t :=
  Jsp (jsp_server_fd j) (jsp_client_fd j) (jsp_pipe_fds j) ip port host (tohw j)
    (fromhw j) (jsp_server_running j) (jsp_target_is_running j).
Definition set_tohw (v : ring) (j : jsp_t) : jsp_t :=
  Jsp (jsp_server_fd j) (jsp_client_fd j) (jsp_pipe_fds j) (jsp_ipstr j) (jsp_portnum j) (jsp_hostname j) v
    (fromhw j) (jsp_server_running j) (jsp_target_is_running j).
Definition set_fromhw (v : ring) (j : jsp_t) : jsp_t :=
  Jsp (jsp_server_fd j) (jsp_client_fd j) (jsp_pipe_fds j) (jsp_ipstr j) (jsp_portnum j) (jsp_hostname j)
    (tohw j) v (jsp_server_running j) (jsp_target_is_running j).
Definition set_jsp_server_running (v : bool) (j : jsp_t) : jsp_t :=
  Jsp (jsp_server_fd j) (jsp_client_fd j) (jsp_pipe_fds j) (jsp_ipstr j) (jsp_portnum j) (jsp_hostname j)
    (tohw j) (fromhw j) v (jsp_target_is_running j).
Definition set_jsp_target_is_running (v : bool) (j : jsp_t) : jsp_t :=
  Jsp (jsp_server_fd j) (jsp_client_fd j) (jsp_pipe_fds j) (jsp_ipstr j) (jsp_portnum j) (jsp_hostname j)
    (tohw j) (fromhw j) (jsp_server_running j) v.

(** The server, the socket of its client, and the monitor with the debug unit. *)
Record jworld (D : Type) := JWorld { jsp : jsp_t; sock : socket_t; jhm : hwmon D }.
Arguments JWorld {D} _ _ _.
Arguments jsp {D} _.
Arguments sock {D} _.
Arguments jhm {D} _.

(** * Memory *)

(** [n] bytes from index [i] of a buffer, and bytes put there. *)
Definition load_at (data : list Z) (i n : Z) : outcome (list Z) :=
  if (0 <=? i) && (0 <=? n) && (i + n <=? Z.of_nat (length data)) then
    Ok (take (Z.to_nat n) (drop (Z.to_nat i) data))
  else Undef.
Definition store_at (data : list Z) (i : Z) (bytes : list Z) : outcome (list Z) :=
  if (0 <=? i) && (i + Z.of_nat (length bytes) <=? Z.of_nat (length data)) then
    Ok (list_inserts (Z.to_nat i) bytes data)
  else Undef.

Section jsp.
Context {D : Type} `{SerialPort D}.

Definition get_jsp {A} (f : jsp_t -> A) : M (jworld D) A := gets (fun w => f (jsp w)).
Definition upd_jsp (f : jsp_t -> jsp_t) (w : jworld D) : jworld D := JWorld (f (jsp w)) (sock w) (jhm w).
Definition put_jsp (f : jsp_t -> jsp_t) : M (jworld D) unit := modify (upd_jsp f).
Definition on_sock {A} (f : socket_t -> A * socket_t) : M (jworld D) A := fun w =>
  let '(a, s) := f (sock w) in Ok (a, JWorld (jsp w) s (jhm w)).
Definition on_monitor {A} (f : M (hwmon D) A) : M (jworld D) A := fun w =>
  match f (jhm w) with
  | Ok (a, m) => Ok (a, JWorld (jsp w) (sock w) m)
  | Hang => Hang | AssertFail => AssertFail | Undef => Undef
  end.

(** * Public API *)

Definition jsp_server_close : M (jworld D) unit := put_jsp (set_jsp_server_fd (-1)).
Definition jsp_client_close : M (jworld D) unit := put_jsp (set_jsp_client_fd (-1)).

(** [names]: the address and the name of the host, if [getaddrinfo] succeeds; [opened]:
    the descriptor of the socket, when there is one, and whether the calls that make it
    listen succeed. *)
Definition jsp_init (portNum : Z) (names : option (list Z * list Z)) (opened : option (Z * bool))
    : M (jworld D) unit :=
  put_jsp (set_jsp_server_fd (-1));;
  put_jsp (set_jsp_client_fd (-1));;
  put_jsp (fun j => set_names (jsp_ipstr j) portNum (jsp_hostname j) j);;
  match names with
  | None => mret tt
  | Some (ip, host) =>
      put_jsp (set_names ip portNum host);;
      match opened with
      | None => mret tt
      | Some (fd, false) => put_jsp (set_jsp_server_fd fd);; jsp_server_close
      | Some (fd, true) =>
          put_jsp (set_jsp_server_fd fd);;
          '(r, fds) ← on_monitor register_with_monitor_thread;
          put_jsp (fun j => set_jsp_pipe_fds (default (jsp_pipe_fds j) fds) j);;
          if r <? 0 then jsp_server_close else mret tt
      end
  end.

(** [created]: whether [pthread_create] succeeds. *)
Definition jsp_server_start (created : bool) : M (jworld D) Z :=
  put_jsp (set_jsp_server_running true);;
  mret (if created then 1 else 0).

Definition jsp_server_stop : M (jworld D) Z :=
  put_jsp (set_jsp_server_running false);;
  jsp_server_close;;
  mret 1.

(** * Helper functions *)

(** Every [send] gets the whole text again, whatever the last one took. *)
Fixpoint send_loop (fuel : nat) (data : list Z) (len total_sent : Z) : M (jworld D) unit :=
  match fuel with
  | O => lift Hang
  | S fuel =>
      if total_sent <? len then
        bytes_sent ← on_sock (send data);
        match bytes_sent with
        | None => mret tt
        | Some k => send_loop fuel data len (total_sent + k)
        end
      else mret tt
  end.

Definition jsp_send_all (data : list Z) : M (jworld D) unit :=
  results ← gets (fun w => sends (sock w));
  send_loop (S (S (List.length results))) data (Z.of_nat (length data)) 0.

(** The arrays have the zero that ends their text, and it is sent. *)
Definition jsp_print_welcome : M (jworld D) unit :=
  host ← get_jsp jsp_hostname;
  ip ← get_jsp jsp_ipstr;
  port ← get_jsp jsp_portnum;
  jsp_send_all (bytes "Advanced Debug System JTAG Serial Port Server" ++ [10; 13; 0]);;
  jsp_send_all (cstr host);;
  jsp_send_all (bytes " (" ++ [0]);;
  jsp_send_all (cstr ip);;
  jsp_send_all (bytes "), port " ++ [0]);;
  jsp_send_all (take 22 (bytes (pretty port) ++ [10; 10; 13])).

(** From the write index to the end of the array, as far as there is room. *)
Definition space_available (r : ring) : Z :=
  let space := JSP_BUFFER_SIZE - wr_idx r in
  if JSP_BUFFER_SIZE - count r <? space then JSP_BUFFER_SIZE - count r else space.

(** One [recv] into the ring: false when it fails. *)
Definition queue_from_client : M (jworld D) bool :=
  r ← get_jsp tohw;
  let space := space_available r in
  if space <? 0 then lift Undef else
  received ← on_sock (recv space);
  match received with
  | None => mret false
  | Some data =>
      let n := Z.of_nat (length data) in
      (if 0 <? n then
         b ← lift (store_at (buf r) (wr_idx r) data);
         put_jsp (set_tohw (Ring b (rd_idx r) ((wr_idx r + n) mod JSP_BUFFER_SIZE) (count r + n)))
       else mret tt);;
      mret true
  end.

Definition jsp_queue_data_from_client : M (jworld D) unit :=
  ok ← queue_from_client;
  if (ok : bool) then _ ← queue_from_client; mret tt else mret tt.

(** One [send] from the ring. *)
Definition send_from_ring : M (jworld D) unit :=
  r ← get_jsp fromhw;
  if 0 <? count r then
    let available := if JSP_BUFFER_SIZE - rd_idx r <? count r then JSP_BUFFER_SIZE - rd_idx r else count r in
    data ← lift (load_at (buf r) (rd_idx r) available);
    written ← on_sock (send data);
    match written with
    | None => mret tt
    | Some n => put_jsp (set_fromhw (Ring (buf r) ((rd_idx r + n) mod JSP_BUFFER_SIZE) (wr_idx r) (count r - n)))
    end
  else mret tt.

(** A second time, for what is at the start of the array. *)
Definition jsp_send_data_to_client : M (jworld D) unit := send_from_ring;; send_from_ring.

(** The bytes to send, read one after the other from index [j]. *)
Fixpoint read_from (n : nat) (data : list Z) (j : Z) : outcome (list Z) :=
  match n with
  | O => Ok []
  | S n =>
      b ← read_var (if 0 <=? j then data !! Z.to_nat j else None);
      bytes ← read_from n data ((j + 1) mod JSP_BUFFER_SIZE);
      Ok (b :: bytes)
  end.

(** A byte from the serial port: there is no test for room. *)
Definition enqueue (r : ring) (b : Z) : outcome ring :=
  data ← store_at (buf r) (wr_idx r) [b];
  Ok (Ring data (rd_idx r) ((wr_idx r + 1) mod JSP_BUFFER_SIZE) (count r + 1)).

Definition enqueue_all (r : ring) (bytes : list Z) : outcome ring :=
  foldl (fun r b => r ← r; enqueue r b) (Ok r) bytes.

Definition jsp_hardware_transact : M (jworld D) unit :=
  t ← get_jsp tohw;
  let bytes_to_send := if 8 <? count t then 8 else count t in
  sendbuf ← lift (read_from (Z.to_nat bytes_to_send) (buf t) (rd_idx t));
  '(ret, bytes_sent, rcvbuf) ← on_monitor (on_unit (serial_sndrcv bytes_to_send sendbuf));
  if (8 <? Z.of_nat (length rcvbuf)) then lift Undef else
  if negb (ret =? APP_ERR_NONE) then mret tt else
  put_jsp (set_tohw (Ring (buf t) ((rd_idx t + bytes_sent) mod JSP_BUFFER_SIZE) (wr_idx t) (count t - bytes_sent)));;
  f ← get_jsp fromhw;
  f ← lift (enqueue_all f rcvbuf);
  put_jsp (set_fromhw f).

(** * The thread *)

(** A client: its descriptor and its socket, or an error of [accept]. *)
Definition jsp_accept (accepted : option (Z * socket_t)) : M (jworld D) unit :=
  match accepted with
  | None => put_jsp (set_jsp_client_fd (-1))
  | Some (fd, s) =>
      put_jsp (set_jsp_client_fd fd);;
      on_sock (fun _ => (tt, s));;
      put_jsp (fun j => set_fromhw (clear (fromhw j)) (set_tohw (clear (tohw j)) j));;
      jsp_print_welcome
  end.

(** What [select] returns: an error, a timeout, or which of the pipe of the monitor and
    the client are ready. *)
Inductive jsp_select := JspError | JspTimeout | JspReady (pipe client : bool).

(** H (72): the target has stopped; R (82): it runs. *)
Definition jsp_monitor_event : M (jworld D) unit :=
  fds ← get_jsp jsp_pipe_fds;
  cmd ← on_monitor (read_pipe fds.2);
  match cmd with
  | Some 72 => put_jsp (set_jsp_target_is_running false)
  | Some 82 => put_jsp (set_jsp_target_is_running true)
  | _ => mret tt
  end.

Definition jsp_pass (selected : jsp_select) : M (jworld D) unit :=
  (match selected with
   | JspReady pipe client =>
       (if (pipe : bool) then jsp_monitor_event else mret tt);;
       (if (client : bool) then jsp_queue_data_from_client else mret tt)
   | _ => mret tt
   end);;
  jsp_send_data_to_client;;
  running ← get_jsp jsp_target_is_running;
  if (running : bool) then jsp_hardware_transact else mret tt.

(** One turn of the loops: [accepted] is what [accept] returns where there is no client,
    [selected] what [select] returns where there is one. *)
Record jsp_event := JspEvent { accepted : option (Z * socket_t); selected : jsp_select }.

Definition jsp_iteration (e : jsp_event) : M (jworld D) unit :=
  fd ← get_jsp jsp_client_fd;
  if fd =? -1 then jsp_accept (accepted e) else jsp_pass (selected e).

(** The thread over a sequence of events, for as long as the server runs. *)
Fixpoint jsp_server (events : list jsp_event) : M (jworld D) unit :=
  running ← get_jsp jsp_server_running;
  if negb running then jsp_client_close else
  match events with
  | [] => mret tt
  | e :: events => jsp_iteration e;; jsp_server events
  end.
End jsp.
