(* ===== verification/JspRing.v ===== *)
(** The rings of jsp_server.c as queues: what is put in comes out in order, as long as
    there is room; what happens when there is none.  Then the server on them: what its
    passes move between the client and the serial port. *)

From Stdlib Require Import String.
From S2P Require Import Prelude Scanf StateM Cable RspData HwMonitor JspServer.
From stdpp Require Import gmap list pretty.

Open Scope Z_scope.

(** * Rings *)

(** The indices and the count agree. *)
Record ring_wf (r : ring) : Prop := RingWf {
  ring_buf : length (buf r) = Z.to_nat JSP_BUFFER_SIZE;
  ring_rd : 0 <= rd_idx r < JSP_BUFFER_SIZE;
  ring_wr : wr_idx r = (rd_idx r + count r) mod JSP_BUFFER_SIZE;
  ring_count : 0 <= count r
}.

(** And the bytes fit. *)
Definition ring_ok (r : ring) : Prop := ring_wf r /\ count r <= JSP_BUFFER_SIZE.

(** The byte [k] places after the first one. *)
Definition cell (r : ring) (k : Z) : Z :=
  default 0 (buf r !! Z.to_nat ((rd_idx r + k) mod JSP_BUFFER_SIZE)).

(** What waits in the ring, the first first. *)
Definition queued (r : ring) : list Z := map (cell r) (seqZ 0 (count r)).

Lemma ring_ok_initial : ring_ok initial_ring.
Proof. split; [|done]. by split. Qed.

Lemma ring_ok_clear r : length (buf r) = Z.to_nat JSP_BUFFER_SIZE -> ring_ok (clear r).
Proof. intros Hl. split; [|done]. by split. Qed.

Lemma queued_clear r : queued (clear r) = [].
Proof. done. Qed.

Lemma length_queued r : ring_wf r -> Z.of_nat (length (queued r)) = count r.
Proof. intros [_ _ _ Hc]. unfold queued. rewrite length_map, length_seqZ. lia. Qed.

Lemma queued_lookup r i : queued r !! i = if decide (Z.of_nat i < count r) then Some (cell r (Z.of_nat i)) else None.
Proof.
  unfold queued. change (map ?f ?l) with (f <$> l). rewrite list_lookup_fmap.
  destruct (decide (Z.of_nat i < count r)) as [Hi|Hi].
  - rewrite lookup_seqZ_lt by done. done.
  - by rewrite lookup_seqZ_ge by lia.
Qed.

Lemma cell_buf r k : ring_wf r ->
  buf r !! Z.to_nat ((rd_idx r + k) mod JSP_BUFFER_SIZE) = Some (cell r k).
Proof.
  intros [Hb _ _ _]. unfold cell. destruct (lookup_lt_is_Some_2 (buf r) (Z.to_nat ((rd_idx r + k) mod JSP_BUFFER_SIZE)))
    as [b ->]; [|done].
  rewrite Hb. unfold JSP_BUFFER_SIZE. pose proof (Z.mod_pos_bound (rd_idx r + k) 256). lia.
Qed.

(** The first bytes, taken out. *)
Definition taken (n : Z) (r : ring) : ring :=
  Ring (buf r) ((rd_idx r + n) mod JSP_BUFFER_SIZE) (wr_idx r) (count r - n).

Lemma ring_wf_taken n r : ring_wf r -> 0 <= n <= count r -> ring_wf (taken n r).
Proof.
  intros [Hb Hrd Hwr Hc] Hn. unfold JSP_BUFFER_SIZE in *. split; cbn; [done| | |lia].
  - apply Z.mod_pos_bound. done.
  - rewrite Hwr, Zplus_mod_idemp_l. f_equal. lia.
Qed.

Lemma cell_taken n r k : cell (taken n r) k = cell r (n + k).
Proof. unfold cell, taken. cbn. by rewrite Zplus_mod_idemp_l, Z.add_assoc. Qed.

Lemma queued_taken n r : ring_wf r -> 0 <= n <= count r -> queued (taken n r) = drop (Z.to_nat n) (queued r).
Proof.
  intros Hr Hn. apply list_eq. intros i. rewrite lookup_drop, !queued_lookup. cbn.
  destruct (decide (Z.of_nat i < count r - n)), (decide (Z.of_nat (Z.to_nat n + i) < count r)); try lia; [|done].
  rewrite cell_taken. do 2 f_equal. lia.
Qed.

(** Bytes put in after the last one, whether there is room or not. *)
Definition extended (r : ring) (data : list Z) (r' : ring) : Prop :=
  ring_wf r' /\ rd_idx r' = rd_idx r /\ count r' = count r + Z.of_nat (length data)
  /\ forall k, cell r' k = default (cell r k) (data !! Z.to_nat ((k - count r) mod JSP_BUFFER_SIZE)).

Lemma queued_extended r data r' :
  ring_wf r -> extended r data r' -> count r + Z.of_nat (length data) <= JSP_BUFFER_SIZE ->
  queued r' = queued r ++ data.
Proof.
  intros Hr (Hr' & Hrd & Hc & Hcell) Hfit. pose proof (ring_count r Hr) as Hc0.
  pose proof (length_queued r Hr) as Hl. unfold JSP_BUFFER_SIZE in *. apply list_eq. intros i.
  rewrite queued_lookup, Hcell, Hc. destruct (decide (Z.of_nat i < count r)) as [Hi|Hi].
  - rewrite decide_True by lia. rewrite lookup_app_l by lia. rewrite queued_lookup, decide_True by done.
    rewrite (lookup_ge_None_2 data); [done|]. Z.div_mod_to_equations. lia.
  - rewrite lookup_app_r by lia. destruct (decide (Z.of_nat i < count r + Z.of_nat (length data))) as [Hi'|Hi'].
    + rewrite Z.mod_small by lia. replace (Z.to_nat (Z.of_nat i - count r)) with (i - length (queued r))%nat by lia.
      destruct (lookup_lt_is_Some_2 data (i - length (queued r))) as [b ->]; [lia|done].
    + symmetry. apply lookup_ge_None_2. lia.
Qed.

(** In a full ring new bytes take the place of the first ones, and come out twice. *)
Lemma queued_overflow r data r' :
  ring_wf r -> extended r data r' -> count r = JSP_BUFFER_SIZE -> Z.of_nat (length data) <= JSP_BUFFER_SIZE ->
  queued r' = data ++ drop (length data) (queued r) ++ data.
Proof.
  intros Hr (Hr' & Hrd & Hc & Hcell) Hfull Hn. pose proof (length_queued r Hr) as Hl.
  unfold JSP_BUFFER_SIZE in *. apply list_eq. intros i. rewrite queued_lookup, Hcell, Hc, Hfull.
  destruct (decide (i < length data)%nat) as [Hi|Hi].
  { rewrite decide_True by lia. rewrite lookup_app_l by done.
    replace (Z.to_nat ((Z.of_nat i - 256) mod 256)) with i by (Z.div_mod_to_equations; lia).
    by destruct (lookup_lt_is_Some_2 data i) as [b ->]. }
  rewrite (lookup_app_r data) by lia. destruct (decide (i < 256)%nat) as [Hi2|Hi2].
  { rewrite decide_True by lia. rewrite lookup_app_l by (rewrite length_drop; lia).
    rewrite lookup_drop, queued_lookup, decide_True by lia.
    rewrite (lookup_ge_None_2 data); [|Z.div_mod_to_equations; lia]. cbn. do 2 f_equal. lia. }
  rewrite lookup_app_r by (rewrite length_drop; lia). rewrite length_drop.
  destruct (decide (Z.of_nat i < 256 + Z.of_nat (length data))) as [Hi3|Hi3].
  - replace (Z.to_nat ((Z.of_nat i - 256) mod 256)) with (i - length data - (length (queued r) - length data))%nat
      by (Z.div_mod_to_equations; lia).
    by destruct (lookup_lt_is_Some_2 data (i - length data - (length (queued r) - length data))) as [b ->]; [lia|].
  - symmetry. apply lookup_ge_None_2. lia.
Qed.

(** * The operations *)

Lemma read_from_queued r n : ring_wf r -> Z.of_nat n <= count r ->
  read_from n (buf r) (rd_idx r) = Ok (take n (queued r)).
Proof.
  intros Hr. revert r Hr. induction n as [|n IH]; intros r Hr Hn; [done|]. cbn [read_from].
  pose proof (cell_buf r 0 Hr) as H0. rewrite Z.add_0_r in H0. pose proof (ring_rd r Hr) as Hrd.
  rewrite Z.mod_small in H0 by done. destruct (Z.leb_spec 0 (rd_idx r)); [|lia]. rewrite H0.
  cbn [read_var mbind outcome_bind].
  pose proof (IH (taken 1 r) ltac:(apply ring_wf_taken; [done|lia]) ltac:(cbn; lia)) as E1. cbn [taken buf rd_idx] in E1.
  rewrite E1. cbn [mbind outcome_bind]. rewrite queued_taken by (try done; lia).
  assert (queued r !! 0%nat = Some (cell r 0)) as E.
  { rewrite queued_lookup, decide_True by lia. done. }
  destruct (queued r) as [|b q]; [done|]. injection E as ->. done.
Qed.

(** The bytes in front of the end of the array. *)
Lemma load_queued r n : ring_wf r -> 0 <= n <= count r -> rd_idx r + n <= JSP_BUFFER_SIZE ->
  load_at (buf r) (rd_idx r) n = Ok (take (Z.to_nat n) (queued r)).
Proof.
  intros Hr Hn Hend. pose proof (ring_buf r Hr) as Hb. pose proof (ring_rd r Hr) as Hrd.
  unfold load_at, JSP_BUFFER_SIZE in *.
  destruct (Z.leb_spec 0 (rd_idx r)); [|lia]. destruct (Z.leb_spec 0 n); [|lia].
  destruct (Z.leb_spec (rd_idx r + n) (Z.of_nat (length (buf r)))); [|lia]. cbn [andb]. f_equal.
  apply list_eq. intros i. destruct (decide (i < Z.to_nat n)%nat) as [Hi|Hi].
  - rewrite !lookup_take_lt by done. rewrite lookup_drop, queued_lookup, decide_True by lia.
    rewrite <- cell_buf by done. unfold JSP_BUFFER_SIZE. rewrite Z.mod_small by lia. f_equal. lia.
  - rewrite !lookup_take_ge by lia. done.
Qed.

(** What is stored in front of the end of the array. *)
Lemma store_extended r data :
  ring_wf r -> wr_idx r + Z.of_nat (length data) <= JSP_BUFFER_SIZE ->
  exists b, store_at (buf r) (wr_idx r) data = Ok b
    /\ extended r data (Ring b (rd_idx r) ((wr_idx r + Z.of_nat (length data)) mod JSP_BUFFER_SIZE)
         (count r + Z.of_nat (length data))).
Proof.
  intros Hr Hend. pose proof Hr as [Hb Hrd Hwr Hc]. unfold store_at, JSP_BUFFER_SIZE in *.
  assert (0 <= wr_idx r < 256) as Hw by (rewrite Hwr; by apply Z.mod_pos_bound).
  destruct (Z.leb_spec 0 (wr_idx r)); [|lia].
  destruct (Z.leb_spec (wr_idx r + Z.of_nat (length data)) (Z.of_nat (length (buf r)))); [|lia].
  eexists. split; [done|]. split; [split|]; cbn.
  - by rewrite length_inserts.
  - done.
  - rewrite Hwr, Zplus_mod_idemp_l. unfold JSP_BUFFER_SIZE. f_equal. lia.
  - lia.
  - split; [done|]. split; [done|]. intros k. unfold cell. cbn. unfold JSP_BUFFER_SIZE.
    set (p := (rd_idx r + k) mod 256). assert (0 <= p < 256) as Hp by by apply Z.mod_pos_bound.
    destruct (decide (wr_idx r <= p < wr_idx r + Z.of_nat (length data))) as [Hin|Hout].
    + rewrite list_lookup_inserts by lia.
      assert (((k - count r) mod 256) = p - wr_idx r) as ->.
      { unfold p in *. rewrite Hwr in *. Z.div_mod_to_equations. lia. }
      replace (Z.to_nat (p - wr_idx r)) with (Z.to_nat p - Z.to_nat (wr_idx r))%nat by lia.
      by destruct (lookup_lt_is_Some_2 data (Z.to_nat p - Z.to_nat (wr_idx r))) as [c ->]; [lia|].
    + rewrite (lookup_ge_None_2 data).
      * cbn. destruct (decide (p < wr_idx r)).
        -- by rewrite list_lookup_inserts_lt by lia.
        -- by rewrite list_lookup_inserts_ge by lia.
      * unfold p in *. rewrite Hwr in *. Z.div_mod_to_equations. lia.
Qed.

Lemma extended_nil r : ring_wf r -> extended r [] r.
Proof. intros Hr. split; [done|]. split; [done|]. split; [cbn; lia|]. done. Qed.

Lemma extended_app r data more r1 r2 :
  extended r data r1 -> extended r1 more r2 -> Z.of_nat (length (data ++ more)) <= JSP_BUFFER_SIZE ->
  0 <= count r -> extended r (data ++ more) r2.
Proof.
  intros (H1 & Hrd1 & Hc1 & E1) (H2 & Hrd2 & Hc2 & E2) Hn Hc. rewrite length_app in Hn.
  split; [done|]. split; [congruence|]. split; [rewrite length_app; lia|]. intros k.
  rewrite E2, E1, Hc1. unfold JSP_BUFFER_SIZE in *.
  set (m := (k - count r) mod 256). assert (0 <= m < 256) as Hm by by apply Z.mod_pos_bound.
  destruct (decide (m < Z.of_nat (length data))) as [Hlt|Hge].
  - rewrite lookup_app_l by lia. rewrite (lookup_ge_None_2 more); [done|].
    unfold m in *. Z.div_mod_to_equations. lia.
  - rewrite lookup_app_r by lia. rewrite (lookup_ge_None_2 data) by lia. cbn.
    destruct (decide (m < Z.of_nat (length data) + Z.of_nat (length more))) as [Hlt2|Hge2].
    + f_equal. f_equal. unfold m in *. Z.div_mod_to_equations. lia.
    + rewrite !(lookup_ge_None_2 more); [done|lia|]. unfold m in *. Z.div_mod_to_equations. lia.
Qed.

Lemma enqueue_extended r b : ring_wf r ->
  exists r', enqueue r b = Ok r' /\ extended r [b] r'.
Proof.
  intros Hr. pose proof (ring_wr r Hr) as Hwr.
  assert (0 <= wr_idx r < JSP_BUFFER_SIZE) as Hw by (rewrite Hwr; by apply Z.mod_pos_bound).
  destruct (store_extended r [b] Hr) as (data & E & Hx); [cbn; lia|].
  unfold enqueue. rewrite E. by eexists.
Qed.

Lemma enqueue_all_extended bytes r : ring_wf r -> Z.of_nat (length bytes) <= JSP_BUFFER_SIZE ->
  exists r', enqueue_all r bytes = Ok r' /\ extended r bytes r'.
Proof.
  intros Hr. induction bytes as [|b bytes IH] using rev_ind; intros Hn.
  { exists r. split; [done|]. by apply extended_nil. }
  rewrite length_app in Hn. cbn in Hn. destruct IH as (r1 & E1 & H1); [lia|].
  destruct (enqueue_extended r1 b (proj1 H1)) as (r2 & E2 & H2).
  exists r2. unfold enqueue_all in *. rewrite foldl_app, E1. cbn [foldl mbind outcome_bind]. split; [done|].
  apply (extended_app r bytes [b] r1 r2); try done; [rewrite length_app; cbn; lia|apply Hr].
Qed.

(** * The server *)

(** * A serial port

    [took] and [gave] are the bytes it has had from the server and the bytes the server
    has had from it.  It takes at most what it is offered and gives at most eight bytes;
    when it reports an error nothing has been moved. *)
Class SerialLaws (D : Type) `{SerialPort D} := {
  took : D -> list Z;
  gave : D -> list Z;
  law_sndrcv data d : (length data <= 8)%nat ->
    wp (serial_sndrcv (Z.of_nat (length data)) data) (fun '(err, n, received) d' =>
      (length received <= 8)%nat
      /\ if err =? APP_ERR_NONE then
           0 <= n <= Z.of_nat (length data) /\ took d' = took d ++ take (Z.to_nat n) data
           /\ gave d' = gave d ++ received
         else took d' = took d /\ gave d' = gave d) d
}.

Ltac jsp_pure :=
  cbv beta iota;
  lazymatch goal with
  | |- wp (get_jsp _) _ _ => apply wp_gets
  | |- wp (put_jsp _) _ _ => apply wp_modify
  | |- _ => wp_pure
  end.

Section facts.
Context {D : Type} `{SerialLaws D}.
Implicit Types w : jworld D.

Definition device w : D := unit_of (jhm w).

(** * The two streams *)

Definition pending (rs : list recv_result) : list Z :=
  concat (map (fun r => match r with Bytes data => data | _ => [] end) rs).

(** Everything the client has sent and will send that has not been dropped, and where it
    is: with the hardware, in the ring, or still to be received. *)
Definition to_hw w : list Z := took (device w) ++ queued (tohw (jsp w)) ++ pending (incoming (sock w)).

(** What the client has been sent, and what waits for it. *)
Definition from_hw w : list Z := outgoing (sock w) ++ queued (fromhw (jsp w)).

(** The client takes what it is sent, and not more than [k] bytes wait for it. *)
Definition prompt (k : Z) w : Prop := sends (sock w) = [] /\ count (fromhw (jsp w)) <= k.

(** The commands of the monitor that have not been read. *)
Definition commands w : list Z := queue (jsp_pipe_fds (jsp w)).2 (io (jhm w)).

(** From [w] to [w'] [n] commands are read and bytes are moved, none of them lost on the
    way to the hardware, and none on the way back if the client is prompt. *)
Record moves (n : nat) (k k' : Z) w w' : Prop := Moves {
  moves_to : to_hw w' = to_hw w;
  moves_tohw : ring_ok (tohw (jsp w'));
  moves_fromhw : ring_wf (fromhw (jsp w'));
  moves_client : jsp_client_fd (jsp w') = jsp_client_fd (jsp w);
  moves_running : jsp_server_running (jsp w') = jsp_server_running (jsp w);
  moves_pipes : jsp_pipe_fds (jsp w') = jsp_pipe_fds (jsp w);
  moves_open : open_fds (io (jhm w')) = open_fds (io (jhm w));
  moves_commands : commands w' = drop n (commands w);
  moves_from : prompt k w ->
    prompt k' w' /\ exists new, gave (device w') = gave (device w) ++ new /\ from_hw w' = from_hw w ++ new
}.

Definition rings_ok w : Prop := ring_ok (tohw (jsp w)) /\ ring_wf (fromhw (jsp w)).

Lemma moves_refl k w : rings_ok w -> moves 0 k k w w.
Proof. intros [Ht Hf]. split; try done. intros Hp. split; [done|]. exists []. by rewrite !app_nil_r. Qed.

Lemma moves_trans n n' k k' k'' w w' w'' :
  moves n k k' w w' -> moves n' k' k'' w' w'' -> moves (n + n') k k'' w w''.
Proof.
  intros [A1 A2 A3 A4 A5 A6 A7 A8 A9] [B1 B2 B3 B4 B5 B6 B7 B8 B9]. split; try congruence; try done.
  - by rewrite B8, A8, drop_drop.
  - intros Hp. destruct (A9 Hp) as (Hp' & new & E1 & E2), (B9 Hp') as (Hp'' & new' & E1' & E2').
    split; [done|]. exists (new ++ new'). by rewrite E1', E2', E1, E2, <- !app_assoc.
Qed.

Lemma moves_rings n k k' w w' : moves n k k' w w' -> rings_ok w'.
Proof. intros [_ ? ? _ _ _ _ _ _]. by split. Qed.

(** A command after another. *)
Lemma wp_moves {A B} (m : M (jworld D) A) (f : A -> M (jworld D) B) n n' k k' k'' w :
  wp m (fun _ => moves n k k' w) w ->
  (forall a w', moves n k k' w w' -> wp (f a) (fun _ => moves n' k' k'' w') w') ->
  wp (m ≫= f) (fun _ => moves (n + n') k k'' w) w.
Proof.
  intros Hm Hf. apply wp_bind. eapply wp_mono; [exact Hm|]. intros a w' Hw'. cbv beta in Hw'.
  eapply wp_mono; [exact (Hf a w' Hw')|]. intros b w'' Hw''. cbv beta in Hw''. by eapply moves_trans.
Qed.

Lemma wp_nothing k w : rings_ok w -> wp (mret tt) (fun _ => moves 0 k k w) w.
Proof. intros Hw. apply wp_ret. by apply moves_refl. Qed.

(** * From the client *)

Lemma recv_pending n s r s' : recv n s = (r, s') ->
  pending (incoming s) = default [] r ++ pending (incoming s')
  /\ (Z.of_nat (length (default [] r)) <= Z.max 0 n)
  /\ sends s' = sends s /\ outgoing s' = outgoing s.
Proof.
  unfold recv. destruct s as [rs ss out]. cbn [incoming sends outgoing].
  assert (0 <= Z.max 0 n) as Hn by lia.
  destruct rs as [|[data| |] rs]; intros [= <- <-]; cbn [default incoming sends outgoing]; [done| |done..].
  split; [|split; [|done]].
  - case_bool_decide as Hl; cbn [pending map concat].
    + rewrite take_ge by done. done.
    + change (data ++ pending rs = take (Z.to_nat n) data ++ drop (Z.to_nat n) data ++ pending rs).
      by rewrite app_assoc, take_drop.
  - unfold id. rewrite length_take. lia.
Qed.

Lemma wp_queue_from_client k w : rings_ok w -> wp queue_from_client (fun _ => moves 0 k k w) w.
Proof.
  intros [[Hr Hfit] Hf]. pose proof Hr as [_ Hrd Hwr Hc]. unfold queue_from_client. jsp_pure. jsp_pure.
  set (r := tohw (jsp w)) in *. assert (0 <= wr_idx r < JSP_BUFFER_SIZE) as Hw by (rewrite Hwr; by apply Z.mod_pos_bound).
  assert (0 <= space_available r /\ count r + space_available r <= JSP_BUFFER_SIZE
    /\ wr_idx r + space_available r <= JSP_BUFFER_SIZE) as (Hs0 & Hs1 & Hs2).
  { unfold space_available. destruct (Z.ltb_spec (JSP_BUFFER_SIZE - count r) (JSP_BUFFER_SIZE - wr_idx r)); lia. }
  destruct (Z.ltb_spec (space_available r) 0); [lia|]. jsp_pure.
  destruct (recv (space_available r) (sock w)) as [res s'] eqn:E.
  destruct (recv_pending _ _ _ _ E) as (Hp & Hl & Hss & Ho).
  exists res, (JWorld (jsp w) s' (jhm w)). split; [unfold on_sock; by rewrite E|].
  destruct res as [data|]; cbn [default] in *; unfold id in *.
  - apply wp_bind. destruct (Z.ltb_spec 0 (Z.of_nat (length data))) as [Hn|Hn].
    + destruct (store_extended r data Hr) as (b & Eb & Hx); [lia|].
      jsp_pure. eapply wp_lift; [exact Eb|]. jsp_pure. jsp_pure.
      split; try done.
      * unfold to_hw, device. cbn. rewrite (queued_extended r data _ Hr Hx) by lia.
        fold r. by rewrite Hp, <- !app_assoc.
      * split; [apply Hx|cbn; lia].
      * intros [Hp1 Hp2]. split; [by split; [cbn; congruence|]|]. exists []. rewrite !app_nil_r.
        split; [done|]. unfold from_hw. cbn. by rewrite Ho.
    + jsp_pure. jsp_pure. destruct data; [|cbn in Hn; lia]. split; try done.
      * unfold to_hw, device. cbn. by rewrite Hp.
      * intros [Hp1 Hp2]. split; [by split; [cbn; congruence|]|]. exists []. rewrite !app_nil_r.
        split; [done|]. unfold from_hw. cbn. by rewrite Ho.
  - jsp_pure. split; try done.
    * unfold to_hw, device. cbn. by rewrite Hp.
    * intros [Hp1 Hp2]. split; [by split; [cbn; congruence|]|]. exists []. rewrite !app_nil_r.
      split; [done|]. unfold from_hw. cbn. by rewrite Ho.
Qed.

Lemma wp_queue_data k w : rings_ok w -> wp jsp_queue_data_from_client (fun _ => moves 0 k k w) w.
Proof.
  intros Hw. unfold jsp_queue_data_from_client. apply (wp_moves _ _ 0 0 k k k); [by apply wp_queue_from_client|].
  intros ok w' Hm. apply moves_rings in Hm as Hw'. destruct ok; [|by apply wp_nothing].
  apply (wp_moves _ _ 0 0 k k k); [by apply wp_queue_from_client|]. intros ok w'' Hm'.
  apply wp_nothing. by apply moves_rings in Hm'.
Qed.

(** * To the client *)

Lemma send_takes data s r s' : send data s = (r, s') ->
  incoming s' = incoming s /\ outgoing s' = outgoing s ++ take (Z.to_nat (default 0 r)) data
  /\ 0 <= default 0 r <= Z.of_nat (length data)
  /\ (sends s = [] -> sends s' = [] /\ r = Some (Z.of_nat (length data))).
Proof.
  unfold send. destruct s as [rs [|[k|] ss] out]; cbn; intros [= <- <-]; cbn.
  - unfold id. split; [done|]. rewrite !Z.min_id, Z.max_r by lia. split; [done|]. split; [lia|done].
  - unfold id. split; [done|]. split; [done|]. split; [lia|done].
  - rewrite take_0, app_nil_r. split; [done|]. split; [done|]. split; [lia|done].
Qed.

(** How much is in front of the end of the array. *)
Definition in_front (r : ring) : Z :=
  if JSP_BUFFER_SIZE - rd_idx r <? count r then JSP_BUFFER_SIZE - rd_idx r else count r.

(** [n] bytes of the ring have been sent. *)
Definition delivered (n : Z) w w' : Prop :=
  let r := fromhw (jsp w) in
  0 <= n <= in_front r /\ jsp w' = set_fromhw (taken n r) (jsp w) /\ jhm w' = jhm w
  /\ incoming (sock w') = incoming (sock w)
  /\ outgoing (sock w') = outgoing (sock w) ++ take (Z.to_nat n) (queued r)
  /\ (sends (sock w) = [] -> sends (sock w') = [] /\ n = in_front r).

Lemma in_front_range r : ring_wf r -> 0 <= in_front r <= count r /\ rd_idx r + in_front r <= JSP_BUFFER_SIZE
  /\ (0 < count r -> 0 < in_front r).
Proof.
  intros [_ Hrd _ Hc]. unfold in_front.
  destruct (Z.ltb_spec (JSP_BUFFER_SIZE - rd_idx r) (count r)); lia.
Qed.

Lemma taken_0 r : ring_wf r -> taken 0 r = r.
Proof. intros [_ Hrd _ _]. unfold taken. rewrite Z.add_0_r, Z.sub_0_r, Z.mod_small by done. by destruct r. Qed.

Lemma wp_send_from_ring w : rings_ok w ->
  wp send_from_ring (fun _ w' => exists n, delivered n w w') w.
Proof.
  intros [_ Hr]. unfold send_from_ring. jsp_pure. jsp_pure. set (r := fromhw (jsp w)) in *.
  destruct (in_front_range r Hr) as (Hf1 & Hf2 & Hf3). fold (in_front r).
  destruct (Z.ltb_spec 0 (count r)) as [Hc|Hc].
  - jsp_pure. eapply wp_lift; [by apply load_queued|]. jsp_pure.
    destruct (send (take (Z.to_nat (in_front r)) (queued r)) (sock w)) as [res s'] eqn:E.
    exists res, (JWorld (jsp w) s' (jhm w)). split; [unfold on_sock; by rewrite E|].
    destruct (send_takes _ _ _ _ E) as (Hi & Ho & Hn & Hs). pose proof (length_queued r Hr) as Hl.
    rewrite length_take in *. unfold delivered. fold r.
    assert (take (Z.to_nat (default 0 res)) (take (Z.to_nat (in_front r)) (queued r))
      = take (Z.to_nat (default 0 res)) (queued r)) as Ht by (rewrite take_take; f_equal; lia).
    destruct res as [n|]; cbn [default] in *; unfold id in *; jsp_pure.
    + exists n. cbn. split; [lia|]. do 3 (split; [done|]). split; [by rewrite Ho, Ht|].
      intros Hs0. destruct (Hs Hs0) as [? [= ->]]. split; [done|]. lia.
    + exists 0. cbn. split; [lia|]. rewrite taken_0 by done.
      split; [by destruct (jsp w)|]. do 2 (split; [done|]). split; [by rewrite Ho|].
      intros Hs0. by destruct (Hs Hs0) as [? ?].
  - jsp_pure. exists 0. unfold delivered. fold r. rewrite taken_0 by done. split; [lia|].
    split; [by destruct w as [[] ? ?]|]. do 2 (split; [done|]). rewrite take_0, app_nil_r. split; [done|].
    intros Hs. split; [done|]. lia.
Qed.

(** A client that does not take anything. *)
Lemma wp_send_fails rest w : rings_ok w -> 0 < count (fromhw (jsp w)) -> sends (sock w) = SendFailed :: rest ->
  wp send_from_ring (fun _ w' => w' = JWorld (jsp w) (Socket (incoming (sock w)) rest (outgoing (sock w))) (jhm w)) w.
Proof.
  intros [_ Hr] Hc Hs. unfold send_from_ring. jsp_pure. jsp_pure.
  destruct (in_front_range (fromhw (jsp w)) Hr) as (Hf1 & Hf2 & Hf3). fold (in_front (fromhw (jsp w))).
  destruct (Z.ltb_spec 0 (count (fromhw (jsp w)))); [|lia].
  jsp_pure. eapply wp_lift; [by apply load_queued|]. apply wp_bind.
  eexists None, _. split; [unfold on_sock, send; by rewrite Hs|]. by apply wp_ret.
Qed.

Lemma delivered_moves n k w w' : rings_ok w -> delivered n w w' -> moves 0 k (k - n) w w'.
Proof.
  intros [Ht Hr] (Hn & Ej & Em & Ei & Eo & Es). destruct (in_front_range _ Hr) as (Hf & _ & _).
  split; unfold to_hw, device, commands; rewrite ?Ej, ?Em, ?Ei; try done.
  - cbn. by apply ring_wf_taken; [|lia].
  - intros [Hs Hk]. destruct (Es Hs) as [Hs' _]. split.
    + split; [done|]. rewrite Ej. cbn. lia.
    + exists []. rewrite !app_nil_r. split; [done|]. unfold from_hw. rewrite Ej, Eo. cbn.
      rewrite queued_taken by (try done; lia). by rewrite <- app_assoc, take_drop.
Qed.

(** What the client takes at once is sent with two calls, one for each end of the array. *)
Lemma wp_send_data k w : rings_ok w -> k <= JSP_BUFFER_SIZE ->
  wp jsp_send_data_to_client (fun _ => moves 0 k 0 w) w.
Proof.
  intros Hw Hk. unfold jsp_send_data_to_client. apply wp_bind.
  eapply wp_mono; [by apply wp_send_from_ring|]. intros [] w1 [n1 D1].
  pose proof (delivered_moves n1 k w w1 Hw D1) as M1. pose proof (moves_rings _ _ _ _ _ M1) as Hw1.
  eapply wp_mono; [by apply wp_send_from_ring|]. intros [] w2 [n2 D2].
  pose proof (moves_trans _ _ _ _ _ _ _ _ M1 (delivered_moves n2 (k - n1) w1 w2 Hw1 D2)) as M2.
  destruct M2 as [A1 A2 A3 A4 A5 A6 A7 A8 A9]. split; try done.
  intros Hp. destruct (A9 Hp) as [[Hs _] Hnew]. split; [|done]. split; [done|].
  destruct D1 as (_ & Ej1 & _ & _ & _ & Es1), D2 as (_ & Ej2 & _ & _ & _ & Es2).
  destruct Hp as [Hs0 Hc]. destruct (Es1 Hs0) as [Hs1 ->]. destruct (Es2 Hs1) as [_ ->].
  rewrite Ej2. cbn. rewrite Ej1. cbn. destruct (proj2 Hw) as [_ Hrd _ Hc0].
  set (r := fromhw (jsp w)) in *. unfold in_front. cbn. unfold JSP_BUFFER_SIZE in *.
  destruct (Z.ltb_spec (256 - rd_idx r) (count r)).
  - replace (rd_idx r + (256 - rd_idx r)) with 256 by lia. change (256 mod 256) with 0.
    destruct (Z.ltb_spec (256 - 0) (count r - (256 - rd_idx r))); lia.
  - pose proof (Z.mod_pos_bound (rd_idx r + count r) 256).
    destruct (Z.ltb_spec (256 - (rd_idx r + count r) mod 256) (count r - count r)); lia.
Qed.

(** * The hardware *)

Lemma wp_transact w : rings_ok w ->
  wp jsp_hardware_transact (fun _ w' => moves 0 0 8 w w'
    /\ exists new, (length new <= 8)%nat /\ gave (device w') = gave (device w) ++ new
         /\ sock w' = sock w /\ extended (fromhw (jsp w)) new (fromhw (jsp w'))) w.
Proof.
  intros [[Ht Hfit] Hf]. unfold jsp_hardware_transact. jsp_pure. jsp_pure. set (t := tohw (jsp w)) in *.
  pose proof (ring_count t Ht) as Hc0.
  set (n := if 8 <? count t then 8 else count t).
  assert (0 <= n <= 8 /\ n <= count t) as [Hn Hnc] by (unfold n; destruct (Z.ltb_spec 8 (count t)); lia).
  jsp_pure. eapply wp_lift; [apply read_from_queued; [done|lia]|]. jsp_pure.
  set (data := take (Z.to_nat n) (queued t)).
  assert (Z.of_nat (length data) = n) as Hl.
  { unfold data. rewrite length_take. pose proof (length_queued t Ht). lia. }
  destruct (law_sndrcv data (device w)) as ([[err sent] received] & d & E & Hrcv & Hres); [lia|].
  rewrite Hl in E, Hres. exists (err, sent, received), (JWorld (jsp w) (sock w) (set_unit d (jhm w))).
  split; [unfold on_monitor, on_unit; unfold device in E; by rewrite E|]. cbv beta iota.
  destruct (Z.ltb_spec 8 (Z.of_nat (length received))); [lia|]. destruct (err =? APP_ERR_NONE); cbn [negb].
  - destruct Hres as (Hsent & Htook & Hgave). jsp_pure. jsp_pure. jsp_pure. jsp_pure. jsp_pure.
    cbn [upd_jsp jsp set_tohw fromhw].
    destruct (enqueue_all_extended received (fromhw (jsp w)) Hf) as (f & Ef & Hx); [unfold JSP_BUFFER_SIZE; lia|].
    eapply wp_lift; [exact Ef|]. jsp_pure. split.
    + split; try done.
      * unfold to_hw, device. cbn. fold t. fold (taken sent t). rewrite Htook, queued_taken by (try done; lia).
        fold (device w). unfold data. rewrite take_take, Nat.min_l by lia.
        by rewrite <- !app_assoc, (app_assoc (take _ _)), take_drop.
      * cbn. fold t. fold (taken sent t). split; [by apply ring_wf_taken; [|lia]|cbn; lia].
      * apply Hx.
      * intros [Hs Hcount]. destruct Hx as (Hx1 & Hx2 & Hx3 & Hx4). split; [split; [done|cbn; lia]|].
        exists received. split; [done|]. unfold from_hw. cbn.
        rewrite (queued_extended _ received f Hf) by (done || (unfold JSP_BUFFER_SIZE; lia)). by rewrite app_assoc.
    + by exists received.
  - destruct Hres as [Htook Hgave]. jsp_pure. split.
    + split; try done.
      * unfold to_hw, device. cbn. by rewrite Htook.
      * intros [Hs Hcount]. split; [split; [done|cbn; lia]|]. exists []. rewrite !app_nil_r.
        split; [exact Hgave|done].
    + exists []. rewrite app_nil_r. split; [cbn; lia|]. split; [exact Hgave|]. split; [done|].
      by apply extended_nil.
Qed.

(** * A turn of the loop *)

(** The number of commands of the monitor a turn reads. *)
Definition pipe_ready (s : jsp_select) : nat :=
  match s with JspReady true _ => 1 | _ => 0 end.

(** There are as many commands to be read. *)
Definition has_commands (n : nat) w : Prop :=
  (jsp_pipe_fds (jsp w)).2 ∈ open_fds (io (jhm w)) /\ (n <= length (commands w))%nat.

Lemma wp_jsp_monitor_event k w : rings_ok w -> has_commands 1 w ->
  wp jsp_monitor_event (fun _ => moves 1 k k w) w.
Proof.
  intros [Ht Hf] [Hopen Hc]. unfold jsp_monitor_event. jsp_pure. jsp_pure. unfold commands in Hc.
  set (fd := (jsp_pipe_fds (jsp w)).2) in *. destruct (queue fd (io (jhm w))) as [|c q] eqn:Eq; [cbn in Hc; lia|].
  jsp_pure. set (io' := Pipes (next_fd (io (jhm w))) (open_fds (io (jhm w))) (<[fd := q]> (queues (io (jhm w))))
    (pipe_results (io (jhm w)))).
  exists (Some c), (JWorld (jsp w) (sock w) (set_io io' (jhm w))). split.
  { unfold on_monitor, read_pipe, fd_read. by rewrite bool_decide_true, Eq. }
  assert (forall f, (forall j, tohw (f j) = tohw j /\ fromhw (f j) = fromhw j /\ jsp_client_fd (f j) = jsp_client_fd j
    /\ jsp_server_running (f j) = jsp_server_running j /\ jsp_pipe_fds (f j) = jsp_pipe_fds j) ->
    moves 1 k k w (upd_jsp f (JWorld (jsp w) (sock w) (set_io io' (jhm w))))) as Hmoves.
  { intros f Hfj. destruct (Hfj (jsp w)) as (E1 & E2 & E3 & E4 & E5).
    split; unfold to_hw, from_hw, prompt, device, commands; cbn; rewrite ?E1, ?E2, ?E3, ?E4, ?E5; try done.
    - fold fd. rewrite Eq. unfold queue. cbn. by rewrite lookup_insert_eq.
    - intros Hp. split; [done|]. exists []. by rewrite !app_nil_r. }
  assert (wp (mret tt) (fun _ => moves 1 k k w) (JWorld (jsp w) (sock w) (set_io io' (jhm w)))) as Hret.
  { apply wp_ret. by apply (Hmoves (fun j => j)). }
  cbv beta iota. repeat case_match; try exact Hret; jsp_pure; by apply Hmoves.
Qed.

Lemma wp_jsp_pass selected w : rings_ok w -> has_commands (pipe_ready selected) w ->
  wp (jsp_pass selected) (fun _ => moves (pipe_ready selected) 8 8 w) w.
Proof.
  intros Hw Hc. unfold jsp_pass.
  replace (pipe_ready selected) with (pipe_ready selected + (0 + (0 + 0)))%nat by lia.
  apply (wp_moves _ _ _ _ 8 8 8).
  - destruct selected as [| |[] client]; try by apply wp_nothing.
    + apply (wp_moves _ _ 1 0 8 8 8); [by apply wp_jsp_monitor_event|]. intros [] w1 M1.
      apply moves_rings in M1. destruct client; [by apply wp_queue_data|by apply wp_nothing].
    + apply (wp_moves _ _ 0 0 8 8 8); [by apply wp_nothing|]. intros [] w1 M1.
      apply moves_rings in M1. destruct client; [by apply wp_queue_data|by apply wp_nothing].
  - intros [] w1 M1. apply moves_rings in M1 as Hw1. apply (wp_moves _ _ 0 (0 + 0) 8 0 8); [by apply wp_send_data|].
    intros [] w2 M2. apply moves_rings in M2 as Hw2.
    apply (wp_moves _ _ 0 0 0 0 8). { apply wp_gets. by apply moves_refl. }
    intros running w3 M3. apply moves_rings in M3 as Hw3. destruct running.
    + eapply wp_mono; [by apply wp_transact|]. by intros a w4 [M4 _].
    + apply wp_ret. pose proof (moves_refl 0 w3 Hw3) as [A1 A2 A3 A4 A5 A6 A7 A8 A9]. split; try done.
      intros Hp. destruct (A9 Hp) as [[Hs Hk] Hnew]. split; [|done]. split; [done|]. lia.
Qed.

(** * The thread *)

Definition pipe_events (events : list jsp_event) : nat :=
  sum_list (map (fun e => pipe_ready (selected e)) events).

Lemma wp_jsp_server events w :
  rings_ok w -> jsp_client_fd (jsp w) <> -1 -> jsp_server_running (jsp w) = true ->
  has_commands (pipe_events events) w ->
  wp (jsp_server events) (fun _ => moves (pipe_events events) 8 8 w) w.
Proof.
  revert w. induction events as [|e events IH]; intros w Hw Hfd Hrun Hc; cbn [jsp_server].
  - jsp_pure. jsp_pure. rewrite Hrun. cbn [negb]. jsp_pure. by apply moves_refl.
  - apply wp_bind, wp_gets. rewrite Hrun. cbn [negb].
    change (pipe_events (e :: events)) with (pipe_ready (selected e) + pipe_events events)%nat in *.
    destruct Hc as [Hopen Hlen]. apply (wp_moves _ _ _ _ 8 8 8).
    + unfold jsp_iteration. apply wp_bind, wp_gets. destruct (Z.eqb_spec (jsp_client_fd (jsp w)) (-1)); [done|].
      apply wp_jsp_pass; [done|]. split; [done|lia].
    + intros [] w1 M. destruct M as [A1 A2 A3 A4 A5 A6 A7 A8 A9].
      apply IH; [by split|congruence|congruence|]. split; [congruence|]. rewrite A8, length_drop. lia.
Qed.

(** * A new client *)

(** [jsp_send_all] comes to an end and changes only the socket. *)
Lemma wp_send_loop fuel data total w :
  (S (length (sends (sock w))) < fuel)%nat -> 0 <= total ->
  wp (send_loop fuel data (Z.of_nat (length data)) total) (fun _ w' => jsp w' = jsp w /\ jhm w' = jhm w
    /\ incoming (sock w') = incoming (sock w)
    /\ (sends (sock w) = [] -> sends (sock w') = []
         /\ outgoing (sock w') = outgoing (sock w) ++ if total <? Z.of_nat (length data) then data else [])) w.
Proof.
  revert total w. induction fuel as [|fuel IH]; intros total w Hf Ht; [lia|]. cbn [send_loop].
  destruct (Z.ltb_spec total (Z.of_nat (length data))) as [Hlt|Hge].
  2: { apply wp_ret. do 3 (split; [done|]). intros Hs. split; [done|]. by rewrite app_nil_r. }
  apply wp_bind. destruct (send data (sock w)) as [r s] eqn:E.
  exists r, (JWorld (jsp w) s (jhm w)). split; [unfold on_sock; by rewrite E|].
  destruct (send_takes _ _ _ _ E) as (Hi & Ho & Hn & Hs). destruct r as [k|]; cbn [default] in *; unfold id in *.
  - assert (sends s = tail (sends (sock w))) as Hss.
    { unfold send in E. repeat case_match; by simplify_eq/=. }
    destruct (sends (sock w)) as [|x xs] eqn:Ess; cbn in Hss, Hf.
    + destruct (Hs eq_refl) as [_ [= ->]]. destruct fuel; [lia|]. cbn [send_loop].
      destruct (Z.ltb_spec (total + Z.of_nat (length data)) (Z.of_nat (length data))); [lia|].
      apply wp_ret. cbn. split; [done|]. split; [done|]. split; [done|]. intros _. split; [done|].
      by rewrite Ho, Nat2Z.id, firstn_all.
    + eapply wp_mono; [apply IH; [cbn; rewrite Hss; lia|lia]|]. intros [] w' (E1 & E2 & E3 & _).
      rewrite E1, E2, E3. by split.
  - apply wp_ret. cbn. split; [done|]. split; [done|]. split; [done|]. intros Hs0. by destruct (Hs Hs0).
Qed.

Lemma wp_send_all data w :
  wp (jsp_send_all data) (fun _ w' => jsp w' = jsp w /\ jhm w' = jhm w /\ incoming (sock w') = incoming (sock w)
    /\ (sends (sock w) = [] -> sends (sock w') = [] /\ outgoing (sock w') = outgoing (sock w) ++ data)) w.
Proof.
  unfold jsp_send_all. apply wp_bind, wp_gets. eapply wp_mono; [apply wp_send_loop; lia|].
  intros [] w' (E1 & E2 & E3 & E4). do 3 (split; [done|]). intros Hs. destruct (E4 Hs) as [? ->].
  split; [done|]. destruct (Z.ltb_spec 0 (Z.of_nat (length data))); [done|]. by destruct data.
Qed.

(** What a new client is told. *)
Definition welcome_texts (j : jsp_t) : list (list Z) :=
  [bytes "Advanced Debug System JTAG Serial Port Server" ++ [10; 13; 0]; cstr (jsp_hostname j);
   bytes " (" ++ [0]; cstr (jsp_ipstr j); bytes "), port " ++ [0];
   take 22 (bytes (pretty (jsp_portnum j)) ++ [10; 10; 13])].
Definition welcome (j : jsp_t) : list Z := concat (welcome_texts j).

Lemma wp_print_welcome w :
  wp jsp_print_welcome (fun _ w' => jsp w' = jsp w /\ jhm w' = jhm w /\ incoming (sock w') = incoming (sock w)
    /\ (sends (sock w) = [] -> sends (sock w') = []
         /\ outgoing (sock w') = outgoing (sock w) ++ welcome (jsp w))) w.
Proof.
  unfold jsp_print_welcome. do 6 jsp_pure.
  change (welcome (jsp w)) with (concat (welcome_texts (jsp w))). unfold welcome_texts.
  set (t1 := _ ++ [10; 13; 0]). set (t2 := cstr (jsp_hostname (jsp w))). set (t3 := _ ++ [0]).
  set (t4 := cstr (jsp_ipstr (jsp w))). set (t5 := _ ++ [0]). set (t6 := take 22 _).
  do 5 (apply wp_bind; eapply wp_mono; [apply wp_send_all|]; intros [] ? (? & ? & ? & ?)).
  eapply wp_mono; [apply wp_send_all|]. intros [] w' (? & ? & ? & ?).
  split; [congruence|]. split; [congruence|]. split; [congruence|]. intros Hs.
  repeat match goal with H : sends (sock ?v) = [] -> _, H' : sends (sock ?v) = [] |- _ => destruct (H H'); clear H end.
  split; [done|]. cbn [concat]. rewrite !app_nil_r.
  repeat match goal with H : outgoing (sock ?v) = _ |- context [outgoing (sock ?v)] => rewrite H end.
  by rewrite <- !app_assoc.
Qed.

(** The state for a new client. *)
Definition greeted (fd : Z) (j : jsp_t) : jsp_t :=
  let j := set_jsp_client_fd fd j in set_fromhw (clear (fromhw j)) (set_tohw (clear (tohw j)) j).

Lemma wp_jsp_accept fd s w :
  wp (jsp_accept (Some (fd, s))) (fun _ w' => jsp w' = greeted fd (jsp w) /\ jhm w' = jhm w
    /\ incoming (sock w') = incoming s
    /\ (sends s = [] -> sends (sock w') = [] /\ outgoing (sock w') = outgoing s ++ welcome (jsp w))) w.
Proof.
  unfold jsp_accept. jsp_pure. jsp_pure. apply wp_bind.
  exists tt, (JWorld (set_jsp_client_fd fd (jsp w)) s (jhm w)). split; [done|].
  jsp_pure. jsp_pure. eapply wp_mono; [apply wp_print_welcome|]. intros [] w' (E1 & E2 & E3 & E4).
  by split.
Qed.
End facts.
