(* ===== verification/JspProps.v ===== *)
(** The properties of the serial port server. *)

From S2P Require Import Prelude Scanf StateM Cable RspData DebugUnit HwMonitor JspServer JspRing.
From stdpp Require Import gmap list.

Open Scope Z_scope.

Section properties.
Context {D : Type} `{SerialLaws D}.
Implicit Types w : jworld D.

(** C34: The server carries the two streams of a client.  Whatever the events are, and
    however little a call of recv or of the serial port moves, the bytes the client sends
    reach the hardware in order, none lost and none twice: they are with the hardware,
    in the ring, or still to be received.  If the client takes what it is sent, what it
    gets, after the welcome, is what the hardware has given, and no more than eight bytes
    wait for it. *)
Theorem serial_streams e events fd s w :
  jsp_server_running (jsp w) = true -> jsp_client_fd (jsp w) = -1 -> rings_ok w ->
  accepted e = Some (fd, s) -> fd <> -1 -> has_commands (pipe_events events) w ->
  wp (jsp_server (e :: events)) (fun _ w' => jsp_client_fd (jsp w') = fd /\ rings_ok w'
    /\ took (device w') ++ queued (tohw (jsp w')) ++ pending (incoming (sock w'))
         = took (device w) ++ pending (incoming s)
    /\ (sends s = [] -> count (fromhw (jsp w')) <= 8
         /\ exists new, gave (device w') = gave (device w) ++ new
              /\ outgoing (sock w') ++ queued (fromhw (jsp w')) = outgoing s ++ welcome (jsp w) ++ new)) w.
Proof.
  intros Hrun Hfd [Ht Hf] He Hne [Hopen Hc]. cbn [jsp_server]. apply wp_bind, wp_gets. rewrite Hrun. cbn [negb].
  apply wp_bind. unfold jsp_iteration. apply wp_bind, wp_gets. rewrite Hfd, He. cbn [Z.eqb].
  eapply wp_mono; [apply wp_jsp_accept|]. intros [] w1 (E1 & E2 & E3 & E4).
  assert (rings_ok w1) as Hw1.
  { unfold rings_ok. rewrite E1. split; [|apply ring_ok_clear, Hf]. apply ring_ok_clear, Ht. }
  eapply wp_mono.
  { apply wp_jsp_server; [done|by rewrite E1|by rewrite E1|]. unfold has_commands, commands. by rewrite E1, E2. }
  intros [] w2 M. cbv beta in M. pose proof (moves_rings _ _ _ _ _ M) as Hw2. destruct M as [A1 A2 A3 A4 A5 A6 A7 A8 A9].
  rewrite E1 in A4. split; [done|]. split; [done|]. split.
  { unfold to_hw, device in *. by rewrite A1, E1, E2, E3. }
  intros Hs. destruct (E4 Hs) as [Hs1 Ho]. destruct A9 as ((_ & Hk) & new & Eg & Ef).
  { split; [done|]. by rewrite E1. }
  split; [done|]. exists new. unfold device, from_hw in *. rewrite Eg, Ef, Ho, E1, E2.
  split; [done|]. cbn. by rewrite app_nil_r, <- app_assoc.
Qed.

(** There is no test for room in the ring of what the hardware gives: when it is full
    and the client does not take anything, new bytes are put in the place of the oldest
    ones, which are lost, and are going to be sent a second time. *)
Theorem serial_overflow rest w :
  rings_ok w -> count (fromhw (jsp w)) = JSP_BUFFER_SIZE -> jsp_target_is_running (jsp w) = true ->
  sends (sock w) = SendFailed :: SendFailed :: rest ->
  wp (jsp_pass JspTimeout) (fun _ w' => exists new, gave (device w') = gave (device w) ++ new
    /\ outgoing (sock w') = outgoing (sock w)
    /\ queued (fromhw (jsp w')) = new ++ drop (length new) (queued (fromhw (jsp w))) ++ new) w.
Proof.
  intros Hw Hfull Hrun Hs. unfold jsp_pass. jsp_pure. jsp_pure. apply wp_bind. unfold jsp_send_data_to_client.
  apply wp_bind. assert (0 < count (fromhw (jsp w))) as Hpos by (rewrite Hfull; done).
  eapply wp_mono; [by apply (wp_send_fails (SendFailed :: rest))|]. intros [] w1 ->.
  eapply wp_mono; [by apply (wp_send_fails rest)|]. intros [] w2 ->.
  jsp_pure. jsp_pure. cbn [jsp]. rewrite Hrun.
  eapply wp_mono; [by apply wp_transact|]. intros [] w3 (_ & new & Hl & Hg & Es & Hx).
  exists new. split; [done|]. rewrite Es. split; [done|].
  apply (queued_overflow _ _ _ (proj2 Hw) Hx Hfull). unfold JSP_BUFFER_SIZE. lia.
Qed.
End properties.

(** * Witnesses *)

(** A port that takes what it is offered and gives what it has, eight bytes at a time. *)
Record port := Port { port_took : list Z; port_gave : list Z; port_has : list Z }.

#[export] Instance port_serial : SerialPort port := fun n data d =>
  let received := take 8 (port_has d) in
  Ok ((APP_ERR_NONE, n, received), Port (port_took d ++ data) (port_gave d ++ received) (drop 8 (port_has d))).

#[export] Program Instance port_laws : SerialLaws port := { took := port_took; gave := port_gave }.
Next Obligation.
  intros data d Hl. eexists (_, _, _), _. split; [done|]. cbn. split; [rewrite length_take; lia|].
  split; [lia|]. by rewrite Nat2Z.id, firstn_all.
Qed.

Definition port_world (j : jsp_t) (s : socket_t) (has commands : list Z) : jworld port :=
  JWorld (set_jsp_pipe_fds (4, 5) (set_jsp_server_running true j)) s
    (HwMon true true 1 [] false (Pipes 7 {[5; 6]} {[5 := commands]} []) (Port [] [] has)).

(** The target starts, the client sends two pieces and goes, the hardware has ten bytes. *)
Lemma serial_streams_witness :
  let e := JspEvent (Some (9, Socket [Bytes [1; 2; 3]; NoData; Bytes [4]; Closed] [] [])) JspTimeout in
  let events := map (JspEvent None) [JspReady true true; JspTimeout; JspReady false true] in
  let w := port_world initial_jsp (Socket [] [] []) (seqZ 10 10) [82] in
  wp (jsp_server (e :: events)) (fun _ w' => jsp_client_fd (jsp w') = 9 /\ rings_ok w'
    /\ took (device w') ++ queued (tohw (jsp w')) ++ pending (incoming (sock w')) = [1; 2; 3; 4]
    /\ (count (fromhw (jsp w')) <= 8
         /\ exists new, gave (device w') = [] ++ new
              /\ outgoing (sock w') ++ queued (fromhw (jsp w')) = [] ++ welcome (jsp w) ++ new)) w.
Proof.
  intros e events w. eapply wp_mono.
  - apply (serial_streams e events 9 (Socket [Bytes [1; 2; 3]; NoData; Bytes [4]; Closed] [] []) w); try done.
  - intros [] w' (H1 & H2 & H3 & H4). split; [done|]. split; [done|]. split; [exact H3|]. by apply H4.
Defined.

Lemma serial_overflow_witness :
  let r := Ring (seqZ 0 256) 250 250 256 in
  let w := port_world (set_fromhw r (set_jsp_target_is_running true initial_jsp)) (Socket [] [SendFailed; SendFailed] [])
    [501; 502] [] in
  wp (jsp_pass JspTimeout) (fun _ w' => exists new, gave (device w') = [] ++ new
    /\ outgoing (sock w') = []
    /\ queued (fromhw (jsp w')) = new ++ drop (length new) (queued r) ++ new) w.
Proof.
  intros r w. eapply wp_mono; [apply (serial_overflow [] w); done|by intros [] w' Hw'].
Defined.
