(* ===== verification/CString.v ===== *)
(** Strings of C in an array, with pointers as indices: the functions of string.h and
    ctype.h that the parser of BSDL files uses.

    The state is the array.  What is read or written out of its bounds is undefined, and
    so is a string that no zero ends.  The characters are the bytes 0 to 255; those from
    128 on belong to no class. *)

From Stdlib Require Import Ascii String.
From S2P Require Import Prelude Scanf StateM Cable.
From stdpp Require Import list.

Open Scope Z_scope.

Abbreviation mem := (list Z).

(** * Characters *)

Definition iscntrl (c : Z) : bool := (c <? 32) || (c =? 127).
Definition toupper (c : Z) : Z := if (97 <=? c) && (c <=? 122) then c - 32 else c.

(** The length of the longest prefix that satisfies [p]. *)
Fixpoint prefix_len (p : Z -> bool) (s : list Z) : nat :=
  match s with
  | c :: s => if p c then S (prefix_len p s) else O
  | [] => O
  end.

Definition one_of (set : list Z) (c : Z) : bool := bool_decide (c ∈ set).

(** The first place where what follows satisfies [p]. *)
Fixpoint find_suffix (p : list Z -> bool) (s : list Z) : option nat :=
  if p s then Some O else
  match s with
  | [] => None
  | _ :: s => S <$> find_suffix p s
  end.

Definition starts_one_of (set : list Z) (s : list Z) : bool :=
  match s with c :: _ => one_of set c | [] => false end.

(** * Memory *)

Definition char_at (i : Z) : M mem Z := fun m =>
  if 0 <=? i then match m !! Z.to_nat i with Some c => Ok (c, m) | None => Undef end else Undef.
Definition poke (i c : Z) : M mem unit := fun m =>
  if (0 <=? i) && (i <? Z.of_nat (length m)) then Ok (tt, <[Z.to_nat i := c]> m) else Undef.

(** [while (p (m[i]) && i < size) i++], where [m] has [size] characters: the character is
    read before the index is tested. *)
Definition scan_while (p : Z -> bool) (i : Z) : M mem Z := fun m =>
  let e := i + Z.of_nat (prefix_len p (drop (Z.to_nat i) m)) in
  if (0 <=? i) && (e <? Z.of_nat (length m)) then Ok (e, m) else Undef.

(** The string at [p]. *)
Definition text (p : Z) : M mem (list Z) := fun m =>
  let s := drop (Z.to_nat p) m in
  if (0 <=? p) && bool_decide (0 ∈ s) then Ok (cstr s, m) else Undef.

(** * Functions *)

(** [strchr], [strstr] and the like: a pointer to the first match, if there is one. *)
Definition search (f : list Z -> bool) (p : Z) : M mem (option Z) :=
  s ← text p;
  mret ((fun k => p + Z.of_nat k) <$> find_suffix f s).
Definition strchr (c : Z) : Z -> M mem (option Z) := search (starts_one_of [c]).
Definition strstr (pat : string) : Z -> M mem (option Z) := search (starts_with pat).

(** [strtok_r], as the C library of GNU has it: the token, if there is one, and where the
    next call goes on. *)
Definition strtok_r (delim : list Z) (p : Z) : M mem (option Z * Z) :=
  s ← text p;
  let k := prefix_len (one_of delim) s in
  let token := p + Z.of_nat k in
  let rest := drop k s in
  if bool_decide (rest = []) then mret (None, token) else
  let n := prefix_len (fun c => negb (one_of delim c)) rest in
  let e := token + Z.of_nat n in
  if bool_decide (n = length rest) then mret (Some token, e) else
  poke e 0;;
  mret (Some token, e + 1).

(** [strtoul (s, NULL, base)] for base 2, and for base 0, which takes the base from the
    text. *)
Definition digits_of (base : Z) (s : list Z) : list Z :=
  take (prefix_len (fun c => (0 <=? hex c) && (hex c <? base)) s) s.

Definition strtoul `{Target} (s : list Z) (base : Z) : Z :=
  let '(neg, _, s) := scan_sign (length s) (skip_white s) in
  let '(base, s) :=
    if base =? 0 then
      let '(_, t) := scan_0x (length s) s in
      if bool_decide (length t < length s)%nat then (16, t)
      else if starts_one_of [48] s then (8, s) else (10, s)
    else (base, s) in
  let v := number base (digits_of base s) in
  let bits := 8 * long_size in
  if 2 ^ bits <=? v then 2 ^ bits - 1 else if (neg : bool) then wrap bits (- v) else v.
