(* ===== verification/BsdlParse.v ===== *)
(** bsdl_parse.c: what the bridge needs to know of a device, from its BSDL file.

    The state is [filedata], the file, in which the parser puts zeros where lines and
    tokens end; a pointer is an index into it.  The loops over lines have fuel for every
    character of the file, since each line that is got takes at least one.  Messages are
    left out. *)

From Stdlib Require Import Ascii String.
From S2P Require Import Prelude Scanf StateM Cable Chain CString.
From stdpp Require Import list.

Open Scope Z_scope.
Open Scope cword_scope.

Definition TAP_CMD_INVALID : Z := 0xFFFFFFFF.

Record bsdlinfo := BsdlInfo {
  name : option (list Z);
  idcode : Z;
  idcode_mask : Z;
  IR_size : Z;
  cmd_debug : Z;
  cmd_user1 : Z;
  cmd_idcode : Z
}.

(** The values found so far, and which of them have been found. *)
Record found := Found {
  info : bsdlinfo; found_IR_size : bool; found_cmds : bool; found_idcode : bool
}.

Definition nothing_found : found :=
  Found (BsdlInfo None 0 0xFFFFFFFF (-1) TAP_CMD_INVALID TAP_CMD_INVALID TAP_CMD_INVALID) false false false.

Definition set_name (v : option (list Z)) (f : found) : found :=
  let i := info f in
  Found (BsdlInfo v (idcode i) (idcode_mask i) (IR_size i) (cmd_debug i) (cmd_user1 i) (cmd_idcode i))
    (found_IR_size f) (found_cmds f) (found_idcode f).
Definition set_IR_size (v : Z) (f : found) : found :=
  let i := info f in
  Found (BsdlInfo (name i) (idcode i) (idcode_mask i) v (cmd_debug i) (cmd_user1 i) (cmd_idcode i))
    true (found_cmds f) (found_idcode f).
Definition set_cmds (v : Z * Z * Z) (f : found) : found :=
  let '(debug_cmd, user1_cmd, idcode_cmd) := v in
  let i := info f in
  Found (BsdlInfo (name i) (idcode i) (idcode_mask i) (IR_size i) debug_cmd user1_cmd idcode_cmd)
    (found_IR_size f) true (found_idcode f).
Definition set_idcode (v mask : Z) (f : found) : found :=
  let i := info f in
  Found (BsdlInfo (name i) v mask (IR_size i) (cmd_debug i) (cmd_user1 i) (cmd_idcode i))
    (found_IR_size f) (found_cmds f) true.

(** The size of [tmpbuf]. *)
Definition TMPBUF_SIZE : Z := 128.

(** * Lines *)

Definition not_newline (c : Z) : bool := negb (c =? 10) && negb (c =? 13).

(** White space and lines that are comments are left out. *)
Fixpoint skip_comments (fuel : nat) (lineidx : Z) : M mem Z :=
  match fuel with
  | O => lift Hang
  | S fuel =>
      filesize ← gets (fun m => Z.of_nat (length m));
      lineidx ← scan_while isspace lineidx;
      if filesize - 1 <=? lineidx then mret (filesize - 1) else
      c ← char_at lineidx;
      c1 ← char_at (lineidx + 1);
      if (c =? 45) && (c1 =? 45) then
        lineidx ← scan_while not_newline lineidx;
        skip_comments fuel lineidx
      else mret lineidx
  end.

(** The next line: the index after it, and a pointer to it.  The test that the index is
    in the file after the end of the line has been looked for comes too late to matter. *)
Definition get_line (startpos : Z) : M mem (Z * Z) :=
  size ← gets length;
  lineidx ← skip_comments (S size) startpos;
  e ← scan_while (fun c => negb (iscntrl c)) lineidx;
  poke e 0;;
  comment ← strstr "--" lineidx;
  (match comment with Some p => poke p 0 | None => mret tt end);;
  mret (e + 1, lineidx).

(** The string is changed in place. *)
Definition strtoupper (p : Z) : M mem (list Z) :=
  s ← text p;
  let s := map toupper s in
  modify (list_inserts (Z.to_nat p) s);;
  mret s.

Definition strchr_s (chars : string) : Z -> M mem (option Z) := search (starts_one_of (bytes chars)).

(** [while ((last = f (last)) == NULL) filepos = get_line (.., &last, ..)] *)
Fixpoint find_on_lines (fuel : nat) (f : Z -> M mem (option Z)) (last filepos : Z) : M mem (Z * Z) :=
  match fuel with
  | O => lift Hang
  | S fuel =>
      r ← f last;
      match r with
      | Some last => mret (last, filepos)
      | None => '(filepos, last) ← get_line filepos; find_on_lines fuel f last filepos
      end
  end.

Definition find_from (f : Z -> M mem (option Z)) (last filepos : Z) : M mem (Z * Z) :=
  size ← gets length;
  find_on_lines (S (S size)) f last filepos.

(** Up to a semicolon; what comes after it on its line is ignored. *)
Definition skip_statement (last filepos : Z) : M mem Z :=
  '(_, filepos) ← find_from (strchr 59) last filepos;
  mret filepos.

(** * Values *)

(** The digits of a line, and whether there is a semicolon. *)
Fixpoint digits_on_line (s : list Z) : list Z * bool :=
  match s with
  | [] => ([], false)
  | c :: s =>
      if isdigit c then let '(d, done) := digits_on_line s in (c :: d, done)
      else if c =? 59 then ([], true)
      else digits_on_line s
  end.

(** What is between quotes: on the first line a semicolon ends the statement also between
    quotes, on the others only outside of them. *)
Fixpoint quoted_on_line (first : bool) (s : list Z) (valid : bool) : list Z * bool * bool :=
  match s with
  | [] => ([], valid, false)
  | c :: s =>
      if (c =? 59) && (first || negb valid) then ([], valid, true)
      else if valid && negb (c =? 34) then
        let '(d, valid, done) := quoted_on_line first s valid in (c :: d, valid, done)
      else if c =? 34 then quoted_on_line first s (negb valid)
      else quoted_on_line first s valid
  end.

(** The characters of a statement that [f] chooses, over as many lines as it takes. *)
Fixpoint collect {V} (fuel : nat) (f : list Z -> V -> list Z * V * bool) (v : V) (acc : list Z) (filepos : Z)
    : M mem (list Z * Z) :=
  match fuel with
  | O => lift Hang
  | S fuel =>
      '(filepos, linedata) ← get_line filepos;
      s ← text linedata;
      let '(d, v, done) := f s v in
      if (done : bool) then mret (acc ++ d, filepos) else collect fuel f v (acc ++ d) filepos
  end.

(** The first line is the rest of one.  The characters and a zero are put into a buffer of
    [size] characters. *)
Definition collect_into {V} (size : Z) (f : bool -> list Z -> V -> list Z * V * bool) (v : V) (last filepos : Z)
    : M mem (list Z * Z) :=
  fuel ← gets length;
  s ← text last;
  let '(d, v, done) := f true s v in
  '(chars, filepos) ← (if (done : bool) then mret (d, filepos) else collect (S fuel) (f false) v d filepos);
  if Z.of_nat (length chars) <? size then mret (chars, filepos) else lift Undef.

Definition digits_of_line (first : bool) (s : list Z) (v : unit) : list Z * unit * bool :=
  let '(d, done) := digits_on_line s in (d, v, done).

Section parse.
Context `{Target, Alloc}.

(** * Opcodes *)

Definition TARGET_DEBUG : Z := 1.
Definition TARGET_USER1 : Z := 2.
Definition TARGET_IDCODE : Z := 3.

Definition target_of (token : list Z) : Z :=
  if equals "DEBUG" token then TARGET_DEBUG
  else if equals "USER1" token then TARGET_USER1
  else if equals "IDCODE" token then TARGET_IDCODE else 0.

Definition set_cmd (target opcode : Z) (cmds : Z * Z * Z) : Z * Z * Z :=
  let '(debug_cmd, user1_cmd, idcode_cmd) := cmds in
  if target =? TARGET_DEBUG then (opcode, user1_cmd, idcode_cmd)
  else if target =? TARGET_USER1 then (debug_cmd, opcode, idcode_cmd)
  else if target =? TARGET_IDCODE then (debug_cmd, user1_cmd, opcode) else cmds.

(** One name and its opcode; [cmdbuf] is the state.  A command without a name is a null
    pointer for [strtoupper]. *)
Definition parse_opcode (cmd : Z) (cmds : Z * Z * Z) : M mem (Z * Z * Z) :=
  '(token, saveptr2) ← strtok_r (bytes " " ++ [9] ++ bytes "(") cmd;
  token ← lift (read_var token);
  s ← strtoupper token;
  let target := target_of s in
  if target =? 0 then mret cmds else
  '(token, _) ← strtok_r (bytes " " ++ [9] ++ bytes "()") saveptr2;
  match token with
  | None => mret cmds
  | Some token =>
      s ← text token;
      mret (set_cmd target (u32 (i32 (strtoul s 2))) cmds)
  end.

Fixpoint opcodes_loop (fuel : nat) (cmd : option Z) (saveptr : Z) (cmds : Z * Z * Z) : M mem (Z * Z * Z) :=
  match fuel with
  | O => lift Hang
  | S fuel =>
      match cmd with
      | None => mret cmds
      | Some cmd =>
          cmds ← parse_opcode cmd cmds;
          '(cmd, saveptr) ← strtok_r (bytes ",") saveptr;
          opcodes_loop fuel cmd saveptr cmds
      end
  end.

Definition parse_opcodes (cmds : Z * Z * Z) : M mem (Z * Z * Z) :=
  fuel ← gets length;
  '(cmd, saveptr) ← strtok_r (bytes ",") 0;
  opcodes_loop (S (S fuel)) cmd saveptr cmds.

(** On a buffer of its own. *)
Definition on_cmdbuf (chars : list Z) (cmds : Z * Z * Z) : outcome (Z * Z * Z) :=
  '(cmds, _) ← parse_opcodes cmds (chars ++ [0]);
  Ok cmds.

(** * Identification codes *)

(** The bits of the code and of the mask: the characters after the 32nd shift by a
    negative number. *)
Fixpoint idcode_bits (i : Z) (s : list Z) (code mask : Z) : outcome (Z * Z) :=
  match s with
  | [] => Ok (code, mask)
  | c :: s =>
      if c =? 49 then b ← shl_c 1 (31 - i); idcode_bits (i + 1) s (code .| b) mask
      else if toupper c =? 88 then b ← shl_c 1 (31 - i); idcode_bits (i + 1) s code (mask .& not32 b)
      else idcode_bits (i + 1) s code mask
  end.

(** * Statements

    Each takes the rest of its first line and the place where the next one begins, and
    returns the place where the next statement begins. *)

(** [: entity is] *)
Definition find_is (last filepos : Z) : M mem (Z * Z) :=
  '(last, filepos) ← find_from (strchr 58) last filepos;
  '(last, filepos) ← find_from (strstr "entity") last filepos;
  find_from (strstr "is") last filepos.

Definition instruction_length (last filepos : Z) (f : found) : M mem (Z * found) :=
  '(last, filepos) ← find_is last filepos;
  '(tmpbuf, filepos) ← collect_into TMPBUF_SIZE digits_of_line tt last filepos;
  mret (filepos, set_IR_size (i32 (strtoul tmpbuf 0)) f).

(** The buffer has as many characters as the file after the line. *)
Definition instruction_opcode (last filepos : Z) (f : found) : M mem (Z * found) :=
  '(last, filepos) ← find_is last filepos;
  filesize ← gets length;
  let size := Z.of_nat filesize - filepos in
  if negb (malloc_ok size) then lift Undef else
  '(cmdbuf, filepos) ← collect_into size quoted_on_line false last filepos;
  let i := info f in
  cmds ← lift (on_cmdbuf cmdbuf (cmd_debug i, cmd_user1 i, cmd_idcode i));
  mret (filepos, set_cmds cmds f).

Definition idcode_register (last filepos : Z) (f : found) : M mem (Z * found) :=
  '(last, filepos) ← find_is last filepos;
  '(tmpbuf, filepos) ← collect_into TMPBUF_SIZE quoted_on_line false last filepos;
  '(code, mask) ← lift (idcode_bits 0 tmpbuf (idcode (info f)) (idcode_mask (info f)));
  mret (filepos, set_idcode code mask f).

Definition attribute (last filepos : Z) (f : found) : M mem (Z * found) :=
  '(token, last) ← strtok_r (bytes " " ++ [9]) last;
  token ← lift (read_var token);
  s ← strtoupper token;
  if equals "INSTRUCTION_LENGTH" s then instruction_length last filepos f
  else if equals "INSTRUCTION_OPCODE" s then instruction_opcode last filepos f
  else if equals "IDCODE_REGISTER" s then idcode_register last filepos f
  else filepos ← skip_statement last filepos; mret (filepos, f).

(** [opens] is a char. *)
Fixpoint parentheses (fuel : nat) (opens last filepos : Z) : M mem (Z * Z) :=
  match fuel with
  | O => lift Hang
  | S fuel =>
      '(last, filepos) ← find_from (strchr_s "()") last filepos;
      c ← char_at last;
      let opens := swrap 8 (if c =? 40 then opens + 1 else opens - 1) in
      if opens =? 0 then mret (last + 1, filepos) else parentheses fuel opens (last + 1) filepos
  end.

Definition port (last filepos : Z) : M mem Z :=
  '(last, filepos) ← find_from (strchr 40) last filepos;
  size ← gets length;
  '(last, filepos) ← parentheses (S size) 1 (last + 1) filepos;
  skip_statement last filepos.

(** A declaration that is ignored; [delim] ends its name. *)
Definition ignored (delim : list Z) (last filepos : Z) : M mem Z :=
  '(_, last) ← strtok_r delim last;
  skip_statement last filepos.

Definition entity (last : Z) (f : found) : M mem found :=
  '(token, _) ← strtok_r (bytes " " ++ [9]) last;
  match token with
  | None => mret f
  | Some token =>
      s ← text token;
      mret (set_name (if malloc_ok (Z.of_nat (length s) + 1) then Some s else None) f)
  end.

(** One statement: whether to go on. *)
Definition statement (filepos : Z) (f : found) : M mem (bool * Z * found) :=
  '(filepos, linedata) ← get_line filepos;
  '(token, last) ← strtok_r (bytes " " ++ [9]) linedata;
  match token with
  | None => mret (false, filepos, f)
  | Some token =>
      s ← strtoupper token;
      if equals "ENTITY" s then f ← entity last f; mret (true, filepos, f)
      else if equals "CONSTANT" s || equals "GENERIC" s then
        filepos ← ignored (bytes " " ++ [9]) last filepos; mret (true, filepos, f)
      else if equals "USE" s then
        filepos ← ignored (bytes " " ++ [9] ++ bytes ";") last filepos; mret (true, filepos, f)
      else if equals "END" s then mret (false, filepos, f)
      else if equals "PORT" s then filepos ← port last filepos; mret (true, filepos, f)
      else if equals "ATTRIBUTE" s then '(filepos, f) ← attribute last filepos f; mret (true, filepos, f)
      else mret (true, filepos, f)
  end.

Definition complete (f : found) : bool := found_IR_size f && found_cmds f && found_idcode f.

Fixpoint statements (fuel : nat) (filepos : Z) (f : found) : M mem found :=
  match fuel with
  | O => lift Hang
  | S fuel =>
      filesize ← gets length;
      if (filepos <? Z.of_nat filesize) && negb (complete f) then
        '(more, filepos, f) ← statement filepos f;
        if (more : bool) then statements fuel filepos f else mret f
      else mret f
  end.

(** [file]: what the file holds, if it can be opened. *)
Definition parse_extract_values (file : option (list Z)) : outcome (option bsdlinfo) :=
  match file with
  | None => Ok None
  | Some filedata =>
      if negb (malloc_ok (Z.of_nat (length filedata))) then Ok None else
      '(f, _) ← statements (S (length filedata)) 0 nothing_found filedata;
      Ok (if malloc_ok (6 * 4 + 2 * long_size) then Some (info f) else None)
  end.
End parse.
