(* ===== verification/BsdlLines.v ===== *)
(** A reference for bsdl_parse.c: the same parser on the lines of a file, without memory,
    pointers and changes in place.

    A line of a file is text, with white space and comments before it and perhaps a comment
    after it, up to a control character: not only a newline but also a tab ends it, in the
    text and in the comment.  [ref_parse] reads the texts; [Undef] where the C code goes past the end of
    the file or of a buffer, or follows a null pointer.

    Then what of the lines the C code sees: [view m p s n tl]: at index [p] of [m] is the
    string [s]; index [n] is where [tl], the end of [m], begins, which comes after the zero
    that ends the string; what get_line makes of the lines of a file, and the loops over
    lines against their reference. *)

From Stdlib Require Import Ascii String.
From S2P Require Import Prelude Scanf StateM Cable Chain CString BsdlParse.
From stdpp Require Import list.

Open Scope Z_scope.

(** * Lines *)

(** What is left out before a line: white space, and comments that end with a newline. *)
Inductive junk : list Z -> Prop :=
| junk_blank s : Forall (fun c => isspace c = true) s -> junk s
| junk_comment s text c rest :
    Forall (fun c => isspace c = true) s -> Forall (fun c => not_newline c = true) text ->
    c = 10 \/ c = 13 -> junk rest ->
    junk (s ++ bytes "--" ++ text ++ c :: rest).

Record line := Line { before : list Z; body : list Z; comment : list Z; ending : Z }.

Definition printable (c : Z) : Prop := iscntrl c = false /\ c <> 0.

(** The text does not begin with white space, and the first two hyphens are those of the
    comment. *)
Record line_ok (l : line) : Prop := LineOk {
  line_before : junk (before l);
  line_body : Forall printable (body l);
  line_comment : Forall printable (comment l);
  line_start : match body l with c :: _ => isspace c = false | [] => False end;
  line_hyphens : find_suffix (starts_with "--") (body l ++ comment l)
    = if bool_decide (comment l = []) then None else Some (length (body l));
  line_ending : iscntrl (ending l) = true
}.

Definition print_line (l : line) : list Z := before l ++ body l ++ comment l ++ [ending l].
Definition print_lines (ls : list line) : list Z := concat (map print_line ls).

(** * The parser *)

(** A token and what is after it. *)
Definition tok (delim s : list Z) : option (list Z) * list Z :=
  let r := drop (prefix_len (one_of delim) s) s in
  if bool_decide (r = []) then (None, []) else
  let n := prefix_len (fun c => negb (one_of delim c)) r in
  (Some (take n r), drop (S n) r).

Definition blanks : list Z := bytes " " ++ [9].

Definition next_line (more : list line) : outcome (list Z * list line) :=
  match more with [] => Undef | l :: more => Ok (body l, more) end.

(** The rest of the first text from where it satisfies [f]. *)
Fixpoint ref_find (f : list Z -> bool) (cur : list Z) (more : list line) : outcome (list Z * list line) :=
  match find_suffix f cur with
  | Some k => Ok (drop k cur, more)
  | None => match more with [] => Undef | l :: more => ref_find f (body l) more end
  end.

Definition ref_skip (cur : list Z) (more : list line) : outcome (list line) :=
  '(_, more) ← ref_find (starts_one_of [59]) cur more; Ok more.

Fixpoint ref_collect {V} (f : list Z -> V -> list Z * V * bool) (v : V) (acc : list Z) (more : list line)
    : outcome (list Z * list line) :=
  match more with
  | [] => Undef
  | l :: more =>
      let '(d, v, done) := f (body l) v in
      if (done : bool) then Ok (acc ++ d, more) else ref_collect f v (acc ++ d) more
  end.

Definition ref_collect_into {V} (size : Z) (f : bool -> list Z -> V -> list Z * V * bool) (v : V) (cur : list Z)
    (more : list line) : outcome (list Z * list line) :=
  let '(d, v, done) := f true cur v in
  '(chars, more) ← (if (done : bool) then Ok (d, more) else ref_collect (f false) v d more);
  if Z.of_nat (length chars) <? size then Ok (chars, more) else Undef.

Section ref.
Context `{Target, Alloc}.

Definition ref_opcode (cmd : list Z) (cmds : Z * Z * Z) : outcome (Z * Z * Z) :=
  let '(token, rest) := tok (blanks ++ bytes "(") cmd in
  token ← read_var token;
  let target := target_of (map toupper token) in
  if target =? 0 then Ok cmds else
  match tok (blanks ++ bytes "()") rest with
  | (None, _) => Ok cmds
  | (Some code, _) => Ok (set_cmd target (u32 (i32 (strtoul code 2))) cmds)
  end.

Fixpoint ref_opcodes (fuel : nat) (s : list Z) (cmds : Z * Z * Z) : outcome (Z * Z * Z) :=
  match fuel with
  | O => Hang
  | S fuel =>
      match tok (bytes ",") s with
      | (None, _) => Ok cmds
      | (Some cmd, rest) => cmds ← ref_opcode cmd cmds; ref_opcodes fuel rest cmds
      end
  end.

Definition ref_is (cur : list Z) (more : list line) : outcome (list Z * list line) :=
  '(cur, more) ← ref_find (starts_one_of [58]) cur more;
  '(cur, more) ← ref_find (starts_with "entity") cur more;
  ref_find (starts_with "is") cur more.

Definition ref_length (cur : list Z) (more : list line) (f : found) : outcome (list line * found) :=
  '(cur, more) ← ref_is cur more;
  '(digits, more) ← ref_collect_into TMPBUF_SIZE digits_of_line tt cur more;
  Ok (more, set_IR_size (i32 (strtoul digits 0)) f).

Definition ref_instruction_opcode (cur : list Z) (more : list line) (f : found) : outcome (list line * found) :=
  '(cur, more) ← ref_is cur more;
  let size := Z.of_nat (length (print_lines more)) in
  if negb (malloc_ok size) then Undef else
  '(chars, more) ← ref_collect_into size quoted_on_line false cur more;
  let i := info f in
  cmds ← ref_opcodes (S (S (S (length chars)))) chars (cmd_debug i, cmd_user1 i, cmd_idcode i);
  Ok (more, set_cmds cmds f).

Definition ref_idcode (cur : list Z) (more : list line) (f : found) : outcome (list line * found) :=
  '(cur, more) ← ref_is cur more;
  '(chars, more) ← ref_collect_into TMPBUF_SIZE quoted_on_line false cur more;
  '(code, mask) ← idcode_bits 0 chars (idcode (info f)) (idcode_mask (info f));
  Ok (more, set_idcode code mask f).

Definition ref_attribute (cur : list Z) (more : list line) (f : found) : outcome (list line * found) :=
  let '(token, cur) := tok blanks cur in
  token ← read_var token;
  let s := map toupper token in
  if equals "INSTRUCTION_LENGTH" s then ref_length cur more f
  else if equals "INSTRUCTION_OPCODE" s then ref_instruction_opcode cur more f
  else if equals "IDCODE_REGISTER" s then ref_idcode cur more f
  else more ← ref_skip cur more; Ok (more, f).

Fixpoint ref_parentheses (fuel : nat) (opens : Z) (cur : list Z) (more : list line)
    : outcome (list Z * list line) :=
  match fuel with
  | O => Hang
  | S fuel =>
      '(cur, more) ← ref_find (starts_one_of (bytes "()")) cur more;
      let opens := swrap 8 (if bool_decide (head cur = Some 40) then opens + 1 else opens - 1) in
      if opens =? 0 then Ok (tail cur, more) else ref_parentheses fuel opens (tail cur) more
  end.

(** As many parentheses as there are characters left can come. *)
Definition ref_port (fuel : nat) (cur : list Z) (more : list line) : outcome (list line) :=
  '(cur, more) ← ref_find (starts_one_of [40]) cur more;
  '(cur, more) ← ref_parentheses fuel 1 (tail cur) more;
  ref_skip cur more.

Definition ref_entity (cur : list Z) (f : found) : found :=
  match tok blanks cur with
  | (None, _) => f
  | (Some s, _) => set_name (if malloc_ok (Z.of_nat (length s) + 1) then Some s else None) f
  end.

Definition ref_ignored (delim cur : list Z) (more : list line) : outcome (list line) :=
  let '(_, cur) := tok delim cur in ref_skip cur more.

Definition ref_statement (size : nat) (more : list line) (f : found) : outcome (bool * list line * found) :=
  '(cur, more) ← next_line more;
  match tok blanks cur with
  | (None, _) => Ok (false, more, f)
  | (Some token, cur) =>
      let s := map toupper token in
      if equals "ENTITY" s then Ok (true, more, ref_entity cur f)
      else if equals "CONSTANT" s || equals "GENERIC" s then
        more ← ref_ignored blanks cur more; Ok (true, more, f)
      else if equals "USE" s then more ← ref_ignored (blanks ++ bytes ";") cur more; Ok (true, more, f)
      else if equals "END" s then Ok (false, more, f)
      else if equals "PORT" s then more ← ref_port (S size) cur more; Ok (true, more, f)
      else if equals "ATTRIBUTE" s then '(more, f) ← ref_attribute cur more f; Ok (true, more, f)
      else Ok (true, more, f)
  end.

Fixpoint ref_statements (size fuel : nat) (more : list line) (f : found) : outcome found :=
  match fuel with
  | O => Hang
  | S fuel =>
      if negb (bool_decide (more = [])) && negb (complete f) then
        '(again, more, f) ← ref_statement size more f;
        if (again : bool) then ref_statements size fuel more f else Ok f
      else Ok f
  end.

Definition ref_parse (lines : list line) : outcome bsdlinfo :=
  let size := length (print_lines lines) in
  f ← ref_statements size (S size) lines nothing_found;
  Ok (info f).
End ref.

(** * Commands and their reference *)

(** The command does what the reference says: it ends with results that [R] relates, or
    both do not end, or both are undefined. *)
Definition sim {St A B} (m : M St A) (r : outcome B) (R : A -> B -> St -> Prop) (s : St) : Prop :=
  match r with
  | Ok b => wp m (fun a s' => R a b s') s
  | Hang => m s = Hang
  | AssertFail => m s = AssertFail
  | Undef => m s = Undef
  end.

Section sim.
Context {St : Type}.

Lemma sim_ret {A B} (a : A) (b : B) (R : A -> B -> St -> Prop) s : R a b s -> sim (mret a) (Ok b) R s.
Proof. intros HR. by apply wp_ret. Qed.

Lemma sim_bind {A B A' B'} (m : M St A) (f : A -> M St A') (r : outcome B) (g : B -> outcome B') R R' s :
  sim m r R s -> (forall a b s', R a b s' -> sim (f a) (g b) R' s') -> sim (m ≫= f) (r ≫= g) R' s.
Proof.
  unfold sim at 1. intros Hm Hf. destruct r as [b| | |].
  - destruct Hm as (a & s' & E & HR). specialize (Hf a b s' HR). cbn [mbind outcome_bind].
    unfold sim in *. destruct (g b) as [b'| | |].
    + apply wp_bind. by exists a, s'.
    + unfold mbind, M_bind. by rewrite E.
    + unfold mbind, M_bind. by rewrite E.
    + unfold mbind, M_bind. by rewrite E.
  - cbn. unfold mbind, M_bind. by rewrite Hm.
  - cbn. unfold mbind, M_bind. by rewrite Hm.
  - cbn. unfold mbind, M_bind. by rewrite Hm.
Qed.

(** A command that the reference has no counterpart of. *)
Lemma sim_step {A A' B'} (m : M St A) (f : A -> M St A') (r : outcome B') R s :
  wp m (fun a s' => sim (f a) r R s') s -> sim (m ≫= f) r R s.
Proof.
  intros (a & s' & E & Hf). unfold sim in *. destruct r as [b| | |].
  - apply wp_bind. by exists a, s'.
  - unfold mbind, M_bind. by rewrite E.
  - unfold mbind, M_bind. by rewrite E.
  - unfold mbind, M_bind. by rewrite E.
Qed.

Lemma sim_gets {A A' B'} (g : St -> A) (f : A -> M St A') (r : outcome B') R s :
  sim (f (g s)) r R s -> sim (gets g ≫= f) r R s.
Proof. intros Hs. apply sim_step. by apply wp_gets. Qed.

Lemma sim_lift {A} (o : outcome A) (s : St) : sim (lift o) o (fun (a b : A) s' => a = b /\ s' = s) s.
Proof. destruct o; cbn; [|done..]. by eapply wp_lift. Qed.

Lemma sim_mono {A B} (m : M St A) (r : outcome B) (R R' : A -> B -> St -> Prop) s :
  sim m r R s -> (forall a b s', R a b s' -> R' a b s') -> sim m r R' s.
Proof.
  unfold sim. intros Hm HR. destruct r as [b| | |]; [|done..]. eapply wp_mono; [exact Hm|].
  intros a s' Ha. by apply HR.
Qed.
End sim.

(** * Views *)

Definition no_zero (s : list Z) : Prop := (0 : Z) ∉ s.

(** What is between the string and the end of the array begins and ends with a zero. *)
Definition zeros (b : list Z) : Prop := head b = Some 0 /\ last b = Some 0.

Definition view (m : mem) (p : Z) (s : list Z) (n : Z) (tl : list Z) : Prop :=
  no_zero s /\ exists a b, zeros b /\ m = a ++ s ++ b ++ tl /\ p = Z.of_nat (length a)
    /\ n = Z.of_nat (length (a ++ s ++ b)).

Lemma zeros_one : zeros [0].
Proof. done. Qed.

Lemma zeros_cons b : zeros (0 :: b) <-> b = [] \/ last b = Some 0.
Proof.
  unfold zeros. destruct b as [|c b]; [by split; [left|]|].
  rewrite (last_cons 0 (c :: b)). destruct (last_is_Some (c :: b)) as [_ [x ->]]; [done|].
  split; [intros [_ ?]; by right|]. by intros [?|?].
Qed.

Lemma zeros_inv b : zeros b -> exists b', b = 0 :: b' /\ (b' = [] \/ last b' = Some 0).
Proof.
  intros Hb. pose proof Hb as [Hh _]. destruct b as [|c b]; [done|]. cbn in Hh. injection Hh as ->.
  exists b. split; [done|]. by apply zeros_cons.
Qed.

Lemma cstr_ended s b : no_zero s -> cstr (s ++ 0 :: b) = s.
Proof.
  intros Hs. induction s as [|c s IH]; [done|]. cbn. apply not_elem_of_cons in Hs as [Hc Hs].
  destruct (Z.eqb_spec c 0); [congruence|]. by rewrite IH.
Qed.

Lemma no_zero_app s t : no_zero (s ++ t) <-> no_zero s /\ no_zero t.
Proof. unfold no_zero. rewrite elem_of_app. tauto. Qed.

Lemma view_text m p s n tl : view m p s n tl -> text p m = Ok (s, m).
Proof.
  intros (Hs & a & b & Hb & -> & -> & _). unfold text. rewrite Nat2Z.id, drop_app_length.
  destruct (Z.leb_spec 0 (Z.of_nat (length a))); [|lia].
  apply zeros_inv in Hb as Hb'. destruct Hb' as (b' & -> & _).
  rewrite bool_decide_true by (rewrite elem_of_app; right; cbn; rewrite elem_of_cons; by left). cbn [andb]. cbn [app]. by rewrite cstr_ended.
Qed.

Lemma view_size m p s n tl : view m p s n tl -> Z.of_nat (length m) = n + Z.of_nat (length tl).
Proof. intros (_ & a & b & _ & -> & _ & ->). rewrite !length_app. lia. Qed.

(** Further on in the string. *)
Lemma view_drop m p s n tl k : view m p s n tl -> (k <= length s)%nat ->
  view m (p + Z.of_nat k) (drop k s) n tl.
Proof.
  intros (Hs & a & b & Hb & -> & -> & ->) Hk. pose proof Hs as Hs'. rewrite <- (take_drop k s) in Hs'.
  apply no_zero_app in Hs' as [_ Hs']. split; [done|]. exists (a ++ take k s), b. split; [done|].
  split; [by rewrite <- app_assoc, (app_assoc (take k s)), take_drop|].
  rewrite !length_app, length_take, length_drop. split; lia.
Qed.

(** The array changed up to [n], with a zero before it. *)
Lemma view_other m p s n tl m' q t : view m p s n tl -> view m' q t n tl ->
  exists a : list Z, m' = a ++ 0 :: tl /\ n = Z.of_nat (length a) + 1.
Proof.
  intros _ (_ & a & b & [_ Hb] & -> & _ & ->). destruct b as [|x b _] using rev_ind; [done|].
  rewrite last_snoc in Hb. injection Hb as ->. exists (a ++ t ++ b). rewrite <- !app_assoc. split; [done|].
  rewrite !length_app. cbn. lia.
Qed.

(** * Searching *)

Lemma find_suffix_le f s k : find_suffix f s = Some k -> (k <= length s)%nat.
Proof.
  revert k. induction s as [|c s IH]; intros k; cbn; destruct (f _); try (intros [= <-]; lia); try done.
  destruct (find_suffix f s) as [j|]; [|done]. intros [= <-]. specialize (IH j eq_refl). lia.
Qed.

Lemma find_suffix_at f s k : find_suffix f s = Some k -> f (drop k s) = true.
Proof.
  revert k. induction s as [|c s IH]; intros k; cbn [find_suffix]; destruct (f _) eqn:E; try (by intros [= <-]).
  cbn [fmap option_fmap option_map]. destruct (find_suffix f s) as [j|]; [|done]. intros [= <-]. by apply IH.
Qed.

Lemma wp_search f m p s n tl : view m p s n tl ->
  wp (search f p) (fun r m' => m' = m /\ r = (fun k => p + Z.of_nat k) <$> find_suffix f s) m.
Proof.
  intros Hv. unfold search. apply wp_bind. exists s, m. split; [by eapply view_text|]. by apply wp_ret.
Qed.

(** * Characters of a string in place *)

Lemma toupper_zero c : c <> 0 -> toupper c <> 0.
Proof. intros Hc. unfold toupper. destruct (Z.leb_spec 97 c), (Z.leb_spec c 122); cbn [andb]; lia. Qed.

Lemma no_zero_upper s : no_zero s -> no_zero (map toupper s).
Proof.
  unfold no_zero. intros Hs. change (map ?f ?l) with (f <$> l). rewrite list_elem_of_fmap.
  intros (c & E & Hc). apply Hs. destruct (decide (c = 0)) as [->|Hc0]; [done|]. by destruct (toupper_zero c).
Qed.

Lemma wp_strtoupper m p s n tl : view m p s n tl ->
  wp (strtoupper p) (fun r m' => r = map toupper s /\ view m' p (map toupper s) n tl) m.
Proof.
  intros Hv. unfold strtoupper. apply wp_bind. exists s, m. split; [by eapply view_text|].
  wp_pure. wp_pure. wp_pure. split; [done|]. destruct Hv as (Hs & a & b & Hb & -> & -> & ->).
  split; [by apply no_zero_upper|]. exists a, b. split; [done|]. rewrite Nat2Z.id.
  assert (list_inserts (length a) (map toupper s) (a ++ s ++ b ++ tl) = a ++ map toupper s ++ b ++ tl) as ->.
  { rewrite <- (Nat.add_0_r (length a)), list_inserts_app_r. f_equal.
    apply list_inserts_0_r. by rewrite length_map. }
  split; [done|]. split; [done|]. by rewrite !length_app, length_map.
Qed.

(** * Tokens *)

Lemma prefix_len_le p s : (prefix_len p s <= length s)%nat.
Proof. induction s as [|c s IH]; cbn; [lia|]. destruct (p c); lia. Qed.

Lemma wp_poke i c m : 0 <= i < Z.of_nat (length m) ->
  wp (poke i c) (fun _ m' => m' = <[Z.to_nat i := c]> m) m.
Proof.
  intros Hi. eexists tt, _. split; [|done]. unfold poke.
  destruct (Z.leb_spec 0 i), (Z.ltb_spec i (Z.of_nat (length m))); [done|lia..].
Qed.

(** The token and the rest are strings of their own, as long as the zero between them is
    there. *)
Lemma wp_strtok delim m p s n tl : view m p s n tl ->
  wp (strtok_r delim p) (fun r m' =>
    match tok delim s with
    | (None, _) => r.1 = None /\ view m' r.2 [] n tl
    | (Some w, rest) => exists t n1 tl1, r.1 = Some t /\ view m' t w n1 tl1
        /\ forall m2 t2 w2, view m2 t2 w2 n1 tl1 -> view m2 r.2 rest n tl
    end) m.
Proof.
  intros Hv. unfold strtok_r, tok. apply wp_bind. exists s, m. split; [by eapply view_text|].
  set (k := prefix_len (one_of delim) s). pose proof (prefix_len_le (one_of delim) s) as Hk. fold k in Hk.
  pose proof (view_drop _ _ _ _ _ k Hv Hk) as Hr. set (r := drop k s) in *. cbv zeta.
  case_bool_decide as Er.
  { rewrite Er in Hr. wp_pure. by split. }
  set (q := fun c => negb (one_of delim c)). set (j := prefix_len q r).
  pose proof (prefix_len_le q r) as Hj. fold j in Hj.
  destruct Hr as (Hz & a & b & Hb & -> & Ep & ->). rewrite Ep.
  destruct (zeros_inv b Hb) as (b' & -> & Hb').
  case_bool_decide as Ej.
  - wp_pure. exists (Z.of_nat (length a)), (Z.of_nat (length a + j + 1)), (b' ++ tl). cbn [fst snd]. split; [done|].
    rewrite Ej, firstn_all, (drop_ge r) by lia. split.
    + split; [done|]. exists a, [0]. split; [done|]. split; [done|]. split; [done|]. rewrite !length_app. cbn. lia.
    + intros m2 t2 w2 Hv2. destruct (view_other _ _ _ _ _ _ _ _ Hv2 Hv2) as (a2 & -> & Ha2).
      split; [apply not_elem_of_nil|]. exists a2, (0 :: b'). split; [done|]. split; [done|].
      repeat (rewrite ?length_app; cbn [length]). split; lia.
  - apply wp_bind. eapply wp_mono.
    { apply wp_poke. repeat (rewrite ?length_app; cbn [length]). lia. }
    intros [] m' ->. wp_pure. cbn [fst snd].
    assert (exists d rest, drop j r = d :: rest) as (d & rest & Ed).
    { destruct (drop j r) as [|d rest] eqn:E; [|by eauto]. apply (f_equal length) in E. rewrite length_drop in E. cbn in E. lia. }
    assert (drop (S j) r = rest) as Erest.
    { replace (S j) with (j + 1)%nat by lia. by rewrite <- drop_drop, Ed. }
    assert (r = take j r ++ d :: rest) as Er' by by rewrite <- Ed, take_drop.
    assert (length (take j r) = j) as Hl by (rewrite length_take; lia).
    exists (Z.of_nat (length a)), (Z.of_nat (length a + j + 1)), (rest ++ (0 :: b') ++ tl). split; [done|].
    assert (no_zero (take j r) /\ no_zero (d :: rest)) as [Hz1 Hz2] by (apply no_zero_app; by rewrite <- Er').
    split.
    + split; [done|]. exists a, [0]. split; [done|]. split; [|split; [done|rewrite !length_app, Hl; cbn; lia]].
      replace (Z.to_nat (Z.of_nat (length a) + Z.of_nat j)) with (length a + (length (take j r) + 0))%nat by lia.
      assert (a ++ r ++ (0 :: b') ++ tl = a ++ take j r ++ d :: rest ++ (0 :: b') ++ tl) as ->.
      { rewrite Er' at 1. by rewrite <- app_assoc. }
      by rewrite !insert_app_r.
    + intros m2 t2 w2 Hv2. destruct (view_other _ _ _ _ _ _ _ _ Hv2 Hv2) as (a2 & -> & Ha2). rewrite Erest.
      split. { unfold no_zero in *. rewrite elem_of_cons in Hz2. tauto. }
      exists (a2 ++ [0]), (0 :: b'). rewrite <- !app_assoc. split; [done|]. split; [done|].
      rewrite Er'. repeat (rewrite ?length_app; cbn [length]). split; lia.
Qed.

(** * Lines *)

(** * Scanning *)

Lemma prefix_len_app p s c rest : Forall (fun c => p c = true) s -> p c = false ->
  prefix_len p (s ++ c :: rest) = length s.
Proof. induction 1 as [|x s Hx Hs IH]; intros Hc; cbn; [by rewrite Hc|]. by rewrite Hx, IH. Qed.

Lemma wp_scan_while p a s c rest m i :
  m = a ++ s ++ c :: rest -> Forall (fun c => p c = true) s -> p c = false -> i = Z.of_nat (length a) ->
  wp (scan_while p i) (fun r m' => r = Z.of_nat (length (a ++ s)) /\ m' = m) m.
Proof.
  intros -> Hs Hc ->. eexists _, _. split; [|done]. unfold scan_while.
  rewrite Nat2Z.id, drop_app_length, (prefix_len_app p s c rest Hs Hc).
  destruct (Z.leb_spec 0 (Z.of_nat (length a))); [|lia].
  destruct (Z.ltb_spec (Z.of_nat (length a) + Z.of_nat (length s)) (Z.of_nat (length (a ++ s ++ c :: rest)))) as [_|Hn].
  - cbn [andb]. by rewrite length_app, Nat2Z.inj_add.
  - repeat (rewrite ?length_app in Hn; cbn [length] in Hn). lia.
Qed.

Lemma wp_char_at a c rest m i : m = a ++ c :: rest -> i = Z.of_nat (length a) ->
  wp (char_at i) (fun r m' => r = c /\ m' = m) m.
Proof.
  intros -> ->. eexists _, _. split; [|done]. unfold char_at.
  destruct (Z.leb_spec 0 (Z.of_nat (length a))); [|lia].
  by rewrite Nat2Z.id, lookup_app_r, Nat.sub_diag by lia.
Qed.

(** * White space and comments *)

Lemma junk_space c j : isspace c = true -> junk j -> junk (c :: j).
Proof.
  intros Hc [s Hs|s text x rest Hs Ht Hx Hr].
  - apply junk_blank. by constructor.
  - apply (junk_comment (c :: s) text x rest); [by constructor|done..].
Qed.

Lemma not_newline_space c : c = 10 \/ c = 13 -> isspace c = true /\ not_newline c = false.
Proof. by intros [-> | ->]. Qed.

(** At two characters of which the first is [c], after white space. *)
Lemma wp_skip_blank fuel a s c c1 more m (Q : Z -> mem -> Prop) :
  m = a ++ s ++ c :: c1 :: more -> Forall (fun c => isspace c = true) s -> isspace c = false ->
  wp (if (c =? 45) && (c1 =? 45) then
        lineidx ← scan_while not_newline (Z.of_nat (length (a ++ s))); skip_comments fuel lineidx
      else mret (Z.of_nat (length (a ++ s)))) Q m ->
  wp (skip_comments (S fuel) (Z.of_nat (length a))) Q m.
Proof.
  intros Hm Hs Hc HQ. cbn [skip_comments]. wp_pure. wp_pure. apply wp_bind.
  eapply wp_mono; [by eapply (wp_scan_while isspace a s c)|]. intros r m' [-> ->].
  destruct (Z.leb_spec (Z.of_nat (length m) - 1) (Z.of_nat (length (a ++ s)))) as [Hle|_].
  { exfalso. rewrite Hm in Hle. repeat (rewrite ?length_app in Hle; cbn [length] in Hle). lia. }
  apply wp_bind. eapply wp_mono; [eapply (wp_char_at (a ++ s) c); [by rewrite Hm, <- app_assoc|done]|]. intros r m' [-> ->].
  apply wp_bind. eapply wp_mono.
  { eapply (wp_char_at ((a ++ s) ++ [c]) c1 more); [by rewrite Hm, <- !app_assoc|].
    rewrite (length_app (a ++ s)). cbn. lia. }
  by intros r m' [-> ->].
Qed.

Lemma wp_skip_comments fuel a j c c1 more m :
  m = a ++ j ++ c :: c1 :: more -> junk j -> isspace c = false -> (c = 45 -> c1 <> 45) -> (length j < fuel)%nat ->
  wp (skip_comments fuel (Z.of_nat (length a))) (fun r m' => r = Z.of_nat (length (a ++ j)) /\ m' = m) m.
Proof.
  intros Hm Hj Hc Hcc. revert a j Hm Hj. induction fuel as [|fuel IH]; intros a j Hm Hj Hf; [lia|].
  destruct Hj as [s Hs|s text x rest Hs Ht Hx Hr].
  - eapply (wp_skip_blank fuel a s c c1 more); [done..|].
    destruct (Z.eqb_spec c 45) as [->|], (Z.eqb_spec c1 45) as [->|]; cbn [andb]; try by wp_pure.
    by destruct Hcc.
  - destruct (not_newline_space x Hx) as [Hx1 Hx2].
    rewrite <- !app_assoc in Hm. cbn [app] in Hm.
    eapply (wp_skip_blank fuel a s 45 45 (text ++ x :: rest ++ c :: c1 :: more)); [by rewrite Hm|done..|].
    cbn [Z.eqb Pos.eqb andb]. apply wp_bind. eapply wp_mono.
    { eapply (wp_scan_while not_newline (a ++ s) (45 :: 45 :: text) x); [|by do 2 (apply Forall_cons; split; [done|])|done..].
      rewrite Hm, <- app_assoc. done. }
    intros r m' [-> ->]. eapply wp_mono.
    { apply (IH ((a ++ s) ++ 45 :: 45 :: text) (x :: rest)).
      - rewrite Hm, <- !app_assoc. done.
      - by apply junk_space.
      - repeat (rewrite ?length_app in Hf; cbn [length] in Hf). cbn in *. lia. }
    intros r m' [-> ->]. split; [|done]. by rewrite <- !app_assoc.
Qed.

(** * Lines *)

(** The parser is at the beginning of a line. *)
Definition ahead (m : mem) (n : Z) (more : list line) : Prop :=
  exists a, m = a ++ print_lines more /\ n = Z.of_nat (length a).

Lemma view_ahead m p s n more : view m p s n (print_lines more) -> ahead m n more.
Proof. intros (_ & a & b & _ & -> & _ & ->). exists (a ++ s ++ b). by rewrite <- !app_assoc. Qed.

Lemma printable_no_zero s : Forall printable s -> no_zero s.
Proof.
  unfold no_zero. intros Hs Hz. rewrite Forall_forall in Hs. apply Hs, proj2 in Hz. done.
Qed.

Lemma line_first l rest : line_ok l -> exists c c1 more,
  body l ++ comment l ++ ending l :: rest = c :: c1 :: more /\ isspace c = false /\ (c = 45 -> c1 <> 45).
Proof.
  intros [_ _ _ Hs Hh He]. destruct (body l) as [|c s]; [done|].
  assert (starts_with "--" ((c :: s) ++ comment l) = false) as Hn.
  { destruct (starts_with "--" ((c :: s) ++ comment l)) eqn:E; [|done]. cbn [app find_suffix] in Hh.
    cbn [app] in E. rewrite E in Hh. by case_bool_decide. }
  destruct (s ++ comment l) as [|c1 t] eqn:E.
  - apply app_eq_nil in E as [-> ->]. exists c, (ending l), rest. split; [done|]. split; [done|]. intros _ E. by rewrite E in He.
  - exists c, c1, (t ++ ending l :: rest). cbn [app]. rewrite app_assoc, E. split; [done|]. split; [done|].
    intros -> ->. cbn [app] in Hn. rewrite E in Hn. done.
Qed.

(** The length of the array does not change, nor what is after the line. *)
Lemma wp_get_line m n l more : ahead m n (l :: more) -> line_ok l ->
  wp (get_line n) (fun r m' => view m' r.2 (body l) r.1 (print_lines more)
    /\ r.1 = n + Z.of_nat (length (print_line l))) m.
Proof.
  intros (a & Hm & ->) Hl. change (print_lines (l :: more)) with (print_line l ++ print_lines more) in Hm.
  set (rest := print_lines more) in *. unfold print_line in Hm. rewrite <- !app_assoc in Hm. cbn [app] in Hm.
  destruct (line_first l rest Hl) as (c & c1 & t & E & Hc & Hcc). pose proof Hl as [Hj Hb Hcm Hst Hh He].
  unfold get_line. wp_pure. wp_pure. apply wp_bind. eapply wp_mono.
  { eapply (wp_skip_comments _ a (before l) c c1 t); [by rewrite Hm, E|done..|].
    rewrite Hm, !length_app. lia. }
  intros r m' [-> ->]. set (a1 := a ++ before l). apply wp_bind. eapply wp_mono.
  { eapply (wp_scan_while _ a1 (body l ++ comment l) (ending l) rest); [by rewrite Hm; unfold a1; rewrite <- !app_assoc| |by rewrite He|done].
    apply Forall_app. split; eapply Forall_impl; try done; by intros x [-> _]. }
  intros r m' [-> ->]. apply wp_bind. eapply wp_mono.
  { apply wp_poke. rewrite Hm. unfold a1. repeat (rewrite ?length_app; cbn [length]). lia. }
  intros [] m' ->. set (b := body l ++ comment l) in *.
  assert (<[Z.to_nat (Z.of_nat (length (a1 ++ b))) := 0]> m = a1 ++ b ++ [0] ++ rest) as ->.
  { rewrite Nat2Z.id, Hm. assert (a ++ before l ++ body l ++ comment l ++ ending l :: rest = (a1 ++ b) ++ ending l :: rest) as ->
      by (unfold a1, b; by rewrite <- !app_assoc).
    rewrite <- (Nat.add_0_r (length (a1 ++ b))), insert_app_r. by rewrite <- app_assoc. }
  assert (view (a1 ++ b ++ [0] ++ rest) (Z.of_nat (length a1)) b (Z.of_nat (length (a1 ++ b ++ [0]))) rest) as Hv.
  { split; [apply printable_no_zero; by apply Forall_app|]. by exists a1, [0]. }
  assert (Z.of_nat (length (a1 ++ b)) + 1 = Z.of_nat (length (a1 ++ b ++ [0]))) as En by (rewrite !length_app; cbn; lia).
  assert (Z.of_nat (length (a1 ++ b ++ [0])) = Z.of_nat (length a) + Z.of_nat (length (print_line l))) as En2.
  { unfold a1, b, print_line. repeat (rewrite ?length_app; cbn [length]). lia. }
  apply wp_bind. eapply wp_mono; [by eapply wp_search|]. intros com m' [-> ->]. rewrite Hh.
  case_bool_decide as Hcom; cbn [fmap option_fmap option_map].
  - wp_pure. wp_pure. wp_pure. cbn [fst snd]. rewrite En. split; [|done]. revert Hv. unfold b. rewrite Hcom, app_nil_r. done.
  - apply wp_bind. eapply wp_mono.
    { apply wp_poke. unfold b. repeat (rewrite ?length_app; cbn [length]). lia. }
    intros [] m' ->. wp_pure. cbn [fst snd]. rewrite En. split; [|done].
    destruct (comment l) as [|x cm] eqn:Ecm; [done|]. split; [by apply printable_no_zero|].
    exists a1, (0 :: cm ++ [0]). split; [split; [done|by rewrite app_comm_cons, last_snoc]|]. split.
    + unfold b. replace (Z.to_nat (Z.of_nat (length a1) + Z.of_nat (length (body l)))) with (length a1 + (length (body l) + 0))%nat by lia.
      rewrite <- !app_assoc, !insert_app_r. cbn. by rewrite <- app_assoc.
    + split; [done|]. unfold b. repeat (rewrite ?length_app; cbn [length]). lia.
Qed.

Lemma get_line_end m n : ahead m n [] -> get_line n m = Undef.
Proof.
  intros (a & -> & ->). change (print_lines []) with (@nil Z). rewrite app_nil_r. unfold get_line.
  unfold mbind, M_bind, gets. cbn [skip_comments]. unfold mbind, M_bind, gets, scan_while.
  rewrite Nat2Z.id, drop_all. cbn [prefix_len]. rewrite Z.add_0_r, Z.ltb_irrefl, andb_false_r. done.
Qed.

Lemma ref_find_at f cur more cur' more' : ref_find f cur more = Ok (cur', more') -> f cur' = true.
Proof.
  revert cur. induction more as [|l more IH]; intros cur; cbn [ref_find];
    (destruct (find_suffix f cur) as [k|] eqn:E; [intros [= <- <-]; by apply find_suffix_at|]); [done|apply IH].
Qed.
