(* ===== verification/BsdlRefine.v ===== *)
(** The parser of BSDL files does what its reference does: the statements, one after the
    other, and the whole file. *)

From Stdlib Require Import Ascii String.
From S2P Require Import Prelude Scanf StateM Cable Chain CString BsdlParse BsdlLines.
From stdpp Require Import list.

Open Scope Z_scope.

Section refine.
Context `{Target, Alloc} (N : nat).

(** The place in the file, of [N] characters: at a pointer in a line, or before a line. *)
Definition cursor (x : Z * Z) (y : list Z * list line) (m : mem) : Prop :=
  view m x.1 y.1 x.2 (print_lines y.2) /\ Forall line_ok y.2 /\ length m = N.
Definition lines_left (n : Z) (more : list line) (m : mem) : Prop :=
  ahead m n more /\ Forall line_ok more /\ length m = N.

Lemma cursor_lines last n cur more m : cursor (last, n) (cur, more) m -> lines_left n more m.
Proof. intros (Hv & Hm & Hl). split; [by eapply view_ahead|done]. Qed.

Lemma print_line_length l : (0 < length (print_line l))%nat.
Proof. unfold print_line. rewrite !length_app. cbn. lia. Qed.

Lemma print_lines_length more : (length more <= length (print_lines more))%nat.
Proof.
  induction more as [|l more IH]; [done|]. change (print_lines (l :: more)) with (print_line l ++ print_lines more).
  rewrite length_app. pose proof (print_line_length l). cbn. lia.
Qed.

Lemma lines_left_size n more m : lines_left n more m ->
  (length more <= N)%nat /\ Z.of_nat N = n + Z.of_nat (length (print_lines more)).
Proof.
  intros ((a & -> & ->) & _ & Hl). rewrite length_app in Hl. pose proof (print_lines_length more). lia.
Qed.

(** * Lines *)

Lemma sim_get_line n more m : lines_left n more m ->
  sim (get_line n) (next_line more) (fun r b m' => cursor (r.2, r.1) b m') m.
Proof.
  intros (Ha & Hm & Hl). destruct more as [|l more]; [by apply (get_line_end m n)|].
  apply Forall_cons in Hm as [Hl1 Hm]. cbn [next_line sim]. eapply wp_mono; [by eapply wp_get_line|].
  intros r m' [Hv Hn]. split; [done|]. split; [done|]. apply view_size in Hv. cbn [snd].
  destruct Ha as (a & -> & ->). change (print_lines (l :: more)) with (print_line l ++ print_lines more) in Hl.
  rewrite !length_app in Hl. lia.
Qed.

Lemma cursor_find f last n cur more m k : cursor (last, n) (cur, more) m -> find_suffix f cur = Some k ->
  cursor (last + Z.of_nat k, n) (drop k cur, more) m.
Proof. intros (Hv & Hm & Hl) Hk. split; [|done]. apply view_drop; [done|]. by eapply find_suffix_le. Qed.

Lemma sim_find_on_lines f fuel last n cur more m :
  cursor (last, n) (cur, more) m -> (length more < fuel)%nat ->
  sim (find_on_lines fuel (search f) last n) (ref_find f cur more) cursor m.
Proof.
  revert fuel last n cur m. induction more as [|l more IH]; intros fuel last n cur m Hc Hf;
    (destruct fuel as [|fuel]; [lia|]); cbn [find_on_lines ref_find];
    (apply sim_step; eapply wp_mono; [by eapply wp_search, Hc|]); intros r m' [-> ->]; cbn [fst snd];
    (destruct (find_suffix f cur) as [k|] eqn:Ek; cbn [fmap option_fmap option_map];
      [apply sim_ret; by eapply cursor_find|]).
  - pose proof (sim_get_line n [] m (cursor_lines _ _ _ _ _ Hc)) as Hg. cbn in Hg. cbn [sim].
    unfold mbind, M_bind. by rewrite Hg.
  - pose proof (sim_get_line n (l :: more) m (cursor_lines _ _ _ _ _ Hc)) as Hg. cbn [next_line sim] in Hg.
    apply sim_step. eapply wp_mono; [exact Hg|]. intros [n' last'] m' Hc'. cbn [fst snd] in Hc'.
    apply IH; [done|]. cbn in Hf. lia.
Qed.

Lemma sim_find f last n cur more m : cursor (last, n) (cur, more) m ->
  sim (find_from (search f) last n) (ref_find f cur more) cursor m.
Proof.
  intros Hc. unfold find_from. apply sim_gets. apply sim_find_on_lines; [done|].
  pose proof (lines_left_size _ _ _ (cursor_lines _ _ _ _ _ Hc)) as [Hle _]. destruct Hc as (_ & _ & Hl). lia.
Qed.

Lemma sim_skip last n cur more m : cursor (last, n) (cur, more) m ->
  sim (skip_statement last n) (ref_skip cur more) lines_left m.
Proof.
  intros Hc. unfold skip_statement, ref_skip. eapply sim_bind; [by apply sim_find|].
  intros [last' n'] [cur' more'] m' Hc'. apply sim_ret. by eapply cursor_lines.
Qed.

Lemma sim_is last n cur more m : cursor (last, n) (cur, more) m ->
  sim (find_is last n) (ref_is cur more) cursor m.
Proof.
  intros Hc. unfold find_is, ref_is. eapply sim_bind; [by apply sim_find|].
  intros [last1 n1] [cur1 more1] m1 Hc1. eapply sim_bind; [by apply sim_find|].
  intros [last2 n2] [cur2 more2] m2 Hc2. by apply sim_find.
Qed.

(** * Values *)

(** The characters come from the lines. *)
Definition selects {V} (f : list Z -> V -> list Z * V * bool) : Prop :=
  forall s v, no_zero s -> no_zero (f s v).1.1.

Lemma no_zero_line more : Forall line_ok more -> Forall (fun l => no_zero (body l)) more.
Proof. intros Hm. eapply Forall_impl; [exact Hm|]. intros l Hl. by apply printable_no_zero, Hl. Qed.

Definition chosen (x : list Z * Z) (y : list Z * list line) (m : mem) : Prop :=
  x.1 = y.1 /\ no_zero y.1 /\ lines_left x.2 y.2 m.

Lemma sim_collect {V} (f : list Z -> V -> list Z * V * bool) fuel v acc n more m :
  selects f -> lines_left n more m -> no_zero acc -> (length more < fuel)%nat ->
  sim (collect fuel f v acc n) (ref_collect f v acc more) chosen m.
Proof.
  intros Hsel. revert fuel v acc n m. induction more as [|l more IH]; intros fuel v acc n m Hl Hz Hf;
    (destruct fuel as [|fuel]; [lia|]); cbn [collect ref_collect]; pose proof (sim_get_line _ _ _ Hl) as Hg.
  { cbn in Hg |- *. unfold mbind, M_bind. by rewrite Hg. }
  cbn [next_line sim] in Hg. apply sim_step. eapply wp_mono; [exact Hg|]. intros [n' last] m' Hc. cbn [fst snd] in Hc.
  apply sim_step. exists (body l), m'. split; [by eapply view_text, Hc|]. cbv beta.
  assert (no_zero (body l)) as Hzl by apply Hc.
  specialize (Hsel (body l) v Hzl). destruct (f (body l) v) as [[d v'] done]. cbn [fst] in Hsel.
  assert (no_zero (acc ++ d)) as Hz' by by apply no_zero_app.
  destruct done.
  - apply sim_ret. split; [done|]. split; [done|]. by eapply cursor_lines.
  - apply IH; [by eapply cursor_lines|done|]. cbn in Hf. lia.
Qed.

Lemma sim_collect_into {V} size (f : bool -> list Z -> V -> list Z * V * bool) v last n cur more m :
  (forall first, selects (f first)) -> cursor (last, n) (cur, more) m ->
  sim (collect_into size f v last n) (ref_collect_into size f v cur more) chosen m.
Proof.
  intros Hsel Hc. unfold collect_into, ref_collect_into. apply sim_gets, sim_step.
  exists cur, m. split; [by eapply view_text, Hc|]. cbv beta.
  assert (no_zero cur) as Hzc by apply Hc. pose proof (Hsel true cur v Hzc) as Hz.
  destruct (f true cur v) as [[d v'] done]. cbn [fst] in Hz.
  eapply sim_bind with (R := chosen).
  - destruct done.
    + apply sim_ret. split; [done|]. split; [done|]. by eapply cursor_lines.
    + pose proof (cursor_lines _ _ _ _ _ Hc) as Hl. apply sim_collect; [done..|].
      pose proof (lines_left_size _ _ _ Hl). destruct Hl as (_ & _ & Hl). lia.
  - intros [chars n'] [chars' more'] m' (E & Hz' & Hl). cbn in E. subst chars'.
    destruct (Z.of_nat (length chars) <? size); [|done]. by apply sim_ret.
Qed.

Lemma no_zero_nil : no_zero [].
Proof. apply not_elem_of_nil. Qed.

Lemma no_zero_cons c s : no_zero (c :: s) <-> c <> 0 /\ no_zero s.
Proof. unfold no_zero. rewrite not_elem_of_cons. intuition congruence. Qed.

Lemma no_zero_digits s : no_zero s -> no_zero (digits_on_line s).1.
Proof.
  induction s as [|c s IH]; intros Hs; [done|]. apply no_zero_cons in Hs as [Hc Hs]. specialize (IH Hs). cbn.
  destruct (isdigit c); [|destruct (c =? 59); [apply no_zero_nil|done]].
  destruct (digits_on_line s) as [d done]. by apply no_zero_cons.
Qed.

Lemma selects_digits first : selects (digits_of_line first).
Proof.
  intros s v Hs. apply no_zero_digits in Hs. unfold digits_of_line. by destruct (digits_on_line s).
Qed.

Lemma selects_quoted first : selects (quoted_on_line first).
Proof.
  intros s. induction s as [|c s IH]; intros v Hs; cbn; [done|].
  apply no_zero_cons in Hs as [Hc Hs].
  pose proof (IH v Hs) as IH1. pose proof (IH (negb v) Hs) as IH2.
  destruct ((c =? 59) && (first || negb v)); [apply no_zero_nil|].
  destruct (v && negb (c =? 34)); [|by destruct (c =? 34)].
  destruct (quoted_on_line first s v) as [[d v'] done]. by apply no_zero_cons.
Qed.

(** * Tokens *)

(** A token, which may be changed without harm to what is after it. *)
Definition token_of (x : option Z * Z) (n : Z) (w : list Z) (y : list Z * list line) (m : mem) : Prop :=
  exists t n1 tl1, x.1 = Some t /\ view m t w n1 tl1
    /\ forall m2 t2 w2, view m2 t2 w2 n1 tl1 -> cursor (x.2, n) y m2.

Lemma wp_token delim last n cur more m : cursor (last, n) (cur, more) m ->
  wp (strtok_r delim last) (fun r m' =>
    match tok delim cur with
    | (None, _) => r.1 = None /\ cursor (r.2, n) ([], more) m'
    | (Some w, rest) => token_of r n w (rest, more) m'
    end) m.
Proof.
  intros (Hv & Hm & Hl). cbn [fst snd] in Hv. eapply wp_mono; [by eapply wp_strtok|]. intros r m' Hr. cbv beta in Hr.
  pose proof (view_size _ _ _ _ _ Hv) as Hsz. cbn [snd] in *.
  destruct (tok delim cur) as [[w|] rest].
  - destruct Hr as (t & n1 & tl1 & E & Hv1 & Hrest). exists t, n1, tl1. split; [done|]. split; [done|].
    intros m2 t2 w2 Hv2. pose proof (Hrest m2 t2 w2 Hv2) as Hv3. split; [done|]. split; [done|].
    apply view_size in Hv3. cbn [snd] in *. lia.
  - destruct Hr as [E Hv1]. split; [done|]. split; [done|]. split; [done|]. apply view_size in Hv1. cbn [snd] in *. lia.
Qed.

Lemma wp_upper_token r n w y m : token_of r n w y m ->
  wp (token ← lift (read_var r.1); strtoupper token) (fun s m' => s = map toupper w /\ cursor (r.2, n) y m') m.
Proof.
  intros (t & n1 & tl1 & -> & Hv & Hrest). apply wp_bind. eapply wp_lift; [done|].
  eapply wp_mono; [by eapply wp_strtoupper|]. intros s m' [-> Hv']. split; [done|]. by eapply Hrest.
Qed.
End refine.
