(* ===== verification/BsdlStatements.v ===== *)
(** The parser of BSDL files does what its reference does: the opcodes, the statements and
    the whole file; and the reference comes to an end. *)

From Stdlib Require Import Ascii String.
From S2P Require Import Prelude Scanf StateM Cable Chain CString BsdlParse BsdlLines BsdlRefine.
From stdpp Require Import list.

Open Scope Z_scope.

(** * Opcodes *)

Section opcodes.
Context `{Target}.

(** A result and a string that is still followed by [tl]. *)
Definition then_at (n : Z) (tl : list Z) (a b : Z * Z * Z) (m : mem) : Prop :=
  a = b /\ exists p s, view m p s n tl.

Lemma sim_parse_opcode p s n tl cmds m : view m p s n tl ->
  sim (parse_opcode p cmds) (ref_opcode s cmds) (then_at n tl) m.
Proof.
  intros Hv. unfold parse_opcode, ref_opcode. apply sim_step.
  eapply wp_mono; [by eapply (wp_strtok (blanks ++ bytes "("))|].
  intros [o sp] m1 Hr. cbv beta in Hr. cbn [fst snd] in Hr.
  destruct (tok (blanks ++ bytes "(") s) as [[w|] rest]; [|by destruct Hr as [-> _]].
  destruct Hr as (t & n1 & tl1 & -> & Hv1 & Hrest). cbn [read_var]. apply sim_step. eapply wp_lift; [done|].
  apply sim_step. eapply wp_mono; [by eapply wp_strtoupper|]. intros s' m2 [-> Hv2].
  apply Hrest in Hv2. clear Hrest. cbv zeta. cbn [mbind outcome_bind].
  destruct (target_of (map toupper w) =? 0); [apply sim_ret; split; [done|]; eauto|].
  apply sim_step. eapply wp_mono; [by eapply (wp_strtok (blanks ++ bytes "()"))|]. intros [o sp'] m3 Hr. cbv beta in Hr. cbn [fst snd] in Hr.
  destruct (tok (blanks ++ bytes "()") rest) as [[w'|] rest'].
  - destruct Hr as (t' & n2 & tl2 & -> & Hv3 & Hrest). apply sim_step. exists w', m3.
    split; [by eapply view_text|]. apply sim_ret. split; [done|]. eauto.
  - destruct Hr as [-> Hv3]. apply sim_ret. split; [done|]. eauto.
Qed.

Lemma sim_opcodes fuel p s n tl cmds m : view m p s n tl ->
  sim ('(cmd, sp) ← strtok_r (bytes ",") p; opcodes_loop fuel cmd sp cmds) (ref_opcodes fuel s cmds)
    (fun a b _ => a = b) m.
Proof.
  revert p s cmds m. induction fuel as [|fuel IH]; intros p s cmds m Hv; apply sim_step;
    (eapply wp_mono; [by eapply wp_strtok|]); intros [o sp] m1 Hr; cbv beta in Hr; cbn [fst snd] in Hr; [done|].
  cbn [opcodes_loop ref_opcodes]. destruct (tok (bytes ",") s) as [[w|] rest]; [|by destruct Hr as [-> _]; apply sim_ret].
  destruct Hr as (t & n1 & tl1 & -> & Hv1 & Hrest). eapply sim_bind; [by apply sim_parse_opcode|].
  intros a b m2 (-> & p2 & s2 & Hv2). eapply IH. by eapply Hrest.
Qed.

Lemma on_cmdbuf_ref chars cmds : no_zero chars ->
  on_cmdbuf chars cmds = ref_opcodes (S (S (S (length chars)))) chars cmds.
Proof.
  intros Hz. assert (view (chars ++ [0]) 0 chars (Z.of_nat (length chars) + 1) []) as Hv.
  { split; [done|]. exists [], [0]. split; [done|]. split; [by rewrite app_nil_r|]. split; [done|].
    rewrite !length_app. cbn. lia. }
  pose proof (sim_opcodes (S (S (S (length chars)))) _ _ _ _ cmds _ Hv) as Hs.
  unfold on_cmdbuf, parse_opcodes, gets, mbind at 1 2, M_bind at 1, outcome_bind.
  rewrite length_app, Nat.add_1_r. cbn [length]. unfold sim in Hs.
  destruct (ref_opcodes (S (S (S (length chars)))) chars cmds) as [b| | |]; [|by rewrite Hs..].
  destruct Hs as (a & s' & E & ->). by rewrite E.
Qed.
End opcodes.

(** * Statements *)

Section statements.
Context `{Target, Alloc} (N : nat).

Abbreviation cursor := (cursor N).
Abbreviation lines_left := (lines_left N).

(** What a command on the file found, and the lines after it. *)
Definition advanced {A} (x : Z * A) (y : list line * A) (m : mem) : Prop :=
  x.2 = y.2 /\ lines_left x.1 y.1 m.

Lemma sim_also {St A B} (m : M St A) (r : outcome B) (R : A -> B -> St -> Prop) s :
  sim m r R s -> sim m r (fun a b s' => R a b s' /\ r = Ok b) s.
Proof. unfold sim. destruct r as [b| | |]; [|done..]. intros Hm. eapply wp_mono; [exact Hm|]. by intros a s' HR. Qed.

Lemma sim_length last n cur more f m : cursor (last, n) (cur, more) m ->
  sim (instruction_length last n f) (ref_length cur more f) advanced m.
Proof.
  intros Hc. eapply sim_bind; [by eapply sim_is|]. intros [last1 n1] [cur1 more1] m1 Hc1.
  eapply sim_bind; [apply sim_collect_into; [exact selects_digits|done]|].
  intros [chars n2] [chars' more2] m2 (E & _ & Hl). cbn [fst snd] in E, Hl. subst chars'. by apply sim_ret.
Qed.

Lemma sim_instruction_opcode last n cur more f m : cursor (last, n) (cur, more) m ->
  sim (instruction_opcode last n f) (ref_instruction_opcode cur more f) advanced m.
Proof.
  intros Hc. eapply sim_bind; [by eapply sim_is|]. intros [last1 n1] [cur1 more1] m1 Hc1. cbv beta iota zeta.
  apply sim_gets. pose proof (lines_left_size _ _ _ _ (cursor_lines _ _ _ _ _ _ Hc1)) as [_ Hn].
  replace (Z.of_nat (length m1) - n1) with (Z.of_nat (length (print_lines more1))) by (destruct Hc1 as (_ & _ & ->); lia).
  destruct (malloc_ok _); cbn [negb]; [|done].
  eapply sim_bind; [apply sim_collect_into; [exact selects_quoted|done]|].
  intros [chars n2] [chars' more2] m2 (E & Hz & Hl). cbn [fst snd] in E, Hz, Hl. subst chars'.
  eapply sim_bind; [rewrite on_cmdbuf_ref by done; apply sim_lift|].
  intros a b m3 [-> ->]. by apply sim_ret.
Qed.

Lemma sim_idcode last n cur more f m : cursor (last, n) (cur, more) m ->
  sim (idcode_register last n f) (ref_idcode cur more f) advanced m.
Proof.
  intros Hc. eapply sim_bind; [by eapply sim_is|]. intros [last1 n1] [cur1 more1] m1 Hc1.
  eapply sim_bind; [apply sim_collect_into; [exact selects_quoted|done]|].
  intros [chars n2] [chars' more2] m2 (E & _ & Hl). cbn [fst snd] in E, Hl. subst chars'.
  eapply sim_bind; [apply sim_lift|]. intros [code mask] b m3 [<- ->]. by apply sim_ret.
Qed.

Lemma sim_attribute last n cur more f m : cursor (last, n) (cur, more) m ->
  sim (attribute last n f) (ref_attribute cur more f) advanced m.
Proof.
  intros Hc. unfold attribute, ref_attribute. apply sim_step. eapply wp_mono; [by eapply (wp_token N blanks)|].
  intros [o sp] m1 Hr. cbv beta in Hr. destruct (tok blanks cur) as [[w|] rest]; [|by destruct Hr as [E _]; cbn in E; subst].
  destruct Hr as (t & n1 & tl1 & E & Hv & Hrest). cbn [fst snd] in E, Hrest. subst o.
  cbn [read_var mbind outcome_bind]. apply sim_step. eapply wp_lift; [done|].
  apply sim_step. eapply wp_mono; [by eapply wp_strtoupper|]. intros s m2 [-> Hv2]. apply Hrest in Hv2.
  destruct (equals "INSTRUCTION_LENGTH" _); [by apply sim_length|].
  destruct (equals "INSTRUCTION_OPCODE" _); [by apply sim_instruction_opcode|].
  destruct (equals "IDCODE_REGISTER" _); [by apply sim_idcode|].
  eapply sim_bind; [by apply sim_skip|]. intros n' more' m3 Hl. by apply sim_ret.
Qed.

(** * Ports *)

Lemma cursor_char c last n cur more m : cursor (last, n) (c :: cur, more) m ->
  char_at last m = Ok (c, m) /\ cursor (last + 1, n) (cur, more) m.
Proof.
  intros (Hv & Hm & Hl). split.
  - destruct Hv as (_ & a & b & _ & Hv & Hp & _). cbn [fst snd] in Hv, Hp.
    edestruct (wp_char_at a c) as (r & m' & E & -> & ->); [exact Hv|exact Hp|done].
  - split; [|done]. apply (view_drop _ _ _ _ _ 1 Hv). cbn. lia.
Qed.

Lemma starts_one_of_cons set s : starts_one_of set s = true -> exists c s', s = c :: s'.
Proof. destruct s as [|c s']; [done|]. eauto. Qed.

(** At one of the characters. *)
Lemma sim_find_char set last n cur more m : cursor (last, n) (cur, more) m ->
  sim (find_from (search (starts_one_of set)) last n) (ref_find (starts_one_of set) cur more)
    (fun x y m' => exists c cur', y.1 = c :: cur' /\ char_at x.1 m' = Ok (c, m') /\ cursor (x.1 + 1, x.2) (cur', y.2) m') m.
Proof.
  intros Hc. eapply sim_mono; [apply sim_also; by eapply sim_find|].
  intros [last' n'] [cur' more'] m' [Hc' E]. apply ref_find_at, starts_one_of_cons in E as (c & s & ->).
  exists c, s. split; [done|]. by apply cursor_char.
Qed.

Lemma sim_parentheses fuel opens last n cur more m : cursor (last, n) (cur, more) m ->
  sim (parentheses fuel opens last n) (ref_parentheses fuel opens cur more) cursor m.
Proof.
  revert opens last n cur more m. induction fuel as [|fuel IH]; intros opens last n cur more m Hc; [done|].
  cbn [parentheses ref_parentheses]. eapply sim_bind; [by apply (sim_find_char (bytes "()"))|].
  intros [last' n'] [y more'] m' (c & cur' & E & Hch & Hc'). cbn [fst snd] in E, Hch, Hc'. subst y.
  apply sim_step. exists c, m'. split; [done|]. cbv beta zeta. cbn [head tail].
  rewrite (bool_decide_ext (Some c = Some 40) (c = 40)) by (split; congruence).
  assert (bool_decide (c = 40) = (c =? 40)) as -> by (destruct (Z.eqb_spec c 40); by case_bool_decide).
  destruct (swrap 8 (if c =? 40 then opens + 1 else opens - 1) =? 0); [by apply sim_ret|by apply IH].
Qed.

Lemma sim_port last n cur more m : cursor (last, n) (cur, more) m ->
  sim (port last n) (ref_port (S N) cur more) lines_left m.
Proof.
  intros Hc. unfold port, ref_port. eapply sim_bind; [by apply (sim_find_char [40])|].
  intros [last1 n1] [y more1] m1 (c & cur1 & E & _ & Hc1). cbn [fst snd] in E, Hc1. subst y.
  apply sim_gets. pose proof Hc1 as (_ & _ & ->). cbn [tail].
  eapply sim_bind; [by apply sim_parentheses|]. intros [last2 n2] [cur2 more2] m2 Hc2. by apply sim_skip.
Qed.

(** * Other statements *)

Lemma tok_none delim s rest : tok delim s = (None, rest) -> rest = [].
Proof. unfold tok. case_bool_decide; [by intros [= <-]|]. by cbv zeta. Qed.

Lemma sim_ignored delim last n cur more m : cursor (last, n) (cur, more) m ->
  sim (ignored delim last n) (ref_ignored delim cur more) lines_left m.
Proof.
  intros Hc. unfold ignored, ref_ignored. apply sim_step. eapply wp_mono; [by eapply (wp_token N delim)|].
  intros [o sp] m1 Hr. cbv beta in Hr. destruct (tok delim cur) as [[w|] rest] eqn:E; apply sim_skip.
  - destruct Hr as (t & n1 & tl1 & _ & Hv & Hrest). by eapply Hrest.
  - apply proj2 in Hr. apply tok_none in E as ->. exact Hr.
Qed.

Lemma sim_entity last n cur more f m : cursor (last, n) (cur, more) m ->
  wp (entity last f) (fun r m' => r = ref_entity cur f /\ lines_left n more m') m.
Proof.
  intros Hc. unfold entity, ref_entity. apply wp_bind. eapply wp_mono; [by eapply (wp_token N blanks)|].
  intros [o sp] m1 Hr. cbv beta in Hr. destruct (tok blanks cur) as [[w|] rest].
  - destruct Hr as (t & n1 & tl1 & E & Hv & Hrest). cbn [fst snd] in E, Hrest. subst o.
    apply wp_bind. exists w, m1. split; [by eapply view_text|]. apply wp_ret. split; [done|].
    by eapply cursor_lines, Hrest.
  - destruct Hr as [E Hc1]. cbn [fst snd] in E, Hc1. subst o. apply wp_ret. split; [done|]. by eapply cursor_lines.
Qed.
(** * The file *)

Definition went_on (x : bool * Z * found) (y : bool * list line * found) (m : mem) : Prop :=
  x.1.1 = y.1.1 /\ x.2 = y.2 /\ lines_left x.1.2 y.1.2 m.

Lemma sim_next {B} (c : M mem Z) (r : outcome (list line)) (b : B) m : sim c r lines_left m ->
  sim (n ← c; mret (true, n, b)) (more ← r; Ok (true, more, b))
    (fun x y m' => x.1.1 = y.1.1 /\ x.2 = y.2 /\ lines_left x.1.2 y.1.2 m') m.
Proof. intros Hc. eapply sim_bind; [done|]. intros n more m' Hl. by apply sim_ret. Qed.

Lemma sim_statement n more f m : lines_left n more m ->
  sim (statement n f) (ref_statement N more f) went_on m.
Proof.
  intros Hl. unfold statement, ref_statement. eapply sim_bind; [by apply sim_get_line|].
  intros [n1 last1] [cur1 more1] m1 Hc1. cbn [fst snd] in Hc1. apply sim_step.
  eapply wp_mono; [by eapply (wp_token N blanks)|]. intros [o sp] m2 Hr. cbv beta in Hr.
  destruct (tok blanks cur1) as [[w|] cur]; cycle 1.
  { destruct Hr as [E Hc2]. cbn [fst snd] in E, Hc2. subst o. apply sim_ret. split; [done|]. split; [done|].
    by eapply cursor_lines. }
  destruct Hr as (t & n2 & tl2 & E & Hv & Hrest). cbn [fst snd] in E, Hrest. subst o.
  apply sim_step. eapply wp_mono; [by eapply wp_strtoupper|]. intros s m3 [-> Hv3].
  apply Hrest in Hv3. clear Hrest Hv. rename Hv3 into Hc3.
  assert (forall b, went_on (b, n1, f) (b, more1, f) m3) as Hend
    by (intros b; split; [done|]; split; [done|]; by eapply cursor_lines).
  destruct (equals "ENTITY" _).
  { apply sim_step. eapply wp_mono; [by apply sim_entity|]. intros f' m4 [-> Hl4]. by apply sim_ret. }
  destruct (equals "CONSTANT" _ || equals "GENERIC" _); [by apply sim_next, sim_ignored|].
  destruct (equals "USE" _); [by apply sim_next, (sim_ignored (blanks ++ bytes ";"))|].
  destruct (equals "END" _); [by apply sim_ret|].
  destruct (equals "PORT" _); [by apply sim_next, sim_port|].
  destruct (equals "ATTRIBUTE" _); [|by apply sim_ret].
  eapply sim_bind; [by apply sim_attribute|]. intros [n4 f4] [more4 f4'] m4 [E Hl4]. cbn [fst snd] in E, Hl4.
  subst f4'. by apply sim_ret.
Qed.

Lemma lines_left_some n more m : lines_left n more m ->
  (n <? Z.of_nat (length m)) = negb (bool_decide (more = [])).
Proof.
  intros Hl. pose proof (lines_left_size _ _ _ _ Hl) as [_ Hn]. destruct Hl as (_ & _ & ->).
  destruct more as [|l more].
  - rewrite bool_decide_true by done. cbn in *. apply Z.ltb_ge. lia.
  - rewrite bool_decide_false by done. apply Z.ltb_lt.
    change (print_lines (l :: more)) with (print_line l ++ print_lines more) in Hn.
    rewrite length_app in Hn. pose proof (print_line_length l). lia.
Qed.

Lemma sim_statements fuel n more f m : lines_left n more m ->
  sim (statements fuel n f) (ref_statements N fuel more f) (fun a b _ => a = b) m.
Proof.
  revert n more f m. induction fuel as [|fuel IH]; intros n more f m Hl; [done|].
  cbn [statements ref_statements]. apply sim_gets. rewrite (lines_left_some _ _ _ Hl).
  destruct (negb (bool_decide (more = [])) && negb (complete f)); [|by apply sim_ret].
  eapply sim_bind; [by apply sim_statement|].
  intros [[again n'] f'] [[again' more'] f''] m' (E & E' & Hl'). cbn [fst snd] in E, E', Hl'. subst.
  destruct again'; [by eapply IH|by apply sim_ret].
Qed.
End statements.

Lemma sim_file `{Target, Alloc} lines : Forall line_ok lines ->
  sim (statements (S (length (print_lines lines))) 0 nothing_found)
    (ref_statements (length (print_lines lines)) (S (length (print_lines lines))) lines nothing_found)
    (fun a b _ => a = b) (print_lines lines).
Proof. intros Hl. apply sim_statements. split; [by exists []|done]. Qed.

(** * The reference ends *)

(** It ends, if there is a result with [Q]. *)
Definition ends {A} (Q : A -> Prop) (r : outcome A) : Prop :=
  match r with Ok a => Q a | Hang => False | _ => True end.

Lemma ends_bind {A B} (P : A -> Prop) (Q : B -> Prop) (r : outcome A) (f : A -> outcome B) :
  ends P r -> (forall a, P a -> ends Q (f a)) -> ends Q (r ≫= f).
Proof. destruct r; cbn; auto. Qed.

Lemma ends_mono {A} (P Q : A -> Prop) (r : outcome A) : ends P r -> (forall a, P a -> Q a) -> ends Q r.
Proof. destruct r; cbn; auto. Qed.

Lemma ends_read_var {A} (o : option A) : ends (fun _ => True) (read_var o).
Proof. by destruct o. Qed.

(** * What is left *)

Definition rest_of (more : list line) : nat := length (print_lines more).
Arguments rest_of : simpl never.
Definition left_of (x : list Z * list line) : nat := length x.1 + rest_of x.2.

Lemma rest_of_cons l more : (length (body l) + rest_of more < rest_of (l :: more))%nat.
Proof.
  unfold rest_of. change (print_lines (l :: more)) with (print_line l ++ print_lines more).
  unfold print_line. rewrite !length_app. cbn. lia.
Qed.

(** No more than [n] characters are left. *)
Definition within (n : nat) (x : list Z * list line) : Prop := (left_of x <= n)%nat.
Definition lines_within (n : nat) (more : list line) : Prop := (rest_of more <= n)%nat.

Lemma within_lines n cur more : within n (cur, more) -> lines_within n more.
Proof. unfold within, lines_within, left_of. cbn [fst snd]. lia. Qed.

Lemma length_tok delim s r : tok delim s = r ->
  (length r.2 + (if r.1 is Some _ then 1 else 0) <= length s)%nat.
Proof.
  unfold tok. case_bool_decide as E; intros <-; cbn [fst snd length]; [lia|].
  set (t := drop (prefix_len (one_of delim) s) s) in *. rewrite length_drop.
  assert (length t <= length s)%nat by (unfold t; rewrite length_drop; lia).
  destruct t; [done|]. cbn in *. lia.
Qed.

Lemma within_tok n delim cur more w cur' : within n (cur, more) -> tok delim cur = (w, cur') -> within n (cur', more).
Proof. intros Hw E. apply length_tok in E. unfold within, left_of in *. cbn in *. lia. Qed.

Lemma ends_find n f cur more : within n (cur, more) -> ends (within n) (ref_find f cur more).
Proof.
  revert cur. induction more as [|l more IH]; intros cur Hw; cbn [ref_find];
    (destruct (find_suffix f cur) as [k|]; [cbn; unfold within, left_of in *; cbn in *; rewrite length_drop; lia|]); [done|].
  apply IH. pose proof (rest_of_cons l more). unfold within, left_of in *. cbn [fst snd] in *. lia.
Qed.

Lemma ends_skip n cur more : within n (cur, more) -> ends (lines_within n) (ref_skip cur more).
Proof.
  intros Hw. unfold ref_skip. eapply ends_bind; [by eapply ends_find|]. intros [cur' more'] Hw'. by eapply within_lines.
Qed.

Lemma ends_is n cur more : within n (cur, more) -> ends (within n) (ref_is cur more).
Proof.
  intros Hw. unfold ref_is. eapply ends_bind; [by eapply ends_find|]. intros [cur1 more1] Hw1.
  eapply ends_bind; [by eapply ends_find|]. intros [cur2 more2] Hw2. by eapply ends_find.
Qed.

Lemma ends_collect {V} n (f : list Z -> V -> list Z * V * bool) v acc more :
  lines_within n more -> ends (fun x => lines_within n x.2) (ref_collect f v acc more).
Proof.
  revert v acc. induction more as [|l more IH]; intros v acc Hw; [done|]. cbn [ref_collect].
  pose proof (rest_of_cons l more). unfold lines_within in *.
  destruct (f (body l) v) as [[d v'] []]; [cbn; lia|]. apply IH. lia.
Qed.

Lemma ends_collect_into {V} n size (f : bool -> list Z -> V -> list Z * V * bool) v cur more :
  within n (cur, more) -> ends (fun x => lines_within n x.2) (ref_collect_into size f v cur more).
Proof.
  intros Hw. apply within_lines in Hw. unfold ref_collect_into. destruct (f true cur v) as [[d v'] done].
  apply ends_bind with (P := fun x => lines_within n x.2); [destruct done; [exact Hw|by apply ends_collect]|].
  intros [chars more'] Hw'. by destruct (_ <? _).
Qed.

Lemma ends_parentheses n fuel opens cur more : within n (cur, more) -> (n < fuel)%nat ->
  ends (within n) (ref_parentheses fuel opens cur more).
Proof.
  revert n opens cur more. induction fuel as [|fuel IH]; intros n opens cur more Hw Hf; [lia|]. cbn [ref_parentheses].
  destruct (ref_find (starts_one_of (bytes "()")) cur more) as [[cur' more']| | |] eqn:E; cbn [mbind outcome_bind]; [|by pose proof (ends_find n (starts_one_of (bytes "()")) cur more Hw) as He; rewrite E in He..].
  pose proof (ends_find n (starts_one_of (bytes "()")) cur more Hw) as Hw'. rewrite E in Hw'. cbn in Hw'.
  apply ref_find_at in E. destruct cur' as [|c cur']; [done|]. cbn [tail].
  assert (within (pred n) (cur', more') /\ (pred n < n)%nat) as [Hp Hn] by (unfold within, left_of in *; cbn in *; lia).
  assert (forall x, within (pred n) x -> within n x) as Hup by (intros x; unfold within; lia).
  destruct (_ =? 0); [by apply Hup|]. eapply ends_mono; [apply (IH (pred n)); [done|lia]|done].
Qed.

Lemma ends_port n fuel cur more : within n (cur, more) -> (n < fuel)%nat -> ends (lines_within n) (ref_port fuel cur more).
Proof.
  intros Hw Hf. unfold ref_port. eapply ends_bind; [by eapply ends_find|]. intros [cur1 more1] Hw1.
  eapply ends_bind; [apply (ends_parentheses n); [|done]|].
  - unfold within, left_of in *. destruct cur1; cbn in *; lia.
  - intros [cur2 more2] Hw2. by eapply ends_skip.
Qed.

Section ends.
Context `{Target, Alloc}.

Lemma ends_opcode s cmds : ends (fun _ => True) (ref_opcode s cmds).
Proof.
  unfold ref_opcode. destruct (tok (blanks ++ bytes "(") s) as [w rest]. eapply ends_bind; [apply ends_read_var|].
  intros w' _. destruct (_ =? 0); [done|]. by destruct (tok (blanks ++ bytes "()") rest) as [[code|] rest'].
Qed.

Lemma ends_opcodes fuel s cmds : (length s < fuel)%nat -> ends (fun _ => True) (ref_opcodes fuel s cmds).
Proof.
  revert s cmds. induction fuel as [|fuel IH]; intros s cmds Hf; [lia|]. cbn [ref_opcodes].
  destruct (tok (bytes ",") s) as [[w|] rest] eqn:E; [|done]. apply length_tok in E. cbn [fst snd] in E.
  eapply ends_bind; [apply ends_opcode|]. intros cmds' _. apply IH. lia.
Qed.

Lemma ends_idcode_bits i s code mask : ends (fun _ => True) (idcode_bits i s code mask).
Proof.
  revert i code mask. induction s as [|c s IH]; intros i code mask; [done|]. cbn [idcode_bits].
  destruct (c =? 49); [|destruct (toupper c =? 88); [|apply IH]];
    (apply ends_bind with (P := fun _ => True); [unfold shl_c; by destruct (_ && _)|intros b _; apply IH]).
Qed.

Lemma ends_attribute n cur more f : within n (cur, more) ->
  ends (fun x => lines_within n x.1) (ref_attribute cur more f).
Proof.
  intros Hw. unfold ref_attribute. destruct (tok blanks cur) as [w rest] eqn:E.
  pose proof (within_tok _ _ _ _ _ _ Hw E) as Hw1. eapply ends_bind; [apply ends_read_var|]. intros w' _.
  destruct (equals "INSTRUCTION_LENGTH" _); [|destruct (equals "INSTRUCTION_OPCODE" _); [|destruct (equals "IDCODE_REGISTER" _)]].
  - eapply ends_bind; [by eapply ends_is|]. intros [cur1 more1] Hw2.
    eapply ends_bind; [by eapply ends_collect_into|]. by intros [d more2].
  - eapply ends_bind; [by eapply ends_is|]. intros [cur1 more1] Hw2. cbv zeta. destruct (negb _); [done|].
    eapply ends_bind; [by eapply ends_collect_into|]. intros [chars more2] Hw3.
    eapply ends_bind; [apply ends_opcodes; lia|]. by intros cmds _.
  - eapply ends_bind; [by eapply ends_is|]. intros [cur1 more1] Hw2.
    eapply ends_bind; [by eapply ends_collect_into|]. intros [chars more2] Hw3.
    eapply ends_bind; [apply ends_idcode_bits|]. by intros [code mask] _.
  - eapply ends_bind; [by eapply ends_skip|]. by intros more'.
Qed.

(** A statement takes its first line. *)
Lemma ends_statement n l more f : lines_within n more -> (length (body l) + rest_of more <= n)%nat ->
  ends (fun x => (rest_of x.1.2 < rest_of (l :: more))%nat) (ref_statement n (l :: more) f).
Proof.
  intros Hn Hw. pose proof (rest_of_cons l more) as Hc. set (k := (length (body l) + rest_of more)%nat) in *.
  unfold ref_statement. cbn [next_line mbind outcome_bind].
  assert (within k (body l, more)) as Hk by (unfold within, left_of; cbn; lia).
  assert (forall r b, ends (lines_within k) r ->
    ends (fun x : bool * list line * found => (rest_of x.1.2 < rest_of (l :: more))%nat) (more' ← r; Ok (true, more', b))) as Hnext.
  { intros r b Hr. eapply ends_bind; [exact Hr|]. intros more' Hm. unfold lines_within in Hm. cbn. lia. }
  destruct (tok blanks (body l)) as [[w|] cur] eqn:E; [|cbn; lia].
  pose proof (within_tok _ _ _ _ _ _ Hk E) as Hk1. cbv zeta.
  destruct (equals "ENTITY" _); [cbn; lia|].
  assert (forall delim, ends (lines_within k) (ref_ignored delim cur more)) as Hig.
  { intros delim. unfold ref_ignored. destruct (tok delim cur) as [w' cur'] eqn:E'.
    by eapply ends_skip, within_tok. }
  destruct (equals "CONSTANT" _ || equals "GENERIC" _); [by apply Hnext|].
  destruct (equals "USE" _); [by apply Hnext|].
  destruct (equals "END" _); [cbn; lia|].
  destruct (equals "PORT" _); [apply Hnext, ends_port; [done|lia]|].
  destruct (equals "ATTRIBUTE" _); [|cbn; lia].
  eapply ends_bind; [by apply ends_attribute|]. intros [more' f'] Hm. unfold lines_within in Hm. cbn in *. lia.
Qed.

Lemma ends_statements n fuel more f : (rest_of more <= n)%nat -> (rest_of more < fuel)%nat ->
  ends (fun _ => True) (ref_statements n fuel more f).
Proof.
  revert more f. induction fuel as [|fuel IH]; intros more f Hn Hf; [lia|]. cbn [ref_statements].
  destruct more as [|l more]; [done|]. destruct (_ && _); [|done]. pose proof (rest_of_cons l more) as Hc.
  eapply ends_bind; [apply ends_statement; unfold lines_within; lia|].
  intros [[again more'] f'] Hm. cbn [fst snd] in Hm. destruct again; [apply IH; lia|done].
Qed.

Lemma ends_parse lines : ends (fun _ => True) (ref_parse lines).
Proof.
  unfold ref_parse. eapply ends_bind; [by apply ends_statements; unfold rest_of; lia|]. done.
Qed.
End ends.
