(* ===== verification/BsdlDevice.v ===== *)
(** A device as a BSDL file describes it: the statements the bridge reads, as lines of
    text, what the reference parser makes of them, and what it reads from the whole file. *)

From Stdlib Require Import Ascii String.
From S2P Require Import Prelude Arith Scanf StateM Cable Chain CString BsdlParse BsdlLines BsdlRefine BsdlStatements.
From stdpp Require Import list.

Open Scope Z_scope.

(** * Devices *)

(** Bits of an identification code; some do not matter. *)
Variant idbit := Bit (b : bool) | AnyBit.

Record device := Device {
  dev_name : list Z;
  dev_ir : Z;
  dev_opcodes : list (list Z * list bool);
  dev_idcode : list idbit
}.

(** A letter, a digit, an underscore or a point. *)
Definition word_char (c : Z) : bool :=
  isdigit c || ((65 <=? c) && (c <=? 90)) || ((97 <=? c) && (c <=? 122)) || (c =? 95) || (c =? 46).
Definition word (s : list Z) : Prop := s <> [] /\ Forall (fun c => word_char c = true) s.

Record device_ok (d : device) : Prop := DeviceOk {
  ok_name : word (dev_name d);
  ok_ir : 0 < dev_ir d < 100;
  ok_opcodes : Forall (fun op => word op.1 /\ op.2 <> [] /\ (length op.2 <= 32)%nat) (dev_opcodes d);
  ok_some : dev_opcodes d <> [];
  ok_idcode : length (dev_idcode d) = 32%nat
}.

(** * Text *)

Definition decimal (n : Z) : list Z := if n <? 10 then [48 + n] else [48 + n / 10; 48 + n mod 10].
Definition bit_char (b : bool) : Z := if b then 49 else 48.
Definition idbit_char (b : idbit) : Z := match b with Bit b => bit_char b | AnyBit => 88 end.

Definition quote (s : list Z) : list Z := [34] ++ s ++ [34].
Definition opcode_text (op : list Z * list bool) : list Z :=
  op.1 ++ bytes " (" ++ map bit_char op.2 ++ bytes ")".

(** The opcodes, an element a line. *)
Fixpoint opcode_lines (ops : list (list Z * list bool)) : list (list Z) :=
  match ops with
  | [] => []
  | [op] => [quote (opcode_text op) ++ bytes ";"]
  | op :: ops => (quote (opcode_text op ++ bytes ",") ++ bytes " &") :: opcode_lines ops
  end.

Definition attribute_text (attr : string) (d : device) : list Z :=
  bytes "attribute " ++ bytes attr ++ bytes " of " ++ dev_name d ++ bytes " : entity is".

Definition device_text (d : device) : list (list Z) :=
  [bytes "entity " ++ dev_name d ++ bytes " is";
   attribute_text "INSTRUCTION_LENGTH" d ++ bytes " " ++ decimal (dev_ir d) ++ bytes ";";
   attribute_text "INSTRUCTION_OPCODE" d]
  ++ opcode_lines (dev_opcodes d)
  ++ [attribute_text "IDCODE_REGISTER" d; quote (map idbit_char (dev_idcode d)) ++ bytes ";"].

(** * Values *)

(** The first bit is the most significant one. *)
Definition bits_value (bits : list bool) : Z := fold_left (fun v (b : bool) => 2 * v + Z.b2z b) bits 0.

Definition device_cmds (ops : list (list Z * list bool)) : Z * Z * Z :=
  fold_left (fun cmds op => set_cmd (target_of (map toupper op.1)) (bits_value op.2) cmds) ops
    (TAP_CMD_INVALID, TAP_CMD_INVALID, TAP_CMD_INVALID).

Definition idbit_is (b : idbit) : bool := match b with Bit b => b | AnyBit => false end.
Definition idbit_matters (b : idbit) : bool := match b with Bit _ => true | AnyBit => false end.

Definition device_info (d : device) : bsdlinfo :=
  let '(debug_cmd, user1_cmd, idcode_cmd) := device_cmds (dev_opcodes d) in
  BsdlInfo (Some (dev_name d)) (bits_value (map idbit_is (dev_idcode d)))
    (bits_value (map idbit_matters (dev_idcode d))) (dev_ir d) debug_cmd user1_cmd idcode_cmd.

(** * Numbers *)

Lemma number_snoc base s c : number base (s ++ [c]) = base * number base s + hex c.
Proof. unfold number. by rewrite fold_left_app. Qed.

Lemma bits_value_number bits : number 2 (map bit_char bits) = bits_value bits.
Proof.
  induction bits as [|b bits IH] using rev_ind; [done|]. rewrite map_app. cbn [map]. rewrite number_snoc, IH.
  unfold bits_value. rewrite fold_left_app. cbn [fold_left]. by destruct b.
Qed.

Lemma bits_value_bound bits : 0 <= bits_value bits < 2 ^ Z.of_nat (length bits).
Proof.
  induction bits as [|b bits IH] using rev_ind; [done|]. unfold bits_value in *. rewrite fold_left_app.
  rewrite length_app, Nat.add_1_r, Nat2Z.inj_succ, Z.pow_succ_r by lia. cbn [fold_left].
  destruct b; cbn [Z.b2z]; lia.
Qed.

Lemma prefix_len_all p s : Forall (fun c => p c = true) s -> prefix_len p s = length s.
Proof. induction 1 as [|c s Hc Hs IH]; [done|]. cbn. by rewrite Hc, IH. Qed.

(** The sign and the magnitude [strtoul] reads. *)
Definition magnitude_of (s : list Z) (base : Z) : bool * Z :=
  let '(neg, _, s) := scan_sign (length s) (skip_white s) in
  let '(base, s) :=
    if base =? 0 then
      let '(_, t) := scan_0x (length s) s in
      if bool_decide (length t < length s)%nat then (16, t)
      else if starts_one_of [48] s then (8, s) else (10, s)
    else (base, s) in
  (neg, number base (digits_of base s)).

Lemma magnitude_bits bits : bits <> [] -> magnitude_of (map bit_char bits) 2 = (false, bits_value bits).
Proof.
  intros Hne. unfold magnitude_of.
  assert (skip_white (map bit_char bits) = map bit_char bits) as -> by (by destruct bits as [|[] bits]).
  assert (scan_sign (length (map bit_char bits)) (map bit_char bits) = (false, length (map bit_char bits), map bit_char bits)) as ->
    by (by destruct bits as [|[] bits]).
  cbv beta iota zeta. cbn [Z.eqb]. unfold digits_of.
  rewrite prefix_len_all, firstn_all, bits_value_number; [done|]. apply List.Forall_map, Forall_true. by intros [].
Qed.

Lemma magnitude_decimal n : 0 < n < 100 -> magnitude_of (decimal n) 0 = (false, n).
Proof.
  intros Hn. pose proof (Z_range_check 100 (fun n => 0 < n -> magnitude_of (decimal n) 0 = (false, n))) as Hb.
  apply Hb; [vm_compute; reflexivity|lia..].
Qed.

Section numbers.
Context `{Target} (long : 4 <= long_size).

Lemma strtoul_magnitude s base v : magnitude_of s base = (false, v) -> v < 2 ^ 32 -> strtoul s base = v.
Proof.
  unfold magnitude_of, strtoul. destruct (scan_sign (length s) (skip_white s)) as [[neg k] t].
  set (x := if base =? 0 then _ else _). destruct x as [base' t']. intros [= -> E] Hv. rewrite E.
  assert (2 ^ 32 <= 2 ^ (8 * long_size)) by (apply Z.pow_le_mono_r; lia).
  destruct (Z.leb_spec (2 ^ (8 * long_size)) v); [lia|done].
Qed.

Lemma strtoul_bits bits : bits <> [] -> (length bits <= 32)%nat ->
  u32 (i32 (strtoul (map bit_char bits) 2)) = bits_value bits.
Proof.
  intros Hne Hl. pose proof (bits_value_bound bits) as Hb.
  assert (2 ^ Z.of_nat (length bits) <= 2 ^ 32) by (apply Z.pow_le_mono_r; lia).
  rewrite (strtoul_magnitude _ _ (bits_value bits)); [|by apply magnitude_bits|lia].
  rewrite wrap_swrap. apply wrap_small. unfold is_word. lia.
Qed.

Lemma strtoul_decimal n : 0 < n < 100 -> i32 (strtoul (decimal n) 0) = n.
Proof.
  intros Hn. rewrite (strtoul_magnitude _ _ n); [|by apply magnitude_decimal|lia].
  apply swrap_small; unfold is_sword; lia.
Qed.
End numbers.

(** * Identification codes *)

Lemma set_bit v n : 0 <= n -> v * 2 ^ (n + 1) .| 2 ^ n = (2 * v + 1) * 2 ^ n.
Proof.
  intros Hn. rewrite Z.pow_add_r by lia. rewrite lor_disjoint_add; [lia|].
  rewrite land_pow2_b2z by done. replace (v * (2 ^ n * 2 ^ 1)) with (2 * v * 2 ^ n) by lia.
  rewrite Z.mul_pow2_bits by done. rewrite Z.sub_diag, Z.testbit_even_0. done.
Qed.

Lemma land_not32 m x : is_u32 m -> m .& not32 x = Z.ldiff m x.
Proof.
  intros Hm. unfold not32. zbits. destruct (Z.ltb_spec i 32) as [|Hi32]; [done|].
  by rewrite (testbit_word 32 m i Hm).
Qed.

Lemma clear_bit w n : 0 <= n -> is_u32 ((2 * w + 1) * 2 ^ n + 2 ^ n - 1) ->
  ((2 * w + 1) * 2 ^ n + 2 ^ n - 1) .& not32 (2 ^ n) = 2 * w * 2 ^ n + 2 ^ n - 1.
Proof.
  intros Hn Hm. rewrite land_not32 by done. set (m := (2 * w + 1) * 2 ^ n + 2 ^ n - 1) in *.
  pose proof (Z.pow_pos_nonneg 2 n ltac:(lia) ltac:(lia)).
  assert (Z.testbit m n = true) as Ht.
  { rewrite Z.testbit_odd, Z.shiftr_div_pow2 by done.
    rewrite <- (Z.div_unique m (2 ^ n) (2 * w + 1) (2 ^ n - 1)) by (unfold m; lia).
    by rewrite Z.add_comm, Z.odd_add_mul_2. }
  assert (Z.ldiff (2 ^ n) m = 0) as E.
  { zbits. destruct (Z.eqb_spec i n) as [->|]; [by rewrite Ht|done]. }
  rewrite <- Z.sub_nocarry_ldiff by done. unfold m. lia.
Qed.

(** The position [i] is that of bit [n]. *)
Lemma idcode_bit b s n v w : 0 <= n < 32 -> is_u32 ((2 * w + 1) * 2 ^ n + 2 ^ n - 1) ->
  idcode_bits (31 - n) (idbit_char b :: s) (v * 2 ^ (n + 1)) ((2 * w + 1) * 2 ^ n + 2 ^ n - 1)
  = idcode_bits (32 - n) s ((2 * v + Z.b2z (idbit_is b)) * 2 ^ n)
      ((2 * w + Z.b2z (idbit_matters b)) * 2 ^ n + 2 ^ n - 1).
Proof.
  intros Hn Hm. cbn [idcode_bits]. replace (31 - (31 - n)) with n by lia. replace (31 - n + 1) with (32 - n) by lia.
  rewrite shl_c_ok, shl32_1 by lia. cbn [mbind outcome_bind].
  assert (v * 2 ^ (n + 1) = (2 * v + 0) * 2 ^ n) as E by (rewrite Z.pow_add_r by lia; lia).
  destruct b as [[]|]; cbn [idbit_char bit_char Z.eqb Pos.eqb idbit_is idbit_matters Z.b2z].
  - by rewrite set_bit by lia.
  - by rewrite E.
  - change (toupper 88 =? 88) with true. cbn iota. rewrite clear_bit by (done || lia). by rewrite E, (Z.add_0_r (2 * w)).
Qed.

Abbreviation value_from := (fold_left (fun v (b : bool) => 2 * v + Z.b2z b)).

Lemma idcode_bits_values bits v w :
  (length bits <= 32)%nat -> 0 <= w < 2 ^ (32 - Z.of_nat (length bits)) ->
  idcode_bits (32 - Z.of_nat (length bits)) (map idbit_char bits) (v * 2 ^ Z.of_nat (length bits))
    (w * 2 ^ Z.of_nat (length bits) + 2 ^ Z.of_nat (length bits) - 1)
  = Ok (value_from (map idbit_is bits) v, value_from (map idbit_matters bits) w).
Proof.
  revert v w. induction bits as [|b bits IH]; intros v w Hl Hw.
  { cbn. f_equal. f_equal; lia. }
  cbn [length map fold_left] in *. set (n := Z.of_nat (length bits)) in *.
  replace (Z.of_nat (S (length bits))) with (n + 1) in * by lia.
  assert (2 ^ (32 - n) = 2 * 2 ^ (32 - (n + 1))) as Hp by (rewrite <- Z.pow_succ_r by lia; f_equal; lia).
  pose proof (Z.pow_pos_nonneg 2 n ltac:(lia) ltac:(lia)).
  assert (2 ^ 32 = 2 ^ (32 - n) * 2 ^ n) by (rewrite <- Z.pow_add_r by lia; f_equal; lia).
  assert (w * 2 ^ (n + 1) + 2 ^ (n + 1) - 1 = (2 * w + 1) * 2 ^ n + 2 ^ n - 1) as -> by (rewrite Z.pow_add_r by lia; lia).
  replace (32 - (n + 1)) with (31 - n) in * by lia. rewrite idcode_bit; [|lia|unfold is_word; nia].
  apply IH; [lia|]. destruct b as [[]|]; cbn [idbit_matters Z.b2z]; lia.
Qed.

Lemma idcode_value bits : length bits = 32%nat ->
  idcode_bits 0 (map idbit_char bits) 0 0xFFFFFFFF
  = Ok (bits_value (map idbit_is bits), bits_value (map idbit_matters bits)).
Proof. intros Hl. pose proof (idcode_bits_values bits 0 0) as E. rewrite Hl in E. by apply E. Qed.

(** * What the parser reads from the file of a device *)

(** * Words and tokens *)

Definition none_of (set s : list Z) : Prop := Forall (fun c => negb (one_of set c) = true) s.

Lemma word_none_of set s : Forall (fun c => word_char c = true) s ->
  forallb (fun c => negb (word_char c)) set = true -> none_of set s.
Proof.
  intros Hs Hset. eapply Forall_impl; [exact Hs|]. intros c Hc. unfold one_of.
  rewrite bool_decide_false; [done|]. intros Hin. rewrite forallb_forall in Hset.
  specialize (Hset c). rewrite <- list_elem_of_In in Hset. by rewrite Hc in Hset; apply Hset in Hin.
Qed.

Lemma bits_none_of set bits : forallb (fun c => negb (word_char c)) set = true -> none_of set (map bit_char bits).
Proof. intros Hset. apply word_none_of; [|done]. apply List.Forall_map, Forall_true. by intros []. Qed.

Lemma none_of_app set s t : none_of set (s ++ t) <-> none_of set s /\ none_of set t.
Proof. apply Forall_app. Qed.

Lemma tok_delim delim c s : one_of delim c = true -> tok delim (c :: s) = tok delim s.
Proof. intros Hc. unfold tok. cbn [prefix_len]. by rewrite Hc. Qed.

Lemma prefix_len_skip p w rest : Forall (fun c => p c = true) w ->
  prefix_len p (w ++ rest) = (length w + prefix_len p rest)%nat.
Proof. induction 1 as [|c s Hc Hs IH]; [done|]. cbn. by rewrite Hc, IH. Qed.

(** A token, and the delimiter after it if there is one. *)
Lemma tok_word delim w rest : w <> [] -> none_of delim w ->
  match rest with c :: _ => one_of delim c = true | [] => True end ->
  tok delim (w ++ rest) = (Some w, tail rest).
Proof.
  intros Hne Hw Hrest. unfold tok.
  assert (prefix_len (one_of delim) (w ++ rest) = O) as ->.
  { destruct w as [|c w]; [done|]. apply Forall_cons in Hw as [Hc _]. cbn. by apply negb_true_iff in Hc as ->. }
  rewrite drop_0, bool_decide_false by (by destruct w). cbv zeta. rewrite prefix_len_skip by done.
  assert (prefix_len (fun c => negb (one_of delim c)) rest = O) as -> by (destruct rest as [|c rest]; [done|]; cbn; by rewrite Hrest).
  rewrite Nat.add_0_r, take_app_length. f_equal. replace (S (length w)) with (length w + 1)%nat by lia.
  rewrite <- drop_drop, drop_app_length. by destruct rest.
Qed.

(** * Searching *)

Lemma ref_find_char x s t more : none_of [x] s ->
  ref_find (starts_one_of [x]) (s ++ x :: t) more = Ok (x :: t, more).
Proof.
  intros Hs. assert (find_suffix (starts_one_of [x]) (s ++ x :: t) = Some (length s)) as E.
  { induction Hs as [|c s Hc Hs IH]; cbn [app find_suffix starts_one_of length].
    - unfold one_of. by rewrite bool_decide_true by (apply elem_of_cons; by left).
    - apply negb_true_iff in Hc as ->. by rewrite IH. }
  destruct more; cbn [ref_find]; by rewrite E, drop_app_length.
Qed.

Lemma ref_is_attribute name rest more : Forall (fun c => word_char c = true) name ->
  ref_is (bytes "of " ++ name ++ bytes " : entity is" ++ rest) more = Ok (bytes "is" ++ rest, more).
Proof.
  intros Hn. unfold ref_is.
  assert (bytes "of " ++ name ++ bytes " : entity is" ++ rest
    = (bytes "of " ++ name ++ bytes " ") ++ 58 :: bytes " entity is" ++ rest) as -> by by rewrite <- !app_assoc.
  rewrite ref_find_char; [by destruct more|]. apply none_of_app. split; [by repeat constructor|].
  apply none_of_app. split; [by apply word_none_of|by repeat constructor].
Qed.

(** * Values *)

Lemma digits_app d s : Forall (fun c => isdigit c = true) d ->
  digits_on_line (d ++ s) = (d ++ (digits_on_line s).1, (digits_on_line s).2).
Proof.
  induction 1 as [|c d Hc Hd IH]; cbn [app digits_on_line]; [by destruct (digits_on_line s)|]. by rewrite Hc, IH.
Qed.

Lemma decimal_digits n : 0 < n < 100 -> Forall (fun c => isdigit c = true) (decimal n) /\ (length (decimal n) <= 2)%nat.
Proof.
  intros Hn. split.
  - pose proof (Z_range_check 100 (fun n => 0 < n -> Forall (fun c => isdigit c = true) (decimal n))) as Hb.
    apply Hb; [vm_compute; reflexivity|lia..].
  - unfold decimal. by destruct (n <? 10); cbn; lia.
Qed.

Lemma quoted_inside s t : none_of [34] s ->
  quoted_on_line false (s ++ 34 :: t) true
  = let '(d, v, done) := quoted_on_line false t false in (s ++ d, v, done).
Proof.
  induction 1 as [|c s Hc Hs IH]; cbn [app quoted_on_line].
  - rewrite andb_false_r. cbn [negb andb]. by destruct (quoted_on_line false t false) as [[d v] done].
  - unfold one_of in Hc. assert ((c =? 34) = false) as ->.
    { apply Z.eqb_neq. intros ->. by rewrite bool_decide_true in Hc by (apply elem_of_cons; by left). }
    rewrite andb_false_r. cbn [negb andb]. rewrite IH. by destruct (quoted_on_line false t false) as [[d v] done].
Qed.

Lemma quoted_line s t : none_of [34] s ->
  quoted_on_line false (quote s ++ t) false
  = let '(d, v, done) := quoted_on_line false t false in (s ++ d, v, done).
Proof.
  intros Hs. unfold quote. rewrite <- !app_assoc. cbn [app quoted_on_line Z.eqb Pos.eqb andb orb negb].
  by apply quoted_inside.
Qed.

(** * Opcodes *)

Definition opcode_ok (op : list Z * list bool) : Prop := word op.1 /\ op.2 <> [] /\ (length op.2 <= 32)%nat.

Fixpoint opcodes_text (ops : list (list Z * list bool)) : list Z :=
  match ops with
  | [] => []
  | [op] => opcode_text op
  | op :: ops => opcode_text op ++ bytes "," ++ opcodes_text ops
  end.

Lemma opcode_none_of set op : opcode_ok op -> forallb (fun c => negb (word_char c)) set = true ->
  forallb (fun c => negb (one_of set c)) (bytes " ()") = true -> none_of set (opcode_text op).
Proof.
  intros ((_ & Hw) & _ & _) Hset Hp. cbn in Hp. rewrite !andb_true_iff in Hp. destruct Hp as (H1 & H2 & H3 & _).
  unfold opcode_text. apply none_of_app. split; [by apply word_none_of|]. apply none_of_app.
  split; [by repeat constructor|]. apply none_of_app. split; [by apply bits_none_of|by repeat constructor].
Qed.

Lemma opcode_text_some op : opcode_ok op -> opcode_text op <> [].
Proof. intros ((Hne & _) & _). unfold opcode_text. by destruct op.1. Qed.

Lemma bodies_cons ls x xs : map body ls = x :: xs ->
  exists l ls', ls = l :: ls' /\ body l = x /\ map body ls' = xs.
Proof. destruct ls as [|l ls']; [done|]. intros E. exists l, ls'. split; [done|]. by apply (inj2 cons) in E. Qed.

Lemma collect_opcodes ops acc ls rest : ops <> [] -> Forall opcode_ok ops -> map body ls = opcode_lines ops ->
  ref_collect (quoted_on_line false) false acc (ls ++ rest) = Ok (acc ++ opcodes_text ops, rest).
Proof.
  intros Hne Ho. revert acc ls. induction Ho as [|op ops Hop Ho IH]; [done|]; intros acc ls Hls.
  assert (none_of [34] (opcode_text op)) as Hq by by apply opcode_none_of.
  destruct ops as [|op' ops]; apply bodies_cons in Hls as (l & ls' & -> & Hl & Hls).
  - apply map_eq_nil in Hls as ->. cbn [app ref_collect]. rewrite Hl, quoted_line by done.
    change (quoted_on_line false (bytes ";") false) with (@nil Z, false, true). cbn [opcodes_text]. by rewrite app_nil_r.
  - cbn [app ref_collect]. rewrite Hl, quoted_line by (apply none_of_app; split; [done|by repeat constructor]).
    change (quoted_on_line false (bytes " &") false) with (@nil Z, false, false). cbv beta iota.
    rewrite IH by done. f_equal. f_equal.
    change (opcodes_text (op :: op' :: ops)) with (opcode_text op ++ bytes "," ++ opcodes_text (op' :: ops)).
    by rewrite app_nil_r, <- !app_assoc.
Qed.

Section reads.
Context `{Target, Alloc} (long : 4 <= long_size) (malloc_all : forall n, malloc_ok n = true).

Lemma set_cmd_none v cmds : set_cmd 0 v cmds = cmds.
Proof. by destruct cmds as [[? ?] ?]. Qed.

Lemma read_opcode op cmds : opcode_ok op ->
  ref_opcode (opcode_text op) cmds = Ok (set_cmd (target_of (map toupper op.1)) (bits_value op.2) cmds).
Proof.
  intros ((Hne & Hw) & Hb & Hl). unfold ref_opcode, opcode_text.
  rewrite tok_word by (done || by apply word_none_of). cbn [read_var mbind outcome_bind].
  destruct (Z.eqb_spec (target_of (map toupper op.1)) 0) as [->|_]; [by rewrite set_cmd_none|].
  change (tail (bytes " (" ++ ?x)) with (40 :: x). rewrite tok_delim by done.
  rewrite tok_word; [|by destruct op.2|by apply bits_none_of|done]. by rewrite strtoul_bits.
Qed.

Lemma read_opcodes fuel ops cmds : Forall opcode_ok ops -> (length ops < fuel)%nat ->
  ref_opcodes fuel (opcodes_text ops) cmds
  = Ok (fold_left (fun cmds op => set_cmd (target_of (map toupper op.1)) (bits_value op.2) cmds) ops cmds).
Proof.
  intros Ho. revert fuel cmds. induction Ho as [|op ops Hop Ho IH]; intros fuel cmds Hf; (destruct fuel as [|fuel]; [cbn in Hf; lia|]).
  { done. }
  assert (none_of (bytes ",") (opcode_text op)) as Hq by by apply opcode_none_of.
  assert (exists t, opcodes_text (op :: ops) = opcode_text op ++ t
    /\ match t with c :: _ => one_of (bytes ",") c = true | [] => True end /\ tail t = opcodes_text ops) as (t & -> & Hc & Ht).
  { destruct ops as [|op' ops]; [exists []; by rewrite app_nil_r|]. by exists (bytes "," ++ opcodes_text (op' :: ops)). }
  cbn [ref_opcodes]. rewrite tok_word; [|by apply opcode_text_some|done|done]. rewrite Ht, read_opcode by done.
  cbn [mbind outcome_bind fold_left]. apply IH. cbn in Hf. lia.
Qed.

Lemma opcodes_text_length ops : Forall opcode_ok ops -> (length ops <= length (opcodes_text ops))%nat.
Proof.
  induction 1 as [|op ops Hop Ho IH]; [done|]. apply opcode_text_some in Hop.
  assert (0 < length (opcode_text op))%nat by by destruct (opcode_text op); [|cbn; lia].
  destruct ops as [|op' ops]; [cbn; lia|].
  change (opcodes_text (op :: op' :: ops)) with (opcode_text op ++ bytes "," ++ opcodes_text (op' :: ops)).
  rewrite !length_app. cbn [length] in *. lia.
Qed.

(** What is quoted is not longer than the lines. *)
Lemma quoted_length first s v : (length (quoted_on_line first s v).1.1 <= length s)%nat.
Proof.
  revert v. induction s as [|c s IH]; intros v; [done|]. cbn [quoted_on_line].
  destruct ((c =? 59) && (first || negb v)); [cbn; lia|].
  destruct (v && negb (c =? 34)).
  - specialize (IH v). destruct (quoted_on_line first s v) as [[d v'] done]. cbn in *. lia.
  - destruct (c =? 34); [specialize (IH (negb v))|specialize (IH v)]; cbn [length]; lia.
Qed.

Lemma collect_length v acc more chars more' :
  ref_collect (quoted_on_line false) v acc more = Ok (chars, more') ->
  (length chars < length acc + rest_of more)%nat.
Proof.
  revert v acc. induction more as [|l more IH]; intros v acc; [done|]. cbn [ref_collect].
  pose proof (quoted_length false (body l) v) as Hq. pose proof (rest_of_cons l more) as Hc.
  destruct (quoted_on_line false (body l) v) as [[d v'] []]; cbn [fst] in Hq.
  - intros [= <- _]. rewrite length_app. lia.
  - intros E. apply IH in E. rewrite length_app in E. lia.
Qed.
(** * Statements *)

Lemma read_entity size l more name f : word name -> body l = bytes "entity " ++ name ++ bytes " is" ->
  ref_statement size (l :: more) f = Ok (true, more, set_name (Some name) f).
Proof.
  intros [Hne Hn] Hl. unfold ref_statement. cbn [next_line mbind outcome_bind]. rewrite Hl.
  change (bytes "entity " ++ ?x) with (bytes "entity" ++ 32 :: x).
  rewrite tok_word; [|done|by repeat constructor|done].
  change (equals "ENTITY" (map toupper (bytes "entity"))) with true. cbv beta iota zeta. cbn [tail].
  unfold ref_entity. rewrite tok_word; [|done|by apply word_none_of|done]. by rewrite malloc_all.
Qed.

Lemma read_attribute size l more attr d t f : none_of blanks (bytes attr) -> bytes attr <> [] ->
  body l = attribute_text attr d ++ t ->
  ref_statement size (l :: more) f
  = '(more, f) ← ref_attribute (bytes attr ++ bytes " of " ++ dev_name d ++ bytes " : entity is" ++ t) more f;
    Ok (true, more, f).
Proof.
  intros Ha Hne Hl. unfold ref_statement. cbn [next_line mbind outcome_bind]. rewrite Hl. unfold attribute_text.
  rewrite <- !app_assoc. change (bytes "attribute " ++ ?x) with (bytes "attribute" ++ 32 :: x).
  rewrite tok_word; [done|done|by repeat constructor|done].
Qed.

(** The rest of an attribute of which the name has been read. *)
Lemma attribute_name attr d t : none_of blanks (bytes attr) -> bytes attr <> [] ->
  tok blanks (bytes attr ++ bytes " of " ++ dev_name d ++ bytes " : entity is" ++ t)
  = (Some (bytes attr), bytes "of " ++ dev_name d ++ bytes " : entity is" ++ t).
Proof. intros Ha Hne. by rewrite tok_word. Qed.

Lemma read_length size l more d f : word (dev_name d) -> 0 < dev_ir d < 100 ->
  body l = attribute_text "INSTRUCTION_LENGTH" d ++ bytes " " ++ decimal (dev_ir d) ++ bytes ";" ->
  ref_statement size (l :: more) f = Ok (true, more, set_IR_size (dev_ir d) f).
Proof.
  intros [_ Hn] Hir Hl. destruct (decimal_digits _ Hir) as [Hd Hlen].
  erewrite (read_attribute size l more "INSTRUCTION_LENGTH" d); [|by repeat constructor|done|exact Hl].
  unfold ref_attribute. rewrite attribute_name by (done || by repeat constructor). cbn [read_var mbind outcome_bind].
  change (equals "INSTRUCTION_LENGTH" (map toupper (bytes "INSTRUCTION_LENGTH"))) with true. cbv beta iota zeta.
  unfold ref_length. rewrite ref_is_attribute by done. cbn [mbind outcome_bind]. unfold ref_collect_into, digits_of_line.
  change (digits_on_line (bytes "is" ++ bytes " " ++ ?x)) with (digits_on_line x).
  rewrite digits_app by done. change (digits_on_line (bytes ";")) with (@nil Z, true). cbn [fst snd].
  rewrite app_nil_r. cbn [mbind outcome_bind].
  assert ((Z.of_nat (length (decimal (dev_ir d))) <? TMPBUF_SIZE) = true) as -> by (apply Z.ltb_lt; unfold TMPBUF_SIZE; lia).
  cbn [mbind outcome_bind]. by rewrite strtoul_decimal.
Qed.

Lemma read_opcode_lines size l ls more d f : device_ok d ->
  body l = attribute_text "INSTRUCTION_OPCODE" d -> map body ls = opcode_lines (dev_opcodes d) ->
  info f = info (set_IR_size (dev_ir d) (set_name (Some (dev_name d)) nothing_found)) ->
  ref_statement size (l :: ls ++ more) f = Ok (true, more, set_cmds (device_cmds (dev_opcodes d)) f).
Proof.
  intros [[_ Hn] _ Ho Hne _] Hl Hls Hf.
  rewrite (read_attribute _ _ _ "INSTRUCTION_OPCODE" d []); [|by repeat constructor|done|by rewrite app_nil_r].
  unfold ref_attribute. rewrite attribute_name by (done || by repeat constructor). cbn [read_var mbind outcome_bind].
  change (equals "INSTRUCTION_LENGTH" (map toupper (bytes "INSTRUCTION_OPCODE"))) with false.
  change (equals "INSTRUCTION_OPCODE" (map toupper (bytes "INSTRUCTION_OPCODE"))) with true. cbv beta iota zeta.
  unfold ref_instruction_opcode. rewrite ref_is_attribute by done. cbn [mbind outcome_bind]. rewrite malloc_all. cbn [negb].
  unfold ref_collect_into. rewrite app_nil_r. change (quoted_on_line true (bytes "is") false) with (@nil Z, false, false).
  cbv beta iota. pose proof (collect_opcodes _ [] ls more Hne Ho Hls) as E. rewrite E. cbn [mbind outcome_bind app].
  apply collect_length in E. cbn [length app] in E. unfold rest_of in E.
  destruct (Z.ltb_spec (Z.of_nat (length (opcodes_text (dev_opcodes d)))) (Z.of_nat (length (print_lines (ls ++ more))))) as [_|]; [|lia].
  cbn [mbind outcome_bind]. rewrite Hf. rewrite read_opcodes; [done|done|]. pose proof (opcodes_text_length _ Ho). lia.
Qed.

Lemma idbits_none_of bits : none_of [34] (map idbit_char bits).
Proof. apply List.Forall_map, Forall_true. by intros [[]|]. Qed.

Lemma read_idcode size l l' more d f : device_ok d ->
  body l = attribute_text "IDCODE_REGISTER" d -> body l' = quote (map idbit_char (dev_idcode d)) ++ bytes ";" ->
  idcode (info f) = 0 -> idcode_mask (info f) = 0xFFFFFFFF ->
  ref_statement size (l :: l' :: more) f
  = Ok (true, more, set_idcode (bits_value (map idbit_is (dev_idcode d))) (bits_value (map idbit_matters (dev_idcode d))) f).
Proof.
  intros [[_ Hn] _ _ _ Hi] Hl Hl' Hc Hm.
  rewrite (read_attribute _ _ _ "IDCODE_REGISTER" d []); [|by repeat constructor|done|by rewrite app_nil_r].
  unfold ref_attribute. rewrite attribute_name by (done || by repeat constructor). cbn [read_var mbind outcome_bind].
  change (equals "INSTRUCTION_LENGTH" (map toupper (bytes "IDCODE_REGISTER"))) with false.
  change (equals "INSTRUCTION_OPCODE" (map toupper (bytes "IDCODE_REGISTER"))) with false.
  change (equals "IDCODE_REGISTER" (map toupper (bytes "IDCODE_REGISTER"))) with true. cbv beta iota zeta.
  unfold ref_idcode. rewrite ref_is_attribute by done. cbn [mbind outcome_bind].
  unfold ref_collect_into. rewrite app_nil_r. change (quoted_on_line true (bytes "is") false) with (@nil Z, false, false).
  cbv beta iota. cbn [ref_collect]. rewrite Hl', quoted_line by apply idbits_none_of.
  change (quoted_on_line false (bytes ";") false) with (@nil Z, false, true). cbv beta iota.
  cbn [mbind outcome_bind app]. rewrite app_nil_r, length_map, Hi. change (Z.of_nat 32 <? TMPBUF_SIZE) with true. cbv beta iota.
  cbn [mbind outcome_bind]. by rewrite Hc, Hm, idcode_value.
Qed.

(** One more statement. *)
Lemma ref_statements_step size fuel l more more' f f' :
  complete f = false -> ref_statement size (l :: more) f = Ok (true, more', f') ->
  ref_statements size (S fuel) (l :: more) f = ref_statements size fuel more' f'.
Proof. intros Hf E. cbn [ref_statements]. rewrite Hf, E. by rewrite bool_decide_false. Qed.

Lemma read_device d lines rest : device_ok d -> map body lines = device_text d ++ rest ->
  ref_parse lines = Ok (device_info d).
Proof.
  intros Hd Hb. pose proof Hd as [Hn Hir _ _ _]. unfold device_text in Hb. rewrite <- !app_assoc in Hb. cbn [app] in Hb.
  apply bodies_cons in Hb as (l1 & ls1 & -> & E1 & Hb). apply bodies_cons in Hb as (l2 & ls2 & -> & E2 & Hb).
  apply bodies_cons in Hb as (l3 & ls3 & -> & E3 & Hb).
  apply map_eq_app in Hb as (ops & ls4 & -> & E4 & Hb).
  apply bodies_cons in Hb as (l5 & ls5 & -> & E5 & Hb). apply bodies_cons in Hb as (l6 & ls6 & -> & E6 & _).
  unfold ref_parse. set (size := length _). assert (4 <= size)%nat as Hs.
  { pose proof (print_lines_length (l1 :: l2 :: l3 :: ops ++ l5 :: l6 :: ls6)) as Hp. fold size in Hp.
    repeat (rewrite ?length_app in Hp; cbn [length] in Hp). lia. }
  do 4 (destruct size as [|size]; [lia|]). clear Hs.
  erewrite ref_statements_step; [|done|by eapply read_entity].
  erewrite ref_statements_step; [|done|by eapply read_length].
  erewrite ref_statements_step; [|done|by eapply read_opcode_lines].
  erewrite ref_statements_step; [|by destruct (device_cmds _) as [[? ?] ?]|eapply read_idcode; [done..|by destruct (device_cmds _) as [[? ?] ?]|by destruct (device_cmds _) as [[? ?] ?]]].
  cbn [ref_statements]. unfold device_info. destruct (device_cmds (dev_opcodes d)) as [[? ?] ?].
  rewrite andb_false_r. done.
Qed.
End reads.
