(* ===== verification/Bsdl.v ===== *)
(** bsdl.c: what is known of a device, by its identification code, from the BSDL files of
    some directories.

    Files are parsed only until the device is found; what has been parsed is kept.  The
    structures are a list, and a pointer to one of them is its index.  Messages are left
    out. *)

From Stdlib Require Import Ascii String.
From S2P Require Import Prelude Scanf StateM Cable Chain CString BsdlParse.
From stdpp Require Import list.

Open Scope Z_scope.
Open Scope cword_scope.

(** * Files

    The names in a directory, if it can be opened, and what a file holds. *)
Class Files := { opendir : list Z -> option (list (list Z)); fopen : list Z -> option (list Z) }.

(** [strrchr]: the text from the last [c] on. *)
Fixpoint strrchr (s : list Z) (c : Z) : option (list Z) :=
  match s with
  | [] => None
  | x :: t => match strrchr t c with Some r => Some r | None => if x =? c then Some s else None end
  end.

Definition is_bsdl_file (d_name : list Z) : bool :=
  match strrchr d_name 46 with
  | None => false
  | Some c => equals ".bsd" c || equals ".bsdl" c || equals ".BSD" c || equals ".BSDL" c
  end.

(** * The state *)

Definition MAX_BSDL_DIRS : Z := 64.

Record bsdl_t := Bsdl {
  bsdl_dirs : list (option (list Z));
  bsdl_current_dir : Z;
  bsdl_open_dir : option (list (list Z));
  bsdl_infos : list bsdlinfo;
  bsdl_last : option nat;
  bsdl_scratchpad_size : Z;
  bsdl_scratchpad : bool
}.

Definition set_dirs (v : list (option (list Z))) (s : bsdl_t) : bsdl_t :=
  Bsdl v (bsdl_current_dir s) (bsdl_open_dir s) (bsdl_infos s) (bsdl_last s) (bsdl_scratchpad_size s) (bsdl_scratchpad s).
Definition set_current_dir (v : Z) (s : bsdl_t) : bsdl_t :=
  Bsdl (bsdl_dirs s) v (bsdl_open_dir s) (bsdl_infos s) (bsdl_last s) (bsdl_scratchpad_size s) (bsdl_scratchpad s).
Definition set_open_dir (v : option (list (list Z))) (s : bsdl_t) : bsdl_t :=
  Bsdl (bsdl_dirs s) (bsdl_current_dir s) v (bsdl_infos s) (bsdl_last s) (bsdl_scratchpad_size s) (bsdl_scratchpad s).
Definition set_infos (v : list bsdlinfo) (s : bsdl_t) : bsdl_t :=
  Bsdl (bsdl_dirs s) (bsdl_current_dir s) (bsdl_open_dir s) v (bsdl_last s) (bsdl_scratchpad_size s) (bsdl_scratchpad s).
Definition set_last (v : option nat) (s : bsdl_t) : bsdl_t :=
  Bsdl (bsdl_dirs s) (bsdl_current_dir s) (bsdl_open_dir s) (bsdl_infos s) v (bsdl_scratchpad_size s) (bsdl_scratchpad s).
Definition set_scratchpad (size : Z) (v : bool) (s : bsdl_t) : bsdl_t :=
  Bsdl (bsdl_dirs s) (bsdl_current_dir s) (bsdl_open_dir s) (bsdl_infos s) (bsdl_last s) size v.

(** The variables before [bsdl_init]; of the scratchpad, whether there is one. *)
Definition bsdl_start : bsdl_t := Bsdl (replicate (Z.to_nat MAX_BSDL_DIRS) None) 0 None [] None 0 false.

Section bsdl.
Context `{Target, Alloc, Files}.

(** A copy, if there is memory for it. *)
Definition strdup (s : list Z) : option (list Z) := if malloc_ok (Z.of_nat (length s) + 1) then Some s else None.

Definition set_dir (i : Z) (name : list Z) : M bsdl_t unit :=
  modify (fun s => set_dirs (<[Z.to_nat i := strdup name]> (bsdl_dirs s)) s).

Definition bsdl_init : M bsdl_t unit :=
  set_dir 0 (bytes "/opt/bsdl");;
  set_dir 1 (bytes "/usr/share/bsdl");;
  set_dir 2 (bytes "~/.bsdl");;
  set_dir 3 (bytes ".");;
  modify (set_current_dir 3);;
  modify (set_scratchpad 64 (malloc_ok 64)).

Definition bsdl_add_directory (dirname : list Z) : M bsdl_t unit :=
  i ← gets bsdl_current_dir;
  if MAX_BSDL_DIRS - 1 <=? i then mret tt else
  modify (set_current_dir (i + 1));;
  set_dir (i + 1) dirname.

(** * Search *)

Definition matches (id : Z) (i : bsdlinfo) : bool := (idcode i .& idcode_mask i) =? (id .& idcode_mask i).

(** [bsdl_dirs[i]], which must be a string. *)
Definition dir_name (i : Z) : M bsdl_t (list Z) :=
  dirs ← gets bsdl_dirs;
  lift (if 0 <=? i then read_var (mjoin (dirs !! Z.to_nat i)) else Undef).

(** Directories, the last one first, until one can be opened. *)
Fixpoint open_next (n : nat) : M bsdl_t bool :=
  opened ← gets bsdl_open_dir;
  match opened with
  | Some _ => mret true
  | None =>
      i ← gets bsdl_current_dir;
      if i <? 0 then mret false else
      match n with
      | O => lift Hang
      | S n =>
          name ← dir_name i;
          modify (set_open_dir (opendir name));;
          modify (set_current_dir (i - 1));;
          open_next n
      end
  end.

(** The next BSDL file of a directory, and the names after it. *)
Fixpoint next_file (names : list (list Z)) : option (list Z * list (list Z)) :=
  match names with
  | [] => None
  | n :: names => if is_bsdl_file n then Some (n, names) else next_file names
  end.

(** Room for [needed] characters, as far as twice the size gives it: false when there is
    no memory. *)
Definition extend_scratchpad (needed : Z) : M bsdl_t bool :=
  size ← gets bsdl_scratchpad_size;
  if size <=? needed then
    if malloc_ok (size * 2) then modify (set_scratchpad (size * 2) true);; mret true else mret false
  else mret true.

Fixpoint parse_files (fuel : nat) (id : Z) : M bsdl_t (option nat) :=
  match fuel with
  | O => lift Hang
  | S fuel =>
      i ← gets bsdl_current_dir;
      found ← open_next (Z.to_nat (i + 1));
      if negb found then mret None else
      names ← gets bsdl_open_dir;
      match next_file (default [] names) with
      | None => modify (set_open_dir None);; parse_files fuel id
      | Some (d_name, names) =>
          modify (set_open_dir (Some names));;
          i ← gets bsdl_current_dir;
          dir ← dir_name (i + 1);
          room ← extend_scratchpad (Z.of_nat (length d_name) + Z.of_nat (length dir) + 2);
          if negb room then parse_files fuel id else
          let path := dir ++ bytes "/" ++ d_name in
          size ← gets bsdl_scratchpad_size;
          pad ← gets bsdl_scratchpad;
          if negb pad || (size <? Z.of_nat (length path) + 1) then lift Undef else
          ptr ← lift (parse_extract_values (fopen path));
          match ptr with
          | None => parse_files fuel id
          | Some info =>
              infos ← gets bsdl_infos;
              modify (set_infos (infos ++ [info]));;
              if matches id info then modify (set_last (Some (length infos)));; mret (Some (length infos))
              else parse_files fuel id
          end
      end
  end.

(** As many files and directories as there are. *)
Definition dir_work (name : option (list Z)) : nat :=
  match name with Some n => S (length (default [] (opendir n))) | None => 1 end.
Definition search_fuel (s : bsdl_t) : nat :=
  S (length (default [] (bsdl_open_dir s)) + 1
     + sum_list (map dir_work (take (Z.to_nat (bsdl_current_dir s + 1)) (bsdl_dirs s)))).

(** The first of those that have been parsed. *)
Fixpoint find_parsed (id : Z) (k : nat) (infos : list bsdlinfo) : option nat :=
  match infos with
  | [] => None
  | i :: infos => if matches id i then Some k else find_parsed id (S k) infos
  end.

Definition get_bsdl_info (id : Z) : M bsdl_t (option nat) :=
  last ← gets bsdl_last;
  infos ← gets bsdl_infos;
  if (match last with Some k => from_option (matches id) false (infos !! k) | None => false end) then mret last else
  match find_parsed id 0 infos with
  | Some k => modify (set_last (Some k));; mret (Some k)
  | None => fuel ← gets search_fuel; parse_files fuel id
  end.

(** * The devices *)

(** A field of what is found, or what there is instead. *)
Definition get_field {A} (f : bsdlinfo -> A) (none : A) (id : Z) : M bsdl_t A :=
  ptr ← get_bsdl_info id;
  match ptr with
  | None => mret none
  | Some k => infos ← gets bsdl_infos; lift (f <$> read_var (infos !! k))
  end.

Definition bsdl_get_name : Z -> M bsdl_t (option (list Z)) := get_field name None.
Definition bsdl_get_IR_size : Z -> M bsdl_t Z := get_field IR_size (-1).
Definition bsdl_get_debug_cmd : Z -> M bsdl_t Z := get_field cmd_debug TAP_CMD_INVALID.
Definition bsdl_get_user1_cmd : Z -> M bsdl_t Z := get_field cmd_user1 TAP_CMD_INVALID.
Definition bsdl_get_idcode_cmd : Z -> M bsdl_t Z := get_field cmd_idcode TAP_CMD_INVALID.
End bsdl.
