(* ===== verification/BsdlSearch.v ===== *)
(** What bsdl.c finds: the devices of all BSDL files, in the order of the directories. *)

From Stdlib Require Import Ascii String.
From S2P Require Import Prelude Scanf StateM Cable Chain CString BsdlParse Bsdl.
From stdpp Require Import list.

Open Scope Z_scope.

Section search.
Context `{Target, Alloc, Files}.

(** * The devices of directories *)

Definition path_of (dir d_name : list Z) : list Z := dir ++ bytes "/" ++ d_name.

Definition parsed (path : list Z) : option bsdlinfo :=
  match parse_extract_values (fopen path) with Ok r => r | _ => None end.

Definition files_of (dir : list Z) (names : list (list Z)) : list bsdlinfo :=
  omap (fun n => if is_bsdl_file n then parsed (path_of dir n) else None) names.
Definition names_of (dir : list Z) : list (list Z) := default [] (opendir dir).
Definition dir_devices (dir : list Z) : list bsdlinfo := files_of dir (names_of dir).

(** The directory that is open, with the names to come, and those to be tried. *)
Definition remaining (opened : option (list Z * list (list Z))) (todo : list (list Z)) : list bsdlinfo :=
  match opened with Some (dir, names) => files_of dir names | None => [] end ++ concat (map dir_devices todo).

Definition dir_ok (dir : list Z) (names : list (list Z)) : Prop :=
  Forall (fun n => Z.of_nat (length n) + Z.of_nat (length dir) + 2 <= 128) names.

(** ** States *)

Record searching (opened : option (list Z * list (list Z))) (todo : list (list Z)) (s : bsdl_t) : Prop := Searching {
  sch_current : bsdl_current_dir s = Z.of_nat (length todo) - 1;
  sch_dirs : take (length todo) (bsdl_dirs s) = map Some (rev todo);
  sch_open : bsdl_open_dir s = snd <$> opened;
  sch_opened : match opened with
    | Some (dir, names) => bsdl_dirs s !! length todo = Some (Some dir) /\ dir_ok dir names
    | None => True
    end;
  sch_todo : Forall (fun dir => dir_ok dir (names_of dir)) todo;
  sch_pad : 64 <= bsdl_scratchpad_size s /\ bsdl_scratchpad s = true
}.

(** A directory and each of its names are a step of the search. *)
Definition work_of (names : list (list Z)) : nat := S (length names).
Definition work (opened : option (list Z * list (list Z))) (todo : list (list Z)) : nat :=
  match opened with Some (_, names) => work_of names | None => O end
  + sum_list (map (fun dir => work_of (names_of dir)) todo).

Lemma wp_dir_name i dir (s : bsdl_t) Q : 0 <= i -> bsdl_dirs s !! Z.to_nat i = Some (Some dir) -> Q dir s -> wp (dir_name i) Q s.
Proof.
  intros Hi E HQ. unfold dir_name. apply wp_bind, wp_gets. eapply wp_lift; [|exact HQ].
  destruct (Z.leb_spec 0 i); [|lia]. by rewrite E.
Qed.

Lemma dirs_last (ds : list (option (list Z))) todo dir :
  take (length (dir :: todo)) ds = map Some (rev (dir :: todo)) ->
  ds !! length todo = Some (Some dir) /\ take (length todo) ds = map Some (rev todo).
Proof.
  cbn [rev]. rewrite map_app. cbn [map]. intros E.
  assert (length (map Some (rev todo)) = length todo) as Hl by by rewrite length_map, length_rev.
  split.
  - rewrite <- (lookup_take_lt ds (length (dir :: todo))) by (cbn; lia). rewrite E.
    rewrite lookup_app_r by lia. by rewrite Hl, Nat.sub_diag.
  - apply (f_equal (take (length todo))) in E. rewrite take_take, Nat.min_l in E by (cbn; lia).
    by rewrite E, <- Hl, take_app_length.
Qed.

(** ** Directories *)

Lemma wp_open_next n opened todo s :
  searching opened todo s -> (length todo <= n)%nat ->
  wp (open_next n) (fun r s' => exists opened' todo', searching opened' todo' s' /\ remaining opened' todo' = remaining opened todo
    /\ (work opened' todo' <= work opened todo)%nat /\ r = bool_decide (is_Some opened')
    /\ bsdl_infos s' = bsdl_infos s /\ bsdl_last s' = bsdl_last s /\ (opened' = None -> todo' = [])) s.
Proof.
  revert n opened s. induction todo as [|dir todo IH]; intros n opened s Hs Hn.
  - destruct n; cbn [open_next]; apply wp_bind, wp_gets; rewrite (sch_open _ _ _ Hs);
      destruct opened as [[dir names]|]; cbn [fmap option_fmap option_map snd];
      try (apply wp_ret; eexists _, []; done);
      apply wp_bind, wp_gets; rewrite (sch_current _ _ _ Hs); cbn; apply wp_ret; by eexists None, [].
  - destruct n as [|n]; [cbn in Hn; lia|]. cbn [open_next]. apply wp_bind, wp_gets. rewrite (sch_open _ _ _ Hs).
    destruct opened as [[dir' names]|]; cbn [fmap option_fmap option_map snd].
    { apply wp_ret. eexists _, (dir :: todo). done. }
    destruct Hs as [Hc Hd Ho _ Ht Hp]. apply wp_bind, wp_gets. rewrite Hc. cbn [length].
    destruct (Z.ltb_spec (Z.of_nat (S (length todo)) - 1) 0); [lia|].
    destruct (dirs_last _ _ _ Hd) as [Hdir Hd']. apply Forall_cons in Ht as [Ht1 Ht].
    apply wp_bind, (wp_dir_name _ dir); [lia|by replace (Z.to_nat _) with (length todo) by lia|].
    wp_pure. wp_pure. eapply wp_mono.
    { apply (IH n (pair dir <$> opendir dir)); [|cbn in Hn; lia]. split; cbn; [lia|done|by destruct (opendir dir)| |done|done].
      unfold names_of in Ht1. by destruct (opendir dir). }
    intros r s' (opened' & todo' & Hs' & Hr & Hw & Er & Ei & El & Hnone). exists opened', todo'.
    split; [done|]. split; [|split; [|done]].
    + rewrite Hr. unfold remaining. cbn [map concat app]. unfold dir_devices at 2, names_of. by destruct (opendir dir).
    + etransitivity; [exact Hw|]. unfold work, names_of. cbn [map sum_list]. destruct (opendir dir); cbn; lia.
Qed.
(** ** Files *)

Lemma next_file_none dir names : next_file names = None -> files_of dir names = [].
Proof.
  induction names as [|n names IH]; [done|]. cbn. by destruct (is_bsdl_file n).
Qed.

Lemma next_file_some dir names n rest : next_file names = Some (n, rest) -> dir_ok dir names ->
  files_of dir names = option_list (parsed (path_of dir n)) ++ files_of dir rest
  /\ (length rest < length names)%nat /\ dir_ok dir rest
  /\ Z.of_nat (length n) + Z.of_nat (length dir) + 2 <= 128.
Proof.
  unfold dir_ok. induction names as [|x names IH]; [done|]. cbn [next_file]. intros E Hok.
  apply Forall_cons in Hok as [Hx Hok]. destruct (is_bsdl_file x) eqn:Ex.
  - injection E as -> ->. split; [|cbn; split; [lia|done]]. unfold files_of. cbn. rewrite Ex. by destruct (parsed _).
  - destruct (IH E Hok) as (E1 & E2 & E3). split; [|cbn; split; [lia|done]]. rewrite <- E1. unfold files_of. cbn. by rewrite Ex.
Qed.

Context (malloc_all : forall n, malloc_ok n = true)
  (parses : forall path, exists r, parse_extract_values (fopen path) = Ok r).

Lemma parsed_ok path : parse_extract_values (fopen path) = Ok (parsed path).
Proof. unfold parsed. by destruct (parses path) as [r ->]. Qed.

(** The scratchpad is long enough. *)
Lemma wp_extend opened todo needed s (Q : bool -> bsdl_t -> Prop) : searching opened todo s -> needed <= 128 ->
  (forall size, needed <= size -> 64 <= size -> Q true (set_scratchpad size true s)) ->
  wp (extend_scratchpad needed) Q s.
Proof.
  intros Hs Hn HQ. destruct (sch_pad _ _ _ Hs) as [Hp1 Hp2]. unfold extend_scratchpad. wp_pure. wp_pure.
  destruct (Z.leb_spec (bsdl_scratchpad_size s) needed).
  - rewrite malloc_all. wp_pure. wp_pure. wp_pure. apply HQ; lia.
  - wp_pure. assert (s = set_scratchpad (bsdl_scratchpad_size s) true s) as -> by (destruct s; cbn in *; by subst). apply HQ; cbn; lia.
Qed.

(** What a search has found: the devices it has parsed, the last of which is the only one
    that matches. *)
Definition search_result (id : Z) (new : list bsdlinfo) (s s' : bsdl_t) (r : option nat) : Prop :=
  bsdl_infos s' = bsdl_infos s ++ new /\
  match r with
  | None => Forall (fun i => matches id i = false) new /\ bsdl_last s' = bsdl_last s
  | Some k => exists pre info, new = pre ++ [info] /\ Forall (fun i => matches id i = false) pre
      /\ matches id info = true /\ k = length (bsdl_infos s ++ pre) /\ bsdl_last s' = Some k
  end.

Lemma search_result_cons id info new s1 s s' r :
  matches id info = false -> bsdl_infos s1 = bsdl_infos s ++ [info] -> bsdl_last s1 = bsdl_last s ->
  search_result id new s1 s' r -> search_result id (info :: new) s s' r.
Proof.
  intros Hm E1 E2 [E Hr]. split; [by rewrite E, E1, <- app_assoc|]. destruct r as [k|].
  - destruct Hr as (pre & i & -> & Hp & Hi & -> & El). exists (info :: pre), i. split; [done|]. split; [by constructor|].
    split; [done|]. split; [by rewrite E1, <- app_assoc|done].
  - destruct Hr as [Hp El]. split; [by constructor|]. by rewrite El.
Qed.

Lemma wp_parse_files fuel id opened todo s :
  searching opened todo s -> (work opened todo < fuel)%nat ->
  wp (parse_files fuel id) (fun r s' => exists opened' todo' new, searching opened' todo' s'
    /\ remaining opened todo = new ++ remaining opened' todo' /\ search_result id new s s' r
    /\ (r = None -> remaining opened' todo' = [])) s.
Proof.
  revert opened todo s. induction fuel as [|fuel IH]; intros opened todo s Hs Hf; [lia|]. cbn [parse_files].
  wp_pure. wp_pure. apply wp_bind. eapply wp_mono.
  { apply (wp_open_next _ _ _ _ Hs). rewrite (sch_current _ _ _ Hs). lia. }
  intros found s1 (o1 & t1 & Hs1 & Hr1 & Hw1 & -> & Ei1 & El1 & Hnone). rewrite <- Hr1.
  assert (work o1 t1 < S fuel)%nat as Hf1 by lia. clear Hf Hw1 Hr1 Hs opened todo.
  assert (forall new s' r, search_result id new s1 s' r -> search_result id new s s' r) as Hsame.
  { unfold search_result. by rewrite Ei1, El1. }
  destruct o1 as [[dir names]|].
  2: { rewrite bool_decide_false by apply is_Some_None. apply wp_ret. exists None, t1, []. rewrite (Hnone eq_refl) in *.
       split; [done|]. split; [done|]. split; [|done]. apply Hsame. split; [by rewrite app_nil_r|done]. }
  rewrite bool_decide_true by done. cbn [negb]. wp_pure. wp_pure. rewrite (sch_open _ _ _ Hs1). cbn [fmap option_fmap option_map snd].
  change (default [] (Some names)) with names.
  destruct (sch_opened _ _ _ Hs1) as [Hdir Hok]. destruct (next_file names) as [[n rest]|] eqn:En.
  - destruct (next_file_some dir _ _ _ En Hok) as (Ef & Hl & Hok' & Hn). wp_pure. wp_pure. wp_pure. wp_pure.
    cbn [set_open_dir bsdl_current_dir]. rewrite (sch_current _ _ _ Hs1).
    apply wp_bind, (wp_dir_name _ dir); [lia|cbn; by replace (Z.to_nat _) with (length t1) by lia|].
    assert (searching (Some (dir, rest)) t1 (set_open_dir (Some rest) s1)) as Hs2 by (by destruct Hs1; split).
    apply wp_bind, (wp_extend _ _ _ _ _ Hs2); [lia|]. intros size Hsz Hsz64. cbn [negb].
    set (s3 := set_scratchpad size true (set_open_dir (Some rest) s1)).
    assert (searching (Some (dir, rest)) t1 s3) as Hs3 by (by destruct Hs2; split).
    wp_pure. wp_pure. wp_pure. wp_pure. cbn [s3 set_scratchpad bsdl_scratchpad_size bsdl_scratchpad negb orb].
    assert ((size <? Z.of_nat (length (dir ++ bytes "/" ++ n)) + 1) = false) as ->.
    { apply Z.ltb_ge. rewrite !length_app. cbn [length bytes]. change (length (bytes "/")) with 1%nat. lia. }
    apply wp_bind. eapply wp_lift; [apply parsed_ok|]. fold (path_of dir n). fold s3.
    assert (work (Some (dir, rest)) t1 < fuel)%nat as Hf2 by (unfold work, work_of in *; lia).
    destruct (parsed (path_of dir n)) as [info|] eqn:Ep.
    + wp_pure. wp_pure. wp_pure. wp_pure. cbv beta. set (s4 := set_infos _ s3).
      assert (searching (Some (dir, rest)) t1 s4) as Hs4 by (by destruct Hs3; split).
      assert (remaining (Some (dir, names)) t1 = info :: remaining (Some (dir, rest)) t1) as Er by (unfold remaining; by rewrite Ef).
      destruct (matches id info) eqn:Em.
      * wp_pure. wp_pure. wp_pure. exists (Some (dir, rest)), t1, [info]. split; [by destruct Hs4; split|].
        split; [done|]. split; [|done]. apply Hsame. split; [done|]. exists [], info. by rewrite app_nil_r.
      * eapply wp_mono; [by apply (IH _ _ _ Hs4)|]. intros r s' (o' & t' & new & Hs' & Hr' & Hres & Hlast).
        exists o', t', (info :: new). split; [done|]. split; [by rewrite Er, Hr'|]. split; [|done].
        apply Hsame. by apply (search_result_cons id info new s4 s1 s' r).
    + eapply wp_mono; [by apply (IH _ _ _ Hs3)|]. intros r s' (o' & t' & new & Hs' & Hr' & Hres & Hlast).
      exists o', t', new. split; [done|]. split; [|split; [by apply Hsame|done]].
      rewrite <- Hr'. unfold remaining. by rewrite Ef.
  - pose proof (next_file_none dir _ En) as Ef. wp_pure. wp_pure.
    assert (searching None t1 (set_open_dir None s1)) as Hs2 by (by destruct Hs1; split).
    eapply wp_mono; [apply (IH _ _ _ Hs2)|].
    { unfold work, work_of in *. lia. }
    intros r s' (o' & t' & new & Hs' & Hr' & Hres & Hlast). exists o', t', new.
    split; [done|]. split; [|split; [by apply Hsame|done]]. rewrite <- Hr'. unfold remaining. by rewrite Ef.
Qed.
(** * Answers *)

(** The devices there are, parsed or not. *)
Definition knows (all : list bsdlinfo) (s : bsdl_t) : Prop :=
  exists opened todo, searching opened todo s /\ all = bsdl_infos s ++ remaining opened todo
    /\ forall k, bsdl_last s = Some k -> is_Some (bsdl_infos s !! k).

(** No code is that of two devices. *)
Definition exclusive (all : list bsdlinfo) : Prop :=
  forall id i j, i ∈ all -> j ∈ all -> matches id i = true -> matches id j = true -> i = j.

Lemma find_here all id i : exclusive all -> i ∈ all -> matches id i = true -> find (matches id) all = Some i.
Proof.
  intros He Hi Hm. destruct (find (matches id) all) as [j|] eqn:E.
  - apply find_some in E as [Hj Hmj]. apply list_elem_of_In in Hj. f_equal. by apply (He id).
  - apply list_elem_of_In in Hi. pose proof (find_none _ _ E i Hi). congruence.
Qed.

Lemma find_nowhere all id : Forall (fun i => matches id i = false) all -> find (matches id) all = None.
Proof. induction 1 as [|i all Hi Ha IH]; [done|]. cbn. by rewrite Hi. Qed.

Lemma find_parsed_spec id k infos :
  match find_parsed id k infos with
  | Some j => exists i, (k <= j)%nat /\ infos !! (j - k)%nat = Some i /\ matches id i = true
  | None => Forall (fun i => matches id i = false) infos
  end.
Proof.
  revert k. induction infos as [|i infos IH]; intros k; cbn; [done|]. destruct (matches id i) eqn:E.
  - exists i. split; [lia|]. by rewrite Nat.sub_diag.
  - specialize (IH (S k)). destruct (find_parsed id (S k) infos) as [j|]; [|by constructor].
    destruct IH as (x & Hj & Hx & Hm). exists x. split; [lia|]. split; [|done].
    by replace (j - k)%nat with (S (j - S k)) by lia.
Qed.

Lemma sum_list_rev (f : list Z -> nat) l : sum_list (map f (rev l)) = sum_list (map f l).
Proof.
  induction l as [|x l IH]; [done|]. cbn [rev map]. rewrite map_app. change (sum_list ?l) with (sum_list_with id l).
  rewrite sum_list_with_app. cbn in *. lia.
Qed.

Lemma search_fuel_enough opened todo s : searching opened todo s -> (work opened todo < search_fuel s)%nat.
Proof.
  intros [Hc Hd Ho _ _ _]. unfold search_fuel. rewrite Hc, Ho.
  replace (Z.to_nat (Z.of_nat (length todo) - 1 + 1)) with (length todo) by lia. rewrite Hd, map_map.
  change (fun x => dir_work (Some x)) with (fun dir => work_of (names_of dir)). rewrite sum_list_rev.
  unfold work. destruct opened as [[dir names]|]; cbn; unfold work_of; lia.
Qed.

Definition answered (all : list bsdlinfo) (id : Z) (r : option nat) (s : bsdl_t) : Prop :=
  knows all s /\ match r with
    | Some k => exists i, bsdl_infos s !! k = Some i /\ find (matches id) all = Some i
    | None => find (matches id) all = None
    end.

Lemma knows_here all id k i s : exclusive all -> knows all s -> bsdl_infos s !! k = Some i -> matches id i = true ->
  answered all id (Some k) s.
Proof.
  intros He Hk Hi Hm. split; [done|]. exists i. split; [done|]. apply find_here; [done| |done].
  destruct Hk as (o & t & _ & -> & _). apply elem_of_app. left. by eapply list_elem_of_lookup_2.
Qed.

Lemma wp_get_bsdl_info all id s : exclusive all -> knows all s ->
  wp (get_bsdl_info id) (fun r s' => answered all id r s') s.
Proof.
  intros He Hk. unfold get_bsdl_info. wp_pure. wp_pure. wp_pure. wp_pure. destruct Hk as (o & t & Hs & Ea & Hlast).
  assert (forall v, (forall k, v = Some k -> is_Some (bsdl_infos s !! k)) -> knows all (set_last v s)) as Hv.
  { intros v Hv. exists o, t. split; [by destruct Hs; split|]. done. }
  destruct (match bsdl_last s with Some k => _ | None => _ end) eqn:El.
  { apply wp_ret. destruct (bsdl_last s) as [k|] eqn:Ek; [|done]. destruct (bsdl_infos s !! k) as [i|] eqn:Ei; [|done].
    apply (knows_here all id k i); [done| |done|done]. exists o, t. split; [done|]. split; [done|]. intros k'. rewrite Ek. by apply Hlast. }
  pose proof (find_parsed_spec id 0 (bsdl_infos s)) as Hf. destruct (find_parsed id 0 (bsdl_infos s)) as [k|].
  { destruct Hf as (i & _ & Hi & Hm). rewrite Nat.sub_0_r in Hi. wp_pure. wp_pure. wp_pure.
    apply (knows_here all id k i); [done|apply Hv; by intros ? [= <-]|done|done]. }
  wp_pure. wp_pure. eapply wp_mono; [apply (wp_parse_files _ id _ _ _ Hs), search_fuel_enough, Hs|].
  intros r s' (o' & t' & new & Hs' & Hr & [Ei Hres] & Hnone). rewrite Hr in Ea. destruct r as [k|].
  - destruct Hres as (pre & i & -> & Hp & Hm & -> & El').
    assert (bsdl_infos s' !! length (bsdl_infos s ++ pre) = Some i) as Hi.
    { rewrite Ei, app_assoc, lookup_app_r, Nat.sub_diag by done. done. }
    apply (knows_here all id _ i); [done| |done|done]. exists o', t'. split; [done|].
    split; [by rewrite Ei, Ea, <- !app_assoc|]. intros k. rewrite El'. intros [= <-]. by rewrite Hi.
  - destruct Hres as [Hp El']. split.
    + exists o', t'. split; [done|]. split; [by rewrite Ei, Ea, <- !app_assoc|]. intros k. rewrite El', Ei.
      intros E. destruct (Hlast k E) as [i Hi]. exists i. by apply lookup_app_l_Some.
    + rewrite Ea, (Hnone eq_refl), app_nil_r. apply find_nowhere, Forall_app. by split.
Qed.

Lemma wp_get_field {A} (f : bsdlinfo -> A) none all id s : exclusive all -> knows all s ->
  wp (get_field f none id) (fun a s' => knows all s' /\ a = from_option f none (find (matches id) all)) s.
Proof.
  intros He Hk. unfold get_field. apply wp_bind. eapply wp_mono; [by apply wp_get_bsdl_info|].
  intros [k|] s' [Hk' Hr].
  - destruct Hr as (i & Hi & ->). wp_pure. wp_pure. eapply wp_lift; [by rewrite Hi|]. done.
  - wp_pure. by rewrite Hr.
Qed.
(** * Directories *)

(** The directories [bsdl_init] enters, in the order in which they are tried, and those
    with the ones that are added later, which are tried first. *)
Definition default_dirs : list (list Z) := [bytes "."; bytes "~/.bsdl"; bytes "/usr/share/bsdl"; bytes "/opt/bsdl"].
Definition search_order (added : list (list Z)) : list (list Z) := rev added ++ default_dirs.

Definition bsdl_setup (added : list (list Z)) : M bsdl_t unit := bsdl_init;; _ ← mapM bsdl_add_directory added; mret tt.

(** Before the first search. *)
Definition fresh (todo : list (list Z)) (s : bsdl_t) : Prop :=
  searching None todo s /\ length (bsdl_dirs s) = Z.to_nat MAX_BSDL_DIRS /\ bsdl_infos s = [] /\ bsdl_last s = None.

Lemma wp_bsdl_init : Forall (fun dir => dir_ok dir (names_of dir)) default_dirs ->
  wp bsdl_init (fun _ s => fresh default_dirs s) bsdl_start.
Proof.
  intros Hok. eexists tt, _. split.
  { unfold bsdl_init, set_dir, strdup, mbind, M_bind, modify. rewrite !malloc_all. reflexivity. }
  split; [|done]. by split.
Qed.

Lemma wp_bsdl_add_directory dir todo s : fresh todo s -> (length todo < Z.to_nat MAX_BSDL_DIRS)%nat ->
  dir_ok dir (names_of dir) -> wp (bsdl_add_directory dir) (fun _ s' => fresh (dir :: todo) s') s.
Proof.
  intros ([Hc Hd Ho _ Ht Hp] & Hl & Hi & Hlast) Hn Hok. unfold bsdl_add_directory, set_dir, strdup. rewrite malloc_all.
  wp_pure. wp_pure. rewrite Hc. destruct (Z.leb_spec (MAX_BSDL_DIRS - 1) (Z.of_nat (length todo) - 1)); [lia|].
  wp_pure. wp_pure. wp_pure. split; [|split; [cbn; by rewrite length_insert|done]].
  split; cbn; [lia| |done|done|by constructor|done].
  replace (Z.to_nat _) with (length todo) by lia. rewrite map_app. cbn [map]. rewrite <- Hd.
  assert (length todo < length (bsdl_dirs s))%nat as Hlt by lia. clear -Hlt.
  revert Hlt. generalize (length todo) as n. induction (bsdl_dirs s) as [|x l IH]; intros [|n] Hlt; cbn in *; [lia..|done|].
  f_equal. apply IH. lia.
Qed.

Lemma wp_bsdl_setup added : (length added + 4 <= Z.to_nat MAX_BSDL_DIRS)%nat ->
  Forall (fun dir => dir_ok dir (names_of dir)) (search_order added) ->
  wp (bsdl_setup added) (fun _ s => fresh (search_order added) s) bsdl_start.
Proof.
  intros Hn Hok. unfold search_order in *. apply Forall_app in Hok as [Ha Hd]. apply Forall_rev in Ha. rewrite rev_involutive in Ha.
  unfold bsdl_setup. apply wp_bind. eapply wp_mono; [by apply wp_bsdl_init|]. intros [] s Hs. apply wp_bind.
  assert (length added + length default_dirs <= Z.to_nat MAX_BSDL_DIRS)%nat as Hn' by done. clear Hn Hd.
  revert s Hs Hn'. generalize default_dirs as todo. induction Ha as [|dir added Hdir Ha IH]; intros todo s Hs Hn.
  { cbn [mapM]. wp_pure. by wp_pure. }
  cbn [mapM]. cbn [length] in Hn. apply wp_bind. eapply wp_mono; [by apply (wp_bsdl_add_directory dir todo); [|lia|]|].
  intros [] s' Hs'. apply wp_bind. cbn [rev]. rewrite <- app_assoc. cbn [app].
  eapply wp_mono; [apply (IH (dir :: todo)); [done|cbn; lia]|]. intros v s'' Hv. wp_pure. exact Hv.
Qed.

Definition devices_in (dirs : list (list Z)) : list bsdlinfo := concat (map dir_devices dirs).

Lemma fresh_knows todo s : fresh todo s -> knows (devices_in todo) s.
Proof. intros (Hs & _ & Hi & Hl). exists None, todo. split; [done|]. split; [by rewrite Hi|]. by rewrite Hl. Qed.

(** ** Queries *)

Variant query := AskName | AskIRSize | AskDebug | AskUser1 | AskIdcode.
Variant reply := Text (s : option (list Z)) | Number (n : Z).

Definition ask (q : query) (id : Z) : M bsdl_t reply :=
  match q with
  | AskName => a ← bsdl_get_name id; mret (Text a)
  | AskIRSize => a ← bsdl_get_IR_size id; mret (Number a)
  | AskDebug => a ← bsdl_get_debug_cmd id; mret (Number a)
  | AskUser1 => a ← bsdl_get_user1_cmd id; mret (Number a)
  | AskIdcode => a ← bsdl_get_idcode_cmd id; mret (Number a)
  end.

Definition reply_of (q : query) (device : option bsdlinfo) : reply :=
  match q with
  | AskName => Text (from_option name None device)
  | AskIRSize => Number (from_option IR_size (-1) device)
  | AskDebug => Number (from_option cmd_debug TAP_CMD_INVALID device)
  | AskUser1 => Number (from_option cmd_user1 TAP_CMD_INVALID device)
  | AskIdcode => Number (from_option cmd_idcode TAP_CMD_INVALID device)
  end.

Lemma wp_ask all q id s : exclusive all -> knows all s ->
  wp (ask q id) (fun r s' => knows all s' /\ r = reply_of q (find (matches id) all)) s.
Proof.
  intros He Hk. destruct q; cbn [ask reply_of]; apply wp_bind; (eapply wp_mono; [by apply wp_get_field|]);
    intros a s' [Hk' ->]; by apply wp_ret.
Qed.

Lemma wp_asks all qs s : exclusive all -> knows all s ->
  wp (mapM (fun '(q, id) => ask q id) qs) (fun r _ => r = map (fun '(q, id) => reply_of q (find (matches id) all)) qs) s.
Proof.
  intros He. revert s. induction qs as [|[q id] qs IH]; intros s Hk; cbn [mapM map]; [by wp_pure|].
  apply wp_bind. eapply wp_mono; [by apply (wp_ask all)|]. intros r s' [Hk' ->]. apply wp_bind.
  eapply wp_mono; [by apply IH|]. intros rs s'' ->. by wp_pure.
Qed.
End search.
