(* ===== verification/BsdlProps.v ===== *)
(** The properties of the parser of BSDL files, and of the search for devices. *)

From Stdlib Require Import Ascii String.
From S2P Require Import Prelude Scanf StateM Cable Chain CString BsdlParse BsdlLines BsdlRefine BsdlStatements BsdlDevice Bsdl BsdlSearch.
From stdpp Require Import list.

Open Scope Z_scope.

(** What is returned for what has been read. *)
Definition returned `{Target, Alloc} (size : Z) (r : outcome bsdlinfo) : outcome (option bsdlinfo) :=
  if negb (malloc_ok size) then Ok None else
  i ← r; Ok (if malloc_ok (6 * 4 + 2 * long_size) then Some i else None).

Lemma parse_reference `{Target, Alloc} lines : Forall line_ok lines ->
  parse_extract_values (Some (print_lines lines))
  = returned (Z.of_nat (length (print_lines lines))) (ref_parse lines).
Proof.
  intros Hl. unfold parse_extract_values, returned, ref_parse. destruct (negb _); [done|].
  pose proof (sim_file lines Hl) as Hs. unfold sim in Hs.
  destruct (ref_statements _ _ lines nothing_found) as [b| | |]; cbn [mbind outcome_bind]; [|by rewrite Hs..].
  destruct Hs as (a & m & E & ->). by rewrite E.
Qed.

Lemma find_suffix_none_of x s : none_of [x] s -> find_suffix (starts_one_of [x]) s = None.
Proof.
  induction 1 as [|c s Hc Hs IH]; [done|]. cbn [find_suffix starts_one_of]. apply negb_true_iff in Hc as ->. by rewrite IH.
Qed.

Lemma ref_find_none f cur more : find_suffix f cur = None -> Forall (fun l => find_suffix f (body l) = None) more ->
  ref_find f cur more = Undef.
Proof.
  intros Hc Hm. revert cur Hc. induction Hm as [|l more Hl Hm IH]; intros cur Hc; cbn [ref_find]; rewrite Hc; [done|].
  by apply IH.
Qed.

(** A use clause: what follows its name on the line is skipped to the next semicolon. *)
Lemma read_use `{Target, Alloc} size l more w f : word w -> body l = bytes "use " ++ w ++ bytes ";" ->
  ref_statement size (l :: more) f = more ← ref_skip [] more; Ok (true, more, f).
Proof.
  intros [Hne Hw] Hl. unfold ref_statement. cbn [next_line mbind outcome_bind]. rewrite Hl.
  change (bytes "use " ++ ?x) with (bytes "use" ++ 32 :: x).
  rewrite tok_word; [|done|by repeat constructor|done].
  change (equals ?s (map toupper (bytes "use"))) with (equals s (bytes "USE")).
  change (equals "ENTITY" (bytes "USE")) with false. change (equals "CONSTANT" (bytes "USE")) with false.
  change (equals "GENERIC" (bytes "USE")) with false. change (equals "USE" (bytes "USE")) with true.
  cbv beta iota zeta. cbn [tail orb]. unfold ref_ignored. by rewrite tok_word by (done || by apply word_none_of).
Qed.

Lemma ref_skip_line l more s : body l = s ++ [59] -> none_of [59] s -> ref_skip [] (l :: more) = Ok more.
Proof. intros E Hs. unfold ref_skip. cbn [ref_find find_suffix starts_one_of]. by rewrite E, ref_find_char. Qed.

Lemma attribute_none_of attr d t : none_of [59] (bytes attr) -> word (dev_name d) -> none_of [59] t ->
  none_of [59] (attribute_text attr d ++ t).
Proof.
  intros Ha [_ Hn] Ht. unfold attribute_text. rewrite <- !app_assoc.
  apply none_of_app; split; [by repeat constructor|]. apply none_of_app; split; [done|].
  apply none_of_app; split; [by repeat constructor|]. apply none_of_app; split; [by apply word_none_of|].
  apply none_of_app; split; [by repeat constructor|done].
Qed.

Section properties.
Context `{Target, Alloc}.

(** C35: On a file that is a sequence of lines as the parser cuts it up, the parser, which
    does so in place and finds its way by indices and pointers, does what the reference does
    on the texts of the lines: the results are the same (a null pointer when there is no
    memory), and the one goes past the end of the file or of a buffer, or follows a null
    pointer, exactly when the other is undefined.  A line is any white space and any number
    of comments that fill a line; then text that begins with no white space and holds no
    control character; then perhaps a comment, from the first two hyphens on, which holds
    none either; then one control character of any kind.  A tab within a statement, or
    within a comment after one, therefore ends the line, for the parser as for the
    reference, and what follows it is the next line ([sample_tab]).  The file ends with the
    end of a line. *)
Theorem bsdl_parse_refines lines : Forall line_ok lines ->
  parse_extract_values (Some (print_lines lines))
  = if negb (malloc_ok (Z.of_nat (length (print_lines lines)))) then Ok None else
    i ← ref_parse lines; Ok (if malloc_ok (6 * 4 + 2 * long_size) then Some i else None).
Proof. apply parse_reference. Qed.

(** The loops of the model need no more than the characters of the file: where the
    statements do not end before the file does, the outcome is not [Hang] but [Undef], as
    get_line reads the character behind the file.  On a machine where that read does no harm
    the loops of the C code stay at the end of the file for ever. *)
Theorem bsdl_parse_ends lines : Forall line_ok lines ->
  parse_extract_values (Some (print_lines lines)) <> Hang.
Proof.
  intros Hl. rewrite parse_reference by done. unfold returned. destruct (negb _); [done|].
  pose proof (ends_parse lines) as He. by destruct (ref_parse lines).
Qed.

(** C36: From the file of a device the parser reads the device: its name, the length of its
    instruction register, the opcodes of the instructions the bridge uses, its
    identification code and which bits of that matter.  The texts of the lines are those of
    [device_text], with one space between words: the line of the entity, the three
    attributes, the opcodes one to a line, and no other statement between them (a use clause
    would lose the next line, [bsdl_use_loses_next]).  Whatever comes after them, white
    space and comments between the lines, and comments behind the texts, are free, as in
    [line_ok].  The names are words of letters, digits, dots and underscores, the instruction
    register has one to 99 bits, there is an opcode at least and none has more than 32 bits,
    and the code is given with 32 characters.  A long has at least four bytes and there is
    memory. *)
Theorem bsdl_device_read d lines rest :
  4 <= long_size -> (forall n, malloc_ok n = true) ->
  device_ok d -> Forall line_ok lines -> map body lines = device_text d ++ rest ->
  parse_extract_values (Some (print_lines lines)) = Ok (Some (device_info d)).
Proof.
  intros Hlong Hm Hd Hl Hb. rewrite parse_reference by done. unfold returned. rewrite !Hm. cbn [negb].
  by rewrite (read_device Hlong Hm d lines rest Hd Hb).
Qed.

(** C37: However few files have been parsed when a device is asked for, and whatever was
    asked before, every question is answered from all BSDL files of all directories, the
    ones added last first: what is kept of the files parsed so far, and the pointer to the
    last device used, cannot be seen.  This is for at most 60 added directories, beside the
    four the program knows; names for which the path and its zero have no more than 128
    characters (the buffer is doubled once only, whatever its comment says: [long_path]);
    files of which none sends the parser past the end of a buffer or of the file; codes of
    which none is that of two devices; and memory for everything. *)
Theorem bsdl_search_transparent `{Files} added questions :
  (forall n, malloc_ok n = true) -> (forall path, exists r, parse_extract_values (fopen path) = Ok r) ->
  (length added + 4 <= Z.to_nat MAX_BSDL_DIRS)%nat ->
  Forall (fun dir => dir_ok dir (names_of dir)) (search_order added) ->
  exclusive (devices_in (search_order added)) ->
  wp (bsdl_setup added;; mapM (fun '(q, id) => ask q id) questions)
    (fun answers _ => answers
      = map (fun '(q, id) => reply_of q (find (matches id) (devices_in (search_order added)))) questions) bsdl_start.
Proof.
  intros Hm Hp Hn Hok He. apply wp_bind. eapply wp_mono; [by apply wp_bsdl_setup|]. intros [] s Hs.
  by apply wp_asks, fresh_knows.
Qed.

(** The file has no semicolon after the name of a constant: the parser reads past its
    end, where C promises nothing. *)
Theorem bsdl_unended name lines more :
  (forall n, malloc_ok n = true) -> Forall line_ok lines -> word name ->
  map body lines = (bytes "constant " ++ name) :: more -> Forall (none_of [59]) more ->
  parse_extract_values (Some (print_lines lines)) = Undef.
Proof.
  intros Hm Hl [Hne Hn] Hb Hmore. rewrite parse_reference by done. unfold returned. rewrite Hm. cbn [negb].
  apply bodies_cons in Hb as (l & ls & -> & E & Hb). unfold ref_parse. cbn [ref_statements].
  rewrite bool_decide_false by done. cbn [negb andb complete nothing_found found_IR_size found_cmds found_idcode].
  unfold ref_statement. cbn [next_line mbind outcome_bind]. rewrite E.
  change (bytes "constant " ++ ?x) with (bytes "constant" ++ 32 :: x).
  rewrite tok_word; [|done|by repeat constructor|done].
  change (equals ?s (map toupper (bytes "constant"))) with (equals s (bytes "CONSTANT")).
  change (equals "ENTITY" (bytes "CONSTANT")) with false. change (equals "CONSTANT" (bytes "CONSTANT")) with true.
  cbv beta iota zeta. cbn [tail orb]. unfold ref_ignored. rewrite <- (app_nil_r name).
  rewrite tok_word by (done || by apply word_none_of). cbv beta iota. unfold ref_skip.
  rewrite ref_find_none; [done|done|]. subst more. rewrite List.Forall_map in Hmore.
  eapply Forall_impl; [exact Hmore|]. intros l' Hl'. by apply find_suffix_none_of.
Qed.

(** A use clause takes the next statement with it: strtok puts a zero in the place of its
    semicolon, and the search for the semicolon goes on to the next one.  Here the length
    of the instruction register is lost. *)
Theorem bsdl_use_loses_next w d name lines rest :
  4 <= long_size -> (forall n, malloc_ok n = true) -> Forall line_ok lines -> word w -> word (dev_name d) -> 0 < dev_ir d < 100 ->
  map body lines = [bytes "use " ++ w ++ bytes ";";
    attribute_text "INSTRUCTION_LENGTH" d ++ bytes " " ++ decimal (dev_ir d) ++ bytes ";";
    bytes "end " ++ name] ++ rest ->
  parse_extract_values (Some (print_lines lines)) = Ok (Some (info nothing_found)).
Proof.
  intros Hlong Hm Hl Hw Hn Hir Hb. rewrite parse_reference by done. unfold returned. rewrite !Hm. cbn [negb].
  cbn [app] in Hb. apply bodies_cons in Hb as (l1 & ls & -> & E1 & Hb). apply bodies_cons in Hb as (l2 & ls2 & -> & E2 & Hb).
  apply bodies_cons in Hb as (l3 & ls3 & -> & E3 & _). unfold ref_parse.
  set (size := length _). assert (2 <= size)%nat as Hs.
  { pose proof (print_lines_length (l1 :: l2 :: l3 :: ls3)) as Hp. fold size in Hp. cbn [length] in Hp. lia. }
  do 2 (destruct size as [|size]; [lia|]). erewrite ref_statements_step; [|done|].
  2: { rewrite read_use with (w := w); [|done..]. rewrite ref_skip_line with (s := attribute_text "INSTRUCTION_LENGTH" d ++ bytes " " ++ decimal (dev_ir d)); [done| |].
    - by rewrite E2, <- !app_assoc.
    - apply attribute_none_of; [by repeat constructor|done|]. apply none_of_app. split; [by repeat constructor|].
      apply word_none_of; [|done]. eapply Forall_impl; [by apply decimal_digits|]. intros c Hc. unfold word_char. by rewrite Hc. }
  cbn [ref_statements]. rewrite bool_decide_false by done. cbn [negb andb complete nothing_found found_IR_size found_cmds found_idcode].
  unfold ref_statement. cbn [next_line mbind outcome_bind]. rewrite E3.
  change (bytes "end " ++ ?x) with (bytes "end" ++ 32 :: x).
  by rewrite tok_word; [|done|by repeat constructor|done].
Qed.
End properties.

(** * A device *)

(** A file with comments, and lines that end as on a PC. *)
Definition sample_device : device :=
  Device (bytes "chip") 6 [(bytes "EXTEST", [false; true]); (bytes "IDCODE", [true; true; false]); (bytes "user1", [true])]
    ([AnyBit; AnyBit; Bit true] ++ repeat (Bit false) 28 ++ [Bit true]).

Definition sample_lines : list line :=
  map (fun b => Line (bytes "-- a comment" ++ [10; 9]) b (bytes "-- another") 13) (device_text sample_device).

Lemma comment_junk : junk (bytes "-- a comment" ++ [10; 9]).
Proof.
  apply (junk_comment [] (bytes " a comment") 10 [9]); [done|by repeat constructor|by left|].
  apply junk_blank. by repeat constructor.
Qed.

Lemma sample_lines_ok : Forall line_ok sample_lines.
Proof.
  apply List.Forall_map. repeat (apply Forall_cons; split); [..|done];
    (split; [exact comment_junk|vm_compute; repeat first [constructor|discriminate]..]).
Qed.

Lemma sample_device_ok : device_ok sample_device.
Proof. split; cbn [sample_device dev_name dev_ir dev_opcodes dev_idcode]; [by split; [|repeat constructor]|lia|by repeat constructor|done|done]. Qed.

#[local] Instance memory_enough : Alloc := fun _ => true.
#[local] Instance pc : Target := iso_c.

Lemma bsdl_device_read_witness :
  parse_extract_values (Some (print_lines sample_lines))
  = Ok (Some (BsdlInfo (Some (bytes "chip")) 0x20000001 0x3FFFFFFF 6 TAP_CMD_INVALID 1 6)).
Proof.
  rewrite (bsdl_device_read sample_device sample_lines []);
    [reflexivity|done|done|exact sample_device_ok|exact sample_lines_ok|reflexivity].
Defined.

Lemma bsdl_parse_refines_witness :
  Forall line_ok sample_lines /\ parse_extract_values (Some (print_lines sample_lines))
    = i ← ref_parse sample_lines; Ok (Some i).
Proof. split; [exact sample_lines_ok|]. rewrite (bsdl_parse_refines sample_lines); [reflexivity|exact sample_lines_ok]. Defined.

Lemma bsdl_parse_ends_witness :
  Forall line_ok (take 3 sample_lines) /\ parse_extract_values (Some (print_lines (take 3 sample_lines))) <> Hang.
Proof.
  assert (Forall line_ok (take 3 sample_lines)) as Hl by apply Forall_take, sample_lines_ok.
  split; [exact Hl|]. exact (bsdl_parse_ends (take 3 sample_lines) Hl).
Defined.

(** A tab ends a line, also in a comment: what comes after it is the next statement, here one
    that ends the search; after a tab in place of the first space of an attribute the rest of
    the line is missing, and the null pointer of the token is followed. *)
Example sample_tab :
  parse_extract_values (Some (bytes "entity c is -- a" ++ 9 :: bytes "end" ++ 10 ::
    bytes "attribute INSTRUCTION_LENGTH of c : entity is 5;" ++ [10]))
  = Ok (Some (info (set_name (Some (bytes "c")) nothing_found)))
  /\ parse_extract_values (Some (bytes "attribute" ++ 9 ::
       bytes "INSTRUCTION_LENGTH of c : entity is 5;" ++ [10])) = Undef.
Proof. split; vm_compute; reflexivity. Qed.

(** The first line after a use clause is lost. *)
Example sample_use :
  parse_extract_values (Some (bytes "use a.all;
attribute INSTRUCTION_LENGTH of c : entity is 5;
end c;
"))
  = Ok (Some (info nothing_found)).
Proof. vm_compute. reflexivity. Qed.

(** ** A directory *)

Definition sample_files : Files := {|
  opendir dir := if equals "/data" dir then Some [bytes "README"; bytes "notes.txt"; bytes "chip.bsd"] else None;
  fopen path := if equals "/data/chip.bsd" path then Some (print_lines sample_lines) else None
|}.
#[local] Existing Instance sample_files.

Lemma sample_parses path : exists r, parse_extract_values (fopen path) = Ok r.
Proof.
  cbn [fopen sample_files]. destruct (equals _ path); [|by exists None].
  exists (Some (BsdlInfo (Some (bytes "chip")) 0x20000001 0x3FFFFFFF 6 TAP_CMD_INVALID 1 6)). vm_compute. reflexivity.
Qed.

Definition chip : bsdlinfo := BsdlInfo (Some (bytes "chip")) 0x20000001 0x3FFFFFFF 6 TAP_CMD_INVALID 1 6.

Lemma sample_devices : devices_in (search_order [bytes "/data"]) = [chip].
Proof. vm_compute. reflexivity. Qed.

(** The code is found in the file, the second time among the devices that are known; of
    the two bits above it nothing is asked. *)
Lemma bsdl_search_transparent_witness :
  exists s, (bsdl_setup [bytes "/data"];; mapM (fun '(q, id) => ask q id) [(AskIRSize, 0x12345678); (AskIRSize, 0x60000001); (AskIdcode, 0x20000001)])
    bsdl_start = Ok ([Number (-1); Number 6; Number 6], s).
Proof.
  destruct (bsdl_search_transparent [bytes "/data"] [(AskIRSize, 0x12345678); (AskIRSize, 0x60000001); (AskIdcode, 0x20000001)])
    as (r & s & E & Er).
  - done.
  - exact sample_parses.
  - vm_compute. lia.
  - repeat constructor; vm_compute; discriminate.
  - rewrite sample_devices. intros id i j Hi Hj _ _. apply list_elem_of_singleton in Hi as ->. by apply list_elem_of_singleton in Hj as ->.
  - exists s. rewrite E, Er, sample_devices. reflexivity.
Defined.

(** The scratchpad is doubled once: a path of more than twice its size is written past its
    end. *)
Definition long_name : Files := {|
  opendir dir := if equals "/data" dir then Some [replicate 150 97 ++ bytes ".bsd"] else None;
  fopen _ := None
|}.

#[local] Existing Instance long_name.

Example long_path : (bsdl_setup [bytes "/data"];; bsdl_get_IR_size 1) bsdl_start = Undef.
Proof. vm_compute. reflexivity. Qed.
