(* ===== verification/AdvJtagBridge.v ===== *)
(** adv_jtag_bridge.c: how the bridge sets itself up for the devices of the chain.

    [configure_chain] resets and enumerates the chain, looks the devices up in the BSDL
    files, and sets the configuration of chain_commands.c so that the instruction of the
    target gets to the target and the other devices are bypassed.  The state is that of
    the bridge, of bsdl.c, and the variables of the file.  The results of getopt are a
    parameter, a list of options with their arguments; the options of the cables and what
    is printed are left out, and of [main] what comes after the chain is configured, but
    for the numbers of the ports. *)

From Stdlib Require Import Ascii String.
From S2P Require Import Prelude Scanf StateM Tap Cable Chain CString BsdlParse Bsdl.
From stdpp Require Import list.

Open Scope Z_scope.
Open Scope cword_scope.

Definition IR_START_SETS : Z := 16.
Definition ALTERA_MANUFACTURER_ID : Z := 0x6E.
Definition XILINX_MANUFACTURER_ID : Z := 0x49.
Definition IDCODE_INVALID : Z := 0xFFFFFFFF.

(** * The state *)

(** What the command line sets.  [cmd_line_ir_sizes] is the array of pairs of an index and
    a length, as long as its allocation. *)
Record options := Options {
  target_dev_pos : Z;
  do_selftest : bool;
  reallocs : Z;
  num_ir_sets : Z;
  cmd_line_ir_sizes : list (option (Z * Z));
  cmd_line_cmd_debug : Z;
  port : option (list Z);
  jspport : option (list Z);
  hwpport : option (list Z);
  force_alt_vjtag : Z
}.

Definition initial_options : options :=
  Options 0 false 0 0 (replicate (Z.to_nat IR_START_SETS) None) (-1) None None None 0.

Definition set_target_dev_pos (v : Z) (o : options) : options :=
  Options v (do_selftest o) (reallocs o) (num_ir_sets o) (cmd_line_ir_sizes o) (cmd_line_cmd_debug o)
    (port o) (jspport o) (hwpport o) (force_alt_vjtag o).
Definition set_do_selftest (v : bool) (o : options) : options :=
  Options (target_dev_pos o) v (reallocs o) (num_ir_sets o) (cmd_line_ir_sizes o) (cmd_line_cmd_debug o)
    (port o) (jspport o) (hwpport o) (force_alt_vjtag o).
Definition set_ir_sets (reallocs num : Z) (v : list (option (Z * Z))) (o : options) : options :=
  Options (target_dev_pos o) (do_selftest o) reallocs num v (cmd_line_cmd_debug o)
    (port o) (jspport o) (hwpport o) (force_alt_vjtag o).
Definition set_cmd_line_cmd_debug (v : Z) (o : options) : options :=
  Options (target_dev_pos o) (do_selftest o) (reallocs o) (num_ir_sets o) (cmd_line_ir_sizes o) v
    (port o) (jspport o) (hwpport o) (force_alt_vjtag o).
Definition set_ports (p j h : option (list Z)) (o : options) : options :=
  Options (target_dev_pos o) (do_selftest o) (reallocs o) (num_ir_sets o) (cmd_line_ir_sizes o)
    (cmd_line_cmd_debug o) p j h (force_alt_vjtag o).
Definition set_force_alt_vjtag (v : Z) (o : options) : options :=
  Options (target_dev_pos o) (do_selftest o) (reallocs o) (num_ir_sets o) (cmd_line_ir_sizes o)
    (cmd_line_cmd_debug o) (port o) (jspport o) (hwpport o) v.

Record program (St : Type) := Program {
  jtag : bridge St;
  bsdl : bsdl_t;
  opt : options;
  idcodes : buffer;
  num_devices : Z
}.
Arguments Program {St} _ _ _ _ _.
Arguments jtag {St} _.
Arguments bsdl {St} _.
Arguments opt {St} _.
Arguments idcodes {St} _.
Arguments num_devices {St} _.

(** [strtoul (s, NULL, base)] for base 10 and 16, and [strtol (s, &e, 10)] with what is
    left of the text; a number that is too large gives the largest one. *)
Definition strtoul_of `{Target} (scanned : option (bool * Z * list Z)) : Z :=
  let w := 8 * long_size in
  match scanned with
  | None => 0
  | Some (neg, v, _) => if v <? 2 ^ w then wrap w (if neg then - v else v) else 2 ^ w - 1
  end.
Definition strtoul_10 `{Target} (s : list Z) : Z := strtoul_of (scan_dec (length s) s).
Definition strtoul_16 `{Target} (s : list Z) : Z := strtoul_of (scan_hex (length s) s).
Definition strtol_10 `{Target} (s : list Z) : Z * list Z :=
  let m := 2 ^ (8 * long_size - 1) in
  match scan_dec (length s) s with
  | None => (0, s)
  | Some (neg, v, rest) => (Z.max (- m) (Z.min (m - 1) (if neg then - v else v)), rest)
  end.
Definition atoi (s : list Z) : outcome Z :=
  match scan_dec (length s) s with None => Ok 0 | Some (neg, v, _) => to_int neg v end.

Section adv_jtag_bridge.
Context `{Target, Alloc, Files} {St : Type} (jtag_cable : jtag_cable_t St).

Definition on_jtag {A} (f : M (bridge St) A) : M (program St) A := fun p =>
  match f (jtag p) with
  | Ok (a, b) => Ok (a, Program b (bsdl p) (opt p) (idcodes p) (num_devices p))
  | Hang => Hang | AssertFail => AssertFail | Undef => Undef
  end.
Definition on_bsdl {A} (f : M bsdl_t A) : M (program St) A := fun p =>
  match f (bsdl p) with
  | Ok (a, b) => Ok (a, Program (jtag p) b (opt p) (idcodes p) (num_devices p))
  | Hang => Hang | AssertFail => AssertFail | Undef => Undef
  end.
Definition configure (f : config -> config) : M (program St) unit :=
  on_jtag (set (fun g => set_cfg (f (cfg g)) g)).
Definition set_opt (f : options -> options) : M (program St) unit :=
  modify (fun p => Program (jtag p) (bsdl p) (f (opt p)) (idcodes p) (num_devices p)).
Definition get_opt {A} (f : options -> A) : M (program St) A := gets (fun p => f (opt p)).

(** [exit (1)] *)
Definition exit {A} : M (program St) A := lift AssertFail.

Definition idcode_at (i : Z) : M (program St) Z :=
  codes ← gets idcodes;
  lift (load_slot codes i).

(** * Looking devices up *)

Definition get_IR_size (devidx : Z) : M (program St) Z :=
  id ← idcode_at devidx;
  retval ← (if negb (id =? IDCODE_INVALID) then on_bsdl (bsdl_get_IR_size id) else mret (-1));
  n ← get_opt num_ir_sets;
  retval ← mfor_upto n (fun i retval =>
    sets ← get_opt cmd_line_ir_sizes;
    '(dev_index, ir_length) ← lift (read_var (mjoin (sets !! Z.to_nat i)));
    mret (if dev_index =? devidx then ir_length else retval)) retval;
  if retval <? 0 then exit else mret retval.

Definition manufacturer (id : Z) : Z := id >> 1 .& 0x7FF.

Definition get_debug_cmd (devidx : Z) : M (program St) Z :=
  id ← idcode_at devidx;
  retval ← (if negb (id =? IDCODE_INVALID) then
              if manufacturer id =? XILINX_MANUFACTURER_ID then on_bsdl (bsdl_get_user1_cmd id)
              else on_bsdl (bsdl_get_debug_cmd id)
            else mret TAP_CMD_INVALID);
  cmd ← get_opt cmd_line_cmd_debug;
  mret (if 0 <=? cmd then cmd else retval).

(** * The chain *)

(** The list of devices: what is looked up for it. *)
Definition list_device (i : Z) (_ : unit) : M (program St) unit :=
  id ← idcode_at i;
  if negb (id =? IDCODE_INVALID) then
    _ ← on_bsdl (bsdl_get_name id);
    _ ← on_bsdl (bsdl_get_IR_size id);
    mret tt
  else mret tt.

(** The bits on both sides of the target: [total] starts again at the target. *)
Definition ir_side_bits (pos i total : Z) : M (program St) Z :=
  if i =? pos then configure (config_set_IR_postfix_bits total);; mret 0
  else n ← get_IR_size i; lift (signed_c 32 (total + n)).

Definition enumerate : M (program St) unit :=
  e1 ← on_jtag (tap_reset jtag_cable);
  '(e2, found) ← on_jtag (jtag_enumerate_chain jtag_cable);
  match found with
  | Some (codes, n) => modify (fun p => Program (jtag p) (bsdl p) (opt p) codes n)
  | None => mret tt
  end;;
  if truth (e1 .| e2) then exit else mret tt.

(** Debug command, Xilinx and Altera modes. *)
Definition configure_debug (pos manuf_id : Z) : M (program St) unit :=
  force ← get_opt force_alt_vjtag;
  (if (force =? -1) || ((force =? 0) && negb (manuf_id =? ALTERA_MANUFACTURER_ID)) then
     cmd ← get_debug_cmd pos;
     if cmd =? TAP_CMD_INVALID then exit else configure (config_set_debug_cmd cmd)
   else mret tt);;
  (if manuf_id =? XILINX_MANUFACTURER_ID then configure (config_set_xilinx_bscan 1) else mret tt);;
  configure (config_set_alt_vjtag
    (if force =? 1 then 1 else if force =? -1 then 0 else if manuf_id =? ALTERA_MANUFACTURER_ID then 1 else 0)).

Definition sanity_test (pos : Z) : M (program St) unit :=
  id ← idcode_at pos;
  cmd ← on_bsdl (bsdl_get_idcode_cmd id);
  if negb (cmd =? TAP_CMD_INVALID) then
    '(err, id_read) ← on_jtag (jtag_get_idcode jtag_cable cmd [None]);
    if truth err then exit else _ ← lift (load_slot id_read 0); mret tt
  else mret tt.

Definition configure_chain : M (program St) unit :=
  enumerate;;
  n ← gets num_devices;
  mfor_upto n list_device tt;;
  pos ← get_opt target_dev_pos;
  if u32 n <=? pos then exit else
  id ← idcode_at pos;
  let manuf_id := manufacturer id in
  size ← get_IR_size pos;
  configure (config_set_IR_size size);;
  total ← mfor_upto n (ir_side_bits pos) 0;
  configure (config_set_IR_prefix_bits total);;
  configure (config_set_DR_prefix_bits (i32 (u32 (n - pos - 1))));;
  configure (config_set_DR_postfix_bits (i32 pos));;
  configure_debug pos manuf_id;;
  sanity_test pos;;
  err ← on_jtag (tap_enable_debug_module jtag_cable);
  if truth err then exit else mret tt.

(** * The command line *)

(** [<index>:<value>] *)
Definition get_ir_opts (optstr : list Z) : M (program St) (Z * Z) :=
  match find_suffix (starts_with ":") optstr with
  | None => exit
  | Some k => mret (i32 (strtoul_10 (take k optstr)), i32 (strtoul_10 (drop (S k) optstr)))
  end.

(** An array of [IR_START_SETS << reallocs] pairs, made twice as large where that is not
    enough. *)
Definition add_ir_set (idx val : Z) : M (program St) unit :=
  o ← get_opt (fun o => o);
  size ← lift (shl_c IR_START_SETS (reallocs o));
  o ← (if size <=? num_ir_sets o then
         size ← lift (shl_c IR_START_SETS (reallocs o + 1));
         if malloc_ok (size * 8) then
           mret (set_ir_sets (reallocs o + 1) (num_ir_sets o)
             (cmd_line_ir_sizes o ++ replicate (Z.to_nat size - length (cmd_line_ir_sizes o)) None) o)
         else exit
       else mret o);
  if (0 <=? num_ir_sets o) && (num_ir_sets o <? Z.of_nat (length (cmd_line_ir_sizes o))) then
    set_opt (fun _ => set_ir_sets (reallocs o) (num_ir_sets o + 1)
      (<[Z.to_nat (num_ir_sets o) := Some (idx, val)]> (cmd_line_ir_sizes o)) o)
  else lift Undef.

(** An option and its argument. *)
Definition parse_option (c : Z) (optarg : list Z) : M (program St) unit :=
  let option s := bool_decide (bytes s = [c]) in
  if option "g"%string then set_opt (fun o => set_ports (Some optarg) (jspport o) (hwpport o) o) else
  if option "j"%string then set_opt (fun o => set_ports (port o) (Some optarg) (hwpport o) o) else
  if option "w"%string then set_opt (fun o => set_ports (port o) (jspport o) (Some optarg) o) else
  if option "x"%string then n ← lift (atoi optarg); set_opt (set_target_dev_pos (u32 n)) else
  if option "l"%string then '(idx, val) ← get_ir_opts optarg; add_ir_set idx val else
  if option "c"%string then set_opt (set_cmd_line_cmd_debug (i32 (strtoul_16 optarg))) else
  if option "v"%string then configure (config_set_vjtag_cmd_vir (u32 (strtoul_16 optarg))) else
  if option "r"%string then configure (config_set_vjtag_cmd_vdr (u32 (strtoul_16 optarg))) else
  if option "t"%string then set_opt (set_do_selftest true) else
  if option "a"%string then n ← lift (atoi optarg); set_opt (set_force_alt_vjtag (if n =? 1 then 1 else -1)) else
  if option "b"%string then on_bsdl (bsdl_add_directory optarg) else
  exit.

Definition parse_options (args : list (Z * list Z)) : M (program St) unit :=
  set_opt (fun o => set_force_alt_vjtag 0 (set_cmd_line_cmd_debug (-1) (set_ports None None (hwpport o) o)));;
  _ ← mapM (fun '(c, optarg) => parse_option c optarg) args;
  set_opt (fun o => set_ports (Some (default (bytes "9999") (port o)))
    (Some (default (bytes "9944") (jspport o))) (Some (default (bytes "9928") (hwpport o))) o).

(** The numbers of the ports as [main] has them.  The default takes the place of a text that
    is no number for the first of them only: for the others it goes to [serverPort], which
    has been used by then. *)
Definition server_ports (port jspport hwpport : list Z) : Z * Z * Z :=
  let '(serverPort, s) := strtol_10 port in
  let serverPort := if bool_decide (s = []) then serverPort else fst (strtol_10 (bytes "9999")) in
  let '(jspserverport, _) := strtol_10 jspport in
  let '(hwpserverport, _) := strtol_10 hwpport in
  (serverPort, jspserverport, hwpserverport).
End adv_jtag_bridge.
