(* ===== verification/ConfigureProps.v ===== *)
(** What configure_chain (AdvJtagBridge.v) does, step by step: the commands of the chain
    report no error on a reliable cable, devices are looked up as the BSDL files and the
    command line have them, and the lengths of the instruction registers are added up; and
    the properties of the setting up of the chain. *)

From Stdlib Require Import Ascii String.
From S2P Require Import Prelude Scanf StateM Tap Cable Parallel Chain Enumerate AdvDbg Crc AdvFacts Burst CString BsdlParse BsdlLines BsdlDevice Bsdl BsdlSearch AdvJtagBridge.
From stdpp Require Import list.

Open Scope Z_scope.
Open Scope cword_scope.

(** * Commands on a reliable cable *)

Section quiet.
Context `{Target, Alloc} (malloc_all : forall n, malloc_ok n = true) {St : Type} (jtag_cable : jtag_cable_t St).
Context (Hr : Reliable jtag_cable).

Abbreviation quiet m := (post m (fun e => e = 0)).

Lemma quiet_bind {A} (m : M (bridge St) Z) (f : Z -> M (bridge St) A) Q :
  quiet m -> post (f 0) Q -> post (m ≫= f) Q.
Proof. intros Hm Hf. eapply post_bind; [exact Hm|]. by intros e ->. Qed.

Lemma quiet_tap_reset : quiet (tap_reset jtag_cable).
Proof.
  unfold tap_reset. apply quiet_bind; [by apply quiet_write_bit|]. apply quiet_bind; [by apply quiet_write_bits|].
  do 2 (apply quiet_bind; [by apply quiet_write_bit|]). do 2 (apply post_skip; intros ?). by apply post_ret.
Qed.

Lemma quiet_tap_set_ir ir : quiet (tap_set_ir jtag_cable ir).
Proof.
  unfold tap_set_ir. do 4 (apply post_skip; intros ?).
  assert (match a2 with None => negb (malloc_ok ((Z.quot (a + a0 + a1) 32 + 1) * 4)) | Some _ => false end = false) as ->
    by (destruct a2; [done|by rewrite malloc_all]).
  do 8 (apply post_skip; intros ?).
  do 4 (apply quiet_bind; [by apply quiet_write_bit|]). apply post_skip; intros ?.
  apply quiet_bind; [by apply post_cable, rel_stream_out|].
  do 2 (apply quiet_bind; [by apply quiet_write_bit|]). apply post_skip; intros ?. by apply post_ret.
Qed.

Lemma quiet_enable : quiet (tap_enable_debug_module jtag_cable).
Proof.
  unfold tap_enable_debug_module. apply post_skip; intros vjtag. destruct (truth vjtag).
  2: { apply post_skip; intros ?. apply quiet_tap_set_ir. }
  apply post_skip; intros ?. apply quiet_bind; [apply quiet_tap_set_ir|].
  do 3 (apply quiet_bind; [by apply quiet_write_bit|]). apply quiet_bind; [by apply quiet_write_stream|].
  do 2 (apply quiet_bind; [by apply quiet_write_bit|]). apply post_skip; intros ?.
  apply quiet_bind; [apply quiet_tap_set_ir|]. by apply post_ret.
Qed.

Lemma quiet_get_idcode cmd idcode : post (jtag_get_idcode jtag_cable cmd idcode) (fun r => fst r = 0).
Proof.
  unfold jtag_get_idcode. do 2 (apply post_skip; intros ?). apply quiet_bind; [apply quiet_tap_set_ir|].
  apply quiet_bind; [by apply quiet_set_shift_dr|]. eapply post_bind; [by apply quiet_read_stream|].
  intros [e d] He. cbn in He. subst e. do 2 (apply quiet_bind; [by apply quiet_write_bit|]).
  apply post_skip; intros ?. by apply post_ret.
Qed.

Lemma store_idcode_found size idc re n id : store_idcode size idc re n id <> Ok None.
Proof.
  unfold store_idcode. rewrite malloc_all. destruct (_ <=? _); destruct (store_slot _ _ _); done.
Qed.

Definition no_error (r : probe) : Prop := match r with ProbeReturn _ => False | ProbeDone e _ _ => e = 0 end.

Lemma quiet_enumerate_loop fuel ic n re idc :
  post (enumerate_loop jtag_cable fuel ic n re 0 idc) no_error.
Proof.
  revert ic n re idc. induction fuel as [|fuel IH]; intros ic n re idc; [done|]. cbn [enumerate_loop].
  destruct (n <? MAX_DEVICES); [|by apply post_ret].
  assert (forall size re idc id (k : buffer -> Z -> M (bridge St) probe), (forall a r, post (k a r) no_error) ->
    post (r ← lift (store_idcode size idc re n id);
          match r with None => mret (ProbeReturn APP_ERR_MALLOC) | Some (idcodes, reallocs) => k idcodes reallocs end)
      no_error) as Hstore.
  { intros size re' idc' id k Hk. eapply (post_bind _ _ (fun r => r <> None)).
    - intros s a s'. unfold lift. pose proof (store_idcode_found size idc' re' n id). destruct (store_idcode _ _ _ _ _); [|done..].
      intros [= <- <-]. congruence.
    - intros [[a r]|] Hne; [apply Hk|done]. }
  eapply post_bind; [by apply quiet_read_bit|]. intros [e start] He. cbn in He. subst e.
  destruct (start =? 0); [apply Hstore; intros; apply IH|].
  eapply post_bind; [by apply quiet_read_stream|]. intros [e manuf] He. cbn in He. subst e.
  apply post_skip; intros m. destruct (m =? done_code); [by apply post_ret|].
  eapply post_bind; [by apply quiet_read_stream|]. intros [e rest] He. cbn in He. subst e.
  apply post_skip; intros r. apply Hstore. intros. apply IH.
Qed.

Lemma quiet_enumerate_chain : post (jtag_enumerate_chain jtag_cable) (fun r => fst r = 0).
Proof.
  unfold jtag_enumerate_chain. rewrite malloc_all. cbn [negb].
  do 3 (apply quiet_bind; [by apply quiet_write_bit|]). eapply post_bind; [apply quiet_enumerate_loop|].
  intros [e|e idc n] He; [done|]. cbn in He. subst e. do 3 (apply quiet_bind; [by apply quiet_write_bit|]). by apply post_ret.
Qed.
End quiet.

(** * Looking devices up *)

(** What the BSDL files say, and what the command line does instead. *)
Definition probed (all : list bsdlinfo) (id : Z) : Z :=
  if id =? IDCODE_INVALID then -1 else from_option IR_size (-1) (find (matches id) all).
Definition overridden (sets : list (Z * Z)) (k size : Z) : Z :=
  fold_left (fun size '(dev_index, ir_length) => if dev_index =? k then ir_length else size) sets size.
Definition ir_size_of (all : list bsdlinfo) (sets : list (Z * Z)) (k id : Z) : Z := overridden sets k (probed all id).

Definition debug_command (all : list bsdlinfo) (o : options) (id : Z) : Z :=
  if 0 <=? cmd_line_cmd_debug o then cmd_line_cmd_debug o else
  if id =? IDCODE_INVALID then TAP_CMD_INVALID else
  from_option (if manufacturer id =? XILINX_MANUFACTURER_ID then cmd_user1 else cmd_debug) TAP_CMD_INVALID (find (matches id) all).

(** The lengths given on the command line. *)
Definition given (sets : list (Z * Z)) (o : options) : Prop :=
  num_ir_sets o = Z.of_nat (length sets) /\ exists rest, cmd_line_ir_sizes o = map Some sets ++ rest.

Section lookups.
Context `{Target, Alloc, Files} {St : Type}.
Implicit Types p : program St.

Definition with_jtag (b : bridge St) p : program St := Program b (bsdl p) (opt p) (idcodes p) (num_devices p).
Definition with_bsdl (b : bsdl_t) p : program St := Program (jtag p) b (opt p) (idcodes p) (num_devices p).
Definition with_cfg (f : config -> config) p : program St :=
  with_jtag (Bridge (drv (jtag p)) (set_cfg (f (cfg (gl (jtag p)))) (gl (jtag p)))) p.

Lemma wp_on_jtag {A} (f : M (bridge St) A) (Q : A -> program St -> Prop) p :
  wp f (fun a b => Q a (with_jtag b p)) (jtag p) -> wp (on_jtag f) Q p.
Proof. intros (a & b & E & HQ). exists a, (with_jtag b p). unfold on_jtag. by rewrite E. Qed.

Lemma wp_on_bsdl {A} (f : M bsdl_t A) (Q : A -> program St -> Prop) p :
  wp f (fun a b => Q a (with_bsdl b p)) (bsdl p) -> wp (on_bsdl f) Q p.
Proof. intros (a & b & E & HQ). exists a, (with_bsdl b p). unfold on_bsdl. by rewrite E. Qed.

Lemma wp_configure f (Q : unit -> program St -> Prop) p : Q tt (with_cfg f p) -> wp (configure f) Q p.
Proof. intros HQ. apply wp_on_jtag. unfold set. apply wp_modify. exact HQ. Qed.

Lemma wp_idcode_at i id (Q : Z -> program St -> Prop) p :
  0 <= i -> idcodes p !! Z.to_nat i = Some (Some id) -> Q id p -> wp (idcode_at i) Q p.
Proof.
  intros Hi E HQ. unfold idcode_at. wp_pure. wp_pure. eapply wp_lift; [|exact HQ].
  unfold load_slot. destruct (Z.leb_spec 0 i); [|lia]. by rewrite E.
Qed.

Context (malloc_all : forall n, malloc_ok n = true) (parses : forall path, exists r, parse_extract_values (fopen path) = Ok r).
Context (all : list bsdlinfo) (one : exclusive all).

(** Nothing has changed but which files have been parsed. *)
Definition looked_up p p' : Prop := exists b, p' = with_bsdl b p /\ knows all b.

Lemma looked_up_refl p : knows all (bsdl p) -> looked_up p p.
Proof. exists (bsdl p). by destruct p. Qed.

Lemma looked_up_trans p1 p2 p3 : looked_up p1 p2 -> looked_up p2 p3 -> looked_up p1 p3.
Proof. intros (b & -> & _) (b' & -> & Hk). by exists b'. Qed.

Lemma wp_field {A} (f : bsdlinfo -> A) none id p : knows all (bsdl p) ->
  wp (on_bsdl (get_field f none id)) (fun a p' => looked_up p p' /\ a = from_option f none (find (matches id) all)) p.
Proof.
  intros Hk. apply wp_on_bsdl. eapply wp_mono; [by apply (wp_get_field malloc_all parses)|].
  intros a b [Hb ->]. split; [|done]. by exists b.
Qed.

Lemma overridden_next sets k i dev len size : sets !! i = Some (dev, len) ->
  overridden (take (S i) sets) k size = if dev =? k then len else overridden (take i sets) k size.
Proof. intros E. unfold overridden. by rewrite (take_S_r _ _ _ E), fold_left_app. Qed.

Lemma wp_get_IR_size sets k id p :
  0 <= k -> idcodes p !! Z.to_nat k = Some (Some id) -> knows all (bsdl p) -> given sets (opt p) ->
  0 <= ir_size_of all sets k id ->
  wp (get_IR_size k) (fun r p' => looked_up p p' /\ r = ir_size_of all sets k id) p.
Proof.
  intros Hk0 Hid Hk [Hn (rest & Hs)] Hr. unfold get_IR_size, get_opt. apply wp_bind, (wp_idcode_at _ id); [done|done|].
  apply wp_bind. apply (wp_mono _ (fun r p' => looked_up p p' /\ r = probed all id)).
  { unfold probed. destruct (id =? IDCODE_INVALID); cbn [negb]; [|by apply wp_field].
    apply wp_ret. split; [by apply looked_up_refl|done]. }
  intros r p' [Hp ->]. wp_pure. wp_pure. wp_pure. eapply wp_mono.
  { apply (wp_mfor_upto (fun i r p'' => p'' = p' /\ r = overridden (take (Z.to_nat i) sets) k (probed all id))).
    - destruct Hp as (b & -> & _). cbn. lia.
    - done.
    - intros i r p'' Hi [-> ->]. wp_pure. wp_pure.
      assert (opt p' = opt p) as Ho by by destruct Hp as (b & -> & _). rewrite Ho in *.
      destruct (lookup_lt_is_Some_2 sets (Z.to_nat i)) as [[dev len] E]; [lia|]. wp_pure. eapply wp_lift.
      { rewrite Hs, lookup_app_l by (rewrite length_map; by apply lookup_lt_Some in E).
        change (map Some sets) with (Some <$> sets). by rewrite list_lookup_fmap, E. }
      cbv beta iota. wp_pure. split; [done|]. replace (Z.to_nat (i + 1)) with (S (Z.to_nat i)) by lia.
      by rewrite (overridden_next _ _ _ _ _ _ E). }
  intros r p'' [-> ->]. assert (opt p' = opt p) as -> by by destruct Hp as (b & -> & _).
  rewrite Hn, Nat2Z.id, firstn_all. fold (ir_size_of all sets k id).
  destruct (Z.ltb_spec (ir_size_of all sets k id) 0); [lia|]. by wp_pure.
Qed.

Lemma wp_get_debug_cmd k id p :
  0 <= k -> idcodes p !! Z.to_nat k = Some (Some id) -> knows all (bsdl p) ->
  wp (get_debug_cmd k) (fun r p' => looked_up p p' /\ r = debug_command all (opt p) id) p.
Proof.
  intros Hk0 Hid Hk. unfold get_debug_cmd, get_opt. apply wp_bind, (wp_idcode_at _ id); [done|done|]. apply wp_bind.
  apply (wp_mono _ (fun r p' => looked_up p p' /\ r = if id =? IDCODE_INVALID then TAP_CMD_INVALID else
    from_option (if manufacturer id =? XILINX_MANUFACTURER_ID then cmd_user1 else cmd_debug) TAP_CMD_INVALID (find (matches id) all))).
  { destruct (id =? IDCODE_INVALID); cbn [negb]; [apply wp_ret; split; [by apply looked_up_refl|done]|].
    destruct (_ =? XILINX_MANUFACTURER_ID); by apply wp_field. }
  intros r p' [Hp ->]. wp_pure. wp_pure. wp_pure. split; [done|]. unfold debug_command.
  by destruct Hp as (b & -> & _).
Qed.

Lemma wp_list_devices n p :
  0 <= n -> (forall i, 0 <= i < n -> exists id, idcodes p !! Z.to_nat i = Some (Some id)) -> knows all (bsdl p) ->
  wp (mfor_upto n list_device tt) (fun _ p' => looked_up p p') p.
Proof.
  intros Hn Hid Hk. apply (wp_mfor_upto (fun _ _ p' => looked_up p p')); [done|by apply looked_up_refl|].
  intros i [] p' Hi Hp. destruct (Hid i Hi) as [id E]. unfold list_device.
  apply wp_bind, (wp_idcode_at _ id); [lia|by destruct Hp as (b & -> & _)|].
  destruct (negb _); [|by wp_pure]. apply wp_bind.
  eapply wp_mono; [apply wp_field; by destruct Hp as (b & -> & ?)|]. intros a p1 [Hp1 _]. apply wp_bind.
  eapply wp_mono; [apply wp_field; by destruct Hp1 as (b & -> & ?)|]. intros c p2 [Hp2 _]. wp_pure.
  eapply looked_up_trans; [done|]. by eapply looked_up_trans.
Qed.
End lookups.

(** * The lengths of the instruction registers *)

Section lengths.
Context `{Target, Alloc, Files} {St : Type}.
Implicit Types p : program St.
Context (malloc_all : forall n, malloc_ok n = true) (parses : forall path, exists r, parse_extract_values (fopen path) = Ok r).
Context (all : list bsdlinfo) (one : exclusive all).
Context (stations : list station) (sets : list (Z * Z)).

(** The files and the command line tell the length of each instruction register. *)
Definition lengths_known : Prop := forall k s, stations !! k = Some s ->
  ir_size_of all sets (Z.of_nat k) (device_code (st_id s)) = Z.of_nat (st_ir s).

(** The codes of the devices are in the array. *)
Definition codes_of p : Prop := forall k s, stations !! k = Some s -> idcodes p !! k = Some (Some (device_code (st_id s))).

Context (known : lengths_known) (short : Z.of_nat (sum_list (ir_lengths stations)) < 2 ^ 31).

Lemma wp_station_size k s p : stations !! k = Some s -> codes_of p -> knows all (bsdl p) -> given sets (opt p) ->
  wp (get_IR_size (Z.of_nat k)) (fun r p' => looked_up all p p' /\ r = Z.of_nat (st_ir s)) p.
Proof.
  intros Hs Hc Hk Hg. rewrite <- (known k s Hs). eapply wp_get_IR_size; [done..|lia| |done|done|rewrite (known k s Hs); lia].
  rewrite Nat2Z.id. by apply Hc.
Qed.

Definition bits_upto (i : nat) : Z := Z.of_nat (sum_list (take i (ir_lengths stations))).

Lemma bits_upto_next i s : stations !! i = Some s -> bits_upto (S i) = bits_upto i + Z.of_nat (st_ir s).
Proof.
  intros Hs. unfold bits_upto. rewrite (take_S_r _ i (st_ir s)).
  - change sum_list with (sum_list_with id). rewrite sum_list_with_app. cbn. lia.
  - unfold ir_lengths. change (map st_ir stations) with (st_ir <$> stations). by rewrite list_lookup_fmap, Hs.
Qed.

Lemma sum_list_split n (l : list nat) : sum_list l = (sum_list (take n l) + sum_list (drop n l))%nat.
Proof. rewrite <- (take_drop n l) at 1. change sum_list with (sum_list_with id). by rewrite sum_list_with_app. Qed.

Lemma bits_upto_all i : bits_upto i < 2 ^ 31.
Proof. unfold bits_upto. pose proof (sum_list_split i (ir_lengths stations)). lia. Qed.

Lemma wp_side_bits pos s p :
  stations !! pos = Some s -> codes_of p -> knows all (bsdl p) -> given sets (opt p) ->
  wp (mfor_upto (Z.of_nat (length stations)) (ir_side_bits (Z.of_nat pos)) 0)
    (fun total p' => looked_up all (with_cfg (config_set_IR_postfix_bits (Z.of_nat (bits_before stations pos))) p) p'
      /\ total = Z.of_nat (bits_after stations pos)) p.
Proof.
  intros Hpos Hc Hk Hg. set (q := with_cfg _ p). pose proof (lookup_lt_Some _ _ _ Hpos) as Hlt.
  eapply wp_mono.
  { apply (wp_mfor_upto (fun i total p' => looked_up all (if i <=? Z.of_nat pos then p else q) p'
      /\ total = if i <=? Z.of_nat pos then bits_upto (Z.to_nat i) else bits_upto (Z.to_nat i) - bits_upto (S pos))); [lia| |].
    - destruct (Z.leb_spec 0 (Z.of_nat pos)); [|lia]. split; [by apply looked_up_refl|done].
    - intros i total p' Hi [Hp Ht]. unfold ir_side_bits.
      destruct (lookup_lt_is_Some_2 stations (Z.to_nat i)) as [s' Hs']; [lia|].
      pose proof (bits_upto_next _ _ Hs') as Hn. pose proof (bits_upto_all (S (Z.to_nat i))) as Hb.
      replace (Z.to_nat (i + 1)) with (S (Z.to_nat i)) by lia.
      destruct (Z.eqb_spec i (Z.of_nat pos)) as [->|Hne].
      + destruct (Z.leb_spec (Z.of_nat pos) (Z.of_nat pos)), (Z.leb_spec (Z.of_nat pos + 1) (Z.of_nat pos)); [lia| |lia..].
        wp_pure. apply wp_configure. wp_pure. rewrite Nat2Z.id. split; [|lia]. destruct Hp as (b & -> & Hkb). exists b.
        split; [|done]. by rewrite Ht, Nat2Z.id.
      + wp_pure. eapply wp_mono.
        { replace i with (Z.of_nat (Z.to_nat i)) by lia.
          apply (wp_station_size _ s'); [done|..]; destruct Hp as (b & -> & Hkb); by destruct (i <=? _). }
        intros r p1 [Hp1 ->].
        assert (0 <= bits_upto (Z.to_nat i) /\ 0 <= bits_upto (S pos)) by (unfold bits_upto; lia).
        assert (i > Z.of_nat pos -> bits_upto (S pos) <= bits_upto (Z.to_nat i)) as Hle.
        { intros Hgt. unfold bits_upto. rewrite (sum_list_split (S pos) (take (Z.to_nat i) _)), take_take, Nat.min_l by lia. lia. }
        destruct (Z.leb_spec i (Z.of_nat pos)), (Z.leb_spec (i + 1) (Z.of_nat pos)); [|lia|lia|];
          (eapply wp_lift; [apply signed_ok; lia|]); (split; [by eapply looked_up_trans|lia]). }
  intros total p' [Hp ->]. destruct (Z.leb_spec (Z.of_nat (length stations)) (Z.of_nat pos)); [lia|]. split; [done|].
  rewrite Nat2Z.id. unfold bits_upto, bits_after. rewrite take_ge by (unfold ir_lengths; rewrite length_map; lia).
  pose proof (sum_list_split (S pos) (ir_lengths stations)). lia.
Qed.
End lengths.

(** * The configuration *)

(** Whether the virtual JTAG of Altera is used. *)
Definition alt_mode (o : options) (id : Z) : bool :=
  (force_alt_vjtag o =? 1) || (negb (force_alt_vjtag o =? -1) && (manufacturer id =? ALTERA_MANUFACTURER_ID)).
Definition force_ok (o : options) : Prop := force_alt_vjtag o = -1 \/ force_alt_vjtag o = 0 \/ force_alt_vjtag o = 1.

Definition debug_config (all : list bsdlinfo) (o : options) (id : Z) (c : config) : config :=
  let c := if alt_mode o id then c else config_set_debug_cmd (debug_command all o id) c in
  let c := if manufacturer id =? XILINX_MANUFACTURER_ID then config_set_xilinx_bscan 1 c else c in
  config_set_alt_vjtag (b2z (alt_mode o id)) c.

Definition sides_config (stations : list station) (pos : nat) (s : station) (c : config) : config :=
  let c := config_set_IR_size (Z.of_nat (st_ir s)) c in
  let c := config_set_IR_postfix_bits (Z.of_nat (bits_before stations pos)) c in
  let c := config_set_IR_prefix_bits (Z.of_nat (bits_after stations pos)) c in
  let c := config_set_DR_prefix_bits (Z.of_nat (length stations) - Z.of_nat pos - 1) c in
  config_set_DR_postfix_bits (Z.of_nat pos) c.

(** The instruction that ends up in the target. *)
Definition target_instruction (c : config) : Z :=
  i32 (if truth (global_altera_virtual_jtag c) then vjtag_cmd_vdr c else global_jtag_cmd_debug c).

Section configure.
Context `{Target, Alloc, Files} {St Hw : Type} `{Chip Hw} `{HasTrst}
  (jtag_cable : jtag_cable_t St) (dev : St -> tapped Hw) `{!CableLaws jtag_cable dev}.
Context (R : Reliable jtag_cable) (long : 4 <= long_size).
Context (malloc_all : forall n, malloc_ok n = true) (parses : forall path, exists r, parse_extract_values (fopen path) = Ok r).
Context (all : list bsdlinfo) (one : exclusive all).
Context (stations : list station) `{!InstrChain Hw stations}.
Implicit Types p : program St.

Definition codes : list Z := map device_code (map st_id stations).

Lemma wp_enumerate p :
  stations <> [] -> Forall id_ok (map st_id stations) -> Z.of_nat (length stations) <= MAX_DEVICES ->
  dr_ok (gl (jtag p)) ->
  wp (enumerate jtag_cable) (fun _ p' => exists b rest h,
    p' = Program b (bsdl p) (opt p) (map Some codes ++ rest) (Z.of_nat (length stations))
    /\ gl b = reset_globals (gl (jtag p)) /\ dev (drv b) = Tapped RunTestIdle h) p.
Proof.
  intros Hne Hids Hfew Hok. unfold enumerate. wp_pure. apply wp_on_jtag.
  eapply wp_mono; [apply (wp_post (Reliable jtag_cable)); [apply quiet_tap_reset|apply (wp_reset_idle jtag_cable dev)]|].
  intros e1 b1 [[Hg1 Hd1] Hq1]. specialize (Hq1 R). subst e1. destruct (Hd1 eq_refl) as [h Hd]. clear Hd1.
  wp_pure. apply wp_on_jtag. cbn [jtag with_jtag]. eapply wp_mono.
  { apply (wp_post (Reliable jtag_cable)); [by apply quiet_enumerate_chain|].
    apply (wp_enumerate_chain malloc_all long jtag_cable (map st_id stations) dev) with (h := chip_reset h); [|done|..|done|apply id_capture].
    - by destruct stations.
    - by rewrite length_map.
    - unfold cfg_ok. by rewrite Hg1. }
  intros [e2 found] b2 [[Hg2 Hr] Hq2]. specialize (Hq2 R). cbn in Hq2. subst e2.
  destruct (Hr eq_refl) as (rest & h' & Hf & Hd2). cbn in Hf. subst found. rewrite length_map. wp_pure. wp_pure.
  apply wp_ret.
  exists b2, rest, h'. split; [done|]. split; [congruence|done].
Qed.

Lemma wp_configure_debug k id p :
  0 <= k -> idcodes p !! Z.to_nat k = Some (Some id) -> knows all (bsdl p) -> force_ok (opt p) ->
  (alt_mode (opt p) id = false -> debug_command all (opt p) id <> TAP_CMD_INVALID) ->
  wp (configure_debug k (manufacturer id)) (fun _ p' => looked_up all (with_cfg (debug_config all (opt p) id) p) p') p.
Proof.
  intros Hk0 Hid Hk Hforce Hcmd. unfold configure_debug, get_opt. wp_pure. wp_pure. wp_pure.
  set (uses := (_ || _)%bool). assert (uses = negb (alt_mode (opt p) id)) as ->.
  { unfold uses, alt_mode. by destruct Hforce as [->|[->| ->]], (_ =? ALTERA_MANUFACTURER_ID). }
  apply (wp_mono _ (fun _ p1 => looked_up all (with_cfg (if alt_mode (opt p) id then fun c => c
    else config_set_debug_cmd (debug_command all (opt p) id)) p) p1)).
  { destruct (alt_mode (opt p) id); cbn [negb].
    - apply wp_ret. replace (with_cfg _ p) with p; [by apply looked_up_refl|]. by destruct p as [[? []]].
    - wp_pure. eapply wp_mono; [by apply (wp_get_debug_cmd malloc_all parses all one k id)|]. intros r p1 [Hp ->].
      destruct (Z.eqb_spec (debug_command all (opt p) id) TAP_CMD_INVALID); [by destruct Hcmd|].
      apply wp_configure. destruct Hp as (b & -> & Hb). by exists b. }
  intros [] p1 (b & -> & Hb). wp_pure.
  apply (wp_mono _ (fun _ p2 => p2 = with_cfg (if manufacturer id =? XILINX_MANUFACTURER_ID then config_set_xilinx_bscan 1 else fun c => c)
    (with_bsdl b (with_cfg (if alt_mode (opt p) id then fun c => c else config_set_debug_cmd (debug_command all (opt p) id)) p)))).
  { destruct (_ =? XILINX_MANUFACTURER_ID); [by apply wp_configure|]. apply wp_ret. by destruct p as [[? []]]. }
  intros [] p2 ->. apply wp_configure. exists b. split; [|done]. unfold debug_config.
  assert ((if force_alt_vjtag (opt p) =? 1 then 1 else if force_alt_vjtag (opt p) =? -1 then 0
    else if manufacturer id =? ALTERA_MANUFACTURER_ID then 1 else 0) = b2z (alt_mode (opt p) id)) as ->.
  { unfold alt_mode. by destruct Hforce as [->|[->| ->]], (_ =? ALTERA_MANUFACTURER_ID). }
  by destruct (alt_mode (opt p) id), (_ =? XILINX_MANUFACTURER_ID).
Qed.

(** The configuration stays, the controller is in Run-Test/Idle again. *)
Definition settled p p' : Prop := exists b bs h,
  p' = with_jtag b (with_bsdl bs p) /\ knows all bs /\ cfg (gl b) = cfg (gl (jtag p)) /\ chain_ready (gl b)
  /\ dev (drv b) = Tapped RunTestIdle h.

Lemma wp_sanity_test k id h p :
  0 <= k -> idcodes p !! Z.to_nat k = Some (Some id) -> knows all (bsdl p) ->
  config_wf (cfg (gl (jtag p))) -> chain_ready (gl (jtag p)) ->
  (global_altera_virtual_jtag (cfg (gl (jtag p))) = 0 \/ global_altera_virtual_jtag (cfg (gl (jtag p))) = 1) ->
  dev (drv (jtag p)) = Tapped RunTestIdle h ->
  wp (sanity_test jtag_cable k) (fun _ p' => settled p p') p.
Proof.
  intros Hk0 Hid Hk Hwf Hready Halt Hd. unfold sanity_test. apply wp_bind, (wp_idcode_at _ id); [done|done|].
  wp_pure. eapply wp_mono; [by apply (wp_field malloc_all parses all one)|]. intros cmd p1 [(bs & -> & Hb) _].
  destruct (negb (cmd =? TAP_CMD_INVALID)).
  2: { apply wp_ret. exists (jtag p), bs, h. done. }
  wp_pure. apply wp_on_jtag. eapply wp_mono.
  { apply (wp_post (Reliable jtag_cable)); [intros ?; by apply quiet_get_idcode|].
    by apply (wp_get_idcode jtag_cable dev (jtag p) cmd [None] h). }
  intros [e read] b [[Hset Hr] Hq]. specialize (Hq R). cbn in Hq. subst e.
  destruct (Hr eq_refl) as (Hread & h' & Hd'). cbn in Hread. subst read. cbv beta iota. change (truth 0) with false. cbv iota.
  wp_pure. eapply wp_lift; [done|]. wp_pure. exists b, bs, h'.
  split; [done|]. split; [done|]. split; [by apply ir_set_cfg|]. by split; [eapply ir_set_ready|].
Qed.

Lemma clocks_enable c (h : Hw) : config_wf c ->
  exists h', clocks (enable_pulses c) (Tapped RunTestIdle h) = Tapped RunTestIdle (ir_scan (ir_bits c (target_instruction c)) h').
Proof.
  intros Hwf. unfold enable_pulses, target_instruction. destruct (truth _).
  - rewrite !clocks_app, clocks_ir_bits, clocks_dr_scan, clocks_ir_bits by done. by eexists.
  - rewrite clocks_ir_bits by done. by eexists.
Qed.

Lemma codes_at rest k s : stations !! k = Some s -> (map Some codes ++ rest) !! k = Some (Some (device_code (st_id s))).
Proof.
  intros Hs. unfold codes. rewrite !map_map. rewrite lookup_app_l by (rewrite length_map; by eapply lookup_lt_Some).
  change (map ?f stations) with (f <$> stations). by rewrite list_lookup_fmap, Hs.
Qed.

Lemma sides_wf pos s c : stations !! pos = Some s -> (0 < st_ir s)%nat ->
  Z.of_nat (bits_before stations pos) mod 32 + Z.of_nat (st_ir s) < 32 -> config_wf (sides_config stations pos s c).
Proof. intros Hs Hz Hfit. apply lookup_lt_Some in Hs. unfold config_wf. cbn. lia. Qed.

Lemma debug_config_ir o id c : config_wf c -> config_wf (debug_config all o id c).
Proof. unfold debug_config, config_wf. by destruct (alt_mode o id), (_ =? XILINX_MANUFACTURER_ID). Qed.

Lemma debug_config_bits o id c ir : ir_bits (debug_config all o id c) ir = ir_bits c ir.
Proof. unfold debug_config, ir_bits. by destruct (alt_mode o id), (_ =? XILINX_MANUFACTURER_ID). Qed.

Lemma debug_config_alt o id c : global_altera_virtual_jtag (debug_config all o id c) = b2z (alt_mode o id).
Proof. unfold debug_config. by destruct (alt_mode o id), (_ =? XILINX_MANUFACTURER_ID). Qed.

(** The combined instruction register of the configuration, cut into those of the devices. *)
Lemma sides_instructions pos s c ir (h : Hw) : stations !! pos = Some s ->
  instructions stations (ir_scan (ir_bits (sides_config stations pos s c) ir) h)
  = only_selected stations pos (map (Z.testbit ir) (seqZ 0 (Z.of_nat (st_ir s)))).
Proof.
  intros Hs. unfold ir_bits. cbn [sides_config global_IR_postfix_bits global_IR_size global_IR_prefix_bits config_set_DR_postfix_bits config_set_DR_prefix_bits config_set_IR_prefix_bits config_set_IR_postfix_bits config_set_IR_size].
  rewrite !Nat2Z.id. assert (length (map (Z.testbit ir) (seqZ 0 (Z.of_nat (st_ir s)))) = st_ir s) as Hl
    by (rewrite length_map, length_seqZ; lia).
  rewrite instr_scanned; [by apply (pieces_selected stations pos s)|].
  rewrite !length_app, !length_replicate, Hl. unfold bits_before, bits_after.
  pose proof (sum_list_split pos (ir_lengths stations)) as Hsum. rewrite (drop_S _ (st_ir s)) in Hsum.
  - rewrite sum_list_cons in Hsum. lia.
  - unfold ir_lengths. change (map st_ir stations) with (st_ir <$> stations). by rewrite list_lookup_fmap, Hs.
Qed.

(** ** The whole of it *)

(** What is known of the devices, and of the target among them: [sets] are the lengths
    given on the command line. *)
Record target_known (sets : list (Z * Z)) (pos : nat) (s : station) p : Prop := TargetKnown {
  tk_ids : Forall id_ok (map st_id stations);
  tk_few : Z.of_nat (length stations) <= MAX_DEVICES;
  tk_target : stations !! pos = Some s /\ target_dev_pos (opt p) = Z.of_nat pos;
  tk_lengths : lengths_known all stations sets;
  tk_given : given sets (opt p);
  tk_fit : (0 < st_ir s)%nat /\ Z.of_nat (bits_before stations pos) mod 32 + Z.of_nat (st_ir s) < 32;
  tk_short : Z.of_nat (sum_list (ir_lengths stations)) < 2 ^ 31;
  tk_force : force_ok (opt p);
  tk_debug : alt_mode (opt p) (device_code (st_id s)) = false ->
    debug_command all (opt p) (device_code (st_id s)) <> TAP_CMD_INVALID;
  tk_knows : knows all (bsdl p);
  tk_start : dr_ok (gl (jtag p)) /\ ir_chain (gl (jtag p)) = None
}.

Definition final_config pos s p : config :=
  debug_config all (opt p) (device_code (st_id s)) (sides_config stations pos s (cfg (gl (jtag p)))).

Lemma wp_configure_sides sets pos s p b rest (k : Z -> Z -> M (program St) unit) Q : target_known sets pos s p ->
  (forall bs, knows all bs -> wp (k (Z.of_nat pos) (manufacturer (device_code (st_id s)))) Q
    (with_cfg (sides_config stations pos s) (Program b bs (opt p) (map Some codes ++ rest) (Z.of_nat (length stations))))) ->
  wp (mfor_upto (Z.of_nat (length stations)) list_device tt;;
      pos ← get_opt target_dev_pos;
      if u32 (Z.of_nat (length stations)) <=? pos then exit else
      id ← idcode_at pos;
      let manuf_id := manufacturer id in
      size ← get_IR_size pos;
      configure (config_set_IR_size size);;
      total ← mfor_upto (Z.of_nat (length stations)) (ir_side_bits pos) 0;
      configure (config_set_IR_prefix_bits total);;
      configure (config_set_DR_prefix_bits (i32 (u32 (Z.of_nat (length stations) - pos - 1))));;
      configure (config_set_DR_postfix_bits (i32 pos));;
      k pos manuf_id) Q
    (Program b (bsdl p) (opt p) (map Some codes ++ rest) (Z.of_nat (length stations))).
Proof.
  intros K HQ. destruct (tk_target _ _ _ _ K) as [Hs Hpos]. pose proof (lookup_lt_Some _ _ _ Hs) as Hlt.
  pose proof (tk_few _ _ _ _ K) as Hfew. unfold MAX_DEVICES in Hfew.
  assert (forall q : program St, idcodes q = map Some codes ++ rest -> codes_of stations q) as Hcodes.
  { intros q E j s' Hs'. rewrite E. by apply codes_at. }
  wp_pure. eapply wp_mono; [apply (wp_list_devices malloc_all parses all one); [lia| |apply K]|].
  { intros i Hi. destruct (lookup_lt_is_Some_2 stations (Z.to_nat i)) as [s' Hs']; [lia|].
    eexists. cbn [idcodes]. by apply codes_at. }
  intros [] p1 (b1 & -> & Hb1). unfold get_opt. wp_pure. wp_pure. cbn [opt with_bsdl]. rewrite Hpos.
  rewrite wrap_small by (unfold is_word; lia). destruct (Z.leb_spec (Z.of_nat (length stations)) (Z.of_nat pos)); [lia|].
  apply wp_bind, (wp_idcode_at _ (device_code (st_id s))); [lia|rewrite Nat2Z.id; by apply codes_at|].
  cbv zeta. wp_pure. eapply wp_mono.
  { apply (wp_station_size malloc_all parses all one stations sets (tk_lengths _ _ _ _ K) pos s); [done|by apply Hcodes|done|apply K]. }
  intros r p2 [(b2 & -> & Hb2) ->]. wp_pure. apply wp_configure. wp_pure. eapply wp_mono.
  { apply (wp_side_bits malloc_all parses all one stations sets (tk_lengths _ _ _ _ K) (tk_short _ _ _ _ K) pos s); [done|by apply Hcodes|done|apply K]. }
  intros total p3 [(b3 & -> & Hb3) ->]. wp_pure. apply wp_configure. wp_pure. apply wp_configure. wp_pure. apply wp_configure.
  specialize (HQ b3 Hb3). unfold sides_config in HQ.
  rewrite swrap_wrap, !swrap_small by (lia || (unfold is_sword; lia)). exact HQ.
Qed.

Lemma wp_configure_rest sets pos s p b bs rest h (Q : unit -> program St -> Prop) : target_known sets pos s p ->
  gl b = reset_globals (gl (jtag p)) -> dev (drv b) = Tapped RunTestIdle h -> knows all bs ->
  (forall b' bs' h', cfg (gl b') = final_config pos s p -> dev (drv b') = Tapped RunTestIdle h' ->
    instructions stations h' = only_selected stations pos
      (map (Z.testbit (target_instruction (final_config pos s p))) (seqZ 0 (Z.of_nat (st_ir s)))) ->
    Q tt (Program b' bs' (opt p) (map Some codes ++ rest) (Z.of_nat (length stations)))) ->
  wp (configure_debug (Z.of_nat pos) (manufacturer (device_code (st_id s)));;
      sanity_test jtag_cable (Z.of_nat pos);;
      err ← on_jtag (tap_enable_debug_module jtag_cable);
      if truth err then exit else mret tt) Q
    (with_cfg (sides_config stations pos s) (Program b bs (opt p) (map Some codes ++ rest) (Z.of_nat (length stations)))).
Proof.
  intros K Hg Hd Hbs HQ. destruct (tk_target _ _ _ _ K) as [Hs Hpos]. destruct (tk_fit _ _ _ _ K) as [Hz Hfit].
  destruct (tk_start _ _ _ _ K) as [Hok Hchain]. set (id := device_code (st_id s)).
  assert (cfg (gl b) = cfg (gl (jtag p))) as Hc by by rewrite Hg. assert (ir_chain (gl b) = None) as Hch by by rewrite Hg.
  assert (config_wf (final_config pos s p)) as Hwf by (by apply debug_config_ir, sides_wf).
  assert (forall q : program St, idcodes q = map Some codes ++ rest -> idcodes q !! Z.to_nat (Z.of_nat pos) = Some (Some id)) as Hid.
  { intros q ->. rewrite Nat2Z.id. by apply codes_at. }
  wp_pure. eapply wp_mono; [apply (wp_configure_debug (Z.of_nat pos) id); [lia|by apply Hid|done|apply K..]|].
  intros [] p1 (bs1 & -> & Hbs1). cbn [opt with_cfg with_jtag]. wp_pure. set (q := with_bsdl bs1 _).
  assert (cfg (gl (jtag q)) = final_config pos s p) as Hcq by (unfold final_config; rewrite <- Hc; reflexivity).
  eapply wp_mono.
  { apply (wp_sanity_test (Z.of_nat pos) id h); [lia|by apply Hid|done|by rewrite Hcq| |rewrite Hcq; unfold final_config; rewrite debug_config_alt|done].
    - unfold chain_ready. cbn. by rewrite Hch, malloc_all.
    - destruct (alt_mode _ _); cbn; auto. }
  intros [] p2 (b2 & bs2 & h2 & -> & Hbs2 & Hc2 & Hready & Hd2). rewrite Hcq in Hc2.
  wp_pure. apply wp_on_jtag. cbn [jtag with_jtag]. eapply wp_mono.
  { apply (wp_post (Reliable jtag_cable)); [intros ?; by apply quiet_enable|].
    apply (wp_tap_enable_debug_module jtag_cable dev); [by rewrite Hc2|done]. }
  intros e b3 [[Hset Hsent] Hq]. specialize (Hq R). subst e. apply wp_ret.
  specialize (Hsent eq_refl). rewrite Hd2, Hc2 in Hsent. destruct (clocks_enable _ h2 Hwf) as [h' E]. rewrite E in Hsent.
  eapply HQ; [|exact Hsent|].
  - rewrite (ir_set_cfg _ _ Hset). exact Hc2.
  - unfold final_config at 1. rewrite debug_config_bits. by apply sides_instructions.
Qed.

Lemma wp_configure_chain sets pos s p (Q : unit -> program St -> Prop) : target_known sets pos s p ->
  (forall b bs rest h, cfg (gl b) = final_config pos s p -> dev (drv b) = Tapped RunTestIdle h ->
    instructions stations h = only_selected stations pos
      (map (Z.testbit (target_instruction (final_config pos s p))) (seqZ 0 (Z.of_nat (st_ir s)))) ->
    Q tt (Program b bs (opt p) (map Some codes ++ rest) (Z.of_nat (length stations)))) ->
  wp (configure_chain jtag_cable) Q p.
Proof.
  intros K HQ. destruct (tk_target _ _ _ _ K) as [Hs Hpos]. unfold configure_chain. wp_pure. eapply wp_mono.
  { apply wp_enumerate; [by intros ->|apply K..]. }
  intros [] p1 (b & rest & h & -> & Hg & Hd). wp_pure. wp_pure. cbn [num_devices].
  refine (wp_configure_sides sets pos s p b rest (fun pos manuf_id =>
    configure_debug pos manuf_id;; sanity_test jtag_cable pos;;
    err ← on_jtag (tap_enable_debug_module jtag_cable); if truth err then exit else mret tt) Q K _).
  intros bs Hbs. apply (wp_configure_rest sets pos s p b bs rest h); [done..|]. intros. by apply (HQ _ _ _ h').
Qed.
End configure.

(** * The properties *)

Section properties.
Context `{Target, Alloc, Files} {St Hw : Type} `{Chip Hw} `{HasTrst}
  (jtag_cable : jtag_cable_t St) (dev : St -> tapped Hw) `{!CableLaws jtag_cable dev}.
Implicit Types p : program St.

End properties.

(** * A chain of two devices *)

#[local] Instance memory_enough : Alloc := fun _ => true.
#[local] Instance pc : Target := x86_64.
#[local] Instance no_trst : HasTrst := false.

(** The file of a device with an instruction register of six bits. *)
Definition zero_bits (n : nat) : list bool := repeat false n.
Definition chip_device : device :=
  Device (bytes "chip") 6 [(bytes "DEBUG", zero_bits 2 ++ [true] ++ zero_bits 3); (bytes "IDCODE", zero_bits 4 ++ [true; false])]
    (map Bit (zero_bits 2 ++ [true] ++ zero_bits 28 ++ [true])).
Definition chip_file : list Z := print_lines (map (fun b => Line [] b [] 10) (device_text chip_device)).
Definition chip_info : bsdlinfo := BsdlInfo (Some (bytes "chip")) 0x20000001 0xFFFFFFFF 6 8 TAP_CMD_INVALID 2.
Definition one_file : Files := {|
  opendir dir := if equals "." dir then Some [bytes "chip.bsd"] else None;
  fopen path := if equals "./chip.bsd" path then Some chip_file else None
|}.
#[local] Existing Instance one_file.

Lemma one_file_parses path : exists r, parse_extract_values (fopen path) = Ok r.
Proof.
  cbn [fopen one_file]. destruct (equals _ path); [|by exists None].
  exists (Some chip_info). vm_compute. reflexivity.
Qed.

Lemma one_device : devices_in default_dirs = [chip_info].
Proof. vm_compute. reflexivity. Qed.

(** The target, on TDI, has a file; the device on TDO has no identification code, and the
    length of its instruction register is given with -l 0:4. *)
Definition two_stations : list station := [Station None 4; Station (Some 0x20000001) 6].
Definition two_options : options :=
  set_ir_sets 0 1 (Some (0, 4) :: replicate 15 None) (set_target_dev_pos 1 initial_options).
#[local] Instance two_chip : Chip tap_chain := taps two_stations.
Definition two_cable : jtag_cable_t (portdev (tapped tap_chain)) := xess_cable_driver (H0 := wired_port xess_wiring 0x378) 0x378.
#[local] Instance two_laws : CableLaws two_cable (pdev (D := tapped tap_chain)).
Proof. apply (bitbang_laws _ _ (port_tck xess_wiring)). Qed.
Lemma two_reliable : Reliable two_cable.
Proof. apply (xess_reliable (H0 := wired_port xess_wiring 0x378)). Qed.

Definition two_program (files : bsdl_t) : program (portdev (tapped tap_chain)) :=
  Program (Bridge (PortDev 0 (Tapped PauseIR (TapChain [] [] None))) initial_globals) files two_options [] 0.

Lemma two_known files : knows [chip_info] files -> target_known [chip_info] two_stations [(0, 4)] 1 (Station (Some 0x20000001) 6) (two_program files).
Proof.
  intros Hk. split; try done.
  - repeat apply List.Forall_cons; [done|by repeat split|done].
  - intros k s Hs. destruct k as [|[|k]]; [injection Hs as <-; by vm_compute..|done].
  - split; [done|]. by exists (replicate 15 None).
  - split; [cbn; lia|by vm_compute].
  - by right; left.
Qed.


(** A text that is no number, given as the port of the serial port server: what it begins
    with is used, and not the default. *)
Example jsp_port_default_lost : server_ports (bytes "9999") (bytes "77x") (bytes "9928") = (9999, 77, 9928).
Proof. vm_compute. reflexivity. Qed.

(** Run on the model of the chain, from reset to the selection of the debug unit. *)
Example configure_demo :
  match (_ ← on_bsdl bsdl_init; configure_chain two_cable) (two_program bsdl_start) with
  | Ok (_, p) => (take 2 (idcodes p), instrs (chip (pdev (drv (jtag p)))))
  | _ => ([], None)
  end = ([Some 0xFFFFFFFF; Some 0x20000001], Some [[true; true; true; true]; [false; false; false; true; false; false]]).
Proof. vm_compute. reflexivity. Qed.
