(* ===== verification/HwpServer.v ===== *)
(** hwp_server.c: watchpoints for a client of their own.

    The client sends packets as GDB does, to read and write the registers of the debug
    unit.  The table [hwp_in_use] is shared with the GDB server, which takes watchpoints
    that are not in use (RspCmds.v), and so is the monitor: they are those of a [world].
    Messages on stderr are left out. *)

From Stdlib Require Import String.
From S2P Require Import Prelude Scanf StateM Tap Cable Chain AdvDbg RspData DebugUnit HwMonitor Rsp RspCmds.
From stdpp Require Import gmap list.

Open Scope Z_scope.
Open Scope cword_scope.

(** * The state *)

Definition HWP_BUF_MAX : Z := 256.

(** The static variables of the file, with the buffer of [hwp_get_packet]. *)
Record hwp_t := Hwp {
  hwp_server_fd : Z;
  hwp_client_fd : Z;
  hwp_pipe_fds : Z * Z;
  hwp_server_running : bool;
  hwp_target_is_running : bool;
  use_cached_dmr2 : bool;
  cached_dmr2 : Z;
  hwp_data : list Z;
  hwp_len : Z
}.

Definition initial_hwp : hwp_t :=
  Hwp (-1) (-1) (0, 0) false false false 0 (replicate (Z.to_nat HWP_BUF_MAX) 0) 0.

Definition set_hwp_server_fd (v : Z) (h : hwp_t) : hwp_t :=
  Hwp v (hwp_client_fd h) (hwp_pipe_fds h) (hwp_server_running h) (hwp_target_is_running h)
    (use_cached_dmr2 h) (cached_dmr2 h) (hwp_data h) (hwp_len h).
Definition set_hwp_client_fd (v : Z) (h : hwp_t) : hwp_t :=
  Hwp (hwp_server_fd h) v (hwp_pipe_fds h) (hwp_server_running h) (hwp_target_is_running h)
    (use_cached_dmr2 h) (cached_dmr2 h) (hwp_data h) (hwp_len h).
Definition set_hwp_pipe_fds (v : Z * Z) (h : hwp_t) : hwp_t :=
  Hwp (hwp_server_fd h) (hwp_client_fd h) v (hwp_server_running h) (hwp_target_is_running h)
    (use_cached_dmr2 h) (cached_dmr2 h) (hwp_data h) (hwp_len h).
Definition set_hwp_server_running (v : bool) (h : hwp_t) : hwp_t :=
  Hwp (hwp_server_fd h) (hwp_client_fd h) (hwp_pipe_fds h) v (hwp_target_is_running h)
    (use_cached_dmr2 h) (cached_dmr2 h) (hwp_data h) (hwp_len h).
Definition set_hwp_target_is_running (v : bool) (h : hwp_t) : hwp_t :=
  Hwp (hwp_server_fd h) (hwp_client_fd h) (hwp_pipe_fds h) (hwp_server_running h) v
    (use_cached_dmr2 h) (cached_dmr2 h) (hwp_data h) (hwp_len h).
Definition set_use_cached_dmr2 (v : bool) (h : hwp_t) : hwp_t :=
  Hwp (hwp_server_fd h) (hwp_client_fd h) (hwp_pipe_fds h) (hwp_server_running h)
    (hwp_target_is_running h) v (cached_dmr2 h) (hwp_data h) (hwp_len h).
Definition set_hwp_buf (data : list Z) (len : Z) (h : hwp_t) : hwp_t :=
  Hwp (hwp_server_fd h) (hwp_client_fd h) (hwp_pipe_fds h) (hwp_server_running h)
    (hwp_target_is_running h) (use_cached_dmr2 h) (cached_dmr2 h) data len.

(** The server, its client, and the GDB server with all that is shared with it. *)
Record hworld (D : Type) := HWorld { hwp : hwp_t; peer : gdb_t; shared : world D }.
Arguments HWorld {D} _ _ _.
Arguments hwp {D} _.
Arguments peer {D} _.
Arguments shared {D} _.

(** * The table of watchpoints *)

Definition hwp_set_in_use (wp inuse : Z) (in_use : list Z) : list Z :=
  if (0 <=? wp) && (wp <? HWP_MAX_WP) then <[Z.to_nat wp := inuse]> in_use else in_use.

(** A write of a control register enables the watchpoint, or does not. *)
Definition enables (val : Z) : bool := negb ((val .& 0x0E =? 0) || (val .& 0xE0 =? 0)).

(** What a write of a register means for the table. *)
Definition mark_watchpoint (regnum val : Z) (in_use : list Z) : list Z :=
  if (SPR_DCR 0 <=? regnum) && (regnum <=? SPR_DCR 7) then
    hwp_set_in_use (regnum - SPR_DCR 0) (if enables val then 1 else 0) in_use
  else in_use.

Section hwp.
Context `{Target, Alloc, Unspecified} {D : Type} `{DebugUnit D}.

Definition get_hwp {A} (f : hwp_t -> A) : M (hworld D) A := gets (fun w => f (hwp w)).
Definition upd_hwp_t (f : hwp_t -> hwp_t) (w : hworld D) : hworld D := HWorld (f (hwp w)) (peer w) (shared w).
Definition put_hwp (f : hwp_t -> hwp_t) : M (hworld D) unit := modify (upd_hwp_t f).
Definition upd_peer (f : gdb_t -> gdb_t) (w : hworld D) : hworld D := HWorld (hwp w) (f (peer w)) (shared w).
Definition on_shared {A} (f : M (world D) A) : M (hworld D) A := fun w =>
  match f (shared w) with
  | Ok (a, s) => Ok (a, HWorld (hwp w) (peer w) s)
  | Hang => Hang | AssertFail => AssertFail | Undef => Undef
  end.

Definition in_use_of : M (hworld D) (list Z) := gets (fun w => hwp_in_use (shared w)).
Definition put_in_use (f : list Z -> list Z) : M (hworld D) unit := on_shared (modify (upd_hwp f)).

(** * Connections *)

Definition hwp_server_close : M (hworld D) unit := put_hwp (set_hwp_server_fd (-1)).
Definition hwp_client_close : M (hworld D) unit := put_hwp (set_hwp_client_fd (-1)).

(** Which watchpoints there are: those of which the control register says so. *)
Definition probe_watchpoint (i : Z) (tmp : option Z) : M (hworld D) (option Z) :=
  '(errcode, tmp) ← on_shared (read_spr (SPR_DCR i) tmp);
  put_in_use (hwp_set_in_use i
    (if negb (errcode =? APP_ERR_NONE) then 1 else if truth (value tmp .& 0x1) then 0 else 1));;
  mret tmp.

Definition hwp_probe : M (hworld D) unit := _ ← mfor_upto HWP_MAX_WP probe_watchpoint None; mret tt.

(** [names]: whether [getaddrinfo] succeeds; [opened]: the descriptor of the socket, when
    there is one, and whether the calls that make it listen succeed. *)
Definition hwp_init (names : bool) (opened : option (Z * bool)) : M (hworld D) unit :=
  hwp_probe;;
  put_hwp (set_hwp_server_fd (-1));;
  put_hwp (set_hwp_client_fd (-1));;
  if negb names then mret tt else
  match opened with
  | None => mret tt
  | Some (fd, false) => put_hwp (set_hwp_server_fd fd);; hwp_server_close
  | Some (fd, true) =>
      put_hwp (set_hwp_server_fd fd);;
      '(r, fds) ← on_shared (on_hm register_with_monitor_thread);
      put_hwp (fun h => set_hwp_pipe_fds (default (hwp_pipe_fds h) fds) h);;
      if r <? 0 then hwp_server_close else mret tt
  end.

(** [created]: whether [pthread_create] succeeds. *)
Definition hwp_server_start (created : bool) : M (hworld D) Z :=
  put_hwp (set_hwp_server_running true);;
  mret (if created then 1 else 0).

Definition hwp_server_stop : M (hworld D) Z :=
  put_hwp (set_hwp_server_running false);;
  hwp_server_close;;
  mret 1.

(** * Characters *)

Definition put_hwp_rsp_char (c : Z) : M (hworld D) unit :=
  fd ← get_hwp hwp_client_fd;
  if fd =? -1 then mret tt else
  results ← gets (fun w => writes (peer w));
  let '(ok, results) := write_loop results in
  modify (upd_peer (set_writes results));;
  if (ok : bool) then modify (upd_peer (send_char c)) else hwp_client_close.

Definition get_hwp_rsp_char : M (hworld D) Z :=
  fd ← get_hwp hwp_client_fd;
  if fd =? -1 then mret (-1) else
  results ← gets (fun w => reads (peer w));
  '(c, results) ← lift (read_loop results);
  modify (upd_peer (set_reads results));;
  match c with
  | Some c => mret c
  | None => hwp_client_close;; mret (-1)
  end.

(** * Packets *)

Fixpoint hwp_put_body (data : list Z) (checksum : Z) : M (hworld D) Z :=
  match data with
  | [] => mret checksum
  | ch :: data =>
      if escaped ch then
        put_hwp_rsp_char 125;;
        put_hwp_rsp_char (ch .^ 0x20);;
        hwp_put_body data (u8 (u8 (checksum + 125) + (ch .^ 0x20)))
      else
        put_hwp_rsp_char ch;;
        hwp_put_body data (u8 (checksum + ch))
  end.

Definition hwp_put_frame (data : list Z) : M (hworld D) unit :=
  put_hwp_rsp_char 36;;
  checksum ← hwp_put_body data 0;
  put_hwp_rsp_char 35;;
  put_hwp_rsp_char (hexchar (Z.shiftr checksum 4));;
  put_hwp_rsp_char (hexchar (checksum mod 16)).

Fixpoint hwp_put_packet_loop (fuel : nat) (data : list Z) : M (hworld D) unit :=
  match fuel with
  | O => lift Hang
  | S fuel =>
      hwp_put_frame data;;
      ch ← get_hwp_rsp_char;
      if ch =? -1 then mret tt else
      if ch =? 43 then mret tt else hwp_put_packet_loop fuel data
  end.

Definition hwp_put_packet (data : list Z) : M (hworld D) unit :=
  results ← gets (fun w => reads (peer w));
  hwp_put_packet_loop (S (List.length results)) data.

Definition hwp_put_str_packet (str : string) : M (hworld D) unit :=
  hwp_put_packet (take (Z.to_nat (HWP_BUF_MAX - 1)) (bytes str)).

(** [buf.data[i] = c] *)
Definition hwp_put_buf (i c : Z) : M (hworld D) unit :=
  if (0 <=? i) && (i <? HWP_BUF_MAX) then
    put_hwp (fun h => set_hwp_buf (<[Z.to_nat i := c]> (hwp_data h)) (hwp_len h) h)
  else lift Undef.

(** Waiting for the start of a packet: 36, or -1 for the end of the connection. *)
Fixpoint hwp_wait_start (fuel : nat) : M (hworld D) Z :=
  match fuel with
  | O => lift Hang
  | S fuel =>
      ch ← get_hwp_rsp_char;
      if (ch =? 36) || (ch =? -1) then mret ch else hwp_wait_start fuel
  end.

Fixpoint hwp_get_body (fuel : nat) (ch checksum count : Z) : M (hworld D) (Z * Z * Z) :=
  match fuel with
  | O => lift Hang
  | S fuel =>
      if count <? HWP_BUF_MAX - 1 then
        ch ← get_hwp_rsp_char;
        if ch =? -1 then mret (ch, checksum, count) else
        if ch =? 36 then hwp_get_body fuel ch 0 0 else
        if ch =? 35 then mret (ch, checksum, count) else
        hwp_put_buf count ch;;
        hwp_get_body fuel ch (u8 (checksum + ch)) (count + 1)
      else mret (ch, checksum, count)
  end.

Definition hwp_get_checksum (checksum : Z) : M (hworld D) attempt :=
  ch ← get_hwp_rsp_char;
  if ch =? -1 then mret NoPacket else
  xmitcsum ← lift (shl_int (hex ch) 4);
  let xmitcsum := u8 xmitcsum in
  ch ← get_hwp_rsp_char;
  if ch =? -1 then mret NoPacket else
  if negb (checksum =? u8 (xmitcsum + hex ch)) then put_hwp_rsp_char 45;; mret Again
  else put_hwp_rsp_char 43;; mret Packet.

Definition hwp_get_attempt (fuel : nat) : M (hworld D) attempt :=
  ch ← hwp_wait_start fuel;
  if ch =? -1 then mret NoPacket else
  '(ch, checksum, count) ← hwp_get_body fuel ch 0 0;
  if ch =? -1 then mret NoPacket else
  hwp_put_buf count 0;;
  put_hwp (fun h => set_hwp_buf (hwp_data h) count h);;
  if ch =? 35 then hwp_get_checksum checksum else mret Again.

Fixpoint hwp_get_packet_loop (fuel : nat) : M (hworld D) bool :=
  match fuel with
  | O => lift Hang
  | S fuel =>
      results ← gets (fun w => reads (peer w));
      r ← hwp_get_attempt (S (List.length results));
      match r with
      | NoPacket => mret false
      | Packet => mret true
      | Again => hwp_get_packet_loop fuel
      end
  end.

Definition hwp_get_packet : M (hworld D) bool :=
  results ← gets (fun w => reads (peer w));
  hwp_get_packet_loop (S (List.length results)).

(** * Requests *)

Definition hwp_command : M (hworld D) (list Z) := get_hwp (fun h => cstr (hwp_data h)).

(** The text is put into the buffer of the request, and sent from there. *)
Definition hwp_put_reg (val : Z) : M (hworld D) unit :=
  put_hwp (fun h => set_hwp_buf (list_inserts 0 (reg2hex val ++ [0]) (hwp_data h)) (hwp_len h) h);;
  put_hwp (fun h => set_hwp_buf (hwp_data h) (Z.of_nat (List.length (cstr (hwp_data h)))) h);;
  data ← get_hwp (fun h => take (Z.to_nat (hwp_len h)) (hwp_data h));
  hwp_put_packet data.

Definition hwp_read_reg : M (hworld D) unit :=
  cmd ← hwp_command;
  scanned ← lift (sscanf cmd (lits "p" ++ [pct_x]));
  match scanned with
  | [Num regnum] =>
      cached ← get_hwp use_cached_dmr2;
      dmr2 ← get_hwp cached_dmr2;
      '(errcode, tmp) ← (if (regnum =? SPR_DMR2) && cached then mret (APP_ERR_NONE, Some dmr2)
                         else on_shared (read_spr regnum None));
      if errcode =? APP_ERR_NONE then hwp_put_reg (value tmp) else hwp_put_str_packet "E01"
  | _ => hwp_put_str_packet "E01"
  end.

(** The table is changed whether the write has succeeded or not. *)
Definition hwp_write_reg : M (hworld D) unit :=
  cmd ← hwp_command;
  scanned ← lift (sscanf cmd (lits "P" ++ [pct_x] ++ lits "=" ++ [Word 8]));
  match scanned with
  | [Num regnum; Text s] =>
      let val := u32 (hex2reg (valstr s)) in
      errcode ← on_shared (write_spr regnum val);
      hwp_put_str_packet (if errcode =? APP_ERR_NONE then "OK" else "E01");;
      put_in_use (mark_watchpoint regnum val)
  | _ => hwp_put_str_packet "E01"
  end.

(** The program counter is an index into the digits. *)
Definition hwp_report_stop : M (hworld D) unit :=
  '(_, ppcval) ← on_shared (read_spr SPR_PPC None);
  c1 ← lift (load_word (hexchars ++ [0]) (Z.shiftr (value ppcval) 4));
  c2 ← lift (load_word (hexchars ++ [0]) (value ppcval mod 16));
  hwp_put_packet (cstr [83; c1; c2; 0]).

Definition hwp_report_run : M (hworld D) unit := hwp_put_packet (bytes "RUN").

(** ? (63), p (112) and P (80) *)
Definition hwp_client_request : M (hworld D) unit :=
  packet ← hwp_get_packet;
  if negb packet then hwp_client_close else
  data ← get_hwp hwp_data;
  match head data with
  | Some 63 => running ← get_hwp hwp_target_is_running; if (running : bool) then hwp_report_run else hwp_report_stop
  | Some 112 => hwp_read_reg
  | Some 80 => hwp_write_reg
  | _ => mret tt
  end.

(** * The thread *)

Definition hwp_accept (accepted : option (Z * gdb_t)) : M (hworld D) unit :=
  match accepted with
  | None => put_hwp (set_hwp_client_fd (-1))
  | Some (fd, g) =>
      put_hwp (set_hwp_client_fd fd);;
      modify (upd_peer (fun _ => g));;
      put_hwp (set_use_cached_dmr2 false)
  end.

(** What [select] returns: an error, or which of the pipe of the monitor and the client
    are ready; there is no timeout. *)
Inductive hwp_select := HwpError | HwpReady (pipe client : bool).

(** H (72): the target has stopped; R (82): it runs. *)
Definition hwp_monitor_event : M (hworld D) unit :=
  fds ← get_hwp hwp_pipe_fds;
  cmd ← on_shared (on_hm (read_pipe fds.2));
  match cmd with
  | Some 72 => put_hwp (set_hwp_target_is_running false)
  | Some 82 => put_hwp (set_hwp_target_is_running true);; put_hwp (set_use_cached_dmr2 false)
  | _ => mret tt
  end.

Definition hwp_pass (selected : hwp_select) : M (hworld D) unit :=
  match selected with
  | HwpReady pipe client =>
      (if (pipe : bool) then hwp_monitor_event else mret tt);;
      (if (client : bool) then hwp_client_request else mret tt)
  | HwpError => mret tt
  end.

(** One turn of the loops: what [accept] returns where there is no client, what [select]
    returns where there is one. *)
Record hwp_event := HwpEvent { hwp_accepted : option (Z * gdb_t); hwp_selected : hwp_select }.

Definition hwp_iteration (e : hwp_event) : M (hworld D) unit :=
  fd ← get_hwp hwp_client_fd;
  if fd =? -1 then hwp_accept (hwp_accepted e) else hwp_pass (hwp_selected e).

(** The thread over a sequence of events, for as long as the server runs. *)
Fixpoint hwp_server (events : list hwp_event) : M (hworld D) unit :=
  running ← get_hwp hwp_server_running;
  if negb running then hwp_client_close else
  match events with
  | [] => mret tt
  | e :: events => hwp_iteration e;; hwp_server events
  end.
End hwp.
