(* ===== verification/HwpProps.v ===== *)
(** The properties of the watchpoint server: its packets are those of the GDB server, what
    its requests do to the registers and to the table of watchpoints, and who has each of
    them.

    [tracks] relates a command of this server to one of the GDB server: as long as the
    client stays connected they do the same to it, and nothing else. *)

From Stdlib Require Import String.
From S2P Require Import Prelude Scanf StateM Tap Cable Chain AdvDbg RspData RspCodec DebugUnit HwMonitor Rsp RspFacts MonitorFacts.
From S2P Require Import RspPacket RspCmds RspCmdFacts HwpServer.
From stdpp Require Import gmap list.

Open Scope Z_scope.
Open Scope cword_scope.

(** The next command of the server. *)
Ltac hwp_pure :=
  cbv beta iota;
  lazymatch goal with
  | |- wp (get_hwp _) _ _ => apply wp_gets
  | |- wp (put_hwp _) _ _ => apply wp_modify
  | |- _ => wp_pure
  end.

Section tracks.
Context `{Target, Alloc, Unspecified} {D : Type} `{DebugUnit D}.
Implicit Types (w : hworld D) (v : world D).

Definition fd_of v : Z := client_fd (rsp v).
Definition alike w v : Prop := fd_of v = hwp_client_fd (hwp w) /\ gdb v = peer w.
Definition with_peer (g : gdb_t) w : hworld D := HWorld (hwp w) g (shared w).

Definition tracks {A} (mh : M (hworld D) A) (mr : M (world D) A) : Prop := forall w v, alike w v ->
  match mr v with
  | Ok (a, v') => (fd_of v' = fd_of v \/ fd_of v' = -1) /\ (fd_of v' <> -1 -> mh w = Ok (a, with_peer (gdb v') w))
  | _ => True
  end.

Lemma alike_with_peer w v : alike w v -> with_peer (gdb v) w = w.
Proof. intros [_ E]. destruct w. cbn in *. unfold with_peer. cbn. by rewrite E. Qed.

Lemma tracks_ret {A} (a : A) : tracks (mret a) (mret a).
Proof. intros w v Hv. split; [by left|]. intros _. by rewrite alike_with_peer. Qed.

Lemma tracks_bind {A B} (mh : M (hworld D) A) mr (fh : A -> M (hworld D) B) fr :
  tracks mh mr -> (forall a, tracks (fh a) (fr a)) -> tracks (mh ≫= fh) (mr ≫= fr).
Proof.
  intros Hm Hf w v Hv. specialize (Hm w v Hv). unfold mbind, M_bind. destruct (mr v) as [[a v1]| | |]; [|done..].
  destruct Hm as [Hfd Hm]. destruct (decide (fd_of v1 = -1)) as [E|E].
  - set (w1 := HWorld (set_hwp_client_fd (-1) (hwp w)) (gdb v1) (shared w)).
    specialize (Hf a w1 v1 (conj E eq_refl)). destruct (fr a v1) as [[b v2]| | |]; [|done..].
    destruct Hf as [[Hf|Hf] _]; (split; [right; congruence|intros ?; congruence]).
  - destruct Hfd as [Hfd|]; [|done]. rewrite (Hm E). clear Hm.
    assert (alike (with_peer (gdb v1) w) v1) as Hv1 by (split; [|done]; destruct Hv as [Hv _]; cbn; congruence).
    specialize (Hf a _ _ Hv1). destruct (fr a v1) as [[b v2]| | |]; [|done..].
    rewrite <- Hfd. exact Hf.
Qed.

(** What both read of the client. *)
Lemma tracks_gets {A B} (f : gdb_t -> A) (fh : A -> M (hworld D) B) fr :
  (forall a, tracks (fh a) (fr a)) ->
  tracks (a ← gets (fun w => f (peer w)); fh a) (a ← gets (fun v => f (gdb v)); fr a).
Proof. intros Hf w v Hv. destruct Hv as [Hv1 Hv2] eqn:E. unfold mbind, M_bind, gets. rewrite Hv2. by apply Hf. Qed.

Lemma tracks_if {A} (b : bool) (m1 m2 : M (hworld D) A) n1 n2 :
  tracks m1 n1 -> tracks m2 n2 -> tracks (if b then m1 else m2) (if b then n1 else n2).
Proof. by destruct b. Qed.

Lemma tracks_close : tracks hwp_client_close rsp_client_close.
Proof.
  intros w v _. destruct (rsp_client_close v) as [[[] v']| | |] eqn:E; [|done..].
  apply client_close_fd in E. split; [by right|]. unfold fd_of. cbn in E. by intros ?.
Qed.

Lemma tracks_fd {B} (fh : Z -> M (hworld D) B) fr : (forall fd, tracks (fh fd) (fr fd)) ->
  tracks (fd ← get_hwp hwp_client_fd; fh fd) (fd ← get client_fd; fr fd).
Proof.
  intros Hf w v Hv. pose proof Hv as [E _]. unfold fd_of in E.
  change ((fd ← get client_fd; fr fd) v) with (fr (client_fd (rsp v)) v).
  change ((fd ← get_hwp hwp_client_fd; fh fd) w) with (fh (hwp_client_fd (hwp w)) w). rewrite <- E. by apply Hf.
Qed.

Lemma tracks_modify f : tracks (modify (upd_peer f)) (modify (upd_gdb f)).
Proof. intros w v [E1 E2]. split; [by left|]. intros _. unfold modify, upd_peer, with_peer. cbn. by rewrite E2. Qed.

Lemma tracks_lift {A} (o : outcome A) : tracks (lift o) (lift o).
Proof. intros w v Hv. destruct o; [|done..]. by apply tracks_ret. Qed.

(** ** Characters and packets *)

Lemma tracks_put_char c : tracks (put_hwp_rsp_char c) (put_rsp_char c).
Proof.
  apply tracks_fd. intros fd. apply tracks_if; [apply tracks_ret|]. apply tracks_gets. intros results.
  destruct (write_loop results) as [ok results']. apply tracks_bind; [apply tracks_modify|]. intros _.
  apply tracks_if; [apply tracks_modify|apply tracks_close].
Qed.

Lemma tracks_get_char : tracks get_hwp_rsp_char get_rsp_char.
Proof.
  apply tracks_fd. intros fd. apply tracks_if; [apply tracks_ret|]. apply tracks_gets. intros results.
  apply tracks_bind; [apply tracks_lift|]. intros [c results']. apply tracks_bind; [apply tracks_modify|]. intros _.
  destruct c as [c|]; [apply tracks_ret|]. apply tracks_bind; [apply tracks_close|]. intros _. apply tracks_ret.
Qed.

Lemma tracks_put_body data cs : tracks (hwp_put_body data cs) (put_body data cs).
Proof.
  revert cs. induction data as [|c data IH]; intros cs; [apply tracks_ret|]. cbn [hwp_put_body put_body].
  apply tracks_if; repeat (apply tracks_bind; [apply tracks_put_char|intros _]); apply IH.
Qed.

Lemma tracks_put_frame data : tracks (hwp_put_frame data) (put_frame data).
Proof.
  apply tracks_bind; [apply tracks_put_char|]. intros _. apply tracks_bind; [apply tracks_put_body|]. intros cs.
  repeat (apply tracks_bind; [apply tracks_put_char|intros _]). apply tracks_put_char.
Qed.

Lemma tracks_put_packet data : tracks (hwp_put_packet data) (put_packet data).
Proof.
  apply tracks_gets. intros results. generalize (S (length results)) as fuel.
  induction fuel as [|fuel IH]; [by apply tracks_lift|]. cbn [hwp_put_packet_loop put_packet_loop].
  apply tracks_bind; [apply tracks_put_frame|]. intros _. apply tracks_bind; [apply tracks_get_char|]. intros ch.
  apply tracks_if; [apply tracks_ret|]. by apply tracks_if; [apply tracks_ret|].
Qed.

(** A state of the GDB server with the same client. *)
Definition counterpart w : world D := upd_gdb (fun _ => peer w) (upd_rsp (set_client_fd (hwp_client_fd (hwp w))) (shared w)).

Lemma tracks_wp {A} (mh : M (hworld D) A) mr (Q : A -> world D -> Prop) w :
  tracks mh mr -> wp mr (fun a v' => Q a v' /\ fd_of v' <> -1) (counterpart w) ->
  wp mh (fun a w' => exists v', w' = with_peer (gdb v') w /\ Q a v') w.
Proof.
  intros Ht (a & v' & E & HQ & Hfd). specialize (Ht w (counterpart w)). rewrite E in Ht. destruct Ht as [_ Ht]; [done|].
  exists a, (with_peer (gdb v') w). split; [by apply Ht|]. by exists v'.
Qed.

(** ** Replies *)

Definition hwp_connected w : Prop := hwp_client_fd (hwp w) <> -1 /\ writes_ok (writes (peer w)).

(** The results [r] of read are used, [s] is sent, and nothing else happens. *)
Record told (r : list read_result) (s : list Z) w w' : Prop := Told {
  told_hwp : hwp w' = hwp w;
  told_shared : shared w' = shared w;
  told_reads : reads (peer w) = r ++ reads (peer w');
  told_sent : sent (peer w') = sent (peer w) ++ s;
  told_writes : writes_ok (writes (peer w'))
}.

Lemma wp_hwp_put_packet data rs rest w :
  hwp_connected w -> Forall is_u8 data -> delivers [43] rs -> reads (peer w) = rs ++ rest ->
  wp (hwp_put_packet data) (fun _ w' => told rs (frame data) w w') w.
Proof.
  intros Hc Hd Hrs Hr. eapply wp_mono.
  { apply (tracks_wp _ _ (fun _ v' => talks rs (frame data) (counterpart w) v') w (tracks_put_packet data)).
    eapply wp_mono; [apply (wp_put_packet data [] rs rest); try done|].
    intros ? v' T. cbn [length replicate concat] in T. rewrite app_nil_r in T. split; [done|].
    unfold fd_of. rewrite (talks_rsp _ _ _ _ T). apply Hc. }
  intros _ w' (v' & -> & T). destruct T as [A1 A2 A3 A4 A5 A6 A7 A8]. by split.
Qed.
End tracks.

(** * Requests *)

Section requests.
Context `{Target, Alloc, Unspecified} {D : Type} `{DebugUnit D} `{!DebugLaws D}.
Implicit Types w : hworld D.

(** The buffer of the server holds a request. *)
Definition hwp_requested (s : list Z) w : Prop :=
  length (hwp_data (hwp w)) = Z.to_nat HWP_BUF_MAX /\ exists tail, hwp_data (hwp w) = s ++ 0 :: tail.

Definition unit_at w : D := target (shared w).

Lemma wp_on_shared {A} (f : M (world D) A) (Q : A -> hworld D -> Prop) w :
  wp f (fun a s => Q a (HWorld (hwp w) (peer w) s)) (shared w) -> wp (on_shared f) Q w.
Proof. intros (a & s & E & HQ). exists a, (HWorld (hwp w) (peer w) s). split; [|done]. unfold on_shared. by rewrite E. Qed.

Lemma hworld_eta w : HWorld (hwp w) (peer w) (shared w) = w.
Proof. by destruct w. Qed.

Lemma wp_hwp_command s (Q : list Z -> hworld D -> Prop) w :
  plain_text s -> hwp_requested s w -> Q s w -> wp hwp_command Q w.
Proof. intros Hs (_ & tail & Hb) HQ. unfold hwp_command. hwp_pure. by rewrite Hb, plain_cstr. Qed.

(** A register is put into the buffer, and sent from it. *)
Lemma wp_hwp_put_reg val rs rest w :
  hwp_connected w -> length (hwp_data (hwp w)) = Z.to_nat HWP_BUF_MAX -> delivers [43] rs -> reads (peer w) = rs ++ rest ->
  wp (hwp_put_reg val) (fun _ w' => shared w' = shared w /\ hwp_client_fd (hwp w') = hwp_client_fd (hwp w)
    /\ reads (peer w') = rest /\ sent (peer w') = sent (peer w) ++ frame (reg2hex val)) w.
Proof.
  intros Hc Hb Hrs Hr. unfold hwp_put_reg. hwp_pure. hwp_pure. hwp_pure. hwp_pure. hwp_pure. hwp_pure.
  cbn [hwp_data hwp_len upd_hwp_t set_hwp_buf hwp].
  assert (exists tail, list_inserts 0 (reg2hex val ++ [0]) (hwp_data (hwp w)) = reg2hex val ++ 0 :: tail) as [tail Et].
  { eexists. rewrite inserts_start by (rewrite Hb, length_app; done || (vm_compute; lia)). by rewrite <- app_assoc. }
  rewrite Et, plain_cstr by apply digits_plain, digits_reg2hex. rewrite Nat2Z.id, take_app_length.
  eapply wp_mono.
  { apply (wp_hwp_put_packet _ rs rest); [exact Hc| |done|done].
    eapply Forall_impl; [apply digits_plain, digits_reg2hex|]. by intros c (? & _). }
  intros [] w' [A1 A2 A3 A4 A5]. cbn in *. split; [done|]. split; [by rewrite A1|]. split; [|done].
  rewrite Hr in A3. by apply app_inv_head in A3.
Qed.

Lemma wp_hwp_put_str s rs rest w :
  hwp_connected w -> delivers [43] rs -> reads (peer w) = rs ++ rest ->
  wp (hwp_put_str_packet s) (fun _ w' => told rs (frame (take (Z.to_nat (HWP_BUF_MAX - 1)) (bytes s))) w w') w.
Proof. intros Hc Hrs Hr. apply (wp_hwp_put_packet _ rs rest); [done| |done|done]. apply Forall_take, bytes_u8. Qed.

Lemma wp_hwp_read_reg ds n rs rest w :
  hwp_connected w -> gdb_number ds n -> use_cached_dmr2 (hwp w) = false ->
  hwp_requested (112 :: ds) w -> delivers [43] rs -> reads (peer w) = rs ++ rest ->
  wp hwp_read_reg (fun _ w' => shared w' = shared w /\ hwp_client_fd (hwp w') = hwp_client_fd (hwp w)
    /\ reads (peer w') = rest /\ sent (peer w') = sent (peer w) ++ frame (reg2hex (spr (unit_at w) n))) w.
Proof.
  intros Hc Hd Hcache Hreq Hrs Hr. unfold hwp_read_reg. hwp_pure.
  pose proof (reg_request_plain 112 ds n [] ltac:(done) Hd ltac:(constructor)) as Hp. rewrite app_nil_r in Hp.
  apply (wp_hwp_command _ _ _ Hp Hreq). hwp_pure. eapply wp_lift.
  { change (lits "p" ++ [pct_x]) with [Lit 112; pct_x]. rewrite sscanf_lit, <- (app_nil_r ds).
    rewrite (sscanf_pct_x ds n) by (try done; by destruct Hd as (? & _ & ?)). done. }
  cbv beta iota zeta. hwp_pure. hwp_pure. hwp_pure. hwp_pure. rewrite Hcache, andb_false_r.
  hwp_pure. apply wp_on_shared, wp_read_spr. cbv beta iota.
  rewrite hworld_eta. change (value (Some ?x)) with x. apply (wp_hwp_put_reg _ rs rest); [done|by destruct Hreq|done|done].
Qed.

Lemma wp_hwp_write_reg (long : 4 <= long_size) ds n v rs rest w :
  hwp_connected w -> gdb_number ds n -> n <> SPR_NPC -> is_u32 v ->
  hwp_requested (80 :: ds ++ 61 :: reg2hex v) w -> delivers [43] rs -> reads (peer w) = rs ++ rest ->
  wp hwp_write_reg (fun _ w' => hwp w' = hwp w /\ reads (peer w') = rest
    /\ sent (peer w') = sent (peer w) ++ frame (bytes "OK") /\ writes_ok (writes (peer w'))
    /\ rsp (shared w') = rsp (shared w) /\ gdb (shared w') = gdb (shared w)
    /\ hwp_in_use (shared w') = mark_watchpoint n v (hwp_in_use (shared w))
    /\ (forall a, spr (unit_at w') a = if a =? n then store_spr D n (spr (unit_at w) n) v else spr (unit_at w) a)
    /\ (forall a, mem (unit_at w') a = mem (unit_at w) a)) w.
Proof.
  intros Hc Hd Hn Hv Hreq Hrs Hr. unfold hwp_write_reg. hwp_pure.
  assert (plain_text (80 :: ds ++ 61 :: reg2hex v)) as Hp.
  { apply (reg_request_plain 80 ds n); [done|done|]. constructor; [done|]. apply digits_plain, digits_reg2hex. }
  apply (wp_hwp_command _ _ _ Hp Hreq). hwp_pure. eapply wp_lift.
  { change (lits "P" ++ [pct_x] ++ lits "=" ++ [Word 8]) with [Lit 80; pct_x; Lit 61; Word 8].
    rewrite sscanf_lit, (sscanf_pct_x ds n) by (destruct Hd as (? & _ & ?); try done; by apply ends_comma).
    rewrite sscanf_lit, <- (app_nil_r (reg2hex v)), (sscanf_word 7); [done| |done].
    apply digits_no_space, digits_reg2hex. }
  cbv beta iota zeta. rewrite valstr_reg2hex.
  assert (u32 (hex2reg (reg2hex v)) = v) as ->.
  { rewrite <- (app_nil_r (reg2hex v)), hex2reg_reg2hex by done. by apply wrap_small. }
  hwp_pure. apply wp_on_shared, wp_dbg_write. rewrite (wrap_small 32 v) by done.
  eapply wp_mono; [by apply law_cpu0_write|]. intros r d (-> & Hs & Hm & _). exists 0. split; [done|]. cbv beta iota.
  hwp_pure. set (w1 := HWorld (hwp w) (peer w) (set_target d (shared w))).
  eapply wp_mono; [apply (wp_hwp_put_str "OK" rs rest w1); [exact Hc|done|done]|].
  intros [] w2 [A1 A2 A3 A4 A5]. apply wp_on_shared. hwp_pure. cbn [hwp peer shared upd_hwp rsp gdb hwp_in_use].
  split; [done|]. split. { cbn in A3. rewrite Hr in A3. by apply app_inv_head in A3. }
  split; [done|]. split; [done|]. unfold unit_at. cbn [shared]. rewrite A2. done.
Qed.
End requests.

(** * The table of watchpoints *)

(** Who has a watchpoint. *)
Variant owner := Free | Client | Debugger | Absent.

Definition flag (o : owner) : Z := match o with Free => 0 | _ => 1 end.
Definition flags (os : list owner) : list Z := map flag os.

Fixpoint first_free (os : list owner) : option nat :=
  match os with
  | [] => None
  | Free :: _ => Some O
  | _ :: os => S <$> first_free os
  end.

Lemma flags_insert i o os : <[i := flag o]> (flags os) = flags (<[i := o]> os).
Proof. unfold flags. change (map flag) with (fmap flag (M := list)). by rewrite list_fmap_insert. Qed.

Lemma first_free_some os i : first_free os = Some i ->
  os !! i = Some Free /\ forall j, (j < i)%nat -> exists o, os !! j = Some o /\ flag o = 1.
Proof.
  revert i. induction os as [|o os IH]; intros i; [done|]. cbn [first_free].
  destruct o; [intros [= <-]; split; [done|lia]|..]; (destruct (first_free os) as [k|]; [|done]);
    (intros [= <-]; destruct (IH k eq_refl) as [E Hk]; split; [done|]; intros [|j] Hj; [by eexists|apply Hk; lia]).
Qed.

Lemma first_free_none os j o : first_free os = None -> os !! j = Some o -> flag o = 1.
Proof.
  revert j. induction os as [|x os IH]; intros j; [done|]. cbn [first_free].
  destruct x; [done|..]; (destruct (first_free os) as [k|]; [done|]); (destruct j as [|j]; [by intros _ [= <-]|by apply IH]).
Qed.

Lemma get_available_flags os : Z.of_nat (length os) = HWP_MAX_WP ->
  hwp_get_available_watchpoint (flags os)
  = match first_free os with
    | Some i => (Z.of_nat i, flags (<[i := Debugger]> os))
    | None => (-1, flags os)
    end.
Proof.
  intros Hl. unfold hwp_get_available_watchpoint.
  assert (forall j o, os !! j = Some o -> default 1 (flags os !! j) = flag o) as Hj.
  { intros j o E. unfold flags. change (map flag) with (fmap flag (M := list)). by rewrite list_lookup_fmap, E. }
  destruct (first_free os) as [i|] eqn:Ei.
  - destruct (first_free_some os i Ei) as [E Hlt]. pose proof (lookup_lt_Some _ _ _ E) as Hi.
    rewrite (for_return_first _ (Z.of_nat i) _ (Z.of_nat i)).
    + rewrite Nat2Z.id. f_equal. by rewrite <- flags_insert.
    + lia.
    + rewrite Nat2Z.id. by rewrite (Hj i Free E).
    + intros j Hji. destruct (Hlt (Z.to_nat j)) as (o & Eo & Ho); [lia|]. by rewrite (Hj _ _ Eo), Ho.
  - rewrite for_return_none; [done|]. intros j Hji. destruct (lookup_lt_is_Some_2 os (Z.to_nat j)) as [o Eo]; [lia|].
    by rewrite (Hj _ _ Eo), (first_free_none _ _ _ Ei Eo).
Qed.

(** * Who has a watchpoint *)

(** A client writes a register, the GDB server takes a watchpoint or gives one back. *)
Variant wp_event := ClientWrites (regnum val : Z) | DebuggerTakes | DebuggerReturns (i : Z).

(** What the code does to the table, with the watchpoints that are granted. *)
Definition table_step (e : wp_event) (in_use : list Z) : list Z * list Z :=
  match e with
  | ClientWrites regnum val => ([], mark_watchpoint regnum val in_use)
  | DebuggerTakes => let '(i, in_use) := hwp_get_available_watchpoint in_use in ([i], in_use)
  | DebuggerReturns i => ([], hwp_return_watchpoint i in_use)
  end.

(** And what it is for. *)
Definition owner_step (e : wp_event) (os : list owner) : list Z * list owner :=
  match e with
  | ClientWrites regnum val =>
      ([], if (SPR_DCR 0 <=? regnum) && (regnum <=? SPR_DCR 7) then
             let i := Z.to_nat (regnum - SPR_DCR 0) in
             match os !! i with
             | Some Absent => os
             | _ => <[i := if enables val then Client else Free]> os
             end
           else os)
  | DebuggerTakes =>
      match first_free os with
      | Some i => ([Z.of_nat i], <[i := Debugger]> os)
      | None => ([-1], os)
      end
  | DebuggerReturns i => ([], <[Z.to_nat i := Free]> os)
  end.

(** The client leaves alone what the GDB server has, and switches nothing off that is not
    there; the GDB server gives back what it has. *)
Definition permitted (e : wp_event) (os : list owner) : Prop :=
  match e with
  | ClientWrites regnum val => forall o, SPR_DCR 0 <= regnum <= SPR_DCR 7 ->
      os !! Z.to_nat (regnum - SPR_DCR 0) = Some o -> o = Free \/ o = Client \/ o = Absent /\ enables val = true
  | DebuggerTakes => True
  | DebuggerReturns i => 0 <= i < HWP_MAX_WP /\ os !! Z.to_nat i = Some Debugger
  end.

Fixpoint run_events {S} (step : wp_event -> S -> list Z * S) (es : list wp_event) (s : S) : list Z * S :=
  match es with
  | [] => ([], s)
  | e :: es => let '(g, s) := step e s in let '(gs, s) := run_events step es s in (g ++ gs, s)
  end.

Fixpoint all_permitted (es : list wp_event) (os : list owner) : Prop :=
  match es with
  | [] => True
  | e :: es => permitted e os /\ all_permitted es (owner_step e os).2
  end.

Lemma mark_flags regnum val os : Z.of_nat (length os) = HWP_MAX_WP -> permitted (ClientWrites regnum val) os ->
  mark_watchpoint regnum val (flags os) = flags (owner_step (ClientWrites regnum val) os).2.
Proof.
  intros Hl Hp. unfold mark_watchpoint. cbn [owner_step snd permitted] in *.
  destruct (Z.leb_spec (SPR_DCR 0) regnum), (Z.leb_spec regnum (SPR_DCR 7)); cbn [andb]; try done.
  unfold hwp_set_in_use. destruct (Z.leb_spec 0 (regnum - SPR_DCR 0)); [|lia].
  destruct (Z.ltb_spec (regnum - SPR_DCR 0) HWP_MAX_WP) as [|Hn]; [|unfold SPR_DCR, HWP_MAX_WP in *; lia].
  cbn [andb]. cbv zeta. set (i := Z.to_nat (regnum - SPR_DCR 0)) in *.
  destruct (lookup_lt_is_Some_2 os i) as [o Eo]; [unfold i; lia|]. rewrite Eo.
  specialize (Hp o ltac:(by split) Eo).
  destruct o; [by rewrite <- flags_insert; destruct (enables val)..|].
  destruct Hp as [?|[?|[_ ->]]]; [done..|]. apply list_insert_id. unfold flags.
  change (map ?f ?l) with (f <$> l). by rewrite list_lookup_fmap, Eo.
Qed.

Lemma length_owner_step e os : length (owner_step e os).2 = length os.
Proof.
  destruct e as [regnum val| |i]; cbn [owner_step].
  - destruct (_ && _); [|done]. cbv zeta. destruct (os !! _) as [[]|]; try done; apply length_insert.
  - destruct (first_free os); [apply length_insert|done].
  - apply length_insert.
Qed.

Lemma step_flags e os : Z.of_nat (length os) = HWP_MAX_WP -> permitted e os ->
  table_step e (flags os) = ((owner_step e os).1, flags (owner_step e os).2).
Proof.
  intros Hl Hp. destruct e as [regnum val| |i].
  - cbn [table_step]. by rewrite mark_flags.
  - cbn [table_step]. rewrite get_available_flags by done. cbn [owner_step]. by destruct (first_free os).
  - destruct Hp as [Hi _]. cbn [table_step owner_step fst snd]. unfold hwp_return_watchpoint.
    destruct (Z.leb_spec HWP_MAX_WP i); [lia|]. by rewrite <- flags_insert.
Qed.

Lemma run_flags es os : Z.of_nat (length os) = HWP_MAX_WP -> all_permitted es os ->
  run_events table_step es (flags os) = ((run_events owner_step es os).1, flags (run_events owner_step es os).2).
Proof.
  revert os. induction es as [|e es IH]; intros os Hl Hp; [done|]. destruct Hp as [He Hes]. cbn [run_events].
  rewrite step_flags by done. pose proof (length_owner_step e os) as Hl'. destruct (owner_step e os) as [g os1].
  cbn [fst snd] in *. rewrite IH by (done || by rewrite Hl'). by destruct (run_events owner_step es os1).
Qed.

Section properties.
Context `{Target, Alloc, Unspecified} {D : Type} `{DebugUnit D} `{!DebugLaws D}.
Implicit Types w : hworld D.

(** The watchpoints there are. *)
Definition present (d : D) : list owner :=
  map (fun i => if Z.testbit (spr d (SPR_DCR i)) 0 then Free else Absent) (seqZ 0 HWP_MAX_WP).

Lemma present_lookup (d : D) k : (k < Z.to_nat HWP_MAX_WP)%nat ->
  present d !! k = Some (if Z.testbit (spr d (SPR_DCR (Z.of_nat k))) 0 then Free else Absent).
Proof.
  intros Hk. unfold present. change (map ?f ?l) with (f <$> l). rewrite list_lookup_fmap, lookup_seqZ_lt by lia. done.
Qed.

Lemma mark_next i x os (u : list Z) :
  0 <= i < HWP_MAX_WP -> Z.of_nat (length u) = HWP_MAX_WP -> flag <$> os !! Z.to_nat i = Some x ->
  hwp_set_in_use i x (flags (take (Z.to_nat i) os) ++ drop (Z.to_nat i) u)
  = flags (take (Z.to_nat (i + 1)) os) ++ drop (Z.to_nat (i + 1)) u.
Proof.
  intros Hi Hu Hx. unfold hwp_set_in_use. destruct (Z.leb_spec 0 i), (Z.ltb_spec i HWP_MAX_WP); [|lia..]. cbn [andb].
  replace (Z.to_nat (i + 1)) with (S (Z.to_nat i)) by lia. destruct (os !! Z.to_nat i) as [o|] eqn:E; [|done].
  injection Hx as <-. rewrite (take_S_r _ _ _ E). unfold flags. rewrite map_app, <- app_assoc. cbn [map app].
  assert (length (map flag (take (Z.to_nat i) os)) = Z.to_nat i) as Hl.
  { rewrite length_map, length_take. apply lookup_lt_Some in E. lia. }
  destruct (drop (Z.to_nat i) u) as [|y rest] eqn:Ed.
  { apply (f_equal length) in Ed. rewrite length_drop in Ed. cbn in Ed. lia. }
  rewrite <- Hl at 1. rewrite <- (Nat.add_0_r (length _)), insert_app_r. f_equal. cbn. f_equal.
  replace (S (Z.to_nat i)) with (Z.to_nat i + 1)%nat by lia. by rewrite <- drop_drop, Ed.
Qed.

Lemma wp_hwp_probe w : Z.of_nat (length (hwp_in_use (shared w))) = HWP_MAX_WP ->
  wp hwp_probe (fun _ w' => hwp_in_use (shared w') = flags (present (unit_at w))) w.
Proof.
  intros Hl. unfold hwp_probe. hwp_pure. eapply wp_mono.
  { apply (wp_mfor_upto (fun i _ w' => unit_at w' = unit_at w
      /\ hwp_in_use (shared w') = flags (take (Z.to_nat i) (present (unit_at w))) ++ drop (Z.to_nat i) (hwp_in_use (shared w)))
      HWP_MAX_WP probe_watchpoint None w); [done|done|].
    intros i tmp w1 Hi [Eu Et]. unfold probe_watchpoint. hwp_pure. apply wp_on_shared, wp_read_spr. cbv beta iota.
    rewrite hworld_eta. fold (unit_at w1). hwp_pure. unfold put_in_use. apply wp_on_shared. hwp_pure. hwp_pure.
    split; [exact Eu|]. cbn [shared upd_hwp hwp_in_use]. rewrite Et, Eu. change (0 =? APP_ERR_NONE) with true. cbn [negb].
    change (value (Some ?x)) with x. rewrite status_bit. apply mark_next; [lia|lia|].
    rewrite present_lookup by lia. rewrite Z2Nat.id by lia. by destruct (Z.testbit _ 0). }
  intros x w' [_ E]. hwp_pure. rewrite E.
  rewrite firstn_all2 by (unfold present; rewrite length_map, length_seqZ; lia). rewrite drop_ge by lia. by rewrite app_nil_r.
Qed.


(** C40: The table of watchpoints, which the client of this server and the GDB server share,
    says who may take what: it begins with the watchpoints the processor has, a watchpoint
    is granted to the GDB server only when nobody has it, and it is free again when it is
    given back or its comparison is switched off - as long as each of the two leaves alone
    what the other one has, and the client switches off no watchpoint that is not there.  The
    code checks neither: it takes a write of the client that switches off a watchpoint for its
    return, so that one of the GDB server is granted twice, which the comment at
    hwp_server.c:800 says cannot occur, and one that is not there is granted. *)
Theorem hwp_watchpoints_owned events w :
  Z.of_nat (length (hwp_in_use (shared w))) = HWP_MAX_WP ->
  all_permitted events (present (unit_at w)) ->
  wp hwp_probe (fun _ w' => run_events table_step events (hwp_in_use (shared w'))
    = ((run_events owner_step events (present (unit_at w))).1,
       flags (run_events owner_step events (present (unit_at w))).2)) w.
Proof.
  intros Hl Hp. eapply wp_mono; [by apply wp_hwp_probe|]. intros [] w' ->. apply run_flags; [|done].
  unfold present. by rewrite length_map, length_seqZ.
Qed.

(** The question whether the target has stopped is answered with the program counter, but
    its bits from the fourth on are used as an index into sixteen digits. *)
Theorem hwp_stop_undefined w : 272 <= spr (unit_at w) SPR_PPC -> hwp_report_stop w = Undef.
Proof.
  intros Hp. unfold hwp_report_stop. unfold mbind at 1, M_bind at 1, on_shared, read_spr, dbg, on_hm, on_unit.
  rewrite law_cpu0_read. cbv beta iota zeta. change (value (Some ?x)) with x.
  assert (load_word (hexchars ++ [0]) (Z.shiftr (spr (unit_of (hm (shared w))) SPR_PPC) 4) = Undef) as E.
  { unfold load_word. rewrite Z.shiftr_div_pow2 by done. change (2 ^ 4) with 16. unfold unit_at, target in Hp.
    assert (17 <= spr (unit_of (hm (shared w))) SPR_PPC / 16) by (apply Z.div_le_lower_bound; lia).
    destruct (Z.leb_spec 0 (spr (unit_of (hm (shared w))) SPR_PPC / 16)); [|lia].
    rewrite lookup_ge_None_2; [done|]. change (length (hexchars ++ [0])) with 17%nat. lia. }
  unfold mbind at 1, M_bind at 1, lift at 1. unfold unit_at, target in E. by rewrite E.
Qed.
End properties.

(** A client that switches off a watchpoint of the GDB server: it is granted twice. *)
Example granted_twice :
  (run_events table_step [DebuggerTakes; ClientWrites (SPR_DCR 0) 0; DebuggerTakes] (flags (replicate 8 Free))).1 = [0; 0].
Proof. reflexivity. Qed.

(** One that switches off a watchpoint the processor does not have: it is granted. *)
Example absent_granted :
  (run_events table_step [ClientWrites (SPR_DCR 2) 0; DebuggerTakes] (flags (replicate 8 Absent))).1 = [2].
Proof. reflexivity. Qed.

(** * A board *)

#[local] Instance pc : Target := iso_c.
#[local] Instance memory_enough : Alloc := fun _ => true.
#[local] Instance zero_unspecified : Unspecified := 0.

(** Two watchpoints; a request has come, and the acknowledgment of the reply. *)
Definition two_watchpoints : board := Board (<[SPR_DCR 0 := 1]> (<[SPR_DCR 3 := 1]> ∅)) ∅ true.

Definition scene (request : list Z) : hworld board :=
  HWorld (set_hwp_buf (request ++ 0 :: replicate (255 - length request) 0) (Z.of_nat (length request)) (set_hwp_client_fd 7 initial_hwp))
    (Gdb [Char 43] [] [] [] [])
    (World zero_rsp (Gdb [] [] [] [] []) (replicate 8 1) (initial_hwmon [] two_watchpoints)).

Lemma number_3008 : gdb_number (bytes "3008") 0x3008.
Proof. split; [split; [done|split; [by repeat constructor|done]]|]. split; [by repeat constructor|done]. Qed.


Lemma hwp_watchpoints_owned_witness :
  let events := [ClientWrites (SPR_DCR 0) 0x2f; DebuggerTakes; DebuggerTakes; DebuggerReturns 3; ClientWrites (SPR_DCR 0) 0; DebuggerTakes] in
  wp hwp_probe (fun _ w' => (run_events table_step events (hwp_in_use (shared w'))).1 = [3; -1; 0]) (scene []).
Proof.
  intros events. eapply wp_mono.
  - apply (hwp_watchpoints_owned events (scene [])); [done|].
    vm_compute. repeat split; try discriminate; intros o _ [= <-]; tauto.
  - intros [] w' E. rewrite E. vm_compute. reflexivity.
Defined.
